(* ===== verification/_CoqProject ===== *)
-Q . S2P
Prelude.v
Platform.v
UserCfg.v
Nfd.v
Machine.v
AppPrivate.v
Bus.v
Nbi.v
NbiPc.v
Catamaran.v
CatamaranDefs.v
CatApp.v
Trng.v
Link.v
Bpf.v
StatLayout.v
Stats.v
StatsMem.v
NicLocal.v
Infra.v
Tables.v
ActionList.v
Builders.v
NicTables.v
Veb.v
Cmsg.v
Config.v
ActionParse.v
Frame.v
Lists.v
MacLkup.v
Control.v
Master.v
System.v
Switch.v
Liveness.v
Start.v
Progress.v
Handlers.v
PerQ.v
TmCfg.v
