(* ===== verification/Prelude.v ===== *)
(** * A verification library for the Netronome NIC firmware

    The firmware turns a network processor into a NIC.  Worker engines move the
    packets; they run short lists of actions, one list for each queue of the
    host and each port of the wire, and share tables for VLAN members, RSS and
    the switch between virtual functions.  One engine, the application master,
    writes these lists and tables when the host reconfigures a virtual NIC
    (vNIC), watches the links, and starts and stops the ports.  This
    development models the C code of the master and of the libraries it calls,
    and proves what that code promises to the host and to the workers.

    ** Parts of the program, and the files that model them

    - include/platform.h: [Platform].  The macros of each board as a record,
      and the derived macros (MAC, channels, queues of the traffic
      manager).  [UserCfg]: the sizes that apps/nic/nfd_user_cfg.h chooses.
    - [Nfd]: what the code takes from the NFD and NFP libraries, which are not
      in the repository: flags and offsets of the configuration BAR, numbering
      of the vNICs, mailbox of the virtual functions.  They are type classes
      ([NetCfg], [Vids], [VfCfg]) with the laws the theorems use ([NetCfgOk],
      [VidsOk], [VfCfgOk]); [Upstream] gives values for which the laws hold.
    - [Machine]: the state.  The record [nic] has the memories that the code
      reads and writes (external memory, cluster scratch, next-neighbour
      registers, VLAN tables), the arrays that the contexts of the master share,
      the queue of messages to the switch, and [bus], the accesses to devices so
      far.  A function that touches them is a computation [C A], that is
      [nic -> option (A * nic)]; [None] is undefined behaviour: an index out of
      range, a failed assertion, a halt, or fuel that ran out.
    - apps/nic/app_private.c: [AppPrivate].  Mutex, control words, bit arrays.
    - [Bus]: accesses to devices.  What a device answers is a function of the
      history ([Devices]), so the theorems hold for every device; the ones that
      need an answer name it as a hypothesis, with a device for which it holds.
    - lib/npfw, the tables of the pre-classifier of the NBI: [Nbi] (copies to and
      from the memories), [NbiPc] (a table has two copies, with a register that
      selects the one in use), [Catamaran] (channel-to-port table, MAC match
      table), [CatamaranDefs] (the memory map and the encodings of the other
      tables, from deps/npfw/ppc_api/catamaran_defs.h) and [CatApp] (the tables
      of the ports of the board).
    - apps/nic/trng.c: [Trng], the random number generator.
    - lib/link_state: [Link].  Receiver, flush and queue enables; link states.
    - lib/nic_basic/_c/nic_internal.c: [Bpf].  Loading a BPF program into the
      worker engines, and the epoch handshake.  [NicLocal]: the cache that an
      engine which handles packets in C keeps of the configuration BAR.
    - lib/infra_basic: [Infra].  Packets received, sent and dropped in C.
    - apps/nic/config.h: [TmCfg].  Shapers and queues of the traffic manager.
    - lib/nic_basic/_c/nic_stats.c: [Stats] and [StatsMem], with the layout that
      scripts/nic_stats.awk generates in [StatLayout].  The statistics context
      has a state of its own ([Stats.stats]).
    - apps/nic/app_config_tables.c, which writes what the workers read, in the
      order of the file: [Tables] (next-neighbour tables, RSS table, VXLAN
      ports, VLAN tables of the CTMs, buffer sizes), [ActionList] (the lists and
      the functions that append one action), [Builders] (the lists for each kind
      of vNIC), [Veb] (the entries of the switch, with the messages of
      app_mac_vlan_config_cmsg.c) and [Config] (vNICs up and down).
      [Cmsg]: these messages in memory, as the C code writes them and as the
      microcode of the map engine (maps/cmsg_map.uc) reads them.
      apps/nic/nic_tables.c: [NicTables], members of the VLANs.
    - apps/nic/app_mac_lkup.c: [MacLkup], the bucketed MAC table and its locks.
    - test/lib/action_parse.c: [ActionParse], the checker that the unit tests
      run over the lists which the code above has written.
    - apps/nic/app_control_lib.c: [Control], the handlers of the configuration
      messages.  apps/nic/app_master_main.c: [Master], the rounds of the loops
      that take the messages and watch the links; [Start], [main] and the
      contexts until they reach their loops; [PerQ], the queue statistics.
    - The composition: [Frame] (what each operation may change), [Lists] (the
      slots of the instruction tables, from the words that app_config_instr.h
      loads on), [System] (the contexts and the host take turns), [Switch] (the
      table of the map engine behind that system), [Liveness] and [Progress]
      (every step returns and keeps the lists good), [Handlers] (what a request
      of a vNIC comes to, from the message to the lists of all vNICs).

    A file uses those listed before it in _CoqProject.  [Machine] holds what
    all parts of the master share; [NicLocal], [Infra] and [Stats] model code of
    other engines or contexts and have records of their own, and meet the rest
    only in the external memory.

    Definitions have the names of the C functions; the map of the manifest gives
    the lines of each.  A C function that returns through a pointer returns a
    pair here, a static variable is an argument and a result, and a loop is one
    of the combinators below or a Fixpoint.

    ** What the theorems show

    - Configuration ([Config], [Veb]): a vNIC that comes up has its list in every
      queue and every island, its VLAN membership and its entries in the switch,
      and the other vNICs keep theirs; a vNIC that goes down drops.  The switch
      is specified by a map from keys to owners; the messages that the code
      sends refine the change of that map ([write_veb_correct]), and the table
      of the map engine implements it in every reachable state, with no entry
      left behind and never more entries than fit ([switch_follows_master]).
      These theorems need that no CTM buffer for a message is refused; what
      happens after a refusal is [write_veb_failure_leaks], and a spoofed MAC
      gets no entry even then ([vf_up_no_spoofing]).
    - Action lists ([Builders], [ActionList], [Lists]): each builder returns
      exactly the list that the features of the vNIC ask for, never more than 16
      words; every slot of the loaded tables drops, and in every reachable state
      every slot still drops or holds a whole list that ends with its only final
      action, the same in all islands ([workers_run_complete_lists]).
    - Requests as a whole ([Handlers]): enabling and disabling a virtual function
      and disabling a physical one: the answer, the lists of the vNIC, of PF 0
      and of the port, the recorded control word, and that no other slot changes;
      disabling a PF succeeds exactly if another island uses the vNIC or the MAC
      was seen to stop.
    - Tables ([Tables], [NicTables], [MacLkup]): contents after each update, the
      other entries unchanged; the MAC table behaves as a finite set of keys.
      Its functions are programs of single memory accesses, and under every
      interleaving of engines that run them no two are inside the same bucket.
    - Boards ([Platform], [UserCfg]): the queues of the ports are disjoint, the
      lanes and ports invert each other, all queues fit.
    - Messages ([Control], [Master]): requests beyond the capabilities are
      refused and change nothing; a virtual function cannot come up without its
      PF or take a MAC it was not given; link state bits and status words after
      each handler; a pass over the pending interrupts sends each of them once,
      or keeps it pending, and sends no other.
    - Pre-classifier ([NbiPc], [Catamaran], [CatApp]): a table is written in the
      copy that is not in use first, and both copies end with the data; adding
      and removing a MAC refine insertion into a bucket and deletion from it;
      the table of the ports follows the set of enabled ports; entries can be
      read back, the tables share no line ([CatamaranDefs]) and the load
      balancer selects each combination of its targets equally often.
    - Statistics ([StatLayout], [Stats], [StatsMem]): each counter adds to exactly
      the fields it feeds; the statistics survive from round to round; the host
      finds them in the order of its structures.
    - Queue statistics ([Start], [PerQ]): the rounds push every queue of every
      island in turn, when the workers take their epoch signals.
    - The master as a system ([System], [Liveness], [Progress], [Start]): an
      inductive relation whose steps are writes of the host and whole rounds of
      the two loops.  In every reachable state the mutex is free and the control
      words hold only flags of the capabilities; each message is answered once,
      before the next one is taken; no island is starved, and within 20 rounds
      the status word of every PF is what the MAC was read to say in one round
      ([link_status_refreshed]); the start leads to an initial state; from every reachable
      state every schedule of host writes and rounds can run
      ([every_schedule_runs]), whatever words the host writes.
    - Cache of the BAR ([NicLocal]): after the announced changes are read, the
      cached fields are those of the BAR.
    - Packets ([Infra]): sending is a fixed sequence of accesses with all their
      arguments; the two buffers of a packet of the own island are handed on or
      freed, each once.  For a packet of another island the code gives away a
      buffer of the own one in two cases ([given_island]).
    - Traffic manager ([TmCfg], [Platform]): the queues have buffers where the
      ports have queues, and the shapers of a port cover its rate, on each board.
    - Checker of the unit tests ([ActionParse]): it terminates, and accepts every
      list that the builders write.
    - Devices ([Link], [Bpf]): the receiver is stopped only while the enqueue
      inhibit is in effect, the code store is written only while the engine
      stands still, for every device that answers within a bound.
    - Where the code does not do what it means to, a theorem says exactly what
      it does: names that begin with the operation and end in the effect, such
      as [vf_up_keeps_old_vlan] or [remove_vlan_member_misplaces_min_rxb].

    ** Bounds and fuel

    The loops of the code that wait for a device ([poll_inhibit_done],
    [quiesce], [wait_epoch], [trng_rd64]), for a buffer ([ctm_alloc_loop] and
    [blm_alloc_loop], the [goto retry] of the messages to the switch) or for a
    lock ([mac_lkup_tbl_bucket_wait]) take fuel: the number of tries.  Theorems
    about them assume that the device answers after [lat] polls and that the
    fuel exceeds [lat], or that an MU buffer comes within [blm_fuel] tries
    ([blm_answers]), and conclude that the function returns; the code itself
    would wait for ever.  A CTM buffer may be refused at any time: the code
    returns an error then, and only theorems that name [ctm_alloc_ok] exclude
    it.  The checker of lists runs with 17 units of fuel, one more than a list
    has words, and [parse_loop_total] shows that it never needs more.  The
    infinite loops of the contexts are given by their rounds; the remaining
    loops run over a finite list.
    A local variable that the code reads before it assigns it is a parameter
    that depends on the state ([stale_tx_wire], [stale_new_vlan_id],
    [stale_lmem0]): nothing is assumed of its value, so that the spare bits of
    a TX_WIRE action are existentially quantified in the theorems about lists.
    Integers are [Z]; every store into an object of n bits is wrapped with
    [wrap n], and arithmetic on 32-bit values is wrapped where it can overflow.

    ** What is not modelled

    A step of [System] is a whole round of a loop: what the other contexts do
    while a round waits is not part of it, except that the mutex of the MAC
    registers must be free when it is taken.  Only [MacLkup] interleaves single
    accesses.  Assumptions on the devices and on what the host announces are
    collected in the class [Answers] of [Progress]: the MAC and the worker
    engines answer within [lat] polls, messages name vNICs that exist, and the
    entry of a VF in the mailbox holds a MAC.  The statistics contexts have
    states of their own and are no part of [System].  The map engine is seen
    from its interface only: a request changes a finite map.

    Outside the scope: the data path of the workers, which is microcode; the
    constants for the buffer manager in blm_custom.h and nbi_pm.h, the rings and
    sequencers that config.h sets up by linker directives; the replies of the
    map engine in cmsg_map_types.h, which only the driver of the host reads; the
    packet layouts of protocols.h, which only the microcode reads, and the
    declarations of headers that no C code of the repository uses (nic.h,
    pcie_desc.h) or that declare functions modelled here (nic_basic.h); the
    Python and shell tools.

    ** Conventions

    This file has the notations and lemmas that all parts share: integers of a
    width and bit-fields, the monad with its rules ([returns], loop rules) and
    the tactics: [zbits] proves equalities of bit expressions, [runs] executes
    reads and writes, [st] computes the fields of an updated record.  Each
    component file has its definitions first, then a section of properties; a
    class with suffix [Ok] states laws of a parameter.  Lemmas whose name ends
    in [_witness] apply a theorem at a concrete input. *)

From stdpp Require Export base tactics numbers list gmap option.
From coqutil Require Export Datatypes.RecordSetters.
Export TriangleBracketNotations.

#[global] Open Scope Z_scope.

(** * Machine integers *)

(** The C types are unsigned integers of a fixed width: a value of width [n]
    is a [Z] in [0, 2^n), and every store into an [n]-bit object goes through
    [wrap n]. *)
Definition wrap (n x : Z) : Z := x mod 2 ^ n.

Abbreviation u8 := (wrap 8).
Abbreviation u16 := (wrap 16).
Abbreviation u32 := (wrap 32).
Abbreviation u64 := (wrap 64).

(** [x] is a value of an [n]-bit unsigned type. *)
Definition fits (n x : Z) : Prop := 0 <= x < 2 ^ n.

(** C truth values. *)
Definition truthy (x : Z) : bool := negb (x =? 0).
Definition b2z (b : bool) : Z := if b then 1 else 0.

Lemma truthy_b2z b : truthy (b2z b) = b.
Proof. by destruct b. Qed.

(** [a & b] as a C condition. *)
Definition has (a b : Z) : bool := truthy (Z.land a b).

(** Bit-fields: [bf_get lo n w] reads the [n] bits of [w] from bit [lo] up,
    [bf_set lo n v w] stores [v] (truncated to [n] bits) there. *)
Definition bf_get (lo n w : Z) : Z := wrap n (Z.shiftr w lo).
Definition bf_set (lo n v w : Z) : Z :=
  Z.lor (Z.ldiff w (Z.shiftl (Z.ones n) lo)) (Z.shiftl (wrap n v) lo).

Create Rewrite HintDb zbits.
Create HintDb nic.
Create Rewrite HintDb nic.

Lemma testbit_shiftl a n m :
  Z.testbit (Z.shiftl a n) m = (0 <=? m) && Z.testbit a (m - n).
Proof.
  destruct (Z.leb_spec 0 m); simpl; [by apply Z.shiftl_spec|].
  by rewrite Z.testbit_neg_r.
Qed.

Lemma testbit_shiftr a n m :
  Z.testbit (Z.shiftr a n) m = (0 <=? m) && Z.testbit a (m + n).
Proof.
  destruct (Z.leb_spec 0 m); simpl; [by apply Z.shiftr_spec|].
  by rewrite Z.testbit_neg_r.
Qed.

Lemma testbit_lnot a m :
  Z.testbit (Z.lnot a) m = (0 <=? m) && negb (Z.testbit a m).
Proof.
  destruct (Z.leb_spec 0 m); simpl; [by apply Z.lnot_spec|].
  by rewrite Z.testbit_neg_r.
Qed.

Lemma testbit_wrap n x i :
  0 <= n -> Z.testbit (wrap n x) i = (i <? n) && Z.testbit x i.
Proof. apply Z.testbit_mod_pow2. Qed.

(** One bit as a C value, and as a test against a mask of one bit. *)
Lemma land_shiftr_1 x i : 0 <= i -> Z.land (Z.shiftr x i) 1 = b2z (Z.testbit x i).
Proof.
  intros Hi. change 1 with (Z.ones 1) at 1. rewrite Z.land_ones by lia. change (2 ^ 1) with 2.
  rewrite <- Z.bit0_mod, Z.shiftr_spec, Z.add_0_l by lia. done.
Qed.

Lemma has_lor x y m : has (Z.lor x y) m = has x m || has y m.
Proof.
  unfold has, truthy. rewrite Z.land_lor_distr_l, <- negb_andb. f_equal.
  apply eq_true_iff_eq. rewrite andb_true_iff, !Z.eqb_eq. apply Z.lor_eq_0_iff.
Qed.

Lemma has_pow2 m i : 0 <= i -> has m (Z.shiftl 1 i) = Z.testbit m i.
Proof.
  intros Hi. unfold has, truthy. rewrite Z.shiftl_1_l.
  destruct (Z.testbit m i) eqn:Hb.
  - apply negb_true_iff, Z.eqb_neq. intros H0. apply (f_equal (fun x => Z.testbit x i)) in H0.
    by rewrite Z.land_spec, Hb, Z.pow2_bits_true, Z.testbit_0_l in H0 by done.
  - apply negb_false_iff, Z.eqb_eq. apply Z.bits_inj'. intros j Hj.
    rewrite Z.land_spec, Z.testbit_0_l, Z.pow2_bits_eqb by done.
    destruct (Z.eqb_spec i j) as [<-|]; [by rewrite Hb|by rewrite andb_false_r].
Qed.

(** A value that fits in [n] bits has no bit at or above [n]. *)
Lemma testbit_fits n x i : 0 <= n -> fits n x -> n <= i -> Z.testbit x i = false.
Proof.
  intros Hn Hx Hi. rewrite <- (Z.mod_small x (2 ^ n)) by exact Hx.
  apply Z.mod_pow2_bits_high. lia.
Qed.

Lemma fits_testbit n x :
  0 <= n -> 0 <= x -> (forall i, n <= i -> Z.testbit x i = false) -> fits n x.
Proof. intros Hn Hx H. split; [done|]. by apply Z.bounded_iff_bits_nonneg. Qed.

(** [zbits] proves an equality of integers bit by bit.  It turns every bit
    operation into a boolean expression over [Z.testbit], splits on the
    comparisons of indices and finishes with [lia] and [btauto]-free
    rewriting. *)
#[export] Hint Rewrite Z.lor_spec Z.land_spec Z.lxor_spec Z.ldiff_spec
  Z.testbit_0_l testbit_shiftl testbit_shiftr testbit_lnot : zbits.
#[export] Hint Rewrite testbit_wrap Z.testbit_ones using lia : zbits.

Ltac zbits_index :=
  repeat match goal with
    | H : fits ?n ?x |- context [Z.testbit ?x ?i] =>
        rewrite (testbit_fits n x i ltac:(lia) H ltac:(lia))
    | |- context [Z.testbit ?x ?i] =>
        first [ is_var i; fail 1 | rewrite (Z.testbit_neg_r x i) by lia ]
    end.

Ltac zbits_norm :=
  repeat match goal with
    | |- context [Z.testbit ?x ?i] =>
        match goal with
        | |- context [Z.testbit x ?j] =>
            lazymatch j with
            | i => fail
            | _ => replace (Z.testbit x j) with (Z.testbit x i) by (f_equal; lia)
            end
        end
    end.

Ltac zbits_case :=
  repeat (autorewrite with zbits;
    match goal with
    | |- context [?a <=? ?b] => destruct (Z.leb_spec a b); try lia
    | |- context [?a <? ?b] => destruct (Z.ltb_spec a b); try lia
    end);
  autorewrite with zbits.

Ltac zbits_finish :=
  simpl; zbits_index; zbits_norm;
  rewrite ?orb_false_r, ?orb_true_r, ?andb_false_r, ?andb_true_r; simpl;
  try reflexivity;
  repeat match goal with
    | |- context [Z.testbit ?x ?i] => destruct (Z.testbit x i)
    end; simpl; try reflexivity.

Ltac zbits := apply Z.bits_inj'; intros ?i ?Hi; zbits_case; zbits_finish.

(** ** Facts on [wrap] and [fits] *)

Lemma wrap_fits n x : 0 <= n -> fits n (wrap n x).
Proof. intros. apply Z.mod_pos_bound. lia. Qed.

Lemma wrap_small n x : fits n x -> wrap n x = x.
Proof. apply Z.mod_small. Qed.

Lemma wrap_wrap n m x : 0 <= n <= m -> wrap n (wrap m x) = wrap n x.
Proof. intros. zbits. Qed.

Lemma wrap_idem n x : 0 <= n -> wrap n (wrap n x) = wrap n x.
Proof. intros. by apply wrap_small, wrap_fits. Qed.

Lemma fits_mono n m x : 0 <= n <= m -> fits n x -> fits m x.
Proof. intros Hn [? ?]. split; [done|]. pose proof (Z.pow_le_mono_r 2 n m). lia. Qed.

Lemma fits_lor n a b : 0 <= n -> fits n a -> fits n b -> fits n (Z.lor a b).
Proof.
  intros Hn Ha Hb. apply fits_testbit; [done| apply Z.lor_nonneg; split; [apply Ha|apply Hb] |].
  intros i Hi. by rewrite Z.lor_spec, !(testbit_fits n) by done.
Qed.

Lemma fits_land_l n a b : 0 <= n -> fits n a -> fits n (Z.land a b).
Proof.
  intros Hn Ha. apply fits_testbit; [done| apply Z.land_nonneg; left; apply Ha |].
  intros i Hi. by rewrite Z.land_spec, (testbit_fits n) by done.
Qed.

Lemma fits_land_r n a b : 0 <= n -> fits n b -> fits n (Z.land a b).
Proof. rewrite Z.land_comm. apply fits_land_l. Qed.

Lemma fits_ldiff n a b : 0 <= n -> fits n a -> fits n (Z.ldiff a b).
Proof.
  intros Hn Ha. apply fits_testbit; [done| apply Z.ldiff_nonneg; left; apply Ha |].
  intros i Hi. by rewrite Z.ldiff_spec, (testbit_fits n) by done.
Qed.

Lemma fits_shiftl n k a :
  0 <= k <= n -> fits (n - k) a -> fits n (Z.shiftl a k).
Proof.
  intros Hk Ha. apply fits_testbit; [lia| apply Z.shiftl_nonneg, Ha |].
  intros i Hi. rewrite Z.shiftl_spec by lia. apply (testbit_fits (n - k)); auto; lia.
Qed.

Lemma fits_shiftr n k a : 0 <= n -> 0 <= k -> fits (n + k) a -> fits n (Z.shiftr a k).
Proof.
  intros Hn Hk Ha. apply fits_testbit; [lia| apply Z.shiftr_nonneg, Ha |].
  intros i Hi. rewrite Z.shiftr_spec by lia. apply (testbit_fits (n + k)); auto; lia.
Qed.

(** Bits that do not overlap add up. *)
Lemma lor_low n a b : 0 <= n -> fits n b -> Z.lor (Z.shiftl a n) b = Z.shiftl a n + b.
Proof.
  intros Hn Hb. assert (Hz : Z.land (Z.shiftl a n) b = 0).
  { apply Z.bits_inj'. intros i Hi. rewrite Z.land_spec, Z.shiftl_spec, Z.bits_0 by done.
    destruct (decide (i < n)); [by rewrite Z.testbit_neg_r by lia|].
    rewrite (testbit_fits n b) by (done || lia). apply andb_false_r. }
  by rewrite Z.add_nocarry_lxor, Z.lxor_lor.
Qed.

(** ** Facts on bit-fields *)

Lemma bf_get_fits lo n w : 0 <= n -> fits n (bf_get lo n w).
Proof. apply wrap_fits. Qed.

Lemma bf_get_set lo n v w :
  0 <= lo -> 0 <= n -> bf_get lo n (bf_set lo n v w) = wrap n v.
Proof. intros. unfold bf_get, bf_set. zbits. Qed.

Lemma bf_get_set_other lo n lo' n' v w :
  0 <= lo -> 0 <= n -> 0 <= lo' -> 0 <= n' ->
  lo + n <= lo' \/ lo' + n' <= lo ->
  bf_get lo n (bf_set lo' n' v w) = bf_get lo n w.
Proof. intros ???? [?|?]; unfold bf_get, bf_set; zbits. Qed.

Lemma bf_set_fits k lo n v w :
  0 <= lo -> 0 <= n -> lo + n <= k -> fits k w -> fits k (bf_set lo n v w).
Proof.
  intros. unfold bf_set. apply fits_lor; [lia|by apply fits_ldiff; [lia|]|].
  apply fits_shiftl; [lia|]. apply (fits_mono n); [lia|]. by apply wrap_fits.
Qed.

#[export] Hint Resolve wrap_fits bf_get_fits : nic.

(** * State, undefined behaviour and loops *)

(** A C function over the state [S] is a computation that either returns a
    value and the next state, or has no result ([None]): an access outside an
    array, a failed [assert], a [halt()].  Theorems that a function returns
    are therefore also theorems that it has no such behaviour. *)
Definition M (S A : Type) : Type := S -> option (A * S).

#[export] Instance M_ret S : MRet (M S) := fun A a s => Some (a, s).
#[export] Instance M_bind S : MBind (M S) := fun A B f m s =>
  match m s with
  | Some (a, s') => f a s'
  | None => None
  end.

Section monad.
Context {S : Type}.

Definition get {A} (f : S -> A) : M S A := fun s => Some (f s, s).
Definition modify (f : S -> S) : M S unit := fun s => Some (tt, f s).
Definition undefined {A} : M S A := fun _ => None.

(** The rest of the function runs only when [b] holds. *)
Definition require (b : bool) : M S unit := if b then mret tt else undefined.
Definition when (b : bool) (m : M S unit) : M S unit := if b then m else mret tt.

(** An array read that is undefined out of range. *)
Definition of_option {A} (o : option A) : M S A :=
  match o with Some a => mret a | None => undefined end.

(** [for (x in l) body] *)
Fixpoint for_each {A} (l : list A) (body : A -> M S unit) : M S unit :=
  match l with
  | [] => mret tt
  | x :: l' => body x ≫= fun _ => for_each l' body
  end.

(** A loop whose body may return from the function ([Some r]). *)
Fixpoint for_ret {A R} (l : list A) (body : A -> M S (option R)) : M S (option R) :=
  match l with
  | [] => mret None
  | x :: l' => body x ≫= fun r =>
      match r with
      | Some _ => mret r
      | None => for_ret l' body
      end
  end.

(** A loop that folds a local variable. *)
Fixpoint for_fold {A B} (l : list A) (b : B) (body : B -> A -> M S B) : M S B :=
  match l with
  | [] => mret b
  | x :: l' => body b x ≫= fun b' => for_fold l' b' body
  end.

(** A loop that folds a local variable and whose body may return from the
    function ([inl r]). *)
Fixpoint for_fold_ret {A B R} (l : list A) (b : B) (body : B -> A -> M S (R + B)) : M S (R + B) :=
  match l with
  | [] => mret (inr b)
  | x :: l' => body b x ≫= fun r =>
      match r with
      | inl r => mret (inl r)
      | inr b' => for_fold_ret l' b' body
      end
  end.

(** [m] returns from [s], with a result and a state that satisfy [Q]. *)
Definition returns {A} (m : M S A) (s : S) (Q : A -> S -> Prop) : Prop :=
  match m s with
  | Some (a, s') => Q a s'
  | None => False
  end.

Lemma returns_bind {A B} (m : M S A) (f : A -> M S B) s Q :
  returns m s (fun a s' => returns (f a) s' Q) -> returns (m ≫= f) s Q.
Proof. unfold returns, mbind, M_bind. by destruct (m s) as [[]|]. Qed.

Lemma returns_ret {A} (a : A) s (Q : A -> S -> Prop) :
  Q a s -> returns (mret a) s Q.
Proof. done. Qed.

Lemma returns_mono {A} (m : M S A) s (Q Q' : A -> S -> Prop) :
  returns m s Q -> (forall a s', Q a s' -> Q' a s') -> returns m s Q'.
Proof. unfold returns. destruct (m s) as [[]|]; auto. Qed.

Lemma returns_exists {A} (m : M S A) s Q :
  returns m s Q <-> exists a s', m s = Some (a, s') /\ Q a s'.
Proof.
  unfold returns. destruct (m s) as [[a s']|]; split.
  - eauto.
  - by intros (? & ? & [= <- <-] & ?).
  - done.
  - by intros (? & ? & ? & ?).
Qed.

(** Loop rule: [I] relates the elements still to visit and the state. *)
Lemma returns_for_each {A} (I : list A -> S -> Prop) l body s :
  I l s ->
  (forall x l' s', I (x :: l') s' -> returns (body x) s' (fun _ => I l')) ->
  returns (for_each l body) s (fun _ => I []).
Proof.
  intros HI Hstep. revert s HI. induction l as [|x l IH]; intros s HI; [done|].
  simpl. apply returns_bind. eapply returns_mono; [by apply Hstep|].
  intros [] s'. apply IH.
Qed.

Lemma returns_for_fold {A B} (I : list A -> B -> S -> Prop) l b body s :
  I l b s ->
  (forall x l' b' s', I (x :: l') b' s' -> returns (body b' x) s' (I l')) ->
  returns (for_fold l b body) s (I []).
Proof.
  intros HI Hstep. revert b s HI. induction l as [|x l IH]; intros b s HI; [done|].
  simpl. apply returns_bind. eapply returns_mono; [by apply Hstep|].
  intros b' s'. apply IH.
Qed.

(** A loop whose body always returns is a fold of the state. *)
Lemma for_each_total {A} (l : list A) body (f : S -> A -> S) s :
  (forall x s, x ∈ l -> body x s = Some (tt, f s x)) ->
  for_each l body s = Some (tt, foldl f s l).
Proof.
  revert s. induction l as [|x l IH]; intros s Hbody; [done|].
  simpl. unfold mbind, M_bind. rewrite Hbody by (by apply elem_of_cons; left).
  apply IH. intros. apply Hbody. by apply elem_of_cons; right.
Qed.

(** A loop with a return: [I] holds before each round, and [Q] of what the
    body returns with. *)
Lemma returns_for_ret {A R} (I : list A -> S -> Prop) (Q : R -> S -> Prop) l
    (body : A -> M S (option R)) s :
  I l s ->
  (forall x l' s', I (x :: l') s' -> returns (body x) s' (fun r s'' =>
    match r with Some r => Q r s'' | None => I l' s'' end)) ->
  returns (for_ret l body) s (fun r s' =>
    match r with Some r => Q r s' | None => I [] s' end).
Proof.
  intros HI Hstep. revert s HI. induction l as [|x l IH]; intros s HI; [done|].
  simpl. apply returns_bind. eapply returns_mono; [by apply Hstep|].
  intros [r|] s' Hr; [done|]. by apply IH.
Qed.

(** A loop that only computes. *)
Lemma for_fold_pure {A B} (l : list A) (b : B) body (f : B -> A -> B) s :
  (forall b x, x ∈ l -> body b x s = Some (f b x, s)) ->
  for_fold l b body s = Some (foldl f b l, s).
Proof.
  revert b. induction l as [|x l IH]; intros b Hbody; [done|].
  simpl. unfold mbind, M_bind. rewrite Hbody by (by apply elem_of_cons; left).
  apply IH. intros. apply Hbody. by apply elem_of_cons; right.
Qed.

Lemma for_each_app {A} (l1 l2 : list A) body s :
  for_each (l1 ++ l2) body s =
  (for_each l1 body ≫= fun _ => for_each l2 body) s.
Proof.
  revert s. induction l1 as [|x l1 IH]; intros s; [done|].
  simpl. unfold mbind, M_bind in *. destruct (body x s) as [[]|]; auto.
Qed.
End monad.

#[export] Hint Resolve returns_bind returns_ret : nic.

(** ** Running straight-line code *)

Section run.
Context {S : Type}.

Lemma run_get {A B} (f : S -> A) (k : A -> M S B) s : (get f ≫= k) s = k (f s) s.
Proof. done. Qed.

Lemma run_modify {B} (f : S -> S) (k : unit -> M S B) s : (modify f ≫= k) s = k tt (f s).
Proof. done. Qed.

Lemma run_ret {A B} (a : A) (k : A -> M S B) s : (mret a ≫= k) s = k a s.
Proof. done. Qed.

Lemma run_ret_some {A} (a : A) (s : S) : (mret a : M S A) s = Some (a, s).
Proof. done. Qed.

Lemma run_assoc {A B C} (m : M S A) (f : A -> M S B) (g : B -> M S C) s :
  ((m ≫= f) ≫= g) s = (m ≫= fun a => f a ≫= g) s.
Proof. unfold mbind, M_bind. by destruct (m s) as [[]|]. Qed.

Lemma run_some {A B} (m : M S A) (k : A -> M S B) a s s' :
  m s = Some (a, s') -> (m ≫= k) s = k a s'.
Proof. unfold mbind, M_bind. by intros ->. Qed.

Lemma run_none {A B} (m : M S A) (k : A -> M S B) s : m s = None -> (m ≫= k) s = None.
Proof. unfold mbind, M_bind. by intros ->. Qed.

Lemma run_require {B} b (k : unit -> M S B) s : b = true -> (require b ≫= k) s = k tt s.
Proof. by intros ->. Qed.

Lemma run_of_option {A B} (o : option A) a (k : A -> M S B) s :
  o = Some a -> (of_option o ≫= k) s = k a s.
Proof. by intros ->. Qed.

Lemma run_when_true {B} (m : M S unit) (k : unit -> M S B) s :
  (when true m ≫= k) s = (m ≫= k) s.
Proof. done. Qed.

Lemma run_when_false {B} (m : M S unit) (k : unit -> M S B) s :
  (when false m ≫= k) s = k tt s.
Proof. done. Qed.

(** An inversion principle for [returns]. *)
Lemma bind_some_inv {A B} (m : M S A) (k : A -> M S B) s b s2 :
  (m ≫= k) s = Some (b, s2) -> exists a s1, m s = Some (a, s1) /\ k a s1 = Some (b, s2).
Proof. unfold mbind, M_bind. destruct (m s) as [[a s1]|]; [|done]. eauto. Qed.
End run.

(** [runs] executes reads, writes and returns up to the next call. *)
Ltac run_step :=
  first [ rewrite run_get | rewrite run_modify | rewrite run_ret | rewrite run_assoc
        | rewrite run_when_true | rewrite run_when_false ].
Ltac runs := repeat (run_step; cbv beta).

(** Record updates are kept as they are written; [st] computes the fields of
    an updated record, [st_unfold] the record itself. *)
#[global] Arguments apply_update : simpl never.
#[global] Arguments constant : simpl never.

Ltac st_step :=
  match goal with
  | |- context [?p (apply_update (@mk_update _ _ ?q ?set ?f) ?s)] =>
      first
        [ constr_eq p q;
          lazymatch f with
          | constant ?v => change (p (apply_update (@mk_update _ _ q set f) s)) with v
          | _ => change (p (apply_update (@mk_update _ _ q set f) s)) with (f (q s))
          end
        | change (p (apply_update (@mk_update _ _ q set f) s)) with (p s) ]
  end.
Ltac st := repeat st_step; cbv beta.

Tactic Notation "st" "in" hyp(H) :=
  repeat match type of H with
  | context [?p (apply_update (@mk_update _ _ ?q ?set ?f) ?s)] =>
      first
        [ constr_eq p q;
          lazymatch f with
          | constant ?v => change (p (apply_update (@mk_update _ _ q set f) s)) with v in H
          | _ => change (p (apply_update (@mk_update _ _ q set f) s)) with (f (q s)) in H
          end
        | change (p (apply_update (@mk_update _ _ q set f) s)) with (p s) in H ]
  end; cbv beta in H.

Ltac st_unfold := cbv [apply_update constant] in *; cbn in *.

(** C's [for (i = lo; i < hi; ++i)] over unsigned indices. *)
Definition range (lo hi : Z) : list Z := seqZ lo (hi - lo).

Lemma elem_of_range lo hi i : i ∈ range lo hi <-> lo <= i < hi.
Proof. unfold range. rewrite elem_of_seqZ. lia. Qed.

Lemma range_cons lo hi : lo < hi -> range lo hi = lo :: range (lo + 1) hi.
Proof.
  intros. unfold range. rewrite seqZ_cons by lia. f_equal. f_equal; lia.
Qed.

Lemma range_nil lo hi : hi <= lo -> range lo hi = [].
Proof. intros. unfold range. apply seqZ_nil. lia. Qed.

(** Functions that agree on the elements of a list *)
Lemma flat_map_elem {A B} (f g : A -> list B) l :
  (forall x, x ∈ l -> f x = g x) -> flat_map f l = flat_map g l.
Proof.
  intros Hfg. induction l as [|x l IH]; [done|]. cbn [flat_map].
  rewrite Hfg by apply list_elem_of_here. f_equal. apply IH. intros y Hy. by apply Hfg, list_elem_of_further.
Qed.

Lemma foldl_elem {A B} (f g : B -> A -> B) l b :
  (forall b x, x ∈ l -> f b x = g b x) -> foldl f b l = foldl g b l.
Proof.
  revert b. induction l as [|x l IH]; intros b Hfg; [done|]. cbn [foldl].
  rewrite Hfg by apply list_elem_of_here. apply IH. intros c y Hy. by apply Hfg, list_elem_of_further.
Qed.

(** Total reads of the maps that model device memory: unwritten words are 0. *)
Definition rd `{Countable K} (m : gmap K Z) (k : K) : Z := default 0 (m !! k).

Lemma rd_insert_eq `{Countable K} (m : gmap K Z) k v : rd (<[k:=v]> m) k = v.
Proof. unfold rd. by rewrite lookup_insert_eq. Qed.

Lemma rd_insert_ne `{Countable K} (m : gmap K Z) k k' v :
  k <> k' -> rd (<[k:=v]> m) k' = rd m k'.
Proof. intros. unfold rd. by rewrite lookup_insert_ne. Qed.

#[export] Hint Rewrite @rd_insert_eq : nic.

(** A map whose keys are in a list is no larger than the list. *)
Lemma map_size_le `{Countable K} {A} (m : gmap K A) (l : list K) :
  (forall k, is_Some (m !! k) -> k ∈ l) -> (size m <= length l)%nat.
Proof.
  intros Hl. rewrite <- length_map_to_list, <- (length_fmap fst).
  apply submseteq_length, NoDup_submseteq; [apply NoDup_fst_map_to_list|].
  intros k ([k' a] & -> & Ha)%list_elem_of_fmap. apply elem_of_map_to_list in Ha. apply Hl. by eexists.
Qed.
#[export] Hint Rewrite @rd_insert_ne using (congruence || lia || done) : nic.

(** Updating each of several entries from its own value. *)
Lemma rd_foldl_update `{Countable K} {A} (key : A -> K) `{!Inj (=) (=) key}
    (g : Z -> Z) (l : list A) (m : gmap K Z) x :
  NoDup l -> x ∈ l ->
  rd (foldl (fun m x => <[key x := g (rd m (key x))]> m) m l) (key x) = g (rd m (key x)).
Proof.
  intros Hl. revert m. induction Hl as [|y l Hy Hl IH]; intros m Hx; [by apply elem_of_nil in Hx|].
  simpl. apply elem_of_cons in Hx as [->|Hx].
  - assert (Hout : forall m, rd (foldl (fun m x => <[key x := g (rd m (key x))]> m) m l) (key y) =
      rd m (key y)).
    { clear IH Hl. induction l as [|z l IH]; intros m'; [done|]. simpl.
      apply not_elem_of_cons in Hy as [Hne Hy]. rewrite IH by done.
      apply rd_insert_ne. by intros ?%(inj key). }
    by rewrite Hout, rd_insert_eq.
  - rewrite IH by done. f_equal. apply rd_insert_ne. intros Heq%(inj key). by subst.
Qed.

Lemma rd_foldl_update_out `{Countable K} {A} (key : A -> K) (g : Z -> Z) (l : list A)
    (m : gmap K Z) k :
  (forall x, x ∈ l -> key x <> k) ->
  rd (foldl (fun m x => <[key x := g (rd m (key x))]> m) m l) k = rd m k.
Proof.
  revert m. induction l as [|y l IH]; intros m Hk; [done|]. simpl.
  rewrite IH by (intros; apply Hk; by apply elem_of_cons; right).
  apply rd_insert_ne, Hk. by apply elem_of_cons; left.
Qed.
