(* ===== verification/Platform.v ===== *)
(** * The board: include/platform.h and include/flavors.h

    The per-board macros of platform.h are the fields of [platform]; the
    [#if]/[#elif] chain over NS_PLATFORM_TYPE is [platform_macros].  The
    macros platform.h derives from them come after.  A firmware image is
    compiled for one board and one flavor: the record [build]. *)

From S2P Require Import Prelude.

Inductive platform_type : Set :=
  | NS_PLATFORM_HYDROGEN
  | NS_PLATFORM_HYDROGEN_4x10
  | NS_PLATFORM_LITHIUM
  | NS_PLATFORM_LITHIUM_1x1_1x10
  | NS_PLATFORM_LITHIUM_1x10_1x1
  | NS_PLATFORM_LITHIUM_2x1
  | NS_PLATFORM_BERYLLIUM
  | NS_PLATFORM_BERYLLIUM_4x10_1x40
  | NS_PLATFORM_BERYLLIUM_8x10
  | NS_PLATFORM_CARBON
  | NS_PLATFORM_CARBON_2x10
  | NS_PLATFORM_CARBON_1x10_1x25
  | NS_PLATFORM_STARFIGHTER_2x40
  | NS_PLATFORM_STARFIGHTER_1x100
  | NS_PLATFORM_STARFIGHTER_2x40_passive
  | NS_PLATFORM_SODIUM_2x10
  | NS_PLATFORM_SODIUM_2x10_crypto
  | NS_PLATFORM_STARFIGHTER_1x100_passive
  | NS_PLATFORM_CADMIUM_DDR_1x50.

Definition all_platforms : list platform_type :=
  [NS_PLATFORM_HYDROGEN;
   NS_PLATFORM_HYDROGEN_4x10;
   NS_PLATFORM_LITHIUM;
   NS_PLATFORM_LITHIUM_1x1_1x10;
   NS_PLATFORM_LITHIUM_1x10_1x1;
   NS_PLATFORM_LITHIUM_2x1;
   NS_PLATFORM_BERYLLIUM;
   NS_PLATFORM_BERYLLIUM_4x10_1x40;
   NS_PLATFORM_BERYLLIUM_8x10;
   NS_PLATFORM_CARBON;
   NS_PLATFORM_CARBON_2x10;
   NS_PLATFORM_CARBON_1x10_1x25;
   NS_PLATFORM_STARFIGHTER_2x40;
   NS_PLATFORM_STARFIGHTER_1x100;
   NS_PLATFORM_STARFIGHTER_2x40_passive;
   NS_PLATFORM_SODIUM_2x10;
   NS_PLATFORM_SODIUM_2x10_crypto;
   NS_PLATFORM_STARFIGHTER_1x100_passive;
   NS_PLATFORM_CADMIUM_DDR_1x50].

Definition platform_id (t : platform_type) : Z :=
  match t with
  | NS_PLATFORM_HYDROGEN => 1
  | NS_PLATFORM_HYDROGEN_4x10 => 2
  | NS_PLATFORM_LITHIUM => 3
  | NS_PLATFORM_LITHIUM_1x1_1x10 => 4
  | NS_PLATFORM_LITHIUM_1x10_1x1 => 5
  | NS_PLATFORM_LITHIUM_2x1 => 6
  | NS_PLATFORM_BERYLLIUM => 7
  | NS_PLATFORM_BERYLLIUM_4x10_1x40 => 8
  | NS_PLATFORM_BERYLLIUM_8x10 => 9
  | NS_PLATFORM_CARBON => 10
  | NS_PLATFORM_CARBON_2x10 => 11
  | NS_PLATFORM_CARBON_1x10_1x25 => 12
  | NS_PLATFORM_STARFIGHTER_2x40 => 13
  | NS_PLATFORM_STARFIGHTER_1x100 => 14
  | NS_PLATFORM_STARFIGHTER_2x40_passive => 15
  | NS_PLATFORM_SODIUM_2x10 => 16
  | NS_PLATFORM_SODIUM_2x10_crypto => 17
  | NS_PLATFORM_STARFIGHTER_1x100_passive => 18
  | NS_PLATFORM_CADMIUM_DDR_1x50 => 19
  end.

Inductive flavor : Set := NS_FLAVOR_NIC | NS_FLAVOR_SRIOV | NS_FLAVOR_BPF.

#[export] Instance platform_type_eq_dec : EqDecision platform_type.
Proof. solve_decision. Defined.
#[export] Instance flavor_eq_dec : EqDecision flavor.
Proof. solve_decision. Defined.

Record platform : Type := {
  NS_PLATFORM_MAC_CORE : Z -> Z;
  NS_PLATFORM_MAC_CORE_SERDES_LO : Z -> Z;
  NS_PLATFORM_MAC_CORE_SERDES_HI : Z -> Z;
  NS_PLATFORM_MAC_CORE_SERDES_TO_PORT : Z -> Z -> Z -> Z;
  NS_PLATFORM_MAC_CHANNEL_LO : Z -> Z;
  NS_PLATFORM_MAC_CHANNEL_HI : Z -> Z;
  NS_PLATFORM_MAC_PCP_REMAP : Z -> Z;
  NS_PLATFORM_MAC_UNTAGGED_MAP : Z;
  NS_PLATFORM_NUM_PORTS_PER_MAC_0 : Z;
  NS_PLATFORM_NUM_PORTS_PER_MAC_1 : Z;
  NS_PLATFORM_PCLK : Z;
  NS_PLATFORM_PORT_SPEED : Z -> Z;
  NS_PLATFORM_TCLK : Z;
  NS_PLATFORM_MAC_0_CORE_0_PORTS_MASK : Z;
  NS_PLATFORM_MAC_0_CORE_1_PORTS_MASK : Z;
  NS_PLATFORM_MAC_1_CORE_0_PORTS_MASK : Z;
  NS_PLATFORM_MAC_1_CORE_1_PORTS_MASK : Z
}.

Definition hydrogen_cfg : platform :=
  {| NS_PLATFORM_MAC_CORE := fun port => 0;
     NS_PLATFORM_MAC_CORE_SERDES_LO := fun port => 0;
     NS_PLATFORM_MAC_CORE_SERDES_HI := fun port => 3;
     NS_PLATFORM_MAC_CORE_SERDES_TO_PORT := fun mac core serdes => 0;
     NS_PLATFORM_MAC_CHANNEL_LO := fun port => 0;
     NS_PLATFORM_MAC_CHANNEL_HI := fun port => 3;
     NS_PLATFORM_MAC_PCP_REMAP := fun pcp => if pcp <=? 3 then pcp else 3;
     NS_PLATFORM_MAC_UNTAGGED_MAP := 3;
     NS_PLATFORM_NUM_PORTS_PER_MAC_0 := 1;
     NS_PLATFORM_NUM_PORTS_PER_MAC_1 := 0;
     NS_PLATFORM_PCLK := 800;
     NS_PLATFORM_PORT_SPEED := fun port => 40;
     NS_PLATFORM_TCLK := 800;
     NS_PLATFORM_MAC_0_CORE_0_PORTS_MASK := 0x001;
     NS_PLATFORM_MAC_0_CORE_1_PORTS_MASK := 0x000;
     NS_PLATFORM_MAC_1_CORE_0_PORTS_MASK := 0x000;
     NS_PLATFORM_MAC_1_CORE_1_PORTS_MASK := 0x000 |}.

Definition hydrogen_4x10_cfg : platform :=
  {| NS_PLATFORM_MAC_CORE := fun port => 0;
     NS_PLATFORM_MAC_CORE_SERDES_LO := fun port => port;
     NS_PLATFORM_MAC_CORE_SERDES_HI := fun port => port;
     NS_PLATFORM_MAC_CORE_SERDES_TO_PORT := fun mac core serdes => serdes;
     NS_PLATFORM_MAC_CHANNEL_LO := fun port => Z.shiftl port 2;
     NS_PLATFORM_MAC_CHANNEL_HI := fun port => (Z.shiftl port 2) + 3;
     NS_PLATFORM_MAC_PCP_REMAP := fun pcp => if pcp <=? 3 then pcp else 3;
     NS_PLATFORM_MAC_UNTAGGED_MAP := 3;
     NS_PLATFORM_NUM_PORTS_PER_MAC_0 := 4;
     NS_PLATFORM_NUM_PORTS_PER_MAC_1 := 0;
     NS_PLATFORM_PCLK := 800;
     NS_PLATFORM_PORT_SPEED := fun port => 10;
     NS_PLATFORM_TCLK := 800;
     NS_PLATFORM_MAC_0_CORE_0_PORTS_MASK := 0x00F;
     NS_PLATFORM_MAC_0_CORE_1_PORTS_MASK := 0x000;
     NS_PLATFORM_MAC_1_CORE_0_PORTS_MASK := 0x000;
     NS_PLATFORM_MAC_1_CORE_1_PORTS_MASK := 0x000 |}.

Definition lithium_cfg : platform :=
  {| NS_PLATFORM_MAC_CORE := fun port => 0;
     NS_PLATFORM_MAC_CORE_SERDES_LO := fun port => Z.shiftl port 2;
     NS_PLATFORM_MAC_CORE_SERDES_HI := fun port => Z.shiftl port 2;
     NS_PLATFORM_MAC_CORE_SERDES_TO_PORT := fun mac core serdes => Z.shiftr serdes 2;
     NS_PLATFORM_MAC_CHANNEL_LO := fun port => Z.shiftl port 4;
     NS_PLATFORM_MAC_CHANNEL_HI := fun port => (Z.shiftl port 4) + 3;
     NS_PLATFORM_MAC_PCP_REMAP := fun pcp => if pcp <=? 3 then pcp else 3;
     NS_PLATFORM_MAC_UNTAGGED_MAP := 3;
     NS_PLATFORM_NUM_PORTS_PER_MAC_0 := 2;
     NS_PLATFORM_NUM_PORTS_PER_MAC_1 := 0;
     NS_PLATFORM_PCLK := 633;
     NS_PLATFORM_PORT_SPEED := fun port => 10;
     NS_PLATFORM_TCLK := 633;
     NS_PLATFORM_MAC_0_CORE_0_PORTS_MASK := 0x011;
     NS_PLATFORM_MAC_0_CORE_1_PORTS_MASK := 0x000;
     NS_PLATFORM_MAC_1_CORE_0_PORTS_MASK := 0x000;
     NS_PLATFORM_MAC_1_CORE_1_PORTS_MASK := 0x000 |}.

Definition lithium_1x1_1x10_cfg : platform :=
  {| NS_PLATFORM_MAC_CORE := fun port => 0;
     NS_PLATFORM_MAC_CORE_SERDES_LO := fun port => Z.shiftl port 2;
     NS_PLATFORM_MAC_CORE_SERDES_HI := fun port => Z.shiftl port 2;
     NS_PLATFORM_MAC_CORE_SERDES_TO_PORT := fun mac core serdes => Z.shiftr serdes 2;
     NS_PLATFORM_MAC_CHANNEL_LO := fun port => Z.shiftl port 4;
     NS_PLATFORM_MAC_CHANNEL_HI := fun port => (Z.shiftl port 4) + 3;
     NS_PLATFORM_MAC_PCP_REMAP := fun pcp => if pcp <=? 3 then pcp else 3;
     NS_PLATFORM_MAC_UNTAGGED_MAP := 3;
     NS_PLATFORM_NUM_PORTS_PER_MAC_0 := 2;
     NS_PLATFORM_NUM_PORTS_PER_MAC_1 := 0;
     NS_PLATFORM_PCLK := 633;
     NS_PLATFORM_PORT_SPEED := fun port => if port =? 0 then 1 else 10;
     NS_PLATFORM_TCLK := 633;
     NS_PLATFORM_MAC_0_CORE_0_PORTS_MASK := 0x011;
     NS_PLATFORM_MAC_0_CORE_1_PORTS_MASK := 0x000;
     NS_PLATFORM_MAC_1_CORE_0_PORTS_MASK := 0x000;
     NS_PLATFORM_MAC_1_CORE_1_PORTS_MASK := 0x000 |}.

Definition lithium_1x10_1x1_cfg : platform :=
  {| NS_PLATFORM_MAC_CORE := fun port => 0;
     NS_PLATFORM_MAC_CORE_SERDES_LO := fun port => Z.shiftl port 2;
     NS_PLATFORM_MAC_CORE_SERDES_HI := fun port => Z.shiftl port 2;
     NS_PLATFORM_MAC_CORE_SERDES_TO_PORT := fun mac core serdes => Z.shiftr serdes 2;
     NS_PLATFORM_MAC_CHANNEL_LO := fun port => Z.shiftl port 4;
     NS_PLATFORM_MAC_CHANNEL_HI := fun port => (Z.shiftl port 4) + 3;
     NS_PLATFORM_MAC_PCP_REMAP := fun pcp => if pcp <=? 3 then pcp else 3;
     NS_PLATFORM_MAC_UNTAGGED_MAP := 3;
     NS_PLATFORM_NUM_PORTS_PER_MAC_0 := 2;
     NS_PLATFORM_NUM_PORTS_PER_MAC_1 := 0;
     NS_PLATFORM_PCLK := 633;
     NS_PLATFORM_PORT_SPEED := fun port => if port =? 0 then 10 else 1;
     NS_PLATFORM_TCLK := 633;
     NS_PLATFORM_MAC_0_CORE_0_PORTS_MASK := 0x011;
     NS_PLATFORM_MAC_0_CORE_1_PORTS_MASK := 0x000;
     NS_PLATFORM_MAC_1_CORE_0_PORTS_MASK := 0x000;
     NS_PLATFORM_MAC_1_CORE_1_PORTS_MASK := 0x000 |}.

Definition lithium_2x1_cfg : platform :=
  {| NS_PLATFORM_MAC_CORE := fun port => 0;
     NS_PLATFORM_MAC_CORE_SERDES_LO := fun port => Z.shiftl port 2;
     NS_PLATFORM_MAC_CORE_SERDES_HI := fun port => Z.shiftl port 2;
     NS_PLATFORM_MAC_CORE_SERDES_TO_PORT := fun mac core serdes => Z.shiftr serdes 2;
     NS_PLATFORM_MAC_CHANNEL_LO := fun port => Z.shiftl port 4;
     NS_PLATFORM_MAC_CHANNEL_HI := fun port => (Z.shiftl port 4) + 3;
     NS_PLATFORM_MAC_PCP_REMAP := fun pcp => if pcp <=? 3 then pcp else 3;
     NS_PLATFORM_MAC_UNTAGGED_MAP := 3;
     NS_PLATFORM_NUM_PORTS_PER_MAC_0 := 2;
     NS_PLATFORM_NUM_PORTS_PER_MAC_1 := 0;
     NS_PLATFORM_PCLK := 633;
     NS_PLATFORM_PORT_SPEED := fun port => 1;
     NS_PLATFORM_TCLK := 633;
     NS_PLATFORM_MAC_0_CORE_0_PORTS_MASK := 0x011;
     NS_PLATFORM_MAC_0_CORE_1_PORTS_MASK := 0x000;
     NS_PLATFORM_MAC_1_CORE_0_PORTS_MASK := 0x000;
     NS_PLATFORM_MAC_1_CORE_1_PORTS_MASK := 0x000 |}.

Definition beryllium_cfg : platform :=
  {| NS_PLATFORM_MAC_CORE := fun port => 0;
     NS_PLATFORM_MAC_CORE_SERDES_LO := fun port => Z.shiftl port 2;
     NS_PLATFORM_MAC_CORE_SERDES_HI := fun port => (Z.shiftl port 2) + 3;
     NS_PLATFORM_MAC_CORE_SERDES_TO_PORT := fun mac core serdes => Z.shiftr serdes 2;
     NS_PLATFORM_MAC_CHANNEL_LO := fun port => Z.shiftl port 4;
     NS_PLATFORM_MAC_CHANNEL_HI := fun port => (Z.shiftl port 4) + 3;
     NS_PLATFORM_MAC_PCP_REMAP := fun pcp => if pcp <=? 3 then pcp else 3;
     NS_PLATFORM_MAC_UNTAGGED_MAP := 3;
     NS_PLATFORM_NUM_PORTS_PER_MAC_0 := 2;
     NS_PLATFORM_NUM_PORTS_PER_MAC_1 := 0;
     NS_PLATFORM_PCLK := 800;
     NS_PLATFORM_PORT_SPEED := fun port => 40;
     NS_PLATFORM_TCLK := 800;
     NS_PLATFORM_MAC_0_CORE_0_PORTS_MASK := 0x011;
     NS_PLATFORM_MAC_0_CORE_1_PORTS_MASK := 0x000;
     NS_PLATFORM_MAC_1_CORE_0_PORTS_MASK := 0x000;
     NS_PLATFORM_MAC_1_CORE_1_PORTS_MASK := 0x000 |}.

Definition beryllium_4x10_1x40_cfg : platform :=
  {| NS_PLATFORM_MAC_CORE := fun port => 0;
     NS_PLATFORM_MAC_CORE_SERDES_LO := fun port => port;
     NS_PLATFORM_MAC_CORE_SERDES_HI := fun port => port + (if port <? 4 then 0 else 3);
     NS_PLATFORM_MAC_CORE_SERDES_TO_PORT := fun mac core serdes => serdes;
     NS_PLATFORM_MAC_CHANNEL_LO := fun port => Z.shiftl port 2;
     NS_PLATFORM_MAC_CHANNEL_HI := fun port => (Z.shiftl port 2) + 3;
     NS_PLATFORM_MAC_PCP_REMAP := fun pcp => if pcp <=? 3 then pcp else 3;
     NS_PLATFORM_MAC_UNTAGGED_MAP := 3;
     NS_PLATFORM_NUM_PORTS_PER_MAC_0 := 5;
     NS_PLATFORM_NUM_PORTS_PER_MAC_1 := 0;
     NS_PLATFORM_PCLK := 800;
     NS_PLATFORM_PORT_SPEED := fun port => if port <? 4 then 10 else 40;
     NS_PLATFORM_TCLK := 800;
     NS_PLATFORM_MAC_0_CORE_0_PORTS_MASK := 0x01F;
     NS_PLATFORM_MAC_0_CORE_1_PORTS_MASK := 0x000;
     NS_PLATFORM_MAC_1_CORE_0_PORTS_MASK := 0x000;
     NS_PLATFORM_MAC_1_CORE_1_PORTS_MASK := 0x000 |}.

Definition beryllium_8x10_cfg : platform :=
  {| NS_PLATFORM_MAC_CORE := fun port => 0;
     NS_PLATFORM_MAC_CORE_SERDES_LO := fun port => port;
     NS_PLATFORM_MAC_CORE_SERDES_HI := fun port => port;
     NS_PLATFORM_MAC_CORE_SERDES_TO_PORT := fun mac core serdes => serdes;
     NS_PLATFORM_MAC_CHANNEL_LO := fun port => Z.shiftl port 2;
     NS_PLATFORM_MAC_CHANNEL_HI := fun port => (Z.shiftl port 2) + 3;
     NS_PLATFORM_MAC_PCP_REMAP := fun pcp => if pcp <=? 3 then pcp else 3;
     NS_PLATFORM_MAC_UNTAGGED_MAP := 3;
     NS_PLATFORM_NUM_PORTS_PER_MAC_0 := 8;
     NS_PLATFORM_NUM_PORTS_PER_MAC_1 := 0;
     NS_PLATFORM_PCLK := 800;
     NS_PLATFORM_PORT_SPEED := fun port => 10;
     NS_PLATFORM_TCLK := 800;
     NS_PLATFORM_MAC_0_CORE_0_PORTS_MASK := 0x0FF;
     NS_PLATFORM_MAC_0_CORE_1_PORTS_MASK := 0x000;
     NS_PLATFORM_MAC_1_CORE_0_PORTS_MASK := 0x000;
     NS_PLATFORM_MAC_1_CORE_1_PORTS_MASK := 0x000 |}.

Definition carbon_cfg : platform :=
  {| NS_PLATFORM_MAC_CORE := fun port => 0;
     NS_PLATFORM_MAC_CORE_SERDES_LO := fun port => Z.shiftl port 2;
     NS_PLATFORM_MAC_CORE_SERDES_HI := fun port => (Z.shiftl port 2) + 3;
     NS_PLATFORM_MAC_CORE_SERDES_TO_PORT := fun mac core serdes => Z.shiftr serdes 2;
     NS_PLATFORM_MAC_CHANNEL_LO := fun port => Z.shiftl port 4;
     NS_PLATFORM_MAC_CHANNEL_HI := fun port => (Z.shiftl port 4) + 3;
     NS_PLATFORM_MAC_PCP_REMAP := fun pcp => if pcp <=? 3 then pcp else 3;
     NS_PLATFORM_MAC_UNTAGGED_MAP := 3;
     NS_PLATFORM_NUM_PORTS_PER_MAC_0 := 2;
     NS_PLATFORM_NUM_PORTS_PER_MAC_1 := 0;
     NS_PLATFORM_PCLK := 800;
     NS_PLATFORM_PORT_SPEED := fun port => 25;
     NS_PLATFORM_TCLK := 800;
     NS_PLATFORM_MAC_0_CORE_0_PORTS_MASK := 0x011;
     NS_PLATFORM_MAC_0_CORE_1_PORTS_MASK := 0x000;
     NS_PLATFORM_MAC_1_CORE_0_PORTS_MASK := 0x000;
     NS_PLATFORM_MAC_1_CORE_1_PORTS_MASK := 0x000 |}.

Definition carbon_2x10_cfg : platform :=
  {| NS_PLATFORM_MAC_CORE := fun port => 0;
     NS_PLATFORM_MAC_CORE_SERDES_LO := fun port => Z.shiftl port 2;
     NS_PLATFORM_MAC_CORE_SERDES_HI := fun port => Z.shiftl port 2;
     NS_PLATFORM_MAC_CORE_SERDES_TO_PORT := fun mac core serdes => Z.shiftr serdes 2;
     NS_PLATFORM_MAC_CHANNEL_LO := fun port => Z.shiftl port 4;
     NS_PLATFORM_MAC_CHANNEL_HI := fun port => (Z.shiftl port 4) + 3;
     NS_PLATFORM_MAC_PCP_REMAP := fun pcp => if pcp <=? 3 then pcp else 3;
     NS_PLATFORM_MAC_UNTAGGED_MAP := 3;
     NS_PLATFORM_NUM_PORTS_PER_MAC_0 := 2;
     NS_PLATFORM_NUM_PORTS_PER_MAC_1 := 0;
     NS_PLATFORM_PCLK := 800;
     NS_PLATFORM_PORT_SPEED := fun port => 10;
     NS_PLATFORM_TCLK := 800;
     NS_PLATFORM_MAC_0_CORE_0_PORTS_MASK := 0x011;
     NS_PLATFORM_MAC_0_CORE_1_PORTS_MASK := 0x000;
     NS_PLATFORM_MAC_1_CORE_0_PORTS_MASK := 0x000;
     NS_PLATFORM_MAC_1_CORE_1_PORTS_MASK := 0x000 |}.

Definition carbon_1x10_1x25_cfg : platform :=
  {| NS_PLATFORM_MAC_CORE := fun port => 0;
     NS_PLATFORM_MAC_CORE_SERDES_LO := fun port => Z.shiftl port 2;
     NS_PLATFORM_MAC_CORE_SERDES_HI := fun port => (Z.shiftl port 2) + (if 0 <? port then 3 else 0);
     NS_PLATFORM_MAC_CORE_SERDES_TO_PORT := fun mac core serdes => Z.shiftr serdes 2;
     NS_PLATFORM_MAC_CHANNEL_LO := fun port => Z.shiftl port 4;
     NS_PLATFORM_MAC_CHANNEL_HI := fun port => (Z.shiftl port 4) + 3;
     NS_PLATFORM_MAC_PCP_REMAP := fun pcp => if pcp <=? 3 then pcp else 3;
     NS_PLATFORM_MAC_UNTAGGED_MAP := 3;
     NS_PLATFORM_NUM_PORTS_PER_MAC_0 := 2;
     NS_PLATFORM_NUM_PORTS_PER_MAC_1 := 0;
     NS_PLATFORM_PCLK := 800;
     NS_PLATFORM_PORT_SPEED := fun port => if 0 <? port then 25 else 10;
     NS_PLATFORM_TCLK := 800;
     NS_PLATFORM_MAC_0_CORE_0_PORTS_MASK := 0x011;
     NS_PLATFORM_MAC_0_CORE_1_PORTS_MASK := 0x000;
     NS_PLATFORM_MAC_1_CORE_0_PORTS_MASK := 0x000;
     NS_PLATFORM_MAC_1_CORE_1_PORTS_MASK := 0x000 |}.

Definition starfighter_2x40_cfg : platform :=
  {| NS_PLATFORM_MAC_CORE := fun port => 0;
     NS_PLATFORM_MAC_CORE_SERDES_LO := fun port => Z.shiftl port 2;
     NS_PLATFORM_MAC_CORE_SERDES_HI := fun port => (Z.shiftl port 2) + 3;
     NS_PLATFORM_MAC_CORE_SERDES_TO_PORT := fun mac core serdes => Z.shiftr serdes 2;
     NS_PLATFORM_MAC_CHANNEL_LO := fun port => Z.shiftl port 4;
     NS_PLATFORM_MAC_CHANNEL_HI := fun port => (Z.shiftl port 4) + 3;
     NS_PLATFORM_MAC_PCP_REMAP := fun pcp => if pcp <=? 3 then pcp else 3;
     NS_PLATFORM_MAC_UNTAGGED_MAP := 3;
     NS_PLATFORM_NUM_PORTS_PER_MAC_0 := 2;
     NS_PLATFORM_NUM_PORTS_PER_MAC_1 := 0;
     NS_PLATFORM_PCLK := 1200;
     NS_PLATFORM_PORT_SPEED := fun port => 40;
     NS_PLATFORM_TCLK := 1200;
     NS_PLATFORM_MAC_0_CORE_0_PORTS_MASK := 0x011;
     NS_PLATFORM_MAC_0_CORE_1_PORTS_MASK := 0x000;
     NS_PLATFORM_MAC_1_CORE_0_PORTS_MASK := 0x000;
     NS_PLATFORM_MAC_1_CORE_1_PORTS_MASK := 0x000 |}.

Definition starfighter_1x100_cfg : platform :=
  {| NS_PLATFORM_MAC_CORE := fun port => 0;
     NS_PLATFORM_MAC_CORE_SERDES_LO := fun port => Z.shiftl port 2;
     NS_PLATFORM_MAC_CORE_SERDES_HI := fun port => (Z.shiftl port 2) + 0;
     NS_PLATFORM_MAC_CORE_SERDES_TO_PORT := fun mac core serdes => Z.shiftr serdes 2;
     NS_PLATFORM_MAC_CHANNEL_LO := fun port => Z.shiftl port 2;
     NS_PLATFORM_MAC_CHANNEL_HI := fun port => (Z.shiftl port 2) + 3;
     NS_PLATFORM_MAC_PCP_REMAP := fun pcp => if pcp <=? 3 then pcp else 3;
     NS_PLATFORM_MAC_UNTAGGED_MAP := 3;
     NS_PLATFORM_NUM_PORTS_PER_MAC_0 := 1;
     NS_PLATFORM_NUM_PORTS_PER_MAC_1 := 0;
     NS_PLATFORM_PCLK := 1200;
     NS_PLATFORM_PORT_SPEED := fun port => 100;
     NS_PLATFORM_TCLK := 1200;
     NS_PLATFORM_MAC_0_CORE_0_PORTS_MASK := 0x001;
     NS_PLATFORM_MAC_0_CORE_1_PORTS_MASK := 0x000;
     NS_PLATFORM_MAC_1_CORE_0_PORTS_MASK := 0x000;
     NS_PLATFORM_MAC_1_CORE_1_PORTS_MASK := 0x000 |}.

Definition sodium_2x10_cfg : platform :=
  {| NS_PLATFORM_MAC_CORE := fun port => 0;
     NS_PLATFORM_MAC_CORE_SERDES_LO := fun port => Z.shiftl port 2;
     NS_PLATFORM_MAC_CORE_SERDES_HI := fun port => Z.shiftl port 2;
     NS_PLATFORM_MAC_CORE_SERDES_TO_PORT := fun mac core serdes => Z.shiftr serdes 2;
     NS_PLATFORM_MAC_CHANNEL_LO := fun port => Z.shiftl port 4;
     NS_PLATFORM_MAC_CHANNEL_HI := fun port => (Z.shiftl port 4) + 3;
     NS_PLATFORM_MAC_PCP_REMAP := fun pcp => if pcp <=? 3 then pcp else 3;
     NS_PLATFORM_MAC_UNTAGGED_MAP := 3;
     NS_PLATFORM_NUM_PORTS_PER_MAC_0 := 2;
     NS_PLATFORM_NUM_PORTS_PER_MAC_1 := 0;
     NS_PLATFORM_PCLK := 800;
     NS_PLATFORM_PORT_SPEED := fun port => 10;
     NS_PLATFORM_TCLK := 800;
     NS_PLATFORM_MAC_0_CORE_0_PORTS_MASK := 0x011;
     NS_PLATFORM_MAC_0_CORE_1_PORTS_MASK := 0x000;
     NS_PLATFORM_MAC_1_CORE_0_PORTS_MASK := 0x000;
     NS_PLATFORM_MAC_1_CORE_1_PORTS_MASK := 0x000 |}.

Definition cadmium_ddr_1x50_cfg : platform :=
  {| NS_PLATFORM_MAC_CORE := fun port => if port =? 0 then 0 else 1;
     NS_PLATFORM_MAC_CORE_SERDES_LO := fun port => 0;
     NS_PLATFORM_MAC_CORE_SERDES_HI := fun port => 0 + 3;
     NS_PLATFORM_MAC_CORE_SERDES_TO_PORT := fun mac core serdes => if core =? 0 then 0 else 12;
     NS_PLATFORM_MAC_CHANNEL_LO := fun port => if port =? 0 then 0 else 64;
     NS_PLATFORM_MAC_CHANNEL_HI := fun port => (if port =? 0 then 0 else 64) + 3;
     NS_PLATFORM_MAC_PCP_REMAP := fun pcp => if pcp <=? 3 then pcp else 3;
     NS_PLATFORM_MAC_UNTAGGED_MAP := 3;
     NS_PLATFORM_NUM_PORTS_PER_MAC_0 := 1;
     NS_PLATFORM_NUM_PORTS_PER_MAC_1 := 0;
     NS_PLATFORM_PCLK := 500;
     NS_PLATFORM_PORT_SPEED := fun port => if port =? 0 then 50 else 1;
     NS_PLATFORM_TCLK := 500;
     NS_PLATFORM_MAC_0_CORE_0_PORTS_MASK := 0x001;
     NS_PLATFORM_MAC_0_CORE_1_PORTS_MASK := 0x000;
     NS_PLATFORM_MAC_1_CORE_0_PORTS_MASK := 0x000;
     NS_PLATFORM_MAC_1_CORE_1_PORTS_MASK := 0x000 |}.

Definition platform_macros (t : platform_type) : platform :=
  match t with
  | NS_PLATFORM_HYDROGEN => hydrogen_cfg
  | NS_PLATFORM_HYDROGEN_4x10 => hydrogen_4x10_cfg
  | NS_PLATFORM_LITHIUM => lithium_cfg
  | NS_PLATFORM_LITHIUM_1x1_1x10 => lithium_1x1_1x10_cfg
  | NS_PLATFORM_LITHIUM_1x10_1x1 => lithium_1x10_1x1_cfg
  | NS_PLATFORM_LITHIUM_2x1 => lithium_2x1_cfg
  | NS_PLATFORM_BERYLLIUM => beryllium_cfg
  | NS_PLATFORM_BERYLLIUM_4x10_1x40 => beryllium_4x10_1x40_cfg
  | NS_PLATFORM_BERYLLIUM_8x10 => beryllium_8x10_cfg
  | NS_PLATFORM_CARBON => carbon_cfg
  | NS_PLATFORM_CARBON_2x10 => carbon_2x10_cfg
  | NS_PLATFORM_CARBON_1x10_1x25 => carbon_1x10_1x25_cfg
  | NS_PLATFORM_STARFIGHTER_2x40 => starfighter_2x40_cfg
  | NS_PLATFORM_STARFIGHTER_1x100 => starfighter_1x100_cfg
  | NS_PLATFORM_STARFIGHTER_2x40_passive => starfighter_2x40_cfg
  | NS_PLATFORM_SODIUM_2x10 => sodium_2x10_cfg
  | NS_PLATFORM_SODIUM_2x10_crypto => sodium_2x10_cfg
  | NS_PLATFORM_STARFIGHTER_1x100_passive => starfighter_1x100_cfg
  | NS_PLATFORM_CADMIUM_DDR_1x50 => cadmium_ddr_1x50_cfg
  end.

(** ** Macros derived from the board's, common to all boards *)

Section derived.
Context (P : platform).

Definition NS_PLATFORM_MAC (port : Z) : Z :=
  if port <? NS_PLATFORM_NUM_PORTS_PER_MAC_0 P then 0 else 1.

Definition NS_PLATFORM_MAC_CHANNEL (port pcp : Z) : Z :=
  NS_PLATFORM_MAC_CHANNEL_LO P port + NS_PLATFORM_MAC_PCP_REMAP P pcp.

Definition NS_PLATFORM_MAC_CHANNEL_UNTAGGED (port : Z) : Z :=
  NS_PLATFORM_MAC_CHANNEL_LO P port + NS_PLATFORM_MAC_UNTAGGED_MAP P.

Definition NS_PLATFORM_MAC_NUM_SERDES (port : Z) : Z :=
  NS_PLATFORM_MAC_CORE_SERDES_HI P port -
  NS_PLATFORM_MAC_CORE_SERDES_LO P port + 1.

Definition NS_PLATFORM_MAC_SERDES_HI (port : Z) : Z :=
  NS_PLATFORM_MAC_CORE P port * 12 + NS_PLATFORM_MAC_CORE_SERDES_HI P port.

Definition NS_PLATFORM_MAC_SERDES_LO (port : Z) : Z :=
  NS_PLATFORM_MAC_CORE P port * 12 + NS_PLATFORM_MAC_CORE_SERDES_LO P port.

Definition NS_PLATFORM_MAC_SERDES_TO_PORT (mac serdes : Z) : Z :=
  if serdes <? 12 then NS_PLATFORM_MAC_CORE_SERDES_TO_PORT P mac 0 serdes
  else NS_PLATFORM_MAC_CORE_SERDES_TO_PORT P mac 1 (serdes - 12).

Definition NS_PLATFORM_NBI_TM_QID (port pcp l2q : Z) : Z :=
  Z.shiftl (NS_PLATFORM_MAC_CHANNEL port pcp) 3 + l2q.

Definition NS_PLATFORM_NBI_TM_QID_HI (port : Z) : Z :=
  Z.shiftl (NS_PLATFORM_MAC_CHANNEL_HI P port) 3 + 7.

Definition NS_PLATFORM_NBI_TM_QID_LO (port : Z) : Z :=
  Z.shiftl (NS_PLATFORM_MAC_CHANNEL_LO P port) 3.

Definition NS_PLATFORM_NBI_TM_QID_UNTAGGED (port l2q : Z) : Z :=
  Z.shiftl (NS_PLATFORM_MAC_CHANNEL_UNTAGGED port) 3.

Definition NS_PLATFORM_NUM_PORTS : Z :=
  NS_PLATFORM_NUM_PORTS_PER_MAC_0 P + NS_PLATFORM_NUM_PORTS_PER_MAC_1 P.

(** The platform physical ports. *)
Definition ports : list Z := range 0 NS_PLATFORM_NUM_PORTS.
End derived.

(** One firmware image. *)
Record build : Type := {
  NS_PLATFORM_TYPE : platform_type;
  NS_FLAVOR_TYPE : flavor
}.

Definition board (B : build) : platform := platform_macros (NS_PLATFORM_TYPE B).

(** ** Checks that enumerate boards and ports *)

Lemma elem_of_all_platforms t : t ∈ all_platforms.
Proof. apply list_elem_of_In. destruct t; simpl; auto 20. Qed.

(** A decidable fact about every port of every board is checked by
    evaluating it on the finite list of (board, port) pairs. *)
Lemma all_ports_ind (Q : platform -> Z -> Prop) `{!forall P p, Decision (Q P p)} :
  forallb (fun t => forallb (fun p => bool_decide (Q (platform_macros t) p))
                            (ports (platform_macros t))) all_platforms = true ->
  forall t p, 0 <= p < NS_PLATFORM_NUM_PORTS (platform_macros t) ->
  Q (platform_macros t) p.
Proof.
  rewrite forallb_forall. intros Hall t p Hp.
  specialize (Hall t (proj1 (list_elem_of_In _ _) (elem_of_all_platforms t))).
  rewrite forallb_forall in Hall.
  eapply bool_decide_eq_true_1, Hall. by apply list_elem_of_In, elem_of_range.
Qed.

Definition serdes_ok (P : platform) (p : Z) : Prop :=
  0 <= NS_PLATFORM_MAC P p <= 1 /\
  0 <= NS_PLATFORM_MAC_CORE P p <= 1 /\
  0 <= NS_PLATFORM_MAC_CORE_SERDES_LO P p /\
  NS_PLATFORM_MAC_CORE_SERDES_LO P p <= NS_PLATFORM_MAC_CORE_SERDES_HI P p /\
  NS_PLATFORM_MAC_CORE_SERDES_HI P p <= 11 /\
  NS_PLATFORM_MAC_SERDES_TO_PORT P (NS_PLATFORM_MAC P p)
    (NS_PLATFORM_MAC_SERDES_LO P p) = p.

#[export] Instance serdes_ok_dec P p : Decision (serdes_ok P p).
Proof. unfold serdes_ok. apply _. Defined.

Lemma platform_serdes t p :
  0 <= p < NS_PLATFORM_NUM_PORTS (platform_macros t) ->
  serdes_ok (platform_macros t) p.
Proof. apply (all_ports_ind serdes_ok). by vm_compute. Qed.

Definition channels_ok (P : platform) (p : Z) : Prop :=
  0 <= NS_PLATFORM_MAC_CHANNEL_LO P p /\
  NS_PLATFORM_MAC_CHANNEL_HI P p = NS_PLATFORM_MAC_CHANNEL_LO P p + 3 /\
  NS_PLATFORM_MAC_CHANNEL_HI P p <= 127 /\
  Forall (fun q => p <> q ->
    NS_PLATFORM_MAC_CHANNEL_HI P p < NS_PLATFORM_MAC_CHANNEL_LO P q \/
    NS_PLATFORM_MAC_CHANNEL_HI P q < NS_PLATFORM_MAC_CHANNEL_LO P p) (ports P) /\
  NS_PLATFORM_MAC_UNTAGGED_MAP P = 3.

#[export] Instance channels_ok_dec P p : Decision (channels_ok P p).
Proof. unfold channels_ok. apply _. Defined.

Lemma platform_channels t p :
  0 <= p < NS_PLATFORM_NUM_PORTS (platform_macros t) ->
  channels_ok (platform_macros t) p.
Proof. apply (all_ports_ind channels_ok). by vm_compute. Qed.

Lemma platform_num_ports t :
  1 <= NS_PLATFORM_NUM_PORTS (platform_macros t) <= 8.
Proof. destruct t; by vm_compute. Qed.

Lemma pcp_remap_range t pcp :
  0 <= pcp -> 0 <= NS_PLATFORM_MAC_PCP_REMAP (platform_macros t) pcp <= 3.
Proof. intros. destruct t; simpl; destruct (Z.leb_spec pcp 3); lia. Qed.

#[export] Hint Resolve platform_serdes platform_channels : nic.

(** ** What platform.h promises of its macros *)

(** On every board, the NBI traffic-manager queue that platform.h assigns
    to (port, priority, level-2 queue) lies in the queue range
    [QID_LO(port), QID_HI(port)] of its port, every such range lies in
    [0, 1023], and the ranges of two different ports are disjoint: enabling,
    disabling or draining the queues of one port never touches another. *)
Theorem nbi_tm_queues_partition t p q pcp l2q :
  let P := platform_macros t in
  0 <= p < NS_PLATFORM_NUM_PORTS P -> 0 <= q < NS_PLATFORM_NUM_PORTS P ->
  0 <= pcp <= 7 -> 0 <= l2q <= 7 ->
  NS_PLATFORM_NBI_TM_QID_LO P p <= NS_PLATFORM_NBI_TM_QID P p pcp l2q
    <= NS_PLATFORM_NBI_TM_QID_HI P p /\
  0 <= NS_PLATFORM_NBI_TM_QID_LO P p /\ NS_PLATFORM_NBI_TM_QID_HI P p <= 1023 /\
  (p <> q -> NS_PLATFORM_NBI_TM_QID_HI P p < NS_PLATFORM_NBI_TM_QID_LO P q \/
             NS_PLATFORM_NBI_TM_QID_HI P q < NS_PLATFORM_NBI_TM_QID_LO P p).
Proof.
  intros P Hp Hq Hpcp Hl.
  destruct (platform_channels t p Hp) as (Hlo & Hhi & Hmax & Hdisj & _).
  destruct (platform_channels t q Hq) as (_ & Hhi' & _).
  pose proof (pcp_remap_range t pcp ltac:(lia)) as Hr.
  rewrite Forall_forall in Hdisj.
  specialize (Hdisj q (proj1 (list_elem_of_In _ _) (proj2 (elem_of_range _ _ _) Hq))).
  unfold NS_PLATFORM_NBI_TM_QID, NS_PLATFORM_NBI_TM_QID_LO,
    NS_PLATFORM_NBI_TM_QID_HI, NS_PLATFORM_MAC_CHANNEL.
  rewrite !Z.shiftl_mul_pow2 by lia. subst P. lia.
Qed.

Lemma nbi_tm_queues_partition_witness :
  let P := platform_macros NS_PLATFORM_CARBON in
  NS_PLATFORM_NBI_TM_QID P 1 5 2 = 154 /\
  NS_PLATFORM_NBI_TM_QID_HI P 0 < NS_PLATFORM_NBI_TM_QID_LO P 1.
Proof.
  assert (H := nbi_tm_queues_partition NS_PLATFORM_CARBON 0 1 5 2).
  split; [reflexivity|].
  destruct H as (_ & _ & _ & H); [by vm_compute..|].
  destruct (H ltac:(lia)) as [Hc|Hc]; [exact Hc|]. exfalso. by vm_compute in Hc.
Defined.

(** on every board, MAC_SERDES_TO_PORT inverts MAC_SERDES_LO on the
    platform ports, the MAC and core numbers are 0 or 1 and the core SerDes
    numbers are in 0..11, so that MAC SerDes numbers are in 0..23. *)
Theorem serdes_to_port_roundtrip t p :
  let P := platform_macros t in
  0 <= p < NS_PLATFORM_NUM_PORTS P ->
  NS_PLATFORM_MAC_SERDES_TO_PORT P (NS_PLATFORM_MAC P p)
    (NS_PLATFORM_MAC_SERDES_LO P p) = p /\
  0 <= NS_PLATFORM_MAC_SERDES_LO P p <= NS_PLATFORM_MAC_SERDES_HI P p /\
  NS_PLATFORM_MAC_SERDES_HI P p <= 23 /\
  1 <= NS_PLATFORM_MAC_NUM_SERDES P p <= 12.
Proof.
  intros P Hp. destruct (platform_serdes t p Hp) as (_ & Hc & H0 & Hle & H11 & Hrt).
  subst P. split; [done|].
  unfold NS_PLATFORM_MAC_SERDES_LO, NS_PLATFORM_MAC_SERDES_HI,
    NS_PLATFORM_MAC_NUM_SERDES. lia.
Qed.

Lemma serdes_to_port_roundtrip_witness :
  let P := platform_macros NS_PLATFORM_BERYLLIUM_4x10_1x40 in
  NS_PLATFORM_MAC_SERDES_TO_PORT P 0 4 = 4 /\ NS_PLATFORM_MAC_SERDES_HI P 4 <= 23.
Proof.
  destruct (serdes_to_port_roundtrip NS_PLATFORM_BERYLLIUM_4x10_1x40 4) as (H & _ & H' & _).
  - by vm_compute.
  - split; [exact H | exact H'].
Defined.
