(* ===== verification/UserCfg.v ===== *)
(** * Sizes of the NFD configuration: apps/nic/nfd_user_cfg.h

    The numbers of virtual functions, physical functions and queues that the
    header chooses from the number of ports of the board and the firmware
    flavor, and the number of vNICs that follows. *)

From S2P Require Import Prelude Platform.

Definition NVNICS_ABSOLUTE_MAX : Z := 64.

Section sizes.
Context (B : build).

Definition is_sriov : bool := bool_decide (NS_FLAVOR_TYPE B = NS_FLAVOR_SRIOV).
Definition num_ports : Z := NS_PLATFORM_NUM_PORTS (board B).

(** [#ifndef NFD_MAX_VFS] : 0 unless the flavor is SR-IOV. *)
Definition NFD_MAX_VFS : Z :=
  if num_ports >? 8 then (if is_sriov then 40 else 0)
  else if num_ports >? 4 then (if is_sriov then 48 else 0)
  else if num_ports >? 2 then (if is_sriov then 48 else 0)
  else if num_ports >? 1 then (if is_sriov then 48 else 0)
  else (if is_sriov then 56 else 0).

Definition NFD_MAX_PF_QUEUES : Z :=
  if num_ports >? 8 then (if is_sriov then 2 else 4)
  else if num_ports >? 4 then (if is_sriov then 2 else 8)
  else if num_ports >? 2 then (if is_sriov then 4 else 16)
  else if num_ports >? 1 then (if is_sriov then 8 else 32)
  else (if is_sriov then 8 else 64).

Definition NFD_MAX_VF_QUEUES : Z := if negb (NFD_MAX_VFS =? 0) then 1 else 0.
Definition NFD_MAX_PFS : Z := num_ports.
End sizes.

(** [NVNICS]: the number of control vNICs is a constant of the NFD library. *)
Definition NVNICS (B : build) (NFD_MAX_CTRL : Z) : Z :=
  NFD_MAX_PFS B + NFD_MAX_VFS B + NFD_MAX_CTRL.

Definition NFD_CFG_MAX_MTU : Z := 9216.
Definition NFD_BPF_START_OFF : Z := 3072.
Definition NFD_BPF_MAX_LEN : Z := 2560.
Definition APP_ME_CONFIG_CTX : Z := 0.
Definition APP_ME_CONFIG_SIGNAL_NUM : Z := 11.
Definition APP_ME_CONFIG_XFER_NUM : Z := 11.
Definition NFD_QUEUE_CREDITS : Z := 256.
Definition NFD_OUT_RING_SZ : Z := 2 * 16 * 64 * NFD_QUEUE_CREDITS.

Lemma max_vfs_cases B : In (NFD_MAX_VFS B) [0; 40; 48; 56].
Proof.
  unfold NFD_MAX_VFS. repeat case_match; simpl; auto 6.
Qed.

(** on every board and flavor the queues of all physical and virtual
    functions fit in the 64 queues of a PCIe island, the vNICs with one control
    vNIC fit in the absolute maximum, there is at least one physical function
    with at least one queue, and the virtual functions of a VLAN fit in the
    58-bit member mask of the VLAN tables. *)
Theorem nfd_queues_fit B :
  NFD_MAX_PFS B * NFD_MAX_PF_QUEUES B + NFD_MAX_VFS B * NFD_MAX_VF_QUEUES B <= 64 /\
  NVNICS B 1 <= NVNICS_ABSOLUTE_MAX /\
  1 <= NFD_MAX_PFS B <= 8 /\ 1 <= NFD_MAX_PF_QUEUES B /\
  0 <= NFD_MAX_VFS B <= 56.
Proof.
  destruct B as [t f]. destruct t, f; by vm_compute.
Qed.
