(* ===== verification/Nfd.v ===== *)
(** * What the firmware uses of the NFD and NFP libraries

    The firmware is built on headers that are not in the repository: the
    configuration BAR layout and flags of nfp_net_ctrl.h, the vNIC numbering
    of nfd_common.h, the VF mailbox of nfd_vf_cfg_iface.h.  The classes below
    name what the code uses of them; the laws the theorems rely on are in the
    [...Ok] classes, and [Upstream] gives values for which they hold. *)

From S2P Require Import Prelude Platform UserCfg.

(** ** Constants of nfp_net_ctrl.h *)

Class NetCfg := {
  NFP_NET_CFG_CTRL_ENABLE : Z;
  NFP_NET_CFG_CTRL_PROMISC : Z;
  NFP_NET_CFG_CTRL_RXCSUM : Z;
  NFP_NET_CFG_CTRL_TXCSUM : Z;
  NFP_NET_CFG_CTRL_GATHER : Z;
  NFP_NET_CFG_CTRL_LSO : Z;
  NFP_NET_CFG_CTRL_RSS : Z;
  NFP_NET_CFG_CTRL_IRQMOD : Z;
  NFP_NET_CFG_CTRL_MSIXAUTO : Z;
  NFP_NET_CFG_CTRL_VXLAN : Z;
  NFP_NET_CFG_CTRL_NVGRE : Z;
  NFP_NET_CFG_CTRL_BPF : Z;
  NFP_NET_CFG_CTRL_RSS2 : Z;
  NFP_NET_CFG_CTRL_RSS_ANY : Z;
  NFP_NET_CFG_CTRL_CSUM_COMPLETE : Z;
  NFP_NET_CFG_CTRL_CHAIN_META : Z;
  NFP_NET_CFG_CTRL_LIVE_ADDR : Z;
  NFD_CFG_CTRL_CAP : Z;
  NFP_NET_CFG_UPDATE_GEN : Z;
  NFP_NET_CFG_UPDATE_RING : Z;
  NFP_NET_CFG_UPDATE_RSS : Z;
  NFP_NET_CFG_UPDATE_MSIX : Z;
  NFP_NET_CFG_UPDATE_RESET : Z;
  NFP_NET_CFG_UPDATE_IRQMOD : Z;
  NFP_NET_CFG_UPDATE_VXLAN : Z;
  NFP_NET_CFG_UPDATE_BPF : Z;
  NFP_NET_CFG_UPDATE_MACADDR : Z;
  NFP_NET_CFG_UPDATE_VF : Z;
  NFP_NET_CFG_RSS_IPV4_TCP : Z;
  NFP_NET_CFG_RSS_IPV4_UDP : Z;
  NFP_NET_CFG_RSS_IPV6_TCP : Z;
  NFP_NET_CFG_RSS_IPV6_UDP : Z;
  (** byte offsets of the BAR *)
  NFP_NET_CFG_CTRL : Z;
  NFP_NET_CFG_RXRS_ENABLE : Z;
  NFP_NET_CFG_MTU : Z;
  NFP_NET_CFG_FLBUFSZ : Z;
  NFP_NET_CFG_LSC : Z;
  NFP_NET_CFG_MACADDR : Z;
  NFP_NET_CFG_STS : Z;
  NFP_NET_CFG_VXLAN_PORT : Z;
  NFP_NET_CFG_RSS_CTRL : Z;
  NFP_NET_CFG_RSS_KEY : Z;
  NFP_NET_CFG_RSS_ITBL : Z;
  NFP_NET_CFG_ICR : Z -> Z;
  (** sizes and values *)
  NFP_NET_CFG_RSS_ITBL_SZ : Z;
  NFP_NET_N_VXLAN_PORTS : Z;
  NFP_NET_CFG_ICR_LSC : Z;
  NFP_NET_CFG_STS_LINK : Z;
  NFD_CFG_MAJOR_PF : Z;
  NET_ETH_LEN : Z
}.

(** The enable flag is the lowest control bit; the flags that select the shape
    of the action lists are 32-bit values; the VXLAN port table and the RSS
    indirection table have the sizes the transfer registers can hold. *)
Class NetCfgOk `{NetCfg} : Prop := {
  ctrl_enable_bit : NFP_NET_CFG_CTRL_ENABLE = 1;
  sts_link_bit : NFP_NET_CFG_STS_LINK = 1;
  itbl_sz : NFP_NET_CFG_RSS_ITBL_SZ = 128;
  n_vxlan_ports : NFP_NET_N_VXLAN_PORTS = 4;
  eth_len : NET_ETH_LEN = 14
}.

(** ** vNICs *)

Inductive vnic_type : Set := NFD_VNIC_TYPE_PF | NFD_VNIC_TYPE_CTRL | NFD_VNIC_TYPE_VF.

#[export] Instance vnic_type_eq_dec : EqDecision vnic_type.
Proof. solve_decision. Defined.

(** [vid] is the number of a vNIC, [NFD_VID2VNIC vid] its type and its number
    among the vNICs of the type. *)
Class Vids := {
  NFD_MAX_ISL : Z;
  NFD_MAX_CTRL : Z;
  NFD_VID2VNIC : Z -> vnic_type * Z;
  NFD_VID_MAXQS : Z -> Z;
  NFD_VID2NATQ : Z -> Z -> Z;
  NFD_VID2QID : Z -> Z -> Z;
  NFD_PF2VID : Z -> Z;
  NFD_VF2VID : Z -> Z;
  NFD_VID2VF : Z -> Z;
  NFD_VID_IS_VF : Z -> bool;
  (** addresses in memory of the BAR of a vNIC, of the VF mailbox and of the
      mailbox entry of a VF *)
  nfd_cfg_bar_base : Z -> Z -> Z;
  vf_cfg_base_mb : Z -> Z;
  vf_cfg_base_vf : Z -> Z -> Z
}.

(** The numbering is a bijection on the vNICs of the build, and the queues of
    a vNIC are among the 64 natural queues of its island, apart from the
    queues of other vNICs. *)
Class VidsOk (B : build) `{Vids} : Prop := {
  max_isl_range : 1 <= NFD_MAX_ISL <= 4;
  pf_vid p : 0 <= p < NFD_MAX_PFS B ->
    NFD_VID2VNIC (NFD_PF2VID p) = (NFD_VNIC_TYPE_PF, p) /\
    0 <= NFD_PF2VID p < NVNICS B NFD_MAX_CTRL;
  vf_vid v : 0 <= v < NFD_MAX_VFS B ->
    NFD_VID2VNIC (NFD_VF2VID v) = (NFD_VNIC_TYPE_VF, v) /\
    NFD_VID2VF (NFD_VF2VID v) = v /\ NFD_VF2VID v = v /\
    NFD_VID_IS_VF (NFD_VF2VID v) = true;
  vid_vnic vid : 0 <= vid < NVNICS B NFD_MAX_CTRL ->
    match NFD_VID2VNIC vid with
    | (NFD_VNIC_TYPE_PF, n) => vid = NFD_PF2VID n /\ 0 <= n < NFD_MAX_PFS B
    | (NFD_VNIC_TYPE_VF, n) => vid = NFD_VF2VID n /\ 0 <= n < NFD_MAX_VFS B
    | (NFD_VNIC_TYPE_CTRL, n) => 0 <= n < NFD_MAX_CTRL
    end;
  maxqs_range vid : 0 <= vid < NVNICS B NFD_MAX_CTRL ->
    0 <= NFD_VID_MAXQS vid <= 64;
  maxqs_pos vid : 0 <= vid < NVNICS B NFD_MAX_CTRL ->
    (NFD_VID2VNIC vid).1 <> NFD_VNIC_TYPE_CTRL -> 0 < NFD_VID_MAXQS vid;
  natq_range vid i : 0 <= vid < NVNICS B NFD_MAX_CTRL -> 0 <= i < NFD_VID_MAXQS vid ->
    0 <= NFD_VID2NATQ vid i < 64 /\ 0 <= NFD_VID2QID vid i < 64;
  qid_inj vid vid' i i' :
    0 <= vid < NVNICS B NFD_MAX_CTRL -> 0 <= vid' < NVNICS B NFD_MAX_CTRL ->
    0 <= i < NFD_VID_MAXQS vid -> 0 <= i' < NFD_VID_MAXQS vid' ->
    NFD_VID2QID vid i = NFD_VID2QID vid' i' -> vid = vid' /\ i = i'
}.

(** ** The VF mailbox: [struct sriov_cfg] and [struct sriov_mb]

    The structures are read whole; a field is a function of the words read. *)
Class VfCfg := {
  sizeof_sriov_cfg : Z;
  sc_mac_hi : list Z -> Z;
  sc_mac_lo : list Z -> Z;
  sc_vlan_tag : list Z -> Z;
  sc_vlan_id : list Z -> Z;
  sc_ctrl_spoof : list Z -> Z;
  sc_ctrl_trusted : list Z -> Z;
  sc_ctrl_link_state : list Z -> Z;
  sizeof_sriov_mb : Z;
  mb_vf : list Z -> Z;
  mb_update_flags : list Z -> Z;
  NFD_VF_CFG_MB_CAP_MAC : Z;
  NFD_VF_CFG_MB_RET_ofs : Z;
  NFD_VF_CFG_MAC_SZ : Z;
  NFD_VF_CFG_CTRL_LINK_STATE_AUTO : Z;
  NFD_VF_CFG_CTRL_LINK_STATE_ENABLE : Z;
  NFD_VF_CFG_CTRL_LINK_STATE_DISABLE : Z
}.

Class VfCfgOk `{VfCfg} : Prop := {
  sc_mac_hi_fits l : fits 32 (sc_mac_hi l);
  sc_mac_lo_fits l : fits 16 (sc_mac_lo l);
  sc_vlan_tag_fits l : fits 16 (sc_vlan_tag l);
  sc_vlan_id_fits l : fits 12 (sc_vlan_id l);
  link_state_modes :
    NoDup [NFD_VF_CFG_CTRL_LINK_STATE_AUTO; NFD_VF_CFG_CTRL_LINK_STATE_ENABLE;
           NFD_VF_CFG_CTRL_LINK_STATE_DISABLE]
}.

(** ** Capability masks of nfd_user_cfg.h *)

Section caps.
Context `{NetCfg}.

Definition lor_list : list Z -> Z := foldr Z.lor 0.

Definition NFD_CFG_VF_CAP : Z := lor_list
  [NFP_NET_CFG_CTRL_ENABLE; NFP_NET_CFG_CTRL_PROMISC; NFP_NET_CFG_CTRL_RXCSUM;
   NFP_NET_CFG_CTRL_TXCSUM; NFP_NET_CFG_CTRL_MSIXAUTO;
   NFP_NET_CFG_CTRL_CSUM_COMPLETE; NFP_NET_CFG_CTRL_GATHER;
   NFP_NET_CFG_CTRL_LSO; NFP_NET_CFG_CTRL_IRQMOD; NFP_NET_CFG_CTRL_VXLAN].

Definition NFD_CFG_VF_LEGAL_UPD : Z := lor_list
  [NFP_NET_CFG_UPDATE_GEN; NFP_NET_CFG_UPDATE_RING; NFP_NET_CFG_UPDATE_MSIX;
   NFP_NET_CFG_UPDATE_RESET; NFP_NET_CFG_UPDATE_IRQMOD;
   NFP_NET_CFG_UPDATE_MACADDR; NFP_NET_CFG_UPDATE_VXLAN].

(** The CADMIUM_DDR_1x50 board has no PROMISC. *)
Definition NFD_CFG_PF_CAP (B : build) : Z := lor_list
  ((if decide (NS_PLATFORM_TYPE B = NS_PLATFORM_CADMIUM_DDR_1x50) then []
    else [NFP_NET_CFG_CTRL_PROMISC]) ++
   [NFP_NET_CFG_CTRL_ENABLE; NFP_NET_CFG_CTRL_RXCSUM; NFP_NET_CFG_CTRL_TXCSUM;
    NFP_NET_CFG_CTRL_RSS; NFP_NET_CFG_CTRL_RSS2; NFP_NET_CFG_CTRL_MSIXAUTO;
    NFP_NET_CFG_CTRL_CSUM_COMPLETE; NFP_NET_CFG_CTRL_GATHER;
    NFP_NET_CFG_CTRL_LSO; NFP_NET_CFG_CTRL_IRQMOD; NFP_NET_CFG_CTRL_BPF;
    NFP_NET_CFG_CTRL_LIVE_ADDR; NFP_NET_CFG_CTRL_VXLAN; NFP_NET_CFG_CTRL_NVGRE]).

Definition NFD_CFG_PF_LEGAL_UPD : Z := lor_list
  [NFP_NET_CFG_UPDATE_GEN; NFP_NET_CFG_UPDATE_RING; NFP_NET_CFG_UPDATE_RSS;
   NFP_NET_CFG_UPDATE_MSIX; NFP_NET_CFG_UPDATE_RESET; NFP_NET_CFG_UPDATE_IRQMOD;
   NFP_NET_CFG_UPDATE_VXLAN; NFP_NET_CFG_UPDATE_BPF; NFP_NET_CFG_UPDATE_MACADDR;
   NFP_NET_CFG_UPDATE_VF].
End caps.

Lemma sizes_facts B :
  NFD_MAX_VFS B + NFD_MAX_PFS B * NFD_MAX_PF_QUEUES B <= 64 /\
  0 <= NFD_MAX_VFS B <= 56 /\ 1 <= NFD_MAX_PFS B <= 8 /\ 1 <= NFD_MAX_PF_QUEUES B /\
  (NFD_MAX_VFS B = 0 \/ NFD_MAX_VF_QUEUES B = 1).
Proof. destruct B as [[] []]; vm_compute; repeat split; auto; discriminate. Qed.

(** ** Values for the checks on concrete inputs *)

Module Upstream.

#[export] Instance net_cfg : NetCfg := {|
  NFP_NET_CFG_CTRL_ENABLE := 1; NFP_NET_CFG_CTRL_PROMISC := 2;
  NFP_NET_CFG_CTRL_RXCSUM := 2 ^ 4; NFP_NET_CFG_CTRL_TXCSUM := 2 ^ 5;
  NFP_NET_CFG_CTRL_GATHER := 2 ^ 9; NFP_NET_CFG_CTRL_LSO := 2 ^ 10;
  NFP_NET_CFG_CTRL_RSS := 2 ^ 17; NFP_NET_CFG_CTRL_IRQMOD := 2 ^ 18;
  NFP_NET_CFG_CTRL_MSIXAUTO := 2 ^ 20; NFP_NET_CFG_CTRL_VXLAN := 2 ^ 24;
  NFP_NET_CFG_CTRL_NVGRE := 2 ^ 25; NFP_NET_CFG_CTRL_BPF := 2 ^ 27;
  NFP_NET_CFG_CTRL_RSS2 := 2 ^ 29;
  NFP_NET_CFG_CTRL_RSS_ANY := Z.lor (2 ^ 17) (2 ^ 29);
  NFP_NET_CFG_CTRL_CSUM_COMPLETE := 2 ^ 30;
  NFP_NET_CFG_CTRL_CHAIN_META := Z.lor (2 ^ 29) (2 ^ 30);
  NFP_NET_CFG_CTRL_LIVE_ADDR := 2 ^ 31;
  NFD_CFG_CTRL_CAP := 1;
  NFP_NET_CFG_UPDATE_GEN := 1; NFP_NET_CFG_UPDATE_RING := 2;
  NFP_NET_CFG_UPDATE_RSS := 2 ^ 2; NFP_NET_CFG_UPDATE_MSIX := 2 ^ 5;
  NFP_NET_CFG_UPDATE_RESET := 2 ^ 7; NFP_NET_CFG_UPDATE_IRQMOD := 2 ^ 8;
  NFP_NET_CFG_UPDATE_VXLAN := 2 ^ 9; NFP_NET_CFG_UPDATE_BPF := 2 ^ 10;
  NFP_NET_CFG_UPDATE_MACADDR := 2 ^ 11; NFP_NET_CFG_UPDATE_VF := 2 ^ 13;
  NFP_NET_CFG_RSS_IPV4_TCP := 2 ^ 9; NFP_NET_CFG_RSS_IPV4_UDP := 2 ^ 10;
  NFP_NET_CFG_RSS_IPV6_TCP := 2 ^ 12; NFP_NET_CFG_RSS_IPV6_UDP := 2 ^ 13;
  NFP_NET_CFG_CTRL := 0; NFP_NET_CFG_RXRS_ENABLE := 0x10;
  NFP_NET_CFG_MTU := 0x18; NFP_NET_CFG_FLBUFSZ := 0x1c; NFP_NET_CFG_LSC := 0x20;
  NFP_NET_CFG_MACADDR := 0x24; NFP_NET_CFG_STS := 0x34;
  NFP_NET_CFG_VXLAN_PORT := 0x60; NFP_NET_CFG_RSS_CTRL := 0x100;
  NFP_NET_CFG_RSS_KEY := 0x104; NFP_NET_CFG_RSS_ITBL := 0x12c;
  NFP_NET_CFG_ICR := fun n => 0xc00 + n;
  NFP_NET_CFG_RSS_ITBL_SZ := 128; NFP_NET_N_VXLAN_PORTS := 4;
  NFP_NET_CFG_ICR_LSC := 3; NFP_NET_CFG_STS_LINK := 1;
  NFD_CFG_MAJOR_PF := 5; NET_ETH_LEN := 14 |}.

#[export] Instance net_cfg_ok : NetCfgOk.
Proof. by split. Qed.

#[export] Instance vf_cfg : VfCfg := {|
  sizeof_sriov_cfg := 16;
  sc_mac_hi := fun l => u32 (nth 0 l 0);
  sc_mac_lo := fun l => bf_get 16 16 (nth 1 l 0);
  sc_ctrl_trusted := fun l => bf_get 3 1 (nth 1 l 0);
  sc_ctrl_spoof := fun l => bf_get 2 1 (nth 1 l 0);
  sc_ctrl_link_state := fun l => bf_get 0 2 (nth 1 l 0);
  sc_vlan_tag := fun l => bf_get 0 16 (nth 2 l 0);
  sc_vlan_id := fun l => bf_get 0 12 (nth 2 l 0);
  sizeof_sriov_mb := 16;
  mb_vf := fun l => bf_get 0 8 (nth 1 l 0);
  mb_update_flags := fun l => bf_get 16 16 (nth 1 l 0);
  NFD_VF_CFG_MB_CAP_MAC := 1; NFD_VF_CFG_MB_RET_ofs := 2; NFD_VF_CFG_MAC_SZ := 6;
  NFD_VF_CFG_CTRL_LINK_STATE_AUTO := 0; NFD_VF_CFG_CTRL_LINK_STATE_ENABLE := 1;
  NFD_VF_CFG_CTRL_LINK_STATE_DISABLE := 2 |}.

#[export] Instance vf_cfg_ok : VfCfgOk.
Proof.
  split; intros; try (apply bf_get_fits || apply wrap_fits; lia).
  simpl. by apply (bool_decide_unpack _).
Qed.

(** vNICs are numbered VFs first, then PFs, then the control vNIC. *)
Definition vids (B : build) : Vids := {|
  NFD_MAX_ISL := 1; NFD_MAX_CTRL := 1;
  NFD_VID2VNIC := fun vid =>
    if vid <? NFD_MAX_VFS B then (NFD_VNIC_TYPE_VF, vid)
    else if vid <? NFD_MAX_VFS B + NFD_MAX_PFS B
         then (NFD_VNIC_TYPE_PF, vid - NFD_MAX_VFS B)
         else (NFD_VNIC_TYPE_CTRL, vid - NFD_MAX_VFS B - NFD_MAX_PFS B);
  NFD_VID_MAXQS := fun vid =>
    if vid <? NFD_MAX_VFS B then NFD_MAX_VF_QUEUES B
    else if vid <? NFD_MAX_VFS B + NFD_MAX_PFS B then NFD_MAX_PF_QUEUES B else 0;
  NFD_VID2NATQ := fun vid q =>
    if vid <? NFD_MAX_VFS B then vid + q
    else NFD_MAX_VFS B + (vid - NFD_MAX_VFS B) * NFD_MAX_PF_QUEUES B + q;
  NFD_VID2QID := fun vid q =>
    if vid <? NFD_MAX_VFS B then vid + q
    else NFD_MAX_VFS B + (vid - NFD_MAX_VFS B) * NFD_MAX_PF_QUEUES B + q;
  NFD_PF2VID := fun p => NFD_MAX_VFS B + p;
  NFD_VF2VID := fun v => v;
  NFD_VID2VF := fun vid => vid;
  NFD_VID_IS_VF := fun vid => vid <? NFD_MAX_VFS B;
  nfd_cfg_bar_base := fun pcie vid => (pcie * 256 + vid) * 0x8000;
  vf_cfg_base_mb := fun pcie => 0x4000000 + pcie * 0x1000;
  vf_cfg_base_vf := fun pcie vf => 0x4000000 + pcie * 0x1000 + 16 + vf * 16 |}.

#[export] Instance vids_ok B : VidsOk B (H := vids B).
Proof.
  pose proof (sizes_facts B) as (Hq & Hv & Hp & Hpq & Hvq).
  assert (Hpf : forall n, 0 <= n < NFD_MAX_PFS B ->
    n * NFD_MAX_PF_QUEUES B + NFD_MAX_PF_QUEUES B <= NFD_MAX_PFS B * NFD_MAX_PF_QUEUES B)
    by nia.
  assert (Hord : forall n m, 0 <= n < m ->
    n * NFD_MAX_PF_QUEUES B + NFD_MAX_PF_QUEUES B <= m * NFD_MAX_PF_QUEUES B) by nia.
  split;
    cbn -[NFD_MAX_VFS NFD_MAX_PFS NFD_MAX_PF_QUEUES NFD_MAX_VF_QUEUES Z.add Z.sub Z.mul Z.ltb];
    unfold NVNICS; try lia; intros.
  - destruct (Z.ltb_spec (NFD_MAX_VFS B + p) (NFD_MAX_VFS B)); [lia|].
    destruct (Z.ltb_spec (NFD_MAX_VFS B + p) (NFD_MAX_VFS B + NFD_MAX_PFS B)); [|lia].
    split; [f_equal; lia|lia].
  - destruct (Z.ltb_spec v (NFD_MAX_VFS B)); [done|lia].
  - destruct (Z.ltb_spec vid (NFD_MAX_VFS B)); [lia|].
    destruct (Z.ltb_spec vid (NFD_MAX_VFS B + NFD_MAX_PFS B)); lia.
  - destruct (Z.ltb_spec vid (NFD_MAX_VFS B));
      [|destruct (Z.ltb_spec vid (NFD_MAX_VFS B + NFD_MAX_PFS B))]; lia || nia.
  - revert H0. destruct (Z.ltb_spec vid (NFD_MAX_VFS B));
      [|destruct (Z.ltb_spec vid (NFD_MAX_VFS B + NFD_MAX_PFS B))]; simpl; intros; lia || done.
  - revert H0. destruct (Z.ltb_spec vid (NFD_MAX_VFS B));
      [|destruct (Z.ltb_spec vid (NFD_MAX_VFS B + NFD_MAX_PFS B))]; intros; try lia.
    pose proof (Hpf (vid - NFD_MAX_VFS B) ltac:(lia)).
    pose proof (Z.mul_nonneg_nonneg (vid - NFD_MAX_VFS B) (NFD_MAX_PF_QUEUES B)). lia.
  - revert H1 H2 H3.
    destruct (Z.ltb_spec vid (NFD_MAX_VFS B));
      [|destruct (Z.ltb_spec vid (NFD_MAX_VFS B + NFD_MAX_PFS B))];
    (destruct (Z.ltb_spec vid' (NFD_MAX_VFS B));
      [|destruct (Z.ltb_spec vid' (NFD_MAX_VFS B + NFD_MAX_PFS B))]); intros; try lia.
    + pose proof (Z.mul_nonneg_nonneg (vid' - NFD_MAX_VFS B) (NFD_MAX_PF_QUEUES B)). lia.
    + pose proof (Z.mul_nonneg_nonneg (vid - NFD_MAX_VFS B) (NFD_MAX_PF_QUEUES B)). lia.
    + destruct (Z.lt_trichotomy vid vid') as [Hlt|[->|Hlt]]; [|lia|].
      * pose proof (Hord (vid - NFD_MAX_VFS B) (vid' - NFD_MAX_VFS B)). lia.
      * pose proof (Hord (vid' - NFD_MAX_VFS B) (vid - NFD_MAX_VFS B)). lia.
Qed.

End Upstream.

Existing Class build.
