(* ===== verification/Machine.v ===== *)
(** * The state of the application master and the memories it writes

    One record for the memories and registers that the configuration code
    reads and writes.  A memory is a finite map from addresses (or indices) to
    words; what was never written reads as 0, as the loader leaves it. *)

From S2P Require Import Prelude Platform UserCfg Nfd.

(** [struct nic_mac_vlan_key] *)
Record veb_key := mk_veb_key {
  vlan_id : Z; mac_addr_hi : Z; mac_addr_lo : Z
}.

#[export] Instance veb_key_eq_dec : EqDecision veb_key.
Proof. solve_decision. Defined.
#[export] Instance veb_key_countable : Countable veb_key.
Proof.
  apply (inj_countable' (fun k => (vlan_id k, mac_addr_hi k, mac_addr_lo k))
    (fun x => mk_veb_key x.1.1 x.1.2 x.2)). by intros [].
Defined.

(** A message on the work queue of the map engine: [struct nic_mac_vlan_cmsg],
    the action list that follows it, the buffer that holds both, and the
    descriptor. *)
Record map_cmsg := mk_map_cmsg {
  cm_buf : Z;
  cm_word0 : Z; cm_tid : Z; cm_count : Z; cm_flags : Z; cm_key : veb_key;
  action_data : list Z;
  workq_data : list Z
}.

(** What the firmware does to a device that is not plain memory. *)
Inductive bus_event : Type :=
  (** a register on the XPB bus read (with its value) or written *)
  | XpbRead (addr value : Z)
  | XpbWrite (addr value : Z)
  (** a command for the engine that writes the MAC registers *)
  | SyncCmd (ring_isl ring_num word : Z)
  (** the cluster target: registers of other engines, signals, next-neighbour
      registers *)
  | RemoteCsrWrite (island me csr value : Z)
  | CtRead (addr value : Z)
  | CtWrite (addr value : Z)
  | CtSignal (addr : Z)
  | CtNnWrite (addr value : Z)
  (** the PCIe island: address windows, reads of host memory, interrupts *)
  | BarCfgSet (isl idx addr_hi addr_lo req : Z)
  | PcieRead (isl idx addr_hi addr_lo : Z) (data : list Z)
  | MsixSend (pcie bar entry automask result : Z)
  (** the traffic manager: level of a queue *)
  | TmqRead (nbi queue level : Z)
  (** configuration messages of the NFD: asked for, completed *)
  | CfgMsgPoll (pcie : Z) (vid_error : option (Z * Z))
  | CfgMsgDone (pcie vid error bar_base : Z)
  (** calls of the NFD and MSI-X libraries: set up an island or a direction, push
      the packet counters of a queue *)
  | CfgMsgInit (pcie : Z)
  | MsixInit (pcie : Z)
  | NfdInRecvInit
  | NfdOutSendInit
  | NfdInPushPktCnt (pcie q : Z)
  | NfdOutPushPktCnt (pcie q : Z)
  (** the memories of a network block interface: 64-bit words written, given
      as pairs of 32-bit words *)
  | NbiWrite (nbi_hi addr : Z) (data : list Z)
  (** peripherals in the address space of the cluster scratch *)
  | ClsPeriphRead (addr : Z) (data : list Z)
  | ClsPeriphWrite (addr : Z) (data : list Z)
  | Sleep (cycles : Z).

#[export] Instance bus_event_eq_dec : EqDecision bus_event.
Proof. solve_decision. Defined.

(** [mac_match_info_t]: a MAC address and the ports of each NBI that have it *)
Record mac_match_info := mk_mac_match_info {
  match_mac : Z; port_mask0 : Z; port_mask1 : Z
}.

Definition no_match_info : mac_match_info := mk_mac_match_info 0 0 0.

Record nic := mk_nic {
  (** 32-bit words of the external memory, by byte address *)
  emem : gmap Z Z;
  (** cluster local scratch, by island and byte address *)
  cls : gmap (Z * Z) Z;
  (** next-neighbour registers of the worker engines, by engine and number *)
  nn : gmap (Z * Z) Z;
  (** the VLAN member tables of the CTMs, by island and byte offset *)
  vf_vlan_cache : gmap (Z * Z) Z;
  fl_buf_sz_cache : gmap Z Z;
  nic_vlan_to_vnics_map_tbl : gmap (Z * Z) Z;
  nvnic_macs : gmap (Z * Z) Z;
  veb_stored_keys : gmap Z veb_key;
  cfg_error_rss_cntr : Z;
  (** the work queue of the map engine, newest message first, and the numbers
      of CTM buffers and of MU buffers asked for so far *)
  map_cmsg_q : list map_cmsg;
  ctm_allocs : nat;
  blm_allocs : nat;
  (** shared state of the configuration and link state threads *)
  nic_control_word : gmap (Z * Z) Z;
  vs_current : gmap (Z * Z) Z;
  ls_current : gmap (Z * Z) Z;
  pending : gmap (Z * Z) Z;
  vf_lsc_list : gmap (Z * Z * Z) Z;
  mac_reg_lock : Z;
  (** memories of the pre-classifiers, by the upper address word of the NBI and
      the byte address of a 32-bit word *)
  nbi_mem : gmap (Z * Z) Z;
  (** the hash unit of the own island: multiplier register and residues *)
  cls_hash_mult_reg : Z;
  cls_hash_residue : gmap Z Z;
  (** static variables of catamaran_utils.c and catamaran_app_utils.c *)
  mac_match_scalar : Z;
  ctmrn_cls_hash_mult : Z;
  init_cls_hash_mult : Z;
  curr_mac_addr : gmap Z mac_match_info;
  (** what happened on the way to the devices, newest first *)
  bus : list bus_event
}.

(** The field updates, each under a name so that terms stay small. *)
#[export] Instance set_emem : Setter emem := _.
#[export] Instance set_cls : Setter cls := _.
#[export] Instance set_nn : Setter nn := _.
#[export] Instance set_vf_vlan_cache : Setter vf_vlan_cache := _.
#[export] Instance set_fl_buf_sz_cache : Setter fl_buf_sz_cache := _.
#[export] Instance set_nic_vlan_to_vnics_map_tbl : Setter nic_vlan_to_vnics_map_tbl := _.
#[export] Instance set_nvnic_macs : Setter nvnic_macs := _.
#[export] Instance set_veb_stored_keys : Setter veb_stored_keys := _.
#[export] Instance set_cfg_error_rss_cntr : Setter cfg_error_rss_cntr := _.
#[export] Instance set_map_cmsg_q : Setter map_cmsg_q := _.
#[export] Instance set_ctm_allocs : Setter ctm_allocs := _.
#[export] Instance set_blm_allocs : Setter blm_allocs := _.
#[export] Instance set_nic_control_word : Setter nic_control_word := _.
#[export] Instance set_vs_current : Setter vs_current := _.
#[export] Instance set_ls_current : Setter ls_current := _.
#[export] Instance set_pending : Setter pending := _.
#[export] Instance set_vf_lsc_list : Setter vf_lsc_list := _.
#[export] Instance set_mac_reg_lock : Setter mac_reg_lock := _.
#[export] Instance set_nbi_mem : Setter nbi_mem := _.
#[export] Instance set_cls_hash_mult_reg : Setter cls_hash_mult_reg := _.
#[export] Instance set_cls_hash_residue : Setter cls_hash_residue := _.
#[export] Instance set_mac_match_scalar : Setter mac_match_scalar := _.
#[export] Instance set_ctmrn_cls_hash_mult : Setter ctmrn_cls_hash_mult := _.
#[export] Instance set_init_cls_hash_mult : Setter init_cls_hash_mult := _.
#[export] Instance set_curr_mac_addr : Setter curr_mac_addr := _.
#[export] Instance set_bus : Setter bus := _.

(** Compute updates on a record given by its fields. *)
Ltac nic_unfold :=
  cbv [apply_update constant
    set_emem set_cls set_nn set_vf_vlan_cache set_fl_buf_sz_cache
    set_nic_vlan_to_vnics_map_tbl set_nvnic_macs set_veb_stored_keys
    set_cfg_error_rss_cntr set_map_cmsg_q set_ctm_allocs set_blm_allocs
    set_nic_control_word set_vs_current set_ls_current set_pending
    set_vf_lsc_list set_mac_reg_lock set_nbi_mem set_cls_hash_mult_reg
    set_cls_hash_residue set_mac_match_scalar set_ctmrn_cls_hash_mult
    set_init_cls_hash_mult set_curr_mac_addr set_bus];
  cbn [emem cls nn vf_vlan_cache fl_buf_sz_cache nic_vlan_to_vnics_map_tbl
    nvnic_macs veb_stored_keys cfg_error_rss_cntr map_cmsg_q ctm_allocs blm_allocs
    nic_control_word vs_current ls_current pending vf_lsc_list
    mac_reg_lock nbi_mem cls_hash_mult_reg cls_hash_residue mac_match_scalar
    ctmrn_cls_hash_mult init_cls_hash_mult curr_mac_addr bus].

Definition nic0 : nic :=
  mk_nic ∅ ∅ ∅ ∅ ∅ ∅ ∅ ∅ 0 [] 0 0 ∅ ∅ ∅ ∅ ∅ 0 ∅ 0 ∅ 0 0 0 ∅ [].

Abbreviation C := (M nic).

(** ** Memory accesses *)

Definition mem_read32 (addr : Z) : C Z := get (fun s => rd (emem s) addr).
Definition mem_write32 (addr v : Z) : C unit :=
  modify (fun s => s <| emem ::= <[addr := v]> |>).

(** [n] consecutive 32-bit words *)
Definition words (addr : Z) (n : nat) (s : nic) : list Z :=
  (fun i => rd (emem s) (addr + 4 * Z.of_nat i)) <$> seq 0 n.

Definition mem_read32s (addr : Z) (n : nat) : C (list Z) := get (words addr n).

(** A big-endian 64-bit word is two 32-bit words, the upper one first. *)
Definition dword (addr : Z) (s : nic) : Z :=
  Z.lor (Z.shiftl (rd (emem s) addr) 32) (rd (emem s) (addr + 4)).

Definition mem_read64 (addr : Z) : C Z := get (dword addr).

(** Words stored from [a] up *)
Fixpoint mem_put (a : Z) (ws : list Z) (m : gmap Z Z) : gmap Z Z :=
  match ws with
  | [] => m
  | w :: ws' => mem_put (a + 4) ws' (<[a := w]> m)
  end.

(** ** Arrays indexed by island and vNIC: an index out of range is undefined *)

Definition arr_get {K} `{Countable K} (f : nic -> gmap K Z) (ok : bool) (k : K) : C Z :=
  _ ← require ok; get (fun s => rd (f s) k).

(** ** What the application's build gives: the engines to configure, and what
    the program takes from its environment *)

Class App := {
  app_isl_ids : list Z;
  cfg_mes_ids : list Z;
  (** [ffs(x)], a compiler intrinsic: position of the lowest set bit *)
  ffs : Z -> Z;
  (** a byte-swapped 32-bit word, as mem_read32_swap returns it *)
  swap32 : Z -> Z;
  (** result of the n-th allocation of a CTM buffer; CTM_ALLOC_ERR when none *)
  pkt_ctm_alloc : nat -> Z;
  (** result of the n-th call of blm_buf_alloc: the handle of an MU buffer, or
      none (-1); the address that goes with a handle *)
  blm_buf_alloc : nat -> option Z;
  blm_buf_handle2ptr : Z -> Z;
  (** how many calls the model makes before it gives up waiting for a buffer *)
  blm_fuel : nat;
  own_island : Z;
  (** the words of a memory that the host initializes *)
  SLICC_HASH_PAD_DATA : list Z;
  (** values of locals that the code reads before it assigns them: the spare
      bits of the TX_WIRE instruction, [new_vlan_id] of cfg_act_write_veb,
      the local memory at address 0.  They can be anything, and something else
      at each read: they are functions of the state at the read, of which the
      history of the device accesses and messages is a part. *)
  stale_tx_wire : nic -> Z;
  stale_new_vlan_id : nic -> Z;
  stale_lmem0 : nic -> list Z
}.

(** ** Blocks of words in a banked memory *)

(** Write [ws] in bank [k] from [a] up, [step] apart. *)
Fixpoint put (k a step : Z) (ws : list Z) (m : gmap (Z * Z) Z) : gmap (Z * Z) Z :=
  match ws with
  | [] => m
  | w :: ws' => put k (a + step) step ws' (<[(k, a) := w]> m)
  end.

(** The same block in each of the banks [ks]. *)
Definition put_all (ks : list Z) (a step : Z) (ws : list Z) (m : gmap (Z * Z) Z) :=
  foldl (fun m k => put k a step ws m) m ks.

Lemma rd_put_bank k k' a a' step ws m :
  k <> k' -> rd (put k a step ws m) (k', a') = rd m (k', a').
Proof.
  intros Hk. revert a m. induction ws as [|w ws IH]; intros a m; [done|].
  simpl. rewrite IH. apply rd_insert_ne. congruence.
Qed.

Lemma rd_put_out k k' a a' step ws m :
  0 < step -> (a' < a \/ a + step * Z.of_nat (length ws) <= a') ->
  rd (put k a step ws m) (k', a') = rd m (k', a').
Proof.
  intros Hs. revert a m. induction ws as [|w ws IH]; intros a m Ha; [done|].
  simpl length in Ha. simpl. rewrite IH by nia. apply rd_insert_ne.
  intros [= _ ->]. nia.
Qed.

Lemma rd_put_in k a step ws m i w :
  0 < step -> ws !! i = Some w ->
  rd (put k a step ws m) (k, a + step * Z.of_nat i) = w.
Proof.
  intros Hs. revert a m i. induction ws as [|w' ws IH]; intros a m i Hi; [done|].
  simpl. destruct i as [|i]; simpl in Hi.
  - simplify_eq. rewrite rd_put_out by lia.
    replace (a + step * Z.of_nat 0) with a by lia. apply rd_insert_eq.
  - replace (a + step * Z.of_nat (S i)) with (a + step + step * Z.of_nat i) by lia.
    by apply IH.
Qed.

Lemma rd_put_all_out ks k a a' step ws m :
  0 < step -> (a' < a \/ a + step * Z.of_nat (length ws) <= a') \/ k ∉ ks ->
  rd (put_all ks a step ws m) (k, a') = rd m (k, a').
Proof.
  intros Hs. unfold put_all. revert m. induction ks as [|k' ks IH]; intros m Hout; [done|].
  simpl. rewrite IH by (rewrite not_elem_of_cons in Hout; tauto).
  destruct Hout as [Hout|Hout]; [by apply rd_put_out|].
  apply not_elem_of_cons in Hout as [? ?]. by apply rd_put_bank.
Qed.

Lemma rd_put_all_in ks k a step ws m i w :
  0 < step -> k ∈ ks -> ws !! i = Some w ->
  rd (put_all ks a step ws m) (k, a + step * Z.of_nat i) = w.
Proof.
  intros Hs Hk Hi. unfold put_all. revert m. induction ks as [|k' ks IH]; intros m.
  - by apply elem_of_nil in Hk.
  - simpl. destruct (decide (k ∈ ks)) as [Hin|Hout]; [by apply IH|].
    apply elem_of_cons in Hk as [->|]; [|done].
    change (foldl _ (put k' a step ws m) ks) with (put_all ks a step ws (put k' a step ws m)).
    rewrite rd_put_all_out by auto. by apply rd_put_in.
Qed.

Lemma put_app k a step ws1 ws2 m :
  put k a step (ws1 ++ ws2) m =
  put k (a + step * Z.of_nat (length ws1)) step ws2 (put k a step ws1 m).
Proof.
  revert a m. induction ws1 as [|w ws1 IH]; intros a m; simpl.
  - f_equal. lia.
  - rewrite IH. f_equal. lia.
Qed.

Lemma mem_put_app a ws1 ws2 m :
  mem_put a (ws1 ++ ws2) m = mem_put (a + 4 * Z.of_nat (length ws1)) ws2 (mem_put a ws1 m).
Proof.
  revert a m. induction ws1 as [|w ws1 IH]; intros a m; simpl.
  - f_equal. lia.
  - rewrite IH. f_equal. lia.
Qed.

Lemma rd_mem_put_out a a' ws m :
  a' < a \/ a + 4 * Z.of_nat (length ws) <= a' -> rd (mem_put a ws m) a' = rd m a'.
Proof.
  revert a m. induction ws as [|w ws IH]; intros a m Ha; [done|].
  simpl length in Ha. simpl. rewrite IH by lia. apply rd_insert_ne. lia.
Qed.

Lemma rd_mem_put_in a ws m i w : ws !! i = Some w ->
  rd (mem_put a ws m) (a + 4 * Z.of_nat i) = w.
Proof.
  revert a m i. induction ws as [|w' ws IH]; intros a m i Hi; [done|].
  cbn [mem_put]. destruct i as [|i]; simpl in Hi.
  - simplify_eq. rewrite rd_mem_put_out by lia. rewrite Z.add_0_r. apply rd_insert_eq.
  - replace (a + 4 * Z.of_nat (S i)) with (a + 4 + 4 * Z.of_nat i) by lia. by apply IH.
Qed.

(** [n] words from [a] up *)
Definition mem_words (a : Z) (n : nat) (m : gmap Z Z) : list Z :=
  (fun i => rd m (a + 4 * Z.of_nat i)) <$> seq 0 n.

Lemma length_mem_words a n m : length (mem_words a n m) = n.
Proof. unfold mem_words. by rewrite length_fmap, length_seq. Qed.

Lemma mem_words_nth a n m k : (k < n)%nat -> nth k (mem_words a n m) 0 = rd m (a + 4 * Z.of_nat k).
Proof.
  intros Hk. unfold mem_words. rewrite (nth_indep _ 0 (rd m (a + 4 * Z.of_nat 0))) by
    (rewrite length_fmap, length_seq; lia).
  change (fmap ?f (seq 0 n)) with (map f (seq 0 n)).
  rewrite (map_nth (fun i => rd m (a + 4 * Z.of_nat i))), seq_nth by done. done.
Qed.

Lemma mem_words_ext a n m m' :
  (forall i, (i < n)%nat -> rd m (a + 4 * Z.of_nat i) = rd m' (a + 4 * Z.of_nat i)) ->
  mem_words a n m = mem_words a n m'.
Proof.
  intros Hm. unfold mem_words. apply list_fmap_ext. intros i x (-> & Hi)%lookup_seq.
  apply Hm. lia.
Qed.

Lemma mem_words_app a n k m :
  mem_words a (n + k) m = mem_words a n m ++ mem_words (a + 4 * Z.of_nat n) k m.
Proof.
  unfold mem_words. rewrite seq_app, fmap_app. f_equal.
  rewrite <- (Nat.add_comm n 0), <- fmap_add_seq, <- list_fmap_compose. apply list_fmap_ext.
  intros i x _. cbn. f_equal. lia.
Qed.

Lemma take_mem_words a k n m : (k <= n)%nat -> take k (mem_words a n m) = mem_words a k m.
Proof.
  intros Hk. replace n with (k + (n - k))%nat by lia. rewrite mem_words_app.
  by rewrite take_app_length' by (by rewrite length_mem_words).
Qed.

Lemma mem_words_below a b ws m n : a + 4 * Z.of_nat n <= b ->
  mem_words a n (mem_put b ws m) = mem_words a n m.
Proof. intros Hb. apply mem_words_ext. intros x Hx. apply rd_mem_put_out. lia. Qed.

(** What was written is read back. *)
Lemma mem_words_put a ws m : mem_words a (length ws) (mem_put a ws m) = ws.
Proof.
  apply list_eq. intros i. unfold mem_words. rewrite list_lookup_fmap.
  destruct (ws !! i) as [w|] eqn:Hw.
  - pose proof (lookup_lt_Some _ _ _ Hw) as Hi. rewrite lookup_seq_lt by done.
    cbn [fmap option_fmap option_map]. by rewrite (rd_mem_put_in _ _ _ _ w).
  - apply lookup_ge_None_1 in Hw. by rewrite lookup_seq_ge.
Qed.

(** A block holds the words that were written there, as far as they reach. *)
Lemma mem_words_prefix a ws m n : take n ws `prefix_of` mem_words a n (mem_put a ws m).
Proof.
  destruct (decide (n <= length ws)%nat) as [Hn|Hn].
  - rewrite <- (take_mem_words a n (length ws)) by done. by rewrite mem_words_put.
  - replace n with (length ws + (n - length ws))%nat at 2 by lia.
    rewrite mem_words_app, mem_words_put, !take_ge by lia. by eexists.
Qed.

(** ** Frame facts *)

Lemma length_words addr n s : length (words addr n s) = n.
Proof. unfold words. by rewrite length_fmap, length_seq. Qed.

(** ** A build and an environment for the checks on concrete inputs *)

(** The words that the memory of the hash pad is loaded with ([.init] of
    slicc_hash.h), until the host writes others *)
Definition slicc_hash_pad_init : list Z :=
  [0x65694ffa; 0x43c6e6ae; 0x363febf1; 0x13bd5b2d;
   0x94c52ed3; 0xb87f801a; 0x1cdf5125; 0xe5268fc8;
   0xf2deff60; 0x0ba40fa1; 0x7e94d556; 0xf23a4d9a;
   0xf98e8783; 0x2a5503e7; 0x13d49e5b; 0xc624e34f;
   0xb15b73a9; 0xe5e3723a; 0x632e3ee3; 0xa23b25c6;
   0xd080a55d; 0x6fe12427; 0x0966f217; 0x6d5c6402;
   0x0a1f1588; 0x6a88be4b; 0xf6e1a460; 0x7cb27130;
   0x5f5c36d3; 0x1f083364; 0xcb92793c; 0xf3dc4e8f;
   0xfd3caa85; 0xbf9cda4b; 0x0f06c66f; 0x144776fa;
   0x61dc0013; 0x255dee97; 0xd4586ee4; 0xbae3d338].

Module Demo.
Export Upstream.

#[export] Instance sriov_build : build :=
  {| NS_PLATFORM_TYPE := NS_PLATFORM_CARBON; NS_FLAVOR_TYPE := NS_FLAVOR_SRIOV |}.
#[export] Instance sriov_vids : Vids := vids sriov_build.
#[export] Instance sriov_vids_ok : VidsOk sriov_build := vids_ok sriov_build.

(** The first of [n] bits from [k] up that is set. *)
Fixpoint lowest_bit (n : nat) (k x : Z) : Z :=
  match n with
  | O => k
  | S n => if Z.testbit x k then k else lowest_bit n (k + 1) x
  end.

Lemma lowest_bit_spec n : forall k0 k x, k0 <= k < k0 + Z.of_nat n -> Z.testbit x k = true ->
  (forall j, k0 <= j < k -> Z.testbit x j = false) -> lowest_bit n k0 x = k.
Proof.
  induction n as [|n IH]; intros k0 k x Hk Hx Hlow; simpl; [lia|].
  destruct (decide (k0 = k)) as [->|]; [by rewrite Hx|].
  rewrite Hlow by lia. apply IH; [lia|done|]. intros. apply Hlow. lia.
Qed.

#[export] Instance app : App := {|
  app_isl_ids := [0x204; 0x214]; cfg_mes_ids := [0x204; 0x205; 0x214];
  ffs := lowest_bit 32 0;
  swap32 := fun w =>
    Z.lor (Z.lor (Z.shiftl (bf_get 0 8 w) 24) (Z.shiftl (bf_get 8 8 w) 16))
          (Z.lor (Z.shiftl (bf_get 16 8 w) 8) (bf_get 24 8 w));
  pkt_ctm_alloc := fun n => Z.of_nat n mod 512;
  blm_buf_alloc := fun n => Some (Z.of_nat n mod 512);
  blm_buf_handle2ptr := fun h => Z.shiftl h 11;
  blm_fuel := 1;
  own_island := 1;
  SLICC_HASH_PAD_DATA := slicc_hash_pad_init;
  stale_tx_wire := fun _ => 0xdeadbeef; stale_new_vlan_id := fun _ => 4095;
  stale_lmem0 := fun _ => [] |}.
End Demo.
