(* ===== verification/AppPrivate.v ===== *)
(** * State shared by the contexts of the application master:
    apps/nic/app_private.c

    The control word of each vNIC, and bit arrays with one bit for each vNIC:
    vNIC state, link state, pending interrupts, and for each port the vNICs
    that follow its link.  A mutex for the MAC registers. *)

From S2P Require Import Prelude Platform UserCfg Nfd Machine.

Section private.
Context {B : build} `{NetCfg, Vids, VfCfg, App}.

(** ** The mutex

    The contexts of an engine do not preempt each other: testing and taking
    the mutex is one step.  Waiting for a mutex that is held has no result
    here, since no other context runs. *)
Definition LOCAL_MUTEX_LOCK : C unit :=
  held ← get mac_reg_lock;
  _ ← require (negb (truthy held));
  modify (fun s => s <| mac_reg_lock := 1 |>).

Definition LOCAL_MUTEX_UNLOCK : C unit := modify (fun s => s <| mac_reg_lock := 0 |>).

(** ** [nic_control_word[NFD_MAX_ISL][NVNICS]] *)

Definition isl_ok (pcie : Z) : bool := (0 <=? pcie) && (pcie <? NFD_MAX_ISL).
Definition vid_ok (vid : Z) : bool := (0 <=? vid) && (vid <? NVNICS B NFD_MAX_CTRL).

Definition get_nic_control_word (pcie vid : Z) : C Z :=
  arr_get nic_control_word (isl_ok pcie && vid_ok vid) (pcie, vid).

Definition set_nic_control_word (pcie vid control : Z) : C unit :=
  _ ← require (isl_ok pcie && vid_ok vid);
  modify (fun s => s <| nic_control_word ::= <[(pcie, vid) := control]> |>).

(** ** Bit arrays *)

Definition LS_ARRAY_LEN : Z := Z.shiftr (NVNICS B NFD_MAX_CTRL + 31) 5.
Definition LS_IDX (vnic : Z) : Z := Z.shiftr vnic 5.
Definition LS_SHF (vnic : Z) : Z := Z.land vnic 0x1f.
Definition LS_MASK (vnic : Z) : Z := u32 (Z.shiftl 1 (LS_SHF vnic)).

Definition ls_ok (vnic : Z) : bool := (0 <=? LS_IDX vnic) && (LS_IDX vnic <? LS_ARRAY_LEN).

(** The macros take the row of an array: [row i] is the place of its word [i]
    in the map [p], and [ok] says that the row exists. *)
Section rows.
Context {K : Type} `{Countable K} (p : nic -> gmap K Z) `{!Setter p}.
Context (ok : bool) (row : Z -> K).

Definition LS_READ (vnic : Z) : C Z :=
  _ ← require (ok && ls_ok vnic);
  get (fun s => Z.land (Z.shiftr (rd (p s) (row (LS_IDX vnic))) (LS_SHF vnic)) 1).

Definition ls_word (vnic : Z) (f : Z -> Z) : C unit :=
  _ ← require (ok && ls_ok vnic);
  modify (fun s => s <| p ::= fun m => <[row (LS_IDX vnic) := f (rd m (row (LS_IDX vnic)))]> m |>).

Definition LS_CLEAR (vnic : Z) : C unit :=
  ls_word vnic (fun w => Z.land w (u32 (Z.lnot (LS_MASK vnic)))).

Definition LS_SET (vnic : Z) : C unit := ls_word vnic (fun w => Z.lor w (LS_MASK vnic)).

(** [LS_CLEAR(array, vid); array[LS_IDX(vid)] |= (ls << LS_SHF(vid));] *)
Definition ls_store (vid ls : Z) : C unit :=
  _ ← LS_CLEAR vid;
  ls_word vid (fun w => Z.lor w (u32 (Z.shiftl ls (LS_SHF vid)))).
End rows.

Definition isl_row (pcie : Z) (i : Z) : Z * Z := (pcie, i).
Definition port_row (port pcie : Z) (i : Z) : Z * Z * Z := (port, pcie, i).
Definition port_ok (port pcie : Z) : bool :=
  (0 <=? port) && (port <? NS_PLATFORM_NUM_PORTS (board B)) && isl_ok pcie.

Definition get_vs_current (pcie vid : Z) : C Z := LS_READ vs_current (isl_ok pcie) (isl_row pcie) vid.
Definition set_vs_current (pcie vid ls : Z) : C unit :=
  ls_store vs_current (isl_ok pcie) (isl_row pcie) vid ls.
Definition get_ls_current (pcie vid : Z) : C Z := LS_READ ls_current (isl_ok pcie) (isl_row pcie) vid.
Definition set_ls_current (pcie vid ls : Z) : C unit :=
  ls_store ls_current (isl_ok pcie) (isl_row pcie) vid ls.
Definition get_vf_lsc (port pcie vid : Z) : C Z :=
  LS_READ vf_lsc_list (port_ok port pcie) (port_row port pcie) vid.
Definition set_vf_lsc (port pcie vid ls : Z) : C unit :=
  ls_store vf_lsc_list (port_ok port pcie) (port_row port pcie) vid ls.
End private.

#[export] Instance isl_row_inj pcie : Inj (=) (=) (isl_row pcie).
Proof. by intros i j [= ->]. Qed.
#[export] Instance port_row_inj port pcie : Inj (=) (=) (port_row port pcie).
Proof. by intros i j [= ->]. Qed.

(** * Properties *)

Section proofs.
Context {B : build} `{NetCfg, Vids, VfCfg, App}.

Lemma isl_ok_true pcie : 0 <= pcie < NFD_MAX_ISL -> isl_ok pcie = true.
Proof. intros. unfold isl_ok. by rewrite (proj2 (Z.leb_le 0 _)), (proj2 (Z.ltb_lt _ _)) by lia. Qed.

Lemma vid_ok_true vid : 0 <= vid < NVNICS B NFD_MAX_CTRL -> vid_ok vid = true.
Proof. intros. unfold vid_ok. by rewrite (proj2 (Z.leb_le 0 _)), (proj2 (Z.ltb_lt _ _)) by lia. Qed.

Lemma port_ok_true port pcie : 0 <= port < NS_PLATFORM_NUM_PORTS (board B) ->
  0 <= pcie < NFD_MAX_ISL -> port_ok port pcie = true.
Proof.
  intros Hp Hi. unfold port_ok. rewrite isl_ok_true by done.
  by rewrite (proj2 (Z.leb_le 0 _)), (proj2 (Z.ltb_lt _ _)) by lia.
Qed.

Lemma ls_ok_true vnic : 0 <= vnic < NVNICS B NFD_MAX_CTRL -> ls_ok vnic = true.
Proof.
  intros Hv. unfold ls_ok, LS_IDX, LS_ARRAY_LEN. rewrite !Z.shiftr_div_pow2 by lia.
  assert (0 <= vnic / 2 ^ 5) by (apply Z.div_pos; lia).
  assert (vnic / 2 ^ 5 + 1 <= (NVNICS B NFD_MAX_CTRL + 31) / 2 ^ 5).
  { rewrite <- Z.div_add by lia. apply Z.div_le_mono; lia. }
  by rewrite (proj2 (Z.leb_le 0 _)), (proj2 (Z.ltb_lt _ _)) by lia.
Qed.

Lemma ls_shf_mod vnic : LS_SHF vnic = vnic mod 32.
Proof. unfold LS_SHF. change 0x1f with (Z.ones 5). by rewrite Z.land_ones. Qed.

Lemma ls_shf_range vnic : 0 <= LS_SHF vnic < 32.
Proof. rewrite ls_shf_mod. apply Z.mod_pos_bound. lia. Qed.

Lemma wrap_0 n : wrap n 0 = 0.
Proof. apply Zmod_0_l. Qed.

(** A vNIC has a bit of its own. *)
Lemma ls_place_inj v v' : LS_IDX v = LS_IDX v' -> LS_SHF v = LS_SHF v' -> v = v'.
Proof.
  unfold LS_IDX. rewrite !ls_shf_mod, !Z.shiftr_div_pow2 by lia.
  change (2 ^ 5) with 32. intros. Z.to_euclidean_division_equations. lia.
Qed.

Lemma ls_mask_bit vnic i : Z.testbit (LS_MASK vnic) i = (i =? LS_SHF vnic).
Proof.
  unfold LS_MASK. pose proof (ls_shf_range vnic).
  rewrite testbit_wrap by lia. rewrite Z.shiftl_1_l.
  destruct (Z.eqb_spec i (LS_SHF vnic)) as [->|Hne].
  - by rewrite (proj2 (Z.ltb_lt _ 32)), Z.pow2_bits_true by lia.
  - by rewrite Z.pow2_bits_false, andb_false_r by lia.
Qed.

Section rows.
Context {K : Type} `{Countable K} (row : Z -> K) `{!Inj (=) (=) row}.

(** The bit of a vNIC, and the array with that bit changed. *)
Definition lsbit (m : gmap K Z) (vnic : Z) : bool :=
  Z.testbit (rd m (row (LS_IDX vnic))) (LS_SHF vnic).

Definition ls_put (vnic : Z) (b : bool) (m : gmap K Z) : gmap K Z :=
  <[row (LS_IDX vnic) :=
    (if b then Z.lor (rd m (row (LS_IDX vnic))) (LS_MASK vnic)
     else Z.land (rd m (row (LS_IDX vnic))) (u32 (Z.lnot (LS_MASK vnic))))]> m.

Lemma lsbit_put vnic b m v :
  lsbit (ls_put vnic b m) v = if v =? vnic then b else lsbit m v.
Proof.
  unfold lsbit, ls_put. pose proof (ls_shf_range v) as Hs.
  destruct (decide (LS_IDX v = LS_IDX vnic)) as [Hi|Hi].
  - rewrite Hi, rd_insert_eq.
    assert (Hb : (LS_SHF v =? LS_SHF vnic) = (v =? vnic)).
    { destruct (Z.eqb_spec v vnic) as [->|Hne]; [apply Z.eqb_refl|].
      apply Z.eqb_neq. intros Heq. by apply Hne, ls_place_inj. }
    destruct b.
    + rewrite Z.lor_spec, ls_mask_bit, Hb. by destruct (v =? vnic); rewrite ?orb_true_r, ?orb_false_r.
    + rewrite Z.land_spec, testbit_wrap, testbit_lnot, ls_mask_bit, Hb by lia.
      rewrite (proj2 (Z.ltb_lt _ 32)), (proj2 (Z.leb_le 0 _)) by lia. cbn [andb].
      by destruct (v =? vnic); rewrite ?andb_true_r, ?andb_false_r.
  - rewrite rd_insert_ne by (by intros ?%(inj row)). destruct (Z.eqb_spec v vnic) as [->|]; done.
Qed.

(** The array after the clear and the or of [ls_store]. *)
Definition ls_assign (vnic ls : Z) (m : gmap K Z) : gmap K Z :=
  let m1 := ls_put vnic false m in
  <[row (LS_IDX vnic) :=
    Z.lor (rd m1 (row (LS_IDX vnic))) (u32 (Z.shiftl ls (LS_SHF vnic)))]> m1.

Lemma lsbit_assign vnic (b : bool) m v :
  lsbit (ls_assign vnic (b2z b) m) v = if v =? vnic then b else lsbit m v.
Proof.
  pose proof (lsbit_put vnic false m v) as Hc.
  destruct b; cbn [b2z].
  - assert (Hst : lsbit (ls_assign vnic 1 m) v = lsbit (ls_put vnic true (ls_put vnic false m)) v)
      by done.
    rewrite Hst, !lsbit_put. by destruct (v =? vnic).
  - rewrite <- Hc. unfold lsbit, ls_assign. rewrite Z.shiftl_0_l, wrap_0, Z.lor_0_r.
    destruct (decide (LS_IDX v = LS_IDX vnic)) as [->|Hi]; [by rewrite rd_insert_eq|].
    by rewrite rd_insert_ne by (by intros ?%(inj row)).
Qed.

Context (p : nic -> gmap K Z) `{!Setter p} (ok : bool).

Lemma run_LS_READ vnic s : ok = true -> 0 <= vnic < NVNICS B NFD_MAX_CTRL ->
  LS_READ p ok row vnic s = Some (b2z (lsbit (p s) vnic), s).
Proof.
  intros Hok Hv. unfold LS_READ. rewrite run_require by by rewrite Hok, ls_ok_true.
  unfold get, lsbit. pose proof (ls_shf_range vnic). by rewrite land_shiftr_1 by lia.
Qed.

Lemma run_LS_SET vnic s : ok = true -> 0 <= vnic < NVNICS B NFD_MAX_CTRL ->
  LS_SET p ok row vnic s = Some (tt, s <| p ::= ls_put vnic true |>).
Proof. intros Hok Hv. unfold LS_SET, ls_word. by rewrite run_require by by rewrite Hok, ls_ok_true. Qed.

Lemma run_LS_CLEAR vnic s : ok = true -> 0 <= vnic < NVNICS B NFD_MAX_CTRL ->
  LS_CLEAR p ok row vnic s = Some (tt, s <| p ::= ls_put vnic false |>).
Proof. intros Hok Hv. unfold LS_CLEAR, ls_word. by rewrite run_require by by rewrite Hok, ls_ok_true. Qed.

Lemma run_LS_PUT (b : bool) vnic s : ok = true -> 0 <= vnic < NVNICS B NFD_MAX_CTRL ->
  (if b then LS_SET p ok row vnic else LS_CLEAR p ok row vnic) s =
    Some (tt, s <| p ::= ls_put vnic b |>).
Proof. destruct b; [apply run_LS_SET|apply run_LS_CLEAR]. Qed.

Lemma run_ls_store vnic ls s :
  (forall f g s, (s <| p ::= f |>) <| p ::= g |> = s <| p ::= fun x => g (f x) |>) ->
  ok = true -> 0 <= vnic < NVNICS B NFD_MAX_CTRL ->
  ls_store p ok row vnic ls s = Some (tt, s <| p ::= ls_assign vnic ls |>).
Proof.
  intros Hset Hok Hv. unfold ls_store. erewrite run_some by by apply run_LS_CLEAR.
  unfold ls_word. rewrite run_require by by rewrite Hok, ls_ok_true.
  unfold modify. rewrite Hset. reflexivity.
Qed.
End rows.

(** Rows of other islands and ports are not touched. *)
Lemma ls_put_other {K} `{Countable K} (row row' : Z -> K) vnic b m v :
  (forall i j, row i <> row' j) -> lsbit row' (ls_put row vnic b m) v = lsbit row' m v.
Proof. intros Hne. unfold lsbit, ls_put. by rewrite rd_insert_ne. Qed.

Lemma ls_assign_other {K} `{Countable K} (row row' : Z -> K) vnic ls m v :
  (forall i j, row i <> row' j) -> lsbit row' (ls_assign row vnic ls m) v = lsbit row' m v.
Proof.
  intros Hne. unfold ls_assign. rewrite <- (ls_put_other row row' vnic false m v Hne).
  unfold lsbit. by rewrite rd_insert_ne.
Qed.

(** The accessors, on a vNIC in range. *)
Section accessors.
Context (pcie vid : Z) (Hp : 0 <= pcie < NFD_MAX_ISL) (Hv : 0 <= vid < NVNICS B NFD_MAX_CTRL).

Lemma run_get_nic_control_word s :
  get_nic_control_word pcie vid s = Some (rd (nic_control_word s) (pcie, vid), s).
Proof. unfold get_nic_control_word, arr_get. by rewrite run_require by by rewrite isl_ok_true, vid_ok_true. Qed.

Lemma run_set_nic_control_word c s :
  set_nic_control_word pcie vid c s =
    Some (tt, s <| nic_control_word ::= <[(pcie, vid) := c]> |>).
Proof. unfold set_nic_control_word. by rewrite run_require by by rewrite isl_ok_true, vid_ok_true. Qed.

Lemma run_get_vs_current s :
  get_vs_current pcie vid s = Some (b2z (lsbit (isl_row pcie) (vs_current s) vid), s).
Proof. apply run_LS_READ; [by apply isl_ok_true|done]. Qed.

Lemma run_set_vs_current ls s :
  set_vs_current pcie vid ls s = Some (tt, s <| vs_current ::= ls_assign (isl_row pcie) vid ls |>).
Proof. apply run_ls_store; [done|by apply isl_ok_true|done]. Qed.

Lemma run_get_ls_current s :
  get_ls_current pcie vid s = Some (b2z (lsbit (isl_row pcie) (ls_current s) vid), s).
Proof. apply run_LS_READ; [by apply isl_ok_true|done]. Qed.

Lemma run_set_ls_current ls s :
  set_ls_current pcie vid ls s = Some (tt, s <| ls_current ::= ls_assign (isl_row pcie) vid ls |>).
Proof. apply run_ls_store; [done|by apply isl_ok_true|done]. Qed.

Context (port : Z) (Hport : 0 <= port < NS_PLATFORM_NUM_PORTS (board B)).

Lemma run_get_vf_lsc s :
  get_vf_lsc port pcie vid s = Some (b2z (lsbit (port_row port pcie) (vf_lsc_list s) vid), s).
Proof. apply run_LS_READ; [by apply port_ok_true|done]. Qed.

Lemma run_set_vf_lsc ls s :
  set_vf_lsc port pcie vid ls s =
    Some (tt, s <| vf_lsc_list ::= ls_assign (port_row port pcie) vid ls |>).
Proof. apply run_ls_store; [done|by apply port_ok_true|done]. Qed.
End accessors.

(** After set_vf_lsc writes the bit of a vNIC, get_vf_lsc reads that value
    for it and the earlier value for every other vNIC, PCIe island and port,
    although 32 vNICs share a word: the list of vNICs that follow a port's
    link changes in one place only.  The accessors return for every vNIC
    number of the build. *)
Theorem vf_lsc_roundtrip port pcie vid (b : bool) port' pcie' vid' s :
  0 <= port < NS_PLATFORM_NUM_PORTS (board B) -> 0 <= pcie < NFD_MAX_ISL ->
  0 <= vid < NVNICS B NFD_MAX_CTRL ->
  0 <= port' < NS_PLATFORM_NUM_PORTS (board B) -> 0 <= pcie' < NFD_MAX_ISL ->
  0 <= vid' < NVNICS B NFD_MAX_CTRL ->
  exists s', set_vf_lsc port pcie vid (b2z b) s = Some (tt, s') /\
    get_vf_lsc port' pcie' vid' s' =
      (if decide ((port', pcie', vid') = (port, pcie, vid)) then Some (b2z b, s')
       else match get_vf_lsc port' pcie' vid' s with
            | Some (v, _) => Some (v, s')
            | None => None
            end).
Proof.
  intros. eexists. split; [by apply run_set_vf_lsc|].
  rewrite !run_get_vf_lsc by done. st. cbv beta.
  destruct (decide ((port', pcie') = (port, pcie))) as [[= -> ->]|Hne].
  - rewrite (lsbit_assign (port_row port pcie)).
    destruct (Z.eqb_spec vid' vid) as [->|]; [by rewrite decide_True|].
    rewrite decide_False; [done|congruence].
  - rewrite (ls_assign_other (port_row port pcie)) by (intros ?? [= ? ?]; apply Hne; congruence).
    rewrite decide_False; [done|congruence].
Qed.
End proofs.

Section checks.
Import Demo.

Lemma vf_lsc_roundtrip_witness :
  exists s', set_vf_lsc 1 0 33 1 nic0 = Some (tt, s') /\ get_vf_lsc 1 0 32 s' = Some (0, s').
Proof.
  destruct (vf_lsc_roundtrip 1 0 33 true 1 0 32 nic0) as (s' & H1 & H2);
    [vm_compute; split; congruence ..|].
  exists s'. split; [exact H1|]. rewrite H2. reflexivity.
Defined.
End checks.
