(* ===== verification/Bus.v ===== *)
(** * Accesses to the devices

    The operations by which the firmware reaches the devices.  Each is
    recorded in [bus]; what a device answers is a function of that history,
    which is a parameter of the development. *)

From S2P Require Import Prelude Platform UserCfg Nfd Machine.

Class Devices := {
  (** the register at an address on the XPB bus, and on the cluster target *)
  xpb_dev : list bus_event -> Z -> Z;
  ct_dev : list bus_event -> Z -> Z;
  (** the words of host memory from an address up *)
  pcie_dev : list bus_event -> Z -> Z -> Z -> Z -> nat -> Z;
  (** whether an interrupt stays pending: result of msix_pf_send *)
  msix_dev : list bus_event -> Z -> Z -> Z -> Z -> Z;
  (** level of a queue of the traffic manager *)
  tmq_dev : list bus_event -> Z -> Z -> Z;
  (** the configuration message that is waiting at an island, if any: the
      vNIC and the error flag that nfd_cfg_master_chk_cfg_msg sets *)
  cfg_msg_dev : list bus_event -> Z -> option (Z * Z)
}.

Section accesses.
Context `{Devices}.

Definition emit (e : bus_event) : C unit := modify (fun s => s <| bus ::= cons e |>).

Definition xpb_read (addr : Z) : C Z :=
  v ← get (fun s => u32 (xpb_dev (bus s) addr));
  _ ← emit (XpbRead addr v);
  mret v.

Definition xpb_write (addr v : Z) : C unit := emit (XpbWrite addr (u32 v)).

Definition sleep (cycles : Z) : C unit := emit (Sleep cycles).

Definition remote_csr_write (isl me csr v : Z) : C unit := emit (RemoteCsrWrite isl me csr v).

Definition pcie_read (isl idx addr_hi addr_lo : Z) (n : nat) : C (list Z) :=
  d ← get (fun s => (fun i => u32 (pcie_dev (bus s) isl idx addr_hi addr_lo i)) <$> seq 0 n);
  _ ← emit (PcieRead isl idx addr_hi addr_lo d);
  mret d.

Definition tmq_status_read (nbi queue : Z) : C Z :=
  l ← get (fun s => tmq_dev (bus s) nbi queue);
  _ ← emit (TmqRead nbi queue l);
  mret l.

Definition msix_pf_send (pcie bar entry automask : Z) : C Z :=
  r ← get (fun s => msix_dev (bus s) pcie bar entry automask);
  _ ← emit (MsixSend pcie bar entry automask r);
  mret r.
End accesses.

(** * Properties *)

(** A state with another bus history: all that these accesses change. *)
Definition with_bus (h : list bus_event) (s : nic) : nic := s <| bus := h |>.

Lemma with_bus_self s : with_bus (bus s) s = s.
Proof. by destruct s. Qed.

(** Cycles that a history slept *)
Definition slept (h : list bus_event) : Z :=
  foldr (fun e n => match e with Sleep c => c + n | _ => n end) 0 h.

Lemma slept_cons e h : slept (e :: h) = match e with Sleep c => c + slept h | _ => slept h end.
Proof. done. Qed.

Lemma slept_app h h' : slept (h ++ h') = slept h + slept h'.
Proof.
  induction h as [|e h IH]; [done|]. cbn [app].
  rewrite !slept_cons, IH. destruct e; lia.
Qed.

Definition is_read (e : bus_event) : Prop := match e with XpbRead _ _ => True | _ => False end.

Section runs.
Context `{Devices}.

Lemma run_emit e h s : emit e (with_bus h s) = Some (tt, with_bus (e :: h) s).
Proof. done. Qed.

Lemma run_emit_bind {A} e (k : unit -> C A) h s :
  (emit e ≫= k) (with_bus h s) = k tt (with_bus (e :: h) s).
Proof. done. Qed.

Lemma run_emit0 e s : emit e s = Some (tt, with_bus (e :: bus s) s).
Proof. done. Qed.

Lemma run_xpb_read addr h s : xpb_read addr (with_bus h s) =
  Some (u32 (xpb_dev h addr), with_bus (XpbRead addr (u32 (xpb_dev h addr)) :: h) s).
Proof. done. Qed.

Lemma run_xpb_read0 addr s : xpb_read addr s =
  Some (u32 (xpb_dev (bus s) addr), with_bus (XpbRead addr (u32 (xpb_dev (bus s) addr)) :: bus s) s).
Proof. done. Qed.

Lemma run_xpb_write addr v h s : fits 32 v ->
  xpb_write addr v (with_bus h s) = Some (tt, with_bus (XpbWrite addr v :: h) s).
Proof. intros Hv. unfold xpb_write. by rewrite wrap_small, run_emit. Qed.

(** Reading does not change the registers: they keep the values of [h]. *)
Definition steady (h : list bus_event) : Prop := forall h' a,
  Forall is_read h' -> xpb_dev (h' ++ h) a = xpb_dev h a.

Lemma steady_app h h' : steady h -> Forall is_read h' -> steady (h' ++ h).
Proof.
  intros Hst Hr h2 a Hr2. rewrite app_assoc, !Hst; auto. by apply Forall_app.
Qed.

Lemma steady_read h a v a' : steady h -> xpb_dev (XpbRead a v :: h) a' = xpb_dev h a'.
Proof. intros Hst. apply (Hst [_]). by constructor. Qed.
End runs.
