(* ===== verification/Nbi.v ===== *)
(** * Copies to and from the memories of the NBI: lib/npfw/_c/nbi_cpp.c

    The NBI memories hold 64-bit words with the lower 32-bit word first, local
    and external memory hold the upper one first: each copy swaps the words of
    every pair.  The file has each copy three times, with commands that move
    8, 16 or 32 bytes; here the number of words of one command is an argument
    and the functions of the file are its instances. *)

From S2P Require Import Prelude Platform UserCfg Nfd Machine Bus.

(** The transfer registers of a command have a read and a write side, so the
    assignments [data[0] = data[1]; data[1] = data[0]] exchange the words. *)
Fixpoint swap_pairs (ws : list Z) : list Z :=
  match ws with
  | w0 :: w1 :: ws' => w1 :: w0 :: swap_pairs ws'
  | _ => ws
  end.

(** [for (ptr = a; ptr < e; ptr += k)]; the addresses used here stay below
    2^32 - k, so the pointer does not wrap. *)
Fixpoint steps (a k : Z) (count : nat) : list Z :=
  match count with
  | O => []
  | S count => a :: steps (a + k) k count
  end.

Definition ptrs (a e k : Z) : list Z := steps a k (Z.to_nat ((e - a + k - 1) / k)).

(** ** The commands *)

(** [nbi_hi = nbi << 30], the upper address word of an NBI *)
Definition nbi_hi (nbi : Z) : Z := u32 (Z.shiftl nbi 30).

(** [nbi[write, data, nbi_hi, <<8, nbi_ptr, n / 2]] *)
Definition nbi_write (hi ptr : Z) (data : list Z) : C unit :=
  _ ← modify (fun s => s <| nbi_mem ::= put hi ptr 4 data |>);
  emit (NbiWrite hi ptr data).

Definition nbi_words (hi ptr : Z) (n : nat) (m : gmap (Z * Z) Z) : list Z :=
  (fun i => rd m (hi, ptr + 4 * Z.of_nat i)) <$> seq 0 n.

(** [nbi[read, data, nbi_hi, <<8, nbi_ptr, n / 2]] *)
Definition nbi_read (hi ptr : Z) (n : nat) : C (list Z) :=
  get (fun s => nbi_words hi ptr n (nbi_mem s)).

(** [n] words of an array in local memory, which must hold them *)
Definition lmem_read (addr : list Z) (idx n : nat) : C (list Z) :=
  of_option (if (idx + n <=? length addr)%nat then Some (take n (drop idx addr)) else None).

(** The parts of a 40-bit address, and the address they give in a command *)
Definition mem_hi (addr : Z) : Z := Z.land (Z.shiftr addr 8) 0xFF000000.
Definition mem_lo (addr : Z) : Z := Z.land addr 0xFFFFFFFF.
Definition mem_addr (hi ptr : Z) : Z := Z.shiftl hi 8 + ptr.

Definition mem_write (addr : Z) (ws : list Z) : C unit :=
  modify (fun s => s <| emem ::= mem_put addr ws |>).

(** ** The copies, with [n] words in each command *)

Definition lmem2nbi_copy (n : nat) (nbi nbi_addr : Z) (addr : list Z) (size : Z) : C unit :=
  let end_addr := u32 (nbi_addr + size) in
  _ ← for_fold (ptrs nbi_addr end_addr (4 * Z.of_nat n)) 0%nat (fun lmem_idx nbi_ptr =>
        data ← lmem_read addr lmem_idx n;
        _ ← nbi_write (nbi_hi nbi) nbi_ptr (swap_pairs data);
        mret (lmem_idx + n)%nat);
  mret tt.

(** The array that the words are stored to is the result. *)
Definition nbi2lmem_copy (n : nat) (nbi nbi_addr size : Z) : C (list Z) :=
  let end_addr := u32 (nbi_addr + size) in
  for_fold (ptrs nbi_addr end_addr (4 * Z.of_nat n)) [] (fun addr nbi_ptr =>
    data ← nbi_read (nbi_hi nbi) nbi_ptr n;
    mret (addr ++ swap_pairs data)).

Definition mem2nbi_copy (n : nat) (nbi nbi_addr addr size : Z) : C unit :=
  let end_addr := u32 (nbi_addr + size) in
  _ ← for_fold (ptrs nbi_addr end_addr (4 * Z.of_nat n)) (mem_lo addr) (fun mem_ptr nbi_ptr =>
        data ← mem_read32s (mem_addr (mem_hi addr) mem_ptr) n;
        _ ← nbi_write (nbi_hi nbi) nbi_ptr (swap_pairs data);
        mret (u32 (mem_ptr + 4 * Z.of_nat n)));
  mret tt.

Definition nbi2mem_copy (n : nat) (nbi nbi_addr addr size : Z) : C unit :=
  let end_addr := u32 (nbi_addr + size) in
  _ ← for_fold (ptrs nbi_addr end_addr (4 * Z.of_nat n)) (mem_lo addr) (fun mem_ptr nbi_ptr =>
        data ← nbi_read (nbi_hi nbi) nbi_ptr n;
        _ ← mem_write (mem_addr (mem_hi addr) mem_ptr) (swap_pairs data);
        mret (u32 (mem_ptr + 4 * Z.of_nat n)));
  mret tt.

(** The functions of the file: those with a name that begins with [__] take
    the signal to wait for, the others use one of their own. *)
Definition __nbi_cpp_lmem2nbi_copy64 := lmem2nbi_copy 2.
Definition __nbi_cpp_lmem2nbi_copy128 := lmem2nbi_copy 4.
Definition __nbi_cpp_lmem2nbi_copy256 := lmem2nbi_copy 8.
Definition nbi_cpp_lmem2nbi_copy64 := __nbi_cpp_lmem2nbi_copy64.
Definition nbi_cpp_lmem2nbi_copy128 := __nbi_cpp_lmem2nbi_copy128.
Definition nbi_cpp_lmem2nbi_copy256 := __nbi_cpp_lmem2nbi_copy256.

Definition __nbi_cpp_mem2nbi_copy64 := mem2nbi_copy 2.
Definition __nbi_cpp_mem2nbi_copy128 := mem2nbi_copy 4.
Definition __nbi_cpp_mem2nbi_copy256 := mem2nbi_copy 8.
Definition nbi_cpp_mem2nbi_copy64 := __nbi_cpp_mem2nbi_copy64.
Definition nbi_cpp_mem2nbi_copy128 := __nbi_cpp_mem2nbi_copy128.
Definition nbi_cpp_mem2nbi_copy256 := __nbi_cpp_mem2nbi_copy256.

Definition __nbi_cpp_nbi2lmem_copy64 := nbi2lmem_copy 2.
Definition __nbi_cpp_nbi2lmem_copy128 := nbi2lmem_copy 4.
Definition __nbi_cpp_nbi2lmem_copy256 := nbi2lmem_copy 8.
Definition nbi_cpp_nbi2lmem_copy64 := __nbi_cpp_nbi2lmem_copy64.
Definition nbi_cpp_nbi2lmem_copy128 := __nbi_cpp_nbi2lmem_copy128.
Definition nbi_cpp_nbi2lmem_copy256 := __nbi_cpp_nbi2lmem_copy256.

Definition __nbi_cpp_nbi2mem_copy64 := nbi2mem_copy 2.
Definition __nbi_cpp_nbi2mem_copy128 := nbi2mem_copy 4.
Definition __nbi_cpp_nbi2mem_copy256 := nbi2mem_copy 8.
Definition nbi_cpp_nbi2mem_copy64 := __nbi_cpp_nbi2mem_copy64.
Definition nbi_cpp_nbi2mem_copy128 := __nbi_cpp_nbi2mem_copy128.
Definition nbi_cpp_nbi2mem_copy256 := __nbi_cpp_nbi2mem_copy256.

(** * Properties *)

(** A state with other NBI memories and another history: all that a copy to
    them changes. *)
Definition with_nbi (m : gmap (Z * Z) Z) (h : list bus_event) (s : nic) : nic :=
  s <| nbi_mem := m |> <| bus := h |>.

Lemma with_nbi_self s : with_nbi (nbi_mem s) (bus s) s = s.
Proof. by destruct s. Qed.

Lemma with_nbi_bus m h s : with_nbi m h s = with_bus h (s <| nbi_mem := m |>).
Proof. done. Qed.

Lemma nbi_mem_with m h s : nbi_mem (with_nbi m h s) = m.
Proof. done. Qed.

Section pairs.
Lemma pair_ind {A} (P : list A -> Prop) :
  P [] -> (forall x, P [x]) -> (forall x y l, P l -> P (x :: y :: l)) -> forall l, P l.
Proof.
  intros H0 H1 H2. fix IH 1. intros [|x [|y l]]; [done|done|]. apply H2, IH.
Qed.

Lemma length_swap_pairs l : length (swap_pairs l) = length l.
Proof. induction l as [|x|x y l IH] using pair_ind; simpl; auto. Qed.

Lemma swap_pairs_invol l : swap_pairs (swap_pairs l) = l.
Proof. induction l as [|x|x y l IH] using pair_ind; simpl; congruence. Qed.

Lemma swap_pairs_app l1 l2 : Nat.Even (length l1) ->
  swap_pairs (l1 ++ l2) = swap_pairs l1 ++ swap_pairs l2.
Proof.
  induction l1 as [|x|x y l IH] using pair_ind; intros Hev; [done| |].
  - by apply Nat.even_spec in Hev.
  - simpl. rewrite IH; [done|]. apply Nat.even_spec. by apply Nat.even_spec in Hev.
Qed.
End pairs.

(** The events of [c] commands that write [n] words each, newest first. *)
Fixpoint write_events (hi a : Z) (n : nat) (ws : list Z) (c : nat) : list bus_event :=
  match c with
  | O => []
  | S c => write_events hi (a + 4 * Z.of_nat n) n (drop n ws) c ++ [NbiWrite hi a (take n ws)]
  end.

(** A write below the NBI [hi] to the bytes from [lo] up to [up] *)
Definition nbi_write_in (hi lo up : Z) (e : bus_event) : Prop :=
  exists a data, e = NbiWrite hi a data /\ lo <= a /\ a + 4 * Z.of_nat (length data) <= up.

Lemma write_events_in hi n c : forall a ws, length ws = (n * c)%nat ->
  Forall (nbi_write_in hi a (a + 4 * Z.of_nat (n * c))) (write_events hi a n ws c).
Proof.
  induction c as [|c IH]; intros a ws Hlen; simpl; [done|].
  apply Forall_app. split.
  - eapply List.Forall_impl; [|apply IH; rewrite length_drop; lia].
    intros e (a' & d & -> & ? & ?). exists a', d. split; [done|]. nia.
  - constructor; [|done]. exists a, (take n ws). split; [done|]. rewrite length_take. nia.
Qed.

Section loops.

Lemma ptrs_multiple a k c : 0 < k -> ptrs a (a + k * Z.of_nat c) k = steps a k c.
Proof.
  intros Hk. unfold ptrs. f_equal.
  replace (a + k * Z.of_nat c - a + k - 1) with (k - 1 + Z.of_nat c * k) by lia.
  rewrite Z.div_add, Z.div_small by lia. lia.
Qed.

Lemma lmem_read_some (addr : list Z) idx n (s : nic) : (idx + n <= length addr)%nat ->
  lmem_read addr idx n s = Some (take n (drop idx addr), s).
Proof. intros Hle. unfold lmem_read. by rewrite (proj2 (Nat.leb_le _ _) Hle). Qed.

Lemma run_nbi_write hi a ws m h s :
  nbi_write hi a ws (with_nbi m h s) =
  Some (tt, with_nbi (put hi a 4 ws m) (NbiWrite hi a ws :: h) s).
Proof. done. Qed.

Lemma run_nbi_read {A} hi a n (k : list Z -> C A) s :
  (nbi_read hi a n ≫= k) s = k (nbi_words hi a n (nbi_mem s)) s.
Proof. done. Qed.

Lemma run_mem_read32s {A} a n (k : list Z -> C A) s :
  (mem_read32s a n ≫= k) s = k (words a n s) s.
Proof. done. Qed.

Lemma run_mem_write {A} a ws (k : unit -> C A) s :
  (mem_write a ws ≫= k) s = k tt (s <| emem ::= mem_put a ws |>).
Proof. done. Qed.

Lemma even_mul n c : Nat.Even n -> Nat.Even (n * c).
Proof. intros [k ->]. exists (k * c)%nat. lia. Qed.

Lemma take_chunk {A} (l : list A) i n c : (i + n * S c <= length l)%nat ->
  take (n * S c) (drop i l) = take n (drop i l) ++ take (n * c) (drop (i + n) l).
Proof.
  intros Hle. rewrite Nat.mul_succ_r, (Nat.add_comm (n * c) n), <- take_take_drop.
  by rewrite drop_drop.
Qed.

(** The loop of the copies from local memory: [c] commands of [n] words *)
Lemma run_lmem2nbi_loop n hi addr c : Nat.Even n -> forall a i m h s,
  (i + n * c <= length addr)%nat ->
  let ws := swap_pairs (take (n * c) (drop i addr)) in
  for_fold (steps a (4 * Z.of_nat n) c) i (fun lmem_idx nbi_ptr =>
    data ← lmem_read addr lmem_idx n;
    _ ← nbi_write hi nbi_ptr (swap_pairs data);
    mret (lmem_idx + n)%nat) (with_nbi m h s) =
  Some ((i + n * c)%nat, with_nbi (put hi a 4 ws m) (write_events hi a n ws c ++ h) s).
Proof.
  intros Hn. induction c as [|c IH]; intros a i m h s Hle ws.
  { subst ws. rewrite Nat.mul_0_r, Nat.add_0_r. done. }
  assert (Hlen : length (swap_pairs (take n (drop i addr))) = n).
  { rewrite length_swap_pairs, length_take, length_drop. lia. }
  assert (Hws : ws = swap_pairs (take n (drop i addr)) ++
                     swap_pairs (take (n * c) (drop (i + n) addr))).
  { subst ws. rewrite take_chunk, swap_pairs_app by
      (try lia; rewrite length_take, length_drop, Nat.min_l by lia; done). done. }
  cbn [steps for_fold]. rewrite run_assoc.
  erewrite run_some by (apply lmem_read_some; lia). cbv beta.
  rewrite run_assoc. erewrite run_some by apply run_nbi_write. cbv beta. rewrite run_ret.
  rewrite IH by lia. f_equal. f_equal; [lia|].
  rewrite Hws, put_app, Hlen. cbn [write_events].
  rewrite take_app_length', drop_app_length' by done.
  by rewrite <- !app_assoc.
Qed.

(** The loop of the copies to local memory *)
Lemma nbi_words_app hi a n n' m :
  nbi_words hi a (n + n') m = nbi_words hi a n m ++ nbi_words hi (a + 4 * Z.of_nat n) n' m.
Proof.
  unfold nbi_words. rewrite seq_app, fmap_app. f_equal.
  rewrite <- (Nat.add_comm n 0), <- fmap_add_seq, <- list_fmap_compose. apply list_fmap_ext.
  intros i x _. cbn. do 2 f_equal. lia.
Qed.

Lemma length_nbi_words hi a n m : length (nbi_words hi a n m) = n.
Proof. unfold nbi_words. by rewrite length_fmap, length_seq. Qed.

Lemma run_nbi2lmem_loop n hi c : Nat.Even n -> forall a acc s,
  for_fold (steps a (4 * Z.of_nat n) c) acc (fun addr nbi_ptr =>
    data ← nbi_read hi nbi_ptr n;
    mret (addr ++ swap_pairs data)) s =
  Some (acc ++ swap_pairs (nbi_words hi a (n * c) (nbi_mem s)), s).
Proof.
  intros Hn. induction c as [|c IH]; intros a acc s.
  { rewrite Nat.mul_0_r. simpl. by rewrite app_nil_r. }
  cbn [steps for_fold]. rewrite run_assoc, run_nbi_read. runs.
  rewrite IH. f_equal. f_equal. rewrite <- app_assoc. f_equal.
  rewrite Nat.mul_succ_r, (Nat.add_comm (n * c) n), nbi_words_app.
  by rewrite swap_pairs_app by (by rewrite length_nbi_words).
Qed.

(** External memory: reading [n] words after [i] words *)
Lemma words_app a n n' s :
  words a (n + n') s = words a n s ++ words (a + 4 * Z.of_nat n) n' s.
Proof.
  unfold words. rewrite seq_app, fmap_app. f_equal.
  rewrite <- (Nat.add_comm n 0), <- fmap_add_seq, <- list_fmap_compose. apply list_fmap_ext.
  intros i x _. cbn. f_equal. lia.
Qed.

Lemma words_with_nbi a n m h s : words a n (with_nbi m h s) = words a n s.
Proof. done. Qed.

(** The loop of the copies from external memory *)
Lemma run_mem2nbi_loop n hi mhi c : Nat.Even n -> (0 < n)%nat -> forall a p m h s,
  0 <= p -> p + 4 * Z.of_nat (n * c) <= 2 ^ 32 ->
  let ws := swap_pairs (words (mem_addr mhi p) (n * c) s) in
  exists p', for_fold (steps a (4 * Z.of_nat n) c) p (fun mem_ptr nbi_ptr =>
    data ← mem_read32s (mem_addr mhi mem_ptr) n;
    _ ← nbi_write hi nbi_ptr (swap_pairs data);
    mret (u32 (mem_ptr + 4 * Z.of_nat n))) (with_nbi m h s) =
  Some (p', with_nbi (put hi a 4 ws m) (write_events hi a n ws c ++ h) s).
Proof.
  intros Hn Hpos. induction c as [|c IH]; intros a p m h s Hp Hle ws.
  { exists p. subst ws. rewrite Nat.mul_0_r. done. }
  set (p1 := p + 4 * Z.of_nat n).
  assert (Hlen : length (swap_pairs (words (mem_addr mhi p) n s)) = n).
  { by rewrite length_swap_pairs, length_words. }
  assert (Hws : ws = swap_pairs (words (mem_addr mhi p) n s) ++
                     swap_pairs (words (mem_addr mhi p1) (n * c) s)).
  { subst ws p1. rewrite Nat.mul_succ_r, (Nat.add_comm (n * c) n), words_app.
    rewrite swap_pairs_app by (by rewrite length_words). do 3 f_equal. unfold mem_addr. lia. }
  destruct (decide (c = O)) as [->|Hc].
  - exists (u32 p1). cbn [steps for_fold]. rewrite run_assoc, run_mem_read32s, run_assoc.
    erewrite run_some by apply run_nbi_write. cbv beta. runs. rewrite words_with_nbi.
    rewrite Hws. rewrite Nat.mul_0_r. simpl. rewrite app_nil_r.
    by rewrite take_ge by (rewrite Hlen; lia).
  - assert (Hp1 : u32 p1 = p1) by (apply wrap_small; subst p1; unfold fits; nia).
    edestruct (IH (a + 4 * Z.of_nat n) p1) as [p' Hrun]; [subst p1; lia|rewrite Nat.mul_succ_r in Hle; subst p1; lia|].
    exists p'. cbn [steps for_fold]. rewrite run_assoc, run_mem_read32s, run_assoc.
    erewrite run_some by apply run_nbi_write. cbv beta. runs.
    rewrite words_with_nbi. fold p1. rewrite Hp1, Hrun, Hws, put_app, Hlen. cbn [write_events].
    rewrite take_app_length', drop_app_length' by done. by rewrite <- !app_assoc.
Qed.

(** The loop of the copies to external memory *)
Lemma run_nbi2mem_loop n hi mhi c : Nat.Even n -> (0 < n)%nat -> forall a p s,
  0 <= p -> p + 4 * Z.of_nat (n * c) <= 2 ^ 32 ->
  exists p', for_fold (steps a (4 * Z.of_nat n) c) p (fun mem_ptr nbi_ptr =>
    data ← nbi_read hi nbi_ptr n;
    _ ← mem_write (mem_addr mhi mem_ptr) (swap_pairs data);
    mret (u32 (mem_ptr + 4 * Z.of_nat n))) s =
  Some (p', s <| emem := mem_put (mem_addr mhi p)
                   (swap_pairs (nbi_words hi a (n * c) (nbi_mem s))) (emem s) |>).
Proof.
  intros Hn Hpos. induction c as [|c IH]; intros a p s Hp Hle.
  { exists p. rewrite Nat.mul_0_r. simpl. by destruct s. }
  set (p1 := p + 4 * Z.of_nat n). rewrite Nat.mul_succ_r, (Nat.add_comm (n * c) n).
  rewrite nbi_words_app, swap_pairs_app by (by rewrite length_nbi_words).
  rewrite mem_put_app, length_swap_pairs, length_nbi_words.
  replace (mem_addr mhi p + 4 * Z.of_nat n) with (mem_addr mhi p1) by (unfold mem_addr; lia).
  cbn [steps for_fold]. rewrite run_assoc, run_nbi_read, run_assoc, run_mem_write. runs. st.
  destruct (decide (c = O)) as [->|Hc].
  - exists (u32 p1). rewrite Nat.mul_0_r. done.
  - assert (Hp1 : u32 p1 = p1) by (apply wrap_small; subst p1; unfold fits; nia).
    fold p1. rewrite Hp1.
    edestruct (IH (a + 4 * Z.of_nat n) p1) as [p' Hrun]; [subst p1; lia|rewrite Nat.mul_succ_r in Hle; subst p1; lia|].
    exists p'. rewrite Hrun. by destruct s.
Qed.
End loops.

Section copies.

Lemma words_mem_put a ws s : words a (length ws) (s <| emem ::= mem_put a ws |>) = ws.
Proof.
  apply list_eq. intros i. unfold words. rewrite list_lookup_fmap. st.
  destruct (ws !! i) as [w|] eqn:Hi.
  2:{ apply lookup_ge_None in Hi. by rewrite lookup_seq_ge. }
  pose proof (lookup_lt_Some _ _ _ Hi). rewrite lookup_seq_lt by done. simpl. f_equal.
  by apply rd_mem_put_in.
Qed.

Lemma nbi_words_put hi a ws m : nbi_words hi a (length ws) (put hi a 4 ws m) = ws.
Proof.
  apply list_eq. intros i. unfold nbi_words. rewrite list_lookup_fmap.
  destruct (ws !! i) as [w|] eqn:Hi.
  2:{ apply lookup_ge_None in Hi. by rewrite lookup_seq_ge. }
  pose proof (lookup_lt_Some _ _ _ Hi). rewrite lookup_seq_lt by done. simpl. f_equal.
  by apply rd_put_in.
Qed.

Lemma nbi_words_eq hi a n ws m : length ws = n -> nbi_words hi a n (put hi a 4 ws m) = ws.
Proof. intros <-. apply nbi_words_put. Qed.

Lemma nbi_words_put_out hi a n a' ws m :
  a + 4 * Z.of_nat n <= a' \/ a' + 4 * Z.of_nat (length ws) <= a ->
  nbi_words hi a n (put hi a' 4 ws m) = nbi_words hi a n m.
Proof.
  intros Hout. apply list_fmap_ext. intros i x Hi. apply lookup_seq in Hi as [-> Hi].
  apply rd_put_out; lia.
Qed.

Lemma nbi_words_put_bank hi hi' a n a' ws m : hi <> hi' ->
  nbi_words hi a n (put hi' a' 4 ws m) = nbi_words hi a n m.
Proof. intros Hne. apply list_fmap_ext. intros i x _. by apply rd_put_bank. Qed.

Lemma ptrs_copy n c a : (0 < n)%nat -> 0 <= a -> a + 4 * Z.of_nat (n * c) < 2 ^ 32 ->
  ptrs a (u32 (a + 4 * Z.of_nat (n * c))) (4 * Z.of_nat n) = steps a (4 * Z.of_nat n) c.
Proof.
  intros Hn Ha Hle. rewrite wrap_small by (unfold fits; lia). rewrite <- ptrs_multiple by lia.
  f_equal. lia.
Qed.

(** Whole copies, of [c] commands with [n] words each *)
Context (n c : nat) (Heven : Nat.Even n) (Hpos : (0 < n)%nat).
Context (nbi a : Z) (Ha : 0 <= a) (Hle : a + 4 * Z.of_nat (n * c) < 2 ^ 32).

Lemma run_lmem2nbi_copy addr m h s : (n * c <= length addr)%nat ->
  let ws := swap_pairs (take (n * c) addr) in
  lmem2nbi_copy n nbi a addr (4 * Z.of_nat (n * c)) (with_nbi m h s) =
  Some (tt, with_nbi (put (nbi_hi nbi) a 4 ws m) (write_events (nbi_hi nbi) a n ws c ++ h) s).
Proof.
  intros Hlen ws. unfold lmem2nbi_copy. cbv zeta. rewrite ptrs_copy by done.
  erewrite run_some by (apply (run_lmem2nbi_loop n (nbi_hi nbi) addr c Heven a 0); lia). done.
Qed.

Lemma run_nbi2lmem_copy s :
  nbi2lmem_copy n nbi a (4 * Z.of_nat (n * c)) s =
  Some (swap_pairs (nbi_words (nbi_hi nbi) a (n * c) (nbi_mem s)), s).
Proof.
  unfold nbi2lmem_copy. cbv zeta. rewrite ptrs_copy by done. by rewrite run_nbi2lmem_loop.
Qed.

Context (addr : Z) (Hlo : mem_lo addr + 4 * Z.of_nat (n * c) <= 2 ^ 32) (Haddr : fits 40 addr).

Lemma mem_addr_split : mem_addr (mem_hi addr) (mem_lo addr) = addr.
Proof.
  unfold mem_addr, mem_hi, mem_lo. rewrite Z.add_nocarry_lxor.
  2:{ change 0xFF000000 with (Z.shiftl (Z.ones 8) 24). change 0xFFFFFFFF with (Z.ones 32). zbits. }
  change 0xFF000000 with (Z.shiftl (Z.ones 8) 24). change 0xFFFFFFFF with (Z.ones 32). zbits.
  all: rewrite ?xorb_false_l, ?xorb_false_r; zbits_index; done.
Qed.

Lemma mem_lo_nonneg : 0 <= mem_lo addr.
Proof. unfold mem_lo. apply Z.land_nonneg. by right. Qed.

Lemma run_mem2nbi_copy m h s :
  let ws := swap_pairs (words addr (n * c) s) in
  mem2nbi_copy n nbi a addr (4 * Z.of_nat (n * c)) (with_nbi m h s) =
  Some (tt, with_nbi (put (nbi_hi nbi) a 4 ws m) (write_events (nbi_hi nbi) a n ws c ++ h) s).
Proof.
  intros ws. unfold mem2nbi_copy. cbv zeta. rewrite ptrs_copy by done.
  edestruct (run_mem2nbi_loop n (nbi_hi nbi) (mem_hi addr) c Heven Hpos a (mem_lo addr))
    as [p' Hrun]; [apply mem_lo_nonneg|done|].
  erewrite run_some by exact Hrun. by rewrite mem_addr_split.
Qed.

Lemma run_nbi2mem_copy s :
  nbi2mem_copy n nbi a addr (4 * Z.of_nat (n * c)) s =
  Some (tt, s <| emem ::= mem_put addr
    (swap_pairs (nbi_words (nbi_hi nbi) a (n * c) (nbi_mem s))) |>).
Proof.
  unfold nbi2mem_copy. cbv zeta. rewrite ptrs_copy by done.
  edestruct (run_nbi2mem_loop n (nbi_hi nbi) (mem_hi addr) c Heven Hpos a (mem_lo addr))
    as [p' Hrun]; [apply mem_lo_nonneg|done|].
  erewrite run_some by exact Hrun. by rewrite mem_addr_split.
Qed.
End copies.

(** The widths of the commands *)
Lemma copy_widths n k : n ∈ [2; 4; 8]%nat ->
  Nat.Even n /\ (0 < n)%nat /\ exists c, (8 * k = n * c)%nat.
Proof.
  rewrite !elem_of_cons, elem_of_nil. intros [->|[->|[->|[]]]].
  - split; [by exists 1%nat|]. split; [lia|]. exists (4 * k)%nat. lia.
  - split; [by exists 2%nat|]. split; [lia|]. exists (2 * k)%nat. lia.
  - split; [by exists 4%nat|]. split; [lia|]. by exists k.
Qed.

(** The copies of 64, 128 and 256 bits are equivalent.  Whatever the number
    of words of one command, a copy of [32 * k] bytes to the NBI leaves the same
    NBI memory, the words of each pair exchanged, and changes nothing but that
    memory and the history; a copy from the NBI gives the same words. *)
Theorem copies_agree n k nbi a lm addr s :
  n ∈ [2; 4; 8]%nat -> 0 <= a -> a + 32 * Z.of_nat k < 2 ^ 32 ->
  (8 * k <= length lm)%nat -> fits 40 addr -> mem_lo addr + 32 * Z.of_nat k <= 2 ^ 32 ->
  let size := 32 * Z.of_nat k in
  let nbi_ws := swap_pairs (nbi_words (nbi_hi nbi) a (8 * k) (nbi_mem s)) in
  (exists h, lmem2nbi_copy n nbi a lm size s =
     Some (tt, with_nbi (put (nbi_hi nbi) a 4 (swap_pairs (take (8 * k) lm)) (nbi_mem s)) h s)) /\
  (exists h, mem2nbi_copy n nbi a addr size s =
     Some (tt, with_nbi (put (nbi_hi nbi) a 4 (swap_pairs (words addr (8 * k) s)) (nbi_mem s)) h s)) /\
  nbi2lmem_copy n nbi a size s = Some (nbi_ws, s) /\
  nbi2mem_copy n nbi a addr size s = Some (tt, s <| emem ::= mem_put addr nbi_ws |>).
Proof.
  intros Hn Ha Hle Hlen Haddr Hlo size nbi_ws.
  destruct (copy_widths n k Hn) as (Hev & Hpos & c & Hc).
  assert (Hsize : size = 4 * Z.of_nat (n * c)) by (subst size; lia).
  subst nbi_ws. rewrite Hc, Hsize in *. repeat split.
  - eexists. rewrite <- (with_nbi_self s) at 1. apply run_lmem2nbi_copy; auto; lia.
  - eexists. rewrite <- (with_nbi_self s) at 1. apply run_mem2nbi_copy; auto; lia.
  - apply run_nbi2lmem_copy; auto; lia.
  - apply run_nbi2mem_copy; auto; lia.
Qed.

(** Round trip over the NBI.  Words copied from external memory to the NBI
    and from there to another place, by commands of any widths, arrive as they
    were, also where the two places overlap; and the words of an array in local
    memory are read back as they were written. *)
Theorem nbi_roundtrip n n' k nbi a lm addr addr' s :
  n ∈ [2; 4; 8]%nat -> n' ∈ [2; 4; 8]%nat -> 0 <= a -> a + 32 * Z.of_nat k < 2 ^ 32 ->
  length lm = (8 * k)%nat -> fits 40 addr -> fits 40 addr' ->
  mem_lo addr + 32 * Z.of_nat k <= 2 ^ 32 -> mem_lo addr' + 32 * Z.of_nat k <= 2 ^ 32 ->
  let size := 32 * Z.of_nat k in
  (exists s', (mem2nbi_copy n nbi a addr size ≫= fun _ => nbi2mem_copy n' nbi a addr' size) s =
     Some (tt, s') /\ words addr' (8 * k) s' = words addr (8 * k) s) /\
  (exists s', (lmem2nbi_copy n nbi a lm size ≫= fun _ => nbi2lmem_copy n' nbi a size) s =
     Some (lm, s')).
Proof.
  intros Hn Hn' Ha Hle Hlen Haddr Haddr' Hlo Hlo' size.
  destruct (copy_widths n k Hn) as (Hev & Hpos & c & Hc).
  destruct (copy_widths n' k Hn') as (Hev' & Hpos' & c' & Hc').
  assert (Hsize : size = 4 * Z.of_nat (n * c)) by (subst size; lia).
  assert (Hsize' : size = 4 * Z.of_nat (n' * c')) by (subst size; lia).
  rewrite <- (with_nbi_self s). split; eexists.
  - rewrite Hsize at 1. erewrite run_some by (apply run_mem2nbi_copy; auto; lia). cbv beta.
    rewrite Hsize'. split; [apply run_nbi2mem_copy; auto; lia|].
    rewrite <- Hc, <- Hc'. rewrite ?nbi_mem_with.
    rewrite (nbi_words_eq _ _ _ (swap_pairs (words addr (8 * k) s))).
    2:{ by rewrite length_swap_pairs, length_words. }
    rewrite swap_pairs_invol. rewrite <- (length_words addr (8 * k) s) at 1.
    apply words_mem_put.
  - rewrite Hsize at 1. erewrite run_some by (apply run_lmem2nbi_copy; auto; lia). cbv beta.
    rewrite Hsize'. etransitivity; [apply run_nbi2lmem_copy; auto; lia|]. do 2 f_equal.
    rewrite <- Hc, <- Hc'. rewrite ?nbi_mem_with. rewrite take_ge by lia.
    rewrite (nbi_words_eq _ _ _ (swap_pairs lm)) by (by rewrite length_swap_pairs).
    apply swap_pairs_invol.
Qed.

Lemma copies_agree_witness :
  4%nat ∈ [2; 4; 8]%nat /\
  nbi2lmem_copy 4 1 0x301a00 32 (nic0 <| nbi_mem := <[(0x40000000, 0x301a08) := 7]> ∅ |>) =
    Some ([0; 0; 0; 7; 0; 0; 0; 0], nic0 <| nbi_mem := <[(0x40000000, 0x301a08) := 7]> ∅ |>).
Proof.
  assert (Hin : 4%nat ∈ [2; 4; 8]%nat) by (rewrite !elem_of_cons; auto).
  split; [exact Hin|].
  etransitivity.
  - eapply (copies_agree 4 1 1 0x301a00 (seqZ 1 8) 0x8000 _ Hin);
      first [by vm_compute | simpl; lia | split; by vm_compute].
  - by vm_compute.
Defined.

Lemma nbi_roundtrip_witness :
  2%nat ∈ [2; 4; 8]%nat /\
  exists s', (lmem2nbi_copy 2 0 0x300000 (seqZ 1 8) 32 ≫= fun _ =>
    nbi2lmem_copy 8 0 0x300000 32) nic0 = Some (seqZ 1 8, s').
Proof.
  assert (H2 : 2%nat ∈ [2; 4; 8]%nat) by (rewrite !elem_of_cons; auto).
  assert (H8 : 8%nat ∈ [2; 4; 8]%nat) by (rewrite !elem_of_cons; auto).
  split; [exact H2|].
  eapply (nbi_roundtrip 2 8 1 0 0x300000 (seqZ 1 8) 0x8000 0x8008 nic0 H2 H8);
    first [by vm_compute | simpl; lia | split; by vm_compute].
Defined.
