(* ===== verification/NbiPc.v ===== *)
(** * Memories of the pre-classifier: lib/npfw/_c/nbipc_mem.c

    The pre-classifier of an NBI has two copies of each table, and a register
    tells which one its engines use.  A write goes to the copy that is not in
    use, switches the register, waits until no engine uses the old copy, and
    then brings that copy up to date. *)

From S2P Require Import Prelude Platform UserCfg Nfd Machine Bus Nbi.

(** The registers of the pre-classifier: nfp6000/nfp_nbi_pc.h *)
Class NbiPcRegs := {
  NFP_NBI_PC_XPB_OFF : Z -> Z;
  NFP_NBI_PC_CHAR : Z;
  NFP_NBI_PC_CHAR_TABLESET : Z;
  NFP_NBI_PC_CHAR_TABLESET_ACTIVE : Z;
  NFP_NBI_PC_CHAR_TABLESET_CHINUSE : Z -> Z;
  NFP_NBI_PC_CHAR_TABLESET_PEINUSE : Z -> Z;
  NFP_NBI_PC_PE : Z;
  NFP_NBI_PC_PE_SETUP : Z
}.

Definition NBIPC_MEM_ENTRY_SIZE : Z := 16.
Definition NBIPC_ALL_LMEM_BASE : Z := 0x300000 + 0x0.
Definition NBIPC_ALL_SMEM_BASE : Z := 0x300000 + 0x80000.
Definition NBIPC_LMEM_SIZE : Z := 0x4000.
Definition NBIPC_SMEM_SIZE : Z := 0x10000.
Definition NBIPC_TABLE_SET_POLL_TIMEOUT : Z := 100.
Definition NBIPC_XPB_SLEEP : Z := 2000.

Section nbipc.
Context `{Devices, NbiPcRegs}.

Definition NBIPC_TABLE_SET_ADDR (nbi : Z) : Z :=
  Z.lor (Z.lor (NFP_NBI_PC_XPB_OFF nbi) NFP_NBI_PC_CHAR) NFP_NBI_PC_CHAR_TABLESET.

(** What the poll looks at: the old copy in use, by a channel or an engine *)
Definition table_in_use (table_set : Z) : Z :=
  Z.lor (NFP_NBI_PC_CHAR_TABLESET_CHINUSE table_set) (NFP_NBI_PC_CHAR_TABLESET_PEINUSE table_set).

(** The loop that waits for the switch: [Some tt] when it took effect *)
Definition poll_table_set (nbi table_set : Z) : C (option unit) :=
  for_ret (range 0 NBIPC_TABLE_SET_POLL_TIMEOUT) (fun _ =>
    v ← xpb_read (NBIPC_TABLE_SET_ADDR nbi);
    if truthy (Z.land v (table_in_use table_set)) then
      _ ← sleep NBIPC_XPB_SLEEP;
      mret None
    else mret (Some tt)).

(** The two functions that write a table differ in the copy they use; [copy]
    writes the data at an address of the NBI. *)
Definition table_copy (copy : Z -> C unit) (nbi pri_addr sec_addr : Z) : C unit :=
  v ← xpb_read (NBIPC_TABLE_SET_ADDR nbi);
  let table_set := Z.land v NFP_NBI_PC_CHAR_TABLESET_ACTIVE in
  _ ← (if truthy table_set then copy pri_addr else copy sec_addr);
  _ ← xpb_write (NBIPC_TABLE_SET_ADDR nbi)
        (Z.lxor table_set NFP_NBI_PC_CHAR_TABLESET_ACTIVE);
  _ ← poll_table_set nbi table_set;
  when (negb (pri_addr =? sec_addr))
    (if truthy table_set then copy sec_addr else copy pri_addr).

Definition __nbipc_mem_table_copy_from_lmem (nbi pri_addr sec_addr : Z) (addr : list Z)
    (size : Z) : C unit :=
  table_copy (fun nbi_addr => __nbi_cpp_lmem2nbi_copy128 nbi nbi_addr addr size)
    nbi pri_addr sec_addr.

Definition __nbipc_mem_table_set_copy_from_mem (nbi pri_addr sec_addr addr size : Z) : C unit :=
  table_copy (fun nbi_addr => __nbi_cpp_mem2nbi_copy128 nbi nbi_addr addr size)
    nbi pri_addr sec_addr.

(** Writes: local memory (pelm) and shared memory (pesm) of the pre-classifier *)

Definition __nbipc_lmem2pelm_copy (nbi lmem_pri_addr lmem_sec_addr : Z) (addr : list Z)
    (size : Z) : C unit :=
  let pri_addr := u32 (NBIPC_ALL_LMEM_BASE + lmem_pri_addr) in
  let sec_addr := u32 (NBIPC_ALL_LMEM_BASE + lmem_sec_addr) in
  __nbipc_mem_table_copy_from_lmem nbi pri_addr sec_addr addr size.

Definition nbipc_lmem2pelm_copy := __nbipc_lmem2pelm_copy.

Definition __nbipc_lmem2pesm_copy (nbi smem_pri_addr smem_sec_addr : Z) (addr : list Z)
    (size : Z) : C unit :=
  let pri_addr := u32 (NBIPC_ALL_SMEM_BASE + smem_pri_addr) in
  let sec_addr := u32 (NBIPC_ALL_SMEM_BASE + smem_sec_addr) in
  __nbipc_mem_table_copy_from_lmem nbi pri_addr sec_addr addr size.

Definition nbipc_lmem2pesm_copy := __nbipc_lmem2pesm_copy.

Definition __nbipc_mem2pelm_copy (nbi lmem_pri_addr lmem_sec_addr addr size : Z) : C unit :=
  let pri_addr := u32 (NBIPC_ALL_LMEM_BASE + lmem_pri_addr) in
  let sec_addr := u32 (NBIPC_ALL_LMEM_BASE + lmem_sec_addr) in
  __nbipc_mem_table_set_copy_from_mem nbi pri_addr sec_addr addr size.

Definition nbipc_mem2pelm_copy := __nbipc_mem2pelm_copy.

Definition __nbipc_mem2pesm_copy (nbi smem_pri_addr smem_sec_addr addr size : Z) : C unit :=
  let pri_addr := u32 (NBIPC_ALL_SMEM_BASE + smem_pri_addr) in
  let sec_addr := u32 (NBIPC_ALL_SMEM_BASE + smem_sec_addr) in
  __nbipc_mem_table_set_copy_from_mem nbi pri_addr sec_addr addr size.

Definition nbipc_mem2pesm_copy := __nbipc_mem2pesm_copy.
End nbipc.

(** Reads *)

Definition __nbipc_pelm2lmem_copy (nbi lmem_addr size : Z) : C (list Z) :=
  __nbi_cpp_nbi2lmem_copy128 nbi (u32 (NBIPC_ALL_LMEM_BASE + lmem_addr)) size.

Definition nbipc_pelm2lmem_copy (nbi lmem_addr size : Z) : C (list Z) :=
  nbi_cpp_nbi2lmem_copy128 nbi (u32 (NBIPC_ALL_LMEM_BASE + lmem_addr)) size.

Definition __nbipc_pelm2mem_copy (nbi lmem_addr addr size : Z) : C unit :=
  __nbi_cpp_nbi2mem_copy128 nbi (u32 (NBIPC_ALL_LMEM_BASE + lmem_addr)) addr size.

Definition nbipc_pelm2mem_copy (nbi lmem_addr addr size : Z) : C unit :=
  nbi_cpp_nbi2mem_copy128 nbi (u32 (NBIPC_ALL_LMEM_BASE + lmem_addr)) addr size.

Definition __nbipc_pesm2lmem_copy (nbi smem_addr size : Z) : C (list Z) :=
  __nbi_cpp_nbi2lmem_copy128 nbi (u32 (NBIPC_ALL_SMEM_BASE + smem_addr)) size.

Definition nbipc_pesm2lmem_copy (nbi smem_addr size : Z) : C (list Z) :=
  nbi_cpp_nbi2lmem_copy128 nbi (u32 (NBIPC_ALL_SMEM_BASE + smem_addr)) size.

Definition __nbipc_pesm2mem_copy (nbi smem_addr addr size : Z) : C unit :=
  __nbi_cpp_nbi2mem_copy128 nbi (u32 (NBIPC_ALL_SMEM_BASE + smem_addr)) addr size.

Definition nbipc_pesm2mem_copy (nbi smem_addr addr size : Z) : C unit :=
  nbi_cpp_nbi2mem_copy128 nbi (u32 (NBIPC_ALL_SMEM_BASE + smem_addr)) addr size.

(** * Properties *)

(** Polls that found the old copy in use, newest first *)
Definition busy_polls (a : Z) (vs : list Z) : list bus_event :=
  flat_map (fun v => [Sleep NBIPC_XPB_SLEEP; XpbRead a v]) vs.

(** How a poll of at most [n] reads ended: after [n] reads that found the copy
    in use, or at the first read that found it free. *)
Definition poll_outcome (n : nat) (a mask : Z) (p : list bus_event) : Prop :=
  exists vs, Forall (fun v => truthy (Z.land v mask) = true) vs /\
    ((length vs = n /\ p = busy_polls a vs) \/
     ((length vs < n)%nat /\ exists v, Z.land v mask = 0 /\ p = XpbRead a v :: busy_polls a vs)).

Section proofs.
Context `{Devices, NbiPcRegs}.

Lemma poll_outcome_read n a mask v p : truthy (Z.land v mask) = true ->
  poll_outcome n a mask p ->
  poll_outcome (S n) a mask (p ++ [Sleep NBIPC_XPB_SLEEP; XpbRead a v]).
Proof.
  intros Hv (vs & Hvs & Hp). exists (vs ++ [v]). split; [apply Forall_app; auto|].
  rewrite length_app. unfold busy_polls. rewrite flat_map_app. simpl.
  destruct Hp as [[Hlen ->]|[Hlen (v' & Hv' & ->)]]; [left|right]; (split; [lia|]).
  - done.
  - by exists v'.
Qed.

Lemma run_poll_loop nbi table_set (l : list Z) : forall h s, exists p r,
  for_ret l (fun _ =>
    v ← xpb_read (NBIPC_TABLE_SET_ADDR nbi);
    if truthy (Z.land v (table_in_use table_set)) then
      _ ← sleep NBIPC_XPB_SLEEP;
      mret None
    else mret (Some tt)) (with_bus h s) = Some (r, with_bus (p ++ h) s) /\
  poll_outcome (length l) (NBIPC_TABLE_SET_ADDR nbi) (table_in_use table_set) p.
Proof.
  induction l as [|i l IH]; intros h s.
  { exists [], None. split; [done|]. exists []. split; [done|]. by left. }
  cbn [for_ret]. set (v := u32 (xpb_dev h (NBIPC_TABLE_SET_ADDR nbi))).
  destruct (truthy (Z.land v (table_in_use table_set))) eqn:Hv.
  - destruct (IH (Sleep NBIPC_XPB_SLEEP :: XpbRead (NBIPC_TABLE_SET_ADDR nbi) v :: h) s)
      as (p & r & Hrun & Hp).
    exists (p ++ [Sleep NBIPC_XPB_SLEEP; XpbRead (NBIPC_TABLE_SET_ADDR nbi) v]), r.
    split; [|by apply poll_outcome_read]. rewrite <- app_assoc. cbn [app]. rewrite <- Hrun.
    rewrite run_assoc. erewrite run_some by apply run_xpb_read. cbv beta. fold v. rewrite Hv.
    rewrite run_assoc. by erewrite run_some by apply run_emit.
  - exists [XpbRead (NBIPC_TABLE_SET_ADDR nbi) v], (Some tt). split.
    + rewrite run_assoc. erewrite run_some by apply run_xpb_read. cbv beta. fold v. by rewrite Hv.
    + exists []. split; [done|]. right. split; [simpl; lia|]. exists v. split; [|done].
      unfold truthy in Hv. apply negb_false_iff, Z.eqb_eq in Hv. done.
Qed.

(** ** Writing both copies *)

Lemma put_insert_comm hi a ws k v m :
  (k.1 <> hi \/ k.2 < a \/ a + 4 * Z.of_nat (length ws) <= k.2) ->
  put hi a 4 ws (<[k := v]> m) = <[k := v]> (put hi a 4 ws m).
Proof.
  revert a m. induction ws as [|w ws IH]; intros a m Hk; [done|]. cbn [put].
  simpl length in Hk. rewrite insert_insert_ne, IH; [done|lia|].
  destruct k as [k1 k2]. intros [= -> ->]. simpl in Hk. lia.
Qed.

Lemma put_comm hi a a' ws ws' m :
  a + 4 * Z.of_nat (length ws) <= a' \/ a' + 4 * Z.of_nat (length ws') <= a ->
  put hi a 4 ws (put hi a' 4 ws' m) = put hi a' 4 ws' (put hi a 4 ws m).
Proof.
  revert a' m. induction ws' as [|w ws' IH]; intros a' m Hd; [done|]. cbn [put].
  simpl length in Hd. rewrite IH by lia. f_equal. apply put_insert_comm. simpl. lia.
Qed.

Lemma put_put hi a ws m : put hi a 4 ws (put hi a 4 ws m) = put hi a 4 ws m.
Proof.
  revert a m. induction ws as [|w ws IH]; intros a m; [done|]. cbn [put].
  rewrite !(put_insert_comm hi (a + 4) ws (hi, a) w) by (simpl; lia).
  by rewrite IH, insert_insert_eq.
Qed.

(** The history of a write to both copies of a table, the newest first: the
    register read, the shadow copy written, the switch, the poll, and then the
    copy that was in use, unless the table has only one. *)
Definition table_history (nbi pri sec size : Z) (h h' : list bus_event) : Prop :=
  exists v shadow active early polls late,
    h' = late ++ polls ++ XpbWrite (NBIPC_TABLE_SET_ADDR nbi)
           (u32 (Z.lxor (Z.land v NFP_NBI_PC_CHAR_TABLESET_ACTIVE) NFP_NBI_PC_CHAR_TABLESET_ACTIVE))
         :: early ++ XpbRead (NBIPC_TABLE_SET_ADDR nbi) v :: h /\
    (shadow, active) = (if has v NFP_NBI_PC_CHAR_TABLESET_ACTIVE then (pri, sec) else (sec, pri)) /\
    Forall (nbi_write_in (nbi_hi nbi) shadow (shadow + size)) early /\
    Forall (nbi_write_in (nbi_hi nbi) active (active + size)) late /\
    (pri = sec -> late = []) /\
    poll_outcome (Z.to_nat NBIPC_TABLE_SET_POLL_TIMEOUT) (NBIPC_TABLE_SET_ADDR nbi)
      (table_in_use (Z.land v NFP_NBI_PC_CHAR_TABLESET_ACTIVE)) polls.

Lemma run_table_copy copy nbi pri sec ws ev m h s :
  (forall a m h, a = pri \/ a = sec ->
     copy a (with_nbi m h s) =
     Some (tt, with_nbi (put (nbi_hi nbi) a 4 ws m) (ev a ++ h) s) /\
     Forall (nbi_write_in (nbi_hi nbi) a (a + 4 * Z.of_nat (length ws))) (ev a)) ->
  pri = sec \/ pri + 4 * Z.of_nat (length ws) <= sec \/ sec + 4 * Z.of_nat (length ws) <= pri ->
  exists h', table_copy copy nbi pri sec (with_nbi m h s) =
    Some (tt, with_nbi (put (nbi_hi nbi) pri 4 ws (put (nbi_hi nbi) sec 4 ws m)) h' s) /\
    table_history nbi pri sec (4 * Z.of_nat (length ws)) h h'.
Proof.
  intros Hcopy Hd. set (A := NBIPC_TABLE_SET_ADDR nbi). set (hi := nbi_hi nbi).
  set (v := u32 (xpb_dev h A)). set (ts := Z.land v NFP_NBI_PC_CHAR_TABLESET_ACTIVE).
  assert (Hgo : forall sh act, (sh, act) = (if truthy ts then (pri, sec) else (sec, pri)) ->
    exists h', table_copy copy nbi pri sec (with_nbi m h s) =
      Some (tt, with_nbi (if pri =? sec then put hi sh 4 ws m
                          else put hi act 4 ws (put hi sh 4 ws m)) h' s) /\
      table_history nbi pri sec (4 * Z.of_nat (length ws)) h h').
  { intros sh act Hsa. unfold table_copy.
    rewrite with_nbi_bus. erewrite run_some by apply run_xpb_read. cbv beta zeta.
    fold A v ts. rewrite <- with_nbi_bus.
    assert (Hin : (sh = pri \/ sh = sec) /\ (act = pri \/ act = sec)).
    { destruct (truthy ts); injection Hsa; auto. }
    destruct (Hcopy sh m (XpbRead A v :: h) (proj1 Hin)) as [Hsh Hesh].
    erewrite run_some by (destruct (truthy ts); injection Hsa as -> ->; exact Hsh). cbv beta.
    unfold xpb_write. rewrite with_nbi_bus, run_emit_bind.
    edestruct (run_poll_loop nbi ts (range 0 NBIPC_TABLE_SET_POLL_TIMEOUT)) as (p & r & Hp & Hout).
    unfold poll_table_set. erewrite run_some by exact Hp. cbv beta. rewrite <- with_nbi_bus.
    exists ((if pri =? sec then [] else ev act) ++ p ++
      XpbWrite A (u32 (Z.lxor ts NFP_NBI_PC_CHAR_TABLESET_ACTIVE)) :: ev sh ++ XpbRead A v :: h).
    split.
    - destruct (Z.eqb_spec pri sec) as [->|Hne]; cbn [negb when]; [done|].
      destruct (Hcopy act (put hi sh 4 ws m) (p ++
        XpbWrite A (u32 (Z.lxor ts NFP_NBI_PC_CHAR_TABLESET_ACTIVE)) :: ev sh ++ XpbRead A v :: h)
        (proj2 Hin)) as [Hact _].
      destruct (truthy ts); injection Hsa as -> ->; exact Hact.
    - exists v, sh, act, (ev sh), p, (if pri =? sec then [] else ev act).
      split; [done|]. split; [exact Hsa|]. split; [done|]. split.
      { destruct (pri =? sec); [done|]. apply (Hcopy act m h (proj2 Hin)). }
      split; [by intros ->; rewrite Z.eqb_refl|]. exact Hout. }
  destruct (truthy ts) eqn:Hts.
  - destruct (Hgo pri sec eq_refl) as (h' & Hrun & Hh). exists h'. split; [|done]. rewrite Hrun.
    do 3 f_equal. destruct (Z.eqb_spec pri sec) as [->|]; [by rewrite put_put|].
    apply put_comm. lia.
  - destruct (Hgo sec pri eq_refl) as (h' & Hrun & Hh). exists h'. split; [|done]. rewrite Hrun.
    do 3 f_equal. destruct (Z.eqb_spec pri sec) as [->|]; [by rewrite put_put|done].
Qed.

(** Two copies of a table: the same place, or apart, below the end of memory *)
Definition table_places (pri sec size : Z) : Prop :=
  0 <= pri /\ 0 <= sec /\ pri + size < 2 ^ 32 /\ sec + size < 2 ^ 32 /\
  (pri = sec \/ pri + size <= sec \/ sec + size <= pri).

(** Both copies hold [ws] and nothing else has changed. *)
Definition both_written (nbi pri sec : Z) (ws : list Z) (s s' : nic) : Prop :=
  s' = with_nbi (put (nbi_hi nbi) pri 4 ws (put (nbi_hi nbi) sec 4 ws (nbi_mem s))) (bus s') s.

Lemma even4 : Nat.Even 4.
Proof. by exists 2%nat. Qed.

Lemma run_copy_from_lmem nbi pri sec lm c s :
  (4 * c <= length lm)%nat -> table_places pri sec (16 * Z.of_nat c) ->
  exists s', __nbipc_mem_table_copy_from_lmem nbi pri sec lm (16 * Z.of_nat c) s = Some (tt, s') /\
    both_written nbi pri sec (swap_pairs (take (4 * c) lm)) s s' /\
    table_history nbi pri sec (16 * Z.of_nat c) (bus s) (bus s').
Proof.
  intros Hlen (Hp & Hs & Hpe & Hse & Hd).
  set (ws := swap_pairs (take (4 * c) lm)).
  assert (Hws : length ws = (4 * c)%nat) by (subst ws; rewrite length_swap_pairs, length_take; lia).
  replace (16 * Z.of_nat c) with (4 * Z.of_nat (4 * c)) in * by lia.
  destruct (run_table_copy (fun a => __nbi_cpp_lmem2nbi_copy128 nbi a lm (4 * Z.of_nat (4 * c)))
    nbi pri sec ws (fun a => write_events (nbi_hi nbi) a 4 ws c) (nbi_mem s) (bus s) s)
    as (h' & Hrun & Hh).
  - intros a m h Ha. split.
    + apply run_lmem2nbi_copy; [apply even4| |lia..]. lia.
    + rewrite Hws. by apply write_events_in.
  - rewrite Hws. lia.
  - rewrite with_nbi_self in Hrun. eexists. split; [exact Hrun|]. split; [done|].
    rewrite Hws in Hh. exact Hh.
Qed.

Lemma run_copy_from_mem nbi pri sec addr c s :
  fits 40 addr -> mem_lo addr + 16 * Z.of_nat c <= 2 ^ 32 ->
  table_places pri sec (16 * Z.of_nat c) ->
  exists s', __nbipc_mem_table_set_copy_from_mem nbi pri sec addr (16 * Z.of_nat c) s = Some (tt, s') /\
    both_written nbi pri sec (swap_pairs (words addr (4 * c) s)) s s' /\
    table_history nbi pri sec (16 * Z.of_nat c) (bus s) (bus s').
Proof.
  intros Haddr Hlo (Hp & Hs & Hpe & Hse & Hd).
  set (ws := swap_pairs (words addr (4 * c) s)).
  assert (Hws : length ws = (4 * c)%nat) by (subst ws; by rewrite length_swap_pairs, length_words).
  replace (16 * Z.of_nat c) with (4 * Z.of_nat (4 * c)) in * by lia.
  destruct (run_table_copy (fun a => __nbi_cpp_mem2nbi_copy128 nbi a addr (4 * Z.of_nat (4 * c)))
    nbi pri sec ws (fun a => write_events (nbi_hi nbi) a 4 ws c) (nbi_mem s) (bus s) s)
    as (h' & Hrun & Hh).
  - intros a m h Ha. split.
    + apply run_mem2nbi_copy; first [apply even4 | done | lia].
    + rewrite Hws. by apply write_events_in.
  - rewrite Hws. lia.
  - rewrite with_nbi_self in Hrun. eexists. split; [exact Hrun|]. split; [done|].
    rewrite Hws in Hh. exact Hh.
Qed.

Lemma slept_writes hi lo up h : Forall (nbi_write_in hi lo up) h -> slept h = 0.
Proof. induction 1 as [|e h (a & d & -> & _) _ IH]; done. Qed.

Lemma slept_busy a vs : slept (busy_polls a vs) = NBIPC_XPB_SLEEP * Z.of_nat (length vs).
Proof.
  unfold busy_polls. induction vs as [|v vs IH]; [done|].
  cbn [flat_map app]. rewrite !slept_cons, IH. simpl length. lia.
Qed.

Lemma slept_history nbi pri sec size h h' :
  table_history nbi pri sec size h h' ->
  slept h' <= slept h + NBIPC_TABLE_SET_POLL_TIMEOUT * NBIPC_XPB_SLEEP.
Proof.
  intros (v & sh & act & early & p & late & -> & _ & Hearly & Hlate & _ & vs & _ & Hp).
  rewrite !slept_app, !slept_cons, slept_app, slept_cons.
  rewrite (slept_writes _ _ _ _ Hearly), (slept_writes _ _ _ _ Hlate).
  destruct Hp as [[Hlen ->]|[Hlen (v' & _ & ->)]]; rewrite ?slept_cons, slept_busy; unfold NBIPC_XPB_SLEEP, NBIPC_TABLE_SET_POLL_TIMEOUT in *; lia.
Qed.

(** A table of the pre-classifier that is written from local memory or from
    external memory ends with the same new words in both of its copies, also
    when the switch times out; no other word of NBI memory changes, and nothing
    else of the state but the history. *)
Theorem table_both_copies nbi pri sec lm addr c s :
  (4 * c <= length lm)%nat -> fits 40 addr -> mem_lo addr + 16 * Z.of_nat c <= 2 ^ 32 ->
  table_places pri sec (16 * Z.of_nat c) ->
  let lm_ws := swap_pairs (take (4 * c) lm) in
  let mem_ws := swap_pairs (words addr (4 * c) s) in
  (exists s', __nbipc_mem_table_copy_from_lmem nbi pri sec lm (16 * Z.of_nat c) s = Some (tt, s') /\
     both_written nbi pri sec lm_ws s s' /\
     nbi_words (nbi_hi nbi) pri (4 * c) (nbi_mem s') = lm_ws /\
     nbi_words (nbi_hi nbi) sec (4 * c) (nbi_mem s') = lm_ws) /\
  (exists s', __nbipc_mem_table_set_copy_from_mem nbi pri sec addr (16 * Z.of_nat c) s = Some (tt, s') /\
     both_written nbi pri sec mem_ws s s' /\
     nbi_words (nbi_hi nbi) pri (4 * c) (nbi_mem s') = mem_ws /\
     nbi_words (nbi_hi nbi) sec (4 * c) (nbi_mem s') = mem_ws).
Proof.
  intros Hlen Haddr Hlo Hpl lm_ws mem_ws.
  assert (Hboth : forall ws s', length ws = (4 * c)%nat -> both_written nbi pri sec ws s s' ->
    nbi_words (nbi_hi nbi) pri (4 * c) (nbi_mem s') = ws /\
    nbi_words (nbi_hi nbi) sec (4 * c) (nbi_mem s') = ws).
  { intros ws s' Hws ->. rewrite nbi_mem_with, nbi_words_eq by done. split; [done|].
    destruct Hpl as (_ & _ & _ & _ & [->|Hd]); [by rewrite put_put, nbi_words_eq|].
    rewrite nbi_words_put_out by lia. by apply nbi_words_eq. }
  split.
  - destruct (run_copy_from_lmem nbi pri sec lm c s Hlen Hpl) as (s' & Hrun & Hw & _).
    exists s'. split; [done|]. split; [done|]. apply Hboth; [|done].
    subst lm_ws. rewrite length_swap_pairs, length_take. lia.
  - destruct (run_copy_from_mem nbi pri sec addr c s Haddr Hlo Hpl) as (s' & Hrun & Hw & _).
    exists s'. split; [done|]. split; [done|]. apply Hboth; [|done].
    subst mem_ws. by rewrite length_swap_pairs, length_words.
Qed.

(** The copy of a table that the engines use is not touched before they
    have been told to use the other one: every word written before the switch
    goes to the shadow copy, every word after it to the other copy, and between
    them the register has been read until no channel and no engine used that
    copy, or 100 times. *)
Theorem table_shadow_first nbi pri sec lm c s :
  (4 * c <= length lm)%nat -> table_places pri sec (16 * Z.of_nat c) ->
  exists s', __nbipc_mem_table_copy_from_lmem nbi pri sec lm (16 * Z.of_nat c) s = Some (tt, s') /\
    table_history nbi pri sec (16 * Z.of_nat c) (bus s) (bus s').
Proof.
  intros Hlen Hpl. destruct (run_copy_from_lmem nbi pri sec lm c s Hlen Hpl) as (s' & Hrun & _ & Hh).
  eauto.
Qed.

(** Writing a table terminates for every behaviour of the register, also
    when the old copy stays in use for ever, and sleeps 200000 cycles at most. *)
Theorem table_copy_terminates nbi pri sec lm addr c s :
  (4 * c <= length lm)%nat -> fits 40 addr -> mem_lo addr + 16 * Z.of_nat c <= 2 ^ 32 ->
  table_places pri sec (16 * Z.of_nat c) ->
  (exists s', __nbipc_mem_table_copy_from_lmem nbi pri sec lm (16 * Z.of_nat c) s = Some (tt, s') /\
     slept (bus s') <= slept (bus s) + 200000) /\
  (exists s', __nbipc_mem_table_set_copy_from_mem nbi pri sec addr (16 * Z.of_nat c) s = Some (tt, s') /\
     slept (bus s') <= slept (bus s) + 200000).
Proof.
  intros Hlen Haddr Hlo Hpl. split.
  - destruct (run_copy_from_lmem nbi pri sec lm c s Hlen Hpl) as (s' & Hrun & _ & Hh).
    exists s'. split; [done|]. by apply slept_history in Hh.
  - destruct (run_copy_from_mem nbi pri sec addr c s Haddr Hlo Hpl) as (s' & Hrun & _ & Hh).
    exists s'. split; [done|]. by apply slept_history in Hh.
Qed.
End proofs.

(** ** Entries of 16 bytes: what the clients of this file use *)

(** Entry [j] of the memories of the pre-classifier of [nbi]: the local memory
    is entries 0 to 0x3ff, the shared memory begins at entry 0x8000. *)
Definition pc_entry (nbi j : Z) (m : gmap (Z * Z) Z) : list Z :=
  swap_pairs (nbi_words (nbi_hi nbi) (NBIPC_ALL_LMEM_BASE + 16 * j) 4 m).

Definition set_pc_entry (nbi j : Z) (data : list Z) (m : gmap (Z * Z) Z) : gmap (Z * Z) Z :=
  put (nbi_hi nbi) (NBIPC_ALL_LMEM_BASE + 16 * j) 4 (swap_pairs data) m.

Definition SMEM_ENTRY : Z := 0x8000.

Lemma length_pc_entry nbi j m : length (pc_entry nbi j m) = 4%nat.
Proof. unfold pc_entry. by rewrite length_swap_pairs, length_nbi_words. Qed.

Lemma nbi_hi_inj nbi nbi' : 0 <= nbi < 2 -> 0 <= nbi' < 2 -> nbi_hi nbi = nbi_hi nbi' -> nbi = nbi'.
Proof.
  intros H1 H2. assert (nbi = 0 \/ nbi = 1) as [->| ->] by lia;
    assert (nbi' = 0 \/ nbi' = 1) as [->| ->] by lia; (done || by vm_compute).
Qed.

Lemma pc_entry_set nbi j nbi' j' data m :
  0 <= nbi < 2 -> 0 <= nbi' < 2 -> length data = 4%nat ->
  pc_entry nbi j (set_pc_entry nbi' j' data m) =
  if decide (nbi = nbi' /\ j = j') then data else pc_entry nbi j m.
Proof.
  intros H1 H2 Hlen. unfold pc_entry, set_pc_entry. case_decide as Hd.
  - destruct Hd as [-> ->]. rewrite nbi_words_eq by (by rewrite length_swap_pairs).
    apply swap_pairs_invol.
  - f_equal. destruct (decide (nbi = nbi')) as [->|Hne].
    + apply nbi_words_put_out. rewrite length_swap_pairs, Hlen.
      assert (j <> j') by (intros ->; by apply Hd). lia.
    + apply nbi_words_put_bank. intros Heq. by apply Hne, nbi_hi_inj.
Qed.

Section entries.
Context `{Devices, NbiPcRegs}.

Lemma run_entry_read nbi a j s : 0 <= j < 0x10000 -> a = NBIPC_ALL_LMEM_BASE + 16 * j ->
  nbi2lmem_copy 4 nbi a 16 s = Some (pc_entry nbi j (nbi_mem s), s).
Proof.
  intros Hj ->. change 16 with (4 * Z.of_nat (4 * 1)) at 2. unfold NBIPC_ALL_LMEM_BASE in *.
  rewrite run_nbi2lmem_copy; [done|apply even4|lia..].
Qed.

Lemma run_pelm_read nbi i s : 0 <= i < 0x400 ->
  nbipc_pelm2lmem_copy nbi (Z.shiftl i 4) 16 s = Some (pc_entry nbi i (nbi_mem s), s).
Proof.
  intros Hi. apply run_entry_read; [lia|]. rewrite Z.shiftl_mul_pow2 by lia.
  change (2 ^ 4) with 16. rewrite wrap_small; [lia|]. unfold fits, NBIPC_ALL_LMEM_BASE. lia.
Qed.

Lemma run_pesm_read nbi i s : 0 <= i < 0x1000 ->
  nbipc_pesm2lmem_copy nbi (Z.shiftl i 4) 16 s =
  Some (pc_entry nbi (SMEM_ENTRY + i) (nbi_mem s), s).
Proof.
  intros Hi. apply run_entry_read; [unfold SMEM_ENTRY; lia|]. rewrite Z.shiftl_mul_pow2 by lia.
  change (2 ^ 4) with 16. unfold NBIPC_ALL_SMEM_BASE, NBIPC_ALL_LMEM_BASE, SMEM_ENTRY.
  rewrite wrap_small; [lia|]. unfold fits. lia.
Qed.

Lemma run_entry_write nbi pri sec j j' data s :
  length data = 4%nat -> 0 <= j < 0x10000 -> 0 <= j' < 0x10000 ->
  pri = NBIPC_ALL_LMEM_BASE + 16 * j -> sec = NBIPC_ALL_LMEM_BASE + 16 * j' ->
  exists h, __nbipc_mem_table_copy_from_lmem nbi pri sec data 16 s =
    Some (tt, with_nbi (set_pc_entry nbi j data (set_pc_entry nbi j' data (nbi_mem s))) h s).
Proof.
  intros Hlen Hj Hj' -> ->. change 16 with (16 * Z.of_nat 1) at 3.
  destruct (run_copy_from_lmem nbi (NBIPC_ALL_LMEM_BASE + 16 * j) (NBIPC_ALL_LMEM_BASE + 16 * j')
    data 1 s) as (s' & Hrun & Hw & _).
  - lia.
  - unfold table_places, NBIPC_ALL_LMEM_BASE. lia.
  - exists (bus s'). rewrite Hrun. unfold both_written in Hw. rewrite take_ge in Hw by lia.
    do 2 f_equal. exact Hw.
Qed.

Lemma run_pelm_write nbi i i' data s :
  length data = 4%nat -> 0 <= i < 0x400 -> 0 <= i' < 0x400 ->
  exists h, nbipc_lmem2pelm_copy nbi (Z.shiftl i 4) (Z.shiftl i' 4) data 16 s =
    Some (tt, with_nbi (set_pc_entry nbi i data (set_pc_entry nbi i' data (nbi_mem s))) h s).
Proof.
  intros Hlen Hi Hi'. apply run_entry_write; [done|lia|lia| |];
    rewrite Z.shiftl_mul_pow2 by lia; change (2 ^ 4) with 16; unfold NBIPC_ALL_LMEM_BASE;
    rewrite wrap_small; unfold fits; lia.
Qed.

Lemma run_pesm_write nbi i i' data s :
  length data = 4%nat -> 0 <= i < 0x1000 -> 0 <= i' < 0x1000 ->
  exists h, nbipc_lmem2pesm_copy nbi (Z.shiftl i 4) (Z.shiftl i' 4) data 16 s =
    Some (tt, with_nbi (set_pc_entry nbi (SMEM_ENTRY + i) data
                         (set_pc_entry nbi (SMEM_ENTRY + i') data (nbi_mem s))) h s).
Proof.
  intros Hlen Hi Hi'. apply run_entry_write; [done|unfold SMEM_ENTRY; lia|unfold SMEM_ENTRY; lia| |];
    rewrite Z.shiftl_mul_pow2 by lia; change (2 ^ 4) with 16;
    unfold NBIPC_ALL_SMEM_BASE, NBIPC_ALL_LMEM_BASE, SMEM_ENTRY;
    rewrite wrap_small; unfold fits; lia.
Qed.
End entries.

(** ** A register that never reports the old copy free *)

Module Pc.
#[export] Instance regs : NbiPcRegs := {|
  NFP_NBI_PC_XPB_OFF := fun nbi => Z.lor 0x8280000 (Z.shiftl nbi 24);
  NFP_NBI_PC_CHAR := 0x10000; NFP_NBI_PC_CHAR_TABLESET := 0x74;
  NFP_NBI_PC_CHAR_TABLESET_ACTIVE := 1;
  NFP_NBI_PC_CHAR_TABLESET_CHINUSE := fun s => Z.shiftl 1 (2 + s);
  NFP_NBI_PC_CHAR_TABLESET_PEINUSE := fun s => Z.shiftl 1 (4 + s);
  NFP_NBI_PC_PE := 0x20000; NFP_NBI_PC_PE_SETUP := 0x0 |}.

#[export] Instance stuck : Devices := {|
  xpb_dev := fun _ _ => 0xff; ct_dev := fun _ _ => 0; pcie_dev := fun _ _ _ _ _ _ => 0;
  msix_dev := fun _ _ _ _ _ => 0; tmq_dev := fun _ _ _ => 0; cfg_msg_dev := fun _ _ => None |}.
End Pc.

Section witnesses.
Import Pc.

Lemma table_both_copies_witness :
  table_places 0x308000 0x30c000 16 /\
  exists s', __nbipc_mem_table_copy_from_lmem 0 0x308000 0x30c000 [1; 2; 3; 4] 16 nic0 = Some (tt, s') /\
    nbi_words 0 0x308000 4 (nbi_mem s') = [2; 1; 4; 3] /\
    nbi_words 0 0x30c000 4 (nbi_mem s') = [2; 1; 4; 3].
Proof.
  assert (Hpl : table_places 0x308000 0x30c000 16) by (unfold table_places; lia).
  split; [exact Hpl|].
  destruct (proj1 (table_both_copies 0 0x308000 0x30c000 [1; 2; 3; 4] 0x8000 1 nic0
    ltac:(simpl; lia) ltac:(split; by vm_compute) ltac:(by vm_compute) Hpl)) as (s' & Hrun & _ & H1 & H2).
  change (16 * Z.of_nat 1) with 16 in Hrun.
  exists s'. split; [exact Hrun|]. split; [exact H1|exact H2].
Defined.

Lemma table_shadow_first_witness :
  table_places 0x301a00 0x301b00 16 /\
  exists s', __nbipc_mem_table_copy_from_lmem 1 0x301a00 0x301b00 [1; 2; 3; 4] 16 nic0 = Some (tt, s') /\
    table_history 1 0x301a00 0x301b00 16 [] (bus s').
Proof.
  assert (Hpl : table_places 0x301a00 0x301b00 16) by (unfold table_places; lia).
  split; [exact Hpl|].
  destruct (table_shadow_first 1 0x301a00 0x301b00 [1; 2; 3; 4] 1 nic0 ltac:(simpl; lia) Hpl)
    as (s' & Hrun & Hh).
  change (16 * Z.of_nat 1) with 16 in Hrun, Hh. exists s'. split; [exact Hrun|exact Hh].
Defined.

Lemma table_copy_terminates_witness :
  table_places 0x301a00 0x301a00 16 /\
  exists s', __nbipc_mem_table_set_copy_from_mem 1 0x301a00 0x301a00 0x8000 16 nic0 = Some (tt, s') /\
    slept (bus s') <= 200000.
Proof.
  assert (Hpl : table_places 0x301a00 0x301a00 16) by (unfold table_places; lia).
  split; [exact Hpl|].
  destruct (proj2 (table_copy_terminates 1 0x301a00 0x301a00 [1; 2; 3; 4] 0x8000 1 nic0
    ltac:(simpl; lia) ltac:(split; by vm_compute) ltac:(by vm_compute) Hpl)) as (s' & Hrun & Hsl).
  change (16 * Z.of_nat 1) with 16 in Hrun.
  exists s'. split; [exact Hrun|exact Hsl].
Defined.
End witnesses.
