(* ===== verification/Catamaran.v ===== *)
(** * Tables of the Catamaran pre-classifier: lib/npfw/_c/catamaran_utils.c

    Catamaran is the program of the pre-classifier.  Its configuration has a
    table that gives each channel of the MAC a port and a mode, and a hash table
    that gives a destination MAC address a result; a bucket of that table has
    two entries.  The constants are those of
    deps/npfw/ppc_api/catamaran_defs.h. *)

From S2P Require Import Prelude Platform UserCfg Nfd Machine Bus Nbi NbiPc.

(** ** Constants *)

Definition CATAMARAN_CFG_TABLE_BASE0 : Z := 0x160.
Definition CATAMARAN_CFG_LOC_ADDR (entry : Z) : Z := Z.quot entry 16.
Definition CATAMARAN_CFG_MAC_MATCH_HASH_OFF : Z := 0x3.

Definition CATAMARAN_CHAN_ENTRIES_PER_LOC : Z := 8.
Definition CATAMARAN_CHAN_TABLE_BASE0 : Z := 0x1a0.
Definition CATAMARAN_CHAN_TABLE_BASE1 : Z := 0x1b0.
Definition CATAMARAN_CHAN_LOC_ADDR (chan : Z) : Z := Z.quot chan CATAMARAN_CHAN_ENTRIES_PER_LOC.
Definition CATAMARAN_CHAN_MODE_OFF (chan : Z) : Z :=
  Z.lxor (Z.land (chan * Z.quot 16 CATAMARAN_CHAN_ENTRIES_PER_LOC) 0xf) 0xe.
Definition CATAMARAN_CHAN_PORT_OFF (chan : Z) : Z :=
  Z.lxor (Z.land (chan * Z.quot 16 CATAMARAN_CHAN_ENTRIES_PER_LOC) 0xf) 0xf.
Definition CATAMARAN_CHAN_NUM_CHANS : Z := 128.
Definition CATAMARAN_CHAN_MODE_MAC_DA_MATCH : Z := 3.

Definition CATAMARAN_MAC_TABLE_BASE0 : Z := 0x800.
Definition CATAMARAN_MAC_TABLE_BASE1 : Z := 0xc00.
Definition CATAMARAN_MAC_TABLE_SIZE : Z := Z.shiftl 1 10.
Definition CATAMARAN_MAC_HASH_KEY (mac_da : Z) : Z := mac_da.

Definition CTMRN_CFG_MAC_MATCH_HASH_ADDR : Z :=
  Z.shiftl (Z.lor CATAMARAN_CFG_TABLE_BASE0
                  (CATAMARAN_CFG_LOC_ADDR CATAMARAN_CFG_MAC_MATCH_HASH_OFF)) 4.
Definition CTMRN_CFG_MAC_MATCH_HASH_OFF : Z :=
  Z.lxor (Z.land CATAMARAN_CFG_MAC_MATCH_HASH_OFF 0xF) 0x8.
Definition CTMRN_CHAN2PORT_ENTRY_MASK : Z := CATAMARAN_CHAN_ENTRIES_PER_LOC - 1.
Definition CTMRN_MAC_MATCH_ADDR_MASK : Z := CATAMARAN_MAC_TABLE_SIZE - 1.

Definition ctmrn_mac_match_mask : Z := 0xFFFFFFFF0000FFFF.
Definition init_cls_hash_mask : Z := 0xFFFFFFFFFFFFFFFF.

(** ** The hash unit of the cluster: fields of its multiplier register and of
    the setup register of the pre-classifier (nfp6000/nfp_cls.h,
    nfp_nbi_pc.h), and the operation, which takes the multiplier register, the
    mask, the residue before it and the data. *)
Class ClsHash := {
  pe_hashsboxen : Z -> Z;
  pe_hashsbox : Z -> Z;
  pe_hashmult : Z -> Z;
  hash_mult (raw sboxen numsboxes m63 m53 m36 m4 : Z) : Z;
  cls_hash (mult mask residue data : Z) : Z
}.

Definition swap64 (x : Z) : Z :=
  let v := Z.shiftr (u64 x) 32 in
  Z.lor v (u64 (Z.shiftl x 32)).

(** Bytes of a local array of words, the upper byte of a word first *)
Definition lmem_byte (ws : list Z) (i : Z) : option Z :=
  (fun w => bf_get (8 * (3 - i mod 4)) 8 w) <$> ws !! Z.to_nat (i / 4).

(** A channel: its port and its mode *)
Record catamaran_chan2port_entry := mk_chan2port { port : Z; port_mode : Z }.

Definition CTMRN_CHAN2PORT_ENTRY_READ (data : list Z) (off : Z) : option Z :=
  (fun w => Z.land (Z.shiftr w (Z.shiftl (Z.land off 0x3) 3)) 0xFF) <$> data !! Z.to_nat (Z.shiftr off 2).

Definition CTMRN_CHAN2PORT_ENTRY_WRITE (data : list Z) (off val : Z) : list Z :=
  let shift := Z.shiftl (Z.land off 0x3) 3 in
  alter (fun w => Z.lor (Z.ldiff w (Z.shiftl 0xFF shift)) (Z.shiftl (Z.land val 0xFF) shift))
    (Z.to_nat (Z.shiftr off 2)) data.

(** [struct ctmrn_mac_match_table_entry]: a bucket *)
Record ctmrn_mac_match_table_entry := mk_bucket {
  mac_addr1_hi : Z; mac_addr1_lo : Z; result1 : Z;
  mac_addr0_hi : Z; mac_addr0_lo : Z; result0 : Z
}.

Definition bucket_raw (e : ctmrn_mac_match_table_entry) : list Z :=
  [u32 (mac_addr1_hi e); Z.lor (Z.shiftl (u16 (mac_addr1_lo e)) 16) (u16 (result1 e));
   u32 (mac_addr0_hi e); Z.lor (Z.shiftl (u16 (mac_addr0_lo e)) 16) (u16 (result0 e))].

Definition bucket_of_raw (ws : list Z) : option ctmrn_mac_match_table_entry :=
  match ws with
  | [w0; w1; w2; w3] => Some (mk_bucket (u32 w0) (bf_get 16 16 w1) (bf_get 0 16 w1)
                                        (u32 w2) (bf_get 16 16 w3) (bf_get 0 16 w3))
  | _ => None
  end.

Section catamaran.
Context `{Devices, NbiPcRegs, ClsHash}.

Definition NBIPC_PE_SETUP_ADDR (nbi : Z) : Z :=
  Z.lor (Z.lor (NFP_NBI_PC_XPB_OFF nbi) NFP_NBI_PC_PE) NFP_NBI_PC_PE_SETUP.

(** ** Setup *)

Definition catamaran_cls_hash_init (nbi : Z) : C unit :=
  pe_setup ← xpb_read (NBIPC_PE_SETUP_ADDR nbi);
  raw ← get cls_hash_mult_reg;
  let m := pe_hashmult pe_setup in
  _ ← modify (fun s => s <| ctmrn_cls_hash_mult :=
        hash_mult raw (pe_hashsboxen pe_setup) (pe_hashsbox pe_setup)
          (Z.land (Z.shiftr m 3) 0x1) (Z.land (Z.shiftr m 2) 0x1)
          (Z.land (Z.shiftr m 1) 0x1) (Z.land m 0x1) |>);
  modify (fun s => s <| init_cls_hash_mult := hash_mult raw 0 0 0 0 0 0 |>).

Definition catamaran_config_read (nbi : Z) : C unit :=
  cfg_entry ← nbipc_pelm2lmem_copy nbi CTMRN_CFG_MAC_MATCH_HASH_ADDR NBIPC_MEM_ENTRY_SIZE;
  v ← of_option (lmem_byte cfg_entry CTMRN_CFG_MAC_MATCH_HASH_OFF);
  modify (fun s => s <| mac_match_scalar := v |>).

Definition catamaran_support_setup (nbi : Z) : C unit :=
  _ ← catamaran_config_read nbi;
  catamaran_cls_hash_init nbi.

(** Place of a MAC address: the residue is cleared, a hash without multipliers
    loads the scalar into it, and the hash of the address follows. *)
Definition catamaran_mac_match_hash_calc (hash_idx mac_addr : Z) : C Z :=
  mult ← get init_cls_hash_mult;
  scalar ← get mac_match_scalar;
  _ ← modify (fun s => s <| cls_hash_mult_reg := mult |>);
  _ ← modify (fun s => s <| cls_hash_residue ::=
        <[hash_idx := cls_hash (cls_hash_mult_reg s) init_cls_hash_mask 0 (swap64 scalar)]> |>);
  mult ← get ctmrn_cls_hash_mult;
  _ ← modify (fun s => s <| cls_hash_mult_reg := mult |>);
  _ ← modify (fun s => s <| cls_hash_residue ::=
        <[hash_idx := cls_hash (cls_hash_mult_reg s) ctmrn_mac_match_mask
            (rd (cls_hash_residue s) hash_idx) (swap64 (CATAMARAN_MAC_HASH_KEY mac_addr))]> |>);
  result_xr ← get (fun s => rd (cls_hash_residue s) hash_idx);
  mret (u32 (Z.land (swap64 result_xr) CTMRN_MAC_MATCH_ADDR_MASK)).

(** ** Channels *)

(** The channels of one block: from [first_chan] up to the end of the block or
    to the channel after the last one *)
Definition block_last (first_chan chan_cnt : Z) : Z :=
  if chan_cnt <? CATAMARAN_CHAN_ENTRIES_PER_LOC - first_chan then first_chan + chan_cnt
  else CATAMARAN_CHAN_ENTRIES_PER_LOC.

Definition catamaran_chan2port_table_get (nbi chan_start chan_end : Z)
    : C (list catamaran_chan2port_entry) :=
  let chan_cnt := chan_end - chan_start + 1 in
  let first_chan := Z.land chan_start CTMRN_CHAN2PORT_ENTRY_MASK in
  let block_end := CATAMARAN_CHAN_LOC_ADDR chan_end in
  let block_start := CATAMARAN_CHAN_LOC_ADDR chan_start in
  if chan_cnt <=? 0 then mret []
  else
    r ← for_fold (range block_start (block_end + 1)) (first_chan, chan_cnt, []) (fun x block =>
      let '(first_chan, chan_cnt, entries) := x in
      let addr := Z.shiftl (CATAMARAN_CHAN_TABLE_BASE0 + block) 4 in
      data ← nbipc_pelm2lmem_copy nbi addr 16;
      let last_chan := block_last first_chan chan_cnt in
      entries ← for_fold (range first_chan last_chan) entries (fun entries chan =>
        p ← of_option (CTMRN_CHAN2PORT_ENTRY_READ data (CATAMARAN_CHAN_PORT_OFF chan));
        m ← of_option (CTMRN_CHAN2PORT_ENTRY_READ data (CATAMARAN_CHAN_MODE_OFF chan));
        mret (entries ++ [mk_chan2port p m]));
      mret (0, chan_cnt - CATAMARAN_CHAN_ENTRIES_PER_LOC, entries));
    mret r.2.

Definition catamaran_chan2port_table_set (nbi chan_start chan_end : Z)
    (entries : list catamaran_chan2port_entry) : C unit :=
  let chan_cnt := chan_end - chan_start + 1 in
  let first_chan := Z.land chan_start CTMRN_CHAN2PORT_ENTRY_MASK in
  let block_end := CATAMARAN_CHAN_LOC_ADDR chan_end in
  let block_start := CATAMARAN_CHAN_LOC_ADDR chan_start in
  if chan_cnt <=? 0 then mret tt
  else
    _ ← for_fold (range block_start (block_end + 1)) (first_chan, chan_cnt, 0%nat) (fun x block =>
      let '(first_chan, chan_cnt, entry_cnt) := x in
      let addr_pri := Z.shiftl (CATAMARAN_CHAN_TABLE_BASE0 + block) 4 in
      let addr_sec := Z.shiftl (CATAMARAN_CHAN_TABLE_BASE1 + block) 4 in
      data ← nbipc_pelm2lmem_copy nbi addr_pri 16;
      let last_chan := block_last first_chan chan_cnt in
      y ← for_fold (range first_chan last_chan) (data, entry_cnt) (fun y chan =>
        let '(data, entry_cnt) := y in
        e ← of_option (entries !! entry_cnt);
        let data := CTMRN_CHAN2PORT_ENTRY_WRITE data (CATAMARAN_CHAN_PORT_OFF chan) (port e) in
        let data := CTMRN_CHAN2PORT_ENTRY_WRITE data (CATAMARAN_CHAN_MODE_OFF chan) (port_mode e) in
        mret (data, S entry_cnt));
      let '(data, entry_cnt) := y in
      _ ← nbipc_lmem2pelm_copy nbi addr_pri addr_sec data 16;
      mret (0, chan_cnt - CATAMARAN_CHAN_ENTRIES_PER_LOC, entry_cnt));
    mret tt.

(** ** MAC addresses *)

Definition slot0_matches (hi lo : Z) (e : ctmrn_mac_match_table_entry) : bool :=
  (hi =? mac_addr0_hi e) && (lo =? mac_addr0_lo e) && negb (result0 e =? 0).
Definition slot1_matches (hi lo : Z) (e : ctmrn_mac_match_table_entry) : bool :=
  (hi =? mac_addr1_hi e) && (lo =? mac_addr1_lo e) && negb (result1 e =? 0).
Definition slot0_free (e : ctmrn_mac_match_table_entry) : bool :=
  (mac_addr0_hi e =? 0) && (mac_addr0_lo e =? 0) && (result0 e =? 0).
Definition slot1_free (e : ctmrn_mac_match_table_entry) : bool :=
  (mac_addr1_hi e =? 0) && (mac_addr1_lo e =? 0) && (result1 e =? 0).

Definition mac_addr0 (addr_offset : Z) : Z := Z.shiftl (CATAMARAN_MAC_TABLE_BASE0 + addr_offset) 4.
Definition mac_addr1 (addr_offset : Z) : Z := Z.shiftl (CATAMARAN_MAC_TABLE_BASE1 + addr_offset) 4.
Definition mac_hi (mac_addr : Z) : Z := Z.land (Z.shiftr mac_addr 16) 0xFFFFFFFF.
Definition mac_lo (mac_addr : Z) : Z := Z.land mac_addr 0xFFFF.

Definition read_bucket (nbi addr : Z) : C ctmrn_mac_match_table_entry :=
  raw ← nbipc_pesm2lmem_copy nbi addr 16;
  of_option (bucket_of_raw raw).

Definition write_bucket (nbi addr0 addr1 : Z) (e : ctmrn_mac_match_table_entry) : C unit :=
  nbipc_lmem2pesm_copy nbi addr0 addr1 (bucket_raw e) 16.

Definition set_slot0 (hi lo result : Z) (e : ctmrn_mac_match_table_entry) :=
  mk_bucket (mac_addr1_hi e) (mac_addr1_lo e) (result1 e) hi lo result.
Definition set_slot1 (hi lo result : Z) (e : ctmrn_mac_match_table_entry) :=
  mk_bucket hi lo result (mac_addr0_hi e) (mac_addr0_lo e) (result0 e).

Definition catamaran_mac_match_table_add (nbi mac_addr result cls_hash_idx : Z) : C Z :=
  addr_offset ← catamaran_mac_match_hash_calc cls_hash_idx mac_addr;
  let addr0 := mac_addr0 addr_offset in
  let addr1 := mac_addr1 addr_offset in
  let hi := mac_hi mac_addr in
  let lo := mac_lo mac_addr in
  e ← read_bucket nbi addr0;
  if slot0_matches hi lo e then
    _ ← write_bucket nbi addr0 addr1 (set_slot0 (mac_addr0_hi e) (mac_addr0_lo e) result e);
    mret 0
  else if slot1_matches hi lo e then
    _ ← write_bucket nbi addr0 addr1 (set_slot1 (mac_addr1_hi e) (mac_addr1_lo e) result e);
    mret 0
  else if slot0_free e then
    _ ← write_bucket nbi addr0 addr1 (set_slot0 hi lo result e);
    mret 0
  else if slot1_free e then
    _ ← write_bucket nbi addr0 addr1 (set_slot1 hi lo result e);
    mret 0
  else mret (-1).

Definition catamaran_mac_match_table_get (nbi mac_addr cls_hash_idx : Z) : C Z :=
  addr_offset ← catamaran_mac_match_hash_calc cls_hash_idx mac_addr;
  let addr := mac_addr0 addr_offset in
  let hi := mac_hi mac_addr in
  let lo := mac_lo mac_addr in
  e ← read_bucket nbi addr;
  if slot0_matches hi lo e then mret (result0 e)
  else if slot1_matches hi lo e then mret (result1 e)
  else mret (-1).

Definition catamaran_mac_match_table_remove (nbi mac_addr cls_hash_idx : Z) : C Z :=
  addr_offset ← catamaran_mac_match_hash_calc cls_hash_idx mac_addr;
  let addr0 := mac_addr0 addr_offset in
  let addr1 := mac_addr1 addr_offset in
  let hi := mac_hi mac_addr in
  let lo := mac_lo mac_addr in
  e ← read_bucket nbi addr0;
  if slot0_matches hi lo e then
    _ ← write_bucket nbi addr0 addr1 (set_slot0 0 0 0 e);
    mret 0
  else if slot1_matches hi lo e then
    _ ← write_bucket nbi addr0 addr1 (set_slot1 0 0 0 e);
    mret 0
  else mret (-1).
End catamaran.

(** * Properties *)

Section hash.
Context `{ClsHash}.

(** The place of an address as a function of the statics that the setup stores:
    neither the residue nor the index that the caller gives matter. *)
Definition mac_hash (s : nic) (mac_addr : Z) : Z :=
  let r := cls_hash (init_cls_hash_mult s) init_cls_hash_mask 0 (swap64 (mac_match_scalar s)) in
  u32 (Z.land (swap64 (cls_hash (ctmrn_cls_hash_mult s) ctmrn_mac_match_mask r
    (swap64 (CATAMARAN_MAC_HASH_KEY mac_addr)))) CTMRN_MAC_MATCH_ADDR_MASK).

(** [s'] differs from [s] at most in the registers of the hash unit. *)
Definition hash_unit_used (s s' : nic) : Prop :=
  s' = s <| cls_hash_mult_reg := cls_hash_mult_reg s' |> <| cls_hash_residue := cls_hash_residue s' |>.

Lemma run_hash_calc idx mac s : exists s',
  catamaran_mac_match_hash_calc idx mac s = Some (mac_hash s mac, s') /\ hash_unit_used s s'.
Proof.
  unfold catamaran_mac_match_hash_calc. runs. st. rewrite !rd_insert_eq.
  eexists. split; [reflexivity|]. unfold hash_unit_used. by destruct s.
Qed.

Lemma mac_hash_range s mac : 0 <= mac_hash s mac < CATAMARAN_MAC_TABLE_SIZE.
Proof.
  unfold mac_hash. cbv zeta. change CTMRN_MAC_MATCH_ADDR_MASK with (Z.ones 10).
  rewrite Z.land_ones by lia. change CATAMARAN_MAC_TABLE_SIZE with (2 ^ 10).
  unfold wrap. rewrite Z.mod_small; [by apply Z.mod_pos_bound|].
  pose proof (Z.mod_pos_bound (swap64 (cls_hash (ctmrn_cls_hash_mult s) ctmrn_mac_match_mask
    (cls_hash (init_cls_hash_mult s) init_cls_hash_mask 0 (swap64 (mac_match_scalar s)))
    (swap64 (CATAMARAN_MAC_HASH_KEY mac)))) (2 ^ 10) ltac:(lia)). lia.
Qed.
End hash.

(** ** Buckets *)

Lemma mac_split_inj mac mac' : fits 48 mac -> fits 48 mac' ->
  mac_hi mac = mac_hi mac' -> mac_lo mac = mac_lo mac' -> mac = mac'.
Proof.
  intros Hm Hm' Hhi Hlo.
  assert (Hx : forall x, fits 48 x -> x = Z.lor (Z.shiftl (mac_hi x) 16) (mac_lo x)).
  { intros x Hx. unfold mac_hi, mac_lo. change 0xFFFFFFFF with (Z.ones 32).
    change 0xFFFF with (Z.ones 16). zbits. }
  rewrite (Hx mac), (Hx mac') by done. congruence.
Qed.

Lemma mac_hi_fits mac : fits 32 (mac_hi mac).
Proof. unfold mac_hi. apply fits_land_r; [lia|]. by split. Qed.

Lemma mac_lo_fits mac : fits 16 (mac_lo mac).
Proof. unfold mac_lo. apply fits_land_r; [lia|]. by split. Qed.

Definition bucket_fits (e : ctmrn_mac_match_table_entry) : Prop :=
  fits 32 (mac_addr1_hi e) /\ fits 16 (mac_addr1_lo e) /\ fits 16 (result1 e) /\
  fits 32 (mac_addr0_hi e) /\ fits 16 (mac_addr0_lo e) /\ fits 16 (result0 e).

Lemma bf_pair a b : fits 16 a -> fits 16 b ->
  bf_get 16 16 (Z.lor (Z.shiftl (u16 a) 16) (u16 b)) = a /\
  bf_get 0 16 (Z.lor (Z.shiftl (u16 a) 16) (u16 b)) = b.
Proof. intros. unfold bf_get. split; zbits. Qed.

Lemma bucket_roundtrip e : bucket_fits e -> bucket_of_raw (bucket_raw e) = Some e.
Proof.
  intros (H1 & H2 & H3 & H4 & H5 & H6). unfold bucket_of_raw, bucket_raw.
  destruct (bf_pair (mac_addr1_lo e) (result1 e)) as [-> ->]; [done|done|].
  destruct (bf_pair (mac_addr0_lo e) (result0 e)) as [-> ->]; [done|done|].
  rewrite !wrap_idem, !wrap_small by (done || lia). by destruct e.
Qed.

Definition empty_bucket : ctmrn_mac_match_table_entry := mk_bucket 0 0 0 0 0 0.

Definition bucket_of (ws : list Z) : ctmrn_mac_match_table_entry :=
  default empty_bucket (bucket_of_raw ws).

Lemma bucket_of_raw_some ws : length ws = 4%nat -> bucket_of_raw ws = Some (bucket_of ws).
Proof. by destruct ws as [|? [|? [|? [|? [|? ?]]]]]. Qed.

Lemma bucket_of_fits ws : bucket_fits (bucket_of ws).
Proof.
  unfold bucket_of, bucket_fits.
  destruct ws as [|? [|? [|? [|? [|? ?]]]]];
    cbn [bucket_of_raw default empty_bucket mac_addr1_hi mac_addr1_lo result1 mac_addr0_hi
      mac_addr0_lo result0]; split_and!;
    first [apply wrap_fits; lia | apply bf_get_fits; lia | by split].
Qed.

Lemma bucket_of_raw_id e : bucket_fits e -> bucket_of (bucket_raw e) = e.
Proof. intros He. unfold bucket_of. by rewrite bucket_roundtrip. Qed.

(** One entry of a bucket: its result for an address *)
Definition slot_matches (mac hi lo r : Z) : bool :=
  (mac_hi mac =? hi) && (mac_lo mac =? lo) && negb (r =? 0).

Definition slot_get (mac hi lo r : Z) : option Z :=
  if slot_matches mac hi lo r then Some r else None.

Lemma slot_matches_inv mac hi lo r : slot_matches mac hi lo r = true ->
  hi = mac_hi mac /\ lo = mac_lo mac /\ r <> 0.
Proof. unfold slot_matches. intros [[? ?]%andb_true_iff ?]%andb_true_iff. lia. Qed.

Lemma slot_get_hit mac r : r <> 0 -> slot_get mac (mac_hi mac) (mac_lo mac) r = Some r.
Proof.
  intros Hr. unfold slot_get, slot_matches. rewrite !Z.eqb_refl.
  by rewrite (proj2 (Z.eqb_neq r 0) Hr).
Qed.

Lemma slot_get_miss mac mac' r : fits 48 mac -> fits 48 mac' -> mac <> mac' ->
  slot_get mac' (mac_hi mac) (mac_lo mac) r = None.
Proof.
  intros H1 H2 Hne. unfold slot_get, slot_matches.
  destruct (Z.eqb_spec (mac_hi mac') (mac_hi mac)); [|done].
  destruct (Z.eqb_spec (mac_lo mac') (mac_lo mac)); [|done].
  by destruct Hne; apply mac_split_inj.
Qed.

Lemma slot_get_free mac hi lo : slot_get mac hi lo 0 = None.
Proof. unfold slot_get, slot_matches. change (negb (0 =? 0)) with false. by rewrite andb_false_r. Qed.

Lemma slot_get_none mac hi lo r : slot_matches mac hi lo r = false -> slot_get mac hi lo r = None.
Proof. unfold slot_get. by intros ->. Qed.

(** The result that a bucket has for an address *)
Definition bucket_get (mac : Z) (e : ctmrn_mac_match_table_entry) : option Z :=
  match slot_get mac (mac_addr0_hi e) (mac_addr0_lo e) (result0 e) with
  | Some r => Some r
  | None => slot_get mac (mac_addr1_hi e) (mac_addr1_lo e) (result1 e)
  end.

(** Not both entries are for one address. *)
Definition no_duplicate (e : ctmrn_mac_match_table_entry) : Prop :=
  forall mac, slot_get mac (mac_addr0_hi e) (mac_addr0_lo e) (result0 e) = None \/
              slot_get mac (mac_addr1_hi e) (mac_addr1_lo e) (result1 e) = None.

(** The bucket that addition and removal leave; none when they fail *)
Definition bucket_add (mac result : Z) (e : ctmrn_mac_match_table_entry) :=
  let hi := mac_hi mac in let lo := mac_lo mac in
  if slot0_matches hi lo e then Some (set_slot0 (mac_addr0_hi e) (mac_addr0_lo e) result e)
  else if slot1_matches hi lo e then Some (set_slot1 (mac_addr1_hi e) (mac_addr1_lo e) result e)
  else if slot0_free e then Some (set_slot0 hi lo result e)
  else if slot1_free e then Some (set_slot1 hi lo result e)
  else None.

Definition bucket_remove (mac : Z) (e : ctmrn_mac_match_table_entry) :=
  let hi := mac_hi mac in let lo := mac_lo mac in
  if slot0_matches hi lo e then Some (set_slot0 0 0 0 e)
  else if slot1_matches hi lo e then Some (set_slot1 0 0 0 e)
  else None.

Lemma slot0_matches_eq mac e :
  slot0_matches (mac_hi mac) (mac_lo mac) e =
  slot_matches mac (mac_addr0_hi e) (mac_addr0_lo e) (result0 e).
Proof. done. Qed.

Lemma slot1_matches_eq mac e :
  slot1_matches (mac_hi mac) (mac_lo mac) e =
  slot_matches mac (mac_addr1_hi e) (mac_addr1_lo e) (result1 e).
Proof. done. Qed.

Lemma slot0_free_inv e : slot0_free e = true ->
  mac_addr0_hi e = 0 /\ mac_addr0_lo e = 0 /\ result0 e = 0.
Proof. unfold slot0_free. intros [[? ?]%andb_true_iff ?]%andb_true_iff. lia. Qed.

Lemma slot1_free_inv e : slot1_free e = true ->
  mac_addr1_hi e = 0 /\ mac_addr1_lo e = 0 /\ result1 e = 0.
Proof. unfold slot1_free. intros [[? ?]%andb_true_iff ?]%andb_true_iff. lia. Qed.

(** Case analysis on the entries of a bucket given by its fields. *)
Ltac slot_facts :=
  repeat match goal with
    | H : slot_matches _ _ _ _ = true |- _ => apply slot_matches_inv in H as (-> & -> & ?)
    | H : slot0_free _ = true |- _ => apply slot0_free_inv in H as (? & ? & ?); simpl in *; subst
    | H : slot1_free _ = true |- _ => apply slot1_free_inv in H as (? & ? & ?); simpl in *; subst
    end.

(** The entries of the bucket after an addition or a removal *)
Lemma bucket_add_cases mac result e e' : bucket_add mac result e = Some e' ->
  let miss0 := slot_get mac (mac_addr0_hi e) (mac_addr0_lo e) (result0 e) = None in
  let miss1 := slot_get mac (mac_addr1_hi e) (mac_addr1_lo e) (result1 e) = None in
  (e' = set_slot0 (mac_hi mac) (mac_lo mac) result e /\
     ((mac_addr0_hi e = mac_hi mac /\ mac_addr0_lo e = mac_lo mac /\ result0 e <> 0) \/
      (result0 e = 0 /\ miss1))) \/
  (e' = set_slot1 (mac_hi mac) (mac_lo mac) result e /\ miss0 /\
     ((mac_addr1_hi e = mac_hi mac /\ mac_addr1_lo e = mac_lo mac /\ result1 e <> 0) \/
      result1 e = 0)).
Proof.
  destruct e as [h1 l1 r1 h0 l0 r0]. unfold bucket_add. cbv zeta.
  rewrite slot0_matches_eq, slot1_matches_eq. cbn [mac_addr0_hi mac_addr0_lo result0
    mac_addr1_hi mac_addr1_lo result1].
  destruct (slot_matches mac h0 l0 r0) eqn:E0.
  { intros [= <-]. slot_facts. left. split; [done|]. by left. }
  apply slot_get_none in E0. destruct (slot_matches mac h1 l1 r1) eqn:E1.
  { intros [= <-]. slot_facts. right. split; [done|]. split; [done|]. by left. }
  apply slot_get_none in E1.
  destruct (slot0_free _) eqn:F0.
  { intros [= <-]. slot_facts. left. split; [done|]. by right. }
  destruct (slot1_free _) eqn:F1; [|done].
  intros [= <-]. slot_facts. right. split; [done|]. split; [done|]. by right.
Qed.

Lemma bucket_remove_cases mac e e' : bucket_remove mac e = Some e' ->
  (e' = set_slot0 0 0 0 e /\ mac_addr0_hi e = mac_hi mac /\ mac_addr0_lo e = mac_lo mac /\
     result0 e <> 0) \/
  (e' = set_slot1 0 0 0 e /\ slot_get mac (mac_addr0_hi e) (mac_addr0_lo e) (result0 e) = None /\
     mac_addr1_hi e = mac_hi mac /\ mac_addr1_lo e = mac_lo mac /\ result1 e <> 0).
Proof.
  destruct e as [h1 l1 r1 h0 l0 r0]. unfold bucket_remove. cbv zeta.
  rewrite slot0_matches_eq, slot1_matches_eq. cbn [mac_addr0_hi mac_addr0_lo result0
    mac_addr1_hi mac_addr1_lo result1].
  destruct (slot_matches mac h0 l0 r0) eqn:E0.
  { intros [= <-]. slot_facts. by left. }
  apply slot_get_none in E0. destruct (slot_matches mac h1 l1 r1) eqn:E1; [|done].
  intros [= <-]. slot_facts. by right.
Qed.

Lemma bucket_get_add mac result e e' mac' :
  fits 48 mac -> fits 48 mac' -> result <> 0 -> bucket_add mac result e = Some e' ->
  bucket_get mac' e' = if decide (mac' = mac) then Some result else bucket_get mac' e.
Proof.
  intros Hmac Hmac' Hres Hadd. destruct e as [h1 l1 r1 h0 l0 r0].
  destruct (bucket_add_cases _ _ _ _ Hadd) as [(-> & Hold)|(-> & Hmiss & Hold)];
    unfold bucket_get; cbn [mac_addr0_hi mac_addr0_lo result0 mac_addr1_hi mac_addr1_lo result1
      set_slot0 set_slot1] in *; case_decide as Hd; try subst mac'.
  - by rewrite slot_get_hit.
  - rewrite slot_get_miss by auto.
    destruct Hold as [(-> & -> & _)|(-> & _)]; by rewrite ?slot_get_miss, ?slot_get_free by auto.
  - by rewrite Hmiss, slot_get_hit.
  - rewrite slot_get_miss by auto.
    destruct Hold as [(-> & -> & _)| ->]; by rewrite ?slot_get_miss, ?slot_get_free by auto.
Qed.

Lemma bucket_get_remove mac e e' mac' :
  fits 48 mac -> fits 48 mac' -> no_duplicate e -> bucket_remove mac e = Some e' ->
  bucket_get mac' e' = if decide (mac' = mac) then None else bucket_get mac' e.
Proof.
  intros Hmac Hmac' Hdup Hrem. destruct e as [h1 l1 r1 h0 l0 r0].
  destruct (bucket_remove_cases _ _ _ Hrem) as [(-> & Hh & Hl & Hr)|(-> & Hmiss & Hh & Hl & Hr)];
    unfold bucket_get, no_duplicate in *; cbn [mac_addr0_hi mac_addr0_lo result0 mac_addr1_hi
      mac_addr1_lo result1 set_slot0 set_slot1] in *; subst; case_decide as Hd; try subst mac';
    rewrite ?slot_get_free.
  - destruct (Hdup mac) as [Hx|Hx]; [by rewrite slot_get_hit in Hx|done].
  - by rewrite slot_get_miss by auto.
  - by rewrite Hmiss.
  - by rewrite (slot_get_miss mac mac' r1) by auto.
Qed.

Lemma bucket_get_none_remove mac e : bucket_remove mac e = None <-> bucket_get mac e = None.
Proof.
  unfold bucket_remove, bucket_get, slot_get. cbv zeta. rewrite slot0_matches_eq, slot1_matches_eq.
  destruct (slot_matches _ _ _ _); [done|]. by destruct (slot_matches _ _ _ _).
Qed.

Lemma bucket_add_none mac result e : bucket_add mac result e = None ->
  bucket_get mac e = None /\ slot0_free e = false /\ slot1_free e = false.
Proof.
  unfold bucket_add, bucket_get, slot_get. cbv zeta. rewrite slot0_matches_eq, slot1_matches_eq.
  destruct (slot_matches _ _ _ _); [done|]. destruct (slot_matches _ _ _ _); [done|].
  destruct (slot0_free e); [done|]. by destruct (slot1_free e).
Qed.

Lemma slot_get_some mac hi lo r x : slot_get mac hi lo r = Some x ->
  hi = mac_hi mac /\ lo = mac_lo mac /\ r <> 0.
Proof.
  unfold slot_get. destruct (slot_matches _ _ _ _) eqn:E; [|done]. intros _. by apply slot_matches_inv.
Qed.

Lemma no_duplicate_add mac result e e' :
  no_duplicate e -> bucket_add mac result e = Some e' -> no_duplicate e'.
Proof.
  intros Hdup Hadd mac'. destruct e as [h1 l1 r1 h0 l0 r0].
  destruct (bucket_add_cases _ _ _ _ Hadd) as [(-> & Hold)|(-> & Hmiss & Hold)];
    unfold no_duplicate in *; cbn [mac_addr0_hi mac_addr0_lo result0 mac_addr1_hi mac_addr1_lo
      result1 set_slot0 set_slot1] in *.
  - destruct (slot_get mac' (mac_hi mac) (mac_lo mac) result) eqn:E; [|by left]. right.
    apply slot_get_some in E as (Hh & Hl & _).
    unfold slot_get, slot_matches. rewrite <- Hh, <- Hl.
    change ((if slot_matches mac h1 l1 r1 then Some r1 else None) = None).
    destruct Hold as [(-> & -> & Hr)|(_ & Hm)]; [|exact Hm].
    destruct (Hdup mac) as [Hx|Hx]; [by rewrite slot_get_hit in Hx|exact Hx].
  - destruct (slot_get mac' (mac_hi mac) (mac_lo mac) result) eqn:E; [|by right]. left.
    apply slot_get_some in E as (Hh & Hl & _).
    unfold slot_get, slot_matches. rewrite <- Hh, <- Hl. exact Hmiss.
Qed.

Lemma no_duplicate_remove mac e e' :
  no_duplicate e -> bucket_remove mac e = Some e' -> no_duplicate e'.
Proof.
  intros Hdup Hrem mac'. destruct e as [h1 l1 r1 h0 l0 r0].
  destruct (bucket_remove_cases _ _ _ Hrem) as [(-> & _)|(-> & _)];
    cbn [mac_addr0_hi mac_addr0_lo result0 mac_addr1_hi mac_addr1_lo result1 set_slot0 set_slot1];
    [left|right]; apply slot_get_free.
Qed.

Lemma bucket_add_fits mac result e e' :
  bucket_fits e -> fits 16 result -> bucket_add mac result e = Some e' -> bucket_fits e'.
Proof.
  intros (? & ? & ? & ? & ? & ?) Hr Hadd. pose proof (mac_hi_fits mac). pose proof (mac_lo_fits mac).
  by destruct (bucket_add_cases _ _ _ _ Hadd) as [(-> & _)|(-> & _)].
Qed.

Lemma bucket_remove_fits mac e e' : bucket_fits e -> bucket_remove mac e = Some e' -> bucket_fits e'.
Proof.
  intros (? & ? & ? & ? & ? & ?) Hrem.
  by destruct (bucket_remove_cases _ _ _ Hrem) as [(-> & _)|(-> & _)].
Qed.

(** ** The MAC table of an NBI as a map from addresses to results *)

Section mac_table.
Context `{Devices, NbiPcRegs, ClsHash}.

(** Bucket [off] in the first copy of the table *)
Definition mac_bucket (nbi off : Z) (m : gmap (Z * Z) Z) : ctmrn_mac_match_table_entry :=
  bucket_of (pc_entry nbi (SMEM_ENTRY + (CATAMARAN_MAC_TABLE_BASE0 + off)) m).

Definition mac_table (nbi : Z) (s : nic) (mac : Z) : option Z :=
  bucket_get mac (mac_bucket nbi (mac_hash s mac) (nbi_mem s)).

(** The invariant of the tables: no address twice, and the two copies equal *)
Definition mac_tables_ok (m : gmap (Z * Z) Z) : Prop :=
  forall nbi off, 0 <= nbi < 2 -> 0 <= off < CATAMARAN_MAC_TABLE_SIZE ->
    no_duplicate (mac_bucket nbi off m) /\
    pc_entry nbi (SMEM_ENTRY + (CATAMARAN_MAC_TABLE_BASE0 + off)) m =
    pc_entry nbi (SMEM_ENTRY + (CATAMARAN_MAC_TABLE_BASE1 + off)) m.

(** The results of the setup, on which the places depend *)
Definition same_hash (s s' : nic) : Prop :=
  mac_match_scalar s' = mac_match_scalar s /\ ctmrn_cls_hash_mult s' = ctmrn_cls_hash_mult s /\
  init_cls_hash_mult s' = init_cls_hash_mult s.

(** All that the operations on the tables change *)
Definition tables_only (s s' : nic) : Prop :=
  s' = s <| cls_hash_mult_reg := cls_hash_mult_reg s' |> <| cls_hash_residue := cls_hash_residue s' |>
         <| nbi_mem := nbi_mem s' |> <| bus := bus s' |>.

#[export] Instance tables_only_refl : Reflexive tables_only.
Proof. intros []. reflexivity. Qed.

#[export] Instance tables_only_trans : Transitive tables_only.
Proof. unfold tables_only. intros s1 s2 s3 H12 H23. rewrite H23, H12. by destruct s1, s3. Qed.

Lemma tables_only_hash s s' : tables_only s s' -> same_hash s s'.
Proof. intros ->. done. Qed.

Lemma hash_unit_tables_only s s' : hash_unit_used s s' -> tables_only s s'.
Proof. unfold hash_unit_used, tables_only. intros ->. by destruct s. Qed.

Lemma mac_hash_same s s' mac : same_hash s s' -> mac_hash s' mac = mac_hash s mac.
Proof. unfold same_hash, mac_hash. by intros (-> & -> & ->). Qed.

Lemma run_read_bucket nbi off s : 0 <= off < CATAMARAN_MAC_TABLE_SIZE ->
  read_bucket nbi (mac_addr0 off) s = Some (mac_bucket nbi off (nbi_mem s), s).
Proof.
  intros Hoff. unfold read_bucket, mac_addr0.
  change CATAMARAN_MAC_TABLE_SIZE with 1024 in Hoff.
  erewrite run_some by (apply run_pesm_read; unfold CATAMARAN_MAC_TABLE_BASE0; lia). cbv beta.
  by rewrite bucket_of_raw_some by apply length_pc_entry.
Qed.

Lemma run_write_bucket nbi off e s : 0 <= nbi < 2 -> 0 <= off < CATAMARAN_MAC_TABLE_SIZE ->
  bucket_fits e ->
  exists s', write_bucket nbi (mac_addr0 off) (mac_addr1 off) e s = Some (tt, s') /\
    tables_only s s' /\
    (forall nbi' off', 0 <= nbi' < 2 -> 0 <= off' < CATAMARAN_MAC_TABLE_SIZE ->
       mac_bucket nbi' off' (nbi_mem s') =
       if decide (nbi' = nbi /\ off' = off) then e else mac_bucket nbi' off' (nbi_mem s)) /\
    (mac_tables_ok (nbi_mem s) -> no_duplicate e -> mac_tables_ok (nbi_mem s')).
Proof.
  intros Hnbi Hoff He. change CATAMARAN_MAC_TABLE_SIZE with 1024 in *.
  set (i := SMEM_ENTRY + (CATAMARAN_MAC_TABLE_BASE0 + off)).
  set (i' := SMEM_ENTRY + (CATAMARAN_MAC_TABLE_BASE1 + off)).
  destruct (run_pesm_write nbi (CATAMARAN_MAC_TABLE_BASE0 + off) (CATAMARAN_MAC_TABLE_BASE1 + off)
    (bucket_raw e) s) as (h & Hrun);
    [done|unfold CATAMARAN_MAC_TABLE_BASE0; lia|unfold CATAMARAN_MAC_TABLE_BASE1; lia|].
  fold i i' in Hrun.
  set (m' := set_pc_entry nbi i (bucket_raw e) (set_pc_entry nbi i' (bucket_raw e) (nbi_mem s))).
  assert (Hm : forall nbi' j, 0 <= nbi' < 2 -> pc_entry nbi' j m' =
    if decide (nbi' = nbi /\ (j = i \/ j = i')) then bucket_raw e else pc_entry nbi' j (nbi_mem s)).
  { intros nbi' j Hn. subst m'. rewrite !pc_entry_set by done. repeat case_decide; tauto. }
  assert (Hb : forall nbi' off', 0 <= nbi' < 2 -> 0 <= off' < 1024 ->
    mac_bucket nbi' off' m' = if decide (nbi' = nbi /\ off' = off) then e
                              else mac_bucket nbi' off' (nbi_mem s)).
  { intros nbi' off' Hn Ho. unfold mac_bucket. rewrite Hm by done.
    subst i i'. unfold CATAMARAN_MAC_TABLE_BASE0, CATAMARAN_MAC_TABLE_BASE1.
    destruct (decide (nbi' = nbi /\ off' = off)) as [[-> ->]|Hne].
    - rewrite decide_True by auto. by apply bucket_of_raw_id.
    - rewrite decide_False; [done|]. intros [-> Hj]. apply Hne. split; [done|]. lia. }
  exists (with_nbi m' h s). split; [exact Hrun|]. split; [|split; [exact Hb|]].
  - unfold tables_only, with_nbi. by destruct s.
  - intros Hok Hdup nbi' off' Hn Ho. rewrite nbi_mem_with, Hb by done.
    destruct (Hok nbi' off' Hn Ho) as [Hd Heq]. split; [by case_decide|].
    rewrite !Hm by done. rewrite Heq. subst i i'.
    unfold CATAMARAN_MAC_TABLE_BASE0, CATAMARAN_MAC_TABLE_BASE1.
    repeat case_decide; try done.
    all: exfalso; change CATAMARAN_MAC_TABLE_SIZE with 1024 in Ho; unfold SMEM_ENTRY in *; lia.
Qed.

(** The three operations on the bucket that they read *)
Lemma run_mac_add nbi mac result idx s s1 :
  catamaran_mac_match_hash_calc idx mac s = Some (mac_hash s mac, s1) ->
  let off := mac_hash s mac in
  let e := mac_bucket nbi off (nbi_mem s1) in
  catamaran_mac_match_table_add nbi mac result idx s =
  match bucket_add mac result e with
  | Some e' => (_ ← write_bucket nbi (mac_addr0 off) (mac_addr1 off) e'; mret 0) s1
  | None => Some (-1, s1)
  end.
Proof.
  intros Hh off e. unfold catamaran_mac_match_table_add. erewrite run_some by exact Hh. cbv beta zeta.
  erewrite run_some by (apply run_read_bucket, mac_hash_range). cbv beta. fold off e.
  unfold bucket_add. cbv zeta. destruct (slot0_matches _ _ e); [done|].
  destruct (slot1_matches _ _ e); [done|]. destruct (slot0_free e); [done|].
  by destruct (slot1_free e).
Qed.

Lemma run_mac_remove nbi mac idx s s1 :
  catamaran_mac_match_hash_calc idx mac s = Some (mac_hash s mac, s1) ->
  let off := mac_hash s mac in
  let e := mac_bucket nbi off (nbi_mem s1) in
  catamaran_mac_match_table_remove nbi mac idx s =
  match bucket_remove mac e with
  | Some e' => (_ ← write_bucket nbi (mac_addr0 off) (mac_addr1 off) e'; mret 0) s1
  | None => Some (-1, s1)
  end.
Proof.
  intros Hh off e. unfold catamaran_mac_match_table_remove. erewrite run_some by exact Hh. cbv beta zeta.
  erewrite run_some by (apply run_read_bucket, mac_hash_range). cbv beta. fold off e.
  unfold bucket_remove. cbv zeta. destruct (slot0_matches _ _ e); [done|].
  by destruct (slot1_matches _ _ e).
Qed.

Lemma hash_unit_mem s s1 : hash_unit_used s s1 -> nbi_mem s1 = nbi_mem s /\ same_hash s s1.
Proof. intros ->. done. Qed.

(** What a table operation returns with: the tables of the state after it *)
Definition table_step (nbi mac : Z) (r : option Z) (s s' : nic) : Prop :=
  tables_only s s' /\ mac_tables_ok (nbi_mem s') /\
  forall nbi' mac', 0 <= nbi' < 2 -> fits 48 mac' ->
    mac_table nbi' s' mac' = if decide (nbi' = nbi /\ mac' = mac) then r else mac_table nbi' s mac'.

Lemma table_step_write nbi mac r e' s s1 :
  0 <= nbi < 2 -> fits 48 mac -> hash_unit_used s s1 -> mac_tables_ok (nbi_mem s) ->
  bucket_fits e' -> no_duplicate e' ->
  (forall mac', fits 48 mac' -> bucket_get mac' e' = if decide (mac' = mac) then r
     else bucket_get mac' (mac_bucket nbi (mac_hash s mac) (nbi_mem s))) ->
  exists s', (_ ← write_bucket nbi (mac_addr0 (mac_hash s mac)) (mac_addr1 (mac_hash s mac)) e';
              mret 0) s1 = Some (0, s') /\ table_step nbi mac r s s'.
Proof.
  intros Hnbi Hmac Hu Hok He Hdup Hget. destruct (hash_unit_mem s s1 Hu) as [Hm Hsame].
  destruct (run_write_bucket nbi (mac_hash s mac) e' s1 Hnbi (mac_hash_range s mac) He)
    as (s' & Hrun & Hframe & Hb & Hok').
  exists s'. split; [by erewrite run_some by exact Hrun|].
  assert (Hsame' : same_hash s s').
  { apply tables_only_hash in Hframe. unfold same_hash in *. intuition congruence. }
  split; [transitivity s1; [by apply hash_unit_tables_only|done]|].
  split; [apply Hok'; [by rewrite Hm|done]|].
  intros nbi' mac' Hn Hmac'. unfold mac_table. rewrite (mac_hash_same s s' mac' Hsame').
  rewrite Hb by (done || apply mac_hash_range). rewrite Hm.
  destruct (decide (nbi' = nbi /\ mac_hash s mac' = mac_hash s mac)) as [[-> Heq]|Hne].
  - rewrite Hget, <- Heq by done. repeat case_decide; tauto.
  - rewrite decide_False; [done|]. intros [-> ->]. by apply Hne.
Qed.

Lemma table_step_none nbi mac s s1 :
  hash_unit_used s s1 -> mac_tables_ok (nbi_mem s) -> table_step nbi mac (mac_table nbi s mac) s s1.
Proof.
  intros Hu Hok. destruct (hash_unit_mem s s1 Hu) as [Hm Hsame].
  split; [by apply hash_unit_tables_only|]. split; [by rewrite Hm|].
  intros nbi' mac' _ _. unfold mac_table. rewrite (mac_hash_same s s1 mac' Hsame), Hm.
  case_decide as Hd; [|done]. by destruct Hd as [-> ->].
Qed.

Lemma mac_add_step nbi mac result idx s :
  0 <= nbi < 2 -> fits 48 mac -> fits 16 result -> result <> 0 -> mac_tables_ok (nbi_mem s) ->
  exists ret s', catamaran_mac_match_table_add nbi mac result idx s = Some (ret, s') /\
    ((ret = 0 /\ table_step nbi mac (Some result) s s') \/
     (ret = -1 /\ table_step nbi mac None s s' /\ nbi_mem s' = nbi_mem s /\
      mac_table nbi s mac = None /\
      let e := mac_bucket nbi (mac_hash s mac) (nbi_mem s) in
      slot0_free e = false /\ slot1_free e = false)).
Proof.
  intros Hnbi Hmac Hfit Hres Hok.
  destruct (run_hash_calc idx mac s) as (s1 & Hh & Hu).
  destruct (hash_unit_mem s s1 Hu) as [Hm Hsame].
  rewrite (run_mac_add nbi mac result idx s s1 Hh), Hm.
  destruct (Hok nbi (mac_hash s mac) Hnbi (mac_hash_range s mac)) as [Hdup _].
  destruct (bucket_add mac result _) as [e'|] eqn:Hadd.
  - destruct (table_step_write nbi mac (Some result) e' s s1) as (s' & Hrun & Hstep); try done.
    + eapply bucket_add_fits; [|done|exact Hadd]. apply bucket_of_fits.
    + by eapply no_duplicate_add.
    + intros mac' Hmac'. by apply (bucket_get_add mac result).
    + eexists _, s'. split; [exact Hrun|]. by left.
  - apply bucket_add_none in Hadd as (Hnone & F0 & F1).
    eexists _, s1. split; [reflexivity|]. right. split; [done|].
    split; [rewrite <- Hnone; by apply table_step_none|]. done.
Qed.

(** C25: The MAC tables refine maps.  After an addition that returns 0 the table
    of that NBI has the new result for the address, every other address and the
    other NBI are as before; -1 means that nothing changed, that the address
    was not in the table and that its bucket is full.  Addresses stay unique
    and the two copies equal. *)
Theorem mac_add_refines nbi mac result idx s :
  0 <= nbi < 2 -> fits 48 mac -> fits 16 result -> result <> 0 -> mac_tables_ok (nbi_mem s) ->
  exists ret s', catamaran_mac_match_table_add nbi mac result idx s = Some (ret, s') /\
    ((ret = 0 /\ table_step nbi mac (Some result) s s') \/
     (ret = -1 /\ table_step nbi mac None s s' /\ nbi_mem s' = nbi_mem s /\
      mac_table nbi s mac = None /\
      let e := mac_bucket nbi (mac_hash s mac) (nbi_mem s) in
      slot0_free e = false /\ slot1_free e = false)).
Proof. apply mac_add_step. Qed.

Lemma mac_remove_step nbi mac idx s :
  0 <= nbi < 2 -> fits 48 mac -> mac_tables_ok (nbi_mem s) ->
  exists s', catamaran_mac_match_table_remove nbi mac idx s =
    Some (match mac_table nbi s mac with Some _ => 0 | None => -1 end, s') /\
    table_step nbi mac None s s'.
Proof.
  intros Hnbi Hmac Hok.
  destruct (run_hash_calc idx mac s) as (s1 & Hh & Hu).
  destruct (hash_unit_mem s s1 Hu) as [Hm Hsame].
  rewrite (run_mac_remove nbi mac idx s s1 Hh), Hm.
  destruct (Hok nbi (mac_hash s mac) Hnbi (mac_hash_range s mac)) as [Hdup _].
  unfold mac_table at 1. set (e := mac_bucket nbi (mac_hash s mac) (nbi_mem s)) in *.
  destruct (bucket_remove mac e) as [e'|] eqn:Hrem.
  - destruct (table_step_write nbi mac None e' s s1) as (s' & Hrun & Hstep); try done.
    + eapply bucket_remove_fits; [|exact Hrem]. apply bucket_of_fits.
    + by eapply no_duplicate_remove.
    + intros mac' Hmac'. by apply bucket_get_remove.
    + exists s'. split; [|done]. rewrite Hrun.
      destruct (bucket_get mac e) eqn:Hg; [done|].
      apply bucket_get_none_remove in Hg. congruence.
  - apply bucket_get_none_remove in Hrem. rewrite Hrem. exists s1. split; [done|].
    rewrite <- Hrem. by apply table_step_none.
Qed.

(** Removal from the MAC table of an NBI: the address is gone whether it
    returns 0 or -1, 0 exactly when it was there; every other address and the
    other NBI are as before, and the invariant is kept. *)
Theorem mac_remove_refines nbi mac idx s :
  0 <= nbi < 2 -> fits 48 mac -> mac_tables_ok (nbi_mem s) ->
  exists s', catamaran_mac_match_table_remove nbi mac idx s =
    Some (match mac_table nbi s mac with Some _ => 0 | None => -1 end, s') /\
    table_step nbi mac None s s'.
Proof. apply mac_remove_step. Qed.

(** Lookup gives the result that the table has for the address, -1 when it
    has none, and leaves both tables as they are. *)
Theorem mac_get_correct nbi mac idx s :
  0 <= nbi < 2 -> exists s', catamaran_mac_match_table_get nbi mac idx s =
    Some (default (-1) (mac_table nbi s mac), s') /\ hash_unit_used s s'.
Proof.
  intros Hnbi. destruct (run_hash_calc idx mac s) as (s1 & Hh & Hu).
  destruct (hash_unit_mem s s1 Hu) as [Hm Hsame].
  exists s1. split; [|done]. unfold catamaran_mac_match_table_get.
  erewrite run_some by exact Hh. cbv beta zeta.
  erewrite run_some by (apply run_read_bucket, mac_hash_range). cbv beta. rewrite Hm.
  unfold mac_table, bucket_get, slot_get. rewrite slot0_matches_eq, slot1_matches_eq.
  destruct (slot_matches _ _ _ _); [done|]. by destruct (slot_matches _ _ _ _).
Qed.
End mac_table.

(** ** The channel table *)

Section channel_data.

(** The byte at an offset of a block, and the entry of a channel *)
Definition byte_at (data : list Z) (off : Z) : Z :=
  default 0 (CTMRN_CHAN2PORT_ENTRY_READ data off).

Definition chan_data (data : list Z) (chan : Z) : catamaran_chan2port_entry :=
  mk_chan2port (byte_at data (CATAMARAN_CHAN_PORT_OFF chan))
               (byte_at data (CATAMARAN_CHAN_MODE_OFF chan)).

(** What a byte keeps of an entry *)
Definition chan2port_u8 (e : catamaran_chan2port_entry) : catamaran_chan2port_entry :=
  mk_chan2port (Z.land (port e) 0xFF) (Z.land (port_mode e) 0xFF).

Lemma entry_read_some data off : length data = 4%nat -> 0 <= off < 16 ->
  CTMRN_CHAN2PORT_ENTRY_READ data off = Some (byte_at data off).
Proof.
  intros Hlen Hoff. unfold byte_at, CTMRN_CHAN2PORT_ENTRY_READ.
  destruct (lookup_lt_is_Some_2 data (Z.to_nat (Z.shiftr off 2))) as [w ->]; [|done].
  rewrite Z.shiftr_div_pow2 by lia. change (2 ^ 2) with 4.
  assert (off / 4 < 4) by (apply Z.div_lt_upper_bound; lia).
  assert (0 <= off / 4) by (apply Z.div_pos; lia). lia.
Qed.

Lemma length_entry_write data off v : length (CTMRN_CHAN2PORT_ENTRY_WRITE data off v) = length data.
Proof. unfold CTMRN_CHAN2PORT_ENTRY_WRITE. cbv zeta. apply length_alter. Qed.

Lemma off_parts off : 0 <= off < 16 ->
  Z.shiftr off 2 = off / 4 /\ Z.shiftl (Z.land off 0x3) 3 = 8 * (off mod 4).
Proof.
  intros Hoff. split; [by rewrite Z.shiftr_div_pow2 by lia|].
  change (Z.land off 0x3) with (Z.land off (Z.ones 2)). rewrite Z.land_ones, Z.shiftl_mul_pow2 by lia.
  change (2 ^ 2) with 4. change (2 ^ 3) with 8. lia.
Qed.

Lemma byte_at_write data off off' v :
  length data = 4%nat -> 0 <= off < 16 -> 0 <= off' < 16 ->
  byte_at (CTMRN_CHAN2PORT_ENTRY_WRITE data off v) off' =
  if decide (off' = off) then Z.land v 0xFF else byte_at data off'.
Proof.
  intros Hlen Hoff Hoff'. unfold byte_at, CTMRN_CHAN2PORT_ENTRY_READ, CTMRN_CHAN2PORT_ENTRY_WRITE.
  cbv zeta. destruct (off_parts off Hoff) as [-> ->]. destruct (off_parts off' Hoff') as [-> ->].
  assert (Hr : 0 <= off mod 4 < 4) by (apply Z.mod_pos_bound; lia).
  assert (Hr' : 0 <= off' mod 4 < 4) by (apply Z.mod_pos_bound; lia).
  destruct (decide (off' / 4 = off / 4)) as [Hq|Hq].
  - rewrite Hq, list_lookup_alter_eq.
    destruct (lookup_lt_is_Some_2 data (Z.to_nat (off / 4))) as [w ->].
    { assert (off / 4 < 4) by (apply Z.div_lt_upper_bound; lia).
      assert (0 <= off / 4) by (apply Z.div_pos; lia). lia. }
    cbn [fmap option_fmap option_map default]. change 0xFF with (Z.ones 8).
    destruct (decide (off' = off)) as [Hd|Hd].
    { rewrite Hd. unfold id. clear -Hr. generalize dependent (off mod 4). intros k Hk. zbits. }
    assert (Hne : off mod 4 <> off' mod 4).
    { intros Heq. apply Hd. rewrite (Z.div_mod off' 4), (Z.div_mod off 4) by lia. lia. }
    unfold id. clear -Hr Hr' Hne. generalize dependent (off mod 4). generalize dependent (off' mod 4).
    intros k' Hk' k Hk Hne. assert (k < k' \/ k' < k) as [?|?] by lia; zbits.
  - rewrite decide_False by congruence. rewrite list_lookup_alter_ne; [done|].
    assert (0 <= off / 4) by (apply Z.div_pos; lia).
    assert (0 <= off' / 4) by (apply Z.div_pos; lia). lia.
Qed.

(** The two bytes of each of the eight channels of a block *)
Lemma chan_offs c : 0 <= c < 8 ->
  CATAMARAN_CHAN_PORT_OFF c = 15 - 2 * c /\ CATAMARAN_CHAN_MODE_OFF c = 14 - 2 * c.
Proof.
  intros Hc.
  assert (c = 0 \/ c = 1 \/ c = 2 \/ c = 3 \/ c = 4 \/ c = 5 \/ c = 6 \/ c = 7) as Hcs by lia.
  repeat destruct Hcs as [->|Hcs]; try subst c; by vm_compute.
Qed.

Lemma chan_off_block b c : CATAMARAN_CHAN_PORT_OFF (8 * b + c) = CATAMARAN_CHAN_PORT_OFF c /\
  CATAMARAN_CHAN_MODE_OFF (8 * b + c) = CATAMARAN_CHAN_MODE_OFF c.
Proof.
  unfold CATAMARAN_CHAN_PORT_OFF, CATAMARAN_CHAN_MODE_OFF.
  change (Z.quot 16 CATAMARAN_CHAN_ENTRIES_PER_LOC) with 2.
  assert (Hl : Z.land ((8 * b + c) * 2) 0xf = Z.land (c * 2) 0xf).
  { change 0xf with (Z.ones 4). rewrite !Z.land_ones by lia. change (2 ^ 4) with 16.
    replace ((8 * b + c) * 2) with (c * 2 + b * 16) by lia. apply Z_mod_plus_full. }
  by rewrite Hl.
Qed.

Lemma chan_data_write data c c' e : length data = 4%nat -> 0 <= c < 8 -> 0 <= c' < 8 ->
  chan_data (CTMRN_CHAN2PORT_ENTRY_WRITE
    (CTMRN_CHAN2PORT_ENTRY_WRITE data (CATAMARAN_CHAN_PORT_OFF c) (port e))
    (CATAMARAN_CHAN_MODE_OFF c) (port_mode e)) c' =
  if decide (c' = c) then chan2port_u8 e else chan_data data c'.
Proof.
  intros Hlen Hc Hc'. unfold chan_data. destruct (chan_offs c Hc) as [-> ->].
  destruct (chan_offs c' Hc') as [-> ->].
  rewrite !byte_at_write by (rewrite ?length_entry_write; (done || lia)).
  repeat case_decide; try lia; done.
Qed.

(** The loops over the channels of a block *)
Lemma run_set_chans entries : forall n f l data i s,
  l - f = Z.of_nat n -> 0 <= f -> l <= 8 -> length data = 4%nat -> (i + n <= length entries)%nat ->
  exists data', for_fold (range f l) (data, i) (fun y chan =>
      let '(data, entry_cnt) := y in
      e ← of_option (entries !! entry_cnt);
      let data := CTMRN_CHAN2PORT_ENTRY_WRITE data (CATAMARAN_CHAN_PORT_OFF chan) (port e) in
      let data := CTMRN_CHAN2PORT_ENTRY_WRITE data (CATAMARAN_CHAN_MODE_OFF chan) (port_mode e) in
      mret (data, S entry_cnt)) s = Some ((data', (i + n)%nat), s : nic) /\
    length data' = 4%nat /\
    forall c, 0 <= c < 8 -> chan_data data' c =
      if decide (f <= c < l)
      then chan2port_u8 (nth (i + Z.to_nat (c - f)) entries (mk_chan2port 0 0))
      else chan_data data c.
Proof.
  induction n as [|n IH]; intros f l data i s Hn Hf Hl Hlen Hi.
  { rewrite range_nil by lia. exists data. rewrite Nat.add_0_r. split; [done|]. split; [done|].
    intros c Hc. by rewrite decide_False by lia. }
  rewrite range_cons by lia. cbn [for_fold].
  destruct (lookup_lt_is_Some_2 entries i) as [e He]; [lia|].
  set (data1 := CTMRN_CHAN2PORT_ENTRY_WRITE
    (CTMRN_CHAN2PORT_ENTRY_WRITE data (CATAMARAN_CHAN_PORT_OFF f) (port e))
    (CATAMARAN_CHAN_MODE_OFF f) (port_mode e)).
  assert (Hlen1 : length data1 = 4%nat) by (subst data1; by rewrite !length_entry_write).
  destruct (IH (f + 1) l data1 (S i) s) as (data' & Hrun & Hlen' & Hc); [lia|lia|lia|done|lia|].
  exists data'. split; [|split; [done|]].
  - rewrite run_assoc. erewrite run_of_option by exact He. cbv beta zeta. rewrite run_ret.
    replace (i + S n)%nat with (S i + n)%nat by lia. exact Hrun.
  - intros c Hcr. rewrite Hc by done. subst data1. rewrite chan_data_write by (done || lia).
    destruct (decide (f + 1 <= c < l)); [|destruct (decide (c = f)) as [->|]].
    + rewrite decide_True by lia. do 2 f_equal. lia.
    + rewrite decide_True by lia. rewrite Z.sub_diag, Nat.add_0_r.
      f_equal. symmetry. by apply nth_lookup_Some.
    + by rewrite decide_False by lia.
Qed.

Lemma run_get_chans data : forall n f l acc s,
  l - f = Z.of_nat n -> 0 <= f -> l <= 8 -> length data = 4%nat ->
  for_fold (range f l) acc (fun entries chan =>
    p ← of_option (CTMRN_CHAN2PORT_ENTRY_READ data (CATAMARAN_CHAN_PORT_OFF chan));
    m ← of_option (CTMRN_CHAN2PORT_ENTRY_READ data (CATAMARAN_CHAN_MODE_OFF chan));
    mret (entries ++ [mk_chan2port p m])) s = Some (acc ++ (chan_data data <$> range f l), s : nic).
Proof.
  induction n as [|n IH]; intros f l acc s Hn Hf Hl Hlen.
  { rewrite range_nil by lia. simpl. by rewrite app_nil_r. }
  rewrite range_cons by lia. cbn [for_fold fmap list_fmap].
  destruct (chan_offs f) as [Hp Hm]; [lia|].
  assert (0 <= CATAMARAN_CHAN_PORT_OFF f < 16 /\ 0 <= CATAMARAN_CHAN_MODE_OFF f < 16) as [Hp' Hm'] by lia.
  rewrite run_assoc. erewrite run_of_option by (by apply entry_read_some). cbv beta.
  rewrite run_assoc. erewrite run_of_option by (by apply entry_read_some). cbv beta.
  rewrite run_ret, (IH (f + 1) l) by lia. by rewrite <- app_assoc.
Qed.
End channel_data.

Section chan_table.
Context `{Devices, NbiPcRegs}.

(** The entry of a channel in the first copy of the table of an NBI *)
Definition chan_entry (nbi chan : Z) (m : gmap (Z * Z) Z) : catamaran_chan2port_entry :=
  chan_data (pc_entry nbi (CATAMARAN_CHAN_TABLE_BASE0 + chan / 8) m) chan.

(** The last channel that a call really reads or writes *)
Definition last_configured (chan_start chan_end : Z) : Z :=
  if decide (chan_start / 8 = chan_end / 8) then chan_end
  else Z.max (8 * (chan_start / 8) + 7) (chan_end - chan_start mod 8).

Definition nth_entry (entries : list catamaran_chan2port_entry) (i : Z) : catamaran_chan2port_entry :=
  nth (Z.to_nat i) entries (mk_chan2port 0 0).

(** Channels [lo..hi] of [nbi] have the entries from number [i] on, the other
    channels are as before, and so is the shared memory with the MAC tables. *)
Definition chans_set (nbi lo hi i : Z) (entries : list catamaran_chan2port_entry)
    (m m' : gmap (Z * Z) Z) : Prop :=
  (forall nbi' c, 0 <= nbi' < 2 -> 0 <= c < CATAMARAN_CHAN_NUM_CHANS ->
     chan_entry nbi' c m' = if decide (nbi' = nbi /\ lo <= c <= hi)
                            then chan2port_u8 (nth_entry entries (i + (c - lo)))
                            else chan_entry nbi' c m) /\
  (forall nbi' j, 0 <= nbi' < 2 -> SMEM_ENTRY <= j -> pc_entry nbi' j m' = pc_entry nbi' j m).

Lemma chans_set_none nbi lo hi i entries m : hi < lo -> chans_set nbi lo hi i entries m m.
Proof. intros Hlt. split; [|done]. intros nbi' c _ _. by rewrite decide_False by lia. Qed.

Lemma chans_set_app nbi lo mid hi i entries m m' m'' :
  lo <= mid + 1 -> mid <= hi ->
  chans_set nbi lo mid i entries m m' ->
  chans_set nbi (mid + 1) hi (i + (mid + 1 - lo)) entries m' m'' ->
  chans_set nbi lo hi i entries m m''.
Proof.
  intros H1 H2 [Ha Hb] [Hc Hd]. split.
  - intros nbi' c Hn Hcr. rewrite Hc, Ha by done. repeat case_decide; try lia; try done.
    do 2 f_equal. lia.
  - intros nbi' j Hn Hj. by rewrite Hd, Hb.
Qed.

Lemma chan_entry_block nbi b c m : 0 <= c < 8 ->
  chan_entry nbi (8 * b + c) m = chan_data (pc_entry nbi (CATAMARAN_CHAN_TABLE_BASE0 + b) m) c.
Proof.
  intros Hc. unfold chan_entry, chan_data. destruct (chan_off_block b c) as [-> ->].
  replace ((8 * b + c) / 8) with b; [done|]. symmetry.
  replace (8 * b + c) with (c + b * 8) by lia. rewrite Z.div_add, Z.div_small by lia. lia.
Qed.

Lemma run_chan_read nbi b s : 0 <= b < 16 ->
  nbipc_pelm2lmem_copy nbi (Z.shiftl (CATAMARAN_CHAN_TABLE_BASE0 + b) 4) 16 s =
  Some (pc_entry nbi (CATAMARAN_CHAN_TABLE_BASE0 + b) (nbi_mem s), s).
Proof. intros Hb. apply run_pelm_read. unfold CATAMARAN_CHAN_TABLE_BASE0. lia. Qed.

Lemma run_chan_write nbi b f l i entries data s : 0 <= nbi < 2 -> 0 <= b < 16 ->
  length data = 4%nat -> 0 <= f ->
  (forall c, 0 <= c < 8 -> chan_data data c = if decide (f <= c < l)
     then chan2port_u8 (nth_entry entries (i + (c - f)))
     else chan_entry nbi (8 * b + c) (nbi_mem s)) ->
  l <= 8 ->
  exists s', nbipc_lmem2pelm_copy nbi (Z.shiftl (CATAMARAN_CHAN_TABLE_BASE0 + b) 4)
      (Z.shiftl (CATAMARAN_CHAN_TABLE_BASE1 + b) 4) data 16 s = Some (tt, s') /\
    tables_only s s' /\ chans_set nbi (8 * b + f) (8 * b + l - 1) i entries (nbi_mem s) (nbi_mem s').
Proof.
  intros Hn Hb Hlen Hf Hdata Hl.
  destruct (run_pelm_write nbi (CATAMARAN_CHAN_TABLE_BASE0 + b) (CATAMARAN_CHAN_TABLE_BASE1 + b) data s)
    as (h & Hrun); [done|unfold CATAMARAN_CHAN_TABLE_BASE0; lia|unfold CATAMARAN_CHAN_TABLE_BASE1; lia|].
  eexists. split; [exact Hrun|]. split; [unfold tables_only, with_nbi; by destruct s|].
  rewrite nbi_mem_with. split.
  - intros nbi' c' Hn' Hc'. change CATAMARAN_CHAN_NUM_CHANS with 128 in Hc'.
    rewrite (Z.div_mod c' 8) by lia. pose proof (Z.mod_pos_bound c' 8 ltac:(lia)) as Hm.
    assert (0 <= c' / 8 < 16) as Hq by (split; [apply Z.div_pos|apply Z.div_lt_upper_bound]; lia).
    generalize dependent (c' mod 8). generalize dependent (c' / 8). clear c' Hc'. intros q Hq c Hc.
    rewrite !chan_entry_block, !pc_entry_set by done.
    unfold CATAMARAN_CHAN_TABLE_BASE0, CATAMARAN_CHAN_TABLE_BASE1 in *.
    destruct (decide (nbi' = nbi /\ q = b)) as [[-> ->]|Hne].
    + rewrite decide_True, Hdata by (auto || lia).
      destruct (decide (f <= c < l)).
      * rewrite decide_True by lia. do 2 f_equal. lia.
      * rewrite decide_False by lia. by rewrite chan_entry_block.
    + rewrite decide_False by lia. rewrite decide_False by lia.
      rewrite decide_False; [done|]. intros [-> Hr]. apply Hne. split; [done|]. lia.
  - intros nbi' j Hn' Hj. unfold SMEM_ENTRY in Hj. rewrite !pc_entry_set by done.
    unfold CATAMARAN_CHAN_TABLE_BASE0, CATAMARAN_CHAN_TABLE_BASE1.
    by rewrite !decide_False by lia.
Qed.

(** One round of the loop over the blocks *)
Definition set_block (nbi : Z) (entries : list catamaran_chan2port_entry)
    (x : Z * Z * nat) (block : Z) : C (Z * Z * nat) :=
  let '(first_chan, chan_cnt, entry_cnt) := x in
  let addr_pri := Z.shiftl (CATAMARAN_CHAN_TABLE_BASE0 + block) 4 in
  let addr_sec := Z.shiftl (CATAMARAN_CHAN_TABLE_BASE1 + block) 4 in
  data ← nbipc_pelm2lmem_copy nbi addr_pri 16;
  let last_chan := block_last first_chan chan_cnt in
  y ← for_fold (range first_chan last_chan) (data, entry_cnt) (fun y chan =>
    let '(data, entry_cnt) := y in
    e ← of_option (entries !! entry_cnt);
    let data := CTMRN_CHAN2PORT_ENTRY_WRITE data (CATAMARAN_CHAN_PORT_OFF chan) (port e) in
    let data := CTMRN_CHAN2PORT_ENTRY_WRITE data (CATAMARAN_CHAN_MODE_OFF chan) (port_mode e) in
    mret (data, S entry_cnt));
  let '(data, entry_cnt) := y in
  _ ← nbipc_lmem2pelm_copy nbi addr_pri addr_sec data 16;
  mret (0, chan_cnt - CATAMARAN_CHAN_ENTRIES_PER_LOC, entry_cnt).

Lemma block_last_bounds f n : 0 <= f < 8 -> block_last f n <= 8 /\
  (0 <= n -> f <= block_last f n) /\ (n < 0 -> block_last f n = f + n) /\
  (0 <= n -> block_last f n = Z.min 8 (f + n)).
Proof.
  intros Hf. unfold block_last, CATAMARAN_CHAN_ENTRIES_PER_LOC. destruct (Z.ltb_spec n (8 - f)); lia.
Qed.

Lemma run_set_block nbi entries b f n i s : 0 <= nbi < 2 -> 0 <= b < 16 -> 0 <= f < 8 ->
  Z.of_nat i + Z.max 0 n <= Z.of_nat (length entries) ->
  exists s', set_block nbi entries (f, n, i) b s =
      Some ((0, n - 8, (i + Z.to_nat (block_last f n - f))%nat), s') /\
    tables_only s s' /\
    chans_set nbi (8 * b + f) (8 * b + block_last f n - 1) (Z.of_nat i) entries (nbi_mem s) (nbi_mem s').
Proof.
  intros Hn Hb Hf Hi. destruct (block_last_bounds f n Hf) as (Hl & Hl1 & Hl2 & Hl3).
  set (l := block_last f n) in *. unfold set_block.
  erewrite run_some by (by apply run_chan_read). cbv beta. fold l.
  set (data := pc_entry nbi (CATAMARAN_CHAN_TABLE_BASE0 + b) (nbi_mem s)).
  assert (Hlen : length data = 4%nat) by apply length_pc_entry.
  assert (Hloop : exists data', for_fold (range f l) (data, i) (fun y chan =>
      let '(data, entry_cnt) := y in
      e ← of_option (entries !! entry_cnt);
      let data := CTMRN_CHAN2PORT_ENTRY_WRITE data (CATAMARAN_CHAN_PORT_OFF chan) (port e) in
      let data := CTMRN_CHAN2PORT_ENTRY_WRITE data (CATAMARAN_CHAN_MODE_OFF chan) (port_mode e) in
      mret (data, S entry_cnt)) s = Some ((data', (i + Z.to_nat (l - f))%nat), s : nic) /\
    length data' = 4%nat /\
    forall c, 0 <= c < 8 -> chan_data data' c = if decide (f <= c < l)
      then chan2port_u8 (nth_entry entries (Z.of_nat i + (c - f)))
      else chan_entry nbi (8 * b + c) (nbi_mem s)).
  { destruct (decide (n < 0)) as [Hneg|Hpos].
    - rewrite range_nil by lia. exists data. split; [|split; [done|]].
      + cbn [for_fold]. replace (Z.to_nat (l - f)) with 0%nat by lia. by rewrite Nat.add_0_r.
      + intros c Hc. rewrite decide_False, chan_entry_block by lia. done.
    - destruct (run_set_chans entries (Z.to_nat (l - f)) f l data i s)
        as (data' & Hrun & Hlen' & Hc); [lia|lia|lia|done|lia|].
      exists data'. split; [exact Hrun|]. split; [done|]. intros c Hcr. rewrite Hc by done.
      case_decide; [|by rewrite chan_entry_block]. unfold nth_entry. do 2 f_equal. lia. }
  destruct Hloop as (data' & Hrun & Hlen' & Hc).
  erewrite run_some by exact Hrun. cbv beta.
  destruct (run_chan_write nbi b f l (Z.of_nat i) entries data' s) as (s' & Hw & Ht & Hs);
    [done|done|done|lia|done|lia|].
  exists s'. split; [|done]. by erewrite run_some by exact Hw.
Qed.

(** The blocks after the first one *)
Lemma run_set_blocks nbi entries : forall k b n i s,
  0 <= nbi < 2 -> 0 <= b -> b + Z.of_nat k <= 16 -> n <= 8 * Z.of_nat k ->
  Z.of_nat i + Z.max 0 n <= Z.of_nat (length entries) ->
  exists x s', for_fold (range b (b + Z.of_nat k)) (0, n, i) (set_block nbi entries) s = Some (x, s') /\
    tables_only s s' /\
    chans_set nbi (8 * b) (8 * b + n - 1) (Z.of_nat i) entries (nbi_mem s) (nbi_mem s').
Proof.
  induction k as [|k IH]; intros b n i s Hn Hb Hk Hle Hi.
  { rewrite range_nil by lia. exists (0, n, i), s. split; [done|]. split; [done|].
    apply chans_set_none. lia. }
  rewrite range_cons by lia. cbn [for_fold].
  destruct (block_last_bounds 0 n) as (Hl & Hl1 & Hl2 & Hl3); [lia|].
  destruct (run_set_block nbi entries b 0 n i s) as (s1 & Hrun & Ht & Hs); [done|lia|lia|done|].
  erewrite run_some by exact Hrun. cbv beta.
  destruct (IH (b + 1) (n - 8) (i + Z.to_nat (block_last 0 n - 0))%nat s1)
    as (x & s' & Hrun' & Ht' & Hs'); [done|lia|lia|lia|lia|].
  replace (b + 1 + Z.of_nat k) with (b + Z.of_nat (S k)) in Hrun' by lia.
  exists x, s'. split; [exact Hrun'|]. split; [by transitivity s1|].
  rewrite Z.add_0_r in Hs.
  destruct (decide (n < 8)).
  - assert (Hs0 : chans_set nbi (8 * b) (8 * b + n - 1) (Z.of_nat i) entries (nbi_mem s) (nbi_mem s1)).
    { destruct (decide (n < 0)); [|by rewrite Hl3, Z.min_r in Hs by lia].
      destruct Hs as [Ha Hb']. split; [|done]. intros nbi' c ? ?. rewrite Ha by done.
      by rewrite !decide_False by lia. }
    destruct Hs0 as [Ha Hb0], Hs' as [Ha' Hb']. split.
    + intros nbi' c ? ?. rewrite Ha', Ha by done. rewrite (decide_False (P := nbi' = nbi /\ 8 * (b + 1) <= c <= _)) by lia.
      done.
    + intros. by rewrite Hb', Hb0.
  - rewrite Hl3, Z.min_l in Hs, Hs' by lia.
    eapply chans_set_app; [| |exact Hs|]; [lia|lia|].
    replace (8 * b + 8 - 1 + 1) with (8 * (b + 1)) by lia.
    replace (8 * b + n - 1) with (8 * (b + 1) + (n - 8) - 1) by lia.
    by replace (Z.of_nat i + (8 * (b + 1) - 8 * b)) with (Z.of_nat (i + Z.to_nat (8 - 0))) by lia.
Qed.

Lemma chan_split c : 0 <= c -> Z.land c CTMRN_CHAN2PORT_ENTRY_MASK = c mod 8 /\
  CATAMARAN_CHAN_LOC_ADDR c = c / 8.
Proof.
  intros Hc. split.
  - change CTMRN_CHAN2PORT_ENTRY_MASK with (Z.ones 3). by rewrite Z.land_ones by lia.
  - unfold CATAMARAN_CHAN_LOC_ADDR, CATAMARAN_CHAN_ENTRIES_PER_LOC. by rewrite Z.quot_div_nonneg by lia.
Qed.

Lemma run_chan_set nbi a e entries s :
  0 <= nbi < 2 -> 0 <= a <= e -> e < CATAMARAN_CHAN_NUM_CHANS ->
  e - a < Z.of_nat (length entries) ->
  exists s', catamaran_chan2port_table_set nbi a e entries s = Some (tt, s') /\
    tables_only s s' /\
    chans_set nbi a (last_configured a e) 0 entries (nbi_mem s) (nbi_mem s').
Proof.
  intros Hn Hae He Hlen. change CATAMARAN_CHAN_NUM_CHANS with 128 in He.
  unfold catamaran_chan2port_table_set. cbv zeta. rewrite (proj2 (Z.leb_gt _ _)) by lia.
  destruct (chan_split a) as [-> ->]; [lia|]. destruct (chan_split e) as [_ ->]; [lia|].
  pose proof (Z.mod_pos_bound a 8 ltac:(lia)) as Hf. pose proof (Z.mod_pos_bound e 8 ltac:(lia)) as Hfe.
  assert (Ha8 : a = 8 * (a / 8) + a mod 8) by (apply Z.div_mod; lia).
  assert (He8 : e = 8 * (e / 8) + e mod 8) by (apply Z.div_mod; lia).
  unfold last_configured. set (f := a mod 8) in *. set (b := a / 8) in *. set (be := e / 8) in *.
  rewrite range_cons by lia. cbn [for_fold]. fold (set_block nbi entries).
  destruct (block_last_bounds f (e - a + 1) Hf) as (Hl & Hl1 & _ & Hl3).
  destruct (run_set_block nbi entries b f (e - a + 1) 0 s) as (s1 & Hrun & Ht & Hs); [done|lia|done|lia|].
  rewrite run_assoc. erewrite run_some by exact Hrun. cbv beta.
  rewrite <- Ha8, Hl3 in Hs by lia.
  destruct (run_set_blocks nbi entries (Z.to_nat (be - b)) (b + 1) (e - a + 1 - 8)
    (0 + Z.to_nat (block_last f (e - a + 1) - f)) s1) as (x & s' & Hrun' & Ht' & Hs'); [done|lia|lia|lia|lia|].
  replace (b + 1 + Z.of_nat (Z.to_nat (be - b))) with (be + 1) in Hrun' by lia.
  exists s'. split; [by erewrite run_some by exact Hrun'|]. split; [by transitivity s1|].
  assert (Hnone : forall hi, hi < 8 * (b + 1) ->
    chans_set nbi (8 * (b + 1)) hi (Z.of_nat (0 + Z.to_nat (block_last f (e - a + 1) - f))) entries
      (nbi_mem s1) (nbi_mem s') -> chans_set nbi a (8 * b + Z.min 8 (f + (e - a + 1)) - 1) 0 entries
      (nbi_mem s) (nbi_mem s')).
  { intros hi Hhi [Hc Hd]. destruct Hs as [Hc1 Hd1]. split.
    - intros. by rewrite Hc, Hc1, (decide_False (P := _ /\ 8 * (b + 1) <= _ <= hi)) by (done || lia).
    - intros. by rewrite Hd, Hd1. }
  case_decide as Hsame.
  - rewrite Z.min_r in Hnone by lia. replace e with (8 * b + (f + (e - a + 1)) - 1) at 1 by lia.
    eapply Hnone; [|exact Hs']. lia.
  - rewrite Z.min_l in Hs, Hnone by lia.
    destruct (decide (e - f <= 8 * b + 7)).
    + rewrite Z.max_l by lia. replace (8 * b + 7) with (8 * b + 8 - 1) by lia.
      eapply Hnone; [|exact Hs']. lia.
    + rewrite Z.max_r by lia. eapply chans_set_app; [| |exact Hs|]; [lia|lia|].
      replace (8 * b + 8 - 1 + 1) with (8 * (b + 1)) by lia.
      replace (e - f) with (8 * (b + 1) + (e - a + 1 - 8) - 1) by lia.
      rewrite Hl3, Z.min_l in Hs' by lia.
      by replace (0 + (8 * (b + 1) - a)) with (Z.of_nat (0 + Z.to_nat (8 - f))) by lia.
Qed.

(** Reading: one block, and the blocks after the first one *)
Definition get_block (nbi : Z) (x : Z * Z * list catamaran_chan2port_entry) (block : Z)
    : C (Z * Z * list catamaran_chan2port_entry) :=
  let '(first_chan, chan_cnt, entries) := x in
  let addr := Z.shiftl (CATAMARAN_CHAN_TABLE_BASE0 + block) 4 in
  data ← nbipc_pelm2lmem_copy nbi addr 16;
  let last_chan := block_last first_chan chan_cnt in
  entries ← for_fold (range first_chan last_chan) entries (fun entries chan =>
    p ← of_option (CTMRN_CHAN2PORT_ENTRY_READ data (CATAMARAN_CHAN_PORT_OFF chan));
    m ← of_option (CTMRN_CHAN2PORT_ENTRY_READ data (CATAMARAN_CHAN_MODE_OFF chan));
    mret (entries ++ [mk_chan2port p m]));
  mret (0, chan_cnt - CATAMARAN_CHAN_ENTRIES_PER_LOC, entries).

Definition chan_entries (nbi lo hi : Z) (m : gmap (Z * Z) Z) : list catamaran_chan2port_entry :=
  (fun c => chan_entry nbi c m) <$> range lo (hi + 1).

Lemma range_app lo mid hi : lo <= mid -> mid <= hi -> range lo hi = range lo mid ++ range mid hi.
Proof.
  intros H1 H2. unfold range. replace (hi - lo) with ((mid - lo) + (hi - mid)) by lia.
  rewrite seqZ_app by lia. do 2 f_equal. lia.
Qed.

Lemma range_shift k lo hi : range (k + lo) (k + hi) = Z.add k <$> range lo hi.
Proof. unfold range. rewrite fmap_add_seqZ. f_equal. lia. Qed.

Lemma run_get_block nbi b f n acc s : 0 <= b < 16 -> 0 <= f < 8 ->
  get_block nbi (f, n, acc) b s =
  Some ((0, n - 8, acc ++ chan_entries nbi (8 * b + f) (8 * b + block_last f n - 1) (nbi_mem s)), s).
Proof.
  intros Hb Hf. destruct (block_last_bounds f n Hf) as (Hl & Hl1 & Hl2 & Hl3).
  unfold get_block. erewrite run_some by (by apply run_chan_read). cbv beta.
  unfold chan_entries. set (l := block_last f n) in *.
  replace (8 * b + l - 1 + 1) with (8 * b + l) by lia.
  destruct (decide (n < 0)).
  - rewrite !range_nil by lia. cbn [for_fold fmap list_fmap]. by rewrite run_ret, app_nil_r.
  - erewrite run_some by (apply (run_get_chans _ (Z.to_nat (l - f))); [lia|lia|lia|apply length_pc_entry]).
    cbv beta. unfold mret, M_ret. do 4 f_equal. rewrite range_shift, <- list_fmap_compose.
    apply list_fmap_ext. intros i c Hc. apply list_elem_of_lookup_2, elem_of_range in Hc.
    symmetry. apply chan_entry_block. lia.
Qed.

Lemma chan_entries_app nbi lo mid hi m : lo <= mid + 1 -> mid <= hi ->
  chan_entries nbi lo hi m = chan_entries nbi lo mid m ++ chan_entries nbi (mid + 1) hi m.
Proof. intros. unfold chan_entries. by rewrite (range_app lo (mid + 1)), fmap_app by lia. Qed.

Lemma chan_entries_nil nbi lo hi m : hi < lo -> chan_entries nbi lo hi m = [].
Proof. intros. unfold chan_entries. by rewrite range_nil by lia. Qed.

Lemma run_get_blocks nbi s : forall k b n acc,
  0 <= b -> b + Z.of_nat k <= 16 -> n <= 8 * Z.of_nat k ->
  exists x, for_fold (range b (b + Z.of_nat k)) (0, n, acc) (get_block nbi) s =
    Some ((x, acc ++ chan_entries nbi (8 * b) (8 * b + n - 1) (nbi_mem s)), s).
Proof.
  induction k as [|k IH]; intros b n acc Hb Hk Hle.
  { rewrite range_nil, chan_entries_nil, app_nil_r by lia. by exists (0, n). }
  rewrite range_cons by lia. cbn [for_fold].
  destruct (block_last_bounds 0 n) as (Hl & Hl1 & Hl2 & Hl3); [lia|].
  erewrite run_some by (apply run_get_block; lia). cbv beta. rewrite Z.add_0_r.
  destruct (IH (b + 1) (n - 8)
    (acc ++ chan_entries nbi (8 * b) (8 * b + block_last 0 n - 1) (nbi_mem s))) as (x & Hrun);
    [lia|lia|lia|].
  replace (b + 1 + Z.of_nat k) with (b + Z.of_nat (S k)) in Hrun by lia.
  exists x. rewrite Hrun, <- app_assoc. do 4 f_equal.
  destruct (decide (n < 8)).
  - rewrite (chan_entries_nil _ (8 * (b + 1))), app_nil_r by lia.
    destruct (decide (n < 0)); [by rewrite !chan_entries_nil by lia|]. by rewrite Hl3, Z.min_r by lia.
  - rewrite Hl3, Z.min_l by lia. rewrite (chan_entries_app _ (8 * b) (8 * b + 8 - 1) (8 * b + n - 1)) by lia.
    do 2 f_equal; lia.
Qed.

Lemma run_chan_get nbi a e s : 0 <= a <= e -> e < CATAMARAN_CHAN_NUM_CHANS ->
  catamaran_chan2port_table_get nbi a e s =
  Some (chan_entries nbi a (last_configured a e) (nbi_mem s), s).
Proof.
  intros Hae He. change CATAMARAN_CHAN_NUM_CHANS with 128 in He.
  unfold catamaran_chan2port_table_get. cbv zeta. rewrite (proj2 (Z.leb_gt _ _)) by lia.
  destruct (chan_split a) as [-> ->]; [lia|]. destruct (chan_split e) as [_ ->]; [lia|].
  pose proof (Z.mod_pos_bound a 8 ltac:(lia)) as Hf. pose proof (Z.mod_pos_bound e 8 ltac:(lia)) as Hfe.
  assert (Ha8 : a = 8 * (a / 8) + a mod 8) by (apply Z.div_mod; lia).
  assert (He8 : e = 8 * (e / 8) + e mod 8) by (apply Z.div_mod; lia).
  unfold last_configured. set (f := a mod 8) in *. set (b := a / 8) in *. set (be := e / 8) in *.
  rewrite range_cons by lia. cbn [for_fold]. fold (get_block nbi).
  destruct (block_last_bounds f (e - a + 1) Hf) as (Hl & Hl1 & _ & Hl3).
  rewrite run_assoc. erewrite run_some by (apply run_get_block; lia). cbv beta.
  rewrite <- Ha8, Hl3 by lia. cbn [app].
  destruct (run_get_blocks nbi s (Z.to_nat (be - b)) (b + 1) (e - a + 1 - 8)
    (chan_entries nbi a (8 * b + Z.min 8 (f + (e - a + 1)) - 1) (nbi_mem s))) as (x & Hrun);
    [lia|lia|lia|].
  replace (b + 1 + Z.of_nat (Z.to_nat (be - b))) with (be + 1) in Hrun by lia.
  erewrite run_some by exact Hrun. cbv beta. cbn [snd]. unfold mret, M_ret. do 2 f_equal.
  case_decide as Hsame.
  - rewrite Z.min_r, (chan_entries_nil _ (8 * (b + 1))), app_nil_r by lia. f_equal. lia.
  - rewrite Z.min_l by lia. destruct (decide (e - f <= 8 * b + 7)).
    + rewrite (chan_entries_nil _ (8 * (b + 1))), app_nil_r, Z.max_l by lia. f_equal. lia.
    + rewrite Z.max_r by lia. rewrite (chan_entries_app _ a (8 * b + 8 - 1) (e - f)) by lia.
      do 2 f_equal; lia.
Qed.
End chan_table.

Section channels.
Context `{Devices, NbiPcRegs, ClsHash}.

(** Setting channels: when the range begins at a block or stays in one, each
    of its channels gets its entry and every other channel of both NBIs, and
    the MAC tables, are as before. *)
Theorem chan2port_set_correct nbi a e entries s :
  0 <= nbi < 2 -> 0 <= a <= e -> e < CATAMARAN_CHAN_NUM_CHANS ->
  e - a < Z.of_nat (length entries) -> a mod 8 = 0 \/ a / 8 = e / 8 ->
  exists s', catamaran_chan2port_table_set nbi a e entries s = Some (tt, s') /\
    (forall nbi' c, 0 <= nbi' < 2 -> 0 <= c < CATAMARAN_CHAN_NUM_CHANS ->
       chan_entry nbi' c (nbi_mem s') =
       if decide (nbi' = nbi /\ a <= c <= e) then chan2port_u8 (nth_entry entries (c - a))
       else chan_entry nbi' c (nbi_mem s)) /\
    (forall nbi' mac, 0 <= nbi' < 2 -> mac_table nbi' s' mac = mac_table nbi' s mac).
Proof.
  intros Hn Hae He Hlen Hal.
  destruct (run_chan_set nbi a e entries s Hn Hae He Hlen) as (s' & Hrun & Ht & Hs & Hsm).
  assert (Hlast : last_configured a e = e).
  { unfold last_configured. case_decide; [done|]. destruct Hal as [Hz|]; [|done].
    rewrite Hz, Z.sub_0_r. apply Z.max_r.
    assert (a / 8 <= e / 8) by (apply Z.div_le_mono; lia).
    pose proof (Z.div_mod a 8 ltac:(lia)). pose proof (Z.div_mod e 8 ltac:(lia)).
    pose proof (Z.mod_pos_bound e 8 ltac:(lia)). lia. }
  rewrite Hlast in Hs. exists s'. split; [done|]. split.
  - intros nbi' c Hn' Hc. rewrite Hs by done. case_decide; [|done]. do 2 f_equal.
  - intros nbi' mac Hn'. unfold mac_table, mac_bucket.
    rewrite (mac_hash_same s s' mac (tables_only_hash s s' Ht)). rewrite Hsm; [done|done|].
    pose proof (mac_hash_range s mac). unfold SMEM_ENTRY, CATAMARAN_MAC_TABLE_BASE0. lia.
Qed.

(** Reading back the channels that were set gives the entries that were
    written, cut to bytes, whatever the range. *)
Theorem chan2port_roundtrip nbi a e entries s :
  0 <= nbi < 2 -> 0 <= a <= e -> e < CATAMARAN_CHAN_NUM_CHANS ->
  e - a + 1 = Z.of_nat (length entries) ->
  exists s', (catamaran_chan2port_table_set nbi a e entries ≫= fun _ =>
              catamaran_chan2port_table_get nbi a e) s =
    Some (chan2port_u8 <$> take (Z.to_nat (last_configured a e - a + 1)) entries, s').
Proof.
  intros Hn Hae He Hlen.
  destruct (run_chan_set nbi a e entries s Hn Hae He ltac:(lia)) as (s' & Hrun & _ & Hs & _).
  exists s'. erewrite run_some by exact Hrun. cbv beta. rewrite run_chan_get by done. do 2 f_equal.
  change CATAMARAN_CHAN_NUM_CHANS with 128 in *.
  assert (Hle : a <= last_configured a e <= e).
  { unfold last_configured. pose proof (Z.mod_pos_bound a 8 ltac:(lia)).
    pose proof (Z.mod_pos_bound e 8 ltac:(lia)).
    pose proof (Z.div_mod a 8 ltac:(lia)). pose proof (Z.div_mod e 8 ltac:(lia)).
    assert (a / 8 <= e / 8) by (apply Z.div_le_mono; lia). case_decide; lia. }
  generalize dependent (last_configured a e). intros l Hs Hl. apply list_eq. intros i.
  unfold chan_entries. rewrite !list_lookup_fmap.
  destruct (decide (Z.of_nat i < l - a + 1)) as [Hi|Hi].
  - unfold range. rewrite lookup_seqZ_lt by lia. rewrite lookup_take_lt by lia.
    destruct (lookup_lt_is_Some_2 entries i) as [x Hx]; [lia|]. rewrite Hx. cbn [fmap option_fmap option_map].
    rewrite Hs, decide_True by lia. do 2 f_equal. unfold nth_entry. apply nth_lookup_Some.
    by replace (Z.to_nat (0 + (a + Z.of_nat i - a))) with i by lia.
  - unfold range. rewrite lookup_seqZ_ge, lookup_take_ge by lia. done.
Qed.

(** A range that begins inside a block and goes on in the next one is not
    set to its end: the count of what is left drops by a whole block although
    only part of the first block was done, so the last channel keeps its old
    port and mode. *)
Theorem chan2port_set_stops_early nbi a e entries s :
  0 <= nbi < 2 -> 0 <= a <= e -> e < CATAMARAN_CHAN_NUM_CHANS ->
  e - a < Z.of_nat (length entries) -> a mod 8 <> 0 -> a / 8 <> e / 8 ->
  exists s', catamaran_chan2port_table_set nbi a e entries s = Some (tt, s') /\
    chan_entry nbi e (nbi_mem s') = chan_entry nbi e (nbi_mem s).
Proof.
  intros Hn Hae He Hlen Hm Hd.
  destruct (run_chan_set nbi a e entries s Hn Hae He Hlen) as (s' & Hrun & _ & Hs & _).
  exists s'. split; [done|]. rewrite Hs by (done || lia). rewrite decide_False; [done|].
  unfold last_configured. rewrite decide_False by done.
  pose proof (Z.mod_pos_bound a 8 ltac:(lia)). pose proof (Z.mod_pos_bound e 8 ltac:(lia)).
  pose proof (Z.div_mod a 8 ltac:(lia)). pose proof (Z.div_mod e 8 ltac:(lia)).
  assert (a / 8 <= e / 8) by (apply Z.div_le_mono; lia). lia.
Qed.
End channels.

(** ** Witnesses, with a hash unit that folds the masked data into the residue *)

Module Ctm.
Export Pc.
#[export] Instance hash_unit : ClsHash := {|
  pe_hashsboxen := bf_get 8 1; pe_hashsbox := bf_get 12 2; pe_hashmult := bf_get 4 4;
  hash_mult := fun raw sboxen numsboxes m63 m53 m36 m4 =>
    bf_set 0 1 m4 (bf_set 1 1 m36 (bf_set 2 1 m53 (bf_set 3 1 m63
      (bf_set 4 2 numsboxes (bf_set 6 1 sboxen raw)))));
  cls_hash := fun mult mask residue data => Z.lxor residue (Z.land data mask) |}.

Lemma pc_entry_empty nbi j : pc_entry nbi j ∅ = [0; 0; 0; 0].
Proof. unfold pc_entry, nbi_words, rd. simpl. by rewrite !lookup_empty. Qed.

Lemma tables_empty : mac_tables_ok ∅.
Proof.
  intros nbi off Hn Ho. split; [|by rewrite !pc_entry_empty].
  intros mac. left. unfold mac_bucket. rewrite pc_entry_empty. apply slot_get_free.
Qed.
End Ctm.

Section witnesses.
Import Ctm.

Lemma mac_add_refines_witness :
  mac_tables_ok (nbi_mem nic0) /\
  exists s', catamaran_mac_match_table_add 1 0x001122334455 0x100 0 nic0 = Some (0, s') /\
    mac_table 1 s' 0x001122334455 = Some 0x100.
Proof.
  split; [exact tables_empty|].
  destruct (mac_add_refines 1 0x001122334455 0x100 0 nic0 ltac:(lia) ltac:(split; by vm_compute)
    ltac:(split; by vm_compute) ltac:(lia) tables_empty)
    as (ret & s' & Hrun & [(-> & _ & _ & Ht)|(-> & _ & _ & _ & F0 & _)]).
  - exists s'. split; [exact Hrun|].
    rewrite (Ht 1 0x001122334455 ltac:(lia) ltac:(split; by vm_compute)). reflexivity.
  - by vm_compute in F0.
Defined.

Lemma mac_remove_refines_witness :
  mac_tables_ok (nbi_mem nic0) /\
  exists s', catamaran_mac_match_table_remove 0 0x001122334455 3 nic0 = Some (-1, s') /\
    mac_table 0 s' 0x001122334455 = None.
Proof.
  split; [exact tables_empty|].
  destruct (mac_remove_refines 0 0x001122334455 3 nic0 ltac:(lia) ltac:(split; by vm_compute)
    tables_empty) as (s' & Hrun & _ & _ & Ht).
  exists s'. split; [etransitivity; [exact Hrun|by vm_compute]|].
  rewrite (Ht 0 0x001122334455 ltac:(lia) ltac:(split; by vm_compute)). reflexivity.
Defined.

Lemma mac_get_correct_witness :
  0 <= 1 < 2 /\ exists s', catamaran_mac_match_table_get 1 0x001122334455 7 nic0 = Some (-1, s').
Proof.
  split; [lia|]. destruct (mac_get_correct 1 0x001122334455 7 nic0 ltac:(lia)) as (s' & Hrun & _).
  exists s'. etransitivity; [exact Hrun|by vm_compute].
Defined.

Lemma chan2port_set_correct_witness :
  (4 mod 8 = 0 \/ 4 / 8 = 7 / 8) /\
  exists s', catamaran_chan2port_table_set 0 4 7 (replicate 4 (mk_chan2port 1 3)) nic0 = Some (tt, s') /\
    chan_entry 0 7 (nbi_mem s') = mk_chan2port 1 3.
Proof.
  assert (Hal : 4 mod 8 = 0 \/ 4 / 8 = 7 / 8) by (right; by vm_compute).
  split; [exact Hal|].
  destruct (chan2port_set_correct 0 4 7 (replicate 4 (mk_chan2port 1 3)) nic0 ltac:(lia) ltac:(lia)
    ltac:(by vm_compute) ltac:(simpl; lia) Hal) as (s' & Hrun & Hs & _).
  exists s'. split; [exact Hrun|]. rewrite (Hs 0 7 ltac:(lia) ltac:(split; by vm_compute)). by vm_compute.
Defined.

Lemma chan2port_roundtrip_witness :
  6 - 3 + 1 = Z.of_nat (length (replicate 4 (mk_chan2port 2 259))) /\
  exists s', (catamaran_chan2port_table_set 1 3 6 (replicate 4 (mk_chan2port 2 259)) ≫= fun _ =>
              catamaran_chan2port_table_get 1 3 6) nic0 =
    Some (replicate 4 (mk_chan2port 2 3), s').
Proof.
  assert (Hlen : 6 - 3 + 1 = Z.of_nat (length (replicate 4 (mk_chan2port 2 259)))) by (simpl; lia).
  split; [exact Hlen|].
  destruct (chan2port_roundtrip 1 3 6 (replicate 4 (mk_chan2port 2 259)) nic0 ltac:(lia) ltac:(lia)
    ltac:(by vm_compute) Hlen) as (s' & Hrun).
  exists s'. etransitivity; [exact Hrun|by vm_compute].
Defined.

Lemma chan2port_set_stops_early_witness :
  4 mod 8 <> 0 /\
  exists s', catamaran_chan2port_table_set 0 4 11 (replicate 8 (mk_chan2port 1 3)) nic0 = Some (tt, s') /\
    chan_entry 0 11 (nbi_mem s') = mk_chan2port 0 0.
Proof.
  assert (Hm : 4 mod 8 <> 0) by (vm_compute; lia).
  split; [exact Hm|].
  destruct (chan2port_set_stops_early 0 4 11 (replicate 8 (mk_chan2port 1 3)) nic0 ltac:(lia)
    ltac:(lia) ltac:(by vm_compute) ltac:(simpl; lia) Hm ltac:(vm_compute; lia)) as (s' & Hrun & Hs).
  exists s'. split; [exact Hrun|]. etransitivity; [exact Hs|by vm_compute].
Defined.
End witnesses.
