(* ===== verification/CatamaranDefs.v ===== *)
(** * Encodings of the pre-classifier: deps/npfw/ppc_api/catamaran_defs.h

    What the header fixes for the tables of Catamaran beyond those that
    Catamaran.v reads and writes: where the copies of each table lie in the
    memories of NbiPc.v, the bytes of the general configuration, the data of
    the protocol, port and VLAN tables, and how an entry of the load balancer
    selects a buffer pool, a sequencer and an NFP.  The theorems: the tables
    share no line of memory, except for the size that the header gives the
    configuration; the encodings lose nothing; the load balancer is fair. *)

From S2P Require Import Prelude Platform UserCfg Nfd Machine Bus Nbi NbiPc Catamaran.

(** ** Places of the tables *)

Definition CATAMARAN_CFG_TABLE_BASE1 : Z := 0x180.
Definition CATAMARAN_CFG_TABLE_ADDR_WIDTH : Z := 6.
Definition CATAMARAN_CFG_TABLE_SIZE : Z := Z.shiftl 1 CATAMARAN_CFG_TABLE_ADDR_WIDTH.

Definition CATAMARAN_HP_ENTRIES_PER_LOC : Z := 2.
Definition CATAMARAN_HP_TABLE_ADDR_WIDTH : Z := 8.
Definition CATAMARAN_HP_TABLE_BASE0 : Z := 0x200.
Definition CATAMARAN_HP_TABLE_BASE1 : Z := 0x300.
Definition CATAMARAN_HP_TABLE_SIZE : Z := Z.shiftl 1 CATAMARAN_HP_TABLE_ADDR_WIDTH.
Definition CATAMARAN_HP_NUM_ENTRIES : Z :=
  Z.shiftl CATAMARAN_HP_ENTRIES_PER_LOC CATAMARAN_HP_TABLE_ADDR_WIDTH.

Definition CATAMARAN_LB_ENTRIES_PER_LOC : Z := 16.
Definition CATAMARAN_LB_TABLE_ADDR_WIDTH : Z := 4.
Definition CATAMARAN_LB_TABLE_BASE0 : Z := 0x1e0.
Definition CATAMARAN_LB_TABLE_BASE1 : Z := 0x1f0.
Definition CATAMARAN_LB_TABLE_SIZE : Z := Z.shiftl 1 CATAMARAN_LB_TABLE_ADDR_WIDTH.
Definition CATAMARAN_LB_NUM_ENTRIES : Z :=
  Z.shiftl CATAMARAN_LB_ENTRIES_PER_LOC CATAMARAN_LB_TABLE_ADDR_WIDTH.

Definition CATAMARAN_CHAN_TABLE_ADDR_WIDTH : Z := 4.
Definition CATAMARAN_CHAN_TABLE_SIZE : Z := Z.shiftl 1 CATAMARAN_CHAN_TABLE_ADDR_WIDTH.

Definition CATAMARAN_PORT_ENTRIES_PER_LOC : Z := 8.
Definition CATAMARAN_PORT_TABLE_ADDR_WIDTH : Z := 4.
Definition CATAMARAN_PORT_TABLE_BASE0 : Z := 0x1c0.
Definition CATAMARAN_PORT_TABLE_BASE1 : Z := 0x1d0.
Definition CATAMARAN_PORT_TABLE_SIZE : Z := Z.shiftl 1 CATAMARAN_PORT_TABLE_ADDR_WIDTH.
Definition CATAMARAN_PORT_NUM_ENTRIES : Z :=
  Z.shiftl CATAMARAN_PORT_ENTRIES_PER_LOC CATAMARAN_PORT_TABLE_ADDR_WIDTH.

Definition CATAMARAN_VLAN_ENTRIES_PER_LOC : Z := 2.
Definition CATAMARAN_VLAN_TABLE_ADDR_WIDTH : Z := 10.
Definition CATAMARAN_VLAN_TABLE_BASE0 : Z := 0x0.
Definition CATAMARAN_VLAN_TABLE_BASE1 : Z := 0x400.
Definition CATAMARAN_VLAN_TABLE_SIZE : Z := Z.shiftl 1 CATAMARAN_VLAN_TABLE_ADDR_WIDTH.
Definition CATAMARAN_VLAN_NUM_ENTRIES : Z :=
  Z.shiftl CATAMARAN_VLAN_ENTRIES_PER_LOC CATAMARAN_VLAN_TABLE_ADDR_WIDTH.

(** ** General configuration: bytes of sixteen-byte lines *)

Definition CATAMARAN_CFG_DATA_ENTRY_8_OFF (entry : Z) : Z := Z.lxor (Z.land entry 0xf) 0xf.
Definition CATAMARAN_CFG_DATA_ENTRY_16_LOWER_OFF (entry : Z) : Z := Z.lxor (Z.land entry 0xf) 0xe.
Definition CATAMARAN_CFG_DATA_ENTRY_16_UPPER_OFF (entry : Z) : Z := Z.lxor (Z.land entry 0xf) 0xf.

(** Positions in the entry for errors, values and flags *)
Definition CATAMARAN_CFG_GEN_ERROR_BP_SHF : Z := 8.
Definition CATAMARAN_CFG_GEN_ERROR_BP_FLAG_SHF : Z := 3.
Definition CATAMARAN_CFG_GEN_ERROR_SEQ_SHF : Z := 0.
Definition CATAMARAN_CFG_GEN_ERROR_SEQ_FLAG_SHF : Z := 4.
Definition CATAMARAN_CFG_GEN_ERROR_TNFP_SHF : Z := 6.
Definition CATAMARAN_CFG_GEN_ERROR_TNFP_FLAG_SHF : Z := 5.

(** The entries of the configuration: offset and size in bytes *)
Definition cfg_general : list (Z * Z) :=
  [(0x0, 2);    (* GEN_ERROR *)
   (0x2, 1);    (* LIF_LKUP_HASH *)
   (CATAMARAN_CFG_MAC_MATCH_HASH_OFF, 1);
   (0x4, 2);    (* DEF_VLAN *)
   (0x6, 2)].   (* LB_INIT_ACCUM *)

Definition cfg_lb_heads : list (Z * Z) :=
  [(0x22, 2);   (* ETH_ARP *)
   (0x26, 2);   (* ETH_FCOE *)
   (0x12, 2);   (* ETH_IPV4_ESP *)
   (0x1a, 2);   (* ETH_IPV4_FRAG *)
   (0x1c, 2);   (* ETH_IPV4_GRE *)
   (0x10, 2);   (* ETH_IPV4_OTH *)
   (0x18, 2);   (* ETH_IPV4_SCTP *)
   (0x16, 2);   (* ETH_IPV4_TCP *)
   (0x14, 2);   (* ETH_IPV4_UDP *)
   (0x1e, 2);   (* ETH_IPV6 *)
   (0x24, 2);   (* ETH_MPLS *)
   (0x20, 2);   (* ETH_OTH *)
   (0x28, 2)].  (* ETH_SHORT *)

(** What a head of the load balancer tells to do: the opcode, and its flags *)
Definition lb_complete : Z * list Z := (1, [0x8; 0x10; 0x20]).  (* BP, SEQ, TNFP *)
Definition lb_error : Z * list Z := (0, []).
Definition lb_eth : Z * list Z := (4, [0x1; 0x2; 0x4]).         (* DA, SA, ETYP *)
Definition lb_ipv4 : Z * list Z := (2, [0x1; 0x2; 0x4]).        (* DA, SA, PROTO *)
Definition lb_ipv6 : Z * list Z := (6, [0x1; 0x2; 0x4]).        (* DA, SA, NEXTHDR *)
Definition lb_sctp : Z * list Z := (7, [0x1; 0x2]).             (* DP, SP *)
Definition lb_tcp : Z * list Z := (7, [0x1; 0x2]).
Definition lb_udp : Z * list Z := (7, [0x1; 0x2]).
Definition lb_opcodes : list (Z * list Z) :=
  [lb_complete; lb_error; lb_eth; lb_ipv4; lb_ipv6; lb_sctp; lb_tcp; lb_udp].

(** The thresholds of the eight sets of buffer pools, THRESH_0 and THRESH_1 of
    each set *)
Definition cfg_thresholds : list (Z * Z) :=
  [(0x30, 2); (0x40, 2); (0x32, 2); (0x42, 2); (0x34, 2); (0x44, 2); (0x36, 2); (0x46, 2);
   (0x38, 2); (0x48, 2); (0x3a, 2); (0x4a, 2); (0x3c, 2); (0x4c, 2); (0x3e, 2); (0x4e, 2)].

Definition cfg_entries : list (Z * Z) := cfg_general ++ cfg_lb_heads ++ cfg_thresholds.

(** Line and place in the line of the bytes of an entry, the upper byte of two
    first *)
Definition cfg_entry_bytes (e : Z * Z) : list (Z * Z) :=
  let '(entry, sz) := e in
  let line := CATAMARAN_CFG_LOC_ADDR entry in
  if sz =? 1 then [(line, CATAMARAN_CFG_DATA_ENTRY_8_OFF entry)]
  else [(line, CATAMARAN_CFG_DATA_ENTRY_16_UPPER_OFF entry);
        (line, CATAMARAN_CFG_DATA_ENTRY_16_LOWER_OFF entry)].

(** ** Protocols *)

Definition CATAMARAN_HP_PARENT_FIELD_SZ : Z := 8.
Definition CATAMARAN_HP_PROTO_FIELD_SZ : Z := 16.
Definition CATAMARAN_HP_HASH_KEY (parent proto : Z) : Z := proto.
Definition CATAMARAN_HP_KEY (parent proto : Z) : Z :=
  Z.lor (Z.shiftl parent CATAMARAN_HP_PROTO_FIELD_SZ) (CATAMARAN_HP_HASH_KEY parent proto).
Definition CATAMARAN_HP_KEY_MASK : Z :=
  Z.shiftl 1 (CATAMARAN_HP_PARENT_FIELD_SZ + CATAMARAN_HP_PROTO_FIELD_SZ) - 1.
Definition CATAMARAN_HP_DATA_FIELD_SZ : Z := 16.
Definition CATAMARAN_HP_OPCODE_FIELD_SZ : Z := 8.
Definition CATAMARAN_HP_OPCODE_MASK : Z := Z.shiftl 1 CATAMARAN_HP_OPCODE_FIELD_SZ - 1.
Definition CATAMARAN_HP_OP_RSRC_SHF : Z := CATAMARAN_HP_OPCODE_FIELD_SZ.
Definition CATAMARAN_HP_OP_RSRC_SZ : Z := 2.
Definition CATAMARAN_HP_OP_RSRC_MASK : Z := Z.shiftl 1 CATAMARAN_HP_OP_RSRC_SZ - 1.
Definition CATAMARAN_HP_OP_OFF_SHF : Z := CATAMARAN_HP_OP_RSRC_SHF + CATAMARAN_HP_OP_RSRC_SZ.
Definition CATAMARAN_HP_OP_OFF_SZ : Z := 2.
Definition CATAMARAN_HP_OP_OFF_MASK : Z := Z.shiftl 1 CATAMARAN_HP_OP_OFF_SZ - 1.
Definition CATAMARAN_HP_OP_MISC_FIELD_SHF : Z := CATAMARAN_HP_OP_OFF_SHF + CATAMARAN_HP_OP_OFF_SZ.
Definition CATAMARAN_HP_OP_MISC_FIELD_SZ : Z :=
  CATAMARAN_HP_DATA_FIELD_SZ - CATAMARAN_HP_OP_MISC_FIELD_SHF.
Definition CATAMARAN_HP_OP_POL_ID_SHF : Z := CATAMARAN_HP_OP_MISC_FIELD_SHF.
Definition CATAMARAN_HP_OP_POL_ID_SZ : Z := 3.
Definition CATAMARAN_HP_OP_POL_ID_MASK : Z := Z.shiftl 1 CATAMARAN_HP_OP_POL_ID_SZ - 1.
Definition CATAMARAN_HP_DATA_ENTRY (opcode rsrc off misc : Z) : Z :=
  Z.lor (Z.lor (Z.lor opcode (Z.shiftl rsrc CATAMARAN_HP_OP_RSRC_SHF))
    (Z.shiftl off CATAMARAN_HP_OP_OFF_SHF)) (Z.shiftl misc CATAMARAN_HP_OP_MISC_FIELD_SHF).
Definition CATAMARAN_HP_OPCODE (data : Z) : Z := Z.land data CATAMARAN_HP_OPCODE_MASK.
Definition CATAMARAN_HP_OP_RSRC (data : Z) : Z :=
  Z.land (Z.shiftr data CATAMARAN_HP_OP_RSRC_SHF) CATAMARAN_HP_OP_RSRC_MASK.
Definition CATAMARAN_HP_OP_OFF (data : Z) : Z :=
  Z.land (Z.shiftr data CATAMARAN_HP_OP_OFF_SHF) CATAMARAN_HP_OP_OFF_MASK.
Definition CATAMARAN_HP_OP_POL_ID (data : Z) : Z :=
  Z.land (Z.shiftr data CATAMARAN_HP_OP_POL_ID_SHF) CATAMARAN_HP_OP_POL_ID_MASK.

Definition CATAMARAN_HP_VXLAN_DEF_PORT : Z := 4789.
Definition CATAMARAN_HP_VXLAN_OPCODE : Z := 0xaf.
Definition CATAMARAN_HP_VXLAN_OP_I_L2_OFF_SHF : Z := CATAMARAN_HP_OP_MISC_FIELD_SHF.
Definition CATAMARAN_HP_VXLAN_OP_I_L2_OFF_SZ : Z := 2.
Definition CATAMARAN_HP_VXLAN_OP_I_L2_OFF_MASK : Z :=
  Z.shiftl 1 CATAMARAN_HP_VXLAN_OP_I_L2_OFF_SZ - 1.
Definition CATAMARAN_HP_VXLAN_OP_I_L2_OFF (data : Z) : Z :=
  Z.land (Z.shiftr data CATAMARAN_HP_VXLAN_OP_I_L2_OFF_SHF) CATAMARAN_HP_VXLAN_OP_I_L2_OFF_MASK.

(** ** Load balancer: C divisions of unsigned numbers *)

Definition CATAMARAN_LB_BP_PREIDX (entry : Z) : Z := entry.
Definition CATAMARAN_LB_SEQ_PREIDX (entry num_bps : Z) : Z :=
  Z.quot (CATAMARAN_LB_BP_PREIDX entry) num_bps.
Definition CATAMARAN_LB_TNFP_PREIDX (entry num_bps num_seqs : Z) : Z :=
  Z.quot (CATAMARAN_LB_SEQ_PREIDX entry num_bps) num_seqs.
Definition CATAMARAN_LB_XTRA_PREIDX (entry num_bps num_seqs num_tnfps : Z) : Z :=
  Z.quot (CATAMARAN_LB_TNFP_PREIDX entry num_bps num_seqs) num_tnfps.

Definition CATAMARAN_LB_BP_IDX (entry num_bps num_seqs num_tnfps : Z) : Z :=
  Z.rem (CATAMARAN_LB_BP_PREIDX entry + CATAMARAN_LB_SEQ_PREIDX entry num_bps) num_bps.
Definition CATAMARAN_LB_SEQ_IDX (entry num_bps num_seqs num_tnfps : Z) : Z :=
  Z.rem (CATAMARAN_LB_SEQ_PREIDX entry num_bps + CATAMARAN_LB_TNFP_PREIDX entry num_bps num_seqs)
    num_seqs.
Definition CATAMARAN_LB_TNFP_IDX (entry num_bps num_seqs num_tnfps : Z) : Z :=
  Z.rem (CATAMARAN_LB_TNFP_PREIDX entry num_bps num_seqs +
         CATAMARAN_LB_XTRA_PREIDX entry num_bps num_seqs num_tnfps) num_tnfps.

(** ** Ports *)

Definition CATAMARAN_PORT_LOC_ADDR (port : Z) : Z := Z.quot port CATAMARAN_PORT_ENTRIES_PER_LOC.
Definition CATAMARAN_PORT_DATA_ENTRY_LOWER_OFF (port : Z) : Z :=
  Z.lxor (Z.land (port * Z.quot 16 CATAMARAN_PORT_ENTRIES_PER_LOC) 0xf) 0xf.
Definition CATAMARAN_PORT_DATA_ENTRY_UPPER_OFF (port : Z) : Z :=
  Z.lxor (Z.land (port * Z.quot 16 CATAMARAN_PORT_ENTRIES_PER_LOC) 0xf) 0xe.
Definition CATAMARAN_PORT_NUM_PORTS : Z := 128.
Definition CATAMARAN_PORT_LIF_FIELD_SZ : Z := 10.
Definition CATAMARAN_PORT_LIF_LOWER_SZ : Z := 8.
Definition CATAMARAN_PORT_LIF_LOWER_MASK : Z := Z.shiftl 1 CATAMARAN_PORT_LIF_LOWER_SZ - 1.
Definition CATAMARAN_PORT_LIF_UPPER_MASK : Z :=
  Z.shiftl 1 (CATAMARAN_PORT_LIF_FIELD_SZ - CATAMARAN_PORT_LIF_LOWER_SZ) - 1.
Definition CATAMARAN_PORT_MODE_FIELD_SZ : Z := 4.
Definition CATAMARAN_PORT_MODE_MASK : Z := Z.shiftl 1 CATAMARAN_PORT_MODE_FIELD_SZ - 1.
Definition CATAMARAN_PORT_MODE_SHF : Z := 4.
Definition CATAMARAN_PORT_DATA_ENTRY_LOWER (lif mode : Z) : Z :=
  Z.land lif CATAMARAN_PORT_LIF_LOWER_MASK.
Definition CATAMARAN_PORT_DATA_ENTRY_UPPER (lif mode : Z) : Z :=
  Z.lor (Z.shiftl (Z.land mode CATAMARAN_PORT_MODE_MASK) CATAMARAN_PORT_MODE_SHF)
    (Z.land (Z.shiftr lif CATAMARAN_PORT_LIF_LOWER_SZ) CATAMARAN_PORT_LIF_UPPER_MASK).
Definition CATAMARAN_PORT_LIF (data_lo data_hi : Z) : Z :=
  Z.lor data_lo (Z.shiftl (Z.land data_hi CATAMARAN_PORT_LIF_UPPER_MASK) CATAMARAN_PORT_LIF_LOWER_SZ).
Definition CATAMARAN_PORT_MODE (data_lo data_hi : Z) : Z :=
  Z.land (Z.shiftr data_hi CATAMARAN_PORT_MODE_SHF) CATAMARAN_PORT_MODE_MASK.

(** ** VLANs *)

Definition CATAMARAN_VLAN_PORT_FIELD_SZ : Z := 8.
Definition CATAMARAN_VLAN_CNOTS_FLAG_SHF : Z := 13.
Definition CATAMARAN_VLAN_VALID_FLAG_SHF : Z := 15.
Definition CATAMARAN_VLAN_VALID_FLAG_MASK : Z := Z.shiftl 1 CATAMARAN_VLAN_VALID_FLAG_SHF.
Definition CATAMARAN_VLAN_VLAN_FIELD_SZ : Z := 12.
Definition CATAMARAN_VLAN_HASH_KEY0 (port vlan cnots : Z) : Z := port.
Definition CATAMARAN_VLAN_HASH_KEY1 (port vlan cnots : Z) : Z :=
  Z.lor (Z.lor CATAMARAN_VLAN_VALID_FLAG_MASK (Z.shiftl cnots CATAMARAN_VLAN_CNOTS_FLAG_SHF)) vlan.
Definition CATAMARAN_VLAN_KEY (port vlan cnots : Z) : Z :=
  Z.lor (Z.shiftl (CATAMARAN_VLAN_HASH_KEY0 port vlan cnots) 16)
    (CATAMARAN_VLAN_HASH_KEY1 port vlan cnots).
Definition CATAMARAN_VLAN_KEY_MASK : Z := Z.shiftl 1 (CATAMARAN_VLAN_PORT_FIELD_SZ + 16) - 1.
Definition CATAMARAN_VLAN_DATA_FIELD_SZ : Z := 16.
Definition CATAMARAN_VLAN_LIF_FIELD_SZ : Z := CATAMARAN_PORT_LIF_FIELD_SZ.
Definition CATAMARAN_VLAN_LIF_MASK : Z := Z.shiftl 1 CATAMARAN_VLAN_LIF_FIELD_SZ - 1.
Definition CATAMARAN_VLAN_MODE_FIELD_SZ : Z := CATAMARAN_PORT_MODE_FIELD_SZ.
Definition CATAMARAN_VLAN_MODE_MASK : Z := Z.shiftl 1 CATAMARAN_VLAN_MODE_FIELD_SZ - 1.
Definition CATAMARAN_VLAN_MODE_SHF : Z :=
  CATAMARAN_VLAN_DATA_FIELD_SZ - CATAMARAN_VLAN_MODE_FIELD_SZ.
Definition CATAMARAN_VLAN_DATA_ENTRY (lif mode : Z) : Z :=
  Z.lor (Z.shiftl mode CATAMARAN_VLAN_MODE_SHF) lif.
Definition CATAMARAN_VLAN_LIF (data : Z) : Z := Z.land data CATAMARAN_VLAN_LIF_MASK.
Definition CATAMARAN_VLAN_MODE (data : Z) : Z :=
  Z.land (Z.shiftr data CATAMARAN_VLAN_MODE_SHF) CATAMARAN_VLAN_MODE_MASK.

(** ** The memory map *)

(** A copy of a table: the memory of the pre-classifier, its first line and the
    number of lines *)
Inductive pc_memory : Set := Local | Shared.
Record bank := mk_bank { bank_mem : pc_memory; bank_base : Z; bank_lines : Z }.

#[export] Instance pc_memory_eq_dec : EqDecision pc_memory.
Proof. solve_decision. Defined.

(** Both copies of the tables.  The channels are in the memory of each engine
    and the MAC addresses in the shared one (Catamaran.v); nothing in the
    sources tells the memories of the other four: arguments. *)
Definition table_banks (port lb hp vlan : pc_memory) : list bank :=
  [mk_bank Local CATAMARAN_CHAN_TABLE_BASE0 CATAMARAN_CHAN_TABLE_SIZE;
   mk_bank Local CATAMARAN_CHAN_TABLE_BASE1 CATAMARAN_CHAN_TABLE_SIZE;
   mk_bank port CATAMARAN_PORT_TABLE_BASE0 CATAMARAN_PORT_TABLE_SIZE;
   mk_bank port CATAMARAN_PORT_TABLE_BASE1 CATAMARAN_PORT_TABLE_SIZE;
   mk_bank lb CATAMARAN_LB_TABLE_BASE0 CATAMARAN_LB_TABLE_SIZE;
   mk_bank lb CATAMARAN_LB_TABLE_BASE1 CATAMARAN_LB_TABLE_SIZE;
   mk_bank hp CATAMARAN_HP_TABLE_BASE0 CATAMARAN_HP_TABLE_SIZE;
   mk_bank hp CATAMARAN_HP_TABLE_BASE1 CATAMARAN_HP_TABLE_SIZE;
   mk_bank vlan CATAMARAN_VLAN_TABLE_BASE0 CATAMARAN_VLAN_TABLE_SIZE;
   mk_bank vlan CATAMARAN_VLAN_TABLE_BASE1 CATAMARAN_VLAN_TABLE_SIZE;
   mk_bank Shared CATAMARAN_MAC_TABLE_BASE0 CATAMARAN_MAC_TABLE_SIZE;
   mk_bank Shared CATAMARAN_MAC_TABLE_BASE1 CATAMARAN_MAC_TABLE_SIZE].

(** The configuration, with [lines] lines in each copy *)
Definition cfg_banks (lines : Z) : list bank :=
  [mk_bank Local CATAMARAN_CFG_TABLE_BASE0 lines; mk_bank Local CATAMARAN_CFG_TABLE_BASE1 lines].

(** The lines that the entries of the configuration occupy *)
Definition cfg_lines : Z :=
  foldr (fun e n => Z.max (CATAMARAN_CFG_LOC_ADDR e.1 + 1) n) 0 cfg_entries.

Definition apart (b b' : bank) : bool :=
  negb (bool_decide (bank_mem b = bank_mem b')) ||
  (bank_base b + bank_lines b <=? bank_base b') || (bank_base b' + bank_lines b' <=? bank_base b).

Definition mem_lines (m : pc_memory) : Z :=
  match m with
  | Local => NBIPC_LMEM_SIZE / NBIPC_MEM_ENTRY_SIZE
  | Shared => NBIPC_SMEM_SIZE / NBIPC_MEM_ENTRY_SIZE
  end.

Definition inside (b : bank) : bool :=
  (0 <=? bank_base b) && (bank_base b + bank_lines b <=? mem_lines (bank_mem b)).

Fixpoint all_apart (bs : list bank) : bool :=
  match bs with [] => true | b :: bs => forallb (apart b) bs && all_apart bs end.

Definition fits_memories (bs : list bank) : bool := forallb inside bs && all_apart bs.

(** Line and place of the two bytes of a port *)
Definition port_entry_bytes (port : Z) : list (Z * Z) :=
  [(CATAMARAN_PORT_LOC_ADDR port, CATAMARAN_PORT_DATA_ENTRY_LOWER_OFF port);
   (CATAMARAN_PORT_LOC_ADDR port, CATAMARAN_PORT_DATA_ENTRY_UPPER_OFF port)].

(** * Properties *)

(** ** Places *)

(** The tables of the pre-classifier fit into its memories and no two copies
    share a line, exactly when the protocols, ports and the load balancer are in
    the memory of each engine and the VLANs in the shared one; but not with the
    size that the header gives the configuration, which reaches into its own
    copy and into the table of channels.  No two entries of the configuration,
    and no two ports of the table of ports, share a byte of a line; the flags of
    an opcode of the load balancer are different bits, and those of the opcode
    that completes are where the entry for errors has them. *)
Theorem memory_map_ok port lb hp vlan :
  (fits_memories (table_banks port lb hp vlan ++ cfg_banks cfg_lines) = true <->
   port = Local /\ lb = Local /\ hp = Local /\ vlan = Shared) /\
  fits_memories (table_banks port lb hp vlan ++ cfg_banks CATAMARAN_CFG_TABLE_SIZE) = false /\
  NoDup (cfg_entries ≫= cfg_entry_bytes) /\
  NoDup (range 0 CATAMARAN_PORT_NUM_PORTS ≫= port_entry_bytes) /\
  Forall (fun p => CATAMARAN_PORT_LOC_ADDR p < CATAMARAN_PORT_TABLE_SIZE)
    (range 0 CATAMARAN_PORT_NUM_PORTS) /\
  Forall (fun o => NoDup (snd o) /\ Forall (fun f => f = 2 ^ Z.log2 f) (snd o)) lb_opcodes /\
  snd lb_complete = Z.shiftl 1 <$> [CATAMARAN_CFG_GEN_ERROR_BP_FLAG_SHF;
    CATAMARAN_CFG_GEN_ERROR_SEQ_FLAG_SHF; CATAMARAN_CFG_GEN_ERROR_TNFP_FLAG_SHF].
Proof.
  split; [|split; [|split; [|split; [|split; [|split; [|done]]]]]].
  - split; [|by intros (-> & -> & -> & ->)].
    destruct port, lb, hp, vlan; intros E; vm_compute in E; first [discriminate E|done].
  - by destruct port, lb, hp, vlan.
  - apply (bool_decide_unpack _). by vm_compute.
  - apply (bool_decide_unpack _). by vm_compute.
  - apply (bool_decide_unpack _). by vm_compute.
  - apply (bool_decide_unpack _). by vm_compute.
Qed.

(** ** Encodings *)

(** The masks as runs of ones, the shifts as numbers *)
Ltac catamaran_fields :=
  repeat match goal with
  | |- context [Z.land _ ?m] =>
      is_const m; let m' := eval vm_compute in m in
      let n := eval vm_compute in (Z.log2 (m' + 1)) in change m with (Z.ones n)
  | |- context [Z.shiftl _ ?k] => is_const k; let k' := eval vm_compute in k in change k with k'
  | |- context [Z.shiftr _ ?k] => is_const k; let k' := eval vm_compute in k in change k with k'
  end; zbits.

Lemma hp_entry_roundtrip opcode rsrc off misc :
  fits 8 opcode -> fits 2 rsrc -> fits 2 off -> fits 4 misc ->
  let e := CATAMARAN_HP_DATA_ENTRY opcode rsrc off misc in
  CATAMARAN_HP_OPCODE e = opcode /\ CATAMARAN_HP_OP_RSRC e = rsrc /\ CATAMARAN_HP_OP_OFF e = off /\
  CATAMARAN_HP_OP_POL_ID e = wrap 3 misc /\ CATAMARAN_HP_VXLAN_OP_I_L2_OFF e = wrap 2 misc /\
  fits 16 e.
Proof.
  intros Ho Hr Hf Hm. cbv zeta.
  unfold CATAMARAN_HP_OPCODE, CATAMARAN_HP_OP_RSRC, CATAMARAN_HP_OP_OFF, CATAMARAN_HP_OP_POL_ID,
    CATAMARAN_HP_VXLAN_OP_I_L2_OFF, CATAMARAN_HP_DATA_ENTRY.
  do 5 (split; [catamaran_fields|]).
  repeat apply fits_lor; try done; try (apply fits_shiftl; [done|]).
  - by apply (fits_mono 8).
  - by apply (fits_mono 2).
  - by apply (fits_mono 2).
  - exact Hm.
Qed.

Lemma port_entry_roundtrip lif mode : fits 10 lif -> fits 4 mode ->
  let lo := CATAMARAN_PORT_DATA_ENTRY_LOWER lif mode in
  let hi := CATAMARAN_PORT_DATA_ENTRY_UPPER lif mode in
  CATAMARAN_PORT_LIF lo hi = lif /\ CATAMARAN_PORT_MODE lo hi = mode /\ fits 8 lo /\ fits 8 hi.
Proof.
  intros Hl Hm. cbv zeta.
  unfold CATAMARAN_PORT_LIF, CATAMARAN_PORT_MODE, CATAMARAN_PORT_DATA_ENTRY_LOWER,
    CATAMARAN_PORT_DATA_ENTRY_UPPER.
  do 2 (split; [catamaran_fields|]). split; [by apply fits_land_r|].
  apply fits_lor; [done|..]; [apply fits_shiftl; [done|]; by apply fits_land_r|].
  apply (fits_mono 2); [done|]. by apply fits_land_r.
Qed.

Lemma vlan_entry_roundtrip lif mode : fits 10 lif -> fits 4 mode ->
  let e := CATAMARAN_VLAN_DATA_ENTRY lif mode in
  CATAMARAN_VLAN_LIF e = lif /\ CATAMARAN_VLAN_MODE e = mode /\ fits 16 e.
Proof.
  intros Hl Hm. cbv zeta.
  unfold CATAMARAN_VLAN_LIF, CATAMARAN_VLAN_MODE, CATAMARAN_VLAN_DATA_ENTRY.
  do 2 (split; [catamaran_fields|]).
  apply fits_lor; [done|..]; [by apply fits_shiftl|by apply (fits_mono 10)].
Qed.

Lemma hp_key_fields parent proto : fits 8 parent -> fits 16 proto ->
  let k := CATAMARAN_HP_KEY parent proto in
  bf_get 16 8 k = parent /\ bf_get 0 16 k = proto /\ Z.land k CATAMARAN_HP_KEY_MASK = k.
Proof.
  intros Hp Hq. cbv zeta. unfold CATAMARAN_HP_KEY, CATAMARAN_HP_HASH_KEY, bf_get.
  repeat split; catamaran_fields.
Qed.

Lemma vlan_key_fields port vlan cnots : fits 8 port -> fits 12 vlan -> fits 1 cnots ->
  let k := CATAMARAN_VLAN_KEY port vlan cnots in
  bf_get 16 8 k = port /\ bf_get 0 12 k = vlan /\ bf_get 13 1 k = cnots /\
  Z.land k CATAMARAN_VLAN_VALID_FLAG_MASK = CATAMARAN_VLAN_VALID_FLAG_MASK /\
  Z.land k CATAMARAN_VLAN_KEY_MASK = k.
Proof.
  intros Hp Hv Hc. cbv zeta. unfold CATAMARAN_VLAN_KEY, CATAMARAN_VLAN_HASH_KEY0,
    CATAMARAN_VLAN_HASH_KEY1, bf_get.
  change CATAMARAN_VLAN_VALID_FLAG_MASK with (Z.shiftl (Z.ones 1) 15).
  repeat split; catamaran_fields.
Qed.

(** C23: what is stored in the tables of the pre-classifier can be read back:
    opcode, resource, offset and policy of a protocol; logical interface and
    mode of a port, in two bytes; logical interface and mode of a VLAN; and two
    keys are the same only for the same protocol under the same parent, and
    only for the same port, VLAN and tag. *)
Theorem catamaran_entries_roundtrip :
  (forall opcode rsrc off misc, fits 8 opcode -> fits 2 rsrc -> fits 2 off -> fits 4 misc ->
    let e := CATAMARAN_HP_DATA_ENTRY opcode rsrc off misc in
    CATAMARAN_HP_OPCODE e = opcode /\ CATAMARAN_HP_OP_RSRC e = rsrc /\ CATAMARAN_HP_OP_OFF e = off /\
    CATAMARAN_HP_OP_POL_ID e = wrap 3 misc /\ CATAMARAN_HP_VXLAN_OP_I_L2_OFF e = wrap 2 misc) /\
  (forall lif mode, fits 10 lif -> fits 4 mode ->
    let lo := CATAMARAN_PORT_DATA_ENTRY_LOWER lif mode in
    let hi := CATAMARAN_PORT_DATA_ENTRY_UPPER lif mode in
    CATAMARAN_PORT_LIF lo hi = lif /\ CATAMARAN_PORT_MODE lo hi = mode /\ fits 8 lo /\ fits 8 hi) /\
  (forall lif mode, fits 10 lif -> fits 4 mode ->
    let e := CATAMARAN_VLAN_DATA_ENTRY lif mode in
    CATAMARAN_VLAN_LIF e = lif /\ CATAMARAN_VLAN_MODE e = mode /\ fits 16 e) /\
  (forall p q p' q', fits 8 p -> fits 16 q -> fits 8 p' -> fits 16 q' ->
    CATAMARAN_HP_KEY p q = CATAMARAN_HP_KEY p' q' -> p = p' /\ q = q') /\
  (forall p v c p' v' c', fits 8 p -> fits 12 v -> fits 1 c -> fits 8 p' -> fits 12 v' -> fits 1 c' ->
    CATAMARAN_VLAN_KEY p v c = CATAMARAN_VLAN_KEY p' v' c' -> p = p' /\ v = v' /\ c = c').
Proof.
  split; [|split; [|split; [|split]]].
  - intros o r f m Ho Hr Hf Hm. destruct (hp_entry_roundtrip o r f m Ho Hr Hf Hm) as (? & ? & ? & ? & ? & _).
    by repeat split.
  - apply port_entry_roundtrip.
  - apply vlan_entry_roundtrip.
  - intros p q p' q' Hp Hq Hp' Hq' E.
    destruct (hp_key_fields p q Hp Hq) as (E1 & E2 & _), (hp_key_fields p' q' Hp' Hq') as (E1' & E2' & _).
    rewrite E in E1, E2. split; congruence.
  - intros p v c p' v' c' Hp Hv Hc Hp' Hv' Hc' E.
    destruct (vlan_key_fields p v c Hp Hv Hc) as (E1 & E2 & E3 & _),
      (vlan_key_fields p' v' c' Hp' Hv' Hc') as (E1' & E2' & E3' & _).
    rewrite E in E1, E2, E3. repeat split; congruence.
Qed.

(** ** The load balancer *)

(** In every round of [n] entries exactly one has a given remainder, also after
    the number of the round is added. *)
Lemma rotated_index n q r e : 0 < n -> 0 <= q -> 0 <= r < n -> 0 <= e ->
  Z.quot e n = q /\ Z.rem (e + q) n = r <-> e = n * q + (r - q) mod n.
Proof.
  intros Hn Hq Hr He. rewrite Z.quot_div_nonneg, Z.rem_mod_nonneg by lia.
  pose proof (Z.div_mod e n ltac:(lia)) as Hdiv. pose proof (Z.mod_pos_bound e n Hn) as Hb.
  split.
  - intros [Eq <-]. rewrite Eq in Hdiv. rewrite Zminus_mod_idemp_l.
    replace (e + q - q) with e by lia. lia.
  - intros E. pose proof (Z.mod_pos_bound (r - q) n Hn) as Hb'.
    assert (Eq : e / n = q) by (symmetry; apply (Z.div_unique e n q ((r - q) mod n)); lia).
    split; [done|]. rewrite E. replace (n * q + (r - q) mod n + q) with (q + (r - q) mod n + q * n) by lia.
    rewrite Z_mod_plus_full, Zplus_mod_idemp_r. replace (q + (r - q)) with r by lia. by apply Z.mod_small.
Qed.

(** C22: the load balancer is fair: among any [num_bps * num_seqs * num_tnfps]
    entries in a row that start at a multiple of this number, each combination
    of a buffer pool, a sequencer and an NFP is selected by exactly one. *)
Theorem load_balancer_fair B S T block bp seq tnfp :
  0 < B -> 0 < S -> 0 < T -> 0 <= block -> 0 <= bp < B -> 0 <= seq < S -> 0 <= tnfp < T ->
  exists! e, block * (B * S * T) <= e < (block + 1) * (B * S * T) /\
    CATAMARAN_LB_BP_IDX e B S T = bp /\ CATAMARAN_LB_SEQ_IDX e B S T = seq /\
    CATAMARAN_LB_TNFP_IDX e B S T = tnfp.
Proof.
  intros HB HS HT Hblock Hbp Hseq Htn.
  set (q2 := T * block + (tnfp - block) mod T). set (q1 := S * q2 + (seq - q2) mod S).
  set (e0 := B * q1 + (bp - q1) mod B).
  assert (Hq2 : 0 <= q2) by (pose proof (Z.mod_pos_bound (tnfp - block) T); subst q2; nia).
  assert (Hq1 : 0 <= q1) by (pose proof (Z.mod_pos_bound (seq - q2) S); subst q1; nia).
  assert (He0 : 0 <= e0) by (pose proof (Z.mod_pos_bound (bp - q1) B); subst e0; nia).
  assert (Hselect : forall e, 0 <= e ->
    Z.quot (Z.quot (Z.quot e B) S) T = block /\ CATAMARAN_LB_BP_IDX e B S T = bp /\
    CATAMARAN_LB_SEQ_IDX e B S T = seq /\ CATAMARAN_LB_TNFP_IDX e B S T = tnfp <-> e = e0).
  { intros e He. unfold CATAMARAN_LB_BP_IDX, CATAMARAN_LB_SEQ_IDX, CATAMARAN_LB_TNFP_IDX,
      CATAMARAN_LB_XTRA_PREIDX, CATAMARAN_LB_TNFP_PREIDX, CATAMARAN_LB_SEQ_PREIDX, CATAMARAN_LB_BP_PREIDX.
    pose proof (Z.quot_pos e B He HB) as H1. pose proof (Z.quot_pos _ S H1 HS) as H2.
    pose proof (rotated_index T block tnfp (Z.quot (Z.quot e B) S) HT Hblock Htn H2) as Rt.
    pose proof (rotated_index S q2 seq (Z.quot e B) HS Hq2 Hseq H1) as Rs.
    pose proof (rotated_index B q1 bp e HB Hq1 Hbp He) as Rb.
    split.
    - intros (Ex & Eb & Es & Et). rewrite Ex in Et. pose proof (proj1 Rt (conj Ex Et)) as E2.
      rewrite E2 in Es. pose proof (proj1 Rs (conj E2 Es)) as E1.
      rewrite E1 in Eb. exact (proj1 Rb (conj E1 Eb)).
    - intros E. destruct (proj2 Rb E) as [E1 Eb]. destruct (proj2 Rs E1) as [E2 Es].
      destruct (proj2 Rt E2) as [Ex Et]. split; [exact Ex|]. split; [by rewrite E1|].
      split; [by rewrite E2|by rewrite Ex]. }
  assert (Hblk : forall e, 0 <= e -> (block * (B * S * T) <= e < (block + 1) * (B * S * T) <->
    Z.quot (Z.quot (Z.quot e B) S) T = block)).
  { intros e He. pose proof (Z.div_pos e B He HB) as H1. pose proof (Z.div_pos _ S H1 HS) as H2.
    rewrite (Z.quot_div_nonneg e B), (Z.quot_div_nonneg (e / B) S), Z.quot_div_nonneg by lia.
    rewrite (Z.div_div (e / B)), Z.div_div by nia.
    replace (B * (S * T)) with (B * S * T) by lia.
    pose proof (Z.div_mod e (B * S * T) ltac:(nia)) as Hd.
    pose proof (Z.mod_pos_bound e (B * S * T) ltac:(nia)) as Hm. split.
    - intros Hr. symmetry. apply (Z.div_unique e (B * S * T) block (e - block * (B * S * T))); lia.
    - intros <-. lia. }
  exists e0. split.
  - destruct (proj2 (Hselect e0 He0) eq_refl) as (Ex & Hrest). split; [by apply Hblk|done].
  - intros e [Hr Hrest]. symmetry. assert (0 <= e) by nia. apply Hselect; [done|].
    split; [by apply Hblk|done].
Qed.

(** ** Witness *)

(** Six buffer pools, four sequencers and two NFPs share the table. *)
Lemma load_balancer_fair_witness :
  exists e, 48 <= e < 96 /\ CATAMARAN_LB_BP_IDX e 6 4 2 = 5 /\ CATAMARAN_LB_SEQ_IDX e 6 4 2 = 0 /\
    CATAMARAN_LB_TNFP_IDX e 6 4 2 = 1.
Proof.
  destruct (load_balancer_fair 6 4 2 1 5 0 1) as (e & (Hr & Hrest) & _);
    [reflexivity|reflexivity|reflexivity|lia|lia|lia|lia|].
  exists e. split; [exact Hr|exact Hrest].
Defined.
