(* ===== verification/CatApp.v ===== *)
(** * Ports and their MAC addresses in the pre-classifier:
      lib/npfw/_c/catamaran_app_utils.c

    At start each channel of each port is given its port.  The addresses of the
    ports are entered in the MAC tables of Catamaran.v: the result of an address
    is the set of ports that have it, and only what differs from the last call
    is written. *)

From S2P Require Import Prelude Platform UserCfg Nfd Machine Bus Nbi NbiPc Catamaran.

Definition MAX_CHANNELS_PER_PORT : nat := 8.

(** Arrays of [mac_match_info_t], one for each port *)
Definition minfo (info : gmap Z mac_match_info) (port : Z) : mac_match_info :=
  default no_match_info (info !! port).

Section cat_app.
Context (P : platform).

Definition port_bit (port : Z) : Z := u8 (Z.shiftl 1 port).

(** The masks of a port that is enabled, before they are merged *)
Definition own_info (port mac_addr : Z) : mac_match_info :=
  if port <? NS_PLATFORM_NUM_PORTS_PER_MAC_0 P then mk_mac_match_info mac_addr (port_bit port) 0
  else mk_mac_match_info mac_addr 0 (port_bit port).

(** [for (i = 0; i < port; ++i)]: the ports with the same address share masks *)
Definition merge_masks (port : Z) (info : gmap Z mac_match_info) (i : Z) : gmap Z mac_match_info :=
  if match_mac (minfo info i) =? match_mac (minfo info port) then
    let ei := minfo info i in
    let ep := minfo info port in
    let m0 := Z.lor (port_mask0 ei) (port_mask0 ep) in
    let m1 := Z.lor (port_mask1 ei) (port_mask1 ep) in
    <[port := mk_mac_match_info (match_mac ep) m0 m1]>
      (<[i := mk_mac_match_info (match_mac ei) m0 m1]> info)
  else info.

Definition generate_mac_match_info (port_en_mask : Z) (info : gmap Z mac_match_info)
    (mac_addrs : Z -> Z) : gmap Z mac_match_info :=
  foldl (fun info port =>
    if has port_en_mask (Z.shiftl 1 port) then
      foldl (merge_masks port) (<[port := own_info port (mac_addrs port)]> info) (range 0 port)
    else <[port := no_match_info]> info)
    info (range 0 (NS_PLATFORM_NUM_PORTS P)).

(** The search loops *)
Definition find_mac (info : gmap Z mac_match_info) (ports : list Z) (mac_addr : Z) : option Z :=
  List.find (fun i => mac_addr =? match_mac (minfo info i)) ports.

Section update.
Context `{Devices, NbiPcRegs, ClsHash}.

Definition add_when (b : bool) (err nbi mac_addr port_mask cls_hash_idx : Z) : C Z :=
  if b then
    r ← catamaran_mac_match_table_add nbi mac_addr (u16 (Z.shiftl port_mask 8)) cls_hash_idx;
    mret (Z.lor err r)
  else mret err.

Definition remove_when (b : bool) (nbi mac_addr cls_hash_idx : Z) : C unit :=
  when b (_ ← catamaran_mac_match_table_remove nbi mac_addr cls_hash_idx; mret tt).

(** Ports that are new or changed *)
Definition add_update_port (old_info new_info : gmap Z mac_match_info) (cls_hash_idx : Z)
    (err_code port : Z) : C Z :=
  let e := minfo new_info port in
  let m0 := port_mask0 e in
  let m1 := port_mask1 e in
  let mac_addr := match_mac e in
  if negb (truthy m0) && negb (truthy m1) then mret err_code
  else match find_mac new_info (range 0 port) mac_addr with
  | Some _ => mret err_code
  | None =>
      match find_mac old_info (range 0 (NS_PLATFORM_NUM_PORTS P)) mac_addr with
      | Some i =>
          let o := minfo old_info i in
          err_code ← add_when (truthy m0 && negb (m0 =? port_mask0 o)) err_code 0 mac_addr m0 cls_hash_idx;
          err_code ← add_when (truthy m1 && negb (m1 =? port_mask1 o)) err_code 1 mac_addr m1 cls_hash_idx;
          _ ← remove_when (negb (truthy m0) && negb (m0 =? port_mask0 o)) 0 mac_addr cls_hash_idx;
          _ ← remove_when (negb (truthy m1) && negb (m1 =? port_mask1 o)) 1 mac_addr cls_hash_idx;
          mret err_code
      | None =>
          err_code ← add_when (truthy m0) err_code 0 mac_addr m0 cls_hash_idx;
          add_when (truthy m1) err_code 1 mac_addr m1 cls_hash_idx
      end
  end.

(** Addresses that no port has any more *)
Definition remove_unused_port (old_info new_info : gmap Z mac_match_info) (cls_hash_idx : Z)
    (port : Z) : C unit :=
  let e := minfo old_info port in
  let m0 := port_mask0 e in
  let m1 := port_mask1 e in
  let mac_addr := match_mac e in
  if negb (truthy m0) && negb (truthy m1) then mret tt
  else match find_mac old_info (range 0 port) mac_addr with
  | Some _ => mret tt
  | None =>
      match find_mac new_info (range 0 (NS_PLATFORM_NUM_PORTS P)) mac_addr with
      | Some _ => mret tt
      | None =>
          _ ← remove_when (truthy m0) 0 mac_addr cls_hash_idx;
          remove_when (truthy m1) 1 mac_addr cls_hash_idx
      end
  end.

Definition mac_match_table_update (old_info new_info : gmap Z mac_match_info)
    (cls_hash_idx : Z) : C Z :=
  err_code ← for_fold (range 0 (NS_PLATFORM_NUM_PORTS P)) 0
               (add_update_port old_info new_info cls_hash_idx);
  _ ← for_each (range 0 (NS_PLATFORM_NUM_PORTS P))
        (remove_unused_port old_info new_info cls_hash_idx);
  mret err_code.

(** [for (i = 0; i < NUM_PORTS; ++i) curr_mac_addr[i] = temp_mac_addr[i]] *)
Definition copy_info (temp curr : gmap Z mac_match_info) : gmap Z mac_match_info :=
  foldl (fun m i => <[i := minfo temp i]> m) curr (range 0 (NS_PLATFORM_NUM_PORTS P)).

(** The local array is not initialized; every entry is written before use. *)
Definition update_catamaran_mac_match_table (port_en_mask : Z) (mac_addrs : Z -> Z)
    (cls_hash_idx : Z) : C Z :=
  let temp := generate_mac_match_info (u8 port_en_mask) ∅ mac_addrs in
  curr ← get curr_mac_addr;
  err_code ← mac_match_table_update curr temp cls_hash_idx;
  _ ← modify (fun s => s <| curr_mac_addr ::= copy_info temp |>);
  mret err_code.

(** The array has room for [MAX_CHANNELS_PER_PORT] entries. *)
Definition init_catamaran_chan2port_table : C unit :=
  for_each (range 0 (NS_PLATFORM_NUM_PORTS P)) (fun port =>
    entries ← for_fold (range (NS_PLATFORM_MAC_CHANNEL_LO P port) (NS_PLATFORM_MAC_CHANNEL_HI P port + 1)) []
      (fun entries chan =>
        _ ← require (length entries <? MAX_CHANNELS_PER_PORT)%nat;
        mret (entries ++ [mk_chan2port (u8 port) CATAMARAN_CHAN_MODE_MAC_DA_MATCH]));
    catamaran_chan2port_table_set (NS_PLATFORM_MAC_CORE P port)
      (NS_PLATFORM_MAC_CHANNEL_LO P port) (NS_PLATFORM_MAC_CHANNEL_HI P port) entries).
End update.
End cat_app.

(** * Properties *)

(** ** The masks that are generated *)

Section generate.
Context (P : platform) (en : Z -> bool) (mac : Z -> Z).

(** [NS_PLATFORM_NUM_PORTS_PER_MAC_0] splits the ports into those of NBI 0 and 1. *)
Definition on_nbi (n q : Z) : bool :=
  if q <? NS_PLATFORM_NUM_PORTS_PER_MAC_0 P then n =? 0 else n =? 1.

Definition mask (n : Z) (e : mac_match_info) : Z := if n =? 0 then port_mask0 e else port_mask1 e.

(** [m] is the set of the enabled ports below [k] on NBI [n] with address [a]. *)
Definition mask_is (k a n m : Z) : Prop :=
  fits 8 m /\ forall q, 0 <= q -> Z.testbit m q = (q <? k) && en q && (mac q =? a) && on_nbi n q.

Definition masks_are (k a : Z) (e : mac_match_info) : Prop :=
  forall n, 0 <= n < 2 -> mask_is k a n (mask n e).

Definition generated (k : Z) (info : gmap Z mac_match_info) : Prop :=
  forall p, 0 <= p < k ->
    if en p then match_mac (minfo info p) = mac p /\ masks_are k (mac p) (minfo info p)
    else minfo info p = no_match_info.

(** Inside the loop that merges port [k] with the ports below [i] *)
Definition merging (k i : Z) (info : gmap Z mac_match_info) : Prop :=
  (forall p, 0 <= p < k ->
    if en p then match_mac (minfo info p) = mac p /\
      masks_are (if decide (p < i /\ mac p = mac k) then k + 1 else k) (mac p) (minfo info p)
    else minfo info p = no_match_info) /\
  match_mac (minfo info k) = mac k /\
  ((exists p, 0 <= p < i /\ en p = true /\ mac p = mac k) /\ masks_are (k + 1) (mac k) (minfo info k) \/
   (forall p, 0 <= p < i -> en p = true -> mac p <> mac k) /\
   forall n q, 0 <= n < 2 -> 0 <= q ->
     fits 8 (mask n (minfo info k)) /\ Z.testbit (mask n (minfo info k)) q = (q =? k) && on_nbi n q).

Lemma minfo_insert info i e : minfo (<[i := e]> info) i = e.
Proof. unfold minfo. by rewrite lookup_insert_eq. Qed.

Lemma minfo_insert_ne info i j e : i <> j -> minfo (<[i := e]> info) j = minfo info j.
Proof. intros Hne. unfold minfo. by rewrite lookup_insert_ne. Qed.

Lemma port_bit_spec k : 0 <= k < 8 -> fits 8 (port_bit k) /\
  forall q, 0 <= q -> Z.testbit (port_bit k) q = (q =? k).
Proof.
  intros Hk. unfold port_bit. split; [by apply wrap_fits|]. intros q Hq.
  rewrite testbit_wrap, Z.shiftl_1_l, Z.pow2_bits_eqb by lia.
  rewrite (Z.eqb_sym k q). destruct (Z.eqb_spec q k); [|by rewrite andb_false_r].
  by rewrite (proj2 (Z.ltb_lt _ _)) by lia.
Qed.

Lemma mask_or n m0 m1 m0' m1' a :
  mask n (mk_mac_match_info a (Z.lor m0 m0') (Z.lor m1 m1')) =
  Z.lor (mask n (mk_mac_match_info a m0 m1)) (mask n (mk_mac_match_info a m0' m1')).
Proof. unfold mask. simpl. by destruct (n =? 0). Qed.

Lemma mask_eta n a e : mask n (mk_mac_match_info a (port_mask0 e) (port_mask1 e)) = mask n e.
Proof. done. Qed.

(** The set of port [k], or of it and what [e] has, joined with that of a lower
    port with the same address *)
Lemma masks_join k i p e e' :
  0 <= i <= k -> mac p = mac k -> masks_are k (mac p) e ->
  0 <= p < i + 1 -> en p = true -> en k = true ->
  (masks_are (k + 1) (mac k) e' \/
   forall n q, 0 <= n < 2 -> 0 <= q ->
     fits 8 (mask n e') /\ Z.testbit (mask n e') q = (q =? k) && on_nbi n q) ->
  forall a, masks_are (k + 1) (mac k) (mk_mac_match_info a (Z.lor (port_mask0 e) (port_mask0 e'))
    (Z.lor (port_mask1 e) (port_mask1 e'))).
Proof.
  intros Hi Hp He Hpi Hen Hek He' a n Hn. rewrite mask_or, !mask_eta.
  destruct (He n Hn) as [Hfit Hbits]. rewrite Hp in Hbits. split.
  - apply fits_lor; [lia|done|]. destruct He' as [He'|He']; [by apply He'|by apply (He' n 0)].
  - intros q Hq. rewrite Z.lor_spec, Hbits by done.
    destruct He' as [He'|He'].
    + destruct (He' n Hn) as [_ Hb]. rewrite Hb by done.
      destruct (Z.ltb_spec q k), (Z.ltb_spec q (k + 1)); try lia; simpl; try done.
      by destruct (en q && (mac q =? mac k) && on_nbi n q).
    + destruct (He' n q Hn Hq) as [_ ->].
      destruct (Z.eqb_spec q k) as [->|].
      * rewrite Z.ltb_irrefl, Hek, Z.eqb_refl. simpl. by rewrite (proj2 (Z.ltb_lt _ _)) by lia.
      * destruct (Z.ltb_spec q k), (Z.ltb_spec q (k + 1)); try lia; simpl; by rewrite ?orb_false_r.
Qed.

Lemma merge_step k i info : 0 <= i < k -> en k = true ->
  (forall p, 0 <= p < k -> en p = true -> mac p <> 0) -> mac k <> 0 ->
  merging k i info -> merging k (i + 1) (merge_masks k info i).
Proof.
  intros Hi Hk Hnz Hkz (Hall & Hmk & Hcase). unfold merge_masks.
  pose proof (Hall i ltac:(lia)) as Hatt. rewrite Hmk.
  destruct (en i) eqn:Hei.
  2:{ rewrite Hatt. cbn [match_mac no_match_info]. rewrite (proj2 (Z.eqb_neq 0 (mac k))) by congruence.
      split; [|split; [done|]].
      - intros p Hp. pose proof (Hall p Hp) as Hx. destruct (en p) eqn:Hep; [|done].
        destruct Hx as [Hx1 Hx2]. split; [done|].
        assert (p <> i) by (intros ->; congruence).
        repeat case_decide; try lia; done.
      - destruct Hcase as [[(p & Hp & Hx) Hm]|[Hx Hm]]; [left|right]; (split; [|done]).
        + exists p. split; [lia|done].
        + intros p Hp Hep. apply Hx; [|done]. assert (p <> i) by (intros ->; congruence). lia. }
  destruct Hatt as [Hmi Hma]. rewrite Hmi. rewrite decide_False in Hma by lia.
  destruct (Z.eqb_spec (mac i) (mac k)) as [Heq|Hne].
  2:{ split; [|split; [done|]].
      - intros p Hp. pose proof (Hall p Hp) as Hx. destruct (en p) eqn:Hep; [|done].
        destruct Hx as [Hx1 Hx2]. split; [done|].
        assert (p = i -> mac p <> mac k) by (intros ->; done).
        repeat case_decide; try (exfalso; lia); done.
      - destruct Hcase as [[(p & Hp & Hx) Hm]|[Hx Hm]]; [left|right]; (split; [|done]).
        + exists p. split; [lia|done].
        + intros p Hp Hep. destruct (decide (p = i)) as [->|]; [done|]. apply Hx; [lia|done]. }
  set (ei := minfo info i) in *. set (ek := minfo info k) in *.
  assert (Hjoin : forall a, masks_are (k + 1) (mac k) (mk_mac_match_info a
    (Z.lor (port_mask0 ei) (port_mask0 ek)) (Z.lor (port_mask1 ei) (port_mask1 ek)))).
  { apply (masks_join k i i); try done; try lia. destruct Hcase as [[_ Hm]|[_ Hm]]; auto. }
  split; [|split].
  - intros p Hp. rewrite minfo_insert_ne by lia. destruct (decide (p = i)) as [->|Hpi].
    + rewrite minfo_insert, Hei. split; [done|]. rewrite decide_True by (split; [lia|done]).
      rewrite Heq. apply Hjoin.
    + rewrite minfo_insert_ne by done. pose proof (Hall p Hp) as Hx. destruct (en p); [|done].
      destruct Hx as [Hx1 Hx2]. split; [done|]. repeat case_decide; try (exfalso; lia); done.
  - by rewrite minfo_insert.
  - left. rewrite minfo_insert. split; [|apply Hjoin]. exists i. split; [lia|done].
Qed.

Lemma own_info_spec k a : 0 <= k < 8 -> match_mac (own_info P k a) = a /\
  forall n q, 0 <= n < 2 -> 0 <= q -> fits 8 (mask n (own_info P k a)) /\
    Z.testbit (mask n (own_info P k a)) q = (q =? k) && on_nbi n q.
Proof.
  intros Hk. destruct (port_bit_spec k Hk) as [Hf Hb]. unfold own_info, on_nbi, mask.
  split; [by destruct (k <? _)|]. intros n q Hn Hq.
  assert (Hn01 : n = 0 \/ n = 1) by lia.
  assert (Hz : fits 8 0 /\ Z.testbit 0 q = false) by (split; [by split|apply Z.testbit_0_l]).
  destruct (Z.eqb_spec q k) as [->|Hne];
    destruct (Z.ltb_spec k (NS_PLATFORM_NUM_PORTS_PER_MAC_0 P)); destruct Hn01 as [-> | ->];
    cbn [Z.eqb port_mask0 port_mask1]; rewrite ?Hb, ?Z.eqb_refl by done;
    rewrite ?(proj2 (Z.eqb_neq q k) Hne); try done.
Qed.

Lemma merging_done k info : en k = true -> 0 <= k -> merging k k info -> generated (k + 1) info.
Proof.
  intros Hk Hk0 (Hall & Hmk & Hcase) p Hp. destruct (decide (p = k)) as [->|Hne].
  - rewrite Hk. split; [done|]. destruct Hcase as [[_ Hm]|[Hx Hm]]; [done|].
    intros n Hn. split; [by apply (Hm n 0)|]. intros q Hq. destruct (Hm n q Hn Hq) as [_ ->].
    destruct (Z.eqb_spec q k) as [->|].
    + rewrite (proj2 (Z.ltb_lt _ _)), Hk, Z.eqb_refl by lia. done.
    + destruct (Z.ltb_spec q (k + 1)); [|done]. destruct (en q) eqn:Heq; [|done].
      rewrite (proj2 (Z.eqb_neq (mac q) (mac k))); [done|]. apply Hx; [lia|done].
  - specialize (Hall p ltac:(lia)). destruct (en p) eqn:Hep; [|done].
    destruct Hall as [H1 H2]. split; [done|].
    destruct (decide (p < k /\ mac p = mac k)) as [Hd|Hd]; [done|].
    intros n Hn. destruct (H2 n Hn) as [Hf Hb]. split; [done|]. intros q Hq. rewrite Hb by done.
    destruct (Z.ltb_spec q k), (Z.ltb_spec q (k + 1)); try lia; simpl; try done.
    assert (q = k) as -> by lia. rewrite (proj2 (Z.eqb_neq (mac k) (mac p))); [|intros ?; apply Hd; split; [lia|done]].
    by rewrite andb_false_r.
Qed.

Lemma foldl_range_ind {A} (I : Z -> A -> Prop) (f : A -> Z -> A) lo hi a :
  lo <= hi -> I lo a -> (forall k a, lo <= k < hi -> I k a -> I (k + 1) (f a k)) ->
  I hi (foldl f a (range lo hi)).
Proof.
  intros Hle. remember (Z.to_nat (hi - lo)) as n eqn:Hn. revert lo a Hle Hn.
  induction n as [|n IH]; intros lo a Hle Hn H0 Hstep.
  - rewrite range_nil by lia. by replace hi with lo by lia.
  - rewrite range_cons by lia. simpl. apply IH; [lia|lia| |].
    + by apply Hstep; [lia|].
    + intros k b Hk. apply Hstep. lia.
Qed.
End generate.

Section generate_all.
Context (P : platform) (port_en_mask : Z) (mac_addrs : Z -> Z).

Definition enabled (p : Z) : bool := has port_en_mask (Z.shiftl 1 p).

Lemma run_generate : 0 <= NS_PLATFORM_NUM_PORTS P <= 8 ->
  (forall p, 0 <= p < NS_PLATFORM_NUM_PORTS P -> enabled p = true -> mac_addrs p <> 0) ->
  forall info, generated P enabled mac_addrs (NS_PLATFORM_NUM_PORTS P)
    (generate_mac_match_info P port_en_mask info mac_addrs).
Proof.
  intros HN Hnz info. unfold generate_mac_match_info.
  apply (foldl_range_ind (fun k i => generated P enabled mac_addrs k i)); [lia|intros p Hp; lia|].
  intros k i Hk Hgen. fold (enabled k). destruct (enabled k) eqn:Hen.
  - apply merging_done; [done|lia|].
    apply (foldl_range_ind (fun j i => merging P enabled mac_addrs k j i)); [lia| |].
    + destruct (own_info_spec P k (mac_addrs k)) as [Hm Ho]; [lia|]. split; [|split].
      * intros p Hp. rewrite minfo_insert_ne by lia. rewrite decide_False by lia. by apply Hgen.
      * by rewrite minfo_insert.
      * right. split; [intros; lia|]. rewrite minfo_insert. exact Ho.
    + intros j i' Hj. apply merge_step; try done; try lia.
      * intros p Hp. apply Hnz. lia.
      * apply Hnz; [lia|done].
  - intros p Hp. destruct (decide (p = k)) as [->|Hne].
    + by rewrite Hen, minfo_insert.
    + rewrite minfo_insert_ne by lia. specialize (Hgen p ltac:(lia)).
      destruct (enabled p) eqn:Hep; [|done]. destruct Hgen as [H1 H2]. split; [done|].
      intros n Hn. destruct (H2 n Hn) as [Hf Hb]. split; [done|]. intros q Hq. rewrite Hb by done.
      destruct (Z.ltb_spec q k), (Z.ltb_spec q (k + 1)); try lia; simpl; try done.
      assert (q = k) as -> by lia. by rewrite Hen.
Qed.
End generate_all.

(** ** Updates *)

Section update_proofs.
Context (P : platform) (HN : 0 <= NS_PLATFORM_NUM_PORTS P <= 8).
Context `{Devices, NbiPcRegs, ClsHash}.

Let N := NS_PLATFORM_NUM_PORTS P.

(** An array of match information that [generate_mac_match_info] can give *)
Definition info_ok (info : gmap Z mac_match_info) : Prop :=
  (forall p, 0 <= p < N -> let e := minfo info p in
     e = no_match_info \/
     (match_mac e <> 0 /\ fits 48 (match_mac e) /\ fits 8 (port_mask0 e) /\ fits 8 (port_mask1 e) /\
      (port_mask0 e <> 0 \/ port_mask1 e <> 0))) /\
  (forall p q, 0 <= p < N -> 0 <= q < N ->
     match_mac (minfo info p) = match_mac (minfo info q) -> minfo info p = minfo info q).

(** The result that an NBI should have for the address of an entry *)
Definition wanted (n : Z) (e : mac_match_info) : option Z :=
  if truthy (mask n e) then Some (u16 (Z.shiftl (mask n e) 8)) else None.

(** The table that the information asks for *)
Definition want (n : Z) (info : gmap Z mac_match_info) (mac : Z) : option Z :=
  match find_mac info (range 0 N) mac with
  | Some i => wanted n (minfo info i)
  | None => None
  end.


Lemma find_mac_some info k mac i :
  find_mac info (range 0 k) mac = Some i -> 0 <= i < k /\ match_mac (minfo info i) = mac.
Proof.
  intros [Hin Heq%Z.eqb_eq]%find_some. apply list_elem_of_In, elem_of_range in Hin. done.
Qed.

Lemma find_mac_none info k mac :
  find_mac info (range 0 k) mac = None -> forall i, 0 <= i < k -> match_mac (minfo info i) <> mac.
Proof.
  intros Hf i Hi Heq.
  pose proof (find_none _ _ Hf i (proj1 (list_elem_of_In _ _) (proj2 (elem_of_range _ _ _) Hi))) as Hx.
  simpl in Hx. rewrite Heq, Z.eqb_refl in Hx. done.
Qed.

Lemma want_at n info i : info_ok info -> 0 <= i < N ->
  want n info (match_mac (minfo info i)) = wanted n (minfo info i).
Proof.
  intros [_ Hinj] Hi. unfold want. destruct (find_mac _ _ _) as [j|] eqn:Hf.
  - apply find_mac_some in Hf as [Hj Heq]. by rewrite (Hinj j i Hj Hi Heq).
  - by pose proof (find_mac_none _ _ _ Hf i Hi eq_refl).
Qed.

Lemma want_none n info mac : (forall i, 0 <= i < N -> match_mac (minfo info i) <> mac) ->
  want n info mac = None.
Proof.
  intros Hno. unfold want. destruct (find_mac _ _ _) as [j|] eqn:Hf; [|done].
  apply find_mac_some in Hf as [Hj Heq]. by apply Hno in Heq.
Qed.

Lemma wanted_empty n : wanted n no_match_info = None.
Proof. unfold wanted, mask. by destruct (n =? 0). Qed.

Lemma want_zero n info : info_ok info -> want n info 0 = None.
Proof.
  intros Hok. destruct (find_mac info (range 0 N) 0) as [i|] eqn:Hf.
  - apply find_mac_some in Hf as [Hi Heq]. rewrite <- Heq, want_at by done.
    destruct (proj1 Hok i Hi) as [->|(Hnz & _)]; [apply wanted_empty|done].
  - apply want_none. by apply find_mac_none.
Qed.

(** [mac] is the address of an enabled port below [k]. *)
Definition live (info : gmap Z mac_match_info) (k mac : Z) : Prop :=
  mac <> 0 /\ exists i, 0 <= i < k /\ match_mac (minfo info i) = mac.

Lemma live_dec info k mac : live info k mac \/ ~ live info k mac.
Proof.
  unfold live. destruct (decide (mac = 0)) as [->|Hnz]; [by right; intros []|].
  destruct (find_mac info (range 0 k) mac) as [i|] eqn:Hf.
  - left. split; [done|]. exists i. by apply find_mac_some.
  - right. intros (_ & i & Hi & Heq). by apply (find_mac_none _ _ _ Hf i Hi).
Qed.

Lemma want_not_live n info mac : info_ok info -> ~ live info N mac -> want n info mac = None.
Proof.
  intros Hok Hnl. destruct (decide (mac = 0)) as [->|Hnz]; [by apply want_zero|].
  apply want_none. intros i Hi Heq. apply Hnl. split; [done|]. by exists i.
Qed.

(** The tables hold the results that [T] gives. *)
Definition tables_are (T : Z -> Z -> option Z) (s : nic) : Prop :=
  forall n mac, 0 <= n < 2 -> fits 48 mac -> mac_table n s mac = T n mac.

Definition keeps (s s' : nic) : Prop := tables_only s s' /\ mac_tables_ok (nbi_mem s').

Lemma keeps_trans s1 s2 s3 : keeps s1 s2 -> keeps s2 s3 -> keeps s1 s3.
Proof. intros [Ht1 _] [Ht2 Hok]. split; [by transitivity s2|done]. Qed.

Lemma keeps_refl s : mac_tables_ok (nbi_mem s) -> keeps s s.
Proof. by split. Qed.

(** The table function with one result replaced *)
Definition upd (T : Z -> Z -> option Z) (n mac : Z) (r : option Z) (n' mac' : Z) : option Z :=
  if decide (n' = n /\ mac' = mac) then r else T n' mac'.

Lemma run_add_when b err n mac m idx T s :
  0 <= n < 2 -> fits 48 mac -> fits 8 m -> (b = true -> m <> 0) ->
  mac_tables_ok (nbi_mem s) -> (err = 0 \/ err = -1) -> (err = 0 -> tables_are T s) ->
  exists err' s', add_when b err n mac m idx s = Some (err', s') /\ keeps s s' /\
    (err' = 0 \/ err' = -1) /\
    (err' = 0 -> err = 0 /\
       tables_are (if b then upd T n mac (Some (u16 (Z.shiftl m 8))) else T) s').
Proof.
  intros Hn Hmac Hm Hb Hok Herr HT. unfold add_when. destruct b.
  2:{ exists err, s. split; [done|]. split; [by apply keeps_refl|]. auto. }
  assert (Hfit : fits 16 (Z.shiftl m 8)) by (apply fits_shiftl; [lia|done]).
  rewrite (wrap_small 16) by done.
  assert (Hnz : Z.shiftl m 8 <> 0).
  { rewrite Z.shiftl_mul_pow2 by lia. specialize (Hb eq_refl). lia. }
  destruct (mac_add_step n mac (Z.shiftl m 8) idx s Hn Hmac Hfit Hnz Hok)
    as (ret & s' & Hrun & [(-> & Ht & Hok' & Hs)|(-> & (Ht & Hok' & _) & _)]).
  - exists err, s'. split; [by erewrite run_some, Z.lor_0_r by exact Hrun|].
    split; [done|]. split; [done|]. intros He. split; [done|]. intros n' mac' Hn' Hmac'.
    rewrite Hs by done. unfold upd. case_decide; [done|]. by apply HT.
  - exists (-1), s'. split; [|split; [done|split; [by right|done]]].
    erewrite run_some by exact Hrun. by destruct Herr as [-> | ->].
Qed.

Lemma run_remove_when b n mac idx T s :
  0 <= n < 2 -> fits 48 mac -> mac_tables_ok (nbi_mem s) ->
  exists s', remove_when b n mac idx s = Some (tt, s') /\ keeps s s' /\
    (tables_are T s -> tables_are (if b then upd T n mac None else T) s').
Proof.
  intros Hn Hmac Hok. unfold remove_when. destruct b; cbn [when].
  2:{ exists s. split; [done|]. split; [by apply keeps_refl|]. done. }
  destruct (mac_remove_step n mac idx s Hn Hmac Hok) as (s' & Hrun & Ht & Hok' & Hs).
  exists s'. split; [by erewrite run_some by exact Hrun|]. split; [done|].
  intros HT n' mac' Hn' Hmac'. rewrite Hs by done. unfold upd. case_decide; [done|]. by apply HT.
Qed.

(** The tables after the ports below [k] of the new information are done *)
Definition added (old new : gmap Z mac_match_info) (s0 : nic) (k err : Z) (s : nic) : Prop :=
  keeps s0 s /\ (err = 0 \/ err = -1) /\
  (err = 0 -> forall n mac, 0 <= n < 2 -> fits 48 mac ->
     (live new k mac -> mac_table n s mac = want n new mac) /\
     (~ live new k mac -> mac_table n s mac = want n old mac)).

Lemma live_S info k mac : 0 <= k ->
  live info (k + 1) mac <-> live info k mac \/ (mac <> 0 /\ match_mac (minfo info k) = mac).
Proof.
  intros Hk. unfold live. split.
  - intros (Hnz & i & Hi & Heq). destruct (decide (i = k)) as [->|]; [by right|]. left.
    split; [done|]. exists i. split; [lia|done].
  - intros [(Hnz & i & Hi & Heq)|(Hnz & Heq)]; (split; [done|]).
    + exists i. split; [lia|done].
    + exists k. split; [lia|done].
Qed.

Lemma added_skip old new s0 k err s : 0 <= k ->
  match_mac (minfo new k) = 0 \/ live new k (match_mac (minfo new k)) ->
  added old new s0 k err s -> added old new s0 (k + 1) err s.
Proof.
  intros Hk Hor (Hkeep & Herr & Ht). split; [done|]. split; [done|]. intros He n mac Hn Hmac.
  assert (Hiff : live new (k + 1) mac <-> live new k mac).
  { rewrite live_S by done. split; [|tauto]. intros [Hl|(Hnz & Heq)]; [done|].
    destruct Hor as [Hz|Hl]; [congruence|]. by rewrite Heq in Hl. }
  rewrite Hiff. by apply Ht.
Qed.

(** The results of one address, when the other addresses stay as they are *)
Lemma added_port old new s0 k err err' s s' :
  info_ok new -> 0 <= k < N -> match_mac (minfo new k) <> 0 ->
  (err' = 0 -> err = 0) ->
  added old new s0 k err s -> keeps s s' -> (err' = 0 \/ err' = -1) ->
  (err' = 0 -> forall n mac, 0 <= n < 2 -> fits 48 mac -> mac_table n s' mac =
     if decide (mac = match_mac (minfo new k)) then wanted n (minfo new k) else mac_table n s mac) ->
  added old new s0 (k + 1) err' s'.
Proof.
  intros Hok Hk Hnz Hee (Hkeep & Herr & Ht) Hkeep' Herr' Ht'.
  split; [by eapply keeps_trans|]. split; [done|]. intros He n mac Hn Hmac.
  destruct (Ht (Hee He) n mac Hn Hmac) as [Hl1 Hl2]. rewrite Ht' by done. rewrite live_S by lia.
  case_decide as Hd.
  - subst mac. rewrite want_at by done. split; [done|]. intros Hno. exfalso. apply Hno. by right.
  - split.
    + intros [Hl|[_ Heq]]; [by apply Hl1|congruence].
    + intros Hno. apply Hl2. tauto.
Qed.

Lemma mask01 e : mask 0 e = port_mask0 e /\ mask 1 e = port_mask1 e.
Proof. done. Qed.

Lemma truthy_false x : truthy x = false <-> x = 0.
Proof. unfold truthy. rewrite negb_false_iff. apply Z.eqb_eq. Qed.

Lemma truthy_true x : truthy x = true <-> x <> 0.
Proof. unfold truthy. rewrite negb_true_iff. apply Z.eqb_neq. Qed.

(** What the four calls for a known address leave, and the two for a new one *)
Lemma settle_known (T : Z -> Z -> option Z) e o mac :
  (forall n, 0 <= n < 2 -> T n mac = wanted n o) ->
  let m0 := port_mask0 e in let m1 := port_mask1 e in
  let T1 := if truthy m0 && negb (m0 =? port_mask0 o) then upd T 0 mac (Some (u16 (Z.shiftl m0 8))) else T in
  let T2 := if truthy m1 && negb (m1 =? port_mask1 o) then upd T1 1 mac (Some (u16 (Z.shiftl m1 8))) else T1 in
  let T3 := if negb (truthy m0) && negb (m0 =? port_mask0 o) then upd T2 0 mac None else T2 in
  let T4 := if negb (truthy m1) && negb (m1 =? port_mask1 o) then upd T3 1 mac None else T3 in
  forall n mac', 0 <= n < 2 -> T4 n mac' = if decide (mac' = mac) then wanted n e else T n mac'.
Proof.
  intros HT m0 m1. pose proof (HT 0 ltac:(lia)) as HT0. pose proof (HT 1 ltac:(lia)) as HT1.
  unfold wanted in HT0, HT1. rewrite (proj1 (mask01 o)) in HT0. rewrite (proj2 (mask01 o)) in HT1.
  destruct (truthy m0) eqn:E0, (m0 =? port_mask0 o) eqn:F0, (truthy m1) eqn:E1,
    (m1 =? port_mask1 o) eqn:F1; cbn [andb negb]; cbv zeta;
    repeat match goal with H : (_ =? _) = true |- _ => apply Z.eqb_eq in H end;
    try rewrite <- F0, E0 in HT0; try rewrite <- F1, E1 in HT1;
    intros n mac' Hn; unfold upd, wanted;
    assert (n = 0 \/ n = 1) as [-> | ->] by lia;
    rewrite ?(proj1 (mask01 e)), ?(proj2 (mask01 e)); fold m0 m1; rewrite ?E0, ?E1;
    repeat case_decide; subst; try done; try tauto; try (exfalso; lia).
Qed.

Lemma settle_new (T : Z -> Z -> option Z) e mac :
  (forall n, 0 <= n < 2 -> T n mac = None) ->
  let m0 := port_mask0 e in let m1 := port_mask1 e in
  let T1 := if truthy m0 then upd T 0 mac (Some (u16 (Z.shiftl m0 8))) else T in
  let T2 := if truthy m1 then upd T1 1 mac (Some (u16 (Z.shiftl m1 8))) else T1 in
  forall n mac', 0 <= n < 2 -> T2 n mac' = if decide (mac' = mac) then wanted n e else T n mac'.
Proof.
  intros HT m0 m1. pose proof (HT 0 ltac:(lia)) as HT0. pose proof (HT 1 ltac:(lia)) as HT1.
  destruct (truthy m0) eqn:E0, (truthy m1) eqn:E1; cbv zeta;
    intros n mac' Hn; unfold upd, wanted;
    assert (n = 0 \/ n = 1) as [-> | ->] by lia;
    rewrite ?(proj1 (mask01 e)), ?(proj2 (mask01 e)); fold m0 m1; rewrite ?E0, ?E1;
    repeat case_decide; subst; try done; try tauto; try (exfalso; lia).
Qed.

Lemma masks_fit info p : info_ok info -> 0 <= p < N ->
  fits 48 (match_mac (minfo info p)) /\ fits 8 (port_mask0 (minfo info p)) /\
  fits 8 (port_mask1 (minfo info p)).
Proof.
  intros [Hok _] Hp. destruct (Hok p Hp) as [->|(_ & Hm & H0' & H1' & _)]; [|done].
  cbn. split_and!; by split.
Qed.

Lemma added_ok old new s0 k err s : added old new s0 k err s ->
  mac_tables_ok (nbi_mem s) /\ (err = 0 \/ err = -1).
Proof. intros ([_ Hok] & Herr & _). done. Qed.

Lemma run_add_update_port old new idx s0 k err s :
  info_ok old -> info_ok new -> 0 <= k < N -> added old new s0 k err s ->
  returns (add_update_port P old new idx err k) s (fun err' s' => added old new s0 (k + 1) err' s').
Proof.
  intros Hold Hnew Hk Hadd. destruct (added_ok _ _ _ _ _ _ Hadd) as [Hok Herr].
  destruct (masks_fit new k Hnew Hk) as (Hmac & Hm0 & Hm1).
  unfold add_update_port. set (e := minfo new k) in *. cbv zeta.
  destruct (negb (truthy (port_mask0 e)) && negb (truthy (port_mask1 e)))%bool eqn:Hempty.
  { apply added_skip; [lia| |done]. left. apply andb_true_iff in Hempty as [E0 E1].
    apply negb_true_iff, truthy_false in E0, E1.
    destruct (proj1 Hnew k Hk) as [He|(_ & _ & _ & _ & [Hx|Hx])]; [by rewrite He|done|done]. }
  assert (Hnz : match_mac e <> 0).
  { destruct (proj1 Hnew k Hk) as [He|(Hx & _)]; [|done]. fold e in He. by rewrite He in Hempty. }
  destruct (find_mac new (range 0 k) (match_mac e)) as [j|] eqn:Hf.
  { apply added_skip; [lia| |done]. right. apply find_mac_some in Hf as [Hj Heq].
    split; [done|]. by exists j. }
  assert (Hnl : ~ live new k (match_mac e)).
  { intros (_ & j & Hj & Heq). by apply (find_mac_none _ _ _ Hf j Hj). }
  set (T := fun n mac => mac_table n s mac).
  assert (HT : tables_are T s) by (intros ? ? ? ?; reflexivity).
  assert (Hb0 : truthy (port_mask0 e) = true -> port_mask0 e <> 0) by exact (proj1 (truthy_true _)).
  assert (Hb1 : truthy (port_mask1 e) = true -> port_mask1 e <> 0) by exact (proj1 (truthy_true _)).
  assert (Hwant : err = 0 -> forall n, 0 <= n < 2 -> T n (match_mac e) = want n old (match_mac e)).
  { intros He n Hn. destruct Hadd as (_ & _ & Ht).
    exact (proj2 (Ht He n _ Hn Hmac) Hnl). }
  destruct (find_mac old (range 0 (NS_PLATFORM_NUM_PORTS P)) (match_mac e)) as [i|] eqn:Hfo.
  - apply find_mac_some in Hfo as [Hi Heq]. set (o := minfo old i) in *.
    set (TA := if truthy (port_mask0 e) && negb (port_mask0 e =? port_mask0 o)
      then upd T 0 (match_mac e) (Some (u16 (Z.shiftl (port_mask0 e) 8))) else T).
    set (TB := if truthy (port_mask1 e) && negb (port_mask1 e =? port_mask1 o)
      then upd TA 1 (match_mac e) (Some (u16 (Z.shiftl (port_mask1 e) 8))) else TA).
    set (TC := if negb (truthy (port_mask0 e)) && negb (port_mask0 e =? port_mask0 o)
      then upd TB 0 (match_mac e) None else TB).
    destruct (run_add_when (truthy (port_mask0 e) && negb (port_mask0 e =? port_mask0 o)) err 0
      (match_mac e) (port_mask0 e) idx T s) as (err1 & s1 & R1 & K1 & E1 & T1);
      [lia|done|done|by intros [? _]%andb_true_iff; auto|done|done|done|].
    destruct (run_add_when (truthy (port_mask1 e) && negb (port_mask1 e =? port_mask1 o)) err1 1
      (match_mac e) (port_mask1 e) idx TA s1) as (err2 & s2 & R2 & K2 & E2 & T2);
      [lia|done|done|by intros [? _]%andb_true_iff; auto|apply K1|done|intros Hx; apply (T1 Hx)|].
    destruct (run_remove_when (negb (truthy (port_mask0 e)) && negb (port_mask0 e =? port_mask0 o)) 0
      (match_mac e) idx TB s2)
      as (s3 & R3 & K3 & T3); [lia|done|apply K2|].
    destruct (run_remove_when (negb (truthy (port_mask1 e)) && negb (port_mask1 e =? port_mask1 o)) 1
      (match_mac e) idx TC s3) as (s4 & R4 & K4 & T4); [lia|done|apply K3|].
    unfold returns. erewrite run_some by exact R1. cbv beta. erewrite run_some by exact R2. cbv beta.
    erewrite run_some by exact R3. cbv beta. erewrite run_some by exact R4. cbv beta.
    unfold mret, M_ret.
    eapply added_port; [done|done|exact Hnz| |exact Hadd| |done|].
    { intros He2. by apply T1, T2. }
    { eapply keeps_trans; [exact K1|]. eapply keeps_trans; [exact K2|]. eapply keeps_trans; eassumption. }
    intros He2 n mac Hn Hmac'. destruct (T2 He2) as [He1 HT2]. destruct (T1 He1) as [He0 _].
    specialize (T4 (T3 HT2) n mac Hn Hmac'). rewrite T4.
    apply (settle_known T e o (match_mac e)); [|done].
    intros n' Hn'. rewrite Hwant by done. rewrite <- Heq. by apply want_at.
  - set (TA := if truthy (port_mask0 e)
      then upd T 0 (match_mac e) (Some (u16 (Z.shiftl (port_mask0 e) 8))) else T).
    destruct (run_add_when (truthy (port_mask0 e)) err 0
      (match_mac e) (port_mask0 e) idx T s) as (err1 & s1 & R1 & K1 & E1 & T1);
      [lia|done|done|done|done|done|done|].
    destruct (run_add_when (truthy (port_mask1 e)) err1 1
      (match_mac e) (port_mask1 e) idx TA s1) as (err2 & s2 & R2 & K2 & E2 & T2);
      [lia|done|done|done|apply K1|done|intros Hx; apply (T1 Hx)|].
    unfold returns. erewrite run_some by exact R1. cbv beta. rewrite R2.
    eapply added_port; [done|done|exact Hnz| |exact Hadd| |done|].
    { intros He2. by apply T1, T2. }
    { by eapply keeps_trans. }
    intros He2 n mac Hn Hmac'. destruct (T2 He2) as [He1 HT2]. destruct (T1 He1) as [He0 _].
    rewrite (HT2 n mac Hn Hmac'). apply (settle_new T e (match_mac e)); [|done].
    intros n' Hn'. rewrite Hwant by done. apply want_none. by apply find_mac_none.
Qed.

(** The tables after the ports below [k] of the old information are checked *)
Definition removed (old new : gmap Z mac_match_info) (s0 : nic) (k err : Z) (s : nic) : Prop :=
  keeps s0 s /\
  (err = 0 -> forall n mac, 0 <= n < 2 -> fits 48 mac ->
     (live new N mac -> mac_table n s mac = want n new mac) /\
     (~ live new N mac -> live old k mac -> mac_table n s mac = None) /\
     (~ live new N mac -> ~ live old k mac -> mac_table n s mac = want n old mac)).

Lemma removed_skip old new s0 k err s : 0 <= k ->
  match_mac (minfo old k) = 0 \/ live old k (match_mac (minfo old k)) \/
    live new N (match_mac (minfo old k)) ->
  removed old new s0 k err s -> removed old new s0 (k + 1) err s.
Proof.
  intros Hk Hor (Hkeep & Ht). split; [done|]. intros He n mac Hn Hmac.
  destruct (Ht He n mac Hn Hmac) as (T1 & T2 & T3). rewrite live_S by done.
  split; [done|]. split.
  - intros Hno [Hl|(Hnz & Heq)]; [by apply T2|].
    destruct Hor as [Hz|[Hl|Hl]]; [congruence| |]; rewrite Heq in Hl; [by apply T2|done].
  - intros Hno Hnl. apply T3; [done|]. tauto.
Qed.

Lemma removed_port old new s0 k err s s' : 0 <= k ->
  match_mac (minfo old k) <> 0 -> ~ live new N (match_mac (minfo old k)) ->
  removed old new s0 k err s -> keeps s s' ->
  (forall n mac, 0 <= n < 2 -> fits 48 mac -> mac_table n s' mac =
     if decide (mac = match_mac (minfo old k)) then
       if truthy (mask n (minfo old k)) then None else mac_table n s mac
     else mac_table n s mac) ->
  (err = 0 -> forall n, 0 <= n < 2 -> truthy (mask n (minfo old k)) = false ->
     mac_table n s (match_mac (minfo old k)) = None) ->
  removed old new s0 (k + 1) err s'.
Proof.
  intros Hk Hnz Hno (Hkeep & Ht) Hkeep' Ht' Hold. split; [by eapply keeps_trans|].
  intros He n mac Hn Hmac. destruct (Ht He n mac Hn Hmac) as (T1 & T2 & T3).
  rewrite Ht' by done. rewrite live_S by done. case_decide as Hd.
  - subst mac. split; [done|]. split; [|intros _ Hx; exfalso; apply Hx; by right].
    intros _ _. destruct (truthy _) eqn:Hm; [done|]. by apply Hold.
  - split; [done|]. split.
    + intros Hn' [Hl|[_ Heq]]; [by apply T2|congruence].
    + intros Hn' Hx. apply T3; [done|]. tauto.
Qed.

Lemma removed_ok old new s0 k err s : removed old new s0 k err s -> mac_tables_ok (nbi_mem s).
Proof. by intros [[_ Hok] _]. Qed.

Lemma run_remove_unused_port old new idx s0 k err s :
  info_ok old -> info_ok new -> 0 <= k < N -> removed old new s0 k err s ->
  returns (remove_unused_port P old new idx k) s (fun _ s' => removed old new s0 (k + 1) err s').
Proof.
  intros Hold Hnew Hk Hrem. pose proof (removed_ok _ _ _ _ _ _ Hrem) as Hok.
  destruct (masks_fit old k Hold Hk) as (Hmac & _ & _).
  unfold remove_unused_port. set (e := minfo old k) in *. cbv zeta.
  destruct (negb (truthy (port_mask0 e)) && negb (truthy (port_mask1 e)))%bool eqn:Hempty.
  { apply removed_skip; [lia| |done]. left. apply andb_true_iff in Hempty as [E0 E1].
    apply negb_true_iff, truthy_false in E0, E1.
    destruct (proj1 Hold k Hk) as [He|(_ & _ & _ & _ & [Hx|Hx])]; [by rewrite He|done|done]. }
  assert (Hnz : match_mac e <> 0).
  { destruct (proj1 Hold k Hk) as [He|(Hx & _)]; [|done]. fold e in He. by rewrite He in Hempty. }
  destruct (find_mac old (range 0 k) (match_mac e)) as [j|] eqn:Hf.
  { apply removed_skip; [lia| |done]. right. left. apply find_mac_some in Hf as [Hj Heq].
    split; [done|]. by exists j. }
  destruct (find_mac new (range 0 (NS_PLATFORM_NUM_PORTS P)) (match_mac e)) as [j|] eqn:Hfn.
  { apply removed_skip; [lia| |done]. right. right. apply find_mac_some in Hfn as [Hj Heq].
    split; [done|]. by exists j. }
  assert (Hnn : ~ live new N (match_mac e)).
  { intros (_ & j & Hj & Heq). by apply (find_mac_none _ _ _ Hfn j Hj). }
  assert (Hno : ~ live old k (match_mac e)).
  { intros (_ & j & Hj & Heq). by apply (find_mac_none _ _ _ Hf j Hj). }
  set (T := fun n mac => mac_table n s mac).
  destruct (run_remove_when (truthy (port_mask0 e)) 0 (match_mac e) idx T s)
    as (s1 & R1 & K1 & T1); [lia|done|done|].
  set (TA := if truthy (port_mask0 e) then upd T 0 (match_mac e) None else T) in *.
  destruct (run_remove_when (truthy (port_mask1 e)) 1 (match_mac e) idx TA s1)
    as (s2 & R2 & K2 & T2); [lia|done|apply K1|].
  unfold returns. erewrite run_some by exact R1. cbv beta. rewrite R2.
  eapply removed_port; [lia|exact Hnz|exact Hnn|exact Hrem|by eapply keeps_trans| |].
  - intros n mac Hn Hmac'. rewrite (T2 (T1 ltac:(intros ? ? ? ?; reflexivity)) n mac Hn Hmac').
    subst TA T. unfold upd. fold e. assert (n = 0 \/ n = 1) as [-> | ->] by lia;
      rewrite ?(proj1 (mask01 e)), ?(proj2 (mask01 e));
      destruct (truthy (port_mask0 e)), (truthy (port_mask1 e));
      repeat case_decide; subst; try done; try tauto; try (exfalso; lia).
  - intros He n Hn Hm. destruct Hrem as [_ Ht]. destruct (Ht He n _ Hn Hmac) as (_ & _ & T3).
    etransitivity; [exact (T3 Hnn Hno)|]. unfold e. rewrite want_at by done. unfold wanted.
    by rewrite Hm.
Qed.

(** The whole update *)
Lemma run_update old new idx s :
  info_ok old -> info_ok new -> mac_tables_ok (nbi_mem s) ->
  (forall n mac, 0 <= n < 2 -> fits 48 mac -> mac_table n s mac = want n old mac) ->
  exists err s', mac_match_table_update P old new idx s = Some (err, s') /\ keeps s s' /\
    (err = 0 \/ err = -1) /\
    (err = 0 -> forall n mac, 0 <= n < 2 -> fits 48 mac -> mac_table n s' mac = want n new mac).
Proof.
  intros Hold Hnew Hok Ht. unfold mac_match_table_update.
  assert (H1' : returns (for_fold (range 0 N) 0 (add_update_port P old new idx)) s
    (fun err s' => added old new s N err s')).
  { eapply returns_mono; [apply (returns_for_fold (fun l err s' => exists k, 0 <= k <= N /\
      l = range k N /\ added old new s k err s'))|].
    - exists 0. split; [unfold N; lia|]. split; [done|]. split; [by apply keeps_refl|].
      split; [by left|]. intros _ n mac Hn Hmac. split; [intros (_ & i & Hi & _); lia|]. auto.
    - intros x l err s' (k & Hk & Hl & Ha). destruct (decide (k < N)) as [Hlt|];
        [|by rewrite range_nil in Hl by lia].
      rewrite range_cons in Hl by done. injection Hl as -> ->.
      eapply returns_mono; [apply run_add_update_port; [done|done|lia|exact Ha]|].
      intros err' s'' Ha'. exists (k + 1). split; [lia|]. done.
    - intros err s' (k & Hk & Hl & Ha). destruct (decide (k < N)) as [Hlt|];
        [by rewrite range_cons in Hl by done|]. by replace N with k by lia. }
  apply returns_exists in H1' as (err & s1 & R1 & Hkeep & Herr & Ht1).
  assert (H2 : returns (for_each (range 0 N) (remove_unused_port P old new idx)) s1
    (fun _ s' => removed old new s N err s')).
  { eapply returns_mono; [apply (returns_for_each (fun l s' => exists k, 0 <= k <= N /\
      l = range k N /\ removed old new s k err s'))|].
    - exists 0. split; [unfold N; lia|]. split; [done|]. split; [done|].
      intros He n mac Hn Hmac. destruct (Ht1 He n mac Hn Hmac) as [T1 T2].
      split; [done|]. split; [intros _ (_ & i & Hi & _); lia|]. auto.
    - intros x l s' (k & Hk & Hl & Ha). destruct (decide (k < N)) as [Hlt|];
        [|by rewrite range_nil in Hl by lia].
      rewrite range_cons in Hl by done. injection Hl as -> ->.
      eapply returns_mono; [apply run_remove_unused_port; [done|done|lia|exact Ha]|].
      intros [] s'' Ha'. exists (k + 1). split; [lia|]. done.
    - intros [] s' (k & Hk & Hl & Ha). destruct (decide (k < N)) as [Hlt|];
        [by rewrite range_cons in Hl by done|]. by replace N with k by lia. }
  apply returns_exists in H2 as ([] & s2 & R2 & Hkeep2 & Ht2).
  exists err, s2. split; [|split; [done|split; [done|]]].
  - erewrite run_some by exact R1. cbv beta. by erewrite run_some by exact R2.
  - intros He n mac Hn Hmac. destruct (Ht2 He n mac Hn Hmac) as (T1 & T2 & T3).
    destruct (live_dec new N mac) as [Hl|Hl]; [by apply T1|].
    rewrite (want_not_live n new mac Hnew Hl).
    destruct (live_dec old N mac) as [Ho|Ho]; [by apply T2|].
    rewrite (T3 Hl Ho). by apply want_not_live.
Qed.
End update_proofs.

Section sync.
Context (P : platform) (HN : 0 <= NS_PLATFORM_NUM_PORTS P <= 8).
Context `{Devices, NbiPcRegs, ClsHash}.

Let N := NS_PLATFORM_NUM_PORTS P.

Lemma masks_are_unique en mac k a e e' :
  masks_are P en mac k a e -> masks_are P en mac k a e' ->
  port_mask0 e = port_mask0 e' /\ port_mask1 e = port_mask1 e'.
Proof.
  intros He He'.
  assert (Hn : forall n, 0 <= n < 2 -> mask n e = mask n e').
  { intros n Hn. apply Z.bits_inj'. intros q Hq.
    by rewrite (proj2 (He n Hn) q Hq), (proj2 (He' n Hn) q Hq). }
  split; [apply (Hn 0)|apply (Hn 1)]; lia.
Qed.

Lemma generated_ok en mac info : generated P en mac N info ->
  (forall p, 0 <= p < N -> en p = true -> mac p <> 0 /\ fits 48 (mac p)) -> info_ok P info.
Proof.
  intros Hgen Hmac. split.
  - intros p Hp. cbv zeta. specialize (Hgen p Hp). destruct (en p) eqn:Hen; [|by left]. right.
    destruct Hgen as [Hm Hmasks]. destruct (Hmac p Hp Hen) as [Hnz Hfit]. rewrite Hm.
    destruct (Hmasks 0 ltac:(lia)) as [H0f H0b], (Hmasks 1 ltac:(lia)) as [H1f H1b].
    split_and!; [done|done|exact H0f|exact H1f|].
    specialize (H0b p ltac:(lia)). specialize (H1b p ltac:(lia)).
    rewrite Hen, Z.eqb_refl, (proj2 (Z.ltb_lt _ _)) in H0b, H1b by lia. cbn [andb] in H0b, H1b.
    unfold on_nbi in H0b, H1b. destruct (p <? _).
    + left. intros Hz. unfold mask in H0b. cbn in H0b. by rewrite Hz, Z.testbit_0_l in H0b.
    + right. intros Hz. unfold mask in H1b. cbn in H1b. by rewrite Hz, Z.testbit_0_l in H1b.
  - intros p q Hp Hq Heq. pose proof (Hgen p Hp) as Hgp. pose proof (Hgen q Hq) as Hgq.
    destruct (en p) eqn:Hep, (en q) eqn:Heq'.
    + destruct Hgp as [Hmp Hp'], Hgq as [Hmq Hq']. rewrite Hmp, Hmq in Heq. rewrite Heq in Hp'.
      destruct (masks_are_unique _ _ _ _ _ _ Hp' Hq') as [E0 E1].
      destruct (minfo info p), (minfo info q). cbn in *. congruence.
    + destruct Hgp as [Hmp _]. rewrite Hgq, Hmp in Heq. cbn in Heq.
      by destruct (Hmac p Hp Hep).
    + destruct Hgq as [Hmq _]. rewrite Hgp, Hmq in Heq. cbn in Heq.
      by destruct (Hmac q Hq Heq').
    + congruence.
Qed.

Lemma minfo_copy temp curr p : 0 <= p < N -> minfo (copy_info P temp curr) p = minfo temp p.
Proof.
  intros Hp. unfold copy_info.
  assert (Hall : forall p, 0 <= p < N -> minfo (foldl (fun m i => <[i := minfo temp i]> m) curr
    (range 0 N)) p = minfo temp p); [|by apply Hall].
  apply (foldl_range_ind (fun k m => forall p, 0 <= p < k -> minfo m p = minfo temp p)); [lia|lia|].
  intros k m Hk IH q Hq. destruct (decide (q = k)) as [->|]; [apply minfo_insert|].
  rewrite minfo_insert_ne by done. apply IH. lia.
Qed.

Lemma find_mac_ext info info' (l : list Z) mac : (forall p, p ∈ l -> minfo info p = minfo info' p) ->
  find_mac info l mac = find_mac info' l mac.
Proof.
  intros Heq. unfold find_mac. induction l as [|p l IH]; [done|]. simpl.
  rewrite (Heq p) by (by apply elem_of_cons; left). destruct (_ =? _); [done|].
  apply IH. intros q Hq. apply Heq. by apply elem_of_cons; right.
Qed.

Lemma want_ext info info' n mac : (forall p, 0 <= p < N -> minfo info p = minfo info' p) ->
  want P n info mac = want P n info' mac.
Proof.
  intros Heq. unfold want. rewrite (find_mac_ext info info').
  - destruct (find_mac info' _ _) as [i|] eqn:Hf; [|done].
    apply find_mac_some in Hf as [Hi _]. by rewrite Heq.
  - intros p Hp. apply elem_of_range in Hp. by apply Heq.
Qed.

Lemma info_ok_ext info info' : (forall p, 0 <= p < N -> minfo info p = minfo info' p) ->
  info_ok P info' -> info_ok P info.
Proof.
  intros Heq [H1' H2]. split.
  - intros p Hp. cbv zeta. rewrite Heq by done. by apply H1'.
  - intros p q Hp Hq. rewrite !Heq by done. by apply H2.
Qed.

(** The enabled ports on an NBI that have an address, as a mask *)
Definition port_set (port_en_mask : Z) (mac_addrs : Z -> Z) (n a : Z) : Z :=
  foldl (fun m q => if enabled port_en_mask q && (mac_addrs q =? a) && on_nbi P n q
                    then Z.lor m (port_bit q) else m) 0 (range 0 N).

Lemma port_set_spec em macs n a : forall q, 0 <= q ->
  Z.testbit (port_set em macs n a) q = (q <? N) && enabled em q && (macs q =? a) && on_nbi P n q.
Proof.
  apply (foldl_range_ind (fun k m => forall q, 0 <= q ->
    Z.testbit m q = (q <? k) && enabled em q && (macs q =? a) && on_nbi P n q)); [unfold N; lia| |].
  - intros q Hq. rewrite Z.testbit_0_l. by destruct (Z.ltb_spec q 0); [lia|].
  - intros k m Hk IH q Hq.
    assert (Hb : forall q, 0 <= q -> Z.testbit (port_bit k) q = (q =? k)).
    { apply port_bit_spec. unfold N in Hk. lia. }
    destruct (enabled em k && (macs k =? a) && on_nbi P n k) eqn:Hc.
    + rewrite Z.lor_spec, IH, Hb by done. destruct (Z.eqb_spec q k) as [->|].
      * rewrite Z.ltb_irrefl, (proj2 (Z.ltb_lt _ _)) by lia. cbn. by rewrite Hc.
      * rewrite orb_false_r. by destruct (Z.ltb_spec q k), (Z.ltb_spec q (k + 1)); try lia.
    + rewrite IH by done. destruct (Z.ltb_spec q k), (Z.ltb_spec q (k + 1)); try lia; try done.
      assert (q = k) as -> by lia. cbn. by rewrite Hc.
Qed.

Lemma want_generated em macs info n a : 0 <= n < 2 ->
  (forall p, 0 <= p < N -> enabled em p = true -> macs p <> 0 /\ fits 48 (macs p)) ->
  generated P (enabled em) macs N info ->
  want P n info a = if truthy (port_set em macs n a)
                    then Some (Z.shiftl (port_set em macs n a) 8) else None.
Proof.
  intros Hn Hmac Hgen. pose proof (generated_ok _ _ _ Hgen Hmac) as Hok.
  assert (Hlive : forall i, 0 <= i < N -> enabled em i = true ->
    want P n info (macs i) = if truthy (port_set em macs n (macs i))
      then Some (Z.shiftl (port_set em macs n (macs i)) 8) else None).
  { intros i Hi Hen. specialize (Hgen i Hi). rewrite Hen in Hgen. destruct Hgen as [Hm Hmasks].
    rewrite <- Hm at 1. rewrite want_at by done. unfold wanted.
    assert (Heq : mask n (minfo info i) = port_set em macs n (macs i)).
    { apply Z.bits_inj'. intros q Hq. destruct (Hmasks n Hn) as [_ Hb].
      by rewrite Hb, port_set_spec by done. }
    destruct (Hmasks n Hn) as [Hfit _]. rewrite <- Heq. rewrite wrap_small; [done|].
    by apply fits_shiftl; [lia|]. }
  assert (Hempty : (forall i, 0 <= i < N -> enabled em i = true -> macs i <> a) ->
    port_set em macs n a = 0).
  { intros Hno. apply Z.bits_inj'. intros q Hq. rewrite port_set_spec, Z.testbit_0_l by done.
    destruct (Z.ltb_spec q N); [|done]. destruct (enabled em q) eqn:Hen; [|done].
    by rewrite (proj2 (Z.eqb_neq (macs q) a)) by (apply Hno; [lia|done]). }
  destruct (find_mac info (range 0 N) a) as [i|] eqn:Hf.
  - apply find_mac_some in Hf as [Hi Heq]. pose proof (Hgen i Hi) as Hg.
    destruct (enabled em i) eqn:Hen; [destruct Hg as [Hm _]; rewrite <- Heq, Hm; by apply Hlive|].
    rewrite Hg in Heq. cbn in Heq. subst a. rewrite want_zero by done. rewrite Hempty; [done|].
    intros j Hj Hj'. by apply Hmac.
  - rewrite Hempty; [apply want_none; by apply find_mac_none|].
    intros i Hi Hen Heq. specialize (Hgen i Hi). rewrite Hen in Hgen. destruct Hgen as [Hm _].
    apply (find_mac_none _ _ _ Hf i Hi). congruence.
Qed.

(** The static array describes the tables. *)
Definition in_sync (s : nic) : Prop :=
  info_ok P (curr_mac_addr s) /\ mac_tables_ok (nbi_mem s) /\
  forall n mac, 0 <= n < 2 -> fits 48 mac -> mac_table n s mac = want P n (curr_mac_addr s) mac.

(** The addresses of the enabled ports have 48 bits, and none of them is 0.  The
    code takes any address, but 0 is what generate_mac_match_info stores for a
    disabled port, and mac_match_table_update confuses the two
    (zero_mac_entry_stays, below). *)
Definition addrs_ok (port_en_mask : Z) (mac_addrs : Z -> Z) : Prop :=
  forall p, 0 <= p < N -> enabled port_en_mask p = true -> mac_addrs p <> 0 /\ fits 48 (mac_addrs p).

Lemma mac_table_curr f n s mac :
  mac_table n (s <| curr_mac_addr ::= f |>) mac = mac_table n s mac.
Proof. done. Qed.

Lemma run_update_match em macs idx s : fits 8 em -> addrs_ok em macs -> in_sync s ->
  exists err s', update_catamaran_mac_match_table P em macs idx s = Some (err, s') /\
    (err = 0 \/ err = -1) /\ mac_tables_ok (nbi_mem s') /\
    (forall p, 0 <= p < N -> minfo (curr_mac_addr s') p = minfo (generate_mac_match_info P em ∅ macs) p) /\
    (err = 0 -> in_sync s' /\ forall n a, 0 <= n < 2 -> fits 48 a ->
       mac_table n s' a = if truthy (port_set em macs n a)
                          then Some (Z.shiftl (port_set em macs n a) 8) else None).
Proof.
  intros Hem Hmac (Hcok & Htok & Hsync). unfold update_catamaran_mac_match_table.
  rewrite (wrap_small 8 em Hem). cbv zeta. set (temp := generate_mac_match_info P em ∅ macs).
  assert (Hgen : generated P (enabled em) macs N temp).
  { apply run_generate; [done|]. intros p Hp Hen. by apply Hmac. }
  pose proof (generated_ok _ _ _ Hgen Hmac) as Hnok. rewrite run_get.
  destruct (run_update P HN (curr_mac_addr s) temp idx s Hcok Hnok Htok Hsync)
    as (err & s1 & Hrun & [Honly Hok1] & Herr & Htab).
  erewrite run_some by exact Hrun. cbv beta. rewrite run_modify, run_ret_some.
  exists err, (s1 <| curr_mac_addr ::= copy_info P temp |>). split; [done|].
  assert (Hcurr : forall p, 0 <= p < N ->
    minfo (curr_mac_addr (s1 <| curr_mac_addr ::= copy_info P temp |>)) p = minfo temp p).
  { intros p Hp. st. by apply minfo_copy. }
  split; [done|]. split; [done|]. split; [exact Hcurr|]. intros He. split.
  - split; [by eapply info_ok_ext|]. split; [done|]. intros n mac Hn Hm.
    rewrite mac_table_curr, (Htab He n mac Hn Hm). symmetry. by apply want_ext.
  - intros n a Hn Ha. rewrite mac_table_curr, (Htab He n a Hn Ha). by apply want_generated.
Qed.

(** ** A call that changes nothing *)

Lemma find_mac_known info info' i : (forall p, 0 <= p < N -> minfo info p = minfo info' p) ->
  info_ok P info' -> 0 <= i < N ->
  exists j, find_mac info (range 0 (NS_PLATFORM_NUM_PORTS P)) (match_mac (minfo info' i)) = Some j /\
    minfo info j = minfo info' i.
Proof.
  intros Heq Hok Hi. destruct (find_mac info _ _) as [j|] eqn:Hf.
  - apply find_mac_some in Hf as [Hj Hm]. exists j. split; [done|]. rewrite Heq in * by done.
    by apply Hok.
  - exfalso. eapply (find_mac_none _ _ _ Hf i Hi). by rewrite Heq.
Qed.

Lemma run_update_same old new idx s : (forall p, 0 <= p < N -> minfo old p = minfo new p) ->
  info_ok P new -> mac_match_table_update P old new idx s = Some (0, s).
Proof.
  intros Heq Hok. pose proof (info_ok_ext old new Heq Hok) as Hoko. unfold mac_match_table_update.
  erewrite run_some.
  2:{ apply (for_fold_pure _ _ _ (fun err _ => err)). intros err k Hk.
      apply elem_of_range in Hk. unfold add_update_port. cbv zeta.
      destruct (_ && _)%bool; [done|]. destruct (find_mac new (range 0 k) _); [done|].
      destruct (find_mac_known old new k Heq Hok Hk) as (j & -> & ->).
      rewrite !Z.eqb_refl, !andb_false_r. done. }
  cbv beta. erewrite run_some.
  2:{ apply (for_each_total _ _ (fun s _ => s)). intros k s' Hk.
      apply elem_of_range in Hk. unfold remove_unused_port. cbv zeta.
      destruct (_ && _)%bool; [done|]. destruct (find_mac old (range 0 k) _); [done|].
      by destruct (find_mac_known new old k (fun p Hp => eq_sym (Heq p Hp)) Hoko Hk) as (j & -> & _). }
  cbv beta. rewrite run_ret_some. do 2 f_equal.
  - by induction (range 0 _).
  - by induction (range 0 _).
Qed.

(** C24: The MAC tables refine the configuration of the ports.  From tables that
    agree with what was configured last, a call that returns 0 leaves for each
    NBI and each address exactly the set of the enabled ports of that NBI that
    have the address, shifted by 8, and no entry when there is none; the static
    array again agrees with the tables.  It returns 0 or -1.  This holds as long
    as no enabled port has, or had in the call before, the address 0, which the
    code does not exclude: an entry for address 0 stays when its port is
    disabled, because the code then compares it with the zero that it keeps for
    disabled ports (zero_mac_entry_stays). *)
Theorem update_mac_match_refines em macs idx s :
  fits 8 em -> addrs_ok em macs -> in_sync s ->
  exists err s', update_catamaran_mac_match_table P em macs idx s = Some (err, s') /\
    (err = 0 \/ err = -1) /\
    (err = 0 -> in_sync s' /\ forall n a, 0 <= n < 2 -> fits 48 a ->
       mac_table n s' a = if truthy (port_set em macs n a)
                          then Some (Z.shiftl (port_set em macs n a) 8) else None).
Proof.
  intros Hem Hmac Hs.
  destruct (run_update_match em macs idx s Hem Hmac Hs) as (err & s' & Hrun & Herr & _ & _ & Hok).
  by exists err, s'.
Qed.

(** The static array is updated even when an address did not fit in its
    bucket: the same call again returns 0 and writes nothing, so the address
    stays missing although the second call reports success. *)
Theorem update_mac_match_forgets_error em macs idx idx' s :
  fits 8 em -> addrs_ok em macs -> in_sync s ->
  exists err s', update_catamaran_mac_match_table P em macs idx s = Some (err, s') /\
    exists s'', update_catamaran_mac_match_table P em macs idx' s' = Some (0, s'') /\
      nbi_mem s'' = nbi_mem s' /\ bus s'' = bus s' /\
      forall n a, mac_table n s'' a = mac_table n s' a.
Proof.
  intros Hem Hmac Hs.
  destruct (run_update_match em macs idx s Hem Hmac Hs) as (err & s' & Hrun & _ & _ & Hcurr & _).
  exists err, s'. split; [done|].
  assert (Hgen : info_ok P (generate_mac_match_info P em ∅ macs)).
  { eapply generated_ok; [|exact Hmac]. apply run_generate; [done|]. intros p Hp Hen. by apply Hmac. }
  exists (s' <| curr_mac_addr ::= copy_info P (generate_mac_match_info P em ∅ macs) |>).
  split; [|done]. unfold update_catamaran_mac_match_table. rewrite (wrap_small 8 em Hem). cbv zeta.
  rewrite run_get. erewrite run_some by (apply run_update_same; [exact Hcurr|exact Hgen]). done.
Qed.
End sync.

(** ** The start *)

Section start.
Context (B : build).
Context `{Devices, NbiPcRegs, ClsHash}.

Lemma run_port_entries port lo k : (k <= MAX_CHANNELS_PER_PORT)%nat -> forall s : nic,
  for_fold (range lo (lo + Z.of_nat k)) [] (fun entries (chan : Z) =>
    _ ← require (length entries <? MAX_CHANNELS_PER_PORT)%nat;
    mret (entries ++ [mk_chan2port (u8 port) CATAMARAN_CHAN_MODE_MAC_DA_MATCH])) s =
  Some (replicate k (mk_chan2port (u8 port) CATAMARAN_CHAN_MODE_MAC_DA_MATCH), s).
Proof.
  intros Hk s. set (e := mk_chan2port _ _).
  assert (Hgen : forall j lo acc, (length acc + j <= MAX_CHANNELS_PER_PORT)%nat ->
    for_fold (range lo (lo + Z.of_nat j)) acc (fun entries (chan : Z) =>
      _ ← require (length entries <? MAX_CHANNELS_PER_PORT)%nat;
      mret (entries ++ [e])) s = Some (acc ++ replicate j e, s)).
  { induction j as [|j IH]; intros l acc Hle.
    - rewrite range_nil by lia. cbn. by rewrite app_nil_r.
    - rewrite range_cons by lia. cbn [for_fold]. rewrite run_assoc.
      rewrite run_require by (apply Nat.ltb_lt; lia). rewrite run_ret.
      replace (l + Z.of_nat (S j)) with (l + 1 + Z.of_nat j) by lia.
      rewrite IH by (rewrite length_app; simpl; lia). by rewrite <- app_assoc. }
  by apply (Hgen k lo []).
Qed.

Let P := board B.

(** The ports below [k] have their channels. *)
Definition chans_done (k : Z) (s0 s : nic) : Prop :=
  tables_only s0 s /\
  forall p c, 0 <= p < k -> NS_PLATFORM_MAC_CHANNEL_LO P p <= c <= NS_PLATFORM_MAC_CHANNEL_HI P p ->
    chan_entry (NS_PLATFORM_MAC_CORE P p) c (nbi_mem s) =
    mk_chan2port p CATAMARAN_CHAN_MODE_MAC_DA_MATCH.

Definition one_block (Q : platform) (p : Z) : Prop :=
  NS_PLATFORM_MAC_CHANNEL_LO Q p / 8 = NS_PLATFORM_MAC_CHANNEL_HI Q p / 8 /\
  NS_PLATFORM_MAC_CORE Q p = NS_PLATFORM_MAC Q p.

#[export] Instance one_block_dec Q p : Decision (one_block Q p).
Proof. unfold one_block. apply _. Defined.

Lemma platform_one_block t p : 0 <= p < NS_PLATFORM_NUM_PORTS (platform_macros t) ->
  one_block (platform_macros t) p.
Proof. apply (all_ports_ind one_block). by vm_compute. Qed.

Lemma run_init_port k s0 s : 0 <= k < NS_PLATFORM_NUM_PORTS P -> chans_done k s0 s ->
  returns (entries ← for_fold (range (NS_PLATFORM_MAC_CHANNEL_LO P k) (NS_PLATFORM_MAC_CHANNEL_HI P k + 1)) []
      (fun entries chan =>
        _ ← require (length entries <? MAX_CHANNELS_PER_PORT)%nat;
        mret (entries ++ [mk_chan2port (u8 k) CATAMARAN_CHAN_MODE_MAC_DA_MATCH]));
    catamaran_chan2port_table_set (NS_PLATFORM_MAC_CORE P k)
      (NS_PLATFORM_MAC_CHANNEL_LO P k) (NS_PLATFORM_MAC_CHANNEL_HI P k) entries) s
    (fun _ s' => chans_done (k + 1) s0 s').
Proof.
  intros Hk [Honly Hdone].
  destruct (platform_channels _ k Hk) as (Hlo & Hhi & Hmax & Hdisj & _).
  destruct (platform_serdes _ k Hk) as (_ & Hcore & _).
  destruct (platform_one_block _ k Hk) as [Hblk _].
  pose proof (platform_num_ports (NS_PLATFORM_TYPE B)) as HN.
  change (platform_macros (NS_PLATFORM_TYPE B)) with P in Hlo, Hhi, Hmax, Hdisj, Hcore, Hblk, HN.
  set (lo := NS_PLATFORM_MAC_CHANNEL_LO P k) in *. set (hi := NS_PLATFORM_MAC_CHANNEL_HI P k) in *.
  replace (hi + 1) with (lo + Z.of_nat 4) by lia. unfold returns.
  erewrite run_some by (apply run_port_entries; unfold MAX_CHANNELS_PER_PORT; lia). cbv beta.
  rewrite (wrap_small 8 k) by (unfold fits; lia).
  set (entries := replicate 4 (mk_chan2port k CATAMARAN_CHAN_MODE_MAC_DA_MATCH)).
  destruct (run_chan_set (NS_PLATFORM_MAC_CORE P k) lo hi entries s) as (s' & Hrun & Ht & Hs & _);
    [lia|lia|change CATAMARAN_CHAN_NUM_CHANS with 128; lia|simpl; lia|].
  rewrite Hrun. split; [by transitivity s|]. intros p c Hp Hc.
  assert (Hpr : 0 <= p < NS_PLATFORM_NUM_PORTS P) by lia.
  destruct (platform_serdes _ p Hpr) as (_ & Hcorep & _).
  destruct (platform_channels _ p Hpr) as (Hlop & Hhip & Hmaxp & Hdisjp & _).
  change (platform_macros (NS_PLATFORM_TYPE B)) with P in Hcorep, Hlop, Hhip, Hmaxp, Hdisjp.
  rewrite Hs by (lia || (change CATAMARAN_CHAN_NUM_CHANS with 128; lia)).
  unfold last_configured. rewrite (decide_True (P := lo / 8 = hi / 8)) by exact Hblk.
  destruct (decide (p = k)) as [->|Hne].
  - rewrite decide_True by done. unfold nth_entry. fold lo in Hc |- *. fold hi in Hc.
    assert (Hnth : nth (Z.to_nat (0 + (c - lo))) entries (mk_chan2port 0 0) =
      mk_chan2port k CATAMARAN_CHAN_MODE_MAC_DA_MATCH).
    { apply nth_lookup_Some. subst entries. apply lookup_replicate_2. lia. }
    rewrite Hnth. unfold chan2port_u8. cbn [port port_mode]. change 0xFF with (Z.ones 8).
    rewrite Z.land_ones, Z.mod_small by lia. done.
  - rewrite decide_False; [by apply Hdone; [lia|]|]. intros [_ Hin].
    rewrite Forall_forall in Hdisjp.
    specialize (Hdisjp k (proj1 (list_elem_of_In _ _) (proj2 (elem_of_range _ _ _) Hk)) Hne).
    fold lo hi in Hdisjp. lia.
Qed.

(** After the start every channel of every port of every board has its port
    and the mode that matches MAC addresses, in the table of the NBI of that
    port; the array of 8 entries is long enough on every board. *)
Theorem init_chan2port_correct s :
  exists s', init_catamaran_chan2port_table P s = Some (tt, s') /\ tables_only s s' /\
    forall p c, 0 <= p < NS_PLATFORM_NUM_PORTS P ->
      NS_PLATFORM_MAC_CHANNEL_LO P p <= c <= NS_PLATFORM_MAC_CHANNEL_HI P p ->
      chan_entry (NS_PLATFORM_MAC P p) c (nbi_mem s') =
      mk_chan2port p CATAMARAN_CHAN_MODE_MAC_DA_MATCH.
Proof.
  set (N := NS_PLATFORM_NUM_PORTS P).
  assert (Hr : returns (init_catamaran_chan2port_table P) s (fun _ s' => chans_done N s s')).
  { unfold init_catamaran_chan2port_table. fold N.
    eapply returns_mono; [apply (returns_for_each (fun l s' => exists k, 0 <= k <= N /\
      l = range k N /\ chans_done k s s'))|].
    - exists 0. pose proof (platform_num_ports (NS_PLATFORM_TYPE B)) as HN.
      change (platform_macros (NS_PLATFORM_TYPE B)) with P in HN.
      split; [unfold N; lia|]. split; [done|]. split; [done|]. intros. lia.
    - intros x l s' (k & Hk & Hl & Ha). destruct (decide (k < N)) as [Hlt|];
        [|by rewrite range_nil in Hl by lia].
      rewrite range_cons in Hl by done. injection Hl as -> ->.
      eapply returns_mono; [apply run_init_port; [lia|exact Ha]|].
      intros [] s'' Ha'. exists (k + 1). split; [lia|]. done.
    - intros [] s' (k & Hk & Hl & Ha). destruct (decide (k < N)) as [Hlt|];
        [by rewrite range_cons in Hl by done|]. by replace N with k by lia. }
  apply returns_exists in Hr as ([] & s' & Hrun & Honly & Hd). exists s'.
  split; [exact Hrun|]. split; [exact Honly|].
  intros p c Hp Hc. destruct (platform_one_block _ p Hp) as [_ Hmac].
  change (platform_macros (NS_PLATFORM_TYPE B)) with P in Hmac. rewrite <- Hmac. by apply Hd.
Qed.
End start.

(** ** Witnesses *)

Section witnesses.
Import Ctm Demo.

Definition demo_macs (p : Z) : Z := if p =? 0 then 0x001122334455 else 0x001122334456.

Lemma demo_addrs : addrs_ok carbon_cfg 3 demo_macs.
Proof.
  intros p Hp _. unfold demo_macs. destruct (p =? 0); (split; [lia|split; by vm_compute]).
Qed.

(** Port 0 is enabled with the address 0, then disabled.  Both calls return 0,
    but the entry for address 0 stays in the table. *)
Lemma zero_mac_entry_stays :
  match update_catamaran_mac_match_table carbon_cfg 1 (fun _ => 0) 0 nic0 with
  | Some (err1, s1) =>
      match update_catamaran_mac_match_table carbon_cfg 0 (fun _ => 0) 0 s1 with
      | Some (err2, s2) => err1 = 0 /\ err2 = 0 /\ port_set carbon_cfg 0 (fun _ => 0) 0 0 = 0 /\
          mac_table 0 s2 0 = Some 0x100
      | None => False
      end
  | None => False
  end.
Proof. vm_compute. by repeat split. Qed.

Lemma demo_sync : in_sync carbon_cfg nic0.
Proof.
  split; [|split; [apply tables_empty|]].
  - split; [intros p _; by left|]. done.
  - intros n mac Hn Hm. unfold mac_table, want.
    assert (He : mac_bucket n (mac_hash nic0 mac) (nbi_mem nic0) = empty_bucket).
    { unfold mac_bucket. change (nbi_mem nic0) with (∅ : gmap (Z * Z) Z).
      by rewrite pc_entry_empty. }
    rewrite He. unfold bucket_get, empty_bucket.
    cbn [mac_addr0_hi mac_addr0_lo result0 mac_addr1_hi mac_addr1_lo result1].
    rewrite !slot_get_free. destruct (find_mac _ _ _) as [i|]; [|done].
    assert (Hi : minfo (curr_mac_addr nic0) i = no_match_info) by done.
    rewrite Hi. symmetry. apply wanted_empty.
Qed.

Lemma update_mac_match_refines_witness :
  in_sync carbon_cfg nic0 /\
  exists s', update_catamaran_mac_match_table carbon_cfg 3 demo_macs 0 nic0 = Some (0, s') /\
    mac_table 0 s' 0x001122334456 = Some 0x200.
Proof.
  assert (HN : 0 <= NS_PLATFORM_NUM_PORTS carbon_cfg <= 8) by (split; by vm_compute).
  split; [exact demo_sync|].
  destruct (update_mac_match_refines carbon_cfg HN 3 demo_macs 0 nic0 ltac:(split; by vm_compute)
    demo_addrs demo_sync) as (err & s' & Hrun & Herr & Hok).
  assert (He : err = 0).
  { apply (f_equal (fun x => default (-1) (fst <$> x))) in Hrun. by vm_compute in Hrun. }
  subst err. exists s'. split; [exact Hrun|].
  destruct (Hok eq_refl) as [_ Ht].
  rewrite (Ht 0 0x001122334456 ltac:(lia) ltac:(split; by vm_compute)). by vm_compute.
Defined.

Lemma update_mac_match_forgets_error_witness :
  in_sync carbon_cfg nic0 /\
  exists err s', update_catamaran_mac_match_table carbon_cfg 3 demo_macs 0 nic0 = Some (err, s') /\
    exists s'', update_catamaran_mac_match_table carbon_cfg 3 demo_macs 1 s' = Some (0, s'').
Proof.
  assert (HN : 0 <= NS_PLATFORM_NUM_PORTS carbon_cfg <= 8) by (split; by vm_compute).
  split; [exact demo_sync|].
  destruct (update_mac_match_forgets_error carbon_cfg HN 3 demo_macs 0 1 nic0
    ltac:(split; by vm_compute) demo_addrs demo_sync) as (err & s' & Hrun & s'' & Hrun2 & _).
  exists err, s'. split; [exact Hrun|]. exists s''. exact Hrun2.
Defined.
End witnesses.
