(* ===== verification/Trng.v ===== *)
(** * The random number generator: apps/nic/trng.c

    [trng_init] sets the generator of the own island up over the XPB bus and
    [trng_rd64] reads 64 random bits through the cluster scratch. *)

From S2P Require Import Prelude Platform UserCfg Nfd Machine Bus.

(** What the hardware gives: the status register with the number of the island,
    and the words that a read of the generator returns. *)
Class Trng := {
  active_ctx_sts : Z;
  trng_data : list bus_event -> Z * Z
}.

Definition TRNG_ASYNC_RING : Z := 0x00.
Definition TRNG_ASYNC_TEST : Z := 0x04.
Definition TRNG_ASYNC_CMD : Z := 0x08.
Definition TRNG_ASYNC_CFG : Z := 0x10.
Definition TRNG_LFSR_CFG : Z := 0x20.
Definition TRNG_WHITEN_CONTROL : Z := 0x24.
Definition TRNG_WHITEN_CONFIG : Z := 0x28.
Definition TRNG_MON_PERIOD : Z := 0x30.
Definition TRNG_MON_ONES_MIN : Z := 0x38.
Definition TRNG_MON_ONES_MAX : Z := 0x3c.
Definition TRNG_MON_MAX_RUN_LEN : Z := 0x40.
Definition TRNG_LOCK : Z := 0x50.
Definition TRNG_ALERT : Z := 0x54.

Definition CLS_TRNG_XPB_DEVICE_ID : Z := 12.
Definition CLS_PERIPHERAL_TRNG_DATA : Z := 0x60000.

Section trng.
Context `{Devices, Trng}.

(** The address of the generator: the island is in bits 30..25 of the status. *)
Definition r_xpb_address : Z :=
  let r_cl_num := Z.land 0x3F (Z.shiftr active_ctx_sts 25) in
  u32 (Z.lor (Z.lor (Z.shiftl CLS_TRNG_XPB_DEVICE_ID 16) (Z.shiftl 1 31)) (Z.shiftl r_cl_num 24)).

(** [ct[xpb_write, xfr_wr[0], r_xpb_address, reg, 1]] *)
Definition trng_write (reg v : Z) : C unit := xpb_write (r_xpb_address + reg) v.

Definition trng_init : C unit :=
  _ ← trng_write TRNG_ASYNC_CMD 2;
  _ ← sleep 5;
  _ ← trng_write TRNG_ASYNC_CMD 1;
  _ ← sleep 5;
  _ ← trng_write TRNG_ASYNC_RING 0x87;
  _ ← trng_write TRNG_ASYNC_TEST 0x1;
  _ ← trng_write TRNG_ASYNC_CFG (Z.shiftl 0xff00 16);
  _ ← trng_write TRNG_LFSR_CFG (Z.lor 0x0AAF (Z.shiftl 1 28));
  _ ← trng_write TRNG_WHITEN_CONTROL (Z.lor 0x2 (Z.shiftl 4 28));
  _ ← trng_write TRNG_WHITEN_CONFIG 0x83388338;
  _ ← trng_write TRNG_MON_PERIOD 2000;
  _ ← trng_write TRNG_MON_ONES_MIN 450;
  _ ← trng_write TRNG_MON_ONES_MAX 550;
  _ ← trng_write TRNG_MON_MAX_RUN_LEN (Z.shiftl 64 16);
  _ ← trng_write TRNG_ASYNC_CMD 6;
  _ ← sleep 200;
  _ ← xpb_read (r_xpb_address + TRNG_ALERT);
  _ ← sleep 400000;
  emit (ClsPeriphWrite CLS_PERIPHERAL_TRNG_DATA [0; 0]).

(** [cls_read] of two words of the generator *)
Definition trng_cls_read : C (Z * Z) :=
  xfr ← get (fun s => trng_data (bus s));
  _ ← emit (ClsPeriphRead CLS_PERIPHERAL_TRNG_DATA [xfr.1; xfr.2]);
  mret xfr.

(** The loop ends only when both words are not 0; the fuel bounds its reads.
    The result is the pair of [trng_hi] and [trng_lo]. *)
Fixpoint trng_rd64 (fuel : nat) : C (Z * Z) :=
  match fuel with
  | O => undefined
  | S fuel =>
      xfr ← trng_cls_read;
      if (xfr.1 =? 0) || (xfr.2 =? 0) then trng_rd64 fuel
      else mret (xfr.2, xfr.1)
  end.

(** * Properties *)

(** ** Setting the generator up *)

(** The value last written to a register, if it was written *)
Fixpoint reg_written (reg : Z) (h : list bus_event) : option Z :=
  match h with
  | [] => None
  | XpbWrite a v :: h => if a =? r_xpb_address + reg then Some v else reg_written reg h
  | _ :: h => reg_written reg h
  end.

Definition no_write (e : bus_event) : Prop := match e with XpbWrite _ _ => False | _ => True end.

(** What each register is set to: the oscillator with static feedback, the
    first seed, the reseeding by XOR, the whitener with its mapping, and the
    limits of the monitor. *)
Definition trng_config : list (Z * Z) :=
  [(TRNG_ASYNC_RING, 0x87); (TRNG_ASYNC_TEST, 1); (TRNG_ASYNC_CFG, 0xff000000);
   (TRNG_LFSR_CFG, 0x10000AAF); (TRNG_WHITEN_CONTROL, 0x40000002);
   (TRNG_WHITEN_CONFIG, 0x83388338); (TRNG_MON_PERIOD, 2000); (TRNG_MON_ONES_MIN, 450);
   (TRNG_MON_ONES_MAX, 550); (TRNG_MON_MAX_RUN_LEN, 0x400000)].

Lemma base_eqb x y : (r_xpb_address + x =? r_xpb_address + y) = (x =? y).
Proof. destruct (Z.eqb_spec x y) as [->|]; [apply Z.eqb_refl|]. apply Z.eqb_neq. lia. Qed.

Lemma run_trng_write {A} reg v (k : unit -> C A) h s : fits 32 v ->
  (trng_write reg v ≫= k) (with_bus h s) = k tt (with_bus (XpbWrite (r_xpb_address + reg) v :: h) s).
Proof. intros Hv. erewrite run_some by by apply run_xpb_write. done. Qed.

(** Setting the generator up configures every register after the reset and
    before the command that starts it; after the start no register is written
    any more, at least 400000 cycles pass, and then the data is cleared.  The
    lock register and the alert register are never written, although steps 11
    and 12 of the procedure in the comment ask for it. *)
Theorem trng_init_correct s :
  exists before after,
    trng_init s = Some (tt, with_bus (ClsPeriphWrite CLS_PERIPHERAL_TRNG_DATA [0; 0] :: after ++
      XpbWrite (r_xpb_address + TRNG_ASYNC_CMD) 6 :: before ++ bus s) s) /\
    Forall (fun rv => reg_written rv.1 before = Some rv.2) trng_config /\
    reg_written TRNG_ASYNC_CMD before = Some 1 /\
    Forall no_write after /\ 400000 <= slept after /\
    reg_written TRNG_LOCK before = None /\ reg_written TRNG_ALERT before = None.
Proof.
  eexists [_; _; _; _; _; _; _; _; _; _; _; _; _; _], [_; _; _].
  split; [|split; [|split; [|split; [|split]]]].
  - rewrite <- (with_bus_self s) at 1. unfold trng_init, sleep.
    repeat first
      [ rewrite run_trng_write by (split; by vm_compute)
      | rewrite run_emit_bind
      | rewrite (run_some _ _ _ _ _ (run_xpb_read _ _ _)) ].
    rewrite run_emit. done.
  - unfold trng_config. repeat constructor; cbn [fst snd reg_written]; by rewrite ?base_eqb.
  - cbn [reg_written]. by rewrite ?base_eqb.
  - repeat constructor.
  - cbn [slept foldr]. lia.
  - cbn [reg_written]. by rewrite ?base_eqb.
Qed.

(** ** Reading *)

(** The history after [n] reads in a row *)
Fixpoint after_reads (n : nat) (h : list bus_event) : list bus_event :=
  match n with
  | O => h
  | S n => let h := after_reads n h in
      ClsPeriphRead CLS_PERIPHERAL_TRNG_DATA [(trng_data h).1; (trng_data h).2] :: h
  end.

(** Random bits are there: no word is 0. *)
Definition ready (h : list bus_event) : bool :=
  negb ((trng_data h).1 =? 0) && negb ((trng_data h).2 =? 0).

Lemma after_reads_first n h : after_reads n (after_reads 1 h) = after_reads (S n) h.
Proof. induction n as [|n IH]; [done|]. cbn [after_reads] in *. by rewrite IH. Qed.

Lemma run_trng_cls_read h s : trng_cls_read (with_bus h s) =
  Some (trng_data h, with_bus (ClsPeriphRead CLS_PERIPHERAL_TRNG_DATA [(trng_data h).1; (trng_data h).2] :: h) s).
Proof. unfold trng_cls_read. rewrite run_get. by erewrite run_some by apply run_emit. Qed.

Lemma run_trng_rd64_S fuel h s : trng_rd64 (S fuel) (with_bus h s) =
  if ready h then Some (((trng_data h).2, (trng_data h).1), with_bus (after_reads 1 h) s)
  else trng_rd64 fuel (with_bus (after_reads 1 h) s).
Proof.
  cbn [trng_rd64 after_reads]. erewrite run_some by apply run_trng_cls_read. cbv beta.
  unfold ready. by destruct (_ =? 0), (_ =? 0).
Qed.

(** The result for every number of reads allowed: nothing when no read before
    that finds both words, otherwise the first one that does. *)
Lemma run_trng_rd64 n : forall fuel h s,
  (forall m, (m < n)%nat -> ready (after_reads m h) = false) ->
  trng_rd64 fuel (with_bus h s) =
  if (fuel <=? n)%nat then None
  else trng_rd64 (fuel - n) (with_bus (after_reads n h) s).
Proof.
  induction n as [|n IH]; intros fuel h s Hno.
  - destruct fuel; [done|]. by rewrite Nat.sub_0_r.
  - destruct fuel as [|fuel]; [done|]. rewrite run_trng_rd64_S.
    rewrite (Hno 0%nat ltac:(lia) : ready h = false). rewrite IH.
    + change (S fuel <=? S n)%nat with (fuel <=? n)%nat. change (S fuel - S n)%nat with (fuel - n)%nat.
      by rewrite after_reads_first.
    + intros m Hm. rewrite after_reads_first. apply (Hno (S m)). lia.
Qed.

Lemma first_ready h : (exists n, ready (after_reads n h) = true) ->
  exists n, ready (after_reads n h) = true /\
    forall m, (m < n)%nat -> ready (after_reads m h) = false.
Proof.
  intros [n Hn]. revert Hn. induction (lt_wf n) as [n _ IH]. intros Hn.
  destruct (decide (Forall (fun m => ready (after_reads m h) = false) (seq 0 n))) as [Hall|Hex].
  - exists n. split; [done|]. intros m Hm. rewrite Forall_forall in Hall. apply Hall, in_seq. lia.
  - apply not_Forall_Exists, Exists_exists in Hex as (m & Hm & Hr); [|apply _].
    apply in_seq in Hm. apply (IH m); [lia|]. by apply not_false_is_true.
Qed.

(** When the generator gives two words that are not 0 after some number of
    reads, [trng_rd64] returns: with the first such words, after that many
    reads, whatever the bound on the reads is above that number; until then it
    goes on reading, and it changes nothing. *)
Theorem trng_rd64_returns s : (exists n, ready (after_reads n (bus s)) = true) ->
  exists n hi lo,
    (forall m, (m < n)%nat -> ready (after_reads m (bus s)) = false) /\
    trng_data (after_reads n (bus s)) = (lo, hi) /\ hi <> 0 /\ lo <> 0 /\
    forall fuel, trng_rd64 fuel s =
      if (fuel <=? n)%nat then None else Some ((hi, lo), with_bus (after_reads (S n) (bus s)) s).
Proof.
  intros (n & Hn & Hfirst)%first_ready.
  exists n, (trng_data (after_reads n (bus s))).2, (trng_data (after_reads n (bus s))).1.
  split; [done|]. split; [by destruct (trng_data _)|].
  pose proof Hn as (Hlo & Hhi)%andb_true_iff.
  split; [by intros Hz; rewrite Hz in Hhi|]. split; [by intros Hz; rewrite Hz in Hlo|].
  intros fuel. rewrite <- (with_bus_self s) at 1. rewrite (run_trng_rd64 n) by done.
  destruct (Nat.leb_spec fuel n); [done|].
  replace (fuel - n)%nat with (S (fuel - n - 1)) by lia. by rewrite run_trng_rd64_S, Hn.
Qed.
End trng.

(** ** Witnesses *)

Section witnesses.
Import Demo.

(** A generator on island 33 that has its first data at the third read. *)
#[local] Instance third_read : Trng := {|
  active_ctx_sts := Z.shiftl 33 25;
  trng_data h := match h with _ :: _ :: _ => (0x12345678, 0x9abcdef0) | _ => (0, 7) end
|}.

Lemma trng_rd64_returns_witness :
  ready (after_reads 2 (bus nic0)) = true /\
  exists n hi lo,
    (forall m, (m < n)%nat -> ready (after_reads m (bus nic0)) = false) /\
    trng_data (after_reads n (bus nic0)) = (lo, hi) /\ hi <> 0 /\ lo <> 0 /\
    forall fuel, trng_rd64 fuel nic0 =
      if (fuel <=? n)%nat then None else Some ((hi, lo), with_bus (after_reads (S n) (bus nic0)) nic0).
Proof.
  split; [reflexivity|]. apply (trng_rd64_returns nic0). exists 2%nat. reflexivity.
Defined.
End witnesses.
