(* ===== verification/Link.v ===== *)
(** * MAC and traffic manager registers: lib/link_state

    link_ctrl.c enables and disables the receivers, the transmit flush and the
    traffic manager queues of the Ethernet ports; link_state.c reads the state
    of the links.  Both reach the devices over the XPB bus, and the MAC
    configuration registers are written by another engine on request.  Every
    access is recorded in [bus], and what a register read returns is a
    function of that history. *)

From S2P Require Import Prelude Platform UserCfg Nfd Machine Bus.

(** ** Registers of the devices: nfp6000/nfp_mac.h, nfp_nbi_tm.h and
    nfp_mac_csr_synch.h *)

Class Xpb := {
  NFP_MAC_XPB_OFF : Z -> Z;
  NFP_MAC_ETH : Z -> Z;
  NFP_MAC_ETH_SEG_CMD_CONFIG : Z -> Z;
  NFP_MAC_ETH_SEG_CMD_CONFIG_RX_ENABLE : Z;
  NFP_MAC_ETH_SEG_CMD_CONFIG_TX_FLUSH : Z;
  NFP_MAC_CSR : Z;
  NFP_MAC_CSR_EQ_INH : Z;
  NFP_MAC_CSR_EQ_INH_DONE : Z;
  NFP_MAC_ETH_SEG_STS : Z -> Z;
  NFP_MAC_ETH_SEG_STS_PHY_LOS : Z;
  NFP_MAC_ETH_SEG_STS_RX_REMOTE_FAULT : Z;
  NFP_MAC_ETH_SEG_STS_RX_LOCAL_FAULT : Z;
  NFP_MAC_ETH_SEG_SGMII_PCS_STS : Z -> Z;
  NFP_MAC_ETH_SEG_SGMII_PCS_STS_LINK_STS : Z;
  NFP_MAC_ETH_CHAN_PCS_SEG : Z -> Z;
  NFP_MAC_ETH_CHAN_PCS_STS1 : Z;
  NFP_MAC_ETH_CHAN_PCS_STS1_ETH_PCS_RCV_LINK_STS : Z;
  NFP_NBI_TM_XPB_OFF : Z -> Z;
  NFP_NBI_TM_QUEUE_REG : Z;
  NFP_NBI_TM_QUEUE_CONFIG : Z -> Z;
  NFP_NBI_TM_QUEUE_CONFIG_QUEUEENABLE : Z;
  ARB_CLS_BASE_ADDR_Hi32 : Z;
  ARB_CLS_RING_NUM : Z;
  ARB_CODE_ETH_CMD_CFG_RECACHE : Z;
  ARB_CODE_ETH_CMD_CFG_DISABLE_RX : Z;
  ARB_CODE_ETH_CMD_CFG_ENABLE_RX : Z;
  ARB_CODE_ETH_CMD_CFG_DISABLE_FLUSH : Z;
  ARB_CODE_ETH_CMD_CFG_ENABLE_FLUSH : Z;
  ARB_ME_ISLAND : Z;
  ARB_ME_ID : Z;
  ARB_FW_DEBUG_MBOX : Z;
  ARB_FW_KICKSTART_MBOX : Z;
  ARB_FW_QUIESCE_MBOX : Z;
  ARB_FW_KICKSTART : Z;
  ARB_RESUME : Z;
  local_csr_mailbox_0 : Z;
  local_csr_mailbox_1 : Z;
  local_csr_mailbox_2 : Z;
  local_csr_mailbox_3 : Z
}.

(** The length of the poll on the inhibit done register is up to the MAC. *)
Definition MAX_ETH_PORTS_PER_MAC_CORE : Z := 12.
Definition MAX_MAC_CORES_PER_MAC_ISL : Z := 2.
Definition MAX_MAC_ISLANDS_PER_NFP : Z := 2.
Definition MAX_ETH_PORTS_PER_MAC_ISL : Z :=
  MAX_ETH_PORTS_PER_MAC_CORE * MAX_MAC_CORES_PER_MAC_ISL.
Definition MAX_NBI_ISLANDS_PER_NFP : Z := 2.
Definition MAX_TM_QUEUES_PER_NBI_ISL : Z := 1024.
Definition LINK_CTRL_SYNC_CMD_ID : Z := 1.
Definition MAX_NUM_MBOXES : Z := 4.

Definition MAC_CORE_PORT_TO_MAC_PORT (core core_port : Z) : Z :=
  core * MAX_ETH_PORTS_PER_MAC_CORE + core_port.

Definition LINK_CTRL_SYNC_CMD (isl core core_port cmd_code recache : Z) : Z :=
  Z.lor (Z.lor (Z.lor (Z.lor (Z.lor
    (Z.shiftl LINK_CTRL_SYNC_CMD_ID 24) (Z.shiftl (Z.land recache 1) 16))
    (Z.shiftl (Z.land isl 1) 15)) (Z.shiftl (Z.land core 1) 14))
    (Z.shiftl (Z.land core_port 0x3f) 8)) (Z.shiftl (Z.land cmd_code 0xff) 0).

Inductive link_state : Set := LINK_DOWN | LINK_UP.

Definition ls2z (l : link_state) : Z := match l with LINK_DOWN => 0 | LINK_UP => 1 end.

#[export] Instance link_state_eq_dec : EqDecision link_state.
Proof. solve_decision. Defined.

(** [ETH_PORT_TO_MAC_CORE], [ETH_PORT_TO_MAC_CORE_PORT] *)
Definition ETH_PORT_TO_MAC_CORE (p : Z) : Z :=
  if p <? MAX_ETH_PORTS_PER_MAC_CORE then 0 else 1.
Definition ETH_PORT_TO_MAC_CORE_PORT (p : Z) : Z := p mod MAX_ETH_PORTS_PER_MAC_CORE.

Section link.
Context `{Devices, Xpb}.

(** ** link_ctrl.c *)

Definition MAC_CONF_ADDR (isl core core_port : Z) : Z :=
  Z.lor (Z.lor (NFP_MAC_XPB_OFF isl) (NFP_MAC_ETH core)) (NFP_MAC_ETH_SEG_CMD_CONFIG core_port).
Definition MAC_EQ_INH_ADDR (isl : Z) : Z :=
  Z.lor (Z.lor (NFP_MAC_XPB_OFF isl) NFP_MAC_CSR) NFP_MAC_CSR_EQ_INH.
Definition MAC_EQ_INH_DONE_ADDR (isl : Z) : Z :=
  Z.lor (Z.lor (NFP_MAC_XPB_OFF isl) NFP_MAC_CSR) NFP_MAC_CSR_EQ_INH_DONE.
Definition NBI_TM_Q_CFG_ADDR (isl q : Z) : Z :=
  Z.lor (Z.lor (NFP_NBI_TM_XPB_OFF isl) NFP_NBI_TM_QUEUE_REG) (NFP_NBI_TM_QUEUE_CONFIG q).

Definition mailbox_addr (mbox_num : Z) : Z :=
  if mbox_num =? 0 then local_csr_mailbox_0
  else if mbox_num =? 1 then local_csr_mailbox_1
  else if mbox_num =? 2 then local_csr_mailbox_2
  else if mbox_num =? 3 then local_csr_mailbox_3
  else 0xffffffff.

Definition issue_sync_me_cmd (mac_isl mac_core mac_core_port cmd_code force_recache : Z) : C unit :=
  emit (SyncCmd ARB_CLS_BASE_ADDR_Hi32 (u32 (Z.shiftl ARB_CLS_RING_NUM 2))
    (u32 (LINK_CTRL_SYNC_CMD mac_isl mac_core mac_core_port cmd_code force_recache))).

(** The assertions on the three parameters. *)
Definition mac_params_ok (mac_isl mac_core mac_core_port : Z) : bool :=
  (mac_isl <? MAX_MAC_ISLANDS_PER_NFP) && (mac_core <? MAX_MAC_CORES_PER_MAC_ISL) &&
  (mac_core_port <? MAX_ETH_PORTS_PER_MAC_CORE).

Definition mac_csr_sync_recache (mac_isl mac_core mac_core_port : Z) : C unit :=
  _ ← require (mac_params_ok mac_isl mac_core mac_core_port);
  issue_sync_me_cmd mac_isl mac_core mac_core_port ARB_CODE_ETH_CMD_CFG_RECACHE 0.

Definition mac_csr_sync_start (disable_gpio_poll : Z) : C unit :=
  _ ← remote_csr_write ARB_ME_ISLAND ARB_ME_ID (mailbox_addr ARB_FW_DEBUG_MBOX) disable_gpio_poll;
  _ ← remote_csr_write ARB_ME_ISLAND ARB_ME_ID (mailbox_addr ARB_FW_KICKSTART_MBOX)
        ARB_FW_KICKSTART;
  remote_csr_write ARB_ME_ISLAND ARB_ME_ID (mailbox_addr ARB_FW_QUIESCE_MBOX) ARB_RESUME.

Definition mac_eth_check_rx_enable (mac_isl mac_core mac_core_port : Z) : C Z :=
  _ ← require (mac_params_ok mac_isl mac_core mac_core_port);
  mac_conf ← xpb_read (MAC_CONF_ADDR mac_isl mac_core mac_core_port);
  mret (b2z (has mac_conf NFP_MAC_ETH_SEG_CMD_CONFIG_RX_ENABLE)).

(** [do ... while (mac_inhibit_done != mac_port_mask)], at most [fuel] times *)
Fixpoint poll_inhibit_done (fuel : nat) (addr mask : Z) : C unit :=
  match fuel with
  | O => undefined
  | S fuel =>
      mac_inhibit_done ← xpb_read addr;
      if Z.land mac_inhibit_done mask =? mask then mret tt else poll_inhibit_done fuel addr mask
  end.

Definition rx_port_mask (mac_core mac_core_port num_lanes : Z) : Z :=
  u32 (Z.shiftl (Z.shiftl 1 num_lanes - 1) (MAC_CORE_PORT_TO_MAC_PORT mac_core mac_core_port)).

(** The loop that waits for the receiver to be off, with the index at which
    it breaks. *)
Definition check_rx_off (TCLK mac_isl mac_core mac_core_port i : Z) : C (option Z) :=
  on ← mac_eth_check_rx_enable mac_isl mac_core mac_core_port;
  if negb (truthy on) then mret (Some i)
  else _ ← sleep (10 * TCLK * 1000); mret None.

Definition wait_rx_off (TCLK mac_isl mac_core mac_core_port : Z) : C (option Z) :=
  for_ret (range 0 10) (check_rx_off TCLK mac_isl mac_core mac_core_port).

Definition mac_eth_disable_rx (TCLK : Z) (fuel : nat)
    (mac_isl mac_core mac_core_port num_lanes : Z) : C Z :=
  _ ← require (mac_params_ok mac_isl mac_core mac_core_port);
  _ ← require (u32 (mac_core_port + num_lanes - 1) <? MAX_ETH_PORTS_PER_MAC_CORE);
  let mac_inhibit_addr := MAC_EQ_INH_ADDR mac_isl in
  let mac_port_mask := rx_port_mask mac_core mac_core_port num_lanes in
  mac_inhibit ← xpb_read mac_inhibit_addr;
  let mac_inhibit := Z.lor mac_inhibit mac_port_mask in
  _ ← xpb_write mac_inhibit_addr mac_inhibit;
  _ ← poll_inhibit_done fuel (MAC_EQ_INH_DONE_ADDR mac_isl) mac_port_mask;
  _ ← issue_sync_me_cmd mac_isl mac_core mac_core_port ARB_CODE_ETH_CMD_CFG_DISABLE_RX 0;
  i ← wait_rx_off TCLK mac_isl mac_core mac_core_port;
  let mac_inhibit := Z.land mac_inhibit (u32 (Z.lnot mac_port_mask)) in
  _ ← xpb_write mac_inhibit_addr mac_inhibit;
  mret (b2z (default 10 i <? 10)).

Definition mac_eth_enable_rx (mac_isl mac_core mac_core_port : Z) : C unit :=
  _ ← require (mac_params_ok mac_isl mac_core mac_core_port);
  issue_sync_me_cmd mac_isl mac_core mac_core_port ARB_CODE_ETH_CMD_CFG_ENABLE_RX 0.

Definition mac_eth_check_tx_flush_enable (mac_isl mac_core mac_core_port : Z) : C Z :=
  _ ← require (mac_params_ok mac_isl mac_core mac_core_port);
  mac_conf ← xpb_read (MAC_CONF_ADDR mac_isl mac_core mac_core_port);
  mret (b2z (has mac_conf NFP_MAC_ETH_SEG_CMD_CONFIG_TX_FLUSH)).

Definition mac_eth_disable_tx_flush (mac_isl mac_core mac_core_port : Z) : C unit :=
  _ ← require (mac_params_ok mac_isl mac_core mac_core_port);
  issue_sync_me_cmd mac_isl mac_core mac_core_port ARB_CODE_ETH_CMD_CFG_DISABLE_FLUSH 0.

Definition mac_eth_enable_tx_flush (mac_isl mac_core mac_core_port : Z) : C unit :=
  _ ← require (mac_params_ok mac_isl mac_core mac_core_port);
  issue_sync_me_cmd mac_isl mac_core mac_core_port ARB_CODE_ETH_CMD_CFG_ENABLE_FLUSH 0.

Definition tm_params_ok (nbi_isl tm_q : Z) : bool :=
  (nbi_isl <? MAX_NBI_ISLANDS_PER_NFP) && (tm_q <? MAX_TM_QUEUES_PER_NBI_ISL).

Definition nbi_tm_disable_queue (nbi_isl tm_q : Z) : C unit :=
  _ ← require (tm_params_ok nbi_isl tm_q);
  tm_q_cfg ← xpb_read (NBI_TM_Q_CFG_ADDR nbi_isl tm_q);
  xpb_write (NBI_TM_Q_CFG_ADDR nbi_isl tm_q)
    (Z.land tm_q_cfg (u32 (Z.lnot NFP_NBI_TM_QUEUE_CONFIG_QUEUEENABLE))).

Definition nbi_tm_enable_queue (nbi_isl tm_q : Z) : C unit :=
  _ ← require (tm_params_ok nbi_isl tm_q);
  tm_q_cfg ← xpb_read (NBI_TM_Q_CFG_ADDR nbi_isl tm_q);
  xpb_write (NBI_TM_Q_CFG_ADDR nbi_isl tm_q) (Z.lor tm_q_cfg NFP_NBI_TM_QUEUE_CONFIG_QUEUEENABLE).

(** ** link_state.c *)

Definition mac_eth_port_link_state (mac_isl eth_port is_1ge : Z) : C link_state :=
  _ ← require ((mac_isl <? MAX_MAC_ISLANDS_PER_NFP) && (eth_port <? MAX_ETH_PORTS_PER_MAC_ISL));
  let mac_core := ETH_PORT_TO_MAC_CORE eth_port in
  let mac_core_port := ETH_PORT_TO_MAC_CORE_PORT eth_port in
  let base := Z.lor (NFP_MAC_XPB_OFF mac_isl) (NFP_MAC_ETH mac_core) in
  r ← xpb_read (Z.lor base (NFP_MAC_ETH_SEG_STS mac_core_port));
  let eth_status := Z.land r (Z.lor (Z.lor NFP_MAC_ETH_SEG_STS_PHY_LOS
    NFP_MAC_ETH_SEG_STS_RX_REMOTE_FAULT) NFP_MAC_ETH_SEG_STS_RX_LOCAL_FAULT) in
  pcs_status ←
    (if truthy is_1ge then
      r ← xpb_read (Z.lor base (NFP_MAC_ETH_SEG_SGMII_PCS_STS mac_core_port));
      mret (Z.land r NFP_MAC_ETH_SEG_SGMII_PCS_STS_LINK_STS)
    else
      r ← xpb_read (Z.lor (Z.lor base (NFP_MAC_ETH_CHAN_PCS_SEG mac_core_port))
            NFP_MAC_ETH_CHAN_PCS_STS1);
      mret (Z.land r NFP_MAC_ETH_CHAN_PCS_STS1_ETH_PCS_RCV_LINK_STS));
  mret (if negb (truthy eth_status) && truthy pcs_status then LINK_UP else LINK_DOWN).

Definition mac_eth_island_link_state (mac_isl eth_port_mask is_1ge_mask : Z) : C Z :=
  _ ← require (mac_isl <? MAX_MAC_ISLANDS_PER_NFP);
  for_fold (range 0 MAX_ETH_PORTS_PER_MAC_ISL) 0 (fun link_state_mask link =>
    if has eth_port_mask (Z.shiftl 1 link) then
      let is_1ge := Z.land (Z.shiftr is_1ge_mask link) 0x1 in
      ls ← mac_eth_port_link_state mac_isl link is_1ge;
      mret (if decide (ls = LINK_UP) then Z.lor link_state_mask (Z.shiftl 1 link)
            else link_state_mask)
    else mret link_state_mask).

(** The arrays are in local memory, one word for each island. *)
Definition mac_eth_all_link_state (eth_port_mask link_state_mask is_1ge_mask : list Z)
    (num_mac_islands : Z) : C (list Z) :=
  _ ← require (num_mac_islands <=? MAX_MAC_ISLANDS_PER_NFP);
  for_fold (range 0 num_mac_islands) link_state_mask (fun link_state_mask mac_isl =>
    ports ← of_option (eth_port_mask !! Z.to_nat mac_isl);
    is_1ge ← of_option (is_1ge_mask !! Z.to_nat mac_isl);
    _ ← of_option (link_state_mask !! Z.to_nat mac_isl);
    m ← mac_eth_island_link_state mac_isl ports is_1ge;
    mret (<[Z.to_nat mac_isl := m]> link_state_mask)).
End link.

(** * Properties *)

(** Time the MAC takes to inhibit: once the inhibit register is written and the
    done register read [lat] times, the done register has the bits written. *)
Definition inhibit_acks `{Devices, Xpb} (lat : nat) : Prop := forall isl m h polls,
  fits 32 m -> (lat <= length polls)%nat ->
  Forall (fun e => exists v, e = XpbRead (MAC_EQ_INH_DONE_ADDR isl) v) polls ->
  Z.land m (u32 (xpb_dev (polls ++ XpbWrite (MAC_EQ_INH_ADDR isl) m :: h)
    (MAC_EQ_INH_DONE_ADDR isl))) = m.

Section proofs.
Context `{Devices, Xpb}.

Lemma mac_params_ok_true isl core port :
  isl < 2 -> core < 2 -> port < 12 -> mac_params_ok isl core port = true.
Proof.
  intros. unfold mac_params_ok, MAX_MAC_ISLANDS_PER_NFP, MAX_MAC_CORES_PER_MAC_ISL,
    MAX_ETH_PORTS_PER_MAC_CORE. by rewrite !(proj2 (Z.ltb_lt _ _)) by done.
Qed.

Lemma run_check_rx_enable isl core port h s :
  isl < 2 -> core < 2 -> port < 12 ->
  mac_eth_check_rx_enable isl core port (with_bus h s) =
    let v := u32 (xpb_dev h (MAC_CONF_ADDR isl core port)) in
    Some (b2z (has v NFP_MAC_ETH_SEG_CMD_CONFIG_RX_ENABLE),
          with_bus (XpbRead (MAC_CONF_ADDR isl core port) v :: h) s).
Proof.
  intros. unfold mac_eth_check_rx_enable. rewrite run_require by by apply mac_params_ok_true.
  erewrite run_some by apply run_xpb_read. done.
Qed.

Lemma rx_port_mask_bit core port lanes i :
  0 <= core < 2 -> 0 <= port -> 0 <= lanes -> port + lanes <= 12 ->
  Z.testbit (rx_port_mask core port lanes) i =
    (12 * core + port <=? i) && (i <? 12 * core + port + lanes).
Proof.
  intros. unfold rx_port_mask, MAC_CORE_PORT_TO_MAC_PORT, MAX_ETH_PORTS_PER_MAC_CORE.
  replace (Z.shiftl 1 lanes - 1) with (Z.ones lanes) by (unfold Z.ones; lia).
  rewrite testbit_wrap, testbit_shiftl, Z.testbit_ones by lia.
  destruct (Z.leb_spec (12 * core + port) i), (Z.ltb_spec i (12 * core + port + lanes));
    destruct (Z.ltb_spec i 32), (Z.leb_spec 0 i), (Z.leb_spec 0 (i - (core * 12 + port))),
      (Z.ltb_spec (i - (core * 12 + port)) lanes); simpl; lia || done.
Qed.
(** The poll ends at the latest when it has read [lat] times. *)
Lemma run_poll_inhibit_done lat isl mask m h s :
  inhibit_acks lat -> fits 32 m -> Z.land mask m = mask ->
  forall fuel polls,
  (lat < fuel + length polls)%nat ->
  Forall (fun e => exists v, e = XpbRead (MAC_EQ_INH_DONE_ADDR isl) v /\
    Z.land v mask <> mask) polls ->
  (length polls <= lat)%nat ->
  exists polls' d,
    poll_inhibit_done fuel (MAC_EQ_INH_DONE_ADDR isl) mask
      (with_bus (polls ++ XpbWrite (MAC_EQ_INH_ADDR isl) m :: h) s) =
    Some (tt, with_bus (XpbRead (MAC_EQ_INH_DONE_ADDR isl) d :: polls' ++
      XpbWrite (MAC_EQ_INH_ADDR isl) m :: h) s) /\
    Z.land d mask = mask /\ (length polls' <= lat)%nat /\
    Forall (fun e => exists v, e = XpbRead (MAC_EQ_INH_DONE_ADDR isl) v /\
      Z.land v mask <> mask) polls'.
Proof.
  intros Hack Hm Hsub. induction fuel as [|fuel IH]; intros polls Hf Hp Hl; [lia|].
  simpl. erewrite run_some by apply run_xpb_read. cbv beta.
  set (d := u32 (xpb_dev _ _)).
  destruct (Z.eqb_spec (Z.land d mask) mask) as [Hd|Hd].
  - exists polls, d. by repeat split.
  - assert (length polls < lat)%nat.
    { destruct (decide (length polls < lat)%nat) as [|Hge]; [done|]. exfalso. apply Hd.
      assert (Hmd : Z.land m d = m).
      { apply Hack; [done|lia|]. eapply Forall_impl; [|exact Hp]. intros ? (v & -> & _). by exists v. }
      by rewrite Z.land_comm, <- Hsub, <- Z.land_assoc, Hmd. }
    apply (IH (_ :: polls)); [simpl; lia| |simpl; lia].
    constructor; [by eexists|done].
Qed.

(** A check of the receiver and the wait that follows it when it is on. *)
Definition rx_waits (TCLK isl core port : Z) (ws : list Z) : list bus_event :=
  flat_map (fun w => [Sleep (10 * TCLK * 1000); XpbRead (MAC_CONF_ADDR isl core port) w]) ws.

Definition rx_on (w : Z) : Prop := has w NFP_MAC_ETH_SEG_CMD_CONFIG_RX_ENABLE = true.

(** The accesses of at most [n] checks: all of them found the receiver on, or
    one found it off. *)
Definition rx_off_trace (TCLK isl core port : Z) (n : nat) (off : bool) (h : list bus_event) : Prop :=
  exists ws, Forall rx_on ws /\
    if off then (length ws < n)%nat /\ exists w, ~ rx_on w /\
      h = XpbRead (MAC_CONF_ADDR isl core port) w :: rx_waits TCLK isl core port ws
    else length ws = n /\ h = rx_waits TCLK isl core port ws.

Lemma run_check_rx_off TCLK isl core port i h s :
  isl < 2 -> core < 2 -> port < 12 ->
  exists v, check_rx_off TCLK isl core port i (with_bus h s) =
    if has v NFP_MAC_ETH_SEG_CMD_CONFIG_RX_ENABLE
    then Some (None, with_bus (rx_waits TCLK isl core port [v] ++ h) s)
    else Some (Some i, with_bus (XpbRead (MAC_CONF_ADDR isl core port) v :: h) s).
Proof.
  intros Hi Hc Hp. unfold check_rx_off.
  pose proof (run_check_rx_enable isl core port h s Hi Hc Hp) as Hrun. cbv zeta in Hrun.
  exists (u32 (xpb_dev h (MAC_CONF_ADDR isl core port))).
  erewrite run_some by exact Hrun. cbv beta. rewrite truthy_b2z.
  by destruct (has _ _).
Qed.

Lemma rx_off_trace_cons TCLK isl core port n off v h :
  rx_on v -> rx_off_trace TCLK isl core port n off h ->
  rx_off_trace TCLK isl core port (S n) off (h ++ rx_waits TCLK isl core port [v]).
Proof.
  intros Hv (ws & Hws & Hh). exists (ws ++ [v]). split; [by apply Forall_app; auto|].
  rewrite length_app. simpl length. unfold rx_waits in *. rewrite flat_map_app.
  destruct off.
  - destruct Hh as (Hl & w & Hw & ->). split; [lia|]. by exists w.
  - destruct Hh as (<- & ->). split; [lia|done].
Qed.

Lemma run_wait_rx_off_list TCLK isl core port (l : list Z) s :
  isl < 2 -> core < 2 -> port < 12 -> forall h,
  exists r h', for_ret l (check_rx_off TCLK isl core port) (with_bus h s) =
      Some (r, with_bus (h' ++ h) s) /\
    rx_off_trace TCLK isl core port (length l) (if r is Some _ then true else false) h' /\
    (forall i, r = Some i -> i ∈ l).
Proof.
  intros Hi Hc Hp. induction l as [|i l IH]; intros h.
  - exists None, []. split; [done|]. split; [by exists []|done].
  - cbn [for_ret]. destruct (run_check_rx_off TCLK isl core port i h s Hi Hc Hp) as [v Hrun].
    destruct (has v NFP_MAC_ETH_SEG_CMD_CONFIG_RX_ENABLE) eqn:Hv.
    + destruct (IH (rx_waits TCLK isl core port [v] ++ h)) as (r & h' & Hr & Ht & Hin).
      exists r, (h' ++ rx_waits TCLK isl core port [v]).
      erewrite run_some by exact Hrun. cbv beta iota. rewrite Hr, app_assoc. split; [done|].
      split; [by apply rx_off_trace_cons|].
      intros j Hj. apply elem_of_cons. right. by apply Hin.
    + exists (Some i), [XpbRead (MAC_CONF_ADDR isl core port) v].
      erewrite run_some by exact Hrun. split; [done|]. split.
      * exists []. split; [done|]. split; [simpl; lia|]. exists v. unfold rx_on. by rewrite Hv.
      * intros j [= ->]. apply elem_of_cons. by left.
Qed.

Lemma run_wait_rx_off TCLK isl core port h s :
  isl < 2 -> core < 2 -> port < 12 ->
  exists r h', wait_rx_off TCLK isl core port (with_bus h s) = Some (r, with_bus (h' ++ h) s) /\
    rx_off_trace TCLK isl core port 10 (default 10 r <? 10) h'.
Proof.
  intros Hi Hc Hp.
  destruct (run_wait_rx_off_list TCLK isl core port (range 0 10) s Hi Hc Hp h)
    as (r & h' & Hr & Ht & Hin).
  exists r, h'. split; [done|]. destruct r as [i|]; [|done].
  specialize (Hin i eq_refl). apply elem_of_range in Hin.
  simpl. by rewrite (proj2 (Z.ltb_lt i 10)) by lia.
Qed.

(** The run, with the mask as the code computes it *)
Lemma run_mac_eth_disable_rx lat TCLK fuel isl core port lanes s :
  inhibit_acks lat -> (lat < fuel)%nat ->
  0 <= isl < 2 -> 0 <= core < 2 -> 0 <= port -> 1 <= lanes -> port + lanes <= 12 ->
  let mask := rx_port_mask core port lanes in
  exists off v d polls checks,
    mac_eth_disable_rx TCLK fuel isl core port lanes s =
      Some (b2z off, s <| bus :=
        XpbWrite (MAC_EQ_INH_ADDR isl) (Z.ldiff v mask) ::
        checks ++
        SyncCmd ARB_CLS_BASE_ADDR_Hi32 (u32 (Z.shiftl ARB_CLS_RING_NUM 2))
          (u32 (LINK_CTRL_SYNC_CMD isl core port ARB_CODE_ETH_CMD_CFG_DISABLE_RX 0)) ::
        XpbRead (MAC_EQ_INH_DONE_ADDR isl) d ::
        polls ++
        XpbWrite (MAC_EQ_INH_ADDR isl) (Z.lor v mask) ::
        XpbRead (MAC_EQ_INH_ADDR isl) v ::
        bus s |>) /\
    Z.land d mask = mask /\ (length polls <= lat)%nat /\
    Forall (fun e => exists w, e = XpbRead (MAC_EQ_INH_DONE_ADDR isl) w /\
      Z.land w mask <> mask) polls /\
    rx_off_trace TCLK isl core port 10 off checks.
Proof.
  intros Hack Hf Hi Hc Hp Hl Hpl mask.
  set (v := u32 (xpb_dev (bus s) (MAC_EQ_INH_ADDR isl))).
  assert (Hv : fits 32 v) by by apply wrap_fits.
  assert (Hmask : fits 32 mask) by by apply wrap_fits.
  assert (Hvm : fits 32 (Z.lor v mask)) by by apply fits_lor.
  unfold mac_eth_disable_rx.
  rewrite run_require by (apply mac_params_ok_true; lia).
  rewrite run_require by (rewrite wrap_small by (split; lia); apply Z.ltb_lt; unfold MAX_ETH_PORTS_PER_MAC_CORE; lia).
  erewrite run_some by apply run_xpb_read0. cbv beta zeta. fold v mask.
  erewrite run_some by by apply run_xpb_write. cbv beta.
  edestruct (run_poll_inhibit_done lat isl mask (Z.lor v mask)
    (XpbRead (MAC_EQ_INH_ADDR isl) v :: bus s) s Hack Hvm) as (polls & d & Hpoll & Hd & Hlen & Hall).
  { apply Z.bits_inj'. intros i _. rewrite Z.land_spec, Z.lor_spec.
    by destruct (Z.testbit v i), (Z.testbit mask i). }
  2: apply Forall_nil. { instantiate (1 := fuel). simpl. lia. } { simpl. lia. }
  simpl in Hpoll. erewrite run_some by exact Hpoll. cbv beta.
  unfold issue_sync_me_cmd. erewrite run_some by apply run_emit. cbv beta.
  edestruct run_wait_rx_off as (r & checks & Hr & Htr);
    [| | |erewrite run_some by exact Hr]; [lia..|]. cbv beta.
  assert (Hout : Z.land (Z.lor v mask) (u32 (Z.lnot mask)) = Z.ldiff v mask).
  { zbits. }
  rewrite Hout. erewrite run_some by by apply run_xpb_write, fits_ldiff.
  exists (default 10 r <? 10), v, d, polls, checks. split; [done|]. done.
Qed.

(** C36: mac_eth_disable_rx turns the receiver of a port off without cutting a
    packet, and returns once the MAC answers the inhibit request.  It sets the
    inhibit bits of the lanes of the port and keeps the other bits; the
    command that disables the receiver goes out only after the done register
    was read with all of these bits; then it checks the receiver up to ten
    times, 10 ms apart, and returns 1 exactly if a check found it off; and
    whatever the checks found it clears the inhibit bits of the port. *)
Theorem mac_eth_disable_rx_correct lat TCLK fuel isl core port lanes s :
  inhibit_acks lat -> (lat < fuel)%nat ->
  0 <= isl < 2 -> 0 <= core < 2 -> 0 <= port -> 1 <= lanes -> port + lanes <= 12 ->
  exists off v mask d polls checks,
    mac_eth_disable_rx TCLK fuel isl core port lanes s =
      Some (b2z off, s <| bus :=
        XpbWrite (MAC_EQ_INH_ADDR isl) (Z.ldiff v mask) ::
        checks ++
        SyncCmd ARB_CLS_BASE_ADDR_Hi32 (u32 (Z.shiftl ARB_CLS_RING_NUM 2))
          (u32 (LINK_CTRL_SYNC_CMD isl core port ARB_CODE_ETH_CMD_CFG_DISABLE_RX 0)) ::
        XpbRead (MAC_EQ_INH_DONE_ADDR isl) d ::
        polls ++
        XpbWrite (MAC_EQ_INH_ADDR isl) (Z.lor v mask) ::
        XpbRead (MAC_EQ_INH_ADDR isl) v ::
        bus s |>) /\
    (forall i, Z.testbit mask i =
      (12 * core + port <=? i) && (i <? 12 * core + port + lanes)) /\
    Z.land d mask = mask /\ (length polls <= lat)%nat /\
    Forall (fun e => exists w, e = XpbRead (MAC_EQ_INH_DONE_ADDR isl) w /\
      Z.land w mask <> mask) polls /\
    rx_off_trace TCLK isl core port 10 off checks.
Proof.
  intros Hack Hf Hi Hc Hp Hl Hpl.
  destruct (run_mac_eth_disable_rx lat TCLK fuel isl core port lanes s)
    as (off & v & d & polls & checks & Hrun & Hrest); [done..|].
  exists off, v, (rx_port_mask core port lanes), d, polls, checks.
  split; [exact Hrun|]. split; [intros; apply rx_port_mask_bit; lia|exact Hrest].
Qed.

(** ** Link state *)

(** The state of a port's link from the registers [r]: no loss of signal, no
    fault, and the PCS of the port's speed has the link. *)
Definition port_up (r : Z -> Z) (mac_isl eth_port is_1ge : Z) : bool :=
  let core := ETH_PORT_TO_MAC_CORE eth_port in
  let port := ETH_PORT_TO_MAC_CORE_PORT eth_port in
  let base := Z.lor (NFP_MAC_XPB_OFF mac_isl) (NFP_MAC_ETH core) in
  let sts := u32 (r (Z.lor base (NFP_MAC_ETH_SEG_STS port))) in
  negb (has sts (Z.lor (Z.lor NFP_MAC_ETH_SEG_STS_PHY_LOS
    NFP_MAC_ETH_SEG_STS_RX_REMOTE_FAULT) NFP_MAC_ETH_SEG_STS_RX_LOCAL_FAULT)) &&
  (if truthy is_1ge
   then has (u32 (r (Z.lor base (NFP_MAC_ETH_SEG_SGMII_PCS_STS port))))
     NFP_MAC_ETH_SEG_SGMII_PCS_STS_LINK_STS
   else has (u32 (r (Z.lor (Z.lor base (NFP_MAC_ETH_CHAN_PCS_SEG port)) NFP_MAC_ETH_CHAN_PCS_STS1)))
     NFP_MAC_ETH_CHAN_PCS_STS1_ETH_PCS_RCV_LINK_STS).

(** The registers that a port's link state is read from, and what two values
    read from them say *)
Definition eth_sts_addr (mac_isl eth_port : Z) : Z :=
  Z.lor (Z.lor (NFP_MAC_XPB_OFF mac_isl) (NFP_MAC_ETH (ETH_PORT_TO_MAC_CORE eth_port)))
    (NFP_MAC_ETH_SEG_STS (ETH_PORT_TO_MAC_CORE_PORT eth_port)).
Definition pcs_sts_addr (mac_isl eth_port is_1ge : Z) : Z :=
  let port := ETH_PORT_TO_MAC_CORE_PORT eth_port in
  let base := Z.lor (NFP_MAC_XPB_OFF mac_isl) (NFP_MAC_ETH (ETH_PORT_TO_MAC_CORE eth_port)) in
  if truthy is_1ge then Z.lor base (NFP_MAC_ETH_SEG_SGMII_PCS_STS port)
  else Z.lor (Z.lor base (NFP_MAC_ETH_CHAN_PCS_SEG port)) NFP_MAC_ETH_CHAN_PCS_STS1.
Definition sampled_up (is_1ge sts pcs : Z) : bool :=
  negb (has sts (Z.lor (Z.lor NFP_MAC_ETH_SEG_STS_PHY_LOS
    NFP_MAC_ETH_SEG_STS_RX_REMOTE_FAULT) NFP_MAC_ETH_SEG_STS_RX_LOCAL_FAULT)) &&
  has pcs (if truthy is_1ge then NFP_MAC_ETH_SEG_SGMII_PCS_STS_LINK_STS
           else NFP_MAC_ETH_CHAN_PCS_STS1_ETH_PCS_RCV_LINK_STS).

(** Whatever the registers answer, the result is what the two reads say. *)
Lemma run_link_sample isl port is_1ge s :
  isl < MAX_MAC_ISLANDS_PER_NFP -> port < MAX_ETH_PORTS_PER_MAC_ISL ->
  exists v1 v2, mac_eth_port_link_state isl port is_1ge s =
    Some (if sampled_up is_1ge v1 v2 then LINK_UP else LINK_DOWN,
      with_bus (XpbRead (pcs_sts_addr isl port is_1ge) v2 ::
                XpbRead (eth_sts_addr isl port) v1 :: bus s) s).
Proof.
  intros Hi Hp. unfold mac_eth_port_link_state.
  rewrite run_require by by rewrite !(proj2 (Z.ltb_lt _ _)).
  erewrite run_some by apply run_xpb_read0. cbv beta zeta. unfold pcs_sts_addr, sampled_up.
  destruct (truthy is_1ge);
    rewrite run_assoc; erewrite run_some by apply run_xpb_read; cbv beta; rewrite run_ret;
    by eexists _, _.
Qed.

Lemma run_port_link_state isl port is_1ge h s :
  steady h -> isl < 2 -> port < 24 ->
  exists h', mac_eth_port_link_state isl port is_1ge (with_bus h s) =
      Some (if port_up (xpb_dev h) isl port is_1ge then LINK_UP else LINK_DOWN,
            with_bus (h' ++ h) s) /\ Forall is_read h'.
Proof.
  intros Hst Hi Hp. unfold mac_eth_port_link_state.
  rewrite run_require by by rewrite !(proj2 (Z.ltb_lt _ _)).
  erewrite run_some by apply run_xpb_read. cbv beta zeta.
  unfold port_up. cbv zeta.
  destruct (truthy is_1ge);
    rewrite run_assoc; erewrite run_some by apply run_xpb_read; cbv beta; rewrite run_ret;
    rewrite steady_read by done;
    match goal with |- context [with_bus (?e :: ?e' :: h) s] => exists [e; e'] end;
    (split; [done|by repeat constructor]).
Qed.

Lemma testbit_add_pow2 m i (b : bool) j : 0 <= i ->
  Z.testbit (if b then Z.lor m (Z.shiftl 1 i) else m) j = Z.testbit m j || (b && (i =? j)).
Proof.
  intros Hi. destruct b; [|by rewrite orb_false_r].
  by rewrite Z.lor_spec, Z.shiftl_1_l, Z.pow2_bits_eqb.
Qed.

Lemma port_up_ext r r' isl port is_1ge :
  (forall a, r a = r' a) -> port_up r isl port is_1ge = port_up r' isl port is_1ge.
Proof. intros Hr. unfold port_up. by rewrite !Hr. Qed.

(** The mask after the ports below [k]. *)
Definition scanned (up : Z -> bool) (k m : Z) : Prop :=
  forall i, Z.testbit m i = (0 <=? i) && (i <? k) && up i.

Lemma scanned_0 up : scanned up 0 0.
Proof.
  intros i. rewrite Z.testbit_0_l. by destruct (Z.leb_spec 0 i), (Z.ltb_spec i 0); try lia.
Qed.

Lemma scanned_next up k m : 0 <= k -> scanned up k m ->
  scanned up (k + 1) (if up k then Z.lor m (Z.shiftl 1 k) else m).
Proof.
  intros Hk Hm i. rewrite testbit_add_pow2, Hm by lia.
  destruct (Z.eqb_spec k i) as [->|]; rewrite ?andb_true_r, ?andb_false_r, ?orb_false_r.
  - rewrite Z.ltb_irrefl, andb_false_r, (proj2 (Z.leb_le 0 i)), (proj2 (Z.ltb_lt i _)) by lia.
    done.
  - f_equal. f_equal. destruct (Z.ltb_spec i k), (Z.ltb_spec i (k + 1)); lia || done.
Qed.

(** The scan of an island, one port after the other. *)
Lemma returns_island_scan isl eth_port_mask is_1ge_mask s :
  isl < 2 -> steady (bus s) ->
  returns (mac_eth_island_link_state isl eth_port_mask is_1ge_mask) s (fun m s' =>
    exists h, s' = with_bus (h ++ bus s) s /\ Forall is_read h /\
    scanned (fun i => Z.testbit eth_port_mask i &&
      port_up (xpb_dev (bus s)) isl i (b2z (Z.testbit is_1ge_mask i))) 24 m).
Proof.
  intros Hi Hst. unfold mac_eth_island_link_state, returns.
  rewrite run_require by by apply Z.ltb_lt.
  change (MAX_ETH_PORTS_PER_MAC_ISL) with 24. set (up := fun i => _ && _).
  eapply returns_mono.
  - apply (returns_for_fold (fun l m s' => exists h, s' = with_bus (h ++ bus s) s /\
      Forall is_read h /\ exists k, 0 <= k <= 24 /\ l = range k 24 /\ scanned up k m)).
    + exists []. split; [by rewrite app_nil_l, with_bus_self|]. split; [done|].
      exists 0. split; [lia|]. split; [done|]. apply scanned_0.
    + intros x l m s' (h & -> & Hh & k & Hk & Hl & Hm).
      destruct (decide (k < 24)) as [Hlt|]; [|by rewrite range_nil in Hl by lia].
      rewrite range_cons in Hl by done. injection Hl as -> ->.
      pose proof (scanned_next up k m ltac:(lia) Hm) as Hnext. unfold up at 2 in Hnext.
      rewrite has_pow2 by lia. unfold returns.
      destruct (Z.testbit eth_port_mask k); simpl in Hnext.
      * rewrite land_shiftr_1 by lia.
        destruct (run_port_link_state isl k (b2z (Z.testbit is_1ge_mask k))
          (h ++ bus s) s) as (h' & Hrun & Hr); [by apply steady_app|lia|lia|].
        erewrite run_some by exact Hrun. cbv beta.
        rewrite (port_up_ext _ (xpb_dev (bus s))) by (intros; by apply Hst).
        exists (h' ++ h). rewrite app_assoc. split; [done|]. split; [by apply Forall_app|].
        exists (k + 1). split; [lia|]. split; [done|].
        by destruct (port_up (xpb_dev (bus s)) isl k _).
      * exists h. split; [done|]. split; [done|].
        exists (k + 1). split; [lia|]. by split.
  - intros m s' (h & -> & Hh & k & Hk & Hnil & Hm). exists h. split; [done|]. split; [done|].
    assert (k = 24) as -> by (destruct (decide (k < 24)); [by rewrite range_cons in Hnil|lia]).
    done.
Qed.

(** When reading leaves the MAC's registers alone, the mask that
    mac_eth_island_link_state returns has bit i set exactly for the ports i of
    the island (0 to 23) that the caller asked for and whose link is up by the
    MAC's status registers: signal, no local or remote fault, and the link of
    the SGMII PCS for a port that the caller says is 1 GbE, of the channel PCS
    for the others.  The scan only reads. *)
Theorem mac_eth_island_link_state_correct isl eth_port_mask is_1ge_mask s :
  isl < 2 -> steady (bus s) ->
  exists m h, mac_eth_island_link_state isl eth_port_mask is_1ge_mask s =
      Some (m, s <| bus := h ++ bus s |>) /\ Forall is_read h /\
    forall i, Z.testbit m i =
      (0 <=? i) && (i <? 24) && (Z.testbit eth_port_mask i &&
      port_up (xpb_dev (bus s)) isl i (b2z (Z.testbit is_1ge_mask i))).
Proof.
  intros Hi Hst.
  pose proof (returns_island_scan isl eth_port_mask is_1ge_mask s Hi Hst) as Hret.
  apply returns_exists in Hret as (m & s' & Hrun & h & -> & Hh & Hm).
  exists m, h. by repeat split.
Qed.
End proofs.

(** ** A MAC for the checks on concrete inputs *)

Module Mac.

(** The inhibit takes effect at the third read of the done register after the
    write; a receiver is off after the command that disables it; a link is up
    for the ports below 8 of a core. *)
Definition conf_addr (isl core port : Z) : Z :=
  Z.lor (Z.lor (Z.shiftl isl 28) (Z.shiftl (core + 1) 20)) (Z.lor 8 (Z.shiftl port 10)).

Fixpoint inh_done (inh done : Z) (n : nat) (h : list bus_event) : Z :=
  match h with
  | XpbRead a _ :: h => if a =? done then inh_done inh done (S n) h else inh_done inh done n h
  | XpbWrite a v :: h => if a =? inh then (if (3 <=? n)%nat then v else 0) else inh_done inh done n h
  | _ :: h => inh_done inh done n h
  | [] => 0
  end.

Fixpoint last_write (addr dflt : Z) (h : list bus_event) : Z :=
  match h with
  | XpbWrite a v :: h => if a =? addr then v else last_write addr dflt h
  | _ :: h => last_write addr dflt h
  | [] => dflt
  end.

Definition cmd (isl core port code : Z) : Z := u32 (LINK_CTRL_SYNC_CMD isl core port code 0).

(** RX_ENABLE and TX_FLUSH of a port, as the commands left them. *)
Fixpoint conf (isl core port : Z) (h : list bus_event) : Z :=
  match h with
  | SyncCmd _ _ w :: h =>
      let c := conf isl core port h in
      if w =? cmd isl core port 1 then Z.ldiff c 2
      else if w =? cmd isl core port 2 then Z.lor c 2
      else if w =? cmd isl core port 3 then Z.ldiff c 4
      else if w =? cmd isl core port 4 then Z.lor c 4
      else c
  | _ :: h => conf isl core port h
  | [] => 2
  end.

Definition dev (h : list bus_event) (addr : Z) : Z :=
  let isl := Z.shiftr addr 28 in
  let core := bf_get 20 8 addr - 1 in
  let port := bf_get 10 10 addr in
  let reg := bf_get 0 10 addr in
  if core =? -1 then
    if reg =? 0x27c then inh_done (Z.lor (Z.shiftl isl 28) 0x278) addr 0 h
    else last_write addr 0 h
  else if core <? 2 then
    if reg =? 8 then conf isl core port h
    else if reg =? 0x10 then (if port <? 8 then 0 else 1)
    else 4
  else last_write addr 0x80000000 h.

#[export] Instance devices : Devices := {|
  xpb_dev := dev;
  ct_dev := fun h addr => 0;
  pcie_dev := fun h isl idx addr_hi addr_lo i => addr_lo + Z.of_nat i;
  msix_dev := fun h pcie bar entry automask => 0;
  tmq_dev := fun h nbi queue => 0;
  cfg_msg_dev := fun h pcie => None |}.

#[export] Instance xpb : Xpb := {|
  NFP_MAC_XPB_OFF := fun isl => Z.shiftl isl 28;
  NFP_MAC_ETH := fun core => Z.shiftl (core + 1) 20;
  NFP_MAC_ETH_SEG_CMD_CONFIG := fun port => Z.lor 8 (Z.shiftl port 10);
  NFP_MAC_ETH_SEG_CMD_CONFIG_RX_ENABLE := 2;
  NFP_MAC_ETH_SEG_CMD_CONFIG_TX_FLUSH := 4;
  NFP_MAC_CSR := 0; NFP_MAC_CSR_EQ_INH := 0x278; NFP_MAC_CSR_EQ_INH_DONE := 0x27c;
  NFP_MAC_ETH_SEG_STS := fun port => Z.lor 0x10 (Z.shiftl port 10);
  NFP_MAC_ETH_SEG_STS_PHY_LOS := 1; NFP_MAC_ETH_SEG_STS_RX_REMOTE_FAULT := 2;
  NFP_MAC_ETH_SEG_STS_RX_LOCAL_FAULT := 4;
  NFP_MAC_ETH_SEG_SGMII_PCS_STS := fun port => Z.lor 0x44 (Z.shiftl port 10);
  NFP_MAC_ETH_SEG_SGMII_PCS_STS_LINK_STS := 4;
  NFP_MAC_ETH_CHAN_PCS_SEG := fun port => Z.lor 0x80 (Z.shiftl port 10);
  NFP_MAC_ETH_CHAN_PCS_STS1 := 4;
  NFP_MAC_ETH_CHAN_PCS_STS1_ETH_PCS_RCV_LINK_STS := 4;
  NFP_NBI_TM_XPB_OFF := fun isl => Z.lor (Z.shiftl isl 28) 0xf000000;
  NFP_NBI_TM_QUEUE_REG := 0x10000;
  NFP_NBI_TM_QUEUE_CONFIG := fun q => Z.shiftl q 2;
  NFP_NBI_TM_QUEUE_CONFIG_QUEUEENABLE := 1;
  ARB_CLS_BASE_ADDR_Hi32 := 0x2000000; ARB_CLS_RING_NUM := 9;
  ARB_CODE_ETH_CMD_CFG_RECACHE := 0;
  ARB_CODE_ETH_CMD_CFG_DISABLE_RX := 1; ARB_CODE_ETH_CMD_CFG_ENABLE_RX := 2;
  ARB_CODE_ETH_CMD_CFG_DISABLE_FLUSH := 3; ARB_CODE_ETH_CMD_CFG_ENABLE_FLUSH := 4;
  ARB_ME_ISLAND := 1; ARB_ME_ID := 3;
  ARB_FW_DEBUG_MBOX := 3; ARB_FW_KICKSTART_MBOX := 1; ARB_FW_QUIESCE_MBOX := 2;
  ARB_FW_KICKSTART := 0xff; ARB_RESUME := 1;
  local_csr_mailbox_0 := 0x170; local_csr_mailbox_1 := 0x174;
  local_csr_mailbox_2 := 0x178; local_csr_mailbox_3 := 0x17c |}.

Lemma inh_done_polls inh done m h polls n :
  Forall (fun e => exists v, e = XpbRead done v) polls ->
  inh_done inh done n (polls ++ XpbWrite inh m :: h) =
  if (3 <=? n + length polls)%nat then m else 0.
Proof.
  intros Hp. revert n. induction Hp as [|e polls [v ->] Hp IH]; intros n; simpl.
  - by rewrite Z.eqb_refl, Nat.add_0_r.
  - by rewrite Z.eqb_refl, IH, Nat.add_succ_comm.
Qed.

(** The register addresses of an island carry its number above bit 28. *)
Lemma csr_addr isl reg : fits 20 reg ->
  Z.shiftr (Z.lor (Z.lor (Z.shiftl isl 28) 0) reg) 28 = isl /\
  bf_get 20 8 (Z.lor (Z.lor (Z.shiftl isl 28) 0) reg) = 0 /\
  bf_get 0 10 (Z.lor (Z.lor (Z.shiftl isl 28) 0) reg) = bf_get 0 10 reg.
Proof. intros Hr. unfold bf_get. repeat split; zbits. Qed.

Lemma acks : inhibit_acks 3.
Proof.
  intros isl m h polls Hm Hlen Hp.
  unfold MAC_EQ_INH_ADDR, MAC_EQ_INH_DONE_ADDR in *. simpl in *. unfold dev.
  destruct (csr_addr isl 0x27c) as (Hi & Hc & Hr); [by split|].
  rewrite Hi, Hc, Hr. simpl.
  change (Z.lor (Z.shiftl isl 28) 0x278) with (Z.lor (Z.shiftl isl 28) 632).
  rewrite (Z.lor_0_r (Z.shiftl isl 28)) in *.
  rewrite inh_done_polls by done. rewrite (proj2 (Nat.leb_le 3 _)) by lia.
  rewrite wrap_small by done. apply Z.land_diag.
Qed.
End Mac.

Section checks.
Import Demo Mac.

Lemma mac_eth_disable_rx_correct_witness :
  inhibit_acks 3 /\ exists off s', mac_eth_disable_rx 800 4 0 0 0 4 nic0 = Some (b2z off, s').
Proof.
  split; [exact acks|].
  destruct (mac_eth_disable_rx_correct 3 800 4 0 0 0 4 nic0 acks)
    as (off & v & mask & d & polls & ch & Hrun & _); [lia..|].
  exists off. eexists. exact Hrun.
Defined.

Lemma mac_eth_disable_rx_runs :
  match mac_eth_disable_rx 800 4 0 0 0 4 nic0 with
  | Some (r, s') => r = 1 /\ length (bus s') = 9%nat
  | None => False
  end.
Proof. by vm_compute. Qed.

Lemma steady_nil : steady (bus nic0).
Proof.
  intros h a Hh. simpl. rewrite app_nil_r. unfold dev.
  assert (Hd : forall inh done n, inh_done inh done n h = 0).
  { intros inh done. induction Hh as [|[] h ? Hh IH]; intros n; try done. simpl. by case_match. }
  assert (Hl : forall addr d, last_write addr d h = d).
  { intros addr d. clear Hd. by induction Hh as [|[] h ? Hh IH]. }
  assert (Hc : forall isl core port, conf isl core port h = 2).
  { intros isl core port. clear Hd Hl. by induction Hh as [|[] h ? Hh IH]. }
  rewrite Hd, !Hl, Hc. done.
Qed.

Lemma mac_eth_island_link_state_correct_witness :
  steady (bus nic0) /\ exists s', mac_eth_island_link_state 0 0xff11 0x1 nic0 = Some (0xf011, s').
Proof.
  split; [exact steady_nil|].
  destruct (mac_eth_island_link_state_correct 0 0xff11 0x1 nic0)
    as (m & h & Hrun & Hr & Hm); [lia|exact steady_nil|].
  eexists. rewrite Hrun. f_equal. f_equal.
  assert (Hc : Some m = Some 0xf011); [|by injection Hc].
  transitivity (fst <$> mac_eth_island_link_state 0 0xff11 0x1 nic0); [by rewrite Hrun|].
  vm_compute. reflexivity.
Defined.
End checks.
