(* ===== verification/Bpf.v ===== *)
(** * Loading BPF programs into the worker engines:
    lib/nic_basic/_c/nic_internal.c

    On a BPF update of a vNIC the master stops the contexts of each worker
    engine, writes the program that the driver left in host memory into the
    code store of the engine, and starts the contexts again.  It works through
    the cluster target, whose accesses are recorded in [bus]. *)

From S2P Require Import Prelude Platform UserCfg Nfd Machine Bus.

Class BpfCfg := {
  NFP_NET_CFG_BPF_SIZE : Z;
  PCIE_CPP2PCIE_BPF_LOAD : Z
}.

Definition NIC_PCI : Z := 0.
Definition EPOCH_NN_IDX : Z := 127.

Definition PKT_IO_SIG_EPOCH : Z := 8.
Definition PKT_IO_SIG_RESUME : Z := 12.
Definition PKT_IO_SIG_QUIESCE_NBI : Z := 13.
Definition PKT_IO_SIG_QUIESCE_NFD : Z := 14.

Definition ME_CSR_USTORE_ADDR : Z := 0x00.
Definition ME_CSR_USTORE_DATA_LO : Z := 0x04.
Definition ME_CSR_USTORE_DATA_HI : Z := 0x08.
Definition ME_CSR_CTX_ENABLES : Z := 0x18.
Definition ME_CSR_CTX_PTR : Z := 0x20.
Definition ME_CSR_IND_CTX_SGL_EVT : Z := 0x48.
Definition ME_CSR_IND_CTX_WKP_EVT : Z := 0x50.

(** [for (ctx = 0; ctx < 8; ctx += 2)] *)
Definition contexts : list Z := [0; 2; 4; 6].

Section bpf.
Context {B : build} `{NetCfg, Vids, VfCfg, App, Devices, BpfCfg}.

(** ** Accesses to another engine *)

Definition ct_csr_addr (isl me csr_addr : Z) : Z :=
  u32 (Z.lor (Z.lor (Z.lor (Z.shiftl isl 24) (Z.shiftl 1 16)) (Z.shiftl me 10)) csr_addr).

Definition ct_write_nn (isl me nn_idx val : Z) : C unit :=
  emit (CtNnWrite (u32 (Z.lor (Z.lor (Z.lor (Z.shiftl isl 24) (Z.shiftl me 17)) (Z.shiftl 1 9))
    (Z.shiftl nn_idx 2))) (u32 val)).

Definition ct_read_csr (isl me csr_addr : Z) : C Z :=
  v ← get (fun s => u32 (ct_dev (bus s) (ct_csr_addr isl me csr_addr)));
  _ ← emit (CtRead (ct_csr_addr isl me csr_addr) v);
  mret v.

Definition ct_write_csr (isl me csr_addr val : Z) : C unit :=
  emit (CtWrite (ct_csr_addr isl me csr_addr) (u32 val)).

Definition ct_signal_addr (isl me ctx signal : Z) : Z :=
  u32 (Z.lor (Z.lor (Z.lor (Z.shiftl isl 24) (Z.shiftl me 9)) (Z.shiftl ctx 6))
    (Z.shiftl signal 2)).

Definition ct_signal (isl me ctx signal : Z) : C unit :=
  emit (CtSignal (ct_signal_addr isl me ctx signal)).

(** ** [update_bpf_prog] *)

Definition dp_mes_ids : list Z := cfg_mes_ids.

Definition wkp_events : Z := Z.lor (Z.shiftl 1 PKT_IO_SIG_EPOCH) (Z.shiftl 1 PKT_IO_SIG_RESUME).

(** One context of the pass: it is enabled again unless it waits. *)
Definition quiesce_ctx (isl me ctx_enables ctx : Z) : C Z :=
  _ ← ct_write_csr isl me ME_CSR_CTX_PTR ctx;
  wkp_mask ← ct_read_csr isl me ME_CSR_IND_CTX_WKP_EVT;
  mret (if has wkp_mask wkp_events then ctx_enables
        else Z.lor ctx_enables (Z.shiftl 1 (8 + ctx))).

(** [do ... while (ctx_enables & 0xff00)], at most [fuel] times *)
Fixpoint quiesce (fuel : nat) (isl me : Z) : C unit :=
  match fuel with
  | O => undefined
  | S fuel =>
      ctx_enables ← ct_read_csr isl me ME_CSR_CTX_ENABLES;
      let ctx_enables := Z.land ctx_enables 0xffff00ff in
      _ ← ct_write_csr isl me ME_CSR_CTX_ENABLES ctx_enables;
      _ ← sleep 250;
      ctx_enables ← for_fold contexts ctx_enables (quiesce_ctx isl me);
      if has ctx_enables 0xff00 then
        _ ← ct_write_csr isl me ME_CSR_CTX_ENABLES ctx_enables;
        _ ← sleep 1000;
        quiesce fuel isl me
      else mret tt
  end.

(** [while (words--)] *)
Fixpoint load_words (words : nat) (isl me addr_hi addr_lo : Z) : C unit :=
  match words with
  | O => mret tt
  | S words =>
      data ← pcie_read 4 PCIE_CPP2PCIE_BPF_LOAD addr_hi (u32 (Z.shiftl addr_lo 3)) 2;
      let addr_lo := u32 (addr_lo + 1) in
      let addr_hi := u32 (addr_hi + Z.shiftr addr_lo 29) in
      data0 ← of_option (data !! 0%nat);
      _ ← ct_write_csr isl me ME_CSR_USTORE_DATA_LO data0;
      data1 ← of_option (data !! 1%nat);
      _ ← ct_write_csr isl me ME_CSR_USTORE_DATA_HI data1;
      load_words words isl me addr_hi addr_lo
  end.

(** The body of the loop over the engines. *)
Definition update_bpf_me (fuel : nat) (bar_base vnic me_id : Z) : C unit :=
  let isl := Z.shiftr me_id 4 in
  let me := Z.land me_id 0xf in
  _ ← for_each contexts (fun ctx =>
        _ ← ct_signal isl me ctx PKT_IO_SIG_QUIESCE_NBI;
        ct_signal isl me ctx PKT_IO_SIG_QUIESCE_NFD);
  _ ← sleep 10000;
  _ ← quiesce fuel isl me;
  host_mem_bpf_cfg ← mem_read32s (bar_base + NFP_NET_CFG_BPF_SIZE - 2) 3;
  c0 ← of_option (host_mem_bpf_cfg !! 0%nat);
  addr_lo ← of_option (host_mem_bpf_cfg !! 1%nat);
  addr_hi ← of_option (host_mem_bpf_cfg !! 2%nat);
  let words := Z.shiftr c0 16 in
  _ ← emit (BarCfgSet 0 PCIE_CPP2PCIE_BPF_LOAD addr_hi addr_lo 0);
  _ ← ct_write_csr isl me ME_CSR_USTORE_ADDR
        (0x80000000 + NFD_BPF_START_OFF + vnic * NFD_BPF_MAX_LEN);
  _ ← load_words (Z.to_nat words) isl me addr_hi (Z.shiftr addr_lo 3);
  _ ← ct_write_csr isl me ME_CSR_USTORE_ADDR 0;
  _ ← sleep 500;
  ctx_enables ← ct_read_csr isl me ME_CSR_CTX_ENABLES;
  _ ← ct_write_csr isl me ME_CSR_CTX_ENABLES (Z.lor ctx_enables 0x5500);
  _ ← sleep 500;
  for_each contexts (fun ctx => ct_signal isl me ctx PKT_IO_SIG_RESUME).

Definition update_bpf_prog (fuel : nat) (bar_base vnic : Z) : C unit :=
  for_each dp_mes_ids (update_bpf_me fuel bar_base vnic).

Definition nic_local_bpf_reconfig (fuel : nat) (vid vnic : Z) : C unit :=
  update_bpf_prog fuel (nfd_cfg_bar_base NIC_PCI vid) vnic.

(** ** [nic_local_epoch]: [epoch] is the counter before the call *)

Fixpoint wait_epoch (fuel : nat) (isl me : Z) : C unit :=
  match fuel with
  | O => undefined
  | S fuel =>
      _ ← sleep 250;
      sig_mask ← for_fold contexts 0 (fun sig_mask ctx =>
        _ ← ct_write_csr isl me ME_CSR_CTX_PTR ctx;
        v ← ct_read_csr isl me ME_CSR_IND_CTX_SGL_EVT;
        mret (Z.lor sig_mask v));
      if has sig_mask (Z.shiftl 1 PKT_IO_SIG_EPOCH) then wait_epoch fuel isl me else mret tt
  end.

Definition nic_local_epoch (fuel : nat) (epoch : Z) : C Z :=
  let epoch := u32 (epoch + 1) in
  _ ← for_each dp_mes_ids (fun me_id =>
        let isl := Z.shiftr me_id 4 in
        let me := Z.land me_id 0xf in
        _ ← for_each contexts (fun ctx => ct_signal isl me ctx PKT_IO_SIG_EPOCH);
        _ ← wait_epoch fuel isl me;
        ct_write_nn isl me EPOCH_NN_IDX epoch);
  mret epoch.
End bpf.

(** * Properties *)

Section proofs.
Context {B : build} `{NetCfg, Vids, VfCfg, App, Devices, BpfCfg}.

Lemma ct_csr_addr_inj isl me c c' : fits 10 c -> fits 10 c' ->
  ct_csr_addr isl me c = ct_csr_addr isl me c' -> c = c'.
Proof.
  intros Hc Hc' Heq.
  assert (Hlow : forall c, fits 10 c -> bf_get 0 10 (ct_csr_addr isl me c) = c).
  { clear. intros c Hc. unfold bf_get, ct_csr_addr.
    rewrite Z.shiftr_0_r, wrap_wrap by lia. zbits. }
  by rewrite <- (Hlow c), <- (Hlow c'), Heq.
Qed.

Lemma run_ct_write_csr isl me csr v h s :
  ct_write_csr isl me csr v (with_bus h s) =
  Some (tt, with_bus (CtWrite (ct_csr_addr isl me csr) (u32 v) :: h) s).
Proof. done. Qed.

Lemma run_ct_read_csr isl me csr h s :
  ct_read_csr isl me csr (with_bus h s) =
  let v := u32 (ct_dev h (ct_csr_addr isl me csr)) in
  Some (v, with_bus (CtRead (ct_csr_addr isl me csr) v :: h) s).
Proof. done. Qed.

(** Number of writes of a register. *)
Fixpoint writes (a : Z) (h : list bus_event) : nat :=
  match h with
  | CtWrite a' _ :: h => if a' =? a then S (writes a h) else writes a h
  | _ :: h => writes a h
  | [] => 0
  end.

Lemma writes_app a h1 h2 : writes a (h1 ++ h2) = (writes a h1 + writes a h2)%nat.
Proof.
  induction h1 as [|[] h1 IH]; simpl; try done. case_match; simpl; by rewrite IH.
Qed.

(** The context waits for one of the two signals. *)
Definition waits (w : Z) : Prop := has w wkp_events = true.

(** The accesses of the loop that waits for an engine: its registers for the
    contexts and sleeps, no signals. *)
Definition quiet (isl me : Z) (e : bus_event) : Prop :=
  match e with
  | CtRead a _ => a = ct_csr_addr isl me ME_CSR_CTX_ENABLES \/
                  a = ct_csr_addr isl me ME_CSR_IND_CTX_WKP_EVT
  | CtWrite a _ => a = ct_csr_addr isl me ME_CSR_CTX_ENABLES \/
                   a = ct_csr_addr isl me ME_CSR_CTX_PTR
  | Sleep _ => True
  | _ => False
  end.

(** The history [h] after all contexts of the engine were asked to go quiescent *)
Definition asked_quiesce (isl me : Z) (h : list bus_event) : list bus_event :=
  Sleep 10000 ::
  (ctx ← reverse contexts;
   [CtSignal (ct_signal_addr isl me ctx PKT_IO_SIG_QUIESCE_NFD);
    CtSignal (ct_signal_addr isl me ctx PKT_IO_SIG_QUIESCE_NBI)]) ++ h.

(** What is asked of an engine in the history [h]: while nothing but these
    accesses happens, once its contexts were disabled [lat] times, they wait. *)
Definition engine_idles (lat : nat) (isl me : Z) (h : list bus_event) : Prop := forall h',
  Forall (quiet isl me) h' ->
  (lat <= writes (ct_csr_addr isl me ME_CSR_CTX_ENABLES) h')%nat ->
  waits (u32 (ct_dev (h' ++ h) (ct_csr_addr isl me ME_CSR_IND_CTX_WKP_EVT))).

(** An access that is not a write of the code store. *)
Definition not_ustore (isl me : Z) (e : bus_event) : Prop :=
  match e with
  | CtWrite a _ => a <> ct_csr_addr isl me ME_CSR_USTORE_ADDR /\
      a <> ct_csr_addr isl me ME_CSR_USTORE_DATA_LO /\
      a <> ct_csr_addr isl me ME_CSR_USTORE_DATA_HI
  | _ => True
  end.

Lemma not_ustore_csr isl me c v : c = ME_CSR_CTX_ENABLES \/ c = ME_CSR_CTX_PTR ->
  not_ustore isl me (CtWrite (ct_csr_addr isl me c) v).
Proof.
  intros Hc. simpl. repeat split; intros Heq;
    apply ct_csr_addr_inj in Heq; destruct Hc; subst; by vm_compute.
Qed.

Lemma quiet_not_ustore isl me e : quiet isl me e -> not_ustore isl me e.
Proof. destruct e; try done. intros [-> | ->]; apply (not_ustore_csr isl me); auto. Qed.

Lemma quiet_ctx_ptr isl me v : quiet isl me (CtWrite (ct_csr_addr isl me ME_CSR_CTX_PTR) v).
Proof. by right. Qed.

(** The accesses of a pass over the contexts [l], which read the events [ws]. *)
Fixpoint ctx_checks (isl me : Z) (l ws : list Z) : list bus_event :=
  match l, ws with
  | c :: l, w :: ws => ctx_checks isl me l ws ++
      [CtRead (ct_csr_addr isl me ME_CSR_IND_CTX_WKP_EVT) w;
       CtWrite (ct_csr_addr isl me ME_CSR_CTX_PTR) (u32 c)]
  | _, _ => []
  end.

Lemma has_lor_r x y m : has y m = true -> has (Z.lor x y) m = true.
Proof.
  unfold has, truthy. rewrite !negb_true_iff, !Z.eqb_neq, Z.land_lor_distr_l.
  intros Hy Hz. apply Z.lor_eq_0_iff in Hz. tauto.
Qed.

Lemma enable_bit c : 0 <= c < 8 -> has (Z.shiftl 1 (8 + c)) 0xff00 = true.
Proof.
  intros Hc. assert (c = 0 \/ c = 1 \/ c = 2 \/ c = 3 \/ c = 4 \/ c = 5 \/ c = 6 \/ c = 7)
    as Hcases by lia.
  repeat destruct Hcases as [->|Hcases]; try by vm_compute. subst. by vm_compute.
Qed.

Lemma has_lor_l x y m : has x m = true -> has (Z.lor x y) m = true.
Proof. rewrite Z.lor_comm. apply has_lor_r. Qed.

Lemma run_quiesce_ctx isl me ce c h s :
  let P := CtWrite (ct_csr_addr isl me ME_CSR_CTX_PTR) (u32 c) in
  let w := u32 (ct_dev (P :: h) (ct_csr_addr isl me ME_CSR_IND_CTX_WKP_EVT)) in
  quiesce_ctx isl me ce c (with_bus h s) =
  Some (if has w wkp_events then ce else Z.lor ce (Z.shiftl 1 (8 + c)),
    with_bus (CtRead (ct_csr_addr isl me ME_CSR_IND_CTX_WKP_EVT) w :: P :: h) s).
Proof. done. Qed.

(** A pass only adds enable bits. *)
Lemma run_quiesce_ctxs lat isl me l h s : engine_idles lat isl me h ->
  Forall (fun c => 0 <= c < 8) l -> forall ce g, Forall (quiet isl me) g ->
  exists ce' g', for_fold l ce (quiesce_ctx isl me) (with_bus (g ++ h) s) =
      Some (ce', with_bus (g' ++ g ++ h) s) /\
    Forall (quiet isl me) g' /\
    ((exists ws, length ws = length l /\ Forall waits ws /\ ce' = ce /\ g' = ctx_checks isl me l ws) \/
     (has ce' 0xff00 = true /\
      (writes (ct_csr_addr isl me ME_CSR_CTX_ENABLES) g < lat)%nat)) /\
    (has ce 0xff00 = true -> has ce' 0xff00 = true).
Proof.
  intros Hidle Hl. induction Hl as [|c l Hc Hl IH]; intros ce g Hg.
  - exists ce, []. split; [done|]. split; [done|]. split; [|done]. left. by exists [].
  - cbn [for_fold]. erewrite run_some by apply run_quiesce_ctx. cbv beta zeta.
    set (P := CtWrite _ (u32 c)). set (w := u32 _).
    set (ce1 := if has w wkp_events then ce else Z.lor ce (Z.shiftl 1 (8 + c))).
    set (R := CtRead _ w).
    assert (HRP : Forall (quiet isl me) [R; P]) by (constructor; [by right|by repeat constructor; right]).
    destruct (IH ce1 ([R; P] ++ g)) as (ce' & g' & Hrun & Hnu & Hcase & Hmono);
      [by apply Forall_app|].
    exists ce', (g' ++ [R; P]).
    split; [|split; [|split]].
    + by rewrite <- !app_assoc in *.
    + by apply Forall_app.
    + assert (Hlt : (writes (ct_csr_addr isl me ME_CSR_CTX_ENABLES) g < lat)%nat \/ waits w).
      { destruct (decide (waits w)); [by right|]. left.
        destruct (decide (lat <= writes (ct_csr_addr isl me ME_CSR_CTX_ENABLES) ([P] ++ g))%nat)
          as [Hle|Hgt].
        - apply Hidle in Hle; [done|]. constructor; [by right|done].
        - rewrite writes_app in Hgt. simpl in Hgt. case_match; lia. }
      destruct Hcase as [(ws & Hlen & Hws & Hce & Hg')|(Hhas & Hlt')].
      * subst ce1. unfold waits in Hlt. destruct (has w wkp_events) eqn:Hw.
        -- left. exists (w :: ws). simpl. rewrite Hlen. split; [done|].
           split; [by constructor|]. split; [done|]. by rewrite Hg'.
        -- right. split; [|by destruct Hlt]. rewrite Hce. by apply has_lor_r, enable_bit.
      * right. split; [done|]. rewrite writes_app in Hlt'. simpl in Hlt'. case_match; lia.
    + intros Hce. apply Hmono. unfold ce1. case_match; [done|]. by apply has_lor_l.
Qed.

(** The last pass: the contexts are disabled and all of them wait. *)
Definition idle_pass (isl me en : Z) (ws : list Z) : list bus_event :=
  ctx_checks isl me contexts ws ++
  [Sleep 250; CtWrite (ct_csr_addr isl me ME_CSR_CTX_ENABLES) (Z.land en 0xffff00ff);
   CtRead (ct_csr_addr isl me ME_CSR_CTX_ENABLES) en].

Lemma run_quiesce lat isl me h s : engine_idles lat isl me h ->
  forall fuel k pre, (lat < fuel + 2 * k)%nat -> (2 * k <= lat)%nat ->
  (2 * k <= writes (ct_csr_addr isl me ME_CSR_CTX_ENABLES) pre)%nat ->
  Forall (quiet isl me) pre ->
  exists pre' en ws, quiesce fuel isl me (with_bus (pre ++ h) s) =
      Some (tt, with_bus (idle_pass isl me en ws ++ pre' ++ h) s) /\
    length ws = 4%nat /\ Forall waits ws /\ Forall (quiet isl me) pre'.
Proof.
  intros Hidle. induction fuel as [|fuel IH]; intros k pre Hf Hk Hw Hpre; [lia|].
  cbn [quiesce]. erewrite run_some by apply run_ct_read_csr. cbv beta zeta.
  set (en := u32 _). erewrite run_some by apply run_ct_write_csr. cbv beta.
  rewrite wrap_small by (apply fits_land_r; [lia|by split]).
  unfold sleep. erewrite run_some by apply run_emit. cbv beta.
  set (first := [Sleep 250; CtWrite (ct_csr_addr isl me ME_CSR_CTX_ENABLES) (Z.land en 0xffff00ff);
    CtRead (ct_csr_addr isl me ME_CSR_CTX_ENABLES) en]).
  change (Sleep 250 :: _ :: _ :: pre ++ h) with ((first ++ pre) ++ h).
  assert (Hfirst : Forall (quiet isl me) first).
  { constructor; [done|]. constructor; [by left|]. constructor; [by left|done]. }
  destruct (run_quiesce_ctxs lat isl me contexts h s Hidle ltac:(repeat constructor; lia)
    (Z.land en 0xffff00ff) (first ++ pre) ltac:(by apply Forall_app)) as (ce & g & Hrun & Hnu & Hcase & _).
  erewrite run_some by exact Hrun. cbv beta.
  destruct Hcase as [(ws & Hlen & Hws & -> & ->)|(Hhas & Hlt)].
  - assert (Hoff : has (Z.land en 0xffff00ff) 0xff00 = false).
    { unfold has. rewrite <- Z.land_assoc. change (Z.land 0xffff00ff 0xff00) with 0.
      by rewrite Z.land_0_r. }
    rewrite Hoff. exists pre, en, ws. split; [|by repeat split].
    unfold idle_pass. by rewrite <- !app_assoc.
  - rewrite Hhas. erewrite run_some by apply run_ct_write_csr. cbv beta.
    erewrite run_some by apply run_emit. cbv beta.
    assert (HwA : (S (writes (ct_csr_addr isl me ME_CSR_CTX_ENABLES) pre) <=
      writes (ct_csr_addr isl me ME_CSR_CTX_ENABLES) (first ++ pre))%nat).
    { rewrite writes_app. unfold first. simpl. rewrite Z.eqb_refl. lia. }
    set (A := ct_csr_addr isl me ME_CSR_CTX_ENABLES) in *.
    rewrite (app_assoc g).
    apply (IH (S k) (Sleep 1000 :: CtWrite A (u32 ce) :: g ++ first ++ pre)).
    + lia.
    + lia.
    + cbn [writes app]. rewrite Z.eqb_refl, writes_app. lia.
    + constructor; [done|]. constructor; [by left|].
      repeat (apply Forall_app; split); done.
Qed.

(** ** The program words *)

(** Where the loop reads word [k], for a start at [addr_hi], [8 * lo]. *)
Definition bpf_hi (addr_hi lo k : Z) : Z := u32 (addr_hi + Z.max 0 (lo + k + 1 - 2 ^ 29)).
Definition bpf_lo (lo k : Z) : Z := u32 (8 * (lo + k)).

(** The accesses that load the words [ds], the first of them number [k]. *)
Fixpoint load_trace (isl me addr_hi lo k : Z) (ds : list (Z * Z)) : list bus_event :=
  match ds with
  | [] => []
  | d :: ds => load_trace isl me addr_hi lo (k + 1) ds ++
      [CtWrite (ct_csr_addr isl me ME_CSR_USTORE_DATA_HI) d.2;
       CtWrite (ct_csr_addr isl me ME_CSR_USTORE_DATA_LO) d.1;
       PcieRead 4 PCIE_CPP2PCIE_BPF_LOAD (bpf_hi addr_hi lo k) (bpf_lo lo k) [d.1; d.2]]
  end.

Lemma run_pcie_read2 isl idx hi lo h s : exists d0 d1, fits 32 d0 /\ fits 32 d1 /\
  pcie_read isl idx hi lo 2 (with_bus h s) =
    Some ([d0; d1], with_bus (PcieRead isl idx hi lo [d0; d1] :: h) s).
Proof.
  exists (u32 (pcie_dev h isl idx hi lo 0)), (u32 (pcie_dev h isl idx hi lo 1)).
  split; [by apply wrap_fits|]. split; [by apply wrap_fits|]. done.
Qed.

Lemma bpf_hi_step addr_hi lo k : 0 <= lo + k + 1 < 2 ^ 30 ->
  u32 (bpf_hi addr_hi lo k + Z.shiftr (lo + k + 1) 29) = bpf_hi addr_hi lo (k + 1).
Proof.
  intros Hk. unfold bpf_hi, wrap. rewrite Zplus_mod_idemp_l. f_equal.
  rewrite Z.shiftr_div_pow2 by lia.
  destruct (decide (lo + k + 1 < 2 ^ 29)).
  - rewrite Z.div_small by lia. lia.
  - assert ((lo + k + 1) / 2 ^ 29 = 1) as ->; [|lia].
    symmetry. apply (Z.div_unique _ _ _ (lo + k + 1 - 2 ^ 29)); lia.
Qed.

Lemma run_load_words isl me addr_hi lo s n : 0 <= lo -> forall k h,
  0 <= k -> lo + k + Z.of_nat n < 2 ^ 30 - 1 ->
  exists ds, load_words n isl me (bpf_hi addr_hi lo k) (lo + k) (with_bus h s) =
      Some (tt, with_bus (load_trace isl me addr_hi lo k ds ++ h) s) /\ length ds = n /\
    Forall (fun d => fits 32 d.1 /\ fits 32 d.2) ds.
Proof.
  intros Hlo. induction n as [|n IH]; intros k h Hk Hn.
  - by exists [].
  - cbn [load_words].
    assert (Hshl : u32 (Z.shiftl (lo + k) 3) = bpf_lo lo k).
    { unfold bpf_lo. rewrite Z.shiftl_mul_pow2 by lia. f_equal. lia. }
    rewrite Hshl.
    destruct (run_pcie_read2 4 PCIE_CPP2PCIE_BPF_LOAD (bpf_hi addr_hi lo k) (bpf_lo lo k) h s)
      as (d0 & d1 & Hd0 & Hd1 & Hrun).
    erewrite run_some by exact Hrun. cbv beta zeta. simpl of_option. rewrite run_ret.
    erewrite run_some by apply run_ct_write_csr. cbv beta. rewrite run_ret.
    erewrite run_some by apply run_ct_write_csr. cbv beta. rewrite (wrap_small 32 d0), (wrap_small 32 d1) by done.
    rewrite (wrap_small 32 (lo + k + 1)) by (unfold fits; lia).
    rewrite bpf_hi_step by lia.
    replace (lo + k + 1) with (lo + (k + 1)) by lia.
    edestruct (IH (k + 1)) as (ds & Hload & Hlen & Hfit); [lia|lia|].
    exists ((d0, d1) :: ds). rewrite Hload. simpl. rewrite Hlen, <- app_assoc.
    split; [done|]. split; [done|]. by constructor.
Qed.

(** The run of update_bpf_me, with its trace *)
Lemma run_update_bpf_me lat fuel bar_base vnic me_id s :
  let isl := Z.shiftr me_id 4 in
  let me := Z.land me_id 0xf in
  let cfg := rd (emem s) in
  let a := bar_base + NFP_NET_CFG_BPF_SIZE - 2 in
  let reg := ct_csr_addr isl me in
  engine_idles lat isl me (asked_quiesce isl me (bus s)) -> (lat < fuel)%nat ->
  fits 32 (cfg a) -> fits 32 (cfg (a + 4)) -> fits 32 (cfg (a + 8)) ->
  exists pre en ws ds e,
    update_bpf_me fuel bar_base vnic me_id s = Some (tt, s <| bus :=
      (CtSignal <$> [ct_signal_addr isl me 6 PKT_IO_SIG_RESUME;
                     ct_signal_addr isl me 4 PKT_IO_SIG_RESUME;
                     ct_signal_addr isl me 2 PKT_IO_SIG_RESUME;
                     ct_signal_addr isl me 0 PKT_IO_SIG_RESUME]) ++
      Sleep 500 :: CtWrite (reg ME_CSR_CTX_ENABLES) (Z.lor e 0x5500) ::
      CtRead (reg ME_CSR_CTX_ENABLES) e :: Sleep 500 ::
      CtWrite (reg ME_CSR_USTORE_ADDR) 0 ::
      load_trace isl me (cfg (a + 8)) (Z.shiftr (cfg (a + 4)) 3) 0 ds ++
      CtWrite (reg ME_CSR_USTORE_ADDR)
        (u32 (0x80000000 + NFD_BPF_START_OFF + vnic * NFD_BPF_MAX_LEN)) ::
      BarCfgSet 0 PCIE_CPP2PCIE_BPF_LOAD (cfg (a + 8)) (cfg (a + 4)) 0 ::
      idle_pass isl me en ws ++ pre ++ bus s |>) /\
    Forall (not_ustore isl me) pre /\
    length ws = 4%nat /\ Forall waits ws /\
    Z.of_nat (length ds) = Z.shiftr (cfg a) 16.
Proof.
  intros isl me cfg a reg Hidle Hf Ha Ha4 Ha8.
  assert (Hw : fits 16 (Z.shiftr (cfg a) 16)) by by apply fits_shiftr.
  assert (Hlo : fits 29 (Z.shiftr (cfg (a + 4)) 3)) by by apply fits_shiftr.
  unfold update_bpf_me. cbv zeta. fold isl me a.
  set (q := asked_quiesce isl me (bus s)) in Hidle.
  assert (Hsig : for_each contexts (fun ctx =>
      _ ← ct_signal isl me ctx PKT_IO_SIG_QUIESCE_NBI;
      ct_signal isl me ctx PKT_IO_SIG_QUIESCE_NFD) s = Some (tt, with_bus (tail q) s))
    by reflexivity.
  erewrite run_some by exact Hsig. cbv beta.
  unfold sleep. erewrite run_some by apply run_emit. cbv beta.
  destruct (run_quiesce lat isl me q s Hidle fuel 0 [])
    as (pre0 & en & ws & Hq & Hlen & Hws & Hpre0); [lia|lia|simpl; lia|by constructor|].
  assert (Hpre : exists g, q = g ++ bus s /\ Forall (not_ustore isl me) g).
  { eexists (_ :: _ :: _ :: _ :: _ :: _ :: _ :: _ :: [_]). split; [reflexivity|]. by repeat constructor. }
  destruct Hpre as (g & Hg & Hpre). set (pre := pre0 ++ g).
  replace (pre0 ++ q) with (pre ++ bus s) in Hq by (unfold pre; by rewrite <- app_assoc, Hg).
  assert (Hpre' : Forall (not_ustore isl me) pre).
  { apply Forall_app; split; [|done]. eapply List.Forall_impl; [apply quiet_not_ustore|exact Hpre0]. }
  change (Sleep 10000 :: tail q) with ([] ++ q).
  erewrite run_some by exact Hq. cbv beta.
  unfold mem_read32s. rewrite run_get. unfold words. simpl fmap.
  replace (a + 4 * Z.of_nat 0) with a by lia.
  change (emem (with_bus (idle_pass isl me en ws ++ pre ++ bus s) s)) with (emem s).
  fold cfg. simpl of_option. runs.
  change (a + 4 * Z.of_nat 1) with (a + 4). change (a + 4 * Z.of_nat 2) with (a + 8).
  erewrite run_some by apply run_emit. cbv beta.
  erewrite run_some by apply run_ct_write_csr. cbv beta.
  assert (Hhi : bpf_hi (cfg (a + 8)) (Z.shiftr (cfg (a + 4)) 3) 0 = cfg (a + 8)).
  { unfold bpf_hi. destruct Hlo. rewrite Z.max_l, Z.add_0_r by lia. by apply wrap_small. }
  edestruct (run_load_words isl me (cfg (a + 8)) (Z.shiftr (cfg (a + 4)) 3) s
    (Z.to_nat (Z.shiftr (cfg a) 16))) as (ds & Hload & Hds & _); [by destruct Hlo|done| |].
  { destruct Hlo, Hw. lia. }
  rewrite Hhi, Z.add_0_r in Hload. erewrite run_some by exact Hload. cbv beta.
  erewrite run_some by apply run_ct_write_csr. cbv beta.
  erewrite run_some by apply run_emit. cbv beta.
  erewrite run_some by apply run_ct_read_csr. cbv beta zeta. set (e := u32 (ct_dev _ _)).
  erewrite run_some by apply run_ct_write_csr. cbv beta.
  erewrite run_some by apply run_emit. cbv beta.
  rewrite (wrap_small 32 (Z.lor e 0x5500))
    by (apply fits_lor; [lia|by apply wrap_fits|by split]).
  exists pre, en, ws, ds, e. split; [done|]. repeat (split; [done|]).
  rewrite Hds. destruct Hw. lia.
Qed.

(** C37: update_bpf_prog loads the program into an engine only while the engine
    stands still.  When the contexts answer the request to go quiescent, that is,
    they wait once the loop has disabled them [lat] times after the signals, the
    call returns; no code store register is written before the last pass,
    which disables all contexts and then finds each of the four waiting for
    an epoch or resume signal; after it as many words as the BAR says are read
    from host memory and written in that order from the start address of the
    vNIC's program; then code store writing is turned off, the contexts are
    enabled again and get the resume signal.  The words are read at the
    addresses [bpf_hi], [bpf_lo]: one after the other up to the first word beyond
    a 4 GB boundary; from the next one on they are too high, by one more 4 GB for
    each word, since the carry is added again every time
    (load_words_addresses). *)
Theorem update_bpf_me_correct lat fuel bar_base vnic me_id s :
  let isl := Z.shiftr me_id 4 in
  let me := Z.land me_id 0xf in
  let cfg := rd (emem s) in
  let a := bar_base + NFP_NET_CFG_BPF_SIZE - 2 in
  let reg := ct_csr_addr isl me in
  engine_idles lat isl me (asked_quiesce isl me (bus s)) -> (lat < fuel)%nat ->
  fits 32 (cfg a) -> fits 32 (cfg (a + 4)) -> fits 32 (cfg (a + 8)) ->
  exists pre en ws ds e,
    update_bpf_me fuel bar_base vnic me_id s = Some (tt, s <| bus :=
      (CtSignal <$> [ct_signal_addr isl me 6 PKT_IO_SIG_RESUME;
                     ct_signal_addr isl me 4 PKT_IO_SIG_RESUME;
                     ct_signal_addr isl me 2 PKT_IO_SIG_RESUME;
                     ct_signal_addr isl me 0 PKT_IO_SIG_RESUME]) ++
      Sleep 500 :: CtWrite (reg ME_CSR_CTX_ENABLES) (Z.lor e 0x5500) ::
      CtRead (reg ME_CSR_CTX_ENABLES) e :: Sleep 500 ::
      CtWrite (reg ME_CSR_USTORE_ADDR) 0 ::
      load_trace isl me (cfg (a + 8)) (Z.shiftr (cfg (a + 4)) 3) 0 ds ++
      CtWrite (reg ME_CSR_USTORE_ADDR)
        (u32 (0x80000000 + NFD_BPF_START_OFF + vnic * NFD_BPF_MAX_LEN)) ::
      BarCfgSet 0 PCIE_CPP2PCIE_BPF_LOAD (cfg (a + 8)) (cfg (a + 4)) 0 ::
      idle_pass isl me en ws ++ pre ++ bus s |>) /\
    Forall (not_ustore isl me) pre /\
    length ws = 4%nat /\ Forall waits ws /\
    Z.of_nat (length ds) = Z.shiftr (cfg a) 16.
Proof. apply run_update_bpf_me. Qed.

(** The closed form of the addresses, below and beyond a 4 GB boundary. *)
Lemma bpf_load_address addr_hi lo k :
  0 <= addr_hi -> addr_hi + 2 ^ 16 < 2 ^ 32 -> fits 29 lo -> 0 <= k < 2 ^ 16 ->
  let read := bpf_hi addr_hi lo k * 2 ^ 32 + bpf_lo lo k in
  let wanted := addr_hi * 2 ^ 32 + 8 * lo + 8 * k in
  (lo + k <= 2 ^ 29 - 1 -> read = wanted) /\
  (2 ^ 29 <= lo + k -> read = wanted + (lo + k - 2 ^ 29) * 2 ^ 32).
Proof.
  intros Hhi Hmax [Hlo Hlo'] Hk read wanted. subst read wanted.
  unfold bpf_hi, bpf_lo. split; intros Hc.
  - rewrite Z.max_l, Z.add_0_r by lia.
    rewrite !wrap_small by (unfold fits; lia). lia.
  - rewrite Z.max_r by lia. rewrite (wrap_small 32 (addr_hi + _)) by (unfold fits; lia).
    assert (u32 (8 * (lo + k)) = 8 * (lo + k) - 2 ^ 32) as ->; [|lia].
    unfold wrap. symmetry. apply (Z.mod_unique _ _ 1); lia.
Qed.

(** The 64-bit host addresses that were read, the first read first. *)
Fixpoint pcie_addrs (h : list bus_event) : list Z :=
  match h with
  | PcieRead _ _ hi lo _ :: h => pcie_addrs h ++ [hi * 2 ^ 32 + lo]
  | _ :: h => pcie_addrs h
  | [] => []
  end.

Lemma pcie_addrs_app h1 h2 : pcie_addrs (h1 ++ h2) = pcie_addrs h2 ++ pcie_addrs h1.
Proof.
  induction h1 as [|[] h1 IH]; simpl; try done; [by rewrite app_nil_r|].
  by rewrite IH, app_assoc.
Qed.

Lemma load_trace_addrs isl me addr_hi lo ds : forall k,
  pcie_addrs (load_trace isl me addr_hi lo k ds) =
  (fun j => bpf_hi addr_hi lo j * 2 ^ 32 + bpf_lo lo j) <$> seqZ k (Z.of_nat (length ds)).
Proof.
  induction ds as [|d ds IH]; intros k; [done|].
  cbn [load_trace length]. rewrite pcie_addrs_app, IH, (seqZ_cons k) by lia.
  simpl. f_equal. f_equal. f_equal. lia.
Qed.

(** The host addresses that the load of a program reads.  Word k of a
    program that starts at address A (a multiple of 8) is read from A + 8k
    until the reads pass a multiple of 4 GB, the first word beyond it
    included.  But the carry out of the low half is added again for every
    further word, because the low half keeps its carry bit: word k of a
    program that crosses the boundary is read from an address that is too
    high by 4 GB for each word after the first beyond the boundary. *)
Theorem load_words_addresses isl me addr_hi lo n s :
  0 <= addr_hi -> addr_hi + 2 ^ 16 < 2 ^ 32 -> fits 29 lo -> Z.of_nat n < 2 ^ 16 ->
  exists h, load_words n isl me addr_hi lo s = Some (tt, s <| bus := h ++ bus s |>) /\
    pcie_addrs h = (fun k =>
      let wanted := addr_hi * 2 ^ 32 + 8 * lo + 8 * k in
      if lo + k <=? 2 ^ 29 then wanted else wanted + (lo + k - 2 ^ 29) * 2 ^ 32)
      <$> seqZ 0 (Z.of_nat n).
Proof.
  intros Hhi Hmax Hlo Hn.
  assert (Hhi0 : bpf_hi addr_hi lo 0 = addr_hi).
  { unfold bpf_hi. destruct Hlo. rewrite Z.max_l, Z.add_0_r by lia. apply wrap_small. by split; lia. }
  destruct (run_load_words isl me addr_hi lo s n ltac:(by destruct Hlo) 0 (bus s))
    as (ds & Hload & Hlen & _); [lia|destruct Hlo; lia|].
  rewrite Hhi0, Z.add_0_r, with_bus_self in Hload.
  eexists. split; [exact Hload|]. rewrite load_trace_addrs, Hlen.
  apply list_fmap_ext. intros i k Hk%list_elem_of_lookup_2%elem_of_seqZ. cbv zeta.
  destruct (bpf_load_address addr_hi lo k Hhi Hmax Hlo ltac:(lia)) as [Hlow Hhigh].
  destruct (Z.leb_spec (lo + k) (2 ^ 29)).
  - destruct (decide (lo + k <= 2 ^ 29 - 1)); [by apply Hlow|].
    rewrite Hhigh by lia. assert (lo + k = 2 ^ 29) as -> by lia. lia.
  - apply Hhigh. lia.
Qed.
End proofs.

(** ** Engines for the checks on concrete inputs *)

Module Engines.

(** The contexts wait after the third write of an enable register. *)
Fixpoint enable_writes (h : list bus_event) : nat :=
  match h with
  | CtWrite a _ :: h =>
      if bf_get 0 10 a =? ME_CSR_CTX_ENABLES then S (enable_writes h) else enable_writes h
  | _ :: h => enable_writes h
  | [] => 0
  end.

#[export] Instance devices : Devices := {|
  xpb_dev := fun h addr => 0;
  ct_dev := fun h addr =>
    if bf_get 0 10 addr =? ME_CSR_IND_CTX_WKP_EVT
    then (if (3 <=? enable_writes h)%nat then 2 ^ 12 else 0) else 0x5500;
  pcie_dev := fun h isl idx addr_hi addr_lo i => addr_lo + Z.of_nat i;
  msix_dev := fun h pcie bar entry automask => 0;
  tmq_dev := fun h nbi queue => 0;
  cfg_msg_dev := fun h pcie => None |}.

#[export] Instance bpf_cfg : BpfCfg :=
  {| NFP_NET_CFG_BPF_SIZE := 0x8e; PCIE_CPP2PCIE_BPF_LOAD := 5 |}.

Lemma csr_low isl me c : fits 10 c -> bf_get 0 10 (ct_csr_addr isl me c) = c.
Proof.
  intros Hc. unfold bf_get, ct_csr_addr. rewrite Z.shiftr_0_r, wrap_wrap by lia. zbits.
Qed.

Lemma idles isl me h : engine_idles 3 isl me h.
Proof.
  intros h' _ Hw. unfold waits. cbn [ct_dev devices]. rewrite csr_low, Z.eqb_refl by by split.
  assert (Hle : (writes (ct_csr_addr isl me ME_CSR_CTX_ENABLES) h' <= enable_writes (h' ++ h))%nat).
  { clear Hw. induction h' as [|[] h' IH]; simpl; try done; [lia|].
    destruct (Z.eqb_spec addr (ct_csr_addr isl me ME_CSR_CTX_ENABLES)) as [->|].
    - rewrite csr_low by by split. simpl. lia.
    - case_match; lia. }
  rewrite (proj2 (Nat.leb_le 3 _)) by lia. by vm_compute.
Qed.
End Engines.

Section checks.
Import Demo Engines.

(** A program of two words at address 4 GB - 16. *)
Definition bpf_state : nic :=
  nic0 <| emem := <[0x8c := Z.shiftl 2 16]> (<[0x90 := 0xfffffff0]> (<[0x94 := 7]> ∅)) |>.

Lemma update_bpf_me_correct_witness :
  exists s', update_bpf_me 4 0 0 0x204 bpf_state = Some (tt, s').
Proof.
  destruct (update_bpf_me_correct 3 4 0 0 0x204 bpf_state) as (pre & en & ws & ds & e & Hrun & _);
    [apply idles|lia|by vm_compute|by vm_compute|by vm_compute|].
  eexists. exact Hrun.
Defined.

Lemma load_words_addresses_witness :
  exists h s', load_words 4 0x20 4 7 (2 ^ 29 - 2) nic0 = Some (tt, s') /\ bus s' = h /\
    pcie_addrs h = [8 * 2 ^ 32 - 16; 8 * 2 ^ 32 - 8; 8 * 2 ^ 32; 9 * 2 ^ 32 + 8].
Proof.
  destruct (load_words_addresses 0x20 4 7 (2 ^ 29 - 2) 4 nic0) as (h & Hrun & Haddr);
    [lia|lia|unfold fits; lia|lia|].
  exists (h ++ bus nic0). eexists. split; [exact Hrun|]. split; [done|].
  rewrite app_nil_r, Haddr. reflexivity.
Defined.
End checks.
