(* ===== verification/StatLayout.v ===== *)
(** * Layout of the statistics: scripts/nic_stats.awk and lib/nic_basic/nic_stats.def

    The build generates a header from the list of counters in nic_stats.def: the
    number of each counter of a queue, the fields of a structure for each vNIC,
    and a mask that says which fields belong to a counter.  The script is small
    enough to be modelled, so the layout here is what it computes. *)

From S2P Require Import Prelude.
From stdpp Require Import strings.

Local Open Scope string_scope.
Local Open Scope Z_scope.

(** The file nic_stats.def: blank lines separate groups of counters. *)
Definition nic_stats_file : list string :=
  ["rx"; "rx_uc"; "rx_mc"; "rx_bc"; "";
   "tx"; "tx_uc"; "tx_mc"; "tx_bc"; "";
   "rx_discards"; "rx_discard_act"; "rx_discard_addr"; "rx_discard_mru"; "rx_discard_pci"; "";
   "rx_errors"; "rx_error_veb"; "";
   "tx_discards"; "tx_discard_act"; "";
   "tx_errors"; "tx_error_lso"; "tx_error_offset"; "tx_error_mtu"; "tx_error_pci";
   "tx_error_no_ctm"; "";
   "rx_discard_mac_pkts"; "rx_error_mac_pkts"; "tx_discard_mac_pkts"; "tx_error_mac_pkts"; "";
   "error_pkt_stack"; "";
   "bpf_pass"; "bpf_discard"; "bpf_tx"; "bpf_abort"; "bpf_redirect"].

(** The counters that it lists *)
Definition nic_stats_def : list string :=
  ["rx"; "rx_uc"; "rx_mc"; "rx_bc";
   "tx"; "tx_uc"; "tx_mc"; "tx_bc";
   "rx_discards"; "rx_discard_act"; "rx_discard_addr"; "rx_discard_mru"; "rx_discard_pci";
   "rx_errors"; "rx_error_veb";
   "tx_discards"; "tx_discard_act";
   "tx_errors"; "tx_error_lso"; "tx_error_offset"; "tx_error_mtu"; "tx_error_pci";
   "tx_error_no_ctm";
   "rx_discard_mac_pkts"; "rx_error_mac_pkts"; "tx_discard_mac_pkts"; "tx_error_mac_pkts";
   "error_pkt_stack";
   "bpf_pass"; "bpf_discard"; "bpf_tx"; "bpf_abort"; "bpf_redirect"].

(** ** The script *)

(** [match(s, /suf$/)] *)
Definition ends_in (suf s : string) : bool :=
  let n := (String.length s - String.length suf)%nat in
  (String.length suf <=? String.length s)%nat &&
  String.eqb (String.substring n (String.length suf) s) suf.

(** [substr(s, 1, length(s) - n)] *)
Definition cut (n : nat) (s : string) : string := String.substring 0 (String.length s - n) s.

(** [/^[ \t]*$/] *)
Fixpoint blank (line : string) : bool :=
  match line with
  | EmptyString => true
  | String c line => (Ascii.eqb c (Ascii.ascii_of_nat 32) || Ascii.eqb c (Ascii.ascii_of_nat 9)) && blank line
  end.

(** The lines that the script takes: it skips blank lines, and a line of 25 or
    more characters makes it exit with status 1, which fails the build. *)
Fixpoint counters (lines : list string) : option (list string) :=
  match lines with
  | [] => Some []
  | line :: lines =>
      if blank line then counters lines
      else if (25 <=? String.length line)%nat then None
      else def ← counters lines; Some (line :: def)
  end.

(** [MASK] and [DATA] of a line *)
Definition stat_mask (line : string) : Z :=
  if ends_in "_pkts" line then 1
  else if ends_in "_errors" line || ends_in "_discards" line then 5
  else if ends_in "_bytes" line then 2
  else 3.

Definition stat_name (line : string) : string :=
  if ends_in "_pkts" line then cut 5 line
  else if ends_in "_errors" line || ends_in "_discards" line then line
  else if ends_in "_bytes" line then cut 6 line
  else line.

(** What the line adds to [VNIC_COUNT] *)
Definition stat_count (line : string) : Z := if stat_mask line =? 3 then 2 else 1.

(** [8 * 2 ^ x] with the logarithm of the number of entries rounded up *)
Definition table_size (n : Z) : Z := 8 * 2 ^ Z.log2_up n.

(** The fields that the script prints for a line *)
Definition stat_fields (line : string) : list string :=
  if has (stat_mask line) 4 then [stat_name line]
  else (if has (stat_mask line) 1 then [stat_name line ++ "_pkts"] else []) ++
       (if has (stat_mask line) 2 then [stat_name line ++ "_bytes"] else []).

(** Position of a name in a list *)
Fixpoint position (x : string) (l : list string) : nat :=
  match l with
  | [] => 0
  | y :: l => if String.eqb x y then 0 else S (position x l)
  end.

Section script.
Context (def : list string).

Definition stat_names : list string := stat_name <$> def.
Definition vnic_fields : list string := def ≫= stat_fields.
Definition QUEUE_COUNT : Z := Z.of_nat (length def).
Definition VNIC_COUNT : Z := foldr (fun line n => stat_count line + n) 0 def.
Definition stats_mask : list Z := (fun line => Z.land (stat_mask line) 3) <$> def.
Definition queue_idx (name : string) : nat := position name stat_names.
Definition vnic_idx (field : string) : nat := position field vnic_fields.
End script.

(** ** The header *)

Definition NIC_STATS_QUEUE_COUNT : Z := Eval vm_compute in QUEUE_COUNT nic_stats_def.
Definition NIC_STATS_VNIC_COUNT : Z := Eval vm_compute in VNIC_COUNT nic_stats_def.
Definition NIC_STATS_QUEUE_SIZE : Z := Eval vm_compute in table_size (QUEUE_COUNT nic_stats_def).
Definition NIC_STATS_VNIC_SIZE : Z := Eval vm_compute in table_size (VNIC_COUNT nic_stats_def).
Definition NIC_STATS_VNIC_MASK_PKTS : Z := 1.
Definition NIC_STATS_VNIC_MASK_BYTES : Z := 2.
Definition nic_stats_vnic_mask : list Z := Eval vm_compute in stats_mask nic_stats_def.

(** [NIC_STATS_QUEUE_<name>_IDX], and the place of a field in [__raw] *)
Definition QUEUE_IDX (name : string) : Z := Z.of_nat (queue_idx nic_stats_def name).
Definition field (name : string) : nat := vnic_idx nic_stats_def name.

(** * Properties *)

(** Where the fields of the counter [i] begin *)
Definition first_field (i : nat) : nat := length (vnic_fields (take i nic_stats_def)).

(** C19: the generated layout is well formed.  The script accepts the list: no
    name is too long.  Names of counters and of fields
    are distinct, the tables have room for them, and the mask of a counter says
    which fields follow those of the counters before it: first its packets, then
    its bytes; this is how the accumulation finds them. *)
Theorem stat_layout_ok :
  counters nic_stats_file = Some nic_stats_def /\
  NoDup (stat_names nic_stats_def) /\ NoDup (vnic_fields nic_stats_def) /\
  Z.of_nat (length (vnic_fields nic_stats_def)) = NIC_STATS_VNIC_COUNT /\
  8 * NIC_STATS_QUEUE_COUNT <= NIC_STATS_QUEUE_SIZE /\
  8 * NIC_STATS_VNIC_COUNT <= NIC_STATS_VNIC_SIZE /\
  (forall i line, nic_stats_def !! i = Some line ->
    exists mask, nic_stats_vnic_mask !! i = Some mask /\
      let pkts := if has mask NIC_STATS_VNIC_MASK_PKTS then 1%nat else 0%nat in
      let bytes := if has mask NIC_STATS_VNIC_MASK_BYTES then 1%nat else 0%nat in
      (pkts = 1%nat -> vnic_fields nic_stats_def !! first_field i =
        Some (if has (stat_mask line) 4 then line else (stat_name line ++ "_pkts")%string)) /\
      (bytes = 1%nat -> vnic_fields nic_stats_def !! (first_field i + pkts)%nat =
        Some (stat_name line ++ "_bytes")%string) /\
      first_field (S i) = (first_field i + pkts + bytes)%nat).
Proof.
  split; [reflexivity|].
  split; [by apply (bool_decide_unpack _); vm_compute|].
  split; [by apply (bool_decide_unpack _); vm_compute|].
  split; [done|]. split; [by vm_compute|]. split; [by vm_compute|].
  intros i line Hl. pose proof (lookup_lt_Some _ _ _ Hl) as Hlt. change (i < 33)%nat in Hlt.
  do 33 (destruct i as [|i];
    [injection Hl as <-; eexists; split; [reflexivity|]; repeat split; intros; by vm_compute|]). lia.
Qed.
