(* ===== verification/Stats.v ===== *)
(** * Statistics: lib/nic_basic/_c/nic_stats.c

    Workers count packets and bytes of each queue in counters that are read and
    cleared; the MAC and the traffic manager have counters of their own.  One
    context of the master adds them up in 64-bit statistics: of the MAC, for
    each port, and of each vNIC, which also go to its configuration BAR.

    The context has a state of its own here: it shares with the other contexts
    the memory only, where it writes the statistics areas. *)

From S2P Require Import Prelude Platform UserCfg Nfd Machine Nbi Bpf StatLayout.
From stdpp Require Import strings.

Local Open Scope Z_scope.


(** Readings of counters, newest first in the state *)
Inductive cntr_read : Type :=
  | HeadDropAccum
  | PortAccum (nbi channel : Z)
  | TmqCnt (nbi queue count : Z)
  | PktCntr (index counter pkts bytes : Z).

(** [mac_drops_t] and [nfd_qstats_t] *)
Record mac_drops_t := mk_mac_drops {
  mac_rx_discards : Z; mac_tx_discards : Z; mac_rx_errors : Z; mac_tx_errors : Z
}.

#[export] Instance set_mac_rx_discards : Setter mac_rx_discards := _.
#[export] Instance set_mac_tx_discards : Setter mac_tx_discards := _.
#[export] Instance set_mac_rx_errors : Setter mac_rx_errors := _.
#[export] Instance set_mac_tx_errors : Setter mac_tx_errors := _.

Record nfd_qstats_t := mk_qstats {
  q_rx_pkts : Z; q_rx_bytes : Z; q_tx_pkts : Z; q_tx_bytes : Z
}.

#[export] Instance set_q_rx_pkts : Setter q_rx_pkts := _.
#[export] Instance set_q_rx_bytes : Setter q_rx_bytes := _.
#[export] Instance set_q_tx_pkts : Setter q_tx_pkts := _.
#[export] Instance set_q_tx_bytes : Setter q_tx_bytes := _.

(** The state of the context: external memory in 32-bit words; [_mac_stats] and
    [_mac_stats_head_drop], the values of the counters that the library
    accumulates; [_mac_drops]; [_vnic_stats.__raw]; what was read. *)
Record stats := mk_stats {
  smem : gmap Z Z;
  _mac_stats : gmap Z (list Z);
  _mac_stats_head_drop : list Z;
  _mac_drops : gmap Z mac_drops_t;
  _vnic_stats : list Z;
  reads : list cntr_read
}.

#[export] Instance set_smem : Setter smem := _.
#[export] Instance set_mac_stats : Setter _mac_stats := _.
#[export] Instance set_head_drop : Setter _mac_stats_head_drop := _.
#[export] Instance set_mac_drops : Setter _mac_drops := _.
#[export] Instance set_vnic_stats : Setter _vnic_stats := _.
#[export] Instance set_reads : Setter reads := _.

(** What the libraries and the linker give: [struct macstats_port_accum] as a
    number of 64-bit words and the places of four of them; the functions that
    accumulate the hardware counters, as functions of the readings so far and of
    the values accumulated; the counters of the traffic manager and of the
    queues, which a reading clears; addresses and offsets. *)
Class StatLib := {
  macstats_port_words : nat;
  RxMacHeadDrop : nat;
  TxQueueDrop : nat;
  TxPIfOutErrors : nat;
  RxPIfInErrors : nat;
  head_drop_dev : list cntr_read -> list Z -> list Z;
  port_accum_dev : list cntr_read -> Z -> Z -> list Z -> list Z;
  tmq_cnt_dev : list cntr_read -> Z -> Z -> Z;
  pkt_cntr_dev : list cntr_read -> Z -> Z -> Z * Z;
  mac_stats_addr : Z;
  nic_stats_vnic_addr : Z;
  NFP_NET_CFG_STATS_RX_DISCARDS : Z;
  NFP_NET_CFG_STATS_TX_DISCARDS : Z;
  NFP_NET_CFG_STATS_APP0_FRAMES : Z;
  NFP_NET_CFG_RXR_STATS : Z -> Z;
  NFP_NET_CFG_TXR_STATS : Z -> Z;
  NFD_VID_IS_PF : Z -> bool;
  NFD_VID2PF : Z -> Z
}.

(** ** 64-bit values

    The atomic engine keeps the lower 32-bit word of a counter first, a 64-bit
    value in registers has its upper word first: [swapw64] (nic_internal.c)
    converts. *)
Definition swapw64 (val : Z) : Z :=
  let tmp := u32 (Z.shiftr val 32) in
  u64 (u64 (Z.shiftl val 32) + tmp).

Definition regs_of (vals : list Z) : list Z :=
  vals ≫= fun v => [u32 (Z.shiftr v 32); u32 v].

(** The 64-bit values of pairs of registers *)
Definition dword_of (hi lo : Z) : Z := Z.lor (Z.shiftl hi 32) lo.

(** A 64-bit counter of the atomic engine *)
Definition counter_at (a : Z) (m : gmap Z Z) : Z := dword_of (rd m (a + 4)) (rd m a).

Abbreviation St := (M stats).

Definition smem_read64 (a : Z) (n : nat) : St (list Z) :=
  get (fun s => (fun i => dword_of (rd (smem s) (a + 8 * Z.of_nat i)) (rd (smem s) (a + 8 * Z.of_nat i + 4)))
    <$> seq 0 n).
Definition smem_write64 (a : Z) (vals : list Z) : St unit :=
  modify (fun s => s <| smem ::= mem_put a (regs_of vals) |>).

(** [__mem_add64]: each value, its words swapped, is added to a counter. *)
Definition add_counter (a : Z) (v : Z) (m : gmap Z Z) : gmap Z Z :=
  let x := u64 (counter_at a m + swapw64 v) in
  <[a + 4 := u32 (Z.shiftr x 32)]> (<[a := u32 x]> m).
Definition smem_add64 (a : Z) (vals : list Z) : St unit :=
  modify (fun s => s <| smem ::= fun m =>
    foldl (fun m iv => add_counter (a + 8 * Z.of_nat iv.1) iv.2 m) m (zip (seq 0 (length vals)) vals) |>).

(** ** Numbers of the counters, and fields of [nic_stats_vnic_t] *)

Definition NIC_STATS_QUEUE_RX_IDX : Z := Eval vm_compute in QUEUE_IDX "rx"%string.
Definition NIC_STATS_QUEUE_RX_UC_IDX : Z := Eval vm_compute in QUEUE_IDX "rx_uc"%string.
Definition NIC_STATS_QUEUE_RX_MC_IDX : Z := Eval vm_compute in QUEUE_IDX "rx_mc"%string.
Definition NIC_STATS_QUEUE_RX_BC_IDX : Z := Eval vm_compute in QUEUE_IDX "rx_bc"%string.
Definition NIC_STATS_QUEUE_TX_IDX : Z := Eval vm_compute in QUEUE_IDX "tx"%string.
Definition NIC_STATS_QUEUE_TX_UC_IDX : Z := Eval vm_compute in QUEUE_IDX "tx_uc"%string.
Definition NIC_STATS_QUEUE_TX_MC_IDX : Z := Eval vm_compute in QUEUE_IDX "tx_mc"%string.
Definition NIC_STATS_QUEUE_TX_BC_IDX : Z := Eval vm_compute in QUEUE_IDX "tx_bc"%string.
Definition NIC_STATS_QUEUE_RX_DISCARD_ACT_IDX : Z := Eval vm_compute in QUEUE_IDX "rx_discard_act"%string.
Definition NIC_STATS_QUEUE_RX_DISCARD_ADDR_IDX : Z := Eval vm_compute in QUEUE_IDX "rx_discard_addr"%string.
Definition NIC_STATS_QUEUE_RX_DISCARD_MRU_IDX : Z := Eval vm_compute in QUEUE_IDX "rx_discard_mru"%string.
Definition NIC_STATS_QUEUE_RX_DISCARD_PCI_IDX : Z := Eval vm_compute in QUEUE_IDX "rx_discard_pci"%string.
Definition NIC_STATS_QUEUE_RX_ERROR_VEB_IDX : Z := Eval vm_compute in QUEUE_IDX "rx_error_veb"%string.
Definition NIC_STATS_QUEUE_TX_DISCARD_ACT_IDX : Z := Eval vm_compute in QUEUE_IDX "tx_discard_act"%string.
Definition NIC_STATS_QUEUE_TX_ERROR_LSO_IDX : Z := Eval vm_compute in QUEUE_IDX "tx_error_lso"%string.
Definition NIC_STATS_QUEUE_TX_ERROR_OFFSET_IDX : Z := Eval vm_compute in QUEUE_IDX "tx_error_offset"%string.
Definition NIC_STATS_QUEUE_TX_ERROR_MTU_IDX : Z := Eval vm_compute in QUEUE_IDX "tx_error_mtu"%string.
Definition NIC_STATS_QUEUE_TX_ERROR_PCI_IDX : Z := Eval vm_compute in QUEUE_IDX "tx_error_pci"%string.
Definition NIC_STATS_QUEUE_TX_ERROR_NO_CTM_IDX : Z := Eval vm_compute in QUEUE_IDX "tx_error_no_ctm"%string.
Definition NIC_STATS_QUEUE_BPF_DISCARD_IDX : Z := Eval vm_compute in QUEUE_IDX "bpf_discard"%string.
Definition NIC_STATS_QUEUE_BPF_TX_IDX : Z := Eval vm_compute in QUEUE_IDX "bpf_tx"%string.

Definition rx_pkts : nat := Eval vm_compute in field "rx_pkts"%string.
Definition rx_bytes : nat := Eval vm_compute in field "rx_bytes"%string.
Definition rx_uc_pkts : nat := Eval vm_compute in field "rx_uc_pkts"%string.
Definition rx_uc_bytes : nat := Eval vm_compute in field "rx_uc_bytes"%string.
Definition rx_mc_pkts : nat := Eval vm_compute in field "rx_mc_pkts"%string.
Definition rx_mc_bytes : nat := Eval vm_compute in field "rx_mc_bytes"%string.
Definition rx_bc_pkts : nat := Eval vm_compute in field "rx_bc_pkts"%string.
Definition rx_bc_bytes : nat := Eval vm_compute in field "rx_bc_bytes"%string.
Definition tx_pkts : nat := Eval vm_compute in field "tx_pkts"%string.
Definition tx_bytes : nat := Eval vm_compute in field "tx_bytes"%string.
Definition tx_uc_pkts : nat := Eval vm_compute in field "tx_uc_pkts"%string.
Definition tx_uc_bytes : nat := Eval vm_compute in field "tx_uc_bytes"%string.
Definition tx_mc_pkts : nat := Eval vm_compute in field "tx_mc_pkts"%string.
Definition tx_mc_bytes : nat := Eval vm_compute in field "tx_mc_bytes"%string.
Definition tx_bc_pkts : nat := Eval vm_compute in field "tx_bc_pkts"%string.
Definition tx_bc_bytes : nat := Eval vm_compute in field "tx_bc_bytes"%string.
Definition rx_discards : nat := Eval vm_compute in field "rx_discards"%string.
Definition rx_discard_act_pkts : nat := Eval vm_compute in field "rx_discard_act_pkts"%string.
Definition rx_discard_act_bytes : nat := Eval vm_compute in field "rx_discard_act_bytes"%string.
Definition rx_errors : nat := Eval vm_compute in field "rx_errors"%string.
Definition tx_discards : nat := Eval vm_compute in field "tx_discards"%string.
Definition tx_discard_act_pkts : nat := Eval vm_compute in field "tx_discard_act_pkts"%string.
Definition tx_discard_act_bytes : nat := Eval vm_compute in field "tx_discard_act_bytes"%string.
Definition tx_errors : nat := Eval vm_compute in field "tx_errors"%string.
Definition rx_discard_mac_pkts : nat := Eval vm_compute in field "rx_discard_mac_pkts"%string.
Definition rx_error_mac_pkts : nat := Eval vm_compute in field "rx_error_mac_pkts"%string.
Definition tx_discard_mac_pkts : nat := Eval vm_compute in field "tx_discard_mac_pkts"%string.
Definition tx_error_mac_pkts : nat := Eval vm_compute in field "tx_error_mac_pkts"%string.
Definition bpf_pass_pkts : nat := Eval vm_compute in field "bpf_pass_pkts"%string.
Definition bpf_pass_bytes : nat := Eval vm_compute in field "bpf_pass_bytes"%string.
Definition bpf_discard_pkts : nat := Eval vm_compute in field "bpf_discard_pkts"%string.
Definition bpf_discard_bytes : nat := Eval vm_compute in field "bpf_discard_bytes"%string.
Definition bpf_tx_pkts : nat := Eval vm_compute in field "bpf_tx_pkts"%string.
Definition bpf_tx_bytes : nat := Eval vm_compute in field "bpf_tx_bytes"%string.
Definition bpf_abort_pkts : nat := Eval vm_compute in field "bpf_abort_pkts"%string.
Definition bpf_abort_bytes : nat := Eval vm_compute in field "bpf_abort_bytes"%string.

(** [_vnic_stats.<field>] and [_vnic_stats.<field> += v]; outside of the array
    of 64 values this is undefined. *)
Definition vnic_get (f : nat) : St Z := raw ← get _vnic_stats; of_option (raw !! f).
Definition vnic_put (f : nat) (v : Z) : St unit :=
  raw ← get _vnic_stats;
  _ ← require (f <? length raw)%nat;
  modify (fun s => s <| _vnic_stats ::= <[f := u64 v]> |>).
Definition vnic_add (f : nat) (v : Z) : St unit := x ← vnic_get f; vnic_put f (x + v).

Definition nfd_rx (pkts bytes : Z) (nfd : nfd_qstats_t) : nfd_qstats_t :=
  nfd <| q_rx_pkts ::= fun x => u64 (x + pkts) |> <| q_rx_bytes ::= fun x => u64 (x + bytes) |>.
Definition nfd_tx (pkts bytes : Z) (nfd : nfd_qstats_t) : nfd_qstats_t :=
  nfd <| q_tx_pkts ::= fun x => u64 (x + pkts) |> <| q_tx_bytes ::= fun x => u64 (x + bytes) |>.

(** The statement selected by [switch (queue_stat)]: the totals *)
Definition update_totals (nfd : nfd_qstats_t) (queue_stat pkts bytes : Z) : St nfd_qstats_t :=
  if queue_stat =? NIC_STATS_QUEUE_RX_IDX then
    _ ← vnic_add rx_uc_pkts pkts;
    _ ← vnic_add rx_uc_bytes bytes;
    mret (nfd_rx pkts bytes nfd)
  else if (queue_stat =? NIC_STATS_QUEUE_RX_BC_IDX) || (queue_stat =? NIC_STATS_QUEUE_RX_MC_IDX) then
    _ ← vnic_add rx_pkts pkts;
    _ ← vnic_add rx_bytes bytes;
    mret (nfd_rx pkts bytes nfd)
  else if (queue_stat =? NIC_STATS_QUEUE_RX_UC_IDX) || (queue_stat =? NIC_STATS_QUEUE_TX_UC_IDX) then
    mret nfd
  else if queue_stat =? NIC_STATS_QUEUE_TX_IDX then
    _ ← vnic_add tx_uc_pkts pkts;
    _ ← vnic_add tx_uc_bytes bytes;
    mret (nfd_tx pkts bytes nfd)
  else if (queue_stat =? NIC_STATS_QUEUE_TX_BC_IDX) || (queue_stat =? NIC_STATS_QUEUE_TX_MC_IDX) then
    _ ← vnic_add tx_pkts pkts;
    _ ← vnic_add tx_bytes bytes;
    mret (nfd_tx pkts bytes nfd)
  else if (queue_stat =? NIC_STATS_QUEUE_RX_DISCARD_ACT_IDX) ||
          (queue_stat =? NIC_STATS_QUEUE_RX_DISCARD_ADDR_IDX) ||
          (queue_stat =? NIC_STATS_QUEUE_RX_DISCARD_MRU_IDX) ||
          (queue_stat =? NIC_STATS_QUEUE_RX_DISCARD_PCI_IDX) ||
          (queue_stat =? NIC_STATS_QUEUE_BPF_DISCARD_IDX) then
    _ ← vnic_add rx_discards pkts;
    mret nfd
  else if queue_stat =? NIC_STATS_QUEUE_RX_ERROR_VEB_IDX then
    (* no break: the next case follows *)
    _ ← vnic_add rx_errors pkts;
    _ ← vnic_add tx_discards pkts;
    mret nfd
  else if queue_stat =? NIC_STATS_QUEUE_TX_DISCARD_ACT_IDX then
    _ ← vnic_add tx_discards pkts;
    mret nfd
  else if (queue_stat =? NIC_STATS_QUEUE_TX_ERROR_LSO_IDX) ||
          (queue_stat =? NIC_STATS_QUEUE_TX_ERROR_PCI_IDX) ||
          (queue_stat =? NIC_STATS_QUEUE_TX_ERROR_MTU_IDX) ||
          (queue_stat =? NIC_STATS_QUEUE_TX_ERROR_NO_CTM_IDX) ||
          (queue_stat =? NIC_STATS_QUEUE_TX_ERROR_OFFSET_IDX) then
    _ ← vnic_add tx_errors pkts;
    mret nfd
  else if queue_stat =? NIC_STATS_QUEUE_BPF_TX_IDX then
    _ ← vnic_add tx_pkts pkts;
    _ ← vnic_add tx_bytes bytes;
    mret nfd
  else mret nfd.

(** The counter's own fields are at [vnic_stat], which moves past them. *)
Definition update_vnic_queue_stat (nfd : nfd_qstats_t) (vnic_stat : nat)
    (queue_stat pkts bytes : Z) : St (nfd_qstats_t * nat) :=
  mask ← of_option (nic_stats_vnic_mask !! Z.to_nat queue_stat);
  vnic_stat ← (if has mask NIC_STATS_VNIC_MASK_PKTS then
                 _ ← vnic_add vnic_stat pkts; mret (S vnic_stat)
               else mret vnic_stat);
  vnic_stat ← (if has mask NIC_STATS_VNIC_MASK_BYTES then
                 _ ← vnic_add vnic_stat bytes; mret (S vnic_stat)
               else mret vnic_stat);
  nfd ← update_totals nfd queue_stat pkts bytes;
  mret (nfd, vnic_stat).

Definition no_drops : mac_drops_t := mk_mac_drops 0 0 0 0.

(** [sizeof(nic_stats_vnic_t)], and the blocks of 64 bytes that the loops over
    a structure handle *)
Definition sizeof_vnic : Z := NIC_STATS_VNIC_SIZE.
Definition blocks (size : Z) : list Z := ptrs 0 size 64.

Section accumulate.
Context {B : build} `{Vids, StatLib}.

Definition note (c : cntr_read) : St unit := modify (fun s => s <| reads ::= cons c |>).

(** ** The MAC *)

Definition macstats_head_drop_accum : St unit :=
  _ ← modify (fun s => s <| _mac_stats_head_drop ::= head_drop_dev (reads s) |>);
  note HeadDropAccum.

Definition port_accum (port : Z) (s : stats) : list Z := default [] (_mac_stats s !! port).

Definition macstats_port_accum (nbi channel port : Z) : St unit :=
  _ ← modify (fun s => s <| _mac_stats ::=
        <[port := port_accum_dev (reads s) nbi channel (port_accum port s)]> |>);
  note (PortAccum nbi channel).

Definition tmq_cnt_read (nbi queue : Z) : St Z :=
  c ← get (fun s => u32 (tmq_cnt_dev (reads s) nbi queue));
  _ ← note (TmqCnt nbi queue c);
  mret c.

Definition drops (port : Z) (s : stats) : mac_drops_t := default no_drops (_mac_drops s !! port).
Definition set_drops (port : Z) (f : mac_drops_t -> mac_drops_t) : St unit :=
  modify (fun s => s <| _mac_drops ::= <[port := f (drops port s)]> |>).

(** [mem_read_atomic]: the words of a value as the atomic engine has them *)
Definition read_atomic (v : Z) : Z := swapw64 v.

Definition sizeof_port : Z := 8 * Z.of_nat macstats_port_words.

(** One turn of the inner loop: the word [k] of the structure, from [raw] *)
Definition copy_word (port : Z) (k : nat) (raw : Z) : St Z :=
  if (k =? RxMacHeadDrop)%nat then d ← get (drops port); mret (swapw64 (mac_rx_discards d))
  else if (k =? TxQueueDrop)%nat then d ← get (drops port); mret (swapw64 (mac_tx_discards d))
  else
    _ ← (if (k =? TxPIfOutErrors)%nat then set_drops port (fun d => d <| mac_tx_errors := swapw64 raw |>)
         else if (k =? RxPIfInErrors)%nat then set_drops port (fun d => d <| mac_rx_errors := swapw64 raw |>)
         else mret tt);
    mret raw.

Definition copy_block (port channel offset : Z) : St unit :=
  let k0 := Z.to_nat (offset / 8) in
  read_block ← get (fun s => (fun i => read_atomic (nth (k0 + i) (port_accum port s) 0)) <$> seq 0 8);
  write_block ← for_fold (seq 0 8) [] (fun write_block i =>
    w ← copy_word port (k0 + i) (nth i read_block 0);
    mret (write_block ++ [w]));
  let size := if 64 >? sizeof_port - offset then sizeof_port - offset else 64 in
  smem_write64 (mac_stats_addr + sizeof_port * channel + offset)
    (take (Z.to_nat (size / 8)) write_block).

(** The body of the loop over the ports *)
Definition mac_stats_port (port : Z) : St unit :=
  let nbi := NS_PLATFORM_MAC (board B) port in
  let channel := NS_PLATFORM_MAC_SERDES_LO (board B) port in
  _ ← macstats_port_accum nbi channel port;
  head_drops ← get (fun s => read_atomic (nth (Z.to_nat port) (_mac_stats_head_drop s) 0));
  _ ← set_drops port (fun d => d <| mac_rx_discards := swapw64 head_drops |>);
  _ ← for_each (range (NS_PLATFORM_NBI_TM_QID_LO (board B) port)
                  (NS_PLATFORM_NBI_TM_QID_HI (board B) port + 1)) (fun i =>
        tmq_cnt ← tmq_cnt_read nbi i;
        set_drops port (fun d => d <| mac_tx_discards ::= fun x => u64 (x + tmq_cnt) |>));
  for_each (blocks sizeof_port) (copy_block port channel).

Definition mac_stats_accumulate : St unit :=
  _ ← macstats_head_drop_accum;
  for_each (range 0 (NS_PLATFORM_NUM_PORTS (board B))) mac_stats_port.

(** ** The vNICs *)

Definition vnic_base (vid : Z) : Z := nic_stats_vnic_addr + sizeof_vnic * vid.
Definition bar_of (vid : Z) : Z := nfd_cfg_bar_base NIC_PCI vid.

(** The two loops that copy [_vnic_stats] from memory and to it *)
Definition load_vnic (vid : Z) : St unit :=
  for_each (blocks sizeof_vnic) (fun offset =>
    let size := if 64 >? sizeof_vnic - offset then sizeof_vnic - offset else 64 in
    let n := Z.to_nat (size / 8) in
    read_block ← smem_read64 (vnic_base vid + offset) n;
    for_each (seq 0 n) (fun i =>
      vnic_put (Z.to_nat (offset / 8) + i) (swapw64 (nth i read_block 0)))).

Definition store_vnic (vid : Z) : St unit :=
  for_each (blocks sizeof_vnic) (fun offset =>
    write_block ← for_fold (seq 0 8) [] (fun write_block i =>
      v ← vnic_get (Z.to_nat (offset / 8) + i);
      mret (write_block ++ [swapw64 v]));
    let size := if 64 >? sizeof_vnic - offset then sizeof_vnic - offset else 64 in
    smem_write64 (vnic_base vid + offset) (take (Z.to_nat (size / 8)) write_block)).

Definition pkt_cntr_read_and_clr (index counter : Z) : St (Z * Z) :=
  x ← get (fun s => pkt_cntr_dev (reads s) index counter);
  _ ← note (PktCntr index counter (u32 x.1) (u64 x.2));
  mret (u32 x.1, u64 x.2).

(** The loop over the counters of one queue *)
Definition queue_counters (nfd : nfd_qstats_t) (index : Z) : St (nfd_qstats_t * nat) :=
  for_fold (range 0 NIC_STATS_QUEUE_COUNT) (nfd, 0%nat) (fun x i =>
    pb ← pkt_cntr_read_and_clr index i;
    update_vnic_queue_stat x.1 x.2 i pb.1 pb.2).

Definition vnic_stats_remap (dst_stat dst_total src_stat src_total : nat) : St unit :=
  t ← vnic_get src_total;
  _ ← when (truthy t) (x ← vnic_get src_stat; vnic_put src_total (t - x));
  t ← vnic_get dst_total;
  _ ← when (truthy t) (x ← vnic_get src_stat; vnic_put dst_total (t + x));
  x ← vnic_get src_stat;
  _ ← vnic_add dst_stat x;
  vnic_put src_stat 0.

(** The body of the loop over the queues of a vNIC *)
Definition vnic_queue (vid queue : Z) : St unit :=
  x ← queue_counters (mk_qstats 0 0 0 0) (NFD_VID2NATQ vid queue);
  let nfd_stats := x.1 in
  _ ← smem_add64 (bar_of vid + NFP_NET_CFG_RXR_STATS queue)
        [swapw64 (q_rx_pkts nfd_stats); swapw64 (q_rx_bytes nfd_stats)];
  _ ← smem_add64 (bar_of vid + NFP_NET_CFG_TXR_STATS queue)
        [swapw64 (q_tx_pkts nfd_stats); swapw64 (q_tx_bytes nfd_stats)];
  when (queue <? Z.shiftl 1 8)
    (_ ← vnic_stats_remap tx_discard_act_pkts tx_discards rx_discard_act_pkts rx_discards;
     vnic_stats_remap tx_discard_act_bytes tx_discards rx_discard_act_bytes rx_discards).

(** [delta = drop - _vnic_stats.<own>; own += delta; total += delta;] *)
Definition add_mac_drop (drop : mac_drops_t -> Z) (port : Z) (own total : nat) : St unit :=
  d ← get (fun s => drop (drops port s));
  x ← vnic_get own;
  let delta := u64 (d - x) in
  _ ← vnic_add own delta;
  vnic_add total delta.

(** What a PF has besides its queues: the ingress queue of its port and what
    the MAC dropped *)
Definition vnic_pf (vid : Z) (nfd_stats : nfd_qstats_t) : St unit :=
  let port := NFD_VID2PF vid in
  _ ← queue_counters nfd_stats (Z.shiftl 1 8 + port);
  _ ← add_mac_drop mac_rx_discards port rx_discard_mac_pkts rx_discards;
  _ ← add_mac_drop mac_rx_errors port rx_error_mac_pkts rx_errors;
  _ ← add_mac_drop mac_tx_discards port tx_discard_mac_pkts tx_discards;
  add_mac_drop mac_tx_errors port tx_error_mac_pkts tx_errors.

Definition vnic_block (fields : list nat) : St (list Z) :=
  for_fold fields [] (fun write_block f => v ← vnic_get f; mret (write_block ++ [swapw64 v])).

Definition update_vnic_bar_stats (vid : Z) : St unit :=
  write_block ← vnic_block [rx_discards; rx_errors; rx_bytes; rx_uc_bytes; rx_mc_bytes;
    rx_bc_bytes; rx_pkts; rx_mc_pkts; rx_bc_pkts];
  _ ← smem_write64 (bar_of vid + NFP_NET_CFG_STATS_RX_DISCARDS) write_block;
  write_block ← vnic_block [tx_discards; tx_errors; tx_bytes; tx_uc_bytes; tx_mc_bytes;
    tx_bc_bytes; tx_pkts; tx_mc_pkts; tx_bc_pkts];
  _ ← smem_write64 (bar_of vid + NFP_NET_CFG_STATS_TX_DISCARDS) write_block;
  write_block ← vnic_block [bpf_pass_pkts; bpf_pass_bytes; bpf_discard_pkts; bpf_discard_bytes;
    bpf_tx_pkts; bpf_tx_bytes; bpf_abort_pkts; bpf_abort_bytes];
  smem_write64 (bar_of vid + NFP_NET_CFG_STATS_APP0_FRAMES) write_block.

(** The body of the loop over the vNICs.  The ingress queue of the port
    adds to the structure of the last queue, which is not read any more: here it
    adds to an empty one. *)
Definition vnic_stats_one (vid : Z) : St unit :=
  _ ← load_vnic vid;
  _ ← for_each (range 0 (NFD_VID_MAXQS vid)) (vnic_queue vid);
  _ ← when (NFD_VID_IS_PF vid) (vnic_pf vid (mk_qstats 0 0 0 0));
  _ ← update_vnic_bar_stats vid;
  store_vnic vid.

Definition vnic_stats_accumulate : St unit :=
  for_each (range 0 (NVNICS B NFD_MAX_CTRL)) vnic_stats_one.

(** One round of [nic_stats_loop], when its alarm has come or not *)
Definition nic_stats_round (alarm : bool) : St unit :=
  when alarm (_ ← mac_stats_accumulate; vnic_stats_accumulate).
End accumulate.

(** * Properties *)

Definition with_raw (raw : list Z) (s : stats) : stats := s <| _vnic_stats := raw |>.

(** The value of a field, and what [+=] does to the array *)
Definition fval (raw : list Z) (f : nat) : Z := nth f raw 0.
Definition bump (raw : list Z) (fv : nat * Z) : list Z := <[fv.1 := u64 (fval raw fv.1 + fv.2)]> raw.

(** The array has its 64 entries, which are 64-bit values. *)
Definition raw_ok (raw : list Z) : Prop := length raw = 64%nat /\ Forall (fits 64) raw.

Lemma fval_fits raw f : raw_ok raw -> fits 64 (fval raw f).
Proof.
  intros [_ Hf]. unfold fval. destruct (raw !! f) as [v|] eqn:Hv.
  - rewrite (nth_lookup_Some _ _ _ _ Hv). rewrite Forall_forall in Hf.
    by eapply Hf, list_elem_of_lookup_2.
  - rewrite nth_overflow by by apply lookup_ge_None. unfold fits. lia.
Qed.

Lemma fval_insert raw f g v : (g < length raw)%nat ->
  fval (<[g := v]> raw) f = if decide (f = g) then v else fval raw f.
Proof.
  intros Hg. unfold fval. rewrite !nth_lookup. destruct (decide (f = g)) as [->|Hne].
  - by rewrite list_lookup_insert_eq.
  - by rewrite list_lookup_insert_ne.
Qed.

Lemma insert_ok raw f v : raw_ok raw -> fits 64 v -> raw_ok (<[f := v]> raw).
Proof.
  intros [Hl Hf] Hv. split; [by rewrite length_insert|]. by apply Forall_insert.
Qed.

Lemma bump_ok raw fv : raw_ok raw -> raw_ok (bump raw fv).
Proof. intros Hr. apply insert_ok; [done|]. apply wrap_fits. lia. Qed.

Lemma bumps_ok L : forall raw, raw_ok raw -> raw_ok (foldl bump raw L).
Proof. induction L as [|x L IH]; intros raw Hr; [done|]. by apply IH, bump_ok. Qed.

(** The sum of what is added to a field *)
Definition added_to (f : nat) (L : list (nat * Z)) : Z :=
  foldr (fun x n => if decide (x.1 = f) then x.2 + n else n) 0 L.

Lemma fval_bumps f L : forall raw, raw_ok raw -> Forall (fun x => (x.1 < 64)%nat) L ->
  fval (foldl bump raw L) f = u64 (fval raw f + added_to f L).
Proof.
  induction L as [|[g v] L IH]; intros raw Hr HL; simpl.
  - rewrite Z.add_0_r. by rewrite wrap_small by by apply fval_fits.
  - inversion_clear HL as [|? ? Hg HL']. rewrite IH by (done || by apply bump_ok).
    unfold bump. simpl. rewrite fval_insert by (destruct Hr as [-> _]; exact Hg).
    destruct (decide (f = g)) as [->|Hne].
    + rewrite decide_True by done. unfold wrap. rewrite Zplus_mod_idemp_l. f_equal. lia.
    + rewrite decide_False by congruence. done.
Qed.

Lemma run_vnic_get f s : (f < length (_vnic_stats s))%nat ->
  vnic_get f s = Some (fval (_vnic_stats s) f, s).
Proof.
  intros Hf. unfold vnic_get. rewrite run_get. unfold fval. rewrite nth_lookup.
  destruct (lookup_lt_is_Some_2 _ _ Hf) as [v ->]. done.
Qed.

Lemma run_vnic_put f v s : (f < length (_vnic_stats s))%nat ->
  vnic_put f v s = Some (tt, with_raw (<[f := u64 v]> (_vnic_stats s)) s).
Proof.
  intros Hf. unfold vnic_put. rewrite run_get, run_require by by apply Nat.ltb_lt. by destruct s.
Qed.

Lemma run_vnic_add f v s : (f < length (_vnic_stats s))%nat ->
  vnic_add f v s = Some (tt, with_raw (bump (_vnic_stats s) (f, v)) s).
Proof.
  intros Hf. unfold vnic_add. erewrite run_some by by apply run_vnic_get. by apply run_vnic_put.
Qed.

Lemma length_bumps L : forall raw, length (foldl bump raw L) = length raw.
Proof. induction L as [|x L IH]; intros raw; [done|]. simpl. rewrite IH. apply length_insert. Qed.

(** Several [+=] in a row *)
Lemma run_vnic_add_bind {A} f v L raw s (k : unit -> St A) :
  length raw = 64%nat -> (f < 64)%nat ->
  (vnic_add f v ≫= k) (with_raw (foldl bump raw L) s) =
  k tt (with_raw (foldl bump raw (L ++ [(f, v)])) s).
Proof.
  intros Hl Hf. erewrite run_some; [|apply run_vnic_add].
  - f_equal. rewrite foldl_app. by destruct s.
  - change (_vnic_stats (with_raw (foldl bump raw L) s)) with (foldl bump raw L).
    by rewrite length_bumps, Hl.
Qed.

(** ** The counters of a queue *)

(** What feeds a field of the statistics: counters of the queue, with [false]
    for their packets and [true] for their bytes.  Every counter feeds its own
    fields; the totals and the unicast fields are fed by several. *)
Definition own_feed (f : string) : list (string * bool) :=
  if ends_in "_pkts" f then [(cut 5 f, false)]
  else if ends_in "_bytes" f then [(cut 6 f, true)]
  else [(f, false)].

Definition other_feeds (f : string) : list (string * bool) :=
  let via cs q := (fun c => (c, q)) <$> (cs : list string) in
  (if String.eqb f "rx_pkts" then via ["rx_mc"; "rx_bc"] false
   else if String.eqb f "rx_bytes" then via ["rx_mc"; "rx_bc"] true
   else if String.eqb f "rx_uc_pkts" then via ["rx"] false
   else if String.eqb f "rx_uc_bytes" then via ["rx"] true
   else if String.eqb f "tx_pkts" then via ["tx_mc"; "tx_bc"; "bpf_tx"] false
   else if String.eqb f "tx_bytes" then via ["tx_mc"; "tx_bc"; "bpf_tx"] true
   else if String.eqb f "tx_uc_pkts" then via ["tx"] false
   else if String.eqb f "tx_uc_bytes" then via ["tx"] true
   else if String.eqb f "rx_discards" then
     via ["rx_discard_act"; "rx_discard_addr"; "rx_discard_mru"; "rx_discard_pci"; "bpf_discard"] false
   else if String.eqb f "rx_errors" then via ["rx_error_veb"] false
   else if String.eqb f "tx_discards" then via ["rx_error_veb"; "tx_discard_act"] false
   else if String.eqb f "tx_errors" then
     via ["tx_error_lso"; "tx_error_offset"; "tx_error_mtu"; "tx_error_pci"; "tx_error_no_ctm"] false
   else [])%string.

Definition feeds (f : string) : list (string * bool) := own_feed f ++ other_feeds f.

(** The readings of the counters of a queue, in order, and one of them *)
Definition reading (cnt : list (Z * Z)) (iq : nat * bool) : Z :=
  let x := nth iq.1 cnt (0, 0) in if iq.2 then x.2 else x.1.
Definition reading_of (cnt : list (Z * Z)) (cq : string * bool) : Z :=
  reading cnt (queue_idx nic_stats_def cq.1, cq.2).

Definition sum (l : list Z) : Z := foldr Z.add 0 l.

(** What the code adds for the counter [i]: its own fields, then the totals *)
Definition own_incs (i : nat) : list (nat * bool) :=
  let mask := nth i nic_stats_vnic_mask 0 in
  let p := if has mask NIC_STATS_VNIC_MASK_PKTS then [(first_field i, false)] else [] in
  p ++ (if has mask NIC_STATS_VNIC_MASK_BYTES then [((first_field i + length p)%nat, true)] else []).

Definition total_incs (i : nat) : list (nat * bool) :=
  let on name := (i =? queue_idx nic_stats_def name)%nat in
  (if on "rx" then [(rx_uc_pkts, false); (rx_uc_bytes, true)]
   else if on "rx_bc" || on "rx_mc" then [(rx_pkts, false); (rx_bytes, true)]
   else if on "tx" then [(tx_uc_pkts, false); (tx_uc_bytes, true)]
   else if on "tx_bc" || on "tx_mc" || on "bpf_tx" then [(tx_pkts, false); (tx_bytes, true)]
   else if on "rx_discard_act" || on "rx_discard_addr" || on "rx_discard_mru" ||
           on "rx_discard_pci" || on "bpf_discard" then [(rx_discards, false)]
   else if on "rx_error_veb" then [(rx_errors, false); (tx_discards, false)]
   else if on "tx_discard_act" then [(tx_discards, false)]
   else if on "tx_error_lso" || on "tx_error_offset" || on "tx_error_mtu" ||
           on "tx_error_pci" || on "tx_error_no_ctm" then [(tx_errors, false)]
   else [])%string.

Definition incs (i : nat) : list (nat * bool) := own_incs i ++ total_incs i.

Definition inc_vals (p b : Z) (l : list (nat * bool)) : list (nat * Z) :=
  (fun fq => (fq.1, if (fq.2 : bool) then b else p)) <$> l.

(** What it adds to the statistics of the queue *)
Definition nfd_step (i : nat) (p b : Z) (nfd : nfd_qstats_t) : nfd_qstats_t :=
  let on name := (i =? queue_idx nic_stats_def name)%nat in
  (if on "rx" || on "rx_bc" || on "rx_mc" then nfd_rx p b nfd
   else if on "tx" || on "tx_bc" || on "tx_mc" then nfd_tx p b nfd
   else nfd)%string.

(** Evaluate the condition of a conditional that is closed. *)
Ltac closed_if :=
  match goal with |- context [if ?c then _ else _] =>
    let v := eval vm_compute in c in change c with v; cbv iota end.

Lemma run_update_totals i p b nfd raw L s : (i < 33)%nat -> length raw = 64%nat ->
  update_totals nfd (Z.of_nat i) p b (with_raw (foldl bump raw L) s) =
  Some (nfd_step i p b nfd, with_raw (foldl bump raw (L ++ inc_vals p b (total_incs i))) s).
Proof.
  intros Hi Hl. unfold update_totals, nfd_step, total_incs.
  do 33 (destruct i as [|i]; [
    cbv zeta; repeat closed_if;
    rewrite ?run_vnic_add_bind by (done || (apply Nat.ltb_lt; reflexivity));
    rewrite run_ret_some; cbn [inc_vals fmap list_fmap fst snd];
    rewrite <- ?app_assoc, ?app_nil_r; reflexivity|]). lia.
Qed.

Lemma run_own i p b raw L s {A} (k : nat -> St A) : (i < 33)%nat -> length raw = 64%nat ->
  (mask ← of_option (nic_stats_vnic_mask !! Z.to_nat (Z.of_nat i));
   vnic_stat ← (if has mask NIC_STATS_VNIC_MASK_PKTS then
                  _ ← vnic_add (first_field i) p; mret (S (first_field i))
                else mret (first_field i));
   vnic_stat ← (if has mask NIC_STATS_VNIC_MASK_BYTES then
                  _ ← vnic_add vnic_stat b; mret (S vnic_stat)
                else mret vnic_stat);
   k vnic_stat) (with_raw (foldl bump raw L) s) =
  k (first_field (S i)) (with_raw (foldl bump raw (L ++ inc_vals p b (own_incs i))) s).
Proof.
  intros Hi Hl. rewrite Nat2Z.id.
  do 33 (destruct i as [|i]; [
    unfold own_incs; erewrite run_of_option by reflexivity; cbv beta;
    repeat closed_if; rewrite ?run_assoc;
    rewrite ?run_vnic_add_bind by (done || (apply Nat.ltb_lt; reflexivity));
    rewrite ?run_ret, ?run_assoc;
    rewrite ?run_vnic_add_bind by (done || (apply Nat.ltb_lt; reflexivity));
    rewrite ?run_ret, <- ?app_assoc; reflexivity|]). lia.
Qed.

Lemma run_update_stat i p b nfd raw L s : (i < 33)%nat -> length raw = 64%nat ->
  update_vnic_queue_stat nfd (first_field i) (Z.of_nat i) p b (with_raw (foldl bump raw L) s) =
  Some ((nfd_step i p b nfd, first_field (S i)),
        with_raw (foldl bump raw (L ++ inc_vals p b (incs i))) s).
Proof.
  intros Hi Hl. unfold update_vnic_queue_stat. rewrite run_own by done.
  erewrite run_some by by apply run_update_totals. cbv beta.
  rewrite run_ret_some. unfold incs, inc_vals. by rewrite fmap_app, app_assoc.
Qed.

(** *** All counters of a queue *)

Section queues.
Context {B : build} `{Vids, StatLib}.

(** What the code adds for the readings of the counters from [i] on *)
Fixpoint adds_from (i : nat) (cnt : list (Z * Z)) : list (nat * Z) :=
  match cnt with
  | [] => []
  | pb :: cnt => inc_vals pb.1 pb.2 (incs i) ++ adds_from (S i) cnt
  end.

Fixpoint nfd_from (i : nat) (cnt : list (Z * Z)) (nfd : nfd_qstats_t) : nfd_qstats_t :=
  match cnt with
  | [] => nfd
  | pb :: cnt => nfd_from (S i) cnt (nfd_step i pb.1 pb.2 nfd)
  end.

(** The history of these readings: each is what the device had. *)
Fixpoint readings (index : Z) (i : nat) (cnt : list (Z * Z)) (h : list cntr_read) : list cntr_read :=
  match cnt with
  | [] => h
  | pb :: cnt => readings index (S i) cnt (PktCntr index (Z.of_nat i) pb.1 pb.2 :: h)
  end.

Fixpoint device_reads (index : Z) (i : nat) (cnt : list (Z * Z)) (h : list cntr_read) : Prop :=
  match cnt with
  | [] => True
  | pb :: cnt =>
      pb = (u32 (pkt_cntr_dev h index (Z.of_nat i)).1, u64 (pkt_cntr_dev h index (Z.of_nat i)).2) /\
      device_reads index (S i) cnt (PktCntr index (Z.of_nat i) pb.1 pb.2 :: h)
  end.

Definition with_reads (h : list cntr_read) (s : stats) : stats := s <| reads := h |>.

Lemma run_pkt_cntr {A} index i raw h s (k : Z * Z -> St A) :
  (pkt_cntr_read_and_clr index i ≫= k) (with_raw raw (with_reads h s)) =
  let p := u32 (pkt_cntr_dev h index i).1 in
  let b := u64 (pkt_cntr_dev h index i).2 in
  k (p, b) (with_raw raw (with_reads (PktCntr index i p b :: h) s)).
Proof. done. Qed.

Lemma run_counters n : forall i nfd index raw L h s, (i + n = 33)%nat -> length raw = 64%nat ->
  exists cnt, length cnt = n /\ device_reads index i cnt h /\
    for_fold (range (Z.of_nat i) (Z.of_nat (i + n))) (nfd, first_field i) (fun x i =>
      pb ← pkt_cntr_read_and_clr index i;
      update_vnic_queue_stat x.1 x.2 i pb.1 pb.2)
      (with_raw (foldl bump raw L) (with_reads h s)) =
    Some ((nfd_from i cnt nfd, first_field (i + n)),
      with_raw (foldl bump raw (L ++ adds_from i cnt)) (with_reads (readings index i cnt h) s)).
Proof.
  induction n as [|n IH]; intros i nfd index raw L h s Hn Hl.
  - exists []. split; [done|]. split; [done|]. rewrite range_nil by lia.
    cbn [for_fold adds_from nfd_from readings]. rewrite run_ret_some, app_nil_r.
    by replace (i + 0)%nat with i by lia.
  - set (pb := (u32 (pkt_cntr_dev h index (Z.of_nat i)).1, u64 (pkt_cntr_dev h index (Z.of_nat i)).2)).
    destruct (IH (S i) (nfd_step i pb.1 pb.2 nfd) index raw (L ++ inc_vals pb.1 pb.2 (incs i))
      (PktCntr index (Z.of_nat i) pb.1 pb.2 :: h) s) as (cnt & Hc & Hd & Hrun); [lia|done|].
    exists (pb :: cnt). split; [by rewrite <- Hc|]. split; [by split|].
    rewrite range_cons by lia. cbn [for_fold].
    rewrite run_assoc, run_pkt_cntr. cbv zeta. cbn [fst snd].
    erewrite run_some by (apply run_update_stat; lia || done). cbv beta.
    replace (Z.of_nat i + 1) with (Z.of_nat (S i)) by lia.
    replace (i + S n)%nat with (S i + n)%nat by lia.
    cbn [adds_from nfd_from readings]. rewrite app_assoc. exact Hrun.
Qed.
(** The places that the code adds to, with counter and quantity *)
Definition all_incs : list (nat * (nat * bool)) :=
  seq 0 33 ≫= fun i => (fun fq => (fq.1, (i, fq.2))) <$> incs i.

Definition inc_of (cnt : list (Z * Z)) (x : nat * (nat * bool)) : nat * Z :=
  (x.1, reading cnt x.2).

Lemma adds_incs n : forall i cnt, (i + n)%nat = length cnt ->
  adds_from i (drop i cnt) =
  inc_of cnt <$> (seq i n ≫= fun i => (fun fq => (fq.1, (i, fq.2))) <$> incs i).
Proof.
  induction n as [|n IH]; intros i cnt Hn.
  - by rewrite drop_ge by lia.
  - destruct (lookup_lt_is_Some_2 cnt i) as [pb Hpb]; [lia|].
    rewrite (drop_S _ _ _ Hpb). cbn [adds_from seq].
    change (seq i (S n)) with (i :: seq (S i) n). rewrite bind_cons, fmap_app, IH by lia.
    f_equal. rewrite <- list_fmap_compose. unfold inc_vals. apply list_fmap_ext.
    intros _ [f q] _. unfold inc_of, reading. cbn [fst snd compose].
    by rewrite (nth_lookup_Some _ _ _ _ Hpb).
Qed.

Lemma added_inc_of f cnt l :
  added_to f (inc_of cnt <$> l) = sum ((fun x => reading cnt x.2) <$> filter (fun x => x.1 = f) l).
Proof.
  induction l as [|x l IH]; [done|]. rewrite fmap_cons, filter_cons. cbn [added_to foldr inc_of fst snd].
  destruct (decide (x.1 = f)); [|exact IH]. cbn [fmap list_fmap sum foldr]. f_equal. exact IH.
Qed.

#[local] Instance sum_perm : Proper ((≡ₚ) ==> eq) sum.
Proof. intros l l'. induction 1; simpl; lia. Qed.

(** The code feeds each field as the specification says. *)
Lemma incs_feeds : Forall (fun f =>
  (filter (fun x => x.1 = field f) all_incs).*2 ≡ₚ
  (fun cq => (queue_idx nic_stats_def cq.1, cq.2)) <$> feeds f) (vnic_fields nic_stats_def).
Proof. by apply (bool_decide_unpack _); vm_compute. Qed.

Lemma added_feeds f cnt : f ∈ vnic_fields nic_stats_def -> length cnt = 33%nat ->
  added_to (field f) (adds_from 0 cnt) = sum (reading_of cnt <$> feeds f).
Proof.
  intros Hf Hc. rewrite <- (drop_0 cnt) at 1. rewrite (adds_incs 33) by done.
  fold all_incs. rewrite added_inc_of.
  pose proof incs_feeds as Hall. rewrite Forall_forall in Hall. specialize (Hall f Hf).
  transitivity (sum (reading cnt <$> (filter (fun x => x.1 = field f) all_incs).*2));
    [by rewrite <- list_fmap_compose|].
  by rewrite Hall, <- list_fmap_compose.
Qed.

Lemma added_out k cnt : (58 <= k)%nat -> length cnt = 33%nat ->
  added_to k (adds_from 0 cnt) = 0.
Proof.
  intros Hk Hc. rewrite <- (drop_0 cnt). rewrite (adds_incs 33) by done. fold all_incs.
  assert (Hall : Forall (fun x => (x.1 < 58)%nat) all_incs)
    by by apply (bool_decide_unpack _); vm_compute.
  induction Hall as [|x l Hx _ IH]; [done|]. cbn [fmap list_fmap added_to foldr inc_of fst].
  rewrite decide_False by lia. exact IH.
Qed.

(** What the queue received and sent, for the counters of its ring *)
Definition ring_totals (cnt : list (Z * Z)) (nfd : nfd_qstats_t) : nfd_qstats_t :=
  let total cs q := sum ((fun c => reading_of cnt (c, q)) <$> (cs : list string)) in
  mk_qstats (u64 (q_rx_pkts nfd + total ["rx"; "rx_mc"; "rx_bc"]%string false))
    (u64 (q_rx_bytes nfd + total ["rx"; "rx_mc"; "rx_bc"]%string true))
    (u64 (q_tx_pkts nfd + total ["tx"; "tx_mc"; "tx_bc"]%string false))
    (u64 (q_tx_bytes nfd + total ["tx"; "tx_mc"; "tx_bc"]%string true)).

Lemma nfd_totals cnt nfd : length cnt = 33%nat -> nfd_from 0 cnt nfd = ring_totals cnt nfd.
Proof.
  intros Hc. do 33 (destruct cnt as [|? cnt]; [done|]). destruct cnt; [|done].
  destruct nfd as [rp rb tp tb].
  unfold ring_totals, reading_of, reading. cbn [fmap list_fmap fst snd sum foldr].
  repeat match goal with |- context [queue_idx ?d ?n] =>
    let v := eval vm_compute in (queue_idx d n) in change (queue_idx d n) with v end.
  cbn [nth].
  cbn -[wrap].
  unfold nfd_rx, nfd_tx. cbv [apply_update constant set_q_rx_pkts set_q_rx_bytes
    set_q_tx_pkts set_q_tx_bytes]. cbn [q_rx_pkts q_rx_bytes q_tx_pkts q_tx_bytes].
  f_equal; unfold wrap; repeat (rewrite Zplus_mod_idemp_l; rewrite <- ?Z.add_assoc); by rewrite Z.add_0_r.
Qed.

Lemma run_queue_counters nfd index s : raw_ok (_vnic_stats s) ->
  exists cnt, length cnt = 33%nat /\ device_reads index 0 cnt (reads s) /\
    queue_counters nfd index s =
      Some ((ring_totals cnt nfd, 58%nat),
        with_raw (foldl bump (_vnic_stats s) (adds_from 0 cnt))
          (with_reads (readings index 0 cnt (reads s)) s)).
Proof.
  intros [Hl _].
  destruct (run_counters 33 0 nfd index (_vnic_stats s) [] (reads s) s) as (cnt & Hc & Hd & Hrun);
    [done|done|].
  exists cnt. split; [done|]. split; [done|]. rewrite nfd_totals in Hrun by done.
  replace s with (with_raw (_vnic_stats s) (with_reads (reads s) s)) at 1 by by destruct s.
  exact Hrun.
Qed.

Lemma incs_in_range cnt : length cnt = 33%nat -> Forall (fun x => (x.1 < 64)%nat) (adds_from 0 cnt).
Proof.
  intros Hc. rewrite <- (drop_0 cnt). rewrite (adds_incs 33) by done. fold all_incs.
  apply Forall_fmap. assert (Hall : Forall (fun x => (x.1 < 64)%nat) all_incs)
    by by apply (bool_decide_unpack _); vm_compute. exact Hall.
Qed.

(** C18: reading the counters of a queue adds each of them, modulo 2^64, to
    exactly the fields of the vNIC that it feeds: its own packets and bytes,
    and the totals of its kind.  Every counter is read once, in order; the
    result has what the ring received and sent, and no other field changes. *)
Theorem queue_counters_correct nfd index s : raw_ok (_vnic_stats s) ->
  exists cnt raw,
    length cnt = Z.to_nat NIC_STATS_QUEUE_COUNT /\ device_reads index 0 cnt (reads s) /\
    queue_counters nfd index s = Some ((ring_totals cnt nfd, Z.to_nat NIC_STATS_VNIC_COUNT),
      with_raw raw (with_reads (readings index 0 cnt (reads s)) s)) /\
    raw_ok raw /\
    (forall f, f ∈ vnic_fields nic_stats_def ->
      fval raw (field f) = u64 (fval (_vnic_stats s) (field f) + sum (reading_of cnt <$> feeds f))) /\
    (forall k, (Z.to_nat NIC_STATS_VNIC_COUNT <= k)%nat -> fval raw k = fval (_vnic_stats s) k).
Proof.
  intros Hr. destruct (run_queue_counters nfd index s Hr) as (cnt & Hc & Hd & Hrun).
  exists cnt, (foldl bump (_vnic_stats s) (adds_from 0 cnt)).
  pose proof (incs_in_range cnt Hc) as Hin.
  split; [done|]. split; [done|]. split; [exact Hrun|]. split; [by apply bumps_ok|]. split.
  - intros f Hf. by rewrite fval_bumps, added_feeds.
  - intros k Hk. rewrite fval_bumps, added_out, Z.add_0_r by done.
    apply wrap_small. by apply fval_fits.
Qed.
End queues.

(** ** Witnesses *)

(** Counters that count by one, three packets of 200 bytes at each reading. *)
Module Counters.
Export Demo.

#[export] Instance counters : StatLib := {|
  macstats_port_words := 20; RxMacHeadDrop := 7; TxQueueDrop := 9;
  TxPIfOutErrors := 13; RxPIfInErrors := 17;
  head_drop_dev := fun _ l => (fun x => u64 (x + 1)) <$> l;
  port_accum_dev := fun h nbi ch l =>
    (fun k => u64 (nth k l 0 + Z.of_nat k + ch)) <$> seq 0 20;
  tmq_cnt_dev := fun h nbi q => Z.of_nat (length h);
  pkt_cntr_dev := fun h i c => (3, 200);
  mac_stats_addr := 0x10000; nic_stats_vnic_addr := 0x20000;
  NFP_NET_CFG_STATS_RX_DISCARDS := 0x90;
  NFP_NET_CFG_STATS_TX_DISCARDS := 0xd8;
  NFP_NET_CFG_STATS_APP0_FRAMES := 0x120;
  NFP_NET_CFG_RXR_STATS := fun q => 0x1000 + 16 * q;
  NFP_NET_CFG_TXR_STATS := fun q => 0xc00 + 16 * q;
  NFD_VID_IS_PF := fun vid => 60 <=? vid;
  NFD_VID2PF := fun vid => vid - 60
|}.

Definition stats0 : stats := mk_stats ∅ ∅ [5; 6] ∅ (replicate 64 41) [].

Lemma stats0_ok : raw_ok (_vnic_stats stats0).
Proof.
  split; [reflexivity|]. apply Forall_lookup_2. intros i x Hx.
  apply lookup_replicate in Hx as [-> _]. unfold fits. lia.
Qed.
End Counters.

Section witnesses.
Import Counters.

Lemma queue_counters_correct_witness :
  raw_ok (_vnic_stats stats0) /\
  exists cnt raw,
    length cnt = Z.to_nat NIC_STATS_QUEUE_COUNT /\ device_reads 256 0 cnt (reads stats0) /\
    queue_counters (mk_qstats 0 0 0 0) 256 stats0 =
      Some ((ring_totals cnt (mk_qstats 0 0 0 0), Z.to_nat NIC_STATS_VNIC_COUNT),
        with_raw raw (with_reads (readings 256 0 cnt (reads stats0)) stats0)) /\
    raw_ok raw /\
    (forall f, f ∈ vnic_fields nic_stats_def ->
      fval raw (field f) = u64 (fval (_vnic_stats stats0) (field f) + sum (reading_of cnt <$> feeds f))) /\
    (forall k, (Z.to_nat NIC_STATS_VNIC_COUNT <= k)%nat -> fval raw k = fval (_vnic_stats stats0) k).
Proof. split; [exact stats0_ok|]. exact (queue_counters_correct _ 256 stats0 stats0_ok). Defined.
End witnesses.
