(* ===== verification/StatsMem.v ===== *)
(** * Statistics in memory: properties of lib/nic_basic/_c/nic_stats.c

    What the accumulation of Stats.v leaves in memory: the statistics of a vNIC
    survive from one round to the next, the configuration BAR and the MAC
    statistics show the accumulated values in the order the host expects, and
    what the two corrections for discarded packets do. *)

From S2P Require Import Prelude Platform UserCfg Nfd Machine Nbi Bpf StatLayout Stats.

Local Open Scope Z_scope.

(** ** 64-bit values in memory *)

Lemma swapw64_val v : fits 64 v -> swapw64 v = (v mod 2 ^ 32) * 2 ^ 32 + v / 2 ^ 32.
Proof.
  intros Hv. unfold swapw64, wrap. cbv zeta. rewrite Z.shiftl_mul_pow2, Z.shiftr_div_pow2 by lia.
  unfold fits in Hv. Z.to_euclidean_division_equations. lia.
Qed.

Lemma swapw64_fits v : fits 64 v -> fits 64 (swapw64 v).
Proof. intros _. unfold swapw64. apply wrap_fits. lia. Qed.

Lemma swapw64_involutive v : fits 64 v -> swapw64 (swapw64 v) = v.
Proof.
  intros Hv. rewrite (swapw64_val (swapw64 v)) by by apply swapw64_fits.
  rewrite (swapw64_val v) by done. unfold fits in Hv. Z.to_euclidean_division_equations. lia.
Qed.

Lemma regs_of_swap v : fits 64 v -> regs_of [swapw64 v] = [u32 v; u32 (Z.shiftr v 32)].
Proof.
  intros Hv. unfold regs_of. cbn [mbind list_bind app]. rewrite swapw64_val by done.
  rewrite !Z.shiftr_div_pow2 by lia. unfold wrap, fits in *.
  f_equal; [|f_equal]; Z.to_euclidean_division_equations; lia.
Qed.

Lemma dword_split v : fits 64 v -> dword_of (u32 (Z.shiftr v 32)) (u32 v) = v.
Proof.
  intros Hv. unfold dword_of. zbits.
Qed.

Lemma swapw64_dword x y : fits 32 x -> fits 32 y -> swapw64 (dword_of x y) = dword_of y x.
Proof.
  intros Hx Hy. unfold swapw64, dword_of. cbv zeta.
  replace (u64 (Z.shiftl (Z.lor (Z.shiftl x 32) y) 32)) with (Z.shiftl y 32) by zbits.
  rewrite <- lor_low by (lia || apply wrap_fits; lia). zbits.
Qed.

Lemma regs_of_lookup vals k v : vals !! k = Some v ->
  regs_of vals !! (2 * k)%nat = Some (u32 (Z.shiftr v 32)) /\
  regs_of vals !! (2 * k + 1)%nat = Some (u32 v).
Proof.
  revert k. induction vals as [|w vals IH]; intros k Hk; [done|].
  destruct k as [|k]; simpl in Hk.
  - injection Hk as ->. done.
  - destruct (IH k Hk) as [H1 H2]. unfold regs_of in *. cbn [mbind list_bind].
    replace (2 * S k)%nat with (S (S (2 * k))) by lia.
    replace (S (S (2 * k)) + 1)%nat with (S (S (2 * k + 1))) by lia. done.
Qed.

Lemma length_regs_of vals : length (regs_of vals) = (2 * length vals)%nat.
Proof.
  induction vals as [|w vals IH]; [done|].
  change (regs_of (w :: vals)) with (u32 (Z.shiftr w 32) :: u32 w :: regs_of vals).
  cbn [length]. rewrite IH. lia.
Qed.

(** A block of values as the atomic engine has them *)
Definition put_counters (a : Z) (vals : list Z) (m : gmap Z Z) : gmap Z Z :=
  mem_put a (regs_of (swapw64 <$> vals)) m.

Lemma counter_put a vals m k v : vals !! k = Some v -> fits 64 v ->
  counter_at (a + 8 * Z.of_nat k) (put_counters a vals m) = v.
Proof.
  intros Hk Hv.
  assert (Hs : (swapw64 <$> vals) !! k = Some (swapw64 v)) by (rewrite list_lookup_fmap, Hk; done).
  destruct (regs_of_lookup _ _ _ Hs) as [H1 H2].
  pose proof (regs_of_swap v Hv) as Hr. cbn [regs_of mbind list_bind app] in Hr.
  injection Hr as Hr1 Hr2. rewrite Hr1 in H1. rewrite Hr2 in H2.
  unfold counter_at, put_counters.
  replace (a + 8 * Z.of_nat k) with (a + 4 * Z.of_nat (2 * k)) by lia.
  replace (a + 4 * Z.of_nat (2 * k) + 4) with (a + 4 * Z.of_nat (2 * k + 1)) by lia.
  rewrite (rd_mem_put_in _ _ _ _ _ H1), (rd_mem_put_in _ _ _ _ _ H2). by apply dword_split.
Qed.

Lemma rd_put_counters_out a a' vals m :
  a' < a \/ a + 8 * Z.of_nat (length vals) <= a' -> rd (put_counters a vals m) a' = rd m a'.
Proof.
  intros Ha. apply rd_mem_put_out. rewrite length_regs_of, length_fmap. lia.
Qed.

Lemma counter_put_out a a' vals m :
  a' + 8 <= a \/ a + 8 * Z.of_nat (length vals) <= a' ->
  counter_at a' (put_counters a vals m) = counter_at a' m.
Proof. intros Ha. unfold counter_at. by rewrite !rd_put_counters_out by lia. Qed.

Lemma put_counters_app a v1 v2 m :
  put_counters a (v1 ++ v2) m = put_counters (a + 8 * Z.of_nat (length v1)) v2 (put_counters a v1 m).
Proof.
  unfold put_counters. rewrite fmap_app. unfold regs_of. rewrite bind_app. fold regs_of.
  change ((swapw64 <$> v1) ≫= fun v => [u32 (Z.shiftr v 32); u32 v]) with (regs_of (swapw64 <$> v1)).
  rewrite mem_put_app, length_regs_of, length_fmap. f_equal. lia.
Qed.

Definition counters (a : Z) (n : nat) (m : gmap Z Z) : list Z :=
  (fun k => counter_at (a + 8 * Z.of_nat k) m) <$> seq 0 n.

Lemma counters_lookup a n m k : (k < n)%nat ->
  counters a n m !! k = Some (counter_at (a + 8 * Z.of_nat k) m).
Proof.
  intros Hk. unfold counters. rewrite list_lookup_fmap, lookup_seq_lt by done. done.
Qed.

Lemma counters_put a vals m : Forall (fits 64) vals ->
  counters a (length vals) (put_counters a vals m) = vals.
Proof.
  intros Hv. apply list_eq. intros k. destruct (decide (k < length vals)%nat) as [Hk|Hk].
  - rewrite counters_lookup by done. destruct (lookup_lt_is_Some_2 _ _ Hk) as [v Hlk].
    rewrite Hlk. f_equal. apply counter_put; [done|]. by eapply Forall_lookup_1.
  - rewrite !lookup_ge_None_2; [done|lia|]. unfold counters. rewrite length_fmap, length_seq. lia.
Qed.

(** ** Statistics of a vNIC from one round to the next *)

(** The first [k] values of [C], then those of [R] *)
Definition fill (k : nat) (C R : list Z) : list Z := take k C ++ drop k R.

Lemma length_fill k C R : length C = length R -> length (fill k C R) = length R.
Proof. intros Hl. unfold fill. rewrite length_app, length_take, length_drop. lia. Qed.

Lemma insert_fill k C R c : C !! k = Some c -> length C = length R ->
  <[k := c]> (fill k C R) = fill (S k) C R.
Proof.
  intros Hk Hl. pose proof (lookup_lt_Some _ _ _ Hk) as Hlt. unfold fill.
  rewrite insert_app_r_alt by (rewrite length_take; lia). rewrite length_take.
  replace (k - k `min` length C)%nat with 0%nat by lia.
  destruct (lookup_lt_is_Some_2 R k) as [r Hr]; [lia|].
  rewrite (drop_S _ _ _ Hr). cbn [insert list_insert].
  rewrite (take_S_r _ _ _ Hk), <- app_assoc. done.
Qed.

Section memory.
Context {B : build} `{Vids, StatLib}.

Lemma run_fill n : forall i k0 C R f s, length C = 64%nat -> length R = 64%nat ->
  (forall j, (i <= j < i + n)%nat -> C !! (k0 + j)%nat = Some (u64 (f j))) ->
  for_each (seq i n) (fun j => vnic_put (k0 + j) (f j)) (with_raw (fill (k0 + i) C R) s) =
  Some (tt, with_raw (fill (k0 + i + n) C R) s).
Proof.
  induction n as [|n IH]; intros i k0 C R f s HC HR Hf.
  - by rewrite Nat.add_0_r.
  - change (seq i (S n)) with (i :: seq (S i) n). cbn [for_each].
    pose proof (Hf i ltac:(lia)) as Hi.
    erewrite run_some; [|apply run_vnic_put].
    + cbv beta. change (_vnic_stats (with_raw ?r s)) with r.
      rewrite (insert_fill _ _ _ _ Hi) by lia.
      replace (S (k0 + i)) with (k0 + S i)%nat by lia.
      change (with_raw (fill (k0 + S i) C R) (with_raw (fill (k0 + i) C R) s)) with
        (with_raw (fill (k0 + S i) C R) s).
      replace (k0 + i + S n)%nat with (k0 + S i + n)%nat by lia.
      apply IH; [done|done|]. intros. apply Hf. lia.
    + change (_vnic_stats (with_raw ?r s)) with r. rewrite length_fill by lia.
      apply lookup_lt_Some in Hi. lia.
Qed.

Lemma blocks_vnic : blocks sizeof_vnic = (fun j => 64 * Z.of_nat j) <$> seq 0 8.
Proof. by vm_compute. Qed.

(** The words of [n] counters are 32-bit words. *)
Definition words_fit (a : Z) (n : nat) (m : gmap Z Z) : Prop :=
  forall k, (k < 2 * n)%nat -> fits 32 (rd m (a + 4 * Z.of_nat k)).

Lemma counter_words a n m k : words_fit a n m -> (k < n)%nat ->
  fits 32 (rd m (a + 8 * Z.of_nat k)) /\ fits 32 (rd m (a + 8 * Z.of_nat k + 4)).
Proof.
  intros Hw Hk. split.
  - replace (a + 8 * Z.of_nat k) with (a + 4 * Z.of_nat (2 * k)) by lia. apply Hw. lia.
  - replace (a + 8 * Z.of_nat k + 4) with (a + 4 * Z.of_nat (2 * k + 1)) by lia. apply Hw. lia.
Qed.

Lemma counter_fits a n m k : words_fit a n m -> (k < n)%nat ->
  fits 64 (counter_at (a + 8 * Z.of_nat k) m).
Proof.
  intros Hw Hk. destruct (counter_words a n m k Hw Hk) as [Hlo Hhi].
  unfold counter_at, dword_of. apply fits_lor; [lia| |].
  - by apply fits_shiftl.
  - eapply fits_mono; [|exact Hlo]. lia.
Qed.

Lemma smem_read a n k m : words_fit a n m -> (k < n)%nat ->
  swapw64 (dword_of (rd m (a + 8 * Z.of_nat k)) (rd m (a + 8 * Z.of_nat k + 4))) =
  counter_at (a + 8 * Z.of_nat k) m.
Proof. intros Hw Hk. destruct (counter_words a n m k Hw Hk). by apply swapw64_dword. Qed.

Lemma run_load_blocks vid n : forall j s R, (j + n = 8)%nat -> length R = 64%nat ->
  words_fit (vnic_base vid) 64 (smem s) ->
  let C := counters (vnic_base vid) 64 (smem s) in
  for_each ((fun j => 64 * Z.of_nat j) <$> seq j n) (fun offset =>
    let size := if 64 >? sizeof_vnic - offset then sizeof_vnic - offset else 64 in
    let n := Z.to_nat (size / 8) in
    read_block ← smem_read64 (vnic_base vid + offset) n;
    for_each (seq 0 n) (fun i =>
      vnic_put (Z.to_nat (offset / 8) + i) (swapw64 (nth i read_block 0))))
    (with_raw (fill (8 * j) C R) s) = Some (tt, with_raw (fill 64 C R) s).
Proof.
  induction n as [|n IH]; intros j s R Hn HR Hw C.
  - cbn [seq fmap list_fmap for_each]. rewrite run_ret_some. by replace (8 * j)%nat with 64%nat by lia.
  - change (seq j (S n)) with (j :: seq (S j) n). cbn [fmap list_fmap for_each]. cbv zeta.
    change sizeof_vnic with 512.
    replace (64 >? 512 - 64 * Z.of_nat j) with false by (symmetry; rewrite Z.gtb_ltb; apply Z.ltb_ge; lia).
    change (Z.to_nat (64 / 8)) with 8%nat.
    replace (Z.to_nat (64 * Z.of_nat j / 8)) with (8 * j)%nat
      by (replace (64 * Z.of_nat j) with (8 * Z.of_nat j * 8) by lia; rewrite Z.div_mul by done; lia).
    unfold smem_read64. rewrite run_assoc, run_get.
    change (smem (with_raw (fill (8 * j) C R) s)) with (smem s).
    set (rb := (fun i => _) <$> seq 0 8).
    pose proof (run_fill 8 0 (8 * j) C R (fun i => swapw64 (nth i rb 0)) s) as Hfill.
    rewrite Nat.add_0_r in Hfill. replace (8 * j + 8)%nat with (8 * S j)%nat in Hfill by lia.
    erewrite run_some.
    2: { apply Hfill; [by unfold C, counters; rewrite length_fmap, length_seq|done|].
         intros i Hi. unfold C. rewrite counters_lookup by lia. f_equal.
         rewrite (nth_lookup_Some rb i 0 (dword_of
           (rd (smem s) (vnic_base vid + 64 * Z.of_nat j + 8 * Z.of_nat i))
           (rd (smem s) (vnic_base vid + 64 * Z.of_nat j + 8 * Z.of_nat i + 4)))).
         - replace (vnic_base vid + 64 * Z.of_nat j + 8 * Z.of_nat i) with
             (vnic_base vid + 8 * Z.of_nat (8 * j + i)) by lia.
           rewrite (smem_read (vnic_base vid) 64) by (done || lia).
           symmetry. apply wrap_small. apply (counter_fits _ 64); [done|lia].
         - unfold rb. rewrite list_lookup_fmap, lookup_seq_lt by lia. done. }
    cbv beta.
    apply (IH (S j)); [lia|done|done].
Qed.

Lemma run_load_vnic vid s : length (_vnic_stats s) = 64%nat ->
  words_fit (vnic_base vid) 64 (smem s) ->
  load_vnic vid s = Some (tt, with_raw (counters (vnic_base vid) 64 (smem s)) s).
Proof.
  intros Hl Hw. unfold load_vnic. rewrite blocks_vnic.
  replace s with (with_raw (fill 0 (counters (vnic_base vid) 64 (smem s)) (_vnic_stats s)) s) at 1
    by by destruct s.
  pose proof (run_load_blocks vid 8 0 s (_vnic_stats s) eq_refl Hl Hw) as Hrun. cbv zeta in Hrun.
  change (8 * 0)%nat with 0%nat in Hrun. rewrite Hrun. do 3 f_equal.
  unfold fill. rewrite take_ge, drop_ge, app_nil_r; [done|lia|].
  unfold counters. rewrite length_fmap, length_seq. lia.
Qed.

(** Reading fields does not change the state. *)
Lemma run_gets fs (g : nat -> nat) s acc : length (_vnic_stats s) = 64%nat ->
  Forall (fun f => (g f < 64)%nat) fs ->
  for_fold fs acc (fun acc f => v ← vnic_get (g f); mret (acc ++ [swapw64 v])) s =
  Some (acc ++ (swapw64 <$> (fval (_vnic_stats s) <$> (g <$> fs))), s).
Proof.
  intros Hl Hf. revert acc. induction Hf as [|f fs Hf _ IH]; intros acc.
  - by rewrite app_nil_r.
  - cbn [for_fold]. rewrite run_assoc. erewrite run_some by (apply run_vnic_get; lia). cbv beta.
    rewrite run_ret, IH. by rewrite <- app_assoc.
Qed.

Lemma fvals_seq raw : length raw = 64%nat ->
  fval raw <$> seq 0 64 = raw.
Proof.
  intros Hl. do 64 (destruct raw as [|? raw]; [done|]). by destruct raw.
Qed.

Lemma run_store_blocks vid n : forall j s m, (j + n = 8)%nat -> raw_ok (_vnic_stats s) ->
  let raw := _vnic_stats s in
  for_each ((fun j => 64 * Z.of_nat j) <$> seq j n) (fun offset =>
    write_block ← for_fold (seq 0 8) [] (fun write_block i =>
      v ← vnic_get (Z.to_nat (offset / 8) + i);
      mret (write_block ++ [swapw64 v]));
    let size := if 64 >? sizeof_vnic - offset then sizeof_vnic - offset else 64 in
    smem_write64 (vnic_base vid + offset) (take (Z.to_nat (size / 8)) write_block))
    (s <| smem := put_counters (vnic_base vid) (take (8 * j) raw) m |>) =
  Some (tt, s <| smem := put_counters (vnic_base vid) raw m |>).
Proof.
  induction n as [|n IH]; intros j s m Hn Hr raw.
  - cbn [seq fmap list_fmap for_each]. rewrite run_ret_some. destruct Hr as [Hl _].
    by rewrite take_ge by (unfold raw; lia).
  - change (seq j (S n)) with (j :: seq (S j) n). cbn [fmap list_fmap for_each]. cbv zeta.
    change sizeof_vnic with 512.
    replace (64 >? 512 - 64 * Z.of_nat j) with false by (symmetry; rewrite Z.gtb_ltb; apply Z.ltb_ge; lia).
    change (Z.to_nat (64 / 8)) with 8%nat.
    replace (Z.to_nat (64 * Z.of_nat j / 8)) with (8 * j)%nat
      by (replace (64 * Z.of_nat j) with (8 * Z.of_nat j * 8) by lia; rewrite Z.div_mul by done; lia).
    pose proof Hr as [Hl _]. rewrite run_assoc.
    erewrite run_some.
    2: { apply (run_gets (seq 0 8) (fun i => 8 * j + i)%nat); [exact Hl|].
         apply Forall_seq. intros. lia. }
    cbv beta. change (_vnic_stats (s <| smem := _ |>)) with raw.
    set (vals := fval raw <$> _).
    assert (Hv : vals = take 8 (drop (8 * j) raw)).
    { apply list_eq. intros i. unfold vals. rewrite !list_lookup_fmap.
      destruct (decide (i < 8)%nat) as [Hi|Hi].
      - rewrite lookup_seq_lt by done. rewrite lookup_take_lt, lookup_drop by done. simpl.
        unfold fval. destruct (lookup_lt_is_Some_2 raw (8 * j + i)) as [v Hlk]; [unfold raw; lia|].
        transitivity (Some v); [f_equal; by apply nth_lookup_Some|by symmetry].
      - rewrite lookup_seq_ge, lookup_take_ge by lia. done. }
    rewrite Hv. cbn [app]. rewrite take_ge by (rewrite length_fmap, length_take; lia).
    unfold smem_write64. rewrite run_modify.
    assert (Hnext : take (8 * S j) raw = take (8 * j) raw ++ take 8 (drop (8 * j) raw)).
    { rewrite take_take_drop. f_equal. lia. }
    specialize (IH (S j) s m ltac:(lia) Hr). cbv zeta in IH. fold raw in IH.
    rewrite Hnext, put_counters_app, length_take in IH.
    replace (8 * Z.of_nat ((8 * j) `min` length raw)) with (64 * Z.of_nat j) in IH by (unfold raw; lia).
    exact IH.
Qed.

Lemma run_store_vnic vid s : raw_ok (_vnic_stats s) ->
  store_vnic vid s = Some (tt, s <| smem ::= put_counters (vnic_base vid) (_vnic_stats s) |>).
Proof.
  intros Hr. unfold store_vnic. rewrite blocks_vnic.
  pose proof (run_store_blocks vid 8 0 s (smem s) eq_refl Hr) as Hrun. cbv zeta in Hrun.
  change (take (8 * 0) (_vnic_stats s)) with (@nil Z) in Hrun.
  replace (s <| smem := put_counters (vnic_base vid) [] (smem s) |>) with s in Hrun by by destruct s.
  exact Hrun.
Qed.

Lemma put_words_fit a vals m : Forall (fits 64) vals ->
  words_fit a (length vals) (put_counters a vals m).
Proof.
  intros Hv k Hk. unfold put_counters.
  assert (Hlen : (k < length (regs_of (swapw64 <$> vals)))%nat)
    by (rewrite length_regs_of, length_fmap; lia).
  destruct (lookup_lt_is_Some_2 _ _ Hlen) as [w Hw].
  rewrite (rd_mem_put_in _ _ _ _ _ Hw).
  apply list_elem_of_lookup_2 in Hw. unfold regs_of in Hw.
  apply list_elem_of_bind in Hw as (v & Hin & _).
  apply elem_of_cons in Hin as [->|[->|[]%elem_of_nil]%elem_of_cons]; apply wrap_fits; lia.
Qed.

(** The statistics of a vNIC survive from one round to the next: what one
    round stores, the next one loads, whatever was in the array in between and
    whatever else was stored meanwhile; storing changes no word outside of the
    statistics of that vNIC. *)
Theorem vnic_stats_roundtrip vid s s2 :
  raw_ok (_vnic_stats s) -> length (_vnic_stats s2) = 64%nat ->
  exists s1, store_vnic vid s = Some (tt, s1) /\
    (forall x, x < vnic_base vid \/ vnic_base (vid + 1) <= x -> rd (smem s1) x = rd (smem s) x) /\
    ((forall k, 0 <= k < 128 ->
        rd (smem s2) (vnic_base vid + 4 * k) = rd (smem s1) (vnic_base vid + 4 * k)) ->
     load_vnic vid s2 = Some (tt, with_raw (_vnic_stats s) s2)).
Proof.
  intros Hr Hl2. pose proof Hr as [Hl Hfit].
  eexists. split; [by apply run_store_vnic|]. split.
  - intros x Hx. change (smem (s <| smem ::= put_counters (vnic_base vid) (_vnic_stats s) |>)) with
      (put_counters (vnic_base vid) (_vnic_stats s) (smem s)).
    apply rd_put_counters_out. rewrite Hl. unfold vnic_base in *. change sizeof_vnic with 512 in *. lia.
  - intros Hsame. change (smem (s <| smem ::= put_counters (vnic_base vid) (_vnic_stats s) |>)) with
      (put_counters (vnic_base vid) (_vnic_stats s) (smem s)) in Hsame.
    assert (Hw : words_fit (vnic_base vid) 64 (smem s2)).
    { intros k Hk. rewrite Hsame by lia. rewrite <- Hl in Hk.
      by apply (put_words_fit _ _ _ Hfit). }
    rewrite run_load_vnic by done. do 3 f_equal.
    rewrite <- (counters_put (vnic_base vid) (_vnic_stats s) (smem s) Hfit), Hl.
    unfold counters. apply list_fmap_ext. intros i k Hk.
    apply lookup_seq in Hk as [-> Hk]. unfold counter_at.
    f_equal.
    + replace (vnic_base vid + 8 * Z.of_nat (0 + i) + 4) with
        (vnic_base vid + 4 * Z.of_nat (2 * i + 1)) by lia. apply Hsame. lia.
    + replace (vnic_base vid + 8 * Z.of_nat (0 + i)) with
        (vnic_base vid + 4 * Z.of_nat (2 * i)) by lia. apply Hsame. lia.
Qed.

(** ** The configuration BAR *)

(** The three groups of statistics follow each other in the BAR, in the order of
    nfp_net_ctrl.h. *)
Class StatBarOk : Prop := {
  stats_rx_tx : NFP_NET_CFG_STATS_RX_DISCARDS + 72 <= NFP_NET_CFG_STATS_TX_DISCARDS;
  stats_tx_app : NFP_NET_CFG_STATS_TX_DISCARDS + 72 <= NFP_NET_CFG_STATS_APP0_FRAMES
}.

Definition bar_rx_fields : list nat :=
  [rx_discards; rx_errors; rx_bytes; rx_uc_bytes; rx_mc_bytes; rx_bc_bytes; rx_pkts; rx_mc_pkts; rx_bc_pkts].
Definition bar_tx_fields : list nat :=
  [tx_discards; tx_errors; tx_bytes; tx_uc_bytes; tx_mc_bytes; tx_bc_bytes; tx_pkts; tx_mc_pkts; tx_bc_pkts].
Definition bar_app_fields : list nat :=
  [bpf_pass_pkts; bpf_pass_bytes; bpf_discard_pkts; bpf_discard_bytes; bpf_tx_pkts; bpf_tx_bytes;
   bpf_abort_pkts; bpf_abort_bytes].

Lemma run_vnic_block {A} fs s (k : list Z -> St A) : length (_vnic_stats s) = 64%nat ->
  Forall (fun f => (f < 64)%nat) fs ->
  (vnic_block fs ≫= k) s = k (swapw64 <$> (fval (_vnic_stats s) <$> fs)) s.
Proof.
  intros Hl Hf. erewrite run_some.
  2: { unfold vnic_block. apply (run_gets fs (fun f => f)); done. }
  by rewrite list_fmap_id.
Qed.

Lemma run_bar_stats vid s : length (_vnic_stats s) = 64%nat ->
  update_vnic_bar_stats vid s = Some (tt, s <| smem ::= fun m =>
    let vals fs := fval (_vnic_stats s) <$> fs in
    put_counters (bar_of vid + NFP_NET_CFG_STATS_APP0_FRAMES) (vals bar_app_fields)
      (put_counters (bar_of vid + NFP_NET_CFG_STATS_TX_DISCARDS) (vals bar_tx_fields)
        (put_counters (bar_of vid + NFP_NET_CFG_STATS_RX_DISCARDS) (vals bar_rx_fields) m)) |>).
Proof.
  intros Hl. unfold update_vnic_bar_stats.
  rewrite run_vnic_block by (done || (apply (bool_decide_unpack _); by vm_compute)).
  unfold smem_write64. rewrite run_modify.
  rewrite run_vnic_block by (done || (apply (bool_decide_unpack _); by vm_compute)).
  rewrite run_modify.
  rewrite run_vnic_block by (done || (apply (bool_decide_unpack _); by vm_compute)).
  by destruct s.
Qed.

(** The host finds each statistic of the vNIC in the BAR at its place: the
    receive group, the transmit group and the group of the BPF program, as
    64-bit counters in the order of the BAR; nothing else in memory changes. *)
Theorem bar_stats_correct `{!StatBarOk} vid s : raw_ok (_vnic_stats s) ->
  exists m, update_vnic_bar_stats vid s = Some (tt, s <| smem := m |>) /\
    (forall i f, bar_rx_fields !! i = Some f ->
      counter_at (bar_of vid + NFP_NET_CFG_STATS_RX_DISCARDS + 8 * Z.of_nat i) m =
      fval (_vnic_stats s) f) /\
    (forall i f, bar_tx_fields !! i = Some f ->
      counter_at (bar_of vid + NFP_NET_CFG_STATS_TX_DISCARDS + 8 * Z.of_nat i) m =
      fval (_vnic_stats s) f) /\
    (forall i f, bar_app_fields !! i = Some f ->
      counter_at (bar_of vid + NFP_NET_CFG_STATS_APP0_FRAMES + 8 * Z.of_nat i) m =
      fval (_vnic_stats s) f) /\
    (forall x, x < bar_of vid + NFP_NET_CFG_STATS_RX_DISCARDS \/
       bar_of vid + NFP_NET_CFG_STATS_APP0_FRAMES + 64 <= x -> rd m x = rd (smem s) x).
Proof.
  intros Hr. pose proof Hr as [Hl _]. pose proof stats_rx_tx. pose proof stats_tx_app.
  assert (Hv : forall (fs : list nat) i f, fs !! i = Some f ->
    (fval (_vnic_stats s) <$> fs) !! i = Some (fval (_vnic_stats s) f) /\
    fits 64 (fval (_vnic_stats s) f)).
  { intros fs i f Hf. rewrite list_lookup_fmap, Hf. split; [done|]. by apply fval_fits. }
  assert (Hlen : forall (fs : list nat), length (fval (_vnic_stats s) <$> fs) = length fs)
    by (intros; apply length_fmap).
  eexists. split; [by apply run_bar_stats|]. cbv zeta. split; [|split; [|split]].
  - intros i f Hf. destruct (Hv _ _ _ Hf). pose proof (lookup_lt_Some _ _ _ Hf) as Hi.
    change (length bar_rx_fields) with 9%nat in Hi.
    rewrite !counter_put_out by (rewrite ?Hlen; lia). by apply counter_put.
  - intros i f Hf. destruct (Hv _ _ _ Hf). pose proof (lookup_lt_Some _ _ _ Hf) as Hi.
    change (length bar_tx_fields) with 9%nat in Hi.
    rewrite counter_put_out by (rewrite ?Hlen; lia). by apply counter_put.
  - intros i f Hf. destruct (Hv _ _ _ Hf). by apply counter_put.
  - intros x Hx. rewrite !rd_put_counters_out; [done|..]; rewrite Hlen;
      [change (length bar_rx_fields) with 9%nat|change (length bar_tx_fields) with 9%nat
      |change (length bar_app_fields) with 8%nat]; lia.
Qed.

(** ** Packets counted on the wrong side *)

Lemma run_vnic_get_raw {A} f raw s (k : Z -> St A) : (f < length raw)%nat ->
  (vnic_get f ≫= k) (with_raw raw s) = k (fval raw f) (with_raw raw s).
Proof. intros Hf. by erewrite run_some by by apply run_vnic_get. Qed.

Lemma run_vnic_put_raw {A} f v raw s (k : unit -> St A) : (f < length raw)%nat ->
  (vnic_put f v ≫= k) (with_raw raw s) = k tt (with_raw (<[f := u64 v]> raw) s).
Proof. intros Hf. by erewrite run_some by by apply run_vnic_put. Qed.

Lemma run_vnic_add_raw {A} f v raw s (k : unit -> St A) : (f < length raw)%nat ->
  (vnic_add f v ≫= k) (with_raw raw s) = k tt (with_raw (bump raw (f, v)) s).
Proof. intros Hf. by erewrite run_some by by apply run_vnic_add. Qed.

(** What the correction does to the array *)
Definition remapped (dst_stat dst_total src_stat src_total : nat) (raw : list Z) : list Z :=
  let raw1 := if truthy (fval raw src_total)
    then <[src_total := u64 (fval raw src_total - fval raw src_stat)]> raw else raw in
  let raw2 := if truthy (fval raw1 dst_total)
    then <[dst_total := u64 (fval raw1 dst_total + fval raw1 src_stat)]> raw1 else raw1 in
  <[src_stat := 0]> (bump raw2 (dst_stat, fval raw2 src_stat)).

Lemma run_when_put {A} t ss (g : Z -> Z) raw s (k : unit -> St A) :
  (t < length raw)%nat -> (ss < length raw)%nat ->
  (when (truthy (fval raw t)) (x ← vnic_get ss; vnic_put t (g x)) ≫= k) (with_raw raw s) =
  k tt (with_raw (if truthy (fval raw t) then <[t := u64 (g (fval raw ss))]> raw else raw) s).
Proof.
  intros Ht Hs. destruct (truthy _); [|done]. cbn [when].
  by rewrite run_assoc, run_vnic_get_raw, run_vnic_put_raw by done.
Qed.

Lemma length_when_put (b : bool) (t : nat) (v : Z) raw :
  length (if b then <[t := v]> raw else raw) = length raw.
Proof. destruct b; [apply length_insert|done]. Qed.

Lemma run_remap ds dt ss st raw s : length raw = 64%nat -> (ds < 64)%nat -> (dt < 64)%nat ->
  (ss < 64)%nat -> (st < 64)%nat ->
  vnic_stats_remap ds dt ss st (with_raw raw s) = Some (tt, with_raw (remapped ds dt ss st raw) s).
Proof.
  intros Hl Hds Hdt Hss Hst. unfold vnic_stats_remap, remapped. cbv zeta.
  rewrite run_vnic_get_raw, run_when_put, run_vnic_get_raw, run_when_put, run_vnic_get_raw
    by (rewrite ?length_when_put; lia).
  rewrite run_vnic_add_raw by (rewrite ?length_when_put; lia).
  erewrite run_vnic_put; [done|]. unfold bump.
  change (_vnic_stats (with_raw ?r s)) with r. rewrite length_insert, ?length_when_put. lia.
Qed.

(** Each of the four fields, and the others, after the correction *)
Lemma fval_remapped ds dt ss st raw f : length raw = 64%nat ->
  (ds < 64 /\ dt < 64 /\ ss < 64 /\ st < 64)%nat ->
  ds <> dt /\ ds <> ss /\ ds <> st /\ dt <> ss /\ dt <> st /\ ss <> st ->
  fval (remapped ds dt ss st raw) f =
    if (f =? ss)%nat then 0
    else if (f =? ds)%nat then u64 (fval raw ds + fval raw ss)
    else if (f =? dt)%nat then
      (if truthy (fval raw dt) then u64 (fval raw dt + fval raw ss) else fval raw dt)
    else if (f =? st)%nat then
      (if truthy (fval raw st) then u64 (fval raw st - fval raw ss) else fval raw st)
    else fval raw f.
Proof.
  intros Hl (? & ? & ? & ?) (? & ? & ? & ? & ? & ?).
  assert (Hst : forall g, fval (if truthy (fval raw st)
      then <[st := u64 (fval raw st - fval raw ss)]> raw else raw) g =
    if decide (g = st) then (if truthy (fval raw st) then u64 (fval raw st - fval raw ss) else fval raw st)
    else fval raw g).
  { intros g. destruct (truthy (fval raw st)); [rewrite fval_insert by lia|];
      destruct (decide (g = st)) as [->|]; done. }
  unfold remapped, bump. cbv zeta. cbn [fst snd].
  set (raw1 := if truthy (fval raw st) then _ else raw) in *.
  assert (Hl1 : length raw1 = 64%nat) by (unfold raw1; by rewrite length_when_put).
  clearbody raw1.
  assert (Hdt : forall g, fval (if truthy (fval raw1 dt)
      then <[dt := u64 (fval raw1 dt + fval raw1 ss)]> raw1 else raw1) g =
    if decide (g = dt) then (if truthy (fval raw1 dt) then u64 (fval raw1 dt + fval raw1 ss) else fval raw1 dt)
    else fval raw1 g).
  { intros g. destruct (truthy (fval raw1 dt)); [rewrite fval_insert by lia|];
      destruct (decide (g = dt)) as [->|]; done. }
  rewrite !fval_insert by (rewrite ?length_insert, ?length_when_put; lia).
  rewrite !Hdt, !Hst.
  repeat match goal with |- context [(?x =? ?y)%nat] => destruct (Nat.eqb_spec x y) end;
    repeat case_decide; subst; try done.
Qed.

(** C20: the correction for packets that the host sent and that were discarded
    as received ones: [rx_discard_act] is meant to move to [tx_discard_act], with
    the totals of discarded packets.  The second call moves the bytes and adds
    them to the totals of packets as well; and a total that is 0 gets nothing. *)
Theorem remap_mixes_bytes_and_packets raw s : raw_ok raw ->
  let p := fval raw rx_discard_act_pkts in
  let b := fval raw rx_discard_act_bytes in
  let t := fval raw tx_discards in
  let r := fval raw rx_discards in
  exists raw',
    (_ ← vnic_stats_remap tx_discard_act_pkts tx_discards rx_discard_act_pkts rx_discards;
     vnic_stats_remap tx_discard_act_bytes tx_discards rx_discard_act_bytes rx_discards)
      (with_raw raw s) = Some (tt, with_raw raw' s) /\
    fval raw' tx_discard_act_pkts = u64 (fval raw tx_discard_act_pkts + p) /\
    fval raw' tx_discard_act_bytes = u64 (fval raw tx_discard_act_bytes + b) /\
    fval raw' rx_discard_act_pkts = 0 /\ fval raw' rx_discard_act_bytes = 0 /\
    (t <> 0 -> u64 (t + p) <> 0 -> fval raw' tx_discards = u64 (t + p + b)) /\
    (r <> 0 -> u64 (r - p) <> 0 -> fval raw' rx_discards = u64 (r - p - b)) /\
    (t = 0 -> fval raw' tx_discards = 0).
Proof.
  intros [Hl Hfit] p b t r.
  eexists. split.
  { erewrite run_some by (apply run_remap; [exact Hl|apply Nat.ltb_lt; reflexivity..]). cbv beta.
    apply run_remap; [|apply Nat.ltb_lt; reflexivity..].
    unfold remapped, bump. cbv zeta. by rewrite !length_insert, !length_when_put. }
  assert (Hl1 : length (remapped tx_discard_act_pkts tx_discards rx_discard_act_pkts rx_discards raw) = 64%nat)
    by (unfold remapped, bump; cbv zeta; by rewrite !length_insert, !length_when_put).
  assert (Hp : forall f, _) by (intros f; apply (fval_remapped tx_discard_act_pkts tx_discards
    rx_discard_act_pkts rx_discards raw f Hl); vm_compute; lia).
  assert (Hb : forall f, _) by (intros f; apply (fval_remapped tx_discard_act_bytes tx_discards
    rx_discard_act_bytes rx_discards _ f Hl1); vm_compute; lia).
  cbv beta in Hp, Hb.
  rewrite !Hb, !Hp. clear Hb Hp.
  repeat match goal with |- context [if (?x =? ?y)%nat then _ else _] =>
    let v := eval vm_compute in (x =? y)%nat in change (x =? y)%nat with v; cbv iota end.
  fold p b t r.
  assert (Htr : forall x, x <> 0 -> truthy x = true)
    by (intros x Hx; unfold truthy; by rewrite (proj2 (Z.eqb_neq _ _) Hx)).
  repeat split; try done.
  - intros Ht Htp. rewrite (Htr t Ht), (Htr _ Htp). apply Zplus_mod_idemp_l.
  - intros Hr Hrp. rewrite (Htr r Hr), (Htr _ Hrp). apply Zminus_mod_idemp_l.
  - intros Ht. by rewrite !Ht.
Qed.

(** ** The MAC *)

(** The structure of the MAC library has four fields that are treated apart,
    and 64-bit values. *)
Class StatMacOk : Prop := {
  mac_places : (RxMacHeadDrop < macstats_port_words /\ TxQueueDrop < macstats_port_words /\
    TxPIfOutErrors < macstats_port_words /\ RxPIfInErrors < macstats_port_words)%nat;
  mac_distinct : RxMacHeadDrop <> TxQueueDrop /\ RxMacHeadDrop <> TxPIfOutErrors /\
    RxMacHeadDrop <> RxPIfInErrors /\ TxQueueDrop <> TxPIfOutErrors /\
    TxQueueDrop <> RxPIfInErrors /\ TxPIfOutErrors <> RxPIfInErrors;
  port_accum_fits h nbi ch l : Forall (fits 64) (port_accum_dev h nbi ch l)
}.

(** A word of the structure as the host sees it *)
Definition mac_word (acc : list Z) (d : mac_drops_t) (k : nat) : Z :=
  if (k =? RxMacHeadDrop)%nat then mac_rx_discards d
  else if (k =? TxQueueDrop)%nat then mac_tx_discards d
  else nth k acc 0.

(** The errors are taken over when the copy comes to them. *)
Definition take_errors (acc : list Z) (d : mac_drops_t) (k : nat) : mac_drops_t :=
  if (k =? RxMacHeadDrop)%nat then d
  else if (k =? TxQueueDrop)%nat then d
  else if (k =? TxPIfOutErrors)%nat then d <| mac_tx_errors := nth k acc 0 |>
  else if (k =? RxPIfInErrors)%nat then d <| mac_rx_errors := nth k acc 0 |>
  else d.

Definition errors_upto (acc : list Z) (d : mac_drops_t) (n : nat) : mac_drops_t :=
  foldl (take_errors acc) d (seq 0 n).

Lemma take_errors_drops acc d k :
  mac_rx_discards (take_errors acc d k) = mac_rx_discards d /\
  mac_tx_discards (take_errors acc d k) = mac_tx_discards d.
Proof. unfold take_errors. by repeat case_match. Qed.

Lemma mac_word_errors acc d k k' : mac_word acc (take_errors acc d k) k' = mac_word acc d k'.
Proof. unfold mac_word. by destruct (take_errors_drops acc d k) as [-> ->]. Qed.

Lemma errors_S acc d n : errors_upto acc d (S n) = take_errors acc (errors_upto acc d n) n.
Proof. unfold errors_upto. by rewrite seq_S, foldl_app. Qed.

Lemma mac_word_upto acc d n k : mac_word acc (errors_upto acc d n) k = mac_word acc d k.
Proof. induction n as [|n IH]; [done|]. by rewrite errors_S, mac_word_errors. Qed.

Lemma errs1 x v : mac_rx_errors (x <| mac_tx_errors := v |>) = mac_rx_errors x.
Proof. by destruct x. Qed.
Lemma errs2 x v : mac_tx_errors (x <| mac_tx_errors := v |>) = v.
Proof. by destruct x. Qed.
Lemma errs3 x v : mac_tx_errors (x <| mac_rx_errors := v |>) = mac_tx_errors x.
Proof. by destruct x. Qed.
Lemma errs4 x v : mac_rx_errors (x <| mac_rx_errors := v |>) = v.
Proof. by destruct x. Qed.

Lemma errors_upto_val `{!StatMacOk} acc d n :
  mac_rx_discards (errors_upto acc d n) = mac_rx_discards d /\
  mac_tx_discards (errors_upto acc d n) = mac_tx_discards d /\
  mac_tx_errors (errors_upto acc d n) =
    (if (TxPIfOutErrors <? n)%nat then nth TxPIfOutErrors acc 0 else mac_tx_errors d) /\
  mac_rx_errors (errors_upto acc d n) =
    (if (RxPIfInErrors <? n)%nat then nth RxPIfInErrors acc 0 else mac_rx_errors d).
Proof.
  pose proof mac_distinct as (? & ? & ? & ? & ? & ?).
  induction n as [|n (IH1 & IH2 & IH3 & IH4)]; [done|]. rewrite errors_S.
  destruct (take_errors_drops acc (errors_upto acc d n) n) as [-> ->].
  split; [done|]. split; [done|]. unfold take_errors.
  destruct (Nat.eqb_spec n RxMacHeadDrop), (Nat.eqb_spec n TxQueueDrop),
    (Nat.eqb_spec n TxPIfOutErrors), (Nat.eqb_spec n RxPIfInErrors); subst; try congruence;
  rewrite ?errs1, ?errs2, ?errs3, ?errs4, ?IH3, ?IH4; split;
  repeat match goal with |- context [(?a <? ?b)%nat] => destruct (Nat.ltb_spec a b) end; done || lia.
Qed.

(** The states in which the copy of a port is *)
Definition at_port (port : Z) (m : gmap Z Z) (d : mac_drops_t) (s : stats) : stats :=
  s <| smem := m |> <| _mac_drops ::= <[port := d]> |>.

Lemma drops_at port m d s : drops port (at_port port m d s) = d.
Proof. unfold drops, at_port. simpl. by rewrite lookup_insert_eq. Qed.

Lemma run_set_drops {A} port f m d s (k : unit -> St A) :
  (set_drops port f ≫= k) (at_port port m d s) = k tt (at_port port m (f d) s).
Proof.
  unfold set_drops. rewrite run_modify, drops_at. f_equal. unfold at_port.
  destruct s. cbv [apply_update constant set_mac_drops set_smem]. f_equal.
  apply insert_insert_eq.
Qed.

Lemma run_set_drops0 {A} port f s (k : unit -> St A) :
  (set_drops port f ≫= k) s = k tt (at_port port (smem s) (f (drops port s)) s).
Proof. by destruct s. Qed.

Lemma nth_fits acc k : Forall (fits 64) acc -> fits 64 (nth k acc 0).
Proof.
  intros Hf. destruct (acc !! k) as [v|] eqn:Hv.
  - rewrite (nth_lookup_Some _ _ _ _ Hv). by eapply Forall_lookup_1.
  - rewrite nth_overflow by by apply lookup_ge_None. unfold fits. lia.
Qed.

Lemma run_copy_word {A} port k acc m d s (kont : Z -> St A) : Forall (fits 64) acc ->
  (copy_word port k (swapw64 (nth k acc 0)) ≫= kont) (at_port port m d s) =
  kont (swapw64 (mac_word acc d k)) (at_port port m (take_errors acc d k) s).
Proof.
  intros Hf. pose proof (nth_fits acc k Hf) as Hk. unfold copy_word, mac_word, take_errors.
  destruct (k =? RxMacHeadDrop)%nat; [rewrite run_assoc, run_get, run_ret, drops_at; done|].
  destruct (k =? TxQueueDrop)%nat; [rewrite run_assoc, run_get, run_ret, drops_at; done|].
  rewrite run_assoc. destruct (k =? TxPIfOutErrors)%nat.
  { by rewrite run_set_drops, run_ret, swapw64_involutive. }
  destruct (k =? RxPIfInErrors)%nat.
  { by rewrite run_set_drops, run_ret, swapw64_involutive. }
  by rewrite !run_ret.
Qed.

Lemma run_copy_words port acc m d0 s k0 n : forall i wb rb,
  Forall (fits 64) acc ->
  (forall j, (i <= j < i + n)%nat -> nth j rb 0 = swapw64 (nth (k0 + j) acc 0)) ->
  for_fold (seq i n) wb (fun write_block i =>
    w ← copy_word port (k0 + i) (nth i rb 0); mret (write_block ++ [w]))
    (at_port port m (errors_upto acc d0 (k0 + i)) s) =
  Some (wb ++ (swapw64 <$> (mac_word acc d0 <$> seq (k0 + i) n)),
    at_port port m (errors_upto acc d0 (k0 + i + n)) s).
Proof.
  induction n as [|n IH]; intros i wb rb Hf Hrb.
  - cbn [seq for_fold fmap list_fmap]. by rewrite run_ret_some, app_nil_r, Nat.add_0_r.
  - change (seq i (S n)) with (i :: seq (S i) n).
    change (seq (k0 + i) (S n)) with ((k0 + i)%nat :: seq (S (k0 + i)) n).
    cbn [for_fold]. rewrite run_assoc, Hrb, run_copy_word by (lia || done). rewrite run_ret.
    rewrite <- errors_S. replace (S (k0 + i)) with (k0 + S i)%nat by lia.
    rewrite IH by (done || (intros; apply Hrb; lia)).
    replace (k0 + S i + n)%nat with (k0 + i + S n)%nat by lia.
    cbn [fmap list_fmap]. rewrite <- app_assoc. cbn [app].
    by rewrite mac_word_upto.
Qed.

Section port.
Context (port : Z) (acc : list Z) (d0 : mac_drops_t) (m0 : gmap Z Z) (s : stats).
Hypothesis (Hacc : port_accum port s = acc) (Hfit : Forall (fits 64) acc).

Definition mac_base (channel : Z) : Z := mac_stats_addr + sizeof_port * channel.
Definition mac_words : list Z := mac_word acc d0 <$> seq 0 macstats_port_words.

(** After the first [n] words *)
Definition copied (channel : Z) (n : nat) : stats :=
  at_port port (put_counters (mac_base channel) (take n mac_words) m0) (errors_upto acc d0 n) s.

Lemma port_accum_copied ch n : port_accum port (copied ch n) = acc.
Proof. exact Hacc. Qed.

Lemma run_copy_block ch j : (8 * j < macstats_port_words)%nat ->
  copy_block port ch (64 * Z.of_nat j) (copied ch (8 * j)) = Some (tt, copied ch (8 * S j)).
Proof.
  intros Hj. unfold copy_block.
  replace (Z.to_nat (64 * Z.of_nat j / 8)) with (8 * j)%nat
    by (replace (64 * Z.of_nat j) with (8 * Z.of_nat j * 8) by lia; rewrite Z.div_mul by done; lia).
  rewrite run_get, port_accum_copied. unfold copied at 1.
  set (rb := (fun i => read_atomic _) <$> seq 0 8).
  set (m := put_counters _ _ _).
  pose proof (run_copy_words port acc m d0 s (8 * j) 8 0 [] rb Hfit) as Hwords.
  rewrite Nat.add_0_r in Hwords.
  erewrite run_some.
  2: { apply Hwords. intros i Hi. apply nth_lookup_Some. unfold rb.
       rewrite list_lookup_fmap, lookup_seq_lt by lia. done. }
  cbv beta zeta. cbn [app].
  set (n8 := (8 `min` (macstats_port_words - 8 * j))%nat).
  assert (Hn : Z.to_nat ((if 64 >? sizeof_port - 64 * Z.of_nat j
      then sizeof_port - 64 * Z.of_nat j else 64) / 8) = n8).
  { unfold sizeof_port, n8. rewrite Z.gtb_ltb. destruct (Z.ltb_spec (8 * Z.of_nat macstats_port_words - 64 * Z.of_nat j) 64).
    - replace (8 * Z.of_nat macstats_port_words - 64 * Z.of_nat j) with
        ((Z.of_nat macstats_port_words - 8 * Z.of_nat j) * 8) by lia.
      rewrite Z.div_mul by done. lia.
    - change (64 / 8) with 8. lia. }
  rewrite Hn, !firstn_map. rewrite take_seq.
  replace (n8 `min` 8)%nat with n8 by (unfold n8; lia).
  assert (Hnext : take (8 * S j) mac_words =
    take (8 * j) mac_words ++ (mac_word acc d0 <$> seq (8 * j) n8)).
  { replace (8 * S j)%nat with (8 * j + 8)%nat by lia. rewrite <- take_take_drop. f_equal.
    unfold mac_words. rewrite <- fmap_drop, drop_seq, <- fmap_take, take_seq. done. }
  unfold copied. rewrite Hnext, put_counters_app, length_take. subst m.
  replace ((8 * j) `min` length mac_words)%nat with (8 * j)%nat
    by (unfold mac_words; rewrite length_fmap, length_seq; lia).
  replace (8 * S j)%nat with (8 * j + 8)%nat by lia. unfold mac_base.
  replace (8 * Z.of_nat (8 * j)) with (64 * Z.of_nat j) by lia. done.
Qed.

Lemma run_copy_steps ch n : forall j, (8 * (j + n) < macstats_port_words + 8)%nat ->
  for_each (steps (64 * Z.of_nat j) 64 n) (copy_block port ch) (copied ch (8 * j)) =
  Some (tt, copied ch (8 * (j + n))).
Proof.
  induction n as [|n IH]; intros j Hn.
  - cbn [steps for_each]. by rewrite run_ret_some, Nat.add_0_r.
  - cbn [steps for_each]. erewrite run_some by (apply run_copy_block; lia). cbv beta.
    replace (64 * Z.of_nat j + 64) with (64 * Z.of_nat (S j)) by lia.
    rewrite IH by lia. by replace (S j + n)%nat with (j + S n)%nat by lia.
Qed.

Lemma run_copy_blocks ch :
  exists n, (macstats_port_words <= n)%nat /\
    for_each (blocks sizeof_port) (copy_block port ch) (at_port port m0 d0 s) = Some (tt, copied ch n).
Proof.
  set (c := Z.to_nat ((sizeof_port - 0 + 64 - 1) / 64)).
  assert (Hc : (macstats_port_words <= 8 * c < macstats_port_words + 8)%nat).
  { unfold c, sizeof_port. pose proof (Nat2Z.is_nonneg macstats_port_words).
    assert (Hd : 8 * Z.of_nat macstats_port_words <=
      64 * ((8 * Z.of_nat macstats_port_words - 0 + 64 - 1) / 64) <
      8 * Z.of_nat macstats_port_words + 64) by (Z.to_euclidean_division_equations; lia).
    lia. }
  exists (8 * c)%nat. split; [lia|]. unfold blocks, ptrs. fold c.
  pose proof (run_copy_steps ch c 0 ltac:(lia)) as Hrun. exact Hrun.
Qed.
End port.

(** The drops of the queues of a port that the traffic manager gives, read in
    order, and the history after it *)
Fixpoint tmq_counts (nbi : Z) (qs : list Z) (h : list cntr_read) : list Z :=
  match qs with
  | [] => []
  | q :: qs => let c := u32 (tmq_cnt_dev h nbi q) in c :: tmq_counts nbi qs (TmqCnt nbi q c :: h)
  end.
Fixpoint tmq_history (nbi : Z) (qs : list Z) (h : list cntr_read) : list cntr_read :=
  match qs with
  | [] => h
  | q :: qs => tmq_history nbi qs (TmqCnt nbi q (u32 (tmq_cnt_dev h nbi q)) :: h)
  end.

Lemma run_tmq port nbi qs : forall m d h s, fits 64 (mac_tx_discards d) ->
  for_each qs (fun i =>
    tmq_cnt ← tmq_cnt_read nbi i;
    set_drops port (fun d => d <| mac_tx_discards ::= fun x => u64 (x + tmq_cnt) |>))
    (at_port port m d (with_reads h s)) =
  Some (tt, at_port port m
    (d <| mac_tx_discards ::= fun x => u64 (x + sum (tmq_counts nbi qs h)) |>)
    (with_reads (tmq_history nbi qs h) s)).
Proof.
  induction qs as [|q qs IH]; intros m d h s Hd; cbn [for_each tmq_counts tmq_history sum foldr].
  - rewrite run_ret_some. do 3 f_equal. destruct d as [r t re te].
    cbv [apply_update set_mac_tx_discards]. simpl in *. by rewrite Z.add_0_r, wrap_small.
  - rewrite run_assoc. unfold tmq_cnt_read. rewrite run_assoc, run_get.
    rewrite run_assoc. unfold note. rewrite run_modify, run_ret.
    change (reads (at_port port m d (with_reads h s))) with h.
    set (c := u32 (tmq_cnt_dev h nbi q)).
    change ((at_port port m d (with_reads h s)) <| reads ::= cons (TmqCnt nbi q c) |>) with
      (at_port port m d (with_reads (TmqCnt nbi q c :: h) s)).
    rewrite run_set_drops.
    rewrite IH by (destruct d; apply wrap_fits; lia). do 3 f_equal.
    destruct d as [r t re te]. cbv [apply_update set_mac_tx_discards]. f_equal.
    unfold wrap. rewrite Zplus_mod_idemp_l. f_equal. unfold sum. lia.
Qed.

(** What a round does for a port.  The drops of the queues of the port are
    added to its total, modulo 2^64; the drops at the head and the errors are
    those of the MAC.  The host gets, at the entry of the base channel of the
    port, every counter of the MAC as accumulated, with the two kinds of drops in
    their fields; no other word of memory and no other port changes. *)
Theorem mac_stats_port_correct `{!StatMacOk} port s :
  let nbi := NS_PLATFORM_MAC (board B) port in
  let channel := NS_PLATFORM_MAC_SERDES_LO (board B) port in
  let acc := port_accum_dev (reads s) nbi channel (port_accum port s) in
  let queues := range (NS_PLATFORM_NBI_TM_QID_LO (board B) port)
                  (NS_PLATFORM_NBI_TM_QID_HI (board B) port + 1) in
  let counts := tmq_counts nbi queues (PortAccum nbi channel :: reads s) in
  let head := nth (Z.to_nat port) (_mac_stats_head_drop s) 0 in
  let base := mac_stats_addr + sizeof_port * channel in
  fits 64 head -> fits 64 (mac_tx_discards (drops port s)) ->
  let d := mk_mac_drops head (u64 (mac_tx_discards (drops port s) + sum counts))
             (nth RxPIfInErrors acc 0) (nth TxPIfOutErrors acc 0) in
  exists s', mac_stats_port port s = Some (tt, s') /\
    drops port s' = d /\ port_accum port s' = acc /\
    (forall port', port' <> port -> drops port' s' = drops port' s /\
       port_accum port' s' = port_accum port' s) /\
    (forall k, (k < macstats_port_words)%nat ->
      counter_at (base + 8 * Z.of_nat k) (smem s') =
        if (k =? RxMacHeadDrop)%nat then mac_rx_discards d
        else if (k =? TxQueueDrop)%nat then mac_tx_discards d
        else nth k acc 0) /\
    (forall x, x < base \/ base + sizeof_port <= x -> rd (smem s') x = rd (smem s) x) /\
    _vnic_stats s' = _vnic_stats s.
Proof.
  intros nbi channel acc queues counts head base Hhead Htx d.
  pose proof (port_accum_fits (reads s) nbi channel (port_accum port s)) as Hfit. fold acc in Hfit.
  set (s1 := s <| _mac_stats ::= <[port := acc]> |>).
  set (h1 := PortAccum nbi channel :: reads s).
  set (d1 := (drops port s) <| mac_rx_discards := head |>).
  set (s2 := with_reads (tmq_history nbi queues h1) s1).
  destruct (run_copy_blocks port acc (d1 <| mac_tx_discards ::= fun x => u64 (x + sum counts) |>)
    (smem s) s2) with (ch := channel) as (n & Hn & Hrun).
  { unfold s2, s1, port_accum. simpl. by rewrite lookup_insert_eq. }
  { exact Hfit. }
  eexists. split.
  { unfold mac_stats_port. fold nbi channel. unfold macstats_port_accum, note.
    rewrite run_assoc, run_modify, run_modify, run_get.
    unfold read_atomic.
    replace (swapw64 (swapw64 _)) with head by by symmetry; apply swapw64_involutive.
    rewrite run_set_drops0.
    change (drops port _) with (drops port s) at 1. fold h1 d1.
    change (at_port port _ d1 _) with (at_port port (smem s) d1 (with_reads h1 s1)).
    erewrite run_some by (apply run_tmq; exact Htx). cbv beta. exact Hrun. }
  set (dn := d1 <| mac_tx_discards ::= fun x => u64 (x + sum counts) |>) in *.
  assert (Hd : errors_upto acc dn n = d).
  { pose proof mac_places as (? & ? & ? & ?).
    destruct (errors_upto_val acc dn n) as (E1 & E2 & E3 & E4).
    destruct (errors_upto acc dn n) as [r t re te]. cbn [mac_rx_discards mac_tx_discards mac_rx_errors mac_tx_errors] in E1, E2, E3, E4.
    rewrite (proj2 (Nat.ltb_lt _ _)) in E3 by lia. rewrite (proj2 (Nat.ltb_lt _ _)) in E4 by lia.
    subst. unfold d, dn, d1. by destruct (drops port s). }
  assert (Hl : length (mac_words acc dn) = macstats_port_words)
    by (unfold mac_words; by rewrite length_fmap, length_seq).
  unfold copied. rewrite Hd, take_ge by lia.
  split; [apply drops_at|]. split; [|split; [|split; [|split]]].
  - unfold port_accum. simpl. by rewrite lookup_insert_eq.
  - intros port' Hne. unfold drops, port_accum. simpl. by rewrite !lookup_insert_ne by done.
  - intros k Hk. change (smem (at_port ?p ?m ?d ?s)) with m. unfold mac_base. fold base.
    assert (Hlk : mac_words acc dn !! k = Some (mac_word acc d k)).
    { unfold mac_words. rewrite list_lookup_fmap, lookup_seq_lt by done. reflexivity. }
    rewrite (counter_put _ _ _ _ _ Hlk); [done|].
    unfold mac_word. repeat case_match; [done|apply wrap_fits; lia|by apply nth_fits].
  - intros x Hx. change (smem (at_port ?p ?m ?d ?s)) with m. unfold mac_base. fold base.
    apply rd_put_counters_out. rewrite Hl. unfold sizeof_port in Hx. lia.
  - done.
Qed.
End memory.

(** ** Witnesses *)

Section witnesses.
Import Counters.

#[local] Instance counters_bar_ok : StatBarOk.
Proof. split; vm_compute; discriminate. Qed.

#[local] Instance counters_mac_ok : StatMacOk.
Proof.
  split; [repeat split; vm_compute; lia|repeat split; discriminate|].
  intros h nbi ch l. apply Forall_fmap, Forall_true. intros k. apply wrap_fits. lia.
Qed.

Lemma vnic_stats_roundtrip_witness :
  raw_ok (_vnic_stats stats0) /\
  exists s1, store_vnic 3 stats0 = Some (tt, s1) /\
    (forall x, x < vnic_base 3 \/ vnic_base (3 + 1) <= x -> rd (smem s1) x = rd (smem stats0) x) /\
    ((forall k, 0 <= k < 128 ->
        rd (smem stats0) (vnic_base 3 + 4 * k) = rd (smem s1) (vnic_base 3 + 4 * k)) ->
     load_vnic 3 stats0 = Some (tt, with_raw (_vnic_stats stats0) stats0)).
Proof.
  split; [exact stats0_ok|].
  exact (vnic_stats_roundtrip 3 stats0 stats0 stats0_ok eq_refl).
Defined.

Lemma bar_stats_correct_witness :
  raw_ok (_vnic_stats stats0) /\
  exists m, update_vnic_bar_stats 3 stats0 = Some (tt, stats0 <| smem := m |>) /\
    (forall i f, bar_rx_fields !! i = Some f ->
      counter_at (bar_of 3 + NFP_NET_CFG_STATS_RX_DISCARDS + 8 * Z.of_nat i) m =
      fval (_vnic_stats stats0) f) /\
    (forall i f, bar_tx_fields !! i = Some f ->
      counter_at (bar_of 3 + NFP_NET_CFG_STATS_TX_DISCARDS + 8 * Z.of_nat i) m =
      fval (_vnic_stats stats0) f) /\
    (forall i f, bar_app_fields !! i = Some f ->
      counter_at (bar_of 3 + NFP_NET_CFG_STATS_APP0_FRAMES + 8 * Z.of_nat i) m =
      fval (_vnic_stats stats0) f) /\
    (forall x, x < bar_of 3 + NFP_NET_CFG_STATS_RX_DISCARDS \/
       bar_of 3 + NFP_NET_CFG_STATS_APP0_FRAMES + 64 <= x -> rd m x = rd (smem stats0) x).
Proof. split; [exact stats0_ok|]. exact (bar_stats_correct 3 stats0 stats0_ok). Defined.

Lemma remap_mixes_bytes_and_packets_witness :
  raw_ok (replicate 64 41) /\
  exists raw',
    (_ ← vnic_stats_remap tx_discard_act_pkts tx_discards rx_discard_act_pkts rx_discards;
     vnic_stats_remap tx_discard_act_bytes tx_discards rx_discard_act_bytes rx_discards)
      (with_raw (replicate 64 41) stats0) = Some (tt, with_raw raw' stats0) /\
    fval raw' tx_discard_act_pkts = 82 /\ fval raw' tx_discard_act_bytes = 82 /\
    fval raw' rx_discard_act_pkts = 0 /\ fval raw' rx_discard_act_bytes = 0 /\
    fval raw' tx_discards = 123.
Proof.
  split; [exact stats0_ok|].
  destruct (remap_mixes_bytes_and_packets (replicate 64 41) stats0 stats0_ok)
    as (raw' & Hrun & H1 & H2 & H3 & H4 & H5 & _).
  exists raw'. split; [exact Hrun|]. split; [exact H1|]. split; [exact H2|].
  split; [exact H3|]. split; [exact H4|]. apply H5; vm_compute; discriminate.
Defined.

Lemma mac_stats_port_correct_witness :
  fits 64 (nth 0 (_mac_stats_head_drop stats0) 0) /\ fits 64 (mac_tx_discards (drops 0 stats0)) /\
  exists s', mac_stats_port 0 stats0 = Some (tt, s') /\
    mac_rx_discards (drops 0 s') = 5 /\
    (forall x, x < mac_stats_addr + sizeof_port * NS_PLATFORM_MAC_SERDES_LO (board sriov_build) 0 \/
       mac_stats_addr + sizeof_port * NS_PLATFORM_MAC_SERDES_LO (board sriov_build) 0 + sizeof_port <= x ->
     rd (smem s') x = rd (smem stats0) x).
Proof.
  assert (H1 : fits 64 (nth 0 (_mac_stats_head_drop stats0) 0)) by (split; vm_compute; congruence).
  assert (H2 : fits 64 (mac_tx_discards (drops 0 stats0))) by (split; vm_compute; congruence).
  split; [exact H1|]. split; [exact H2|].
  destruct (mac_stats_port_correct 0 stats0 H1 H2) as (s' & Hrun & Hd & _ & _ & _ & Hout & _).
  exists s'. split; [exact Hrun|]. split; [by rewrite Hd|]. exact Hout.
Defined.
End witnesses.
