(* ===== verification/NicLocal.v ===== *)
(** * Cache of the configuration BAR: lib/nic_basic/_c/nic_internal.c

    An engine that handles packets in C keeps the part of the configuration
    that it needs in local memory, [nic_lstate], and brings it up to date when
    the host announces changes: the word after the control word has a bit for
    each group of fields that changed.  The engine has a state of its own here,
    with the external memory, where the BARs are. *)

From S2P Require Import Prelude Platform UserCfg Nfd Machine Nbi Bpf StatLayout Stats StatsMem.

Local Open Scope Z_scope.

(** [struct nic_local_state]; arrays are maps from the vNIC. *)
Record nic_local_state := mk_lstate {
  control : gmap Z Z;
  tx_ring_en : gmap Z Z;
  rx_ring_en : gmap Z Z;
  mtu : gmap Z Z;
  mac : gmap Z (list Z);
  rss_ctrl : gmap Z Z;
  rss_key : gmap Z (list Z);
  rss_tbl : gmap Z (list Z);
  vxlan_ports : list Z
}.

#[export] Instance set_control : Setter control := _.
#[export] Instance set_tx_ring_en : Setter tx_ring_en := _.
#[export] Instance set_rx_ring_en : Setter rx_ring_en := _.
#[export] Instance set_mtu : Setter mtu := _.
#[export] Instance set_mac : Setter mac := _.
#[export] Instance set_rss_ctrl : Setter rss_ctrl := _.
#[export] Instance set_rss_key : Setter rss_key := _.
#[export] Instance set_rss_tbl : Setter rss_tbl := _.
#[export] Instance set_vxlan_ports : Setter vxlan_ports := _.

(** [struct nic_reconfig_info] *)
Record nic_reconfig_info := mk_reconfig_info { ri_pci : Z; ri_vnic : Z }.

(** [nic_lstate], [cfg_bar_change_info], whether [cfg_bar_change_sig] is set, the
    acknowledgements to the master, and the external memory *)
Record engine := mk_engine {
  nic_lstate : nic_local_state;
  cfg_bar_change_info : nic_reconfig_info;
  cfg_bar_change_sig : bool;
  synch_acks : nat;
  lmem : gmap Z Z
}.

#[export] Instance set_nic_lstate : Setter nic_lstate := _.
#[export] Instance set_change_sig : Setter cfg_bar_change_sig := _.
#[export] Instance set_synch_acks : Setter synch_acks := _.

(** [mem_read64_swap] swaps the bytes of each 64-bit word. *)
Class LocalLib := { bswap64 : Z * Z -> Z * Z }.

Fixpoint swap_words `{LocalLib} (ws : list Z) : list Z :=
  match ws with
  | w0 :: w1 :: ws => (bswap64 (w0, w1)).1 :: (bswap64 (w0, w1)).2 :: swap_words ws
  | _ => ws
  end.

Abbreviation L := (M engine).

Section local.
Context {B : build} `{NetCfg, Vids, LocalLib}.

(** In local memory an array index out of range is undefined. *)
Definition lvid_ok (vnic : Z) : bool := (0 <=? vnic) && (vnic <? NVNICS B NFD_MAX_CTRL).

Definition upd_local (f : nic_local_state -> nic_local_state) : L unit :=
  modify (fun s => s <| nic_lstate ::= f |>).

Definition bar_words (a : Z) (n : nat) (s : engine) : list Z :=
  (fun i => rd (lmem s) (a + 4 * Z.of_nat i)) <$> seq 0 n.
Definition bar_read (a : Z) (n : nat) : L (list Z) := get (bar_words a n).

Definition nic_local_cfg_changed : L bool :=
  c ← get cfg_bar_change_sig;
  _ ← modify (fun s => s <| cfg_bar_change_sig := false |>);
  mret c.

Definition read_mac (bar_base vnic : Z) : L unit :=
  nic_mac ← bar_read (bar_base + NFP_NET_CFG_MACADDR) 2;
  upd_local (fun n => n <| mac ::= <[vnic := nic_mac]> |>).

(** The general update; the result is [enable_changed], and whether the function
    goes on. *)
Definition reconfig_gen (bar_base vnic newctrl : Z) : L (Z * bool) :=
  old ← get (fun s => rd (control (nic_lstate s)) vnic);
  let enable_changed := if has (Z.lxor old newctrl) NFP_NET_CFG_CTRL_ENABLE then 1 else 0 in
  if negb (has newctrl NFP_NET_CFG_CTRL_ENABLE) then
    _ ← upd_local (fun n => n <| control ::= <[vnic := 0]> |>);
    _ ← upd_local (fun n => n <| rss_ctrl ::= <[vnic := 0]> |>);
    mret (enable_changed, false)
  else
    m ← bar_read (bar_base + NFP_NET_CFG_MTU) 1;
    _ ← upd_local (fun n => n <| mtu ::= <[vnic := nth 0 m 0]> |>);
    _ ← read_mac bar_base vnic;
    _ ← upd_local (fun n => n <| control ::= <[vnic := newctrl]> |>);
    mret (enable_changed, true).

Definition reconfig_rings (bar_base vnic : Z) : L unit :=
  r ← bar_read (bar_base + (NFP_NET_CFG_RXRS_ENABLE - 8)) 4;
  _ ← upd_local (fun n => n <| tx_ring_en ::= <[vnic := swapw64 (dword_of (nth 0 r 0) (nth 1 r 0))]> |>);
  upd_local (fun n => n <| rx_ring_en ::= <[vnic := swapw64 (dword_of (nth 2 r 0) (nth 3 r 0))]> |>).

(** The table takes two reads of 64 bytes. *)
Definition reconfig_rss (bar_base vnic : Z) : L unit :=
  ctrl ← bar_read (bar_base + NFP_NET_CFG_RSS_CTRL) 2;
  key ← bar_read (bar_base + NFP_NET_CFG_RSS_KEY) 10;
  _ ← upd_local (fun n => n <| rss_key ::= <[vnic := key]> |>);
  t ← bar_read (bar_base + NFP_NET_CFG_RSS_ITBL) 16;
  old ← get (fun s => default [] (rss_tbl (nic_lstate s) !! vnic));
  _ ← upd_local (fun n => n <| rss_tbl ::= <[vnic := swap_words t ++ drop 16 old]> |>);
  t ← bar_read (bar_base + NFP_NET_CFG_RSS_ITBL + 64) 16;
  old ← get (fun s => default [] (rss_tbl (nic_lstate s) !! vnic));
  _ ← upd_local (fun n => n <| rss_tbl ::= <[vnic := take 16 old ++ swap_words t]> |>);
  upd_local (fun n => n <| rss_ctrl ::= <[vnic := nth 0 ctrl 0]> |>).

Definition reconfig_vxlan (bar_base : Z) : L unit :=
  p ← bar_read (bar_base + NFP_NET_CFG_VXLAN_PORT) (Z.to_nat (NFP_NET_N_VXLAN_PORTS / 2));
  upd_local (fun n => n <| vxlan_ports := p |>).

(** The groups of fields that [update] announces; RSS and VXLAN only when the
    control word has them. *)
Definition reconfig_groups (bar_base vnic update : Z) : L unit :=
  _ ← when (has update NFP_NET_CFG_UPDATE_RING) (reconfig_rings bar_base vnic);
  _ ← when (has update NFP_NET_CFG_UPDATE_MACADDR) (read_mac bar_base vnic);
  c ← get (fun s => rd (control (nic_lstate s)) vnic);
  _ ← when (has update NFP_NET_CFG_UPDATE_RSS && has c NFP_NET_CFG_CTRL_RSS)
        (reconfig_rss bar_base vnic);
  c ← get (fun s => rd (control (nic_lstate s)) vnic);
  when (has update NFP_NET_CFG_UPDATE_VXLAN && has c NFP_NET_CFG_CTRL_VXLAN)
    (reconfig_vxlan bar_base).

(** The result is [enable_changed]. *)
Definition nic_local_reconfig : L Z :=
  info ← get cfg_bar_change_info;
  _ ← require (ri_pci info =? 0);
  let vnic := ri_vnic info in
  let bar_base := nfd_cfg_bar_base 0 vnic in
  _ ← require (lvid_ok vnic);
  tmp2 ← bar_read (bar_base + NFP_NET_CFG_CTRL) 2;
  let newctrl := nth 0 tmp2 0 in
  let update := nth 1 tmp2 0 in
  r ← (if has update NFP_NET_CFG_UPDATE_GEN then reconfig_gen bar_base vnic newctrl
       else mret (0, true));
  let enable_changed := r.1 in
  if negb r.2 then mret enable_changed
  else
    _ ← reconfig_groups bar_base vnic update;
    mret enable_changed.

Definition nic_local_reconfig_done : L unit := modify (fun s => s <| synch_acks ::= S |>).

Definition nic_local_cfg_bpf_is_enabled : L bool :=
  get (fun s => has (rd (control (nic_lstate s)) 0) NFP_NET_CFG_CTRL_BPF).
End local.

(** * Properties *)

Section proofs.
Context {B : build} `{NetCfg, Vids, LocalLib}.

(** What the BAR of a vNIC in memory [m] says *)
Definition bar_field (m : gmap Z Z) (vnic field : Z) (n : nat) : list Z :=
  (fun i => rd m (nfd_cfg_bar_base 0 vnic + field + 4 * Z.of_nat i)) <$> seq 0 n.
Definition bar_ctrl (m : gmap Z Z) (vnic : Z) : Z := nth 0 (bar_field m vnic NFP_NET_CFG_CTRL 2) 0.
Definition bar_update (m : gmap Z Z) (vnic : Z) : Z := nth 1 (bar_field m vnic NFP_NET_CFG_CTRL 2) 0.
(** The bitmap of rings: in the BAR its lower word is first. *)
Definition bar_rings (m : gmap Z Z) (vnic field : Z) : Z :=
  let w := bar_field m vnic field 2 in dword_of (nth 1 w 0) (nth 0 w 0).

Section at_vnic.
Context (m : gmap Z Z) (vnic : Z).
Let update := bar_update m vnic.
Let gen := has update NFP_NET_CFG_UPDATE_GEN.
Let enabled := has (bar_ctrl m vnic) NFP_NET_CFG_CTRL_ENABLE.

Definition set_if {A} (b : bool) (v : A) (f : gmap Z A) : gmap Z A := if b then <[vnic := v]> f else f.

(** The cache after the changes announced in the BAR *)
Definition reconfigured (n : nic_local_state) : nic_local_state :=
  if gen && negb enabled then n <| control ::= <[vnic := 0]> |> <| rss_ctrl ::= <[vnic := 0]> |>
  else
    let ctrl := if gen then bar_ctrl m vnic else rd (control n) vnic in
    let rss := has update NFP_NET_CFG_UPDATE_RSS && has ctrl NFP_NET_CFG_CTRL_RSS in
    let ring := has update NFP_NET_CFG_UPDATE_RING in
    mk_lstate
      (set_if gen (bar_ctrl m vnic) (control n))
      (set_if ring (bar_rings m vnic (NFP_NET_CFG_RXRS_ENABLE - 8)) (tx_ring_en n))
      (set_if ring (bar_rings m vnic NFP_NET_CFG_RXRS_ENABLE) (rx_ring_en n))
      (set_if gen (nth 0 (bar_field m vnic NFP_NET_CFG_MTU 1) 0) (mtu n))
      (set_if (gen || has update NFP_NET_CFG_UPDATE_MACADDR)
         (bar_field m vnic NFP_NET_CFG_MACADDR 2) (mac n))
      (set_if rss (nth 0 (bar_field m vnic NFP_NET_CFG_RSS_CTRL 2) 0) (rss_ctrl n))
      (set_if rss (bar_field m vnic NFP_NET_CFG_RSS_KEY 10) (rss_key n))
      (set_if rss (swap_words (bar_field m vnic NFP_NET_CFG_RSS_ITBL 32)) (rss_tbl n))
      (if has update NFP_NET_CFG_UPDATE_VXLAN && has ctrl NFP_NET_CFG_CTRL_VXLAN
       then bar_field m vnic NFP_NET_CFG_VXLAN_PORT (Z.to_nat (NFP_NET_N_VXLAN_PORTS / 2))
       else vxlan_ports n).
End at_vnic.

Definition local (n : nic_local_state) (s : engine) : engine := s <| nic_lstate := n |>.

Lemma local_self s : local (nic_lstate s) s = s.
Proof. by destruct s. Qed.

Lemma run_upd_local {A} f n s (k : unit -> L A) :
  (upd_local f ≫= k) (local n s) = k tt (local (f n) s).
Proof. done. Qed.

Lemma run_bar_read {A} vnic field k n s (kont : list Z -> L A) :
  (bar_read (nfd_cfg_bar_base 0 vnic + field) k ≫= kont) (local n s) =
  kont (bar_field (lmem s) vnic field k) (local n s).
Proof. done. Qed.

Lemma swap_words_app ws ws' : Nat.Even (length ws) -> swap_words (ws ++ ws') = swap_words ws ++ swap_words ws'.
Proof.
  revert ws'. pattern ws. apply pair_ind; clear ws.
  - done.
  - intros x ws' [k Hk]. simpl in Hk. lia.
  - intros x y ws IH ws' He. cbn [app swap_words]. rewrite IH; [done|].
    destruct He as [k Hk]. exists (k - 1)%nat. simpl in Hk. lia.
Qed.

Lemma length_swap_words ws : length (swap_words ws) = length ws.
Proof. induction ws as [|x|x y ws IH] using pair_ind; simpl; auto. Qed.

Lemma length_bar_field m vnic field k : length (bar_field m vnic field k) = k.
Proof. unfold bar_field. by rewrite length_fmap, length_seq. Qed.

Lemma bar_field_app m vnic field k j :
  bar_field m vnic field (k + j) = bar_field m vnic field k ++ bar_field m vnic (field + 4 * Z.of_nat k) j.
Proof.
  unfold bar_field. rewrite seq_app, fmap_app. f_equal.
  rewrite <- (Nat.add_comm k 0), <- fmap_add_seq, <- list_fmap_compose. apply list_fmap_ext.
  intros i x _. cbn. f_equal. lia.
Qed.

Definition words_ok (m : gmap Z Z) : Prop := forall a, fits 32 (rd m a).

Lemma rings_swapped m vnic field : words_ok m ->
  let r := bar_field m vnic field 4 in
  swapw64 (dword_of (nth 0 r 0) (nth 1 r 0)) = bar_rings m vnic field /\
  swapw64 (dword_of (nth 2 r 0) (nth 3 r 0)) = bar_rings m vnic (field + 8).
Proof.
  intros Hm r. unfold r, bar_rings, bar_field. cbn [fmap list_fmap seq nth]. cbv zeta.
  rewrite !swapw64_dword by apply Hm. split; [done|]. f_equal; f_equal; lia.
Qed.

Lemma set_if_twice {A} vnic (b b' : bool) (v : A) f :
  set_if vnic b v (set_if vnic b' v f) = set_if vnic (b' || b) v f.
Proof. destruct b, b'; cbn; rewrite ?insert_insert_eq; done. Qed.

Lemma run_rings vnic n s : words_ok (lmem s) ->
  reconfig_rings (nfd_cfg_bar_base 0 vnic) vnic (local n s) =
  Some (tt, local (n <| tx_ring_en ::= <[vnic := bar_rings (lmem s) vnic (NFP_NET_CFG_RXRS_ENABLE - 8)]> |>
                     <| rx_ring_en ::= <[vnic := bar_rings (lmem s) vnic NFP_NET_CFG_RXRS_ENABLE]> |>) s).
Proof.
  intros Hm. unfold reconfig_rings. rewrite run_bar_read, run_upd_local.
  destruct (rings_swapped (lmem s) vnic (NFP_NET_CFG_RXRS_ENABLE - 8) Hm) as [-> ->].
  by replace (NFP_NET_CFG_RXRS_ENABLE - 8 + 8) with NFP_NET_CFG_RXRS_ENABLE by lia.
Qed.

Lemma run_rss vnic n s :
  reconfig_rss (nfd_cfg_bar_base 0 vnic) vnic (local n s) =
  Some (tt, local (n <| rss_ctrl ::= <[vnic := nth 0 (bar_field (lmem s) vnic NFP_NET_CFG_RSS_CTRL 2) 0]> |>
    <| rss_key ::= <[vnic := bar_field (lmem s) vnic NFP_NET_CFG_RSS_KEY 10]> |>
    <| rss_tbl ::= <[vnic := swap_words (bar_field (lmem s) vnic NFP_NET_CFG_RSS_ITBL 32)]> |>) s).
Proof.
  unfold reconfig_rss. rewrite !run_bar_read, run_upd_local, run_bar_read, run_get, run_upd_local.
  replace (nfd_cfg_bar_base 0 vnic + NFP_NET_CFG_RSS_ITBL + 64) with
    (nfd_cfg_bar_base 0 vnic + (NFP_NET_CFG_RSS_ITBL + 4 * Z.of_nat 16)) by lia.
  rewrite run_bar_read, run_get, run_upd_local.
  change 32%nat with (16 + 16)%nat. rewrite bar_field_app.
  rewrite swap_words_app by (rewrite length_bar_field; by exists 8%nat).
  change (rss_tbl (nic_lstate (local ?n s))) with (rss_tbl n). st. rewrite lookup_insert_eq. cbn [from_option id].
  rewrite take_app_length' by (by rewrite length_swap_words, length_bar_field).
  unfold upd_local, modify. do 2 f_equal. destruct n, s. unfold local.
  cbv [apply_update constant set_nic_lstate set_rss_ctrl set_rss_key set_rss_tbl]. cbn [rss_tbl].
  by rewrite insert_insert_eq.
Qed.

Lemma run_read_mac vnic n s :
  read_mac (nfd_cfg_bar_base 0 vnic) vnic (local n s) =
  Some (tt, local (n <| mac ::= <[vnic := bar_field (lmem s) vnic NFP_NET_CFG_MACADDR 2]> |>) s).
Proof. unfold read_mac. by rewrite run_bar_read. Qed.

Lemma run_vxlan vnic n s :
  reconfig_vxlan (nfd_cfg_bar_base 0 vnic) (local n s) =
  Some (tt, local (n <| vxlan_ports := bar_field (lmem s) vnic NFP_NET_CFG_VXLAN_PORT
    (Z.to_nat (NFP_NET_N_VXLAN_PORTS / 2)) |>) s).
Proof. unfold reconfig_vxlan. by rewrite run_bar_read. Qed.

(** The cache after the general update *)
Definition after_gen (m : gmap Z Z) (vnic : Z) (n : nic_local_state) : nic_local_state :=
  if has (bar_ctrl m vnic) NFP_NET_CFG_CTRL_ENABLE then
    n <| mtu ::= <[vnic := nth 0 (bar_field m vnic NFP_NET_CFG_MTU 1) 0]> |>
      <| mac ::= <[vnic := bar_field m vnic NFP_NET_CFG_MACADDR 2]> |>
      <| control ::= <[vnic := bar_ctrl m vnic]> |>
  else n <| control ::= <[vnic := 0]> |> <| rss_ctrl ::= <[vnic := 0]> |>.

Lemma run_gen vnic n s :
  reconfig_gen (nfd_cfg_bar_base 0 vnic) vnic (bar_ctrl (lmem s) vnic) (local n s) =
  Some ((b2z (has (Z.lxor (rd (control n) vnic) (bar_ctrl (lmem s) vnic)) NFP_NET_CFG_CTRL_ENABLE),
         has (bar_ctrl (lmem s) vnic) NFP_NET_CFG_CTRL_ENABLE), local (after_gen (lmem s) vnic n) s).
Proof.
  unfold reconfig_gen, after_gen. rewrite run_get. cbv zeta.
  destruct (has (bar_ctrl (lmem s) vnic) NFP_NET_CFG_CTRL_ENABLE); cbn [negb].
  - rewrite run_bar_read, run_upd_local. erewrite run_some by apply run_read_mac. cbv beta.
    rewrite run_upd_local. done.
  - by rewrite !run_upd_local.
Qed.

Definition changed (m : gmap Z Z) (vnic : Z) (n : nic_local_state) : Z :=
  b2z (has (bar_update m vnic) NFP_NET_CFG_UPDATE_GEN &&
       has (Z.lxor (rd (control n) vnic) (bar_ctrl m vnic)) NFP_NET_CFG_CTRL_ENABLE).

Lemma run_when_local {A} b m n n' s (k : unit -> L A) :
  m (local n s) = Some (tt, local n' s) ->
  (when b m ≫= k) (local n s) = k tt (local (if b then n' else n) s).
Proof. intros Hm. destruct b; [|done]. rewrite run_when_true. by erewrite run_some. Qed.

(** The cache after the groups *)
Definition after_groups (m : gmap Z Z) (vnic : Z) (n : nic_local_state) : nic_local_state :=
  let update := bar_update m vnic in
  let ctrl := rd (control n) vnic in
  let rss := has update NFP_NET_CFG_UPDATE_RSS && has ctrl NFP_NET_CFG_CTRL_RSS in
  let ring := has update NFP_NET_CFG_UPDATE_RING in
  mk_lstate (control n)
    (set_if vnic ring (bar_rings m vnic (NFP_NET_CFG_RXRS_ENABLE - 8)) (tx_ring_en n))
    (set_if vnic ring (bar_rings m vnic NFP_NET_CFG_RXRS_ENABLE) (rx_ring_en n))
    (mtu n)
    (set_if vnic (has update NFP_NET_CFG_UPDATE_MACADDR) (bar_field m vnic NFP_NET_CFG_MACADDR 2) (mac n))
    (set_if vnic rss (nth 0 (bar_field m vnic NFP_NET_CFG_RSS_CTRL 2) 0) (rss_ctrl n))
    (set_if vnic rss (bar_field m vnic NFP_NET_CFG_RSS_KEY 10) (rss_key n))
    (set_if vnic rss (swap_words (bar_field m vnic NFP_NET_CFG_RSS_ITBL 32)) (rss_tbl n))
    (if has update NFP_NET_CFG_UPDATE_VXLAN && has ctrl NFP_NET_CFG_CTRL_VXLAN
     then bar_field m vnic NFP_NET_CFG_VXLAN_PORT (Z.to_nat (NFP_NET_N_VXLAN_PORTS / 2))
     else vxlan_ports n).

Lemma control_if (b : bool) n n' : control n' = control n -> control (if b then n' else n) = control n.
Proof. by destruct b. Qed.

Lemma run_groups vnic n s : words_ok (lmem s) ->
  reconfig_groups (nfd_cfg_bar_base 0 vnic) vnic (bar_update (lmem s) vnic) (local n s) =
  Some (tt, local (after_groups (lmem s) vnic n) s).
Proof.
  intros Hm. unfold reconfig_groups.
  erewrite run_when_local by by apply run_rings. cbv beta.
  erewrite run_when_local by apply run_read_mac. cbv beta.
  rewrite run_get. change (nic_lstate (local ?x s)) with x. rewrite !control_if by done.
  erewrite run_when_local by apply run_rss. cbv beta.
  rewrite run_get. change (nic_lstate (local ?x s)) with x. rewrite !control_if by done.
  unfold after_groups. destruct n.
  destruct (has _ NFP_NET_CFG_UPDATE_RING), (has _ NFP_NET_CFG_UPDATE_MACADDR),
    (has _ NFP_NET_CFG_UPDATE_RSS && has _ NFP_NET_CFG_CTRL_RSS),
    (has _ NFP_NET_CFG_UPDATE_VXLAN && has _ NFP_NET_CFG_CTRL_VXLAN);
    (exact eq_refl || exact (run_vxlan vnic _ s)).
Qed.

Lemma run_reconfig s : let vnic := ri_vnic (cfg_bar_change_info s) in
  ri_pci (cfg_bar_change_info s) = 0 -> lvid_ok vnic = true -> words_ok (lmem s) ->
  nic_local_reconfig s = Some (changed (lmem s) vnic (nic_lstate s),
    local (reconfigured (lmem s) vnic (nic_lstate s)) s).
Proof.
  intros vnic Hpci Hok Hm. unfold nic_local_reconfig. rewrite run_get, Hpci.
  rewrite run_require by done. cbv zeta. fold vnic. rewrite run_require by done.
  rewrite <- (local_self s) at 1. rewrite run_bar_read.
  fold (bar_ctrl (lmem s) vnic) (bar_update (lmem s) vnic).
  unfold changed. set (n := nic_lstate s).
  destruct (has (bar_update (lmem s) vnic) NFP_NET_CFG_UPDATE_GEN) eqn:Hgen.
  - erewrite run_some by apply run_gen. cbv beta. cbn [fst snd].
    unfold after_gen, reconfigured. rewrite Hgen. cbn [andb orb set_if].
    destruct (has (bar_ctrl (lmem s) vnic) NFP_NET_CFG_CTRL_ENABLE); cbn [negb]; [|done].
    erewrite run_some by by apply run_groups. cbv beta. rewrite run_ret_some. do 3 f_equal.
    unfold after_groups. st. rewrite rd_insert_eq. f_equal.
    unfold set_if. destruct (has _ NFP_NET_CFG_UPDATE_MACADDR); [|done]. apply insert_insert_eq.
  - rewrite run_ret. cbn [fst snd negb]. erewrite run_some by by apply run_groups. cbv beta.
    rewrite run_ret_some. do 3 f_equal. unfold after_groups, reconfigured. by rewrite Hgen.
Qed.

Lemma set_if_same {A} vnic b (v : A) f : set_if vnic b v (set_if vnic b v f) = set_if vnic b v f.
Proof. rewrite set_if_twice. by destruct b. Qed.

Lemma if_same {A} (b : bool) (x y : A) : (if b then x else if b then x else y) = if b then x else y.
Proof. by destruct b. Qed.

Lemma reconfigured_twice m vnic n :
  reconfigured m vnic (reconfigured m vnic n) = reconfigured m vnic n /\
  changed m vnic (reconfigured m vnic n) = 0.
Proof.
  unfold changed, reconfigured.
  destruct (has (bar_update m vnic) NFP_NET_CFG_UPDATE_GEN) eqn:Hgen,
    (has (bar_ctrl m vnic) NFP_NET_CFG_CTRL_ENABLE) eqn:Hen; cbn [andb negb]; cbv zeta.
  - cbn [control tx_ring_en rx_ring_en mtu mac rss_ctrl rss_key rss_tbl vxlan_ports].
    rewrite !set_if_same, if_same. split; [done|]. cbn [set_if].
    rewrite rd_insert_eq, Z.lxor_nilpotent. done.
  - destruct n. st. rewrite rd_insert_eq, Z.lxor_0_l, Hen. split; [|done].
    cbv [apply_update constant set_control set_rss_ctrl]. cbn [control rss_ctrl].
    by rewrite !insert_insert_eq.
  - cbn [control tx_ring_en rx_ring_en mtu mac rss_ctrl rss_key rss_tbl vxlan_ports set_if].
    by rewrite !set_if_same, if_same.
  - cbn [control tx_ring_en rx_ring_en mtu mac rss_ctrl rss_key rss_tbl vxlan_ports set_if].
    by rewrite !set_if_same, if_same.
Qed.

(** C13: a reconfiguration brings the cache of the announced vNIC up to date.
    Disabling clears the control words and nothing else; otherwise each group of
    fields that is announced, and for RSS and VXLAN is also on, has the values of
    the BAR, and all other fields and vNICs keep theirs.  The caller learns
    whether the vNIC came up or went down.  Handling the same announcement again
    changes nothing. *)
Theorem nic_local_reconfig_correct s : let vnic := ri_vnic (cfg_bar_change_info s) in
  ri_pci (cfg_bar_change_info s) = 0 -> lvid_ok vnic = true -> words_ok (lmem s) ->
  let n := nic_lstate s in
  let enabled := has (bar_ctrl (lmem s) vnic) NFP_NET_CFG_CTRL_ENABLE in
  let gen := has (bar_update (lmem s) vnic) NFP_NET_CFG_UPDATE_GEN in
  exists n',
    nic_local_reconfig s = Some (changed (lmem s) vnic n, local n' s) /\
    n' = reconfigured (lmem s) vnic n /\
    (changed (lmem s) vnic n = 1 <->
       gen = true /\ has (Z.lxor (rd (control n) vnic) (bar_ctrl (lmem s) vnic)) NFP_NET_CFG_CTRL_ENABLE = true) /\
    nic_local_reconfig (local n' s) = Some (0, local n' s).
Proof.
  intros vnic Hpci Hok Hm n enabled gen. exists (reconfigured (lmem s) vnic n).
  split; [by apply run_reconfig|]. split; [done|]. split.
  { unfold changed, b2z. fold gen. destruct gen; cbn [andb]; [|split; [done|by intros []]].
    destruct (has (Z.lxor _ _) _); by split; [|intros []]. }
  pose proof (run_reconfig (local (reconfigured (lmem s) vnic n) s) Hpci Hok Hm) as Hrun.
  cbv zeta in Hrun. rewrite Hrun. clear Hrun.
  change (nic_lstate (local ?x s)) with x. change (lmem (local ?x s)) with (lmem s).
  change (ri_vnic (cfg_bar_change_info (local ?x s))) with vnic.
  destruct (reconfigured_twice (lmem s) vnic n) as [-> ->]. done.
Qed.
End proofs.

(** ** Witness *)

Section witnesses.
Import Counters.

#[local] Instance swap_bytes : LocalLib := {| bswap64 w := (swap32 w.2, swap32 w.1) |}.

(** The host has enabled vNIC 3 and announces it. *)
Definition engine1 : engine :=
  mk_engine (mk_lstate ∅ ∅ ∅ ∅ ∅ ∅ ∅ ∅ []) (mk_reconfig_info 0 3) true 0
    {[ nfd_cfg_bar_base 0 3 + NFP_NET_CFG_CTRL := NFP_NET_CFG_CTRL_ENABLE;
       nfd_cfg_bar_base 0 3 + NFP_NET_CFG_CTRL + 4 := NFP_NET_CFG_UPDATE_GEN ]}.

Lemma engine1_words : words_ok (lmem engine1).
Proof.
  intros a. unfold engine1, rd. cbn [lmem].
  destruct (decide (nfd_cfg_bar_base 0 3 + NFP_NET_CFG_CTRL = a)) as [<-|];
    [rewrite lookup_insert_eq; split; by vm_compute|rewrite lookup_insert_ne by done].
  destruct (decide (nfd_cfg_bar_base 0 3 + NFP_NET_CFG_CTRL + 4 = a)) as [<-|];
    [rewrite lookup_singleton_eq; split; by vm_compute|rewrite lookup_singleton_ne by done].
  split; by vm_compute.
Qed.

Lemma nic_local_reconfig_correct_witness :
  lvid_ok 3 = true /\
  exists n', nic_local_reconfig engine1 = Some (1, local n' engine1) /\
    rd (control n') 3 = NFP_NET_CFG_CTRL_ENABLE /\
    nic_local_reconfig (local n' engine1) = Some (0, local n' engine1).
Proof.
  split; [reflexivity|].
  destruct (nic_local_reconfig_correct engine1 eq_refl ltac:(by vm_compute) engine1_words)
    as (n' & Hrun & Hn & _ & Hagain).
  exists n'. split; [exact Hrun|]. split; [rewrite Hn; reflexivity|exact Hagain].
Defined.
End witnesses.
