(* ===== verification/Infra.v ===== *)
(** * Packets: lib/infra_basic

    The library gives a C application packets from the wire, from the host or
    from a work queue, and sends them to any of them.  The packet at hand is
    described by [Pkt]; its data is in a buffer of the cluster target memory
    (CTM) and in a buffer of the external memory (MU).

    The library has a state of its own.  What the libraries of the processor,
    of the host interface (NFD) and of the reorder engine (GRO) give is a type
    class: layouts, addresses, and what the devices answer, as functions of the
    accesses so far. *)

From S2P Require Import Prelude Platform UserCfg Nfd Machine Nbi.

Local Open Scope Z_scope.

(** ** infra_basic.h: ports *)

Definition PKT_PTYPE_DROP : Z := 0.
Definition PKT_PTYPE_WIRE : Z := 1.
Definition PKT_PTYPE_HOST : Z := 2.
Definition PKT_PTYPE_WQ : Z := 3.
Definition PKT_PTYPE_NONE : Z := 4.
Definition PKT_PTYPE_DROP_SEQ : Z := 5.
Definition PKT_PTYPE_DROP_WIRE : Z := 6.
Definition PKT_PTYPE_DROP_HOST : Z := 7.

Definition PKT_PORT_BUILD (type subsys queue : Z) : Z :=
  Z.lor (Z.lor (Z.shiftl type 13) (Z.shiftl subsys 10)) queue.

Definition PKT_DROP_SEQ : Z := PKT_PORT_BUILD PKT_PTYPE_DROP_SEQ 0 0.
Definition PKT_DROP_WIRE : Z := PKT_PORT_BUILD PKT_PTYPE_DROP_WIRE 0 0.
Definition PKT_DROP_HOST : Z := PKT_PORT_BUILD PKT_PTYPE_DROP_HOST 0 0.
Definition PKT_DROP : Z := PKT_DROP_HOST.
Definition PKT_NOTX : Z := PKT_PORT_BUILD PKT_PTYPE_NONE 0 0.
Definition PKT_WIRE_PORT (nbi q : Z) : Z := PKT_PORT_BUILD PKT_PTYPE_WIRE nbi q.
Definition PKT_HOST_PORT_FROMQ (pcie q : Z) : Z := PKT_PORT_BUILD PKT_PTYPE_HOST pcie q.
Definition PKT_WQ_PORT (muid q : Z) : Z := PKT_PORT_BUILD PKT_PTYPE_WQ muid q.

Definition PKT_PORT_TYPE_of (port : Z) : Z := Z.land (Z.shiftr port 13) 0x7.
Definition PKT_PORT_SUBSYS_of (port : Z) : Z := Z.land (Z.shiftr port 10) 0x7.
Definition PKT_PORT_QUEUE_of (port : Z) : Z := Z.land port 0xff.
Definition PKT_PORT_WQNUM_of (port : Z) : Z := Z.land port 0x3ff.
Definition PKT_PORT_MUID_of (port : Z) : Z := Z.land (Z.shiftr port 10) 0x7.

(** Memory units by a number of three bits *)
Definition MEM_RING_ADDR_TO_MUID (x : Z) : Z := Z.land (Z.shiftr x (35 - 8)) 0x7.
Definition ISL_TO_MUID (x : Z) : Z := if x <=? 26 then Z.lor (x - 24) 4 else x - 28.
Definition MUID_TO_MEM_RING_ADDR (x : Z) : Z := u32 (Z.shiftl x (35 - 8)).
Definition MUID_TO_ISL (x : Z) : Z := if x <? 4 then x + 28 else Z.land x 0x3 + 24.

(** ** Data *)

(** [struct nbi_meta_pkt_info]: the fields that the code names, and the other
    bits *)
Record pkt_info := mk_pkt_info {
  pi_isl : Z; pi_pnum : Z; pi_bls : Z; pi_len : Z; pi_split : Z; pi_muptr : Z; info_rest : Z
}.

Record pkt_meta := mk_pkt_meta {
  p_nbi : pkt_info;
  p_seq : Z; p_offset : Z;
  p_ctm_sz : Z; p_ro_ctx : Z; p_is_gro_sequenced : Z;
  p_rx_l3_csum_present : Z; p_rx_l3_csum_ok : Z;
  p_rx_l4_csum_present : Z; p_rx_l4_csum_ok : Z; p_rx_l4_tcp : Z;
  p_tx_l3_csum : Z; p_tx_l4_csum : Z; p_rx_lso : Z; p_wq_type : Z; p_orig_len : Z;
  p_src : Z; p_dst : Z; app0 : Z; app1 : Z
}.

(** [Pkt.p_isl] is [Pkt.p_nbi.isl], and so on. *)
Definition p_isl (p : pkt_meta) : Z := pi_isl (p_nbi p).
Definition p_pnum (p : pkt_meta) : Z := pi_pnum (p_nbi p).
Definition p_bls (p : pkt_meta) : Z := pi_bls (p_nbi p).
Definition p_len (p : pkt_meta) : Z := pi_len (p_nbi p).
Definition p_is_split (p : pkt_meta) : Z := pi_split (p_nbi p).
Definition p_muptr (p : pkt_meta) : Z := pi_muptr (p_nbi p).

(** [struct pkt_handle]: island, 8 unused bits, packet number *)
Definition ph_raw (ph_isl ph_pnum : Z) : Z := Z.lor (Z.shiftl (u8 ph_isl) 24) (u16 ph_pnum).
Definition ph_isl (raw : Z) : Z := bf_get 24 8 raw.
Definition ph_pnum (raw : Z) : Z := bf_get 0 16 raw.

(** Descriptors of the received packets, as far as the code looks at them *)
Record nbi_meta_catamaran := mk_nbi_meta {
  nbi_pkt_info : pkt_info; nbi_seq : Z; nbi_meta_type : Z; nbi_port : Z; nbi_seqr : Z; nbi_ie : Z
}.

Record nfd_in_pkt_desc := mk_nfd_in {
  q_num : Z; intf : Z; invalid : Z; data_len : Z; rxd_raw2 : Z; rxd_raw3 : Z; rxd_rest : list Z
}.

(** [struct nfd_out_input]: the words of its two descriptors *)
Record nfd_out_input := mk_noi { noi_cpp : list Z; noi_rxd : list Z }.

(** [struct pkt_ms_info] *)
Record pkt_ms_info := mk_msi { len_adj : Z; off_enc : Z }.

(** [union gro_meta]: what the builders of the GRO client put there *)
Inductive gro_meta : Type :=
  | GroNbi (isl pnum ctm_sz offset len ss outq : Z)
  | GroNfd (noi : nfd_out_input) (ss outq : Z)
  | GroWorkq (isl outq ph : Z)
  | GroDropCtm (isl pnum : Z)
  | GroDropSeq.

(** What happened at the devices *)
Inductive io : Type :=
  | NbiRecv (d : nbi_meta_catamaran)
  | PktStatusRead (isl pnum size : Z)
  | CtmAlloc (result : Z)
  | NfdInRecv (d : nfd_in_pkt_desc)
  | WorkqAddThread (ring addr ph : Z)
  | WorkqAddWork (ring addr ph : Z)
  | BlmBufFree (muptr bls : Z)
  | PktCtmFree (isl pnum : Z)
  | NbiSend (isl pnum : Z) (msi : pkt_ms_info) (len ss outq ctx seq ctm_sz : Z)
  | NbiDropSeq (isl pnum : Z) (msi : pkt_ms_info) (len ss outq ctx seq ctm_sz : Z)
  | NfdOutGetCredit (ss outq : Z) (granted : bool)
  | NfdOutSend (ss outq : Z) (noi : nfd_out_input)
  | GroSend (meta : gro_meta) (ctx seq : Z)
  | NfdInRecvInit
  | NfdOutSendInit
  | GroCliInit.

(** [Pkt]; memory by 40-bit byte address, in 32-bit words; the table of scripts
    in the cluster scratch; the accesses, newest first. *)
Record infra := mk_infra {
  Pkt : pkt_meta; mem40 : gmap Z Z; scripts : gmap Z Z; ios : list io
}.

#[export] Instance set_isl : Setter pi_isl := _.
#[export] Instance set_pnum : Setter pi_pnum := _.
#[export] Instance set_split : Setter pi_split := _.
#[export] Instance set_p_nbi : Setter p_nbi := _.
#[export] Instance set_p_seq : Setter p_seq := _.
#[export] Instance set_p_offset : Setter p_offset := _.
#[export] Instance set_p_ctm_sz : Setter p_ctm_sz := _.
#[export] Instance set_p_ro_ctx : Setter p_ro_ctx := _.
#[export] Instance set_p_is_gro : Setter p_is_gro_sequenced := _.
#[export] Instance set_p_orig_len : Setter p_orig_len := _.
#[export] Instance set_p_src : Setter p_src := _.
#[export] Instance set_p_dst : Setter p_dst := _.
#[export] Instance set_app0 : Setter app0 := _.
#[export] Instance set_app1 : Setter app1 := _.
#[export] Instance set_Pkt : Setter Pkt := _.
#[export] Instance set_mem40 : Setter mem40 := _.
#[export] Instance set_ios : Setter ios := _.

Definition no_info : pkt_info := mk_pkt_info 0 0 0 0 0 0 0.
Definition no_pkt : pkt_meta := mk_pkt_meta no_info 0 0 0 0 0 0 0 0 0 0 0 0 0 0 0 0 0 0 0.

Class InfraLib := {
  (** widths of bit-fields of the library's structures *)
  isl_bits : Z; pnum_bits : Z; bls_bits : Z; len_bits : Z; muptr_bits : Z; rest_bits : Z;
  len_adj_bits : Z; off_enc_bits : Z;
  (** the two words of [struct nbi_meta_pkt_info], and back *)
  info_raw : pkt_info -> Z * Z;
  info_of_raw : Z * Z -> pkt_info;
  pkt_ctm_ptr40 : Z -> Z -> Z -> Z;
  __ISLAND : Z;
  PKT_NBI_OFFSET : Z;
  NFD_IN_DATA_OFFSET : Z;
  PKT_CTM_SIZE_256 : Z;
  NFD_IN_SEQR_NUM : Z -> Z;
  NFD_BMQ2NATQ : Z -> Z;
  nfd_in_fill_meta : nfd_in_pkt_desc -> pkt_info;
  nfd_in_get_seqn : nfd_in_pkt_desc -> Z;
  PM_DEL_SCRIPTS : Z;
  (** the memory after the MAC egress command for a frame was written *)
  mac_egress_cmd : Z -> Z -> Z -> Z -> gmap Z Z -> gmap Z Z;
  nfd_out_fill_desc : pkt_info -> Z -> Z -> Z -> Z -> nfd_out_input;
  nfd_out_check_ctm_only : nfd_out_input -> nfd_out_input;
  rxd_set_dd : Z -> list Z -> list Z;
  (** whether INFRA_HANDLE_REMOTE_PACKETS is defined *)
  handle_remote_packets : bool;
  nbi_recv_dev : list io -> nbi_meta_catamaran;
  pkt_status_dev : list io -> Z -> Z -> Z;
  ctm_alloc_dev : list io -> Z;
  nfd_in_recv_dev : list io -> nfd_in_pkt_desc;
  workq_dev : list io -> Z -> Z -> Z;
  nfd_credit_dev : list io -> Z -> Z -> bool
}.

(** A value of [struct nbi_meta_pkt_info], and what its layout promises *)
Definition info_ok `{InfraLib} (i : pkt_info) : Prop :=
  fits isl_bits (pi_isl i) /\ fits pnum_bits (pi_pnum i) /\ fits bls_bits (pi_bls i) /\
  fits len_bits (pi_len i) /\ fits 1 (pi_split i) /\ fits muptr_bits (pi_muptr i) /\
  fits rest_bits (info_rest i).

Class InfraOk `{InfraLib} : Prop := {
  info_roundtrip i : info_ok i -> info_of_raw (info_raw i) = i;
  handle_bits : 0 <= isl_bits <= 8 /\ 0 <= pnum_bits <= 16;
  ctm_type_range : 0 <= PKT_CTM_SIZE_256 <= 3;
  data_offset_range : 0 <= NFD_IN_DATA_OFFSET < Z.shiftl 256 PKT_CTM_SIZE_256;
  ctm_ptr_linear isl pnum off : 0 <= off < 2048 ->
    pkt_ctm_ptr40 isl pnum off = pkt_ctm_ptr40 isl pnum 0 + off
}.

Abbreviation I := (M infra).

(** Credits, sizes and scripts *)
Definition MIN_CTM_TYPE `{InfraLib} : Z := PKT_CTM_SIZE_256.
Definition MIN_CTM_SIZE `{InfraLib} : Z := Z.shiftl 256 MIN_CTM_TYPE.
Definition CTM_SPLIT_LEN : Z := 3.
Definition NFD_IN_WQ : Z := 0.
Definition CTM_ALLOC_ERR : Z := 0xffffffff.
Definition PMS_STRUCT_SIZE_LW : Z := 4.
Definition PMS_STRUCT_SIZE : Z := Z.shiftl PMS_STRUCT_SIZE_LW 2.
Definition PMS_SCRIPT_OFS_MIN : Z := 32.
Definition PMS_SCRIPT_OFS_MAX : Z := 120.
Definition PMS_DEL_PKT_OFS_MIN : Z := PMS_SCRIPT_OFS_MIN + 8.
Definition PMS_DEL_PKT_OFS_MAX : Z := PMS_SCRIPT_OFS_MAX + 7 * 16 + 16.
Definition PMS_DEL_PKT_OFS_STEP : Z := 2.

(** ** The layout of [struct pkt_meta]

    Bit-fields are allocated from the most significant bit of a word. *)

Definition flags_raw (p : pkt_meta) : Z :=
  bf_set 30 2 (p_ctm_sz p) (bf_set 24 6 (p_ro_ctx p) (bf_set 23 1 (p_is_gro_sequenced p)
  (bf_set 22 1 (p_rx_l3_csum_present p) (bf_set 21 1 (p_rx_l3_csum_ok p)
  (bf_set 20 1 (p_rx_l4_csum_present p) (bf_set 19 1 (p_rx_l4_csum_ok p)
  (bf_set 18 1 (p_rx_l4_tcp p) (bf_set 17 1 (p_tx_l3_csum p) (bf_set 16 1 (p_tx_l4_csum p)
  (bf_set 15 1 (p_rx_lso p) (bf_set 14 1 (p_wq_type p) (bf_set 0 14 (p_orig_len p) 0)))))))))))).

Definition meta_raw `{InfraLib} (p : pkt_meta) : list Z :=
  [(info_raw (p_nbi p)).1; (info_raw (p_nbi p)).2;
   bf_set 16 16 (p_seq p) (bf_set 0 16 (p_offset p) 0);
   flags_raw p;
   bf_set 16 16 (p_src p) (bf_set 0 16 (p_dst p) 0);
   u32 (app0 p); u32 (app1 p)].

Definition meta_of_raw `{InfraLib} (w : nat -> Z) : pkt_meta :=
  mk_pkt_meta (info_of_raw (w 0%nat, w 1%nat))
    (bf_get 16 16 (w 2%nat)) (bf_get 0 16 (w 2%nat))
    (bf_get 30 2 (w 3%nat)) (bf_get 24 6 (w 3%nat)) (bf_get 23 1 (w 3%nat))
    (bf_get 22 1 (w 3%nat)) (bf_get 21 1 (w 3%nat)) (bf_get 20 1 (w 3%nat))
    (bf_get 19 1 (w 3%nat)) (bf_get 18 1 (w 3%nat)) (bf_get 17 1 (w 3%nat))
    (bf_get 16 1 (w 3%nat)) (bf_get 15 1 (w 3%nat)) (bf_get 14 1 (w 3%nat))
    (bf_get 0 14 (w 3%nat))
    (bf_get 16 16 (w 4%nat)) (bf_get 0 16 (w 4%nat)) (w 5%nat) (w 6%nat).

Section infra.
Context {B : build} `{InfraLib}.

(** ** Accesses *)

Definition io_emit (e : io) : I unit := modify (fun s => s <| ios ::= cons e |>).

Definition imem_read (a : Z) (n : nat) : I (list Z) := get (fun s => mem_words a n (mem40 s)).
Definition imem_write (a : Z) (ws : list Z) : I unit :=
  modify (fun s => s <| mem40 ::= mem_put a ws |>).

Definition upd (f : pkt_meta -> pkt_meta) : I unit := modify (fun s => s <| Pkt ::= f |>).

(** ** Pointers *)

Definition mu_ptr (p : pkt_meta) (off : Z) : Z := Z.shiftl (p_muptr p) 11 + off.

Definition pkt_ptr (offset : Z) : I Z :=
  p ← get Pkt;
  let abs_off := u32 (offset + p_offset p) in
  mret (if abs_off <? Z.shiftl 256 (p_ctm_sz p)
        then pkt_ctm_ptr40 (p_isl p) (p_pnum p) abs_off
        else mu_ptr p abs_off).

(** The results are [frame_off], [ctm_ptr] and [mem_ptr]. *)
Definition pkt_ptrs (offset : Z) : I (Z * Z * Z) :=
  p ← get Pkt;
  let abs_off := u32 (offset + p_offset p) in
  mret (abs_off,
        (if abs_off <? Z.shiftl 256 (p_ctm_sz p)
         then pkt_ctm_ptr40 (p_isl p) (p_pnum p) abs_off else 0),
        mu_ptr p abs_off).

Definition ctm_split : I Z := mret CTM_SPLIT_LEN.

(** ** Receiving *)

Definition pkt_nbi_recv : I nbi_meta_catamaran :=
  d ← get (fun s => nbi_recv_dev (ios s)); _ ← io_emit (NbiRecv d); mret d.

Definition pkt_status_read (isl pnum : Z) : I Z :=
  size ← get (fun s => pkt_status_dev (ios s) isl pnum);
  _ ← io_emit (PktStatusRead isl pnum size);
  mret size.

Definition pkt_rx_wire : I Z :=
  nbi_rxd ← pkt_nbi_recv;
  _ ← upd (fun _ => no_pkt);
  _ ← upd (fun p => p <| p_seq := u16 (nbi_seq nbi_rxd) |>);
  _ ← upd (fun p => p <| p_offset := u16 PKT_NBI_OFFSET |>);
  _ ← upd (fun p => p <| p_nbi := nbi_pkt_info nbi_rxd |>);
  _ ← upd (fun p => p <| p_src := u16 (PKT_WIRE_PORT (nbi_meta_type nbi_rxd) (nbi_port nbi_rxd)) |>);
  p ← get Pkt;
  size ← pkt_status_read 0 (p_pnum p);
  _ ← upd (fun p => p <| p_ctm_sz := wrap 2 size |>);
  _ ← when (truthy (nbi_seqr nbi_rxd))
        (_ ← upd (fun p => p <| p_ro_ctx := wrap 6 (Z.shiftl (nbi_seqr nbi_rxd) 1 - 1) |>);
         upd (fun p => p <| p_is_gro_sequenced := 1 |>));
  _ ← upd (fun p => p <| p_orig_len := wrap 14 (p_len p) |>);
  mret (if truthy (nbi_ie nbi_rxd) then -1 else 0).

(** [ctm_pnum = pkt_ctm_alloc(...)] until it succeeds; the fuel bounds the
    attempts. *)
Definition ctm_alloc : I Z :=
  r ← get (fun s => ctm_alloc_dev (ios s)); _ ← io_emit (CtmAlloc r); mret r.

Fixpoint ctm_alloc_loop (fuel : nat) : I Z :=
  match fuel with
  | O => undefined
  | S fuel =>
      ctm_pnum ← ctm_alloc;
      if ctm_pnum =? CTM_ALLOC_ERR then ctm_alloc_loop fuel else mret ctm_pnum
  end.

Definition nfd_in_recv : I nfd_in_pkt_desc :=
  d ← get (fun s => nfd_in_recv_dev (ios s)); _ ← io_emit (NfdInRecv d); mret d.

(** One turn of the loop that copies the packet *)
Definition copy_to_ctm (ctm_pnum i : Z) : I unit :=
  p ← get Pkt;
  buf ← imem_read (Z.lor (Z.shiftl (p_muptr p) 11) i) 16;
  imem_write (pkt_ctm_ptr40 __ISLAND ctm_pnum i) buf.

Definition pkt_rx_host (fuel : nat) : I Z :=
  ctm_pnum ← ctm_alloc_loop fuel;
  nfd_rxd ← nfd_in_recv;
  _ ← upd (fun _ => no_pkt);
  _ ← upd (fun p => p <| p_nbi := nfd_in_fill_meta nfd_rxd |>);
  _ ← upd (fun p => p <| p_nbi ::= fun i => i <| pi_isl := wrap isl_bits __ISLAND |> |>);
  _ ← upd (fun p => p <| p_nbi ::= fun i => i <| pi_pnum := wrap pnum_bits ctm_pnum |> |>);
  _ ← upd (fun p => p <| p_seq := u16 (nfd_in_get_seqn nfd_rxd) |>);
  _ ← upd (fun p => p <| p_offset := u16 NFD_IN_DATA_OFFSET |>);
  _ ← upd (fun p => p <| p_ctm_sz := wrap 2 MIN_CTM_TYPE |>);
  _ ← upd (fun p => p <| p_ro_ctx := wrap 6 (Z.shiftl (NFD_IN_SEQR_NUM (q_num nfd_rxd)) 1) |>);
  _ ← upd (fun p => p <| p_orig_len := wrap 14 (p_len p) |>);
  _ ← upd (fun p => p <| p_src := u16 (PKT_HOST_PORT_FROMQ (intf nfd_rxd) (NFD_BMQ2NATQ (q_num nfd_rxd))) |>);
  if truthy (invalid nfd_rxd) then mret (-1)
  else
    _ ← upd (fun p => p <| app0 := u32 (rxd_raw2 nfd_rxd) |>);
    _ ← upd (fun p => p <| app1 := u32 (rxd_raw3 nfd_rxd) |>);
    let cpy_start := u16 (Z.ldiff NFD_IN_DATA_OFFSET 0x3F) in
    let split := data_len nfd_rxd + NFD_IN_DATA_OFFSET >? MIN_CTM_SIZE in
    let cpy_end := u16 (if split then MIN_CTM_SIZE else data_len nfd_rxd + NFD_IN_DATA_OFFSET) in
    _ ← upd (fun p => p <| p_nbi ::= fun i => i <| pi_split := b2z split |> |>);
    _ ← for_each (ptrs cpy_start cpy_end 64) (copy_to_ctm ctm_pnum);
    mret 0.

Definition pkt_rx_wq (ring_num ring_addr : Z) : I unit :=
  xph ← get (fun s => u32 (workq_dev (ios s) ring_num ring_addr));
  _ ← io_emit (WorkqAddThread ring_num ring_addr xph);
  xpm ← imem_read (pkt_ctm_ptr40 (ph_isl xph) (ph_pnum xph) 0) 7;
  _ ← upd (fun _ => meta_of_raw (fun k => nth k xpm 0));
  _ ← upd (fun p => p <| p_is_gro_sequenced := 0 |>);
  upd (fun p => p <| p_dst := u16 PKT_DROP |>).

(** ** Sending *)

(** The result is the metadata that [gmeta] has afterwards, if it was built. *)
Definition drop_packet : I (option gro_meta) :=
  p ← get Pkt;
  _ ← io_emit (BlmBufFree (p_muptr p) (p_bls p));
  _ ← when (negb (truthy (p_is_gro_sequenced p)))
        (io_emit (PktCtmFree (if handle_remote_packets then p_isl p else 0) (p_pnum p)));
  mret (if truthy (p_is_gro_sequenced p) then Some (GroDropCtm (p_isl p) (p_pnum p)) else None).

(** The modification script for a packet at [pkt_offset] goes in front of the
    packet; the result is its offset. *)
Definition __pkt_pms_write (ctm_base pkt_offset : Z) : I Z :=
  let pkt_offset := u32 (pkt_offset - PMS_DEL_PKT_OFS_MIN) in
  let script_base := u32 (PM_DEL_SCRIPTS + u32 (PMS_STRUCT_SIZE * pkt_offset) / PMS_DEL_PKT_OFS_STEP) in
  script_rd ← get (fun s => mem_words script_base 4 (scripts s));
  let w3 := nth 3 script_rd 0 in
  let out_pms_offset := Z.land w3 0xFF in
  let len0 := Z.land (Z.shiftr w3 8) 0x3 in
  _ ← imem_write (ctm_base + out_pms_offset) (take (Z.to_nat (len0 + 1)) script_rd);
  mret out_pms_offset.

Definition tx_wire (ss outq : Z) : I (option gro_meta) :=
  pk ← get Pkt;
  let p := pkt_ctm_ptr40 (p_isl pk) (p_pnum pk) 0 in
  _ ← imem_write p [(info_raw (p_nbi pk)).1; (info_raw (p_nbi pk)).2];
  let offset := p_offset pk in
  let len := p_len pk in
  _ ← modify (fun s => s <| mem40 ::= mac_egress_cmd p offset (p_tx_l3_csum pk) (p_tx_l4_csum pk) |>);
  let offset := u32 (offset - 4) in
  let len := u32 (len + 4) in
  let pmoff := offset in
  offset ← __pkt_pms_write p offset;
  let outq := NS_PLATFORM_NBI_TM_QID_LO (board B) outq in
  if truthy (p_is_gro_sequenced pk) then
    mret (Some (GroNbi __ISLAND (p_pnum pk) (p_ctm_sz pk) offset (u32 (len + pmoff)) ss outq))
  else
    let msi := mk_msi (wrap len_adj_bits pmoff) (wrap off_enc_bits (u32 (Z.shiftr offset 3 - 1))) in
    _ ← io_emit (NbiSend __ISLAND (p_pnum pk) msi len ss outq (p_ro_ctx pk) (p_seq pk) (p_ctm_sz pk));
    mret None.

Definition nfd_out_get_credit (ss outq : Z) : I bool :=
  r ← get (fun s => nfd_credit_dev (ios s) ss outq);
  _ ← io_emit (NfdOutGetCredit ss outq r);
  mret r.

Definition tx_host (ss outq : Z) : I (Z * option gro_meta) :=
  credit ← nfd_out_get_credit ss outq;
  if negb credit then
    gmeta ← drop_packet; mret (-1, gmeta)
  else
    pk ← get Pkt;
    let noi := nfd_out_check_ctm_only
      (nfd_out_fill_desc (p_nbi pk) 0 (p_ctm_sz pk) (p_offset pk) 0) in
    let rxd := <[1%nat := app1 pk]> (<[0%nat := app0 pk]> (rxd_set_dd 1 (noi_rxd noi))) in
    let noi := mk_noi (noi_cpp noi) rxd in
    if truthy (p_is_gro_sequenced pk) then mret (0, Some (GroNfd noi ss outq))
    else _ ← io_emit (NfdOutSend ss outq noi); mret (0, None).

Definition tx_wq (ss outq : Z) : I (option gro_meta) :=
  pk ← get Pkt;
  _ ← imem_write (pkt_ctm_ptr40 (p_isl pk) (p_pnum pk) 0) (meta_raw pk);
  let ph := ph_raw (p_isl pk) (p_pnum pk) in
  if truthy (p_is_gro_sequenced pk) then mret (Some (GroWorkq (MUID_TO_ISL ss) outq ph))
  else _ ← io_emit (WorkqAddWork outq (MUID_TO_MEM_RING_ADDR ss) ph); mret None.

Definition tx_drop_wire : I (option gro_meta) :=
  pk ← get Pkt;
  _ ← io_emit (NbiDropSeq (p_isl pk) (p_pnum pk) (mk_msi 0 0) (p_len pk) 0 0
                 (p_ro_ctx pk) (p_seq pk) (p_ctm_sz pk));
  drop_packet.

(** The [switch] of [pkt_tx]: the result and the metadata for the reorder engine;
    nothing when the packet is not sent at all ([goto done]). *)
Definition tx_switch (type ss outq : Z) : I (option (Z * option gro_meta)) :=
  if type =? PKT_PTYPE_WIRE then gmeta ← tx_wire ss outq; mret (Some (0, gmeta))
  else if type =? PKT_PTYPE_HOST then r ← tx_host ss outq; mret (Some r)
  else if type =? PKT_PTYPE_WQ then gmeta ← tx_wq ss outq; mret (Some (0, gmeta))
  else if type =? PKT_PTYPE_NONE then mret None
  else if type =? PKT_PTYPE_DROP_SEQ then mret (Some (0, Some GroDropSeq))
  else if type =? PKT_PTYPE_DROP_HOST then gmeta ← drop_packet; mret (Some (0, gmeta))
  else if type =? PKT_PTYPE_DROP_WIRE then gmeta ← tx_drop_wire; mret (Some (0, gmeta))
  else undefined.

Definition pkt_tx : I Z :=
  pk ← get Pkt;
  let ss := PKT_PORT_SUBSYS_of (p_dst pk) in
  let outq := PKT_PORT_QUEUE_of (p_dst pk) in
  r ← tx_switch (PKT_PORT_TYPE_of (p_dst pk)) ss outq;
  match r with
  | None => mret 0
  | Some (ret, gmeta) =>
      pk ← get Pkt;
      _ ← when (truthy (p_is_gro_sequenced pk))
            (gmeta ← of_option gmeta; io_emit (GroSend gmeta (p_ro_ctx pk) (p_seq pk)));
      mret ret
  end.

Definition init_tx : I unit := io_emit NfdInRecvInit.
Definition init_rx : I unit := _ ← io_emit NfdOutSendInit; io_emit GroCliInit.
End infra.

(** * Properties *)

(** ** Ports *)

(** A port has three fields; type, subsystem and the number of a work queue
    come back as they were put in, in the 16 bits of [p_dst] and [p_src].  The
    queue that [pkt_tx] uses is the queue modulo 256: a port of a work queue
    with a number from 256 on names another queue there. *)
Theorem port_roundtrip type subsys queue :
  fits 3 type -> fits 3 subsys -> fits 10 queue ->
  let port := u16 (PKT_PORT_BUILD type subsys queue) in
  PKT_PORT_TYPE_of port = type /\ PKT_PORT_SUBSYS_of port = subsys /\
  PKT_PORT_MUID_of port = subsys /\ PKT_PORT_WQNUM_of port = queue /\
  PKT_PORT_QUEUE_of port = u8 queue.
Proof.
  intros Ht Hs Hq. cbv zeta.
  unfold PKT_PORT_TYPE_of, PKT_PORT_SUBSYS_of, PKT_PORT_MUID_of, PKT_PORT_WQNUM_of,
    PKT_PORT_QUEUE_of, PKT_PORT_BUILD.
  change 0x7 with (Z.ones 3). change 0xff with (Z.ones 8). change 0x3ff with (Z.ones 10).
  repeat split; zbits.
Qed.

Lemma muid_roundtrip isl : 24 <= isl <= 26 \/ 28 <= isl <= 31 ->
  MUID_TO_ISL (ISL_TO_MUID isl) = isl /\
  MEM_RING_ADDR_TO_MUID (MUID_TO_MEM_RING_ADDR (ISL_TO_MUID isl)) = ISL_TO_MUID isl.
Proof.
  intros Hi. assert (Hc : isl ∈ [24; 25; 26; 28; 29; 30; 31]) by (rewrite !elem_of_cons; lia).
  repeat (apply elem_of_cons in Hc as [->|Hc]; [split; reflexivity|]). by apply elem_of_nil in Hc.
Qed.

(** A field of a word of bit-fields *)
Ltac bf_field := repeat first
  [ rewrite bf_get_set by lia | rewrite bf_get_set_other by lia ]; by apply wrap_small.

Section proofs.
Context {B : build} `{InfraLib}.

(** ** Who has the buffers after sending *)

Definition gro (p : pkt_meta) : bool := truthy (p_is_gro_sequenced p).

(** The descriptor of a packet for the host *)
Definition host_desc (p : pkt_meta) : nfd_out_input :=
  let noi := nfd_out_check_ctm_only (nfd_out_fill_desc (p_nbi p) 0 (p_ctm_sz p) (p_offset p) 0) in
  mk_noi (noi_cpp noi) (<[1%nat := app1 p]> (<[0%nat := app0 p]> (rxd_set_dd 1 (noi_rxd noi)))).

(** The modification script for a packet to the wire, whose frame starts four
    bytes before the packet: where it is in the table, and its last word *)
Definition frame_off (p : pkt_meta) : Z := u32 (p_offset p - 4).
Definition wire_script (s : infra) : list Z :=
  mem_words (u32 (PM_DEL_SCRIPTS + u32 (PMS_STRUCT_SIZE * u32 (frame_off (Pkt s) - PMS_DEL_PKT_OFS_MIN)) /
    PMS_DEL_PKT_OFS_STEP)) 4 (scripts s).
Definition script_ofs (s : infra) : Z := Z.land (nth 3 (wire_script s) 0) 0xFF.
Definition script_len (s : infra) : Z := Z.land (Z.shiftr (nth 3 (wire_script s) 0) 8) 0x3 + 1.

(** What sending the packet at hand does at the devices, newest first.  What
    takes over a packet from the reorder engine goes through it. *)
Definition tx_events (s : infra) : list io :=
  let p := Pkt s in
  let type := PKT_PORT_TYPE_of (p_dst p) in
  let ss := PKT_PORT_SUBSYS_of (p_dst p) in
  let outq := PKT_PORT_QUEUE_of (p_dst p) in
  let give direct meta := if gro p then GroSend meta (p_ro_ctx p) (p_seq p) else direct in
  let drop := [give (PktCtmFree (if handle_remote_packets then p_isl p else 0) (p_pnum p))
                    (GroDropCtm (p_isl p) (p_pnum p));
               BlmBufFree (p_muptr p) (p_bls p)] in
  if type =? PKT_PTYPE_WIRE then
    let len := u32 (p_len p + 4) in
    let q := NS_PLATFORM_NBI_TM_QID_LO (board B) outq in
    [give (NbiSend __ISLAND (p_pnum p)
             (mk_msi (wrap len_adj_bits (frame_off p)) (wrap off_enc_bits (u32 (Z.shiftr (script_ofs s) 3 - 1))))
             len ss q (p_ro_ctx p) (p_seq p) (p_ctm_sz p))
          (GroNbi __ISLAND (p_pnum p) (p_ctm_sz p) (script_ofs s) (u32 (len + frame_off p)) ss q)]
  else if type =? PKT_PTYPE_HOST then
    if nfd_credit_dev (ios s) ss outq
    then [give (NfdOutSend ss outq (host_desc p)) (GroNfd (host_desc p) ss outq); NfdOutGetCredit ss outq true]
    else drop ++ [NfdOutGetCredit ss outq false]
  else if type =? PKT_PTYPE_WQ then
    let ph := ph_raw (p_isl p) (p_pnum p) in
    [give (WorkqAddWork outq (MUID_TO_MEM_RING_ADDR ss) ph) (GroWorkq (MUID_TO_ISL ss) outq ph)]
  else if type =? PKT_PTYPE_NONE then []
  else if type =? PKT_PTYPE_DROP_SEQ then
    (if gro p then [GroSend GroDropSeq (p_ro_ctx p) (p_seq p)] else [])
  else if type =? PKT_PTYPE_DROP_HOST then drop
  else drop ++ [NbiDropSeq (p_isl p) (p_pnum p) (mk_msi 0 0) (p_len p) 0 0 (p_ro_ctx p) (p_seq p) (p_ctm_sz p)].

(** The memory: the information on a packet to the wire, the command for the MAC
    and the script go in front of it; the descriptor of a packet to a work
    queue goes to the start of its buffer. *)
Definition tx_memory (s : infra) : gmap Z Z :=
  let p := Pkt s in
  let type := PKT_PORT_TYPE_of (p_dst p) in
  let ctm := pkt_ctm_ptr40 (p_isl p) (p_pnum p) 0 in
  if type =? PKT_PTYPE_WIRE then
    mem_put (ctm + script_ofs s) (take (Z.to_nat (script_len s)) (wire_script s))
      (mac_egress_cmd ctm (p_offset p) (p_tx_l3_csum p) (p_tx_l4_csum p)
        (mem_put ctm [(info_raw (p_nbi p)).1; (info_raw (p_nbi p)).2] (mem40 s)))
  else if type =? PKT_PTYPE_WQ then mem_put ctm (meta_raw p) (mem40 s)
  else mem40 s.

(** The host gives no credit: the packet is dropped. *)
Definition no_credit (s : infra) : bool :=
  let dst := p_dst (Pkt s) in
  (PKT_PORT_TYPE_of dst =? PKT_PTYPE_HOST) &&
  negb (nfd_credit_dev (ios s) (PKT_PORT_SUBSYS_of dst) (PKT_PORT_QUEUE_of dst)).

Lemma run_pkt_tx s : let type := PKT_PORT_TYPE_of (p_dst (Pkt s)) in 0 < type < 8 ->
  pkt_tx s = Some (if no_credit s then -1 else 0,
    s <| mem40 := tx_memory s |> <| ios := tx_events s ++ ios s |>).
Proof.
  intros type Hty. unfold pkt_tx, tx_events, tx_memory, no_credit. rewrite run_get. fold type.
  assert (Hcase : type = 1 \/ type = 2 \/ type = 3 \/ type = 4 \/ type = 5 \/
    type = 6 \/ type = 7) by lia.
  unfold tx_switch, tx_wire, tx_host, tx_wq, tx_drop_wire, drop_packet, __pkt_pms_write, nfd_out_get_credit,
    imem_write, io_emit, host_desc, gro, of_option, when.
  destruct Hcase as [->|[->|[->|[->|[->|[->| ->]]]]]]; cbn [Z.eqb Pos.eqb PKT_PTYPE_WIRE PKT_PTYPE_HOST
    PKT_PTYPE_WQ PKT_PTYPE_NONE PKT_PTYPE_DROP_SEQ PKT_PTYPE_DROP_HOST PKT_PTYPE_DROP_WIRE andb].
  2: destruct (nfd_credit_dev _ _ _) eqn:Hcredit.
  all: destruct (truthy (p_is_gro_sequenced (Pkt s))) eqn:Hgro; cbv zeta.
  all: repeat first [ progress runs | progress (cbn [negb andb]) | rewrite Hcredit | progress st | rewrite Hgro ];
    try (by destruct s).
Qed.

(** A buffer of either kind *)
Inductive buffer : Type := MuBuf (muptr bls : Z) | CtmBuf (isl pnum : Z).

(** The buffers that an event gives to another owner or back to their pool.  The
    NBI, the host and a work queue take over the CTM buffer of the event and the
    MU buffer that the information [i] on the packet names: they find [i] in
    the CTM buffer, or in the descriptor.  Island 0 is the own one. *)
Definition gives (i : pkt_info) (e : io) : list buffer :=
  let mu := MuBuf (pi_muptr i) (pi_bls i) in
  match e with
  | NbiSend isl pnum _ _ _ _ _ _ _ | GroSend (GroNbi isl pnum _ _ _ _ _) _ _ => [mu; CtmBuf isl pnum]
  | NfdOutSend _ _ _ | GroSend (GroNfd _ _ _) _ _ => [mu; CtmBuf (pi_isl i) (pi_pnum i)]
  | WorkqAddWork _ _ ph | GroSend (GroWorkq _ _ ph) _ _ => [mu; CtmBuf (ph_isl ph) (ph_pnum ph)]
  | GroSend (GroDropCtm isl pnum) _ _ => [CtmBuf isl pnum]
  | PktCtmFree isl pnum => [CtmBuf (if isl =? 0 then __ISLAND else isl) pnum]
  | BlmBufFree muptr bls => [MuBuf muptr bls]
  | _ => []
  end.

Definition given (i : pkt_info) (l : list io) : list buffer := flat_map (gives i) l.

(** The sequence numbers that the reorder engine gets *)
Definition gro_numbers (l : list io) : list (Z * Z) :=
  l ≫= fun e => match e with GroSend _ ctx seq => [(ctx, seq)] | _ => [] end.

Definition keeps_buffers (type : Z) : bool := (type =? PKT_PTYPE_NONE) || (type =? PKT_PTYPE_DROP_SEQ).

(** The island whose CTM buffer is given away: that of the packet, but the own
    one for a packet to the wire, and for a packet that is dropped without the
    reorder engine in a build that does not handle remote packets. *)
Definition given_island (s : infra) : Z :=
  let p := Pkt s in
  let type := PKT_PORT_TYPE_of (p_dst p) in
  let dropped := (type =? PKT_PTYPE_DROP_HOST) || (type =? PKT_PTYPE_DROP_WIRE) || no_credit s in
  if (type =? PKT_PTYPE_WIRE) || (dropped && negb (gro p) && negb handle_remote_packets)
  then __ISLAND else p_isl p.

(** Take existentials and conjunctions apart and compute. *)
Ltac unpack := repeat match goal with
  | H : _ /\ _ |- _ => destruct H
  | H : exists _, _ |- _ => destruct H
  end; subst.

Lemma handle_roundtrip isl pnum : fits 8 isl -> fits 16 pnum ->
  u32 (ph_raw isl pnum) = ph_raw isl pnum /\
  ph_isl (ph_raw isl pnum) = isl /\ ph_pnum (ph_raw isl pnum) = pnum.
Proof.
  intros Hi Hp. unfold ph_isl, ph_pnum, ph_raw, bf_get.
  rewrite (wrap_small 8), (wrap_small 16) by done.
  repeat split; zbits.
Qed.

Lemma given_buffers s :
  let p := Pkt s in
  let type := PKT_PORT_TYPE_of (p_dst p) in
  0 < type < 8 -> fits 8 (p_isl p) -> p_isl p <> 0 -> fits 16 (p_pnum p) ->
  given (p_nbi p) (tx_events s) ≡ₚ
    if keeps_buffers type then [] else [MuBuf (p_muptr p) (p_bls p); CtmBuf (given_island s) (p_pnum p)].
Proof.
  intros p type Hty Hi Hne Hp. destruct (handle_roundtrip _ _ Hi Hp) as (_ & Hri & Hrp).
  unfold given, tx_events, given_island, no_credit, keeps_buffers. fold p. cbv zeta. fold type.
  assert (Hcase : type = 1 \/ type = 2 \/ type = 3 \/ type = 4 \/ type = 5 \/
    type = 6 \/ type = 7) by lia.
  destruct Hcase as [->|[->|[->|[->|[->|[->| ->]]]]]]; cbn [Z.eqb Pos.eqb PKT_PTYPE_WIRE PKT_PTYPE_HOST
    PKT_PTYPE_WQ PKT_PTYPE_NONE PKT_PTYPE_DROP_SEQ PKT_PTYPE_DROP_HOST PKT_PTYPE_DROP_WIRE andb orb].
  2: destruct (nfd_credit_dev _ _ _).
  all: destruct (gro p), handle_remote_packets; cbn [flat_map gives app negb andb orb Z.eqb];
    rewrite ?Hri, ?Hrp, ?(proj2 (Z.eqb_neq _ _) Hne); try reflexivity; apply Permutation_swap.
Qed.

Lemma tx_numbers s :
  gro_numbers (tx_events s) =
    if gro (Pkt s) && negb (PKT_PORT_TYPE_of (p_dst (Pkt s)) =? PKT_PTYPE_NONE)
    then [(p_ro_ctx (Pkt s), p_seq (Pkt s))] else [].
Proof.
  unfold tx_events. cbv zeta. set (type := PKT_PORT_TYPE_of _).
  destruct (Z.eqb_spec type PKT_PTYPE_WIRE) as [->|]; [by destruct (gro _)|].
  destruct (Z.eqb_spec type PKT_PTYPE_HOST) as [->|]; [destruct (nfd_credit_dev _ _ _); by destruct (gro _)|].
  destruct (Z.eqb_spec type PKT_PTYPE_WQ) as [->|]; [by destruct (gro _)|].
  destruct (type =? PKT_PTYPE_NONE); [by destruct (gro _)|].
  destruct (type =? PKT_PTYPE_DROP_SEQ); [by destruct (gro _)|].
  destruct (type =? PKT_PTYPE_DROP_HOST); by destruct (gro _).
Qed.

(** C14: what sending a packet does, access by access with all arguments, and
    what it writes.  It returns -1 exactly if the host gives no credit.  The MU
    buffer and a CTM buffer with the number of the packet go to exactly one
    place: to the next owner, or back to their pools; nothing is given away
    twice.  For the types NONE and DROP_SEQ the caller keeps them.  The CTM
    buffer is the packet's own when it is in the CTM of the own island, so that
    nothing leaks then.  For a packet in another island this is not so: to the
    wire, and when it is dropped without the reorder engine in a build without
    INFRA_HANDLE_REMOTE_PACKETS, the buffer of that number in the own island is
    given away instead.  A packet from the reorder engine gives its number back
    to it exactly once.  The type DROP, 0, stops the engine. *)
Theorem pkt_tx_releases_once s :
  let p := Pkt s in
  let type := PKT_PORT_TYPE_of (p_dst p) in
  fits 8 (p_isl p) -> p_isl p <> 0 -> fits 16 (p_pnum p) ->
  (type = PKT_PTYPE_DROP -> pkt_tx s = None) /\
  (type <> PKT_PTYPE_DROP ->
    pkt_tx s = Some (if no_credit s then -1 else 0,
      s <| mem40 := tx_memory s |> <| ios := tx_events s ++ ios s |>) /\
    given (p_nbi p) (tx_events s) ≡ₚ
      (if keeps_buffers type then [] else [MuBuf (p_muptr p) (p_bls p); CtmBuf (given_island s) (p_pnum p)]) /\
    (p_isl p = __ISLAND -> given_island s = p_isl p) /\
    gro_numbers (tx_events s) =
      (if gro p && negb (type =? PKT_PTYPE_NONE) then [(p_ro_ctx p, p_seq p)] else [])).
Proof.
  intros p type Hi Hz Hp.
  assert (Hty : fits 3 type).
  { unfold type, PKT_PORT_TYPE_of. change 0x7 with (Z.ones 3). apply fits_land_r; [lia|by vm_compute]. }
  unfold fits in Hty. change (2 ^ 3) with 8 in Hty.
  split; [intros Ht|intros Hne].
  { unfold pkt_tx. rewrite run_get. fold p. cbv zeta. fold type. by rewrite Ht. }
  assert (Hr : 0 < type < 8) by (unfold PKT_PTYPE_DROP in Hne; lia).
  split; [by apply run_pkt_tx|]. split; [by apply given_buffers|]. split; [|apply tx_numbers].
  intros E. unfold given_island. fold p. cbv zeta. rewrite <- E. by destruct (_ || _).
Qed.

(** ** From one engine to another by a work queue *)

(** The fields of a packet fit where they are stored. *)
Record pkt_ok (p : pkt_meta) : Prop := {
  ok_info : info_ok (p_nbi p);
  ok_place : fits 16 (p_seq p) /\ fits 16 (p_offset p);
  ok_ctx : fits 2 (p_ctm_sz p) /\ fits 6 (p_ro_ctx p) /\ fits 1 (p_is_gro_sequenced p);
  ok_rx : fits 1 (p_rx_l3_csum_present p) /\ fits 1 (p_rx_l3_csum_ok p) /\
    fits 1 (p_rx_l4_csum_present p) /\ fits 1 (p_rx_l4_csum_ok p) /\ fits 1 (p_rx_l4_tcp p);
  ok_tx : fits 1 (p_tx_l3_csum p) /\ fits 1 (p_tx_l4_csum p) /\ fits 1 (p_rx_lso p) /\
    fits 1 (p_wq_type p) /\ fits 14 (p_orig_len p);
  ok_ports : fits 16 (p_src p) /\ fits 16 (p_dst p);
  ok_app : fits 32 (app0 p) /\ fits 32 (app1 p)
}.

Lemma meta_roundtrip `{!InfraOk} p w : pkt_ok p ->
  (forall k, (k < 7)%nat -> w k = nth k (meta_raw p) 0) -> meta_of_raw w = p.
Proof.
  intros [] Hw. unpack. unfold meta_of_raw. rewrite !Hw by lia.
  destruct p. cbn [meta_raw nth p_nbi]. unfold flags_raw.
  cbn [p_nbi p_seq p_offset p_ctm_sz p_ro_ctx p_is_gro_sequenced p_rx_l3_csum_present p_rx_l3_csum_ok
    p_rx_l4_csum_present p_rx_l4_csum_ok p_rx_l4_tcp p_tx_l3_csum p_tx_l4_csum p_rx_lso
    p_wq_type p_orig_len p_src p_dst app0 app1] in *.
  rewrite <- surjective_pairing, info_roundtrip by done.
  f_equal; first [by apply wrap_small | bf_field].
Qed.

Lemma ok_handle `{!InfraOk} p : pkt_ok p ->
  u32 (ph_raw (p_isl p) (p_pnum p)) = ph_raw (p_isl p) (p_pnum p) /\
  ph_isl (ph_raw (p_isl p) (p_pnum p)) = p_isl p /\
  ph_pnum (ph_raw (p_isl p) (p_pnum p)) = p_pnum p.
Proof.
  intros Hok. destruct (ok_info p Hok) as (Hi & Hp & _). pose proof handle_bits as [? ?].
  apply handle_roundtrip; eapply fits_mono; eauto; lia.
Qed.

(** C16: a packet that is sent to a work queue arrives there as it was sent.
    The engine that takes the handle from the ring and finds the first words of
    the CTM buffer as they were left has the same [Pkt], except that the reorder
    engine does not know it and that it will be dropped by default. *)
Theorem wq_roundtrip `{!InfraOk} s :
  let p := Pkt s in
  pkt_ok p -> p_is_gro_sequenced p = 0 -> PKT_PORT_TYPE_of (p_dst p) = PKT_PTYPE_WQ ->
  exists s1, pkt_tx s = Some (0, s1) /\
    ios s1 = WorkqAddWork (PKT_PORT_QUEUE_of (p_dst p))
      (MUID_TO_MEM_RING_ADDR (PKT_PORT_MUID_of (p_dst p))) (ph_raw (p_isl p) (p_pnum p)) :: ios s /\
    forall s2 ring addr,
      workq_dev (ios s2) ring addr = ph_raw (p_isl p) (p_pnum p) ->
      mem_words (pkt_ctm_ptr40 (p_isl p) (p_pnum p) 0) 7 (mem40 s2) =
        mem_words (pkt_ctm_ptr40 (p_isl p) (p_pnum p) 0) 7 (mem40 s1) ->
      exists s3, pkt_rx_wq ring addr s2 = Some (tt, s3) /\
        Pkt s3 = p <| p_is_gro_sequenced := 0 |> <| p_dst := PKT_DROP |>.
Proof.
  intros p Hok Hgro Hty. eexists. split; [|split].
  - unfold pkt_tx. rewrite run_get. fold p. rewrite Hty. unfold tx_switch.
    cbn [Z.eqb Pos.eqb PKT_PTYPE_WIRE PKT_PTYPE_HOST PKT_PTYPE_WQ].
    unfold tx_wq, imem_write, io_emit. cbv zeta. runs. fold p. rewrite Hgro. cbn [truthy Z.eqb negb].
    runs. change (Pkt _) with p. rewrite Hgro. reflexivity.
  - reflexivity.
  - intros s2 ring addr Hdev Hmem.
    destruct (ok_handle p Hok) as (Hr & Hri & Hrp).
    eexists. split.
    + unfold pkt_rx_wq, upd, io_emit, imem_read. runs. rewrite Hdev, Hr, Hri, Hrp. reflexivity.
    + st. rewrite Hmem.
      change (mem40 _) with (mem_put (pkt_ctm_ptr40 (p_isl p) (p_pnum p) 0) (meta_raw p) (mem40 s)).
      rewrite (mem_words_put _ (meta_raw p)).
      rewrite (meta_roundtrip p) by done. reflexivity.
Qed.

(** ** From the host *)

(** The attempts to get a CTM buffer that fail before one succeeds *)
Definition failed (n : nat) (h : list io) : list io := replicate n (CtmAlloc CTM_ALLOC_ERR) ++ h.

Lemma run_ctm_alloc_loop n : forall fuel s pnum,
  (forall k, (k < n)%nat -> ctm_alloc_dev (failed k (ios s)) = CTM_ALLOC_ERR) ->
  ctm_alloc_dev (failed n (ios s)) = pnum -> pnum <> CTM_ALLOC_ERR ->
  ctm_alloc_loop fuel s =
    if (fuel <=? n)%nat then None
    else Some (pnum, s <| ios := CtmAlloc pnum :: failed n (ios s) |>).
Proof.
  induction n as [|n IH]; intros fuel s pnum Hfail Hok Hne; (destruct fuel as [|fuel]; [done|]);
    cbn [ctm_alloc_loop]; unfold ctm_alloc, io_emit; runs.
  - change (failed 0 (ios s)) with (ios s) in *. rewrite Hok.
    rewrite (proj2 (Z.eqb_neq _ _) Hne). by destruct s.
  - pose proof (Hfail 0%nat ltac:(lia)) as H0. change (failed 0 (ios s)) with (ios s) in H0.
    rewrite H0, Z.eqb_refl. set (s1 := s <| ios ::= cons (CtmAlloc CTM_ALLOC_ERR) |>).
    assert (Hs1 : forall k, failed k (ios s1) = failed (S k) (ios s)).
    { intros k. unfold failed. cbn [replicate app ios]. change (ios s1) with (CtmAlloc CTM_ALLOC_ERR :: ios s).
      induction k as [|k IHk]; [done|]. cbn [replicate app] in *. by rewrite IHk. }
    rewrite (IH fuel s1 pnum); [..|done].
    + rewrite Hs1. change (S fuel <=? S n)%nat with (fuel <=? n)%nat. by destruct (fuel <=? n)%nat, s.
    + intros k Hk. rewrite Hs1. apply Hfail. lia.
    + by rewrite Hs1.
Qed.

(** The packet and the CTM buffer do not overlap. *)
Definition apart (mu ctm : Z) : Prop := ctm + 2048 <= mu \/ mu + 2048 <= ctm.

Lemma run_copy_ctm_block `{!InfraOk} pnum a s : 0 <= a < 2048 ->
  copy_to_ctm pnum a s = Some (tt, s <| mem40 ::= mem_put (pkt_ctm_ptr40 __ISLAND pnum 0 + a)
    (mem_words (Z.shiftl (p_muptr (Pkt s)) 11 + a) 16 (mem40 s)) |>).
Proof.
  intros Ha. unfold copy_to_ctm, imem_read, imem_write. runs.
  by rewrite lor_low, ctm_ptr_linear by (unfold fits; lia).
Qed.

Lemma run_copy_to_ctm `{!InfraOk} pnum n : forall a s,
  let mu := Z.shiftl (p_muptr (Pkt s)) 11 in
  let ctm := pkt_ctm_ptr40 __ISLAND pnum 0 in
  apart mu ctm -> 0 <= a -> a + 64 * Z.of_nat n <= 2048 ->
  for_each (steps a 64 n) (copy_to_ctm pnum) s =
  Some (tt, s <| mem40 := mem_put (ctm + a) (mem_words (mu + a) (16 * n) (mem40 s)) (mem40 s) |>).
Proof.
  induction n as [|n IH]; intros a s mu ctm Hap Ha Hle.
  - cbn [steps for_each Nat.mul mem_words fmap list_fmap seq mem_put]. by destruct s.
  - cbn [steps for_each]. erewrite run_some by (apply run_copy_ctm_block; lia). cbv beta.
    fold mu ctm.
    set (s1 := s <| mem40 ::= mem_put (ctm + a) (mem_words (mu + a) 16 (mem40 s)) |>).
    pose proof (IH (a + 64) s1) as IH1. change (Pkt s1) with (Pkt s) in IH1. cbv zeta in IH1.
    fold mu ctm in IH1. rewrite IH1 by (done || lia). do 2 f_equal.
    replace (16 * S n)%nat with (16 + 16 * n)%nat by lia.
    rewrite mem_words_app, mem_put_app, length_mem_words.
    change (mem40 s1) with (mem_put (ctm + a) (mem_words (mu + a) 16 (mem40 s)) (mem40 s)).
    replace (mu + (a + 64)) with (mu + a + 4 * Z.of_nat 16) by lia.
    replace (ctm + (a + 64)) with (ctm + a + 4 * Z.of_nat 16) by lia.
    rewrite (mem_words_ext (mu + a + 4 * Z.of_nat 16) (16 * n) _ (mem40 s)); [by destruct s|].
    intros i Hi. apply rd_mem_put_out. rewrite length_mem_words. unfold apart in Hap. lia.
Qed.


(** [Pkt] for a packet from the host *)
Definition host_pkt (pnum : Z) (d : nfd_in_pkt_desc) : pkt_meta :=
  let info := (nfd_in_fill_meta d) <| pi_isl := wrap isl_bits __ISLAND |> <| pi_pnum := wrap pnum_bits pnum |> in
  no_pkt <| p_nbi := info |> <| p_seq := u16 (nfd_in_get_seqn d) |>
    <| p_offset := u16 NFD_IN_DATA_OFFSET |> <| p_ctm_sz := wrap 2 MIN_CTM_TYPE |>
    <| p_ro_ctx := wrap 6 (Z.shiftl (NFD_IN_SEQR_NUM (q_num d)) 1) |>
    <| p_orig_len := wrap 14 (pi_len info) |>
    <| p_src := u16 (PKT_HOST_PORT_FROMQ (intf d) (NFD_BMQ2NATQ (q_num d))) |>.

Definition host_split (d : nfd_in_pkt_desc) : bool := data_len d + NFD_IN_DATA_OFFSET >? MIN_CTM_SIZE.

(** The part of the buffer that is copied *)
Definition host_start : Z := Z.ldiff NFD_IN_DATA_OFFSET 0x3F.
Definition host_end (d : nfd_in_pkt_desc) : Z :=
  if host_split d then MIN_CTM_SIZE else data_len d + NFD_IN_DATA_OFFSET.

Lemma host_blocks `{!InfraOk} d : 0 <= data_len d -> exists n,
  ptrs (u16 host_start) (u16 (host_end d)) 64 = steps host_start 64 n /\
  0 <= host_start <= NFD_IN_DATA_OFFSET /\
  host_end d <= host_start + 64 * Z.of_nat n <= MIN_CTM_SIZE /\ MIN_CTM_SIZE <= 2048.
Proof.
  intros Hd. pose proof ctm_type_range as Ht. pose proof data_offset_range as Ho.
  assert (Hsz : exists k, MIN_CTM_SIZE = 64 * k /\ 0 <= k <= 32).
  { unfold MIN_CTM_SIZE, MIN_CTM_TYPE.
    assert (Hc : PKT_CTM_SIZE_256 = 0 \/ PKT_CTM_SIZE_256 = 1 \/ PKT_CTM_SIZE_256 = 2 \/
      PKT_CTM_SIZE_256 = 3) by lia.
    destruct Hc as [->|[->|[->| ->]]]; [exists 4|exists 8|exists 16|exists 32]; (split; [reflexivity|lia]). }
  destruct Hsz as (k & Hk & Hkr).
  assert (Hs : host_start = 64 * (NFD_IN_DATA_OFFSET / 64)).
  { unfold host_start. change 0x3F with (Z.ones 6). rewrite Z.ldiff_ones_r by lia.
    rewrite Z.shiftr_div_pow2, Z.shiftl_mul_pow2 by lia. change (2 ^ 6) with 64. lia. }
  change (Z.shiftl 256 PKT_CTM_SIZE_256) with MIN_CTM_SIZE in Ho.
  assert (He : NFD_IN_DATA_OFFSET <= host_end d <= MIN_CTM_SIZE).
  { unfold host_end, host_split. destruct (Z.gtb_spec (data_len d + NFD_IN_DATA_OFFSET) MIN_CTM_SIZE); lia. }
  set (n := Z.to_nat ((host_end d - host_start + 63) / 64)).
  assert (Hn : 64 * Z.of_nat n = 64 * ((host_end d - host_start + 63) / 64)).
  { unfold n. rewrite Z2Nat.id; [done|]. apply Z.div_pos; [|lia]. rewrite Hs.
    Z.to_euclidean_division_equations; lia. }
  exists n. rewrite !wrap_small by (unfold fits; rewrite ?Hs; Z.to_euclidean_division_equations; lia).
  split.
  - unfold ptrs. f_equal. unfold n. do 2 f_equal. lia.
  - rewrite Hn, Hs. Z.to_euclidean_division_equations; lia.
Qed.

Lemma run_rx_host fuel n pnum s :
  let h := CtmAlloc pnum :: failed n (ios s) in
  let d := nfd_in_recv_dev h in
  (forall k, (k < n)%nat -> ctm_alloc_dev (failed k (ios s)) = CTM_ALLOC_ERR) ->
  ctm_alloc_dev (failed n (ios s)) = pnum -> pnum <> CTM_ALLOC_ERR -> (n < fuel)%nat ->
  pkt_rx_host fuel s =
    let s1 := s <| ios := NfdInRecv d :: h |> <| Pkt := host_pkt pnum d |> in
    if truthy (invalid d) then Some (-1, s1)
    else (for_each (ptrs (u16 host_start) (u16 (host_end d)) 64) (copy_to_ctm pnum) ≫= fun _ => mret 0)
      (s1 <| Pkt ::= fun p => p <| app0 := u32 (rxd_raw2 d) |> <| app1 := u32 (rxd_raw3 d) |>
         <| p_nbi ::= fun i => i <| pi_split := b2z (host_split d) |> |> |>).
Proof.
  intros h d Hfail Hok Hne Hfuel. unfold pkt_rx_host.
  erewrite run_some by (rewrite (run_ctm_alloc_loop n fuel s pnum) by done;
    rewrite (proj2 (Nat.leb_gt _ _) Hfuel); reflexivity).
  cbv beta. fold h. unfold nfd_in_recv, upd, io_emit. runs.
  change (nfd_in_recv_dev (ios (s <| ios := h |>))) with d.
  destruct (truthy (invalid d)); [by destruct s|]. runs. cbv zeta. by destruct s.
Qed.

(** C15: a packet from the host.  As soon as a CTM buffer is to be had, the
    function takes it, then the packet; a packet marked invalid is refused and
    no memory changes.  Otherwise [Pkt] describes it, and its beginning is in the
    CTM buffer, word for word as in the MU buffer: all of it, or up to the end of
    the buffer when the packet is split.  No other memory changes. *)
Theorem pkt_rx_host_correct `{!InfraOk} fuel n pnum s :
  let d := nfd_in_recv_dev (CtmAlloc pnum :: failed n (ios s)) in
  let mu := Z.shiftl (pi_muptr (nfd_in_fill_meta d)) 11 in
  let ctm := pkt_ctm_ptr40 __ISLAND pnum 0 in
  (forall k, (k < n)%nat -> ctm_alloc_dev (failed k (ios s)) = CTM_ALLOC_ERR) ->
  ctm_alloc_dev (failed n (ios s)) = pnum -> pnum <> CTM_ALLOC_ERR -> (n < fuel)%nat ->
  apart mu ctm -> 0 <= data_len d ->
  exists s', pkt_rx_host fuel s = Some (if truthy (invalid d) then -1 else 0, s') /\
    p_pnum (Pkt s') = wrap pnum_bits pnum /\ p_isl (Pkt s') = wrap isl_bits __ISLAND /\
    p_muptr (Pkt s') = pi_muptr (nfd_in_fill_meta d) /\
    p_offset (Pkt s') = u16 NFD_IN_DATA_OFFSET /\ p_is_gro_sequenced (Pkt s') = 0 /\
    if truthy (invalid d) then mem40 s' = mem40 s
    else
      p_is_split (Pkt s') = b2z (data_len d + NFD_IN_DATA_OFFSET >? MIN_CTM_SIZE) /\
      (forall k, 0 <= k ->
        let x := Z.ldiff NFD_IN_DATA_OFFSET 0x3F + 4 * k in
        x < Z.min MIN_CTM_SIZE (data_len d + NFD_IN_DATA_OFFSET) ->
        rd (mem40 s') (ctm + x) = rd (mem40 s) (mu + x)) /\
      (forall a, a < ctm \/ ctm + MIN_CTM_SIZE <= a -> rd (mem40 s') a = rd (mem40 s) a).
Proof.
  intros d mu ctm Hfail Hok Hne Hfuel Hap Hlen.
  pose proof (run_rx_host fuel n pnum s Hfail Hok Hne Hfuel) as Hrun. cbv zeta in Hrun. fold d in Hrun.
  rewrite Hrun. clear Hrun. destruct (truthy (invalid d)) eqn:Hinv.
  - eexists. split; [reflexivity|]. by repeat split.
  - destruct (host_blocks d Hlen) as (c & -> & Hs & Hc & Hmax).
    match goal with |- context [(for_each _ _ ≫= _) ?s1] => set (s2 := s1) end.
    erewrite run_some by (apply run_copy_to_ctm; [exact Hap|lia|lia]). cbv beta.
    eexists. split; [reflexivity|]. do 5 (split; [reflexivity|]). split; [reflexivity|].
    change (mem40 (s2 <| mem40 := ?m |>)) with m. change (mem40 s2) with (mem40 s).
    change (Z.shiftl (p_muptr (Pkt s2)) 11) with mu. fold ctm.
    split.
    + intros k Hk x Hx. fold host_start in x.
      assert (Hend : x < host_end d).
      { unfold host_end, host_split. destruct (Z.gtb_spec (data_len d + NFD_IN_DATA_OFFSET) MIN_CTM_SIZE); lia. }
      replace (ctm + x) with (ctm + host_start + 4 * Z.of_nat (Z.to_nat k)) by lia.
      erewrite rd_mem_put_in; [reflexivity|].
      unfold mem_words. rewrite list_lookup_fmap, lookup_seq_lt by lia. cbn. do 2 f_equal. lia.
    + intros a Ha. apply rd_mem_put_out. rewrite length_mem_words. lia.
Qed.

(** ** Modification scripts *)

(** The table has a script for every second offset. *)
Definition script_at (pkt_offset : Z) : Z := PM_DEL_SCRIPTS + 8 * (pkt_offset - PMS_DEL_PKT_OFS_MIN).

(** The script for a packet at an offset is the one at its place in the
    table.  The words that its length field asks for, and no others, are written
    in front of the packet where its offset field says, and that offset is the
    result.  Offsets below the smallest one are not refused, although the comment
    says so: the table index wraps and the script is read from about 2 GB beyond
    the table. *)
Theorem pms_write_correct ctm_base pkt_offset s :
  fits 16 pkt_offset -> 0 <= PM_DEL_SCRIPTS < 2 ^ 31 - 2 ^ 20 ->
  let below := pkt_offset <? PMS_DEL_PKT_OFS_MIN in
  let a := script_at pkt_offset + (if below then 2 ^ 31 else 0) in
  let script := mem_words a 4 (scripts s) in
  let ofs := bf_get 0 8 (rd (scripts s) (a + 12)) in
  let len := bf_get 8 2 (rd (scripts s) (a + 12)) + 1 in
  __pkt_pms_write ctm_base pkt_offset s =
    Some (ofs, s <| mem40 ::= mem_put (ctm_base + ofs) (take (Z.to_nat len) script) |>) /\
  (forall k, 0 <= k < len ->
    rd (mem_put (ctm_base + ofs) (take (Z.to_nat len) script) (mem40 s)) (ctm_base + ofs + 4 * k) =
    rd (scripts s) (a + 4 * k)) /\
  (forall x, x < ctm_base + ofs \/ ctm_base + ofs + 4 * len <= x ->
    rd (mem_put (ctm_base + ofs) (take (Z.to_nat len) script) (mem40 s)) x = rd (mem40 s) x).
Proof.
  intros Hoff Hbase below a script ofs len.
  assert (Ha : u32 (PM_DEL_SCRIPTS + u32 (PMS_STRUCT_SIZE * u32 (pkt_offset - PMS_DEL_PKT_OFS_MIN)) /
    PMS_DEL_PKT_OFS_STEP) = a).
  { unfold a, below, script_at. change PMS_STRUCT_SIZE with 16. change PMS_DEL_PKT_OFS_MIN with 40.
    change PMS_DEL_PKT_OFS_STEP with 2. unfold wrap, fits in *.
    destruct (Z.ltb_spec pkt_offset 40); Z.to_euclidean_division_equations; lia. }
  assert (Hlen : 1 <= len <= 4).
  { unfold len. pose proof (bf_get_fits 8 2 (rd (scripts s) (a + 12)) ltac:(lia)) as Hf.
    unfold fits in Hf. change (2 ^ 2) with 4 in Hf. lia. }
  split; [|split].
  - unfold __pkt_pms_write. cbv zeta. runs. unfold imem_write. rewrite Ha.
    assert (Hn : nth 3 (mem_words a 4 (scripts s)) 0 = rd (scripts s) (a + 12))
      by (rewrite mem_words_nth by lia; f_equal; lia).
    pose proof (fun x => Z.land_ones x 8 ltac:(lia)) as H8. change (Z.ones 8) with 0xFF in H8.
    pose proof (fun x => Z.land_ones x 2 ltac:(lia)) as H2. change (Z.ones 2) with 3 in H2.
    rewrite Hn, H8, H2. unfold ofs, len, script, bf_get, wrap. by rewrite Z.shiftr_0_r.
  - intros k Hk. replace (ctm_base + ofs + 4 * k) with (ctm_base + ofs + 4 * Z.of_nat (Z.to_nat k)) by lia.
    erewrite rd_mem_put_in; [reflexivity|]. rewrite lookup_take_lt by lia.
    unfold script, mem_words. rewrite list_lookup_fmap, lookup_seq_lt by lia. cbn. do 2 f_equal. lia.
  - intros x Hx. apply rd_mem_put_out. rewrite length_take. unfold script. rewrite length_mem_words. lia.
Qed.
End proofs.

(** ** Witnesses *)

(** A layout of 64 bits, buffers at distinct places, a host that always has a
    packet of 300 bytes, and credits after two attempts. *)
Module Packets.
Export Demo.

#[export] Instance packets : InfraLib := {|
  isl_bits := 6; pnum_bits := 10; bls_bits := 2; len_bits := 14; muptr_bits := 29; rest_bits := 2;
  len_adj_bits := 16; off_enc_bits := 8;
  info_raw i := (bf_set 26 6 (pi_isl i) (bf_set 16 10 (pi_pnum i) (bf_set 14 2 (pi_bls i)
      (bf_set 0 14 (pi_len i) 0))),
    bf_set 31 1 (pi_split i) (bf_set 29 2 (info_rest i) (bf_set 0 29 (pi_muptr i) 0)));
  info_of_raw w := mk_pkt_info (bf_get 26 6 w.1) (bf_get 16 10 w.1) (bf_get 14 2 w.1)
    (bf_get 0 14 w.1) (bf_get 31 1 w.2) (bf_get 0 29 w.2) (bf_get 29 2 w.2);
  pkt_ctm_ptr40 isl pnum off := 2 ^ 39 + 2 ^ 24 * isl + 2048 * pnum + off;
  __ISLAND := 33; PKT_NBI_OFFSET := 64; NFD_IN_DATA_OFFSET := 128; PKT_CTM_SIZE_256 := 0;
  NFD_IN_SEQR_NUM q := q mod 4; NFD_BMQ2NATQ q := q;
  nfd_in_fill_meta d := mk_pkt_info 0 0 2 (data_len d) 0 77 0;
  nfd_in_get_seqn d := 5;
  PM_DEL_SCRIPTS := 0x1000;
  mac_egress_cmd p off l3 l4 := mem_put (p + off - 4) [Z.lor (Z.shiftl l3 31) (Z.shiftl l4 30)];
  nfd_out_fill_desc i _ _ off _ := mk_noi [pi_len i] [off; 0];
  nfd_out_check_ctm_only noi := noi; rxd_set_dd v l := l;
  handle_remote_packets := false;
  nbi_recv_dev h := mk_nbi_meta no_info 1 0 0 1 0;
  pkt_status_dev h isl pnum := 0;
  ctm_alloc_dev h := if (length h <? 2)%nat then CTM_ALLOC_ERR else 9;
  nfd_in_recv_dev h := mk_nfd_in 3 0 0 300 11 12 [];
  workq_dev h ring addr := ph_raw 33 9;
  nfd_credit_dev h ss outq := true
|}.

#[export] Instance packets_ok : InfraOk.
Proof.
  split.
  - intros [isl pnum bls len split muptr rest] (Hi & Hp & Hb & Hl & Hs & Hm & Hr).
    cbn [pi_isl pi_pnum pi_bls pi_len pi_split pi_muptr info_rest isl_bits pnum_bits bls_bits
      len_bits muptr_bits rest_bits packets info_of_raw info_raw fst snd] in *.
    f_equal; bf_field.
  - repeat split; by vm_compute.
  - repeat split; by vm_compute.
  - repeat split; by vm_compute.
  - intros. cbn [pkt_ctm_ptr40 packets]. lia.
Qed.

Definition pkt1 : pkt_meta :=
  mk_pkt_meta (mk_pkt_info 33 9 2 300 0 77 0) 5 128 0 6 0 0 0 0 0 0 0 0 0 0 300
    (PKT_HOST_PORT_FROMQ 0 3) (PKT_WQ_PORT 4 17) 11 12.
Definition infra1 : infra := mk_infra pkt1 ∅ ∅ [].
End Packets.

Section witnesses.
Import Packets.

Lemma port_roundtrip_witness :
  fits 3 PKT_PTYPE_WQ /\ fits 3 4 /\ fits 10 300 /\
  let port := u16 (PKT_PORT_BUILD PKT_PTYPE_WQ 4 300) in
  PKT_PORT_TYPE_of port = PKT_PTYPE_WQ /\ PKT_PORT_SUBSYS_of port = 4 /\
  PKT_PORT_MUID_of port = 4 /\ PKT_PORT_WQNUM_of port = 300 /\ PKT_PORT_QUEUE_of port = 44.
Proof.
  assert (H1 : fits 3 PKT_PTYPE_WQ) by (split; by vm_compute).
  assert (H2 : fits 3 4) by (split; by vm_compute).
  assert (H3 : fits 10 300) by (split; by vm_compute).
  split; [exact H1|]. split; [exact H2|]. split; [exact H3|].
  exact (port_roundtrip PKT_PTYPE_WQ 4 300 H1 H2 H3).
Defined.

Lemma pkt1_ok : pkt_ok pkt1.
Proof. split; repeat split; vm_compute; congruence. Qed.

Lemma wq_roundtrip_witness :
  pkt_ok pkt1 /\ p_is_gro_sequenced pkt1 = 0 /\ PKT_PORT_TYPE_of (p_dst pkt1) = PKT_PTYPE_WQ /\
  exists s1 s3, pkt_tx infra1 = Some (0, s1) /\
    pkt_rx_wq 17 0 (s1 <| Pkt := no_pkt |>) = Some (tt, s3) /\
    Pkt s3 = pkt1 <| p_is_gro_sequenced := 0 |> <| p_dst := PKT_DROP |>.
Proof.
  split; [exact pkt1_ok|]. split; [reflexivity|]. split; [reflexivity|].
  destruct (wq_roundtrip infra1 pkt1_ok eq_refl eq_refl) as (s1 & Htx & _ & Hrx).
  destruct (Hrx (s1 <| Pkt := no_pkt |>) 17 0 eq_refl eq_refl) as (s3 & Hrun & HP).
  exists s1, s3. split; [exact Htx|]. split; [exact Hrun|exact HP].
Defined.

(** The packet at hand, of the own island, dropped *)
Definition dropped1 : infra := infra1 <| Pkt ::= fun p => p <| p_dst := PKT_DROP_HOST |> |>.

Lemma pkt_tx_releases_once_witness :
  pkt_tx dropped1 = Some (0, dropped1 <| ios := [PktCtmFree 0 9; BlmBufFree 77 2] |>) /\
  given (p_nbi (Pkt dropped1)) (tx_events dropped1) ≡ₚ [MuBuf 77 2; CtmBuf 33 9].
Proof.
  destruct (pkt_tx_releases_once dropped1) as [_ Hok]; [by split; vm_compute|done|by split; vm_compute|].
  destruct (Hok ltac:(done)) as (Hrun & Hgiven & _ & _). split; [exact Hrun|exact Hgiven].
Defined.

(** The same packet in the CTM of island 34: the buffer 9 of island 33 is freed,
    that of island 34 is not. *)
Lemma remote_drop_frees_own_buffer :
  let s := dropped1 <| Pkt ::= fun p => p <| p_nbi ::= fun i => i <| pi_isl := 34 |> |> |> in
  given_island s = 33 /\ given (p_nbi (Pkt s)) (tx_events s) = [CtmBuf 33 9; MuBuf 77 2].
Proof. by split. Qed.

Lemma pkt_rx_host_correct_witness :
  ctm_alloc_dev (failed 2 []) = 9 /\
  exists s', pkt_rx_host 3 infra1 = Some (0, s') /\ p_pnum (Pkt s') = 9 /\ p_is_split (Pkt s') = 1 /\
    (forall k, 0 <= k -> let x := Z.ldiff NFD_IN_DATA_OFFSET 0x3F + 4 * k in
       x < Z.min MIN_CTM_SIZE (300 + NFD_IN_DATA_OFFSET) ->
       rd (mem40 s') (pkt_ctm_ptr40 33 9 0 + x) = rd (mem40 infra1) (Z.shiftl 77 11 + x)).
Proof.
  split; [reflexivity|].
  destruct (pkt_rx_host_correct 3 2 9 infra1) as (s' & Hrun & Hp & _ & _ & _ & _ & Hs & Hw & _).
  - intros k Hk. destruct k as [|[|k]]; [reflexivity|reflexivity|lia].
  - reflexivity.
  - discriminate.
  - lia.
  - right. vm_compute. discriminate.
  - vm_compute. discriminate.
  - exists s'. split; [exact Hrun|]. split; [rewrite Hp; reflexivity|]. split; [exact Hs|exact Hw].
Defined.

Lemma pms_write_correct_witness :
  fits 16 36 /\ 0 <= PM_DEL_SCRIPTS < 2 ^ 31 - 2 ^ 20 /\
  let a := PM_DEL_SCRIPTS + 8 * (36 - 40) + 2 ^ 31 in
  __pkt_pms_write 0 36 (infra1 <| mem40 := ∅ |>) =
    Some (0, infra1 <| mem40 := mem_put (0 + 0) [rd (scripts infra1) a] ∅ |>).
Proof.
  assert (H1 : fits 16 36) by (split; by vm_compute).
  assert (H2 : 0 <= PM_DEL_SCRIPTS < 2 ^ 31 - 2 ^ 20) by (split; by vm_compute).
  split; [exact H1|]. split; [exact H2|].
  exact (proj1 (pms_write_correct 0 36 (infra1 <| mem40 := ∅ |>) H1 H2)).
Defined.
End witnesses.
