(* ===== verification/Tables.v ===== *)
(** * Tables kept for the workers: the table writers of
    apps/nic/app_config_tables.c

    Next-neighbour registers (hash pad, VXLAN ports), the RSS indirection
    tables and instruction tables in the cluster scratch of each worker
    island, the VLAN member tables in the worker CTMs, and the cache of the
    free-list buffer sizes. *)

From S2P Require Import Prelude Platform UserCfg Nfd Machine.

Definition NUM_PCIE_Q : Z := 64.
Definition NIC_MAX_INSTR : Z := 16.
Definition NIC_CFG_INSTR_TBL_ADDR : Z := 0.
Definition NIC_CFG_INSTR_TBL_SIZE : Z := 32768.
Definition NIC_RSS_TBL_ADDR : Z := NIC_CFG_INSTR_TBL_SIZE.
Definition SLICC_HASH_PAD_NN_IDX : Z := 64.
Definition SLICC_HASH_PAD_SIZE_LW : Z := 40.
Definition VXLAN_PORTS_NN_IDX : Z := SLICC_HASH_PAD_NN_IDX + SLICC_HASH_PAD_SIZE_LW.

Section tables.
Context {B : build} `{NetCfg, Vids, VfCfg, App}.

Definition RSS_TBL_SIZE_LW : Z := NFP_NET_CFG_RSS_ITBL_SZ / 4.
Definition NIC_RSS_TBL_SIZE : Z :=
  NFP_NET_CFG_RSS_ITBL_SZ * NS_PLATFORM_NUM_PORTS (board B) * NFD_MAX_ISL.

(** ** Next-neighbour registers *)

(** [union ct_nn_write_format]: the fields that select the engine and the
    first register, at their widths. *)
Definition nn_engine (me : Z) : Z :=
  wrap 6 (Z.shiftr me 4) * 16 + wrap 4 (Z.land me 0x0f).

(** Write [ws] to the registers of engine [me] from [NN_reg_num] up; one
    command writes 1 to 16 registers of the 128. *)
Definition ct_nn_write (me NN_reg_num : Z) (ws : list Z) : C unit :=
  let n := Z.of_nat (length ws) in
  _ ← require ((1 <=? n) && (n <=? 16) && (wrap 7 NN_reg_num + n <=? 128));
  modify (fun s => s <| nn ::= put (nn_engine me) (wrap 7 NN_reg_num) 1 ws |>).

(** Half of the words with one command, half with a second one. *)
Definition upd_nn_table_instr (xwr_instr : list Z) (start_offset count : Z) : C unit :=
  _ ← require (count <=? 32);
  let half := Z.to_nat (count / 2) in
  for_each cfg_mes_ids (fun me =>
    _ ← ct_nn_write me start_offset (take half xwr_instr);
    ct_nn_write me (start_offset + count / 2) (take half (drop half xwr_instr))).

Definition init_nn_tables : C unit :=
  for_each ((fun i => 16 * i) <$> seqZ 0 8) (fun i =>
    for_each cfg_mes_ids (fun me => ct_nn_write me i (replicate 16 0))).

Definition upd_slicc_hash_table : C unit :=
  let n := SLICC_HASH_PAD_SIZE_LW / 4 in
  for_each ((fun k => n * k) <$> seqZ 0 4) (fun t =>
    upd_nn_table_instr (take (Z.to_nat n) (drop (Z.to_nat t) SLICC_HASH_PAD_DATA))
      (SLICC_HASH_PAD_NN_IDX + t) n).

(** The two 16-bit halves of the words read. *)
Definition halves (l : list Z) : list Z :=
  l ≫= fun w => [u16 (Z.shiftr w 16); u16 w].

Definition cfg_act_upd_vxlan_table (pcie vid : Z) : C Z :=
  let n := Z.to_nat NFP_NET_N_VXLAN_PORTS in
  ws ← mem_read32s (nfd_cfg_bar_base pcie vid + NFP_NET_CFG_VXLAN_PORT) (n / 2);
  let xrd_vxlan_data := halves ws in
  let ports := List.filter truthy xrd_vxlan_data in
  let n_vxlan := length ports in
  _ ← upd_nn_table_instr (ports ++ replicate (n - n_vxlan) 0)
        VXLAN_PORTS_NN_IDX NFP_NET_N_VXLAN_PORTS;
  mret (Z.of_nat n_vxlan).

(** ** Cluster scratch of the worker islands *)

(** [app_isl_ids[isl] >> 4]: only the island, mask out the engine. *)
Definition islands : list Z := (fun id => Z.shiftr id 4) <$> app_isl_ids.

(** Write [ws] at byte address [addr] of every worker island. *)
Definition cls_write (addr : Z) (ws : list Z) : C unit :=
  for_each islands (fun isl =>
    _ ← require ((1 <=? Z.of_nat (length ws)) && (Z.of_nat (length ws) <=? 32));
    modify (fun s => s <| cls ::= put isl addr 4 ws |>)).

Definition wr_rss_tbl (xwr_rss : list Z) (start_offset count : Z) : C unit :=
  _ ← require (count <=? 32);
  cls_write (NIC_RSS_TBL_ADDR + start_offset) (take (Z.to_nat count) xwr_rss).

Definition upd_rx_wire_instr (xwr_instr : list Z) (start_offset count : Z) : C unit :=
  cls_write (NIC_CFG_INSTR_TBL_ADDR + start_offset) (take (Z.to_nat count) xwr_instr).

(** One write for each queue: [num_pcie_q - 1] of them in a loop, then the last. *)
Definition upd_rx_host_instr (xwr_instr : list Z) (start_offset count num_pcie_q : Z)
    : C unit :=
  let wr isl i := modify (fun s => s <| cls ::=
    put isl (NIC_CFG_INSTR_TBL_ADDR + start_offset + i * Z.shiftl NIC_MAX_INSTR 2) 4
      (take (Z.to_nat count) xwr_instr) |>) in
  let last := u32 (num_pcie_q - 1) in
  for_each islands (fun isl =>
    _ ← for_each (range 0 last) (wr isl);
    wr isl last).

Definition upd_rss_table (start_offset bar_base vnic_port : Z) : C unit :=
  if (start_offset + NFP_NET_CFG_RSS_ITBL_SZ >? NIC_RSS_TBL_SIZE) ||
     (vnic_port >? NS_PLATFORM_NUM_PORTS (board B))
  then modify (fun s => s <| cfg_error_rss_cntr ::= fun c => u64 (c + 1) |>)
  else
    rss_rd ← mem_read32s (bar_base + NFP_NET_CFG_RSS_ITBL) (Z.to_nat RSS_TBL_SIZE_LW);
    wr_rss_tbl (swap32 <$> rss_rd) start_offset RSS_TBL_SIZE_LW.

(** ** VLAN member tables in the CTMs of islands 32 to 36 *)

Definition members_words (pcie vlan : Z) (s : nic) : list Z :=
  let m := rd (nic_vlan_to_vnics_map_tbl s) (pcie, vlan) in [u32 (Z.shiftr m 32); u32 m].

Definition upd_ctm_vlan_members (pcie : Z) : C unit :=
  if negb (pcie =? 0) then mret tt
  else
    for_each ((fun k => 64 * k) <$> seqZ 0 512) (fun start_offset =>
      rd_data ← get (fun s =>
        range (start_offset / 8) (start_offset / 8 + 8) ≫= fun v => members_words pcie v s);
      for_each (range 32 37) (fun isl =>
        modify (fun s => s <| vf_vlan_cache ::= put isl start_offset 4 rd_data |>))).

(** ** Free-list buffer sizes *)

Definition fl_buf_idx (pcie vid i : Z) : Z := pcie * 64 + NFD_VID2NATQ vid i.

(** _fl_buf_sz_cache has 64 * 4 words *)
Definition fl_buf_ok (idx : Z) : bool := (0 <=? idx) && (idx <? 256).

Definition read_fl_buf (idx : Z) : C Z := arr_get fl_buf_sz_cache (fl_buf_ok idx) idx.

Definition cfg_act_cache_fl_buf_sz (pcie vid : Z) : C unit :=
  rxb_r ← mem_read32 (nfd_cfg_bar_base pcie vid + NFP_NET_CFG_FLBUFSZ);
  for_each (range 0 (NFD_VID_MAXQS vid)) (fun i =>
    _ ← require (fl_buf_ok (fl_buf_idx pcie vid i));
    modify (fun s => s <| fl_buf_sz_cache ::= <[fl_buf_idx pcie vid i := rxb_r]> |>)).
End tables.

(** * Properties *)

(** ** Helpers *)

Lemma foldl_setter {A} (g : nic -> A) (upd : (A -> A) -> nic -> nic) (f : Z -> A -> A) ks s :
  (forall f1 f2 s, upd f1 (upd f2 s) = upd (fun x => f1 (f2 x)) s) ->
  (forall s, upd (fun x => x) s = s) ->
  foldl (fun s k => upd (f k) s) s ks = upd (fun x => foldl (fun x k => f k x) x ks) s.
Proof.
  intros Hc Hid. revert s. induction ks as [|k ks IH]; intros s; simpl; [by rewrite Hid|].
  by rewrite IH, Hc.
Qed.

(** Writing the same block to several banks, as one update of the field. *)
Lemma foldl_nn ks a ws s :
  foldl (fun s k => s <| nn ::= put k a 1 ws |>) s ks = s <| nn ::= put_all ks a 1 ws |>.
Proof.
  apply (foldl_setter nn (fun f s => s <| nn ::= f |>) (fun k => put k a 1 ws)); first [by intros ?? []|by intros []].
Qed.

Lemma foldl_cls ks a ws s :
  foldl (fun s k => s <| cls ::= put k a 4 ws |>) s ks = s <| cls ::= put_all ks a 4 ws |>.
Proof.
  apply (foldl_setter cls (fun f s => s <| cls ::= f |>) (fun k => put k a 4 ws)); first [by intros ?? []|by intros []].
Qed.

Lemma foldl_ctm ks a ws s :
  foldl (fun s k => s <| vf_vlan_cache ::= put k a 4 ws |>) s ks =
  s <| vf_vlan_cache ::= put_all ks a 4 ws |>.
Proof.
  apply (foldl_setter vf_vlan_cache (fun f s => s <| vf_vlan_cache ::= f |>)
    (fun k => put k a 4 ws)); first [by intros ?? []|by intros []].
Qed.

Section proofs.
Context {B : build} `{NetCfg, Vids, VfCfg, App}.

(** One command writes a block of registers. *)
Lemma run_ct_nn_write me r ws s :
  0 <= r -> (1 <= length ws <= 16)%nat -> r + Z.of_nat (length ws) <= 128 ->
  ct_nn_write me r ws s = Some (tt, s <| nn ::= put (nn_engine me) r 1 ws |>).
Proof.
  intros Hr Hlen Hmax. unfold ct_nn_write.
  replace (wrap 7 r) with r by (symmetry; apply wrap_small; unfold fits; lia).
  unfold require. rewrite (proj2 (Z.leb_le 1 _)), (proj2 (Z.leb_le _ 16)),
    (proj2 (Z.leb_le (r + _) 128)) by lia. done.
Qed.

(** The two commands together write the whole block to every engine. *)
Lemma run_upd_nn_table_instr ws r n s :
  0 <= r -> (1 <= n <= 16)%nat -> length ws = (2 * n)%nat -> r + 2 * Z.of_nat n <= 128 ->
  upd_nn_table_instr ws r (2 * Z.of_nat n) s =
  Some (tt, s <| nn ::= put_all (nn_engine <$> cfg_mes_ids) r 1 ws |>).
Proof.
  intros Hr Hn Hlen Hmax. unfold upd_nn_table_instr, require.
  rewrite (proj2 (Z.leb_le _ 32)) by lia.
  replace (2 * Z.of_nat n / 2) with (Z.of_nat n) by (rewrite Z.mul_comm, Z.div_mul; lia).
  rewrite Nat2Z.id. unfold mbind at 1, M_bind. simpl.
  rewrite (for_each_total _ _ (fun s me => s <| nn ::= put (nn_engine me) r 1 ws |>)).
  - by rewrite <- foldl_nn, foldl_fmap.
  - intros me s' _. unfold mbind, M_bind.
    rewrite run_ct_nn_write by (rewrite ?length_take; lia).
    rewrite run_ct_nn_write by (rewrite ?length_take, ?length_drop; lia).
    f_equal. f_equal. rewrite (take_ge (drop n ws)) by (rewrite length_drop; lia).
    pose proof (put_app (nn_engine me) r 1 (take n ws) (drop n ws) (nn s')) as Hput.
    rewrite take_drop, length_take, Nat.min_l in Hput by lia.
    transitivity (s' <| nn := put (nn_engine me) r 1 ws (nn s') |>); [|by destruct s'].
    rewrite Hput. destruct s'; nic_unfold. do 3 f_equal. lia.
Qed.

(** Every worker engine reads [w] in register [r]. *)
Definition nn_reads (s : nic) (r w : Z) : Prop :=
  Forall (fun me => rd (nn s) (nn_engine me, r) = w) cfg_mes_ids.

Lemma nn_reads_put r ws i w s :
  ws !! i = Some w ->
  nn_reads (s <| nn ::= put_all (nn_engine <$> cfg_mes_ids) r 1 ws |>) (r + Z.of_nat i) w.
Proof.
  intros Hi. apply Forall_forall. intros me Hme%list_elem_of_In. st.
  replace (r + Z.of_nat i) with (r + 1 * Z.of_nat i) by lia.
  apply rd_put_all_in; [lia| |done]. by apply list_elem_of_fmap_2.
Qed.

Lemma nn_reads_put_out r ws r' w s :
  r' < r \/ r + Z.of_nat (length ws) <= r' -> nn_reads s r' w ->
  nn_reads (s <| nn ::= put_all (nn_engine <$> cfg_mes_ids) r 1 ws |>) r' w.
Proof.
  intros Hr. apply Forall_impl. intros me <-. st. apply rd_put_all_out; lia.
Qed.

(** The nonzero ports of the BAR, then zeros. *)
Definition vxlan_ports (pcie vid : Z) (s : nic) : list Z :=
  List.filter truthy (halves (words (nfd_cfg_bar_base pcie vid + NFP_NET_CFG_VXLAN_PORT)
    (Z.to_nat NFP_NET_N_VXLAN_PORTS / 2) s)).

Lemma vxlan_ports_length `{!NetCfgOk} pcie vid s : (length (vxlan_ports pcie vid s) <= 4)%nat.
Proof.
  unfold vxlan_ports. rewrite n_vxlan_ports. etransitivity; [apply List.filter_length_le|].
  by vm_compute.
Qed.

Lemma run_upd_vxlan `{!NetCfgOk} pcie vid s :
  let ports := vxlan_ports pcie vid s in
  cfg_act_upd_vxlan_table pcie vid s =
  Some (Z.of_nat (length ports),
        s <| nn ::= put_all (nn_engine <$> cfg_mes_ids) VXLAN_PORTS_NN_IDX 1
               (ports ++ replicate (4 - length ports) 0) |>).
Proof.
  intros ports. pose proof (vxlan_ports_length pcie vid s) as Hlen.
  unfold cfg_act_upd_vxlan_table, mem_read32s, get. unfold mbind at 1, M_bind at 1.
  fold (vxlan_ports pcie vid s). rewrite n_vxlan_ports. fold ports. fold ports in Hlen.
  change (Z.to_nat 4) with 4%nat. change 4 with (2 * Z.of_nat 2) at 1.
  unfold mbind, M_bind. rewrite run_upd_nn_table_instr; [done|done|lia| |done].
  rewrite length_app, length_replicate. lia.
Qed.

(** the VXLAN ports written in the BAR reach every worker engine: register
    VXLAN_PORTS_NN_IDX + i holds the i-th nonzero port, in the order of the BAR,
    and 0 once they are exhausted.  The function returns how many there are,
    which fits the 3-bit field of RX_WIRE, and no other register changes. *)
Theorem vxlan_table_correct `{!NetCfgOk} pcie vid s :
  exists s', cfg_act_upd_vxlan_table pcie vid s =
      Some (Z.of_nat (length (vxlan_ports pcie vid s)), s') /\
    fits 3 (Z.of_nat (length (vxlan_ports pcie vid s))) /\
    (forall i, (i < 4)%nat ->
       nn_reads s' (VXLAN_PORTS_NN_IDX + Z.of_nat i)
         (default 0 (vxlan_ports pcie vid s !! i))) /\
    (forall r w, r < VXLAN_PORTS_NN_IDX \/ VXLAN_PORTS_NN_IDX + 4 <= r ->
       nn_reads s r w -> nn_reads s' r w).
Proof.
  rewrite run_upd_vxlan. pose proof (vxlan_ports_length pcie vid s) as Hlen.
  set (ports := vxlan_ports pcie vid s) in *.
  eexists. split; [done|]. split; [unfold fits; lia|]. split.
  - intros i Hi. apply nn_reads_put.
    destruct (ports !! i) as [w|] eqn:E; simpl.
    + by apply lookup_app_l_Some.
    + apply lookup_ge_None in E. rewrite lookup_app_r by lia.
      apply lookup_replicate_2. lia.
  - intros r w Hr. apply nn_reads_put_out. rewrite length_app, length_replicate. lia.
Qed.

(** The four blocks of ten words of the hash pad. *)
Lemma run_upd_slicc s :
  length SLICC_HASH_PAD_DATA = 40%nat ->
  upd_slicc_hash_table s =
  Some (tt, foldl (fun s k => s <| nn ::=
    put_all (nn_engine <$> cfg_mes_ids) (SLICC_HASH_PAD_NN_IDX + 10 * k) 1
      (take 10 (drop (Z.to_nat (10 * k)) SLICC_HASH_PAD_DATA)) |>) s (seqZ 0 4)).
Proof.
  intros Hlen. unfold upd_slicc_hash_table.
  rewrite (for_each_total _ _ (fun s t => s <| nn ::=
    put_all (nn_engine <$> cfg_mes_ids) (SLICC_HASH_PAD_NN_IDX + t) 1
      (take 10 (drop (Z.to_nat t) SLICC_HASH_PAD_DATA)) |>)).
  - by rewrite foldl_fmap.
  - intros t s' (k & -> & Hk%elem_of_seqZ)%list_elem_of_fmap.
    change (SLICC_HASH_PAD_SIZE_LW / 4) with (2 * Z.of_nat 5).
    change (Z.to_nat (2 * Z.of_nat 5)) with 10%nat.
    unfold SLICC_HASH_PAD_NN_IDX.
    apply run_upd_nn_table_instr; [lia|lia| |lia].
    rewrite length_take, length_drop. lia.
Qed.

(** Every worker engine gets the whole hash pad: word i of
    SLICC_HASH_PAD_DATA in register SLICC_HASH_PAD_NN_IDX + i, for the 40 words,
    and the registers of the VXLAN port table keep their contents. *)
Theorem slicc_hash_table_correct s :
  length SLICC_HASH_PAD_DATA = 40%nat ->
  exists s', upd_slicc_hash_table s = Some (tt, s') /\
    (forall i w, SLICC_HASH_PAD_DATA !! i = Some w ->
       nn_reads s' (SLICC_HASH_PAD_NN_IDX + Z.of_nat i) w) /\
    (forall r w, VXLAN_PORTS_NN_IDX <= r -> nn_reads s r w -> nn_reads s' r w).
Proof.
  intros Hlen. rewrite run_upd_slicc by done. eexists. split; [done|].
  set (blk k := take 10 (drop (Z.to_nat (10 * k)) SLICC_HASH_PAD_DATA)).
  assert (Hblk : forall k, 0 <= k < 4 -> length (blk k) = 10%nat)
    by (intros k Hk; unfold blk; rewrite length_take, length_drop; lia).
  change (seqZ 0 4) with [0; 1; 2; 3]. simpl foldl. fold (blk 0) (blk 1) (blk 2) (blk 3).
  unfold VXLAN_PORTS_NN_IDX, SLICC_HASH_PAD_NN_IDX, SLICC_HASH_PAD_SIZE_LW. split.
  - intros i w Hi. pose proof (lookup_lt_Some _ _ _ Hi) as Hlt. rewrite Hlen in Hlt.
    assert (Hb : exists k j, 0 <= k < 4 /\ (j < 10)%nat /\ i = (Z.to_nat (10 * k) + j)%nat).
    { exists (Z.of_nat (i / 10)), (i mod 10)%nat.
      pose proof (Nat.div_mod_eq i 10). pose proof (Nat.mod_upper_bound i 10). lia. }
    destruct Hb as (k & j & Hk & Hj & ->).
    assert (Hbj : blk k !! j = Some w).
    { unfold blk. rewrite lookup_take_lt by lia. by rewrite lookup_drop. }
    assert (Hcase : k = 0 \/ k = 1 \/ k = 2 \/ k = 3) by lia.
    replace (64 + Z.of_nat (Z.to_nat (10 * k) + j)) with (64 + 10 * k + Z.of_nat j) by lia.
    destruct Hcase as [-> | [-> | [-> | ->]]];
      repeat first [by apply nn_reads_put
                   | apply nn_reads_put_out; [rewrite Hblk by lia; lia|]].
  - intros r w Hr Hrd. repeat (apply nn_reads_put_out; [rewrite Hblk by lia; lia|]). done.
Qed.

(** *** VLAN member tables *)

(** Blocks of 64 bytes written one after the other do not disturb each other. *)
Lemma rd_blocks ks (D : Z -> list Z) l k j isl w m :
  (forall k, length (D k) = 16%nat) -> isl ∈ ks -> k ∈ l -> D k !! j = Some w ->
  rd (foldl (fun m k => put_all ks (64 * k) 4 (D k) m) m l)
    (isl, 64 * k + 4 * Z.of_nat j) = w.
Proof.
  intros HD Hisl Hk Hw. revert m. induction l as [|k' l IH]; intros m; [by apply elem_of_nil in Hk|].
  simpl. destruct (decide (k ∈ l)) as [Hin|Hout]; [by apply IH|].
  apply elem_of_cons in Hk as [<-|]; [|done]. clear IH.
  pose proof (lookup_lt_Some _ _ _ Hw) as Hj. rewrite HD in Hj.
  assert (Hrest : forall m, rd (foldl (fun m k => put_all ks (64 * k) 4 (D k) m) m l)
    (isl, 64 * k + 4 * Z.of_nat j) = rd m (isl, 64 * k + 4 * Z.of_nat j)).
  { clear m. induction l as [|k' l IH]; intros m; [done|].
    apply not_elem_of_cons in Hout as [Hne Hout]. simpl. rewrite IH by done.
    apply rd_put_all_out; [lia|]. rewrite HD. lia. }
  rewrite Hrest. by apply rd_put_all_in.
Qed.

Definition members_block (s : nic) (k : Z) : list Z :=
  range (8 * k) (8 * k + 8) ≫= fun v => members_words 0 v s.

Lemma range8 a : range a (a + 8) = [a; a+1; a+2; a+3; a+4; a+5; a+6; a+7].
Proof.
  do 8 rewrite range_cons by lia. rewrite range_nil by lia.
  repeat apply (f_equal2 cons); try lia; done.
Qed.

Lemma members_block_length s k : length (members_block s k) = 16%nat.
Proof. unfold members_block. by rewrite range8. Qed.

(** The two words of the entry of [v] are in the block of [v]. *)
Lemma members_block_lookup s v :
  members_block s (v / 8) !! Z.to_nat (2 * (v mod 8)) =
    Some (u32 (Z.shiftr (rd (nic_vlan_to_vnics_map_tbl s) (0, v)) 32)) /\
  members_block s (v / 8) !! Z.to_nat (2 * (v mod 8) + 1) =
    Some (u32 (rd (nic_vlan_to_vnics_map_tbl s) (0, v))).
Proof.
  unfold members_block. rewrite range8. pose proof (Z.mod_pos_bound v 8).
  assert (Hv : v = 8 * (v / 8) + v mod 8) by (apply Z.div_mod; lia).
  set (q := v / 8) in *. set (r := v mod 8) in *. rewrite Hv.
  assert (Hr : r = 0 \/ r = 1 \/ r = 2 \/ r = 3 \/ r = 4 \/ r = 5 \/ r = 6 \/ r = 7) by lia.
  rewrite <- (Z.add_0_r (8 * q)) at 1.
  repeat (destruct Hr as [-> | Hr]; [by rewrite ?Z.add_0_r|]). by rewrite Hr, ?Z.add_0_r.
Qed.

Definition ctm_step (s : nic) (off : Z) : nic :=
  s <| vf_vlan_cache ::= put_all (range 32 37) off 4
    (range (off / 8) (off / 8 + 8) ≫= fun v => members_words 0 v s) |>.

Lemma foldl_ctm_step l s :
  foldl ctm_step s ((fun k => 64 * k) <$> l) = s <| vf_vlan_cache ::= fun m =>
    foldl (fun m k => put_all (range 32 37) (64 * k) 4 (members_block s k) m) m l |>.
Proof.
  revert s. induction l as [|k l IH]; intros s; [by destruct s|].
  rewrite fmap_cons. simpl foldl. rewrite IH. unfold ctm_step at 1 2, members_block.
  replace (64 * k / 8) with (8 * k) by (replace (64 * k) with (8 * k * 8) by lia; by rewrite Z.div_mul).
  by destruct s.
Qed.

Lemma run_upd_ctm s :
  upd_ctm_vlan_members 0 s = Some (tt, s <| vf_vlan_cache ::= fun m =>
    foldl (fun m k => put_all (range 32 37) (64 * k) 4 (members_block s k) m) m (seqZ 0 512) |>).
Proof.
  rewrite <- foldl_ctm_step. unfold upd_ctm_vlan_members. cbn [negb Z.eqb].
  apply for_each_total. intros off s' _. unfold mbind, M_bind, get.
  rewrite (for_each_total _ _ (fun s isl => s <| vf_vlan_cache ::= put isl off 4
    (range (off / 8) (off / 8 + 8) ≫= fun v => members_words 0 v s') |>)) by done.
  by rewrite foldl_ctm.
Qed.

Lemma upd_ctm_only f s :
  s <| vf_vlan_cache ::= f |> =
  s <| vf_vlan_cache := vf_vlan_cache (s <| vf_vlan_cache ::= f |>) |>.
Proof. by destruct s. Qed.

(** The copies agree with the table. *)
Definition ctm_synced (s : nic) : Prop :=
  forall isl vlan, 32 <= isl <= 36 -> 0 <= vlan < 4096 ->
    let m := rd (nic_vlan_to_vnics_map_tbl s) (0, vlan) in
    rd (vf_vlan_cache s) (isl, 8 * vlan) = u32 (Z.shiftr m 32) /\
    rd (vf_vlan_cache s) (isl, 8 * vlan + 4) = u32 m.

Lemma upd_ctm_spec s :
  exists s', upd_ctm_vlan_members 0 s = Some (tt, s') /\
    s' = s <| vf_vlan_cache := vf_vlan_cache s' |> /\ ctm_synced s'.
Proof.
  rewrite run_upd_ctm. eexists. split; [reflexivity|]. split; [apply upd_ctm_only|].
  intros isl v Hisl Hv. destruct (members_block_lookup s v) as [Hhi Hlo].
  assert (Hin : v / 8 ∈ seqZ 0 512).
  { apply elem_of_seqZ. pose proof (Z.div_lt_upper_bound v 8 512). pose proof (Z.div_pos v 8). lia. }
  generalize dependent (seqZ 0 512). intros l Hin. st.
  pose proof (Z.div_mod v 8 ltac:(lia)) as Hdm. pose proof (Z.mod_pos_bound v 8 ltac:(lia)).
  assert (Hr : isl ∈ range 32 37) by (apply elem_of_range; lia).
  split.
  - replace (8 * v) with (64 * (v / 8) + 4 * Z.of_nat (Z.to_nat (2 * (v mod 8)))) by lia.
    apply rd_blocks; assumption || apply members_block_length.
  - replace (8 * v + 4) with (64 * (v / 8) + 4 * Z.of_nat (Z.to_nat (2 * (v mod 8) + 1))) by lia.
    apply rd_blocks; assumption || apply members_block_length.
Qed.

(** C40: the copies of the VLAN member table in the CTMs of islands 32 to 36 are
    made whole: after upd_ctm_vlan_members(0) the two words at byte offset
    8 * vlan of each of them are the upper and lower half of the table entry of
    that VLAN, for the 4096 VLANs, and no other memory has changed. *)
Theorem ctm_vlan_members_correct s :
  exists s', upd_ctm_vlan_members 0 s = Some (tt, s') /\
    s' = s <| vf_vlan_cache := vf_vlan_cache s' |> /\
    forall isl vlan, 32 <= isl <= 36 -> 0 <= vlan < 4096 ->
      let m := rd (nic_vlan_to_vnics_map_tbl s) (0, vlan) in
      rd (vf_vlan_cache s') (isl, 8 * vlan) = u32 (Z.shiftr m 32) /\
      rd (vf_vlan_cache s') (isl, 8 * vlan + 4) = u32 m.
Proof.
  destruct (upd_ctm_spec s) as (s' & Hrun & Hs' & Hsync). exists s'. split; [done|].
  split; [done|]. intros isl vlan Hisl Hv. specialize (Hsync isl vlan Hisl Hv).
  assert (Htbl : nic_vlan_to_vnics_map_tbl s' = nic_vlan_to_vnics_map_tbl s) by (rewrite Hs'; by st).
  cbv zeta in Hsync. by rewrite Htbl in Hsync.
Qed.

(** *** RSS indirection tables *)

Lemma run_cls_write addr ws s :
  (1 <= length ws <= 32)%nat ->
  cls_write addr ws s = Some (tt, s <| cls ::= put_all islands addr 4 ws |>).
Proof.
  intros Hlen. unfold cls_write. rewrite <- foldl_cls. apply for_each_total.
  intros isl s' _. unfold require.
  by rewrite (proj2 (Z.leb_le 1 _)), (proj2 (Z.leb_le _ 32)) by lia.
Qed.

(** The entries of the BAR of a vNIC, byte-swapped. *)
Definition rss_itbl (bar_base : Z) (s : nic) : list Z :=
  swap32 <$> words (bar_base + NFP_NET_CFG_RSS_ITBL) 32 s.

Lemma run_upd_rss_table `{!NetCfgOk} start_offset bar_base port s :
  start_offset + 128 <= NIC_RSS_TBL_SIZE -> port <= NS_PLATFORM_NUM_PORTS (board B) ->
  upd_rss_table start_offset bar_base port s =
  Some (tt, s <| cls ::= put_all islands (NIC_RSS_TBL_ADDR + start_offset) 4
                           (rss_itbl bar_base s) |>).
Proof.
  intros Hoff Hport. unfold upd_rss_table, RSS_TBL_SIZE_LW. rewrite itbl_sz.
  destruct (Z.gtb_spec (start_offset + 128) NIC_RSS_TBL_SIZE); [lia|].
  destruct (Z.gtb_spec port (NS_PLATFORM_NUM_PORTS (board B))); [lia|]. cbn [orb].
  unfold mem_read32s. runs. change (128 / 4) with 32. change (Z.to_nat 32) with 32%nat.
  fold (rss_itbl bar_base s). unfold wr_rss_tbl. rewrite run_require by done.
  assert (Hlen : length (rss_itbl bar_base s) = 32%nat)
    by (unfold rss_itbl; by rewrite length_fmap, length_words).
  rewrite take_ge by (rewrite Hlen; done). apply run_cls_write. lia.
Qed.

(** upd_rss_table either counts an error and writes nothing (when the table
    would end past the RSS area or the vNIC is no port of the board), or copies
    the 32 byte-swapped words of the BAR's indirection table to the same offset
    of the RSS area of every worker island; it never writes outside that area,
    so never into the instruction table below it. *)
Theorem upd_rss_table_correct `{!NetCfgOk} start_offset bar_base port s :
  0 <= start_offset ->
  exists s', upd_rss_table start_offset bar_base port s = Some (tt, s') /\
    (forall isl a, a < NIC_RSS_TBL_ADDR \/ NIC_RSS_TBL_ADDR + NIC_RSS_TBL_SIZE <= a ->
       rd (cls s') (isl, a) = rd (cls s) (isl, a)) /\
    (cfg_error_rss_cntr s' = cfg_error_rss_cntr s /\
     (forall isl i w, isl ∈ islands -> rss_itbl bar_base s !! i = Some w ->
        rd (cls s') (isl, NIC_RSS_TBL_ADDR + start_offset + 4 * Z.of_nat i) = w) \/
     (start_offset + 128 > NIC_RSS_TBL_SIZE \/ port > NS_PLATFORM_NUM_PORTS (board B)) /\
     s' = s <| cfg_error_rss_cntr := u64 (cfg_error_rss_cntr s + 1) |>).
Proof.
  intros H0'.
  destruct (decide (start_offset + 128 <= NIC_RSS_TBL_SIZE /\
                    port <= NS_PLATFORM_NUM_PORTS (board B))) as [[Hoff Hport]|Hbad].
  - rewrite run_upd_rss_table by done. eexists. split; [done|]. split; [|left; split; [done|]].
    + intros isl a Ha. st. apply rd_put_all_out; [lia|].
      unfold rss_itbl. rewrite length_fmap, length_words. lia.
    + intros isl i w Hisl Hi. st. by apply rd_put_all_in.
  - unfold upd_rss_table. rewrite itbl_sz. replace (_ || _) with true.
    + eexists. split; [done|]. split; [done|right]. split; [lia|by destruct s].
    + symmetry. destruct (Z.gtb_spec (start_offset + 128) NIC_RSS_TBL_SIZE); [done|].
      destruct (Z.gtb_spec port (NS_PLATFORM_NUM_PORTS (board B))); [done|lia].
Qed.

(** *** The cache of buffer sizes *)

Definition fl_bufs (pcie vid : Z) (s : nic) : gmap Z Z :=
  foldl (fun m i => <[fl_buf_idx pcie vid i :=
      rd (emem s) (nfd_cfg_bar_base pcie vid + NFP_NET_CFG_FLBUFSZ)]> m)
    (fl_buf_sz_cache s) (range 0 (NFD_VID_MAXQS vid)).

Lemma fl_buf_ok_vid `{!VidsOk B} pcie vid i :
  0 <= pcie < NFD_MAX_ISL -> 0 <= vid < NVNICS B NFD_MAX_CTRL ->
  0 <= i < NFD_VID_MAXQS vid -> fl_buf_ok (fl_buf_idx pcie vid i) = true.
Proof.
  intros Hp Hv Hi. pose proof (max_isl_range (B:=B)). unfold fl_buf_ok, fl_buf_idx.
  destruct (natq_range (B:=B) vid i Hv Hi) as [Hq _]. 
  rewrite (proj2 (Z.leb_le 0 _)), (proj2 (Z.ltb_lt _ 256)) by lia. done.
Qed.

Lemma run_cache_fl_buf_sz `{!VidsOk B} pcie vid s :
  0 <= pcie < NFD_MAX_ISL -> 0 <= vid < NVNICS B NFD_MAX_CTRL ->
  cfg_act_cache_fl_buf_sz pcie vid s =
  Some (tt, s <| fl_buf_sz_cache := fl_bufs pcie vid s |>).
Proof.
  intros Hp Hv. unfold cfg_act_cache_fl_buf_sz, mem_read32, get. unfold mbind at 1, M_bind at 1.
  set (v := rd (emem s) _).
  rewrite (for_each_total _ _ (fun s i => s <| fl_buf_sz_cache ::=
    <[fl_buf_idx pcie vid i := v]> |>)).
  - do 2 f_equal. rewrite (foldl_setter fl_buf_sz_cache (fun f s => s <| fl_buf_sz_cache ::= f |>)
      (fun i => <[fl_buf_idx pcie vid i := v]>)); [by destruct s|by intros ?? []|by intros []].
  - intros i s' Hi%elem_of_range. unfold mbind, M_bind, require.
    by rewrite fl_buf_ok_vid.
Qed.
End proofs.

(** ** Checks on concrete inputs *)

Import Demo.

(** PF 0 has the VXLAN ports 4789, 0, 8472, 0 in its BAR. *)
Definition vxlan_state : nic :=
  nic0 <| emem := <[0x180000 + 0x60 := Z.shiftl 4789 16]>
                  (<[0x180000 + 0x64 := Z.shiftl 8472 16]> ∅) |>.

Lemma vxlan_table_correct_witness :
  vxlan_ports 0 48 vxlan_state = [4789; 8472] /\
  exists s', cfg_act_upd_vxlan_table 0 48 vxlan_state =
      Some (Z.of_nat (length (vxlan_ports 0 48 vxlan_state)), s') /\
    nn_reads s' (VXLAN_PORTS_NN_IDX + Z.of_nat 1) 8472.
Proof.
  split; [by vm_compute|].
  destruct (vxlan_table_correct 0 48 vxlan_state) as (s' & Hrun & _ & Hin & _).
  exists s'. split; [exact Hrun|]. apply (Hin 1%nat). lia.
Defined.

Lemma slicc_hash_table_correct_witness :
  exists s', upd_slicc_hash_table nic0 = Some (tt, s') /\
    nn_reads s' (SLICC_HASH_PAD_NN_IDX + Z.of_nat 39) 0xbae3d338.
Proof.
  destruct (slicc_hash_table_correct nic0) as (s' & Hrun & Hin & _); [by vm_compute|].
  exists s'. split; [exact Hrun|]. apply Hin. by vm_compute.
Defined.

Lemma upd_rss_table_correct_witness :
  exists s', upd_rss_table 128 0x188000 1 nic0 = Some (tt, s') /\
    rd (cls s') (32, 100) = rd (cls nic0) (32, 100).
Proof.
  destruct (upd_rss_table_correct 128 0x188000 1 nic0) as (s' & Hrun & Hout & _); [lia|].
  exists s'. split; [exact Hrun|]. apply Hout. left. by vm_compute.
Defined.

Lemma ctm_vlan_members_correct_witness :
  exists s', upd_ctm_vlan_members 0 nic0 = Some (tt, s') /\
    rd (vf_vlan_cache s') (33, 8 * 7) = 0.
Proof.
  destruct (ctm_vlan_members_correct nic0) as (s' & Hrun & _ & Hin).
  exists s'. split; [exact Hrun|]. by destruct (Hin 33 7 ltac:(lia) ltac:(lia)).
Defined.
