(* ===== verification/ActionList.v ===== *)
(** * Action lists: apps/nic/app_config_instr.h and the append functions of
    apps/nic/app_config_tables.c

    An action list is the program that the workers run for the packets of one
    queue: up to sixteen 32-bit words, an instruction word for each action and
    parameter words after some of them.  The first part models the words and
    the [cfg_act_append_*] functions; the second part gives the abstract view,
    a list of [action]s, with its assembler and its decoder. *)

From S2P Require Import Prelude Platform UserCfg Nfd Machine Tables.

(** ** Instruction words *)

(** [enum instruction_ops] *)
Inductive instruction_ops : Set :=
  | INSTR_DROP | INSTR_RX_WIRE | INSTR_DST_MAC_MATCH | INSTR_CHECKSUM | INSTR_RSS
  | INSTR_TX_HOST | INSTR_RX_HOST | INSTR_TX_WIRE | INSTR_CMSG | INSTR_EBPF
  | INSTR_POP_VLAN | INSTR_PUSH_VLAN | INSTR_SRC_MAC_MATCH | INSTR_VEB_LOOKUP
  | INSTR_POP_PKT | INSTR_PUSH_PKT | INSTR_TX_VLAN | INSTR_L2_SWITCH_WIRE
  | INSTR_L2_SWITCH_HOST.

Definition op_num (o : instruction_ops) : Z :=
  match o with
  | INSTR_DROP => 0 | INSTR_RX_WIRE => 1 | INSTR_DST_MAC_MATCH => 2
  | INSTR_CHECKSUM => 3 | INSTR_RSS => 4 | INSTR_TX_HOST => 5 | INSTR_RX_HOST => 6
  | INSTR_TX_WIRE => 7 | INSTR_CMSG => 8 | INSTR_EBPF => 9 | INSTR_POP_VLAN => 10
  | INSTR_PUSH_VLAN => 11 | INSTR_SRC_MAC_MATCH => 12 | INSTR_VEB_LOOKUP => 13
  | INSTR_POP_PKT => 14 | INSTR_PUSH_PKT => 15 | INSTR_TX_VLAN => 16
  | INSTR_L2_SWITCH_WIRE => 17 | INSTR_L2_SWITCH_HOST => 18
  end.

(** [union instruction_format]: op in the 15 upper bits, the pipeline bit,
    16 bits of arguments. *)
Definition instr_op (w : Z) : Z := bf_get 17 15 w.
Definition instr_pipeline (w : Z) : Z := bf_get 16 1 w.
Definition instr_args (w : Z) : Z := bf_get 0 16 w.
Definition set_op (v w : Z) : Z := bf_set 17 15 v w.
Definition set_pipeline (v w : Z) : Z := bf_set 16 1 v w.
Definition set_args (v w : Z) : Z := bf_set 0 16 v w.

(** [action_list_t] *)
Record action_list := mk_action_list {
  instr : list Z; count : Z; prev : Z
}.

(** [uint32_t cfg_act_map[]]: offsets of the actions in the code store *)
Definition cfg_act_map : list Z := seqZ 0 32.

Section append.
Context {B : build} `{NetCfg, Vids, VfCfg, App}.

Definition cfg_act_init : C action_list :=
  mret (mk_action_list (replicate 16 0) 0 0).

(** [acts->instr[acts->count++] = f(acts->instr[acts->count])] *)
Definition push_word (f : Z -> Z) (acts : action_list) : C action_list :=
  w ← of_option (instr acts !! Z.to_nat (count acts));
  mret (acts <| instr ::= <[Z.to_nat (count acts) := f w]> |> <| count := u32 (count acts + 1) |>).

Definition cfg_act_append (op args : Z) (acts : action_list) : C action_list :=
  m0 ← of_option (cfg_act_map !! Z.to_nat (u16 op));
  m1 ← of_option (cfg_act_map !! Z.to_nat (u16 op + 1));
  let precursor_act := u32 (2 * m0 - m1) in
  let p := b2z (truthy (count acts) && (prev acts =? precursor_act)) in
  push_word (fun w => set_args (u16 args) (set_op m0 (set_pipeline p w)))
    (acts <| prev := m0 |>).

Definition append (o : instruction_ops) (args : Z) : action_list -> C action_list :=
  cfg_act_append (op_num o) args.

(** A parameter word. *)
Definition append_value (v : Z) : action_list -> C action_list :=
  push_word (fun _ => u32 v).

Definition cfg_act_append_drop : action_list -> C action_list := append INSTR_DROP 0.

Definition cfg_act_append_rx_host (pcie vid outer_csum : Z) (acts : action_list)
    : C action_list :=
  mtu ← mem_read32 (nfd_cfg_bar_base pcie vid + NFP_NET_CFG_MTU);
  let instr_rx_host :=
    bf_set 0 1 outer_csum (bf_set 1 1 outer_csum
      (bf_set 2 14 (mtu + NET_ETH_LEN + 1) 0)) in
  append INSTR_RX_HOST instr_rx_host acts.

Definition cfg_act_append_veb_lookup (pcie vid promisc mac_match : Z) (acts : action_list)
    : C action_list :=
  if truthy promisc then
    acts ← append INSTR_VEB_LOOKUP 0 acts;
    append_value 0 acts
  else
    mac ← (if truthy mac_match
           then mem_read32s (nfd_cfg_bar_base pcie vid + NFP_NET_CFG_MACADDR) 2
           else mret [0; 0]);
    mac0 ← of_option (mac !! 0%nat);
    mac1 ← of_option (mac !! 1%nat);
    acts ← append INSTR_VEB_LOOKUP (Z.shiftr mac0 16) acts;
    append_value (Z.lor (u32 (Z.shiftl mac0 16)) (Z.shiftr mac1 16)) acts.

Definition cfg_act_append_dmac_match (mac_hi16 mac_lo32 : Z) (acts : action_list)
    : C action_list :=
  acts ← append INSTR_DST_MAC_MATCH mac_hi16 acts;
  append_value mac_lo32 acts.

Definition cfg_act_append_dmac_match_bar (pcie vid : Z) (acts : action_list)
    : C action_list :=
  mac ← mem_read32s (nfd_cfg_bar_base pcie vid + NFP_NET_CFG_MACADDR) 2;
  mac0 ← of_option (mac !! 0%nat);
  mac1 ← of_option (mac !! 1%nat);
  cfg_act_append_dmac_match (Z.shiftr mac0 16)
    (Z.lor (u32 (Z.shiftl mac0 16)) (Z.shiftr mac1 16)) acts.

Definition cfg_act_append_smac_match (mac_hi32 mac_lo16 : Z) (acts : action_list)
    : C action_list :=
  acts ← append INSTR_SRC_MAC_MATCH mac_lo16 acts;
  append_value mac_hi32 acts.

(** The words of the mailbox entry of a VF. *)
Definition read_sriov_cfg (pcie vf : Z) : C (list Z) :=
  mem_read32s (vf_cfg_base_vf pcie vf) (Z.to_nat (sizeof_sriov_cfg / 4)).

Definition cfg_act_append_smac_match_sriov (pcie vid : Z) (acts : action_list)
    : C action_list :=
  sriov_cfg_data ← read_sriov_cfg pcie (NFD_VID2VF vid);
  cfg_act_append_smac_match (sc_mac_hi sriov_cfg_data) (sc_mac_lo sriov_cfg_data) acts.

Definition ACTION_RSS_IPV6_TCP_BIT : Z := 0.
Definition ACTION_RSS_IPV6_UDP_BIT : Z := 1.
Definition ACTION_RSS_IPV4_TCP_BIT : Z := 2.
Definition ACTION_RSS_IPV4_UDP_BIT : Z := 3.

(** The four L4 flags of the instruction from those of the BAR. *)
Definition rss_cfg_proto (rss_ctrl : Z) : Z :=
  let flag f bit p := if has rss_ctrl f then Z.lor p (Z.shiftl 1 bit) else p in
  flag NFP_NET_CFG_RSS_IPV6_UDP ACTION_RSS_IPV6_UDP_BIT
    (flag NFP_NET_CFG_RSS_IPV6_TCP ACTION_RSS_IPV6_TCP_BIT
      (flag NFP_NET_CFG_RSS_IPV4_UDP ACTION_RSS_IPV4_UDP_BIT
        (flag NFP_NET_CFG_RSS_IPV4_TCP ACTION_RSS_IPV4_TCP_BIT 0))).

Definition rss_max_queue (rx_rings0 rx_rings1 : Z) : Z :=
  if truthy (u32 (Z.lnot rx_rings0)) then ffs (u32 (Z.lnot rx_rings0))
  else 32 + ffs (u32 (Z.lnot rx_rings1)) - 1.

(** Every bit of the argument half of the instruction word is assigned. *)
Definition cfg_act_append_rss (pcie vid update_map v1_meta : Z) (acts : action_list)
    : C action_list :=
  let bar_base := nfd_cfg_bar_base pcie vid in
  let '(_, vnic) := NFD_VID2VNIC vid in
  let rss_tbl_idx := vnic + pcie * NS_PLATFORM_NUM_PORTS (board B) in
  _ ← when (truthy update_map)
        (upd_rss_table (rss_tbl_idx * NFP_NET_CFG_RSS_ITBL_SZ) bar_base vnic);
  rss_ctrl ← mem_read32 (bar_base + NFP_NET_CFG_RSS_CTRL);
  rss_key0 ← mem_read32 (bar_base + NFP_NET_CFG_RSS_KEY);
  rx_rings0 ← mem_read32 (bar_base + NFP_NET_CFG_RXRS_ENABLE);
  rx_rings1 ← mem_read32 (bar_base + NFP_NET_CFG_RXRS_ENABLE + 4);
  let instr_rss :=
    bf_set 7 5 rss_tbl_idx (bf_set 6 1 v1_meta
      (bf_set 0 6 (rss_max_queue rx_rings0 rx_rings1)
        (bf_set 12 4 (rss_cfg_proto rss_ctrl) 0))) in
  acts ← append INSTR_RSS instr_rss acts;
  append_value rss_key0 acts.

Definition cfg_act_append_push_pkt : action_list -> C action_list := append INSTR_PUSH_PKT 0.
Definition cfg_act_append_pop_pkt : action_list -> C action_list := append INSTR_POP_PKT 0.

Definition cfg_act_append_checksum (outer inner complete : Z) (acts : action_list)
    : C action_list :=
  let instr_csum :=
    bf_set 8 1 complete (bf_set 2 1 inner (bf_set 3 1 inner
      (bf_set 0 1 outer (bf_set 1 1 outer 0)))) in
  append INSTR_CHECKSUM instr_csum acts.

Definition cfg_act_append_rx_wire (pcie vid vxlan nvgre rxcsum : Z) (acts : action_list)
    : C action_list :=
  w ← (if truthy vxlan then
         n ← cfg_act_upd_vxlan_table pcie vid;
         mret (bf_set 6 7 VXLAN_PORTS_NN_IDX (bf_set 3 3 n 0))
       else mret 0);
  append INSTR_RX_WIRE (bf_set 0 1 rxcsum (bf_set 1 1 nvgre w)) acts.

(** The loop of cfg_act_remove_strip_vlan over [0 .. count - 2]; the words
    that follow a removed POP_VLAN move down by one. *)
Definition remove_strip_vlan_step (x : Z * list Z) (i : Z) : C (Z * list Z) :=
  let '(found, l) := x in
  if truthy found then
    w ← of_option (l !! Z.to_nat (i + 1));
    mret (found, <[Z.to_nat i := w]> l)
  else
    w ← of_option (l !! Z.to_nat i);
    if instr_op w =? op_num INSTR_POP_VLAN then
      w' ← of_option (l !! Z.to_nat (i + 1));
      mret (1, <[Z.to_nat i := set_pipeline 0 w']> l)
    else mret (found, l).

Definition cfg_act_remove_strip_vlan (acts : action_list) : C action_list :=
  x ← for_fold (range 0 (u32 (count acts - 1))) (0, instr acts) remove_strip_vlan_step;
  mret (acts <| instr := x.2 |> <| count := u32 (count acts - x.1) |>).

Definition cfg_act_append_strip_vlan : action_list -> C action_list := append INSTR_POP_VLAN 0.

Definition cfg_act_append_push_vlan (vlan_tag : Z) : action_list -> C action_list :=
  append INSTR_PUSH_VLAN vlan_tag.

(** The three spare bits of the local union are never assigned. *)
Definition cfg_act_append_tx_wire (tmq cont multicast : Z) (acts : action_list)
    : C action_list :=
  instr_tx_wire ← get stale_tx_wire;
  let instr_tx_wire :=
    bf_set 14 1 multicast (bf_set 15 1 cont (bf_set 0 11 tmq instr_tx_wire)) in
  append INSTR_TX_WIRE instr_tx_wire acts.

Definition cfg_act_append_tx_host (pcie vid cont multicast : Z) (acts : action_list)
    : C action_list :=
  flbuf_sz ← read_fl_buf (fl_buf_idx pcie vid 0);
  let min_rxb := Z.shiftr flbuf_sz 8 in
  let instr_tx_host :=
    bf_set 8 6 (if min_rxb >? 63 then 63 else min_rxb)
      (bf_set 14 1 multicast (bf_set 15 1 cont
        (bf_set 0 6 (NFD_VID2NATQ vid 0) (bf_set 6 2 pcie 0)))) in
  append INSTR_TX_HOST instr_tx_host acts.

Definition cfg_act_append_tx_vlan : action_list -> C action_list := append INSTR_TX_VLAN 0.

Definition cfg_act_append_bpf (vnic : Z) (acts : action_list) : C action_list :=
  append INSTR_EBPF (u32 (NFD_BPF_START_OFF + vnic * NFD_BPF_MAX_LEN)) acts.

Definition cfg_act_append_cmsg : action_list -> C action_list := append INSTR_CMSG 0.
End append.

(** * The abstract view *)

(** What one action does, with the fields of its words. *)
Inductive action : Type :=
  | Drop
  | RxWire (vxlan_nn_idx parse_vxlans : Z) (nvgre prop_csum : bool)
  | DstMacMatch (mac : Z)
  | Checksum (outer inner complete : bool)
  | Rss (cfg_proto tbl_idx : Z) (v1_meta : bool) (max_queue key : Z)
  | TxHost (cont multicast : bool) (min_rxb pcie queue : Z)
  | RxHost (mtu : Z) (csum_outer : bool)
  | TxWire (cont multicast : bool) (spare tm_queue : Z)
  | Cmsg
  | Ebpf (uc_addr : Z)
  | PopVlan
  | PushVlan (tag : Z)
  | SrcMacMatch (mac : Z)
  | VebLookup (mac : Z)
  | PopPkt
  | PushPkt
  | TxVlan.

#[export] Instance action_eq_dec : EqDecision action.
Proof. solve_decision. Defined.

Definition op_of (a : action) : instruction_ops :=
  match a with
  | Drop => INSTR_DROP | RxWire _ _ _ _ => INSTR_RX_WIRE
  | DstMacMatch _ => INSTR_DST_MAC_MATCH | Checksum _ _ _ => INSTR_CHECKSUM
  | Rss _ _ _ _ _ => INSTR_RSS | TxHost _ _ _ _ _ => INSTR_TX_HOST
  | RxHost _ _ => INSTR_RX_HOST | TxWire _ _ _ _ => INSTR_TX_WIRE
  | Cmsg => INSTR_CMSG | Ebpf _ => INSTR_EBPF | PopVlan => INSTR_POP_VLAN
  | PushVlan _ => INSTR_PUSH_VLAN | SrcMacMatch _ => INSTR_SRC_MAC_MATCH
  | VebLookup _ => INSTR_VEB_LOOKUP | PopPkt => INSTR_POP_PKT
  | PushPkt => INSTR_PUSH_PKT | TxVlan => INSTR_TX_VLAN
  end.

Definition fields (l : list (Z * Z)) : Z :=
  foldr (fun f w => Z.lor (Z.shiftl f.2 f.1) w) 0 l.

(** The 16 bits of arguments, as the instruction formats lay them out. *)
Definition args_of (a : action) : Z :=
  match a with
  | RxWire idx n nvgre csum => fields [(6, idx); (3, n); (1, b2z nvgre); (0, b2z csum)]
  | DstMacMatch mac | VebLookup mac => Z.shiftr mac 32
  | Checksum o i c =>
      fields [(8, b2z c); (3, b2z i); (2, b2z i); (1, b2z o); (0, b2z o)]
  | Rss proto idx v1 maxq _ => fields [(12, proto); (7, idx); (6, b2z v1); (0, maxq)]
  | TxHost cont mc rxb pcie q =>
      fields [(15, b2z cont); (14, b2z mc); (8, rxb); (6, pcie); (0, q)]
  | RxHost mtu csum => fields [(2, mtu); (1, b2z csum); (0, b2z csum)]
  | TxWire cont mc spare q => fields [(15, b2z cont); (14, b2z mc); (11, spare); (0, q)]
  | Ebpf addr => addr
  | PushVlan tag => tag
  | SrcMacMatch mac => Z.land mac 0xffff
  | _ => 0
  end.

(** The parameter words. *)
Definition params_of (a : action) : list Z :=
  match a with
  | DstMacMatch mac | VebLookup mac => [Z.land mac 0xffffffff]
  | SrcMacMatch mac => [Z.shiftr mac 16]
  | Rss _ _ _ _ key => [key]
  | _ => []
  end.

(** The fields fit where they go. *)
Definition wf_action (a : action) : Prop :=
  match a with
  | RxWire idx n _ _ => fits 7 idx /\ fits 3 n
  | DstMacMatch mac | VebLookup mac | SrcMacMatch mac => fits 48 mac
  | Rss proto idx _ maxq key => fits 4 proto /\ fits 5 idx /\ fits 6 maxq /\ fits 32 key
  | TxHost _ _ rxb pcie q => fits 6 rxb /\ fits 2 pcie /\ fits 6 q
  | RxHost mtu _ => fits 14 mtu
  | TxWire _ _ spare q => fits 3 spare /\ fits 11 q
  | Ebpf x | PushVlan x => fits 16 x
  | _ => True
  end.

Definition instr_word (op : Z) (pipeline : bool) (args : Z) : Z :=
  fields [(17, op); (16, b2z pipeline); (0, args)].

Definition opcode (a : action) : Z := op_num (op_of a).

(** The words of a list of actions; [prev] is the operation before it, if any.
    The pipeline bit says that the action follows the one that precedes it in
    the code store. *)
Fixpoint assemble_from (prev : option Z) (l : list action) : list Z :=
  match l with
  | [] => []
  | a :: l' =>
      let pipelined := match prev with Some p => p =? opcode a - 1 | None => false end in
      instr_word (opcode a) pipelined (args_of a) :: params_of a ++
      assemble_from (Some (opcode a)) l'
  end.

Definition assemble : list action -> list Z := assemble_from None.

Definition size (l : list action) : nat := sum_list_with (fun a => S (length (params_of a))) l.

(** An action list that holds the words [ws]. *)
Definition of_words (ws : list Z) (p : Z) : action_list :=
  {| instr := ws ++ replicate (16 - length ws) 0; count := Z.of_nat (length ws); prev := p |}.

Definition last_op (p : option Z) (l : list action) : option Z :=
  foldl (fun _ a => Some (opcode a)) p l.

(** The list that the append functions have built so far. *)
Definition repr (l : list action) : action_list :=
  of_words (assemble l) (default 0 (last_op None l)).

(** ** The append functions in the abstract view *)

Lemma op_num_range o : 0 <= op_num o <= 18.
Proof. by destruct o. Qed.

Lemma cfg_act_map_lookup i : 0 <= i < 32 -> cfg_act_map !! Z.to_nat i = Some i.
Proof.
  intros Hi. apply lookup_seqZ. lia.
Qed.

Lemma instr_word_set op p args :
  fits 15 op -> fits 16 args ->
  set_args args (set_op op (set_pipeline (b2z p) 0)) = instr_word op p args.
Proof.
  intros Ho Ha. assert (Hp : fits 1 (b2z p)) by (by destruct p).
  unfold set_args, set_op, set_pipeline, bf_set, instr_word, fields. simpl. zbits.
Qed.

Lemma of_words_count ws p : (length ws <= 16)%nat ->
  u32 (count (of_words ws p) + 1) = Z.of_nat (length ws + 1).
Proof.
  intros. unfold of_words; simpl. rewrite wrap_small; [lia|]. unfold fits. lia.
Qed.

Section repr.
Context {B : build} `{NetCfg, Vids, VfCfg, App}.

Lemma run_push_word f ws p s :
  (length ws < 16)%nat ->
  push_word f (of_words ws p) s = Some (of_words (ws ++ [f 0]) p, s).
Proof.
  intros Hlen. unfold push_word, of_words. simpl. rewrite Nat2Z.id.
  assert (Hrep : replicate (16 - length ws) 0 = 0 :: replicate (16 - (length ws + 1)) 0).
  { replace (16 - length ws)%nat with (S (16 - (length ws + 1))) by lia. done. }
  rewrite (run_of_option _ 0) by (rewrite Hrep, lookup_app_r, Nat.sub_diag by lia; done).
  unfold mret, M_ret. do 2 f_equal. st_unfold. rewrite length_app. simpl.
  f_equal.
  - rewrite Hrep, insert_app_r_alt, Nat.sub_diag by lia. simpl. by rewrite <- app_assoc.
  - rewrite wrap_small; [lia|]. unfold fits. lia.
Qed.

Lemma run_append o args ws p s :
  fits 16 args -> 0 <= p <= 18 -> (length ws < 16)%nat ->
  append o args (of_words ws p) s =
  Some (of_words (ws ++ [instr_word (op_num o)
    (truthy (Z.of_nat (length ws)) && (p =? op_num o - 1)) args]) (op_num o), s).
Proof.
  intros Ha Hp Hlen. pose proof (op_num_range o) as Ho. unfold append, cfg_act_append.
  replace (u16 (op_num o)) with (op_num o) by (symmetry; apply wrap_small; unfold fits; lia).
  rewrite (run_of_option _ (op_num o)) by (apply cfg_act_map_lookup; lia).
  rewrite (run_of_option _ (op_num o + 1)) by (apply cfg_act_map_lookup; lia). cbv zeta.
  change ((of_words ws p) <| prev := op_num o |>) with (of_words ws (op_num o)).
  rewrite run_push_word by done. do 4 f_equal.
  rewrite (wrap_small 16 args) by done. rewrite instr_word_set by (done || (unfold fits; lia)).
  f_equal. simpl. f_equal.
  replace (2 * op_num o - (op_num o + 1)) with (op_num o - 1) by lia.
  destruct (decide (op_num o = 0)) as [->|].
  - change (u32 (0 - 1)) with 0xffffffff. destruct (Z.eqb_spec p 0xffffffff), (Z.eqb_spec p (0 - 1)); lia || done.
  - by rewrite wrap_small by (unfold fits; lia).
Qed.

Lemma run_append_value v ws p s :
  fits 32 v -> (length ws < 16)%nat ->
  append_value v (of_words ws p) s = Some (of_words (ws ++ [v]) p, s).
Proof.
  intros Hv Hlen. unfold append_value. rewrite run_push_word by done.
  by rewrite wrap_small.
Qed.
End repr.

Lemma assemble_from_snoc p l a :
  assemble_from p (l ++ [a]) = assemble_from p l ++ assemble_from (last_op p l) [a].
Proof.
  revert p. induction l as [|b l IH]; intros p; [done|].
  simpl. rewrite IH, <- !app_assoc. done.
Qed.

Lemma last_op_snoc p l a : last_op p (l ++ [a]) = Some (opcode a).
Proof. unfold last_op. by rewrite foldl_app. Qed.

Lemma length_assemble p l : length (assemble_from p l) = size l.
Proof.
  revert p. induction l as [|a l IH]; intros p; [done|].
  simpl. by rewrite length_app, IH.
Qed.

Lemma last_op_range l : 0 <= default 0 (last_op None l) <= 18.
Proof.
  destruct l as [|a l _] using rev_ind; [done|]. rewrite last_op_snoc. apply op_num_range.
Qed.

(** The pipeline bit that the code computes is the abstract one. *)
Lemma pipelined_eq l a :
  truthy (Z.of_nat (length (assemble l))) && (default 0 (last_op None l) =? opcode a - 1) =
  match last_op None l with Some p => p =? opcode a - 1 | None => false end.
Proof.
  destruct l as [|b l _] using rev_ind; [done|]. rewrite last_op_snoc.
  unfold assemble. rewrite length_assemble. unfold size. rewrite sum_list_with_app. simpl.
  replace (truthy _) with true; [done|]. symmetry. unfold truthy.
  destruct (Z.eqb_spec (Z.of_nat (sum_list_with (fun a0 => S (length (params_of a0))) l +
    S (length (params_of b) + 0))) 0); [lia|done].
Qed.

(** Replace each boolean field by a one-bit value. *)
Ltac bool_bits :=
  repeat match goal with b : bool |- _ =>
    assert (fits 1 (b2z b)) by (by destruct b);
    generalize dependent (b2z b); clear b; intros
  end.

Lemma args_of_fits a : wf_action a -> fits 16 (args_of a).
Proof.
  destruct a; simpl; intros; repeat match goal with H : _ /\ _ |- _ => destruct H end;
    bool_bits; unfold fields; simpl;
    repeat (apply fits_lor; [lia| |]);
    try (apply fits_shiftl; [lia|]; eapply fits_mono; [|eassumption]; lia);
    try (eapply fits_mono; [|eassumption]; lia); try (by unfold fits).
  all: first [by apply (fits_shiftr 16 32) | apply fits_land_r; [lia|by unfold fits]].
Qed.

Lemma size_snoc l a : size (l ++ [a]) = (size l + S (length (params_of a)))%nat.
Proof. unfold size. rewrite sum_list_with_app. simpl. lia. Qed.

Lemma repr_snoc l a :
  repr (l ++ [a]) =
  of_words (assemble l ++ instr_word (opcode a)
      (truthy (Z.of_nat (length (assemble l))) && (default 0 (last_op None l) =? opcode a - 1))
      (args_of a) :: params_of a) (opcode a).
Proof.
  unfold repr, assemble. rewrite last_op_snoc, assemble_from_snoc. simpl.
  by rewrite app_nil_r, <- pipelined_eq.
Qed.

Section append_actions.
Context {B : build} `{NetCfg, Vids, VfCfg, App}.

Lemma push_0 a l s :
  params_of a = [] -> wf_action a -> (size (l ++ [a]) <= 16)%nat ->
  append (op_of a) (args_of a) (repr l) s = Some (repr (l ++ [a]), s).
Proof.
  intros Hp Hwf Hs. rewrite size_snoc in Hs. unfold repr at 1.
  rewrite run_append; [|by apply args_of_fits|apply last_op_range|].
  - by rewrite repr_snoc, Hp.
  - unfold assemble. rewrite length_assemble. lia.
Qed.

Lemma push_1 a v l s :
  params_of a = [v] -> wf_action a -> fits 32 v -> (size (l ++ [a]) <= 16)%nat ->
  (acts ← append (op_of a) (args_of a) (repr l); append_value v acts) s =
  Some (repr (l ++ [a]), s).
Proof.
  intros Hp Hwf Hv Hs. rewrite size_snoc, Hp in Hs. simpl in Hs. unfold repr at 1.
  assert (Hlen : length (assemble l) = size l) by apply length_assemble.
  erewrite run_some; [|apply run_append; [by apply args_of_fits|apply last_op_range|lia]].
  rewrite run_append_value; [|done|rewrite length_app; simpl; lia].
  by rewrite repr_snoc, Hp, <- app_assoc.
Qed.

(** The bit-field assignments of each append function give the arguments of
    its action. *)
Lemma rx_host_args mtu c :
  bf_set 0 1 (b2z c) (bf_set 1 1 (b2z c) (bf_set 2 14 mtu 0)) =
  args_of (RxHost (wrap 14 mtu) c).
Proof. unfold bf_set, args_of, fields; simpl; bool_bits; zbits. Qed.

Lemma checksum_args o i c :
  bf_set 8 1 (b2z c) (bf_set 2 1 (b2z i) (bf_set 3 1 (b2z i)
      (bf_set 0 1 (b2z o) (bf_set 1 1 (b2z o) 0)))) =
  args_of (Checksum o i c).
Proof. by destruct o, i, c. Qed.

Lemma tx_wire_args tmq cont mc st :
  u16 (bf_set 14 1 (b2z mc) (bf_set 15 1 (b2z cont) (bf_set 0 11 tmq st))) =
  args_of (TxWire cont mc (bf_get 11 3 st) (wrap 11 tmq)).
Proof. unfold bf_set, bf_get, args_of, fields; simpl; bool_bits; zbits. Qed.

Lemma tx_host_args rxb mc cont q pcie :
  bf_set 8 6 rxb (bf_set 14 1 (b2z mc) (bf_set 15 1 (b2z cont) (bf_set 0 6 q (bf_set 6 2 pcie 0)))) =
  args_of (TxHost cont mc (wrap 6 rxb) (wrap 2 pcie) (wrap 6 q)).
Proof. unfold bf_set, args_of, fields; simpl; bool_bits; zbits. Qed.

Lemma rx_wire_args idx n nvgre csum :
  bf_set 0 1 (b2z csum) (bf_set 1 1 (b2z nvgre) (bf_set 6 7 idx (bf_set 3 3 n 0))) =
  args_of (RxWire (wrap 7 idx) (wrap 3 n) nvgre csum).
Proof. unfold bf_set, args_of, fields; simpl; bool_bits; zbits. Qed.

Lemma rx_wire_args_none nvgre csum :
  bf_set 0 1 (b2z csum) (bf_set 1 1 (b2z nvgre) 0) = args_of (RxWire 0 0 nvgre csum).
Proof. by destruct nvgre, csum. Qed.

Lemma rss_args idx v1 q proto :
  bf_set 7 5 idx (bf_set 6 1 (b2z v1) (bf_set 0 6 q (bf_set 12 4 proto 0))) =
  args_of (Rss (wrap 4 proto) (wrap 5 idx) v1 (wrap 6 q) 0).
Proof. unfold bf_set, args_of, fields; simpl; bool_bits; zbits. Qed.

(** *** Each append function appends its action *)

(** The fields read from the BAR of a vNIC and from the VF mailbox. *)
Definition bar_word (pcie vid off : Z) (s : nic) : Z :=
  rd (emem s) (nfd_cfg_bar_base pcie vid + off).

Definition bar_mac (pcie vid : Z) (s : nic) : Z :=
  Z.shiftr (dword (nfd_cfg_bar_base pcie vid + NFP_NET_CFG_MACADDR) s) 16.

(** Memory words are 32 bits wide. *)
Definition wf_mem (m : gmap Z Z) : Prop := forall a, fits 32 (rd m a).
Definition wf_emem (s : nic) : Prop := wf_mem (emem s).

Lemma wf_mem_empty : wf_mem ∅.
Proof. by intros a. Qed.

Lemma insert_fits a v m : fits 32 v -> wf_mem m -> wf_mem (<[a := v]> m).
Proof.
  intros Hv Hm x. destruct (decide (a = x)) as [->|Hne]; [by rewrite rd_insert_eq|].
  rewrite rd_insert_ne by congruence. apply Hm.
Qed.

Definition sriov_cfg (pcie vid : Z) (s : nic) : list Z :=
  words (vf_cfg_base_vf pcie (NFD_VID2VF vid)) (Z.to_nat (sizeof_sriov_cfg / 4)) s.

Definition sriov_mac (pcie vid : Z) (s : nic) : Z :=
  Z.lor (Z.shiftl (sc_mac_hi (sriov_cfg pcie vid s)) 16) (sc_mac_lo (sriov_cfg pcie vid s)).

Definition rx_host_action (pcie vid : Z) (csum : bool) (s : nic) : action :=
  RxHost (wrap 14 (bar_word pcie vid NFP_NET_CFG_MTU s + NET_ETH_LEN + 1)) csum.

Definition min_rxb (pcie vid : Z) (s : nic) : Z :=
  Z.min 63 (Z.shiftr (rd (fl_buf_sz_cache s) (fl_buf_idx pcie vid 0)) 8).

Definition tx_host_action (pcie vid : Z) (cont mc : bool) (s : nic) : action :=
  TxHost cont mc (wrap 6 (min_rxb pcie vid s)) (wrap 2 pcie) (wrap 6 (NFD_VID2NATQ vid 0)).

(** What the spare bits of the next TX_WIRE are. *)
Definition tx_wire_spare (s : nic) : Z := bf_get 11 3 (stale_tx_wire s).

Definition tx_wire_action (spare tmq : Z) (cont mc : bool) : action :=
  TxWire cont mc (wrap 3 spare) (wrap 11 tmq).

Definition rss_action (pcie vid : Z) (v1 : bool) (s : nic) : action :=
  Rss (wrap 4 (rss_cfg_proto (bar_word pcie vid NFP_NET_CFG_RSS_CTRL s)))
    (wrap 5 (snd (NFD_VID2VNIC vid) + pcie * NS_PLATFORM_NUM_PORTS (board B))) v1
    (wrap 6 (rss_max_queue (bar_word pcie vid NFP_NET_CFG_RXRS_ENABLE s)
               (bar_word pcie vid (NFP_NET_CFG_RXRS_ENABLE + 4) s)))
    (bar_word pcie vid NFP_NET_CFG_RSS_KEY s).

Definition bpf_action (vnic : Z) : action :=
  Ebpf (u16 (u32 (NFD_BPF_START_OFF + vnic * NFD_BPF_MAX_LEN))).

Lemma append_u16 o args acts s : append o (u16 args) acts s = append o args acts s.
Proof. unfold append, cfg_act_append. by rewrite wrap_idem. Qed.

Lemma append_rx_host pcie vid c l s :
  (size (l ++ [rx_host_action pcie vid c s]) <= 16)%nat ->
  cfg_act_append_rx_host pcie vid (b2z c) (repr l) s =
  Some (repr (l ++ [rx_host_action pcie vid c s]), s).
Proof.
  intros Hs. unfold cfg_act_append_rx_host, mem_read32. runs. cbv zeta.
  rewrite rx_host_args. apply (push_0 (rx_host_action pcie vid c s)); [done| |done].
  by apply wrap_fits.
Qed.

Lemma append_checksum o i c l s :
  (size (l ++ [Checksum o i c]) <= 16)%nat ->
  cfg_act_append_checksum (b2z o) (b2z i) (b2z c) (repr l) s =
  Some (repr (l ++ [Checksum o i c]), s).
Proof.
  intros Hs. unfold cfg_act_append_checksum. cbv zeta. rewrite checksum_args.
  by apply (push_0 (Checksum o i c)).
Qed.

Lemma append_tx_wire tmq cont mc l s :
  (size (l ++ [tx_wire_action (tx_wire_spare s) tmq cont mc]) <= 16)%nat ->
  cfg_act_append_tx_wire tmq (b2z cont) (b2z mc) (repr l) s =
  Some (repr (l ++ [tx_wire_action (tx_wire_spare s) tmq cont mc]), s).
Proof.
  intros Hs. unfold cfg_act_append_tx_wire. runs. cbv zeta. rewrite <- append_u16, tx_wire_args.
  rewrite <- (wrap_small 3 (bf_get 11 3 _)) by by apply bf_get_fits.
  apply (push_0 (tx_wire_action (tx_wire_spare s) tmq cont mc)); [done| |done].
  split; by apply wrap_fits.
Qed.

Lemma append_tx_host `{!VidsOk B} pcie vid cont mc l s :
  0 <= pcie < NFD_MAX_ISL -> 0 <= vid < NVNICS B NFD_MAX_CTRL -> 0 < NFD_VID_MAXQS vid ->
  (size (l ++ [tx_host_action pcie vid cont mc s]) <= 16)%nat ->
  cfg_act_append_tx_host pcie vid (b2z cont) (b2z mc) (repr l) s =
  Some (repr (l ++ [tx_host_action pcie vid cont mc s]), s).
Proof.
  intros Hp Hv Hq Hs. unfold cfg_act_append_tx_host, read_fl_buf, arr_get.
  rewrite run_assoc, run_require by (apply fl_buf_ok_vid; done || lia). runs. cbv zeta.
  rewrite tx_host_args.
  replace (if _ >? 63 then 63 else _) with (min_rxb pcie vid s).
  - apply (push_0 (tx_host_action pcie vid cont mc s)); [done| |done].
    repeat split; by apply wrap_fits.
  - unfold min_rxb. destruct (Z.gtb_spec (Z.shiftr (rd (fl_buf_sz_cache s)
      (fl_buf_idx pcie vid 0)) 8) 63); lia.
Qed.

Lemma append_bpf vnic l s :
  (size (l ++ [bpf_action vnic]) <= 16)%nat ->
  cfg_act_append_bpf vnic (repr l) s = Some (repr (l ++ [bpf_action vnic]), s).
Proof.
  intros Hs. unfold cfg_act_append_bpf. rewrite <- append_u16.
  apply (push_0 (bpf_action vnic)); [done| |done]. by apply wrap_fits.
Qed.

(** The RSS instruction also writes the RSS table of the vNIC when asked to. *)
Definition rss_tbl_idx (pcie vid : Z) : Z :=
  snd (NFD_VID2VNIC vid) + pcie * NS_PLATFORM_NUM_PORTS (board B).

Definition rss_written (u : bool) (pcie vid : Z) (s : nic) : nic :=
  if u then s <| cls ::= put_all islands (NIC_RSS_TBL_ADDR + rss_tbl_idx pcie vid * 128) 4
                           (rss_itbl (nfd_cfg_bar_base pcie vid) s) |>
  else s.

Lemma run_rss_update `{!NetCfgOk, !VidsOk B} u pcie vid n s :
  0 <= pcie < NFD_MAX_ISL -> NFD_VID2VNIC vid = (NFD_VNIC_TYPE_PF, n) ->
  0 <= n < NFD_MAX_PFS B ->
  when (truthy (b2z u)) (upd_rss_table
    ((n + pcie * NS_PLATFORM_NUM_PORTS (board B)) * NFP_NET_CFG_RSS_ITBL_SZ)
    (nfd_cfg_bar_base pcie vid) n) s = Some (tt, rss_written u pcie vid s).
Proof.
  intros Hp Hv Hn. destruct u; [|done]. simpl. unfold rss_tbl_idx. rewrite itbl_sz, Hv.
  cbn [snd]. pose proof (max_isl_range (B:=B)).
  assert (Hports : NS_PLATFORM_NUM_PORTS (board B) = NFD_MAX_PFS B) by done.
  rewrite Hports. apply run_upd_rss_table; rewrite ?Hports.
  - unfold NIC_RSS_TBL_SIZE. rewrite itbl_sz, Hports.
    nia.
  - lia.
Qed.

Lemma append_rss `{!NetCfgOk, !VidsOk B} u pcie vid n v1 l s :
  wf_emem s -> 0 <= pcie < NFD_MAX_ISL ->
  NFD_VID2VNIC vid = (NFD_VNIC_TYPE_PF, n) -> 0 <= n < NFD_MAX_PFS B ->
  (size (l ++ [rss_action pcie vid v1 s]) <= 16)%nat ->
  cfg_act_append_rss pcie vid (b2z u) (b2z v1) (repr l) s =
  Some (repr (l ++ [rss_action pcie vid v1 s]), rss_written u pcie vid s).
Proof.
  intros Hm Hp Hv Hn Hs. unfold cfg_act_append_rss, mem_read32.
  rewrite Hv. cbv zeta.
  erewrite run_some; [|exact (run_rss_update u pcie vid n s Hp Hv Hn)].
  assert (He : emem (rss_written u pcie vid s) = emem s) by (by destruct u).
  runs. rewrite He, rss_args.
  change (wrap 5 (n + _)) with (wrap 5 (snd (NFD_VNIC_TYPE_PF, n) + pcie * NS_PLATFORM_NUM_PORTS (board B))).
  rewrite <- Hv, <- Z.add_assoc.
  apply (push_1 (rss_action pcie vid v1 s) (bar_word pcie vid NFP_NET_CFG_RSS_KEY s));
    [done| |apply Hm|done].
  repeat split; try by apply wrap_fits. all: apply Hm.
Qed.

(** VXLAN ports in the NN registers, for RX_WIRE. *)
Definition vxlan_written (v : bool) (pcie vid : Z) (s : nic) : nic :=
  if v then s <| nn ::= put_all (nn_engine <$> cfg_mes_ids) VXLAN_PORTS_NN_IDX 1
    (vxlan_ports pcie vid s ++ replicate (4 - length (vxlan_ports pcie vid s)) 0) |>
  else s.

Definition rx_wire_action (pcie vid : Z) (vxlan nvgre csum : bool) (s : nic) : action :=
  if vxlan then RxWire VXLAN_PORTS_NN_IDX (Z.of_nat (length (vxlan_ports pcie vid s))) nvgre csum
  else RxWire 0 0 nvgre csum.

Lemma append_rx_wire `{!NetCfgOk} pcie vid vxlan nvgre csum l s :
  (size (l ++ [rx_wire_action pcie vid vxlan nvgre csum s]) <= 16)%nat ->
  cfg_act_append_rx_wire pcie vid (b2z vxlan) (b2z nvgre) (b2z csum) (repr l) s =
  Some (repr (l ++ [rx_wire_action pcie vid vxlan nvgre csum s]), vxlan_written vxlan pcie vid s).
Proof.
  intros Hs. unfold cfg_act_append_rx_wire, rx_wire_action in *. destruct vxlan;
    [change (truthy (b2z true)) with true|change (truthy (b2z false)) with false]; cbv iota.
  - runs. erewrite run_some; [|apply run_upd_vxlan]. runs. rewrite rx_wire_args.
    pose proof (vxlan_ports_length pcie vid s) as Hlen.
    rewrite (wrap_small 7), (wrap_small 3) by (unfold fits; done || lia).
    apply (push_0 (RxWire _ _ nvgre csum)); [done| |done]. split; unfold fits; [done|lia].
  - runs. rewrite rx_wire_args_none. by apply (push_0 (RxWire 0 0 nvgre csum)).
Qed.

(** *** MAC actions *)

Lemma bar_mac_fits pcie vid s : wf_emem s -> fits 48 (bar_mac pcie vid s).
Proof.
  intros Hm. unfold bar_mac, dword. apply fits_shiftr; [lia|lia|].
  apply fits_lor; [lia| |apply (fits_mono 32); [lia|apply Hm]].
  apply fits_shiftl; [lia|]. apply Hm.
Qed.

Lemma bar_mac_words pcie vid s : wf_emem s ->
  let a := nfd_cfg_bar_base pcie vid + NFP_NET_CFG_MACADDR in
  Z.shiftr (rd (emem s) a) 16 = Z.shiftr (bar_mac pcie vid s) 32 /\
  Z.lor (u32 (Z.shiftl (rd (emem s) a) 16)) (Z.shiftr (rd (emem s) (a + 4)) 16) =
  Z.land (bar_mac pcie vid s) 0xffffffff.
Proof.
  intros Hm a. pose proof (Hm a) as H1'. pose proof (Hm (a + 4)) as H2'.
  unfold bar_mac, dword. fold a. change 0xffffffff with (Z.ones 32).
  generalize dependent (rd (emem s) a). generalize dependent (rd (emem s) (a + 4)).
  intros x Hx y Hy. split; zbits.
Qed.

Definition veb_lookup_action (pcie vid : Z) (promisc mac_match : bool) (s : nic) : action :=
  VebLookup (if promisc then 0 else if mac_match then bar_mac pcie vid s else 0).

Lemma append_veb_lookup pcie vid promisc mac_match l s :
  wf_emem s -> (size (l ++ [veb_lookup_action pcie vid promisc mac_match s]) <= 16)%nat ->
  cfg_act_append_veb_lookup pcie vid (b2z promisc) (b2z mac_match) (repr l) s =
  Some (repr (l ++ [veb_lookup_action pcie vid promisc mac_match s]), s).
Proof.
  intros Hm Hs. unfold cfg_act_append_veb_lookup, veb_lookup_action in *.
  destruct promisc; [by apply (push_1 (VebLookup 0) 0)|].
  change (truthy (b2z false)) with false. cbv iota.
  destruct mac_match; [|by apply (push_1 (VebLookup 0) 0)].
  change (truthy (b2z true)) with true. cbv iota. unfold mem_read32s, words. runs.
  simpl seq. cbn [fmap list_fmap].
  erewrite !run_of_option by done. cbv beta.
  replace (nfd_cfg_bar_base pcie vid + NFP_NET_CFG_MACADDR + 4 * Z.of_nat 0)
    with (nfd_cfg_bar_base pcie vid + NFP_NET_CFG_MACADDR) by lia.
  change (4 * Z.of_nat 1) with 4.
  destruct (bar_mac_words pcie vid s Hm) as [-> ->].
  apply (push_1 (VebLookup (bar_mac pcie vid s))); [done|by apply bar_mac_fits| |done].
  apply fits_land_r; [lia|]. by unfold fits.
Qed.

Lemma append_dmac_match_bar pcie vid l s :
  wf_emem s -> (size (l ++ [DstMacMatch (bar_mac pcie vid s)]) <= 16)%nat ->
  cfg_act_append_dmac_match_bar pcie vid (repr l) s =
  Some (repr (l ++ [DstMacMatch (bar_mac pcie vid s)]), s).
Proof.
  intros Hm Hs. unfold cfg_act_append_dmac_match_bar, mem_read32s, words. runs.
  simpl seq. cbn [fmap list_fmap]. erewrite !run_of_option by done.
  replace (nfd_cfg_bar_base pcie vid + NFP_NET_CFG_MACADDR + 4 * Z.of_nat 0)
    with (nfd_cfg_bar_base pcie vid + NFP_NET_CFG_MACADDR) by lia.
  change (4 * Z.of_nat 1) with 4.
  destruct (bar_mac_words pcie vid s Hm) as [-> ->].
  apply (push_1 (DstMacMatch (bar_mac pcie vid s))); [done|by apply bar_mac_fits| |done].
  apply fits_land_r; [lia|]. by unfold fits.
Qed.

Lemma append_smac_match_sriov `{!VfCfgOk} pcie vid l s :
  (size (l ++ [SrcMacMatch (sriov_mac pcie vid s)]) <= 16)%nat ->
  cfg_act_append_smac_match_sriov pcie vid (repr l) s =
  Some (repr (l ++ [SrcMacMatch (sriov_mac pcie vid s)]), s).
Proof.
  intros Hs. unfold cfg_act_append_smac_match_sriov, read_sriov_cfg, mem_read32s,
    cfg_act_append_smac_match. runs. fold (sriov_cfg pcie vid s).
  pose proof (sc_mac_hi_fits (sriov_cfg pcie vid s)) as Hhi.
  pose proof (sc_mac_lo_fits (sriov_cfg pcie vid s)) as Hlo.
  assert (Hargs : args_of (SrcMacMatch (sriov_mac pcie vid s)) = sc_mac_lo (sriov_cfg pcie vid s)).
  { unfold sriov_mac; simpl. change 65535 with (Z.ones 16). zbits. }
  assert (Hpar : params_of (SrcMacMatch (sriov_mac pcie vid s)) = [sc_mac_hi (sriov_cfg pcie vid s)]).
  { unfold sriov_mac; simpl. f_equal. zbits. }
  rewrite <- Hargs. apply (push_1 (SrcMacMatch _)); [done| |done|done].
  unfold sriov_mac; simpl. apply fits_lor; [lia| |eapply fits_mono; [|exact Hlo]; lia].
  apply fits_shiftl; [lia|]. eapply fits_mono; [|exact Hhi]; lia.
Qed.

Lemma append_push_vlan tag l s :
  fits 16 tag -> (size (l ++ [PushVlan tag]) <= 16)%nat ->
  cfg_act_append_push_vlan tag (repr l) s = Some (repr (l ++ [PushVlan tag]), s).
Proof. intros. by apply (push_0 (PushVlan tag)). Qed.

Lemma append_drop l s : (size (l ++ [Drop]) <= 16)%nat ->
  cfg_act_append_drop (repr l) s = Some (repr (l ++ [Drop]), s).
Proof. intros. by apply (push_0 Drop). Qed.

Lemma append_cmsg l s : (size (l ++ [Cmsg]) <= 16)%nat ->
  cfg_act_append_cmsg (repr l) s = Some (repr (l ++ [Cmsg]), s).
Proof. intros. by apply (push_0 Cmsg). Qed.

Lemma append_push_pkt l s : (size (l ++ [PushPkt]) <= 16)%nat ->
  cfg_act_append_push_pkt (repr l) s = Some (repr (l ++ [PushPkt]), s).
Proof. intros. by apply (push_0 PushPkt). Qed.

Lemma append_pop_pkt l s : (size (l ++ [PopPkt]) <= 16)%nat ->
  cfg_act_append_pop_pkt (repr l) s = Some (repr (l ++ [PopPkt]), s).
Proof. intros. by apply (push_0 PopPkt). Qed.

Lemma append_strip_vlan l s : (size (l ++ [PopVlan]) <= 16)%nat ->
  cfg_act_append_strip_vlan (repr l) s = Some (repr (l ++ [PopVlan]), s).
Proof. intros. by apply (push_0 PopVlan). Qed.

Lemma append_tx_vlan l s : (size (l ++ [TxVlan]) <= 16)%nat ->
  cfg_act_append_tx_vlan (repr l) s = Some (repr (l ++ [TxVlan]), s).
Proof. intros. by apply (push_0 TxVlan). Qed.
End append_actions.

(** * Decoding, as the workers read the words *)

Definition bit (i w : Z) : bool := Z.testbit w i.

(** The [INSTR_..._bf] macros of app_config_instr.h name a word and the first
    and last bit of a field of it. *)
Definition bf (hi lo w : Z) : Z := bf_get lo (hi - lo + 1) w.

Definition decode_one (op args : Z) (rest : list Z) : option (action * list Z) :=
  match op, rest with
  | 0, _ => Some (Drop, rest)
  | 1, _ => Some (RxWire (bf 12 6 args) (bf 5 3 args) (bit 1 args) (bit 0 args), rest)
  | 2, lo :: rest => Some (DstMacMatch (Z.lor (Z.shiftl args 32) lo), rest)
  | 3, _ => Some (Checksum (bit 0 args) (bit 2 args) (bit 8 args), rest)
  | 4, key :: rest =>
      Some (Rss (bf 15 12 args) (bf 11 7 args) (bit 6 args) (bf 5 0 args) key, rest)
  | 5, _ => Some (TxHost (bit 15 args) (bit 14 args) (bf 13 8 args) (bf 7 6 args) (bf 5 0 args), rest)
  | 6, _ => Some (RxHost (bf 15 2 args) (bit 0 args), rest)
  | 7, _ => Some (TxWire (bit 15 args) (bit 14 args) (bf 13 11 args) (bf 10 0 args), rest)
  | 8, _ => Some (Cmsg, rest)
  | 9, _ => Some (Ebpf args, rest)
  | 10, _ => Some (PopVlan, rest)
  | 11, _ => Some (PushVlan args, rest)
  | 12, hi :: rest => Some (SrcMacMatch (Z.lor (Z.shiftl hi 16) args), rest)
  | 13, lo :: rest => Some (VebLookup (Z.lor (Z.shiftl args 32) lo), rest)
  | 14, _ => Some (PopPkt, rest)
  | 15, _ => Some (PushPkt, rest)
  | 16, _ => Some (TxVlan, rest)
  | _, _ => None
  end.

Fixpoint decode (fuel : nat) (ws : list Z) : option (list action) :=
  match fuel, ws with
  | _, [] => Some []
  | O, _ => None
  | S fuel, w :: rest =>
      '(a, rest) ← decode_one (instr_op w) (instr_args w) rest;
      cons a <$> decode fuel rest
  end.

Lemma instr_word_fields op p args : fits 15 op -> fits 16 args ->
  instr_op (instr_word op p args) = op /\ instr_args (instr_word op p args) = args.
Proof.
  intros Ho Ha. unfold instr_op, instr_args, bf_get, instr_word, fields. simpl.
  bool_bits. split; zbits.
Qed.

Lemma b2z_testbit b i : Z.testbit (b2z b) i = b && (i =? 0).
Proof. destruct b; [|by rewrite Z.testbit_0_l]. simpl. destruct (Z.eqb_spec i 0) as [->|].
  - done.
  - destruct (Z.lt_ge_cases i 0); [by rewrite Z.testbit_neg_r|].
    change 1 with (2 ^ 0). rewrite Z.pow2_bits_false by lia. done.
Qed.

(** A field of several bits, or a flag, of the arguments. *)
Ltac field_eq := unfold bf, bf_get, args_of, fields; simpl; bool_bits; zbits.

Ltac flag_eq :=
  unfold bit, args_of, fields; cbn [foldr fst snd];
  rewrite !Z.lor_spec, !testbit_shiftl, ?b2z_testbit, Z.testbit_0_l; zbits_index; simpl;
  rewrite ?andb_true_r, ?andb_false_r, ?orb_false_r; done.

Ltac mac_eq :=
  unfold args_of; change 4294967295 with (Z.ones 32); change 0xffff with (Z.ones 16); zbits.

Lemma decode_one_args a rest :
  wf_action a -> decode_one (opcode a) (args_of a) (params_of a ++ rest) = Some (a, rest).
Proof.
  destruct a; simpl wf_action; intros; unfold opcode, op_of, op_num, decode_one, params_of;
    repeat match goal with H : _ /\ _ |- _ => destruct H end; simpl app;
    try done; f_equal; f_equal; f_equal; solve [field_eq | flag_eq | mac_eq].
Qed.

Lemma opcode_fits a : fits 15 (opcode a).
Proof. pose proof (op_num_range (op_of a)). unfold opcode, fits. lia. Qed.

Lemma decode_assemble_from p l n :
  Forall wf_action l -> (length l <= n)%nat -> decode n (assemble_from p l) = Some l.
Proof.
  intros Hl. revert p n. induction Hl as [|a l Ha Hl IH]; intros p n Hn; [by destruct n|].
  destruct n as [|n]; simpl in Hn; [lia|]. cbn [assemble_from decode].
  destruct (instr_word_fields (opcode a)
    match p with Some p => p =? opcode a - 1 | None => false end (args_of a)) as [-> ->];
    [apply opcode_fits|by apply args_of_fits|].
  rewrite decode_one_args by done. simpl. by rewrite IH by lia.
Qed.

(** Reading an assembled action list back gives the actions. *)
Lemma decode_assemble l n :
  Forall wf_action l -> (length l <= n)%nat -> decode n (assemble l) = Some l.
Proof. apply decode_assemble_from. Qed.

(** The words that are written for an action list. *)
Definition written (acts : action_list) : list Z := take (Z.to_nat (count acts)) (instr acts).

Lemma written_repr l : written (repr l) = assemble l.
Proof.
  unfold written, repr, of_words. simpl. by rewrite Nat2Z.id, take_app_length.
Qed.

Lemma length_le_size l : (length l <= size l)%nat.
Proof.
  unfold size. induction l as [|a l IH]; [done|]. simpl. lia.
Qed.

Lemma decode_written l : Forall wf_action l -> (size l <= 16)%nat ->
  decode 16 (written (repr l)) = Some l.
Proof.
  intros Hwf Hs. rewrite written_repr. apply decode_assemble; [done|].
  pose proof (length_le_size l). lia.
Qed.
