(* ===== verification/Builders.v ===== *)
(** * The action lists of each kind of queue: the [cfg_act_build_*] functions
    of apps/nic/app_config_tables.c

    Each function is given with the list of actions it is meant to build, the
    pipelines of the comment at the top of the C file, and the theorem that it
    builds exactly that list. *)

From S2P Require Import Prelude Platform UserCfg Nfd Machine Tables ActionList.

Section builders.
Context {B : build} `{NetCfg, Vids, VfCfg, App}.

(** [if (b) f(acts);] *)
Definition act_if (b : bool) (f : action_list -> C action_list) (acts : action_list)
    : C action_list :=
  if b then f acts else mret acts.

(** [(word & flag) ? 1 : 0] *)
Definition flag (word mask : Z) : Z := b2z (has word mask).

Definition NBI_TM_QID_LO (port : Z) : Z := NS_PLATFORM_NBI_TM_QID_LO (board B) port.

Definition cfg_act_build_ctrl (pcie vid : Z) : C action_list :=
  acts ← cfg_act_init;
  let '(type, _) := NFD_VID2VNIC vid in
  if bool_decide (type <> NFD_VNIC_TYPE_CTRL) then mret acts
  else
    acts ← cfg_act_append_rx_host pcie vid 0 acts;
    cfg_act_append_cmsg acts.

Definition cfg_act_build_pf (pcie vid veb_up control update : Z) : C action_list :=
  acts ← cfg_act_init;
  let '(type, vnic) := NFD_VID2VNIC vid in
  if bool_decide (type <> NFD_VNIC_TYPE_PF) then mret acts
  else
    let csum_o := flag control NFP_NET_CFG_CTRL_TXCSUM in
    let csum_i := b2z (truthy csum_o && has control NFP_NET_CFG_CTRL_VXLAN) in
    let tmq := NBI_TM_QID_LO vnic in
    acts ← cfg_act_append_rx_host pcie vid veb_up acts;
    acts ← act_if (truthy csum_i) (cfg_act_append_checksum 0 1 0) acts;
    acts ← act_if (truthy veb_up) (cfg_act_append_veb_lookup pcie vid 0 0) acts;
    acts ← cfg_act_append_tx_wire tmq 0 veb_up acts;
    if truthy veb_up then
      acts ← act_if (truthy csum_o) (cfg_act_append_checksum 1 0 0) acts;
      acts ← cfg_act_append_push_pkt acts;
      cfg_act_append_tx_vlan acts
    else mret acts.

Definition cfg_act_build_vf (pcie vid pf_control vf_control : Z) : C action_list :=
  acts ← cfg_act_init;
  let '(type, _) := NFD_VID2VNIC vid in
  if bool_decide (type <> NFD_VNIC_TYPE_VF) then mret acts
  else
    let csum_o := flag vf_control NFP_NET_CFG_CTRL_TXCSUM in
    let csum_i := b2z (truthy csum_o && has vf_control NFP_NET_CFG_CTRL_VXLAN) in
    let promisc := flag pf_control NFP_NET_CFG_CTRL_PROMISC in
    acts ← cfg_act_append_rx_host pcie vid 1 acts;
    sriov_cfg_data ← read_sriov_cfg pcie (NFD_VID2VF vid);
    acts ← act_if (truthy (sc_vlan_tag sriov_cfg_data))
             (cfg_act_append_push_vlan (sc_vlan_tag sriov_cfg_data)) acts;
    acts ← act_if (truthy (sc_ctrl_spoof sriov_cfg_data))
             (cfg_act_append_smac_match_sriov pcie vid) acts;
    acts ← cfg_act_append_veb_lookup pcie vid 0 0 acts;
    acts ← act_if (truthy csum_i) (cfg_act_append_checksum 0 1 0) acts;
    acts ← cfg_act_append_tx_wire (NBI_TM_QID_LO 0) promisc 1 acts;
    acts ← act_if (truthy csum_o) (cfg_act_append_checksum 1 0 0) acts;
    acts ← cfg_act_append_tx_host pcie (NFD_PF2VID 0) 0 1 acts;
    acts ← cfg_act_append_push_pkt acts;
    cfg_act_append_tx_vlan acts.

Definition cfg_act_build_pcie_down (pcie vid : Z) : C action_list :=
  acts ← cfg_act_init;
  acts ← cfg_act_append_rx_host pcie vid 0 acts;
  cfg_act_append_drop acts.

(** [update & NFP_NET_CFG_UPDATE_RSS || update & NFP_NET_CFG_CTRL_BPF] *)
Definition update_rss (update : Z) : bool :=
  has update NFP_NET_CFG_UPDATE_RSS || has update NFP_NET_CFG_CTRL_BPF.

Definition rss_v1 (control : Z) : bool :=
  (NFD_CFG_MAJOR_PF <? 4) && negb (has control NFP_NET_CFG_CTRL_CHAIN_META).

Definition rss_on (control : Z) : bool :=
  has control NFP_NET_CFG_CTRL_RSS_ANY || has control NFP_NET_CFG_CTRL_BPF.

Definition cfg_act_build_nbi (pcie vid veb_up control update : Z) : C action_list :=
  let vxlan := flag control NFP_NET_CFG_CTRL_VXLAN in
  let nvgre := flag control NFP_NET_CFG_CTRL_NVGRE in
  let promisc := flag control NFP_NET_CFG_CTRL_PROMISC in
  let csum_compl := flag control NFP_NET_CFG_CTRL_CSUM_COMPLETE in
  let rx_csum := flag control NFP_NET_CFG_CTRL_RXCSUM in
  acts ← cfg_act_init;
  let '(type, vnic) := NFD_VID2VNIC vid in
  if bool_decide (type <> NFD_VNIC_TYPE_PF) then mret acts
  else
    acts ← cfg_act_append_rx_wire pcie vid vxlan nvgre
             (b2z (truthy rx_csum && negb (truthy csum_compl))) acts;
    acts ← (if truthy veb_up then cfg_act_append_veb_lookup pcie vid promisc 1 acts
            else act_if (negb (truthy promisc)) (cfg_act_append_dmac_match_bar pcie vid) acts);
    acts ← act_if (truthy veb_up || truthy csum_compl)
             (cfg_act_append_checksum veb_up veb_up csum_compl) acts;
    acts ← act_if (has control NFP_NET_CFG_CTRL_BPF) (cfg_act_append_bpf vnic) acts;
    acts ← act_if (rss_on control)
             (cfg_act_append_rss pcie vid (b2z (update_rss update)) (b2z (rss_v1 control))) acts;
    acts ← cfg_act_append_tx_host pcie vid 0 veb_up acts;
    if truthy veb_up then
      acts ← cfg_act_append_push_pkt acts;
      cfg_act_append_tx_vlan acts
    else mret acts.

Definition cfg_act_build_nbi_down (pcie vid : Z) : C action_list :=
  acts ← cfg_act_init;
  acts ← cfg_act_append_rx_wire pcie vid 0 0 0 acts;
  cfg_act_append_drop acts.

Definition cfg_act_build_veb_pf (pcie vid control update : Z) : C action_list :=
  let csum_c := flag control NFP_NET_CFG_CTRL_CSUM_COMPLETE in
  acts ← cfg_act_init;
  let '(type, vnic) := NFD_VID2VNIC vid in
  if bool_decide (type <> NFD_VNIC_TYPE_PF) then mret acts
  else
    acts ← cfg_act_append_checksum 1 1 csum_c acts;
    acts ← act_if (has control NFP_NET_CFG_CTRL_BPF) (cfg_act_append_bpf vnic) acts;
    acts ← act_if (rss_on control)
             (cfg_act_append_rss pcie vid (b2z (update_rss update)) (b2z (rss_v1 control))) acts;
    cfg_act_append_tx_host pcie vid 0 0 acts.

Definition cfg_act_build_veb_vf (pcie vid pf_control vf_control update : Z) : C action_list :=
  let csum_c := flag vf_control NFP_NET_CFG_CTRL_CSUM_COMPLETE in
  let promisc := flag pf_control NFP_NET_CFG_CTRL_PROMISC in
  acts ← cfg_act_init;
  let '(type, vnic) := NFD_VID2VNIC vid in
  if bool_decide (type <> NFD_VNIC_TYPE_VF) then mret acts
  else
    acts ← act_if (truthy promisc) cfg_act_append_push_pkt acts;
    sriov_cfg_data ← read_sriov_cfg pcie (NFD_VID2VF vid);
    acts ← act_if (truthy (sc_vlan_tag sriov_cfg_data)) cfg_act_append_strip_vlan acts;
    acts ← cfg_act_append_checksum 1 1 csum_c acts;
    acts ← cfg_act_append_tx_host pcie vid promisc 0 acts;
    if truthy promisc then
      acts ← cfg_act_append_pop_pkt acts;
      acts ← act_if (has pf_control NFP_NET_CFG_CTRL_CSUM_COMPLETE)
               (cfg_act_append_checksum 0 0 1) acts;
      acts ← act_if (has pf_control NFP_NET_CFG_CTRL_BPF) (cfg_act_append_bpf vnic) acts;
      acts ← act_if (rss_on pf_control)
               (cfg_act_append_rss pcie (NFD_PF2VID 0) 0 (b2z (rss_v1 pf_control))) acts;
      cfg_act_append_tx_host pcie (NFD_PF2VID 0) 0 0 acts
    else mret acts.

(** * The pipelines *)

(** [b ?: a]: the action [a] when [b] holds. *)
Definition opt (b : bool) (a : action) : list action := if b then [a] else [].

Definition ctrl_pipeline (pcie vid : Z) (s : nic) : list action :=
  [rx_host_action pcie vid false s; Cmsg].

(** Host to wire, for a physical function: the switch is used when a VF is up.
    [spare] is what the TX_WIRE instruction has in its spare bits. *)
Definition pf_pipeline (spare pcie vid n : Z) (veb : bool) (control : Z) (s : nic) : list action :=
  let csum := has control NFP_NET_CFG_CTRL_TXCSUM in
  [rx_host_action pcie vid veb s] ++
  opt (csum && has control NFP_NET_CFG_CTRL_VXLAN) (Checksum false true false) ++
  opt veb (VebLookup 0) ++
  [tx_wire_action spare (NBI_TM_QID_LO n) false veb] ++
  opt (veb && csum) (Checksum true false false) ++
  opt veb PushPkt ++ opt veb TxVlan.

(** Host to wire, for a virtual function: a miss in the switch goes to the
    wire, multicast also to the PF and the members of the VLAN. *)
Definition vf_pipeline (spare pcie vid pf_control vf_control : Z) (s : nic) : list action :=
  let csum := has vf_control NFP_NET_CFG_CTRL_TXCSUM in
  let promisc := has pf_control NFP_NET_CFG_CTRL_PROMISC in
  let cfg := sriov_cfg pcie vid s in
  [rx_host_action pcie vid true s] ++
  opt (truthy (sc_vlan_tag cfg)) (PushVlan (sc_vlan_tag cfg)) ++
  opt (truthy (sc_ctrl_spoof cfg)) (SrcMacMatch (sriov_mac pcie vid s)) ++
  [VebLookup 0] ++
  opt (csum && has vf_control NFP_NET_CFG_CTRL_VXLAN) (Checksum false true false) ++
  [tx_wire_action spare (NBI_TM_QID_LO 0) promisc true] ++
  opt csum (Checksum true false false) ++
  [tx_host_action pcie (NFD_PF2VID 0) false true s; PushPkt; TxVlan].

Definition pcie_down_pipeline (pcie vid : Z) (s : nic) : list action :=
  [rx_host_action pcie vid false s; Drop].

Definition rss_actions (pcie vid n control : Z) (s : nic) : list action :=
  opt (has control NFP_NET_CFG_CTRL_BPF) (bpf_action n) ++
  opt (rss_on control) (rss_action pcie vid (rss_v1 control) s).

(** Wire to host. *)
Definition nbi_pipeline (pcie vid n : Z) (veb : bool) (control : Z) (s : nic) : list action :=
  let promisc := has control NFP_NET_CFG_CTRL_PROMISC in
  let compl := has control NFP_NET_CFG_CTRL_CSUM_COMPLETE in
  [rx_wire_action pcie vid (has control NFP_NET_CFG_CTRL_VXLAN)
     (has control NFP_NET_CFG_CTRL_NVGRE)
     (has control NFP_NET_CFG_CTRL_RXCSUM && negb compl) s] ++
  opt veb (VebLookup (if promisc then 0 else bar_mac pcie vid s)) ++
  opt (negb veb && negb promisc) (DstMacMatch (bar_mac pcie vid s)) ++
  opt (veb || compl) (Checksum veb veb compl) ++
  rss_actions pcie vid n control s ++
  [tx_host_action pcie vid false veb s] ++
  opt veb PushPkt ++ opt veb TxVlan.

Definition nbi_down_pipeline (pcie vid : Z) : list action := [RxWire 0 0 false false; Drop].

(** What a hit of the switch does: deliver to the PF. *)
Definition veb_pf_pipeline (pcie vid n control : Z) (s : nic) : list action :=
  [Checksum true true (has control NFP_NET_CFG_CTRL_CSUM_COMPLETE)] ++
  rss_actions pcie vid n control s ++
  [tx_host_action pcie vid false false s].

(** What a hit of the switch does: deliver to a VF, and to the PF too when the
    PF is promiscuous. *)
Definition veb_vf_pipeline (pcie vid n pf_control vf_control : Z) (s : nic) : list action :=
  let promisc := has pf_control NFP_NET_CFG_CTRL_PROMISC in
  opt promisc PushPkt ++
  opt (truthy (sc_vlan_tag (sriov_cfg pcie vid s))) PopVlan ++
  [Checksum true true (has vf_control NFP_NET_CFG_CTRL_CSUM_COMPLETE)] ++
  [tx_host_action pcie vid promisc false s] ++
  (if promisc then
     [PopPkt] ++
     opt (has pf_control NFP_NET_CFG_CTRL_CSUM_COMPLETE) (Checksum false false true) ++
     opt (has pf_control NFP_NET_CFG_CTRL_BPF) (bpf_action n) ++
     opt (rss_on pf_control) (rss_action pcie (NFD_PF2VID 0) (rss_v1 pf_control) s) ++
     [tx_host_action pcie (NFD_PF2VID 0) false false s]
   else []).

(** ** Running a builder *)

Lemma size_app l1 l2 : size (l1 ++ l2) = (size l1 + size l2)%nat.
Proof. unfold size. apply sum_list_with_app. Qed.

Lemma size_opt b a : (size (opt b a) <= S (length (params_of a)))%nat.
Proof. destruct b; simpl; lia. Qed.

Lemma repr_nil : cfg_act_init = mret (repr []).
Proof. done. Qed.

(** A conditional append. *)
Lemma run_act_if b f a l s :
  (b = true -> f (repr l) s = Some (repr (l ++ [a]), s)) ->
  act_if b f (repr l) s = Some (repr (l ++ opt b a), s).
Proof.
  intros Hf. destruct b; simpl; [by apply Hf|]. by rewrite app_nil_r.
Qed.


(** A vNIC of the build, of type [t] and number [n] in its type. *)
Definition vnic_is (vid : Z) (t : vnic_type) (n : Z) : Prop :=
  0 <= vid < NVNICS B NFD_MAX_CTRL /\ NFD_VID2VNIC vid = (t, n).

Lemma vnic_pf_range `{!VidsOk B} vid n :
  vnic_is vid NFD_VNIC_TYPE_PF n -> 0 <= n < NFD_MAX_PFS B.
Proof. intros [Hv Ht]. pose proof (vid_vnic (B:=B) vid Hv) as Hn. rewrite Ht in Hn. tauto. Qed.

Lemma vnic_queues `{!VidsOk B} vid t n :
  vnic_is vid t n -> t <> NFD_VNIC_TYPE_CTRL -> 0 < NFD_VID_MAXQS vid.
Proof. intros [Hv Ht] Hne. apply maxqs_pos; [done|]. by rewrite Ht. Qed.

Lemma vnic_pf0 `{!VidsOk B} : vnic_is (NFD_PF2VID 0) NFD_VNIC_TYPE_PF 0.
Proof.
  pose proof (sizes_facts B) as (_ & _ & Hp & _).
  destruct (pf_vid (B:=B) 0) as [Ht Hv]; [lia|]. by split.
Qed.

(** The actions of a state only depend on the memory and the buffer cache. *)
Definition same_inputs (s s' : nic) : Prop :=
  emem s' = emem s /\ fl_buf_sz_cache s' = fl_buf_sz_cache s.

Lemma rx_host_same s s' pcie vid c : same_inputs s s' ->
  rx_host_action pcie vid c s' = rx_host_action pcie vid c s.
Proof. intros [He _]. unfold rx_host_action, bar_word. by rewrite He. Qed.

Lemma tx_host_same s s' pcie vid c m : same_inputs s s' ->
  tx_host_action pcie vid c m s' = tx_host_action pcie vid c m s.
Proof. intros [_ Hf]. unfold tx_host_action, min_rxb. by rewrite Hf. Qed.

Lemma rss_same s s' pcie vid v : same_inputs s s' ->
  rss_action pcie vid v s' = rss_action pcie vid v s.
Proof. intros [He _]. unfold rss_action, bar_word. by rewrite He. Qed.

Lemma bar_mac_same s s' pcie vid : same_inputs s s' -> bar_mac pcie vid s' = bar_mac pcie vid s.
Proof. intros [He _]. unfold bar_mac, dword. by rewrite He. Qed.

Lemma wf_emem_same s s' : same_inputs s s' -> wf_emem s -> wf_emem s'.
Proof. intros [He _] Hw a. rewrite He. apply Hw. Qed.

Lemma rss_written_same u pcie vid s : same_inputs s (rss_written u pcie vid s).
Proof. by destruct u. Qed.

Lemma vxlan_written_same v pcie vid s : same_inputs s (vxlan_written v pcie vid s).
Proof. by destruct v. Qed.
End builders.

Lemma params_rx_wire `{NetCfg, Vids, App} pcie vid v n c s :
  params_of (rx_wire_action pcie vid v n c s) = [].
Proof. by destruct v. Qed.

(** The room left in the list: each optional action is at most its size. *)
Ltac size_tac :=
  unfold bpf_action, rss_action, tx_host_action, tx_wire_action, rx_host_action,
    veb_lookup_action;
  rewrite ?size_app;
  repeat match goal with
    | |- context [size (opt ?b ?a)] =>
        let H := fresh in pose proof (size_opt b a) as H;
        let n := fresh in set (n := size (opt b a)) in *; clearbody n; simpl in H
    end; simpl; rewrite ?params_rx_wire; simpl; lia.

(** Run one append, with its lemma. *)
Ltac build L := erewrite run_some; [|apply L; try size_tac; try done]; cbv beta.
Ltac build_if L := erewrite run_some; [|apply run_act_if; intros _; apply L; try size_tac; try done]; cbv beta.
Ltac build_end := rewrite <- ?app_assoc; simpl app; rewrite ?app_nil_r; try done.

Section theorems.
Context {B : build} `{NetCfg, Vids, VfCfg, App}.
Context `{!NetCfgOk, !VidsOk B, !VfCfgOk}.

Lemma run_build_ctrl pcie vid n s :
  NFD_VID2VNIC vid = (NFD_VNIC_TYPE_CTRL, n) ->
  cfg_act_build_ctrl pcie vid s = Some (repr (ctrl_pipeline pcie vid s), s).
Proof.
  intros Ht. unfold cfg_act_build_ctrl. rewrite repr_nil. runs.
  rewrite Ht, bool_decide_eq_false_2 by auto.
  build (append_rx_host pcie vid false). rewrite append_cmsg by size_tac. build_end.
Qed.

Lemma run_build_pf pcie vid n veb control update s :
  wf_emem s -> vnic_is vid NFD_VNIC_TYPE_PF n ->
  cfg_act_build_pf pcie vid (b2z veb) control update s =
  Some (repr (pf_pipeline (tx_wire_spare s) pcie vid n veb control s), s).
Proof.
  intros Hm [Hv Ht]. unfold cfg_act_build_pf. rewrite repr_nil. runs.
  rewrite Ht, bool_decide_eq_false_2 by auto.
  cbv iota zeta. unfold flag. rewrite !truthy_b2z.
  build append_rx_host. build_if (append_checksum false true false).
  build_if (append_veb_lookup pcie vid false false).
  build (append_tx_wire (NBI_TM_QID_LO n) false).
  unfold pf_pipeline. cbv zeta. destruct veb; [|runs; simpl opt; rewrite !app_nil_r; build_end].
  build_if (append_checksum true false false). build append_push_pkt.
  rewrite append_tx_vlan by size_tac. build_end.
Qed.

Lemma run_build_pcie_down pcie vid s :
  cfg_act_build_pcie_down pcie vid s = Some (repr (pcie_down_pipeline pcie vid s), s).
Proof.
  unfold cfg_act_build_pcie_down. rewrite repr_nil. runs.
  build (append_rx_host pcie vid false). rewrite append_drop by size_tac. build_end.
Qed.

Lemma run_build_nbi_down pcie vid s :
  cfg_act_build_nbi_down pcie vid s = Some (repr (nbi_down_pipeline pcie vid), s).
Proof.
  unfold cfg_act_build_nbi_down. rewrite repr_nil. runs.
  build (append_rx_wire pcie vid false false false). rewrite append_drop by size_tac. build_end.
Qed.

Lemma run_build_vf pcie vid n pf_control vf_control s :
  wf_emem s -> 0 <= pcie < NFD_MAX_ISL -> vnic_is vid NFD_VNIC_TYPE_VF n ->
  cfg_act_build_vf pcie vid pf_control vf_control s =
  Some (repr (vf_pipeline (tx_wire_spare s) pcie vid pf_control vf_control s), s).
Proof.
  intros Hm Hp [Hv Ht]. unfold cfg_act_build_vf. rewrite repr_nil. runs.
  rewrite Ht, bool_decide_eq_false_2 by auto.
  pose proof vnic_pf0 as Hpf. pose proof (vnic_queues _ _ _ Hpf ltac:(done)) as Hq.
  cbv iota zeta. unfold flag. rewrite !truthy_b2z.
  build (append_rx_host pcie vid true). unfold read_sriov_cfg, mem_read32s. runs.
  fold (sriov_cfg pcie vid s).
  build_if append_push_vlan; [|apply sc_vlan_tag_fits].
  build_if append_smac_match_sriov. build (append_veb_lookup pcie vid false false).
  build_if (append_checksum false true false).
  build (append_tx_wire (NBI_TM_QID_LO 0) (has pf_control NFP_NET_CFG_CTRL_PROMISC) true).
  build_if (append_checksum true false false).
  build (append_tx_host pcie (NFD_PF2VID 0) false true); [|apply Hpf].
  build append_push_pkt. rewrite append_tx_vlan by size_tac.
  unfold vf_pipeline. cbv zeta. build_end.
Qed.

(** The RSS table is rewritten when the update asks for it and RSS is on. *)
Lemma run_act_if_rss b u pcie vid n v1 l s :
  wf_emem s -> 0 <= pcie < NFD_MAX_ISL -> vnic_is vid NFD_VNIC_TYPE_PF n ->
  (size (l ++ opt b (rss_action pcie vid v1 s)) <= 16)%nat ->
  act_if b (cfg_act_append_rss pcie vid (b2z u) (b2z v1)) (repr l) s =
  Some (repr (l ++ opt b (rss_action pcie vid v1 s)), rss_written (b && u) pcie vid s).
Proof.
  intros Hm Hp Hv Hs. pose proof (vnic_pf_range _ _ Hv). destruct Hv as [Hv Ht].
  destruct b; simpl; [|by rewrite app_nil_r]. by apply append_rss with n.
Qed.

Definition nbi_state (pcie vid control update : Z) (s : nic) : nic :=
  rss_written (rss_on control && update_rss update) pcie vid
    (vxlan_written (has control NFP_NET_CFG_CTRL_VXLAN) pcie vid s).

Lemma nbi_state_same pcie vid control update s :
  same_inputs s (nbi_state pcie vid control update s).
Proof. unfold nbi_state. by destruct (_ && _), (has control NFP_NET_CFG_CTRL_VXLAN). Qed.

Lemma run_build_nbi pcie vid n veb control update s :
  wf_emem s -> 0 <= pcie < NFD_MAX_ISL -> vnic_is vid NFD_VNIC_TYPE_PF n ->
  cfg_act_build_nbi pcie vid (b2z veb) control update s =
  Some (repr (nbi_pipeline pcie vid n veb control s), nbi_state pcie vid control update s).
Proof.
  intros Hm Hp Hv. pose proof (vnic_queues _ _ _ Hv ltac:(done)) as Hq.
  pose proof Hv as [Hvid Ht].
  unfold cfg_act_build_nbi. rewrite repr_nil. runs.
  rewrite Ht, bool_decide_eq_false_2 by auto. cbv zeta. unfold flag. rewrite !truthy_b2z.
  build append_rx_wire.
  set (s1 := vxlan_written _ _ _ s).
  assert (Hs1 : same_inputs s s1) by apply vxlan_written_same.
  pose proof (wf_emem_same _ _ Hs1 Hm) as Hm1.
  set (l1 := [] ++ [rx_wire_action _ _ _ _ _ s]).
  assert (Hl1 : size l1 = 1%nat) by (unfold l1; simpl; by rewrite params_rx_wire).
  assert (Hmac : (if veb then cfg_act_append_veb_lookup pcie vid
                    (b2z (has control NFP_NET_CFG_CTRL_PROMISC)) 1 (repr l1)
                  else act_if (negb (has control NFP_NET_CFG_CTRL_PROMISC))
                    (cfg_act_append_dmac_match_bar pcie vid) (repr l1)) s1 =
    Some (repr ((l1 ++ opt veb (VebLookup (if has control NFP_NET_CFG_CTRL_PROMISC then 0
            else bar_mac pcie vid s))) ++
          opt (negb veb && negb (has control NFP_NET_CFG_CTRL_PROMISC))
            (DstMacMatch (bar_mac pcie vid s))), s1)).
  { rewrite <- (bar_mac_same s s1) by done. destruct veb; simpl opt.
    - rewrite app_nil_r. apply (append_veb_lookup pcie vid _ true); [done|].
      rewrite size_app, Hl1. simpl. lia.
    - rewrite app_nil_r. apply run_act_if. intros _. apply append_dmac_match_bar; [done|].
      rewrite size_app, Hl1. simpl. lia. }
  erewrite run_some; [|exact Hmac]. unfold bpf_action.
  build_if (append_checksum veb veb (has control NFP_NET_CFG_CTRL_CSUM_COMPLETE)).
  build_if append_bpf. unfold bpf_action.
  erewrite run_some; [|apply (run_act_if_rss _ (update_rss update) pcie vid n); try size_tac; done].
  cbv beta. rewrite (rss_same s s1) by done.
  fold (nbi_state pcie vid control update s). set (s2 := nbi_state _ _ _ _ s).
  assert (Hs2 : same_inputs s s2) by apply nbi_state_same.
  build (append_tx_host pcie vid false veb). rewrite (tx_host_same s s2) by done.
  unfold nbi_pipeline, rss_actions, bpf_action. cbv zeta. fold l1.
  destruct veb; simpl opt.
  - build append_push_pkt. rewrite append_tx_vlan by size_tac. unfold l1. build_end.
  - runs. unfold l1. build_end.
Qed.

Definition veb_pf_state (pcie vid control update : Z) (s : nic) : nic :=
  rss_written (rss_on control && update_rss update) pcie vid s.

Lemma run_build_veb_pf pcie vid n control update s :
  wf_emem s -> 0 <= pcie < NFD_MAX_ISL -> vnic_is vid NFD_VNIC_TYPE_PF n ->
  cfg_act_build_veb_pf pcie vid control update s =
  Some (repr (veb_pf_pipeline pcie vid n control s), veb_pf_state pcie vid control update s).
Proof.
  intros Hm Hp Hv. pose proof (vnic_queues _ _ _ Hv ltac:(done)) as Hq.
  pose proof Hv as [Hvid Ht].
  unfold cfg_act_build_veb_pf. rewrite repr_nil. runs.
  rewrite Ht, bool_decide_eq_false_2 by auto. cbv zeta. unfold flag.
  build (append_checksum true true (has control NFP_NET_CFG_CTRL_CSUM_COMPLETE)).
  build_if append_bpf.
  erewrite run_some; [|apply (run_act_if_rss _ (update_rss update) pcie vid n); try size_tac; done].
  fold (veb_pf_state pcie vid control update s). set (s2 := veb_pf_state _ _ _ _ s).
  assert (Hs2 : same_inputs s s2) by apply rss_written_same.
  rewrite (append_tx_host pcie vid false false) by (done || size_tac).
  rewrite (tx_host_same s s2) by done.
  unfold veb_pf_pipeline, rss_actions. build_end.
Qed.

Lemma run_build_veb_vf pcie vid n pf_control vf_control update s :
  wf_emem s -> 0 <= pcie < NFD_MAX_ISL -> vnic_is vid NFD_VNIC_TYPE_VF n ->
  cfg_act_build_veb_vf pcie vid pf_control vf_control update s =
  Some (repr (veb_vf_pipeline pcie vid n pf_control vf_control s), s).
Proof.
  intros Hm Hp Hv. pose proof (vnic_queues _ _ _ Hv ltac:(done)) as Hq.
  pose proof vnic_pf0 as Hpf. pose proof (vnic_queues _ _ _ Hpf ltac:(done)) as Hpfq.
  pose proof Hv as [Hvid Ht]. pose proof Hpf as [Hpfv _].
  unfold cfg_act_build_veb_vf. rewrite repr_nil. runs.
  rewrite Ht, bool_decide_eq_false_2 by auto. cbv zeta. unfold flag. rewrite !truthy_b2z.
  build_if append_push_pkt. unfold read_sriov_cfg, mem_read32s. runs.
  fold (sriov_cfg pcie vid s).
  build_if append_strip_vlan.
  build (append_checksum true true (has vf_control NFP_NET_CFG_CTRL_CSUM_COMPLETE)).
  build (append_tx_host pcie vid (has pf_control NFP_NET_CFG_CTRL_PROMISC) false).
  unfold veb_vf_pipeline. cbv zeta.
  destruct (has pf_control NFP_NET_CFG_CTRL_PROMISC); [|runs; build_end].
  build append_pop_pkt. build_if (append_checksum false false true). build_if append_bpf.
  erewrite run_some; [|apply (run_act_if_rss _ false pcie _ 0); try size_tac; done].
  rewrite andb_false_r. simpl rss_written.
  rewrite (append_tx_host pcie (NFD_PF2VID 0) false false) by (done || size_tac).
  build_end.
Qed.

(** ** What the builders promise

    [builds m s l s']: from [s], [m] returns an action list in the state [s'];
    its words, read with the fields of app_config_instr.h, are the actions [l];
    it has at most sixteen words and the words after its end are zero. *)
Definition builds (m : C action_list) (s : nic) (l : list action) (s' : nic) : Prop :=
  exists acts, m s = Some (acts, s') /\
    decode 16 (written acts) = Some l /\
    0 <= count acts <= NIC_MAX_INSTR /\ length (instr acts) = 16%nat /\
    Forall (eq 0) (drop (Z.to_nat (count acts)) (instr acts)).

Lemma builds_repr m s l s' :
  m s = Some (repr l, s') -> Forall wf_action l -> (size l <= 16)%nat -> builds m s l s'.
Proof.
  intros Hm Hwf Hs. exists (repr l). assert (Hlen := length_assemble None l).
  fold (assemble l) in Hlen. split; [done|]. split; [by apply decode_written|].
  unfold NIC_MAX_INSTR, repr, of_words; simpl. rewrite Nat2Z.id, drop_app_length.
  split; [lia|]. split; [rewrite length_app, length_replicate; lia|].
  by apply Forall_replicate.
Qed.

Lemma wf_opt b a : wf_action a -> Forall wf_action (opt b a).
Proof. destruct b; simpl; auto. Qed.

Lemma wf_rss pcie vid v1 s : wf_emem s -> wf_action (rss_action pcie vid v1 s).
Proof. intros Hm. repeat split; try by apply wrap_fits. all: apply Hm. Qed.

Lemma wf_rx_wire pcie vid v nv c s : wf_action (rx_wire_action pcie vid v nv c s).
Proof.
  destruct v; simpl; [|by unfold fits]. pose proof (vxlan_ports_length pcie vid s).
  split; unfold fits; [done|lia].
Qed.

Lemma wf_tx_host pcie vid c m s : wf_action (tx_host_action pcie vid c m s).
Proof. repeat split; by apply wrap_fits. Qed.

Lemma wf_tx_wire x q c m : wf_action (tx_wire_action x q c m).
Proof. split; by apply wrap_fits. Qed.

Lemma wf_sriov_mac pcie vid s : wf_action (SrcMacMatch (sriov_mac pcie vid s)).
Proof.
  pose proof (sc_mac_hi_fits (sriov_cfg pcie vid s)).
  pose proof (sc_mac_lo_fits (sriov_cfg pcie vid s)).
  simpl. unfold sriov_mac. apply fits_lor; [lia| |by eapply fits_mono; [|eassumption]; lia].
  apply fits_shiftl; [lia|]. by eapply fits_mono; [|eassumption]; lia.
Qed.

Lemma wf_rss_actions pcie vid n c s : wf_emem s -> Forall wf_action (rss_actions pcie vid n c s).
Proof.
  intros. apply Forall_app. split; apply wf_opt; [|by apply wf_rss]. by apply wrap_fits.
Qed.

Ltac wf_step :=
  first [ apply Forall_nil; done | apply Forall_app; split | apply List.Forall_cons
        | apply wf_opt | by apply wf_rss_actions | by apply wf_rss | by apply wf_rx_wire
        | by apply wf_tx_host | by apply wf_tx_wire | by apply wf_sriov_mac
        | by apply bar_mac_fits | by apply wrap_fits | by apply sc_vlan_tag_fits
        | by repeat split
        | match goal with |- context [if ?b then _ else _] => destruct b end; by unfold fits
        | match goal with |- context [if ?b then _ else _] => destruct b end ].
Ltac wf := cbv zeta; repeat wf_step.

Lemma nbi_pipeline_wf pcie vid n veb control s : wf_emem s ->
  Forall wf_action (nbi_pipeline pcie vid n veb control s).
Proof. intros Hm. unfold nbi_pipeline. wf. Qed.

Lemma pf_pipeline_wf x pcie vid n veb control s :
  Forall wf_action (pf_pipeline x pcie vid n veb control s).
Proof. unfold pf_pipeline. wf. Qed.

Lemma vf_pipeline_wf x pcie vid pf_control vf_control s :
  Forall wf_action (vf_pipeline x pcie vid pf_control vf_control s).
Proof. unfold vf_pipeline. wf. Qed.

(** C31: wire to host.  For a physical function the list is: parse (with the
    VXLAN ports of the BAR), then look up the switch when VFs are up, else drop
    frames for other MACs unless promiscuous, then checksums, the BPF program
    of the vNIC and RSS when enabled, then deliver to its queues, and with the
    switch up also to the members of the VLAN.  It fits the sixteen words, and
    only the VXLAN registers and the RSS table are written on the way.  For a
    vNIC of another type the list is empty. *)
Theorem build_nbi_correct pcie vid t n veb control update s :
  wf_emem s -> 0 <= pcie < NFD_MAX_ISL -> vnic_is vid t n ->
  (t = NFD_VNIC_TYPE_PF ->
   builds (cfg_act_build_nbi pcie vid (b2z veb) control update) s
     (nbi_pipeline pcie vid n veb control s) (nbi_state pcie vid control update s)) /\
  (t <> NFD_VNIC_TYPE_PF ->
   builds (cfg_act_build_nbi pcie vid (b2z veb) control update) s [] s).
Proof.
  intros Hm Hp Hv. split; intros Ht; [subst t|].
  - apply builds_repr; [by apply run_build_nbi| |].
    + by apply nbi_pipeline_wf.
    + unfold nbi_pipeline, rss_actions. cbv zeta. size_tac.
  - apply builds_repr; [|done|simpl; lia]. unfold cfg_act_build_nbi. rewrite repr_nil. runs.
    destruct Hv as [_ ->]. by rewrite bool_decide_eq_true_2.
Qed.

(** Host to wire, for a physical function: check the frame against the
    MTU, complete the inner checksum if both offloads are on, look up the
    switch when VFs are up, send to the first TM queue of the port; with the
    switch up, multicast goes on to the members of the VLAN.  Nothing but the
    list is written. *)
Theorem build_pf_correct pcie vid t n veb control update s :
  wf_emem s -> vnic_is vid t n ->
  (t = NFD_VNIC_TYPE_PF ->
   builds (cfg_act_build_pf pcie vid (b2z veb) control update) s
     (pf_pipeline (tx_wire_spare s) pcie vid n veb control s) s) /\
  (t <> NFD_VNIC_TYPE_PF ->
   builds (cfg_act_build_pf pcie vid (b2z veb) control update) s [] s).
Proof.
  intros Hm Hv. split; intros Ht; [subst t|].
  - apply builds_repr; [by apply run_build_pf| |].
    + apply pf_pipeline_wf.
    + unfold pf_pipeline. cbv zeta. size_tac.
  - apply builds_repr; [|done|simpl; lia]. unfold cfg_act_build_pf. rewrite repr_nil. runs.
    destruct Hv as [_ ->]. by rewrite bool_decide_eq_true_2.
Qed.

(** Host to wire, for a virtual function: tag with the VLAN that the PF
    set, check the source MAC when spoof checking is on, look up the switch,
    and on a miss go to the wire of port 0 (continuing when the PF is
    promiscuous, else for multicast only), to PF 0 and to the members of the
    VLAN. *)
Theorem build_vf_correct pcie vid t n pf_control vf_control s :
  wf_emem s -> 0 <= pcie < NFD_MAX_ISL -> vnic_is vid t n ->
  (t = NFD_VNIC_TYPE_VF ->
   builds (cfg_act_build_vf pcie vid pf_control vf_control) s
     (vf_pipeline (tx_wire_spare s) pcie vid pf_control vf_control s) s) /\
  (t <> NFD_VNIC_TYPE_VF ->
   builds (cfg_act_build_vf pcie vid pf_control vf_control) s [] s).
Proof.
  intros Hm Hp Hv. split; intros Ht; [subst t|].
  - apply builds_repr; [by apply run_build_vf with n| |].
    + apply vf_pipeline_wf.
    + unfold vf_pipeline. cbv zeta. size_tac.
  - apply builds_repr; [|done|simpl; lia]. unfold cfg_act_build_vf. rewrite repr_nil. runs.
    destruct Hv as [_ ->]. by rewrite bool_decide_eq_true_2.
Qed.

Lemma builds_veb_vf pcie vid n pf_control vf_control update s :
  wf_emem s -> 0 <= pcie < NFD_MAX_ISL -> vnic_is vid NFD_VNIC_TYPE_VF n ->
  builds (cfg_act_build_veb_vf pcie vid pf_control vf_control update) s
    (veb_vf_pipeline pcie vid n pf_control vf_control s) s.
Proof.
  intros Hm Hp Hv. apply builds_repr; [by apply run_build_veb_vf| |].
  - unfold veb_vf_pipeline. wf.
  - unfold veb_vf_pipeline. cbv zeta. case_match; size_tac.
Qed.

Lemma builds_veb_pf pcie vid n control update s :
  wf_emem s -> 0 <= pcie < NFD_MAX_ISL -> vnic_is vid NFD_VNIC_TYPE_PF n ->
  builds (cfg_act_build_veb_pf pcie vid control update) s
    (veb_pf_pipeline pcie vid n control s) (veb_pf_state pcie vid control update s).
Proof.
  intros Hm Hp Hv. apply builds_repr; [by apply run_build_veb_pf| |].
  - unfold veb_pf_pipeline. wf.
  - unfold veb_pf_pipeline, rss_actions. size_tac.
Qed.

(** A hit in the switch.  For a VF: strip the VLAN that the PF set, fix
    the checksums, deliver to the VF, and when the PF is promiscuous deliver a
    copy of the packet to PF 0 through its BPF and RSS actions.  For PF 0: fix
    the checksums, BPF, RSS, deliver. *)
Theorem build_veb_correct pcie vid t n pf_control vf_control update s :
  wf_emem s -> 0 <= pcie < NFD_MAX_ISL -> vnic_is vid t n ->
  (t = NFD_VNIC_TYPE_VF ->
   builds (cfg_act_build_veb_vf pcie vid pf_control vf_control update) s
     (veb_vf_pipeline pcie vid n pf_control vf_control s) s) /\
  (t = NFD_VNIC_TYPE_PF ->
   builds (cfg_act_build_veb_pf pcie vid pf_control update) s
     (veb_pf_pipeline pcie vid n pf_control s) (veb_pf_state pcie vid pf_control update s)).
Proof. intros Hm Hp Hv. split; intros ->; [by apply builds_veb_vf|by apply builds_veb_pf]. Qed.

(** a vNIC that is down drops: the list of its host queues and of its wire
    port ends in DROP right after the receive action; the control vNIC hands
    its frames to the control message handler. *)
Theorem build_down_correct pcie vid s :
  builds (cfg_act_build_pcie_down pcie vid) s (pcie_down_pipeline pcie vid s) s /\
  builds (cfg_act_build_nbi_down pcie vid) s (nbi_down_pipeline pcie vid) s /\
  (forall n, NFD_VID2VNIC vid = (NFD_VNIC_TYPE_CTRL, n) ->
   builds (cfg_act_build_ctrl pcie vid) s (ctrl_pipeline pcie vid s) s).
Proof.
  split; [|split; [|intros n Ht]].
  - apply builds_repr; [apply run_build_pcie_down|unfold pcie_down_pipeline; wf|simpl; lia].
  - apply builds_repr; [apply run_build_nbi_down|unfold nbi_down_pipeline; wf|simpl; lia].
  - apply builds_repr; [by eapply run_build_ctrl|unfold ctrl_pipeline; wf|simpl; lia].
Qed.
End theorems.

(** * Where the builders do not do what they mean to *)

Section findings.
Context {B : build} `{NetCfg, Vids, VfCfg, App}.
Context `{!NetCfgOk, !VidsOk B, !VfCfgOk}.

(** the entry of the switch for a VF runs, for the copy that a promiscuous
    PF gets, the BPF program at the address of the VF's number; the list of
    the PF itself runs the program of PF 0.  The two addresses differ for every
    VF but the first, and for VF 25 the address wraps around in the 16-bit
    argument, to below the area where programs are loaded. *)
Theorem veb_vf_runs_other_bpf pcie vid n pf_control vf_control update s :
  wf_emem s -> 0 <= pcie < NFD_MAX_ISL -> vnic_is vid NFD_VNIC_TYPE_VF n -> 0 < n < 56 ->
  has pf_control NFP_NET_CFG_CTRL_PROMISC = true ->
  has pf_control NFP_NET_CFG_CTRL_BPF = true ->
  exists lvf lpf s' a,
    builds (cfg_act_build_veb_vf pcie vid pf_control vf_control update) s lvf s /\
    builds (cfg_act_build_veb_pf pcie (NFD_PF2VID 0) pf_control update) s lpf s' /\
    Ebpf a ∈ lvf /\ Ebpf NFD_BPF_START_OFF ∈ lpf /\
    a <> NFD_BPF_START_OFF /\ (n = 25 -> a < NFD_BPF_START_OFF).
Proof.
  intros Hm Hpc Hv Hn Hp Hb.
  eexists _, _, _, _. split; [by apply builds_veb_vf|].
  split; [by apply builds_veb_pf, vnic_pf0|]. split; [|split; [|split]].
  - unfold veb_vf_pipeline. cbv zeta. rewrite Hp, Hb. unfold bpf_action.
    apply list_elem_of_In. rewrite !in_app_iff. simpl. auto 20.
  - unfold veb_pf_pipeline, rss_actions. rewrite Hb. apply list_elem_of_In.
    rewrite !in_app_iff. simpl. auto 12.
  - unfold NFD_BPF_START_OFF, NFD_BPF_MAX_LEN. rewrite wrap_wrap by lia. unfold wrap.
    assert (Hd := Z.div_mod (3072 + n * 2560) (2 ^ 16)). lia.
  - intros ->. by vm_compute.
Qed.

(** The RSS table of a vNIC is to be rewritten when RSS or BPF is
    reconfigured, but the update word is tested against the BPF flag of the
    control word: when that flag is no legal update flag, a legal update
    refreshes the table for an RSS update only, not for a BPF update. *)
Theorem bpf_update_keeps_rss_table update :
  has NFD_CFG_PF_LEGAL_UPD NFP_NET_CFG_CTRL_BPF = false ->
  Z.land update (Z.lnot NFD_CFG_PF_LEGAL_UPD) = 0 ->
  update_rss update = has update NFP_NET_CFG_UPDATE_RSS.
Proof.
  intros Hl Hu. unfold update_rss.
  assert (has update NFP_NET_CFG_CTRL_BPF = false) as ->; [|apply orb_false_r].
  unfold has, truthy in *. apply negb_false_iff, Z.eqb_eq in Hl.
  apply negb_false_iff, Z.eqb_eq. apply Z.bits_inj'; intros i Hi.
  apply (f_equal (fun z => Z.testbit z i)) in Hl, Hu.
  rewrite !Z.land_spec, Z.testbit_0_l in *. rewrite testbit_lnot in Hu.
  destruct (Z.testbit update i), (Z.testbit NFD_CFG_PF_LEGAL_UPD i); simpl in *; try done.
  by rewrite (proj2 (Z.leb_le 0 i) Hi) in Hu.
Qed.

(** The bound on the queue that RSS may select is computed in two ways.
    Whatever number [b] the compiler's ffs gives to bit 0, with n < 32 receive
    rings enabled the bound is n + b, and with 32 + n of them it is
    32 + n + b - 1: relative to the number of rings the two differ by one, so
    one of them is not the number of the last ring. *)
Theorem rss_max_queue_uneven b n rings1 :
  (forall x k, 0 <= k < 32 -> Z.testbit x k = true ->
     (forall j, 0 <= j < k -> Z.testbit x j = false) -> ffs x = b + k) ->
  0 <= n < 32 ->
  rss_max_queue (Z.ones n) rings1 = n + b /\
  rss_max_queue (Z.ones 32) (Z.ones n) = 32 + n + b - 1.
Proof.
  intros Hffs Hn.
  assert (Hf : ffs (u32 (Z.lnot (Z.ones n))) = b + n).
  { apply Hffs; [done| |].
    - rewrite testbit_wrap, testbit_lnot, Z.testbit_ones by lia.
      destruct (Z.ltb_spec n 32), (Z.leb_spec 0 n), (Z.ltb_spec n n); simpl; lia || done.
    - intros j Hj. rewrite testbit_wrap, testbit_lnot, Z.testbit_ones by lia.
      destruct (Z.ltb_spec j 32), (Z.leb_spec 0 j), (Z.ltb_spec j n); simpl; lia || done. }
  split; unfold rss_max_queue.
  - replace (truthy (u32 (Z.lnot (Z.ones n)))) with true; [lia|].
    symmetry. unfold truthy. destruct (Z.eqb_spec (u32 (Z.lnot (Z.ones n))) 0) as [E|]; [|done].
    apply (f_equal (fun z => Z.testbit z n)) in E.
    rewrite testbit_wrap, testbit_lnot, Z.testbit_ones, Z.testbit_0_l in E by lia.
    destruct (Z.ltb_spec n 32), (Z.leb_spec 0 n), (Z.ltb_spec n n); simpl in E; lia || done.
  - replace (truthy (u32 (Z.lnot (Z.ones 32)))) with false by done. lia.
Qed.
End findings.

(** * Removing the VLAN strip: [cfg_act_remove_strip_vlan] *)

Section remove.
Context {B : build} `{NetCfg, Vids, VfCfg, App}.

(** The list without its first word that reads as a POP_VLAN instruction; the
    word that follows it loses its pipeline bit. *)
Fixpoint remove_pop (ws : list Z) : list Z :=
  match ws with
  | [] => []
  | w :: rest =>
      if instr_op w =? op_num INSTR_POP_VLAN then
        match rest with
        | [] => [w]
        | w' :: rest' => set_pipeline 0 w' :: rest'
        end
      else w :: remove_pop rest
  end.

Lemma remove_pop_hit w w' ws : instr_op w = op_num INSTR_POP_VLAN ->
  remove_pop (w :: w' :: ws) = set_pipeline 0 w' :: ws.
Proof. intros Hw. cbn [remove_pop]. by rewrite (proj2 (Z.eqb_eq _ _) Hw). Qed.

Lemma remove_pop_miss w ws : instr_op w <> op_num INSTR_POP_VLAN ->
  remove_pop (w :: ws) = w :: remove_pop ws.
Proof. intros Hw. cbn [remove_pop]. by rewrite (proj2 (Z.eqb_neq _ _) Hw). Qed.

(** Once a word is found, the loop moves the next [n] words down by one. *)
Lemma found_loop n : forall i l s, (i + n < length l)%nat ->
  for_fold (range (Z.of_nat i) (Z.of_nat (i + n))) (1, l) remove_strip_vlan_step s =
  Some ((1, take i l ++ take n (drop (S i) l) ++ drop (i + n) l), s).
Proof.
  induction n as [|n IH]; intros i l s Hlen.
  - rewrite range_nil by lia. simpl. rewrite Nat.add_0_r. by rewrite take_drop.
  - rewrite range_cons by lia.
    destruct (lookup_lt_is_Some_2 l (S i)) as [w Hw]; [lia|].
    assert (Hstep : remove_strip_vlan_step (1, l) (Z.of_nat i) s = Some ((1, <[i := w]> l), s)).
    { unfold remove_strip_vlan_step. cbv iota beta.
      change (truthy 1) with true. change (truthy 0) with false. cbv iota.
      replace (Z.to_nat (Z.of_nat i + 1)) with (S i) by lia.
      rewrite (run_of_option _ w) by done. by rewrite Nat2Z.id. }
    cbn [for_fold]. erewrite run_some; [|exact Hstep].
    replace (Z.of_nat i + 1) with (Z.of_nat (S i)) by lia.
    replace (i + S n)%nat with (S i + n)%nat by lia.
    rewrite IH by (rewrite length_insert; lia). do 3 f_equal.
    rewrite (drop_S l w (S i)) by done. cbn [take].
    erewrite (take_S_r _ i w) by (apply list_lookup_insert_eq; lia).
    rewrite take_insert_ge by lia. rewrite !drop_insert_lt by lia. by rewrite <- app_assoc.
Qed.

(** The loop over the words [ws] that follow [pre], none found so far. *)
Lemma remove_loop tl s : forall ws pre, ws <> [] ->
  exists f l', for_fold (range (Z.of_nat (length pre)) (Z.of_nat (length pre + length ws - 1)))
      (0, pre ++ ws ++ tl) remove_strip_vlan_step s = Some ((b2z f, l'), s) /\
    length l' = (length pre + length ws + length tl)%nat /\
    take (length pre + length ws - (if f then 1 else 0)) l' = pre ++ remove_pop ws.
Proof.
  induction ws as [|w ws IH]; intros pre Hne; [done|]. destruct ws as [|w' ws].
  - rewrite range_nil by (simpl; lia). exists false, (pre ++ [w] ++ tl). split; [done|].
    rewrite !length_app. split; [simpl; lia|].
    assert (Hrem : remove_pop [w] = [w]) by (simpl; by destruct (_ =? _)).
    rewrite Hrem, app_assoc, take_app_length'; [done|rewrite length_app; simpl; lia].
  - rewrite range_cons by (simpl; lia). cbn [for_fold].
    assert (Hw1 : (pre ++ (w :: w' :: ws) ++ tl) !! length pre = Some w)
      by (rewrite lookup_app_r, Nat.sub_diag by lia; done).
    assert (Hw2 : (pre ++ (w :: w' :: ws) ++ tl) !! S (length pre) = Some w').
    { rewrite lookup_app_r by lia. replace (S (length pre) - length pre)%nat with 1%nat by lia. done. }
    destruct (Z.eqb_spec (instr_op w) (op_num INSTR_POP_VLAN)) as [Hop|Hop].
    + assert (Hstep : remove_strip_vlan_step (0, pre ++ (w :: w' :: ws) ++ tl)
          (Z.of_nat (length pre)) s =
        Some ((1, pre ++ (set_pipeline 0 w' :: w' :: ws) ++ tl), s)).
      { unfold remove_strip_vlan_step. cbv iota beta.
      change (truthy 1) with true. change (truthy 0) with false. cbv iota. rewrite Nat2Z.id.
        rewrite (run_of_option _ w) by done. rewrite Hop, Z.eqb_refl.
        replace (Z.to_nat (Z.of_nat (length pre) + 1)) with (S (length pre)) by lia.
        rewrite (run_of_option _ w') by done. unfold mret, M_ret.
        by rewrite insert_app_r_alt, Nat.sub_diag by lia. }
      erewrite run_some; [|exact Hstep].
      replace (Z.of_nat (length pre) + 1) with (Z.of_nat (S (length pre))) by lia.
      replace (length pre + length (w :: w' :: ws) - 1)%nat
        with (S (length pre) + length ws)%nat by (simpl; lia).
      rewrite found_loop by (rewrite length_app; simpl; rewrite length_app; lia).
      set (l := pre ++ (set_pipeline 0 w' :: w' :: ws) ++ tl).
      exists true. eexists. split; [done|].
      assert (Hl : l = (pre ++ [set_pipeline 0 w'; w']) ++ ws ++ tl)
        by (unfold l; rewrite <- app_assoc; done).
      assert (Hlen : length l = (length pre + (2 + length ws) + length tl)%nat)
        by (unfold l; rewrite !length_app; simpl; lia).
      split.
      { rewrite !length_app, !length_take, !length_drop, Hlen. cbn [length]. lia. }
      rewrite remove_pop_hit by done.
      assert (Htake : take (S (length pre)) l = pre ++ [set_pipeline 0 w']).
      { unfold l. rewrite take_app_ge by lia.
        replace (S (length pre) - length pre)%nat with 1%nat by lia. done. }
      assert (Hmid : take (length ws) (drop (S (S (length pre))) l) = ws).
      { rewrite Hl, drop_app_length' by (rewrite length_app; simpl; lia).
        by rewrite take_app_length. }
      rewrite Htake, Hmid, app_assoc, take_app_length'.
      * by rewrite <- app_assoc.
      * rewrite !length_app. simpl. lia.
    + destruct (IH (pre ++ [w])) as (f & l' & Hrun & Hlen & Htake); [done|].
      assert (Hstep : remove_strip_vlan_step (0, pre ++ (w :: w' :: ws) ++ tl)
          (Z.of_nat (length pre)) s = Some ((0, pre ++ (w :: w' :: ws) ++ tl), s)).
      { unfold remove_strip_vlan_step. cbv iota beta.
      change (truthy 1) with true. change (truthy 0) with false. cbv iota. rewrite Nat2Z.id.
        rewrite (run_of_option _ w) by done. by rewrite (proj2 (Z.eqb_neq _ _) Hop). }
      erewrite run_some; [|exact Hstep].
      rewrite remove_pop_miss by done.
      rewrite length_app in *. rewrite <- !app_assoc in *. cbn [length app] in *.
      exists f, l'. replace (Z.of_nat (length pre) + 1) with (Z.of_nat (length pre + 1)) by lia.
      replace (length pre + S (S (length ws)) - 1)%nat
        with (length pre + 1 + S (length ws) - 1)%nat by lia.
      split; [done|]. split; [lia|].
      replace (length pre + S (S (length ws)))%nat with (length pre + 1 + S (length ws))%nat by lia.
      by rewrite Htake.
Qed.

Lemma run_remove_strip_vlan ws p s :
  (1 <= length ws <= 16)%nat ->
  exists acts, cfg_act_remove_strip_vlan (of_words ws p) s = Some (acts, s) /\
    written acts = remove_pop ws /\ length (instr acts) = 16%nat.
Proof.
  intros Hlen. unfold cfg_act_remove_strip_vlan. unfold of_words at 1 2; simpl.
  destruct (remove_loop (replicate (16 - length ws) 0) s ws []) as (f & l' & Hrun & Hl & Htake);
    [by destruct ws; simpl in *; [lia|]|].
  simpl in Hrun, Hl, Htake. rewrite length_replicate in Hl.
  rewrite (wrap_small 32) by (unfold fits; lia).
  replace (Z.of_nat (length ws) - 1) with (Z.of_nat (length ws - 1)) by lia.
  erewrite run_some; [|exact Hrun]. eexists. split; [reflexivity|].
  unfold written. st. cbn [fst snd].
  change (count (of_words ws p)) with (Z.of_nat (length ws)).
  rewrite (wrap_small 32) by (destruct f; unfold fits, b2z; lia).
  replace (Z.to_nat (Z.of_nat (length ws) - b2z f)) with (length ws - (if f then 1 else 0))%nat
    by (destruct f; simpl; lia).
  split; [done|lia].
Qed.

Definition not_pop (w : Z) : Prop := instr_op w <> op_num INSTR_POP_VLAN.

(** No word of the action reads as a POP_VLAN instruction. *)
Definition pop_free (a : action) : Prop := a <> PopVlan /\ Forall not_pop (params_of a).

Lemma remove_pop_app ws1 ws2 :
  Forall not_pop ws1 -> remove_pop (ws1 ++ ws2) = ws1 ++ remove_pop ws2.
Proof.
  induction 1 as [|w ws1 Hw _ IH]; [done|]. cbn [app]. by rewrite remove_pop_miss, IH.
Qed.

Lemma instr_op_word a p : wf_action a -> instr_op (instr_word (opcode a) p (args_of a)) = opcode a.
Proof. intros. apply instr_word_fields; [apply opcode_fits|by apply args_of_fits]. Qed.

Lemma opcode_not_pop a : a <> PopVlan -> opcode a <> op_num INSTR_POP_VLAN.
Proof. by destruct a. Qed.

(** Words of actions that are free of POP_VLAN are kept. *)
Lemma remove_pop_assemble p l ws :
  Forall wf_action l -> Forall pop_free l ->
  remove_pop (assemble_from p l ++ ws) = assemble_from p l ++ remove_pop ws.
Proof.
  intros Hwf Hfree. apply remove_pop_app. revert p.
  induction Hfree as [|a l [Ha Hp] _ IH]; intros p; [by constructor|].
  apply Forall_cons_1 in Hwf as [Hwa Hwf]. simpl. constructor.
  - unfold not_pop. rewrite instr_op_word by done. by apply opcode_not_pop.
  - apply Forall_app. split; [done|by apply IH].
Qed.

Lemma decode_set_pipeline n w ws :
  decode n (set_pipeline 0 w :: ws) = decode n (w :: ws).
Proof.
  destruct n as [|n]; [done|]. cbn [decode].
  assert (instr_op (set_pipeline 0 w) = instr_op w) as -> by (apply bf_get_set_other; lia).
  by assert (instr_args (set_pipeline 0 w) = instr_args w) as -> by (apply bf_get_set_other; lia).
Qed.

Lemma assemble_from_app p l1 l2 :
  assemble_from p (l1 ++ l2) = assemble_from p l1 ++ assemble_from (last_op p l1) l2.
Proof.
  revert p. induction l1 as [|a l1 IH]; intros p; [done|]. simpl. by rewrite IH, <- app_assoc.
Qed.

(** Decoding goes through the words of well-formed actions. *)
Lemma decode_app n p l ws :
  Forall wf_action l -> decode (length l + n) (assemble_from p l ++ ws) =
  (fun l' => l ++ l') <$> decode n ws.
Proof.
  intros Hl. revert p. induction Hl as [|a l Ha _ IH]; intros p.
  - simpl. by destruct (decode n ws).
  - cbn [length Nat.add assemble_from decode app]. 
    destruct (instr_word_fields (opcode a)
      match p with Some p => p =? opcode a - 1 | None => false end (args_of a)) as [-> ->];
      [apply opcode_fits|by apply args_of_fits|].
    rewrite <- app_assoc, decode_one_args by done. simpl. rewrite IH.
    by destruct (decode n ws).
Qed.

Lemma decode_mono n m ws l : (n <= m)%nat -> decode n ws = Some l -> decode m ws = Some l.
Proof.
  revert n ws l. induction m as [|m IH]; intros n ws l Hle Hd.
  - by replace n with 0%nat in Hd by lia.
  - destruct n as [|n].
    + destruct ws; [done|]. simpl in Hd. congruence.
    + destruct ws as [|w ws]; [done|]. cbn [decode] in *.
      destruct (decode_one _ _ ws) as [[a rest]|]; [|done]. simpl in *.
      apply fmap_Some in Hd as (l' & Hd & ->). by rewrite (IH n rest l') by (lia || done).
Qed.

(** removing the VLAN strip from a list removes the POP_VLAN action and
    nothing else, provided that no parameter word before it looks like one and
    it is not the last action; a list in which no word looks like a POP_VLAN is
    kept as it is. *)
Theorem remove_strip_vlan_correct l1 a l2 s :
  Forall wf_action (l1 ++ a :: l2) -> Forall pop_free l1 -> (size (l1 ++ a :: l2) <= 15)%nat ->
  (exists acts, cfg_act_remove_strip_vlan (repr (l1 ++ PopVlan :: a :: l2)) s = Some (acts, s) /\
     decode 16 (written acts) = Some (l1 ++ a :: l2)) /\
  (Forall pop_free (a :: l2) ->
   exists acts, cfg_act_remove_strip_vlan (repr (l1 ++ a :: l2)) s = Some (acts, s) /\
     decode 16 (written acts) = Some (l1 ++ a :: l2)).
Proof.
  intros Hwf Hfree Hs. assert (Hlen := length_le_size (l1 ++ a :: l2)).
  apply Forall_app in Hwf as [Hwf1 Hwf2].
  assert (Hsz : size (l1 ++ PopVlan :: a :: l2) = S (size (l1 ++ a :: l2)))
    by (rewrite !size_app; simpl; lia).
  split; [|intros Hfree2];
    (edestruct run_remove_strip_vlan as (acts & Hrun & Hw & _);
      [|unfold repr; exists acts; split; [exact Hrun|]; rewrite Hw; clear Hrun Hw]).
  - unfold assemble. rewrite length_assemble. lia.
  - unfold assemble. rewrite assemble_from_app, remove_pop_assemble by done.
    cbn [assemble_from params_of app].
    rewrite remove_pop_hit by (by rewrite instr_op_word).
    apply decode_mono with (length l1 + length (a :: l2))%nat;
      [rewrite length_app in Hlen; simpl in *; lia|].
    rewrite decode_app by done.
    change (length (a :: l2)) with (S (length l2)). rewrite decode_set_pipeline.
    change (instr_word (opcode a) _ (args_of a) :: params_of a ++ _)
      with (assemble_from (Some (opcode PopVlan)) (a :: l2)).
    by rewrite decode_assemble_from by done.
  - unfold assemble. rewrite length_assemble. rewrite length_app in Hlen. simpl in Hlen. lia.
  - rewrite <- (app_nil_r (assemble _)). unfold assemble.
    rewrite remove_pop_assemble by (by apply Forall_app). simpl remove_pop. rewrite app_nil_r.
    apply decode_assemble_from; [by apply Forall_app|]. lia.
Qed.

Lemma instr_word_fits op p args : fits 15 op -> fits 16 args -> fits 32 (instr_word op p args).
Proof.
  intros Ho Ha. unfold instr_word, fields. simpl. bool_bits.
  repeat (apply fits_lor; [lia| |]).
  - by apply fits_shiftl; [lia|].
  - apply fits_shiftl; [lia|]. by eapply fits_mono; [|eassumption]; lia.
  - apply fits_shiftl; [lia|]. by eapply fits_mono; [|eassumption]; lia.
  - by unfold fits.
Qed.

(** The list that the switch runs for PF 0 has no POP_VLAN action, and
    cfg_act_write_veb still passes it to cfg_act_remove_strip_vlan.  When RSS
    is on and the first word of the RSS key has 10 in its upper 15 bits, the
    key word is taken for a POP_VLAN instruction: the list loses its delivery
    to the host, and the word of that action becomes the RSS key. *)
Theorem remove_strip_vlan_takes_rss_key `{!VidsOk B, !NetCfgOk} pcie vid n control s :
  wf_emem s -> rss_on control = true -> has control NFP_NET_CFG_CTRL_BPF = false ->
  instr_op (bar_word pcie vid NFP_NET_CFG_RSS_KEY s) = op_num INSTR_POP_VLAN ->
  exists acts proto idx v1 maxq key',
    cfg_act_remove_strip_vlan (repr (veb_pf_pipeline pcie vid n control s)) s = Some (acts, s) /\
    decode 16 (written acts) =
      Some [Checksum true true (has control NFP_NET_CFG_CTRL_CSUM_COMPLETE);
            Rss proto idx v1 maxq key'] /\
    instr_op key' = op_num INSTR_TX_HOST.
Proof.
  intros Hm Hrss Hbpf Hkey. pose proof (wf_rss pcie vid (rss_v1 control) s Hm) as Hwf.
  pose proof (wf_tx_host pcie vid false false s) as Htx.
  unfold veb_pf_pipeline, rss_actions. rewrite Hrss, Hbpf. simpl opt. cbn [app].
  set (key := bar_word pcie vid NFP_NET_CFG_RSS_KEY s) in *.
  destruct (rss_action pcie vid (rss_v1 control) s) as
    [| | | |proto idx v1 maxq k| | | | | | | | | | | |] eqn:Hra; try discriminate Hra.
  assert (k = key) as -> by (unfold rss_action in Hra; injection Hra; unfold key; congruence).
  set (c := has control NFP_NET_CFG_CTRL_CSUM_COMPLETE).
  set (tx := tx_host_action pcie vid false false s) in *.
  set (w := instr_word (opcode tx) (opcode (Rss proto idx v1 maxq key) =? opcode tx - 1) (args_of tx)).
  edestruct (run_remove_strip_vlan (assemble [Checksum true true c; Rss proto idx v1 maxq key; tx]))
    as (acts & Hrun & Hw & _); [by simpl; lia|].
  exists acts, proto, idx, v1, maxq, (set_pipeline 0 w). split; [exact Hrun|]. rewrite Hw.
  assert (Hw15 : fits 15 (opcode tx)) by apply opcode_fits.
  assert (Hw32 : fits 32 (set_pipeline 0 w)).
  { apply bf_set_fits; try lia. apply instr_word_fits; [done|by apply args_of_fits]. }
  split.
  - transitivity (decode 16 (assemble [Checksum true true c; Rss proto idx v1 maxq (set_pipeline 0 w)])).
    + f_equal. unfold assemble. cbn [assemble_from params_of app].
      rewrite !remove_pop_miss by (by rewrite instr_op_word).
      by rewrite (remove_pop_hit key) by done.
    + apply decode_assemble; [|simpl; lia]. constructor; [done|]. constructor; [|by constructor].
      destruct Hwf as (? & ? & ? & ?). done.
  - unfold w. assert (instr_op (set_pipeline 0 w) = instr_op w) as Hop
      by (apply bf_get_set_other; lia). fold w. rewrite Hop. unfold w.
    by rewrite instr_op_word.
Qed.
End remove.

(** * Checks on concrete inputs *)

Import Demo.

(** PF 0 (vNIC 48) with an MTU, a MAC and four rings in its BAR. *)
Definition bar_state : nic :=
  nic0 <| emem :=
    <[0x180000 + 0x18 := 1500]> (<[0x180000 + 0x24 := 0x00154d01]>
    (<[0x180000 + 0x28 := 0x02030000]> (<[0x180000 + 0x10 := 15]>
    (<[0x180000 + 0x104 := 0x00141234]> (<[0x180000 + 0x60 := Z.shiftl 4789 16]> ∅))))) |>
    <| fl_buf_sz_cache := <[48 := 2048]> ∅ |>.

Lemma bar_state_wf : wf_emem bar_state.
Proof.
  intros a. unfold bar_state, rd. st. rewrite !lookup_insert. repeat case_decide; by vm_compute.
Qed.

Lemma vnic_48 : vnic_is 48 NFD_VNIC_TYPE_PF 0.
Proof. by split. Qed.

Lemma vnic_3 : vnic_is 3 NFD_VNIC_TYPE_VF 3.
Proof. by split. Qed.

Definition control_rss : Z :=
  lor_list [NFP_NET_CFG_CTRL_ENABLE; NFP_NET_CFG_CTRL_RSS; NFP_NET_CFG_CTRL_VXLAN;
            NFP_NET_CFG_CTRL_TXCSUM].

Lemma build_nbi_correct_witness :
  builds (cfg_act_build_nbi 0 48 (b2z true) control_rss NFP_NET_CFG_UPDATE_RSS) bar_state
    [RxWire 104 1 false false; VebLookup 0x00154d010203; Checksum true true false;
     Rss 0 0 false 4 0x00141234; TxHost false true 8 0 48; PushPkt; TxVlan]
    (nbi_state 0 48 control_rss NFP_NET_CFG_UPDATE_RSS bar_state).
Proof.
  replace [RxWire 104 1 false false; _; _; _; _; _; _]
    with (nbi_pipeline 0 48 0 true control_rss bar_state) by (vm_compute; reflexivity).
  apply (build_nbi_correct 0 48 NFD_VNIC_TYPE_PF 0 true);
    [apply bar_state_wf|by vm_compute|apply vnic_48|reflexivity].
Defined.

Lemma build_pf_correct_witness :
  builds (cfg_act_build_pf 0 48 (b2z true) control_rss 0) bar_state
    [RxHost 1515 true; Checksum false true false; VebLookup 0; TxWire false true 7 0;
     Checksum true false false; PushPkt; TxVlan] bar_state.
Proof.
  replace [RxHost 1515 true; _; _; _; _; _; _]
    with (pf_pipeline (tx_wire_spare bar_state) 0 48 0 true control_rss bar_state) by (vm_compute; reflexivity).
  apply (build_pf_correct 0 48 NFD_VNIC_TYPE_PF 0 true);
    [apply bar_state_wf|apply vnic_48|reflexivity].
Defined.

Lemma build_down_correct_witness :
  builds (cfg_act_build_pcie_down 0 48) bar_state [RxHost 1515 false; Drop] bar_state /\
  builds (cfg_act_build_ctrl 0 50) bar_state [RxHost 15 false; Cmsg] bar_state.
Proof.
  split.
  - replace [RxHost 1515 false; Drop] with (pcie_down_pipeline 0 48 bar_state)
      by (vm_compute; reflexivity).
    exact (proj1 (build_down_correct 0 48 bar_state)).
  - replace [RxHost 15 false; Cmsg] with (ctrl_pipeline 0 50 bar_state)
      by (vm_compute; reflexivity).
    exact (proj2 (proj2 (build_down_correct 0 50 bar_state)) 0 eq_refl).
Defined.

(** VF 3 has VLAN tag 5 in the mailbox. *)
Definition vf_state : nic :=
  bar_state <| emem ::= <[0x4000000 + 16 + 3 * 16 + 8 := 5]> |>.

Lemma vf_state_wf : wf_emem vf_state.
Proof.
  intros a. unfold vf_state, rd. st. rewrite lookup_insert. case_decide; [by vm_compute|].
  apply bar_state_wf.
Qed.

Lemma build_vf_correct_witness :
  builds (cfg_act_build_vf 0 3 control_rss 0) vf_state
    [RxHost 15 true; PushVlan 5; VebLookup 0; TxWire false true 7 0;
     TxHost false true 8 0 48; PushPkt; TxVlan] vf_state.
Proof.
  replace [RxHost 15 true; _; _; _; _; _; _]
    with (vf_pipeline (tx_wire_spare vf_state) 0 3 control_rss 0 vf_state) by (vm_compute; reflexivity).
  apply (build_vf_correct 0 3 NFD_VNIC_TYPE_VF 3);
    [apply vf_state_wf|by vm_compute|apply vnic_3|reflexivity].
Defined.

Lemma build_veb_correct_witness :
  builds (cfg_act_build_veb_vf 0 3 control_rss 0 0) vf_state
    [PopVlan; Checksum true true false; TxHost false false 0 0 3] vf_state.
Proof.
  replace [PopVlan; _; _] with (veb_vf_pipeline 0 3 3 control_rss 0 vf_state)
    by (vm_compute; reflexivity).
  apply (build_veb_correct 0 3 NFD_VNIC_TYPE_VF 3 control_rss 0 0);
    [apply vf_state_wf|by vm_compute|apply vnic_3|reflexivity].
Defined.

(** A promiscuous PF with a BPF program. *)
Definition control_promisc_bpf : Z :=
  lor_list [NFP_NET_CFG_CTRL_ENABLE; NFP_NET_CFG_CTRL_PROMISC; NFP_NET_CFG_CTRL_BPF].

Lemma vnic_25 : vnic_is 25 NFD_VNIC_TYPE_VF 25.
Proof. by split. Qed.

Lemma veb_vf_runs_other_bpf_witness :
  exists lvf lpf s' a,
    builds (cfg_act_build_veb_vf 0 25 control_promisc_bpf 0 0) bar_state lvf bar_state /\
    builds (cfg_act_build_veb_pf 0 (NFD_PF2VID 0) control_promisc_bpf 0) bar_state lpf s' /\
    Ebpf a ∈ lvf /\ Ebpf NFD_BPF_START_OFF ∈ lpf /\
    a <> NFD_BPF_START_OFF /\ (25 = 25 -> a < NFD_BPF_START_OFF).
Proof.
  apply veb_vf_runs_other_bpf;
    [apply bar_state_wf|by vm_compute|apply vnic_25|by vm_compute..].
Defined.

Lemma bpf_update_keeps_rss_table_witness : update_rss NFP_NET_CFG_UPDATE_BPF = false.
Proof. rewrite bpf_update_keeps_rss_table; by vm_compute. Defined.

Lemma rss_max_queue_uneven_witness :
  rss_max_queue (Z.ones 4) 0 = 4 + 0 /\ rss_max_queue (Z.ones 32) (Z.ones 4) = 32 + 4 + 0 - 1.
Proof.
  apply (rss_max_queue_uneven 0 4 0); [|lia].
  intros x k Hk Hx Hlow. by apply (lowest_bit_spec 32).
Defined.

Lemma remove_strip_vlan_correct_witness :
  exists acts, cfg_act_remove_strip_vlan
      (repr [PushPkt; PopVlan; Checksum true true false; TxHost false false 8 0 3]) nic0 =
      Some (acts, nic0) /\
    decode 16 (written acts) = Some [PushPkt; Checksum true true false; TxHost false false 8 0 3].
Proof.
  refine (proj1 (remove_strip_vlan_correct [PushPkt] (Checksum true true false)
    [TxHost false false 8 0 3] nic0 _ _ _)).
  - by repeat constructor.
  - by repeat constructor.
  - simpl. lia.
Defined.

Lemma remove_strip_vlan_takes_rss_key_witness :
  exists acts proto idx v1 maxq key',
    cfg_act_remove_strip_vlan (repr (veb_pf_pipeline 0 48 0 control_rss bar_state)) bar_state =
      Some (acts, bar_state) /\
    decode 16 (written acts) =
      Some [Checksum true true (has control_rss NFP_NET_CFG_CTRL_CSUM_COMPLETE);
            Rss proto idx v1 maxq key'] /\
    instr_op key' = op_num INSTR_TX_HOST.
Proof.
  apply remove_strip_vlan_takes_rss_key;
    [apply bar_state_wf|by vm_compute|by vm_compute|by vm_compute].
Defined.
