(* ===== verification/NicTables.v ===== *)
(** * VLAN membership: apps/nic/nic_tables.c

    The table [nic_vlan_to_vnics_map_tbl] holds for each island and VLAN one
    64-bit word: the VFs that are members of the VLAN in the lower bits, and
    the smallest receive buffer of the members, in units of 256 bytes, in the
    upper six bits. *)

From S2P Require Import Prelude Platform UserCfg Nfd Machine.

Definition NIC_NUM_VLANS : Z := 4096.
Definition NIC_MAX_VLAN_ID : Z := 4095.
Definition NIC_NO_VLAN_ID : Z := 4095.

Section nic_tables.
Context {B : build} `{NetCfg, Vids, VfCfg, App}.

(** [nic_vlan_to_vnics_map_tbl[NFD_MAX_ISL][NIC_NUM_VLANS]] *)
Definition vlan_tbl_ok (pcie vlan : Z) : bool :=
  (0 <=? pcie) && (pcie <? NFD_MAX_ISL) && (0 <=? vlan) && (vlan <? NIC_NUM_VLANS).

Definition read_members (pcie vlan : Z) : C Z :=
  arr_get nic_vlan_to_vnics_map_tbl (vlan_tbl_ok pcie vlan) (pcie, vlan).

Definition write_members (pcie vlan v : Z) : C unit :=
  _ ← require (vlan_tbl_ok pcie vlan);
  modify (fun s => s <| nic_vlan_to_vnics_map_tbl ::= <[(pcie, vlan) := v]> |>).

(** [(1ull << NFD_MAX_VFS) - 1] *)
Definition vf_mask : Z := u64 (u64 (Z.shiftl 1 (NFD_MAX_VFS B)) - 1).

(** [1ull << vid]: undefined for 64 and more *)
Definition vf_bit (vid : Z) : C Z :=
  _ ← require ((0 <=? vid) && (vid <? 64)); mret (Z.shiftl 1 vid).

(** [(rxb_r >> 8) & 0x3f] *)
Definition rxb_units (rxb_r : Z) : Z := Z.land (Z.shiftr rxb_r 8) 0x3f.

Definition read_rxb (pcie vid : Z) : C Z :=
  mem_read32 (nfd_cfg_bar_base pcie vid + NFP_NET_CFG_FLBUFSZ).

(** The members are stored through a pointer, and only on success. *)
Definition load_vlan_members (pcie vlan_id : Z) : C (Z * option Z) :=
  let vlan_id := u16 vlan_id in
  if vlan_id <=? NIC_MAX_VLAN_ID then
    members ← read_members pcie vlan_id; mret (0, Some members)
  else mret (-1, None).

Definition add_vlan_member (pcie vlan_id vid : Z) : C Z :=
  let vlan_id := u16 vlan_id in
  let vid := u16 vid in
  if vlan_id >? NIC_MAX_VLAN_ID then mret (-1)
  else
    members_r ← read_members pcie vlan_id;
    let min_rxb := Z.shiftr members_r 58 in
    rxb_r ← read_rxb pcie vid;
    let min_rxb :=
      if Z.land members_r vf_mask =? 0 then rxb_units rxb_r
      else if min_rxb <? rxb_units rxb_r then min_rxb else rxb_units rxb_r in
    bit ← vf_bit vid;
    let members_w := Z.lor (Z.land (Z.lor members_r bit) vf_mask) (u64 (Z.shiftl min_rxb 58)) in
    _ ← write_members pcie vlan_id members_w;
    mret 0.

(** [min_rxb = (min_rxb < (rxb_r >> 8) & 0x3f) ? min_rxb : (rxb_r >> 8) & 0x3f;]
    where [<] binds tighter than [&]. *)
Definition min_rxb_step (min_rxb rxb_r : Z) : Z :=
  if truthy (Z.land (b2z (min_rxb <? Z.shiftr rxb_r 8)) 0x3f) then min_rxb else rxb_units rxb_r.

Definition remove_vlan_member_one (pcie vid vlan : Z) : C unit :=
  members_r ← read_members pcie vlan;
  bit ← vf_bit vid;
  let members := Z.land (Z.land members_r vf_mask) (u64 (Z.lnot bit)) in
  members ← (if truthy members then
    min_rxb ← for_fold (if truthy (NFD_MAX_VFS B) then range 0 (NFD_MAX_VFS B) else [])
      (Z.shiftl 1 6 - 1) (fun min_rxb vid_idx =>
        b ← vf_bit vid_idx;
        if truthy (Z.land members b) then
          rxb_r ← read_rxb pcie vid_idx;
          mret (min_rxb_step min_rxb rxb_r)
        else mret min_rxb);
    mret (Z.lor members (u64 (Z.shiftl min_rxb 56)))
  else mret members);
  write_members pcie vlan members.

Definition remove_vlan_member (pcie vid : Z) : C Z :=
  let vid := u16 vid in
  _ ← for_each (range 0 (NIC_MAX_VLAN_ID + 1)) (remove_vlan_member_one pcie vid);
  mret 0.
End nic_tables.

(** * Properties *)

Section proofs.
Context {B : build} `{NetCfg, Vids, VfCfg, App}.

(** The buffer size of a vNIC in its BAR, in units of 256 bytes. *)
Definition rxb (pcie v : Z) (s : nic) : Z :=
  Z.shiftr (rd (emem s) (nfd_cfg_bar_base pcie v + NFP_NET_CFG_FLBUFSZ)) 8.

(** [m] is the smallest buffer of the members of the word [w]. *)
Definition is_min_rxb (pcie w m : Z) (s : nic) : Prop :=
  (exists v, 0 <= v < NFD_MAX_VFS B /\ Z.testbit w v = true /\ m = rxb pcie v s) /\
  (forall v, 0 <= v < NFD_MAX_VFS B -> Z.testbit w v = true -> m <= rxb pcie v s).

Definition entry (pcie vlan : Z) (s : nic) : Z := rd (nic_vlan_to_vnics_map_tbl s) (pcie, vlan).

Lemma max_vfs_range : 0 <= NFD_MAX_VFS B <= 56.
Proof. pose proof (sizes_facts B). tauto. Qed.

Lemma vf_mask_ones : vf_mask = Z.ones (NFD_MAX_VFS B).
Proof. destruct B as [[] []]; by vm_compute. Qed.

Lemma vlan_tbl_ok_true pcie vlan : 0 <= pcie < NFD_MAX_ISL -> 0 <= vlan < 4096 ->
  vlan_tbl_ok pcie vlan = true.
Proof.
  intros. unfold vlan_tbl_ok, NIC_NUM_VLANS.
  rewrite (proj2 (Z.leb_le 0 pcie)), (proj2 (Z.ltb_lt pcie _)), (proj2 (Z.leb_le 0 vlan)),
    (proj2 (Z.ltb_lt vlan _)) by lia. done.
Qed.

Lemma run_vf_bit {A} v (k : Z -> C A) s : 0 <= v < 64 ->
  (vf_bit v ≫= k) s = k (Z.shiftl 1 v) s.
Proof.
  intros. unfold vf_bit, require.
  rewrite (proj2 (Z.leb_le 0 v)), (proj2 (Z.ltb_lt v 64)) by lia. done.
Qed.

Lemma testbit_shiftl1 v i : 0 <= v -> Z.testbit (Z.shiftl 1 v) i = (i =? v).
Proof.
  intros. rewrite Z.shiftl_1_l. destruct (Z.eqb_spec i v) as [->|].
  - by apply Z.pow2_bits_true.
  - apply Z.pow2_bits_false. lia.
Qed.

Lemma truthy_land_bit w v : 0 <= v -> truthy (Z.land w (Z.shiftl 1 v)) = Z.testbit w v.
Proof.
  intros. unfold truthy. destruct (Z.testbit w v) eqn:E.
  - apply negb_true_iff, Z.eqb_neq. intros Hz. apply (f_equal (fun z => Z.testbit z v)) in Hz.
    rewrite Z.land_spec, testbit_shiftl1, Z.eqb_refl, E, Z.testbit_0_l in Hz by done. done.
  - apply negb_false_iff, Z.eqb_eq. apply Z.bits_inj'; intros i Hi.
    rewrite Z.land_spec, testbit_shiftl1, Z.testbit_0_l by done.
    destruct (Z.eqb_spec i v) as [->|]; [by rewrite E|by rewrite andb_false_r].
Qed.

(** The word that add_vlan_member writes. *)
Definition added (pcie vid w : Z) (s : nic) : Z :=
  let new := rxb_units (rd (emem s) (nfd_cfg_bar_base pcie vid + NFP_NET_CFG_FLBUFSZ)) in
  let old := Z.shiftr w 58 in
  Z.lor (Z.land (Z.lor w (Z.shiftl 1 vid)) vf_mask)
    (u64 (Z.shiftl (if Z.land w vf_mask =? 0 then new else if old <? new then old else new) 58)).

Lemma run_add_vlan_member pcie vlan vid s :
  0 <= pcie < NFD_MAX_ISL -> 0 <= vlan < 4096 -> 0 <= vid < NFD_MAX_VFS B ->
  add_vlan_member pcie vlan vid s =
  Some (0, s <| nic_vlan_to_vnics_map_tbl ::=
                  <[(pcie, vlan) := added pcie vid (entry pcie vlan s) s]> |>).
Proof.
  intros Hp Hv Hvid. pose proof max_vfs_range. unfold add_vlan_member.
  rewrite !(wrap_small 16) by (unfold fits; lia).
  destruct (Z.gtb_spec vlan NIC_MAX_VLAN_ID) as [Hgt|]; [unfold NIC_MAX_VLAN_ID in Hgt; lia|].
  unfold read_members, arr_get, read_rxb, mem_read32, write_members. runs.
  rewrite run_require by by apply vlan_tbl_ok_true. runs. rewrite run_vf_bit by lia.
  runs. rewrite run_require by by apply vlan_tbl_ok_true. runs. done.
Qed.

Lemma rxb_units_small pcie v s : fits 6 (rxb pcie v s) ->
  rxb_units (rd (emem s) (nfd_cfg_bar_base pcie v + NFP_NET_CFG_FLBUFSZ)) = rxb pcie v s.
Proof.
  intros Hf. unfold rxb_units. change 0x3f with (Z.ones 6).
  rewrite Z.land_ones by lia. by apply wrap_small.
Qed.

(** Bits of a word composed of a mask of members and a field. *)
Lemma low_bits m f k i : fits 56 m -> 56 <= k -> 0 <= i < k ->
  Z.testbit (Z.lor m (u64 (Z.shiftl f k))) i = Z.testbit m i.
Proof.
  intros Hm Hk Hi. rewrite Z.lor_spec, testbit_wrap, Z.shiftl_spec, (Z.testbit_neg_r f) by lia.
  by rewrite andb_false_r, orb_false_r.
Qed.

Lemma high_bits m f k : fits 56 m -> 56 <= k <= 58 -> fits 6 f ->
  Z.shiftr (Z.lor m (u64 (Z.shiftl f k))) k = f.
Proof.
  intros Hm Hk Hf. apply Z.bits_inj'; intros i Hi.
  rewrite Z.shiftr_spec, Z.lor_spec, testbit_wrap, Z.shiftl_spec by lia.
  rewrite (testbit_fits 56 m) by (done || lia). replace (i + k - k) with i by lia. simpl.
  destruct (Z.ltb_spec (i + k) 64); [done|]. symmetry. apply (testbit_fits 6); lia || done.
Qed.

Lemma land_vf_mask_fits w : fits 56 (Z.land w vf_mask).
Proof.
  pose proof max_vfs_range. rewrite vf_mask_ones, Z.land_ones by lia.
  apply (fits_mono (NFD_MAX_VFS B)); [lia|]. apply wrap_fits. lia.
Qed.

Lemma testbit_land_vf_mask w i : 0 <= i ->
  Z.testbit (Z.land w vf_mask) i = (i <? NFD_MAX_VFS B) && Z.testbit w i.
Proof.
  intros. pose proof max_vfs_range. rewrite Z.land_spec, vf_mask_ones, Z.testbit_ones by lia.
  rewrite (proj2 (Z.leb_le 0 i)) by lia. by rewrite andb_comm.
Qed.

Lemma no_members w : Z.land w vf_mask = 0 <->
  forall v, 0 <= v < NFD_MAX_VFS B -> Z.testbit w v = false.
Proof.
  split.
  - intros Hz v Hv. apply (f_equal (fun z => Z.testbit z v)) in Hz.
    rewrite testbit_land_vf_mask, (proj2 (Z.ltb_lt _ _)), Z.testbit_0_l in Hz by lia. done.
  - intros Hall. apply Z.bits_inj'; intros i Hi.
    rewrite testbit_land_vf_mask, Z.testbit_0_l by done.
    destruct (Z.ltb_spec i (NFD_MAX_VFS B)); [by rewrite Hall by lia|done].
Qed.

(** Receive buffers of less than 64 units: the six bits hold their sizes. *)
Definition small_buffers (pcie : Z) (s : nic) : Prop :=
  forall v, 0 <= v < NFD_MAX_VFS B -> fits 6 (rxb pcie v s).

Lemma is_min_fits pcie w m s : small_buffers pcie s -> is_min_rxb pcie w m s -> fits 6 m.
Proof. intros Hb [(v & Hv & _ & ->) _]. by apply Hb. Qed.

(** Only the member bits count. *)
Lemma is_min_ext pcie w w' m s :
  (forall v, 0 <= v < NFD_MAX_VFS B -> Z.testbit w v = Z.testbit w' v) ->
  is_min_rxb pcie w m s -> is_min_rxb pcie w' m s.
Proof.
  intros Hww [(v & Hv & Hw & Hm) Hle]. split.
  - exists v. rewrite <- Hww by done. done.
  - intros v' Hv' Hw'. apply Hle; [done|]. by rewrite Hww.
Qed.

(** The smallest buffer when one more VF is a member. *)
Lemma is_min_add pcie w m vid s :
  0 <= vid < NFD_MAX_VFS B -> Z.land w vf_mask = 0 \/ is_min_rxb pcie w m s ->
  is_min_rxb pcie (Z.lor w (Z.shiftl 1 vid))
    (if Z.land w vf_mask =? 0 then rxb pcie vid s
     else if m <? rxb pcie vid s then m else rxb pcie vid s) s.
Proof.
  intros Hvid Hm.
  assert (Hbit : forall v, Z.testbit (Z.lor w (Z.shiftl 1 vid)) v = Z.testbit w v || (v =? vid))
    by (intros v; rewrite Z.lor_spec, testbit_shiftl1 by lia; done).
  destruct (Z.eqb_spec (Z.land w vf_mask) 0) as [Hz|Hne].
  - rewrite no_members in Hz. split.
    + exists vid. rewrite Hbit, Z.eqb_refl, orb_true_r. done.
    + intros v Hv. rewrite Hbit, Hz by done. by intros ->%Z.eqb_eq.
  - destruct Hm as [|[(v & Hv & Hw & ->) Hle]]; [done|]. split.
    + destruct (Z.ltb_spec (rxb pcie v s) (rxb pcie vid s)).
      * exists v. rewrite Hbit, Hw. done.
      * exists vid. rewrite Hbit, Z.eqb_refl, orb_true_r. done.
    + intros v' Hv'. rewrite Hbit. intros [Hw'| ->%Z.eqb_eq]%orb_true_iff.
      * specialize (Hle v' Hv' Hw'). destruct (Z.ltb_spec (rxb pcie v s) (rxb pcie vid s)); lia.
      * destruct (Z.ltb_spec (rxb pcie v s) (rxb pcie vid s)); lia.
Qed.

(** A VF that joins a VLAN is a member of it, the other members stay, no
    other entry and no other memory changes, and the upper six bits keep their
    meaning: if they held the smallest receive buffer of the members before,
    they hold the smallest buffer of the members afterwards. *)
Theorem add_vlan_member_correct pcie vlan vid s :
  0 <= pcie < NFD_MAX_ISL -> 0 <= vlan < 4096 -> 0 <= vid < NFD_MAX_VFS B ->
  small_buffers pcie s ->
  let w := entry pcie vlan s in
  Z.land w vf_mask = 0 \/ is_min_rxb pcie w (Z.shiftr w 58) s ->
  exists w', add_vlan_member pcie vlan vid s =
      Some (0, s <| nic_vlan_to_vnics_map_tbl ::= <[(pcie, vlan) := w']> |>) /\
    (forall v, 0 <= v < 58 ->
       Z.testbit w' v = (v <? NFD_MAX_VFS B) && (Z.testbit w v || (v =? vid))) /\
    is_min_rxb pcie w' (Z.shiftr w' 58) s.
Proof.
  intros Hp Hv Hvid Hb w Hmin. pose proof max_vfs_range.
  rewrite run_add_vlan_member by done. fold w. eexists. split; [reflexivity|].
  unfold added. rewrite rxb_units_small by by apply Hb.
  pose proof (is_min_add pcie w (Z.shiftr w 58) vid s Hvid Hmin) as Hnew.
  set (m := if Z.land w vf_mask =? 0 then _ else _) in *.
  pose proof (land_vf_mask_fits (Z.lor w (Z.shiftl 1 vid))) as Hlow.
  assert (Hbits : forall v, 0 <= v < 58 ->
    Z.testbit (Z.lor (Z.land (Z.lor w (Z.shiftl 1 vid)) vf_mask) (u64 (Z.shiftl m 58))) v =
    (v <? NFD_MAX_VFS B) && (Z.testbit w v || (v =? vid))).
  { intros v Hv'. rewrite low_bits by (done || lia).
    by rewrite testbit_land_vf_mask, Z.lor_spec, testbit_shiftl1 by lia. }
  split; [done|]. rewrite high_bits by (done || lia || by eapply is_min_fits).
  eapply is_min_ext; [|exact Hnew]. intros v Hv'.
  rewrite Hbits, (proj2 (Z.ltb_lt v _)), Z.lor_spec, testbit_shiftl1 by lia. done.
Qed.

(** *** Leaving *)

Definition min_rxb_of (pcie m : Z) (s : nic) : Z :=
  foldl (fun a v => if truthy (Z.land m (Z.shiftl 1 v))
    then min_rxb_step a (rd (emem s) (nfd_cfg_bar_base pcie v + NFP_NET_CFG_FLBUFSZ)) else a)
    (Z.shiftl 1 6 - 1) (if truthy (NFD_MAX_VFS B) then range 0 (NFD_MAX_VFS B) else []).

(** The word that remove_vlan_member writes. *)
Definition removed (pcie vid : Z) (s : nic) (w : Z) : Z :=
  let m := Z.land (Z.land w vf_mask) (u64 (Z.lnot (Z.shiftl 1 vid))) in
  if truthy m then Z.lor m (u64 (Z.shiftl (min_rxb_of pcie m s) 56)) else m.

Lemma run_remove_one pcie vid vlan s :
  0 <= pcie < NFD_MAX_ISL -> 0 <= vlan < 4096 -> 0 <= vid < 64 ->
  remove_vlan_member_one pcie vid vlan s =
  Some (tt, s <| nic_vlan_to_vnics_map_tbl ::=
                  <[(pcie, vlan) := removed pcie vid s (entry pcie vlan s)]> |>).
Proof.
  intros Hp Hv Hvid. pose proof max_vfs_range. unfold remove_vlan_member_one.
  unfold read_members, arr_get. runs. rewrite run_require by by apply vlan_tbl_ok_true. runs.
  rewrite run_vf_bit by done. fold (entry pcie vlan s). unfold removed.
  set (m := Z.land (Z.land _ vf_mask) _). cbv zeta. destruct (truthy m).
  - rewrite run_assoc. erewrite run_some.
    2:{ apply for_fold_pure. intros b v Hin. rewrite run_vf_bit.
        2:{ destruct (truthy (NFD_MAX_VFS B)); [|by apply elem_of_nil in Hin].
            apply elem_of_range in Hin. lia. }
        instantiate (1 := fun b v => if truthy (Z.land m (Z.shiftl 1 v)) then min_rxb_step b
          (rd (emem s) (nfd_cfg_bar_base pcie v + NFP_NET_CFG_FLBUFSZ)) else b). cbv beta.
        by destruct (truthy (Z.land m (Z.shiftl 1 v))). }
    cbv beta. fold (min_rxb_of pcie m s). runs. unfold write_members.
    by rewrite run_require by by apply vlan_tbl_ok_true.
  - runs. unfold write_members. by rewrite run_require by by apply vlan_tbl_ok_true.
Qed.

Definition removed_tbl (pcie vid : Z) (s : nic) : gmap (Z * Z) Z :=
  foldl (fun m v => <[(pcie, v) := removed pcie vid s (rd m (pcie, v))]> m)
    (nic_vlan_to_vnics_map_tbl s) (range 0 4096).

Lemma foldl_removed pcie vid l s :
  foldl (fun s v => s <| nic_vlan_to_vnics_map_tbl ::=
    <[(pcie, v) := removed pcie vid s (entry pcie v s)]> |>) s l =
  s <| nic_vlan_to_vnics_map_tbl := foldl (fun m v => <[(pcie, v) := removed pcie vid s
    (rd m (pcie, v))]> m) (nic_vlan_to_vnics_map_tbl s) l |>.
Proof.
  revert s. induction l as [|v l IH]; intros s; [by destruct s|]. simpl foldl. rewrite IH.
  by destruct s.
Qed.

Lemma run_remove_vlan_member pcie vid s :
  0 <= pcie < NFD_MAX_ISL -> 0 <= vid < 64 ->
  remove_vlan_member pcie vid s =
  Some (0, s <| nic_vlan_to_vnics_map_tbl := removed_tbl pcie vid s |>).
Proof.
  intros Hp Hvid. unfold remove_vlan_member. rewrite (wrap_small 16) by (unfold fits; lia).
  rewrite (run_some _ _ tt s (s <| nic_vlan_to_vnics_map_tbl := removed_tbl pcie vid s |>)); [done|].
  rewrite (for_each_total _ _ (fun s v => s <| nic_vlan_to_vnics_map_tbl ::=
    <[(pcie, v) := removed pcie vid s (entry pcie v s)]> |>))
    by (intros v s' Hin%elem_of_range; apply run_remove_one; unfold NIC_MAX_VLAN_ID in *; lia).
  unfold removed_tbl. change (NIC_MAX_VLAN_ID + 1) with 4096. by rewrite foldl_removed.
Qed.

Lemma entry_removed pcie vid vlan s :
  0 <= vlan < 4096 ->
  rd (removed_tbl pcie vid s) (pcie, vlan) = removed pcie vid s (entry pcie vlan s).
Proof.
  intros Hv. unfold removed_tbl, entry.
  assert (Hin : vlan ∈ range 0 4096) by by apply elem_of_range.
  assert (Hnd : NoDup (range 0 4096)) by apply NoDup_seqZ.
  generalize dependent (range 0 4096). intros l Hin Hnd.
  by apply (rd_foldl_update (fun v => (pcie, v)) (removed pcie vid s)).
Qed.

Lemma min_rxb_step_small pcie v a s : fits 6 (rxb pcie v s) ->
  min_rxb_step a (rd (emem s) (nfd_cfg_bar_base pcie v + NFP_NET_CFG_FLBUFSZ)) =
  Z.min a (rxb pcie v s).
Proof.
  intros Hf. unfold min_rxb_step. rewrite rxb_units_small by done. fold (rxb pcie v s).
  destruct (Z.ltb_spec a (rxb pcie v s)); simpl; lia.
Qed.

(** The minimum over the members of a list: below each of them and the start,
    and one of them. *)
Lemma foldl_min (p : Z -> bool) (f : Z -> Z) l a :
  let r := foldl (fun a v => if p v then Z.min a (f v) else a) a l in
  r <= a /\ (forall v, v ∈ l -> p v = true -> r <= f v) /\
  (r = a \/ exists v, v ∈ l /\ p v = true /\ r = f v).
Proof.
  revert a. induction l as [|v l IH]; intros a; simpl.
  - split; [lia|]. split; [|by left]. by intros v ?%elem_of_nil.
  - destruct (IH (if p v then Z.min a (f v) else a)) as (Hle & Hall & Hin).
    set (r := foldl _ _ l) in *. split; [destruct (p v); lia|]. split.
    + intros v' [->|Hv']%elem_of_cons Hp; [rewrite Hp in Hle; lia|by apply Hall].
    + destruct Hin as [Hin|(v' & Hin & ? & ?)];
        [|right; exists v'; split; [by apply elem_of_cons; right|done]].
      destruct (p v) eqn:Ep; [|by left]. destruct (Z.le_gt_cases a (f v)); [left; lia|].
      right. exists v. split; [by apply elem_of_cons; left|]. split; [done|lia].
Qed.

Lemma foldl_ext_in {A C'} (f g : A -> C' -> A) l a :
  (forall a x, x ∈ l -> f a x = g a x) -> foldl f a l = foldl g a l.
Proof.
  revert a. induction l as [|x l IH]; intros a Hfg; [done|]. simpl.
  rewrite Hfg by by apply elem_of_cons; left. apply IH. intros. apply Hfg.
  by apply elem_of_cons; right.
Qed.

Lemma has_member m : Z.land m vf_mask <> 0 ->
  exists v, 0 <= v < NFD_MAX_VFS B /\ Z.testbit m v = true.
Proof.
  intros Hne. destruct (existsb (Z.testbit m) (range 0 (NFD_MAX_VFS B))) eqn:Eex.
  - apply existsb_exists in Eex as (v & Hv%list_elem_of_In & Hm1).
    apply elem_of_range in Hv. by exists v.
  - exfalso. apply Hne, no_members. intros v Hv. apply not_true_iff_false. intros Hm1.
    apply not_true_iff_false in Eex. apply Eex, existsb_exists. exists v.
    split; [|done]. by apply list_elem_of_In, elem_of_range.
Qed.

Lemma min_rxb_of_min pcie m s :
  small_buffers pcie s -> Z.land m vf_mask <> 0 ->
  is_min_rxb pcie m (min_rxb_of pcie m s) s.
Proof.
  intros Hb Hne. pose proof max_vfs_range. destruct (has_member m Hne) as (v0 & Hv0 & Hm0).
  assert (truthy (NFD_MAX_VFS B) = true) as E
    by (unfold truthy; apply negb_true_iff, Z.eqb_neq; lia).
  unfold min_rxb_of. rewrite E.
  rewrite (foldl_ext_in _ (fun a v => if Z.testbit m v then Z.min a (rxb pcie v s) else a)).
  2:{ intros a v Hv%elem_of_range. rewrite truthy_land_bit by lia.
      by rewrite min_rxb_step_small by by apply Hb. }
  destruct (foldl_min (Z.testbit m) (fun v => rxb pcie v s) (range 0 (NFD_MAX_VFS B))
    (Z.shiftl 1 6 - 1)) as (_ & Hall & Hin).
  set (r := foldl _ _ _) in *. split.
  - destruct Hin as [Hr|(v & Hv%elem_of_range & ? & ?)]; [|by exists v].
    exists v0. split; [done|]. split; [done|].
    specialize (Hall v0 ltac:(by apply elem_of_range) Hm0).
    pose proof (Hb v0 Hv0) as [_ Hf]. change (Z.shiftl 1 6 - 1) with 63 in *. lia.
  - intros v Hv Hm1. apply Hall; [by apply elem_of_range|done].
Qed.

(** The member bits of the word that remove_vlan_member writes, and what it
    writes above them. *)
Lemma removed_spec pcie vid s w :
  small_buffers pcie s -> 0 <= vid < 64 ->
  let w' := removed pcie vid s w in
  (forall v, 0 <= v < 56 ->
     Z.testbit w' v = (v <? NFD_MAX_VFS B) && (Z.testbit w v && negb (v =? vid))) /\
  (Z.land w' vf_mask = 0 -> w' = 0) /\
  (Z.land w' vf_mask <> 0 -> is_min_rxb pcie w' (Z.shiftr w' 56) s).
Proof.
  intros Hb Hvid. pose proof max_vfs_range as Hmax. unfold removed.
  set (m := Z.land (Z.land w vf_mask) (u64 (Z.lnot (Z.shiftl 1 vid)))).
  assert (Hmf : fits 56 m) by (apply fits_land_l; [lia|apply land_vf_mask_fits]).
  assert (Hm : forall v, 0 <= v < 56 ->
    Z.testbit m v = (v <? NFD_MAX_VFS B) && (Z.testbit w v && negb (v =? vid))).
  { intros v Hv. unfold m. rewrite Z.land_spec, testbit_land_vf_mask by lia.
    rewrite testbit_wrap, testbit_lnot, testbit_shiftl1, (proj2 (Z.leb_le 0 v)),
      (proj2 (Z.ltb_lt v 64)) by lia. cbn [andb]. by rewrite andb_assoc. }
  assert (Hmm : forall x, (forall v, 0 <= v < 56 -> Z.testbit x v = Z.testbit m v) ->
    Z.land x vf_mask = m).
  { intros x Hx. apply Z.bits_inj'; intros i Hi. rewrite testbit_land_vf_mask by done.
    destruct (Z.ltb_spec i (NFD_MAX_VFS B)); [by rewrite Hx by lia|].
    destruct (Z.lt_ge_cases i 56); [|by rewrite (testbit_fits 56 m) by (done || lia)].
    rewrite Hm by lia. by rewrite (proj2 (Z.ltb_ge i _)) by lia. }
  unfold truthy. destruct (Z.eqb_spec m 0) as [Hz|Hnz]; cbn [negb].
  - split; [done|]. split; [done|]. intros Hne. by rewrite Hz, Z.land_0_l in Hne.
  - set (r := min_rxb_of pcie m s).
    assert (Hr : is_min_rxb pcie m r s) by (apply min_rxb_of_min; [done|by rewrite Hmm]).
    assert (Hlow : forall v, 0 <= v < 56 ->
      Z.testbit (Z.lor m (u64 (Z.shiftl r 56))) v = Z.testbit m v)
      by (intros v Hv; by apply low_bits).
    split; [intros v Hv; by rewrite Hlow, Hm|]. rewrite Hmm by done. split; [done|].
    intros _. rewrite high_bits by (done || lia || by eapply is_min_fits).
    eapply is_min_ext; [|exact Hr]. intros v Hv. by rewrite Hlow by lia.
Qed.

Lemma remove_vlan_member_spec pcie vid s :
  0 <= pcie < NFD_MAX_ISL -> 0 <= vid < 64 -> small_buffers pcie s ->
  exists s', remove_vlan_member pcie vid s = Some (0, s') /\
    s' = s <| nic_vlan_to_vnics_map_tbl := nic_vlan_to_vnics_map_tbl s' |> /\
    (forall p vlan, p <> pcie -> entry p vlan s' = entry p vlan s) /\
    forall vlan, 0 <= vlan < 4096 ->
      let w' := entry pcie vlan s' in
      (forall v, 0 <= v < 56 -> Z.testbit w' v =
         (v <? NFD_MAX_VFS B) && (Z.testbit (entry pcie vlan s) v && negb (v =? vid))) /\
      (Z.land w' vf_mask = 0 -> w' = 0) /\
      (Z.land w' vf_mask <> 0 -> is_min_rxb pcie w' (Z.shiftr w' 56) s).
Proof.
  intros Hp Hvid Hb. rewrite run_remove_vlan_member by done.
  eexists. split; [reflexivity|]. split; [st; reflexivity|]. unfold entry. st. split.
  - intros p vlan Hne. unfold removed_tbl. generalize (range 0 4096). intros l.
    apply (rd_foldl_update_out (fun v => (pcie, v))). congruence.
  - intros vlan Hv. rewrite entry_removed by done. by apply removed_spec.
Qed.

(** a VF that leaves is no longer a member of any VLAN of the island; the
    other members of each of the 4096 VLANs stay, an entry without members is
    zero, and no other memory changes.  The smallest buffer of the remaining
    members is computed, and is found from bit 56 up. *)
Theorem remove_vlan_member_correct pcie vid s :
  0 <= pcie < NFD_MAX_ISL -> 0 <= vid < 64 -> small_buffers pcie s ->
  exists s', remove_vlan_member pcie vid s = Some (0, s') /\
    s' = s <| nic_vlan_to_vnics_map_tbl := nic_vlan_to_vnics_map_tbl s' |> /\
    (forall p vlan, p <> pcie -> entry p vlan s' = entry p vlan s) /\
    forall vlan, 0 <= vlan < 4096 ->
      let w' := entry pcie vlan s' in
      (forall v, 0 <= v < 56 -> Z.testbit w' v =
         (v <? NFD_MAX_VFS B) && (Z.testbit (entry pcie vlan s) v && negb (v =? vid))) /\
      (Z.land w' vf_mask = 0 -> w' = 0) /\
      (Z.land w' vf_mask <> 0 -> is_min_rxb pcie w' (Z.shiftr w' 56) s).
Proof. apply remove_vlan_member_spec. Qed.

(** the documented word has the members in bits 0 to 57 and the smallest
    buffer in bits 58 to 63, and that is what add_vlan_member reads and writes;
    remove_vlan_member writes the buffer from bit 56 up.  Whenever members
    remain, the field then reads as a quarter of the smallest buffer, and its
    two lowest bits appear as members 56 and 57. *)
Theorem remove_vlan_member_misplaces_min_rxb pcie vid vlan m s :
  0 <= pcie < NFD_MAX_ISL -> 0 <= vid < 64 -> 0 <= vlan < 4096 -> small_buffers pcie s ->
  is_min_rxb pcie (Z.ldiff (entry pcie vlan s) (Z.shiftl 1 vid)) m s ->
  exists s', remove_vlan_member pcie vid s = Some (0, s') /\
    let w' := entry pcie vlan s' in
    Z.shiftr w' 58 = m / 4 /\
    Z.testbit w' 56 = Z.testbit m 0 /\ Z.testbit w' 57 = Z.testbit m 1.
Proof.
  intros Hp Hvid Hv Hb [(v & Hvf & Hbit & ->) Hle]. pose proof max_vfs_range.
  rewrite run_remove_vlan_member by done. eexists. split; [reflexivity|].
  unfold entry at 1. st. rewrite entry_removed by done.
  destruct (removed_spec pcie vid s (entry pcie vlan s) Hb Hvid) as (Hbits & _ & Hmin).
  set (w' := removed pcie vid s (entry pcie vlan s)) in *. cbv zeta.
  assert (Hsame : forall v, 0 <= v < NFD_MAX_VFS B -> Z.testbit w' v =
    Z.testbit (Z.ldiff (entry pcie vlan s) (Z.shiftl 1 vid)) v).
  { intros v' Hv'. rewrite Hbits, (proj2 (Z.ltb_lt v' _)) by lia.
    by rewrite Z.ldiff_spec, testbit_shiftl1 by lia. }
  assert (Hm : Z.shiftr w' 56 = rxb pcie v s).
  { destruct Hmin as [(v' & Hv' & Hbit' & Heq) Hle'].
    - rewrite no_members. intros Hno. specialize (Hsame v Hvf).
      rewrite Hno, Hbit in Hsame by done. done.
    - apply Z.le_antisymm.
      + apply Hle'; [done|]. by rewrite Hsame.
      + rewrite Heq. apply Hle; [done|]. by rewrite <- Hsame. }
  rewrite <- Hm. split; [|by rewrite !Z.shiftr_spec by lia].
  change 4 with (2 ^ 2). rewrite <- Z.shiftr_div_pow2, Z.shiftr_shiftr by lia. done.
Qed.
End proofs.

(** ** Checks on concrete inputs *)

Import Demo.

(** VF 3 has receive buffers of 2048 bytes, VF 5 of 4096; VF 5 is on VLAN 7. *)
Definition vlan_state : nic :=
  nic0 <| emem := <[3 * 0x8000 + 0x1c := 2048]> (<[5 * 0x8000 + 0x1c := 4096]> ∅) |>
       <| nic_vlan_to_vnics_map_tbl := <[(0, 7) := Z.lor (Z.shiftl 16 58) 32]> ∅ |>.

Lemma vlan_state_small : small_buffers 0 vlan_state.
Proof.
  intros v _. unfold rxb, vlan_state, rd. st. rewrite !lookup_insert.
  repeat case_decide; by vm_compute.
Qed.

Lemma vlan_state_min : is_min_rxb 0 (entry 0 7 vlan_state) 16 vlan_state.
Proof.
  split.
  - exists 5. split; [by vm_compute|]. split; [by vm_compute|by vm_compute].
  - intros v Hv Hbit. replace v with 5; [by vm_compute|].
    change (entry 0 7 vlan_state) with (Z.lor (Z.shiftl 16 58) (Z.shiftl 1 5)) in Hbit.
    assert (v < 56) by (pose proof (@max_vfs_range sriov_build); lia).
    rewrite Z.lor_spec, !Z.shiftl_spec, (Z.testbit_neg_r 16) in Hbit by lia.
    rewrite <- Z.shiftl_spec, testbit_shiftl1 in Hbit by lia. by apply Z.eqb_eq in Hbit.
Qed.

Lemma add_vlan_member_correct_witness :
  exists w', add_vlan_member 0 7 3 vlan_state =
      Some (0, vlan_state <| nic_vlan_to_vnics_map_tbl ::= <[(0, 7) := w']> |>) /\
    Z.testbit w' 3 = true /\ Z.testbit w' 5 = true.
Proof.
  destruct (add_vlan_member_correct 0 7 3 vlan_state) as (w' & Hrun & Hbits & _);
    [by vm_compute|by vm_compute|by vm_compute|apply vlan_state_small| |].
  - right. exact vlan_state_min.
  - exists w'. split; [exact Hrun|]. split; rewrite Hbits by lia; by vm_compute.
Defined.

Lemma remove_vlan_member_correct_witness :
  exists s', remove_vlan_member 0 5 vlan_state = Some (0, s') /\ entry 0 7 s' = 0.
Proof.
  destruct (remove_vlan_member_correct 0 5 vlan_state) as (s' & Hrun & _ & _ & Hv);
    [by vm_compute|by vm_compute|apply vlan_state_small|].
  exists s'. split; [exact Hrun|]. destruct (Hv 7) as (Hbits & Hz & _); [lia|].
  apply Hz. apply no_members. intros v Hv'. assert (0 <= v < 56)
    by (pose proof (@max_vfs_range sriov_build); lia).
  rewrite Hbits by done. change (entry 0 7 vlan_state) with (Z.lor (Z.shiftl 16 58) (Z.shiftl 1 5)).
  rewrite Z.lor_spec, testbit_shiftl1, Z.shiftl_spec, (Z.testbit_neg_r 16) by lia.
  simpl. destruct (Z.eqb_spec v 5) as [->|]; by rewrite ?andb_false_r.
Defined.

Lemma remove_vlan_member_misplaces_min_rxb_witness :
  exists s', remove_vlan_member 0 3 vlan_state = Some (0, s') /\
    Z.shiftr (entry 0 7 s') 58 = 4.
Proof.
  destruct (remove_vlan_member_misplaces_min_rxb 0 3 7 16 vlan_state) as (s' & Hrun & Hf & _);
    [by vm_compute|by vm_compute|lia|apply vlan_state_small| |].
  - eapply is_min_ext; [|exact vlan_state_min]. intros v Hv.
    rewrite Z.ldiff_spec, testbit_shiftl1 by lia.
    change (entry 0 7 vlan_state) with (Z.lor (Z.shiftl 16 58) (Z.shiftl 1 5)).
    destruct (Z.eqb_spec v 3) as [->|]; [by vm_compute|]. by rewrite andb_true_r.
  - exists s'. split; [exact Hrun|exact Hf].
Defined.
