(* ===== verification/Veb.v ===== *)
(** * The switch between vNICs (VEB): apps/nic/app_mac_vlan_config_cmsg.c and
    cfg_act_write_veb of apps/nic/app_config_tables.c

    The entries of the switch, from VLAN and MAC to an action list, live in a
    hash table that another engine maintains; the configuration engine sends
    it messages that add or delete one entry each.  [veb_table] is the table
    that the messages sent so far ask for. *)

From S2P Require Import Prelude Platform UserCfg Nfd Machine Bus Tables ActionList Builders NicTables.

(** ** Constants of maps/cmsg_map_types.h and app_mac_vlan_config_cmsg.h *)

Definition HASHMAP_MAX_TID : Z := 255.
Definition SRIOV_TID : Z := HASHMAP_MAX_TID - 1.
Definition CMSG_TYPE_MAP_ADD : Z := 4.
Definition CMSG_TYPE_MAP_DELETE : Z := 5.
Definition CMSG_MAP_VERSION : Z := 1.
Definition NIC_MAC_VLAN_RESULT_SIZE_LW : Z := 16.
Definition SRIOV_QUEUE : Z := 64.
Definition CMESG_DISPATCH_OK : Z := 1.
Definition CMESG_DISPATCH_FAIL : Z := 0xffffffff.
Definition CTM_ALLOC_ERR : Z := 0xffffffff.
Definition NFD_IN_BLM_REG_BLS : Z := 1.

(** [enum cfg_msg_err] *)
Definition NO_ERROR : Z := 0.
Definition MAC_VLAN_ADD_FAIL : Z := 28.
Definition MAC_VLAN_DELETE_WARN : Z := 1.

Definition MAC64_FROM_VEB_KEY (k : veb_key) : Z :=
  Z.lor (Z.shiftl (mac_addr_hi k) 32) (mac_addr_lo k).

(** [VEB_KEY_FROM_MAC64]: the stores truncate to the fields. *)
Definition VEB_KEY_FROM_MAC64 (mac : Z) : veb_key :=
  mk_veb_key 0 (u16 (Z.shiftr mac 32)) (u32 mac).

Section veb.
Context {B : build} `{NetCfg, Vids, VfCfg, App}.

(** The loop from the label [retry]: ask for an MU buffer until there is one,
    with a sleep after each refusal.  The fuel bounds the tries; no result when
    it runs out. *)
Fixpoint blm_alloc_loop (fuel : nat) : C Z :=
  match fuel with
  | O => undefined
  | S fuel =>
      n ← get blm_allocs;
      _ ← modify (fun s => s <| blm_allocs ::= S |>);
      match blm_buf_alloc n with
      | Some emem_buf_h => mret emem_buf_h
      | None => _ ← sleep 100; blm_alloc_loop fuel
      end
  end.

(** The CTM allocation is not retried.  The pointer to the MU buffer goes back
    to its start before the descriptor is built. *)
Definition nic_mac_vlan_entry_op_cmsg (key : veb_key) (action_list : list Z) (operation : Z)
    : C Z :=
  n ← get ctm_allocs;
  _ ← modify (fun s => s <| ctm_allocs ::= S |>);
  let ctm_pnum := pkt_ctm_alloc n in
  if ctm_pnum =? CTM_ALLOC_ERR then mret CMESG_DISPATCH_FAIL
  else
    emem_buf_h ← blm_alloc_loop blm_fuel;
    let emem_dst := blm_buf_handle2ptr emem_buf_h in
    let msg := {|
      cm_buf := emem_dst;
      cm_word0 := Z.lor operation (Z.shiftl CMSG_MAP_VERSION 8);
      cm_tid := Z.shiftl SRIOV_TID 24; cm_count := 0; cm_flags := 0; cm_key := key;
      action_data := take (Z.to_nat NIC_MAC_VLAN_RESULT_SIZE_LW) action_list;
      workq_data := [u32 (Z.lor (Z.shiftl own_island 26) (Z.shiftl ctm_pnum 16));
                     u32 (Z.lor (Z.shiftr emem_dst 11) (Z.shiftl NFD_IN_BLM_REG_BLS 29));
                     Z.shiftl SRIOV_QUEUE 16] |} in
    _ ← modify (fun s => s <| map_cmsg_q ::= cons msg |>);
    mret CMESG_DISPATCH_OK.

(** [veb_stored_keys[NVNICS]] *)
Definition stored_key_ok (vid : Z) : bool := (0 <=? vid) && (vid <? NVNICS B NFD_MAX_CTRL).

Definition key0 : veb_key := mk_veb_key 0 0 0.

Definition stored_key (s : nic) (vid : Z) : veb_key := default key0 (veb_stored_keys s !! vid).

Definition set_vlan (v : Z) (k : veb_key) : veb_key :=
  mk_veb_key (wrap 12 v) (mac_addr_hi k) (mac_addr_lo k).

(** Which VLANs get an entry for the VLAN [new_vlan_id] of the vNIC. *)
Definition veb_wants (new_vlan_id vlan_id : Z) : bool :=
  (new_vlan_id =? NIC_NO_VLAN_ID) || (vlan_id =? new_vlan_id) ||
  ((new_vlan_id =? 0) && (vlan_id =? NIC_NO_VLAN_ID)).

(** One turn of the loop that adds entries; [None] once an add has failed.
    The key and the action list are changed in place. *)
Definition veb_add_step (new_vlan_id : Z) (st : option (veb_key * action_list)) (vlan_id : Z)
    : C (option (veb_key * action_list)) :=
  match st with
  | None => mret None
  | Some (veb_key, acts) =>
      if veb_wants new_vlan_id vlan_id then
        acts ← act_if (vlan_id =? NIC_NO_VLAN_ID) cfg_act_remove_strip_vlan acts;
        let veb_key := set_vlan vlan_id veb_key in
        r ← nic_mac_vlan_entry_op_cmsg veb_key (instr acts) CMSG_TYPE_MAP_ADD;
        if r =? CMESG_DISPATCH_FAIL then mret None else mret (Some (veb_key, acts))
      else mret st
  end.

(** Which VLANs are deleted for the key that was stored. *)
Definition veb_drops (key stored : veb_key) (new_vlan_id vlan_id : Z) : bool :=
  negb (mac_addr_hi key =? mac_addr_hi stored) || negb (mac_addr_lo key =? mac_addr_lo stored) ||
  (negb (new_vlan_id =? NIC_NO_VLAN_ID) && negb (vlan_id =? new_vlan_id)).

Definition veb_del_step (key stored : veb_key) (new_vlan_id err_code vlan_id : Z) : C Z :=
  if veb_drops key stored new_vlan_id vlan_id then
    lmem0 ← get stale_lmem0;
    r ← nic_mac_vlan_entry_op_cmsg (set_vlan vlan_id stored) lmem0 CMSG_TYPE_MAP_DELETE;
    mret (if r =? CMESG_DISPATCH_FAIL then MAC_VLAN_DELETE_WARN else err_code)
  else mret err_code.

(** The second half: store the key, delete what the previous key left. *)
Definition veb_finish (vid : Z) (veb_key : veb_key) (new_vlan_id : Z) : C Z :=
  _ ← require (stored_key_ok vid);
  stored_key_rd ← get (fun s => stored_key s vid);
  _ ← modify (fun s => s <| veb_stored_keys ::= <[vid := veb_key]> |>);
  for_fold (range 0 (NIC_NO_VLAN_ID + 1)) NO_ERROR
    (veb_del_step veb_key stored_key_rd new_vlan_id).

(** [acts] is a null pointer when the vNIC goes down; [new_vlan_id] is then
    read before it is assigned. *)
Definition cfg_act_write_veb (vid : Z) (veb_key : veb_key) (acts : option action_list) : C Z :=
  let new_mac_addr := MAC64_FROM_VEB_KEY veb_key in
  match acts with
  | None =>
      new_vlan_id ← get stale_new_vlan_id;
      veb_finish vid veb_key new_vlan_id
  | Some acts =>
      if (new_mac_addr =? 0) || truthy (Z.land (Z.shiftr new_mac_addr 40) 1)
      then mret MAC_VLAN_ADD_FAIL
      else
        let new_vlan_id := vlan_id veb_key in
        st ← for_fold (range 0 (NIC_NO_VLAN_ID + 1)) (Some (veb_key, acts))
               (veb_add_step new_vlan_id);
        match st with
        | None => mret MAC_VLAN_ADD_FAIL
        | Some (veb_key, _) => veb_finish vid veb_key new_vlan_id
        end
  end.
End veb.

(** * The table that the messages ask for *)

Definition cmsg_type (m : map_cmsg) : Z := Z.land (cm_word0 m) 0xff.

(** Adding overwrites; deleting what is not there does nothing. *)
Definition veb_apply (t : gmap veb_key (list Z)) (m : map_cmsg) : gmap veb_key (list Z) :=
  if cmsg_type m =? CMSG_TYPE_MAP_ADD then <[cm_key m := action_data m]> t
  else if cmsg_type m =? CMSG_TYPE_MAP_DELETE then delete (cm_key m) t
  else t.

Definition veb_table (s : nic) : gmap veb_key (list Z) := foldr (flip veb_apply) ∅ (map_cmsg_q s).

(** * Properties *)

Lemma for_fold_app {S A B} (l1 l2 : list A) (b : B) (body : B -> A -> M S B) s :
  for_fold (l1 ++ l2) b body s = (for_fold l1 b body ≫= fun b' => for_fold l2 b' body) s.
Proof.
  revert b s. induction l1 as [|x l1 IH]; intros b s; [done|].
  simpl. unfold mbind, M_bind in *. destruct (body b x s) as [[]|]; auto.
Qed.

Lemma bool_decide_cons (x v : Z) l :
  bool_decide (x ∈ v :: l) = bool_decide (x = v) || bool_decide (x ∈ l).
Proof.
  rewrite <- bool_decide_or. apply bool_decide_ext. apply elem_of_cons.
Qed.

Section proofs.
Context {B : build} `{NetCfg, Vids, VfCfg, App}.

(** Only messages were sent between [s] and [s'], with sleeps of 100 cycles
    when there was no buffer for one. *)
Definition slept_bus (s s' : nic) : list bus_event :=
  replicate (length (bus s') - length (bus s)) (Sleep 100) ++ bus s.

Definition only_msgs (s s' : nic) : Prop :=
  s' = s <| ctm_allocs := ctm_allocs s' |> <| blm_allocs := blm_allocs s' |>
         <| map_cmsg_q := map_cmsg_q s' |> <| bus := slept_bus s s' |>.

Lemma slept_bus_intro k s s' :
  bus s' = replicate k (Sleep 100) ++ bus s -> slept_bus s s' = bus s'.
Proof.
  intros Hb. unfold slept_bus. rewrite Hb, length_app, length_replicate.
  by rewrite Nat.add_sub.
Qed.

Lemma only_msgs_intro k s s' :
  s' = s <| ctm_allocs := ctm_allocs s' |> <| blm_allocs := blm_allocs s' |>
         <| map_cmsg_q := map_cmsg_q s' |> <| bus := bus s' |> ->
  bus s' = replicate k (Sleep 100) ++ bus s -> only_msgs s s'.
Proof. intros Hs Hb. unfold only_msgs. by rewrite (slept_bus_intro k). Qed.

Lemma only_msgs_bus s s' : only_msgs s s' ->
  exists k, bus s' = replicate k (Sleep 100) ++ bus s.
Proof. intros Hs. eexists. exact (f_equal bus Hs). Qed.

#[local] Instance only_msgs_preorder : PreOrder only_msgs.
Proof.
  split.
  - intros s. apply (only_msgs_intro 0); by destruct s.
  - intros s1 s2 s3 H1' H2'. destruct (only_msgs_bus _ _ H1') as [k1 E1].
    destruct (only_msgs_bus _ _ H2') as [k2 E2].
    apply (only_msgs_intro (k2 + k1)).
    + unfold only_msgs in *. rewrite H2', H1'. st. by destruct s1.
    + by rewrite E2, E1, app_assoc, <- replicate_add.
Qed.

(** The stored keys make no difference. *)
Lemma only_msgs_keys x s s' :
  only_msgs s s' -> only_msgs (s <| veb_stored_keys := x |>) (s' <| veb_stored_keys := x |>).
Proof.
  intros Hs. exact (f_equal (fun s => s <| veb_stored_keys := x |>) Hs).
Qed.

(** No CTM allocation fails; whatever was tried before, an MU buffer comes
    within [blm_fuel] tries. *)
Definition ctm_alloc_ok : Prop := forall n, pkt_ctm_alloc n <> CTM_ALLOC_ERR.
Definition blm_answers : Prop :=
  forall n, exists k, (k < blm_fuel)%nat /\ is_Some (blm_buf_alloc (n + k)).
Definition allocs_ok : Prop := ctm_alloc_ok /\ blm_answers.

Lemma run_blm_alloc_loop fuel k s :
  (k < fuel)%nat -> is_Some (blm_buf_alloc (blm_allocs s + k)) ->
  exists h s', blm_alloc_loop fuel s = Some (h, s') /\ only_msgs s s' /\
    map_cmsg_q s' = map_cmsg_q s /\ ctm_allocs s' = ctm_allocs s.
Proof.
  revert k s. induction fuel as [|fuel IH]; intros k s Hk Hsome; [lia|].
  cbn [blm_alloc_loop]. runs. destruct (blm_buf_alloc (blm_allocs s)) as [h|] eqn:E.
  - eexists h, _. split; [reflexivity|]. split; [|done].
    apply (only_msgs_intro 0); by destruct s.
  - destruct k as [|k]; [rewrite Nat.add_0_r, E in Hsome; by destruct Hsome|].
    unfold sleep, emit. runs. set (s1 := s <| blm_allocs ::= S |> <| bus ::= cons (Sleep 100) |>).
    destruct (IH k s1) as (h & s' & Hrun & Hs' & Hq & Hc); [lia| |].
    { unfold s1; st. by rewrite <- Nat.add_succ_comm in Hsome. }
    exists h, s'. split; [exact Hrun|]. split; [|by rewrite Hq, Hc].
    transitivity s1; [|done]. apply (only_msgs_intro 1); by destruct s.
Qed.

Lemma run_blm_alloc s : blm_answers ->
  exists h s', blm_alloc_loop blm_fuel s = Some (h, s') /\ only_msgs s s' /\
    map_cmsg_q s' = map_cmsg_q s /\ ctm_allocs s' = ctm_allocs s.
Proof. intros Ha. destruct (Ha (blm_allocs s)) as (k & Hk & Hsome). by eapply run_blm_alloc_loop. Qed.

Definition dispatched (op : Z) (key : veb_key) (al : list Z) (t : gmap veb_key (list Z)) :=
  if op =? CMSG_TYPE_MAP_ADD then <[key := take 16 al]> t else delete key t.

(** A message is sent unless there is no CTM buffer for it. *)
Lemma entry_op_cases key al op s :
  blm_answers -> op = CMSG_TYPE_MAP_ADD \/ op = CMSG_TYPE_MAP_DELETE ->
  exists r s', nic_mac_vlan_entry_op_cmsg key al op s = Some (r, s') /\ only_msgs s s' /\
    ctm_allocs s' = S (ctm_allocs s) /\
    if pkt_ctm_alloc (ctm_allocs s) =? CTM_ALLOC_ERR
    then r = CMESG_DISPATCH_FAIL /\ s' = s <| ctm_allocs ::= S |>
    else r = CMESG_DISPATCH_OK /\ veb_table s' = dispatched op key al (veb_table s).
Proof.
  intros Ha Hop. unfold nic_mac_vlan_entry_op_cmsg. runs. destruct (_ =? CTM_ALLOC_ERR).
  { eexists _, _. split; [reflexivity|]. split; [|done]. apply (only_msgs_intro 0); by destruct s. }
  destruct (run_blm_alloc (s <| ctm_allocs ::= S |>) Ha) as (h & s1 & Hrun & Hs1 & Hq & Hc).
  erewrite run_some by exact Hrun. runs. eexists _, _. split; [reflexivity|].
  split; [|split; [done|split; [done|]]].
  - transitivity s1; [transitivity (s <| ctm_allocs ::= S |>); [|done]|];
      apply (only_msgs_intro 0); (by destruct s) || (by destruct s1).
  - unfold veb_table. st. rewrite Hq. cbn [foldr flip]. by destruct Hop as [-> | ->].
Qed.

Lemma run_entry_op key al op s :
  allocs_ok -> op = CMSG_TYPE_MAP_ADD \/ op = CMSG_TYPE_MAP_DELETE ->
  exists s', nic_mac_vlan_entry_op_cmsg key al op s = Some (CMESG_DISPATCH_OK, s') /\
    only_msgs s s' /\
    veb_table s' = if op =? CMSG_TYPE_MAP_ADD then <[key := take 16 al]> (veb_table s)
                   else delete key (veb_table s).
Proof.
  intros [Hc Ha] Hop. destruct (entry_op_cases key al op s Ha Hop) as (r & s' & Hrun & Hs' & _ & Hr).
  rewrite (proj2 (Z.eqb_neq _ _) (Hc _)) in Hr. destruct Hr as [-> Ht]. by exists s'.
Qed.

(** The failing case: nothing is sent. *)
Lemma run_entry_op_fail key al op s :
  pkt_ctm_alloc (ctm_allocs s) = CTM_ALLOC_ERR ->
  nic_mac_vlan_entry_op_cmsg key al op s = Some (CMESG_DISPATCH_FAIL, s <| ctm_allocs ::= S |>).
Proof. intros Ha. unfold nic_mac_vlan_entry_op_cmsg. runs. by rewrite Ha. Qed.

Definition same_mac (k k' : veb_key) : bool :=
  (mac_addr_hi k =? mac_addr_hi k') && (mac_addr_lo k =? mac_addr_lo k').

Lemma same_mac_spec k k' : same_mac k k' = true <->
  mac_addr_hi k = mac_addr_hi k' /\ mac_addr_lo k = mac_addr_lo k'.
Proof. unfold same_mac. rewrite andb_true_iff, !Z.eqb_eq. done. Qed.

Lemma same_mac_set_vlan k k' v : same_mac k (set_vlan v k') = same_mac k k'.
Proof. done. Qed.

(** The key of VLAN [v] and of the MAC of [k']. *)
Lemma key_eq_iff k k' v : 0 <= v < 4096 ->
  k = set_vlan v k' <-> vlan_id k = v /\ same_mac k k' = true.
Proof.
  intros Hv. rewrite same_mac_spec. unfold set_vlan. rewrite (wrap_small 12) by done.
  destruct k as [v' hi lo]; simpl. split; [by intros [= -> -> ->]|]. by intros (-> & -> & ->).
Qed.

(** The table after entries for VLANs in [l] were added. *)
Lemma add_loop new acts : forall l key s,
  allocs_ok -> (forall v, v ∈ l -> 0 <= v < 4095) ->
  exists key' s', for_fold l (Some (key, acts)) (veb_add_step new) s =
      Some (Some (key', acts), s') /\
    mac_addr_hi key' = mac_addr_hi key /\ mac_addr_lo key' = mac_addr_lo key /\
    only_msgs s s' /\
    forall k, veb_table s' !! k =
      if bool_decide (vlan_id k ∈ l) && veb_wants new (vlan_id k) && same_mac k key
      then Some (take 16 (instr acts)) else veb_table s !! k.
Proof.
  induction l as [|v l IH]; intros key s Ha Hl.
  - exists key, s. split; [done|]. split; [done|]. split; [done|]. split; [done|]. done.
  - assert (Hv : 0 <= v < 4095) by (apply Hl, elem_of_cons; by left).
    assert (Hl' : forall v, v ∈ l -> 0 <= v < 4095) by (intros; apply Hl, elem_of_cons; by right).
    cbn [for_fold veb_add_step]. destruct (veb_wants new v) eqn:Ew.
    + rewrite (proj2 (Z.eqb_neq v NIC_NO_VLAN_ID)) by (unfold NIC_NO_VLAN_ID; lia). unfold act_if. runs.
      destruct (run_entry_op (set_vlan v key) (instr acts) CMSG_TYPE_MAP_ADD s Ha)
        as (s1 & Hrun & Hs1 & Ht1); [by left|].
      erewrite run_some by exact Hrun. cbv beta.
      change (CMESG_DISPATCH_OK =? CMESG_DISPATCH_FAIL) with false. cbv iota. runs.
      destruct (IH (set_vlan v key) s1 Ha Hl') as (key' & s' & Hrun' & Hhi & Hlo & Hs' & Ht').
      exists key', s'. split; [exact Hrun'|]. split; [done|]. split; [done|].
      split; [by transitivity s1|]. intros k. rewrite Ht', same_mac_set_vlan, Ht1.
      rewrite Z.eqb_refl, bool_decide_cons.
      destruct (decide (k = set_vlan v key)) as [Hk|Hk].
      * rewrite Hk, lookup_insert_eq, <- Hk. apply key_eq_iff in Hk as [-> Hm]; [|lia].
        rewrite Ew, Hm, (bool_decide_eq_true_2 (v = v)) by done. by destruct (bool_decide _).
      * rewrite lookup_insert_ne by done. rewrite key_eq_iff in Hk by lia.
        destruct (decide (vlan_id k = v)) as [<-|Hne].
        -- destruct (same_mac k key); [tauto|]. by rewrite !andb_false_r.
        -- by rewrite (bool_decide_eq_false_2 (vlan_id k = v)).
    + runs. destruct (IH key s Ha Hl') as (key' & s' & Hrun' & Hhi & Hlo & Hs' & Ht').
      exists key', s'. split; [exact Hrun'|]. split; [done|]. split; [done|]. split; [done|].
      intros k. rewrite Ht', bool_decide_cons.
      destruct (decide (vlan_id k = v)) as [->|Hne].
      * rewrite Ew. by rewrite !andb_false_r.
      * by rewrite (bool_decide_eq_false_2 (vlan_id k = v)).
Qed.

(** The table after entries for VLANs in [l] were deleted. *)
Lemma del_loop key stored new : forall l s,
  allocs_ok -> (forall v, v ∈ l -> 0 <= v < 4096) ->
  exists s', for_fold l NO_ERROR (veb_del_step key stored new) s = Some (NO_ERROR, s') /\
    only_msgs s s' /\
    forall k, veb_table s' !! k =
      if bool_decide (vlan_id k ∈ l) && veb_drops key stored new (vlan_id k) && same_mac k stored
      then None else veb_table s !! k.
Proof.
  induction l as [|v l IH]; intros s Ha Hl; [by exists s|].
  assert (Hv : 0 <= v < 4096) by (apply Hl, elem_of_cons; by left).
  assert (Hl' : forall v, v ∈ l -> 0 <= v < 4096) by (intros; apply Hl, elem_of_cons; by right).
  cbn [for_fold].
  destruct (veb_drops key stored new v) eqn:Ew.
  - destruct (run_entry_op (set_vlan v stored) (stale_lmem0 s) CMSG_TYPE_MAP_DELETE s Ha)
      as (s1 & Hrun & Hs1 & Ht1); [by right|].
    assert (Hstep : veb_del_step key stored new NO_ERROR v s = Some (NO_ERROR, s1))
      by (unfold veb_del_step; rewrite Ew; runs; by erewrite run_some by exact Hrun).
    erewrite run_some by exact Hstep. cbv beta.
    destruct (IH s1 Ha Hl') as (s' & Hrun' & Hs' & Ht').
    exists s'. split; [exact Hrun'|]. split; [by transitivity s1|]. intros k.
    rewrite Ht', Ht1, bool_decide_cons. change (CMSG_TYPE_MAP_DELETE =? CMSG_TYPE_MAP_ADD) with false.
    cbv iota. destruct (decide (k = set_vlan v stored)) as [Hk|Hk].
    + rewrite Hk, lookup_delete_eq, <- Hk. apply key_eq_iff in Hk as [-> Hm]; [|lia].
      rewrite Ew, Hm, (bool_decide_eq_true_2 (v = v)) by done. by destruct (bool_decide _).
    + rewrite lookup_delete_ne by done. rewrite key_eq_iff in Hk by lia.
      destruct (decide (vlan_id k = v)) as [<-|Hne].
      * destruct (same_mac k stored); [tauto|]. by rewrite !andb_false_r.
      * by rewrite (bool_decide_eq_false_2 (vlan_id k = v)).
  - assert (Hstep : veb_del_step key stored new NO_ERROR v s = Some (NO_ERROR, s))
      by (unfold veb_del_step; by rewrite Ew).
    erewrite run_some by exact Hstep. cbv beta. destruct (IH s Ha Hl') as (s' & Hrun' & Hs' & Ht').
    exists s'. split; [exact Hrun'|]. split; [done|]. intros k. rewrite Ht', bool_decide_cons.
    destruct (decide (vlan_id k = v)) as [->|Hne].
    + rewrite Ew. by rewrite !andb_false_r.
    + by rewrite (bool_decide_eq_false_2 (vlan_id k = v)).
Qed.

Lemma all_vlans : range 0 (NIC_NO_VLAN_ID + 1) = range 0 4095 ++ [4095].
Proof.
  unfold range, NIC_NO_VLAN_ID. change (4095 + 1 - 0) with (4095 + 1). change (4095 - 0) with 4095.
  rewrite (seqZ_app 0 4095 1) by lia. reflexivity.
Qed.

Lemma in_all_vlans v : 0 <= v < 4096 -> bool_decide (v ∈ range 0 (NIC_NO_VLAN_ID + 1)) = true.
Proof. intros. apply bool_decide_eq_true_2, elem_of_range. unfold NIC_NO_VLAN_ID. lia. Qed.

Lemma in_first_vlans v : 0 <= v < 4096 ->
  bool_decide (v ∈ range 0 4095) = negb (v =? NIC_NO_VLAN_ID).
Proof.
  intros. unfold NIC_NO_VLAN_ID. destruct (Z.eqb_spec v 4095) as [->|]; cbn [negb].
  - apply bool_decide_eq_false_2. rewrite elem_of_range. lia.
  - apply bool_decide_eq_true_2, elem_of_range. lia.
Qed.

(** The whole loop that adds.  The entry for frames without a VLAN gets the
    list from which the removal of the VLAN was taken out. *)
Lemma add_all new acts acts0 key s :
  allocs_ok -> (forall s, cfg_act_remove_strip_vlan acts s = Some (acts0, s)) ->
  exists key' a' s', for_fold (range 0 (NIC_NO_VLAN_ID + 1)) (Some (key, acts))
      (veb_add_step new) s = Some (Some (key', a'), s') /\
    mac_addr_hi key' = mac_addr_hi key /\ mac_addr_lo key' = mac_addr_lo key /\
    only_msgs s s' /\
    forall k, 0 <= vlan_id k < 4096 -> veb_table s' !! k =
      if veb_wants new (vlan_id k) && same_mac k key
      then Some (take 16 (instr (if vlan_id k =? NIC_NO_VLAN_ID then acts0 else acts)))
      else veb_table s !! k.
Proof.
  intros Ha Hrem. rewrite all_vlans, for_fold_app.
  destruct (add_loop new acts (range 0 4095) key s Ha) as (key1 & s1 & Hrun & Hhi & Hlo & Hs1 & Ht1);
    [by intros v Hv%elem_of_range|].
  erewrite run_some by exact Hrun. cbn [for_fold veb_add_step].
  assert (Hsm : forall k, same_mac k key1 = same_mac k key)
    by (intros k; unfold same_mac; by rewrite Hhi, Hlo).
  change (4095 =? NIC_NO_VLAN_ID) with true. unfold act_if.
  destruct (veb_wants new 4095) eqn:Ew.
  - rewrite run_assoc. erewrite run_some by apply Hrem. cbv beta.
    destruct (run_entry_op (set_vlan 4095 key1) (instr acts0) CMSG_TYPE_MAP_ADD s1 Ha)
      as (s2 & Hrun2 & Hs2 & Ht2); [by left|].
    rewrite run_assoc. erewrite run_some by exact Hrun2. cbv beta.
    change (CMESG_DISPATCH_OK =? CMESG_DISPATCH_FAIL) with false. cbv iota. runs.
    eexists _, _, s2. split; [reflexivity|]. split; [done|]. split; [done|].
    split; [by transitivity s1|]. intros k Hk. rewrite Ht2, Z.eqb_refl.
    destruct (decide (k = set_vlan 4095 key1)) as [Heq|Hne].
    + rewrite Heq, lookup_insert_eq, <- Heq. apply key_eq_iff in Heq as [Hv Hm]; [|lia].
      by rewrite Hv, Ew, <- Hsm, Hm.
    + rewrite lookup_insert_ne by done. rewrite key_eq_iff, Hsm in Hne by lia.
      rewrite Ht1, in_first_vlans by done. unfold NIC_NO_VLAN_ID.
      destruct (Z.eqb_spec (vlan_id k) 4095) as [Hv|]; cbn [negb andb].
      * destruct (same_mac k key); [tauto|]. by rewrite andb_false_r.
      * done.
  - runs. exists key1, acts, s1. split; [reflexivity|]. split; [done|]. split; [done|].
    split; [done|]. intros k Hk. rewrite Ht1, in_first_vlans by done. unfold NIC_NO_VLAN_ID.
    destruct (Z.eqb_spec (vlan_id k) 4095) as [Hv|]; cbn [negb andb]; [|done]. by rewrite Hv, Ew.
Qed.

(** Nothing but messages and the stored key of [vid] changed. *)
Definition veb_only (vid : Z) (k : veb_key) (s s' : nic) : Prop :=
  s' = s <| ctm_allocs := ctm_allocs s' |> <| blm_allocs := blm_allocs s' |>
         <| map_cmsg_q := map_cmsg_q s' |> <| bus := slept_bus s s' |>
         <| veb_stored_keys := <[vid := k]> (veb_stored_keys s) |>.

Lemma run_veb_finish vid key new s :
  allocs_ok -> stored_key_ok vid = true ->
  exists s', veb_finish vid key new s = Some (NO_ERROR, s') /\ veb_only vid key s s' /\
    forall k, 0 <= vlan_id k < 4096 -> veb_table s' !! k =
      if veb_drops key (stored_key s vid) new (vlan_id k) && same_mac k (stored_key s vid)
      then None else veb_table s !! k.
Proof.
  intros Ha Hok. unfold veb_finish. rewrite run_require by done. runs.
  set (s1 := s <| veb_stored_keys ::= <[vid:=key]> |>).
  destruct (del_loop key (stored_key s vid) new (range 0 (NIC_NO_VLAN_ID + 1)) s1 Ha)
    as (s' & Hrun & Hs' & Ht'); [intros v Hv%elem_of_range; unfold NIC_NO_VLAN_ID in Hv; lia|].
  exists s'. split; [exact Hrun|]. split.
  - unfold veb_only. etransitivity; [exact Hs'|reflexivity].
  - intros k Hk. rewrite Ht', in_all_vlans by done. done.
Qed.

(** The MACs that the switch accepts: not zero, no group address. *)
Definition unicast (mac : Z) : bool :=
  negb (mac =? 0) && negb (truthy (Z.land (Z.shiftr mac 40) 1)).

(** The entry of [k] after the vNIC with the stored key [old] was given the
    key [key]: entries of the old MAC go, entries for the new one come. *)
Definition veb_after (key old : veb_key) (data : Z -> list Z) (t : gmap veb_key (list Z))
    (k : veb_key) : option (list Z) :=
  let new := vlan_id key in
  if same_mac k old && veb_drops key old new (vlan_id k) then None
  else if same_mac k key && veb_wants new (vlan_id k) then Some (data (vlan_id k))
  else t !! k.

Lemma stored_key_insert vid key s s' :
  veb_only vid key s s' -> stored_key s' vid = key /\
  forall vid', vid' <> vid -> stored_key s' vid' = stored_key s vid'.
Proof.
  intros Hs. unfold stored_key. rewrite Hs. st. split; [by rewrite lookup_insert_eq|].
  intros vid' Hne. by rewrite lookup_insert_ne.
Qed.

Lemma veb_only_trans vid key s s1 s' :
  only_msgs s s1 -> veb_only vid key s1 s' -> veb_only vid key s s'.
Proof.
  intros H1' H2'. unfold veb_only.
  assert (Hm : only_msgs (s <| veb_stored_keys := <[vid := key]> (veb_stored_keys s) |>) s').
  { transitivity (s1 <| veb_stored_keys := <[vid := key]> (veb_stored_keys s1) |>).
    - unfold only_msgs in H1'. rewrite (f_equal veb_stored_keys H1'). by apply only_msgs_keys.
    - unfold only_msgs. etransitivity; [exact H2'|reflexivity]. }
  etransitivity; [exact Hm|reflexivity].
Qed.

(** Removing the VLAN strip does not look at the state. *)
Lemma for_fold_pure_inv {A D} (l : list A) (d : D) (body : D -> A -> C D)
    (f : D -> A -> option D) s r :
  (forall d x s, body d x s = match f d x with Some d' => Some (d', s) | None => None end) ->
  for_fold l d body s = Some (r, s) -> forall s2, for_fold l d body s2 = Some (r, s2).
Proof.
  intros Hf. revert d. induction l as [|x l IH]; intros d Hrun s2; cbn [for_fold] in *.
  - unfold mret, M_ret in *. congruence.
  - unfold mbind, M_bind in *. rewrite Hf in *. destruct (f d x) as [d'|]; [|done].
    by apply IH.
Qed.

Lemma remove_strip_pure l : (1 <= size l <= 16)%nat ->
  exists acts0, (forall s, cfg_act_remove_strip_vlan (repr l) s = Some (acts0, s)) /\
    written acts0 = remove_pop (assemble l).
Proof.
  intros Hsz. destruct (run_remove_strip_vlan (assemble l) (default 0 (last_op None l)) nic0)
    as (acts0 & Hrun & Hw & _); [unfold assemble; rewrite length_assemble; lia|].
  exists acts0. split; [|done]. intros s. unfold cfg_act_remove_strip_vlan in *.
  apply bind_some_inv in Hrun as (x & s1 & Hrun & Hret). unfold mret, M_ret in Hret.
  injection Hret as <- ->.
  erewrite run_some; [reflexivity|]. revert Hrun. fold (repr l). intros Hrun.
  eapply (for_fold_pure_inv _ _ _ (fun x i =>
    let '(found, l) := x in
    if truthy found then (fun w => (found, <[Z.to_nat i := w]> l)) <$> l !! Z.to_nat (i + 1)
    else match l !! Z.to_nat i with
         | None => None
         | Some w => if instr_op w =? op_num INSTR_POP_VLAN
             then (fun w' => (1, <[Z.to_nat i := set_pipeline 0 w']> l)) <$> l !! Z.to_nat (i + 1)
             else Some (found, l)
         end)); [|exact Hrun].
  clear. intros [found l'] i s. unfold remove_strip_vlan_step, of_option, mbind, M_bind, mret, M_ret.
  destruct (truthy found); [by destruct (l' !! Z.to_nat (i + 1))|].
  destruct (l' !! Z.to_nat i) as [w|]; [|done].
  destruct (instr_op w =? op_num INSTR_POP_VLAN); [|done]. by destruct (l' !! Z.to_nat (i + 1)).
Qed.

Lemma run_write_veb_up vid key l s :
  allocs_ok -> stored_key_ok vid = true -> unicast (MAC64_FROM_VEB_KEY key) = true ->
  (1 <= size l <= 16)%nat ->
  exists acts0 key' s', (forall s, cfg_act_remove_strip_vlan (repr l) s = Some (acts0, s)) /\
    cfg_act_write_veb vid key (Some (repr l)) s = Some (NO_ERROR, s') /\
    veb_only vid key' s s' /\ same_mac key' key = true /\
    forall k, 0 <= vlan_id k < 4096 -> veb_table s' !! k =
      veb_after key (stored_key s vid)
        (fun v => take 16 (instr (if v =? NIC_NO_VLAN_ID then acts0 else repr l)))
        (veb_table s) k.
Proof.
  intros Ha Hok Hu Hsz.
  destruct (remove_strip_pure l Hsz) as (acts0 & Hrem & Hw).
  unfold cfg_act_write_veb. unfold unicast in Hu. apply andb_prop in Hu as [H1'%negb_true_iff H2'%negb_true_iff].
  rewrite H1', H2'. cbn [orb]. cbv zeta.
  destruct (add_all (vlan_id key) (repr l) acts0 key s Ha Hrem)
    as (key' & a' & s1 & Hrun & Hhi & Hlo & Hs1 & Ht1).
  erewrite run_some by exact Hrun. cbv beta iota.
  destruct (run_veb_finish vid key' (vlan_id key) s1 Ha Hok) as (s' & Hrun' & Hs' & Ht').
  assert (Hst : stored_key s1 vid = stored_key s vid) by (unfold stored_key; by rewrite Hs1).
  exists acts0, key', s'. split; [exact Hrem|]. split; [exact Hrun'|].
  split; [by eapply veb_only_trans|]. split; [by apply same_mac_spec|].
  intros k Hk. rewrite Ht', Ht1, Hst by done. unfold veb_after, veb_drops. rewrite Hhi, Hlo.
  cbv zeta. rewrite (andb_comm (same_mac k (stored_key s vid))).
  by rewrite (andb_comm (same_mac k key)).
Qed.

Lemma instr_repr l : (size l <= 16)%nat -> take 16 (instr (repr l)) = instr (repr l).
Proof.
  intros Hs. apply take_ge. pose proof (length_assemble None l) as Hlen. fold (assemble l) in Hlen.
  unfold repr, of_words; simpl. rewrite length_app, length_replicate. lia.
Qed.

Lemma write_veb_refused vid key acts s : unicast (MAC64_FROM_VEB_KEY key) = false ->
  cfg_act_write_veb vid key (Some acts) s = Some (MAC_VLAN_ADD_FAIL, s).
Proof.
  intros Hu. unfold cfg_act_write_veb. unfold unicast in Hu. cbv zeta.
  destruct (MAC64_FROM_VEB_KEY key =? 0); [done|]. cbn in *.
  apply negb_false_iff in Hu. by rewrite Hu.
Qed.

Lemma add_failed new l s : for_fold l None (veb_add_step new) s = Some (None, s).
Proof. revert s. induction l as [|v l IH]; intros s; [done|]. cbn [for_fold veb_add_step]. runs. apply IH. Qed.

(** ** Whatever allocations fail

    Only MU buffers are needed for the call to return; whether CTM buffers
    come decides what it answers. *)

(** Every entry of [s'] was there in [s] or has the MAC of [key]. *)
Definition only_entries (key : veb_key) (s s' : nic) : Prop :=
  forall k x, veb_table s' !! k = Some x -> veb_table s !! k = Some x \/ same_mac k key = true.

#[local] Instance only_entries_preorder key : PreOrder (only_entries key).
Proof.
  split; [intros s k x; by left|]. intros s1 s2 s3 H12 H23 k x Hk.
  destruct (H23 k x Hk) as [Hk2|]; [by apply H12|by right].
Qed.

Lemma only_entries_same_mac key key' s s' :
  same_mac key' key = true -> only_entries key' s s' -> only_entries key s s'.
Proof.
  intros [Hh Hl]%same_mac_spec He k x Hk. destruct (He k x Hk) as [|[]%same_mac_spec]; [by left|right].
  apply same_mac_spec. split; congruence.
Qed.

(** Messages for the MAC of [key], and deletions *)
Definition msgs_for (key : veb_key) (s s' : nic) : Prop := only_msgs s s' /\ only_entries key s s'.

#[local] Instance msgs_for_preorder key : PreOrder (msgs_for key).
Proof.
  split; [intros s; split; reflexivity|].
  intros s1 s2 s3 [] []. split; by transitivity s2.
Qed.

Lemma entry_op_any key k0 al op s :
  blm_answers -> op = CMSG_TYPE_MAP_ADD /\ same_mac k0 key = true \/ op = CMSG_TYPE_MAP_DELETE ->
  exists r s', nic_mac_vlan_entry_op_cmsg k0 al op s = Some (r, s') /\ msgs_for key s s'.
Proof.
  intros Ha Hop. destruct (entry_op_cases k0 al op s Ha) as (r & s' & Hrun & Hs' & _ & Hr); [tauto|].
  exists r, s'. split; [done|]. split; [done|]. intros k x Hk. destruct (_ =? CTM_ALLOC_ERR).
  - destruct Hr as [_ ->]. by left.
  - destruct Hr as [_ Ht]. rewrite Ht in Hk. unfold dispatched in Hk.
    destruct Hop as [[-> Hm]| ->]; simpl in Hk.
    + apply lookup_insert_Some in Hk as [[<- _]|[_ Hk]]; [by right|by left].
    + apply lookup_delete_Some in Hk as [_ Hk]. by left.
Qed.

Lemma add_step_any new key acts a0 v s :
  blm_answers -> (forall s, cfg_act_remove_strip_vlan acts s = Some (a0, s)) ->
  exists st s', veb_add_step new (Some (key, acts)) v s = Some (st, s') /\ msgs_for key s s' /\
    forall key' acts', st = Some (key', acts') ->
      same_mac key' key = true /\ (v <> NIC_NO_VLAN_ID -> acts' = acts).
Proof.
  intros Ha Hrem. unfold veb_add_step. destruct (veb_wants new v).
  2:{ exists (Some (key, acts)), s. split; [done|]. split; [done|]. intros ? ? [= <- <-].
      split; [by apply same_mac_spec|done]. }
  assert (Hif : act_if (v =? NIC_NO_VLAN_ID) cfg_act_remove_strip_vlan acts s =
    Some (if v =? NIC_NO_VLAN_ID then a0 else acts, s)) by (by destruct (v =? NIC_NO_VLAN_ID)).
  erewrite run_some by exact Hif. cbv beta zeta.
  destruct (entry_op_any key (set_vlan v key) (instr (if v =? NIC_NO_VLAN_ID then a0 else acts))
    CMSG_TYPE_MAP_ADD s Ha) as (r & s1 & Hrun & Hs1); [left; split; [done|by apply same_mac_spec]|].
  erewrite run_some by exact Hrun. destruct (r =? CMESG_DISPATCH_FAIL); eexists _, s1;
    (split; [reflexivity|]); (split; [done|]); [done|].
  intros ? ? [= <- <-]. split; [by apply same_mac_spec|].
  intros Hv. by rewrite (proj2 (Z.eqb_neq _ _) Hv).
Qed.

Lemma add_loop_any new acts a0 : forall l key s,
  blm_answers -> (forall s, cfg_act_remove_strip_vlan acts s = Some (a0, s)) ->
  (forall v, v ∈ l -> v <> NIC_NO_VLAN_ID) ->
  exists st s', for_fold l (Some (key, acts)) (veb_add_step new) s = Some (st, s') /\
    msgs_for key s s' /\
    forall key' acts', st = Some (key', acts') -> same_mac key' key = true /\ acts' = acts.
Proof.
  induction l as [|v l IH]; intros key s Ha Hrem Hl.
  { exists (Some (key, acts)), s. split; [done|]. split; [done|]. intros ? ? [= <- <-].
    split; [by apply same_mac_spec|done]. }
  destruct (add_step_any new key acts a0 v s Ha Hrem) as (st & s1 & Hrun & Hs1 & Hst).
  cbn [for_fold]. erewrite run_some by exact Hrun. cbv beta. destruct st as [[key1 acts1]|].
  2:{ exists None, s1. by rewrite add_failed. }
  destruct (Hst _ _ eq_refl) as [Hm Heq]. rewrite Heq in * by (apply Hl, elem_of_cons; by left).
  destruct (IH key1 s1 Ha Hrem) as (st & s' & Hrun' & [Ho He] & Hst');
    [intros; apply Hl, elem_of_cons; by right|].
  exists st, s'. split; [exact Hrun'|]. split.
  - transitivity s1; [done|]. split; [done|]. by eapply only_entries_same_mac.
  - intros key' acts' Heq'. destruct (Hst' _ _ Heq') as [Hm' ->]. split; [|done].
    apply same_mac_spec in Hm as [], Hm' as []. apply same_mac_spec. split; congruence.
Qed.

Lemma add_all_any new acts a0 key s :
  blm_answers -> (forall s, cfg_act_remove_strip_vlan acts s = Some (a0, s)) ->
  exists st s', for_fold (range 0 (NIC_NO_VLAN_ID + 1)) (Some (key, acts)) (veb_add_step new) s =
      Some (st, s') /\ msgs_for key s s' /\
    forall key' acts', st = Some (key', acts') -> same_mac key' key = true.
Proof.
  intros Ha Hrem. rewrite all_vlans, for_fold_app.
  destruct (add_loop_any new acts a0 (range 0 4095) key s Ha Hrem) as (st & s1 & Hrun & Hs1 & Hst).
  { intros v Hv%elem_of_range. unfold NIC_NO_VLAN_ID. lia. }
  erewrite run_some by exact Hrun. cbv beta. destruct st as [[key1 acts1]|].
  2:{ exists None, s1. by rewrite add_failed. }
  destruct (Hst _ _ eq_refl) as [Hm ->].
  destruct (add_step_any new key1 acts a0 4095 s1 Ha Hrem) as (st & s2 & Hrun2 & [Ho He] & Hst2).
  exists st, s2. cbn [for_fold]. erewrite run_some by exact Hrun2. split; [done|]. split.
  - transitivity s1; [done|]. split; [done|]. by eapply only_entries_same_mac.
  - intros key' acts' ->. destruct (Hst2 _ _ eq_refl) as [Hm2 _].
    apply same_mac_spec in Hm as [], Hm2 as []. apply same_mac_spec. split; congruence.
Qed.

Lemma del_loop_any key0 key stored new : forall l e s, blm_answers ->
  exists r s', for_fold l e (veb_del_step key stored new) s = Some (r, s') /\ msgs_for key0 s s'.
Proof.
  induction l as [|v l IH]; intros e s Ha; [by exists e, s|]. cbn [for_fold].
  assert (Hstep : exists e1 s1, veb_del_step key stored new e v s = Some (e1, s1) /\ msgs_for key0 s s1).
  { unfold veb_del_step. destruct (veb_drops key stored new v); [|by exists e, s]. runs.
    destruct (entry_op_any key0 (set_vlan v stored) (stale_lmem0 s) CMSG_TYPE_MAP_DELETE s Ha)
      as (r & s1 & Hrun & Hs1); [by right|].
    erewrite run_some by exact Hrun. eexists _, s1. by split. }
  destruct Hstep as (e1 & s1 & Hrun & Hs1). erewrite run_some by exact Hrun. cbv beta.
  destruct (IH e1 s1 Ha) as (r & s' & Hrun' & Hs'). exists r, s'. split; [done|]. by transitivity s1.
Qed.

(** Between [s] and [s'] the switch was changed for the MAC of [key] only. *)
Definition veb_for (key : veb_key) (s s' : nic) : Prop :=
  msgs_for key (s <| veb_stored_keys := veb_stored_keys s' |>) s'.

Lemma veb_finish_any key0 vid key new s : blm_answers -> stored_key_ok vid = true ->
  exists r s', veb_finish vid key new s = Some (r, s') /\ veb_for key0 s s'.
Proof.
  intros Ha Hok. unfold veb_finish. rewrite run_require by done. runs.
  set (s1 := s <| veb_stored_keys ::= <[vid:=key]> |>).
  destruct (del_loop_any key0 key (stored_key s vid) new (range 0 (NIC_NO_VLAN_ID + 1)) NO_ERROR s1 Ha)
    as (r & s' & Hrun & Hs'). exists r, s'. split; [exact Hrun|]. unfold veb_for.
  assert (Hk : veb_stored_keys s' = veb_stored_keys s1) by (exact (f_equal veb_stored_keys (proj1 Hs'))).
  by rewrite Hk.
Qed.

(** The call returns, and its entries are for the MAC of its key. *)
Lemma write_veb_any vid key l s :
  blm_answers -> stored_key_ok vid = true -> (1 <= size l <= 16)%nat ->
  exists r s', cfg_act_write_veb vid key (Some (repr l)) s = Some (r, s') /\ veb_for key s s'.
Proof.
  intros Ha Hok Hsz. destruct (remove_strip_pure l Hsz) as (a0 & Hrem & _).
  assert (Hsame : veb_for key s s) by (by unfold veb_for; destruct s).
  unfold cfg_act_write_veb. cbv zeta. destruct (_ || _); [by eexists _, s|].
  destruct (add_all_any (vlan_id key) (repr l) a0 key s Ha Hrem) as (st & s1 & Hrun & Hs1 & Hst).
  erewrite run_some by exact Hrun. cbv beta.
  assert (Hk1 : veb_stored_keys s1 = veb_stored_keys s) by (exact (f_equal veb_stored_keys (proj1 Hs1))).
  destruct st as [[key' acts']|].
  2:{ eexists _, s1. split; [reflexivity|]. unfold veb_for. rewrite Hk1. by destruct s. }
  destruct (veb_finish_any key vid key' (vlan_id key) s1 Ha Hok) as (r & s' & Hrun' & Hs').
  exists r, s'. split; [exact Hrun'|]. unfold veb_for in *. etransitivity; [|exact Hs'].
  destruct Hs1 as [Ho He]. split; [by apply only_msgs_keys|exact He].
Qed.

(** C30: bringing a vNIC up in the switch, as long as no CTM buffer for a
    message is refused and an MU buffer comes within [blm_fuel] tries
    (write_veb_failure_leaks shows a refusal: the call fails and the entries
    already sent stay).  A zero or group MAC is refused and nothing happens.
    Otherwise the call succeeds, and of the table that the messages ask for:
    the entries of the MAC of the previous call are deleted, all of them if the
    MAC changed and those of the other VLANs if not; of what is not deleted,
    every VLAN that the new key wants has an entry with the action list, without
    the VLAN strip in the entry for untagged frames; the other entries stay.
    The deletion has the last word: for VLAN 0 and an unchanged MAC the entry
    for untagged frames, although wanted, is gone again
    (write_veb_vlan0_drops_untagged).  The key is remembered for the next call,
    and nothing else is written. *)
Theorem write_veb_correct vid key l s :
  allocs_ok -> stored_key_ok vid = true -> (1 <= size l <= 16)%nat ->
  (unicast (MAC64_FROM_VEB_KEY key) = false ->
   cfg_act_write_veb vid key (Some (repr l)) s = Some (MAC_VLAN_ADD_FAIL, s)) /\
  (unicast (MAC64_FROM_VEB_KEY key) = true ->
   exists untagged key' s',
     cfg_act_write_veb vid key (Some (repr l)) s = Some (NO_ERROR, s') /\
     written untagged = remove_pop (assemble l) /\
     same_mac key' key = true /\ veb_only vid key' s s' /\
     forall k, 0 <= vlan_id k < 4096 -> veb_table s' !! k =
       veb_after key (stored_key s vid)
         (fun v => if v =? NIC_NO_VLAN_ID then take 16 (instr untagged) else instr (repr l))
         (veb_table s) k).
Proof.
  intros Ha Hok Hsz. split; intros Hu; [by apply write_veb_refused|].
  destruct (remove_strip_pure l Hsz) as (untagged & Hrem & Hw).
  destruct (run_write_veb_up vid key l s Ha Hok Hu Hsz)
    as (a0 & key' & s' & Hrem' & Hrun & Hs' & Hm & Ht).
  assert (a0 = untagged) as -> by (specialize (Hrem s); rewrite Hrem' in Hrem; congruence).
  exists untagged, key', s'. split; [done|]. split; [done|]. split; [done|]. split; [done|].
  intros k Hk. rewrite Ht by done. unfold veb_after. cbv zeta.
  destruct (vlan_id k =? NIC_NO_VLAN_ID); [done|]. by rewrite instr_repr by lia.
Qed.

(** Every entry of the switch is for the MAC of some vNIC, so that a later call
    for that vNIC finds it. *)
Definition veb_owned (s : nic) : Prop :=
  forall k, 0 <= vlan_id k < 4096 -> is_Some (veb_table s !! k) ->
  exists vid, stored_key_ok vid = true /\ same_mac k (stored_key s vid) = true.

(** An entry of the stored MAC that is not dropped has the new MAC. *)
Lemma not_dropped key old new k :
  veb_drops key old new (vlan_id k) && same_mac k old = false ->
  same_mac k old = true -> same_mac k key = true.
Proof.
  intros Hd Hm. rewrite Hm, andb_true_r in Hd. unfold veb_drops in Hd.
  apply orb_false_iff in Hd as [[Hh%negb_false_iff%Z.eqb_eq Hl%negb_false_iff%Z.eqb_eq]%orb_false_iff _].
  apply same_mac_spec in Hm as [? ?]. apply same_mac_spec. lia.
Qed.

Lemma veb_owned_step vid key key' s s' new data :
  stored_key_ok vid = true -> veb_owned s -> veb_only vid key' s s' -> same_mac key' key = true ->
  (forall k, 0 <= vlan_id k < 4096 -> veb_table s' !! k =
     if veb_drops key (stored_key s vid) new (vlan_id k) && same_mac k (stored_key s vid) then None
     else if same_mac k key && veb_wants new (vlan_id k) && data then veb_table s' !! k
     else veb_table s !! k) ->
  veb_owned s'.
Proof.
  intros Hok Hown Hs' Hm Ht k Hk Hsome. destruct (stored_key_insert _ _ _ _ Hs') as [Heq Hne].
  assert (Hm2 : forall k, same_mac k key = true -> same_mac k key' = true).
  { intros k' [? ?]%same_mac_spec. apply same_mac_spec in Hm as [? ?]. apply same_mac_spec. lia. }
  specialize (Ht k Hk). destruct (_ && same_mac k (stored_key s vid)) eqn:Ed;
    [rewrite Ht in Hsome; by destruct Hsome|].
  destruct (same_mac k key && _ && _) eqn:Ew.
  - apply andb_prop in Ew as [[Ew _]%andb_prop _]. exists vid. rewrite Heq. auto.
  - rewrite Ht in Hsome. destruct (Hown k Hk Hsome) as (vid' & Hok' & Hm').
    destruct (decide (vid' = vid)) as [->|]; [|exists vid'; by rewrite Hne].
    exists vid. rewrite Heq. split; [done|]. by eapply Hm2, not_dropped.
Qed.

(** Whatever happens to a vNIC, up or down, accepted or refused, and
    whatever value the uninitialised VLAN has when it goes down, no entry of
    the switch is left behind: each entry has the MAC that is remembered for
    some vNIC. *)
Theorem write_veb_owned vid key acts s :
  allocs_ok -> stored_key_ok vid = true ->
  match acts with None => True | Some a => exists l, a = repr l /\ (1 <= size l <= 16)%nat end ->
  veb_owned s ->
  exists r s', cfg_act_write_veb vid key acts s = Some (r, s') /\ veb_owned s'.
Proof.
  intros Ha Hok Hacts Hown. destruct acts as [a|].
  - destruct Hacts as (l & -> & Hsz).
    destruct (unicast (MAC64_FROM_VEB_KEY key)) eqn:Hu.
    + destruct (run_write_veb_up vid key l s Ha Hok Hu Hsz)
        as (a0 & key' & s' & _ & Hrun & Hs' & Hm & Ht).
      exists NO_ERROR, s'. split; [done|].
      apply (veb_owned_step vid key key' s s' (vlan_id key) true); try done.
      intros k Hk. rewrite Ht by done. unfold veb_after. cbv zeta.
      rewrite (andb_comm (same_mac k (stored_key s vid))), andb_true_r.
      destruct (veb_drops _ _ _ _ && _); [done|]. by destruct (same_mac k key && _).
    + exists MAC_VLAN_ADD_FAIL, s. split; [by apply write_veb_refused|done].
  - destruct (run_veb_finish vid key (stale_new_vlan_id s) s Ha Hok) as (s' & Hrun & Hs' & Ht).
    exists NO_ERROR, s'. split; [exact Hrun|].
    apply (veb_owned_step vid key key s s' (stale_new_vlan_id s) false); [done..| |].
    + by apply same_mac_spec.
    + intros k Hk. rewrite Ht by done. by rewrite andb_false_r.
Qed.

(** ** Where it does not do what it means to *)

(** a vNIC on VLAN 0 gets entries for VLAN 0 and for untagged frames.  When
    its MAC is the one it had at the previous call, the loop that deletes what
    the previous key left deletes the entry for untagged frames that was added
    a moment before, and only the entry of VLAN 0 stays. *)
Theorem write_veb_vlan0_drops_untagged vid key l s :
  allocs_ok -> stored_key_ok vid = true -> (1 <= size l <= 16)%nat ->
  unicast (MAC64_FROM_VEB_KEY key) = true -> vlan_id key = 0 ->
  exists s', cfg_act_write_veb vid key (Some (repr l)) s = Some (NO_ERROR, s') /\
    veb_table s' !! set_vlan 0 key = Some (instr (repr l)) /\
    (same_mac key (stored_key s vid) = true ->
     veb_table s' !! set_vlan NIC_NO_VLAN_ID key = None) /\
    (same_mac key (stored_key s vid) = false ->
     is_Some (veb_table s' !! set_vlan NIC_NO_VLAN_ID key)).
Proof.
  intros Ha Hok Hsz Hu Hv. destruct (run_write_veb_up vid key l s Ha Hok Hu Hsz)
    as (a0 & key' & s' & _ & Hrun & Hs' & Hm & Ht).
  exists s'. split; [done|].
  assert (Hself : same_mac key key = true) by by apply same_mac_spec.
  assert (H0k : forall v, 0 <= v < 4096 -> vlan_id (set_vlan v key) = v)
    by (intros v Hv'; simpl; by apply wrap_small).
  assert (Hsm : forall v k, same_mac (set_vlan v key) k = same_mac key k) by done.
  assert (Hdrop : forall v, veb_drops key (stored_key s vid) 0 v =
    negb (same_mac key (stored_key s vid)) || negb (v =? 0)).
  { intros v. unfold veb_drops, same_mac. by rewrite negb_andb. }
  split; [|split; intros Hst].
  - rewrite Ht by (rewrite H0k by lia; lia). unfold veb_after. cbv zeta.
    rewrite !H0k, Hv, !Hsm, Hself, Hdrop by lia.
    change (0 =? NIC_NO_VLAN_ID) with false. cbv iota.
    rewrite instr_repr by lia. by destruct (same_mac key (stored_key s vid)).
  - rewrite Ht by (rewrite H0k by (unfold NIC_NO_VLAN_ID; lia); unfold NIC_NO_VLAN_ID; lia).
    unfold veb_after. cbv zeta. rewrite !H0k, Hv, !Hsm, Hdrop by (unfold NIC_NO_VLAN_ID; lia).
    by rewrite Hst.
  - rewrite Ht by (rewrite H0k by (unfold NIC_NO_VLAN_ID; lia); unfold NIC_NO_VLAN_ID; lia).
    unfold veb_after. cbv zeta. rewrite !H0k, Hv, !Hsm, Hself, Hst by (unfold NIC_NO_VLAN_ID; lia).
    by eexists.
Qed.

Lemma add_step_sent new key acts v s :
  blm_answers -> veb_wants new v = true -> v <> NIC_NO_VLAN_ID ->
  pkt_ctm_alloc (ctm_allocs s) <> CTM_ALLOC_ERR -> exists s1, veb_add_step new (Some (key, acts)) v s = Some (Some (set_vlan v key, acts), s1) /\
    only_msgs s s1 /\ ctm_allocs s1 = S (ctm_allocs s) /\
    veb_table s1 = <[set_vlan v key := take 16 (instr acts)]> (veb_table s).
Proof.
  intros Hb Hw Hv Ha. unfold veb_add_step. rewrite Hw, (proj2 (Z.eqb_neq _ _) Hv). unfold act_if. runs.
  destruct (entry_op_cases (set_vlan v key) (instr acts) CMSG_TYPE_MAP_ADD s Hb)
    as (r & s1 & Hrun & Hs1 & Hn & Hr); [by left|].
  rewrite (proj2 (Z.eqb_neq _ _) Ha) in Hr. destruct Hr as [-> Ht].
  erewrite run_some by exact Hrun. exists s1. by split_and!.
Qed.

Lemma add_step_fails new key acts v s :
  veb_wants new v = true -> v <> NIC_NO_VLAN_ID -> pkt_ctm_alloc (ctm_allocs s) = CTM_ALLOC_ERR ->
  veb_add_step new (Some (key, acts)) v s = Some (None, s <| ctm_allocs ::= S |>).
Proof.
  intros Hw Hv Ha. unfold veb_add_step. rewrite Hw, (proj2 (Z.eqb_neq _ _) Hv). unfold act_if. runs.
  by erewrite run_some by by apply run_entry_op_fail.
Qed.

(** when the second buffer cannot be allocated for a vNIC without a VLAN,
    the call fails after it has sent the entry for VLAN 0.  The MAC of that
    entry is not remembered: the entry stays in the switch, and if no vNIC had
    that MAC, none owns it. *)
Theorem write_veb_failure_leaks vid key l s :
  blm_answers -> pkt_ctm_alloc (ctm_allocs s) <> CTM_ALLOC_ERR ->
  pkt_ctm_alloc (S (ctm_allocs s)) = CTM_ALLOC_ERR ->
  unicast (MAC64_FROM_VEB_KEY key) = true -> vlan_id key = NIC_NO_VLAN_ID -> (size l <= 16)%nat ->
  exists s', cfg_act_write_veb vid key (Some (repr l)) s = Some (MAC_VLAN_ADD_FAIL, s') /\
    veb_table s' !! set_vlan 0 key = Some (instr (repr l)) /\
    veb_stored_keys s' = veb_stored_keys s /\
    ((forall vid, stored_key_ok vid = true -> same_mac key (stored_key s vid) = false) ->
     ~ veb_owned s').
Proof.
  intros Hb Ha1 Ha2 Hu Hv Hsz. unfold cfg_act_write_veb.
  unfold unicast in Hu. apply andb_prop in Hu as [H1'%negb_true_iff H2'%negb_true_iff].
  rewrite H1', H2', Hv. cbn [orb]. cbv zeta.
  assert (range 0 (NIC_NO_VLAN_ID + 1) = 0 :: 1 :: range 2 4096) as ->
    by (unfold NIC_NO_VLAN_ID; change (4095 + 1) with 4096;
        rewrite (range_cons 0), (range_cons (0 + 1)) by lia; reflexivity).
  cbn [for_fold].
  destruct (add_step_sent NIC_NO_VLAN_ID key (repr l) 0 s) as (s1 & Hrun1 & Hs1 & Hn1 & Ht1); [done..|].
  rewrite run_assoc. erewrite run_some by exact Hrun1. cbv beta.
  rewrite run_assoc. erewrite run_some by (apply add_step_fails; [done..|by rewrite Hn1]). cbv beta.
  erewrite run_some by apply add_failed. cbv beta iota. eexists. split; [reflexivity|].
  assert (Ht : veb_table (s1 <| ctm_allocs ::= S |>) !! set_vlan 0 key = Some (instr (repr l))).
  { change (veb_table (s1 <| ctm_allocs ::= S |>)) with (veb_table s1).
    by rewrite Ht1, lookup_insert_eq, instr_repr. }
  split; [done|]. split; [by rewrite Hs1|]. intros Hno Hown.
  destruct (Hown (set_vlan 0 key)) as (vid' & Hok' & Hm'); [by simpl|by rewrite Ht|].
  specialize (Hno vid' Hok'). unfold stored_key in Hm'. rewrite Hs1 in Hm'. st in Hm'.
  fold (stored_key s vid') in Hm'. unfold same_mac in *. simpl in Hm'. congruence.
Qed.
End proofs.

(** ** Checks on concrete inputs *)

Import Demo.

Lemma demo_blm_answers : blm_answers.
Proof. intros n. exists 0%nat. split; [simpl; lia|by eexists]. Qed.

Lemma demo_alloc_ok : allocs_ok.
Proof.
  split; [|exact demo_blm_answers]. intros n. unfold CTM_ALLOC_ERR. simpl.
  pose proof (Z.mod_pos_bound (Z.of_nat n) 512 ltac:(lia)). lia.
Qed.

(** VF 3 with the MAC 00:15:4d:00:00:03, first on VLAN 5, then on VLAN 0. *)
Definition key_vf3 (v : Z) : veb_key := mk_veb_key v 0x0015 0x4d000003.
Definition list_vf3 : list action := [PopVlan; Checksum true true false; TxHost false false 8 0 3].

Lemma write_veb_correct_witness :
  exists s', cfg_act_write_veb 3 (key_vf3 5) (Some (repr list_vf3)) nic0 = Some (NO_ERROR, s') /\
    veb_table s' !! key_vf3 5 = Some (instr (repr list_vf3)).
Proof.
  destruct (write_veb_correct 3 (key_vf3 5) list_vf3 nic0) as [_ Hup];
    [exact demo_alloc_ok|by vm_compute|simpl; lia|].
  destruct Hup as (u & key' & s' & Hrun & _ & _ & _ & Ht); [by vm_compute|].
  exists s'. split; [exact Hrun|]. rewrite (Ht (key_vf3 5)) by (simpl; lia). by vm_compute.
Defined.

Lemma write_veb_owned_witness :
  exists r s', cfg_act_write_veb 3 (key_vf3 5) (Some (repr list_vf3)) nic0 = Some (r, s') /\
    veb_owned s'.
Proof.
  apply write_veb_owned; [exact demo_alloc_ok|reflexivity| |].
  - exists list_vf3. split; [reflexivity|simpl; lia].
  - intros k _ [x Hx]. by vm_compute in Hx.
Defined.

(** VF 3 already had its MAC. *)
Definition vlan0_state : nic := nic0 <| veb_stored_keys := <[3 := key_vf3 0]> ∅ |>.

Lemma write_veb_vlan0_drops_untagged_witness :
  exists s', cfg_act_write_veb 3 (key_vf3 0) (Some (repr list_vf3)) vlan0_state =
      Some (NO_ERROR, s') /\
    veb_table s' !! set_vlan NIC_NO_VLAN_ID (key_vf3 0) = None.
Proof.
  destruct (write_veb_vlan0_drops_untagged 3 (key_vf3 0) list_vf3 vlan0_state)
    as (s' & Hrun & _ & Hgone & _);
    [exact demo_alloc_ok|by vm_compute|simpl; lia|by vm_compute|reflexivity|].
  exists s'. split; [exact Hrun|]. apply Hgone. by vm_compute.
Defined.

(** A pool with one buffer. *)
#[local] Instance one_buffer : App := {|
  app_isl_ids := app_isl_ids; cfg_mes_ids := cfg_mes_ids; ffs := ffs; swap32 := swap32;
  pkt_ctm_alloc := fun n => if (n =? 0)%nat then 0 else CTM_ALLOC_ERR;
  blm_buf_alloc := blm_buf_alloc; blm_buf_handle2ptr := blm_buf_handle2ptr;
  blm_fuel := blm_fuel; own_island := own_island; SLICC_HASH_PAD_DATA := SLICC_HASH_PAD_DATA;
  stale_tx_wire := stale_tx_wire; stale_new_vlan_id := stale_new_vlan_id;
  stale_lmem0 := stale_lmem0 |}.

Lemma write_veb_failure_leaks_witness :
  exists s', cfg_act_write_veb 3 (key_vf3 NIC_NO_VLAN_ID) (Some (repr list_vf3)) nic0 =
      Some (MAC_VLAN_ADD_FAIL, s') /\
    veb_table s' !! key_vf3 0 = Some (instr (repr list_vf3)) /\ ~ veb_owned s'.
Proof.
  destruct (write_veb_failure_leaks 3 (key_vf3 NIC_NO_VLAN_ID)
    list_vf3 nic0) as (s' & Hrun & Ht & _ & Hown);
    [exact demo_blm_answers|by vm_compute|by vm_compute|by vm_compute|reflexivity|simpl; lia|].
  exists s'. split; [exact Hrun|]. split; [exact Ht|]. apply Hown. intros vid _. by vm_compute.
Defined.
