(* ===== verification/Cmsg.v ===== *)
(** * Messages to the map engine: maps/cmsg_map_types.h and
    apps/nic/app_mac_vlan_config_cmsg.h

    The switch of Veb.v is a hash table of another engine.  The master leaves
    a message in a buffer of the external memory and the address of the buffer
    in a work queue; the engine reads the message as a [struct
    cmsg_req_map_op].  The two sides describe the message separately, in C and
    in microcode, with bytes swapped in some words and not in others.  Here are
    both descriptions, and the proof that the table that the engine builds is
    the table that Veb.v says the messages ask for. *)

From S2P Require Import Prelude Platform UserCfg Nfd Machine Bus Tables ActionList Builders NicTables Veb.

(** ** The message in memory *)

(** [__raw] of a [struct nic_mac_vlan_key]: vlan_id in the 12 upper bits, 4
    unused bits, 16 bits of the MAC, then the other 32. *)
Definition veb_key_raw (k : veb_key) : list Z :=
  [Z.lor (Z.shiftl (wrap 12 (vlan_id k)) 20) (u16 (mac_addr_hi k)); u32 (mac_addr_lo k)].

(** [struct nic_mac_vlan_cmsg] *)
Definition cmsg_raw (m : map_cmsg) : list Z :=
  [cm_word0 m; cm_tid m; cm_count m; cm_flags m] ++ veb_key_raw (cm_key m).

Definition NFD_IN_DATA_OFFSET : Z := 128.

Section memory.
Context `{App}.

(** The two writes of [nic_mac_vlan_entry_op_cmsg]: the header and the key with
    their bytes swapped, the action list 80 bytes after the header as it is. *)
Definition cmsg_store (m : map_cmsg) (mem : gmap Z Z) : gmap Z Z :=
  let emem_dst := cm_buf m + NFD_IN_DATA_OFFSET in
  mem_put (emem_dst + 80) (action_data m) (mem_put emem_dst (swap32 <$> cmsg_raw m) mem).
End memory.

(** ** The request that the engine reads *)

Definition CMSG_MAP_TID_IDX : nat := 1.
Definition CMSG_MAP_OP_COUNT_IDX : nat := 2.
Definition CMSG_MAP_OP_FLAGS_IDX : nat := 3.
Definition CMSG_OP_HDR_LW : Z := 4.
Definition CMSG_MAP_KEY_VALUE_LW : nat := 16.
Definition CMSG_MAP_KEY_VALUE_SZ : Z := Z.of_nat CMSG_MAP_KEY_VALUE_LW * 4.
Definition CMSG_TYPE_MAP_MAX : Z := 7.
Definition CMSG_BPF_NOEXIST : Z := 1.
Definition CMSG_BPF_EXIST : Z := 2.

(** [struct cmsg_req_map_op] *)
Record cmsg_req_map_op := mk_req {
  req_type : Z; req_ver : Z; req_tag : Z;
  req_tid : Z; req_count : Z; req_flags : Z;
  req_key : list Z; req_value : list Z
}.

(** The address field of the descriptor, 29 bits of a handle *)
Definition cmsg_get_mem_addr (in_nfd : list Z) : Z :=
  Z.shiftl (bf_get 0 29 (nth 1 in_nfd 0)) 11.

Abbreviation veb_map := (gmap (list Z) (list Z)).

Section engine.
Context `{App}.

(** [cmsg_rx] and the start of [cmsg_proc]: the header is read as it is, key
    and value with their bytes swapped. *)
Definition cmsg_rx (mem : gmap Z Z) (in_nfd : list Z) : cmsg_req_map_op :=
  let a := cmsg_get_mem_addr in_nfd + NFD_IN_DATA_OFFSET in
  let hdr := mem_words a 4 mem in
  let key_offset := a + CMSG_OP_HDR_LW * 4 in
  let value_offset := key_offset + CMSG_MAP_KEY_VALUE_SZ in
  let w0 := nth 0 hdr 0 in
  {| req_type := bf_get 24 8 w0; req_ver := bf_get 16 8 w0; req_tag := bf_get 0 16 w0;
     req_tid := nth CMSG_MAP_TID_IDX hdr 0;
     req_count := nth CMSG_MAP_OP_COUNT_IDX hdr 0;
     req_flags := nth CMSG_MAP_OP_FLAGS_IDX hdr 0;
     req_key := swap32 <$> mem_words key_offset CMSG_MAP_KEY_VALUE_LW mem;
     req_value := swap32 <$> mem_words value_offset CMSG_MAP_KEY_VALUE_LW mem |}.

Definition cmsg_validate (r : cmsg_req_map_op) : bool :=
  (req_type r <=? CMSG_TYPE_MAP_MAX) && (req_ver r <=? CMSG_MAP_VERSION).

(** The table [SRIOV_TID]: keys of 8 bytes, values of 56, stored with their
    bytes swapped again. *)
Definition SRIOV_KEY_LW : nat := 2.
Definition SRIOV_VALUE_LW : nat := 14.
Definition NIC_MAC_VLAN_TABLE__NUM_ENTRIES : nat := Z.to_nat 0x60000.

(** What a request does to that table; one request is one operation, since
    [cmsg_proc] leaves its loop after the first one for this table. *)
Definition cmsg_proc (t : veb_map) (r : cmsg_req_map_op) : veb_map :=
  let key := take SRIOV_KEY_LW (req_key r) in
  let value := swap32 <$> take SRIOV_VALUE_LW (req_value r) in
  if negb (cmsg_validate r) || negb (req_tid r =? SRIOV_TID) then t
  else if req_type r =? CMSG_TYPE_MAP_ADD then
    match t !! key with
    | Some _ => if req_flags r =? CMSG_BPF_NOEXIST then t else <[key := value]> t
    | None => if req_flags r =? CMSG_BPF_EXIST then t else <[key := value]> t
    end
  else if req_type r =? CMSG_TYPE_MAP_DELETE then delete key t
  else t.
End engine.

(** The key that a worker looks up for a packet: the VLAN in the upper 12
    bits, the upper MAC bytes added below, then the lower MAC bytes. *)
Definition veb_lookup_key (vlan_id mac_hi mac_lo : Z) : list Z :=
  [u32 (u32 (Z.shiftl vlan_id 20) + u16 mac_hi); mac_lo].

(** * Properties *)

(** Keys whose fields have their width; they differ when their words do. *)
Definition key_fits (k : veb_key) : Prop :=
  fits 12 (vlan_id k) /\ fits 16 (mac_addr_hi k) /\ fits 32 (mac_addr_lo k).

Lemma key_fits_set_vlan v k : key_fits k -> key_fits (set_vlan v k).
Proof. intros (_ & ? & ?). split; [by apply wrap_fits|done]. Qed.

Lemma key_fits_mac64 mac : key_fits (VEB_KEY_FROM_MAC64 mac).
Proof. split; [done|]. split; by apply wrap_fits. Qed.

Lemma key_raw_fields k : key_fits k -> exists w0 w1, veb_key_raw k = [w0; w1] /\
  vlan_id k = bf_get 20 12 w0 /\ mac_addr_hi k = bf_get 0 16 w0 /\ mac_addr_lo k = w1.
Proof.
  intros (Hv & Hh & Hl). eexists _, _. split; [reflexivity|]. unfold bf_get.
  rewrite !(wrap_small _ (vlan_id k)), !(wrap_small _ (mac_addr_hi k)),
    (wrap_small _ (mac_addr_lo k)) by done.
  split; [zbits|]. split; [zbits|done].
Qed.

Lemma veb_key_raw_inj k k' : key_fits k -> key_fits k' -> veb_key_raw k = veb_key_raw k' -> k = k'.
Proof.
  intros (w0 & w1 & Hr & Hv & Hh & Hl)%key_raw_fields (w0' & w1' & Hr' & Hv' & Hh' & Hl')%key_raw_fields E.
  rewrite Hr, Hr' in E. injection E as -> ->. destruct k, k'; simpl in *. congruence.
Qed.

(** The worker that looks a packet up finds the entry of its VLAN and MAC. *)
Lemma veb_lookup_key_raw k : key_fits k ->
  veb_lookup_key (vlan_id k) (mac_addr_hi k) (mac_addr_lo k) = veb_key_raw k.
Proof.
  intros (Hv & Hh & Hl). unfold veb_lookup_key, veb_key_raw.
  rewrite !(wrap_small _ (vlan_id k)), !(wrap_small _ (mac_addr_hi k)), (wrap_small _ (mac_addr_lo k)) by done.
  f_equal. assert (Hf : fits 32 (Z.shiftl (vlan_id k) 20)) by (apply fits_shiftl; [lia|done]).
  rewrite (wrap_small 32 (Z.shiftl _ _)) by done.
  replace (Z.shiftl (vlan_id k) 20) with (Z.shiftl (Z.shiftl (vlan_id k) 4) 16) by by rewrite Z.shiftl_shiftl.
  rewrite <- lor_low by done. apply wrap_small, fits_lor; [done| |by apply (fits_mono 16)].
  by rewrite Z.shiftl_shiftl.
Qed.

Definition bytes (b3 b2 b1 b0 : Z) : Z :=
  Z.lor (Z.lor (Z.shiftl b3 24) (Z.shiftl b2 16)) (Z.lor (Z.shiftl b1 8) b0).

(** What the byte swap of the memory engine does, and the addresses of buffers:
    a handle of 29 bits for blocks of 2 KB *)
Class SwapOk `{App} : Prop := {
  swap32_bytes w : swap32 w = bytes (bf_get 0 8 w) (bf_get 8 8 w) (bf_get 16 8 w) (bf_get 24 8 w);
  blm_handles n h : blm_buf_alloc n = Some h -> fits 29 h;
  handle_block h : blm_buf_handle2ptr h = Z.shiftl h 11
}.

Section requests.
Context {B : build} `{NetCfg, Vids, VfCfg, App, !SwapOk}.

Lemma swap32_swap32 w : swap32 (swap32 w) = u32 w.
Proof. rewrite !swap32_bytes. unfold bytes, bf_get. zbits. Qed.

(** A message as [nic_mac_vlan_entry_op_cmsg] builds it *)
Record sent (m : map_cmsg) : Prop := {
  sent_word0 : exists op, cm_word0 m = Z.lor op (Z.shiftl CMSG_MAP_VERSION 8) /\
    (op = CMSG_TYPE_MAP_ADD \/ op = CMSG_TYPE_MAP_DELETE);
  sent_tid : cm_tid m = Z.shiftl SRIOV_TID 24;
  sent_flags : cm_flags m = 0;
  sent_key : key_fits (cm_key m);
  sent_addr : cmsg_get_mem_addr (workq_data m) = cm_buf m
}.

(** A buffer that the loop comes back with was given at some try. *)
Lemma blm_alloc_loop_inv fuel s h s' : blm_alloc_loop fuel s = Some (h, s') ->
  exists n, blm_buf_alloc n = Some h /\ map_cmsg_q s' = map_cmsg_q s.
Proof.
  revert s. induction fuel as [|fuel IH]; intros s; [done|]. cbn [blm_alloc_loop]. runs.
  destruct (blm_buf_alloc (blm_allocs s)) as [h0|] eqn:E; [intros [= <- <-]; by eexists|].
  unfold sleep, emit. runs. by intros (n & Hn & ->)%IH; exists n.
Qed.

Lemma run_entry_op_sent key al op s r s' :
  key_fits key -> op = CMSG_TYPE_MAP_ADD \/ op = CMSG_TYPE_MAP_DELETE ->
  nic_mac_vlan_entry_op_cmsg key al op s = Some (r, s') ->
  map_cmsg_q s' = map_cmsg_q s \/
  exists m, map_cmsg_q s' = m :: map_cmsg_q s /\ sent m /\ cm_key m = key /\ cmsg_type m = op.
Proof.
  intros Hk Hop. unfold nic_mac_vlan_entry_op_cmsg. runs.
  destruct (pkt_ctm_alloc _ =? _); [intros [= <- <-]; by left|].
  intros (h & s1 & Hh & Hrun)%bind_some_inv. destruct (blm_alloc_loop_inv _ _ _ _ Hh) as (n & Hn & Hq).
  revert Hrun. runs. intros [= <- <-]. right. st. rewrite Hq. st.
  eexists. split; [st; reflexivity|]. split; [|split; [done|by destruct Hop as [-> | ->]]].
  split; cbn [cm_word0 cm_tid cm_flags cm_key cm_buf workq_data]; [by exists op|done..|].
  unfold cmsg_get_mem_addr. cbn [nth]. rewrite handle_block. pose proof (blm_handles n h Hn) as Hf.
  unfold bf_get, NFD_IN_BLM_REG_BLS. zbits.
Qed.

(** ** The request as the engine reads it *)

(** The engine gets the buffer as the master left it; the rest of the memory is
    anything. *)
Definition delivered (m : map_cmsg) (r : cmsg_req_map_op) : Prop :=
  exists mem, r = cmsg_rx (cmsg_store m mem) (workq_data m).

Lemma swapped_twice (ws : list Z) : swap32 <$> (swap32 <$> ws) = u32 <$> ws.
Proof. rewrite <- list_fmap_compose. apply list_fmap_ext. intros i w _. apply swap32_swap32. Qed.

Lemma header_words m mem :
  let a := cm_buf m + NFD_IN_DATA_OFFSET in
  mem_words a 6 (cmsg_store m mem) = swap32 <$> cmsg_raw m.
Proof.
  cbv zeta. unfold cmsg_store. cbv zeta. rewrite mem_words_below by lia.
  exact (mem_words_put _ (swap32 <$> cmsg_raw m) mem).
Qed.

Lemma u32_raw k : u32 <$> veb_key_raw k = veb_key_raw k.
Proof.
  unfold veb_key_raw. cbn [fmap list_fmap]. rewrite (wrap_idem 32) by done. f_equal.
  apply wrap_small, fits_lor; [done| |by apply (fits_mono 16); [|apply wrap_fits]].
  by apply fits_shiftl; [|apply wrap_fits].
Qed.

Record served (m : map_cmsg) (r : cmsg_req_map_op) : Prop := {
  served_valid : cmsg_validate r = true;
  served_tid : req_tid r = SRIOV_TID;
  served_type : req_type r = cmsg_type m;
  served_flags : req_flags r = 0;
  served_key : take SRIOV_KEY_LW (req_key r) = veb_key_raw (cm_key m);
  served_value : (u32 <$> take SRIOV_VALUE_LW (action_data m)) `prefix_of`
    (swap32 <$> take SRIOV_VALUE_LW (req_value r));
  served_length : length (req_value r) = 16%nat
}.

Lemma served_delivered m r : sent m -> delivered m r -> served m r.
Proof.
  intros [(op & Hw0 & Hop) Htid Hfl Hk Haddr] (mem & ->).
  pose proof (header_words m mem) as Hh. cbv zeta in Hh.
  set (mem' := cmsg_store m mem) in *. set (a := cm_buf m + NFD_IN_DATA_OFFSET) in *.
  assert (Hw4 : mem_words a 4 mem' = swap32 <$> take 4 (cmsg_raw m)).
  { rewrite fmap_take, <- Hh. change 6%nat with (4 + 2)%nat. rewrite mem_words_app.
    by rewrite take_app_length' by (by rewrite length_mem_words). }
  assert (Hw2 : mem_words (a + 16) 2 mem' = swap32 <$> veb_key_raw (cm_key m)).
  { change (veb_key_raw (cm_key m)) with (drop 4 (cmsg_raw m)). rewrite fmap_drop, <- Hh.
    change 6%nat with (4 + 2)%nat. rewrite mem_words_app.
    by rewrite drop_app_length' by (by rewrite length_mem_words). }
  unfold cmsg_rx. rewrite Haddr. fold a mem'. cbv zeta.
  change (CMSG_OP_HDR_LW * 4) with 16. change CMSG_MAP_KEY_VALUE_SZ with 64.
  rewrite Hw4. cbn [cmsg_raw app take fmap list_fmap nth].
  split; cbn [req_type req_ver req_tid req_flags req_key req_value nth
    CMSG_MAP_TID_IDX CMSG_MAP_OP_FLAGS_IDX].
  - unfold cmsg_validate. cbn [req_type req_ver]. rewrite Hw0, swap32_bytes. by destruct Hop as [-> | ->].
  - rewrite Htid, swap32_bytes. reflexivity.
  - unfold cmsg_type. rewrite Hw0, swap32_bytes. by destruct Hop as [-> | ->].
  - by rewrite Hfl, swap32_bytes.
  - rewrite <- fmap_take. unfold CMSG_MAP_KEY_VALUE_LW, SRIOV_KEY_LW.
    change 16%nat with (2 + 14)%nat. rewrite mem_words_app.
    rewrite take_app_length' by (by rewrite length_mem_words). by rewrite Hw2, swapped_twice, u32_raw.
  - rewrite <- fmap_take, swapped_twice. replace (a + 16 + 64) with (a + 80) by lia.
    rewrite take_mem_words by (unfold SRIOV_VALUE_LW, CMSG_MAP_KEY_VALUE_LW; lia).
    destruct (mem_words_prefix (a + 80) (action_data m)
      (mem_put a (swap32 <$> cmsg_raw m) mem) SRIOV_VALUE_LW) as [rest Hrest].
    exists (u32 <$> rest). rewrite <- fmap_app. f_equal. exact Hrest.
  - rewrite length_fmap. apply length_mem_words.
Qed.

(** ** The table of the engine *)

(** The value of an entry: room for 14 words, the first of them the words of
    the action list. *)
Definition value_of (data value : list Z) : Prop :=
  length value = SRIOV_VALUE_LW /\ (u32 <$> take SRIOV_VALUE_LW data) `prefix_of` value.

(** The table of the engine has the entries of [t] and no others. *)
Record implements (t : gmap veb_key (list Z)) (t' : veb_map) : Prop := {
  impl_entries k : key_fits k -> option_relation value_of (fun _ => False) (fun _ => False)
    (t !! k) (t' !! veb_key_raw k);
  impl_keys key : is_Some (t' !! key) -> exists k, key_fits k /\ key = veb_key_raw k
}.

Lemma implements_empty : implements ∅ ∅.
Proof. split; [done|]. by intros key [v Hv]. Qed.

Lemma implements_insert t t' k data value : key_fits k -> value_of data value ->
  implements t t' -> implements (<[k := data]> t) (<[veb_key_raw k := value]> t').
Proof.
  intros Hk Hv [He Hkeys]. split.
  - intros k' Hk'. destruct (decide (k' = k)) as [->|Hne]; [by rewrite !lookup_insert_eq|].
    rewrite !lookup_insert_ne; [by apply He|intros E; by apply veb_key_raw_inj in E|done].
  - intros key Hsome. destruct (decide (key = veb_key_raw k)) as [->|Hne]; [by exists k|].
    rewrite lookup_insert_ne in Hsome by done. by apply Hkeys.
Qed.

Lemma implements_delete t t' k : key_fits k -> implements t t' ->
  implements (delete k t) (delete (veb_key_raw k) t').
Proof.
  intros Hk [He Hkeys]. split.
  - intros k' Hk'. destruct (decide (k' = k)) as [->|Hne]; [by rewrite !lookup_delete_eq|].
    rewrite !lookup_delete_ne; [by apply He|intros E; by apply veb_key_raw_inj in E|done].
  - intros key Hsome. destruct (decide (key = veb_key_raw k)) as [->|Hne]; [by exists k|].
    rewrite lookup_delete_ne in Hsome by done. by apply Hkeys.
Qed.

Lemma implements_step t t' m r : sent m -> delivered m r -> implements t t' ->
  implements (veb_apply t m) (cmsg_proc t' r).
Proof.
  intros Hs Hd Ht. destruct (served_delivered m r Hs Hd) as [Hval Htid Htype Hfl Hkey Hv Hlen].
  unfold cmsg_proc. cbv zeta. rewrite Hval, Htid, Z.eqb_refl, Hfl, Hkey, Htype. cbn [negb orb].
  unfold veb_apply. pose proof (sent_key m Hs) as Hfit.
  assert (Hvalue : value_of (action_data m) (swap32 <$> take SRIOV_VALUE_LW (req_value r))).
  { split; [|done]. rewrite length_fmap, length_take, Hlen. done. }
  change (0 =? CMSG_BPF_NOEXIST) with false. change (0 =? CMSG_BPF_EXIST) with false. cbv iota.
  destruct (cmsg_type m =? CMSG_TYPE_MAP_ADD);
    [by destruct (t' !! veb_key_raw (cm_key m)); apply implements_insert|].
  destruct (cmsg_type m =? CMSG_TYPE_MAP_DELETE); [by apply implements_delete|done].
Qed.

(** Messages and requests, newest first *)
Lemma implements_messages ms rs : Forall sent ms -> Forall2 delivered ms rs ->
  implements (foldr (flip veb_apply) ∅ ms) (foldr (flip cmsg_proc) ∅ rs).
Proof.
  intros Hs Hd. revert Hs. induction Hd as [|m r ms rs Hm Hd IH]; intros Hs; [apply implements_empty|].
  apply Forall_cons_1 in Hs as [Hsm Hs]. apply implements_step; [done..|]. by apply IH.
Qed.

(** The table has at most as many entries. *)
Lemma implements_size t t' : implements t t' -> (base.size t' <= base.size t)%nat.
Proof.
  intros [He Hkeys].
  rewrite <- (length_map_to_list t), <- (length_fmap fst), <- (length_fmap veb_key_raw).
  apply map_size_le. intros key Hsome. destruct (Hkeys key Hsome) as (k & Hk & ->).
  apply list_elem_of_fmap_2. specialize (He k Hk). destruct Hsome as [v Hv]. rewrite Hv in He.
  destruct (t !! k) as [d|] eqn:Hd; [|done].
  apply list_elem_of_fmap. exists (k, d). split; [done|]. by apply elem_of_map_to_list.
Qed.
End requests.
