(* ===== verification/Config.v ===== *)
(** * Bringing vNICs up and down: the second half of
    apps/nic/app_config_tables.c

    The action lists go to the instruction tables of the worker islands, one
    slot of sixteen words per queue; a virtual function also gets its entries
    in the switch and its place in the VLAN member tables. *)

From S2P Require Import Prelude Platform UserCfg Nfd Machine Tables ActionList Builders NicTables Veb.

Section config.
Context {B : build} `{NetCfg, Vids, VfCfg, App}.

(** ** Writing action lists *)

Definition cfg_act_write_queue (qid : Z) (acts : action_list) : C unit :=
  _ ← require ((1 <=? count acts) && (count acts <=? NIC_MAX_INSTR));
  cls_write (NIC_CFG_INSTR_TBL_ADDR + qid * NIC_MAX_INSTR * 4) (written acts).

Definition cfg_act_write_host (pcie vid : Z) (acts : action_list) : C unit :=
  for_each (range 0 (NFD_VID_MAXQS vid)) (fun i =>
    cfg_act_write_queue (Z.lor (Z.shiftl pcie 6) (NFD_VID2QID vid i)) acts).

Definition cfg_act_write_wire (port : Z) (acts : action_list) : C unit :=
  cfg_act_write_queue (Z.lor (Z.shiftl 1 8) port) acts.

(** ** Virtual functions *)

Definition MAC64_FROM_SRIOV_CFG (cfg : list Z) : Z :=
  Z.lor (Z.shiftl (sc_mac_hi cfg) 16) (sc_mac_lo cfg).

(** [nfd_vf_cfg_base(pcie, NFD_VID2VF(vid), NFD_VF_CFG_SEL_VF)] *)
Definition cfg_act_vf_up (pcie vid pf_control vf_control update : Z) : C Z :=
  _ ← cfg_act_cache_fl_buf_sz pcie vid;
  acts ← cfg_act_build_veb_vf pcie vid pf_control vf_control update;
  sriov_cfg_data ← read_sriov_cfg pcie (NFD_VID2VF vid);
  let vlan_id :=
    if truthy (sc_vlan_tag sriov_cfg_data) then sc_vlan_id sriov_cfg_data else NIC_NO_VLAN_ID in
  let mac_addr := MAC64_FROM_SRIOV_CFG sriov_cfg_data in
  mac_xr ← mem_read64 (nfd_cfg_bar_base pcie vid + NFP_NET_CFG_MACADDR);
  let vf_mac_addr := Z.shiftr mac_xr 16 in
  if negb (mac_addr =? 0) && negb (truthy (sc_ctrl_trusted sriov_cfg_data)) &&
     negb (vf_mac_addr =? mac_addr) &&
     has update (Z.lor NFP_NET_CFG_UPDATE_MACADDR NFP_NET_CFG_UPDATE_GEN)
  then mret 1
  else
    let mac_addr :=
      if (mac_addr =? 0) || truthy (sc_ctrl_trusted sriov_cfg_data) then vf_mac_addr
      else mac_addr in
    let veb_key := set_vlan vlan_id (VEB_KEY_FROM_MAC64 mac_addr) in
    r ← cfg_act_write_veb vid veb_key (Some acts);
    if negb (r =? NO_ERROR) then mret 1
    else
      _ ← add_vlan_member pcie vlan_id vid;
      _ ← upd_ctm_vlan_members pcie;
      acts ← cfg_act_build_vf pcie vid pf_control vf_control;
      _ ← cfg_act_write_host pcie vid acts;
      mret 0.

Definition cfg_act_vf_down (pcie vid : Z) : C Z :=
  acts ← cfg_act_build_pcie_down pcie vid;
  _ ← cfg_act_write_host pcie vid acts;
  r ← cfg_act_write_veb vid (VEB_KEY_FROM_MAC64 0) None;
  if negb (r =? NO_ERROR) then mret 1
  else
    _ ← remove_vlan_member pcie vid;
    _ ← upd_ctm_vlan_members pcie;
    mret 0.

(** ** Physical functions *)

(** [nvnic_macs[NFD_MAX_ISL][NVNICS]] *)
Definition nvnic_macs_ok (pcie vid : Z) : bool :=
  (0 <=? pcie) && (pcie <? NFD_MAX_ISL) && (0 <=? vid) && (vid <? NVNICS B NFD_MAX_CTRL).

Definition set_nvnic_mac (pcie vid mac : Z) : C unit :=
  _ ← require (nvnic_macs_ok pcie vid);
  modify (fun s => s <| nvnic_macs ::= <[(pcie, vid) := mac]> |>).

(** The words of a [struct mac_addr]: the upper 16 bits, zero after the shift,
    are no part of [mac_addr_hi]. *)
Definition veb_key_from_words (mac : Z) : veb_key :=
  mk_veb_key 0 (u16 (u32 (Z.shiftr mac 32))) (u32 mac).

Definition cfg_act_pf_up (pcie vid veb_up control update : Z) : C Z :=
  _ ← cfg_act_cache_fl_buf_sz pcie vid;
  acts ← cfg_act_build_nbi pcie vid veb_up control update;
  let '(_, vnic) := NFD_VID2VNIC vid in
  _ ← cfg_act_write_wire vnic acts;
  acts ← cfg_act_build_pf pcie vid veb_up control update;
  _ ← cfg_act_write_host pcie vid acts;
  mac_xr ← mem_read64 (nfd_cfg_bar_base pcie vid + NFP_NET_CFG_MACADDR);
  let mac := Z.shiftr mac_xr 16 in
  _ ← set_nvnic_mac pcie vid mac;
  if vnic =? 0 then
    acts ← cfg_act_build_veb_pf pcie vid control update;
    let veb_key := set_vlan NIC_NO_VLAN_ID (veb_key_from_words mac) in
    r ← cfg_act_write_veb vid veb_key (Some acts);
    mret (if negb (r =? NO_ERROR) then 1 else 0)
  else mret 0.

Definition cfg_act_pf_down (pcie vid : Z) : C Z :=
  let '(type, vnic) := NFD_VID2VNIC vid in
  if bool_decide (type <> NFD_VNIC_TYPE_PF) then mret 1
  else
    acts ← cfg_act_build_nbi_down pcie vid;
    _ ← cfg_act_write_wire vnic acts;
    acts ← cfg_act_build_pcie_down pcie vid;
    _ ← cfg_act_write_host pcie vid acts;
    mac ← arr_get nvnic_macs (nvnic_macs_ok pcie vid) (pcie, vid);
    _ ← set_nvnic_mac pcie vid 0;
    if vnic =? 0 then
      r ← cfg_act_write_veb vid (veb_key_from_words mac) None;
      mret (if negb (r =? NO_ERROR) then 1 else 0)
    else mret 0.
End config.

(** * Properties *)

(** ** The instruction tables *)

Section slots.
Context {B : build} `{NetCfg, Vids, VfCfg, App}.
Context `{!VidsOk B}.

(** The queue numbers of the instruction table. *)
Definition host_q (pcie vid i : Z) : Z := pcie * 64 + NFD_VID2QID vid i.
Definition wire_q (port : Z) : Z := 256 + port.

Definition slot_addr (q : Z) : Z := NIC_CFG_INSTR_TBL_ADDR + q * NIC_MAX_INSTR * 4.

(** The slot of queue [q] in island [isl] starts with the list [l]. *)
Definition slot_runs (s : nic) (isl q : Z) (l : list action) : Prop :=
  forall j w, assemble l !! j = Some w -> rd (cls s) (isl, slot_addr q + 4 * Z.of_nat j) = w.

(** The words of such a slot decode to [l]. *)
Lemma slot_runs_decode s isl q l : Forall wf_action l -> (size l <= 16)%nat -> slot_runs s isl q l ->
  decode 16 ((fun j => rd (cls s) (isl, slot_addr q + 4 * Z.of_nat j)) <$> seq 0 (size l)) = Some l.
Proof.
  intros Hwf Hsz Hs. pose proof (length_le_size l).
  replace (_ <$> seq 0 (size l)) with (assemble l); [apply decode_assemble; [done|lia]|].
  pose proof (length_assemble None l) as Hlen. fold (assemble l) in Hlen.
  apply list_eq. intros j. rewrite list_lookup_fmap.
  destruct (decide (j < size l)%nat) as [Hj|Hj].
  - rewrite lookup_seq_lt by done. simpl.
    destruct (lookup_lt_is_Some_2 (assemble l) j) as [w Hw]; [lia|]. rewrite Hw. f_equal.
    symmetry. by apply Hs.
  - rewrite lookup_seq_ge by lia. simpl. apply lookup_ge_None. lia.
Qed.

Definition queue_written (q : Z) (l : list action) (s : nic) : nic :=
  s <| cls ::= put_all islands (slot_addr q) 4 (assemble l) |>.

Lemma run_write_queue q l s : (1 <= size l <= 16)%nat ->
  cfg_act_write_queue q (repr l) s = Some (tt, queue_written q l s).
Proof.
  intros Hsz. unfold cfg_act_write_queue. pose proof (length_assemble None l) as Hlen.
  fold (assemble l) in Hlen. unfold NIC_MAX_INSTR.
  change (count (repr l)) with (Z.of_nat (length (assemble l))).
  rewrite run_require.
  2:{ rewrite (proj2 (Z.leb_le 1 _)), (proj2 (Z.leb_le _ 16)) by lia. done. }
  rewrite written_repr. apply run_cls_write. lia.
Qed.

Lemma slot_runs_written s isl q l : isl ∈ islands -> slot_runs (queue_written q l s) isl q l.
Proof. intros Hisl j w Hj. unfold queue_written. st. by apply rd_put_all_in. Qed.

(** Writing another slot, or another address, leaves a slot alone. *)
Lemma rd_queue_written_out s isl a q l : (size l <= 16)%nat ->
  a < slot_addr q \/ slot_addr q + 64 <= a ->
  rd (cls (queue_written q l s)) (isl, a) = rd (cls s) (isl, a).
Proof.
  intros Hsz Ha. unfold queue_written. st. apply rd_put_all_out; [lia|]. left.
  unfold assemble. rewrite length_assemble. lia.
Qed.

Lemma slot_runs_other s isl q q' l l' : (size l <= 16)%nat -> (size l' <= 16)%nat -> q <> q' ->
  slot_runs s isl q l -> slot_runs (queue_written q' l' s) isl q l.
Proof.
  intros Hsz Hsz' Hq Hs j w Hj. pose proof (lookup_lt_Some _ _ _ Hj) as Hlt.
  unfold assemble in Hlt. rewrite length_assemble in Hlt.
  rewrite rd_queue_written_out; [by apply Hs|done|].
  unfold slot_addr, NIC_MAX_INSTR. lia.
Qed.

Definition host_written (pcie vid : Z) (l : list action) (s : nic) : nic :=
  foldl (fun s i => queue_written (host_q pcie vid i) l s) s (range 0 (NFD_VID_MAXQS vid)).

Lemma host_q_lor pcie vid i : 0 <= NFD_VID2QID vid i < 64 ->
  Z.lor (Z.shiftl pcie 6) (NFD_VID2QID vid i) = host_q pcie vid i.
Proof.
  intros Hq. unfold host_q. change 64 with (2 ^ 6). rewrite <- Z.shiftl_mul_pow2 by lia.
  assert (Hland : Z.land (Z.shiftl pcie 6) (NFD_VID2QID vid i) = 0).
  { apply Z.bits_inj'; intros j Hj. rewrite Z.land_spec, Z.testbit_0_l.
    destruct (Z.lt_ge_cases j 6).
    - by rewrite Z.shiftl_spec_low by lia.
    - by rewrite (testbit_fits 6 (NFD_VID2QID vid i)), andb_false_r by (unfold fits; lia). }
  by rewrite Z.add_nocarry_lxor, Z.lxor_lor.
Qed.

Lemma run_write_host pcie vid l s :
  0 <= vid < NVNICS B NFD_MAX_CTRL -> (1 <= size l <= 16)%nat ->
  cfg_act_write_host pcie vid (repr l) s = Some (tt, host_written pcie vid l s).
Proof.
  intros Hv Hsz. unfold cfg_act_write_host, host_written. apply for_each_total.
  intros i s' Hi%elem_of_range. destruct (natq_range (B:=B) vid i Hv Hi) as [_ Hq].
  rewrite host_q_lor by done. by apply run_write_queue.
Qed.

Lemma slot_runs_host s pcie vid l isl i :
  (size l <= 16)%nat -> isl ∈ islands -> 0 <= i < NFD_VID_MAXQS vid ->
  slot_runs (host_written pcie vid l s) isl (host_q pcie vid i) l.
Proof.
  intros Hsz Hisl Hi%elem_of_range. unfold host_written.
  assert (Hgen : forall ks s, i ∈ ks \/ slot_runs s isl (host_q pcie vid i) l ->
    slot_runs (foldl (fun s i => queue_written (host_q pcie vid i) l s) s ks) isl
      (host_q pcie vid i) l); [|by apply Hgen; left].
  clear Hi s. induction ks as [|k ks IH]; intros s Hor; simpl.
  - destruct Hor as [Hin|]; [by apply elem_of_nil in Hin|done].
  - apply IH. destruct (decide (host_q pcie vid i = host_q pcie vid k)) as [->|Hne].
    + right. by apply slot_runs_written.
    + destruct Hor as [[->|Hin]%elem_of_cons|Hs]; [done|by left|]. right. by apply slot_runs_other.
Qed.

Lemma host_written_cls pcie vid l s :
  host_written pcie vid l s = s <| cls := cls (host_written pcie vid l s) |>.
Proof.
  unfold host_written. revert s. induction (range 0 (NFD_VID_MAXQS vid)) as [|k ks IH]; intros s;
    simpl; [by destruct s|]. rewrite IH. unfold queue_written. st. by destruct s.
Qed.

Lemma rd_host_written_out pcie vid l s isl a : (size l <= 16)%nat ->
  (forall i, 0 <= i < NFD_VID_MAXQS vid ->
     a < slot_addr (host_q pcie vid i) \/ slot_addr (host_q pcie vid i) + 64 <= a) ->
  rd (cls (host_written pcie vid l s)) (isl, a) = rd (cls s) (isl, a).
Proof.
  intros Hsz Ha. unfold host_written.
  assert (Hgen : forall ks s, (forall i, i ∈ ks -> 0 <= i < NFD_VID_MAXQS vid) ->
    rd (cls (foldl (fun s i => queue_written (host_q pcie vid i) l s) s ks)) (isl, a) =
    rd (cls s) (isl, a)); [|apply Hgen; by intros i ?%elem_of_range].
  clear s. induction ks as [|k ks IH]; intros s Hks; [done|]. simpl.
  rewrite IH by (intros; apply Hks, elem_of_cons; by right).
  apply rd_queue_written_out; [done|]. apply Ha, Hks, elem_of_cons. by left.
Qed.

(** The queues of a vNIC have slots of their own, all in the lower half of the
    table; the ports have theirs in the upper half. *)
Lemma host_q_range pcie vid i : 0 <= pcie < NFD_MAX_ISL -> 0 <= vid < NVNICS B NFD_MAX_CTRL ->
  0 <= i < NFD_VID_MAXQS vid -> 0 <= host_q pcie vid i < 256.
Proof.
  intros Hp Hv Hi. pose proof (max_isl_range (B:=B)).
  destruct (natq_range (B:=B) vid i Hv Hi) as [_ Hq]. unfold host_q. lia.
Qed.

Lemma host_q_inj pcie pcie' vid vid' i i' :
  0 <= vid < NVNICS B NFD_MAX_CTRL -> 0 <= vid' < NVNICS B NFD_MAX_CTRL ->
  0 <= i < NFD_VID_MAXQS vid -> 0 <= i' < NFD_VID_MAXQS vid' ->
  host_q pcie vid i = host_q pcie' vid' i' -> pcie = pcie' /\ vid = vid' /\ i = i'.
Proof.
  intros Hv Hv' Hi Hi' Heq. destruct (natq_range (B:=B) vid i Hv Hi) as [_ Hq].
  destruct (natq_range (B:=B) vid' i' Hv' Hi') as [_ Hq']. unfold host_q in Heq.
  assert (pcie = pcie') as -> by lia. split; [done|].
  apply (qid_inj (B:=B)); [done..|lia].
Qed.

(** writing the list of a vNIC puts it, in every worker island, at the
    slot of each of the vNIC's queues, where its words decode to the list; no
    slot of another vNIC, of another PCIe island or of a wire port, and
    nothing outside the instruction table, is written. *)
Theorem write_host_correct pcie vid l s :
  0 <= pcie < NFD_MAX_ISL -> 0 <= vid < NVNICS B NFD_MAX_CTRL -> (1 <= size l <= 16)%nat ->
  exists s', cfg_act_write_host pcie vid (repr l) s = Some (tt, s') /\
    s' = s <| cls := cls s' |> /\
    (forall isl i, isl ∈ islands -> 0 <= i < NFD_VID_MAXQS vid ->
       slot_runs s' isl (host_q pcie vid i) l) /\
    (forall isl pcie' vid' i' l', 0 <= vid' < NVNICS B NFD_MAX_CTRL ->
       0 <= i' < NFD_VID_MAXQS vid' -> (pcie' <> pcie \/ vid' <> vid) -> (size l' <= 16)%nat ->
       slot_runs s isl (host_q pcie' vid' i') l' -> slot_runs s' isl (host_q pcie' vid' i') l') /\
    (forall isl a, a < 0 \/ NIC_CFG_INSTR_TBL_SIZE / 2 <= a ->
       rd (cls s') (isl, a) = rd (cls s) (isl, a)).
Proof.
  intros Hp Hv Hsz. rewrite run_write_host by done. eexists. split; [reflexivity|].
  split; [apply host_written_cls|]. split; [intros; apply slot_runs_host; done || lia|]. split.
  - intros isl pcie' vid' i' l' Hv' Hi' Hne Hsz' Hs j w Hj.
    pose proof (lookup_lt_Some _ _ _ Hj) as Hlt. unfold assemble in Hlt.
    rewrite length_assemble in Hlt. rewrite rd_host_written_out; [by apply Hs|lia|].
    intros i Hi. unfold slot_addr, NIC_MAX_INSTR.
    destruct (decide (host_q pcie vid i = host_q pcie' vid' i')) as [Heq|]; [|lia].
    apply host_q_inj in Heq as (-> & -> & _); [|done..]. by destruct Hne.
  - intros isl a Ha. apply rd_host_written_out; [lia|]. intros i Hi.
    pose proof (host_q_range pcie vid i Hp Hv Hi). unfold slot_addr, NIC_MAX_INSTR.
    change (NIC_CFG_INSTR_TBL_SIZE / 2) with 16384 in Ha. unfold NIC_CFG_INSTR_TBL_ADDR. lia.
Qed.
End slots.

(** ** Virtual functions *)

Section vf.
Context {B : build} `{NetCfg, Vids, VfCfg, App}.
Context `{!NetCfgOk, !VidsOk B, !VfCfgOk}.

Definition vf_vlan (pcie vid : Z) (s : nic) : Z :=
  if truthy (sc_vlan_tag (sriov_cfg pcie vid s)) then sc_vlan_id (sriov_cfg pcie vid s)
  else NIC_NO_VLAN_ID.

Definition vf_trusted (pcie vid : Z) (s : nic) : bool :=
  truthy (sc_ctrl_trusted (sriov_cfg pcie vid s)).

(** The MAC of a VF: the one in its BAR if the PF set none or trusts it, else
    the one the PF set. *)
Definition vf_mac (pcie vid : Z) (s : nic) : Z :=
  if (sriov_mac pcie vid s =? 0) || vf_trusted pcie vid s then bar_mac pcie vid s
  else sriov_mac pcie vid s.

(** A VF that is not trusted asks for another MAC than the one the PF set. *)
Definition vf_rejected (pcie vid update : Z) (s : nic) : bool :=
  negb (sriov_mac pcie vid s =? 0) && negb (vf_trusted pcie vid s) &&
  negb (bar_mac pcie vid s =? sriov_mac pcie vid s) &&
  has update (Z.lor NFP_NET_CFG_UPDATE_MACADDR NFP_NET_CFG_UPDATE_GEN).

Definition vf_key (pcie vid : Z) (s : nic) : veb_key :=
  set_vlan (vf_vlan pcie vid s) (VEB_KEY_FROM_MAC64 (vf_mac pcie vid s)).

(** The state after the buffer sizes of the vNIC were cached. *)
Definition cached (pcie vid : Z) (s : nic) : nic :=
  s <| fl_buf_sz_cache := fl_bufs pcie vid s |>.

Lemma mac64_of_key v mac : fits 48 mac ->
  MAC64_FROM_VEB_KEY (set_vlan v (VEB_KEY_FROM_MAC64 mac)) = mac.
Proof. intros Hm. unfold MAC64_FROM_VEB_KEY. simpl. zbits. Qed.

Lemma sriov_mac_fits pcie vid s : fits 48 (sriov_mac pcie vid s).
Proof. apply (wf_sriov_mac pcie vid s). Qed.

Lemma vf_mac_fits pcie vid s : wf_emem s -> fits 48 (vf_mac pcie vid s).
Proof.
  intros Hm. unfold vf_mac. case_match; [by apply bar_mac_fits|apply sriov_mac_fits].
Qed.

Lemma vf_vlan_range pcie vid s : 0 <= vf_vlan pcie vid s < 4096.
Proof.
  unfold vf_vlan, NIC_NO_VLAN_ID. case_match; [|lia].
  apply (sc_vlan_id_fits (sriov_cfg pcie vid s)).
Qed.

Lemma vf_vid vid n : vnic_is vid NFD_VNIC_TYPE_VF n -> 0 <= vid < NFD_MAX_VFS B.
Proof.
  intros [Hv Ht]. pose proof (vid_vnic (B:=B) vid Hv) as Hn. rewrite Ht in Hn.
  destruct Hn as [-> Hn]. by destruct (Nfd.vf_vid (B:=B) n Hn) as (_ & _ & -> & _).
Qed.

Lemma stored_key_ok_vid vid : 0 <= vid < NVNICS B NFD_MAX_CTRL -> stored_key_ok vid = true.
Proof.
  intros Hv. unfold stored_key_ok. by rewrite (proj2 (Z.leb_le 0 vid)), (proj2 (Z.ltb_lt vid _)) by lia.
Qed.

Lemma veb_vf_size pcie vid n pf_control vf_control s :
  (1 <= size (veb_vf_pipeline pcie vid n pf_control vf_control s) <= 16)%nat.
Proof.
  split.
  - unfold veb_vf_pipeline. cbv zeta. rewrite !size_app. change (size [Checksum _ _ _]) with 1%nat. lia.
  - unfold veb_vf_pipeline. cbv zeta. case_match; size_tac.
Qed.

Lemma vf_size x pcie vid pf_control vf_control s :
  (1 <= size (vf_pipeline x pcie vid pf_control vf_control s) <= 16)%nat.
Proof.
  split.
  - unfold vf_pipeline. cbv zeta. rewrite !size_app. change (size [VebLookup _]) with 2%nat. lia.
  - unfold vf_pipeline. cbv zeta. size_tac.
Qed.

(** The word of the VLAN table after a VF has joined. *)
Lemma added_bits pcie vid w s v : 0 <= vid -> 0 <= v < 58 ->
  Z.testbit (added pcie vid w s) v = (v <? NFD_MAX_VFS B) && (Z.testbit w v || (v =? vid)).
Proof.
  intros Hvid Hv. unfold added. cbv zeta.
  rewrite low_bits by (lia || apply land_vf_mask_fits).
  by rewrite testbit_land_vf_mask, Z.lor_spec, testbit_shiftl1 by lia.
Qed.

(** [upd_ctm_vlan_members], for the island that has the copies or another. *)
Lemma run_upd_ctm_any pcie s : exists s', upd_ctm_vlan_members pcie s = Some (tt, s') /\
  s' = s <| vf_vlan_cache := vf_vlan_cache s' |> /\ (pcie = 0 -> ctm_synced s').
Proof.
  destruct (decide (pcie = 0)) as [->|Hne].
  - destruct (upd_ctm_spec s) as (s' & Hrun & Hs & Hsync). exists s'.
    split; [exact Hrun|]. split; [exact Hs|]. intros _. exact Hsync.
  - exists s. unfold upd_ctm_vlan_members. rewrite (proj2 (Z.eqb_neq pcie 0)) by done.
    split; [done|]. split; [by destruct s|done].
Qed.

Lemma cached_inputs pcie vid s : wf_emem s -> wf_emem (cached pcie vid s).
Proof. done. Qed.

(** The first part of cfg_act_vf_up: up to the choice of the MAC. *)
Lemma run_vf_up_start pcie vid n pf_control vf_control update s :
  wf_emem s -> 0 <= pcie < NFD_MAX_ISL -> vnic_is vid NFD_VNIC_TYPE_VF n ->
  let s1 := cached pcie vid s in
  cfg_act_vf_up pcie vid pf_control vf_control update s =
  (if vf_rejected pcie vid update s then mret 1
   else
     r ← cfg_act_write_veb vid (vf_key pcie vid s)
           (Some (repr (veb_vf_pipeline pcie vid n pf_control vf_control s1)));
     if negb (r =? NO_ERROR) then mret 1
     else
       _ ← add_vlan_member pcie (vf_vlan pcie vid s) vid;
       _ ← upd_ctm_vlan_members pcie;
       acts ← cfg_act_build_vf pcie vid pf_control vf_control;
       _ ← cfg_act_write_host pcie vid acts;
       mret 0) s1.
Proof.
  intros Hm Hp Hv s1. unfold cfg_act_vf_up. pose proof Hv as [Hvid _].
  erewrite run_some by by apply run_cache_fl_buf_sz. cbv beta.
  fold (cached pcie vid s). fold s1.
  erewrite run_some by by apply run_build_veb_vf. cbv beta.
  unfold read_sriov_cfg, mem_read32s, mem_read64. runs. reflexivity.
Qed.

(** Everything that bringing a VF up promises about the state. *)
Record vf_is_up (pcie vid n pf_control vf_control : Z) (s s' : nic) : Prop := {
  (** its queues run the host-to-wire list in every worker island, all with the
      same spare bits *)
  up_slots : exists spare, forall isl i, isl ∈ islands -> 0 <= i < NFD_VID_MAXQS vid ->
    slot_runs s' isl (host_q pcie vid i)
      (vf_pipeline spare pcie vid pf_control vf_control (cached pcie vid s));
  (** the switch has its entries *)
  up_veb : exists untagged,
    let l := veb_vf_pipeline pcie vid n pf_control vf_control (cached pcie vid s) in
    written untagged = remove_pop (assemble l) /\
    forall k, 0 <= vlan_id k < 4096 -> veb_table s' !! k =
      veb_after (vf_key pcie vid s) (stored_key s vid)
        (fun v => if v =? NIC_NO_VLAN_ID then take 16 (instr untagged) else instr (repr l))
        (veb_table s) k;
  up_key : same_mac (stored_key s' vid) (vf_key pcie vid s) = true;
  (** it is a member of its VLAN, and no membership is lost *)
  up_vlan vlan v : 0 <= vlan < 4096 -> 0 <= v < 58 ->
    Z.testbit (entry pcie vlan s') v =
    if vlan =? vf_vlan pcie vid s
    then (v <? NFD_MAX_VFS B) && (Z.testbit (entry pcie vlan s) v || (v =? vid))
    else Z.testbit (entry pcie vlan s) v;
  up_ctm : pcie = 0 -> ctm_synced s';
  (** the memory of the host interface is left alone, the sizes are cached *)
  up_inputs : same_inputs (cached pcie vid s) s'
}.

Lemma vf_pipeline_same x s s' pcie vid pf_control vf_control : same_inputs s s' ->
  vf_pipeline x pcie vid pf_control vf_control s' = vf_pipeline x pcie vid pf_control vf_control s.
Proof.
  intros Hs. pose proof Hs as [He Hf]. unfold vf_pipeline. cbv zeta.
  rewrite (rx_host_same s s'), (tx_host_same s s') by done.
  assert (Hc : sriov_cfg pcie vid s' = sriov_cfg pcie vid s)
    by (unfold sriov_cfg, words; by rewrite He).
  unfold sriov_mac. by rewrite Hc.
Qed.

(** What follows once the switch was changed *)
Lemma run_vf_up_end pcie vid n pf_control vf_control s2 vlan :
  wf_emem s2 -> 0 <= pcie < NFD_MAX_ISL -> vnic_is vid NFD_VNIC_TYPE_VF n -> 0 <= vlan < 4096 ->
  let s3 := s2 <| nic_vlan_to_vnics_map_tbl ::= <[(pcie, vlan) := added pcie vid (entry pcie vlan s2) s2]> |> in
  exists s4 spare,
    (_ ← add_vlan_member pcie vlan vid;
     _ ← upd_ctm_vlan_members pcie;
     acts ← cfg_act_build_vf pcie vid pf_control vf_control;
     _ ← cfg_act_write_host pcie vid acts;
     mret 0) s2 =
    Some (0, host_written pcie vid (vf_pipeline spare pcie vid pf_control vf_control s2) s4) /\
    s4 = s3 <| vf_vlan_cache := vf_vlan_cache s4 |> /\ (pcie = 0 -> ctm_synced s4).
Proof.
  intros Hm Hp Hv Hvl s3. pose proof Hv as [Hvid _]. pose proof (vf_vid vid n Hv).
  pose proof max_vfs_range.
  erewrite run_some by (apply run_add_vlan_member; done || lia). cbv beta. fold s3.
  destruct (run_upd_ctm_any pcie s3) as (s4 & Hrun4 & Hs4 & Hsync).
  erewrite run_some by exact Hrun4. cbv beta.
  assert (Hin : same_inputs s2 s4) by (rewrite Hs4; by split).
  erewrite run_some by (apply run_build_vf with n; try done; by eapply wf_emem_same).
  cbv beta. set (x := tx_wire_spare s4). rewrite (vf_pipeline_same x s2 s4) by done.
  pose proof (vf_size x pcie vid pf_control vf_control s2) as Hsz4.
  erewrite run_some by by apply run_write_host. cbv beta. exists s4, x. by split_and!.
Qed.

Lemma run_vf_up pcie vid n pf_control vf_control update s :
  allocs_ok -> wf_emem s -> 0 <= pcie < NFD_MAX_ISL -> vnic_is vid NFD_VNIC_TYPE_VF n ->
  vf_rejected pcie vid update s = false -> unicast (vf_mac pcie vid s) = true ->
  exists s', cfg_act_vf_up pcie vid pf_control vf_control update s = Some (0, s') /\
    vf_is_up pcie vid n pf_control vf_control s s'.
Proof.
  intros Ha Hm Hp Hv Hrej Hu. pose proof Hv as [Hvid Htype]. pose proof (vf_vid vid n Hv) as Hvf.
  pose proof max_vfs_range. rewrite (run_vf_up_start pcie vid n) by done. rewrite Hrej.
  set (s1 := cached pcie vid s).
  set (l := veb_vf_pipeline pcie vid n pf_control vf_control s1).
  pose proof (veb_vf_size pcie vid n pf_control vf_control s1) as Hsz. fold l in Hsz.
  assert (Hok : stored_key_ok vid = true) by by apply stored_key_ok_vid.
  destruct (run_write_veb_up vid (vf_key pcie vid s) l s1 Ha Hok) as (acts0 & key' & s2 & Hrem & Hrun & Hs2 & Hkey & Ht);
    [by unfold vf_key; rewrite mac64_of_key by by apply vf_mac_fits|done|].
  erewrite run_some by exact Hrun. cbv beta.
  change (negb (NO_ERROR =? NO_ERROR)) with false. cbv iota.
  pose proof (vf_vlan_range pcie vid s) as Hvl.
  assert (Hin2 : same_inputs s1 s2) by (rewrite Hs2; by split).
  destruct (run_vf_up_end pcie vid n pf_control vf_control s2 (vf_vlan pcie vid s))
    as (s4 & x & Hrun4 & Hs4 & Hsync); [by eapply wf_emem_same|done..|].
  set (s3 := s2 <| nic_vlan_to_vnics_map_tbl ::= _ |>) in *.
  assert (Hin : same_inputs s1 s4) by (rewrite Hs4; unfold s3; rewrite Hs2; by split).
  rewrite Hrun4, (vf_pipeline_same x s1 s2) by done.
  pose proof (vf_size x pcie vid pf_control vf_control s1) as Hsz4.
  eexists. split; [reflexivity|].
  set (lh := vf_pipeline x pcie vid pf_control vf_control s1) in *.
  assert (Hh : host_written pcie vid lh s4 = s4 <| cls := cls (host_written pcie vid lh s4) |>)
    by apply host_written_cls.
  assert (Hq : map_cmsg_q (host_written pcie vid lh s4) = map_cmsg_q s2)
    by (rewrite Hh, Hs4; unfold s3; by st).
  assert (Hk : veb_stored_keys (host_written pcie vid lh s4) = veb_stored_keys s2)
    by (rewrite Hh, Hs4; unfold s3; by st).
  assert (Htb : nic_vlan_to_vnics_map_tbl (host_written pcie vid lh s4) =
    <[(pcie, vf_vlan pcie vid s) := added pcie vid (entry pcie (vf_vlan pcie vid s) s) s2]>
      (nic_vlan_to_vnics_map_tbl s)).
  { rewrite Hh, Hs4. unfold s3. st. unfold entry. by rewrite Hs2. }
  split.
  - exists x. intros isl i Hisl Hi. by apply slot_runs_host; [apply Hsz4|..].
  - exists acts0. cbv zeta. destruct (remove_strip_pure l Hsz) as (a0 & Hrem' & Hw).
    assert (a0 = acts0) as -> by (specialize (Hrem s); rewrite Hrem' in Hrem; congruence).
    split; [done|]. intros k Hk'. unfold veb_table at 1. rewrite Hq. fold (veb_table s2).
    rewrite Ht by done. unfold veb_after. cbv zeta.
    change (stored_key s1 vid) with (stored_key s vid). change (veb_table s1) with (veb_table s).
    fold s1. fold l.
    destruct (vlan_id k =? NIC_NO_VLAN_ID); [done|]. by rewrite instr_repr by lia.
  - unfold stored_key. rewrite Hk. fold (stored_key s2 vid).
    by rewrite (proj1 (stored_key_insert _ _ _ _ Hs2)).
  - intros vlan v Hvlan Hv'. unfold entry. rewrite Htb.
    destruct (Z.eqb_spec vlan (vf_vlan pcie vid s)) as [->|Hne].
    + rewrite rd_insert_eq. by apply added_bits; [lia|].
    + by rewrite rd_insert_ne by congruence.
  - intros Hz. specialize (Hsync Hz). unfold ctm_synced in *. rewrite Hh. st. exact Hsync.
  - rewrite Hh. exact Hin.
Qed.

(** Whatever CTM buffers are refused, the call returns and its entries in the
    switch are for the MAC of the VF. *)
Lemma run_vf_up_any pcie vid n pf_control vf_control update s :
  blm_answers -> wf_emem s -> 0 <= pcie < NFD_MAX_ISL -> vnic_is vid NFD_VNIC_TYPE_VF n ->
  exists r s', cfg_act_vf_up pcie vid pf_control vf_control update s = Some (r, s') /\
    only_entries (vf_key pcie vid s) s s' /\
    (vf_rejected pcie vid update s = true -> veb_table s' = veb_table s).
Proof.
  intros Ha Hm Hp Hv. pose proof Hv as [Hvid _]. rewrite (run_vf_up_start pcie vid n) by done.
  set (s1 := cached pcie vid s). destruct (vf_rejected pcie vid update s) eqn:Hrej.
  { exists 1, s1. split; [done|]. split; [intros k x Hk; by left|done]. }
  destruct (write_veb_any vid (vf_key pcie vid s) (veb_vf_pipeline pcie vid n pf_control vf_control s1) s1 Ha)
    as (r & s2 & Hrun & Ho & He); [by apply stored_key_ok_vid|apply veb_vf_size|].
  erewrite run_some by exact Hrun. cbv beta.
  assert (He2 : only_entries (vf_key pcie vid s) s s2) by exact He.
  destruct (negb (r =? NO_ERROR)); [by exists 1, s2|].
  assert (Hm2 : wf_emem s2) by (intros a; rewrite (f_equal emem Ho); apply Hm).
  destruct (run_vf_up_end pcie vid n pf_control vf_control s2 (vf_vlan pcie vid s))
    as (s4 & x & Hrun4 & Hs4 & _); [done..|apply vf_vlan_range|].
  rewrite Hrun4. eexists _, _. split; [reflexivity|]. split; [|done].
  intros k y Hk. apply He2. revert Hk. unfold veb_table. rewrite host_written_cls. st. by rewrite Hs4.
Qed.

(** C27: bringing a virtual function up.  When the VF is not trusted and asks
    for another MAC than the one the PF set, or when its MAC is zero or a group
    address, the call returns 1 and only the cache of buffer sizes has changed.
    Otherwise, as long as no CTM buffer for a message to the switch is refused
    (the call returns 1 after a refusal, and entries may be missing), it returns
    0; every queue of the VF runs the host-to-wire list in every worker island,
    the switch has the entries of its MAC, the VF is a member of its VLAN and
    of no more VLANs than before, and on PCIe island 0, the only one that the
    CTMs have copies of, the copies of the member table agree with it.  MU
    buffers have to come within [blm_fuel] tries.  What a TX_WIRE instruction
    has in its spare bits, which the code does not assign, is left open. *)
Theorem vf_up_correct pcie vid n pf_control vf_control update s :
  blm_answers -> wf_emem s -> 0 <= pcie < NFD_MAX_ISL -> vnic_is vid NFD_VNIC_TYPE_VF n ->
  (vf_rejected pcie vid update s = true \/ unicast (vf_mac pcie vid s) = false ->
   cfg_act_vf_up pcie vid pf_control vf_control update s = Some (1, cached pcie vid s)) /\
  (vf_rejected pcie vid update s = false -> unicast (vf_mac pcie vid s) = true -> ctm_alloc_ok ->
   exists s', cfg_act_vf_up pcie vid pf_control vf_control update s = Some (0, s') /\
     vf_is_up pcie vid n pf_control vf_control s s').
Proof.
  intros Hb Hm Hp Hv. split; [intros Hbad|intros; by apply run_vf_up].
  rewrite (run_vf_up_start pcie vid n) by done.
  destruct (vf_rejected pcie vid update s) eqn:Hrej; [done|]. destruct Hbad as [|Hu]; [done|].
  erewrite run_some.
  2:{ apply write_veb_refused. unfold vf_key. by rewrite mac64_of_key by by apply vf_mac_fits. }
  done.
Qed.

(** C28: the MAC that the PF gave to a VF that it does not trust is the only one
    that the VF can have in the switch: whatever the VF wrote to its BAR,
    whatever the update asks for and whatever CTM buffers are refused, every
    entry after cfg_act_vf_up was there before or is for that MAC. *)
Theorem vf_up_no_spoofing pcie vid n pf_control vf_control update s :
  blm_answers -> wf_emem s -> 0 <= pcie < NFD_MAX_ISL -> vnic_is vid NFD_VNIC_TYPE_VF n ->
  sriov_mac pcie vid s <> 0 -> vf_trusted pcie vid s = false ->
  exists r s', cfg_act_vf_up pcie vid pf_control vf_control update s = Some (r, s') /\
    forall k x, veb_table s' !! k = Some x ->
      veb_table s !! k = Some x \/ MAC64_FROM_VEB_KEY k = sriov_mac pcie vid s.
Proof.
  intros Ha Hm Hp Hv Hmac Htr.
  assert (Hmac' : vf_mac pcie vid s = sriov_mac pcie vid s)
    by (unfold vf_mac; by rewrite Htr, (proj2 (Z.eqb_neq _ 0) Hmac)).
  destruct (run_vf_up_any pcie vid n pf_control vf_control update s Ha Hm Hp Hv)
    as (r & s' & Hrun & He & _). exists r, s'. split; [done|].
  intros k x Hk. destruct (He k x Hk) as [|[Hhi Hlo]%same_mac_spec]; [by left|right].
  rewrite <- Hmac', <- (mac64_of_key (vf_vlan pcie vid s) (vf_mac pcie vid s)) by by apply vf_mac_fits.
  unfold MAC64_FROM_VEB_KEY, vf_key in *. by rewrite Hhi, Hlo.
Qed.

(** the VLAN of a VF changes when the PF writes a new one to the mailbox
    and the VF is brought up again.  The VF joins the new VLAN, but nothing
    takes it out of the old one: it stays a member there and goes on receiving
    the old VLAN's broadcasts. *)
Theorem vf_up_keeps_old_vlan pcie vid n pf_control vf_control update old s :
  allocs_ok -> wf_emem s -> 0 <= pcie < NFD_MAX_ISL -> vnic_is vid NFD_VNIC_TYPE_VF n ->
  vf_rejected pcie vid update s = false -> unicast (vf_mac pcie vid s) = true ->
  0 <= old < 4096 -> old <> vf_vlan pcie vid s -> Z.testbit (entry pcie old s) vid = true ->
  exists s', cfg_act_vf_up pcie vid pf_control vf_control update s = Some (0, s') /\
    Z.testbit (entry pcie (vf_vlan pcie vid s) s') vid = true /\
    Z.testbit (entry pcie old s') vid = true.
Proof.
  intros Ha Hm Hp Hv Hrej Hu Hold Hne Hbit.
  destruct (run_vf_up pcie vid n pf_control vf_control update s) as (s' & Hrun & Hup); [done..|].
  pose proof (vf_vid vid n Hv). pose proof max_vfs_range. pose proof (vf_vlan_range pcie vid s).
  exists s'. split; [done|]. rewrite !(up_vlan _ _ _ _ _ _ _ Hup) by lia.
  rewrite Z.eqb_refl, (proj2 (Z.eqb_neq old _)), (proj2 (Z.ltb_lt vid _)) by lia.
  by rewrite Z.eqb_refl, orb_true_r.
Qed.

(** Taking a virtual function down: every queue drops what the host sends,
    the entries of the MAC that was remembered for the VF are deleted from the
    switch and no others, the VF is no longer a member of any VLAN while the
    other members stay, and the CTM copies agree with the table. *)
Theorem vf_down_correct pcie vid n s :
  allocs_ok -> 0 <= pcie < NFD_MAX_ISL -> vnic_is vid NFD_VNIC_TYPE_VF n ->
  small_buffers pcie s -> MAC64_FROM_VEB_KEY (stored_key s vid) <> 0 ->
  exists s', cfg_act_vf_down pcie vid s = Some (0, s') /\
    (forall isl i, isl ∈ islands -> 0 <= i < NFD_VID_MAXQS vid ->
       slot_runs s' isl (host_q pcie vid i) (pcie_down_pipeline pcie vid s)) /\
    (forall k, 0 <= vlan_id k < 4096 -> veb_table s' !! k =
       if same_mac k (stored_key s vid) then None else veb_table s !! k) /\
    (forall vlan v, 0 <= vlan < 4096 -> 0 <= v < 56 -> Z.testbit (entry pcie vlan s') v =
       (v <? NFD_MAX_VFS B) && (Z.testbit (entry pcie vlan s) v && negb (v =? vid))) /\
    (pcie = 0 -> ctm_synced s').
Proof.
  intros Ha Hp Hv Hb Hmac. pose proof Hv as [Hvid Htype]. pose proof (vf_vid vid n Hv) as Hvf.
  pose proof max_vfs_range. unfold cfg_act_vf_down.
  erewrite run_some by apply run_build_pcie_down. cbv beta.
  set (l := pcie_down_pipeline pcie vid s).
  assert (Hsz : (1 <= size l <= 16)%nat) by (unfold l; simpl; lia).
  erewrite run_some by by apply run_write_host. cbv beta. set (s1 := host_written pcie vid l s).
  assert (Hh : s1 = s <| cls := cls s1 |>) by apply host_written_cls.
  assert (Hok : stored_key_ok vid = true) by by apply stored_key_ok_vid.
  destruct (run_veb_finish vid (VEB_KEY_FROM_MAC64 0) (stale_new_vlan_id s1) s1 Ha Hok)
    as (s2 & Hrun & Hs2 & Ht).
  unfold cfg_act_write_veb. cbv zeta. runs. erewrite run_some by exact Hrun. cbv beta.
  change (negb (NO_ERROR =? NO_ERROR)) with false. cbv iota.
  assert (He : emem s2 = emem s /\ nic_vlan_to_vnics_map_tbl s2 = nic_vlan_to_vnics_map_tbl s)
    by (rewrite Hs2, Hh; by st).
  destruct He as [He Htb].
  assert (Hb2 : small_buffers pcie s2) by (intros v' Hv2; unfold rxb; rewrite He; by apply Hb).
  destruct (remove_vlan_member_spec pcie vid s2 Hp ltac:(lia) Hb2)
    as (s3 & Hrun3 & Hs3 & _ & Hbits).
  erewrite run_some by exact Hrun3. cbv beta.
  assert (Hsame : cls s3 = cls s2 /\ map_cmsg_q s3 = map_cmsg_q s2) by (rewrite Hs3; by st).
  destruct Hsame as [Hc3 Hq3].
  destruct (run_upd_ctm_any pcie s3) as (s4 & Hrun4 & Hs4 & Hsync).
  erewrite run_some by exact Hrun4. cbv beta. runs. eexists. split; [reflexivity|].
  split; [|split; [|split; [|exact Hsync]]].
  - intros isl i Hisl Hi j w Hj. rewrite Hs4. st. rewrite Hc3, Hs2. st.
    eapply (slot_runs_host s pcie vid l isl i); [lia|done|done|exact Hj].
  - intros k Hk. assert (Hq : veb_table s4 = veb_table s2)
      by (unfold veb_table; rewrite Hs4; st; by rewrite Hq3).
    rewrite Hq, Ht by done.
    assert (Hst : stored_key s1 vid = stored_key s vid) by (unfold stored_key; by rewrite Hh).
    assert (Hqt : veb_table s1 = veb_table s) by (unfold veb_table; by rewrite Hh).
    rewrite Hst, Hqt. replace (veb_drops _ _ _ _) with true; [reflexivity|]. symmetry.
    unfold veb_drops. change (mac_addr_hi (VEB_KEY_FROM_MAC64 0)) with 0.
    change (mac_addr_lo (VEB_KEY_FROM_MAC64 0)) with 0.
    destruct (Z.eqb_spec 0 (mac_addr_hi (stored_key s vid))) as [E1|]; [|reflexivity].
    destruct (Z.eqb_spec 0 (mac_addr_lo (stored_key s vid))) as [E2|]; [|reflexivity].
    exfalso. apply Hmac. unfold MAC64_FROM_VEB_KEY. rewrite <- E1, <- E2. reflexivity.
  - intros vlan v Hvl Hv'. unfold entry at 1. rewrite Hs4. st.
    fold (entry pcie vlan s3). destruct (Hbits vlan Hvl) as (Hv3 & _ & _).
    rewrite Hv3 by done. unfold entry. by rewrite Htb.
Qed.
End vf.

(** ** Physical functions *)

Section pf.
Context {B : build} `{NetCfg, Vids, VfCfg, App}.
Context `{!NetCfgOk, !VidsOk B, !VfCfgOk}.

Lemma wire_q_lor n : 0 <= n < 256 -> Z.lor (Z.shiftl 1 8) n = wire_q n.
Proof.
  intros Hn. unfold wire_q. change 256 with (Z.shiftl 1 8).
  assert (Hland : Z.land (Z.shiftl 1 8) n = 0).
  { apply Z.bits_inj'; intros j Hj. rewrite Z.land_spec, Z.testbit_0_l.
    rewrite testbit_shiftl1 by lia. destruct (Z.eqb_spec j 8) as [->|]; [|done].
    by rewrite (testbit_fits 8 n) by (unfold fits; lia). }
  by rewrite Z.add_nocarry_lxor, Z.lxor_lor.
Qed.

Lemma run_write_wire n l s : 0 <= n < 256 -> (1 <= size l <= 16)%nat ->
  cfg_act_write_wire n (repr l) s = Some (tt, queue_written (wire_q n) l s).
Proof. intros Hn Hsz. unfold cfg_act_write_wire. rewrite wire_q_lor by done. by apply run_write_queue. Qed.

Lemma pf_port vid n : vnic_is vid NFD_VNIC_TYPE_PF n -> 0 <= n < 8.
Proof.
  intros Hv. pose proof (vnic_pf_range _ _ Hv). pose proof (sizes_facts B). lia.
Qed.

Lemma run_set_nvnic_mac pcie vid mac s :
  0 <= pcie < NFD_MAX_ISL -> 0 <= vid < NVNICS B NFD_MAX_CTRL ->
  set_nvnic_mac pcie vid mac s = Some (tt, s <| nvnic_macs ::= <[(pcie, vid) := mac]> |>).
Proof.
  intros Hp Hv. unfold set_nvnic_mac, nvnic_macs_ok.
  rewrite run_require; [done|]. by rewrite (proj2 (Z.leb_le 0 pcie)), (proj2 (Z.ltb_lt pcie _)),
    (proj2 (Z.leb_le 0 vid)), (proj2 (Z.ltb_lt vid _)) by lia.
Qed.

Lemma nbi_size pcie vid n veb control s :
  (1 <= size (nbi_pipeline pcie vid n veb control s) <= 16)%nat.
Proof.
  split.
  - unfold nbi_pipeline. cbv zeta. rewrite !size_app. simpl. lia.
  - unfold nbi_pipeline, rss_actions. cbv zeta. size_tac.
Qed.

Lemma pf_size x pcie vid n veb control s :
  (1 <= size (pf_pipeline x pcie vid n veb control s) <= 16)%nat.
Proof.
  split.
  - unfold pf_pipeline. cbv zeta. rewrite !size_app. simpl. lia.
  - unfold pf_pipeline. cbv zeta. size_tac.
Qed.

Lemma veb_pf_size pcie vid n control s :
  (1 <= size (veb_pf_pipeline pcie vid n control s) <= 16)%nat.
Proof.
  split.
  - unfold veb_pf_pipeline. cbv zeta. rewrite !size_app. simpl. lia.
  - unfold veb_pf_pipeline, rss_actions. size_tac.
Qed.

Lemma pf_pipeline_same x s s' pcie vid n veb control : same_inputs s s' ->
  pf_pipeline x pcie vid n veb control s' = pf_pipeline x pcie vid n veb control s.
Proof. intros Hs. unfold pf_pipeline. cbv zeta. by rewrite (rx_host_same s s'). Qed.

Lemma veb_pf_pipeline_same s s' pcie vid n control : same_inputs s s' ->
  veb_pf_pipeline pcie vid n control s' = veb_pf_pipeline pcie vid n control s.
Proof.
  intros Hs. unfold veb_pf_pipeline, rss_actions. by rewrite (tx_host_same s s'), (rss_same s s').
Qed.

(** The RSS tables are no instruction slots. *)
Lemma slot_runs_rss u pcie vid s isl q l : (size l <= 16)%nat -> 0 <= q < 512 -> 0 <= pcie ->
  0 <= (NFD_VID2VNIC vid).2 -> slot_runs s isl q l -> slot_runs (rss_written u pcie vid s) isl q l.
Proof.
  intros Hsz Hq Hp Hn Hs j w Hj. pose proof (lookup_lt_Some _ _ _ Hj) as Hlt.
  unfold assemble in Hlt. rewrite length_assemble in Hlt. destruct u; [|by apply Hs].
  unfold rss_written. st. rewrite rd_put_all_out; [by apply Hs|lia|]. left. left.
  unfold slot_addr, NIC_MAX_INSTR, NIC_CFG_INSTR_TBL_ADDR, NIC_RSS_TBL_ADDR,
    NIC_CFG_INSTR_TBL_SIZE, rss_tbl_idx.
  assert (0 <= NS_PLATFORM_NUM_PORTS (board B)) by (destruct B as [[] []]; by vm_compute). nia.
Qed.

Definition pf_key (pcie vid : Z) (s : nic) : veb_key :=
  set_vlan NIC_NO_VLAN_ID (veb_key_from_words (bar_mac pcie vid s)).

Lemma mac64_of_words v mac : fits 48 mac ->
  MAC64_FROM_VEB_KEY (set_vlan v (veb_key_from_words mac)) = mac.
Proof. intros Hm. unfold MAC64_FROM_VEB_KEY. simpl. zbits. Qed.

(** What bringing a PF up promises of the instruction tables. *)
Record pf_is_up (pcie vid n : Z) (veb : bool) (control : Z) (s s' : nic) : Prop := {
  pup_wire isl : isl ∈ islands ->
    slot_runs s' isl (wire_q n) (nbi_pipeline pcie vid n veb control (cached pcie vid s));
  pup_host : exists spare, forall isl i, isl ∈ islands -> 0 <= i < NFD_VID_MAXQS vid ->
    slot_runs s' isl (host_q pcie vid i) (pf_pipeline spare pcie vid n veb control (cached pcie vid s));
  pup_mac : rd (nvnic_macs s') (pcie, vid) = bar_mac pcie vid s
}.

Lemma pf_is_up_frame pcie vid n veb control s s1 s2 :
  pf_is_up pcie vid n veb control s s1 -> cls s2 = cls s1 -> nvnic_macs s2 = nvnic_macs s1 ->
  pf_is_up pcie vid n veb control s s2.
Proof.
  intros [Hw [x Hh] Hm] Hc Hn. split.
  - intros isl Hisl j w Hj. rewrite Hc. by apply Hw.
  - exists x. intros isl i Hisl Hi j w Hj. rewrite Hc. by eapply Hh.
  - by rewrite Hn.
Qed.

(** The first part of cfg_act_pf_up, up to the switch. *)
Lemma run_pf_up_start pcie vid n veb control update s :
  wf_emem s -> 0 <= pcie < NFD_MAX_ISL -> vnic_is vid NFD_VNIC_TYPE_PF n ->
  exists s', (forall k : C Z,
      cfg_act_pf_up pcie vid (b2z veb) control update s =
      (if n =? 0 then
         acts ← cfg_act_build_veb_pf pcie vid control update;
         r ← cfg_act_write_veb vid (pf_key pcie vid s) (Some acts);
         mret (if negb (r =? NO_ERROR) then 1 else 0)
       else mret 0) s') /\
    pf_is_up pcie vid n veb control s s' /\ same_inputs (cached pcie vid s) s' /\
    map_cmsg_q s' = map_cmsg_q s /\ veb_stored_keys s' = veb_stored_keys s.
Proof.
  intros Hm Hp Hv. pose proof Hv as [Hvid Ht]. pose proof (pf_port vid n Hv) as Hn.
  set (s1 := cached pcie vid s). set (s2 := nbi_state pcie vid control update s1).
  assert (Hs12 : same_inputs s1 s2) by apply nbi_state_same.
  set (lw := nbi_pipeline pcie vid n veb control s1).
  set (x := tx_wire_spare (queue_written (wire_q n) lw s2)).
  set (lh := pf_pipeline x pcie vid n veb control s1).
  pose proof (nbi_size pcie vid n veb control s1) as Hw. fold lw in Hw.
  pose proof (pf_size x pcie vid n veb control s1) as Hh. fold lh in Hh.
  set (s3 := queue_written (wire_q n) lw s2). set (s4 := host_written pcie vid lh s3).
  assert (Hs4 : s4 = s3 <| cls := cls s4 |>) by apply host_written_cls.
  assert (Hs14 : same_inputs s1 s4) by (rewrite Hs4; exact Hs12).
  exists (s4 <| nvnic_macs ::= <[(pcie, vid) := bar_mac pcie vid s]> |>). split; [|split; [|split]].
  - intros _. unfold cfg_act_pf_up.
    erewrite run_some by by apply run_cache_fl_buf_sz. cbv beta. fold (cached pcie vid s). fold s1.
    erewrite run_some by by apply run_build_nbi. cbv beta. fold s2 lw. rewrite Ht.
    erewrite run_some by (apply run_write_wire; [lia|done]). cbv beta. fold s3.
    erewrite run_some by by (apply run_build_pf; [by apply (wf_emem_same s1)|]). cbv beta.
    fold x. rewrite (pf_pipeline_same x s1 s3) by done. fold lh.
    erewrite run_some by by apply run_write_host. cbv beta. fold s4.
    unfold mem_read64. runs. cbv zeta. fold (bar_mac pcie vid s4).
    rewrite (bar_mac_same s1 s4) by done. change (bar_mac pcie vid s1) with (bar_mac pcie vid s).
    erewrite run_some by by apply run_set_nvnic_mac. reflexivity.
  - split; st.
    + intros isl Hisl j w Hj. unfold s4. pose proof (lookup_lt_Some _ _ _ Hj) as Hlt.
      unfold assemble in Hlt. rewrite length_assemble in Hlt.
      rewrite rd_host_written_out; [by apply (slot_runs_written s2 isl (wire_q n) lw)|lia|].
      intros i Hi. pose proof (host_q_range pcie vid i Hp Hvid Hi).
      right. unfold slot_addr, wire_q, NIC_MAX_INSTR. lia.
    + exists x. intros isl i Hisl Hi. by apply (slot_runs_host s3 pcie vid lh isl i); [lia|..].
    + by rewrite rd_insert_eq.
  - exact Hs14.
  - rewrite Hs4. unfold s3, queue_written, s2, nbi_state, rss_written, vxlan_written.
    by destruct (_ && _), (has control NFP_NET_CFG_CTRL_VXLAN).
Qed.

(** The entries that PF 0 gets in the switch when no buffer is refused *)
Definition pf0_in_switch (pcie vid n control : Z) (s s' : nic) : Prop :=
  exists untagged,
    let l := veb_pf_pipeline pcie vid n control (cached pcie vid s) in
    written untagged = remove_pop (assemble l) /\
    forall k, 0 <= vlan_id k < 4096 -> veb_table s' !! k =
      veb_after (pf_key pcie vid s) (stored_key s vid)
        (fun v => if v =? NIC_NO_VLAN_ID then take 16 (instr untagged) else instr (repr l))
        (veb_table s) k.

(** Bringing a physical function up, and what it reads *)
Lemma run_pf_up pcie vid n veb control update s :
  blm_answers -> wf_emem s -> 0 <= pcie < NFD_MAX_ISL -> vnic_is vid NFD_VNIC_TYPE_PF n ->
  exists r s', cfg_act_pf_up pcie vid (b2z veb) control update s = Some (r, s') /\
    pf_is_up pcie vid n veb control s s' /\ same_inputs (cached pcie vid s) s' /\
    (n <> 0 -> r = 0 /\ veb_table s' = veb_table s) /\
    (n = 0 -> unicast (bar_mac pcie vid s) = false -> r = 1 /\ veb_table s' = veb_table s) /\
    (n = 0 -> unicast (bar_mac pcie vid s) = true -> ctm_alloc_ok ->
     r = 0 /\ pf0_in_switch pcie vid n control s s').
Proof.
  intros Ha Hm Hp Hv. pose proof Hv as [Hvid Ht].
  destruct (run_pf_up_start pcie vid n veb control update s Hm Hp Hv)
    as (s1 & Hrun & Hup & Hin & Hq & Hk).
  rewrite Hrun by exact (mret 0). clear Hrun.
  assert (Hvt : veb_table s1 = veb_table s) by (unfold veb_table; by rewrite Hq).
  destruct (Z.eqb_spec n 0) as [Hn|Hn].
  2:{ exists 0, s1. do 4 (split; [done|]). split; by intros. }
  assert (Hm1 : wf_emem s1) by by apply (wf_emem_same (cached pcie vid s)).
  erewrite run_some by by apply run_build_veb_pf. cbv beta.
  rewrite (veb_pf_pipeline_same (cached pcie vid s) s1) by done.
  set (l := veb_pf_pipeline pcie vid n control (cached pcie vid s)).
  pose proof (veb_pf_size pcie vid n control (cached pcie vid s)) as Hsz. fold l in Hsz.
  set (s2 := veb_pf_state pcie vid control update s1).
  assert (Hs2 : veb_table s2 = veb_table s1 /\ stored_key s2 vid = stored_key s1 vid /\
    nvnic_macs s2 = nvnic_macs s1)
    by (unfold s2, veb_pf_state, rss_written, veb_table, stored_key; by case_match).
  destruct Hs2 as (Hv2 & Hk2 & Hn2).
  assert (Hin2 : same_inputs (cached pcie vid s) s2)
    by (unfold s2, veb_pf_state, rss_written; by case_match).
  assert (Hup2 : pf_is_up pcie vid n veb control s s2).
  { destruct Hup as [Hw [x Hh] Hmac]. split; [| |by rewrite Hn2].
    - intros isl Hisl. apply slot_runs_rss; [apply nbi_size| |lia|rewrite Ht; simpl; lia|by apply Hw].
      pose proof (pf_port vid n Hv). unfold wire_q. lia.
    - exists x. intros isl i Hisl Hi.
      apply slot_runs_rss; [apply pf_size| |lia|rewrite Ht; simpl; lia|by apply Hh].
      pose proof (host_q_range pcie vid i Hp Hvid Hi). lia. }
  pose proof (bar_mac_fits pcie vid s Hm) as Hmf.
  assert (Hok : stored_key_ok vid = true) by by apply stored_key_ok_vid.
  destruct (unicast (bar_mac pcie vid s)) eqn:Hu.
  - destruct (write_veb_any vid (pf_key pcie vid s) l s2 Ha Hok Hsz) as (r & s3 & Hrun & Ho & _).
    erewrite run_some by exact Hrun. exists (if negb (r =? NO_ERROR) then 1 else 0), s3.
    split; [done|]. split.
    { apply (pf_is_up_frame _ _ _ _ _ _ s2 s3 Hup2);
        [exact (f_equal cls Ho)|exact (f_equal nvnic_macs Ho)]. }
    split.
    { destruct Hin2 as [He Hf]. split; [rewrite <- He; exact (f_equal emem Ho)|].
      rewrite <- Hf; exact (f_equal fl_buf_sz_cache Ho). }
    split; [done|]. split; [by intros|]. intros _ _ Hc.
    destruct (run_write_veb_up vid (pf_key pcie vid s) l s2 (conj Hc Ha) Hok)
      as (a0 & key' & s3' & Hrem & Hrun' & Hs3 & _ & Ht3);
      [by unfold pf_key; rewrite mac64_of_words|done|].
    rewrite Hrun in Hrun'. injection Hrun' as -> <-. split; [done|]. exists a0. cbv zeta.
    destruct (remove_strip_pure l Hsz) as (a1 & Hrem' & Hw).
    assert (a1 = a0) as -> by (specialize (Hrem s); rewrite Hrem' in Hrem; congruence).
    split; [done|]. intros k Hk'. rewrite Ht3 by done. unfold veb_after. cbv zeta.
    rewrite Hk2, Hv2, Hvt. unfold stored_key. rewrite Hk. fold l.
    destruct (vlan_id k =? NIC_NO_VLAN_ID); [done|]. by rewrite instr_repr by lia.
  - erewrite run_some.
    2:{ apply write_veb_refused. unfold pf_key. by rewrite mac64_of_words. }
    exists 1, s2. do 4 (split; [done|]).
    split; [|by intros]. intros _ _. split; [done|congruence].
Qed.

(** C29: bringing a physical function up.  The wire port runs the wire-to-host
    list and every host queue the host-to-wire list in every worker island, and
    the MAC is remembered for when the vNIC goes down.  PF 0 also gets its
    entries in the switch, one for every VLAN, unless its MAC is zero or a
    group address, and then the call returns 1; other PFs do not change the
    switch.  This is so as long as no CTM buffer for a message to the switch is
    refused: after a refusal the lists are the same, but the call for PF 0
    returns 1 and entries may be missing.  MU buffers have to come within
    [blm_fuel] tries.  The spare bits of TX_WIRE, which the code does not
    assign, are left open. *)
Theorem pf_up_correct pcie vid n veb control update s :
  blm_answers -> wf_emem s -> 0 <= pcie < NFD_MAX_ISL -> vnic_is vid NFD_VNIC_TYPE_PF n ->
  exists r s', cfg_act_pf_up pcie vid (b2z veb) control update s = Some (r, s') /\
    pf_is_up pcie vid n veb control s s' /\
    (n <> 0 -> r = 0 /\ veb_table s' = veb_table s) /\
    (n = 0 -> unicast (bar_mac pcie vid s) = false -> r = 1 /\ veb_table s' = veb_table s) /\
    (n = 0 -> unicast (bar_mac pcie vid s) = true -> ctm_alloc_ok ->
     r = 0 /\ pf0_in_switch pcie vid n control s s').
Proof.
  intros Ha Hm Hp Hv. destruct (run_pf_up pcie vid n veb control update s Ha Hm Hp Hv)
    as (r & s' & Hrun & Hup & _ & Hrest). by exists r, s'.
Qed.

(** taking a physical function down.  Its wire port and its queues drop
    everything and its MAC is forgotten.  Whether the entries of PF 0 leave the
    switch depends on a local that cfg_act_write_veb reads before it assigns
    it: the key is the one that is stored, so that with the value 4095 in the
    uninitialised variable no entry is deleted, with another VLAN all but that
    one, and only with a value that is no VLAN all of them.  [s1] is the state
    when the variable is read. *)
Theorem pf_down_leaves_veb_entries pcie vid n s :
  allocs_ok -> 0 <= pcie < NFD_MAX_ISL -> vnic_is vid NFD_VNIC_TYPE_PF n ->
  exists s1 s', cfg_act_pf_down pcie vid s = Some (0, s') /\
    (forall isl, isl ∈ islands -> slot_runs s' isl (wire_q n) (nbi_down_pipeline pcie vid)) /\
    (forall isl i, isl ∈ islands -> 0 <= i < NFD_VID_MAXQS vid ->
       slot_runs s' isl (host_q pcie vid i) (pcie_down_pipeline pcie vid s)) /\
    rd (nvnic_macs s') (pcie, vid) = 0 /\
    (n <> 0 -> veb_table s' = veb_table s) /\
    (n = 0 -> same_mac (stored_key s vid) (veb_key_from_words (rd (nvnic_macs s) (pcie, vid))) = true ->
     forall k, 0 <= vlan_id k < 4096 -> veb_table s' !! k =
       if same_mac k (stored_key s vid) && negb (stale_new_vlan_id s1 =? NIC_NO_VLAN_ID) &&
          negb (vlan_id k =? stale_new_vlan_id s1)
       then None else veb_table s !! k).
Proof.
  intros Ha Hp Hv. pose proof Hv as [Hvid Ht]. pose proof (pf_port vid n Hv) as Hn.
  unfold cfg_act_pf_down. rewrite Ht, bool_decide_eq_false_2 by auto.
  set (lw := nbi_down_pipeline pcie vid). set (lh := pcie_down_pipeline pcie vid s).
  erewrite run_some by apply run_build_nbi_down. cbv beta. fold lw.
  erewrite run_some by (apply run_write_wire; [lia|unfold lw; simpl; lia]). cbv beta.
  set (s1 := queue_written (wire_q n) lw s).
  erewrite run_some by apply run_build_pcie_down. cbv beta.
  change (pcie_down_pipeline pcie vid s1) with lh.
  assert (Hsz : (1 <= size lh <= 16)%nat) by (unfold lh; simpl; lia).
  erewrite run_some by by apply run_write_host. cbv beta. set (s2 := host_written pcie vid lh s1).
  assert (Hs2 : s2 = s1 <| cls := cls s2 |>) by apply host_written_cls.
  assert (Hf2 : nvnic_macs s2 = nvnic_macs s /\ veb_table s2 = veb_table s /\
    stored_key s2 vid = stored_key s vid).
  { rewrite Hs2. unfold veb_table, stored_key, s1, queue_written. by st. }
  destruct Hf2 as (Hn2 & Hv2 & Hk2).
  unfold arr_get. rewrite run_assoc. rewrite run_require.
  2:{ unfold nvnic_macs_ok. by rewrite (proj2 (Z.leb_le 0 pcie)), (proj2 (Z.ltb_lt pcie _)),
    (proj2 (Z.leb_le 0 vid)), (proj2 (Z.ltb_lt vid _)) by lia. }
  runs. rewrite Hn2. set (mac := rd (nvnic_macs s) (pcie, vid)).
  erewrite run_some by by apply run_set_nvnic_mac. cbv beta.
  set (s3 := s2 <| nvnic_macs ::= _ |>).
  assert (Hslots : forall s', cls s' = cls s3 ->
    (forall isl, isl ∈ islands -> slot_runs s' isl (wire_q n) lw) /\
    (forall isl i, isl ∈ islands -> 0 <= i < NFD_VID_MAXQS vid ->
       slot_runs s' isl (host_q pcie vid i) lh)).
  { intros s' Hc. split.
    - intros isl Hisl j w Hj. rewrite Hc. unfold s3. st. unfold s2.
      pose proof (lookup_lt_Some _ _ _ Hj) as Hlt. unfold assemble in Hlt.
      rewrite length_assemble in Hlt.
      rewrite rd_host_written_out; [by apply (slot_runs_written s isl (wire_q n) lw)|lia|].
      intros i Hi. pose proof (host_q_range pcie vid i Hp Hvid Hi).
      right. unfold slot_addr, wire_q, NIC_MAX_INSTR. lia.
    - intros isl i Hisl Hi j w Hj. rewrite Hc. unfold s3. st.
      eapply (slot_runs_host s1 pcie vid lh isl i); [lia|done|done|exact Hj]. }
  assert (Hmac3 : rd (nvnic_macs s3) (pcie, vid) = 0) by (unfold s3; st; by rewrite rd_insert_eq).
  destruct (Z.eqb_spec n 0) as [Hn0|Hn0].
  - destruct (run_veb_finish vid (veb_key_from_words mac) (stale_new_vlan_id s3) s3 Ha)
      as (s4 & Hrun & Hs4 & Ht4); [by apply stored_key_ok_vid|].
    unfold cfg_act_write_veb. cbv zeta. rewrite run_assoc, run_get.
    erewrite run_some by exact Hrun. cbv beta. runs.
    exists s3. eexists. split; [reflexivity|]. destruct (Hslots s4) as [Hw Hh]; [by rewrite Hs4; st|].
    split; [done|]. split; [done|]. split; [by rewrite Hs4; st|]. split; [done|].
    intros _ Hsame k Hk. rewrite Ht4 by done.
    change (stored_key s3 vid) with (stored_key s2 vid). rewrite Hk2.
    change (veb_table s3) with (veb_table s2). rewrite Hv2.
    apply same_mac_spec in Hsame as [Hhi Hlo]. unfold veb_drops.
    rewrite Hhi, Hlo, !Z.eqb_refl. cbn [negb orb].
    by rewrite (andb_comm _ (same_mac k _)), andb_assoc.
  - runs. exists s3. eexists. split; [reflexivity|]. destruct (Hslots s3) as [Hw Hh]; [done|].
    split; [done|]. split; [done|]. split; [done|]. split; [done|]. done.
Qed.
End pf.

(** ** Checks on concrete inputs *)

Import Demo.

(** PF 0 as in [bar_state]; VF 3 asks for the MAC 00:15:4d:00:00:03 that the PF
    gave to it, on VLAN 5; it is a member of VLAN 7. *)
Definition conf_state : nic :=
  bar_state <| emem ::= fun m =>
      <[0x18000 + 0x24 := 0x00154d00]> (<[0x18000 + 0x28 := 0x00030000]>
      (<[0x18000 + 0x1c := 2048]> (<[0x4000040 := 0x00154d00]>
      (<[0x4000044 := 0x00030000]> (<[0x4000048 := 5]> m))))) |>
    <| nic_vlan_to_vnics_map_tbl := <[(0, 7) := Z.lor (Z.shiftl 8 58) 8]> ∅ |>
    <| veb_stored_keys := <[3 := mk_veb_key 7 0x0015 0x4d000003]>
         (<[48 := mk_veb_key 0 0x0015 0x4d010203]> ∅) |>
    <| nvnic_macs := <[(0, 48) := 0x00154d010203]> ∅ |>.

Lemma conf_state_wf : wf_emem conf_state.
Proof.
  intros a. unfold conf_state, rd. st. rewrite !lookup_insert.
  repeat (case_decide; [by vm_compute|]). apply bar_state_wf.
Qed.

Lemma conf_state_small : small_buffers 0 conf_state.
Proof.
  intros v _. unfold rxb, conf_state, bar_state, rd. st.
  change (nfd_cfg_bar_base 0 v) with ((0 * 256 + v) * 0x8000).
  change NFP_NET_CFG_FLBUFSZ with 0x1c. rewrite !lookup_insert.
  repeat (case_decide; [first [by vm_compute|lia]|]). by vm_compute.
Qed.

Lemma write_host_correct_witness :
  exists s', cfg_act_write_host 0 48 (repr [RxHost 1515 false; Drop]) nic0 = Some (tt, s') /\
    slot_runs s' 32 (host_q 0 48 3) [RxHost 1515 false; Drop].
Proof.
  destruct (write_host_correct 0 48 [RxHost 1515 false; Drop] nic0)
    as (s' & Hrun & _ & Hin & _); [by vm_compute|by vm_compute|simpl; lia|].
  exists s'. split; [exact Hrun|]. apply Hin; [|by vm_compute].
  apply list_elem_of_In. by left.
Defined.

Lemma vf_up_correct_witness :
  exists s', cfg_act_vf_up 0 3 control_rss 0 NFP_NET_CFG_UPDATE_GEN conf_state = Some (0, s') /\
    vf_is_up 0 3 3 control_rss 0 conf_state s'.
Proof.
  apply (vf_up_correct 0 3 3 control_rss 0 NFP_NET_CFG_UPDATE_GEN conf_state);
    [exact demo_blm_answers|exact conf_state_wf|by vm_compute|exact vnic_3|by vm_compute|by vm_compute
    |exact (proj1 demo_alloc_ok)].
Defined.

Lemma vf_up_no_spoofing_witness :
  exists r s', cfg_act_vf_up 0 3 control_rss 0 0 conf_state = Some (r, s') /\
    forall k x, veb_table s' !! k = Some x ->
      veb_table conf_state !! k = Some x \/ MAC64_FROM_VEB_KEY k = 0x00154d000003.
Proof.
  replace 0x00154d000003 with (sriov_mac 0 3 conf_state) by (vm_compute; reflexivity).
  apply (vf_up_no_spoofing 0 3 3 control_rss 0 0 conf_state);
    [exact demo_blm_answers|exact conf_state_wf|by vm_compute|exact vnic_3|by vm_compute|by vm_compute].
Defined.

Lemma vf_up_keeps_old_vlan_witness :
  exists s', cfg_act_vf_up 0 3 control_rss 0 0 conf_state = Some (0, s') /\
    Z.testbit (entry 0 5 s') 3 = true /\ Z.testbit (entry 0 7 s') 3 = true.
Proof.
  replace (entry 0 5) with (entry 0 (vf_vlan 0 3 conf_state)) by (f_equal; vm_compute; reflexivity).
  apply (vf_up_keeps_old_vlan 0 3 3 control_rss 0 0 7 conf_state);
    [exact demo_alloc_ok|exact conf_state_wf|by vm_compute|exact vnic_3|by vm_compute|by vm_compute
    |lia|by vm_compute|by vm_compute].
Defined.

Lemma vf_down_correct_witness :
  exists s', cfg_act_vf_down 0 3 conf_state = Some (0, s') /\
    veb_table s' !! mk_veb_key 5 0x0015 0x4d000003 = None /\ Z.testbit (entry 0 7 s') 3 = false.
Proof.
  destruct (vf_down_correct 0 3 3 conf_state) as (s' & Hrun & _ & Hveb & Hmem & _);
    [exact demo_alloc_ok|by vm_compute|exact vnic_3|exact conf_state_small|by vm_compute|].
  exists s'. split; [exact Hrun|]. split.
  - rewrite Hveb by (simpl; lia). by vm_compute.
  - rewrite Hmem by lia. by vm_compute.
Defined.

Lemma pf_up_correct_witness :
  exists r s', cfg_act_pf_up 0 48 (b2z true) control_rss NFP_NET_CFG_UPDATE_RSS conf_state = Some (r, s') /\
    r = 0 /\ pf_is_up 0 48 0 true control_rss conf_state s'.
Proof.
  destruct (pf_up_correct 0 48 0 true control_rss NFP_NET_CFG_UPDATE_RSS conf_state)
    as (r & s' & Hrun & Hup & _ & _ & Hok);
    [exact demo_blm_answers|exact conf_state_wf|by vm_compute|exact vnic_48|].
  exists r, s'. split; [exact Hrun|]. split; [|exact Hup].
  apply Hok; [reflexivity|by vm_compute|exact (proj1 demo_alloc_ok)].
Defined.

(** In this build the uninitialised variable holds 4095: nothing is deleted. *)
Lemma pf_down_leaves_veb_entries_witness :
  exists s', cfg_act_pf_down 0 48 conf_state = Some (0, s') /\
    forall k, 0 <= vlan_id k < 4096 -> veb_table s' !! k = veb_table conf_state !! k.
Proof.
  destruct (pf_down_leaves_veb_entries 0 48 0 conf_state) as (s1 & s' & Hrun & _ & _ & _ & _ & Hveb);
    [exact demo_alloc_ok|by vm_compute|exact vnic_48|].
  exists s'. split; [exact Hrun|]. intros k Hk. rewrite Hveb; [|reflexivity|by vm_compute|exact Hk].
  change (stale_new_vlan_id s1 =? NIC_NO_VLAN_ID) with true. by rewrite andb_false_r.
Defined.
