(* ===== verification/ActionParse.v ===== *)
(** * The checker of action lists: src/test/lib/action_parse.c

    The unit tests of the master read the slot of a queue back from the
    instruction table and run [parse_action_list] over it: an independent
    reading of the instruction format, which follows the words of every
    action and demands that a set pipeline bit means that the action is the
    one after its predecessor in the code store.  The checker is modelled
    here, and it is proved to accept what the master writes, for every
    configuration and not only those of the tests. *)

From S2P Require Import Prelude Platform UserCfg Nfd Machine Tables ActionList Builders Veb NicTables Config.

(** ** The checker *)

(** What becomes of the test. *)
Inductive verdict : Set := TestPassed | TestFailed.

#[export] Instance verdict_eq_dec : EqDecision verdict.
Proof. solve_decision. Defined.

(** The cases of the switch over [action.op]. *)
Inductive parse_case : Type :=
  | NotFirst                       (* fail if first; terminate *)
  | Terminal                       (* terminate processing *)
  | NextOp (params : nat) (o : instruction_ops)
      (* skip the parameters; [if (action_next.pipeline) action_next.op == o] *)
  | NextValue (v : Z)              (* [if (action_next.pipeline) action.value == v] *)
  | Default.                       (* [action.value == 0] *)

Definition case_of (op : Z) : parse_case :=
  if op =? op_num INSTR_DROP then NotFirst
  else if op =? op_num INSTR_RX_WIRE then NextOp 0 INSTR_DST_MAC_MATCH
  else if op =? op_num INSTR_DST_MAC_MATCH then NextOp 1 INSTR_CHECKSUM
  else if op =? op_num INSTR_CHECKSUM then NextOp 0 INSTR_RSS
  else if op =? op_num INSTR_RSS then NextOp 1 INSTR_TX_HOST
  else if op =? op_num INSTR_TX_HOST then NextOp 0 INSTR_RX_HOST
  else if op =? op_num INSTR_RX_HOST then NextOp 0 INSTR_TX_WIRE
  else if op =? op_num INSTR_TX_WIRE then NextOp 0 INSTR_CMSG
  else if op =? op_num INSTR_CMSG then Terminal
  else if op =? op_num INSTR_EBPF then NextOp 0 INSTR_POP_VLAN
  else if op =? op_num INSTR_POP_VLAN then NextOp 0 INSTR_PUSH_VLAN
  else if op =? op_num INSTR_PUSH_VLAN then NextOp 0 INSTR_SRC_MAC_MATCH
  else if op =? op_num INSTR_SRC_MAC_MATCH then NextOp 1 INSTR_VEB_LOOKUP
  else if op =? op_num INSTR_VEB_LOOKUP then NextOp 1 INSTR_POP_PKT
  else if op =? op_num INSTR_POP_PKT then NextOp 0 INSTR_PUSH_PKT
  else if op =? op_num INSTR_PUSH_PKT then NextOp 0 INSTR_TX_VLAN
  else if op =? op_num INSTR_TX_VLAN then Terminal
  else if op =? op_num INSTR_L2_SWITCH_WIRE then NextValue (op_num INSTR_L2_SWITCH_HOST)
  else if op =? op_num INSTR_L2_SWITCH_HOST then NextValue 0
  else Default.

(** [test_assert_equal] and [test_assert_unequal] stop the test. *)
Definition assert_equal (tested expected : Z) (k : option verdict) : option verdict :=
  if tested =? expected then k else Some TestFailed.

(** The label check_length. *)
Definition check_length (i : Z) : option verdict :=
  if NIC_MAX_INSTR <? i then assert_equal i NIC_MAX_INSTR (Some TestPassed) else Some TestPassed.

(** The while loop.  [_action_list i] is the word of index [i] of the array in
    local memory and, for i >= NIC_MAX_INSTR, what follows the array there,
    which the loop can look at: a parameter.  [None]: out of fuel. *)
Fixpoint parse_loop (fuel : nat) (_action_list : Z -> Z) (i : Z) : option verdict :=
  match fuel with
  | O => None
  | S fuel =>
      if truthy (_action_list i) && (i <? NIC_MAX_INSTR) then
        let action := _action_list i in
        let i := i + 1 in
        match case_of (instr_op action) with
        | NotFirst => if i - 1 =? 0 then Some TestFailed else check_length i
        | Terminal => check_length i
        | NextOp params o =>
            let i := i + Z.of_nat params in
            let action_next := _action_list i in
            if truthy (instr_pipeline action_next)
            then assert_equal (instr_op action_next) (op_num o) (parse_loop fuel _action_list i)
            else parse_loop fuel _action_list i
        | NextValue v =>
            if truthy (instr_pipeline (_action_list i))
            then assert_equal action v (parse_loop fuel _action_list i)
            else parse_loop fuel _action_list i
        | Default => assert_equal action 0 (parse_loop fuel _action_list i)
        end
      else check_length i
  end.

(** Every pass moves on by at least one word: seventeen are enough. *)
Definition parse_action_list (_action_list : Z -> Z) : option verdict :=
  parse_loop 17 _action_list 0.

Section verify.
Context {B : build} `{NetCfg, Vids, VfCfg, App}.

(** [cfg_act_read_queue]: the sixteen words of a slot, as an engine of island
    [isl] reads them, and [beyond] after them in the array. *)
Definition cfg_act_read_queue (isl : Z) (beyond : Z -> Z) (qid : Z) (s : nic) : Z -> Z :=
  fun i => if i <? NIC_MAX_INSTR
           then rd (cls s) (isl, NIC_CFG_INSTR_TBL_ADDR + qid * NIC_MAX_INSTR * 4 + 4 * i)
           else beyond i.

Definition cfg_act_read_host (isl : Z) (beyond : Z -> Z) (pcie queue : Z) : nic -> Z -> Z :=
  cfg_act_read_queue isl beyond (Z.lor (Z.shiftl pcie 6) queue).

Definition cfg_act_read_wire (isl : Z) (beyond : Z -> Z) (pcie port : Z) : nic -> Z -> Z :=
  cfg_act_read_queue isl beyond (Z.lor (Z.shiftl 1 8) port).

Definition verify_host_action_list (isl : Z) (beyond : Z -> Z) (pcie queue : Z) (s : nic)
    : option verdict :=
  parse_action_list (cfg_act_read_host isl beyond pcie queue s).

Definition verify_wire_action_list (isl : Z) (beyond : Z -> Z) (pcie vnic : Z) (s : nic)
    : option verdict :=
  parse_action_list (cfg_act_read_wire isl beyond pcie vnic s).
End verify.

(** ** The checker ends *)

Lemma check_length_total i : exists v, check_length i = Some v.
Proof. unfold check_length, assert_equal. repeat case_match; eauto. Qed.

Lemma parse_loop_total w fuel i : 0 <= i -> (17 <= Z.to_nat i + fuel)%nat -> (1 <= fuel)%nat ->
  exists v, parse_loop fuel w i = Some v.
Proof.
  revert i. induction fuel as [|fuel IH]; intros i Hi Hf H1; [lia|]. cbn [parse_loop]. cbv zeta.
  destruct (truthy (w i) && (i <? NIC_MAX_INSTR)) eqn:Hc; [|apply check_length_total].
  apply andb_true_iff in Hc as [_ Hlt%Z.ltb_lt]. unfold NIC_MAX_INSTR in Hlt.
  assert (Hrec : forall n, exists v, parse_loop fuel w (i + 1 + Z.of_nat n) = Some v)
    by (intros n; apply IH; lia).
  pose proof (Hrec O) as Hrec0. rewrite Z.add_0_r in Hrec0.
  unfold assert_equal. repeat case_match; eauto using check_length_total.
Qed.

(** ** What the appended lists look like to it *)

(** Actions after which the checker, like the workers, reads no further. *)
Definition stops (a : action) : bool :=
  match a with Drop | Cmsg | TxVlan => true | _ => false end.

Lemma case_of_action a : stops a = false ->
  exists o, case_of (opcode a) = NextOp (length (params_of a)) o /\ op_num o = opcode a + 1.
Proof. destruct a; try done; intros _; by eexists. Qed.

Lemma instr_word_pipeline op p args : fits 15 op -> fits 16 args ->
  instr_pipeline (instr_word op p args) = b2z p.
Proof.
  intros Ho Ha. unfold instr_pipeline, bf_get, instr_word, fields. simpl. bool_bits. zbits.
Qed.

Lemma instr_word_nonzero op p args : fits 15 op -> fits 16 args -> 0 < op ->
  truthy (instr_word op p args) = true.
Proof.
  intros Ho Ha Hpos. destruct (instr_word_fields op p args Ho Ha) as [Hop _].
  unfold truthy. destruct (Z.eqb_spec (instr_word op p args) 0) as [E|]; [|done].
  rewrite E in Hop. change (instr_op 0) with 0 in Hop. lia.
Qed.

(** The words of a list, from index [i] of the array on. *)
Definition holds_from (w : Z -> Z) (i : Z) (ws : list Z) : Prop :=
  forall j x, ws !! j = Some x -> w (i + Z.of_nat j) = x.

Lemma holds_from_cons w i x ws : holds_from w i (x :: ws) -> w i = x /\ holds_from w (i + 1) ws.
Proof.
  intros Hw. split; [by rewrite <- (Hw 0%nat x eq_refl), Z.add_0_r|].
  intros j y Hy. rewrite <- (Hw (S j) y Hy). f_equal. lia.
Qed.

Lemma holds_from_app w i ws ws' : holds_from w i (ws ++ ws') ->
  holds_from w (i + Z.of_nat (length ws)) ws'.
Proof.
  intros Hw j y Hy. rewrite <- (Hw (length ws + j)%nat y).
  - f_equal. lia.
  - by rewrite lookup_app_r, Nat.add_comm, Nat.add_sub by lia.
Qed.

(** The word after the action [a] either has no pipeline bit or is the next
    operation of the code store. *)
Lemma next_word_ok w i a l : Forall wf_action l ->
  holds_from w i (assemble_from (Some (opcode a)) l) -> (l = [] -> w i = 0) ->
  truthy (instr_pipeline (w i)) = true -> instr_op (w i) = opcode a + 1.
Proof.
  intros Hwf Hw Hend. destruct l as [|b l]; [by rewrite Hend|].
  inversion_clear Hwf. apply holds_from_cons in Hw as [-> _].
  rewrite instr_word_pipeline by (apply opcode_fits || by apply args_of_fits).
  destruct (instr_word_fields (opcode b) (opcode a =? opcode b - 1) (args_of b)) as [-> _];
    [apply opcode_fits|by apply args_of_fits|].
  destruct (Z.eqb_spec (opcode a) (opcode b - 1)); [lia|done].
Qed.

(** The checker accepts the words of a list when the list has an action that
    ends it or the word after it is zero. *)
Lemma parse_assembled w l p i fuel : Forall wf_action l ->
  match p with Some q => 0 <= q | None => True end ->
  holds_from w i (assemble_from p l) -> 0 <= i -> i + Z.of_nat (size l) <= NIC_MAX_INSTR ->
  existsb stops l = true \/ w (i + Z.of_nat (size l)) = 0 -> (length l < fuel)%nat ->
  parse_loop fuel w i = Some TestPassed.
Proof.
  intros Hwf. revert p i fuel. induction Hwf as [|a l Ha Hl IH]; intros p i fuel Hp Hw Hi Hsz Hend Hf;
    (destruct fuel as [|fuel]; [simpl in Hf; lia|]); cbn [parse_loop]; cbv zeta;
    unfold NIC_MAX_INSTR in *.
  - destruct Hend as [|Hend]; [done|]. simpl in Hend. rewrite Z.add_0_r in Hend. rewrite Hend.
    simpl. unfold check_length, NIC_MAX_INSTR. destruct (Z.ltb_spec 16 i); [simpl in Hsz; lia|done].
  - cbn [assemble_from] in Hw. apply holds_from_cons in Hw as [Hw0 Hw].
    pose proof (args_of_fits a Ha) as Hargs. pose proof (opcode_fits a) as Hop.
    change (size (a :: l)) with (S (length (params_of a)) + size l)%nat in *.
    assert (Hlen : forall k, k <= 16 -> check_length k = Some TestPassed)
      by (intros k Hk; unfold check_length, NIC_MAX_INSTR; destruct (Z.ltb_spec 16 k); lia || done).
    destruct (decide (a = Drop)) as [->|Hnd].
    { replace (w i) with 0; [apply Hlen; lia|]. rewrite Hw0.
      destruct p as [q|]; [|done]. change (opcode Drop) with 0.
      by destruct (Z.eqb_spec q (0 - 1)); [lia|]. }
    rewrite Hw0, instr_word_nonzero by (done || destruct a; done || lia).
    destruct (Z.ltb_spec i 16); [|lia]. cbn [andb].
    destruct (instr_word_fields (opcode a)
      match p with Some q => q =? opcode a - 1 | None => false end (args_of a) Hop Hargs) as [-> _].
    destruct (stops a) eqn:Hst; [destruct a; try done; apply Hlen; lia|].
    destruct (case_of_action a Hst) as (o & -> & Ho).
    apply holds_from_app in Hw.
    assert (Hrest : parse_loop fuel w (i + 1 + Z.of_nat (length (params_of a))) = Some TestPassed).
    { apply (IH (Some (opcode a))); [by destruct a|done|lia|lia| |simpl in Hf; lia].
      destruct Hend as [Hend|Hend]; [left; by cbn [existsb] in Hend; rewrite Hst in Hend|right].
      rewrite <- Hend. f_equal. lia. }
    rewrite Hrest. destruct (truthy (instr_pipeline _)) eqn:Hpip; [|done]. unfold assert_equal.
    rewrite (next_word_ok w _ a l) by
      (done || (intros ->; destruct Hend as [Hend|Hend];
        [by cbn [existsb] in Hend; rewrite Hst in Hend|rewrite <- Hend; f_equal; simpl; lia])).
    by rewrite Ho, Z.eqb_refl.
Qed.

(** ** What the master writes is accepted *)

Section accepted.
Context {B : build} `{NetCfg, Vids, VfCfg, App}.
Context `{!VidsOk B, !NetCfgOk, !VfCfgOk}.

(** A slot that runs a list that fits is accepted, whatever follows the array
    in local memory, when an action ends the list or the slot's next word is
    zero. *)
Lemma slot_accepted s isl beyond q l : slot_runs s isl q l -> Forall wf_action l ->
  (size l <= 16)%nat ->
  existsb stops l = true \/
    ((size l < 16)%nat /\ rd (cls s) (isl, slot_addr q + 4 * Z.of_nat (size l)) = 0) ->
  parse_action_list (cfg_act_read_queue isl beyond q s) = Some TestPassed.
Proof.
  intros Hs Hwf Hsz Hend. pose proof (length_assemble None l) as Hlen. pose proof (length_le_size l).
  apply (parse_assembled _ l None); [done|done| |lia|unfold NIC_MAX_INSTR; lia| |lia].
  - intros j x Hj. pose proof (lookup_lt_Some _ _ _ Hj) as Hlt.
    unfold cfg_act_read_queue. destruct (Z.ltb_spec (0 + Z.of_nat j) NIC_MAX_INSTR) as [_|Hc].
    + by apply Hs.
    + unfold NIC_MAX_INSTR in Hc. lia.
  - destruct Hend as [|[Hlt Hz]]; [by left|right]. unfold cfg_act_read_queue.
    destruct (Z.ltb_spec (0 + Z.of_nat (size l)) NIC_MAX_INSTR) as [_|Hc]; [exact Hz|].
    unfold NIC_MAX_INSTR in Hc. lia.
Qed.

Lemma existsb_app_r l1 l2 : existsb stops l2 = true -> existsb stops (l1 ++ l2) = true.
Proof. intros Hl. by rewrite existsb_app, Hl, orb_true_r. Qed.

Lemma vf_pipeline_stops x pcie vid pf_control vf_control s :
  existsb stops (vf_pipeline x pcie vid pf_control vf_control s) = true.
Proof. unfold vf_pipeline. cbv zeta. by repeat (apply existsb_app_r). Qed.

Lemma pf_pipeline_stops x pcie vid n control s :
  existsb stops (pf_pipeline x pcie vid n true control s) = true.
Proof. unfold pf_pipeline. cbv zeta. by repeat (apply existsb_app_r). Qed.

Lemma nbi_pipeline_stops pcie vid n control s :
  existsb stops (nbi_pipeline pcie vid n true control s) = true.
Proof. unfold nbi_pipeline. cbv zeta. by repeat (apply existsb_app_r). Qed.

(** The slots of a VF that is up. *)
Lemma vf_is_up_accepted pcie vid n pf_control vf_control s s' isl beyond i :
  0 <= vid < NVNICS B NFD_MAX_CTRL ->
  vf_is_up pcie vid n pf_control vf_control s s' -> isl ∈ islands -> 0 <= i < NFD_VID_MAXQS vid ->
  verify_host_action_list isl beyond pcie (NFD_VID2QID vid i) s' = Some TestPassed.
Proof.
  intros Hv Hup Hisl Hi. unfold verify_host_action_list, cfg_act_read_host.
  destruct (natq_range (B:=B) vid i Hv Hi) as [_ Hq]. rewrite host_q_lor by done.
  destruct (up_slots _ _ _ _ _ _ _ Hup) as [x Hslots].
  eapply slot_accepted; [by apply Hslots|apply vf_pipeline_wf|apply vf_size|].
  left. apply vf_pipeline_stops.
Qed.

(** The slots of a PF that is up with the switch: its wire port and its
    queues. *)
Lemma pf_is_up_accepted pcie vid n control s s' isl beyond i :
  wf_emem (cached pcie vid s) -> 0 <= vid < NVNICS B NFD_MAX_CTRL -> 0 <= n < 256 ->
  pf_is_up pcie vid n true control s s' -> isl ∈ islands -> 0 <= i < NFD_VID_MAXQS vid ->
  verify_host_action_list isl beyond pcie (NFD_VID2QID vid i) s' = Some TestPassed /\
  verify_wire_action_list isl beyond pcie n s' = Some TestPassed.
Proof.
  intros Hm Hv Hn Hup Hisl Hi. unfold verify_host_action_list, verify_wire_action_list,
    cfg_act_read_host, cfg_act_read_wire.
  destruct (natq_range (B:=B) vid i Hv Hi) as [_ Hq]. rewrite host_q_lor by done. split.
  - destruct (pup_host _ _ _ _ _ _ _ Hup) as [x Hslots].
    eapply slot_accepted; [by apply Hslots|apply pf_pipeline_wf|apply pf_size|].
    left. apply pf_pipeline_stops.
  - rewrite wire_q_lor by done.
    eapply slot_accepted; [by apply (pup_wire _ _ _ _ _ _ _ Hup)|by apply nbi_pipeline_wf|
      apply nbi_size|]. left. apply nbi_pipeline_stops.
Qed.

(** C26: the unit test of process_vf_reconfig holds for every configuration: for
    every VF whose request is not refused, by the code or for want of buffers,
    after cfg_act_vf_up the checker of
    the tests passes on each of its queues, in every worker island, whatever
    the slot held before and whatever follows the checker's array in local
    memory; and on any words at all the checker comes to a verdict. *)
Theorem vf_up_passes_check pcie vid n pf_control vf_control update s :
  allocs_ok -> wf_emem s -> 0 <= pcie < NFD_MAX_ISL -> vnic_is vid NFD_VNIC_TYPE_VF n ->
  vf_rejected pcie vid update s = false -> unicast (vf_mac pcie vid s) = true ->
  (exists s', cfg_act_vf_up pcie vid pf_control vf_control update s = Some (0, s') /\
    forall isl beyond i, isl ∈ islands -> 0 <= i < NFD_VID_MAXQS vid ->
      verify_host_action_list isl beyond pcie (NFD_VID2QID vid i) s' = Some TestPassed) /\
  (forall words, exists v, parse_action_list words = Some v).
Proof.
  intros Ha Hm Hp Hv Hrej Hu. split; [|intros words; apply parse_loop_total; lia].
  destruct (run_vf_up pcie vid n pf_control vf_control update s) as (s' & Hrun & Hup); [done..|].
  exists s'. split; [done|]. intros isl beyond i Hisl Hi. destruct Hv as [Hvid _].
  by eapply vf_is_up_accepted.
Qed.
End accepted.

(** ** Checks on concrete inputs *)

Import Demo.

Lemma vf_up_passes_check_witness :
  exists s', cfg_act_vf_up 0 3 control_rss 0 NFP_NET_CFG_UPDATE_GEN conf_state = Some (0, s') /\
    verify_host_action_list 32 (fun _ => 0xffffffff) 0 (NFD_VID2QID 3 0) s' = Some TestPassed.
Proof.
  assert (Hisl : 32 ∈ islands) by (apply list_elem_of_In; by left).
  assert (Hi : 0 <= 0 < NFD_VID_MAXQS 3) by (by vm_compute).
  destruct (vf_up_passes_check 0 3 3 control_rss 0 NFP_NET_CFG_UPDATE_GEN conf_state)
    as [(s' & Hrun & Hv) _];
    [exact demo_alloc_ok|exact conf_state_wf|by vm_compute|exact vnic_3|by vm_compute|by vm_compute|].
  exists s'. split; [exact Hrun|].
  exact (Hv 32 (fun _ => 0xffffffff) 0 Hisl Hi).
Defined.

(** The words of a slot after the list [l'] was written over the list [l]:
    cfg_act_write_queue leaves the words after the end of [l'] as they were. *)
Definition overwritten (l l' : list action) : Z -> Z := fun i =>
  default 0 ((assemble l' ++ drop (size l') (assemble l)) !! Z.to_nat i).

(** The checker reads on after a last transmit action: when the switch goes
    away, the list of a wire port with RSS gets shorter, and the checker takes
    a word of the old list for its continuation and fails the test, although
    it passes on the same list in an empty slot. *)
Example checker_reads_stale_words :
  let old := nbi_pipeline 0 48 0 true control_rss bar_state in
  let new := nbi_pipeline 0 48 0 false control_rss bar_state in
  parse_action_list (overwritten old new) = Some TestFailed /\
  parse_action_list (overwritten [] new) = Some TestPassed.
Proof. split; by vm_compute. Qed.
