(* ===== verification/Frame.v ===== *)
(** * What each operation may change

    A computation respects a preorder [R] on states when the states before and
    after are always related.  The operations that configure the workers
    (tables, action lists, the switch, vNICs up and down, BPF programs, MACs)
    respect every preorder that allows changes to the worker side of the state:
    worker memories, caches, the switch, and events other than
    messages of the host.  So they leave alone what the contexts of the master
    share, control words, bit arrays and the mutex, and the memory in which the
    host writes its requests.

    The lemmas are found by the tactic [respects], which follows the structure
    of a computation and looks up the operations it calls in the hint database
    of the same name. *)

From S2P Require Import Prelude Platform UserCfg Nfd Machine AppPrivate Bus Link Bpf Tables ActionList Builders NicTables Veb Cmsg Config.

Definition respects {A} (R : nic -> nic -> Prop) (m : C A) : Prop :=
  forall s a s', m s = Some (a, s') -> R s s'.

(** Events that are configuration messages *)
Definition is_msg (e : bus_event) : bool :=
  match e with CfgMsgPoll _ _ | CfgMsgDone _ _ _ _ => true | _ => false end.

Class WorkerSide (R : nic -> nic -> Prop) : Prop := {
  worker_preorder :: PreOrder R;
  worker_cls f s : R s (s <| cls ::= f |>);
  worker_nn f s : R s (s <| nn ::= f |>);
  worker_vf_vlan_cache f s : R s (s <| vf_vlan_cache ::= f |>);
  worker_fl_buf_sz_cache f s : R s (s <| fl_buf_sz_cache ::= f |>);
  worker_vlan_to_vnics f s : R s (s <| nic_vlan_to_vnics_map_tbl ::= f |>);
  worker_nvnic_macs f s : R s (s <| nvnic_macs ::= f |>);
  worker_rss_cntr f s : R s (s <| cfg_error_rss_cntr ::= f |>);
  worker_event e s : is_msg e = false -> R s (s <| bus ::= cons e |>)
}.

(** Relations that say nothing of these tables but the lists and RSS tables in
    the scratch memory of the worker islands *)
Class BoardSide (R : nic -> nic -> Prop) : Prop := {
  board_preorder :: PreOrder R;
  board_nn f s : R s (s <| nn ::= f |>);
  board_vf_vlan_cache f s : R s (s <| vf_vlan_cache ::= f |>);
  board_fl_buf_sz_cache f s : R s (s <| fl_buf_sz_cache ::= f |>);
  board_vlan_to_vnics f s : R s (s <| nic_vlan_to_vnics_map_tbl ::= f |>);
  board_nvnic_macs f s : R s (s <| nvnic_macs ::= f |>);
  board_rss_cntr f s : R s (s <| cfg_error_rss_cntr ::= f |>);
  board_event e s : is_msg e = false -> R s (s <| bus ::= cons e |>)
}.

#[export] Instance worker_board R : WorkerSide R -> BoardSide R.
Proof. intros []. by split. Qed.

(** Relations that also allow writes to the memory of the host interface *)
Class HostMemory (R : nic -> nic -> Prop) : Prop :=
  { memory_emem f s : R s (s <| emem ::= f |>) }.

(** Relations that say nothing of the switch *)
Class SwitchFree (R : nic -> nic -> Prop) : Prop := {
  switch_stored_keys f s : R s (s <| veb_stored_keys ::= f |>);
  switch_map_cmsg_q f s : R s (s <| map_cmsg_q ::= f |>);
  switch_ctm_allocs f s : R s (s <| ctm_allocs ::= f |>);
  switch_blm_allocs f s : R s (s <| blm_allocs ::= f |>)
}.

(** Relations that the changes of the switch respect: what the vNICs ask for
    goes through [cfg_act_write_veb], with keys whose fields have their width *)
Class SwitchSide {B : build} `{NetCfg, Vids, VfCfg, App} (R : nic -> nic -> Prop) : Prop :=
  { switch_write_veb vid key acts : key_fits key -> respects R (cfg_act_write_veb vid key acts) }.

Lemma key_fits_words mac : key_fits (veb_key_from_words mac).
Proof. split; [done|]. split; by apply wrap_fits. Qed.

Create HintDb respects.
#[export] Hint Resolve worker_board : respects.

#[export] Hint Extern 1 (respects _ (cfg_act_write_veb _ _ _)) =>
  (apply switch_write_veb; auto using key_fits_set_vlan, key_fits_mac64, key_fits_words) : respects.

Section rules.
Context {R : nic -> nic -> Prop} `{!PreOrder R}.

Lemma respects_ret {A} (a : A) : respects R (mret a).
Proof. intros s b s' [= -> ->]. reflexivity. Qed.

Lemma respects_bind {A B} (m : C A) (k : A -> C B) :
  respects R m -> (forall a, respects R (k a)) -> respects R (m ≫= k).
Proof.
  intros Hm Hk s b s2 (a & s1 & H1 & H2)%bind_some_inv.
  transitivity s1; [by eapply Hm|by eapply Hk].
Qed.

Lemma respects_get {A} (f : nic -> A) : respects R (get f).
Proof. intros s a s' [= <- <-]. reflexivity. Qed.

Lemma respects_modify f : (forall s, R s (f s)) -> respects R (modify f).
Proof. intros Hf s a s' [= <- <-]. apply Hf. Qed.

Lemma respects_undefined {A} : respects R (undefined (A := A)).
Proof. done. Qed.

Lemma respects_require b : respects R (require b).
Proof. destruct b; [apply respects_ret|done]. Qed.

Lemma respects_when b m : respects R m -> respects R (when b m).
Proof. intros Hm. destruct b; [done|apply respects_ret]. Qed.

Lemma respects_of_option {A} (o : option A) : respects R (of_option o).
Proof. destruct o; [apply respects_ret|done]. Qed.

Lemma respects_for_each {A} (l : list A) body :
  (forall x, respects R (body x)) -> respects R (for_each l body).
Proof.
  intros Hb. induction l as [|x l IH]; [apply respects_ret|].
  cbn [for_each]. by apply respects_bind.
Qed.

Lemma respects_for_ret {A X} (l : list A) (body : A -> C (option X)) :
  (forall x, respects R (body x)) -> respects R (for_ret l body).
Proof.
  intros Hb. induction l as [|x l IH]; [apply respects_ret|].
  cbn [for_ret]. apply respects_bind; [done|]. intros [r|]; [apply respects_ret|done].
Qed.

Lemma respects_for_fold {A X} (l : list A) (b : X) body :
  (forall b x, respects R (body b x)) -> respects R (for_fold l b body).
Proof.
  intros Hb. revert b. induction l as [|x l IH]; intros b; [apply respects_ret|].
  cbn [for_fold]. by apply respects_bind.
Qed.

Lemma respects_for_fold_ret {A X Y} (l : list A) (b : X) (body : X -> A -> C (Y + X)) :
  (forall b x, respects R (body b x)) -> respects R (for_fold_ret l b body).
Proof.
  intros Hb. revert b. induction l as [|x l IH]; intros b; [apply respects_ret|].
  cbn [for_fold_ret]. apply respects_bind; [done|]. intros [r|b']; [apply respects_ret|done].
Qed.

Lemma respects_arr_get {K} `{Countable K} (f : nic -> gmap K Z) ok k : respects R (arr_get f ok k).
Proof. apply respects_bind; [apply respects_require|]. intros. apply respects_get. Qed.
End rules.

Ltac head_of t := lazymatch t with ?f _ => head_of f | _ => t end.

(** Use the lemma of the operation that a computation calls, or unfold it. *)
Ltac respects_call R m :=
  first
    [ solve [auto 3 with respects nocore]
    | let h := head_of m in
      let m' := eval cbv beta delta [h] in m in
      change (respects R m') ].

(** Follow the structure of a computation. *)
Ltac respects_step :=
  lazymatch goal with
  | |- forall _, _ => intros ?
  | |- respects ?R (let x := ?v in @?m x) =>
      let m' := eval cbv beta in (m v) in change (respects R m')
  | |- respects _ (match ?x with _ => _ end) => destruct x
  | |- respects _ (mret _) => apply respects_ret
  | |- respects _ (_ ≫= _) => apply respects_bind
  | |- respects _ (get _) => apply respects_get
  | |- respects _ (modify _) => apply respects_modify
  | |- respects _ undefined => apply respects_undefined
  | |- respects _ (require _) => apply respects_require
  | |- respects _ (of_option _) => apply respects_of_option
  | |- respects _ (arr_get _ _ _) => apply respects_arr_get
  | |- respects _ (when _ _) => apply respects_when
  | |- respects _ (for_each _ _) => apply respects_for_each
  | |- respects _ (for_ret _ _) => apply respects_for_ret
  | |- respects _ (for_fold _ _ _) => apply respects_for_fold
  | |- respects _ (for_fold_ret _ _ _) => apply respects_for_fold_ret
  | |- respects ?R ?m => respects_call R m
  | |- ?R _ (apply_update _ _) => first
      [ apply memory_emem | apply worker_cls | apply board_nn | apply board_vf_vlan_cache
      | apply board_fl_buf_sz_cache | apply board_vlan_to_vnics | apply board_nvnic_macs
      | apply board_rss_cntr | apply switch_stored_keys | apply switch_map_cmsg_q
      | apply switch_ctm_allocs | apply switch_blm_allocs | apply board_event; reflexivity
      | solve [auto 3 with respects nocore] ]
  end.
Ltac respects := repeat respects_step.

Section accesses.
Context {R : nic -> nic -> Prop} `{!BoardSide R}.
Context `{Devices}.

Lemma respects_emit e : is_msg e = false -> respects R (emit e).
Proof. intros He. apply respects_modify. intros s. by apply board_event. Qed.

Lemma respects_xpb_read a : respects R (xpb_read a).
Proof. unfold xpb_read. respects. Qed.
Lemma respects_xpb_write a v : respects R (xpb_write a v).
Proof. apply respects_emit. reflexivity. Qed.
Lemma respects_sleep c : respects R (sleep c).
Proof. apply respects_emit. reflexivity. Qed.
Lemma respects_remote_csr_write isl me csr v : respects R (remote_csr_write isl me csr v).
Proof. apply respects_emit. reflexivity. Qed.
Lemma respects_pcie_read isl idx hi lo n : respects R (pcie_read isl idx hi lo n).
Proof. unfold pcie_read. respects. Qed.
Lemma respects_tmq_status_read nbi q : respects R (tmq_status_read nbi q).
Proof. unfold tmq_status_read. respects. Qed.
Lemma respects_msix_pf_send p b e a : respects R (msix_pf_send p b e a).
Proof. unfold msix_pf_send. respects. Qed.

Lemma respects_mem_read32 a : respects R (mem_read32 a).
Proof. apply respects_get. Qed.
Lemma respects_mem_read64 a : respects R (mem_read64 a).
Proof. apply respects_get. Qed.
Lemma respects_mem_read32s a n : respects R (mem_read32s a n).
Proof. apply respects_get. Qed.
Lemma respects_mem_write32 `{!HostMemory R} a v : respects R (mem_write32 a v).
Proof. unfold mem_write32. respects. Qed.
End accesses.

#[export] Hint Resolve respects_xpb_read respects_xpb_write respects_sleep respects_remote_csr_write
  respects_pcie_read respects_tmq_status_read respects_msix_pf_send respects_mem_read32
  respects_mem_read64 respects_mem_read32s respects_mem_write32 : respects.
#[export] Hint Extern 1 (respects _ (emit _)) => (apply respects_emit; reflexivity) : respects.

(** ** The operations of the components *)

Section operations.
Context {R : nic -> nic -> Prop} `{!BoardSide R}.
Context {B : build} `{NetCfg, Vids, VfCfg, App, Devices, Xpb, BpfCfg}.

Lemma respects_poll_inhibit_done fuel addr mask : respects R (poll_inhibit_done fuel addr mask).
Proof. induction fuel; cbn [poll_inhibit_done]; respects. Qed.
#[local] Hint Resolve respects_poll_inhibit_done : respects.

Lemma respects_quiesce fuel isl me : respects R (quiesce fuel isl me).
Proof. induction fuel; cbn [quiesce]; respects. Qed.

Lemma respects_load_words n isl me hi lo : respects R (load_words n isl me hi lo).
Proof. revert hi lo. induction n; intros; cbn [load_words]; respects. Qed.

Lemma respects_wait_epoch fuel isl me : respects R (wait_epoch fuel isl me).
Proof. induction fuel; cbn [wait_epoch]; respects. Qed.
#[local] Hint Resolve respects_quiesce respects_load_words respects_wait_epoch : respects.

Lemma respects_bpf_reconfig fuel vid vnic : respects R (nic_local_bpf_reconfig fuel vid vnic).
Proof. respects. Qed.
#[local] Hint Resolve respects_bpf_reconfig : respects.

(** The tables that only the engines of the workers and their CTMs hold *)

Lemma respects_upd_vxlan pcie vid : respects R (cfg_act_upd_vxlan_table pcie vid).
Proof. respects. Qed.

Lemma respects_init_nn_tables : respects R init_nn_tables.
Proof. respects. Qed.

Lemma respects_upd_slicc : respects R upd_slicc_hash_table.
Proof. respects. Qed.

Lemma respects_vlan_members pcie : respects R (upd_ctm_vlan_members pcie).
Proof. respects. Qed.
#[local] Hint Resolve respects_upd_vxlan respects_vlan_members : respects.

(** The action lists without RSS *)

Lemma respects_build_ctrl pcie vid : respects R (cfg_act_build_ctrl pcie vid).
Proof. respects. Qed.
Lemma respects_build_pf pcie vid veb c u : respects R (cfg_act_build_pf pcie vid veb c u).
Proof. respects. Qed.
Lemma respects_build_vf pcie vid pf_c vf_c : respects R (cfg_act_build_vf pcie vid pf_c vf_c).
Proof. respects. Qed.
Lemma respects_build_pcie_down pcie vid : respects R (cfg_act_build_pcie_down pcie vid).
Proof. respects. Qed.
Lemma respects_build_nbi_down pcie vid : respects R (cfg_act_build_nbi_down pcie vid).
Proof. respects. Qed.

(** Membership in VLANs and the switch *)

Lemma respects_add_vlan_member pcie vlan vid : respects R (add_vlan_member pcie vlan vid).
Proof. respects. Qed.
Lemma respects_remove_vlan_member pcie vid : respects R (remove_vlan_member pcie vid).
Proof. respects. Qed.

Lemma respects_blm_alloc_loop `{!SwitchFree R} fuel : respects R (blm_alloc_loop fuel).
Proof. induction fuel; cbn [blm_alloc_loop]; respects. Qed.
#[local] Hint Resolve respects_blm_alloc_loop : respects.

#[export] Instance switch_free_side `{!SwitchFree R} : SwitchSide R.
Proof. split. intros vid key acts _. respects. Qed.
End operations.

#[export] Hint Resolve respects_poll_inhibit_done respects_bpf_reconfig respects_init_nn_tables
  respects_upd_slicc respects_upd_vxlan respects_vlan_members respects_build_ctrl respects_build_pf
  respects_build_vf respects_build_pcie_down respects_build_nbi_down respects_add_vlan_member
  respects_remove_vlan_member : respects.

Section worker_operations.
Context {R : nic -> nic -> Prop} `{!WorkerSide R}.
Context {B : build} `{NetCfg, Vids, VfCfg, App, Devices, Xpb, BpfCfg}.

(** The lists and RSS tables in the worker islands *)

Lemma respects_upd_rss_table start bar vnic : respects R (upd_rss_table start bar vnic).
Proof. respects. Qed.
Lemma respects_rx_wire ws start count : respects R (upd_rx_wire_instr ws start count).
Proof. respects. Qed.
Lemma respects_rx_host ws start count q : respects R (upd_rx_host_instr ws start count q).
Proof. respects. Qed.
#[local] Hint Resolve respects_upd_rss_table respects_rx_wire respects_rx_host : respects.

Lemma respects_build_nbi pcie vid veb c u : respects R (cfg_act_build_nbi pcie vid veb c u).
Proof. respects. Qed.
Lemma respects_build_veb_pf pcie vid c u : respects R (cfg_act_build_veb_pf pcie vid c u).
Proof. respects. Qed.
Lemma respects_build_veb_vf pcie vid pf_c vf_c u : respects R (cfg_act_build_veb_vf pcie vid pf_c vf_c u).
Proof. respects. Qed.
#[local] Hint Resolve respects_build_nbi respects_build_veb_pf respects_build_veb_vf : respects.

(** vNICs up and down *)

Context `{!SwitchSide R}.

Lemma respects_write_host pcie vid acts : respects R (cfg_act_write_host pcie vid acts).
Proof. respects. Qed.
#[local] Hint Resolve respects_write_host : respects.

Lemma respects_vf_up pcie vid pf_c vf_c u : respects R (cfg_act_vf_up pcie vid pf_c vf_c u).
Proof. respects. Qed.
Lemma respects_vf_down pcie vid : respects R (cfg_act_vf_down pcie vid).
Proof. respects. Qed.
Lemma respects_pf_up pcie vid veb c u : respects R (cfg_act_pf_up pcie vid veb c u).
Proof. respects. Qed.
Lemma respects_pf_down pcie vid : respects R (cfg_act_pf_down pcie vid).
Proof. respects. Qed.
End worker_operations.

#[export] Hint Resolve respects_write_host respects_vf_up respects_vf_down respects_pf_up
  respects_pf_down : respects.

