(* ===== verification/Lists.v ===== *)
(** * What the workers run: the slots of the instruction tables

    Every queue of a PCIe island and every wire port has a slot of sixteen
    words in the table of each worker island.  This file has the words that the
    tables are loaded with (app_config_instr.h), says what a good slot is, and
    proves that the operations that bring vNICs up and down leave every slot of
    every table good.  Progress.v lifts it to all reachable states of the
    application master. *)

From S2P Require Import Prelude Platform UserCfg Nfd Machine Tables ActionList Builders NicTables Veb Config Frame.

(** ** The tables as they are loaded *)

Definition NUM_PCIE_Q_PER_PORT (B : build) : Z := NFD_MAX_PF_QUEUES B.

(** The first word of a slot: [(op << INSTR_OPCODE_LSB) | 16383] *)
Definition init_word (op : instruction_ops) : Z := Z.lor (Z.shiftl (op_num op) 17) 16383.

(** One of the two [#while] loops: [n] slots from byte [offset] on *)
Fixpoint init_slots (n : nat) (offset : Z) (op : instruction_ops) (m : gmap Z Z) : gmap Z Z :=
  match n with
  | O => m
  | S n => init_slots n (offset + 4 * NIC_MAX_INSTR) op
             (<[offset + 4 := op_num INSTR_DROP]> (<[offset := init_word op]> m))
  end.

(** What the words of NIC_CFG_INSTR_TBL are initialised with; a word without
    an initialisation is 0.  The first loop runs while
    [__LOOP <= NUM_PCIE_Q_PER_PORT * NS_PLATFORM_NUM_PORTS]. *)
Definition instr_tbl_init (B : build) : gmap Z Z :=
  let ports := NS_PLATFORM_NUM_PORTS (board B) in
  init_slots (Z.to_nat ports) (Z.shiftl 1 8 * (NIC_MAX_INSTR * 4)) INSTR_RX_WIRE
    (init_slots (Z.to_nat (NUM_PCIE_Q_PER_PORT B * ports + 1)) 0 INSTR_RX_HOST ∅).

(** ** Complete lists *)

(** The workers go no further after these actions: they drop, hand over, or
    transmit a packet of which no copy is wanted. *)
Definition final (a : action) : bool :=
  match a with
  | Drop | Cmsg | TxVlan => true
  | TxHost cont multicast _ _ _ | TxWire cont multicast _ _ => negb cont && negb multicast
  | _ => false
  end.

(** The last action, and no other one, is final. *)
Fixpoint complete (l : list action) : bool :=
  match l with
  | [] => false
  | [a] => final a
  | a :: l => negb (final a) && complete l
  end.

(** The parse of the side that the slot is for: slots from 256 on are those of
    wire ports. *)
Definition side_of (q : Z) : instruction_ops := if q <? 256 then INSTR_RX_HOST else INSTR_RX_WIRE.

Definition starts_with (op : instruction_ops) (l : list action) : Prop :=
  match l with a :: _ => op_of a = op | [] => False end.

Record list_ok (q : Z) (l : list action) : Prop := {
  ok_start : starts_with (side_of q) l;
  ok_complete : complete l = true;
  ok_wf : Forall wf_action l;
  ok_size : (1 <= size l <= 16)%nat
}.

Section lists.
Context {B : build} `{NetCfg, Vids, VfCfg, App}.

(** The tables of the worker islands are as they were loaded. *)
Definition lists_loaded (s : nic) : Prop := forall isl a, isl ∈ islands ->
  0 <= a < NIC_CFG_INSTR_TBL_SIZE -> rd (cls s) (isl, NIC_CFG_INSTR_TBL_ADDR + a) = rd (instr_tbl_init B) a.

(** A slot that drops everything, maybe after the parse, as loaded *)
Definition slot_drops (s : nic) (q : Z) : Prop := exists w,
  (w = op_num INSTR_DROP \/ w = init_word (side_of q)) /\
  forall isl, isl ∈ islands -> rd (cls s) (isl, slot_addr q) = w /\
    rd (cls s) (isl, slot_addr q + 4) = op_num INSTR_DROP.

(** A good slot: it drops as loaded or runs a good list, the same in every
    worker island *)
Definition slot_ok (s : nic) (q : Z) : Prop :=
  slot_drops s q \/ exists l, list_ok q l /\ forall isl, isl ∈ islands -> slot_runs s isl q l.

(** Before the first configuration *)
Definition lists_drop (s : nic) : Prop := forall q, 0 <= q < 512 -> slot_drops s q.

Definition lists_ok (s : nic) : Prop := forall q, 0 <= q < 512 -> slot_ok s q.

(** The words of slot [q] are the same in both states. *)
Definition same_slot (q : Z) (s s' : nic) : Prop := forall isl j, isl ∈ islands -> 0 <= j < 16 ->
  rd (cls s') (isl, slot_addr q + 4 * j) = rd (cls s) (isl, slot_addr q + 4 * j).

(** A property of a slot that depends on its words only, and that the lists with
    [W] may be written under *)
Record slot_property (holds : nic -> Z -> Prop) (W : Z -> list action -> Prop) : Prop := {
  may_fits q l : W q l -> (1 <= size l <= 16)%nat;
  holds_same s s' q : same_slot q s s' -> holds s q -> holds s' q;
  holds_written s q l : W q l -> holds s q -> holds (queue_written q l s) q
}.

(** What the operations need and keep: memory made of words, and the slots with
    the property *)
Definition keeps_slots (holds : nic -> Z -> Prop) (s s' : nic) : Prop :=
  wf_emem s -> wf_emem s' /\ forall q, 0 <= q < 512 -> holds s q -> holds s' q.
End lists.

(** * Properties *)

(** ** The loaded tables *)

(** The word [j] of slot [q] in the part that [init_slots] writes *)
Lemma rd_init_slots n k off op m q j : off = 64 * k -> 0 <= j < 16 ->
  rd (init_slots n off op m) (64 * q + 4 * j) =
  if (k <=? q) && (q <? k + Z.of_nat n) && (j <? 2)
  then (if j =? 0 then init_word op else op_num INSTR_DROP) else rd m (64 * q + 4 * j).
Proof.
  intros Hoff Hj. revert k off m Hoff. induction n as [|n IH]; intros k off m Hoff; cbn [init_slots].
  - destruct (Z.leb_spec k q), (Z.ltb_spec q (k + Z.of_nat 0)); try lia; done.
  - rewrite (IH (k + 1)) by (unfold NIC_MAX_INSTR; lia). subst off.
    destruct (Z.leb_spec (k + 1) q), (Z.leb_spec k q), (Z.ltb_spec q (k + 1 + Z.of_nat n)),
      (Z.ltb_spec q (k + Z.of_nat (S n))); try lia; cbn [andb];
      try (rewrite !rd_insert_ne by lia; done).
    assert (q = k) as -> by lia. destruct (Z.ltb_spec j 2) as [Hj2|Hj2].
    + destruct (Z.eqb_spec j 0) as [->|].
      * rewrite rd_insert_ne by lia. by rewrite Z.mul_0_r, Z.add_0_r, rd_insert_eq.
      * replace j with 1 by lia. by rewrite rd_insert_eq.
    + by rewrite !rd_insert_ne by lia.
Qed.

Section proofs.
Context {B : build} `{NetCfg, Vids, VfCfg, App}.

(** C21: as the engines are loaded, every slot of every worker island, for a
    queue of a PCIe island or a wire port, drops what arrives, after the parse
    of its side or at once, so that nothing is forwarded before the first
    configuration; the two loops of initialisers do not reach each other's
    slots, although the first one writes one slot more than there are queues. *)
Theorem loaded_lists_drop s : lists_loaded s -> lists_drop s.
Proof.
  intros Hs q Hq.
  assert (Hrd : forall isl j, isl ∈ islands -> 0 <= j < 16 ->
    rd (cls s) (isl, slot_addr q + 4 * j) = rd (instr_tbl_init B) (64 * q + 4 * j)).
  { intros isl j Hisl Hj. rewrite <- (Hs isl) by (done || unfold NIC_CFG_INSTR_TBL_SIZE; lia).
    do 2 f_equal. unfold slot_addr, NIC_MAX_INSTR. lia. }
  assert (Hports : 0 <= NS_PLATFORM_NUM_PORTS (board B) <= 8 /\
    0 <= NUM_PCIE_Q_PER_PORT B * NS_PLATFORM_NUM_PORTS (board B) <= 64)
    by (destruct B as [[] []]; vm_compute; repeat split; discriminate).
  assert (Hw : forall j, 0 <= j < 2 -> rd (instr_tbl_init B) (64 * q + 4 * j) =
    if (if q <? 256 then q <? NUM_PCIE_Q_PER_PORT B * NS_PLATFORM_NUM_PORTS (board B) + 1
        else q <? 256 + NS_PLATFORM_NUM_PORTS (board B))
    then (if j =? 0 then init_word (side_of q) else op_num INSTR_DROP) else 0).
  { intros j Hj. unfold instr_tbl_init. cbv zeta.
    rewrite (rd_init_slots _ 256) by (done || lia). rewrite (rd_init_slots _ 0) by lia. unfold side_of.
    rewrite !Z2Nat.id by lia. destruct (Z.ltb_spec j 2); [|lia]. rewrite !andb_true_r.
    destruct (Z.ltb_spec q 256), (Z.leb_spec 256 q); try lia; cbn [andb].
    - destruct (Z.leb_spec 0 q); [|lia]. rewrite Z.add_0_l. cbn [andb]. done.
    - destruct (q <? 256 + _); [done|].
      destruct (Z.ltb_spec q (0 + (NUM_PCIE_Q_PER_PORT B * NS_PLATFORM_NUM_PORTS (board B) + 1))); [lia|].
      by rewrite andb_false_r. }
  exists (rd (instr_tbl_init B) (64 * q + 4 * 0)). split.
  - rewrite Hw by lia. change (0 =? 0) with true. cbv iota.
    match goal with |- context [if ?b then _ else _] => destruct b end; auto.
  - intros isl Hisl. pose proof (Hrd isl 0 Hisl ltac:(lia)) as E0. pose proof (Hrd isl 1 Hisl ltac:(lia)) as E1.
    rewrite Z.mul_0_r, Z.add_0_r in E0. split; [done|]. change (4 * 1) with 4 in E1 at 1. rewrite E1, Hw by lia.
    change (1 =? 0) with false. cbv iota.
    match goal with |- context [if ?b then _ else _] => by destruct b end.
Qed.

Lemma lists_drop_ok s : lists_drop s -> lists_ok s.
Proof. intros Hs q Hq. left. by apply Hs. Qed.

(** Empty memory drops. *)
Lemma lists_drop_empty s : cls s = ∅ -> lists_drop s.
Proof. intros Hs q _. exists 0. split; [by left|]. intros isl _. by rewrite Hs. Qed.

(** ** Writes *)

Lemma slot_drops_same s s' q : same_slot q s s' -> slot_drops s q -> slot_drops s' q.
Proof.
  intros Hsame (w & Hw & Hs). exists w. split; [done|]. intros isl Hisl.
  pose proof (Hsame isl 0 Hisl ltac:(lia)) as E0. pose proof (Hsame isl 1 Hisl ltac:(lia)) as E1.
  rewrite Z.mul_0_r, Z.add_0_r in E0. change (4 * 1) with 4 in E1. rewrite E0, E1. by apply Hs.
Qed.

Lemma slot_runs_same s s' isl q l : same_slot q s s' -> isl ∈ islands -> (size l <= 16)%nat ->
  slot_runs s isl q l -> slot_runs s' isl q l.
Proof.
  intros Hsame Hisl Hsz Hs j w Hj. pose proof (lookup_lt_Some _ _ _ Hj) as Hlt.
  unfold assemble in Hlt. rewrite length_assemble in Hlt. rewrite Hsame by (done || lia). by apply Hs.
Qed.

Lemma same_slot_written s q q' l : (size l <= 16)%nat -> q' <> q -> same_slot q' s (queue_written q l s).
Proof.
  intros Hsz Hne isl j _ Hj. apply rd_queue_written_out; [done|].
  unfold slot_addr, NIC_MAX_INSTR. lia.
Qed.

(** The RSS tables lie behind the slots. *)
Lemma same_slot_rss u pcie vid s q : 0 <= pcie -> 0 <= (NFD_VID2VNIC vid).2 -> 0 <= q < 512 ->
  same_slot q s (rss_written u pcie vid s).
Proof.
  intros Hp Hn Hq isl j _ Hj. destruct u; [|done].
  unfold rss_written. st. apply rd_put_all_out; [lia|]. left. left.
  unfold slot_addr, NIC_MAX_INSTR, NIC_CFG_INSTR_TBL_ADDR, NIC_RSS_TBL_ADDR,
    NIC_CFG_INSTR_TBL_SIZE, rss_tbl_idx.
  assert (0 <= NS_PLATFORM_NUM_PORTS (board B)) by (destruct B as [[] []]; by vm_compute). nia.
Qed.

Lemma slot_ok_property : slot_property slot_ok list_ok.
Proof.
  split.
  - by intros q l [].
  - intros s s' q Hsame [Hd|(l & Hl & Hs)]; [left; by eapply slot_drops_same|right].
    exists l. split; [done|]. intros isl Hisl. eapply slot_runs_same; [done|done|apply Hl|by apply Hs].
  - intros s q l Hl _. right. exists l. split; [done|]. intros isl Hisl. by apply slot_runs_written.
Qed.

(** The slots other than those with [Q] are as in [s0]. *)
Definition as_before (Q : Z -> Prop) (s0 s : nic) (q : Z) : Prop := Q q \/ same_slot q s0 s.

Lemma as_before_property Q s0 :
  slot_property (as_before Q s0) (fun q l => Q q /\ (1 <= size l <= 16)%nat).
Proof.
  split.
  - by intros q l [].
  - intros s s' q Hsame [Hq|Hs]; [by left|right]. intros isl j Hisl Hj.
    rewrite Hsame by done. by apply Hs.
  - intros s q l [Hq _] _. by left.
Qed.

Section slots.
Context (holds : nic -> Z -> Prop) (W : Z -> list action -> Prop) (HP : slot_property holds W).

Lemma queue_written_holds q l s q' : W q l -> holds s q' -> holds (queue_written q l s) q'.
Proof.
  intros Hl Hs. destruct (decide (q' = q)) as [->|Hne]; [by apply (holds_written _ _ HP)|].
  eapply (holds_same _ _ HP); [|exact Hs]. pose proof (may_fits _ _ HP _ _ Hl).
  apply same_slot_written; [lia|done].
Qed.

Lemma host_written_holds pcie vid l s q' :
  (forall i, 0 <= i < NFD_VID_MAXQS vid -> W (host_q pcie vid i) l) ->
  holds s q' -> holds (host_written pcie vid l s) q'.
Proof.
  intros Hl. unfold host_written.
  assert (Hr : forall i, i ∈ range 0 (NFD_VID_MAXQS vid) -> W (host_q pcie vid i) l)
    by (intros i Hi%elem_of_range; by apply Hl).
  revert Hr. generalize (range 0 (NFD_VID_MAXQS vid)). intros ks. revert s.
  induction ks as [|k ks IH]; intros s Hr Hs; [done|]. cbn [foldl]. apply IH.
  - intros i Hi. by apply Hr, list_elem_of_further.
  - apply queue_written_holds; [apply Hr, list_elem_of_here|done].
Qed.

Lemma rss_written_holds u pcie vid s q : 0 <= pcie -> 0 <= (NFD_VID2VNIC vid).2 -> 0 <= q < 512 ->
  holds s q -> holds (rss_written u pcie vid s) q.
Proof. intros Hp Hn Hq. apply (holds_same _ _ HP). by apply same_slot_rss. Qed.
End slots.
End proofs.

(** ** What the builders make *)

Section builders.
Context {B : build} `{NetCfg, Vids, VfCfg, App}.
Context `{!NetCfgOk, !VidsOk B, !VfCfgOk}.

(** The host side: slots below 256 *)
Lemma host_list_ok q l : 0 <= q < 256 -> starts_with INSTR_RX_HOST l -> complete l = true ->
  Forall wf_action l -> (1 <= size l <= 16)%nat -> list_ok q l.
Proof.
  intros Hq Hst Hc Hwf Hsz. split; try done. unfold side_of. destruct (Z.ltb_spec q 256); [done|lia].
Qed.

Lemma wire_list_ok n l : 0 <= n -> starts_with INSTR_RX_WIRE l -> complete l = true ->
  Forall wf_action l -> (1 <= size l <= 16)%nat -> list_ok (wire_q n) l.
Proof.
  intros Hq Hst Hc Hwf Hsz. split; try done. unfold side_of, wire_q.
  destruct (Z.ltb_spec (256 + n) 256); [lia|done].
Qed.

Lemma vf_pipeline_complete x pcie vid pf_control vf_control s :
  complete (vf_pipeline x pcie vid pf_control vf_control s) = true.
Proof.
  unfold vf_pipeline. cbv zeta.
  destruct (truthy (sc_vlan_tag _)), (truthy (sc_ctrl_spoof _)), (has vf_control _ && has vf_control _),
    (has vf_control _); cbn; by rewrite ?andb_false_r.
Qed.

Lemma pf_pipeline_complete x pcie vid n veb control s :
  complete (pf_pipeline x pcie vid n veb control s) = true.
Proof.
  unfold pf_pipeline. cbv zeta.
  by destruct veb, (has control NFP_NET_CFG_CTRL_TXCSUM), (has control NFP_NET_CFG_CTRL_VXLAN).
Qed.

Lemma rx_wire_not_final pcie vid vxlan nvgre csum s :
  final (rx_wire_action pcie vid vxlan nvgre csum s) = false.
Proof. by destruct vxlan. Qed.

Lemma nbi_pipeline_complete pcie vid n veb control s : complete (nbi_pipeline pcie vid n veb control s) = true.
Proof.
  unfold nbi_pipeline, rss_actions. cbv zeta.
  assert (Hc : forall a l, final a = false -> complete l = true -> complete ([a] ++ l) = true)
    by (intros a [|b l] Ha Hl; [done|cbn in *; by rewrite Ha]).
  apply Hc; [apply rx_wire_not_final|].
  destruct veb, (negb (has control NFP_NET_CFG_CTRL_PROMISC)), (has control NFP_NET_CFG_CTRL_CSUM_COMPLETE),
    (has control NFP_NET_CFG_CTRL_BPF), (rss_on control); by cbn.
Qed.

Lemma vf_list_ok q x pcie vid pf_control vf_control s : 0 <= q < 256 ->
  list_ok q (vf_pipeline x pcie vid pf_control vf_control s).
Proof.
  intros Hq. apply host_list_ok; [done..|apply vf_pipeline_complete|apply vf_pipeline_wf|apply vf_size].
Qed.

Lemma pf_list_ok q x pcie vid n veb control s : 0 <= q < 256 ->
  list_ok q (pf_pipeline x pcie vid n veb control s).
Proof.
  intros Hq. apply host_list_ok; [done..|apply pf_pipeline_complete|apply pf_pipeline_wf|apply pf_size].
Qed.

Lemma nbi_list_ok pcie vid n veb control s : 0 <= n -> wf_emem s ->
  list_ok (wire_q n) (nbi_pipeline pcie vid n veb control s).
Proof.
  intros Hn Hm. apply wire_list_ok; [done| |apply nbi_pipeline_complete|by apply nbi_pipeline_wf|apply nbi_size].
  unfold nbi_pipeline, rx_wire_action. by destruct (has control NFP_NET_CFG_CTRL_VXLAN).
Qed.

Lemma down_list_ok q pcie vid s : 0 <= q < 256 -> list_ok q (pcie_down_pipeline pcie vid s).
Proof.
  intros Hq. apply host_list_ok; [done..| |simpl; lia]. unfold pcie_down_pipeline.
  repeat constructor; by apply wrap_fits.
Qed.

Lemma nbi_down_list_ok pcie vid n : 0 <= n -> list_ok (wire_q n) (nbi_down_pipeline pcie vid).
Proof. intros Hn. apply wire_list_ok; [done..|by repeat constructor|simpl; lia]. Qed.

Lemma ctrl_list_ok q pcie vid s : 0 <= q < 256 -> list_ok q (ctrl_pipeline pcie vid s).
Proof.
  intros Hq. apply host_list_ok; [done..| |simpl; lia]. unfold ctrl_pipeline.
  repeat constructor; by apply wrap_fits.
Qed.
End builders.

(** ** The operations *)

Section operations.
Context {B : build} `{NetCfg, Vids, VfCfg, App, Devices, Xpb, BpfCfg}.
Context `{!NetCfgOk, !VidsOk B, !VfCfgOk}.
Context (holds : nic -> Z -> Prop) (W : Z -> list action -> Prop) (HP : slot_property holds W).

#[local] Instance keeps_slots_preorder : PreOrder (keeps_slots holds).
Proof.
  split; [by intros s Hm|]. intros s1 s2 s3 Ha Hb Hm. destruct (Ha Hm) as [Hm2 Hl2].
  destruct (Hb Hm2) as [Hm3 Hl3]. split; [done|]. auto.
Qed.

#[local] Instance keeps_slots_board : BoardSide (keeps_slots holds).
Proof.
  split; [apply _| | | | | | |]; try intros e s _ Hm; try intros f s Hm; (split; [exact Hm|]);
    intros q _; by apply (holds_same _ _ HP).
Qed.

#[local] Instance keeps_slots_switch : SwitchFree (keeps_slots holds).
Proof.
  split; intros f s Hm; (split; [exact Hm|]); intros q _; by apply (holds_same _ _ HP).
Qed.

(** A builder, and what is done with what it builds *)
Lemma keeps_build {A X} (m : C A) (Q : A -> Prop) (k : A -> C X) :
  (forall s, wf_emem s -> exists a s', m s = Some (a, s') /\ Q a /\ keeps_slots holds s s') ->
  (forall a, Q a -> respects (keeps_slots holds) (k a)) -> respects (keeps_slots holds) (m ≫= k).
Proof.
  intros Hm Hk s x s2 (a & s1 & Hrun & Hrest)%bind_some_inv Hw.
  destruct (Hm s Hw) as (a' & s1' & Hrun' & Ha & Hs). rewrite Hrun in Hrun'.
  injection Hrun' as <- <-. destruct (Hs Hw) as [Hw1 Hl1].
  destruct (Hk a Ha _ _ _ Hrest Hw1) as [Hw2 Hl2]. auto.
Qed.

(** A list for the queues of a vNIC *)
Definition host_list (pcie vid : Z) (l : list action) : Prop :=
  (1 <= size l <= 16)%nat /\ forall i, 0 <= i < NFD_VID_MAXQS vid -> W (host_q pcie vid i) l.

Lemma keeps_write_host pcie vid l : 0 <= vid < NVNICS B NFD_MAX_CTRL -> host_list pcie vid l ->
  respects (keeps_slots holds) (cfg_act_write_host pcie vid (repr l)).
Proof.
  intros Hv [Hsz Hl] s [] s' Hrun Hm.
  rewrite run_write_host in Hrun by done. injection Hrun as <-.
  split; [by rewrite host_written_cls|]. intros q _. by apply (host_written_holds _ _ HP).
Qed.

Lemma keeps_write_wire n l : 0 <= n < 256 -> W (wire_q n) l ->
  respects (keeps_slots holds) (cfg_act_write_wire n (repr l)).
Proof.
  intros Hn Hl s [] s' Hrun Hm. rewrite run_write_wire in Hrun by (done || by eapply (may_fits _ _ HP)).
  injection Hrun as <-. split; [done|]. intros q _. by apply (queue_written_holds _ _ HP).
Qed.

Lemma keeps_rss u pcie vid s : 0 <= pcie -> 0 <= (NFD_VID2VNIC vid).2 ->
  keeps_slots holds s (rss_written u pcie vid s).
Proof. intros Hp Hn Hm. split; [by destruct u|]. intros q Hq. by apply (rss_written_holds _ _ HP). Qed.

Lemma keeps_vxlan v pcie vid s : keeps_slots holds s (vxlan_written v pcie vid s).
Proof. destruct v; [apply board_nn|reflexivity]. Qed.

Section island.
Context (pcie : Z) (Hpcie : 0 <= pcie < NFD_MAX_ISL).

Lemma keeps_vf_up vid n pf_control vf_control update : vnic_is vid NFD_VNIC_TYPE_VF n ->
  (forall x s, host_list pcie vid (vf_pipeline x pcie vid pf_control vf_control s)) ->
  respects (keeps_slots holds) (cfg_act_vf_up pcie vid pf_control vf_control update).
Proof.
  intros Hv Hl. pose proof Hv as [Hvid _]. unfold cfg_act_vf_up.
  apply respects_bind; [respects|intros _].
  eapply (keeps_build _ (fun _ => True)).
  { intros s Hm. eexists _, _. split; [by apply run_build_veb_vf|]. split; [done|]. by intros _. }
  intros acts _. apply respects_bind; [respects|intros cfg]. cbv zeta.
  apply respects_bind; [respects|intros mac_xr]. destruct (_ && _); [apply respects_ret|].
  apply respects_bind; [respects|intros r]. destruct (negb _); [apply respects_ret|].
  do 2 (apply respects_bind; [respects|intros _]).
  eapply (keeps_build _ (fun a => exists l, a = repr l /\ host_list pcie vid l)).
  { intros s Hm. eexists _, _. split; [by eapply run_build_vf|]. split; [|by intros _].
    eexists. split; [done|]. apply Hl. }
  intros a (l & -> & Hla). apply respects_bind; [by apply keeps_write_host|]. intros _. apply respects_ret.
Qed.

Lemma keeps_host_down vid X (k : C X) : 0 <= vid < NVNICS B NFD_MAX_CTRL ->
  (forall s, host_list pcie vid (pcie_down_pipeline pcie vid s)) -> respects (keeps_slots holds) k ->
  respects (keeps_slots holds)
    (acts ← cfg_act_build_pcie_down pcie vid; _ ← cfg_act_write_host pcie vid acts; k).
Proof.
  intros Hvid Hl Hk. eapply (keeps_build _ (fun a => exists l, a = repr l /\ host_list pcie vid l)).
  { intros s Hm. eexists _, _. split; [apply run_build_pcie_down|]. split; [|by intros _].
    eexists. split; [done|]. apply Hl. }
  intros a (l & -> & Hla). apply respects_bind; [by apply keeps_write_host|]. by intros _.
Qed.

Lemma keeps_vf_down vid : 0 <= vid < NVNICS B NFD_MAX_CTRL ->
  (forall s, host_list pcie vid (pcie_down_pipeline pcie vid s)) ->
  respects (keeps_slots holds) (cfg_act_vf_down pcie vid).
Proof. intros Hvid Hl. apply keeps_host_down; [done..|]. respects. Qed.

Lemma keeps_pf_up vid n veb control update : vnic_is vid NFD_VNIC_TYPE_PF n ->
  (forall s, wf_emem s -> W (wire_q n) (nbi_pipeline pcie vid n veb control s)) ->
  (forall x s, host_list pcie vid (pf_pipeline x pcie vid n veb control s)) ->
  respects (keeps_slots holds) (cfg_act_pf_up pcie vid (b2z veb) control update).
Proof.
  intros Hv Hlw Hlh. pose proof Hv as [Hvid Ht]. pose proof (pf_port vid n Hv) as Hn.
  assert (Hn2 : 0 <= (NFD_VID2VNIC vid).2) by (rewrite Ht; cbn; lia).
  unfold cfg_act_pf_up. apply respects_bind; [respects|intros _].
  eapply (keeps_build _ (fun a => exists l, a = repr l /\ W (wire_q n) l)).
  { intros s Hm. eexists _, _. split; [by eapply run_build_nbi|].
    split; [eexists; split; [done|by apply Hlw]|].
    unfold nbi_state. etransitivity; [|apply keeps_rss; [lia|done]]. apply keeps_vxlan. }
  intros a (l & -> & Hl). rewrite Ht. apply respects_bind; [apply keeps_write_wire; [lia|done]|intros _].
  eapply (keeps_build _ (fun a => exists l, a = repr l /\ host_list pcie vid l)).
  { intros s Hm. eexists _, _. split; [by eapply run_build_pf|]. split; [|by intros _].
    eexists. split; [done|]. apply Hlh. }
  intros a (l' & -> & Hl'). apply respects_bind; [by apply keeps_write_host|]. intros _.
  apply respects_bind; [respects|intros mac_xr]. cbv zeta. apply respects_bind; [respects|intros _].
  destruct (n =? 0); [|apply respects_ret].
  eapply (keeps_build _ (fun _ => True)).
  { intros s Hm. eexists _, _. split; [by eapply run_build_veb_pf|]. split; [done|].
    apply keeps_rss; [lia|done]. }
  intros acts _. respects.
Qed.

Lemma keeps_pf_down vid n : vnic_is vid NFD_VNIC_TYPE_PF n ->
  W (wire_q n) (nbi_down_pipeline pcie vid) ->
  (forall s, host_list pcie vid (pcie_down_pipeline pcie vid s)) ->
  respects (keeps_slots holds) (cfg_act_pf_down pcie vid).
Proof.
  intros Hv Hlw Hlh. pose proof Hv as [Hvid Ht]. pose proof (pf_port vid n Hv) as Hn.
  unfold cfg_act_pf_down. rewrite Ht. destruct (bool_decide _); [apply respects_ret|].
  eapply (keeps_build _ (fun a => exists l, a = repr l /\ W (wire_q n) l)).
  { intros s Hm. eexists _, _. split; [apply run_build_nbi_down|]. split; [|by intros _].
    eexists. by split. }
  intros a (l & -> & Hl). apply respects_bind; [apply keeps_write_wire; [lia|done]|intros _].
  apply keeps_host_down; [done..|]. respects.
Qed.
End island.
End operations.

#[export] Instance slot_ok_preorder `{App} {B : build} : PreOrder (keeps_slots slot_ok).
Proof. apply keeps_slots_preorder. Qed.
#[export] Instance slot_ok_board {B : build} `{App} : BoardSide (keeps_slots slot_ok).
Proof. apply (keeps_slots_board _ list_ok), slot_ok_property. Qed.
#[export] Instance slot_ok_switch {B : build} `{App} : SwitchFree (keeps_slots slot_ok).
Proof. apply (keeps_slots_switch _ list_ok), slot_ok_property. Qed.

(** ** Good lists are kept *)

Section good.
Context {B : build} `{NetCfg, Vids, VfCfg, App, Devices, Xpb, BpfCfg}.
Context `{!NetCfgOk, !VidsOk B, !VfCfgOk}.
Context (pcie : Z) (Hpcie : 0 <= pcie < NFD_MAX_ISL).

Lemma keeps_lists_ok s s' : keeps_slots slot_ok s s' -> wf_emem s -> lists_ok s -> lists_ok s'.
Proof. intros Hk Hm Hl q Hq. apply (Hk Hm); auto. Qed.

Lemma good_host_list vid l : 0 <= vid < NVNICS B NFD_MAX_CTRL ->
  (forall q, 0 <= q < 256 -> list_ok q l) -> host_list list_ok pcie vid l.
Proof.
  intros Hv Hl. split; [apply (Hl 0); lia|]. intros i Hi. by apply Hl, host_q_range.
Qed.

Lemma good_vf_up vid n pf_control vf_control update : vnic_is vid NFD_VNIC_TYPE_VF n ->
  respects (keeps_slots slot_ok) (cfg_act_vf_up pcie vid pf_control vf_control update).
Proof.
  intros Hv. eapply keeps_vf_up; [apply slot_ok_property|done..|]. intros x s.
  apply good_host_list; [apply Hv|]. intros q Hq. by apply vf_list_ok.
Qed.

Lemma good_host_down vid s : 0 <= vid < NVNICS B NFD_MAX_CTRL ->
  host_list list_ok pcie vid (pcie_down_pipeline pcie vid s).
Proof. intros Hv. apply good_host_list; [done|]. intros q Hq. by apply down_list_ok. Qed.

Lemma good_vf_down vid : 0 <= vid < NVNICS B NFD_MAX_CTRL ->
  respects (keeps_slots slot_ok) (cfg_act_vf_down pcie vid).
Proof. intros Hv. eapply keeps_vf_down; [apply slot_ok_property|done..|]. intros s. by apply good_host_down. Qed.

Lemma good_pf_up vid n veb control update : vnic_is vid NFD_VNIC_TYPE_PF n ->
  respects (keeps_slots slot_ok) (cfg_act_pf_up pcie vid (b2z veb) control update).
Proof.
  intros Hv. pose proof (pf_port vid n Hv). eapply keeps_pf_up; [apply slot_ok_property|done..| |].
  - intros s Hm. apply nbi_list_ok; [lia|done].
  - intros x s. apply good_host_list; [apply Hv|]. intros q Hq. by apply pf_list_ok.
Qed.

Lemma good_pf_down vid n : vnic_is vid NFD_VNIC_TYPE_PF n ->
  respects (keeps_slots slot_ok) (cfg_act_pf_down pcie vid).
Proof.
  intros Hv. pose proof (pf_port vid n Hv). eapply keeps_pf_down; [apply slot_ok_property|done..| |].
  - apply nbi_down_list_ok. lia.
  - intros s. apply good_host_down, Hv.
Qed.
End good.

(** ** The slots of other vNICs are left alone *)

Section others.
Context {B : build} `{NetCfg, Vids, VfCfg, App, Devices, Xpb, BpfCfg}.
Context `{!NetCfgOk, !VidsOk B, !VfCfgOk}.
Context (pcie : Z) (Hpcie : 0 <= pcie < NFD_MAX_ISL).

(** The slots of the queues of a vNIC, and with the wire port of a PF *)
Definition vnic_slots (vid q : Z) : Prop := exists i, 0 <= i < NFD_VID_MAXQS vid /\ q = host_q pcie vid i.
Definition pf_slots (vid n q : Z) : Prop := q = wire_q n \/ vnic_slots vid q.

Lemma others_same {A} Q (m : C A) s a s' :
  respects (keeps_slots (as_before Q s)) m -> wf_emem s -> m s = Some (a, s') ->
  forall q, 0 <= q < 512 -> ~ Q q -> same_slot q s s'.
Proof.
  intros Hk Hm Hrun q Hq Hn. destruct (Hk _ _ _ Hrun Hm) as [_ Hs].
  destruct (Hs q Hq) as [Hq'|Hsame]; [by right|by destruct Hn|exact Hsame].
Qed.

Lemma other_host_list (Q : Z -> Prop) vid l : (forall q, vnic_slots vid q -> Q q) ->
  (1 <= size l <= 16)%nat -> host_list (fun q l => Q q /\ (1 <= size l <= 16)%nat) pcie vid l.
Proof. intros HQ Hsz. split; [done|]. intros i Hi. split; [|done]. apply HQ. by exists i. Qed.

Lemma others_vf_up vid n pf_control vf_control update s0 : vnic_is vid NFD_VNIC_TYPE_VF n ->
  respects (keeps_slots (as_before (vnic_slots vid) s0)) (cfg_act_vf_up pcie vid pf_control vf_control update).
Proof.
  intros Hv. eapply keeps_vf_up; [apply as_before_property|done..|]. intros x s.
  apply other_host_list; [done|apply vf_size].
Qed.

Lemma others_vf_down vid s0 : 0 <= vid < NVNICS B NFD_MAX_CTRL ->
  respects (keeps_slots (as_before (vnic_slots vid) s0)) (cfg_act_vf_down pcie vid).
Proof.
  intros Hv. eapply keeps_vf_down; [apply as_before_property|done..|]. intros s.
  apply other_host_list; [done|simpl; lia].
Qed.

Lemma others_pf_up vid n veb control update s0 : vnic_is vid NFD_VNIC_TYPE_PF n ->
  respects (keeps_slots (as_before (pf_slots vid n) s0)) (cfg_act_pf_up pcie vid (b2z veb) control update).
Proof.
  intros Hv. eapply keeps_pf_up; [apply as_before_property|done..| |].
  - intros s _. split; [by left|apply nbi_size].
  - intros x s. apply other_host_list; [by right|apply pf_size].
Qed.

Lemma others_pf_down vid n s0 : vnic_is vid NFD_VNIC_TYPE_PF n ->
  respects (keeps_slots (as_before (pf_slots vid n) s0)) (cfg_act_pf_down pcie vid).
Proof.
  intros Hv. eapply keeps_pf_down; [apply as_before_property|done..| |].
  - split; [by left|simpl; lia].
  - intros s. apply other_host_list; [by right|simpl; lia].
Qed.

(** Two vNICs share no slot. *)
Lemma vnic_slots_apart vid vid' q : 0 <= vid < NVNICS B NFD_MAX_CTRL ->
  0 <= vid' < NVNICS B NFD_MAX_CTRL -> vnic_slots vid q -> vnic_slots vid' q -> vid = vid'.
Proof. intros Hv Hv' (i & Hi & ->) (i' & Hi' & E). by apply host_q_inj in E as (_ & -> & _). Qed.

Lemma vnic_slots_range vid q : 0 <= vid < NVNICS B NFD_MAX_CTRL -> vnic_slots vid q -> 0 <= q < 256.
Proof. intros Hv (i & Hi & ->). by apply host_q_range. Qed.
End others.

(** ** Witness: the memory of the worker islands after the load *)

Section loaded.
Context {B : build} `{NetCfg, Vids, VfCfg, App}.

(** The table, in each island *)
Definition loaded_in (l : list Z) : gmap (Z * Z) Z :=
  foldr (fun isl m => kmap (fun a => (isl, NIC_CFG_INSTR_TBL_ADDR + a)) (instr_tbl_init B) ∪ m) ∅ l.
Definition loaded_cls : gmap (Z * Z) Z := loaded_in islands.

Lemma lookup_loaded isl a : isl ∈ islands ->
  loaded_cls !! (isl, NIC_CFG_INSTR_TBL_ADDR + a) = instr_tbl_init B !! a.
Proof.
  intros Hisl. unfold loaded_cls.
  assert (Hinj : forall i : Z, Inj (=) (=) (fun a : Z => (i, NIC_CFG_INSTR_TBL_ADDR + a)))
    by (intros i x y [= E]; unfold NIC_CFG_INSTR_TBL_ADDR in E; lia).
  assert (Hgen : forall l, loaded_in l !! (isl, NIC_CFG_INSTR_TBL_ADDR + a) =
    if decide (isl ∈ l) then instr_tbl_init B !! a else None);
    [|by rewrite Hgen, decide_True].
  induction l as [|x l IH]; [by rewrite decide_False by apply not_elem_of_nil|].
  unfold loaded_in. cbn [foldr]. fold (loaded_in l). set (tbl := instr_tbl_init B) in *.
  rewrite lookup_union, IH. destruct (decide (isl = x)) as [->|Hne].
  - rewrite (lookup_kmap (M1 := gmap Z) (M2 := gmap (Z * Z)) (fun a => (x, NIC_CFG_INSTR_TBL_ADDR + a)) tbl a). rewrite (decide_True (P := x ∈ x :: l)) by apply list_elem_of_here.
    destruct (tbl !! a) eqn:E; by destruct (decide (x ∈ l)).
  - replace (kmap _ tbl !! _) with (@None Z).
    + rewrite (left_id_L None _). destruct (decide (isl ∈ l)) as [Hin|Hnin].
      * by rewrite decide_True by by apply list_elem_of_further.
      * by rewrite decide_False by by intros [|]%elem_of_cons.
    + symmetry. apply eq_None_not_Some. intros [w (b & E & _)%lookup_kmap_Some]; [|apply Hinj].
      by injection E as ->.
Qed.

Lemma loaded_ok s : cls s = loaded_cls -> lists_loaded s.
Proof. intros Hc isl a Hisl _. unfold rd. by rewrite Hc, lookup_loaded. Qed.
End loaded.

Section witnesses.
Import Demo.

Lemma loaded_lists_drop_witness :
  exists s, rd (cls s) (32, slot_addr 256) = init_word INSTR_RX_WIRE /\ lists_drop s.
Proof.
  exists (nic0 <| cls := loaded_cls |>). split.
  - st. unfold rd. rewrite (lookup_loaded 32 (slot_addr 256)); [by vm_compute|].
    apply list_elem_of_In. by left.
  - apply loaded_lists_drop, loaded_ok. by st.
Defined.
End witnesses.
