(* ===== verification/MacLkup.v ===== *)
(** * The MAC lookup table: apps/nic/app_mac_lkup.c and app_mac_lkup.h

    A table of 64-byte buckets of six entries each, searched by the CAMR
    engine of the internal memory, and a lock bit per bucket.  The model has
    the bucket's data lines with the fields the code uses; [mac_lkup_add] and
    [mac_lkup_del] are the labelled [try0]..[try5] chains of the C functions,
    one definition per label.

    The functions are programs ([prog]) of single memory transactions, since
    threads of several engines call them at the same time.  [run] is what one
    call does when nobody interferes: the specification there sees a bucket as
    the list of its six (key, result) slots.  [lk_step] interleaves the
    transactions of the calls of any number of threads: mutual exclusion is
    proved about it. *)

From S2P Require Import Prelude.

Definition MAC_LKUP_IN_USE_bit : Z := 30.
Definition MAC_LKUP_USED : Z := Z.shiftl 1 MAC_LKUP_IN_USE_bit.
Definition MAC_LKUP_NUM_BUCKETS : Z := Z.shiftl 1 10.

(** [struct mem_lkup_cam_r_48_64B_table_bucket_dataline1_3]: two 48-bit keys
    in three 16-bit parts and the 32-bit result of the first. *)
Record dataline1_3 := mk_dataline1_3 {
  lookup_key_lower0 : Z; lookup_key_middle0 : Z; lookup_key_upper0 : Z;
  lookup_key_lower1 : Z; lookup_key_middle1 : Z; lookup_key_upper1 : Z;
  result0 : Z
}.

(** [struct mem_lkup_cam_r_48_64B_table_bucket_dataline4]: the results of the
    second keys of lines 1, 2 and 3 (the one of line 2 in two halves). *)
Record dataline4 := mk_dataline4 {
  result1 : Z; result3_lower : Z; result3_upper : Z; result5 : Z
}.

Record bucket := mk_bucket {
  dataline1 : dataline1_3; dataline2 : dataline1_3; dataline3 : dataline1_3;
  dataline_4 : dataline4
}.

Record lkup := mk_lkup {
  mac_lkup_tbl : list bucket;
  mac_lkup_tbl_lock : list Z
}.

Abbreviation L := (M lkup).

(** ** Programs of memory transactions

    Between two transactions of a thread other threads run.  [Undef] has no
    result. *)
Inductive prog (A : Type) : Type :=
  | Ret (a : A)
  | Undef
  | TestSet (lock_idx mask : Z) (k : Z -> prog A)
  | BitClr (lock_idx mask : Z) (k : unit -> prog A)
  | ReadBucket (table_idx : Z) (k : bucket -> prog A)
  | UpdBucket (table_idx : Z) (f : bucket -> bucket) (k : unit -> prog A).
Arguments Ret {A} a.
Arguments Undef {A}.
Arguments TestSet {A} lock_idx mask k.
Arguments BitClr {A} lock_idx mask k.
Arguments ReadBucket {A} table_idx k.
Arguments UpdBucket {A} table_idx f k.

#[export] Instance prog_ret : MRet prog := fun A a => Ret a.
#[export] Instance prog_bind : MBind prog := fun A B g =>
  fix bind p :=
    match p with
    | Ret a => g a
    | Undef => Undef
    | TestSet w m k => TestSet w m (fun x => bind (k x))
    | BitClr w m k => BitClr w m (fun x => bind (k x))
    | ReadBucket i k => ReadBucket i (fun x => bind (k x))
    | UpdBucket i f k => UpdBucket i f (fun x => bind (k x))
    end.

(** What the memory does for each transaction. *)

Definition test_set_word (lock_idx mask : Z) : L Z :=
  old ← (l ← get mac_lkup_tbl_lock; of_option (l !! Z.to_nat lock_idx));
  _ ← modify (fun s => s <| mac_lkup_tbl_lock ::= <[Z.to_nat lock_idx := Z.lor old mask]> |>);
  mret old.

Definition bitclr_word (lock_idx mask : Z) : L unit :=
  old ← (l ← get mac_lkup_tbl_lock; of_option (l !! Z.to_nat lock_idx));
  modify (fun s => s <| mac_lkup_tbl_lock ::= <[Z.to_nat lock_idx := Z.ldiff old mask]> |>).

Definition read_lines (table_idx : Z) : L bucket :=
  l ← get mac_lkup_tbl; of_option (l !! Z.to_nat table_idx).

Definition write_lines (table_idx : Z) (f : bucket -> bucket) : L unit :=
  b ← read_lines table_idx;
  modify (fun s => s <| mac_lkup_tbl ::= <[Z.to_nat table_idx := f b]> |>).

(** The next transaction of a program and the program that is left; none when
    it has ended. *)
Definition step_prog {A} (p : prog A) : L (prog A) :=
  match p with
  | Ret _ | Undef => undefined
  | TestSet w m k => x ← test_set_word w m; mret (k x)
  | BitClr w m k => x ← bitclr_word w m; mret (k x)
  | ReadBucket i k => x ← read_lines i; mret (k x)
  | UpdBucket i f k => x ← write_lines i f; mret (k x)
  end.

(** All transactions of a program, one after the other. *)
Fixpoint run {A} (p : prog A) : L A :=
  match p with
  | Ret a => mret a
  | Undef => undefined
  | TestSet w m k => x ← test_set_word w m; run (k x)
  | BitClr w m k => x ← bitclr_word w m; run (k x)
  | ReadBucket i k => x ← read_lines i; run (k x)
  | UpdBucket i f k => x ← write_lines i f; run (k x)
  end.

(** ** The lock *)

(** [mem_test_set]: set the bits of [mask] in the lock word, return the old
    word, in one transaction. *)
Definition mem_test_set (lock_idx mask : Z) : prog Z := TestSet lock_idx mask Ret.
Definition mem_bitclr (lock_idx mask : Z) : prog unit := BitClr lock_idx mask Ret.

Definition test_msk (table_idx : Z) : Z := u32 (Z.shiftl 1 (Z.land table_idx 31)).

(** The [do .. while (1)] loop, with a bound on its iterations: no result when
    the bucket stays locked.  The sleep between two tries lets other threads
    run, as they may between any two transactions. *)
Fixpoint mac_lkup_tbl_bucket_wait (fuel : nat) (table_idx : Z) : prog unit :=
  match fuel with
  | O => Undef
  | S fuel =>
      test ← mem_test_set (Z.shiftr table_idx 5) (test_msk table_idx);
      if Z.land test (test_msk table_idx) =? 0 then mret tt
      else mac_lkup_tbl_bucket_wait fuel table_idx
  end.

Definition mac_lkup_tbl_bucket_release (table_idx : Z) : prog unit :=
  mem_bitclr (Z.shiftr table_idx 5) (test_msk table_idx).

(** ** Atomic reads and writes of the data lines of a bucket *)

Definition rd_bucket (table_idx : Z) : prog bucket := ReadBucket table_idx Ret.
Definition upd_bucket (table_idx : Z) (f : bucket -> bucket) : prog unit :=
  UpdBucket table_idx f Ret.

(** ** Lookup keys *)

Record lkup_key := mk_lkup_key { key_lower : Z; key_middle : Z; key_upper : Z }.

Definition split_key (mac_lkup_key : Z) : lkup_key :=
  {| key_lower := Z.land mac_lkup_key 0xffff;
     key_middle := Z.land (Z.shiftr mac_lkup_key 16) 0xffff;
     key_upper := Z.land (Z.shiftr mac_lkup_key 32) 0xffff |}.

Definition mismatch0 (d : dataline1_3) (k : lkup_key) : bool :=
  negb (lookup_key_lower0 d =? key_lower k) ||
  negb (lookup_key_middle0 d =? key_middle k) ||
  negb (lookup_key_upper0 d =? key_upper k).

Definition mismatch1 (d : dataline1_3) (k : lkup_key) : bool :=
  negb (lookup_key_lower1 d =? key_lower k) ||
  negb (lookup_key_middle1 d =? key_middle k) ||
  negb (lookup_key_upper1 d =? key_upper k).

Definition set_key0 (k : lkup_key) (d : dataline1_3) : dataline1_3 :=
  d <| lookup_key_lower0 := key_lower k |>
    <| lookup_key_middle0 := key_middle k |>
    <| lookup_key_upper0 := key_upper k |>.

Definition set_key1 (k : lkup_key) (d : dataline1_3) : dataline1_3 :=
  d <| lookup_key_lower1 := key_lower k |>
    <| lookup_key_middle1 := key_middle k |>
    <| lookup_key_upper1 := key_upper k |>.

(** [result & 0x3fffffff | MAC_LKUP_USED] *)
Definition used_result (result : Z) : Z :=
  Z.lor (Z.land result 0x3fffffff) MAC_LKUP_USED.

(** ** mac_lkup_add *)

Section add.
Context (table_idx : Z) (k : lkup_key) (result : Z).

(** Release the bucket and return. *)
Definition leave (rc : Z) : prog Z :=
  _ ← mac_lkup_tbl_bucket_release table_idx; mret rc.

Definition add_try5 (d : dataline1_3) (d4 : dataline4) : prog Z :=
  if has (result5 d4) MAC_LKUP_USED && mismatch1 d k then leave 1
  else
    _ ← upd_bucket table_idx (fun b => b <| dataline3 := set_key1 k d |>);
    _ ← upd_bucket table_idx (fun b =>
          b <| dataline_4 := d4 <| result5 := used_result result |> |>);
    leave 0.

Definition add_try4 (d4 : dataline4) : prog Z :=
  b ← rd_bucket table_idx;
  let d := dataline3 b in
  if has (result0 d) MAC_LKUP_USED && mismatch0 d k then add_try5 d d4
  else
    _ ← upd_bucket table_idx (fun b =>
          b <| dataline3 := set_key0 k d <| result0 := used_result result |> |>);
    leave 0.

Definition add_try3 (d : dataline1_3) (d4 : dataline4) : prog Z :=
  if has (result3_upper d4) (Z.shiftr MAC_LKUP_USED 16) && mismatch1 d k
  then add_try4 d4
  else
    _ ← upd_bucket table_idx (fun b => b <| dataline2 := set_key1 k d |>);
    _ ← upd_bucket table_idx (fun b => b <| dataline_4 :=
          d4 <| result3_lower := Z.land result 0xffff |>
             <| result3_upper := Z.lor (Z.land (Z.shiftr result 16) 0x7fff)
                                       (Z.shiftr MAC_LKUP_USED 16) |> |>);
    leave 0.

Definition add_try2 (d4 : dataline4) : prog Z :=
  b ← rd_bucket table_idx;
  let d := dataline2 b in
  if has (result0 d) MAC_LKUP_USED && mismatch0 d k then add_try3 d d4
  else
    _ ← upd_bucket table_idx (fun b =>
          b <| dataline2 := set_key0 k d <| result0 := used_result result |> |>);
    leave 0.

Definition add_try1 (d : dataline1_3) : prog Z :=
  b ← rd_bucket table_idx;
  let d4 := dataline_4 b in
  if has (result1 d4) MAC_LKUP_USED && mismatch1 d k then add_try2 d4
  else
    _ ← upd_bucket table_idx (fun b => b <| dataline1 := set_key1 k d |>);
    _ ← upd_bucket table_idx (fun b =>
          b <| dataline_4 := d4 <| result1 := used_result result |> |>);
    leave 0.

Definition add_try0 : prog Z :=
  b ← rd_bucket table_idx;
  let d := dataline1 b in
  if has (result0 d) MAC_LKUP_USED && mismatch0 d k then add_try1 d
  else
    _ ← upd_bucket table_idx (fun b =>
          b <| dataline1 := set_key0 k d <| result0 := used_result result |> |>);
    leave 0.
End add.

(** ** mac_lkup_del *)

Section del.
Context (table_idx : Z) (k : lkup_key).

Definition del_try5 (d : dataline1_3) (d4 : dataline4) : prog Z :=
  if has (result5 d4) MAC_LKUP_USED && negb (mismatch1 d k) then
    _ ← upd_bucket table_idx (fun b => b <| dataline_4 := d4 <| result5 := 0 |> |>);
    leave table_idx 0
  else leave table_idx 1.

Definition del_try4 (d4 : dataline4) : prog Z :=
  b ← rd_bucket table_idx;
  let d := dataline3 b in
  if has (result0 d) MAC_LKUP_USED && negb (mismatch0 d k) then
    _ ← upd_bucket table_idx (fun b => b <| dataline3 := d <| result0 := 0 |> |>);
    leave table_idx 0
  else del_try5 d d4.

Definition del_try3 (d : dataline1_3) (d4 : dataline4) : prog Z :=
  if has (result3_upper d4) (Z.shiftr MAC_LKUP_USED 16) && negb (mismatch1 d k) then
    _ ← upd_bucket table_idx (fun b => b <| dataline_4 :=
          d4 <| result3_lower := 0 |> <| result3_upper := 0 |> |>);
    leave table_idx 0
  else del_try4 d4.

Definition del_try2 (d4 : dataline4) : prog Z :=
  b ← rd_bucket table_idx;
  let d := dataline2 b in
  if has (result0 d) MAC_LKUP_USED && negb (mismatch0 d k) then
    _ ← upd_bucket table_idx (fun b => b <| dataline2 := d <| result0 := 0 |> |>);
    leave table_idx 0
  else del_try3 d d4.

Definition del_try1 (d : dataline1_3) : prog Z :=
  b ← rd_bucket table_idx;
  let d4 := dataline_4 b in
  if has (result1 d4) MAC_LKUP_USED && negb (mismatch1 d k) then
    _ ← upd_bucket table_idx (fun b => b <| dataline_4 := d4 <| result1 := 0 |> |>);
    leave table_idx 0
  else del_try2 d4.

Definition del_try0 : prog Z :=
  b ← rd_bucket table_idx;
  let d := dataline1 b in
  if has (result0 d) MAC_LKUP_USED && negb (mismatch0 d k) then
    _ ← upd_bucket table_idx (fun b => b <| dataline1 := d <| result0 := 0 |> |>);
    leave table_idx 0
  else del_try1 d.
End del.

(** ** The two public functions

    [cam_num_entries] and [cam_key_offset] stand for the macros
    MEM_LKUP_CAM_64B_NUM_ENTRIES(sizeof(mac_lkup_tbl)) and
    MEM_LKUP_CAM_64B_KEY_OFFSET(0, sizeof(mac_lkup_tbl)) of nfp/mem_lkup.h:
    how many 64-byte entries the table has, and how many low key bits select
    one of them. *)
Class CamLayout := {
  cam_num_entries : Z;
  cam_key_offset : Z
}.

Class CamLayoutOk `{CamLayout} : Prop := {
  cam_entries_pow2 : cam_num_entries = 2 ^ cam_key_offset;
  cam_entries_tbl : 0 <= cam_key_offset <= 10
}.

Section mac_lkup.
Context `{CamLayout}.

Definition table_idx_of (mac : Z) : Z := Z.land (u32 mac) (cam_num_entries - 1).
Definition key_of (mac : Z) : lkup_key := split_key (Z.shiftr mac cam_key_offset).

Definition mac_lkup_add (fuel : nat) (mac result : Z) : prog Z :=
  _ ← mac_lkup_tbl_bucket_wait fuel (table_idx_of mac);
  add_try0 (table_idx_of mac) (key_of mac) result.

Definition mac_lkup_del (fuel : nat) (mac : Z) : prog Z :=
  _ ← mac_lkup_tbl_bucket_wait fuel (table_idx_of mac);
  del_try0 (table_idx_of mac) (key_of mac).
End mac_lkup.

(** * Specification: a bucket as six slots *)

#[export] Instance lkup_key_eq_dec : EqDecision lkup_key.
Proof. solve_decision. Defined.

Definition slot : Type := lkup_key * Z.

Definition key0 (d : dataline1_3) : lkup_key :=
  mk_lkup_key (lookup_key_lower0 d) (lookup_key_middle0 d) (lookup_key_upper0 d).
Definition key1 (d : dataline1_3) : lkup_key :=
  mk_lkup_key (lookup_key_lower1 d) (lookup_key_middle1 d) (lookup_key_upper1 d).

Definition result3 (d : dataline4) : Z :=
  Z.lor (result3_lower d) (Z.shiftl (result3_upper d) 16).

Definition slots (b : bucket) : list slot :=
  let d4 := dataline_4 b in
  [(key0 (dataline1 b), result0 (dataline1 b)); (key1 (dataline1 b), result1 d4);
   (key0 (dataline2 b), result0 (dataline2 b)); (key1 (dataline2 b), result3 d4);
   (key0 (dataline3 b), result0 (dataline3 b)); (key1 (dataline3 b), result5 d4)].

Definition slot_used (s : slot) : bool := has (s.2) MAC_LKUP_USED.

(** The slot answers a lookup of [k]. *)
Definition slot_hit (k : lkup_key) (s : slot) : bool :=
  slot_used s && bool_decide (s.1 = k).

(** Store [k] in the first slot that is free or already holds [k]. *)
Fixpoint slots_add (k : lkup_key) (r : Z) (l : list slot) : option (list slot) :=
  match l with
  | [] => None
  | s :: l' =>
      if slot_used s && bool_decide (s.1 <> k) then cons s <$> slots_add k r l'
      else Some ((k, r) :: l')
  end.

(** Mark the first slot that holds [k] as free. *)
Fixpoint slots_del (k : lkup_key) (l : list slot) : option (list slot) :=
  match l with
  | [] => None
  | s :: l' => if slot_hit k s then Some ((s.1, 0) :: l') else cons s <$> slots_del k l'
  end.

(** The result of the first slot that holds [k]. *)
Definition slots_find (k : lkup_key) (l : list slot) : option Z :=
  snd <$> List.find (slot_hit k) l.

(** The split result of slot 3 has a 16-bit lower half. *)
Definition wf_bucket (b : bucket) : Prop := fits 16 (result3_lower (dataline_4 b)).

(** ** The code in terms of slots *)

Lemma mismatch0_key d k : mismatch0 d k = bool_decide (key0 d <> k).
Proof.
  destruct k as [kl km ku]. unfold mismatch0, key0; simpl.
  destruct (Z.eqb_spec (lookup_key_lower0 d) kl),
    (Z.eqb_spec (lookup_key_middle0 d) km),
    (Z.eqb_spec (lookup_key_upper0 d) ku); simpl; case_bool_decide; congruence.
Qed.

Lemma mismatch1_key d k : mismatch1 d k = bool_decide (key1 d <> k).
Proof.
  destruct k as [kl km ku]. unfold mismatch1, key1; simpl.
  destruct (Z.eqb_spec (lookup_key_lower1 d) kl),
    (Z.eqb_spec (lookup_key_middle1 d) km),
    (Z.eqb_spec (lookup_key_upper1 d) ku); simpl; case_bool_decide; congruence.
Qed.

Lemma negb_bool_decide_ne (k k' : lkup_key) :
  negb (bool_decide (k <> k')) = bool_decide (k = k').
Proof. repeat case_bool_decide; simpl; congruence. Qed.

Lemma has_bit a n : 0 <= n -> has a (Z.shiftl 1 n) = Z.testbit a n.
Proof.
  intros Hn. unfold has, truthy. rewrite Z.shiftl_1_l.
  destruct (Z.testbit a n) eqn:E.
  - destruct (Z.eqb_spec (Z.land a (2 ^ n)) 0) as [H0|]; [|done].
    assert (Z.testbit (Z.land a (2 ^ n)) n = true) as Hb
      by (by rewrite Z.land_spec, E, Z.pow2_bits_true by lia).
    by rewrite H0, Z.testbit_0_l in Hb.
  - replace (Z.land a (2 ^ n)) with 0; [done|].
    apply Z.bits_inj'; intros i Hi. rewrite Z.testbit_0_l, Z.land_spec.
    destruct (Z.eq_dec i n) as [->|]; [by rewrite E|].
    by rewrite Z.pow2_bits_false, andb_false_r by congruence.
Qed.

Lemma has_used a : has a MAC_LKUP_USED = Z.testbit a 30.
Proof. exact (has_bit a 30 ltac:(lia)). Qed.

(** The in-use bit of slot 3 is bit 14 of the upper half of its result. *)
Lemma result3_used d :
  fits 16 (result3_lower d) ->
  has (result3_upper d) (Z.shiftr MAC_LKUP_USED 16) = has (result3 d) MAC_LKUP_USED.
Proof.
  intros Hl. rewrite has_used. unfold result3.
  change (Z.shiftr MAC_LKUP_USED 16) with (Z.shiftl 1 14). rewrite has_bit by lia.
  by rewrite Z.lor_spec, (testbit_fits 16 (result3_lower d)), testbit_shiftl by (done || lia).
Qed.

(** Writing the two halves of slot 3 stores the same word as the other slots
    get: the extra bit 30 of the 0x7fff mask is the in-use bit. *)
Lemma result3_write r :
  Z.lor (Z.land r 0xffff)
    (Z.shiftl (Z.lor (Z.land (Z.shiftr r 16) 0x7fff) (Z.shiftr MAC_LKUP_USED 16)) 16)
  = used_result r.
Proof.
  unfold used_result.
  change (Z.shiftr MAC_LKUP_USED 16) with (2 ^ 14).
  change MAC_LKUP_USED with (2 ^ 30).
  change 0xffff with (Z.ones 16). change 0x7fff with (Z.ones 15).
  change 0x3fffffff with (Z.ones 30).
  apply Z.bits_inj'. intros i Hi.
  destruct (Z.eq_dec i 30) as [->|Hne].
  - autorewrite with zbits. simpl. by rewrite !orb_true_r.
  - autorewrite with zbits. rewrite (Z.pow2_bits_false 30) by congruence.
    rewrite (Z.pow2_bits_false 14) by lia. zbits_case; zbits_finish.
Qed.

(** ** Running the chains on a bucket *)

Definition with_bucket (i : Z) (b : bucket) (s : lkup) : lkup :=
  s <| mac_lkup_tbl ::= <[Z.to_nat i := b]> |>.

(** The bucket's lock bit is clear / set in the lock words of [s]. *)
Definition lock_word (s : lkup) (i : Z) : option Z :=
  mac_lkup_tbl_lock s !! Z.to_nat (Z.shiftr i 5).

Section run.
Context (i : Z) (b : bucket).

Lemma run_rd_bind {A} (f : bucket -> prog A) s : mac_lkup_tbl s !! Z.to_nat i = Some b ->
  run (x ← rd_bucket i; f x) s = run (f b) s.
Proof.
  intros Hb. simpl. unfold read_lines, mbind at 1 2, M_bind, get. by rewrite Hb.
Qed.

Lemma run_upd_bind {A} f (k : unit -> prog A) s : mac_lkup_tbl s !! Z.to_nat i = Some b ->
  run (x ← upd_bucket i f; k x) s = run (k tt) (with_bucket i (f b) s).
Proof.
  intros Hb. simpl. unfold write_lines, read_lines, mbind at 1 2 3, M_bind, get.
  by rewrite Hb.
Qed.
End run.

Lemma with_bucket_lookup i b b' s : mac_lkup_tbl s !! Z.to_nat i = Some b ->
  mac_lkup_tbl (with_bucket i b' s) !! Z.to_nat i = Some b'.
Proof. intros Hb. apply list_lookup_insert_eq. by eapply lookup_lt_Some. Qed.

Lemma with_bucket_twice i b b' s :
  with_bucket i b' (with_bucket i b s) = with_bucket i b' s.
Proof. unfold with_bucket; destruct s; st_unfold. by rewrite list_insert_insert_eq. Qed.

(** [chain_ok i m s w o b] : on the bucket [b] of index [i], the chain [m]
    computes [o] (a failed chain returns 1 and leaves the bucket alone), then
    releases the lock word [w]. *)
Definition unlock (i w : Z) (s : lkup) : lkup :=
  s <| mac_lkup_tbl_lock ::= <[Z.to_nat (Z.shiftr i 5) := Z.ldiff w (test_msk i)]> |>.

Definition chain_ok (i : Z) (m : prog Z) (s : lkup) (w : Z) (o : option (list slot)) : Prop :=
  match o with
  | Some l => exists b', slots b' = l /\ wf_bucket b' /\
      run m s = Some (0, unlock i w (with_bucket i b' s))
  | None => run m s = Some (1, unlock i w s)
  end.

Lemma run_leave i rc w s :
  lock_word s i = Some w -> run (leave i rc) s = Some (rc, unlock i w s).
Proof.
  intros Hw. unfold lock_word in Hw. simpl.
  unfold bitclr_word, mbind, M_bind, get, modify. by rewrite Hw.
Qed.

Lemma run_upd_leave i b f w s :
  mac_lkup_tbl s !! Z.to_nat i = Some b -> lock_word s i = Some w ->
  run (_ ← upd_bucket i f; leave i 0) s = Some (0, unlock i w (with_bucket i (f b) s)).
Proof. intros Hb Hw. rewrite (run_upd_bind i b) by done. by apply run_leave. Qed.

Lemma run_upd2_leave i b f g w s :
  mac_lkup_tbl s !! Z.to_nat i = Some b -> lock_word s i = Some w ->
  run (_ ← upd_bucket i f; _ ← upd_bucket i g; leave i 0) s =
  Some (0, unlock i w (with_bucket i (g (f b)) s)).
Proof.
  intros Hb Hw. rewrite (run_upd_bind i b) by done.
  rewrite (run_upd_bind i (f b)) by (by eapply with_bucket_lookup).
  rewrite with_bucket_twice. by apply run_leave.
Qed.

Lemma wait_unlocked {A} fuel i w (m : prog A) s :
  lock_word s i = Some w -> Z.land w (test_msk i) = 0 ->
  run (_ ← mac_lkup_tbl_bucket_wait (S fuel) i; m) s =
  run m (s <| mac_lkup_tbl_lock ::= <[Z.to_nat (Z.shiftr i 5) := Z.lor w (test_msk i)]> |>).
Proof.
  intros Hw H0. unfold lock_word in Hw. simpl.
  unfold test_set_word, mbind at 1 2 3 4, M_bind, get, modify. rewrite Hw. simpl. by rewrite H0.
Qed.

#[local] Arguments run {A} p : simpl never.

(** Split on the test of the current label, on both sides at once. *)
Ltac chain_case :=
  match goal with
  | |- context [if ?c then _ else _] => destruct c; simpl
  end.

Ltac chain_step Hb := rewrite !(run_rd_bind _ _ _ _ Hb); cbv zeta beta.

(** Close the branch of a chain that writes the bucket. *)
Ltac chain_write Hb Hw :=
  eexists; split; [|split;
    [|first [eapply run_upd2_leave; [exact Hb|exact Hw]
            |eapply run_upd_leave; [exact Hb|exact Hw]]]].

Lemma add_chain i k r b w s :
  mac_lkup_tbl s !! Z.to_nat i = Some b -> lock_word s i = Some w -> wf_bucket b ->
  chain_ok i (add_try0 i k r) s w (slots_add k (used_result r) (slots b)).
Proof.
  intros Hb Hw Hwf. unfold chain_ok, slots; simpl slots_add; unfold slot_used; simpl.
  rewrite <- !mismatch0_key, <- !mismatch1_key, <- result3_used by done.
  unfold add_try0. chain_step Hb. chain_case.
  2: { chain_write Hb Hw; [by destruct k, b as [[] [] [] []]|done]. }
  unfold add_try1. chain_step Hb. chain_case.
  2: { chain_write Hb Hw; [by destruct k, b as [[] [] [] []]|done]. }
  unfold add_try2. chain_step Hb. chain_case.
  2: { chain_write Hb Hw; [by destruct k, b as [[] [] [] []]|done]. }
  unfold add_try3. chain_case.
  2: { chain_write Hb Hw; [|].
       - unfold slots, result3; st_unfold. rewrite result3_write. by destruct k.
       - apply (fits_land_r 16 r 0xffff); [lia|]. by unfold fits. }
  unfold add_try4. chain_step Hb. chain_case.
  2: { chain_write Hb Hw; [by destruct k, b as [[] [] [] []]|done]. }
  unfold add_try5. chain_case.
  2: { chain_write Hb Hw; [by destruct k, b as [[] [] [] []]|done]. }
  by apply run_leave.
Qed.

Lemma del_chain i k b w s :
  mac_lkup_tbl s !! Z.to_nat i = Some b -> lock_word s i = Some w -> wf_bucket b ->
  chain_ok i (del_try0 i k) s w (slots_del k (slots b)).
Proof.
  intros Hb Hw Hwf. unfold chain_ok, slots; simpl slots_del; unfold slot_hit, slot_used; simpl.
  rewrite <- !negb_bool_decide_ne, <- !mismatch0_key, <- !mismatch1_key, <- result3_used by done.
  unfold del_try0. chain_step Hb. chain_case.
  { chain_write Hb Hw; [by destruct k, b as [[] [] [] []]|done]. }
  unfold del_try1. chain_step Hb. chain_case.
  { chain_write Hb Hw; [by destruct k, b as [[] [] [] []]|done]. }
  unfold del_try2. chain_step Hb. chain_case.
  { chain_write Hb Hw; [by destruct k, b as [[] [] [] []]|done]. }
  unfold del_try3. chain_case.
  { chain_write Hb Hw; [by destruct k, b as [[] [] [] []]|]. by unfold wf_bucket, fits. }
  unfold del_try4. chain_step Hb. chain_case.
  { chain_write Hb Hw; [by destruct k, b as [[] [] [] []]|done]. }
  unfold del_try5. chain_case.
  { chain_write Hb Hw; [by destruct k, b as [[] [] [] []]|done]. }
  by apply run_leave.
Qed.

(** ** The slot specification *)

(** Invert the result of one step of a slot function. *)
Ltac slots_inv H :=
  first [ apply fmap_Some in H as (? & H & ->) | injection H as <- ].

Lemma slots_add_find k r l l' :
  has r MAC_LKUP_USED = true -> slots_add k r l = Some l' -> slots_find k l' = Some r.
Proof.
  intros Hr. revert l'. induction l as [|s l IH]; intros l' Hl; [done|].
  simpl in Hl. destruct (slot_used s && bool_decide (s.1 <> k)) eqn:E; slots_inv Hl.
  - apply andb_true_iff in E as [_ E%bool_decide_eq_true_1].
    unfold slots_find, slot_hit; simpl.
    rewrite (bool_decide_eq_false_2 (s.1 = k)), andb_false_r by done. by apply IH.
  - unfold slots_find, slot_hit, slot_used; simpl. by rewrite Hr, bool_decide_eq_true_2.
Qed.

Lemma slots_add_find_other k k' r l l' :
  k <> k' -> slots_add k r l = Some l' -> slots_find k' l' = slots_find k' l.
Proof.
  intros Hk. revert l'. induction l as [|s l IH]; intros l' Hl; [done|].
  simpl in Hl. destruct (slot_used s && bool_decide (s.1 <> k)) eqn:E; slots_inv Hl.
  - unfold slots_find; simpl. destruct (slot_hit k' s); [done|]. by apply IH.
  - unfold slots_find, slot_hit; simpl.
    rewrite (bool_decide_eq_false_2 (k = k')), andb_false_r by done.
    apply andb_false_iff in E as [->|E%bool_decide_eq_false_1]; [done|].
    rewrite (bool_decide_eq_false_2 (s.1 = k')), andb_false_r; [done|].
    intros Heq. apply E. congruence.
Qed.

Lemma slots_del_find_other k k' l l' :
  k <> k' -> slots_del k l = Some l' -> slots_find k' l' = slots_find k' l.
Proof.
  intros Hk. revert l'. induction l as [|s l IH]; intros l' Hl; [done|].
  simpl in Hl. destruct (slot_hit k s) eqn:E; slots_inv Hl.
  - unfold slots_find; simpl. unfold slot_hit at 1, slot_used; simpl.
    replace (slot_hit k' s) with false; [done|]. symmetry.
    unfold slot_hit in *. apply andb_true_iff in E as [_ E%bool_decide_eq_true_1].
    by rewrite (bool_decide_eq_false_2 (s.1 = k')), andb_false_r by congruence.
  - unfold slots_find; simpl. destruct (slot_hit k' s); [done|]. by apply IH.
Qed.

(** At most one slot holds [k]. *)
Definition unique (k : lkup_key) (l : list slot) : Prop :=
  (length (List.filter (slot_hit k) l) <= 1)%nat.

Lemma slots_find_none k l :
  slots_find k l = None <-> List.filter (slot_hit k) l = [].
Proof.
  unfold slots_find. induction l as [|s l IH]; simpl; [done|].
  by destruct (slot_hit k s).
Qed.

Lemma slots_del_find k l l' :
  unique k l -> slots_del k l = Some l' -> slots_find k l' = None.
Proof.
  unfold unique. revert l'. induction l as [|s l IH]; intros l' Hu Hl; [done|].
  simpl in Hl, Hu. destruct (slot_hit k s) eqn:E; slots_inv Hl.
  - apply slots_find_none. simpl.
    replace (slot_hit k (s.1, 0)) with false by done.
    destruct (List.filter (slot_hit k) l); [done|simpl in Hu; lia].
  - unfold slots_find; simpl. rewrite E. by apply IH.
Qed.

Lemma slots_del_none k l : slots_del k l = None <-> slots_find k l = None.
Proof.
  unfold slots_find. induction l as [|s l IH]; simpl; [done|].
  destruct (slot_hit k s); simpl; [done|]. rewrite fmap_None. apply IH.
Qed.

(** ** Locking *)

Definition wf_lkup (s : lkup) : Prop :=
  length (mac_lkup_tbl s) = Z.to_nat MAC_LKUP_NUM_BUCKETS /\
  length (mac_lkup_tbl_lock s) = Z.to_nat (MAC_LKUP_NUM_BUCKETS / 32) /\
  Forall wf_bucket (mac_lkup_tbl s).

(** Nobody holds the lock of bucket [i]. *)
Definition unlocked (i : Z) (s : lkup) : Prop :=
  exists w, lock_word s i = Some w /\ Z.land w (test_msk i) = 0.

Lemma wait_chain fuel i b w s (m : prog Z) o :
  lock_word s i = Some w -> Z.land w (test_msk i) = 0 ->
  mac_lkup_tbl s !! Z.to_nat i = Some b -> wf_bucket b ->
  (forall s' w', mac_lkup_tbl s' !! Z.to_nat i = Some b -> lock_word s' i = Some w' ->
     chain_ok i m s' w' o) ->
  match o with
  | Some l => exists b', slots b' = l /\ wf_bucket b' /\
      run (_ ← mac_lkup_tbl_bucket_wait (S fuel) i; m) s = Some (0, with_bucket i b' s)
  | None => run (_ ← mac_lkup_tbl_bucket_wait (S fuel) i; m) s = Some (1, s)
  end.
Proof.
  intros Hw H0 Hb Hwf Hm. set (s' := s <| mac_lkup_tbl_lock ::=
    <[Z.to_nat (Z.shiftr i 5) := Z.lor w (test_msk i)]> |>).
  assert (Hw' : lock_word s' i = Some (Z.lor w (test_msk i))).
  { unfold lock_word, s'; st. apply list_lookup_insert_eq. by eapply lookup_lt_Some. }
  assert (Hu : Z.ldiff (Z.lor w (test_msk i)) (test_msk i) = w).
  { apply Z.bits_inj'; intros j Hj. autorewrite with zbits.
    assert (Hj' := f_equal (fun z => Z.testbit z j) H0). simpl in Hj'.
    rewrite Z.land_spec, Z.testbit_0_l in Hj'.
    by destruct (Z.testbit w j), (Z.testbit (test_msk i) j). }
  assert (Hwait : forall Q, run (_ ← mac_lkup_tbl_bucket_wait (S fuel) i; m) s = Q <-> run m s' = Q).
  { intros Q. by rewrite (wait_unlocked fuel i w). }
  specialize (Hm s' _ Hb Hw'). unfold chain_ok, unlock in Hm. rewrite Hu in Hm.
  assert (Hback : forall b', (with_bucket i b' s') <| mac_lkup_tbl_lock ::=
      <[Z.to_nat (Z.shiftr i 5) := w]> |> = with_bucket i b' s).
  { intros b'. unfold lock_word, with_bucket, s' in *; destruct s; st_unfold.
    by rewrite list_insert_insert_eq, (list_insert_id mac_lkup_tbl_lock0 _ w). }
  destruct o as [l|].
  - destruct Hm as (b' & Hl & Hwf' & Hm). exists b'. split; [done|split; [done|]].
    apply Hwait. by rewrite Hm, Hback.
  - apply Hwait. rewrite Hm. unfold lock_word, s' in *; destruct s; st_unfold.
    by rewrite list_insert_insert_eq, (list_insert_id mac_lkup_tbl_lock0 _ w).
Qed.

(** ** The table as a map from MAC addresses to results *)

Section table.
Context `{CamLayoutOk}.

(** What the CAMR engine answers for [mac]. *)
Definition lkup_find (mac : Z) (s : lkup) : option Z :=
  mac_lkup_tbl s !! Z.to_nat (table_idx_of mac) ≫= fun b =>
  slots_find (key_of mac) (slots b).

(** The six entries of the bucket of [mac] are in use by other addresses. *)
Definition bucket_full (mac : Z) (s : lkup) : Prop :=
  exists b, mac_lkup_tbl s !! Z.to_nat (table_idx_of mac) = Some b /\
    Forall (fun sl => slot_used sl = true /\ sl.1 <> key_of mac) (slots b).

(** [mac] is in at most one entry of its bucket. *)
Definition in_once (mac : Z) (s : lkup) : Prop :=
  forall b, mac_lkup_tbl s !! Z.to_nat (table_idx_of mac) = Some b ->
    unique (key_of mac) (slots b).

Lemma table_idx_mod mac : table_idx_of mac = mac mod 2 ^ cam_key_offset.
Proof.
  unfold table_idx_of. rewrite cam_entries_pow2.
  rewrite <- (Z.ones_equiv cam_key_offset : Z.ones _ = 2 ^ cam_key_offset - 1).
  rewrite Z.land_ones by apply cam_entries_tbl.
  apply (wrap_wrap cam_key_offset 32). pose proof cam_entries_tbl. lia.
Qed.

Lemma table_idx_range mac : 0 <= table_idx_of mac < MAC_LKUP_NUM_BUCKETS.
Proof.
  rewrite table_idx_mod. pose proof cam_entries_tbl.
  pose proof (Z.pow_le_mono_r 2 cam_key_offset 10).
  pose proof (Z.mod_pos_bound mac (2 ^ cam_key_offset)).
  change MAC_LKUP_NUM_BUCKETS with (2 ^ 10). lia.
Qed.

Lemma split_key_inj a b :
  fits 48 a -> fits 48 b -> split_key a = split_key b -> a = b.
Proof.
  intros Ha Hb [= H1 H2 H3].
  apply Z.bits_inj'; intros i Hi.
  assert (forall k, 0 <= k -> k + 16 <= 48 ->
    Z.land (Z.shiftr a k) 0xffff = Z.land (Z.shiftr b k) 0xffff ->
    k <= i < k + 16 -> Z.testbit a i = Z.testbit b i) as Hpart.
  { intros k Hk _ Heq Hik. apply (f_equal (fun z => Z.testbit z (i - k))) in Heq.
    change 0xffff with (Z.ones 16) in Heq.
    rewrite !Z.land_spec, !Z.shiftr_spec, !Z.ones_spec_low, !andb_true_r in Heq by lia.
    by replace (i - k + k) with i in Heq by lia. }
  destruct (decide (i < 16)); [by apply (Hpart 0); rewrite ?Z.shiftr_0_r; lia || done|].
  destruct (decide (i < 32)); [by apply (Hpart 16); lia || done|].
  destruct (decide (i < 48)); [by apply (Hpart 32); lia || done|].
  by rewrite !(testbit_fits 48) by (done || lia).
Qed.

Lemma bucket_key_inj mac mac' :
  fits 48 mac -> fits 48 mac' ->
  table_idx_of mac = table_idx_of mac' -> key_of mac = key_of mac' -> mac = mac'.
Proof.
  pose proof cam_entries_tbl. rewrite !table_idx_mod. intros Hm Hm' Hidx Hkey.
  apply split_key_inj in Hkey;
    [|apply fits_shiftr; try lia; apply (fits_mono 48); auto; lia..].
  rewrite !Z.shiftr_div_pow2 in Hkey by lia.
  rewrite (Z.div_mod mac (2 ^ cam_key_offset)), (Z.div_mod mac' (2 ^ cam_key_offset))
    by lia. congruence.
Qed.

Lemma lkup_bucket mac s : wf_lkup s ->
  exists b, mac_lkup_tbl s !! Z.to_nat (table_idx_of mac) = Some b /\ wf_bucket b.
Proof.
  intros (Hlen & _ & Hwf). pose proof (table_idx_range mac) as Hr.
  destruct (lookup_lt_is_Some_2 (mac_lkup_tbl s) (Z.to_nat (table_idx_of mac)))
    as [b Hb]; [lia|].
  exists b. split; [done|]. by eapply Forall_lookup_1.
Qed.

Lemma with_bucket_wf i b s : wf_lkup s -> wf_bucket b -> wf_lkup (with_bucket i b s).
Proof.
  intros (? & ? & ?) ?. unfold wf_lkup, with_bucket; st.
  rewrite length_insert. split; [done|split; [done|]]. by apply Forall_insert.
Qed.

(** A change of the bucket of [mac] that leaves the other keys of the bucket
    alone leaves every other address alone. *)
Lemma with_bucket_find_other mac mac' b b' s :
  fits 48 mac -> fits 48 mac' -> mac <> mac' ->
  mac_lkup_tbl s !! Z.to_nat (table_idx_of mac) = Some b ->
  (key_of mac <> key_of mac' ->
   slots_find (key_of mac') (slots b') = slots_find (key_of mac') (slots b)) ->
  lkup_find mac' (with_bucket (table_idx_of mac) b' s) = lkup_find mac' s.
Proof.
  intros Hm Hm' Hne Hb Hslots. unfold lkup_find, with_bucket; st.
  destruct (decide (table_idx_of mac = table_idx_of mac')) as [Hi|Hi].
  - rewrite <- Hi, list_lookup_insert_eq, Hb by (by eapply lookup_lt_Some). cbn.
    apply Hslots. intros Hk. apply Hne. by apply bucket_key_inj.
  - rewrite list_lookup_insert_ne; [done|].
    pose proof (table_idx_range mac). pose proof (table_idx_range mac'). lia.
Qed.

Lemma with_bucket_find mac b b' s :
  mac_lkup_tbl s !! Z.to_nat (table_idx_of mac) = Some b ->
  lkup_find mac (with_bucket (table_idx_of mac) b' s) =
  slots_find (key_of mac) (slots b').
Proof.
  intros Hb. unfold lkup_find, with_bucket; st.
  by rewrite list_lookup_insert_eq by (by eapply lookup_lt_Some).
Qed.
End table.

Lemma slots_add_none k r l :
  slots_add k r l = None <-> Forall (fun sl => slot_used sl = true /\ sl.1 <> k) l.
Proof.
  induction l as [|s l IH]; simpl; [done|].
  rewrite (List.Forall_cons_iff _ s l), <- IH.
  destruct (slot_used s); simpl; [|split; [done|by intros [[??] ?]]].
  case_bool_decide; [|split; [done|by intros [[??] ?]]].
  rewrite fmap_None. split; [done|by intros [??]].
Qed.

Lemma used_result_used r : has (used_result r) MAC_LKUP_USED = true.
Proof.
  rewrite has_used. unfold used_result. rewrite Z.lor_spec. apply orb_true_r.
Qed.

(** ** Correctness of the two public functions *)

Section correctness.
Context `{CamLayoutOk}.

Lemma add_run fuel mac r s :
  wf_lkup s -> unlocked (table_idx_of mac) s ->
  exists b, mac_lkup_tbl s !! Z.to_nat (table_idx_of mac) = Some b /\ wf_bucket b /\
  match slots_add (key_of mac) (used_result r) (slots b) with
  | Some l => exists b', slots b' = l /\ wf_bucket b' /\
      run (mac_lkup_add (S fuel) mac r) s = Some (0, with_bucket (table_idx_of mac) b' s)
  | None => run (mac_lkup_add (S fuel) mac r) s = Some (1, s)
  end.
Proof.
  intros Hwf (w & Hw & H0'). destruct (lkup_bucket mac s Hwf) as (b & Hb & Hwb).
  exists b. split; [done|split; [done|]]. eapply wait_chain; try done.
  intros. by apply add_chain.
Qed.

Lemma del_run fuel mac s :
  wf_lkup s -> unlocked (table_idx_of mac) s ->
  exists b, mac_lkup_tbl s !! Z.to_nat (table_idx_of mac) = Some b /\ wf_bucket b /\
  match slots_del (key_of mac) (slots b) with
  | Some l => exists b', slots b' = l /\ wf_bucket b' /\
      run (mac_lkup_del (S fuel) mac) s = Some (0, with_bucket (table_idx_of mac) b' s)
  | None => run (mac_lkup_del (S fuel) mac) s = Some (1, s)
  end.
Proof.
  intros Hwf (w & Hw & H0'). destruct (lkup_bucket mac s Hwf) as (b & Hb & Hwb).
  exists b. split; [done|split; [done|]]. eapply wait_chain; try done.
  intros. by apply del_chain.
Qed.

(** C38: on a free bucket lock [mac_lkup_add] returns.  It returns 0 when an
    entry was found: the table then answers the 30 low bits of the result,
    with the in-use bit, for that MAC.  It returns 1 exactly when the six
    entries of the bucket are in use by other MACs, and then changes
    nothing.  In both cases every other MAC keeps its answer, the lock words
    are as before (the lock is released) and the table stays well formed. *)
Theorem mac_lkup_add_spec fuel mac r s :
  wf_lkup s -> unlocked (table_idx_of mac) s -> fits 48 mac ->
  exists rc s', run (mac_lkup_add (S fuel) mac r) s = Some (rc, s') /\
    wf_lkup s' /\ mac_lkup_tbl_lock s' = mac_lkup_tbl_lock s /\
    (rc = 0 /\ lkup_find mac s' = Some (used_result r) \/
     rc = 1 /\ s' = s /\ bucket_full mac s) /\
    (bucket_full mac s -> rc = 1) /\
    forall mac', fits 48 mac' -> mac' <> mac -> lkup_find mac' s' = lkup_find mac' s.
Proof.
  intros Hwf Hu Hm. destruct (add_run fuel mac r s Hwf Hu) as (b & Hb & Hwb & Hrun).
  destruct (slots_add _ _ _) as [l|] eqn:Hl.
  - destruct Hrun as (b' & <- & Hwb' & ->). do 2 eexists. split; [done|].
    split; [by apply with_bucket_wf|]. split; [done|]. split; [left|split].
    + split; [done|]. erewrite with_bucket_find by done.
      by eapply slots_add_find; [apply used_result_used|].
    + intros (b2 & Hb2 & Hfull). rewrite Hb in Hb2. injection Hb2 as <-.
      apply (slots_add_none _ (used_result r)) in Hfull. congruence.
    + intros mac' Hm' Hne. eapply with_bucket_find_other; try done.
      intros Hk. by eapply slots_add_find_other.
  - rewrite Hrun. do 2 eexists. split; [done|]. split; [done|]. split; [done|].
    split; [right|done]. split; [done|split; [done|]].
    exists b. split; [done|]. by eapply slots_add_none.
Qed.

(** On a free bucket lock [mac_lkup_del] returns.  It returns 1 and
    changes nothing when the table has no entry for the MAC, else 0; a MAC
    that was in one entry only is then no longer found.  Every other MAC
    keeps its answer and the lock is released. *)
Theorem mac_lkup_del_spec fuel mac s :
  wf_lkup s -> unlocked (table_idx_of mac) s -> fits 48 mac ->
  exists rc s', run (mac_lkup_del (S fuel) mac) s = Some (rc, s') /\
    wf_lkup s' /\ mac_lkup_tbl_lock s' = mac_lkup_tbl_lock s /\
    (lkup_find mac s = None /\ rc = 1 /\ s' = s \/
     is_Some (lkup_find mac s) /\ rc = 0 /\ (in_once mac s -> lkup_find mac s' = None)) /\
    forall mac', fits 48 mac' -> mac' <> mac -> lkup_find mac' s' = lkup_find mac' s.
Proof.
  intros Hwf Hu Hm. destruct (del_run fuel mac s Hwf Hu) as (b & Hb & Hwb & Hrun).
  assert (Hfind : lkup_find mac s = slots_find (key_of mac) (slots b))
    by (unfold lkup_find; by rewrite Hb).
  destruct (slots_del _ _) as [l|] eqn:Hl.
  - destruct Hrun as (b' & <- & Hwb' & ->). do 2 eexists. split; [done|].
    split; [by apply with_bucket_wf|]. split; [done|]. split; [right|].
    + split; [|split; [done|]].
      * rewrite Hfind. destruct (slots_find _ _) eqn:E; [done|].
        apply slots_del_none in E. congruence.
      * intros Hone. erewrite with_bucket_find by done.
        eapply slots_del_find; [by apply Hone|done].
    + intros mac' Hm' Hne. eapply with_bucket_find_other; try done.
      intros Hk. by eapply slots_del_find_other.
  - rewrite Hrun. do 2 eexists. split; [done|]. split; [done|]. split; [done|].
    split; [left|done]. split; [|done]. rewrite Hfind. by apply slots_del_none.
Qed.
End correctness.

(** ** Mutual exclusion

    The threads of the microengines call the two functions concurrently; every
    transaction of a call is one step.  A configuration has the memory and what
    each thread has left to do. *)

Definition conf : Type := lkup * gmap nat (prog Z).

(** A thread that has nothing left to do. *)
Definition idle (c : conf) (t : nat) : Prop :=
  match c.2 !! t with None | Some (Ret _) => True | _ => False end.

Inductive lk_step `{CamLayout} (t : nat) : conf -> conf -> Prop :=
  | step_add s th fuel mac result :
      idle (s, th) t -> lk_step t (s, th) (s, <[t := mac_lkup_add fuel mac result]> th)
  | step_del s th fuel mac :
      idle (s, th) t -> lk_step t (s, th) (s, <[t := mac_lkup_del fuel mac]> th)
  | step_next s th p p' s' :
      th !! t = Some p -> step_prog p s = Some (p', s') ->
      lk_step t (s, th) (s', <[t := p']> th).

(** Some thread makes a step. *)
Definition lk_steps `{CamLayout} (c c' : conf) : Prop := exists t, lk_step t c c'.

(** The next transaction of the program reads or writes the bucket, or
    releases it. *)
Definition works_on (p : prog Z) (i : Z) : Prop :=
  match p with
  | ReadBucket j _ | UpdBucket j _ _ => j = i
  | BitClr w m _ => w = Z.shiftr i 5 /\ m = test_msk i
  | Ret _ | Undef | TestSet _ _ _ => False
  end.

Definition working (c : conf) (t : nat) (i : Z) : Prop :=
  exists p, c.2 !! t = Some p /\ works_on p i.

Definition lock_bit (s : lkup) (i : Z) : bool :=
  Z.testbit (default 0 (lock_word s i)) (Z.land i 31).

Lemma land_31 i : Z.land i 31 = i mod 32.
Proof. change 31 with (Z.ones 5). by rewrite Z.land_ones by lia. Qed.

Lemma test_msk_pow2 i : test_msk i = 2 ^ Z.land i 31.
Proof.
  unfold test_msk. rewrite Z.shiftl_1_l, land_31. apply wrap_small.
  pose proof (Z.mod_pos_bound i 32). pose proof (Z.pow_lt_mono_r 2 (i mod 32) 32).
  unfold fits. pose proof (Z.pow_nonneg 2 (i mod 32)). lia.
Qed.

Lemma test_msk_testbit i n : Z.testbit (test_msk i) n = (Z.land i 31 =? n).
Proof.
  rewrite test_msk_pow2. apply Z.pow2_bits_eqb. rewrite land_31.
  pose proof (Z.mod_pos_bound i 32). lia.
Qed.

(** Two buckets with the same lock word and lock bit are the same. *)
Lemma lock_place_inj i j :
  Z.shiftr i 5 = Z.shiftr j 5 -> Z.land i 31 = Z.land j 31 -> i = j.
Proof.
  rewrite !land_31, !Z.shiftr_div_pow2 by lia. change (2 ^ 5) with 32.
  pose proof (Z.div_mod i 32). pose proof (Z.div_mod j 32). lia.
Qed.

(** Replacing the word of [i] by [w'] sets the lock bits of its 32 buckets. *)
Lemma lock_bit_set s i j w w' :
  0 <= i -> 0 <= j -> lock_word s i = Some w ->
  lock_bit (s <| mac_lkup_tbl_lock ::= <[Z.to_nat (Z.shiftr i 5) := w']> |>) j =
  if Z.shiftr i 5 =? Z.shiftr j 5 then Z.testbit w' (Z.land j 31) else lock_bit s j.
Proof.
  intros Hi Hj Hw. unfold lock_bit, lock_word in *; st.
  destruct (Z.eqb_spec (Z.shiftr i 5) (Z.shiftr j 5)) as [E|Hne].
  - rewrite <- E, list_lookup_insert_eq; [done|]. by eapply lookup_lt_Some.
  - rewrite list_lookup_insert_ne; [done|].
    pose proof (proj2 (Z.shiftr_nonneg i 5) Hi). pose proof (proj2 (Z.shiftr_nonneg j 5) Hj). lia.
Qed.

Lemma test_set_inv i s old s' :
  test_set_word (Z.shiftr i 5) (test_msk i) s = Some (old, s') ->
  lock_word s i = Some old /\
  s' = s <| mac_lkup_tbl_lock ::= <[Z.to_nat (Z.shiftr i 5) := Z.lor old (test_msk i)]> |>.
Proof.
  unfold test_set_word, mbind, M_bind, get, modify, lock_word.
  destruct (mac_lkup_tbl_lock s !! _); simpl; [|done]. by intros [= -> <-].
Qed.

Lemma release_inv i s s' :
  bitclr_word (Z.shiftr i 5) (test_msk i) s = Some (tt, s') ->
  exists w, lock_word s i = Some w /\
  s' = s <| mac_lkup_tbl_lock ::= <[Z.to_nat (Z.shiftr i 5) := Z.ldiff w (test_msk i)]> |>.
Proof.
  unfold bitclr_word, mbind, M_bind, get, modify, lock_word.
  destruct (mac_lkup_tbl_lock s !! _); simpl; [|done]. intros [= <-]. eauto.
Qed.

(** A transaction on the lock of [i] sets its bit and keeps the other bits. *)
Lemma test_set_bit i j s old s' :
  0 <= i -> 0 <= j -> test_set_word (Z.shiftr i 5) (test_msk i) s = Some (old, s') ->
  lock_bit s' j = bool_decide (i = j) || lock_bit s j.
Proof.
  intros Hi Hj [Hw ->]%test_set_inv. rewrite (lock_bit_set _ _ _ old) by done.
  destruct (Z.eqb_spec (Z.shiftr i 5) (Z.shiftr j 5)) as [E|E]; case_bool_decide as Hij;
    subst; try done.
  - by rewrite Z.lor_spec, test_msk_testbit, Z.eqb_refl, orb_true_r.
  - rewrite Z.lor_spec, test_msk_testbit. unfold lock_bit, lock_word in *.
    rewrite <- E, Hw; simpl. destruct (Z.eqb_spec (Z.land i 31) (Z.land j 31)).
    + by destruct Hij; apply lock_place_inj.
    + apply orb_false_r.
Qed.

Lemma release_bit i j s s' :
  0 <= i -> 0 <= j -> bitclr_word (Z.shiftr i 5) (test_msk i) s = Some (tt, s') ->
  lock_bit s' j = negb (bool_decide (i = j)) && lock_bit s j.
Proof.
  intros Hi Hj (w & Hw & ->)%release_inv. rewrite (lock_bit_set _ _ _ w) by done.
  destruct (Z.eqb_spec (Z.shiftr i 5) (Z.shiftr j 5)) as [E|E].
  - rewrite Z.ldiff_spec, test_msk_testbit. unfold lock_bit, lock_word in *.
    rewrite <- E, Hw; simpl. destruct (Z.eqb_spec (Z.land i 31) (Z.land j 31)).
    + rewrite bool_decide_eq_true_2 by (by apply lock_place_inj). apply andb_false_r.
    + rewrite bool_decide_eq_false_2 by congruence. apply andb_true_r.
  - by rewrite bool_decide_eq_false_2 by congruence.
Qed.

(** The bit the test reads is the lock bit. *)
Lemma test_old_bit i s old s' :
  test_set_word (Z.shiftr i 5) (test_msk i) s = Some (old, s') ->
  Z.land old (test_msk i) = 0 -> lock_bit s i = false.
Proof.
  intros [Hw _]%test_set_inv H0. unfold lock_bit. rewrite Hw; simpl.
  apply (f_equal (fun z => Z.testbit z (Z.land i 31))) in H0.
  by rewrite Z.land_spec, test_msk_testbit, Z.eqb_refl, andb_true_r, Z.testbit_0_l in H0.
Qed.

Lemma test_old_bit_set i s old s' :
  test_set_word (Z.shiftr i 5) (test_msk i) s = Some (old, s') ->
  Z.land old (test_msk i) <> 0 -> lock_bit s i = true.
Proof.
  intros [Hw _]%test_set_inv Hne. unfold lock_bit. rewrite Hw; simpl.
  destruct (Z.testbit old (Z.land i 31)) eqn:E; [done|]. destruct Hne.
  apply Z.bits_inj'. intros n Hn. rewrite Z.land_spec, test_msk_testbit, Z.testbit_0_l.
  destruct (Z.eqb_spec (Z.land i 31) n) as [<-|]; [by rewrite E|apply andb_false_r].
Qed.

Lemma test_set_lines w m s old s' :
  test_set_word w m s = Some (old, s') -> mac_lkup_tbl s' = mac_lkup_tbl s.
Proof.
  unfold test_set_word, mbind, M_bind, get, modify.
  destruct (mac_lkup_tbl_lock s !! _); simpl; [|done]. by intros [= _ <-].
Qed.

Lemma bitclr_lines w m s x s' :
  bitclr_word w m s = Some (x, s') -> mac_lkup_tbl s' = mac_lkup_tbl s.
Proof.
  unfold bitclr_word, mbind, M_bind, get, modify.
  destruct (mac_lkup_tbl_lock s !! _); simpl; [|done]. by intros [= _ <-].
Qed.

Lemma read_lines_inv i s b s' :
  read_lines i s = Some (b, s') -> mac_lkup_tbl s !! Z.to_nat i = Some b /\ s' = s.
Proof.
  unfold read_lines, mbind, M_bind, get.
  destruct (mac_lkup_tbl s !! _); simpl; [|done]. by intros [= -> <-].
Qed.

Lemma write_lines_inv i f s x s' :
  write_lines i f s = Some (x, s') ->
  exists b, mac_lkup_tbl s !! Z.to_nat i = Some b /\ s' = with_bucket i (f b) s.
Proof.
  unfold write_lines, read_lines, mbind, M_bind, get, modify.
  destruct (mac_lkup_tbl s !! _) as [b|]; simpl; [|done]. intros [= _ <-]. by exists b.
Qed.

(** ** Programs that keep to the locks *)

Definition in_table (i : Z) : Prop := 0 <= i < MAC_LKUP_NUM_BUCKETS.

(** What is left of a program that holds the lock of [h] reads, writes and
    releases that bucket only, and holds nothing when it ends.  A program
    without a lock only tries to take one, and has it if the bit was clear. *)
Fixpoint safe (h : option Z) (p : prog Z) : Prop :=
  match p with
  | Ret _ | Undef => h = None
  | TestSet w m k => h = None /\ exists i, in_table i /\ w = Z.shiftr i 5 /\ m = test_msk i /\
      forall old, safe (if Z.land old m =? 0 then Some i else None) (k old)
  | BitClr w m k => exists i, h = Some i /\ in_table i /\ w = Z.shiftr i 5 /\ m = test_msk i /\
      forall u, safe None (k u)
  | ReadBucket i k => h = Some i /\ in_table i /\ forall b, safe h (k b)
  | UpdBucket i _ k => h = Some i /\ in_table i /\ forall u, safe h (k u)
  end.

Lemma test_msk_inj i j :
  Z.shiftr i 5 = Z.shiftr j 5 -> test_msk i = test_msk j -> i = j.
Proof.
  intros Hs Hm. apply lock_place_inj; [done|].
  apply (f_equal (fun z => Z.testbit z (Z.land i 31))) in Hm.
  rewrite !test_msk_testbit, Z.eqb_refl in Hm. symmetry in Hm. by apply Z.eqb_eq in Hm.
Qed.

(** The bucket that a program works on is the one whose lock it holds. *)
Lemma safe_works h p i : safe h p -> works_on p i <-> h = Some i.
Proof.
  destruct p; simpl.
  1,2: by intros ->.
  - by intros [-> _].
  - intros (j & -> & _ & -> & -> & _). split; [|by intros [= ->]].
    intros [Hs Hm]. f_equal. by apply test_msk_inj.
  - intros (-> & _). split; [by intros ->|by intros [= ->]].
  - intros (-> & _). split; [by intros ->|by intros [= ->]].
Qed.

Lemma safe_in_table i p : safe (Some i) p -> in_table i.
Proof.
  destruct p; simpl; try done.
  - by intros [? _].
  - by intros (j & [= ->] & ? & _).
  - by intros ([= ->] & ? & _).
  - by intros ([= ->] & ? & _).
Qed.

Lemma safe_wait fuel i p :
  in_table i -> safe (Some i) p -> safe None (_ ← mac_lkup_tbl_bucket_wait fuel i; p).
Proof.
  intros Hi Hp. induction fuel as [|fuel IH]; [done|].
  simpl. split; [done|]. exists i. do 3 (split; [done|]).
  intros old. by destruct (Z.land old _ =? 0).
Qed.

(** Run through all branches of a chain that holds the lock of [i]. *)
Ltac safe_chain i :=
  repeat (simpl; first [done | intros ? | exists i | split | case_match]).

Lemma safe_add i k r : in_table i -> safe (Some i) (add_try0 i k r).
Proof.
  intros Hi. unfold add_try0, add_try1, add_try2, add_try3, add_try4, add_try5.
  safe_chain i.
Qed.

Lemma safe_del i k : in_table i -> safe (Some i) (del_try0 i k).
Proof.
  intros Hi. unfold del_try0, del_try1, del_try2, del_try3, del_try4, del_try5.
  safe_chain i.
Qed.

(** ** The invariant of the interleavings *)

Definition sizes (s : lkup) : Prop :=
  length (mac_lkup_tbl s) = Z.to_nat MAC_LKUP_NUM_BUCKETS /\
  length (mac_lkup_tbl_lock s) = Z.to_nat (MAC_LKUP_NUM_BUCKETS / 32).

Lemma bitclr_runs i s : in_table i -> sizes s ->
  exists s', bitclr_word (Z.shiftr i 5) (test_msk i) s = Some (tt, s').
Proof.
  intros Hi [_ Hz]. unfold bitclr_word, mbind, M_bind, get, modify.
  destruct (lookup_lt_is_Some_2 (mac_lkup_tbl_lock s) (Z.to_nat (Z.shiftr i 5))) as [w Hw].
  - rewrite Hz, Z.shiftr_div_pow2 by lia. unfold in_table in Hi.
    change MAC_LKUP_NUM_BUCKETS with 1024 in *.
    change (2 ^ 5) with 32. pose proof (Z.div_lt_upper_bound i 32 32).
    pose proof (Z.div_pos i 32). change (Z.to_nat (1024 / 32)) with 32%nat. lia.
  - rewrite Hw. by eexists.
Qed.

Lemma read_lines_runs i s : in_table i -> sizes s ->
  exists b, read_lines i s = Some (b, s).
Proof.
  intros Hi [Hz _]. unfold read_lines, mbind, M_bind, get.
  destruct (lookup_lt_is_Some_2 (mac_lkup_tbl s) (Z.to_nat i)) as [b Hb].
  - unfold in_table in Hi. lia.
  - rewrite Hb. by eexists.
Qed.

(** Every thread keeps to the locks, a lock bit is set exactly when a thread
    works on the bucket, and no bucket has two such threads. *)
Record lk_inv (c : conf) : Prop := {
  inv_sizes : sizes (c.1);
  inv_safe t p : c.2 !! t = Some p -> exists h, safe h p;
  inv_lock i : in_table i -> lock_bit (c.1) i = true <-> exists t, working c t i;
  inv_excl t t' i : working c t i -> working c t' i -> t = t'
}.

Section excl.
Context `{CamLayoutOk}.

Lemma safe_mac_lkup_add fuel mac r : safe None (mac_lkup_add fuel mac r).
Proof. apply safe_wait, safe_add; apply table_idx_range. Qed.

Lemma safe_mac_lkup_del fuel mac : safe None (mac_lkup_del fuel mac).
Proof. apply safe_wait, safe_del; apply table_idx_range. Qed.

Lemma working_insert s s' th t p' t1 i :
  working (s', <[t := p']> th) t1 i <->
  t1 = t /\ works_on p' i \/ t1 <> t /\ working (s, th) t1 i.
Proof.
  unfold working; simpl. split.
  - intros (p & [[<- <-]|[Hne Hp]]%lookup_insert_Some & Hw); [by left|right; eauto].
  - intros [[-> Hw]|(Hne & p & Hp & Hw)].
    + exists p'. by rewrite lookup_insert_eq.
    + exists p. by rewrite lookup_insert_ne by congruence.
Qed.

(** A step after which the thread works on what it worked on before. *)
Lemma inv_same s th s' t p' :
  lk_inv (s, th) -> sizes s' -> (forall i, in_table i -> lock_bit s' i = lock_bit s i) ->
  (exists h, safe h p') -> (forall i, works_on p' i <-> working (s, th) t i) ->
  lk_inv (s', <[t := p']> th).
Proof.
  intros [HZ HS HL HE] Hz Hb Hp Hw.
  assert (Heq : forall t1 i, working (s', <[t := p']> th) t1 i <-> working (s, th) t1 i).
  { intros t1 i. rewrite (working_insert s). destruct (decide (t1 = t)) as [->|];
      rewrite ?Hw; tauto. }
  split; simpl in *; [done| | |].
  - intros t1 p1 [[<- <-]|[_ Ht1]]%lookup_insert_Some; [done|by eapply HS].
  - intros i Hi. rewrite Hb, HL by done. by setoid_rewrite Heq.
  - intros t1 t2 i. rewrite !Heq. apply HE.
Qed.

(** A thread takes a lock that was free. *)
Lemma inv_acquire s th s' t p' i :
  lk_inv (s, th) -> sizes s' -> safe (Some i) p' -> (forall j, ~ working (s, th) t j) ->
  lock_bit s i = false ->
  (forall j, in_table j -> lock_bit s' j = bool_decide (i = j) || lock_bit s j) ->
  lk_inv (s', <[t := p']> th).
Proof.
  intros [HZ HS HL HE] Hz Hp Hno Hfree Hb.
  pose proof (safe_in_table _ _ Hp) as Hi.
  assert (Hnone : forall t1, ~ working (s, th) t1 i).
  { intros t1 Ht1. assert (lock_bit s i = true) by (apply HL; eauto). congruence. }
  split; simpl in *; [done| | |].
  - intros t1 p1 [[<- <-]|[_ Ht1]]%lookup_insert_Some; [by eexists|by eapply HS].
  - intros j Hj. rewrite Hb by done. setoid_rewrite (working_insert s).
    rewrite orb_true_iff, bool_decide_eq_true, HL by done. split.
    + intros [<-|[t1 Ht1]]; [exists t; left; by rewrite (safe_works _ _ _ Hp)|].
      exists t1. right. split; [|done]. intros ->. by eapply Hno.
    + intros [t1 [[_ Hw%(safe_works _ _ _ Hp)]|[_ ?]]]; [left; congruence|right; eauto].
  - intros t1 t2 j. rewrite !(working_insert s), !(safe_works _ _ _ Hp).
    intros [[-> [= <-]]|[? Ht1]] [[-> ?]|[? Ht2]]; simplify_eq; try done;
      [by destruct (Hnone t2)|by destruct (Hnone t1)|by eapply HE].
Qed.

(** A thread releases its lock. *)
Lemma inv_release s th s' t p' i :
  lk_inv (s, th) -> sizes s' -> safe None p' -> working (s, th) t i ->
  (forall j, in_table j -> lock_bit s' j = negb (bool_decide (i = j)) && lock_bit s j) ->
  lk_inv (s', <[t := p']> th).
Proof.
  intros [HZ HS HL HE] Hz Hp Hti Hb.
  assert (Hone : forall j, working (s, th) t j -> i = j).
  { destruct Hti as (p & Ht & Hi). intros j (p1 & Ht1 & Hj). simplify_eq/=.
    destruct (HS _ _ Ht) as [h Hs]. apply (safe_works _ _ _ Hs) in Hi, Hj. congruence. }
  split; simpl in *; [done| | |].
  - intros t1 p1 [[<- <-]|[_ Ht1]]%lookup_insert_Some; [by eexists|by eapply HS].
  - intros j Hj. rewrite Hb by done. setoid_rewrite (working_insert s).
    rewrite andb_true_iff, negb_true_iff, bool_decide_eq_false, HL by done. split.
    + intros [Hne [t1 Ht1]]. exists t1. right. split; [|done]. intros ->. by apply Hne, Hone.
    + intros [t1 [[_ Hw%(safe_works _ _ _ Hp)]|[Hne Ht1]]]; [done|].
      split; [|by eexists]. intros <-. by apply Hne, (HE t1 t i).
  - intros t1 t2 j. rewrite !(working_insert s), !(safe_works _ _ _ Hp).
    intros [[_ ?]|[_ ?]] [[_ ?]|[_ ?]]; try done. by eapply HE.
Qed.

Lemma idle_works c t i : idle c t -> ~ working c t i.
Proof. unfold idle. intros Hi (p & Hp & Hw). rewrite Hp in Hi. by destruct p. Qed.

Lemma inv_call s th t p' :
  lk_inv (s, th) -> idle (s, th) t -> safe None p' -> lk_inv (s, <[t := p']> th).
Proof.
  intros HI Hidle Hp. apply (inv_same s); [done|apply HI|done|by eexists|].
  intros i. rewrite (safe_works _ _ _ Hp). split; [done|].
  intros Hw. by eapply idle_works in Hw.
Qed.

Lemma working_self s th t p h i :
  th !! t = Some p -> safe h p -> working (s, th) t i <-> h = Some i.
Proof.
  intros Ht Hs. unfold working; simpl. rewrite <- (safe_works _ _ _ Hs).
  split; [|by eauto]. intros (p1 & Hp1 & Hw). congruence.
Qed.

Lemma inv_next s th t p p' s' :
  lk_inv (s, th) -> th !! t = Some p -> step_prog p s = Some (p', s') ->
  lk_inv (s', <[t := p']> th).
Proof.
  intros HI Ht Hstep. pose proof (inv_sizes _ HI) as [Hz1 Hz2]; simpl in Hz1, Hz2.
  destruct (inv_safe _ HI t p Ht) as [h Hs].
  pose proof (fun i => working_self s th t p h i Ht Hs) as Hself.
  destruct p as [a| |w m k|w m k|j k|j f k]; simpl in Hs, Hstep; try done;
    apply bind_some_inv in Hstep as (x & s1 & Hx & [= <- <-]).
  - destruct Hs as (-> & i & Hi & -> & -> & Hk). specialize (Hk x).
    assert (Hz : sizes s1) by (apply test_set_inv in Hx as [_ ->]; split; st; by rewrite ?length_insert).
    assert (Hb : forall j, in_table j -> lock_bit s1 j = bool_decide (i = j) || lock_bit s j)
      by (intros j Hj; eapply test_set_bit; [apply Hi|apply Hj|done]).
    destruct (Z.eqb_spec (Z.land x (test_msk i)) 0) as [Hx0|Hx0].
    + apply (inv_acquire s _ _ _ _ i); try done; [by intros j ?%Hself|].
      by eapply test_old_bit.
    + apply (inv_same s); [done|done| |by eexists|].
      * intros j Hj. rewrite Hb by done. case_bool_decide as Hij; [subst j|done].
        symmetry. apply (test_old_bit_set _ _ _ _ Hx Hx0).
      * intros j. by rewrite Hself, (safe_works _ _ _ Hk).
  - destruct Hs as (i & -> & Hi & -> & -> & Hk).
    apply (inv_release s _ _ _ _ i); try done.
    + destruct x. apply release_inv in Hx as (v & _ & ->). split; st; by rewrite ?length_insert.
    + by apply Hself.
    + intros j Hj. destruct x. eapply release_bit; [apply Hi|apply Hj|done].
  - destruct Hs as (-> & Hi & Hk). apply read_lines_inv in Hx as [_ ->].
    apply (inv_same s); [done|done|done|by eexists|].
    intros i. by rewrite Hself, (safe_works _ _ _ (Hk x)).
  - destruct Hs as (-> & Hi & Hk). apply write_lines_inv in Hx as (b & _ & ->).
    apply (inv_same s); [done| |done|by eexists|].
    + split; unfold with_bucket; st; by rewrite ?length_insert.
    + intros i. by rewrite Hself, (safe_works _ _ _ (Hk x)).
Qed.

Lemma step_inv t c c' : lk_step t c c' -> lk_inv c -> lk_inv c'.
Proof.
  intros [s th fuel mac r Hidle|s th fuel mac Hidle|s th p p' s' Ht Hstep] HI.
  - apply inv_call; [done..|]. apply safe_mac_lkup_add.
  - apply inv_call; [done..|]. apply safe_mac_lkup_del.
  - by eapply inv_next.
Qed.

Lemma steps_inv c c' : rtc lk_steps c c' -> lk_inv c -> lk_inv c'.
Proof. induction 1 as [|c1 c2 c3 [t Hs] _ IH]; [done|]. intros HI. by eapply IH, step_inv. Qed.

Lemma inv_start s :
  sizes s -> (forall i, in_table i -> lock_bit s i = false) -> lk_inv (s, ∅).
Proof.
  intros Hz Hfree. split; simpl; [done| | |].
  - intros t p Ht. by rewrite lookup_empty in Ht.
  - intros i Hi. rewrite Hfree by done. split; [done|].
    intros (t & p & Hp & _). simpl in Hp. by rewrite lookup_empty in Hp.
  - intros t t' i (p & Hp & _). simpl in Hp. by rewrite lookup_empty in Hp.
Qed.

(** ** What the invariant gives *)

(** A step of another thread leaves the bucket that [t] works on alone. *)
Lemma step_isolated t t' c c' i :
  lk_inv c -> working c t i -> t' <> t -> lk_step t' c c' ->
  working c' t i /\ mac_lkup_tbl (c'.1) !! Z.to_nat i = mac_lkup_tbl (c.1) !! Z.to_nat i.
Proof.
  intros HI Hti Hne Hstep.
  assert (Hw : working c' t i)
    by (destruct Hstep; rewrite (working_insert s); right; by split).
  split; [done|]. destruct Hstep as [| |s th p p' s' Ht Hstep]; [done..|]; simpl in *.
  destruct (inv_safe _ HI t' p Ht) as [h Hs].
  destruct p as [a| |w m k|w m k|j k|j f k]; simpl in Hs, Hstep; try done;
    apply bind_some_inv in Hstep as (x & s1 & Hx & [= <- <-]).
  - by apply test_set_lines in Hx as ->.
  - by apply bitclr_lines in Hx as ->.
  - by apply read_lines_inv in Hx as [_ ->].
  - destruct Hs as (-> & Hj & _). apply write_lines_inv in Hx as (b & _ & ->).
    unfold with_bucket; st. apply list_lookup_insert_ne.
    assert (Hi : in_table i).
    { destruct Hti as (p & Hp & Hpi). destruct (inv_safe _ HI t p Hp) as [h Hsp].
      apply (safe_works _ _ _ Hsp) in Hpi as ->. by eapply safe_in_table. }
    intros Heq. assert (i = j) as -> by (unfold in_table in *; lia).
    apply Hne. apply (inv_excl _ HI t' t j); [|done]. by exists (UpdBucket j f k).
Qed.

(** The thread that works on a bucket is never in the way of itself: with its
    own steps it comes to the release of the lock. *)
Lemma section_ends t i p s th :
  lk_inv (s, th) -> th !! t = Some p -> safe (Some i) p ->
  exists c', rtc (lk_step t) (s, th) c' /\ lock_bit (c'.1) i = false.
Proof.
  revert s th. induction p as [a| |w m k IH|w m k IH|j k IH|j f k IH]; intros s th HI Ht Hs;
    simpl in Hs; try done; [by destruct Hs| | |];
    pose proof (inv_sizes _ HI) as [Hz1 Hz2]; simpl in Hz1, Hz2.
  - destruct Hs as (i' & [= <-] & Hi & -> & -> & Hk).
    destruct (bitclr_runs i s Hi (conj Hz1 Hz2)) as [s' Hs'].
    assert (Hnext : lk_step t (s, th) (s', <[t := k tt]> th)).
    { eapply step_next; [done|]. simpl. unfold mbind, M_bind. by rewrite Hs'. }
    eexists. split; [by apply rtc_once|]. simpl.
    erewrite (release_bit i i) by (done || apply Hi). by rewrite bool_decide_eq_true_2.
  - destruct Hs as ([= <-] & Hi & Hk).
    destruct (read_lines_runs i s Hi (conj Hz1 Hz2)) as [b Hb].
    assert (Hnext : lk_step t (s, th) (s, <[t := k b]> th)).
    { eapply step_next; [done|]. simpl. unfold mbind, M_bind. by rewrite Hb. }
    destruct (IH b s (<[t := k b]> th)) as (c' & Hr & Hf);
      [by eapply step_inv|by rewrite lookup_insert_eq|done|].
    exists c'. split; [by eapply rtc_l|done].
  - destruct Hs as ([= <-] & Hi & Hk).
    destruct (read_lines_runs i s Hi (conj Hz1 Hz2)) as [b Hb].
    assert (Hnext : exists s', lk_step t (s, th) (s', <[t := k tt]> th)).
    { eexists. eapply step_next; [done|]. simpl. unfold write_lines, mbind, M_bind. by rewrite Hb. }
    destruct Hnext as [s' Hnext].
    destruct (IH tt s' (<[t := k tt]> th)) as (c' & Hr & Hf);
      [by eapply step_inv|by rewrite lookup_insert_eq|done|].
    exists c'. split; [by eapply rtc_l|done].
Qed.

Lemma working_ends t i c :
  lk_inv c -> working c t i -> exists c', rtc (lk_step t) c c' /\ lock_bit (c'.1) i = false.
Proof.
  destruct c as [s th]. intros HI (p & Hp & Hw). destruct (inv_safe _ HI t p Hp) as [h Hs].
  apply (safe_works _ _ _ Hs) in Hw as ->. by eapply section_ends.
Qed.

(** C39: any number of threads call [mac_lkup_add] and [mac_lkup_del], whatever
    the order in which their memory transactions happen, from a table whose
    locks are free.  At every moment at most one thread is between taking and
    releasing the lock of a bucket, which is the only part of the calls that
    reads or writes the bucket; the lock bit is set exactly when there is such
    a thread; what other threads do leaves the bucket and the bit as they are;
    and the thread by itself gets to the release, so no lock is left set. *)
Theorem mac_lkup_mutual_exclusion s0 c :
  wf_lkup s0 -> (forall i, in_table i -> lock_bit s0 i = false) ->
  rtc lk_steps (s0, ∅) c ->
  (forall t t' i, working c t i -> working c t' i -> t = t') /\
  (forall i, in_table i -> lock_bit (c.1) i = true <-> exists t, working c t i) /\
  (forall t t' i c', working c t i -> t' <> t -> lk_step t' c c' ->
     working c' t i /\
     mac_lkup_tbl (c'.1) !! Z.to_nat i = mac_lkup_tbl (c.1) !! Z.to_nat i) /\
  (forall t i, working c t i ->
     exists c', rtc (lk_step t) c c' /\ lock_bit (c'.1) i = false).
Proof.
  intros (Hl1 & Hl2 & _) Hfree Hrun.
  assert (HI : lk_inv c) by (apply (steps_inv _ _ Hrun), inv_start; [by split|done]).
  split_and!; [apply HI|apply HI| |].
  - intros t t' i c' Hw Hne Hs. by apply (step_isolated t t' c).
  - intros t i Hw. by apply working_ends.
Qed.
End excl.

(** ** Concrete tables *)

#[local] Instance layout_64K : CamLayout :=
  {| cam_num_entries := 1024; cam_key_offset := 10 |}.
#[local] Instance layout_64K_ok : CamLayoutOk.
Proof. by split. Qed.

Definition line0 : dataline1_3 := mk_dataline1_3 0 0 0 0 0 0 0.
Definition bucket0 : bucket := mk_bucket line0 line0 line0 (mk_dataline4 0 0 0 0).
Definition lkup0 : lkup := mk_lkup (replicate 1024 bucket0) (replicate 32 0).

Lemma lkup0_wf : wf_lkup lkup0.
Proof.
  split; [by vm_compute|split; [by vm_compute|]]. by apply Forall_replicate.
Qed.

Lemma lkup0_unlocked i : 0 <= i < 1024 -> unlocked i lkup0.
Proof.
  intros Hi. exists 0. split; [|done]. unfold lock_word, lkup0.
  apply (lookup_replicate_2 32). rewrite Z.shiftr_div_pow2 by lia.
  change (2 ^ 5) with 32. pose proof (Z.div_lt_upper_bound i 32 32). lia.
Qed.

Lemma mac_lkup_add_spec_witness :
  exists rc s', run (mac_lkup_add 1 0x001122334455 7) lkup0 = Some (rc, s') /\
    wf_lkup s' /\ mac_lkup_tbl_lock s' = mac_lkup_tbl_lock lkup0 /\
    (rc = 0 /\ lkup_find 0x001122334455 s' = Some (used_result 7) \/
     rc = 1 /\ s' = lkup0 /\ bucket_full 0x001122334455 lkup0) /\
    (bucket_full 0x001122334455 lkup0 -> rc = 1) /\
    forall mac', fits 48 mac' -> mac' <> 0x001122334455 ->
      lkup_find mac' s' = lkup_find mac' lkup0.
Proof.
  apply (mac_lkup_add_spec 0).
  - apply lkup0_wf.
  - apply lkup0_unlocked. by vm_compute.
  - by unfold fits.
Defined.

Lemma mac_lkup_del_spec_witness :
  exists rc s', run (mac_lkup_del 1 0x001122334455) lkup0 = Some (rc, s') /\
    wf_lkup s' /\ mac_lkup_tbl_lock s' = mac_lkup_tbl_lock lkup0 /\
    (lkup_find 0x001122334455 lkup0 = None /\ rc = 1 /\ s' = lkup0 \/
     is_Some (lkup_find 0x001122334455 lkup0) /\ rc = 0 /\
       (in_once 0x001122334455 lkup0 -> lkup_find 0x001122334455 s' = None)) /\
    forall mac', fits 48 mac' -> mac' <> 0x001122334455 ->
      lkup_find mac' s' = lkup_find mac' lkup0.
Proof.
  apply (mac_lkup_del_spec 0).
  - apply lkup0_wf.
  - apply lkup0_unlocked. by vm_compute.
  - by unfold fits.
Defined.

(** Two MACs of the same bucket. *)
Definition mac_a : Z := 0x02154d000400.
Definition mac_b : Z := 0x02154d000800.

(** add A; add B; delete A; add B; delete B *)
Definition add_again : prog Z :=
  _ ← mac_lkup_add 1 mac_a 1; _ ← mac_lkup_add 1 mac_b 2;
  _ ← mac_lkup_del 1 mac_a; _ ← mac_lkup_add 1 mac_b 3; mac_lkup_del 1 mac_b.

(** the header says that adding a MAC that is in the table overwrites its
    result.  The search of [mac_lkup_add] stops at the first free entry, so
    after a deletion a MAC that has a later entry gets a second one: deleting
    it then succeeds, and the table still answers its old result. *)
Theorem mac_lkup_add_duplicates :
  (r ← run add_again lkup0; Some (r.1, lkup_find mac_b (r.2))) =
  Some (0, Some (used_result 2)).
Proof. vm_compute. reflexivity. Qed.

(** Two threads call [mac_lkup_add] for MACs of bucket 5; the first has taken
    the lock and read the first line, the second has tried. *)
Definition two_adds : gmap nat (prog Z) :=
  {[1%nat := mac_lkup_add 2 5 7; 2%nat := mac_lkup_add 2 0x405 8]}.

(** The steps of the threads of a list, as a function. *)
Fixpoint schedule (l : list nat) (c : conf) : option conf :=
  match l with
  | [] => Some c
  | t :: l => p ← c.2 !! t; r ← step_prog p (c.1); schedule l (r.2, <[t := r.1]> (c.2))
  end.

Lemma schedule_steps l s th c :
  schedule l (s, th) = Some c -> rtc lk_steps (s, th) c.
Proof.
  revert s th. induction l as [|t l IH]; intros s th Hl; simpl in Hl; [simplify_eq; done|].
  destruct (th !! t) as [p|] eqn:Hp; [|done]. cbn in Hl.
  destruct (step_prog p s) as [[p' s']|] eqn:Hs; [|done]. cbn in Hl.
  eapply rtc_l; [exists t; by eapply step_next|]. by apply IH.
Qed.

Lemma two_adds_reached : rtc lk_steps (lkup0, ∅) (lkup0, two_adds).
Proof.
  eapply rtc_l; [exists 2%nat; by apply (step_add 2 _ _ 2 0x405 8)|].
  eapply rtc_once. exists 1%nat. by apply (step_add 1 _ _ 2 5 7).
Qed.

Lemma lkup0_free i : in_table i -> lock_bit lkup0 i = false.
Proof.
  intros Hi. destruct (lkup0_unlocked i Hi) as (w & Hw & _).
  unfold lock_bit. rewrite Hw. simpl. unfold lock_word, lkup0 in Hw; simpl in Hw.
  apply (lookup_replicate 32) in Hw as [-> _]. apply Z.testbit_0_l.
Qed.

(** The words of the locks, and who works on bucket 5. *)
Definition works5 (c : conf) : list Z * option bool * option bool :=
  let w t := (fun p => match p with ReadBucket j _ => j =? 5 | _ => false end) <$> c.2 !! t in
  (take 1 (mac_lkup_tbl_lock (c.1)), w 1%nat, w 2%nat).

Lemma two_adds_run :
  works5 <$> schedule [1; 2]%nat (lkup0, two_adds) = Some ([32], Some true, Some false).
Proof. vm_compute. reflexivity. Qed.

Lemma mac_lkup_mutual_exclusion_witness :
  exists c, rtc lk_steps (lkup0, ∅) c /\ working c 1 5 /\
    (forall t', working c t' 5 -> 1%nat = t') /\ lock_bit (c.1) 5 = true /\
    exists c', rtc (lk_step 1) c c' /\ lock_bit (c'.1) 5 = false.
Proof.
  pose proof two_adds_run as Hr.
  destruct (schedule [1; 2]%nat (lkup0, two_adds)) as [c|] eqn:Hc; [|discriminate].
  assert (Hs : rtc lk_steps (lkup0, ∅) c)
    by (transitivity (lkup0, two_adds); [apply two_adds_reached|by eapply schedule_steps]).
  assert (Hw : working c 1 5).
  { unfold works5 in Hr. simpl in Hr. injection Hr as _ Hr _. unfold working.
    destruct (c.2 !! 1%nat) as [p|]; [|discriminate]. exists p. split; [reflexivity|].
    destruct p; try discriminate. injection Hr as Hr. by apply Z.eqb_eq in Hr. }
  destruct (mac_lkup_mutual_exclusion lkup0 c lkup0_wf lkup0_free Hs) as (HX & HB & _ & HE).
  exists c. split; [exact Hs|]. split; [exact Hw|]. split; [|split].
  - intros t'. by apply HX.
  - apply HB; [split; reflexivity || discriminate|]. by exists 1%nat.
  - by apply HE.
Defined.
