(* ===== verification/Control.v ===== *)
(** * Reconfiguration of a vNIC: apps/nic/app_control_lib.c

    The master handles one configuration message at a time: it checks what the
    host asks for against what the vNIC may ask, brings the vNIC up or down
    with the operations of Config.v, and adjusts the MAC and the link state
    that the host sees.  The waits of the code are recorded in [bus]; what the
    link state context does meanwhile is in Master.v. *)

From S2P Require Import Prelude Platform UserCfg Nfd Machine AppPrivate Bus Link Bpf Tables ActionList Builders NicTables Veb Config.

(** Link rates: apps/nic/app_master_main.c *)
Definition NFP_NET_CFG_STS_LINK_RATE_SHIFT : Z := 1.
Definition NFP_NET_CFG_STS_LINK_RATE_UNSUPPORTED : Z := 0.
Definition NFP_NET_CFG_STS_LINK_RATE_UNKNOWN : Z := 1.
Definition NFP_NET_CFG_STS_LINK_RATE_1G : Z := 2.
Definition NFP_NET_CFG_STS_LINK_RATE_10G : Z := 3.
Definition NFP_NET_CFG_STS_LINK_RATE_25G : Z := 4.
Definition NFP_NET_CFG_STS_LINK_RATE_40G : Z := 5.
Definition NFP_NET_CFG_STS_LINK_RATE_50G : Z := 6.
Definition NFP_NET_CFG_STS_LINK_RATE_100G : Z := 7.

Definition TMQ_DRAIN_RETRIES : Z := 15.

Definition port_speed_to_link_rate (port_speed : Z) : Z :=
  if port_speed =? 1 then NFP_NET_CFG_STS_LINK_RATE_1G
  else if port_speed =? 10 then NFP_NET_CFG_STS_LINK_RATE_10G
  else if port_speed =? 25 then NFP_NET_CFG_STS_LINK_RATE_25G
  else if port_speed =? 40 then NFP_NET_CFG_STS_LINK_RATE_40G
  else if port_speed =? 50 then NFP_NET_CFG_STS_LINK_RATE_50G
  else if port_speed =? 100 then NFP_NET_CFG_STS_LINK_RATE_100G
  else NFP_NET_CFG_STS_LINK_RATE_UNSUPPORTED.

(** [struct nfd_cfg_msg], the fields that the code uses *)
Record nfd_cfg_msg := mk_cfg_msg { msg_valid : Z; error : Z; msg_vid : Z }.

#[export] Instance set_error : Setter error := _.
#[export] Instance set_msg_valid : Setter msg_valid := _.

(** Bytes of the memory, the first of a word its upper one. *)
Definition get_byte (a : Z) (m : gmap Z Z) : Z :=
  bf_get (24 - 8 * (a mod 4)) 8 (rd m (a - a mod 4)).
Definition set_byte (a v : Z) (m : gmap Z Z) : gmap Z Z :=
  <[a - a mod 4 := bf_set (24 - 8 * (a mod 4)) 8 v (rd m (a - a mod 4))]> m.

Definition set_bytes (a : Z) (vs : list Z) (m : gmap Z Z) : gmap Z Z :=
  foldl (fun m p => set_byte (a + p.1) p.2 m) m (zip (seqZ 0 (Z.of_nat (length vs))) vs).

Definition mem_write8 (a : Z) (vs : list Z) : C unit :=
  modify (fun s => s <| emem ::= set_bytes a vs |>).

(** A 32-bit value whose first byte is its lowest one. *)
Definition mem_read32_le (a : Z) : C Z :=
  get (fun s => Z.lor (Z.lor (get_byte a (emem s)) (Z.shiftl (get_byte (a + 1) (emem s)) 8))
    (Z.lor (Z.shiftl (get_byte (a + 2) (emem s)) 16) (Z.shiftl (get_byte (a + 3) (emem s)) 24))).

Definition le_bytes (n : nat) (v : Z) : list Z :=
  (fun i => bf_get (8 * Z.of_nat i) 8 v) <$> seq 0 n.
Definition mem_write8_le (a v : Z) (n : nat) : C unit := mem_write8 a (le_bytes n v).

(** The bytes of words, upper byte first. *)
Definition be_bytes (ws : list Z) : list Z :=
  ws ≫= fun w => [bf_get 24 8 w; bf_get 16 8 w; bf_get 8 8 w; bf_get 0 8 w].

Section control.
Context {B : build} `{NetCfg, Vids, VfCfg, App, Devices, Xpb, BpfCfg}.

(** Bound on the polls of the MAC and of the engines. *)
Context (fuel : nat).

Definition TCLK : Z := NS_PLATFORM_TCLK (board B).
Definition mac_of (port : Z) : Z := NS_PLATFORM_MAC (board B) port.
Definition core_of (port : Z) : Z := NS_PLATFORM_MAC_CORE (board B) port.
Definition core_port_of (port : Z) : Z := NS_PLATFORM_MAC_CORE_SERDES_LO (board B) port.
Definition speed_of (port : Z) : Z := NS_PLATFORM_PORT_SPEED (board B) port.
Definition is_1ge (port : Z) : Z := if speed_of port >? 1 then 0 else 1.

Definition nic_control_check_up (vid : Z) : C Z :=
  up_test ← for_fold (range 0 NFD_MAX_ISL) 0 (fun up_test pcie =>
    w ← get_nic_control_word pcie vid;
    mret (Z.lor up_test w));
  mret (Z.land up_test NFP_NET_CFG_CTRL_ENABLE).

(** ** Ports *)

Definition disable_port_tx_datapath (nbi start_q end_q : Z) : C unit :=
  for_each (range start_q (end_q + 1)) (nbi_tm_disable_queue nbi).

Definition enable_port_tx_datapath (nbi start_q end_q : Z) : C unit :=
  for_each (range start_q (end_q + 1)) (nbi_tm_enable_queue nbi).

(** [mac_eth_port_link_state] of the port's MAC *)
Definition port_link_state (port : Z) : C link_state :=
  mac_eth_port_link_state (mac_of port) (NS_PLATFORM_MAC_SERDES_LO (board B) port) (is_1ge port).

Definition port_check_rx_enable (port : Z) : C Z :=
  mac_eth_check_rx_enable (mac_of port) (core_of port) (core_port_of port).

(** Give up after ten tries. *)
Definition process_pf_reconfig_wait_link_up (port : Z) : C unit :=
  _ ← for_ret (range 0 10) (fun _ =>
    rx_enabled ← port_check_rx_enable port;
    link_up ← port_link_state port;
    _ ← sleep (200 * TCLK * 1000);
    mret (if truthy rx_enabled && truthy (ls2z link_up) then Some tt else None));
  mret tt.

(** One round: are packets left in one of the queues of the port? *)
Definition tmq_occupied (port : Z) : C bool :=
  r ← for_ret (range (NS_PLATFORM_NBI_TM_QID_LO (board B) port)
                 (NS_PLATFORM_NBI_TM_QID_HI (board B) port + 1)) (fun queue =>
    queuelevel ← tmq_status_read (mac_of port) queue;
    mret (if truthy queuelevel then Some tt else None));
  mret (if r is Some _ then true else false).

Definition process_pf_reconfig_tmq_drain (port : Z) : C unit :=
  _ ← for_ret (range 0 TMQ_DRAIN_RETRIES) (fun _ =>
    occupied ← tmq_occupied port;
    _ ← sleep (TCLK * 1000);
    mret (if negb occupied then Some tt else None));
  mret tt.

Definition mac_port_enable_rx (port : Z) : C unit :=
  _ ← LOCAL_MUTEX_LOCK;
  _ ← mac_eth_enable_rx (mac_of port) (core_of port) (core_port_of port);
  LOCAL_MUTEX_UNLOCK.

Definition mac_port_disable_rx (port : Z) : C Z :=
  _ ← LOCAL_MUTEX_LOCK;
  result ← mac_eth_disable_rx TCLK fuel (mac_of port) (core_of port) (core_port_of port)
             (NS_PLATFORM_MAC_NUM_SERDES (board B) port);
  _ ← LOCAL_MUTEX_UNLOCK;
  mret result.

Definition mac_port_enable_tx (port : Z) : C unit :=
  _ ← LOCAL_MUTEX_LOCK;
  _ ← enable_port_tx_datapath (mac_of port) (NS_PLATFORM_NBI_TM_QID_LO (board B) port)
        (NS_PLATFORM_NBI_TM_QID_HI (board B) port);
  LOCAL_MUTEX_UNLOCK.

Definition mac_port_disable_tx (port : Z) : C unit :=
  _ ← LOCAL_MUTEX_LOCK;
  _ ← disable_port_tx_datapath (mac_of port) (NS_PLATFORM_NBI_TM_QID_LO (board B) port)
        (NS_PLATFORM_NBI_TM_QID_HI (board B) port);
  LOCAL_MUTEX_UNLOCK.

Definition mac_port_enable_tx_flush (mac mac_core mac_core_port : Z) : C unit :=
  _ ← LOCAL_MUTEX_LOCK;
  _ ← mac_eth_enable_tx_flush mac mac_core mac_core_port;
  LOCAL_MUTEX_UNLOCK.

Definition mac_port_disable_tx_flush (mac mac_core mac_core_port : Z) : C unit :=
  _ ← LOCAL_MUTEX_LOCK;
  _ ← mac_eth_disable_tx_flush mac mac_core mac_core_port;
  LOCAL_MUTEX_UNLOCK.

(** ** Link state of a VF *)

Definition link_up_sts (port : Z) : Z :=
  Z.lor (Z.shiftl (port_speed_to_link_rate (speed_of port)) NFP_NET_CFG_STS_LINK_RATE_SHIFT) 1.
Definition link_down_sts : Z :=
  Z.shiftl NFP_NET_CFG_STS_LINK_RATE_UNKNOWN NFP_NET_CFG_STS_LINK_RATE_SHIFT.

Definition update_vf_lsc_list (pcie port vf_vid control mode : Z) : C unit :=
  let pf_vid := NFD_PF2VID port in
  let row := isl_row pcie in
  let ok := isl_ok pcie in
  orig_link_state ← LS_READ ls_current ok row vf_vid;
  pf_link_state ← LS_READ ls_current ok row pf_vid;
  let cfg_bar := nfd_cfg_bar_base pcie vf_vid in
  _ ← (if has control NFP_NET_CFG_CTRL_ENABLE then LS_SET vs_current ok row vf_vid
       else LS_CLEAR vs_current ok row vf_vid);
  _ ← (if mode =? NFD_VF_CFG_CTRL_LINK_STATE_AUTO
       then LS_SET vf_lsc_list (port_ok port pcie) (port_row port pcie) vf_vid
       else LS_CLEAR vf_lsc_list (port_ok port pcie) (port_row port pcie) vf_vid);
  _ ← for_each (range 0 (NS_PLATFORM_NUM_PORTS (board B))) (fun i =>
        when (negb (i =? port)) (LS_CLEAR vf_lsc_list (port_ok i pcie) (port_row i pcie) vf_vid));
  sts ← (if (mode =? NFD_VF_CFG_CTRL_LINK_STATE_ENABLE) || truthy pf_link_state then
           _ ← LS_SET ls_current ok row vf_vid;
           mret (link_up_sts port)
         else
           _ ← LS_CLEAR ls_current ok row vf_vid;
           mret link_down_sts);
  _ ← mem_write32 (cfg_bar + NFP_NET_CFG_STS) sts;
  ctrl ← mem_read32 (cfg_bar + NFP_NET_CFG_CTRL);
  when (has ctrl NFP_NET_CFG_CTRL_ENABLE) (LS_SET pending ok row vf_vid).

(** ** The mailbox of the PF *)

Definition handle_sriov_update (pcie : Z) : C unit :=
  let vf_mb_base := vf_cfg_base_mb pcie in
  sriov_mb_data ← mem_read32s vf_mb_base (Z.to_nat (sizeof_sriov_mb / 4));
  _ ← when (has (mb_update_flags sriov_mb_data) NFD_VF_CFG_MB_CAP_MAC)
        (sriov_cfg_data ← read_sriov_cfg pcie (mb_vf sriov_mb_data);
         w0 ← of_option (sriov_cfg_data !! 0%nat);
         w1 ← of_option (sriov_cfg_data !! 1%nat);
         mem_write8 (nfd_cfg_bar_base pcie (mb_vf sriov_mb_data) + NFP_NET_CFG_MACADDR)
           (take (Z.to_nat NFD_VF_CFG_MAC_SZ) (be_bytes [w0; w1])));
  mem_write8_le (vf_mb_base + NFD_VF_CFG_MB_RET_ofs) 0 2.

(** ** Messages

    A handler returns its result and the message with its error flag. *)

Definition fail (msg : nfd_cfg_msg) : C (Z * nfd_cfg_msg) := mret (1, msg <| error := 1 |>).

(** [x & ~(cap)] *)
Definition exceeds (x cap : Z) : bool := has x (u32 (Z.lnot cap)).

Definition process_ctrl_reconfig (pcie control vid : Z) (cfg_msg : nfd_cfg_msg)
    : C (Z * nfd_cfg_msg) :=
  if exceeds control NFD_CFG_CTRL_CAP then fail cfg_msg
  else
    acts ← cfg_act_build_ctrl pcie vid;
    _ ← cfg_act_write_host pcie vid acts;
    let link_state :=
      if negb (truthy (error cfg_msg)) && has control NFP_NET_CFG_CTRL_ENABLE
      then NFP_NET_CFG_STS_LINK else 0 in
    _ ← mem_write32 (nfd_cfg_bar_base pcie (msg_vid cfg_msg) + NFP_NET_CFG_STS) link_state;
    _ ← set_nic_control_word pcie vid control;
    mret (0, cfg_msg).

(** The loop that brings up the VFs that are enabled: 1 if there is one. *)
Definition pf_vfs_up (pcie control : Z) : C (Z + Z) :=
  for_fold_ret (range 0 (NFD_MAX_VFS B)) 0 (fun veb_up i =>
    w ← get_nic_control_word pcie (NFD_VF2VID i);
    if has w NFP_NET_CFG_CTRL_ENABLE then
      r ← cfg_act_vf_up pcie (NFD_VF2VID i) control w 0;
      mret (if truthy r then inl 1 else inr 1)
    else mret (inr veb_up)).

(** The loop that takes all VFs down. *)
Definition pf_vfs_down (pcie : Z) : C (option Z) :=
  for_ret (range 0 (NFD_MAX_VFS B)) (fun i =>
    r ← cfg_act_vf_down pcie (NFD_VF2VID i);
    mret (if truthy r then Some 1 else None)).

(** The part of [process_pf_reconfig] that disables the PF. *)
Definition pf_disable (pcie vid port : Z) (cfg_msg : nfd_cfg_msg) : C (Z * nfd_cfg_msg) :=
  up ← nic_control_check_up vid;
  stopped ← (if negb (truthy up) then mac_port_disable_rx port else mret 1);
  if negb (truthy stopped) then fail cfg_msg
  else
    _ ← sleep (10 * TCLK * 1000);
    _ ← cfg_act_pf_down pcie vid;
    r ← pf_vfs_down pcie;
    match r with
    | Some _ => fail cfg_msg
    | None =>
        _ ← process_pf_reconfig_tmq_drain port;
        mret (0, cfg_msg)
    end.

(** The part that brings the PF and the enabled VFs up: 1 on failure. *)
Definition pf_enable (pcie control update vid : Z) : C Z :=
  v ← pf_vfs_up pcie control;
  match v with
  | inl _ => mret 1
  | inr veb_up => cfg_act_pf_up pcie vid veb_up control update
  end.

Definition process_pf_reconfig (pcie control update vid vnic : Z) (cfg_msg : nfd_cfg_msg)
    : C (Z * nfd_cfg_msg) :=
  let port := vnic in
  if exceeds control (NFD_CFG_PF_CAP B) then fail cfg_msg
  else if exceeds update NFD_CFG_PF_LEGAL_UPD then fail cfg_msg
  else
    _ ← when (has update NFP_NET_CFG_UPDATE_BPF) (nic_local_bpf_reconfig fuel vid vnic);
    _ ← when (has update NFP_NET_CFG_UPDATE_VF) (handle_sriov_update pcie);
    failed ← (if has control NFP_NET_CFG_CTRL_ENABLE then pf_enable pcie control update vid
              else mret 0);
    if truthy failed then fail cfg_msg
    else
      nic_control_word_prev ← get_nic_control_word pcie vid;
      _ ← set_nic_control_word pcie vid control;
      if has (Z.lxor nic_control_word_prev control) NFP_NET_CFG_CTRL_ENABLE then
        if has control NFP_NET_CFG_CTRL_ENABLE then
          _ ← sleep (50 * TCLK * 1000);
          _ ← process_pf_reconfig_wait_link_up port;
          mret (0, cfg_msg)
        else pf_disable pcie vid port cfg_msg
      else mret (0, cfg_msg).

(** [NFD_VF2VID(vf)] of an enabled VF? *)
Definition any_vf_up (pcie : Z) : C Z :=
  r ← for_ret (range 0 (NFD_MAX_VFS B)) (fun vf =>
    w ← get_nic_control_word pcie (NFD_VF2VID vf);
    mret (if has w NFP_NET_CFG_CTRL_ENABLE then Some 1 else None));
  mret (default 0 r).

Definition process_vf_reconfig (pcie control update vid : Z) (cfg_msg : nfd_cfg_msg)
    : C (Z * nfd_cfg_msg) :=
  if exceeds control NFD_CFG_VF_CAP then fail cfg_msg
  else if exceeds update NFD_CFG_VF_LEGAL_UPD then fail cfg_msg
  else
    _ ← set_nic_control_word pcie vid control;
    sriov_cfg_data ← read_sriov_cfg pcie (NFD_VID2VF vid);
    (* None: the message fails; otherwise veb_up and ls_mode *)
    r ← (if has control NFP_NET_CFG_CTRL_ENABLE then
      pf_word ← get_nic_control_word pcie (NFD_PF2VID 0);
      if negb (has pf_word NFP_NET_CFG_CTRL_ENABLE) then mret None
      else
        r ← cfg_act_vf_up pcie vid pf_word control update;
        mret (if truthy r then None else Some (1, sc_ctrl_link_state sriov_cfg_data))
    else
      let mac_addr := MAC64_FROM_SRIOV_CFG sriov_cfg_data in
      if has update NFP_NET_CFG_UPDATE_MACADDR &&
         (truthy mac_addr && negb (truthy (sc_ctrl_trusted sriov_cfg_data))) then mret None
      else
        r ← cfg_act_vf_down pcie vid;
        if truthy r then mret None
        else
          veb_up ← any_vf_up pcie;
          mret (Some (veb_up, NFD_VF_CFG_CTRL_LINK_STATE_DISABLE)));
    match r with
    | None => fail cfg_msg
    | Some (veb_up, ls_mode) =>
        pf_word ← get_nic_control_word pcie (NFD_PF2VID 0);
        r ← cfg_act_pf_up pcie (NFD_PF2VID 0) veb_up pf_word 0;
        if truthy r then fail cfg_msg
        else
          _ ← update_vf_lsc_list pcie 0 vid control ls_mode;
          mret (0, cfg_msg)
    end.

(** ** Next message *)

(** [NFD_PCIE<i>_EMEM] is defined: only one board uses more than one island. *)
Definition has_pcie (i : Z) : bool :=
  (i =? 0) || bool_decide (NS_PLATFORM_TYPE B = NS_PLATFORM_CADMIUM_DDR_1x50) &&
              (0 <? i) && (i <? 4).

Definition nfd_cfg_master_chk_cfg_msg (pcie : Z) (cfg_msg : nfd_cfg_msg) : C nfd_cfg_msg :=
  m ← get (fun s => cfg_msg_dev (bus s) pcie);
  _ ← emit (CfgMsgPoll pcie m);
  mret (match m with
        | Some (vid, err) => mk_cfg_msg 1 err vid
        | None => cfg_msg
        end).

(** [cfg_msg_pcie] is a static variable: its value before, and after.  The
    result is 0 when there is a message. *)
Definition next_nfd_cfg_msg (cfg_msg_pcie : Z) (cfg_msg : nfd_cfg_msg)
    : C (Z * Z * Z * nfd_cfg_msg) :=
  let cfg_msg := cfg_msg <| error := 0 |> <| msg_valid := 0 |> in
  let cfg_msg_pcie := if (0 <=? cfg_msg_pcie) && (cfg_msg_pcie <? 4) then cfg_msg_pcie else 0 in
  cfg_msg ← (if has_pcie cfg_msg_pcie then nfd_cfg_master_chk_cfg_msg cfg_msg_pcie cfg_msg
             else mret cfg_msg);
  let ret := if truthy (msg_valid cfg_msg) && negb (truthy (error cfg_msg)) then 0 else 1 in
  mret (ret, cfg_msg_pcie, cfg_msg_pcie + 1, cfg_msg).
End control.

(** * Properties *)

Section proofs.
Context {B : build} `{NetCfg, Vids, VfCfg, App, Devices, Xpb, BpfCfg}.

(** ** Refused requests *)

(** What a vNIC of a type may ask for. *)
Definition request_ok (type : vnic_type) (control update : Z) : bool :=
  match type with
  | NFD_VNIC_TYPE_CTRL => negb (exceeds control NFD_CFG_CTRL_CAP)
  | NFD_VNIC_TYPE_PF =>
      negb (exceeds control (NFD_CFG_PF_CAP B)) && negb (exceeds update NFD_CFG_PF_LEGAL_UPD)
  | NFD_VNIC_TYPE_VF =>
      negb (exceeds control NFD_CFG_VF_CAP) && negb (exceeds update NFD_CFG_VF_LEGAL_UPD)
  end.

Lemma ctrl_refused pcie control vid msg s :
  request_ok NFD_VNIC_TYPE_CTRL control 0 = false ->
  process_ctrl_reconfig pcie control vid msg s = Some ((1, msg <| error := 1 |>), s).
Proof.
  unfold process_ctrl_reconfig. simpl. by destruct (exceeds _ _).
Qed.

Lemma pf_refused fuel pcie control update vid vnic msg s :
  request_ok NFD_VNIC_TYPE_PF control update = false ->
  process_pf_reconfig fuel pcie control update vid vnic msg s =
    Some ((1, msg <| error := 1 |>), s).
Proof.
  unfold process_pf_reconfig. simpl.
  destruct (exceeds control _); [done|]. by destruct (exceeds update _).
Qed.

Lemma vf_refused pcie control update vid msg s :
  request_ok NFD_VNIC_TYPE_VF control update = false ->
  process_vf_reconfig pcie control update vid msg s = Some ((1, msg <| error := 1 |>), s).
Proof.
  unfold process_vf_reconfig. simpl.
  destruct (exceeds control _); [done|]. by destruct (exceeds update _).
Qed.

Lemma run_read_sriov_cfg pcie vf s :
  read_sriov_cfg pcie vf s =
    Some (words (vf_cfg_base_vf pcie vf) (Z.to_nat (sizeof_sriov_cfg / 4)) s, s).
Proof. done. Qed.

(** Some island has the vNIC enabled, by the control words [words]. *)
Definition vnic_up (vid : Z) (words : gmap (Z * Z) Z) : bool :=
  existsb (fun p => has (rd words (p, vid)) NFP_NET_CFG_CTRL_ENABLE) (range 0 NFD_MAX_ISL).

Lemma run_check_up vid s : 0 <= vid < NVNICS B NFD_MAX_CTRL ->
  exists up, nic_control_check_up vid s = Some (up, s) /\ truthy up = vnic_up vid (nic_control_word s).
Proof.
  intros Hvid. unfold nic_control_check_up, vnic_up.
  assert (Hl : forall i, i ∈ range 0 NFD_MAX_ISL -> 0 <= i < NFD_MAX_ISL) by (by intros i Hi%elem_of_range).
  revert Hl. generalize (range 0 NFD_MAX_ISL). intros l Hl.
  assert (Hf : forall acc, exists up, for_fold l acc (fun up_test pcie =>
      w ← get_nic_control_word pcie vid; mret (Z.lor up_test w)) s = Some (up, s) /\
    has up NFP_NET_CFG_CTRL_ENABLE = has acc NFP_NET_CFG_CTRL_ENABLE ||
      existsb (fun p => has (rd (nic_control_word s) (p, vid)) NFP_NET_CFG_CTRL_ENABLE) l).
  { induction l as [|x l IH]; intros acc.
    - exists acc. split; [done|]. by rewrite orb_false_r.
    - cbn [for_fold existsb]. rewrite !run_assoc.
      erewrite run_some by (apply run_get_nic_control_word; [apply Hl, list_elem_of_here|done]).
      cbv beta. rewrite run_ret.
      destruct (IH (fun i Hi => Hl i (list_elem_of_further _ _ _ Hi))
        (Z.lor acc (rd (nic_control_word s) (x, vid)))) as (up & Hrun & Hup).
      exists up. split; [exact Hrun|]. rewrite Hup, orb_assoc. f_equal.
      by rewrite has_lor. }
  destruct (Hf 0) as (up & Hrun & Hup). erewrite run_some by exact Hrun. cbv beta.
  exists (Z.land up NFP_NET_CFG_CTRL_ENABLE). split; [done|exact Hup].
Qed.
Context `{!VidsOk B}.

Lemma pf0_vid : 0 <= NFD_PF2VID 0 < NVNICS B NFD_MAX_CTRL.
Proof. apply pf_vid. pose proof (sizes_facts B). lia. Qed.

(** C32: requests of a virtual function that the master refuses.  A VF cannot
    come up while PF 0 is down, and a VF that is down and that the PF does not
    trust cannot change the MAC that the PF gave to it.  The message is
    answered with an error, no list, switch entry, VLAN member or status word
    changes, and the MAC and the engines are not touched; only the control
    word of the VF is recorded. *)
Theorem vf_reconfig_refused pcie control update vid msg s :
  0 <= pcie < NFD_MAX_ISL -> 0 <= vid < NVNICS B NFD_MAX_CTRL -> vid <> NFD_PF2VID 0 ->
  request_ok NFD_VNIC_TYPE_VF control update = true ->
  let cfg := words (vf_cfg_base_vf pcie (NFD_VID2VF vid)) (Z.to_nat (sizeof_sriov_cfg / 4)) s in
  let up := has control NFP_NET_CFG_CTRL_ENABLE in
  (up = true /\ has (rd (nic_control_word s) (pcie, NFD_PF2VID 0)) NFP_NET_CFG_CTRL_ENABLE = false \/
   up = false /\ has update NFP_NET_CFG_UPDATE_MACADDR = true /\
     MAC64_FROM_SRIOV_CFG cfg <> 0 /\ sc_ctrl_trusted cfg = 0) ->
  process_vf_reconfig pcie control update vid msg s =
    Some ((1, msg <| error := 1 |>), s <| nic_control_word ::= <[(pcie, vid) := control]> |>).
Proof.
  intros Hp Hv Hne Hok cfg up Hcase. unfold process_vf_reconfig.
  simpl in Hok. apply andb_true_iff in Hok as [Hc Hu].
  destruct (exceeds control _); [done|]. destruct (exceeds update _); [done|].
  erewrite run_some by by apply run_set_nic_control_word. cbv beta.
  erewrite run_some by apply run_read_sriov_cfg. cbv beta.
  change (words _ _ (s <| nic_control_word ::= _ |>)) with cfg. fold up.
  destruct Hcase as [[-> Hpf]|(-> & -> & Hmac & Htr)].
  - rewrite run_assoc. erewrite run_some by by apply run_get_nic_control_word, pf0_vid.
    st. rewrite rd_insert_ne by congruence. rewrite Hpf. cbn [negb]. by rewrite run_ret.
  - assert (Htm : truthy (MAC64_FROM_SRIOV_CFG cfg) = true)
      by (unfold truthy; by rewrite (proj2 (Z.eqb_neq _ 0))).
    rewrite Htr, Htm. simpl. by rewrite run_ret.
Qed.

(** ** Link state of a VF *)

(** Clearing the bit of a vNIC in the rows of some ports. *)
Lemma run_clear_ports pcie port vid (l : list Z) : forall s,
  0 <= pcie < NFD_MAX_ISL -> 0 <= vid < NVNICS B NFD_MAX_CTRL ->
  Forall (fun i => 0 <= i < NS_PLATFORM_NUM_PORTS (board B)) l ->
  exists m, for_each l (fun i =>
      when (negb (i =? port)) (LS_CLEAR vf_lsc_list (port_ok i pcie) (port_row i pcie) vid)) s =
      Some (tt, s <| vf_lsc_list := m |>) /\
    forall p e v, lsbit (port_row p e) m v = lsbit (port_row p e) (vf_lsc_list s) v &&
      negb (existsb (Z.eqb p) l && negb (p =? port) && (e =? pcie) && (v =? vid)).
Proof.
  intros s Hp Hv Hl. revert s. induction Hl as [|i l Hi Hl IH]; intros s.
  - exists (vf_lsc_list s). split; [by destruct s|]. intros p e v. by rewrite andb_true_r.
  - cbn [for_each existsb]. destruct (Z.eqb_spec i port) as [->|Hne]; cbn [negb].
    + destruct (IH s) as (m & Hrun & Hm). exists m. rewrite run_when_false. split; [done|].
      intros p e v. rewrite Hm.
      by destruct (p =? port), (existsb _ l), (e =? pcie), (v =? vid).
    + destruct (IH (s <| vf_lsc_list ::= ls_put (port_row i pcie) vid false |>))
        as (m & Hrun & Hm).
      exists m. rewrite run_when_true.
      erewrite run_some by (apply run_LS_CLEAR; [by apply port_ok_true|done]). cbv beta.
      split; [exact Hrun|]. intros p e v. rewrite Hm. st.
      destruct (decide ((p, e) = (i, pcie))) as [[= -> ->]|Hpe].
      * rewrite (lsbit_put (port_row i pcie)), !Z.eqb_refl, (proj2 (Z.eqb_neq i port)) by done.
        destruct (v =? vid), (existsb _ l); simpl; by rewrite ?andb_false_r, ?andb_true_r.
      * rewrite (ls_put_other (port_row i pcie)) by (intros ?? [= ? ?]; apply Hpe; congruence).
        destruct (Z.eqb_spec p i) as [->|]; [|done].
        rewrite (proj2 (Z.eqb_neq e pcie)) by congruence. by rewrite !andb_false_r.
Qed.

(** C35: update_vf_lsc_list.  The vNIC state bit of the VF becomes its enable
    flag; the VF follows the link of the port if its mode is automatic, and no
    other port; it is reported up, with the speed of the port, if its mode is
    "enable" or the link of the PF of the port is up, and down otherwise, in
    the status word that the host reads; and an interrupt is put on the list
    if the VF is enabled by its BAR.  No bit of another vNIC changes.  So a VF
    whose mode is "disable" is reported up whenever the PF's link is up. *)
Theorem update_vf_lsc_list_correct pcie port vid control mode s :
  0 <= pcie < NFD_MAX_ISL -> 0 <= port < NS_PLATFORM_NUM_PORTS (board B) ->
  0 <= NFD_PF2VID port < NVNICS B NFD_MAX_CTRL -> 0 <= vid < NVNICS B NFD_MAX_CTRL ->
  NFP_NET_CFG_CTRL <> NFP_NET_CFG_STS ->
  let row := isl_row pcie in
  let bar := nfd_cfg_bar_base pcie vid in
  let up := (mode =? NFD_VF_CFG_CTRL_LINK_STATE_ENABLE) ||
    lsbit row (ls_current s) (NFD_PF2VID port) in
  let irq := has (rd (emem s) (bar + NFP_NET_CFG_CTRL)) NFP_NET_CFG_CTRL_ENABLE in
  exists s', update_vf_lsc_list pcie port vid control mode s = Some (tt, s') /\
    s' = s <| vs_current := vs_current s' |> <| vf_lsc_list := vf_lsc_list s' |>
           <| ls_current := ls_current s' |> <| pending := pending s' |>
           <| emem ::= <[bar + NFP_NET_CFG_STS := if up then link_up_sts port else link_down_sts]> |> /\
    (forall v, lsbit row (vs_current s') v =
      if v =? vid then has control NFP_NET_CFG_CTRL_ENABLE else lsbit row (vs_current s) v) /\
    (forall v, lsbit row (ls_current s') v = if v =? vid then up else lsbit row (ls_current s) v) /\
    (forall v, lsbit row (pending s') v =
      if (v =? vid) && irq then true else lsbit row (pending s) v) /\
    (forall p e v, 0 <= p < NS_PLATFORM_NUM_PORTS (board B) ->
      lsbit (port_row p e) (vf_lsc_list s') v =
      if (e =? pcie) && (v =? vid) then (p =? port) && (mode =? NFD_VF_CFG_CTRL_LINK_STATE_AUTO)
      else lsbit (port_row p e) (vf_lsc_list s) v).
Proof.
  intros Hp Hport Hpf Hv Hoff row bar up irq.
  assert (Hok : isl_ok pcie = true) by by apply isl_ok_true.
  assert (Hpok : port_ok port pcie = true) by by apply port_ok_true.
  unfold update_vf_lsc_list. cbv zeta. fold row bar.
  erewrite run_some by by apply run_LS_READ. cbv beta.
  erewrite run_some by by apply run_LS_READ. cbv beta. rewrite truthy_b2z. fold up.
  erewrite run_some by by apply run_LS_PUT. cbv beta.
  erewrite run_some by by apply run_LS_PUT. cbv beta.
  match goal with |- context [_ (apply_update (mk_update vf_lsc_list ?f) ?x)] =>
    set (s2 := apply_update (mk_update vf_lsc_list f) x) end.
  edestruct (run_clear_ports pcie port vid (range 0 (NS_PLATFORM_NUM_PORTS (board B))) s2 Hp Hv)
    as (m & Hrun & Hm).
  { apply Forall_forall. intros x Hx%list_elem_of_In%elem_of_range. lia. }
  erewrite run_some by exact Hrun. cbv beta.
  assert (Hls : forall s, (if up then
      _ ← LS_SET ls_current (isl_ok pcie) row vid; mret (link_up_sts port)
    else
      _ ← LS_CLEAR ls_current (isl_ok pcie) row vid; mret link_down_sts) s =
    Some (if up then link_up_sts port else link_down_sts,
          s <| ls_current ::= ls_put row vid up |>)).
  { intros s1. destruct up.
    - by erewrite run_some by by apply run_LS_SET.
    - by erewrite run_some by by apply run_LS_CLEAR. }
  erewrite run_some by apply Hls. cbv beta.
  unfold mem_write32, mem_read32. runs. st.
  rewrite rd_insert_ne by lia. fold irq.
  assert (Hirq : forall s, when irq (LS_SET pending (isl_ok pcie) row vid) s =
    Some (tt, s <| pending ::= if irq then ls_put row vid true else id |>)).
  { intros s1. destruct irq; [by apply run_LS_SET|by destruct s1]. }
  rewrite Hirq. eexists. split; [reflexivity|]. st. subst s2. st.
  split; [by destruct s|]. repeat split; intros.
  - apply lsbit_put, _.
  - apply lsbit_put, _.
  - destruct irq; simpl; [|by rewrite andb_false_r].
    rewrite (lsbit_put row). by destruct (v =? vid).
  - assert (Hex : existsb (Z.eqb p) (range 0 (NS_PLATFORM_NUM_PORTS (board B))) = true).
    { apply existsb_exists. exists p. split; [|apply Z.eqb_refl].
      by apply list_elem_of_In, elem_of_range. }
    rewrite Hm, Hex. st. destruct (decide ((p, e) = (port, pcie))) as [[= -> ->]|Hne].
    + rewrite (lsbit_put (port_row port pcie)), !Z.eqb_refl. simpl. by rewrite andb_true_r.
    + rewrite (ls_put_other (port_row port pcie)) by (intros ?? [= ? ?]; apply Hne; congruence).
      destruct (Z.eqb_spec e pcie) as [->|]; simpl;
        [|by rewrite ?andb_false_r, ?andb_true_r].
      rewrite (proj2 (Z.eqb_neq p port)) by congruence.
      destruct (v =? vid); simpl; by rewrite ?andb_false_r, ?andb_true_r.
Qed.
End proofs.

Section checks.
Import Demo Mac Engines.

Lemma vf_reconfig_refused_witness :
  process_vf_reconfig 0 1 0 3 (mk_cfg_msg 1 0 3) nic0 =
    Some ((1, mk_cfg_msg 1 1 3), nic0 <| nic_control_word ::= <[(0, 3) := 1]> |>).
Proof.
  apply (vf_reconfig_refused 0 1 0 3 (mk_cfg_msg 1 0 3) nic0);
    [by vm_compute|by vm_compute|by vm_compute|by vm_compute|].
  left. split; by vm_compute.
Defined.

Lemma update_vf_lsc_list_correct_witness :
  exists s', update_vf_lsc_list 0 1 3 1 NFD_VF_CFG_CTRL_LINK_STATE_ENABLE nic0 = Some (tt, s') /\
    lsbit (isl_row 0) (ls_current s') 3 = true.
Proof.
  destruct (update_vf_lsc_list_correct 0 1 3 1 NFD_VF_CFG_CTRL_LINK_STATE_ENABLE nic0)
    as (s' & Hrun & _ & _ & Hls & _); [by vm_compute ..|].
  exists s'. split; [exact Hrun|]. by rewrite Hls.
Defined.
End checks.
