(* ===== verification/Master.v ===== *)
(** * The application master: apps/nic/app_master_main.c

    Two of its contexts share the state of Machine.v: one handles the
    configuration messages with the handlers of Control.v, the other watches
    the links, adjusts the ports to them and tells the host by an interrupt.
    Each round of their loops is a function of the state. *)

From S2P Require Import Prelude Platform UserCfg Nfd Machine AppPrivate Bus Link Bpf Tables Config Control.

Class MsixCfg := { PCIE_CPP2PCIE_LSC : Z }.

Definition LSC_POLL_PERIOD : Z := 10000.

Section master.
Context {B : build} `{NetCfg, Vids, VfCfg, App, Devices, Xpb, BpfCfg, MsixCfg}.
Context (fuel : nat).

(** Carbon boards poll their GPIO. *)
Definition DISABLE_GPIO_POLL : Z :=
  if bool_decide (NS_PLATFORM_TYPE B = NS_PLATFORM_CARBON \/
                  NS_PLATFORM_TYPE B = NS_PLATFORM_CARBON_1x10_1x25) then 0 else 1.

(** ** Link state *)

(** 0 when the interrupt is sent or the host asked for none, 1 when it has to
    wait. *)
Definition lsc_send (pcie vid : Z) : C Z :=
  let nic_ctrl_bar := nfd_cfg_bar_base pcie vid in
  tmp ← mem_read32_le (nic_ctrl_bar + NFP_NET_CFG_LSC);
  let entry := Z.land tmp 0xff in
  if entry =? 0xff then mret 0
  else
    w ← get_nic_control_word pcie vid;
    let automask := Z.land w NFP_NET_CFG_CTRL_MSIXAUTO in
    masked ← (if negb (truthy automask) then
      mask_r ← mem_read32_le (nic_ctrl_bar + NFP_NET_CFG_ICR entry);
      if has mask_r 0xff then mret true
      else
        _ ← mem_write8_le (nic_ctrl_bar + NFP_NET_CFG_ICR entry) NFP_NET_CFG_ICR_LSC 1;
        mret false
    else mret false);
    if (masked : bool) then mret 1
    else msix_pf_send pcie PCIE_CPP2PCIE_LSC entry automask.

(** [if (lsc_send(pcie, vid)) LS_SET(pending[pcie], vid);
     else LS_CLEAR(pending[pcie], vid);] *)
Definition send_or_pend (pcie vid : Z) : C unit :=
  r ← lsc_send pcie vid;
  if truthy r then LS_SET pending (isl_ok pcie) (isl_row pcie) vid
  else LS_CLEAR pending (isl_ok pcie) (isl_row pcie) vid.

Definition lsc_check_vf (pcie port : Z) (ls : link_state) : C unit :=
  for_each (range 0 (NVNICS B NFD_MAX_CTRL)) (fun vf_vid =>
    follows ← (if NFD_VID_IS_VF vf_vid
               then LS_READ vf_lsc_list (port_ok port pcie) (port_row port pcie) vf_vid
               else mret 0);
    when (truthy follows)
      (sts ← (if decide (ls = LINK_UP) then
                _ ← LS_SET ls_current (isl_ok pcie) (isl_row pcie) vf_vid;
                mret (link_up_sts port)
              else
                _ ← LS_CLEAR ls_current (isl_ok pcie) (isl_row pcie) vf_vid;
                mret link_down_sts);
       let vf_ctrl_bar := nfd_cfg_bar_base pcie vf_vid in
       _ ← mem_write32 (vf_ctrl_bar + NFP_NET_CFG_STS) sts;
       _ ← mem_read32 (vf_ctrl_bar + NFP_NET_CFG_CTRL);
       send_or_pend pcie vf_vid)).

(** The port forwards: receiver and queues on, flush off. *)
Definition port_enable (port : Z) : C unit :=
  _ ← mac_port_enable_rx port;
  _ ← mac_port_enable_tx port;
  mac_port_disable_tx_flush (mac_of port) (core_of port) (core_port_of port).

(** The MAC and the vNICs of the port against what was seen last: whether
    either changed, the link state to report, and the state of the vNICs. *)
Definition lsc_changes (pcie port : Z) : C (bool * link_state * Z) :=
  let pf_vid := NFD_PF2VID port in
  ls ← port_link_state port;
  ls_old ← LS_READ ls_current (isl_ok pcie) (isl_row pcie) pf_vid;
  let changed := negb (ls2z ls =? ls_old) in
  _ ← when changed
        (if truthy (ls2z ls) then LS_SET ls_current (isl_ok pcie) (isl_row pcie) pf_vid
         else LS_CLEAR ls_current (isl_ok pcie) (isl_row pcie) pf_vid);
  vs ← nic_control_check_up pf_vid;
  vs_old ← LS_READ vs_current (isl_ok pcie) (isl_row pcie) pf_vid;
  if negb (vs =? vs_old) then
    if truthy vs then
      _ ← LS_SET vs_current (isl_ok pcie) (isl_row pcie) pf_vid;
      mret (true, ls, vs)
    else
      _ ← LS_CLEAR vs_current (isl_ok pcie) (isl_row pcie) pf_vid;
      mret (true, LINK_DOWN, vs)
  else mret (changed, ls, vs).

Definition lsc_check (pcie port : Z) : C unit :=
  let pf_vid := NFD_PF2VID port in
  let nic_ctrl_bar := nfd_cfg_bar_base pcie pf_vid in
  x ← lsc_changes pcie port;
  let '(changed, ls, vs) := x in
  _ ← when changed
        (if decide (ls = LINK_DOWN)
         then mac_port_enable_tx_flush (mac_of port) (core_of port) (core_port_of port)
         else when (truthy vs) (port_enable port));
  w ← get_nic_control_word pcie pf_vid;
  sts ← (if bool_decide (ls = LINK_UP) && has w NFP_NET_CFG_CTRL_ENABLE then
           _ ← when (truthy vs)
                 (rx ← port_check_rx_enable port;
                  when (negb (truthy rx)) (port_enable port));
           mret (link_up_sts port)
         else mret (Z.lor link_down_sts 0));
  _ ← mem_write32 (nic_ctrl_bar + NFP_NET_CFG_STS) sts;
  _ ← mem_read32 (nic_ctrl_bar + NFP_NET_CFG_CTRL);
  pend ← LS_READ pending (isl_ok pcie) (isl_row pcie) pf_vid;
  w ← get_nic_control_word pcie pf_vid;
  when ((changed || truthy pend) && has w NFP_NET_CFG_CTRL_ENABLE)
    (_ ← send_or_pend pcie pf_vid;
     when changed (lsc_check_vf pcie port ls)).

Definition lsc_check_ports (pcie : Z) : C unit :=
  for_each (range 0 (NS_PLATFORM_NUM_PORTS (board B))) (lsc_check pcie).

Definition pending_step (pcie vid : Z) : C unit :=
  w ← get_nic_control_word pcie vid;
  if has w NFP_NET_CFG_CTRL_ENABLE then
    p ← LS_READ pending (isl_ok pcie) (isl_row pcie) vid;
    when (truthy p) (send_or_pend pcie vid)
  else LS_CLEAR pending (isl_ok pcie) (isl_row pcie) vid.

Definition handle_pending_interrupts (pcie : Z) : C unit :=
  for_each (range 0 (NVNICS B NFD_MAX_CTRL)) (pending_step pcie).

(** The PCIe islands of the build *)
Definition pcie_islands : list Z := List.filter has_pcie [0; 1; 2; 3].

(** [lsc_loop]: what precedes the loop, and one round of it from [lsc_count] *)
Definition lsc_loop_init : C Z :=
  _ ← for_each pcie_islands lsc_check_ports;
  mret 0.

Definition lsc_loop_round (lsc_count : Z) : C Z :=
  _ ← sleep LSC_POLL_PERIOD;
  let lsc_count := lsc_count + 1 in
  _ ← for_each pcie_islands handle_pending_interrupts;
  if lsc_count >? 19 then
    _ ← for_each pcie_islands lsc_check_ports;
    mret 0
  else mret lsc_count.

(** ** Configuration changes *)

Definition nfd_cfg_app_complete_cfg_msg (pcie : Z) (cfg_msg : nfd_cfg_msg) (bar_base : Z) : C unit :=
  emit (CfgMsgDone pcie (msg_vid cfg_msg) (error cfg_msg) bar_base).

(** The handler that the type of the vNIC selects. *)
Definition process_reconfig (pcie control update vid : Z) (cfg_msg : nfd_cfg_msg)
    : C (Z * nfd_cfg_msg) :=
  let '(type, vnic) := NFD_VID2VNIC vid in
  match type with
  | NFD_VNIC_TYPE_CTRL => process_ctrl_reconfig pcie control vid cfg_msg
  | NFD_VNIC_TYPE_PF => process_pf_reconfig fuel pcie control update vid vnic cfg_msg
  | NFD_VNIC_TYPE_VF => process_vf_reconfig pcie control update vid cfg_msg
  end.

(** One round of [cfg_changes_loop] from the value of the static variable of
    [next_nfd_cfg_msg] and the message of the round before. *)
Definition cfg_changes_round (cfg_msg_pcie : Z) (cfg_msg : nfd_cfg_msg) : C (Z * nfd_cfg_msg) :=
  x ← next_nfd_cfg_msg cfg_msg_pcie cfg_msg;
  let '(ret, pcie, cfg_msg_pcie, cfg_msg) := x in
  if ret =? 0 then
    let vid := msg_vid cfg_msg in
    control ← mem_read32 (nfd_cfg_bar_base pcie vid);
    update ← mem_read32 (nfd_cfg_bar_base pcie vid + 4);
    y ← process_reconfig pcie control update vid cfg_msg;
    let '(_, cfg_msg) := y in
    let cfg_msg := cfg_msg <| msg_valid := 0 |> in
    _ ← nfd_cfg_app_complete_cfg_msg pcie cfg_msg (nfd_cfg_bar_base pcie 0);
    mret (cfg_msg_pcie, cfg_msg)
  else mret (cfg_msg_pcie, cfg_msg).

(** ** Start *)

Definition mac_rx_disable : C unit :=
  _ ← for_each (range 0 (NS_PLATFORM_NUM_PORTS (board B))) (fun port =>
        _ ← mac_port_disable_rx fuel port; mret tt);
  sleep (Z.quot (TCLK * 1000000) 20).

(** nic_local_init does nothing in this build. *)
Definition init_nic : C unit :=
  _ ← init_nn_tables;
  upd_slicc_hash_table.
End master.

(** * Properties *)

(** The BARs of the vNICs do not overlap and are made of whole words, and the
    interrupt cause registers share no word with the LSC entry. *)
Class BarOk `{NetCfg, Vids} (bar_size : Z) : Prop := {
  bar_words pcie vid : nfd_cfg_bar_base pcie vid mod 4 = 0;
  bar_size_words : bar_size mod 4 = 0;
  bar_apart pcie vid vid' : vid <> vid' ->
    nfd_cfg_bar_base pcie vid + bar_size <= nfd_cfg_bar_base pcie vid' \/
    nfd_cfg_bar_base pcie vid' + bar_size <= nfd_cfg_bar_base pcie vid;
  lsc_inside : 0 <= NFP_NET_CFG_LSC < bar_size;
  icr_inside e : 0 <= e < 255 -> 0 <= NFP_NET_CFG_ICR e < bar_size;
  icr_not_lsc e : 0 <= e < 255 -> NFP_NET_CFG_ICR e / 4 <> NFP_NET_CFG_LSC / 4
}.

Section proofs.
Context {B : build} `{NetCfg, Vids, VfCfg, App, Devices, Xpb, BpfCfg, MsixCfg}.

Lemma lsc_byte a m :
  Z.land (Z.lor (Z.lor (get_byte a m) (Z.shiftl (get_byte (a + 1) m) 8))
    (Z.lor (Z.shiftl (get_byte (a + 2) m) 16) (Z.shiftl (get_byte (a + 3) m) 24))) 0xff =
  get_byte a m.
Proof.
  assert (Hb : forall a, fits 8 (get_byte a m)) by (intros; apply bf_get_fits; lia).
  pose proof (Hb a). pose proof (Hb (a + 1)). pose proof (Hb (a + 2)). pose proof (Hb (a + 3)).
  change 0xff with (Z.ones 8).
  generalize dependent (get_byte a m). generalize dependent (get_byte (a + 1) m).
  generalize dependent (get_byte (a + 2) m). generalize dependent (get_byte (a + 3) m).
  intros. zbits.
Qed.

Lemma get_set_byte_other x y v m : x - x mod 4 <> y - y mod 4 ->
  get_byte y (set_byte x v m) = get_byte y m.
Proof. intros Hne. unfold get_byte, set_byte. by rewrite rd_insert_ne. Qed.

(** The entry of the MSI-X table for link state changes. *)
Definition lsc_entry (pcie vid : Z) (m : gmap Z Z) : Z :=
  get_byte (nfd_cfg_bar_base pcie vid + NFP_NET_CFG_LSC) m.

Lemma lsc_entry_fits pcie vid m : 0 <= lsc_entry pcie vid m < 256.
Proof. unfold lsc_entry, get_byte. apply (bf_get_fits _ 8). lia. Qed.

Lemma lsc_entry_icr bar_size `{!BarOk bar_size} pcie vid vid' e v m : 0 <= e < 255 ->
  lsc_entry pcie vid (set_byte (nfd_cfg_bar_base pcie vid' + NFP_NET_CFG_ICR e) v m) =
  lsc_entry pcie vid m.
Proof.
  intros He. unfold lsc_entry. apply get_set_byte_other.
  pose proof (bar_words pcie vid). pose proof (bar_words pcie vid').
  pose proof lsc_inside. pose proof (icr_inside e He). pose proof (icr_not_lsc e He).
  pose proof bar_size_words.
  destruct (decide (vid = vid')) as [->|Hne].
  - Z.to_euclidean_division_equations. lia.
  - destruct (bar_apart pcie vid vid' Hne); Z.to_euclidean_division_equations; lia.
Qed.

Context `{!NetCfgOk, !VidsOk B}.

(** ** Interrupts *)

(** The mask mode that the host has asked for, and the interrupt cause byte of
    the entry that the host has configured in the memory [m] *)
Definition lsc_automask (pcie vid : Z) (s : nic) : Z :=
  Z.land (rd (nic_control_word s) (pcie, vid)) NFP_NET_CFG_CTRL_MSIXAUTO.
Definition icr_addr (pcie vid : Z) (m : gmap Z Z) : Z :=
  nfd_cfg_bar_base pcie vid + NFP_NET_CFG_ICR (lsc_entry pcie vid m).

(** What becomes of the interrupt of a vNIC, by its entry, mask mode and
    interrupt cause byte: the accesses, whether it has to wait, and whether the
    interrupt cause byte is written. *)
Inductive lsc_result (pcie entry automask icr : Z) : list bus_event -> bool -> bool -> Prop :=
  | lsc_not_asked : entry = 0xff -> lsc_result pcie entry automask icr [] false false
  | lsc_masked : entry <> 0xff -> automask = 0 -> icr <> 0 -> lsc_result pcie entry automask icr [] true false
  | lsc_sent r : entry <> 0xff -> automask <> 0 \/ icr = 0 ->
      lsc_result pcie entry automask icr [MsixSend pcie PCIE_CPP2PCIE_LSC entry automask r]
        (truthy r) (automask =? 0).

(** The interrupt of a vNIC, in the state [s] *)
Definition lsc_result_in (pcie vid : Z) (s : nic) : list bus_event -> bool -> bool -> Prop :=
  lsc_result pcie (lsc_entry pcie vid (emem s)) (lsc_automask pcie vid s)
    (get_byte (icr_addr pcie vid (emem s)) (emem s)).

Lemma lsc_wrote_entry pcie vid s h wait :
  lsc_result_in pcie vid s h wait true -> lsc_entry pcie vid (emem s) <> 0xff.
Proof. by inversion 1. Qed.

(** The interrupt cause byte at [a] is written, or not. *)
Definition icr_write (a : Z) (wrote : bool) (m : gmap Z Z) : gmap Z Z :=
  if wrote then set_byte a (bf_get 0 8 NFP_NET_CFG_ICR_LSC) m else m.

Lemma run_send_or_pend pcie vid s :
  0 <= pcie < NFD_MAX_ISL -> 0 <= vid < NVNICS B NFD_MAX_CTRL ->
  exists h wait wrote, send_or_pend pcie vid s =
      Some (tt, s <| emem := icr_write (icr_addr pcie vid (emem s)) wrote (emem s) |>
                  <| bus := h ++ bus s |>
                  <| pending ::= ls_put (isl_row pcie) vid wait |>) /\
    lsc_result_in pcie vid s h wait wrote.
Proof.
  intros Hp Hv. unfold send_or_pend, lsc_result_in, icr_addr.
  assert (Hsend : exists r h wrote, lsc_send pcie vid s =
      Some (r, s <| emem := icr_write (icr_addr pcie vid (emem s)) wrote (emem s) |> <| bus := h ++ bus s |>) /\
      lsc_result_in pcie vid s h (truthy r) wrote).
  { unfold lsc_send, mem_read32_le, lsc_result_in, icr_addr. cbv zeta. rewrite run_get, lsc_byte.
    fold (lsc_entry pcie vid (emem s)). set (entry := lsc_entry pcie vid (emem s)).
    destruct (Z.eqb_spec entry 0xff) as [Hff|Hff].
    { exists 0, [], false. split; [by destruct s|]. by apply lsc_not_asked. }
    erewrite run_some by by apply run_get_nic_control_word. cbv beta.
    fold (lsc_automask pcie vid s). set (automask := lsc_automask pcie vid s).
    unfold truthy at 1. destruct (Z.eqb_spec automask 0) as [Ham|Ham]; cbn [negb].
    - rewrite run_assoc, run_get. unfold has. rewrite lsc_byte.
      unfold truthy at 1. destruct (Z.eqb_spec (get_byte (nfd_cfg_bar_base pcie vid + NFP_NET_CFG_ICR entry) (emem s)) 0)
        as [Hicr|Hicr]; cbn [negb].
      2:{ rewrite run_ret. exists 1, [], false. split; [by destruct s|]. by apply lsc_masked. }
      rewrite run_assoc. unfold mem_write8_le, mem_write8. rewrite run_modify, run_ret.
      unfold msix_pf_send. rewrite run_get. set (r := msix_dev _ _ _ _ _).
      exists r, [MsixSend pcie PCIE_CPP2PCIE_LSC entry automask r], true. split.
      + unfold icr_write, set_bytes, le_bytes. simpl. rewrite Z.add_0_r. by destruct s.
      + rewrite <- (proj2 (Z.eqb_eq automask 0) Ham). apply lsc_sent; tauto.
    - rewrite run_ret. unfold msix_pf_send. rewrite run_get. set (r := msix_dev _ _ _ _ _).
      exists r, [MsixSend pcie PCIE_CPP2PCIE_LSC entry automask r], false.
      split; [by destruct s|]. rewrite <- (proj2 (Z.eqb_neq automask 0) Ham). apply lsc_sent; tauto. }
  destruct Hsend as (r & h & wrote & Hrun & Hres). exists h, (truthy r), wrote. split; [|exact Hres].
  erewrite run_some by exact Hrun. cbv beta. by rewrite run_LS_PUT by (done || by apply isl_ok_true).
Qed.

Definition enabled (pcie vid : Z) (s : nic) : bool :=
  has (rd (nic_control_word s) (pcie, vid)) NFP_NET_CFG_CTRL_ENABLE.

(** What a pass does for a vNIC: its interrupt is handled exactly if the vNIC is
    enabled and the interrupt is pending; otherwise none is pending after it. *)
Definition pending_result (pcie vid : Z) (s : nic) (h : list bus_event) (wait wrote : bool) : Prop :=
  if enabled pcie vid s && lsbit (isl_row pcie) (pending s) vid
  then lsc_result_in pcie vid s h wait wrote
  else h = [] /\ wait = false /\ wrote = false.

(** Pending bits of other vNICs and islands are kept. *)
Definition other_pending (pcie : Z) (l : list Z) (p p' : gmap (Z * Z) Z) : Prop :=
  (forall v, v ∉ l -> lsbit (isl_row pcie) p' v = lsbit (isl_row pcie) p v) /\
  forall pcie' v, pcie' <> pcie -> lsbit (isl_row pcie') p' v = lsbit (isl_row pcie') p v.

Lemma other_pending_put pcie vid b p : other_pending pcie [vid] p (ls_put (isl_row pcie) vid b p).
Proof.
  split.
  - intros v Hne%not_elem_of_cons. rewrite (lsbit_put (isl_row pcie)).
    by rewrite (proj2 (Z.eqb_neq v vid)) by tauto.
  - intros pcie' v Hne. apply ls_put_other. unfold isl_row. congruence.
Qed.

Lemma run_pending_step pcie vid s :
  0 <= pcie < NFD_MAX_ISL -> 0 <= vid < NVNICS B NFD_MAX_CTRL ->
  exists p h wrote, pending_step pcie vid s =
      Some (tt, s <| emem := icr_write (icr_addr pcie vid (emem s)) wrote (emem s) |>
                  <| bus := h ++ bus s |> <| pending := p |>) /\
    other_pending pcie [vid] (pending s) p /\
    pending_result pcie vid s h (lsbit (isl_row pcie) p vid) wrote.
Proof.
  intros Hp Hv. unfold pending_step, pending_result.
  erewrite run_some by by apply run_get_nic_control_word. cbv beta.
  unfold enabled. destruct (has (rd _ _) _); cbn [andb].
  - erewrite run_some by (apply run_LS_READ; [by apply isl_ok_true|done]). cbv beta.
    rewrite truthy_b2z. destruct (lsbit (isl_row pcie) (pending s) vid) eqn:Hb; cbn [when].
    + destruct (run_send_or_pend pcie vid s Hp Hv) as (h & wait & wrote & Hrun & Hres).
      exists (ls_put (isl_row pcie) vid wait (pending s)), h, wrote.
      split; [exact Hrun|]. split; [apply other_pending_put|].
      by rewrite (lsbit_put (isl_row pcie)), Z.eqb_refl.
    + exists (pending s), [], false. split; [by destruct s|]. by rewrite Hb.
  - rewrite run_LS_CLEAR by (done || by apply isl_ok_true).
    exists (ls_put (isl_row pcie) vid false (pending s)), [], false.
    split; [by destruct s|]. split; [apply other_pending_put|].
    by rewrite (lsbit_put (isl_row pcie)), Z.eqb_refl.
Qed.

(** *** A pass over the vNICs [l] *)

Section pass.
Context (bar_size : Z) `{!BarOk bar_size} (pcie : Z) (Hp : 0 <= pcie < NFD_MAX_ISL).

(** An interrupt cause byte is in no word of another vNIC. *)
Lemma icr_apart vid vid' e e' : 0 <= e < 255 -> 0 <= e' < 255 -> vid <> vid' ->
  let a := nfd_cfg_bar_base pcie vid + NFP_NET_CFG_ICR e in
  let a' := nfd_cfg_bar_base pcie vid' + NFP_NET_CFG_ICR e' in
  a - a mod 4 <> a' - a' mod 4.
Proof.
  clear Hp. intros He He' Hne a a'. unfold a, a'. clear a a'.
  pose proof (bar_words pcie vid). pose proof (bar_words pcie vid').
  pose proof (icr_inside e He). pose proof (icr_inside e' He'). pose proof bar_size_words.
  destruct (bar_apart pcie vid vid' Hne); Z.to_euclidean_division_equations; lia.
Qed.

(** What the results of the vNICs in [l] depend on is as in [s0]. *)
Record as_before (l : list Z) (s0 s : nic) : Prop := {
  before_control : nic_control_word s = nic_control_word s0;
  before_entry v : lsc_entry pcie v (emem s) = lsc_entry pcie v (emem s0);
  before_icr v : v ∈ l -> lsc_entry pcie v (emem s0) <> 0xff ->
    get_byte (icr_addr pcie v (emem s0)) (emem s) = get_byte (icr_addr pcie v (emem s0)) (emem s0);
  before_pending v : v ∈ l -> lsbit (isl_row pcie) (pending s) v = lsbit (isl_row pcie) (pending s0) v
}.

Lemma as_before_result l s0 s v h wait wrote : as_before l s0 s -> v ∈ l ->
  pending_result pcie v s h wait wrote -> pending_result pcie v s0 h wait wrote.
Proof.
  intros [Hc He Hi Hb] Hv. unfold pending_result, enabled, lsc_result_in, lsc_automask.
  assert (icr_addr pcie v (emem s) = icr_addr pcie v (emem s0)) as -> by (unfold icr_addr; by rewrite He).
  rewrite Hc, Hb, He by done. destruct (_ && _); [|done].
  specialize (Hi v Hv). intros [Hff|Hff Ham Hicr|r Hff Hor].
  - by apply lsc_not_asked.
  - apply lsc_masked; [done..|]. by rewrite <- Hi.
  - apply lsc_sent; [done|]. by rewrite <- Hi.
Qed.

Lemma wrote_entry v s h wait : pending_result pcie v s h wait true -> lsc_entry pcie v (emem s) <> 0xff.
Proof. unfold pending_result. destruct (_ && _); [apply lsc_wrote_entry|by intros (_ & _ & ?)]. Qed.

(** A step keeps it for the vNICs that come after. *)
Lemma as_before_step x l s0 s p h wrote wait : x ∉ l -> as_before (x :: l) s0 s ->
  other_pending pcie [x] (pending s) p -> pending_result pcie x s h wait wrote ->
  as_before l s0 (s <| emem := icr_write (icr_addr pcie x (emem s)) wrote (emem s) |>
    <| bus := h ++ bus s |> <| pending := p |>).
Proof.
  intros Hx [Hc He Hi Hb] [Hother _] Hres.
  assert (Hent : wrote = true -> 0 <= lsc_entry pcie x (emem s) < 255).
  { intros ->. apply wrote_entry in Hres. pose proof (lsc_entry_fits pcie x (emem s)). lia. }
  assert (He2 : forall v, lsc_entry pcie v (icr_write (icr_addr pcie x (emem s)) wrote (emem s)) =
    lsc_entry pcie v (emem s)).
  { intros v. unfold icr_write. destruct wrote; [|done]. apply (lsc_entry_icr bar_size). by apply Hent. }
  split; st.
  - exact Hc.
  - intros v. by rewrite He2.
  - intros v Hv Hff. rewrite <- Hi by (done || by apply list_elem_of_further).
    unfold icr_write. destruct wrote; [|done]. apply get_set_byte_other. unfold icr_addr.
    pose proof (lsc_entry_fits pcie v (emem s0)). apply icr_apart; [by apply Hent|lia|congruence].
  - intros v Hv. rewrite Hother by (intros ->%list_elem_of_singleton; done).
    apply Hb. by apply list_elem_of_further.
Qed.

Lemma run_pending_list s0 l : NoDup l -> (forall v, v ∈ l -> 0 <= v < NVNICS B NFD_MAX_CTRL) ->
  forall s, as_before l s0 s -> exists p m sent wrote,
    for_each l (pending_step pcie) s =
      Some (tt, s <| emem := m |> <| bus := flat_map sent (rev l) ++ bus s |> <| pending := p |>) /\
    m = foldl (fun m v => icr_write (icr_addr pcie v (emem s0)) (wrote v) m) (emem s) l /\
    other_pending pcie l (pending s) p /\
    forall v, v ∈ l -> pending_result pcie v s0 (sent v) (lsbit (isl_row pcie) p v) (wrote v).
Proof.
  induction 1 as [|x l Hx Hnd IH]; intros Hl s Hbefore.
  { exists (pending s), (emem s), (fun _ => []), (fun _ => false). split; [by destruct s|].
    split; [done|]. split; [by split|]. by intros v Hv%elem_of_nil. }
  destruct (run_pending_step pcie x s Hp (Hl x (list_elem_of_here _ _))) as (p1 & h1 & w1 & Hrun1 & Hother1 & Hres1).
  pose proof (as_before_step x l s0 s p1 h1 w1 _ Hx Hbefore Hother1 Hres1) as Hbefore1.
  set (s1 := s <| emem := _ |> <| bus := _ |> <| pending := _ |>) in *.
  destruct (IH (fun v Hv => Hl v (list_elem_of_further _ _ _ Hv)) s1 Hbefore1)
    as (p & m & sent & wrote & Hrun & -> & Hother & Hres).
  assert (Hne : forall v, v ∈ l -> (v =? x) = false) by (intros v Hv; apply Z.eqb_neq; congruence).
  exists p, (foldl (fun m v => icr_write (icr_addr pcie v (emem s0)) (wrote v) m) (emem s1) l),
    (fun v => if v =? x then h1 else sent v), (fun v => if v =? x then w1 else wrote v).
  split_and!.
  - cbn [for_each]. erewrite run_some by exact Hrun1. cbv beta. fold s1. rewrite Hrun.
    cbn [rev]. rewrite List.flat_map_app. cbn [flat_map]. rewrite Z.eqb_refl, app_nil_r.
    rewrite (flat_map_elem (fun v => if v =? x then h1 else sent v) sent (rev l))
      by (intros v Hv%list_elem_of_In%in_rev%list_elem_of_In; by rewrite Hne).
    do 2 f_equal. unfold s1. destruct s. st. by rewrite <- app_assoc.
  - cbn [foldl]. rewrite Z.eqb_refl.
    rewrite (foldl_elem (fun m v => icr_write (icr_addr pcie v (emem s0)) (if v =? x then w1 else wrote v) m)
      (fun m v => icr_write (icr_addr pcie v (emem s0)) (wrote v) m) l)
      by (intros m v Hv; by rewrite Hne).
    f_equal. unfold s1, icr_addr. st. by rewrite (before_entry _ _ _ Hbefore).
  - destruct Hother as [Ho1 Ho2], Hother1 as [Ho3 Ho4]. split.
    + intros v [Hv1 Hv2]%not_elem_of_cons. rewrite Ho1 by done. unfold s1. st. apply Ho3.
      by intros ->%list_elem_of_singleton.
    + intros q v Hq. rewrite Ho2 by done. unfold s1. st. by apply Ho4.
  - intros v [->|Hv]%elem_of_cons; [|by rewrite Hne; auto].
    rewrite Z.eqb_refl, (proj1 Hother x Hx). unfold s1. st.
    eapply as_before_result; [exact Hbefore|apply list_elem_of_here|exact Hres1].
Qed.
End pass.

(** C34: No link interrupt is lost or sent for a vNIC that is down.  A pass of
    handle_pending_interrupts over an island handles the interrupts of exactly
    the vNICs that are enabled and have one pending, in their order; no other
    vNIC has one pending afterwards, and nothing is sent for it.  Such an
    interrupt is dropped when the host has no entry for it; it waits when the
    host masks by hand and its interrupt cause byte is not clear; otherwise it
    is sent once, for the entry that the host configured, and waits exactly if
    the sending fails.  The memory changes in the interrupt cause bytes of the
    interrupts sent without automatic masking only; the pending bits of other
    islands and everything else are kept. *)
Theorem handle_pending_interrupts_correct bar_size `{!BarOk bar_size} pcie s :
  0 <= pcie < NFD_MAX_ISL ->
  let vids := range 0 (NVNICS B NFD_MAX_CTRL) in
  exists p m sent wrote, handle_pending_interrupts pcie s =
      Some (tt, s <| emem := m |> <| bus := flat_map sent (rev vids) ++ bus s |> <| pending := p |>) /\
    m = foldl (fun m v => icr_write (icr_addr pcie v (emem s)) (wrote v) m) (emem s) vids /\
    (forall pcie' v, pcie' <> pcie -> lsbit (isl_row pcie') p v = lsbit (isl_row pcie') (pending s) v) /\
    forall v, 0 <= v < NVNICS B NFD_MAX_CTRL ->
      if enabled pcie v s && lsbit (isl_row pcie) (pending s) v
      then lsc_result pcie (lsc_entry pcie v (emem s)) (lsc_automask pcie v s)
             (get_byte (icr_addr pcie v (emem s)) (emem s))
             (sent v) (lsbit (isl_row pcie) p v) (wrote v)
      else sent v = [] /\ lsbit (isl_row pcie) p v = false /\ wrote v = false.
Proof.
  intros Hp vids. unfold handle_pending_interrupts. fold vids.
  destruct (run_pending_list bar_size pcie Hp s vids) with (s := s)
    as (p & m & sent & wrote & Hrun & Hm & [_ Ho] & Hres);
    [apply NoDup_seqZ|by intros v Hv%elem_of_range|by split|].
  exists p, m, sent, wrote. split; [exact Hrun|]. split; [exact Hm|]. split; [exact Ho|].
  intros v Hv. by apply Hres, elem_of_range.
Qed.

(** ** Messages *)

Lemma run_next_msg c msg s vid :
  let p := if (0 <=? c) && (c <? 4) then c else 0 in
  has_pcie p = true -> cfg_msg_dev (bus s) p = Some (vid, 0) ->
  next_nfd_cfg_msg c msg s =
    Some ((0, p, p + 1, mk_cfg_msg 1 0 vid), with_bus (CfgMsgPoll p (Some (vid, 0)) :: bus s) s).
Proof.
  intros p Hp Hm. unfold next_nfd_cfg_msg. cbv zeta. fold p. rewrite Hp.
  unfold nfd_cfg_master_chk_cfg_msg. rewrite run_assoc, run_get, Hm. done.
Qed.

(** The handler of a vNIC refuses what its type may not ask. *)
Lemma reconfig_refused fuel pcie control update vid msg s :
  request_ok (NFD_VID2VNIC vid).1 control update = false ->
  process_reconfig fuel pcie control update vid msg s = Some ((1, msg <| error := 1 |>), s).
Proof.
  unfold process_reconfig. destruct (NFD_VID2VNIC vid) as [[] vnic]; simpl.
  - apply pf_refused.
  - apply ctrl_refused.
  - apply vf_refused.
Qed.

(** C33: a request that the vNIC may not make, for a control flag outside the
    capabilities of its type (PF, VF or control vNIC) or an update outside the
    legal ones, is answered with an error by the round of cfg_changes_loop
    that takes the message, and has no other effect: no memory, no shared
    variable and no device register changes.  The next round asks the next
    PCIe island. *)
Theorem illegal_request_refused fuel c msg s vid :
  let p := if (0 <=? c) && (c <? 4) then c else 0 in
  let bar := nfd_cfg_bar_base p vid in
  has_pcie p = true -> cfg_msg_dev (bus s) p = Some (vid, 0) ->
  request_ok (NFD_VID2VNIC vid).1 (rd (emem s) bar) (rd (emem s) (bar + 4)) = false ->
  cfg_changes_round fuel c msg s =
    Some ((p + 1, mk_cfg_msg 0 1 vid),
      s <| bus := CfgMsgDone p vid 1 (nfd_cfg_bar_base p 0) ::
                  CfgMsgPoll p (Some (vid, 0)) :: bus s |>).
Proof.
  intros p bar Hp Hm Hbad. unfold cfg_changes_round.
  erewrite run_some by by apply run_next_msg. fold p. cbv beta iota.
  rewrite Z.eqb_refl. cbn [msg_vid]. fold bar. unfold mem_read32. rewrite !run_get.
  erewrite run_some by by apply reconfig_refused. done.
Qed.
End proofs.

Section checks.
Import Demo Mac Engines.

#[export] Instance msix_cfg : MsixCfg := {| PCIE_CPP2PCIE_LSC := 1 |}.

#[export] Instance bars_ok : BarOk 0x8000.
Proof.
  split; try (intros; simpl; lia); intros; simpl; Z.to_euclidean_division_equations; lia.
Qed.

(** The PF vNIC 48 is enabled, waits to send and has entry 0. *)
Definition pend_state : nic := nic0
  <| nic_control_word := <[(0, 48) := 1]> ∅ |> <| pending := <[(0, 1) := 2 ^ 16]> ∅ |>.

Lemma handle_pending_interrupts_correct_witness :
  exists p m sent (wrote : Z -> bool), handle_pending_interrupts 0 pend_state =
    Some (tt, pend_state <| emem := m |>
      <| bus := flat_map sent (rev (range 0 (NVNICS sriov_build NFD_MAX_CTRL))) ++ bus pend_state |>
      <| pending := p |>) /\
    sent 3 = [] /\ exists r : Z, sent 48 = [MsixSend 0 1 0 0 r].
Proof.
  assert (Hwas : enabled 0 48 pend_state && lsbit (isl_row 0) (pending pend_state) 48 = true) by (vm_compute; reflexivity).
  assert (Hno : enabled 0 3 pend_state && lsbit (isl_row 0) (pending pend_state) 3 = false) by (vm_compute; reflexivity).
  assert (Hent : lsc_entry 0 48 (emem pend_state) = 0) by (vm_compute; reflexivity).
  assert (Hauto : lsc_automask 0 48 pend_state = 0) by (vm_compute; reflexivity).
  assert (Hicr : get_byte (icr_addr 0 48 (emem pend_state)) (emem pend_state) = 0) by (vm_compute; reflexivity).
  destruct (handle_pending_interrupts_correct 0x8000 0 pend_state ltac:(by vm_compute))
    as (p & m & sent & wrote & Hrun & _ & _ & Hall).
  exists p, m, sent, wrote. split; [exact Hrun|]. split.
  - pose proof (Hall 3 ltac:(by vm_compute)) as H3. rewrite Hno in H3. apply H3.
  - pose proof (Hall 48 ltac:(by vm_compute)) as H48. rewrite Hwas, Hent, Hauto, Hicr in H48.
    inversion H48; [lia|lia|by eexists].
Defined.

(** A message of VF 3 is waiting at island 0, with a control word of 4. *)
#[local] Instance msg_devices : Devices := {|
  xpb_dev := fun h addr => 0; ct_dev := fun h addr => 0;
  pcie_dev := fun h isl idx addr_hi addr_lo i => 0;
  msix_dev := fun h pcie bar entry automask => 0;
  tmq_dev := fun h nbi queue => 0;
  cfg_msg_dev := fun h pcie => if pcie =? 0 then Some (3, 0) else None |}.

Definition msg_state : nic := nic0 <| emem := <[3 * 0x8000 := 4]> ∅ |>.

Lemma illegal_request_refused_witness :
  cfg_changes_round 1 4 (mk_cfg_msg 0 0 0) msg_state =
    Some ((1, mk_cfg_msg 0 1 3),
      msg_state <| bus := [CfgMsgDone 0 3 1 0; CfgMsgPoll 0 (Some (3, 0))] |>).
Proof.
  etransitivity; [apply (illegal_request_refused 1 4 (mk_cfg_msg 0 0 0) msg_state 3);
    by vm_compute|].
  reflexivity.
Defined.
End checks.
