(* ===== verification/System.v ===== *)
(** * The application master as a system

    The contexts of Master.v and the host take turns: the host writes memory,
    the configuration context handles a message, the link state context makes a
    round of its loop.  The theorems hold in every state that such steps reach:
    what the vNICs run with, the mutex, the answers to the host. *)

From S2P Require Import Prelude Platform UserCfg Nfd Machine AppPrivate Bus Link Bpf Tables ActionList Builders NicTables Veb Config Frame Lists Control Master.

(** The variables of the loops, with the state that they share. *)
Record system := mk_system {
  shared : nic;
  msg_cursor : Z;
  last_msg : nfd_cfg_msg;
  lsc_rounds : Z
}.

#[export] Instance set_shared : Setter shared := _.

Inductive turn := Host | CfgRound | LscRound.

#[export] Instance turn_eq_dec : EqDecision turn.
Proof. solve_decision. Defined.

Section system.
Context {B : build} `{NetCfg, Vids, VfCfg, App, Devices, Xpb, BpfCfg, MsixCfg}.
Context (fuel : nat).

Inductive sys_step : turn -> system -> system -> Prop :=
| host_writes y m : wf_mem m -> sys_step Host y (y <| shared ::= fun s => s <| emem := m |> |>)
| cfg_round y c msg s :
    cfg_changes_round fuel (msg_cursor y) (last_msg y) (shared y) = Some ((c, msg), s) ->
    sys_step CfgRound y (mk_system s c msg (lsc_rounds y))
| lsc_round y n s :
    lsc_loop_round (lsc_rounds y) (shared y) = Some (n, s) ->
    sys_step LscRound y (mk_system s (msg_cursor y) (last_msg y) n).

Inductive sys_run : list turn -> system -> system -> Prop :=
| run_nil y : sys_run [] y y
| run_turn t ts y y1 y2 : sys_step t y y1 -> sys_run ts y1 y2 -> sys_run (t :: ts) y y2.

Lemma run_app ts ts' y y1 y2 : sys_run ts y y1 -> sys_run ts' y1 y2 -> sys_run (ts ++ ts') y y2.
Proof. induction 1; intros; [done|]. eapply run_turn; eauto. Qed.

(** ** What holds between rounds *)

(** What a vNIC of the type may have in its control word. *)
Definition control_cap (vid : Z) : Z :=
  match (NFD_VID2VNIC vid).1 with
  | NFD_VNIC_TYPE_CTRL => NFD_CFG_CTRL_CAP
  | NFD_VNIC_TYPE_PF => NFD_CFG_PF_CAP B
  | NFD_VNIC_TYPE_VF => NFD_CFG_VF_CAP
  end.

Definition within_caps (s : nic) : Prop := forall pcie vid,
  exceeds (rd (nic_control_word s) (pcie, vid)) (control_cap vid) = false.

Definition follow_port0 (s : nic) : Prop := forall port pcie i,
  port <> 0 -> rd (vf_lsc_list s) (port, pcie, i) = 0.

Definition mutex_free (s : nic) : Prop := mac_reg_lock s = 0.

Definition messages (h : list bus_event) : list bus_event := List.filter is_msg h.

(** The shared variables when the loops begin: as the loader leaves them, and
    no message was taken or sent yet; memory is made of words, and the lists
    of the workers drop everything *)
Definition sys_init (y : system) : Prop :=
  nic_control_word (shared y) = ∅ /\ vf_lsc_list (shared y) = ∅ /\ mac_reg_lock (shared y) = 0 /\
  messages (bus (shared y)) = [] /\ map_cmsg_q (shared y) = [] /\ veb_stored_keys (shared y) = ∅ /\
  wf_emem (shared y) /\ lists_drop (shared y).

Definition reachable (y : system) : Prop := exists ts y0, sys_init y0 /\ sys_run ts y0 y.

(** What a part of a round does to the shared state: it keeps what holds
    between rounds, extends the history, and handles no message. *)
Record round_part (s s' : nic) : Prop := {
  part_caps : within_caps s -> within_caps s';
  part_follow : follow_port0 s -> follow_port0 s';
  part_mutex : mutex_free s -> mutex_free s';
  part_messages : messages (bus s') = messages (bus s);
  part_bus : exists h, bus s' = h ++ bus s
}.

#[local] Instance round_part_preorder : PreOrder round_part.
Proof.
  split.
  - intros s. split; try done. by exists [].
  - intros s1 s2 s3 [? ? ? Hm1 [h1 Hb1]] [? ? ? Hm2 [h2 Hb2]]. split; auto; [by rewrite Hm2|].
    exists (h2 ++ h1). by rewrite Hb2, Hb1, app_assoc.
Qed.


#[local] Instance round_part_memory : HostMemory round_part.
Proof. split. intros f s. split; [done..|by exists []]. Qed.

#[local] Instance round_part_worker : WorkerSide round_part.
Proof.
  split; try (intros f s; split; [done..|by exists []]); [apply _|].
  intros e s He. split; try done; [|by exists [e]].
  unfold messages. change (bus (s <| bus ::= cons e |>)) with (e :: bus s). simpl. by rewrite He.
Qed.

#[local] Instance round_part_switch : SwitchFree round_part.
Proof. split; intros f s; (split; [done..|by exists []]). Qed.

(** ** The parts of the rounds *)

#[local] Hint Resolve round_part_worker round_part_memory round_part_switch : respects.

Lemma part_vs f s : round_part s (s <| vs_current ::= f |>).
Proof. split; [done..|by exists []]. Qed.
Lemma part_ls f s : round_part s (s <| ls_current ::= f |>).
Proof. split; [done..|by exists []]. Qed.
Lemma part_pending f s : round_part s (s <| pending ::= f |>).
Proof. split; [done..|by exists []]. Qed.
#[local] Hint Resolve part_vs part_ls part_pending : respects.

(** A part under the mutex. *)
Lemma part_locked {A} (m : C A) : respects round_part m ->
  respects round_part (_ ← LOCAL_MUTEX_LOCK; _ ← m; LOCAL_MUTEX_UNLOCK).
Proof.
  intros Hm s [] s' Hrun. unfold LOCAL_MUTEX_LOCK in Hrun. rewrite run_assoc, run_get in Hrun.
  destruct (negb _); [|done]. rewrite run_assoc, run_require, run_modify in Hrun by done.
  apply bind_some_inv in Hrun as (a & s1 & Hrun & [= <-]).
  destruct (Hm _ _ _ Hrun) as [Hc Hf _ Hms Hb]. split; try done. 
Qed.

Lemma part_locked_ret {A} (m : C A) : respects round_part m ->
  respects round_part (_ ← LOCAL_MUTEX_LOCK; a ← m; _ ← LOCAL_MUTEX_UNLOCK; mret a).
Proof.
  intros Hm s a s' (u & s1 & Hlock & Hrest)%bind_some_inv.
  apply bind_some_inv in Hrest as (b & s2 & Hb & Hrest). injection Hrest as -> <-.
  apply (part_locked m Hm s tt). by rewrite (run_some _ _ _ _ _ Hlock), (run_some _ _ _ _ _ Hb).
Qed.

Lemma part_enable_rx port : respects round_part (mac_port_enable_rx port).
Proof. apply part_locked. respects. Qed.
Lemma part_disable_rx port : respects round_part (mac_port_disable_rx fuel port).
Proof. apply part_locked_ret. respects. Qed.
Lemma part_enable_tx port : respects round_part (mac_port_enable_tx port).
Proof. apply part_locked. respects. Qed.
Lemma part_enable_tx_flush mac core port : respects round_part (mac_port_enable_tx_flush mac core port).
Proof. apply part_locked. respects. Qed.
Lemma part_disable_tx_flush mac core port : respects round_part (mac_port_disable_tx_flush mac core port).
Proof. apply part_locked. respects. Qed.
#[local] Hint Resolve part_enable_rx part_disable_rx part_enable_tx part_enable_tx_flush
  part_disable_tx_flush : respects.

(** A vNIC that follows port 0, and one that follows another port no more *)
Lemma part_follow_port0 f pcie vid :
  respects round_part (ls_word vf_lsc_list (port_ok 0 pcie) (port_row 0 pcie) vid f).
Proof.
  apply respects_bind; [apply respects_require|]. intros _. apply respects_modify. intros s.
  split; try done; [|by exists []]. intros Hf port q i Hne.
  st. cbv beta.
  rewrite rd_insert_ne by (intros [= <- _ _]; done). by apply Hf.
Qed.

Lemma part_unfollow ok port pcie vid :
  respects round_part (LS_CLEAR vf_lsc_list ok (port_row port pcie) vid).
Proof.
  apply respects_bind; [apply respects_require|]. intros _. apply respects_modify. intros s.
  split; try done; [|by exists []]. intros Hf q qcie i Hne.
  st. cbv beta.
  destruct (decide ((q, qcie, i) = port_row port pcie (LS_IDX vid))) as [E|E].
  - rewrite E, rd_insert_eq. injection E as -> -> ->. unfold port_row. rewrite Hf by done. apply Z.land_0_l.
  - rewrite rd_insert_ne by done. by apply Hf.
Qed.

Lemma part_update_vf_lsc pcie vid control mode :
  respects round_part (update_vf_lsc_list pcie 0 vid control mode).
Proof.
  pose proof part_follow_port0. pose proof part_unfollow. respects.
Qed.
#[local] Hint Resolve part_update_vf_lsc : respects.

(** Only a control word that the vNIC may have is recorded. *)
Lemma part_set_control pcie vid control : exceeds control (control_cap vid) = false ->
  respects round_part (set_nic_control_word pcie vid control).
Proof.
  intros Hok. apply respects_bind; [apply respects_require|]. intros _. apply respects_modify.
  intros s. split; try done; [|by exists []]. intros Hc p v.
  st.
  destruct (decide ((p, v) = (pcie, vid))) as [E|E].
  - injection E as -> ->. by rewrite rd_insert_eq.
  - rewrite rd_insert_ne by done. apply Hc.
Qed.

Lemma part_reconfig pcie control update vid msg :
  respects round_part (process_reconfig fuel pcie control update vid msg).
Proof.
  unfold process_reconfig. destruct (NFD_VID2VNIC vid) as [type vnic] eqn:Ht.
  assert (Hcap : control_cap vid = control_cap vid) by done. unfold control_cap in Hcap at 2.
  rewrite Ht in Hcap. cbn [fst] in Hcap. destruct type.
  - unfold process_pf_reconfig. destruct (exceeds control _) eqn:Hok; [apply respects_ret|].
    rewrite <- Hcap in Hok. pose proof (part_set_control pcie vid control Hok). respects.
  - unfold process_ctrl_reconfig. destruct (exceeds control _) eqn:Hok; [apply respects_ret|].
    rewrite <- Hcap in Hok. pose proof (part_set_control pcie vid control Hok). respects.
  - unfold process_vf_reconfig. destruct (exceeds control _) eqn:Hok; [apply respects_ret|].
    rewrite <- Hcap in Hok. pose proof (part_set_control pcie vid control Hok). respects.
Qed.

Lemma part_lsc_round n : respects round_part (lsc_loop_round n).
Proof. respects. Qed.

(** ** A round of the configuration context *)

(** The result of a handler: the message as it was, or with its error set. *)
Definition answers (msg : nfd_cfg_msg) (m : C (Z * nfd_cfg_msg)) : Prop :=
  forall s x s', m s = Some (x, s') -> x.2 = msg \/ x.2 = msg <| error := 1 |>.

Lemma answers_ret msg r : answers msg (mret (r, msg)).
Proof. intros s x s' [= <- <-]. by left. Qed.
Lemma answers_fail msg : answers msg (fail msg).
Proof. intros s x s' [= <- <-]. by right. Qed.
Lemma answers_bind {A} msg (m : C A) k : (forall a, answers msg (k a)) -> answers msg (m ≫= k).
Proof. intros Hk s x s' (a & s1 & _ & Hrun)%bind_some_inv. by eapply Hk. Qed.

Ltac answers :=
  repeat first
    [ apply answers_ret | apply answers_fail | apply answers_bind; intros ?
    | match goal with |- answers _ (match ?x with _ => _ end) => destruct x end ].

Lemma reconfig_answers pcie control update vid msg :
  answers msg (process_reconfig fuel pcie control update vid msg).
Proof.
  unfold process_reconfig. destruct (NFD_VID2VNIC vid) as [[] vnic];
    unfold process_pf_reconfig, process_ctrl_reconfig, process_vf_reconfig, pf_disable;
    cbv zeta; answers.
Qed.

(** The island that a round asks. *)
Definition island_of (cursor : Z) : Z := if (0 <=? cursor) && (cursor <? 4) then cursor else 0.

Inductive round_result (p : Z) (s : nic) : nic -> Prop :=
| no_island : has_pcie p = false -> round_result p s s
| no_message : has_pcie p = true ->
    round_result p s (with_bus (CfgMsgPoll p None :: bus s) s)
| bad_message vid e : has_pcie p = true -> e <> 0 ->
    round_result p s (with_bus (CfgMsgPoll p (Some (vid, e)) :: bus s) s)
| message vid e s2 : has_pcie p = true -> e = 0 \/ e = 1 ->
    round_part (with_bus (CfgMsgPoll p (Some (vid, 0)) :: bus s) s) s2 ->
    round_result p s (with_bus (CfgMsgDone p vid e (nfd_cfg_bar_base p 0) :: bus s2) s2).

Lemma run_next_nfd_cfg_msg c msg s : let p := island_of c in
  let msg0 := msg <| error := 0 |> <| msg_valid := 0 |> in
  next_nfd_cfg_msg c msg s =
    if has_pcie p then
      match cfg_msg_dev (bus s) p with
      | None => Some ((1, p, p + 1, msg0), with_bus (CfgMsgPoll p None :: bus s) s)
      | Some (vid, e) =>
          Some ((if truthy e then 1 else 0, p, p + 1, mk_cfg_msg 1 e vid),
            with_bus (CfgMsgPoll p (Some (vid, e)) :: bus s) s)
      end
    else Some ((1, p, p + 1, msg0), s).
Proof.
  intros p msg0. unfold next_nfd_cfg_msg. cbv zeta. fold (island_of c) p.
  destruct (has_pcie p); [|done]. unfold nfd_cfg_master_chk_cfg_msg. rewrite run_assoc, run_get.
  destruct (cfg_msg_dev (bus s) p) as [[vid e]|]; [|done].
  rewrite run_assoc. erewrite run_some by apply run_emit0. cbv beta.
  rewrite run_ret. cbn [msg_valid error]. by destruct (truthy e).
Qed.

Lemma cfg_round_result c msg s c' msg' s' :
  cfg_changes_round fuel c msg s = Some ((c', msg'), s') ->
  c' = island_of c + 1 /\ round_result (island_of c) s s'.
Proof.
  unfold cfg_changes_round. intros (x & s1 & Hnext & Hrun)%bind_some_inv.
  rewrite run_next_nfd_cfg_msg in Hnext. cbv zeta in Hnext.
  destruct (has_pcie (island_of c)) eqn:Hp;
    [|injection Hnext as <- <-; injection Hrun as <- <- <-; split; [done|by constructor]].
  destruct (cfg_msg_dev (bus s) (island_of c)) as [[vid e]|];
    [|injection Hnext as <- <-; injection Hrun as <- <- <-; split; [done|by constructor]].
  injection Hnext as <- <-. unfold truthy in Hrun. destruct (Z.eqb_spec e 0) as [He|He]; cbn [negb] in Hrun.
  - subst e. rewrite Z.eqb_refl in Hrun. cbv zeta in Hrun.
    unfold mem_read32 in Hrun. rewrite !run_get in Hrun.
    apply bind_some_inv in Hrun as ([r m] & s2 & Hrec & Hrun). cbn [msg_vid] in Hrec.
    injection Hrun as <- <- <-. split; [done|].
    pose proof (part_reconfig _ _ _ _ _ _ _ _ Hrec) as Hpart.
    destruct (reconfig_answers _ _ _ _ _ _ _ _ Hrec) as [Hm|Hm]; cbn [snd] in Hm; subst m;
      [apply (message _ _ vid 0)|apply (message _ _ vid 1)]; auto.
  - injection Hrun as <- <- <-. split; [done|]. by constructor.
Qed.

(** ** Invariants of the system *)

Lemma run_invariant (I : system -> Prop) ts y y' :
  (forall t y1 y2, sys_step t y1 y2 -> I y1 -> I y2) -> sys_run ts y y' -> I y -> I y'.
Proof. intros Hstep. induction 1; eauto. Qed.

Lemma reachable_invariant (I : system -> Prop) y :
  (forall y0, sys_init y0 -> I y0) ->
  (forall t y1 y2, sys_step t y1 y2 -> I y1 -> I y2) -> reachable y -> I y.
Proof. intros Hinit Hstep (ts & y0 & Hy0 & Hrun). eapply run_invariant; eauto. Qed.

Definition shared_ok (s : nic) : Prop := within_caps s /\ follow_port0 s /\ mutex_free s.

Lemma part_shared_ok s s' : round_part s s' -> shared_ok s -> shared_ok s'.
Proof. intros [] (? & ? & ?). repeat split; auto. Qed.

(** Messages to the host and answers, newest first: every message that came
    without an error has its answer before another one is taken. *)
Inductive answered : list bus_event -> Prop :=
| answered_none : answered []
| answered_idle p h : answered h -> answered (CfgMsgPoll p None :: h)
| answered_bad p vid e h : e <> 0 -> answered h -> answered (CfgMsgPoll p (Some (vid, e)) :: h)
| answered_msg p vid e h : e = 0 \/ e = 1 -> answered h ->
    answered (CfgMsgDone p vid e (nfd_cfg_bar_base p 0) :: CfgMsgPoll p (Some (vid, 0)) :: h).

Lemma round_result_shared p s s' : round_result p s s' -> shared_ok s -> shared_ok s'.
Proof.
  destruct 1 as [| | |vid e s2 Hp He Hpart]; try done.
  intros Hok. by apply (part_shared_ok _ _ Hpart) in Hok.
Qed.

Lemma round_result_answered p s s' : round_result p s s' ->
  answered (messages (bus s)) -> answered (messages (bus s')).
Proof.
  destruct 1 as [| | |vid e s2 Hp He Hpart]; intros Ha; [done|by constructor..|].
  change (answered (CfgMsgDone p vid e (nfd_cfg_bar_base p 0) :: messages (bus s2))).
  rewrite (part_messages _ _ Hpart). by constructor.
Qed.

Lemma caps_empty s : nic_control_word s = ∅ -> within_caps s.
Proof. intros Hs pcie vid. rewrite Hs. by unfold exceeds, has. Qed.

Lemma init_shared_ok y : sys_init y -> shared_ok (shared y).
Proof.
  intros (Hc & Hf & Hm & _). split; [by apply caps_empty|]. split; [|done].
  intros port pcie i _. by rewrite Hf.
Qed.

Lemma step_shared_ok t y y' : sys_step t y y' -> shared_ok (shared y) -> shared_ok (shared y').
Proof.
  intros [y1 m Hm|y1 c msg s Hrun|y1 n s Hrun] Hok; cbn [shared] in *.
  - exact Hok.
  - apply cfg_round_result in Hrun as [_ Hres]. by eapply round_result_shared.
  - eapply part_shared_ok; [|exact Hok]. by eapply part_lsc_round.
Qed.

(** C6: whatever the host writes and asks for, and in whatever order the
    contexts take their rounds: between rounds the control word of every vNIC
    holds only flags of the capabilities of its type (control vNIC, PF, VF), the
    mutex of the MAC registers is free, so no round waits for it, and no vNIC
    follows the link of a port other than port 0. *)
Theorem system_shared_ok y : reachable y -> shared_ok (shared y).
Proof.
  apply (reachable_invariant (fun y => shared_ok (shared y))).
  - apply init_shared_ok.
  - apply step_shared_ok.
Qed.

(** C7: the messages of the host are answered in order and once: each message
    that arrives without an error flag is completed, for the vNIC and the island
    it came from and with an error of 0 or 1, before the next one is taken, and
    nothing else is completed; a message that arrives with an error flag is not
    answered at all. *)
Theorem system_messages_answered y : reachable y -> answered (messages (bus (shared y))).
Proof.
  apply (reachable_invariant (fun y => answered (messages (bus (shared y))))).
  - intros y0 (_ & _ & _ & Hm & _). rewrite Hm. constructor.
  - intros t y1 y2 [y' m Hw|y' c msg s Hrun|y' n s Hrun] Hok; cbn [shared] in *.
    + exact Hok.
    + apply cfg_round_result in Hrun as [_ Hres]. by eapply round_result_answered.
    + by rewrite (part_messages _ _ (part_lsc_round _ _ _ _ Hrun)).
Qed.

(** ** Every island is asked *)

(** The rounds until island [p] is asked *)
Definition rounds_to (p cursor : Z) : Z := (p - island_of cursor) mod 4.

Lemma island_of_range c : 0 <= island_of c < 4.
Proof. unfold island_of. destruct (Z.leb_spec 0 c), (Z.ltb_spec c 4); simpl; lia. Qed.

Lemma island_of_next c : island_of (island_of c + 1) = (island_of c + 1) mod 4.
Proof.
  pose proof (island_of_range c). set (i := island_of c) in *. unfold island_of.
  destruct (Z.leb_spec 0 (i + 1)), (Z.ltb_spec (i + 1) 4); simpl; Z.to_euclidean_division_equations; lia.
Qed.

Lemma rounds_to_next p c : 0 <= p < 4 ->
  rounds_to p c = 0 /\ island_of c = p \/ rounds_to p (island_of c + 1) = rounds_to p c - 1.
Proof.
  intros Hp. unfold rounds_to. rewrite island_of_next. pose proof (island_of_range c).
  Z.to_euclidean_division_equations. lia.
Qed.

Lemma round_result_polls p s s' : round_result p s s' -> exists h, bus s' = h ++ bus s /\
  (has_pcie p = true -> exists m, CfgMsgPoll p m ∈ h).
Proof.
  destruct 1 as [Hp|Hp|vid e Hp He|vid e s2 Hp He Hpart].
  - exists []. split; [done|]. by rewrite Hp.
  - exists [CfgMsgPoll p None]. split; [done|]. exists None. by apply list_elem_of_here.
  - exists [CfgMsgPoll p (Some (vid, e))]. split; [done|]. eexists. by apply list_elem_of_here.
  - destruct (part_bus _ _ Hpart) as [h Hh].
    exists (CfgMsgDone p vid e (nfd_cfg_bar_base p 0) :: h ++ [CfgMsgPoll p (Some (vid, 0))]).
    split; [|intros _; exists (Some (vid, 0));
      apply list_elem_of_further, elem_of_app; right; apply list_elem_of_here].
    change (bus (with_bus ?l s2)) with l. rewrite Hh. simpl. by rewrite <- app_assoc.
Qed.

Definition cfg_rounds (ts : list turn) : Z := Z.of_nat (length (filter (.= CfgRound) ts)).

Lemma cfg_rounds_cons t ts : cfg_rounds (t :: ts) =
  (if decide (t = CfgRound) then 1 else 0) + cfg_rounds ts.
Proof. unfold cfg_rounds. rewrite filter_cons. case_decide; simpl length; lia. Qed.

Lemma has_pcie_range p : has_pcie p = true -> 0 <= p < 4.
Proof.
  unfold has_pcie. destruct (Z.eqb_spec p 0); [lia|].
  destruct (Z.ltb_spec 0 p), (Z.ltb_spec p 4); rewrite ?andb_false_r; simpl; intros; lia || done.
Qed.

(** A turn extends the history; a round of the configuration context moves the
    cursor on, any other turn leaves it. *)
Lemma turn_history t y y' : sys_step t y y' -> exists h, bus (shared y') = h ++ bus (shared y) /\
  if decide (t = CfgRound)
  then msg_cursor y' = island_of (msg_cursor y) + 1 /\
       (has_pcie (island_of (msg_cursor y)) = true ->
        exists m, CfgMsgPoll (island_of (msg_cursor y)) m ∈ h)
  else msg_cursor y' = msg_cursor y.
Proof.
  intros [y1 m Hw|y1 c msg s Hrun|y1 n s Hrun]; cbn [shared msg_cursor].
  - by exists [].
  - apply cfg_round_result in Hrun as [Hc Hres].
    destruct (round_result_polls _ _ _ Hres) as (h & Hh & Hpoll). exists h.
    split; [done|]. by rewrite decide_True.
  - destruct (part_bus _ _ (part_lsc_round _ _ _ _ Hrun)) as [h Hh]. exists h.
    split; [done|]. by rewrite decide_False.
Qed.

Lemma run_history ts y y' : sys_run ts y y' -> exists h, bus (shared y') = h ++ bus (shared y).
Proof.
  induction 1 as [|t ts y y1 y2 Hstep Hrun [h Hh]]; [by exists []|].
  destruct (turn_history _ _ _ Hstep) as (h1 & Hh1 & _).
  exists (h ++ h1). by rewrite Hh, Hh1, app_assoc.
Qed.

Lemma polled_within ts y y' p : has_pcie p = true -> sys_run ts y y' ->
  rounds_to p (msg_cursor y) < cfg_rounds ts ->
  exists h m, bus (shared y') = h ++ bus (shared y) /\ CfgMsgPoll p m ∈ h.
Proof.
  intros Hp. induction 1 as [|t ts y y1 y2 Hstep Hrun IH]; intros Hcount.
  { unfold rounds_to, cfg_rounds in Hcount. simpl in Hcount.
    Z.to_euclidean_division_equations. lia. }
  rewrite cfg_rounds_cons in Hcount.
  destruct (turn_history _ _ _ Hstep) as (h1 & Hh1 & Hturn).
  assert (Hlater : rounds_to p (msg_cursor y1) < cfg_rounds ts ->
    exists h m, bus (shared y2) = h ++ bus (shared y) /\ CfgMsgPoll p m ∈ h).
  { intros Hlt. destruct (IH Hlt) as (h & m & Hh & Hm). exists (h ++ h1), m.
    rewrite Hh, Hh1, app_assoc. split; [done|]. apply elem_of_app. by left. }
  destruct (decide (t = CfgRound)) as [Ht|Ht]; [destruct Hturn as [Hc Hpoll]|apply Hlater; rewrite Hturn; lia].
  destruct (rounds_to_next p (msg_cursor y) (has_pcie_range p Hp)) as [[_ E]|E];
    [|apply Hlater; rewrite Hc; lia].
  rewrite E in Hpoll. destruct (Hpoll Hp) as [m Hm].
  destruct (run_history _ _ _ Hrun) as [h Hh]. exists (h ++ h1), m.
  rewrite Hh, Hh1, app_assoc. split; [done|]. apply elem_of_app. by right.
Qed.

(** C10: no PCIe island is starved: among any four rounds of the configuration
    context, whatever the host and the link state context do in between, each
    island of the build is asked for a message; and a round at an island without
    a message returns. *)
Theorem every_island_polled ts y y' p : has_pcie p = true -> sys_run ts y y' ->
  (4 <= cfg_rounds ts -> exists h m, bus (shared y') = h ++ bus (shared y) /\ CfgMsgPoll p m ∈ h) /\
  (cfg_msg_dev (bus (shared y')) (island_of (msg_cursor y')) = None ->
   exists y2, sys_step CfgRound y' y2).
Proof.
  intros Hp Hrun. split.
  - intros Hcount. apply (polled_within ts); [done..|].
    unfold rounds_to. Z.to_euclidean_division_equations. lia.
  - intros Hnone. set (p' := island_of (msg_cursor y')).
    assert (Hround : exists c msg s, cfg_changes_round fuel (msg_cursor y') (last_msg y') (shared y') =
      Some ((c, msg), s)).
    { unfold cfg_changes_round. pose proof (run_next_nfd_cfg_msg (msg_cursor y') (last_msg y') (shared y')) as Hn.
      cbv zeta in Hn. rewrite Hnone in Hn.
      destruct (has_pcie (island_of (msg_cursor y'))); (erewrite run_some by exact Hn); by eauto. }
    destruct Hround as (c & msg & s & Hround). eexists. by apply cfg_round.
Qed.
End system.

(** ** Witnesses *)

Section witnesses.
Import Demo Mac Engines.

(** A message of VF 3 waits at island 0 until it is taken; the host asks for a
    control flag that no VF may have, after that no message comes. *)
#[local] Instance host : Devices := {|
  xpb_dev := fun h addr => 0; ct_dev := fun h addr => 0;
  pcie_dev := fun h isl idx addr_hi addr_lo i => 0;
  msix_dev := fun h pcie bar entry automask => 0;
  tmq_dev := fun h nbi queue => 0;
  cfg_msg_dev := fun h pcie =>
    match h with [] => if pcie =? 0 then Some (3, 0) else None | _ => None end |}.

#[local] Instance msix : MsixCfg := {| PCIE_CPP2PCIE_LSC := 1 |}.

(** Empty memory is as the loops expect it. *)
Lemma nic0_init c msg n : sys_init (mk_system nic0 c msg n).
Proof. do 6 (split; [done|]). split; [apply wf_mem_empty|by apply lists_drop_empty]. Qed.

Definition sys0 : system := mk_system nic0 0 (mk_cfg_msg 0 0 0) 0.
Definition bar3 : gmap Z Z := <[3 * 0x8000 := 4]> ∅.
Definition sys1 : system := sys0 <| shared ::= fun s : nic => s <| emem := bar3 |> |>.
Definition refused : list bus_event := [CfgMsgDone 0 3 1 0; CfgMsgPoll 0 (Some (3, 0))].
Definition sys2 : system :=
  mk_system (with_bus refused (shared sys1)) 1 (mk_cfg_msg 0 1 3) 0.

Lemma run_to_sys2 : sys_run 1 [Host; CfgRound] sys0 sys2.
Proof.
  eapply run_turn; [apply (host_writes 1 sys0 bar3), insert_fits; [done|apply wf_mem_empty]|].
  eapply run_turn; [|apply run_nil]. apply (cfg_round 1 sys1). vm_compute. reflexivity.
Qed.

Lemma sys2_reachable : reachable 1 sys2.
Proof. eexists _, sys0. split; [apply nic0_init|apply run_to_sys2]. Qed.

Lemma system_shared_ok_witness :
  reachable 1 sys2 /\ within_caps (shared sys2) /\ mutex_free (shared sys2).
Proof.
  split; [apply sys2_reachable|].
  destruct (system_shared_ok 1 sys2 sys2_reachable) as (Hc & _ & Hm). by split.
Defined.

Lemma system_messages_answered_witness : reachable 1 sys2 /\ answered refused.
Proof.
  split; [apply sys2_reachable|]. exact (system_messages_answered 1 sys2 sys2_reachable).
Defined.

(** Four more rounds, without a message *)
Definition sys6 : system :=
  mk_system (with_bus (CfgMsgPoll 0 None :: refused) (shared sys1)) 1 (mk_cfg_msg 0 0 3) 0.

Lemma run_to_sys6 : sys_run 1 (replicate 4 CfgRound) sys2 sys6.
Proof.
  eapply run_turn; [apply (cfg_round 1 sys2); vm_compute; reflexivity|].
  eapply run_turn; [apply cfg_round; vm_compute; reflexivity|].
  eapply run_turn; [apply cfg_round; vm_compute; reflexivity|].
  eapply run_turn; [|apply run_nil].
  apply (cfg_round 1 (mk_system (shared sys2) 4 (mk_cfg_msg 0 0 3) 0)). vm_compute. reflexivity.
Qed.

Lemma every_island_polled_witness :
  sys_run 1 (replicate 4 CfgRound) sys2 sys6 /\
  exists h m, bus (shared sys6) = h ++ bus (shared sys2) /\ CfgMsgPoll 0 m ∈ h.
Proof.
  split; [apply run_to_sys6|].
  apply (every_island_polled 1 (replicate 4 CfgRound) sys2 sys6 0);
    [reflexivity|apply run_to_sys6|vm_compute; discriminate].
Defined.
End witnesses.
