(* ===== verification/Switch.v ===== *)
(** * The switch behind the master

    The vNICs that come up and go down change the switch by messages
    (Cmsg.v).  In every state that the system of System.v reaches, every
    message is one that the map engine understands, the table it builds is
    that of Veb.v, every entry belongs to a vNIC, and at no moment does the
    table have more entries than it was allocated for. *)

From S2P Require Import Prelude Platform UserCfg Nfd Machine AppPrivate Bus Link Bpf Tables ActionList Builders NicTables Veb Cmsg Config Frame Lists Control Master System.

Section switch.
Context {B : build} `{NetCfg, Vids, VfCfg, App, Devices, Xpb, BpfCfg, MsixCfg, !SwapOk}.
Context (alloc_ok : allocs_ok).

(** ** Tables with few MACs *)

(** Every key of [t] has the MAC of one of [macs]. *)
Definition macs_of (macs : list veb_key) (t : gmap veb_key (list Z)) : Prop :=
  forall k, is_Some (t !! k) -> exists k', k' ∈ macs /\ same_mac k k' = true.

Definition keys_fit (t : gmap veb_key (list Z)) : Prop := forall k, is_Some (t !! k) -> key_fits k.

Definition all_keys (macs : list veb_key) : list veb_key :=
  k ← macs; (fun v => set_vlan v k) <$> seqZ 0 4096.

Lemma length_all_keys macs : length (all_keys macs) = (length macs * 4096)%nat.
Proof.
  unfold all_keys. induction macs as [|k macs IH]; [done|].
  rewrite bind_cons, length_app, length_fmap, length_seqZ, IH. simpl length. lia.
Qed.

Lemma macs_of_size macs t : macs_of macs t -> keys_fit t -> (base.size t <= length macs * 4096)%nat.
Proof.
  intros Hm Hf. rewrite <- length_all_keys. apply map_size_le. intros k Hk.
  destruct (Hm k Hk) as (k' & Hin & Hmac). destruct (Hf k Hk) as (Hv & _).
  apply list_elem_of_bind. exists k'. split; [|done].
  apply list_elem_of_fmap. exists (vlan_id k). split; [by apply key_eq_iff|].
  apply elem_of_seqZ. exact Hv.
Qed.

Lemma veb_apply_keys t m k : is_Some (veb_apply t m !! k) ->
  is_Some (t !! k) \/ k = cm_key m /\ cmsg_type m = CMSG_TYPE_MAP_ADD.
Proof.
  unfold veb_apply. destruct (Z.eqb_spec (cmsg_type m) CMSG_TYPE_MAP_ADD) as [E|_].
  - destruct (decide (k = cm_key m)) as [->|Hne]; [auto|]. rewrite lookup_insert_ne by done. auto.
  - destruct (_ =? _); [|auto].
    destruct (decide (k = cm_key m)) as [->|Hne]; [rewrite lookup_delete_eq; by intros []|].
    rewrite lookup_delete_ne by done. auto.
Qed.

(** ** What holds between the rounds *)

Definition table_of : list map_cmsg -> gmap veb_key (list Z) := foldr (flip veb_apply) ∅.

Definition stored_keys (s : nic) : list veb_key := stored_key s <$> range 0 (NVNICS B NFD_MAX_CTRL).

(** The entries that the table can have: those of all vNICs, and of one more
    MAC while a vNIC changes its own. *)
Definition capacity : nat := (Z.to_nat (NVNICS B NFD_MAX_CTRL) + 1) * 4096.

(** The keys of the table are those of the vNICs and those with the MACs of
    [more], and at every moment of the past the table was small enough. *)
Record switch_at (more : list veb_key) (s : nic) : Prop := {
  sw_sent : Forall sent (map_cmsg_q s);
  sw_keys vid : key_fits (stored_key s vid);
  sw_fit : keys_fit (veb_table s);
  sw_macs : macs_of (more ++ stored_keys s) (veb_table s);
  sw_size n : (base.size (table_of (drop n (map_cmsg_q s))) <= capacity)%nat
}.

Definition switch_ok : nic -> Prop := switch_at [].

Lemma length_stored_keys s : length (stored_keys s) = Z.to_nat (NVNICS B NFD_MAX_CTRL).
Proof. unfold stored_keys, range. rewrite length_fmap, length_seqZ. f_equal. lia. Qed.

Lemma elem_of_stored_keys s vid : stored_key_ok vid = true -> stored_key s vid ∈ stored_keys s.
Proof.
  intros Hok. apply list_elem_of_fmap. exists vid. split; [done|]. apply elem_of_range.
  unfold stored_key_ok in Hok. lia.
Qed.

Lemma same_mac_sym k k' : same_mac k k' = true -> same_mac k' k = true.
Proof. rewrite !same_mac_spec. intros [-> ->]. done. Qed.

Lemma same_mac_trans k1 k2 k3 : same_mac k1 k2 = true -> same_mac k2 k3 = true -> same_mac k1 k3 = true.
Proof. rewrite !same_mac_spec. intros [-> ->]. done. Qed.

Lemma macs_of_mono macs macs' t :
  (forall k, k ∈ macs -> exists k', k' ∈ macs' /\ same_mac k k' = true) ->
  macs_of macs t -> macs_of macs' t.
Proof.
  intros Hle Ht k Hk. destruct (Ht k Hk) as (k1 & Hin & Hm). destruct (Hle k1 Hin) as (k2 & Hin2 & Hm2).
  exists k2. split; [done|]. by eapply same_mac_trans.
Qed.

(** ** A message *)

Lemma switch_at_message key0 key al op s r s' :
  switch_at [key0] s -> key_fits key -> op = CMSG_TYPE_MAP_ADD \/ op = CMSG_TYPE_MAP_DELETE ->
  (op = CMSG_TYPE_MAP_ADD -> same_mac key key0 = true) ->
  nic_mac_vlan_entry_op_cmsg key al op s = Some (r, s') -> switch_at [key0] s'.
Proof.
  intros Hs Hk Hop Hmac Hrun. pose proof (run_entry_op key al op s alloc_ok Hop) as (s1 & Hrun' & Honly & _).
  rewrite Hrun' in Hrun. injection Hrun as <- <-.
  assert (Hst : forall vid, stored_key s1 vid = stored_key s vid)
    by (intros vid; unfold stored_key; by rewrite Honly).
  assert (Hsts : stored_keys s1 = stored_keys s) by (apply list_fmap_ext; intros; apply Hst).
  destruct Hs as [Hsent Hkeys Hfit Hmacs Hsize].
  destruct (run_entry_op_sent key al op s _ s1 Hk Hop Hrun') as [Hq|(m & Hq & Hm & Hkey & Htype)].
  { split; unfold veb_table; try rewrite Hsts; rewrite ?Hq; try done. intros vid. by rewrite Hst. }
  assert (Ht : veb_table s1 = veb_apply (veb_table s) m)
    by (unfold veb_table; by rewrite Hq).
  assert (Hfit1 : keys_fit (veb_table s1)).
  { rewrite Ht. intros k [Hin|[-> _]]%veb_apply_keys; [by apply Hfit|by rewrite Hkey]. }
  assert (Hmacs1 : macs_of ([key0] ++ stored_keys s1) (veb_table s1)).
  { rewrite Ht, Hsts. intros k [Hin|[-> Hadd]]%veb_apply_keys; [by apply Hmacs|].
    exists key0. split; [by apply elem_of_cons; left|]. rewrite Hkey. apply Hmac. congruence. }
  split; [rewrite Hq; by constructor|intros vid; by rewrite Hst|done|done|].
  intros n. destruct n as [|n]; [|rewrite Hq; apply Hsize].
  change (table_of (drop 0 (map_cmsg_q s1))) with (veb_table s1). etransitivity; [by apply macs_of_size|].
  rewrite length_app, length_stored_keys. unfold capacity. simpl length. lia.
Qed.

(** ** Bringing a vNIC up or down in the switch *)

Lemma for_fold_ind {A D} (P : D -> nic -> Prop) (body : D -> A -> C D) (l : list A) :
  (forall d x s d' s', P d s -> body d x s = Some (d', s') -> P d' s') ->
  forall d s d' s', P d s -> for_fold l d body s = Some (d', s') -> P d' s'.
Proof.
  intros Hb. induction l as [|x l IH]; intros d s d' s' Hs Hrun; cbn [for_fold] in Hrun.
  - by injection Hrun as <- <-.
  - apply bind_some_inv in Hrun as (d1 & s1 & Hd1 & Hrun). eapply IH; [|exact Hrun]. by eapply Hb.
Qed.

Lemma remove_strip_state acts s a s' : cfg_act_remove_strip_vlan acts s = Some (a, s') -> s' = s.
Proof.
  intros Hrun. symmetry. revert s a s' Hrun. change (respects eq (cfg_act_remove_strip_vlan acts)). respects.
Qed.

(** The key and the list of the loop that adds entries *)
Definition adding (key0 : veb_key) (st : option (veb_key * action_list)) (s : nic) : Prop :=
  switch_at [key0] s /\
  exists key acts, st = Some (key, acts) /\ key_fits key /\ same_mac key key0 = true.

Lemma add_step_ok key0 new st v s st' s' :
  adding key0 st s -> veb_add_step new st v s = Some (st', s') -> adding key0 st' s'.
Proof.
  intros (Hs & key & acts & -> & Hk & Hm). cbn [veb_add_step].
  destruct (veb_wants new v); [|intros [= <- <-]; split; [done|by exists key, acts]].
  intros (a & s1 & Ha & Hrun)%bind_some_inv.
  assert (s1 = s) as -> by (unfold act_if in Ha; destruct (v =? NIC_NO_VLAN_ID);
    [by eapply remove_strip_state|by injection Ha as <- <-]).
  cbv zeta in Hrun.
  destruct (run_entry_op (set_vlan v key) (instr a) CMSG_TYPE_MAP_ADD s alloc_ok) as (s2 & Hop & _); [by left|].
  rewrite (run_some _ _ _ _ _ Hop) in Hrun. injection Hrun as <- <-. split.
  - eapply (switch_at_message key0 (set_vlan v key)); [done|by apply key_fits_set_vlan|by left|done|exact Hop].
  - eexists _, _. split; [done|]. split; [by apply key_fits_set_vlan|done].
Qed.

Lemma del_step_ok key0 key stored new err v s err' s' : key_fits stored ->
  switch_at [key0] s -> veb_del_step key stored new err v s = Some (err', s') -> switch_at [key0] s'.
Proof.
  intros Hk Hs. unfold veb_del_step. destruct (veb_drops _ _ _ _); [|by intros [= _ <-]].
  rewrite run_get. intros (r & s1 & Hop & Hrun)%bind_some_inv. injection Hrun as _ <-.
  eapply switch_at_message; [done|by apply key_fits_set_vlan, Hk|by right|done|exact Hop].
Qed.

(** Remembering the key of a vNIC: the previous one may have entries left. *)
Lemma switch_at_store vid key s : stored_key_ok vid = true -> key_fits key ->
  switch_at [key] s ->
  switch_at [stored_key s vid] (s <| veb_stored_keys ::= <[vid := key]> |>).
Proof.
  intros Hok Hk [Hsent Hkeys Hfit Hmacs Hsize]. set (s1 := s <| veb_stored_keys ::= _ |>).
  destruct (stored_key_insert vid key s s1) as [Heq Hne]; [|].
  { unfold veb_only, s1. rewrite (slept_bus_intro 0) by done. st. by destruct s. }
  split; [done| |done| |done].
  - intros vid'. destruct (decide (vid' = vid)) as [->|]; [by rewrite Heq|by rewrite Hne].
  - eapply macs_of_mono; [|exact Hmacs]. intros k. cbn [app]. rewrite !elem_of_cons.
    intros [->|Hin].
    + exists key. split; [|by apply same_mac_spec]. apply elem_of_cons. right.
      rewrite <- Heq at 1. by apply elem_of_stored_keys.
    + apply list_elem_of_fmap in Hin as (vid' & -> & Hin).
      exists (stored_key s vid'). split; [|by apply same_mac_spec]. apply elem_of_cons.
      destruct (decide (vid' = vid)) as [->|Hvid]; [by left|right].
      rewrite <- (Hne vid') by done. apply list_elem_of_fmap. by exists vid'.
Qed.

Lemma veb_finish_ok vid key new s r s' : key_fits key -> switch_at [key] s ->
  veb_finish vid key new s = Some (r, s') -> switch_ok s'.
Proof.
  intros Hk Hs Hrun. assert (Hok : stored_key_ok vid = true).
  { destruct (stored_key_ok vid) eqn:E; [done|]. unfold veb_finish in Hrun. by rewrite E in Hrun. }
  destruct (run_veb_finish vid key new s alloc_ok Hok) as (s2 & Hrun2 & Honly & Ht).
  rewrite Hrun2 in Hrun. injection Hrun as <- <-.
  destruct (stored_key_insert _ _ _ _ Honly) as [Heq Hne].
  assert (Hat : switch_at [stored_key s vid] s2).
  { unfold veb_finish in Hrun2. rewrite run_require, run_get, run_modify in Hrun2 by done.
    refine (for_fold_ind (fun _ s0 => switch_at [stored_key s vid] s0) _ _ _ _ _ _ _ _ Hrun2);
      [|by apply switch_at_store].
    intros err v s0 err' s0' Hs0 Hstep. eapply del_step_ok; [|exact Hs0|exact Hstep].
    apply (sw_keys _ _ Hs). }
  destruct Hat as [Hsent Hkeys Hfit _ Hsize]. split; try done.
  intros k Hin. cbn [app]. pose proof (Hfit k Hin) as (Hv & _). rewrite Ht in Hin by exact Hv.
  destruct (_ && same_mac k (stored_key s vid)) eqn:Edrop; [by destruct Hin|].
  destruct (sw_macs _ _ Hs k Hin) as (k' & Hk' & Hmac). cbn [app] in Hk'. apply elem_of_cons in Hk' as [->|Hk'].
  { exists (stored_key s2 vid). rewrite Heq at 2. split; [by apply elem_of_stored_keys|done]. }
  apply list_elem_of_fmap in Hk' as (vid' & -> & Hvid').
  destruct (decide (vid' = vid)) as [->|Hvid].
  - exists (stored_key s2 vid). rewrite Heq at 2. split; [by apply elem_of_stored_keys|].
    by apply (not_dropped key (stored_key s vid) new).
  - exists (stored_key s vid'). rewrite <- (Hne vid') at 1 by done. split; [|done].
    apply list_elem_of_fmap. by exists vid'.
Qed.

(** What a computation does to the switch keeps it in order. *)
Definition keeps_switch (s s' : nic) : Prop := switch_ok s -> switch_ok s'.

#[local] Instance keeps_switch_preorder : PreOrder keeps_switch.
Proof. split; [intros s Hs; exact Hs|]. intros s1 s2 s3 H12 H23 Hs. by apply H23, H12. Qed.

Lemma write_veb_keeps_switch vid key acts : key_fits key ->
  respects keeps_switch (cfg_act_write_veb vid key acts).
Proof.
  intros Hk s r s' Hrun Hs. assert (Hat : switch_at [key] s).
  { destruct Hs as [? ? ? Hm ?]. split; try done. eapply macs_of_mono; [|exact Hm].
    intros k Hin. exists k. split; [|by apply same_mac_spec]. cbn [app] in *. apply elem_of_cons. by right. }
  unfold cfg_act_write_veb in Hrun. cbv zeta in Hrun.
  destruct acts as [acts|]; [|rewrite run_get in Hrun; by eapply veb_finish_ok].
  destruct (_ || _); [by injection Hrun as <- <-|].
  apply bind_some_inv in Hrun as (st & s1 & Hloop & Hrun).
  assert (Hadd : adding key st s1).
  { eapply (for_fold_ind (adding key)); [apply add_step_ok| |exact Hloop].
    split; [done|]. exists key, acts. split; [done|]. split; [done|]. by apply same_mac_spec. }
  destruct Hadd as (Hs1 & key' & acts' & -> & Hk' & Hmac). eapply veb_finish_ok; [exact Hk'| |exact Hrun].
  destruct Hs1 as [? ? ? Hm ?]. split; try done. eapply macs_of_mono; [|exact Hm].
  intros k. cbn [app]. rewrite elem_of_cons. intros [->|Hin].
  - exists key'. split; [by apply elem_of_cons; left|by apply same_mac_sym].
  - exists k. split; [by apply elem_of_cons; right|by apply same_mac_spec].
Qed.

(** ** The rounds of the master *)

Lemma keeps_switch_frame s s' : map_cmsg_q s' = map_cmsg_q s -> veb_stored_keys s' = veb_stored_keys s ->
  keeps_switch s s'.
Proof.
  intros Hq Hk [Hsent Hkeys Hfit Hmacs Hsize].
  assert (Hst : stored_keys s' = stored_keys s) by (unfold stored_keys, stored_key; by rewrite Hk).
  split; unfold veb_table; rewrite ?Hq, ?Hst; try done. intros vid. unfold stored_key. rewrite Hk. apply Hkeys.
Qed.

#[local] Instance keeps_switch_worker : WorkerSide keeps_switch.
Proof. split; [apply _|intros; by apply keeps_switch_frame..]. Qed.
#[local] Instance keeps_switch_memory : HostMemory keeps_switch.
Proof. split. intros. by apply keeps_switch_frame. Qed.
#[local] Instance keeps_switch_side : SwitchSide keeps_switch.
Proof. split. apply write_veb_keeps_switch. Qed.
#[local] Hint Resolve keeps_switch_worker keeps_switch_memory keeps_switch_side : respects.
#[local] Hint Extern 2 (keeps_switch _ (apply_update _ _)) => (by apply keeps_switch_frame) : respects.

Lemma cfg_round_keeps_switch fuel c msg : respects keeps_switch (cfg_changes_round fuel c msg).
Proof. respects. Qed.

Lemma lsc_round_keeps_switch n : respects keeps_switch (lsc_loop_round n).
Proof. respects. Qed.

Lemma init_switch_ok y : sys_init y -> switch_ok (shared y).
Proof.
  intros (_ & _ & _ & _ & Hq & Hk & _).
  assert (Hempty : veb_table (shared y) = ∅) by (unfold veb_table; by rewrite Hq).
  split; rewrite ?Hempty, ?Hq.
  - constructor.
  - intros vid. unfold stored_key. rewrite Hk. split; [done|by split].
  - intros k. rewrite lookup_empty. by intros [].
  - intros k. rewrite lookup_empty. by intros [].
  - intros n. rewrite drop_nil. unfold table_of. cbn [foldr]. rewrite map_size_empty. lia.
Qed.

Lemma step_switch_ok fuel t y y' : sys_step fuel t y y' -> switch_ok (shared y) -> switch_ok (shared y').
Proof.
  intros [y1 m|y1 c msg s Hrun|y1 n s Hrun] Hok; cbn [shared] in *.
  - by apply (keeps_switch_frame (shared y1)).
  - by eapply cfg_round_keeps_switch.
  - by eapply lsc_round_keeps_switch.
Qed.

Lemma nvnics_capacity : NFD_MAX_CTRL <= 1 -> (capacity <= NIC_MAC_VLAN_TABLE__NUM_ENTRIES)%nat.
Proof.
  intros Hc. destruct (nfd_queues_fit B) as (_ & Hn & _).
  assert (NVNICS B NFD_MAX_CTRL <= NVNICS_ABSOLUTE_MAX) by (unfold NVNICS in *; lia).
  unfold capacity, NIC_MAC_VLAN_TABLE__NUM_ENTRIES, NVNICS_ABSOLUTE_MAX in *. lia.
Qed.

(** The table after the requests [rs], newest first *)
Definition engine_table (rs : list cmsg_req_map_op) : veb_map := foldr (flip cmsg_proc) ∅ rs.

(** C8: the switch does what the master means, as long as no allocation of a
    buffer for a message fails (a refused CTM buffer leaves entries behind that
    no vNIC owns, write_veb_failure_leaks; an MU buffer has to come within
    [blm_fuel] tries).  Then in every reachable state, whatever was in the
    buffers before: when the map engine has taken the messages so far, the entry
    that a worker finds for a VLAN and a MAC begins with the words of the action
    list that the master gave that VLAN and MAC last, and there is none where
    the master gave none or took it back; every entry has the MAC of some vNIC;
    and the table never holds more entries than were allocated for it, wherever
    the engine is in the queue. *)
Theorem switch_follows_master fuel y rs : reachable fuel y ->
  Forall2 delivered (map_cmsg_q (shared y)) rs ->
  let t := engine_table rs in
  (forall k, key_fits k ->
    option_relation value_of (fun _ => False) (fun _ => False)
      (veb_table (shared y) !! k) (t !! veb_lookup_key (vlan_id k) (mac_addr_hi k) (mac_addr_lo k))) /\
  (forall key, is_Some (t !! key) -> exists k vid, key = veb_key_raw k /\ stored_key_ok vid = true /\
    same_mac k (stored_key (shared y) vid) = true) /\
  (NFD_MAX_CTRL <= 1 -> forall n,
    (base.size (engine_table (drop n rs)) <= NIC_MAC_VLAN_TABLE__NUM_ENTRIES)%nat).
Proof.
  intros Hy Hd t. assert (Hok : switch_ok (shared y)).
  { revert Hy. apply (reachable_invariant fuel (fun y => switch_ok (shared y)));
      [apply init_switch_ok|apply step_switch_ok]. }
  assert (Ht : implements (veb_table (shared y)) t)
    by (apply implements_messages; [apply (sw_sent _ _ Hok)|done]).
  split; [|split].
  - intros k Hk. rewrite veb_lookup_key_raw by done. by apply (impl_entries _ _ Ht).
  - intros key Hkey. destruct (impl_keys _ _ Ht key Hkey) as (k & Hk & ->).
    pose proof (impl_entries _ _ Ht k Hk) as He. destruct Hkey as [v Hv]. rewrite Hv in He.
    destruct (veb_table (shared y) !! k) as [d|] eqn:E; [|done].
    destruct (sw_macs _ _ Hok k) as (k' & Hin & Hmac); [by exists d|].
    apply list_elem_of_fmap in Hin as (vid & -> & Hvid%elem_of_range).
    exists k, vid. split; [done|]. split; [|done]. unfold stored_key_ok. lia.
  - intros Hc n. etransitivity; [|by apply nvnics_capacity].
    etransitivity; [|apply (sw_size _ _ Hok n)]. apply implements_size, implements_messages;
      [by apply Forall_drop, (sw_sent _ _ Hok)|by apply Forall2_drop].
Qed.
End switch.

(** ** Witness *)

Section witnesses.
Import Demo Mac Engines.

#[local] Instance demo_swap : SwapOk.
Proof.
  split; [done| |done]. intros n h [= <-].
  apply (fits_mono 9); [done|]. apply Z.mod_pos_bound. lia.
Qed.

(** A message of PF 0, vNIC 48 of this build, waits at island 0. *)
#[local] Instance host : Devices := {|
  xpb_dev := Mac.dev; ct_dev := ct_dev (Devices := Engines.devices);
  pcie_dev := fun h isl idx addr_hi addr_lo i => 0;
  msix_dev := fun h pcie bar entry automask => 0;
  tmq_dev := fun h nbi queue => 0;
  cfg_msg_dev := fun h pcie => if pcie =? 0 then Some (48, 0) else None |}.

#[local] Instance msix : MsixCfg := {| PCIE_CPP2PCIE_LSC := 1 |}.

Definition idle : system := mk_system nic0 0 (mk_cfg_msg 0 0 0) 0.

(** The host gives PF 0 a MAC and asks it to come up. *)
Definition request : gmap Z Z :=
  let bar := 48 * 0x8000 in
  <[bar + NFP_NET_CFG_CTRL := NFP_NET_CFG_CTRL_ENABLE]>
    (<[bar + NFP_NET_CFG_MACADDR := 0x00154d12]> (<[bar + NFP_NET_CFG_MACADDR + 4 := 0x34560000]> ∅)).

Definition asked : system := idle <| shared ::= fun s : nic => s <| emem := request |> |>.

Lemma request_words : wf_mem request.
Proof. do 3 (apply insert_fits; [by vm_compute|]). apply wf_mem_empty. Qed.

(** The list that delivers to the PF *)
Definition to_pf : list Z := [393231; 655408] ++ replicate 14 0.

Definition engine_reads (m : map_cmsg) : cmsg_req_map_op := cmsg_rx (cmsg_store m ∅) (workq_data m).

Lemma switch_follows_master_witness : exists y,
  reachable 4 y /\ Forall2 delivered (map_cmsg_q (shared y)) (engine_reads <$> map_cmsg_q (shared y)) /\
  let t := engine_table (engine_reads <$> map_cmsg_q (shared y)) in
  exists value, t !! veb_lookup_key 5 0x0015 0x4d123456 = Some value /\ value_of to_pf value /\
  (base.size t <= NIC_MAC_VLAN_TABLE__NUM_ENTRIES)%nat.
Proof.
  assert (Hinit : sys_init idle) by apply nic0_init.
  assert (Hfits : key_fits (mk_veb_key 5 0x0015 0x4d123456)) by by vm_compute.
  assert (Hctrl : NFD_MAX_CTRL <= 1) by by vm_compute.
  assert (Hround : (fun r => veb_table (snd r) !! mk_veb_key 5 0x0015 0x4d123456) <$>
    cfg_changes_round 4 (msg_cursor asked) (last_msg asked) (shared asked) = Some (Some to_pf))
    by (vm_compute; reflexivity).
  destruct (cfg_changes_round 4 (msg_cursor asked) (last_msg asked) (shared asked))
    as [[[c msg] s]|] eqn:Hrun; [|done]. injection Hround as Hentry.
  set (y := mk_system s c msg (lsc_rounds asked)).
  assert (Hreach : reachable 4 y).
  { exists [Host; CfgRound], idle. split; [exact Hinit|].
    eapply run_turn; [apply (host_writes 4 idle request); exact request_words|].
    eapply run_turn; [apply (cfg_round 4 asked); exact Hrun|apply run_nil]. }
  assert (Hd : Forall2 delivered (map_cmsg_q s) (engine_reads <$> map_cmsg_q s)).
  { apply Forall2_fmap_r, Forall_Forall2_diag, Forall_true. intros m. by exists ∅. }
  exists y. split; [exact Hreach|]. split; [exact Hd|]. cbv zeta.
  destruct (switch_follows_master demo_alloc_ok 4 y _ Hreach Hd) as (He & _ & Hsize).
  clear Hreach Hd Hrun Hinit.
  specialize (He (mk_veb_key 5 0x0015 0x4d123456) Hfits).
  change (veb_table (shared y)) with (veb_table s) in He. rewrite Hentry in He. cbn [vlan_id mac_addr_hi mac_addr_lo] in He.
  specialize (Hsize Hctrl 0%nat).
  change (map_cmsg_q (shared y)) with (map_cmsg_q s) in *.
  destruct (engine_table _ !! _) as [value|]; [|by destruct He].
  exists value. split; [reflexivity|]. split; [exact He|exact Hsize].
Defined.
End witnesses.
