(* ===== verification/Liveness.v ===== *)
(** * The link state context makes progress

    A round of [lsc_loop] needs nothing from the other contexts but the mutex,
    which is free between rounds (System.v), and all its indices are in range
    on every board: it returns.  Every twentieth round refreshes the link
    status that the host reads in the BAR of each PF. *)

From S2P Require Import Prelude Platform UserCfg Nfd Machine AppPrivate Bus Link Bpf Tables ActionList Builders NicTables Veb Config Frame Control Master System.

(** ** Computations that return *)

(** From any state with [P], [m] returns and keeps [P]. *)
Definition total {A} (P : nic -> Prop) (m : C A) : Prop :=
  forall s, P s -> returns m s (fun _ => P).

Section rules.
Context {P : nic -> Prop}.

Lemma total_ret {A} (a : A) : total P (mret a).
Proof. by intros s Hs. Qed.

Lemma total_bind {A B} (m : C A) (k : A -> C B) :
  total P m -> (forall a, total P (k a)) -> total P (m ≫= k).
Proof.
  intros Hm Hk s Hs. apply returns_bind. eapply returns_mono; [by apply Hm|].
  intros a s'. apply Hk.
Qed.

Lemma total_get {A} (f : nic -> A) : total P (get f).
Proof. by intros s Hs. Qed.

Lemma total_modify f : (forall s, P s -> P (f s)) -> total P (modify f).
Proof. intros Hf s Hs. by apply Hf. Qed.

Lemma total_require b : b = true -> total P (require b).
Proof. intros ->. apply total_ret. Qed.

Lemma total_arr_get {K} `{Countable K} (f : nic -> gmap K Z) ok k : ok = true -> total P (arr_get f ok k).
Proof. intros Hok. apply total_bind; [by apply total_require|]. intros. apply total_get. Qed.

Lemma total_when b m : total P m -> total P (when b m).
Proof. intros Hm. destruct b; [done|apply total_ret]. Qed.

Lemma total_for_each {A} (l : list A) body :
  (forall x, x ∈ l -> total P (body x)) -> total P (for_each l body).
Proof.
  intros Hb. induction l as [|x l IH]; [apply total_ret|]. cbn [for_each].
  apply total_bind; [apply Hb, list_elem_of_here|]. intros _. apply IH.
  intros y Hy. by apply Hb, list_elem_of_further.
Qed.

Lemma total_for_fold {A X} (l : list A) (b : X) body :
  (forall b x, x ∈ l -> total P (body b x)) -> total P (for_fold l b body).
Proof.
  intros Hb. revert b. induction l as [|x l IH]; intros b; [apply total_ret|]. cbn [for_fold].
  apply total_bind; [apply Hb, list_elem_of_here|]. intros b'. apply IH.
  intros b2 y Hy. by apply Hb, list_elem_of_further.
Qed.
End rules.

Create HintDb total.

(** Follow the structure of a computation, as [respects] does; membership in a
    range becomes a pair of bounds. *)
Ltac total_call P m :=
  first
    [ solve [auto 3 with total nocore]
    | let h := head_of m in
      let m' := eval cbv beta delta [h] in m in
      change (total P m') ].

Ltac in_range := rewrite ?isl_ok_true, ?vid_ok_true, ?ls_ok_true, ?port_ok_true by lia; reflexivity.

Ltac total_step :=
  lazymatch goal with
  | |- forall x, x ∈ range _ _ -> _ =>
      let Hx := fresh "Hx" in intros ? Hx; apply elem_of_range in Hx
  | |- forall _, _ => intros ?
  | |- total ?P (let x := ?v in @?m x) => let m' := eval cbv beta in (m v) in change (total P m')
  | |- total _ (match ?x with _ => _ end) => destruct x
  | |- total _ (mret _) => apply total_ret
  | |- total _ (_ ≫= _) => apply total_bind
  | |- total _ (get _) => apply total_get
  | |- total _ (modify _) => apply total_modify
  | |- total _ (require _) => apply total_require
  | |- total _ (arr_get _ _ _) => apply total_arr_get
  | |- total _ (when _ _) => apply total_when
  | |- total _ (for_each _ _) => apply total_for_each
  | |- total _ (for_fold _ _ _) => apply total_for_fold
  | |- total ?P ?m => total_call P m
  | |- _ = true => solve [in_range | done]
  | |- _ => assumption
  end.
Ltac total := repeat total_step.

Section link_state.
Context {B : build} `{NetCfg, Vids, VfCfg, App, Devices, Xpb, BpfCfg, MsixCfg}.
Context `{!VidsOk B}.

Lemma port_params_ok port : 0 <= port < NS_PLATFORM_NUM_PORTS (board B) ->
  mac_params_ok (mac_of port) (core_of port) (core_port_of port) = true.
Proof.
  intros Hp. destruct (platform_serdes _ _ Hp) as (Hm & Hc & Hlo & Hle & Hhi & _).
  unfold mac_of, core_of, core_port_of, board in *. apply mac_params_ok_true; lia.
Qed.

Lemma port_serdes_ok port : 0 <= port < NS_PLATFORM_NUM_PORTS (board B) ->
  (mac_of port <? MAX_MAC_ISLANDS_PER_NFP) &&
  (NS_PLATFORM_MAC_SERDES_LO (board B) port <? MAX_ETH_PORTS_PER_MAC_ISL) = true.
Proof.
  intros Hp. destruct (platform_serdes _ _ Hp) as (Hm & Hc & Hlo & Hle & Hhi & _).
  unfold mac_of, NS_PLATFORM_MAC_SERDES_LO, board, MAX_MAC_ISLANDS_PER_NFP, MAX_ETH_PORTS_PER_MAC_ISL,
    MAX_MAC_CORES_PER_MAC_ISL, MAX_ETH_PORTS_PER_MAC_CORE in *.
  rewrite !(proj2 (Z.ltb_lt _ _)) by lia. done.
Qed.

Lemma port_queue_ok port q : 0 <= port < NS_PLATFORM_NUM_PORTS (board B) ->
  NS_PLATFORM_NBI_TM_QID_LO (board B) port <= q < NS_PLATFORM_NBI_TM_QID_HI (board B) port + 1 ->
  tm_params_ok (mac_of port) q = true.
Proof.
  intros Hp Hq. destruct (platform_serdes _ _ Hp) as (Hm & _).
  destruct (platform_channels _ _ Hp) as (Hlo & Hhi & Hmax & _).
  unfold NS_PLATFORM_NBI_TM_QID_LO, NS_PLATFORM_NBI_TM_QID_HI in Hq.
  rewrite !Z.shiftl_mul_pow2 in Hq by lia.
  unfold tm_params_ok, mac_of, board, MAX_NBI_ISLANDS_PER_NFP, MAX_TM_QUEUES_PER_NBI_ISL in *.
  rewrite !(proj2 (Z.ltb_lt _ _)); [done|lia..].
Qed.

(** ** The MAC *)

Definition any_state (s : nic) : Prop := True.

Section ports.
Context (P : nic -> Prop) (port : Z).
Context (Hport : 0 <= port < NS_PLATFORM_NUM_PORTS (board B)).
Hypothesis emits : forall e s, P s -> P (s <| bus ::= cons e |>).

Lemma total_emit e : total P (emit e).
Proof. apply total_modify. intros s. apply emits. Qed.
#[local] Hint Resolve total_emit : total.

Lemma total_xpb_read a : total P (xpb_read a).
Proof. total. Qed.

Lemma total_link_state : total P (port_link_state port).
Proof. pose proof (port_serdes_ok port Hport). total. Qed.

Lemma total_check_rx_enable : total P (port_check_rx_enable port).
Proof. pose proof (port_params_ok port Hport). total. Qed.
End ports.

Lemma total_locked (m : C unit) : total any_state m ->
  total mutex_free (_ ← LOCAL_MUTEX_LOCK; _ ← m; LOCAL_MUTEX_UNLOCK).
Proof.
  intros Hm s Hs. unfold LOCAL_MUTEX_LOCK. apply returns_bind. unfold returns.
  rewrite run_get, Hs. cbn [truthy negb Z.eqb]. rewrite run_require by done.
  change (returns (_ ← m; LOCAL_MUTEX_UNLOCK) (s <| mac_reg_lock := 1 |>) (fun _ => mutex_free)).
  apply returns_bind. eapply returns_mono; [by apply Hm|]. done.
Qed.

Lemma any_emits e s : any_state s -> any_state (s <| bus ::= cons e |>).
Proof. done. Qed.
Lemma free_emits e s : mutex_free s -> mutex_free (s <| bus ::= cons e |>).
Proof. done. Qed.

Section port.
Context (port : Z) (Hport : 0 <= port < NS_PLATFORM_NUM_PORTS (board B)).

Lemma total_enable_rx : total mutex_free (mac_port_enable_rx port).
Proof. apply total_locked. pose proof (port_params_ok port Hport). pose proof (total_emit _ any_emits). total. Qed.

Lemma total_enable_tx_flush :
  total mutex_free (mac_port_enable_tx_flush (mac_of port) (core_of port) (core_port_of port)).
Proof. apply total_locked. pose proof (port_params_ok port Hport). pose proof (total_emit _ any_emits). total. Qed.

Lemma total_disable_tx_flush :
  total mutex_free (mac_port_disable_tx_flush (mac_of port) (core_of port) (core_port_of port)).
Proof. apply total_locked. pose proof (port_params_ok port Hport). pose proof (total_emit _ any_emits). total. Qed.

Lemma total_enable_tx : total mutex_free (mac_port_enable_tx port).
Proof.
  apply total_locked. pose proof (total_emit _ any_emits).
  unfold enable_port_tx_datapath. apply total_for_each. intros q Hq%elem_of_range.
  pose proof (port_queue_ok port q Hport Hq). total.
Qed.
End port.
#[local] Hint Resolve total_enable_rx total_enable_tx_flush total_disable_tx_flush total_enable_tx : total.

(** ** A round *)

Section island.
Context (pcie : Z) (Hpcie : 0 <= pcie < NFD_MAX_ISL).

Lemma total_send_or_pend vid : 0 <= vid < NVNICS B NFD_MAX_CTRL ->
  total mutex_free (send_or_pend pcie vid).
Proof. intros Hv. pose proof (total_emit _ free_emits). total. Qed.
#[local] Hint Resolve total_send_or_pend : total.

Lemma total_pending_step vid : 0 <= vid < NVNICS B NFD_MAX_CTRL ->
  total mutex_free (pending_step pcie vid).
Proof. intros Hv. total. Qed.

Section port.
Context (port : Z) (Hport : 0 <= port < NS_PLATFORM_NUM_PORTS (board B)).

Lemma total_lsc_check_vf ls : total mutex_free (lsc_check_vf pcie port ls).
Proof. total. Qed.
Lemma pf_vid_range : 0 <= NFD_PF2VID port < NVNICS B NFD_MAX_CTRL.
Proof. by apply pf_vid. Qed.

Lemma total_lsc_check : total mutex_free (lsc_check pcie port).
Proof.
  pose proof pf_vid_range. pose proof total_lsc_check_vf.
  pose proof (total_link_state _ port Hport free_emits).
  pose proof (total_check_rx_enable _ port Hport free_emits). total.
Qed.
End port.

Lemma total_lsc_check_ports : total mutex_free (lsc_check_ports pcie).
Proof. apply total_for_each. intros port Hp%elem_of_range. by apply total_lsc_check. Qed.

Lemma total_pending : total mutex_free (handle_pending_interrupts pcie).
Proof. apply total_for_each. intros vid Hv%elem_of_range. by apply total_pending_step. Qed.
End island.

(** What the firmware relies on: the library knows the islands of the build, the
    VFs are no PFs, and the BARs of two islands do not overlap, and
    the status word of a BAR is a word apart from the interrupt cause bytes. *)
Class StatusOk (bar_size : Z) : Prop := {
  status_bars :: BarOk bar_size;
  islands_apart pcie pcie' vid vid' : pcie <> pcie' ->
    0 <= vid < NVNICS B NFD_MAX_CTRL -> 0 <= vid' < NVNICS B NFD_MAX_CTRL ->
    nfd_cfg_bar_base pcie vid + bar_size <= nfd_cfg_bar_base pcie' vid' \/
    nfd_cfg_bar_base pcie' vid' + bar_size <= nfd_cfg_bar_base pcie vid;
  islands_known p : has_pcie p = true -> p < NFD_MAX_ISL;
  pf_no_vf n : 0 <= n < NFD_MAX_PFS B -> NFD_VID_IS_VF (NFD_PF2VID n) = false;
  sts_word : NFP_NET_CFG_STS mod 4 = 0;
  sts_inside : 0 <= NFP_NET_CFG_STS < bar_size;
  icr_not_sts e : 0 <= e < 255 -> NFP_NET_CFG_ICR e / 4 <> NFP_NET_CFG_STS / 4
}.

Context (bar_size : Z) `{!StatusOk bar_size}.

Lemma elem_of_islands p : p ∈ pcie_islands -> 0 <= p < NFD_MAX_ISL /\ has_pcie p = true.
Proof.
  intros Hp%list_elem_of_In%filter_In. destruct Hp as [_ Hp].
  pose proof (islands_known p Hp). pose proof (has_pcie_range p Hp). split; [lia|done].
Qed.

Lemma total_lsc_round n : total mutex_free (lsc_loop_round n).
Proof.
  unfold lsc_loop_round. apply total_bind; [apply total_emit, free_emits|]. intros _. cbv zeta.
  apply total_bind.
  { apply total_for_each. intros p [Hp _]%elem_of_islands. by apply total_pending. }
  intros _. destruct (_ >? _); [|apply total_ret].
  apply total_bind; [|intros; apply total_ret].
  apply total_for_each. intros p [Hp _]%elem_of_islands. by apply total_lsc_check_ports.
Qed.

(** ** The status word of a PF *)

Definition sts_addr (pcie vid : Z) : Z := nfd_cfg_bar_base pcie vid + NFP_NET_CFG_STS.

(** After the history [h0] the two registers of the MAC that tell the link state
    of the port were read; the status word says that the link is up, at the speed
    of the port, exactly if what was read says so and the PF is enabled. *)
Definition status_ok (h0 : list bus_event) (pcie port : Z) (s : nic) : Prop :=
  exists v1 v2 before after,
    bus s = after ++ XpbRead (pcs_sts_addr (mac_of port) (NS_PLATFORM_MAC_SERDES_LO (board B) port)
                        (is_1ge port)) v2 ::
                     XpbRead (eth_sts_addr (mac_of port) (NS_PLATFORM_MAC_SERDES_LO (board B) port)) v1 ::
                     before ++ h0 /\
    rd (emem s) (sts_addr pcie (NFD_PF2VID port)) =
      if sampled_up (is_1ge port) v1 v2 &&
         has (rd (nic_control_word s) (pcie, NFD_PF2VID port)) NFP_NET_CFG_CTRL_ENABLE
      then link_up_sts port else link_down_sts.

(** The history is longer by [h]. *)
Definition longer (h0 : list bus_event) (s : nic) : Prop := exists h, bus s = h ++ h0.

Section at_pf.
Context (pcie port : Z) (Hpcie : 0 <= pcie < NFD_MAX_ISL).
Context (Hport : 0 <= port < NS_PLATFORM_NUM_PORTS (board B)).
Let pf := NFD_PF2VID port.

Record keeps_status (s s' : nic) : Prop := {
  kept_sts : rd (emem s') (sts_addr pcie pf) = rd (emem s) (sts_addr pcie pf);
  kept_control : nic_control_word s' = nic_control_word s;
  kept_bus : longer (bus s) s'
}.

#[local] Instance keeps_status_preorder : PreOrder keeps_status.
Proof.
  split; [intros s; split; [done..|by exists []]|].
  intros s1 s2 s3 [? ? [h1 E1]] [? ? [h2 E2]]. split; [by etransitivity..|].
  exists (h2 ++ h1). by rewrite E2, E1, app_assoc.
Qed.

Lemma keeps_status_ok h0 s s' : keeps_status s s' -> status_ok h0 pcie port s -> status_ok h0 pcie port s'.
Proof.
  intros [Hs Hc [h Hb]] (v1 & v2 & before & after & Hbus & Hsts). fold pf in Hsts.
  exists v1, v2, before, (h ++ after). fold pf. by rewrite Hs, Hc, Hb, Hbus, <- app_assoc.
Qed.

Lemma keeps_longer h0 s s' : keeps_status s s' -> longer h0 s -> longer h0 s'.
Proof. intros [_ _ [h Hb]] [h' Hh]. exists (h ++ h'). by rewrite Hb, Hh, app_assoc. Qed.

Lemma keeps_same s s' : emem s' = emem s -> nic_control_word s' = nic_control_word s ->
  longer (bus s) s' -> keeps_status s s'.
Proof. intros He Hc Hb. split; [by rewrite He|done..]. Qed.

Lemma keeps_bus e s : keeps_status s (s <| bus ::= cons e |>).
Proof. apply keeps_same; [done..|by exists [e]]. Qed.
Lemma keeps_vs f s : keeps_status s (s <| vs_current ::= f |>).
Proof. apply keeps_same; [done..|by exists []]. Qed.
Lemma keeps_ls f s : keeps_status s (s <| ls_current ::= f |>).
Proof. apply keeps_same; [done..|by exists []]. Qed.
Lemma keeps_pending f s : keeps_status s (s <| pending ::= f |>).
Proof. apply keeps_same; [done..|by exists []]. Qed.
Lemma keeps_lock f s : keeps_status s (s <| mac_reg_lock ::= f |>).
Proof. apply keeps_same; [done..|by exists []]. Qed.
#[local] Hint Resolve keeps_bus keeps_vs keeps_ls keeps_pending keeps_lock : respects.

(** The interrupt cause of a vNIC, and the status of another one *)
Lemma sts_not_icr pcie' vid e : 0 <= vid < NVNICS B NFD_MAX_CTRL -> 0 <= e < 255 ->
  let a := nfd_cfg_bar_base pcie' vid + NFP_NET_CFG_ICR e in a - a mod 4 <> sts_addr pcie pf.
Proof.
  intros Hv He a. pose proof (pf_vid_range port Hport) as Hpf. fold pf in Hpf. unfold sts_addr, a.
  pose proof (bar_words pcie pf). pose proof (bar_words pcie' vid). pose proof sts_word.
  pose proof sts_inside. pose proof (icr_inside e He). pose proof (icr_not_sts e He).
  pose proof bar_size_words.
  destruct (decide (pcie = pcie')) as [<-|Hne]; [destruct (decide (pf = vid)) as [<-|Hne]|].
  - Z.to_euclidean_division_equations. lia.
  - destruct (bar_apart pcie pf vid Hne); Z.to_euclidean_division_equations; lia.
  - destruct (islands_apart pcie pcie' pf vid Hne Hpf Hv); Z.to_euclidean_division_equations; lia.
Qed.

Lemma sts_not_sts pcie' vid : 0 <= vid < NVNICS B NFD_MAX_CTRL -> (pcie, pf) <> (pcie', vid) ->
  sts_addr pcie' vid <> sts_addr pcie pf.
Proof.
  intros Hv Hne. pose proof (pf_vid_range port Hport) as Hpf. fold pf in Hpf. unfold sts_addr.
  pose proof sts_inside.
  destruct (decide (pcie = pcie')) as [<-|Hp].
  - assert (Hd : pf <> vid) by congruence. destruct (bar_apart pcie pf vid Hd); lia.
  - destruct (islands_apart pcie pcie' pf vid Hp Hpf Hv); lia.
Qed.

Lemma keeps_send_or_pend pcie' vid : 0 <= pcie' < NFD_MAX_ISL -> 0 <= vid < NVNICS B NFD_MAX_CTRL ->
  respects keeps_status (send_or_pend pcie' vid).
Proof.
  intros Hp Hv s [] s' Hrun.
  destruct (run_send_or_pend pcie' vid s Hp Hv) as (h & wait & wrote & Hrun' & Hres).
  rewrite Hrun in Hrun'. injection Hrun' as ->. split; [|done|by exists h]. st.
  unfold icr_write. destruct wrote; [|done]. unfold set_byte, icr_addr. apply rd_insert_ne. apply sts_not_icr; [done|].
  pose proof (lsc_entry_fits pcie' vid (emem s)). apply lsc_wrote_entry in Hres. lia.
Qed.

Lemma keeps_write_sts pcie' vid v : 0 <= vid < NVNICS B NFD_MAX_CTRL -> (pcie, pf) <> (pcie', vid) ->
  respects keeps_status (mem_write32 (nfd_cfg_bar_base pcie' vid + NFP_NET_CFG_STS) v).
Proof.
  intros Hv Hne. apply respects_modify. intros s. split; [|done|by exists []]. st. apply rd_insert_ne.
  by apply sts_not_sts.
Qed.

Lemma respects_elem {A} (l : list A) body : (forall x, x ∈ l -> respects keeps_status (body x)) ->
  respects keeps_status (for_each l body).
Proof.
  intros Hb. induction l as [|x l IH]; [apply respects_ret|]. cbn [for_each].
  apply respects_bind; [apply Hb, list_elem_of_here|]. intros _. apply IH.
  intros y Hy. by apply Hb, list_elem_of_further.
Qed.

Lemma keeps_lsc_check_vf pcie' port' ls : 0 <= pcie' < NFD_MAX_ISL ->
  respects keeps_status (lsc_check_vf pcie' port' ls).
Proof.
  intros Hp. apply respects_elem. intros vid Hv%elem_of_range.
  destruct (NFD_VID_IS_VF vid) eqn:Hvf; [|intros s a s' [= <- <-]; reflexivity].
  assert (Hne : (pcie, pf) <> (pcie', vid)).
  { intros [= _ <-]. unfold pf in Hvf. by rewrite pf_no_vf in Hvf. }
  pose proof (fun v => keeps_write_sts pcie' vid v Hv Hne).
  pose proof (keeps_send_or_pend pcie' vid Hp Hv). respects.
Qed.

Lemma keeps_enable port' : respects keeps_status (port_enable port').
Proof. respects. Qed.

Lemma keeps_changes pcie' port' : respects keeps_status (lsc_changes pcie' port').
Proof. respects. Qed.
#[local] Hint Resolve keeps_enable keeps_changes : respects.

(** The check of another port or island leaves the status alone. *)
Lemma keeps_lsc_check pcie' port' : 0 <= pcie' < NFD_MAX_ISL ->
  0 <= port' < NS_PLATFORM_NUM_PORTS (board B) -> (pcie, port) <> (pcie', port') ->
  respects keeps_status (lsc_check pcie' port').
Proof.
  intros Hp Hport' Hne. pose proof (pf_vid_range port' Hport') as Hv.
  assert (Hne' : (pcie, pf) <> (pcie', NFD_PF2VID port')).
  { intros [= -> E]. destruct (pf_vid port Hport) as [E1 _]. destruct (pf_vid port' Hport') as [E2 _].
    unfold pf in E. rewrite E, E2 in E1. congruence. }
  pose proof (fun v => keeps_write_sts pcie' _ v Hv Hne').
  pose proof (keeps_send_or_pend pcie' _ Hp Hv).
  pose proof (fun ls => keeps_lsc_check_vf pcie' port' ls Hp). respects.
Qed.

(** What lsc_changes reports is what it read from the MAC, or that the link is
    down, and that only when no island has the PF enabled. *)
Lemma lsc_changes_link s changed ls vs s' :
  lsc_changes pcie port s = Some ((changed, ls, vs), s') ->
  exists v1 v2,
    bus s' = XpbRead (pcs_sts_addr (mac_of port) (NS_PLATFORM_MAC_SERDES_LO (board B) port) (is_1ge port)) v2 ::
             XpbRead (eth_sts_addr (mac_of port) (NS_PLATFORM_MAC_SERDES_LO (board B) port)) v1 :: bus s /\
    (ls = (if sampled_up (is_1ge port) v1 v2 then LINK_UP else LINK_DOWN) \/
     ls = LINK_DOWN /\ has (rd (nic_control_word s') (pcie, pf)) NFP_NET_CFG_CTRL_ENABLE = false).
Proof.
  pose proof (pf_vid_range port Hport) as Hv. fold pf in Hv. unfold lsc_changes, port_link_state. fold pf. cbv zeta.
  pose proof (port_serdes_ok port Hport) as Hok. apply andb_prop in Hok as [Hm%Z.ltb_lt Hs%Z.ltb_lt].
  destruct (run_link_sample _ _ (is_1ge port) s Hm Hs) as (v1 & v2 & Hrun).
  set (ls0 := if sampled_up _ _ _ then _ else _) in Hrun. set (s1 := with_bus _ s) in Hrun.
  erewrite run_some by exact Hrun. cbv beta.
  erewrite run_some by (apply run_LS_READ; [by apply isl_ok_true|done]). cbv beta.
  intros (u & s2 & Hset & Hrest)%bind_some_inv.
  assert (Hs2 : bus s2 = bus s1 /\ nic_control_word s2 = nic_control_word s1).
  { revert Hset. destruct (negb _); cbn [when]; [|by intros [= <- <-]].
    rewrite run_LS_PUT by (done || by apply isl_ok_true). by intros [= <- <-]. }
  destruct Hs2 as [Hb2 Hc2].
  destruct (run_check_up pf s2 Hv) as (up & Hup & Htr). erewrite run_some in Hrest by exact Hup. cbv beta in Hrest.
  erewrite run_some in Hrest by (apply run_LS_READ; [by apply isl_ok_true|done]). cbv beta in Hrest.
  exists v1, v2. match type of Hrest with (if ?b then _ else _) _ = _ => destruct b end.
  2:{ injection Hrest as <- <- <- <-. split; [exact Hb2|by left]. }
  destruct (truthy up) eqn:Ht.
  - erewrite run_some in Hrest by (apply run_LS_SET; [by apply isl_ok_true|done]).
    cbv beta in Hrest. injection Hrest as <- <- <- <-. split; [exact Hb2|by left].
  - erewrite run_some in Hrest by (apply run_LS_CLEAR; [by apply isl_ok_true|done]).
    cbv beta in Hrest. injection Hrest as <- <- <- <-. split; [exact Hb2|]. right. split; [done|]. st.
    apply not_true_iff_false. intros E.
    assert (Hv2 : vnic_up pf (nic_control_word s2) = true); [|congruence].
    apply existsb_exists. exists pcie. split; [|exact E]. by apply list_elem_of_In, elem_of_range.
Qed.

(** The check of the port itself sets it. *)
Lemma lsc_check_status h0 s u s' : longer h0 s -> lsc_check pcie port s = Some (u, s') ->
  status_ok h0 pcie port s'.
Proof.
  intros [h Hh]. pose proof (pf_vid_range port Hport) as Hv. fold pf in Hv. unfold lsc_check. fold pf. cbv zeta.
  intros ([[changed ls] vs] & s1 & Hch & Hrun)%bind_some_inv.
  apply lsc_changes_link in Hch as (v1 & v2 & Hb1 & Hls).
  apply bind_some_inv in Hrun as (u2 & s2 & Hwhen & Hrun).
  assert (Hk2 : keeps_status s1 s2) by (match type of Hwhen with ?m _ = _ =>
    assert (Hk : respects keeps_status m) by respects; by apply (Hk _ _ _ Hwhen) end).
  erewrite run_some in Hrun by by apply run_get_nic_control_word. cbv beta in Hrun.
  set (en := has (rd (nic_control_word s2) (pcie, pf)) NFP_NET_CFG_CTRL_ENABLE) in *.
  assert (Hup : bool_decide (ls = LINK_UP) && en = sampled_up (is_1ge port) v1 v2 && en).
  { destruct Hls as [->|[-> Hen]]; [by destruct (sampled_up _ _ _)|].
    unfold en. rewrite (kept_control _ _ Hk2), Hen. by rewrite !andb_false_r. }
  apply bind_some_inv in Hrun as (sts & s3 & Hsts & Hrun).
  assert (Hk3 : keeps_status s2 s3) by (match type of Hsts with ?m _ = _ =>
    assert (Hk : respects keeps_status m) by respects; by apply (Hk _ _ _ Hsts) end).
  assert (Hval : sts = if sampled_up (is_1ge port) v1 v2 && en then link_up_sts port else link_down_sts).
  { rewrite <- Hup. destruct (bool_decide _ && _); [|injection Hsts as <- _; apply Z.lor_0_r].
    apply bind_some_inv in Hsts as (u3 & s4 & _ & Hsts). by injection Hsts as <- _. }
  unfold mem_write32, mem_read32 in Hrun. rewrite run_modify, run_get in Hrun.
  destruct (kept_bus _ _ Hk2) as [h2 Hb2], (kept_bus _ _ Hk3) as [h3 Hb3].
  assert (Hok : status_ok h0 pcie port (s3 <| emem ::= <[sts_addr pcie pf := sts]> |>)).
  { exists v1, v2, h, (h3 ++ h2). fold pf. st. rewrite rd_insert_eq, Hval, (kept_control _ _ Hk3).
    split; [|done]. by rewrite Hb3, Hb2, Hb1, Hh, <- app_assoc. }
  revert Hok. apply keeps_status_ok.
  pose proof (keeps_send_or_pend pcie pf Hpcie Hv).
  pose proof (fun ls => keeps_lsc_check_vf pcie port ls Hpcie).
  match type of Hrun with ?m _ = _ =>
    assert (Hk : respects keeps_status m) by respects; by apply (Hk _ _ _ Hrun) end.
Qed.

(** It only adds to the history. *)
Lemma lsc_check_longer h0 s u s' : longer h0 s -> lsc_check pcie port s = Some (u, s') -> longer h0 s'.
Proof.
  intros Hl (v1 & v2 & before & after & Hb & _)%(lsc_check_status h0); [|done].
  eexists (after ++ XpbRead _ v2 :: XpbRead _ v1 :: before). rewrite Hb, <- app_assoc. reflexivity.
Qed.
End at_pf.

(** ** Every port of every island *)

Lemma for_each_establishes `{EqDecision A} (I : nic -> Prop) (Q : A -> nic -> Prop) (l : list A)
    (body : A -> C unit) s u s' :
  (forall x s1 u s2, x ∈ l -> I s1 -> body x s1 = Some (u, s2) -> I s2 /\ Q x s2) ->
  (forall x y s1 u s2, x ∈ l -> y ∈ l -> x <> y -> body y s1 = Some (u, s2) -> Q x s1 -> Q x s2) ->
  I s -> for_each l body s = Some (u, s') ->
  I s' /\ forall x, x ∈ l -> Q x s'.
Proof.
  intros Hest Hkeep HI Hrun.
  assert (Hgen : forall (dn : list A) s, (forall x, x ∈ dn -> x ∈ l /\ Q x s) -> I s -> forall rest,
    (forall x, x ∈ rest -> x ∈ l) -> for_each rest body s = Some (u, s') ->
    I s' /\ forall x, x ∈ dn \/ x ∈ rest -> Q x s').
  { intros dn s1 Hdone HI1 rest. revert dn s1 Hdone HI1.
    induction rest as [|y rest IH]; intros dn s1 Hdone HI1 Hin Hr.
    - injection Hr as _ <-. split; [done|]. intros x [Hx|Hx%elem_of_nil]; [by apply Hdone|done].
    - apply bind_some_inv in Hr as ([] & s2 & Hy & Hr).
      pose proof (Hin y (list_elem_of_here _ _)) as Hyl.
      destruct (Hest y s1 tt s2 Hyl HI1 Hy) as [HI2 HQ2].
      destruct (IH (y :: dn) s2) as [HI' HQ'];
        [|done|by intros z Hz; apply Hin, list_elem_of_further|done|].
      + intros z [->|Hz]%elem_of_cons; [by split|].
        destruct (Hdone z Hz) as [Hzl HQ]. split; [done|].
        destruct (decide (z = y)) as [->|]; [done|by eauto].
      + split; [done|]. intros x Hx. apply HQ'. rewrite !elem_of_cons in *. tauto. }
  destruct (Hgen [] s) with (rest := l) as [HI' HQ']; [by intros z Hz%elem_of_nil|done..|].
  split; [done|]. intros x Hx. apply HQ'. by right.
Qed.

Definition all_status (h0 : list bus_event) (s : nic) : Prop := forall pcie port, has_pcie pcie = true ->
  0 <= port < NS_PLATFORM_NUM_PORTS (board B) -> status_ok h0 pcie port s.

Lemma check_ports_status h0 pcie s u s' : 0 <= pcie < NFD_MAX_ISL -> longer h0 s ->
  lsc_check_ports pcie s = Some (u, s') ->
  longer h0 s' /\ forall port, 0 <= port < NS_PLATFORM_NUM_PORTS (board B) -> status_ok h0 pcie port s'.
Proof.
  intros Hp Hl Hrun.
  destruct (for_each_establishes (longer h0) (status_ok h0 pcie) (range 0 (NS_PLATFORM_NUM_PORTS (board B)))
    (lsc_check pcie) s u s') as [Hl' HQ]; [| |exact Hl|exact Hrun|].
  - intros x s1 [] s2 Hx%elem_of_range Hl1 Hb.
    split; [by eapply lsc_check_longer|by eapply lsc_check_status].
  - intros x y s1 [] s2 Hx%elem_of_range Hy%elem_of_range Hne Hb.
    apply keeps_status_ok. eapply (keeps_lsc_check pcie x Hp Hx pcie y); [done|done|congruence|exact Hb].
  - split; [done|]. intros port Hport. by apply HQ, elem_of_range.
Qed.

Lemma islands_status h0 s u s' : longer h0 s -> for_each pcie_islands lsc_check_ports s = Some (u, s') ->
  all_status h0 s'.
Proof.
  intros Hl Hrun.
  destruct (for_each_establishes (longer h0)
    (fun pcie s => forall port, 0 <= port < NS_PLATFORM_NUM_PORTS (board B) -> status_ok h0 pcie port s)
    pcie_islands lsc_check_ports s u s') as [_ HQ]; [| |exact Hl|exact Hrun|].
  - intros x s1 [] s2 [Hx _]%elem_of_islands. by apply check_ports_status.
  - intros x y s1 [] s2 [Hx _]%elem_of_islands [Hy _]%elem_of_islands Hne Hb HQ port Hport.
    eapply keeps_status_ok; [|by apply HQ].
    eapply (respects_elem x port); [|exact Hb]. intros port' Hport'%elem_of_range.
    apply keeps_lsc_check; [done..|]. congruence.
  - intros pcie port Hp. apply HQ. apply list_elem_of_In, filter_In. split; [|done].
    pose proof (has_pcie_range pcie Hp).
    assert (pcie = 0 \/ pcie = 1 \/ pcie = 2 \/ pcie = 3) as [->|[->|[->| ->]]] by lia; simpl; tauto.
Qed.

(** The interrupts before the check only add to the history. *)
Lemma pending_longer h0 s u s' : longer h0 s ->
  for_each pcie_islands handle_pending_interrupts s = Some (u, s') -> longer h0 s'.
Proof.
  intros Hl Hrun.
  apply (for_each_establishes (longer h0) (fun _ _ => True) _ _ s u s') in Hrun as [Hlonger _]; [done| |done|done].
  intros pcie s1 [] s2 [Hp _]%elem_of_islands Hl1 Hb. split; [|done].
  apply (for_each_establishes (longer h0) (fun _ _ => True) _ _ s1 tt s2) in Hb as [Hl' _]; [done| |done|done].
  intros vid s3 [] s4 Hv%elem_of_range [h Hh] Hstep. split; [|done].
  destruct (run_pending_step pcie vid s3 Hp Hv) as (p & h' & wrote & Hrun' & _).
  rewrite Hstep in Hrun'. injection Hrun' as ->. exists (h' ++ h). st. by rewrite Hh, app_assoc.
Qed.

(** The rounds until the ports are checked *)
Definition rounds_left (n : Z) : Z := Z.max 1 (20 - n).

Lemma lsc_round_status n s n' s' : lsc_loop_round n s = Some (n', s') ->
  if n >=? 19 then n' = 0 /\ all_status (bus s) s' else n' = n + 1.
Proof.
  unfold lsc_loop_round. intros (u1 & s1 & Hsleep & Hrun)%bind_some_inv. cbv zeta in Hrun.
  apply bind_some_inv in Hrun as (u2 & s2 & Hpend & Hrun).
  assert (Hl : longer (bus s) s2).
  { apply (pending_longer _ s1 u2 s2); [|exact Hpend]. injection Hsleep as _ <-. by exists [Sleep LSC_POLL_PERIOD]. }
  destruct (Z.gtb_spec (n + 1) 19), (Z.geb_spec n 19); try lia.
  - apply bind_some_inv in Hrun as (u3 & s3 & Hrun & Hret). injection Hret as <- <-.
    split; [done|]. by eapply islands_status.
  - by injection Hrun as <- <-.
Qed.

Definition lsc_turns (ts : list turn) : Z := Z.of_nat (length (filter (.= LscRound) ts)).

Lemma lsc_turns_cons t ts : lsc_turns (t :: ts) =
  (if decide (t = LscRound) then 1 else 0) + lsc_turns ts.
Proof. unfold lsc_turns. rewrite filter_cons. case_decide; simpl length; lia. Qed.

Lemma turn_lsc fuel t y y' : sys_step fuel t y y' ->
  if decide (t = LscRound)
  then if lsc_rounds y >=? 19 then lsc_rounds y' = 0 /\ all_status (bus (shared y)) (shared y')
       else lsc_rounds y' = lsc_rounds y + 1
  else lsc_rounds y' = lsc_rounds y.
Proof.
  intros [y1 m|y1 c msg s Hrun|y1 n s Hrun]; cbn [shared lsc_rounds];
    [by rewrite decide_False..|]. rewrite decide_True by done. by apply lsc_round_status in Hrun.
Qed.

Lemma checked_within fuel ts y y' : sys_run fuel ts y y' -> rounds_left (lsc_rounds y) <= lsc_turns ts ->
  exists ts1 ts2 y1 y2, ts = ts1 ++ LscRound :: ts2 /\ sys_run fuel ts1 y y1 /\
    sys_step fuel LscRound y1 y2 /\ sys_run fuel ts2 y2 y' /\ all_status (bus (shared y1)) (shared y2).
Proof.
  unfold rounds_left. induction 1 as [y|t ts y y1 y' Hstep Hrun IH]; intros Hcount.
  { unfold lsc_turns in Hcount. simpl in Hcount. lia. }
  rewrite lsc_turns_cons in Hcount. pose proof (turn_lsc _ _ _ _ Hstep) as Hturn.
  assert (Hlater : Z.max 1 (20 - lsc_rounds y1) <= lsc_turns ts -> exists ts1 ts2 y1 y2,
    t :: ts = ts1 ++ LscRound :: ts2 /\ sys_run fuel ts1 y y1 /\
    sys_step fuel LscRound y1 y2 /\ sys_run fuel ts2 y2 y' /\ all_status (bus (shared y1)) (shared y2)).
  { intros Hle. destruct (IH Hle) as (ts1 & ts2 & z1 & z2 & -> & Hr1 & Hs & Hr2 & Hall).
    exists (t :: ts1), ts2, z1, z2. split; [done|]. split; [by eapply run_turn|]. done. }
  destruct (decide (t = LscRound)) as [->|Ht]; [|apply Hlater; rewrite Hturn; lia].
  destruct (Z.geb_spec (lsc_rounds y) 19); [|apply Hlater; rewrite Hturn; lia].
  destruct Hturn as [_ Hall]. exists [], ts, y, y1. split; [done|]. split; [constructor|]. done.
Qed.

(** C9: the link state that the host reads stays current.  A round of the link
    state context returns from every reachable state, whatever the devices
    answer; and among any 20 of its rounds, whatever the host and the
    configuration context do in between, there is one after which the status
    word of the PF of every port of every island is that of the MAC: in this
    round the two registers of the MAC that tell the link of the port were read
    one after the other, and the word says that the link is up, at the speed of
    the port, exactly if what was read says so (no loss of signal, no fault, and
    the PCS has the link) and the PF is enabled in that island; otherwise it
    says that the link is down. *)
Theorem link_status_refreshed fuel ts y y' : reachable fuel y -> 0 <= lsc_rounds y ->
  sys_run fuel ts y y' ->
  (exists y2, sys_step fuel LscRound y' y2) /\
  (20 <= lsc_turns ts -> exists ts1 ts2 y1 y2, ts = ts1 ++ LscRound :: ts2 /\
    sys_run fuel ts1 y y1 /\ sys_step fuel LscRound y1 y2 /\ sys_run fuel ts2 y2 y' /\
    all_status (bus (shared y1)) (shared y2)).
Proof.
  intros Hreach Hn Hrun. split.
  - assert (Hfree : mutex_free (shared y')).
    { destruct Hreach as (ts0 & y0 & Hinit & Hrun0).
      pose proof (run_invariant fuel _ _ _ _ (step_shared_ok fuel) Hrun0 (init_shared_ok y0 Hinit)) as Hok.
      apply (run_invariant fuel _ _ _ _ (step_shared_ok fuel) Hrun Hok). }
    pose proof (total_lsc_round (lsc_rounds y') _ Hfree) as Hret.
    apply returns_exists in Hret as (n & s & Hround & _). eexists. by apply lsc_round.
  - intros Hcount. apply checked_within; [done|]. unfold rounds_left. lia.
Qed.

Lemma lsc_turns_exist fuel n y : mutex_free (shared y) ->
  exists y', sys_run fuel (replicate n LscRound) y y'.
Proof.
  revert y. induction n as [|n IH]; intros y Hfree; [eexists; apply run_nil|].
  pose proof (total_lsc_round (lsc_rounds y) _ Hfree) as Hret.
  apply returns_exists in Hret as (k & s & Hround & Hfree1).
  destruct (IH (mk_system s (msg_cursor y) (last_msg y) k) Hfree1) as [y' Hrun].
  exists y'. eapply run_turn; [by apply lsc_round|exact Hrun].
Qed.
End link_state.

(** ** Witness *)

Section witnesses.
Import Demo Mac Engines.

#[export] Instance demo_status : StatusOk (B := sriov_build) 0x8000.
Proof.
  split; try apply _.
  - intros p p' vid vid' Hne Hv Hv'. assert (NVNICS sriov_build NFD_MAX_CTRL <= 256) by (by vm_compute).
    simpl. lia.
  - intros p Hp. apply has_pcie_range in Hp as Hr. 
    assert (p = 0 \/ p = 1 \/ p = 2 \/ p = 3) as [->|[->|[->| ->]]] by lia; done.
  - intros n Hn. simpl. apply Z.ltb_ge. change (NFD_MAX_VFS _) with 48. lia.
  - done.
  - by vm_compute.
  - intros e He. simpl. Z.to_euclidean_division_equations. lia.
Qed.

Lemma link_status_refreshed_witness :
  exists y', sys_run 1 (replicate 20 LscRound) sys0 y' /\
    (exists y2, sys_step 1 LscRound y' y2) /\
    exists ts1 ts2 y1 y2, replicate 20 LscRound = ts1 ++ LscRound :: ts2 /\
      sys_run 1 ts1 sys0 y1 /\ sys_run 1 ts2 y2 y' /\
      all_status (bus (shared y1)) (shared y2).
Proof.
  destruct (lsc_turns_exist 0x8000 1 20 sys0 eq_refl) as [y' Hrun].
  exists y'. split; [exact Hrun|].
  assert (Hreach : reachable 1 sys0) by (exists [], sys0; split; [apply nic0_init|apply run_nil]).
  destruct (link_status_refreshed 0x8000 1 (replicate 20 LscRound) sys0 y' Hreach ltac:(done) Hrun)
    as [Hnext Hchecked].
  split; [exact Hnext|].
  destruct (Hchecked ltac:(vm_compute; discriminate)) as (ts1 & ts2 & y1 & y2 & E & Hr1 & _ & Hr2 & Hall).
  exists ts1, ts2, y1, y2. done.
Defined.
End witnesses.
