(* ===== verification/Start.v ===== *)
(** * Start of the application master: main and its contexts

    [main] of apps/nic/app_master_main.c gives each context of the engine its
    part.  The configuration context sets the devices up before its loop; the
    statistics context pushes the packet counters of one queue after the other
    and tells the workers of a new epoch.  The theorems connect the state that
    the start leaves with the initial states of System.v. *)

From S2P Require Import Prelude Platform UserCfg Nfd Machine AppPrivate Bus Nbi NbiPc Catamaran CatApp Trng Link Bpf Tables ActionList Builders NicTables Veb Config Frame Lists Control Master System Liveness.

Definition APP_MASTER_CTX_CONFIG_CHANGES : Z := 0.
Definition APP_MASTER_CTX_MAC_STATS : Z := 2.
Definition APP_MASTER_CTX_PERQ_STATS : Z := 4.
Definition APP_MASTER_CTX_LINK_STATE : Z := 6.

Definition PERQ_STATS_SLEEP : Z := 2000.

(** The numbers of queues of an island, macros of the NFD library *)
Class QueueTotals := {
  NFD_TOTAL_VFQS : Z;
  NFD_TOTAL_CTRLQS : Z;
  NFD_TOTAL_PFQS : Z
}.

(** The part of a context: what [main] does for it before the loop that it
    never leaves, or that it stops. *)
Inductive context := ConfigChanges | MacStats | PerqStats | LinkState | Killed.

Definition context_of (ctx : Z) : context :=
  if ctx =? APP_MASTER_CTX_CONFIG_CHANGES then ConfigChanges
  else if ctx =? APP_MASTER_CTX_MAC_STATS then MacStats
  else if ctx =? APP_MASTER_CTX_PERQ_STATS then PerqStats
  else if ctx =? APP_MASTER_CTX_LINK_STATE then LinkState
  else Killed.

Section start.
Context {B : build} `{NetCfg, Vids, VfCfg, App, Devices, Xpb, BpfCfg, MsixCfg, NbiPcRegs, ClsHash, Trng, QueueTotals}.
Context (fuel : nat).

Definition init_nfd_cfg_msg : C unit := for_each pcie_islands (fun pcie => emit (CfgMsgInit pcie)).

Definition init_msix : C unit := for_each pcie_islands (fun pcie => emit (MsixInit pcie)).

(** [main] of the configuration context up to [cfg_changes_loop] *)
Definition config_start : C unit :=
  _ ← init_nfd_cfg_msg;
  _ ← trng_init;
  _ ← init_catamaran_chan2port_table (board B);
  _ ← init_msix;
  _ ← mac_csr_sync_start DISABLE_GPIO_POLL;
  _ ← mac_rx_disable fuel;
  init_nic.

(** ** The queue statistics *)

Definition perq_stats_init : C unit :=
  _ ← emit NfdInRecvInit;
  emit NfdOutSendInit.

Definition NUM_STAT_QUEUES : Z := NFD_TOTAL_VFQS + NFD_TOTAL_CTRLQS + NFD_TOTAL_PFQS.

(** One round of [perq_stats_loop] from [q] and the epoch counter *)
Definition perq_stats_round (q epoch : Z) : C (Z * Z) :=
  _ ← for_each pcie_islands (fun pcie =>
        _ ← emit (NfdOutPushPktCnt pcie q);
        emit (NfdInPushPktCnt pcie q));
  let q := u32 (q + 1) in
  let q := if q >=? NUM_STAT_QUEUES then 0 else q in
  _ ← sleep PERQ_STATS_SLEEP;
  epoch ← nic_local_epoch fuel epoch;
  mret (q, epoch).

(** What [main] does for a context before its loop; the statistics of the MAC
    have a state of their own (Stats.v). *)
Definition context_start (c : context) : C unit :=
  match c with
  | ConfigChanges => config_start
  | MacStats => mret tt
  | PerqStats => perq_stats_init
  | LinkState => _ ← lsc_loop_init; mret tt
  | Killed => mret tt
  end.
End start.

(** * Properties *)

(** ** The history of the start *)

(** The events of [s'] since [s] all satisfy [P]. *)
Definition logs (P : bus_event -> Prop) (s s' : nic) : Prop :=
  exists h, bus s' = h ++ bus s /\ Forall P h.

#[export] Instance logs_preorder P : PreOrder (logs P).
Proof.
  split.
  - intros s. exists []. by split.
  - intros s1 s2 s3 (h1 & E1 & F1) (h2 & E2 & F2). exists (h2 ++ h1).
    split; [by rewrite E2, E1, app_assoc|]. by apply Forall_app.
Qed.

Lemma logs_emit P e f s : f (bus s) = e :: bus s -> P e -> logs P s (s <| bus ::= f |>).
Proof. intros Hf He. exists [e]. split; [exact Hf|]. by constructor. Qed.

(** Neither a message of the host nor a command to the MAC engine *)
Definition quiet (e : bus_event) : Prop :=
  match e with CfgMsgPoll _ _ | CfgMsgDone _ _ _ _ | SyncCmd _ _ _ => False | _ => True end.
Definition no_message (e : bus_event) : Prop := is_msg e = false.

#[local] Hint Extern 1 (logs _ _ (apply_update _ _)) =>
  first [ exists []; split; [reflexivity|apply Forall_nil; exact I]
        | eapply logs_emit; [reflexivity|solve [exact I|reflexivity]] ] : respects.

Section proofs.
Context {B : build} `{NetCfg, Vids, VfCfg, App, Devices, Xpb, BpfCfg, MsixCfg, NbiPcRegs, ClsHash, Trng, QueueTotals}.

Lemma quiet_trng : respects (logs quiet) trng_init.
Proof. respects. Qed.
Lemma quiet_chan2port : respects (logs quiet) (init_catamaran_chan2port_table (board B)).
Proof. respects. Qed.

(** ** The runs of the parts *)

Lemma run_for_emit {A} (f : A -> bus_event) l s :
  for_each l (fun x => emit (f x)) s = Some (tt, with_bus (rev (f <$> l) ++ bus s) s).
Proof.
  revert s. induction l as [|x l IH]; intros s; [by rewrite <- (with_bus_self s) at 1|].
  cbn [for_each fmap list_fmap rev]. erewrite run_some by apply run_emit0. cbv beta.
  rewrite IH, <- app_assoc. done.
Qed.

Definition rx_off_cmd (port : Z) : bus_event :=
  SyncCmd ARB_CLS_BASE_ADDR_Hi32 (u32 (Z.shiftl ARB_CLS_RING_NUM 2))
    (u32 (LINK_CTRL_SYNC_CMD (mac_of port) (core_of port) (core_port_of port)
      ARB_CODE_ETH_CMD_CFG_DISABLE_RX 0)).

(** The accesses before the command and after the checks are not commands to
    the MAC engine. *)
Lemma run_port_disable_rx lat fuel port s : inhibit_acks lat -> (lat < fuel)%nat ->
  0 <= port < NS_PLATFORM_NUM_PORTS (board B) -> mutex_free s ->
  exists off pre checks post,
    mac_port_disable_rx fuel port s =
      Some (b2z off, with_bus (post ++ checks ++ rx_off_cmd port :: pre ++ bus s) s) /\
    rx_off_trace TCLK (mac_of port) (core_of port) (core_port_of port) 10 off checks /\
    Forall quiet pre /\ Forall quiet post.
Proof.
  intros Hack Hf Hp Hfree.
  destruct (platform_serdes _ _ Hp) as (Hm & Hc & Hlo & Hle & Hhi & _).
  destruct (run_mac_eth_disable_rx lat TCLK fuel (mac_of port) (core_of port) (core_port_of port)
    (NS_PLATFORM_MAC_NUM_SERDES (board B) port) (s <| mac_reg_lock := 1 |>))
    as (off & v & d & polls & checks & Hrun & _ & _ & Hpolls & Htr); [done..| | | | | |].
  1-5: unfold mac_of, core_of, core_port_of, NS_PLATFORM_MAC_NUM_SERDES, board in *; lia.
  cbv zeta in Hrun. eexists off, (_ :: polls ++ [_; _]), checks, [_]. split_and!.
  - unfold mac_port_disable_rx, LOCAL_MUTEX_LOCK. rewrite run_assoc, run_get, Hfree.
    rewrite run_assoc. cbn [truthy negb Z.eqb]. rewrite run_require, run_modify by done.
    erewrite run_some by exact Hrun. cbv beta. unfold LOCAL_MUTEX_UNLOCK. rewrite run_modify.
    unfold mret, M_ret. do 2 f_equal. unfold with_bus. cbn [app]. rewrite <- !app_assoc.
    destruct s. unfold mutex_free in Hfree. cbn in Hfree. subst.
    reflexivity.
  - exact Htr.
  - constructor; [exact I|]. apply Forall_app. split; [|repeat constructor].
    revert Hpolls. apply List.Forall_impl. by intros e (w & -> & _).
  - repeat constructor.
Qed.

Lemma run_mac_rx_disable lat fuel s : inhibit_acks lat -> (lat < fuel)%nat -> mutex_free s ->
  exists h, mac_rx_disable fuel s = Some (tt, with_bus (h ++ bus s) s) /\
    forall port, 0 <= port < NS_PLATFORM_NUM_PORTS (board B) -> rx_off_cmd port ∈ h.
Proof.
  intros Hack Hf Hfree. set (N := NS_PLATFORM_NUM_PORTS (board B)).
  pose proof (returns_for_each (fun l s' => exists k h, 0 <= k /\ l = range k N /\
      s' = with_bus (h ++ bus s) s /\ forall port, 0 <= port < k -> rx_off_cmd port ∈ h)
    (range 0 N) (fun port => _ ← mac_port_disable_rx fuel port; mret tt) s) as Hloop.
  apply returns_exists in Hloop as ([] & s' & Hrun & k & h & Hk & Hl & -> & Hin).
  - exists (Sleep (Z.quot (TCLK * 1000000) 20) :: h). unfold mac_rx_disable. fold N.
    erewrite run_some by exact Hrun. split; [done|]. intros port Hp.
    apply list_elem_of_further, Hin. destruct (decide (k < N)); [by rewrite range_cons in Hl|]. lia.
  - exists 0, []. split; [done|]. split; [done|]. split; [by destruct s|]. intros. lia.
  - intros x l s1 (k & h & Hk & Hl & -> & Hin).
    destruct (decide (k < N)) as [Hlt|]; [|by rewrite range_nil in Hl by lia].
    rewrite range_cons in Hl by done. injection Hl as -> ->.
    destruct (run_port_disable_rx lat fuel k (with_bus (h ++ bus s) s)) as (off & pre & checks & post & Hrun & _);
      [done|done|subst N; lia|done|].
    unfold returns. erewrite run_some by exact Hrun. exists (k + 1), (post ++ checks ++ rx_off_cmd k :: pre ++ h).
    split; [lia|]. split; [done|]. split; [unfold with_bus; cbn; by rewrite <- ?app_assoc, <- ?app_comm_cons, <- ?app_assoc|].
    intros port Hp. rewrite !elem_of_app, elem_of_cons, elem_of_app.
    destruct (decide (port = k)) as [->|]; [tauto|]. assert (rx_off_cmd port ∈ h) by (apply Hin; lia). tauto.
Qed.

(** What the tables of the workers leave alone *)
Record nn_part (s s' : nic) : Prop := {
  nn_control : nic_control_word s' = nic_control_word s;
  nn_follow : vf_lsc_list s' = vf_lsc_list s;
  nn_lock : mac_reg_lock s' = mac_reg_lock s;
  nn_nbi : nbi_mem s' = nbi_mem s;
  nn_bus : bus s' = bus s
}.

#[local] Instance nn_part_preorder : PreOrder nn_part.
Proof. split; [by intros s|]. intros s1 s2 s3 [] []. split; by etransitivity. Qed.

Lemma nn_part_nn f s : nn_part s (s <| nn ::= f |>). Proof. done. Qed.
#[local] Hint Resolve nn_part_nn : respects.

Lemma init_nic_part : respects nn_part init_nic.
Proof. respects. Qed.

Lemma total_init_nn_tables : total any_state init_nn_tables.
Proof.
  apply total_for_each. intros i (k & -> & Hk%elem_of_seqZ)%list_elem_of_fmap.
  apply total_for_each. intros me _. apply total_bind; [apply total_require|intros; by apply total_modify].
  assert (k = 0 \/ k = 1 \/ k = 2 \/ k = 3 \/ k = 4 \/ k = 5 \/ k = 6 \/ k = 7) as E by lia.
  by repeat destruct E as [->|E]; [..|subst k].
Qed.

Lemma run_init_nic s : length SLICC_HASH_PAD_DATA = 40%nat ->
  exists s', init_nic s = Some (tt, s') /\ nn_part s s' /\
    forall i w, SLICC_HASH_PAD_DATA !! i = Some w ->
      nn_reads s' (SLICC_HASH_PAD_NN_IDX + Z.of_nat i) w.
Proof.
  intros Hlen. pose proof (total_init_nn_tables s I) as Hnn.
  apply returns_exists in Hnn as ([] & s1 & Hrun1 & _).
  destruct (slicc_hash_table_correct s1 Hlen) as (s2 & Hrun2 & Hpad & _).
  assert (Hrun : init_nic s = Some (tt, s2)) by (unfold init_nic; by erewrite run_some by exact Hrun1).
  exists s2. split; [done|]. split; [by apply (init_nic_part _ _ _ Hrun)|exact Hpad].
Qed.

Lemma logs_messages s s' : logs no_message s s' -> messages (bus s') = messages (bus s).
Proof.
  intros (h & -> & Hh). unfold messages. rewrite List.filter_app.
  induction Hh as [|e h He Hh IH]; [done|]. cbn [List.filter]. by rewrite He.
Qed.

#[local] Instance logs_worker : WorkerSide (logs no_message).
Proof.
  split; [apply _|intros f s; exists []; split; [reflexivity|apply Forall_nil; exact I]..|].
  intros e s He. by apply (logs_emit no_message e).
Qed.
#[local] Hint Resolve logs_worker : respects.

Lemma config_start_no_message fuel : respects (logs no_message) (config_start fuel).
Proof. respects. Qed.

(** The start leaves the switch, the lists and the memory of the host interface
    alone. *)
Definition same_switch (s s' : nic) : Prop :=
  map_cmsg_q s' = map_cmsg_q s /\ veb_stored_keys s' = veb_stored_keys s /\ emem s' = emem s /\
  cls s' = cls s.

#[local] Instance same_switch_preorder : PreOrder same_switch.
Proof. split; [by intros s|]. intros s1 s2 s3 (Hq1 & Hk1 & He1 & Hc1) (Hq2 & Hk2 & He2 & Hc2). repeat split; congruence. Qed.

#[local] Instance same_switch_board : BoardSide same_switch.
Proof. split; [apply _|by intros f s..|by intros e s _]. Qed.
#[local] Hint Resolve same_switch_board : respects.
#[local] Hint Extern 2 (same_switch _ (apply_update _ _)) => (repeat split; reflexivity) : respects.

Lemma config_start_no_switch fuel : respects same_switch (config_start fuel).
Proof. respects. Qed.

Definition kickstart : bus_event :=
  RemoteCsrWrite ARB_ME_ISLAND ARB_ME_ID (mailbox_addr ARB_FW_KICKSTART_MBOX) ARB_FW_KICKSTART.

(** The devices before the ports are disabled *)
Lemma run_devices s : bus s = [] -> exists s3 before,
  (forall A (k : C A),
    (_ ← init_nfd_cfg_msg; _ ← trng_init; _ ← init_catamaran_chan2port_table (board B);
     _ ← init_msix; _ ← mac_csr_sync_start DISABLE_GPIO_POLL; k) s = k s3) /\
  mac_reg_lock s3 = mac_reg_lock s /\ nic_control_word s3 = nic_control_word s /\
  vf_lsc_list s3 = vf_lsc_list s /\
  (forall p c, 0 <= p < NS_PLATFORM_NUM_PORTS (board B) ->
    NS_PLATFORM_MAC_CHANNEL_LO (board B) p <= c <= NS_PLATFORM_MAC_CHANNEL_HI (board B) p ->
    chan_entry (NS_PLATFORM_MAC (board B) p) c (nbi_mem s3) =
    mk_chan2port p CATAMARAN_CHAN_MODE_MAC_DA_MATCH) /\
  bus s3 = RemoteCsrWrite ARB_ME_ISLAND ARB_ME_ID (mailbox_addr ARB_FW_QUIESCE_MBOX) ARB_RESUME ::
    kickstart :: before ++ rev (CfgMsgInit <$> pcie_islands) /\
  Forall quiet before.
Proof.
  intros Hbus. set (h1 := rev (CfgMsgInit <$> pcie_islands)).
  destruct (trng_init_correct (with_bus h1 s)) as (b & a & Htrng & _).
  set (s1 := with_bus (_ :: _) _) in Htrng.
  destruct (init_chan2port_correct B s1) as (s2 & Hchan & Honly & Htab).
  assert (Hsame : mac_reg_lock s2 = mac_reg_lock s /\ nic_control_word s2 = nic_control_word s /\
    vf_lsc_list s2 = vf_lsc_list s) by by rewrite Honly.
  destruct Hsame as (Hlock & Hcontrol & Hfollow).
  destruct (quiet_trng _ _ _ Htrng) as (ht & Eht & Fht).
  destruct (quiet_chan2port _ _ _ Hchan) as (hc & Ehc & Fhc).
  set (msix := rev (MsixInit <$> pcie_islands)).
  set (debug := RemoteCsrWrite ARB_ME_ISLAND ARB_ME_ID (mailbox_addr ARB_FW_DEBUG_MBOX) DISABLE_GPIO_POLL).
  set (resume := RemoteCsrWrite _ _ _ ARB_RESUME).
  exists (with_bus (resume :: kickstart :: debug :: msix ++ bus s2) s2), (debug :: msix ++ hc ++ ht).
  split; [|do 4 (split; [done|]); split].
  - intros A k. unfold init_nfd_cfg_msg, init_msix.
    rewrite (run_some _ _ _ _ _ (run_for_emit CfgMsgInit pcie_islands s)), Hbus, app_nil_r. fold h1.
    rewrite (run_some _ _ _ _ _ Htrng). cbv beta. rewrite (run_some _ _ _ _ _ Hchan). cbv beta.
    by rewrite (run_some _ _ _ _ _ (run_for_emit MsixInit pcie_islands s2)).
  - change (bus (with_bus ?l _)) with l. rewrite Ehc, Eht.
    cbn [app]. by rewrite <- !app_assoc.
  - constructor; [done|]. apply Forall_app. split; [|by apply Forall_app].
    apply Forall_rev, Forall_fmap, Forall_true. done.
Qed.

(** C11: the start of the configuration context returns when the MAC answers
    inhibit requests, and leaves what the loops rely on: the mutex free, no
    vNIC enabled, no message taken, every list dropping as it was loaded; every channel of every port of the board
    in the table of its NBI; the hash pad in the registers of every worker
    engine.  The message interface comes first, as the comment in main asks;
    the engine that writes the MAC registers is started before the first
    command for it, and the receiver of every port of the board is then
    commanded off. *)
Theorem config_start_correct lat fuel s : inhibit_acks lat -> (lat < fuel)%nat ->
  length SLICC_HASH_PAD_DATA = 40%nat ->
  nic_control_word s = ∅ -> vf_lsc_list s = ∅ -> mutex_free s ->
  map_cmsg_q s = [] -> veb_stored_keys s = ∅ -> wf_emem s -> lists_drop s ->
  bus s = [] ->
  exists s' before after,
    config_start fuel s = Some (tt, s') /\
    (forall c msg n, sys_init (mk_system s' c msg n)) /\
    (forall p c, 0 <= p < NS_PLATFORM_NUM_PORTS (board B) ->
      NS_PLATFORM_MAC_CHANNEL_LO (board B) p <= c <= NS_PLATFORM_MAC_CHANNEL_HI (board B) p ->
      chan_entry (NS_PLATFORM_MAC (board B) p) c (nbi_mem s') =
      mk_chan2port p CATAMARAN_CHAN_MODE_MAC_DA_MATCH) /\
    (forall i w, SLICC_HASH_PAD_DATA !! i = Some w ->
      nn_reads s' (SLICC_HASH_PAD_NN_IDX + Z.of_nat i) w) /\
    bus s' = after ++ kickstart :: before ++ rev (CfgMsgInit <$> pcie_islands) /\
    Forall quiet before /\
    (forall port, 0 <= port < NS_PLATFORM_NUM_PORTS (board B) -> rx_off_cmd port ∈ after).
Proof.
  intros Hack Hf Hlen Hc Hl Hfree Hq Hkeys Hmem Hdrop Hbus.
  destruct (run_devices s Hbus) as (s3 & before & Hdev & Hlock3 & Hc3 & Hl3 & Htab & Hbus3 & Hquiet).
  assert (Hfree3 : mutex_free s3) by exact (eq_trans Hlock3 Hfree).
  destruct (run_mac_rx_disable lat fuel s3 Hack Hf Hfree3) as (hrx & Hrx & Hcmds).
  destruct (run_init_nic (with_bus (hrx ++ bus s3) s3) Hlen) as (s' & Hnic & Hpart & Hpad).
  assert (Hrun : config_start fuel s = Some (tt, s')).
  { unfold config_start. rewrite Hdev. by rewrite (run_some _ _ _ _ _ Hrx). }
  exists s', before,
    (hrx ++ [RemoteCsrWrite ARB_ME_ISLAND ARB_ME_ID (mailbox_addr ARB_FW_QUIESCE_MBOX) ARB_RESUME]).
  split; [exact Hrun|]. split; [|split; [|split; [exact Hpad|split; [|split; [exact Hquiet|]]]]].
  - intros c msg n. destruct (config_start_no_switch fuel _ _ _ Hrun) as (Hq' & Hkeys' & Hmem' & Hcls').
    repeat (apply conj); cbn [shared].
    + rewrite (nn_control _ _ Hpart). exact (eq_trans Hc3 Hc).
    + rewrite (nn_follow _ _ Hpart). exact (eq_trans Hl3 Hl).
    + rewrite (nn_lock _ _ Hpart). exact Hfree3.
    + rewrite (logs_messages _ _ (config_start_no_message fuel _ _ _ Hrun)), Hbus. done.
    + by rewrite Hq'.
    + by rewrite Hkeys'.
    + unfold wf_emem. by rewrite Hmem'.
    + intros q Hq2. eapply slot_drops_same; [|by apply Hdrop]. intros isl j _ _. by rewrite Hcls'.
  - intros p c Hp Hch. rewrite (nn_nbi _ _ Hpart). by apply Htab.
  - rewrite (nn_bus _ _ Hpart). change (bus (with_bus ?l _)) with l. by rewrite Hbus3, <- app_assoc.
  - intros port Hp. apply elem_of_app. left. by apply Hcmds.
Qed.
End proofs.

(** ** Witness *)

Section witnesses.
Import Ctm Demo Engines Mac.

#[local] Instance island33 : Trng := {| active_ctx_sts := Z.shiftl 33 25; trng_data h := (1, 1) |}.

Lemma config_start_correct_witness :
  inhibit_acks 3 /\
  exists s' before after, config_start 4 nic0 = Some (tt, s') /\
    sys_init (mk_system s' 0 (mk_cfg_msg 0 0 0) 0) /\
    bus s' = after ++ kickstart :: before ++ [CfgMsgInit 0] /\
    rx_off_cmd 0 ∈ after /\ rx_off_cmd 1 ∈ after.
Proof.
  split; [exact acks|].
  destruct (config_start_correct 3 4 nic0 acks ltac:(lia) eq_refl eq_refl eq_refl eq_refl eq_refl eq_refl wf_mem_empty
      (lists_drop_empty nic0 eq_refl) eq_refl)
    as (s' & before & after & Hrun & Hinit & _ & _ & Hbus & _ & Hcmds).
  exists s', before, after. split; [exact Hrun|]. split; [apply Hinit|]. split; [exact Hbus|].
  split; apply Hcmds; split; by vm_compute.
Defined.
End witnesses.
