(* ===== verification/Progress.v ===== *)
(** * No configuration message wedges the master

    A round of [cfg_changes_loop] returns from every state with the mutex
    free, whatever words the host wrote to the BARs and the mailboxes and
    whatever CTM buffers are refused, when the message names a vNIC of the
    build, the MAC and the engines answer the requests to stop within a bounded
    number of polls, MU buffers come within a bounded number of tries and an
    entry of the VF mailbox has room for a MAC.  With Liveness.v: every step of
    the system of System.v can be taken. *)

From S2P Require Import Prelude Platform UserCfg Nfd Machine AppPrivate Bus Link Bpf Tables ActionList Builders NicTables Veb Config Frame Lists Control Master System Liveness Start.

(** ** What a handler needs, and keeps: whole words in memory, a free mutex,
    good lists for the workers *)

Definition ready {B : build} `{App} (s : nic) : Prop := wf_emem s /\ mutex_free s /\ lists_ok s.

(** The memory of the host interface and the mutex are left alone. *)
Definition untouched (s s' : nic) : Prop :=
  emem s' = emem s /\ mac_reg_lock s' = mac_reg_lock s.

#[local] Instance untouched_preorder : PreOrder untouched.
Proof. split; [by intros s|]. intros s1 s2 s3 [E1 L1] [E2 L2]. split; congruence. Qed.

#[local] Instance untouched_worker : WorkerSide untouched.
Proof. split; [apply _|by intros f s..|by intros e s _]. Qed.
#[local] Instance untouched_switch : SwitchFree untouched.
Proof. split; by intros f s. Qed.
#[local] Hint Resolve untouched_worker untouched_switch : respects.

Lemma ready_untouched {B : build} `{App} s s' :
  untouched s s' -> (keeps_slots slot_ok) s s' -> ready s -> ready s'.
Proof.
  intros [He Hl] Hk (Hm & Hf & Hls). split; [by apply (Hk Hm)|].
  split; [by unfold mutex_free; rewrite Hl|by eapply keeps_lists_ok].
Qed.

(** [m] returns, on every state with [P]. *)
Definition returns_from {A} (P : nic -> Prop) (m : C A) : Prop :=
  forall s, P s -> exists a s', m s = Some (a, s').

Lemma total_untouched {B : build} `{App} {A} (m : C A) :
  returns_from ready m -> respects untouched m -> respects (keeps_slots slot_ok) m -> total ready m.
Proof.
  intros Hr Hu Hk s Hs. destruct (Hr s Hs) as (a & s' & Hm). apply returns_exists. exists a, s'.
  split; [done|]. eapply ready_untouched; [by eapply Hu|by eapply Hk|done].
Qed.

Lemma total_from {A} P (m : C A) : total P m -> returns_from P m.
Proof. intros Hm s Hs. apply Hm, returns_exists in Hs as (a & s' & Hrun & _). eauto. Qed.

(** A call that is known to return, and then anything that always returns. *)
Lemma from_run {A X} (m : C A) (k : A -> C X) s a s1 : m s = Some (a, s1) ->
  (exists x s', k a s1 = Some (x, s')) -> exists x s', (m ≫= k) s = Some (x, s').
Proof. intros Hm Hk. by rewrite (run_some _ _ _ _ _ Hm). Qed.

(** What the firmware relies on outside itself: an MU buffer comes within
    [blm_fuel] tries, the MAC stops within [lat] polls and an engine that was
    asked to within [lat] passes, an entry of the VF mailbox has room for a MAC,
    and a message names a vNIC. *)
Class Answers (B : build) `{Vids, VfCfg, App, Devices, Xpb} (lat : nat) : Prop := {
  buffers : blm_answers;
  mac_acks : inhibit_acks lat;
  engines_idle isl me h : engine_idles lat isl me (asked_quiesce isl me h);
  entry_has_mac : 8 <= sizeof_sriov_cfg;
  messages_name_vnics h p vid err :
    cfg_msg_dev h p = Some (vid, err) -> 0 <= vid < NVNICS B NFD_MAX_CTRL
}.

Section progress.
Context {B : build} `{NetCfg, Vids, VfCfg, App, Devices, Xpb, BpfCfg, MsixCfg}.
Context `{!NetCfgOk, !VidsOk B, !VfCfgOk}.
Context (lat : nat) `{!Answers B lat}.
Context (bar_size : Z) `{!StatusOk bar_size}.

(** ** The operations on vNICs *)

Section island.
Context (pcie : Z) (Hpcie : 0 <= pcie < NFD_MAX_ISL).

Lemma total_read_members vlan : 0 <= vlan < 4096 -> total any_state (read_members pcie vlan).
Proof. intros Hv. pose proof (vlan_tbl_ok_true pcie vlan Hpcie Hv). total. Qed.

Lemma total_write_members vlan v : 0 <= vlan < 4096 -> total any_state (write_members pcie vlan v).
Proof. intros Hv. pose proof (vlan_tbl_ok_true pcie vlan Hpcie Hv). total. Qed.

Lemma total_vf_bit P v : 0 <= v < 64 -> total P (vf_bit v).
Proof.
  intros Hv. unfold vf_bit. apply total_bind; [|intros; apply total_ret].
  apply total_require. rewrite (proj2 (Z.leb_le 0 v)), (proj2 (Z.ltb_lt v 64)) by lia. done.
Qed.

Lemma total_remove_member vid : 0 <= vid < 64 -> total any_state (remove_vlan_member pcie vid).
Proof.
  intros Hvid. unfold remove_vlan_member. rewrite (wrap_small 16 vid) by (unfold fits; lia).
  apply total_bind; [|intros; apply total_ret]. apply total_for_each. intros vlan Hv%elem_of_range.
  unfold NIC_MAX_VLAN_ID in Hv. pose proof max_vfs_range.
  unfold remove_vlan_member_one.
  apply total_bind; [apply total_read_members; lia|]. intros w.
  apply total_bind; [by apply total_vf_bit|]. intros bit. cbv zeta.
  apply total_bind; [|intros; apply total_write_members; lia].
  destruct (truthy (Z.land _ _)); [|apply total_ret].
  apply total_bind; [|intros; apply total_ret]. apply total_for_fold. intros m v Hv2.
  apply total_bind; [apply total_vf_bit|intros b'; destruct (truthy _); total].
  destruct (truthy (NFD_MAX_VFS B)); [apply elem_of_range in Hv2; lia|by apply elem_of_nil in Hv2].
Qed.

Lemma total_vlan_members : total any_state (upd_ctm_vlan_members pcie).
Proof. total. Qed.

Lemma total_write_veb_none vid key : 0 <= vid < NVNICS B NFD_MAX_CTRL ->
  total any_state (cfg_act_write_veb vid key None).
Proof.
  intros Hv s _. unfold cfg_act_write_veb. cbv zeta. unfold returns. rewrite run_get.
  destruct (veb_finish_any key vid key (stale_new_vlan_id s) s (buffers (lat := lat)) (stored_key_ok_vid vid Hv))
    as (r & s' & Hrun & _). by rewrite Hrun.
Qed.

(** Down: the lists that drop, then the switch and the VLANs. *)
Lemma total_vf_down vid n : vnic_is vid NFD_VNIC_TYPE_VF n -> total ready (cfg_act_vf_down pcie vid).
Proof.
  intros Hv. pose proof Hv as [Hvid _]. pose proof (vf_vid vid n Hv). pose proof max_vfs_range.
  apply total_untouched; [|respects|by apply good_vf_down]. intros s _. unfold cfg_act_vf_down.
  eapply from_run; [apply run_build_pcie_down|].
  eapply from_run; [apply run_write_host; [done|simpl; lia]|].
  apply (total_from any_state); [|done].
  apply total_bind; [by apply total_write_veb_none|]. intros r. destruct (negb _); [apply total_ret|].
  apply total_bind; [apply total_remove_member; lia|]. intros _.
  apply total_bind; [apply total_vlan_members|intros; apply total_ret].
Qed.

Lemma total_vf_up vid n pf_control vf_control update : vnic_is vid NFD_VNIC_TYPE_VF n ->
  total ready (cfg_act_vf_up pcie vid pf_control vf_control update).
Proof.
  intros Hv. apply total_untouched; [|respects|by eapply good_vf_up]. intros s [Hm _].
  destruct (run_vf_up_any pcie vid n pf_control vf_control update s) as (r & s' & Hrun & _);
    [apply (buffers (lat := lat))|done..|]. eauto.
Qed.

Lemma total_pf_up vid n veb control update : vnic_is vid NFD_VNIC_TYPE_PF n ->
  total ready (cfg_act_pf_up pcie vid (b2z veb) control update).
Proof.
  intros Hv. pose proof Hv as [Hvid _].
  apply total_untouched; [|respects|by eapply good_pf_up]. intros s [Hm _].
  destruct (run_pf_up pcie vid n veb control update s) as (r & s' & Hrun & _);
    [apply (buffers (lat := lat))|done..|]. eauto.
Qed.

(** Down: PF 0 also leaves the switch. *)
Lemma total_pf_down vid n : vnic_is vid NFD_VNIC_TYPE_PF n -> total ready (cfg_act_pf_down pcie vid).
Proof.
  intros Hv. pose proof Hv as [Hvid Ht]. pose proof (pf_port vid n Hv).
  apply total_untouched; [|respects|by eapply good_pf_down]. intros s _. unfold cfg_act_pf_down. rewrite Ht.
  rewrite bool_decide_eq_false_2 by auto.
  eapply from_run; [apply run_build_nbi_down|].
  eapply from_run; [apply run_write_wire; [lia|simpl; lia]|].
  eapply from_run; [apply run_build_pcie_down|].
  eapply from_run; [apply run_write_host; [done|simpl; lia]|].
  apply (total_from any_state); [|done].
  assert (Hok : nvnic_macs_ok pcie vid = true)
    by (unfold nvnic_macs_ok; rewrite (proj2 (Z.leb_le 0 pcie)), (proj2 (Z.ltb_lt pcie _)),
      (proj2 (Z.leb_le 0 vid)), (proj2 (Z.ltb_lt vid _)) by lia; done).
  pose proof (total_write_veb_none vid). total.
Qed.
End island.

(** ** Writes to the memory of the host interface *)

Lemma total_mem_write32 a v : fits 32 v -> total ready (mem_write32 a v).
Proof.
  intros Hv. apply total_modify. intros s [Hm Hf]. split; [|done]. by apply insert_fits.
Qed.

Lemma set_byte_fits a v m : wf_mem m -> wf_mem (set_byte a v m).
Proof.
  intros Hm. unfold set_byte. apply insert_fits; [|done].
  pose proof (Z.mod_pos_bound a 4). apply bf_set_fits; [lia..|apply Hm].
Qed.

Lemma set_bytes_fits a vs m : wf_mem m -> wf_mem (set_bytes a vs m).
Proof.
  unfold set_bytes. generalize (zip (seqZ 0 (Z.of_nat (length vs))) vs). intros l. revert m.
  induction l as [|p l IH]; intros m Hm; [done|]. cbn [foldl]. apply IH. by apply set_byte_fits.
Qed.

Lemma total_mem_write8 a vs : total ready (mem_write8 a vs).
Proof.
  apply total_modify. intros s [Hm Hf]. split; [|done]. by apply set_bytes_fits.
Qed.

Lemma total_of_option {A} P (o : option A) : is_Some o -> total P (of_option o).
Proof. intros [a ->]. apply total_ret. Qed.

Lemma total_for_ret {A X} P (l : list A) (body : A -> C (option X)) :
  (forall x, x ∈ l -> total P (body x)) -> total P (for_ret l body).
Proof.
  intros Hb. induction l as [|x l IH]; [apply total_ret|]. cbn [for_ret].
  apply total_bind; [apply Hb, list_elem_of_here|]. intros [r|]; [apply total_ret|].
  apply IH. intros y Hy. by apply Hb, list_elem_of_further.
Qed.

Lemma ready_emits e s : ready s -> ready (s <| bus ::= cons e |>).
Proof. done. Qed.

Lemma total_get_bind {A X} P (f : nic -> A) (k : A -> C X) :
  (forall s, P s -> total P (k (f s))) -> total P (get f ≫= k).
Proof. intros Hk s Hs. apply returns_bind. unfold returns. cbn. by apply Hk. Qed.

#[local] Hint Resolve total_mem_write8 : total.

(** The result may matter for what follows. *)
Definition total_to {A} (P : nic -> Prop) (Q : A -> Prop) (m : C A) : Prop :=
  forall s, P s -> returns m s (fun a s' => Q a /\ P s').

Lemma total_to_ret {A} P (Q : A -> Prop) a : Q a -> total_to P Q (mret a).
Proof. by intros Ha s Hs. Qed.

Lemma total_to_bind {A X} P (Q : X -> Prop) (m : C A) (k : A -> C X) :
  total P m -> (forall a, total_to P Q (k a)) -> total_to P Q (m ≫= k).
Proof.
  intros Hm Hk s Hs. apply returns_bind. eapply returns_mono; [by apply Hm|]. intros a s'. apply Hk.
Qed.

Lemma total_bind_to {A X} P (Q : A -> Prop) (m : C A) (k : A -> C X) :
  total_to P Q m -> (forall a, Q a -> total P (k a)) -> total P (m ≫= k).
Proof.
  intros Hm Hk s Hs. apply returns_bind. eapply returns_mono; [by apply Hm|].
  intros a s' [Ha Hs']. by apply Hk.
Qed.

Lemma total_to_for_fold_ret {A X R} P (I : X -> Prop) (l : list A) (b : X) body :
  I b -> (forall b x, x ∈ l -> I b ->
    total_to P (fun r : R + X => match r with inl _ => True | inr b => I b end) (body b x)) ->
  total_to P (fun r : R + X => match r with inl _ => True | inr b => I b end) (for_fold_ret l b body).
Proof.
  intros Hb Hstep. revert b Hb. induction l as [|x l IH]; intros b Hb; [by apply total_to_ret|].
  cbn [for_fold_ret]. intros s Hs. apply returns_bind.
  eapply returns_mono; [apply Hstep; [apply list_elem_of_here|done|done]|].
  intros [r|b'] s' [Hq Hs']; [done|]. apply IH; [|done|done].
  intros c y Hy. by apply Hstep, list_elem_of_further.
Qed.

(** ** The parts of the handlers *)

Section parts.
Context (fuel : nat) (Hfuel : (lat < fuel)%nat).

Lemma total_bpf vid vnic : total ready (nic_local_bpf_reconfig fuel vid vnic).
Proof.
  apply total_for_each. intros me _ s [Hm Hf].
  destruct (run_update_bpf_me lat fuel (nfd_cfg_bar_base NIC_PCI vid) vnic me s)
    as (pre & en & ws & ds & e & Hrun & _); [apply engines_idle|done|apply Hm..|].
  apply returns_exists. eexists _, _. by split.
Qed.

Lemma total_sriov pcie : total ready (handle_sriov_update pcie).
Proof.
  unfold handle_sriov_update. cbv zeta. apply total_bind; [apply total_get|]. intros mb.
  apply total_bind; [|intros; apply total_mem_write8]. apply total_when.
  unfold read_sriov_cfg. apply total_get_bind. intros s _.
  assert (Hlen : (2 <= Z.to_nat (sizeof_sriov_cfg / 4))%nat)
    by (pose proof entry_has_mac; pose proof (Z.div_le_mono 8 sizeof_sriov_cfg 4); change (8 / 4) with 2 in *; lia).
  assert (Hw : forall i, (i < 2)%nat ->
    is_Some (words (vf_cfg_base_vf pcie (mb_vf mb)) (Z.to_nat (sizeof_sriov_cfg / 4)) s !! i))
    by (intros i Hi; apply lookup_lt_is_Some_2; unfold words; rewrite length_fmap, length_seq; lia).
  apply total_bind; [apply total_of_option, Hw; lia|]. intros w0.
  apply total_bind; [apply total_of_option, Hw; lia|]. intros w1. apply total_mem_write8.
Qed.

Lemma total_check_up vid : 0 <= vid < NVNICS B NFD_MAX_CTRL -> total ready (nic_control_check_up vid).
Proof. intros Hv. total. Qed.

Section port.
Context (port : Z) (Hport : 0 <= port < NS_PLATFORM_NUM_PORTS (board B)).

Lemma total_wait_link_up : total ready (process_pf_reconfig_wait_link_up port).
Proof.
  pose proof (total_link_state ready port Hport ready_emits).
  pose proof (total_check_rx_enable ready port Hport ready_emits).
  pose proof (total_emit ready ready_emits).
  unfold process_pf_reconfig_wait_link_up. apply total_bind; [|intros; apply total_ret].
  apply total_for_ret. intros _ _. total.
Qed.

Lemma total_drain : total ready (process_pf_reconfig_tmq_drain port).
Proof.
  pose proof (total_emit ready ready_emits).
  unfold process_pf_reconfig_tmq_drain. apply total_bind; [|intros; apply total_ret].
  apply total_for_ret. intros _ _. apply total_bind; [|intros; total].
  unfold tmq_occupied. apply total_bind; [|intros; apply total_ret].
  apply total_for_ret. intros q Hq%elem_of_range. pose proof (port_queue_ok port q Hport Hq). total.
Qed.

Lemma total_disable_rx : total ready (mac_port_disable_rx fuel port).
Proof.
  intros s Hs. destruct (run_port_disable_rx lat fuel port s) as (off & pre & checks & post & Hrun & _); [apply mac_acks|done|done|apply Hs|].
  apply returns_exists. eexists _, _. split; [exact Hrun|]. exact Hs.
Qed.
End port.

Lemma link_up_fits port : fits 32 (link_up_sts port).
Proof.
  unfold link_up_sts, port_speed_to_link_rate. repeat case_match; by vm_compute.
Qed.

Lemma link_down_fits : fits 32 link_down_sts.
Proof. by vm_compute. Qed.

(** ** The handlers *)

Section handlers.
Context (pcie : Z) (Hpcie : 0 <= pcie < NFD_MAX_ISL).

Lemma pf0_port : 0 <= 0 < NS_PLATFORM_NUM_PORTS (board B).
Proof. pose proof (platform_num_ports (NS_PLATFORM_TYPE B)). unfold board. lia. Qed.

Lemma total_update_lsc vid control mode : 0 <= vid < NVNICS B NFD_MAX_CTRL ->
  total ready (update_vf_lsc_list pcie 0 vid control mode).
Proof.
  intros Hv. pose proof pf0_port. pose proof (pf_vid_range 0 pf0_port).
  unfold update_vf_lsc_list. cbv zeta. do 5 (apply total_bind; [total|intros ?]).
  apply (total_bind_to _ (fits 32)).
  - destruct (_ || _); (apply total_to_bind; [total|intros _]); apply total_to_ret;
      [apply link_up_fits|apply link_down_fits].
  - intros sts Hs. pose proof (fun a => total_mem_write32 a _ Hs).
    apply total_bind; [auto|intros _]. total.
Qed.

(** The vNIC of a VF *)
Lemma vnic_vf v : 0 <= v < NFD_MAX_VFS B -> vnic_is (NFD_VF2VID v) NFD_VNIC_TYPE_VF v.
Proof.
  intros Hv. destruct (Nfd.vf_vid (B:=B) v Hv) as (Ht & _ & He & _). split; [|done]. rewrite He.
  destruct (decide (v < NVNICS B NFD_MAX_CTRL)) as [|Hge]; [lia|]. exfalso.
  pose proof (sizes_facts B). destruct (pf_vid (B:=B) 0) as [Hpf Hr]; [lia|].
  destruct (Nfd.vf_vid (B:=B) (NFD_PF2VID 0)) as (Hvf & _ & He0 & _); [lia|].
  rewrite He0 in Hvf. congruence.
Qed.

Lemma vf_in_range v : 0 <= v < NFD_MAX_VFS B -> 0 <= NFD_VF2VID v < NVNICS B NFD_MAX_CTRL.
Proof. intros Hv. apply (vnic_vf v Hv). Qed.

Lemma total_ctrl vid n control msg : vnic_is vid NFD_VNIC_TYPE_CTRL n ->
  total ready (process_ctrl_reconfig pcie control vid msg).
Proof.
  intros [Hvid Ht]. unfold process_ctrl_reconfig, fail. destruct (exceeds _ _); [apply total_ret|].
  intros s Hs. unfold returns. erewrite run_some by by eapply run_build_ctrl. cbv beta.
  erewrite run_some by (apply run_write_host; [done|simpl; lia]). cbv beta zeta.
  set (s1 := host_written pcie vid _ s).
  assert (Hs1 : ready s1).
  { destruct Hs as (Hm & Hf & Hl). assert (He : s1 = s <| cls := cls s1 |>) by apply host_written_cls.
    split; [by rewrite He|]. split; [by rewrite He|]. intros q Hq.
    apply (host_written_holds _ _ slot_ok_property); [|by apply Hl].
    intros i Hi. by apply ctrl_list_ok, host_q_range. }
  assert (Hw : forall a (b : bool), total ready (mem_write32 a (if b then NFP_NET_CFG_STS_LINK else 0))).
  { intros a b. apply total_mem_write32. rewrite sts_link_bit. by destruct b; vm_compute. }
  match goal with |- match ?m s1 with _ => _ end => assert (Hm : total ready m) end; [|by apply Hm].
  apply total_bind; [apply Hw|]. intros _. total.
Qed.

(** 1 if a VF is up, else 0 *)
Definition flag_value (v : Z) : Prop := exists b, v = b2z b.

Lemma total_vfs_up control : total_to ready
  (fun r => match r with inl _ => True | inr v => flag_value v end) (pf_vfs_up pcie control).
Proof.
  apply (total_to_for_fold_ret _ flag_value); [by exists false|]. intros up i Hi%elem_of_range Hup.
  pose proof (vf_in_range i Hi) as Hvid. pose proof (vnic_vf i Hi) as Hv.
  apply total_to_bind; [total|]. intros w. destruct (has _ _); [|by apply total_to_ret].
  apply total_to_bind; [by eapply total_vf_up|]. intros r. apply total_to_ret.
  destruct (truthy r); [done|by exists true].
Qed.

Lemma total_vfs_down : total ready (pf_vfs_down pcie).
Proof.
  apply total_for_ret. intros i Hi%elem_of_range. apply total_bind; [|intros; apply total_ret].
  eapply total_vf_down; [done|by apply vnic_vf].
Qed.

Lemma total_pf_disable vid n msg : vnic_is vid NFD_VNIC_TYPE_PF n ->
  total ready (pf_disable fuel pcie vid n msg).
Proof.
  intros Hv. pose proof Hv as [Hvid _]. pose proof (vnic_pf_range vid n Hv) as Hn.
  pose proof (total_emit ready ready_emits). pose proof (total_check_up vid Hvid).
  pose proof (total_disable_rx n Hn). pose proof (total_drain n Hn).
  pose proof (total_pf_down pcie Hpcie vid n Hv). pose proof total_vfs_down.
  unfold pf_disable, fail. total.
Qed.

Lemma total_pf_enable vid n control update : vnic_is vid NFD_VNIC_TYPE_PF n ->
  total ready (pf_enable pcie control update vid).
Proof.
  intros Hv. unfold pf_enable. eapply total_bind_to; [apply total_vfs_up|].
  intros [r|v] Hq; [apply total_ret|]. destruct Hq as [b ->]. by eapply total_pf_up.
Qed.

Lemma total_pf vid n control update msg : vnic_is vid NFD_VNIC_TYPE_PF n ->
  total ready (process_pf_reconfig fuel pcie control update vid n msg).
Proof.
  intros Hv. pose proof Hv as [Hvid _]. pose proof (vnic_pf_range vid n Hv) as Hn.
  pose proof (total_emit ready ready_emits). pose proof (total_bpf vid n). pose proof (total_sriov pcie).
  pose proof (fun c u => total_pf_enable vid n c u Hv). pose proof (total_wait_link_up n Hn).
  pose proof (fun m => total_pf_disable vid n m Hv).
  unfold process_pf_reconfig, fail. total.
Qed.

Lemma total_any_vf_up : total_to ready flag_value (any_vf_up pcie).
Proof.
  unfold any_vf_up. intros s Hs. apply returns_bind.
  eapply returns_mono; [eapply (returns_for_ret (fun l s => Forall (fun i => 0 <= i < NFD_MAX_VFS B) l /\ ready s)
    (fun r s => r = 1 /\ ready s))|].
  - split; [|done]. apply Forall_forall. intros i Hi. by apply list_elem_of_In, elem_of_range in Hi.
  - intros i l s1 [Hi Hs1]. inversion_clear Hi. apply returns_bind.
    pose proof (vf_in_range i ltac:(done)).
    assert (Hg : total ready (get_nic_control_word pcie (NFD_VF2VID i))) by total.
    eapply returns_mono; [by apply Hg|]. intros w s2 Hs2. by destruct (has w _).
  - intros [r|] s1; [intros [-> Hs1]|intros [_ Hs1]]; split; try done; [by exists true|by exists false].
Qed.

Lemma total_vf vid n control update msg : vnic_is vid NFD_VNIC_TYPE_VF n ->
  total ready (process_vf_reconfig pcie control update vid msg).
Proof.
  intros Hv. pose proof Hv as [Hvid _]. pose proof pf0_port. pose proof (pf_vid_range 0 pf0_port).
  pose proof (fun c w u => total_vf_up pcie Hpcie vid n c w u Hv).
  pose proof (total_vf_down pcie Hpcie vid n Hv).
  unfold process_vf_reconfig, fail. destruct (exceeds control _); [apply total_ret|].
  destruct (exceeds update _); [apply total_ret|].
  do 2 (apply total_bind; [total|intros ?]).
  apply (total_bind_to _ (fun r => match r with Some (up, _) => flag_value up | None => True end)).
  - destruct (has control _).
    + apply total_to_bind; [total|]. intros w. destruct (negb _); [by apply total_to_ret|].
      apply total_to_bind; [auto|]. intros r. apply total_to_ret.
      destruct (truthy r); [done|by exists true].
    + cbv zeta. destruct (_ && _); [by apply total_to_ret|].
      apply total_to_bind; [auto|]. intros r. destruct (truthy r); [by apply total_to_ret|].
      intros s Hs. apply returns_bind. eapply returns_mono; [by apply total_any_vf_up|].
      intros up s' [Hup Hs']. done.
  - intros [[up mode]|] Hq; [|apply total_ret]. destruct Hq as [b ->].
    apply total_bind; [total|]. intros w. apply total_bind; [by apply total_pf_up with (n := 0), vnic_pf0|].
    intros r. destruct (truthy r); [apply total_ret|].
    apply total_bind; [by apply total_update_lsc|intros; apply total_ret].
Qed.

(** The handler of the type *)
Lemma total_reconfig vid control update msg : 0 <= vid < NVNICS B NFD_MAX_CTRL ->
  total ready (process_reconfig fuel pcie control update vid msg).
Proof.
  intros Hvid. unfold process_reconfig. destruct (NFD_VID2VNIC vid) as [type n] eqn:Ht.
  assert (Hv : vnic_is vid type n) by by split.
  destruct type; [by apply total_pf|by apply total_ctrl with n|by apply total_vf with n].
Qed.
End handlers.

(** ** The round *)

(** With a message, the round goes on with an island and a vNIC of the build. *)
Lemma total_next c msg : total_to ready
  (fun x => let '(ret, pcie, _, msg) := x in
            ret = 0 -> 0 <= pcie < NFD_MAX_ISL /\ 0 <= msg_vid msg < NVNICS B NFD_MAX_CTRL)
  (next_nfd_cfg_msg c msg).
Proof.
  intros s Hs. pose proof (run_next_nfd_cfg_msg c msg s) as Hrun. cbv zeta in Hrun.
  unfold returns. destruct (has_pcie (island_of c)) eqn:Hp.
  - rewrite Hrun. pose proof (islands_known _ Hp). pose proof (has_pcie_range _ Hp).
    destruct (cfg_msg_dev (bus s) (island_of c)) as [[vid err]|] eqn:Hm; (split; [|done]);
      [|done]. intros _. split; [lia|]. by eapply messages_name_vnics.
  - by rewrite Hrun.
Qed.

Lemma total_cfg_round c msg : total ready (cfg_changes_round fuel c msg).
Proof.
  unfold cfg_changes_round. eapply total_bind_to; [apply total_next|].
  intros [[[ret pcie] c'] msg'] Hq. destruct (Z.eqb_spec ret 0) as [E|]; [|apply total_ret].
  destruct (Hq E) as [Hp Hv]. pose proof (total_emit ready ready_emits).
  pose proof (fun c u m => total_reconfig pcie Hp _ c u m Hv).
  cbv zeta. do 3 (apply total_bind; [total|intros ?]). destruct a1. total.
Qed.

(** *** The link state context writes words, and no lists *)

#[local] Hint Resolve slot_ok_board : respects.
#[local] Hint Extern 2 ((keeps_slots slot_ok) _ (apply_update _ _)) => (intros Hm; split; [exact Hm|by intros]) : respects.

Lemma words_write32 a v : fits 32 v -> respects (keeps_slots slot_ok) (mem_write32 a v).
Proof. intros Hv. apply respects_modify. intros s Hm. split; [by apply insert_fits|done]. Qed.

Lemma words_write8 a vs : respects (keeps_slots slot_ok) (mem_write8 a vs).
Proof. apply respects_modify. intros s Hm. split; [by apply set_bytes_fits|done]. Qed.
#[local] Hint Resolve words_write8 : respects.

(** The link status that is written *)
Lemma words_status {A} (m : C A) (k : A -> C unit) (Q : A -> Prop) :
  respects (keeps_slots slot_ok) m -> (forall s a s', m s = Some (a, s') -> Q a) ->
  (forall a, Q a -> respects (keeps_slots slot_ok) (k a)) -> respects (keeps_slots slot_ok) (m ≫= k).
Proof.
  intros Hm Hq Hk s x s' (a & s1 & Hrun & Hrest)%bind_some_inv.
  transitivity s1; [by eapply Hm|]. by eapply (Hk a); [eapply Hq|].
Qed.
Lemma words_vf_status ls pcie port vf_vid : respects (keeps_slots slot_ok)
  (sts ← (if decide (ls = LINK_UP) then
            _ ← LS_SET ls_current (isl_ok pcie) (isl_row pcie) vf_vid; mret (link_up_sts port)
          else
            _ ← LS_CLEAR ls_current (isl_ok pcie) (isl_row pcie) vf_vid; mret link_down_sts);
   let vf_ctrl_bar := nfd_cfg_bar_base pcie vf_vid in
   _ ← mem_write32 (vf_ctrl_bar + NFP_NET_CFG_STS) sts;
   _ ← mem_read32 (vf_ctrl_bar + NFP_NET_CFG_CTRL);
   send_or_pend pcie vf_vid).
Proof.
  apply (words_status _ _ (fits 32)); [respects| |].
  - intros s a s'. destruct (decide _); intros (u & s1 & _ & [= <- _])%bind_some_inv;
      [apply link_up_fits|apply link_down_fits].
  - intros sts Hs. pose proof (fun a => words_write32 a _ Hs). respects.
Qed.

Lemma words_lsc_check_vf pcie port ls : respects (keeps_slots slot_ok) (lsc_check_vf pcie port ls).
Proof.
  apply respects_for_each. intros vf_vid. apply respects_bind; [respects|intros follows].
  apply respects_when, words_vf_status.
Qed.
#[local] Hint Resolve words_lsc_check_vf : respects.

Lemma words_lsc_check pcie port : respects (keeps_slots slot_ok) (lsc_check pcie port).
Proof.
  unfold lsc_check. cbv zeta. apply respects_bind; [respects|intros [[changed ls] vs]].
  apply respects_bind; [respects|intros _]. apply respects_bind; [respects|intros w].
  apply (words_status _ _ (fits 32)); [respects| |].
  - intros s a s'. destruct (_ && _).
    + intros (u & s1 & _ & [= <- _])%bind_some_inv. apply link_up_fits.
    + intros [= <- _]. rewrite Z.lor_0_r. apply link_down_fits.
  - intros sts Hs. pose proof (fun a => words_write32 a _ Hs). respects.
Qed.
#[local] Hint Resolve words_lsc_check : respects.

Lemma words_lsc_round n : respects (keeps_slots slot_ok) (lsc_loop_round n).
Proof. respects. Qed.

(** *** Every turn *)

Lemma step_ready t y y' : sys_step fuel t y y' -> ready (shared y) -> ready (shared y').
Proof.
  intros Hstep [Hm Hf]. destruct Hstep as [y m Hw|y c msg s Hrun|y n s Hrun]; cbn [shared] in *.
  - by split.
  - pose proof (total_cfg_round (msg_cursor y) (last_msg y) (shared y) (conj Hm Hf)) as Hret.
    unfold returns in Hret. by rewrite Hrun in Hret.
  - pose proof (words_lsc_round _ _ _ _ Hrun) as Hk. destruct Hf as [Hf Hls].
    split; [by apply (Hk Hm)|]. split; [|by eapply keeps_lists_ok].
    pose proof (total_lsc_round bar_size (lsc_rounds y) _ Hf) as Hret.
    unfold returns in Hret. by rewrite Hrun in Hret.
Qed.

Lemma reachable_ready y : reachable fuel y -> ready (shared y).
Proof.
  apply (reachable_invariant fuel (fun y => ready (shared y))); [|intros t; apply step_ready].
  intros y0 (_ & _ & Hf & _ & _ & _ & Hm & Hl). split; [done|]. split; [done|by apply lists_drop_ok].
Qed.



(** C2: in every state that the application master can reach, each slot of the
    instruction tables, for a queue of a PCIe island or a wire port, is the same
    in all worker islands and either still drops everything, as it was loaded,
    or holds a list of well-formed actions that fits into the slot, begins with
    the parse of the side that the slot is for, ends with an action after which
    a worker stops, and has no such action before: no worker ever runs on from
    the list of one vNIC into the words of another, and no action of a list is
    out of its reach. *)
Theorem workers_run_complete_lists y q : reachable fuel y -> 0 <= q < 512 ->
  slot_drops (shared y) q \/
  exists l, list_ok q l /\ forall isl, isl ∈ islands ->
    decode 16 ((fun j => rd (cls (shared y)) (isl, slot_addr q + 4 * Z.of_nat j)) <$> seq 0 (size l)) = Some l.
Proof.
  intros Hreach Hq. destruct (reachable_ready y Hreach) as (_ & _ & Hl).
  destruct (Hl q Hq) as [Hd|(l & Hok & Hs)]; [by left|right]. exists l. split; [done|].
  intros isl Hisl. apply slot_runs_decode; [apply Hok|apply Hok|by apply Hs].
Qed.
End parts.
End progress.

(** ** Witness *)

Section witnesses.
Import Demo Mac Engines.

(** The MAC and the engines of the other checks; a message of PF 1, vNIC 49 of
    this build, waits at island 0 at every poll. *)
#[local] Instance host : Devices := {|
  xpb_dev := Mac.dev; ct_dev := ct_dev (Devices := Engines.devices);
  pcie_dev := fun h isl idx addr_hi addr_lo i => 0;
  msix_dev := fun h pcie bar entry automask => 0;
  tmq_dev := fun h nbi queue => 1;
  cfg_msg_dev := fun h pcie => if pcie =? 0 then Some (49, 0) else None |}.

#[local] Instance msix : MsixCfg := {| PCIE_CPP2PCIE_LSC := 1 |}.

#[local] Instance demo_answers : Answers sriov_build 3.
Proof.
  split.
  - exact demo_blm_answers.
  - exact Mac.acks.
  - intros. apply Engines.idles.
  - by vm_compute.
  - intros h p vid err Hm. simpl in Hm. destruct (p =? 0); [|done]. injection Hm as <- _. by vm_compute.
Qed.

Definition start : system := mk_system nic0 0 (mk_cfg_msg 0 0 0) 0.
(** The host asks PF 1 to come up. *)
Definition bar49 : gmap Z Z := <[49 * 0x8000 := 1]> ∅.
Definition asked : system := start <| shared ::= fun s : nic => s <| emem := bar49 |> |>.

Lemma run_to_asked : sys_run 4 [Host] start asked.
Proof.
  eapply run_turn; [apply (host_writes 4 start bar49)|apply run_nil].
  apply insert_fits; [done|apply wf_mem_empty].
Qed.



Lemma workers_run_complete_lists_witness : exists y l,
  reachable 4 y /\ list_ok 257 l /\
  decode 16 ((fun j => rd (cls (shared y)) (32, slot_addr 257 + 4 * Z.of_nat j)) <$> seq 0 (size l)) = Some l.
Proof.
  assert (Hround : (fun r => rd (cls (snd r)) (32, slot_addr 257)) <$>
    cfg_changes_round 4 (msg_cursor asked) (last_msg asked) (shared asked) = Some 131072)
    by (vm_compute; reflexivity).
  assert (Hisl : 32 ∈ islands) by (apply list_elem_of_In; by left).
  destruct (cfg_changes_round 4 (msg_cursor asked) (last_msg asked) (shared asked))
    as [[[c msg] s]|] eqn:Hrun; [|discriminate Hround]. injection Hround as Hw.
  assert (Hreach : reachable 4 (mk_system s c msg (lsc_rounds asked))).
  { exists [Host; CfgRound], start. split; [apply nic0_init|].
    eapply (run_app 4 [Host] [CfgRound]); [apply run_to_asked|].
    eapply run_turn; [apply (cfg_round 4 asked); exact Hrun|apply run_nil]. }
  clear Hrun.
  destruct (workers_run_complete_lists 3 0x8000 4 ltac:(lia) _ 257 Hreach ltac:(lia))
    as [(w & Hd & Hs)|(l & Hl & Hs)].
  - destruct (Hs 32 Hisl) as [E _]. cbn [shared] in E. rewrite Hw in E. subst w.
    by destruct Hd as [Hd|Hd].
  - eexists _, l. split; [exact Hreach|]. split; [exact Hl|]. by apply Hs.
Defined.
End witnesses.
