(* ===== verification/Handlers.v ===== *)
(** * The handlers of vNIC requests, as a whole

    What a request to enable or disable a VF or a PF comes to: the answer, the
    lists that the vNIC and PF 0 run afterwards, the control word that is
    recorded, and that no other slot changes.  The theorems compose those of
    Config.v, Lists.v and Progress.v along process_vf_reconfig and
    process_pf_reconfig. *)

From S2P Require Import Prelude Platform UserCfg Nfd Machine AppPrivate Bus Link Bpf Tables ActionList Builders NicTables Veb Config Frame Lists Control Master System Liveness Start Progress.

(** ** What a state runs *)

Section runs.
Context {B : build} `{NetCfg, Vids, VfCfg, App}.
Context `{!VidsOk B}.

(** The list of all queues of a vNIC, and of a wire port, in all worker islands *)
Definition vnic_runs (pcie vid : Z) (l : list action) (s : nic) : Prop :=
  forall isl i, isl ∈ islands -> 0 <= i < NFD_VID_MAXQS vid -> slot_runs s isl (host_q pcie vid i) l.
Definition port_runs (n : Z) (l : list action) (s : nic) : Prop :=
  forall isl, isl ∈ islands -> slot_runs s isl (wire_q n) l.

Lemma vnic_runs_kept pcie vid l s s' : (size l <= 16)%nat ->
  (forall q, vnic_slots pcie vid q -> same_slot q s s') -> vnic_runs pcie vid l s -> vnic_runs pcie vid l s'.
Proof.
  intros Hsz Hsame Hr isl i Hisl Hi. eapply slot_runs_same; [|done|done|by apply Hr].
  apply Hsame. by exists i.
Qed.

Lemma same_slot_trans q s1 s2 s3 : same_slot q s1 s2 -> same_slot q s2 s3 -> same_slot q s1 s3.
Proof. intros H12 H23 isl j Hisl Hj. rewrite H23 by done. by apply H12. Qed.

(** ** The same inputs make the same lists *)

Lemma cached_same pcie vid s s' : same_inputs s s' -> same_inputs (cached pcie vid s) (cached pcie vid s').
Proof. intros [He Hf]. split; [done|]. unfold cached, fl_bufs. st. by rewrite He, Hf. Qed.

Lemma nbi_pipeline_same s s' pcie vid n veb control : same_inputs s s' ->
  nbi_pipeline pcie vid n veb control s' = nbi_pipeline pcie vid n veb control s.
Proof.
  intros Hs. pose proof Hs as [He _]. unfold nbi_pipeline, rss_actions. cbv zeta.
  rewrite (bar_mac_same s s'), (tx_host_same s s'), (rss_same s s') by done.
  unfold rx_wire_action, vxlan_ports, words. by rewrite He.
Qed.
End runs.

(** The history grows, without a message to the host. *)
Definition later : nic -> nic -> Prop := logs no_message.

#[local] Instance later_memory : HostMemory later.
Proof. split. intros f s. by exists []. Qed.
#[local] Instance later_worker : WorkerSide later.
Proof.
  split; [apply logs_preorder|intros f s; by exists []..|].
  intros e s He. by apply (logs_emit no_message e).
Qed.
#[local] Instance later_switch : SwitchFree later.
Proof. split; intros f s; by exists []. Qed.
#[local] Hint Extern 2 (later _ (apply_update _ _)) =>
  first [ exists []; split; [reflexivity|constructor]
        | eapply logs_emit; [reflexivity|solve [exact I|reflexivity]] ] : respects.
#[local] Hint Resolve later_worker later_memory later_switch : respects.

(** The lists are left alone. *)
Definition same_lists (s s' : nic) : Prop := cls s' = cls s.

#[local] Instance same_lists_preorder : PreOrder same_lists.
Proof. split; [by intros s|]. intros s1 s2 s3 E1 E2. unfold same_lists in *. congruence. Qed.
#[local] Instance same_lists_memory : HostMemory same_lists.
Proof. by split. Qed.
#[local] Instance same_lists_board : BoardSide same_lists.
Proof. split; [apply _|by intros f s..|by intros e s _]. Qed.
#[local] Instance same_lists_switch : SwitchFree same_lists.
Proof. split; by intros f s. Qed.

(** The control words are. *)
Definition same_words (s s' : nic) : Prop := nic_control_word s' = nic_control_word s.

#[local] Instance same_words_preorder : PreOrder same_words.
Proof. split; [by intros s|]. intros s1 s2 s3 E1 E2. unfold same_words in *. congruence. Qed.
#[local] Instance same_words_memory : HostMemory same_words.
Proof. by split. Qed.
#[local] Instance same_words_worker : WorkerSide same_words.
Proof. split; [apply _|by intros f s..|by intros e s _]. Qed.
#[local] Instance same_words_switch : SwitchFree same_words.
Proof. split; by intros f s. Qed.
#[local] Hint Resolve same_lists_board same_lists_switch same_lists_memory same_words_worker
  same_words_memory same_words_switch : respects.
#[local] Hint Extern 2 (same_lists _ (apply_update _ _)) => reflexivity : respects.
#[local] Hint Extern 2 (same_words _ (apply_update _ _)) => reflexivity : respects.

(** What the lists are made from is. *)
#[local] Instance same_inputs_preorder : PreOrder same_inputs.
Proof. split; [by intros s|]. intros s1 s2 s3 (? & ?) (? & ?). split; congruence. Qed.
#[local] Hint Extern 2 (same_inputs _ (apply_update _ _)) => (split; reflexivity) : respects.

Lemma same_inputs_blm `{App} n : respects same_inputs (blm_alloc_loop n).
Proof. induction n; cbn [blm_alloc_loop]; respects. Qed.
#[local] Hint Resolve same_inputs_blm : respects.

Section handlers.
Context {B : build} `{NetCfg, Vids, VfCfg, App, Devices, Xpb, BpfCfg, MsixCfg}.
Context `{!NetCfgOk, !VidsOk B, !VfCfgOk}.
Context (lat : nat) `{!Answers B lat}.
Context (fuel : nat) (Hfuel : (lat < fuel)%nat).
Context (pcie : Z) (Hpcie : 0 <= pcie < NFD_MAX_ISL).
(** No CTM buffer for a message to the switch is refused. *)
Context (ctm_ok : ctm_alloc_ok).

Lemma allocs : allocs_ok.
Proof. exact (conj ctm_ok (buffers (lat := lat))). Qed.

(** ** Parts *)

Lemma run_vf_down vid n s : vnic_is vid NFD_VNIC_TYPE_VF n ->
  exists s', cfg_act_vf_down pcie vid s = Some (0, s') /\
    vnic_runs pcie vid (pcie_down_pipeline pcie vid s) s' /\ same_words s s' /\ same_inputs s s'.
Proof.
  intros Hv. pose proof Hv as [Hvid _]. pose proof (vf_vid vid n Hv). pose proof max_vfs_range.
  set (l := pcie_down_pipeline pcie vid s). set (s1 := host_written pcie vid l s).
  assert (Hrest : exists s', (r ← cfg_act_write_veb vid (VEB_KEY_FROM_MAC64 0) None;
    if negb (r =? NO_ERROR) then mret 1
    else _ ← remove_vlan_member pcie vid; _ ← upd_ctm_vlan_members pcie; mret 0) s1 = Some (0, s')).
  { destruct (run_veb_finish vid (VEB_KEY_FROM_MAC64 0) (stale_new_vlan_id s1) s1 allocs
      (stored_key_ok_vid vid Hvid)) as (s2 & Hrun & _).
    unfold cfg_act_write_veb. cbv zeta. rewrite run_assoc, run_get, (run_some _ _ _ _ _ Hrun).
    change (negb (NO_ERROR =? NO_ERROR)) with false. cbv iota.
    pose proof (total_remove_member pcie Hpcie vid ltac:(lia) s2 I) as Hr.
    apply returns_exists in Hr as (u & s3 & Hrun3 & _). erewrite run_some by exact Hrun3.
    pose proof (total_vlan_members pcie s3 I) as Hr.
    apply returns_exists in Hr as (u' & s4 & Hrun4 & _). erewrite run_some by exact Hrun4. by exists s4. }
  destruct Hrest as [s' Hrest]. exists s'.
  assert (Hrun : cfg_act_vf_down pcie vid s = Some (0, s')).
  { unfold cfg_act_vf_down. erewrite run_some by apply run_build_pcie_down. cbv beta. fold l.
    erewrite run_some by (apply run_write_host; [done|simpl; lia]). exact Hrest. }
  split; [done|]. split; [|split].
  - assert (Hc : cls s' = cls s1).
    { assert (Hk : respects same_lists (r ← cfg_act_write_veb vid (VEB_KEY_FROM_MAC64 0) None;
        if negb (r =? NO_ERROR) then mret 1
        else _ ← remove_vlan_member pcie vid; _ ← upd_ctm_vlan_members pcie; mret 0)) by respects.
      apply (Hk _ _ _ Hrest). }
    intros isl i Hisl Hi j w Hj. rewrite Hc.
    eapply (slot_runs_host s pcie vid l isl i); [simpl; lia|done|done|exact Hj].
  - assert (Hk : respects same_words (cfg_act_vf_down pcie vid)) by respects. by apply (Hk _ _ _ Hrun).
  - assert (Hk : respects same_inputs (cfg_act_vf_down pcie vid)) by respects. by apply (Hk _ _ _ Hrun).
Qed.

#[local] Notation "'pf0'" := (NFD_PF2VID 0).

(** A VF has no slot of PF 0. *)
Lemma vf_slots_apart vid n q : vnic_is vid NFD_VNIC_TYPE_VF n -> vnic_slots pcie vid q ->
  0 <= q < 512 /\ ~ pf_slots pcie pf0 0 q.
Proof.
  intros Hv Hq. pose proof Hv as [Hvid Ht]. pose proof vnic_pf0 as [Hvid0 Ht0].
  pose proof (vnic_slots_range pcie Hpcie vid q Hvid Hq). split; [lia|].
  intros [E|Hq0]; [unfold wire_q in E; lia|].
  assert (vid = pf0) as -> by by eapply vnic_slots_apart. congruence.
Qed.

(** What the last part of process_vf_reconfig does: PF 0 gets new lists, with
    or without the switch, on its control word [w]; no other slot is written. *)
Record pf0_follows (veb : bool) (w : Z) (s s' : nic) : Prop := {
  pf0_wire : port_runs 0 (nbi_pipeline pcie pf0 0 veb w (cached pcie pf0 s)) s';
  pf0_host : exists spare,
    vnic_runs pcie pf0 (pf_pipeline spare pcie pf0 0 veb w (cached pcie pf0 s)) s';
  pf0_words : nic_control_word s' = nic_control_word s;
  pf0_others q : 0 <= q < 512 -> ~ pf_slots pcie pf0 0 q -> same_slot q s s'
}.

Lemma run_vf_finish veb vid control mode msg s : ready s -> 0 <= vid < NVNICS B NFD_MAX_CTRL ->
  exists s',
    (pf_word ← get_nic_control_word pcie pf0;
     r ← cfg_act_pf_up pcie pf0 (b2z veb) pf_word 0;
     if truthy r then fail msg
     else _ ← update_vf_lsc_list pcie 0 vid control mode; mret (0, msg)) s =
    Some (if unicast (bar_mac pcie pf0 s) then (0, msg) else (1, msg <| error := 1 |>), s') /\
    pf0_follows veb (rd (nic_control_word s) (pcie, pf0)) s s'.
Proof.
  intros Hr Hvid. pose proof Hr as [Hm _]. pose proof vnic_pf0 as Hv0. pose proof Hv0 as [Hvid0 _].
  erewrite run_some by by apply run_get_nic_control_word. cbv beta.
  set (w := rd (nic_control_word s) (pcie, pf0)).
  destruct (run_pf_up pcie pf0 0 veb w 0 s (buffers (lat := lat)) Hm Hpcie Hv0)
    as (r & s1 & Hrun & Hup & _ & _ & Hbad & Hok).
  assert (Hf : pf0_follows veb w s s1).
  { destruct Hup as [Hupw [x Huph] _]. split; [exact Hupw|exists x; exact Huph| |].
    - assert (Hk : respects same_words (cfg_act_pf_up pcie pf0 (b2z veb) w 0)) by respects.
      by apply (Hk _ _ _ Hrun).
    - eapply others_same; [by eapply others_pf_up|done|exact Hrun]. }
  assert (Hr1 : ready s1).
  { pose proof (total_pf_up lat pcie Hpcie pf0 0 veb w 0 Hv0 s Hr) as Hr1.
    unfold returns in Hr1. by rewrite Hrun in Hr1. }
  erewrite run_some by exact Hrun. cbv beta.
  destruct (unicast (bar_mac pcie pf0 s)) eqn:Hu.
  - destruct Hok as (-> & _); [done..|exact ctm_ok|]. change (truthy 0) with false. cbv iota.
    pose proof (total_update_lsc lat fuel Hfuel pcie Hpcie vid control mode Hvid s1 Hr1) as Hl.
    apply returns_exists in Hl as ([] & s2 & Hrun2 & _). erewrite run_some by exact Hrun2.
    exists s2. split; [done|].
    assert (Hk : respects same_lists (update_vf_lsc_list pcie 0 vid control mode)) by respects.
    assert (Hk2 : respects same_words (update_vf_lsc_list pcie 0 vid control mode)) by respects.
    pose proof (Hk _ _ _ Hrun2) as Hc. pose proof (Hk2 _ _ _ Hrun2) as Hw. unfold same_lists in Hc.
    destruct Hf as [Hfw [x0 Hfh] Hfn Hfo]. split.
    + intros isl Hisl j x Hj. rewrite Hc. by eapply Hfw.
    + exists x0. intros isl i Hisl Hi j x Hj. rewrite Hc. by eapply Hfh.
    + by rewrite Hw.
    + intros q Hq Hn isl j Hisl Hj. rewrite Hc. by apply Hfo.
  - destruct Hbad as [-> _]; [done..|]. exists s1. by split.
Qed.

(** *** The message of a VF *)

(** Accepted: what follows the checks and the recording of the control word *)
Lemma process_vf_start control update vid msg s : 0 <= vid < NVNICS B NFD_MAX_CTRL ->
  request_ok NFD_VNIC_TYPE_VF control update = true ->
  let s1 := s <| nic_control_word ::= <[(pcie, vid) := control]> |> in
  process_vf_reconfig pcie control update vid msg s =
  (r ← (if has control NFP_NET_CFG_CTRL_ENABLE then
      pf_word ← get_nic_control_word pcie pf0;
      if negb (has pf_word NFP_NET_CFG_CTRL_ENABLE) then mret None
      else
        r ← cfg_act_vf_up pcie vid pf_word control update;
        mret (if truthy r then None else Some (1, sc_ctrl_link_state (sriov_cfg pcie vid s)))
    else
      if has update NFP_NET_CFG_UPDATE_MACADDR &&
         (truthy (sriov_mac pcie vid s) && negb (vf_trusted pcie vid s)) then mret None
      else
        r ← cfg_act_vf_down pcie vid;
        if truthy r then mret None
        else
          veb_up ← any_vf_up pcie;
          mret (Some (veb_up, NFD_VF_CFG_CTRL_LINK_STATE_DISABLE)));
    match r with
    | None => fail msg
    | Some (veb_up, ls_mode) =>
        pf_word ← get_nic_control_word pcie pf0;
        r ← cfg_act_pf_up pcie pf0 veb_up pf_word 0;
        if truthy r then fail msg
        else
          _ ← update_vf_lsc_list pcie 0 vid control ls_mode;
          mret (0, msg)
    end) s1.
Proof.
  intros Hvid Hok. simpl in Hok. apply andb_true_iff in Hok as [Hc Hu]. apply negb_true_iff in Hc, Hu.
  unfold process_vf_reconfig. rewrite Hc, Hu.
  erewrite run_some by by apply run_set_nic_control_word. cbv beta.
  unfold read_sriov_cfg, mem_read32s. runs. reflexivity.
Qed.

(** C4: the request of a VF to be enabled, when it asks for nothing beyond the
    capabilities of a VF, PF 0 is enabled, the MAC is acceptable, and no CTM
    buffer for a message to the switch is refused (the answer is an error after
    a refusal).  All queues of the VF run the list of its control words, and the
    wire port and the queues of PF 0 are given new lists that look packets up in
    the switch, made from the control word that PF 0 had; the control word of the
    VF is recorded, no slot of another vNIC or port changes, and the request
    succeeds, unless the MAC of PF 0 itself is zero or a group address: then the
    answer is an error although the VF runs.  The devices have to answer
    ([Answers]: MU buffers come within [blm_fuel] tries, the MAC within [lat]
    polls); the spare bits of TX_WIRE, which the code leaves unassigned, are
    left open. *)
Theorem vf_enable_correct vid n control update msg s :
  ready s -> vnic_is vid NFD_VNIC_TYPE_VF n ->
  request_ok NFD_VNIC_TYPE_VF control update = true ->
  let w := rd (nic_control_word s) (pcie, pf0) in
  has control NFP_NET_CFG_CTRL_ENABLE = true -> has w NFP_NET_CFG_CTRL_ENABLE = true ->
  vf_rejected pcie vid update s = false -> unicast (vf_mac pcie vid s) = true ->
  exists s', process_vf_reconfig pcie control update vid msg s =
      Some (if unicast (bar_mac pcie pf0 s) then (0, msg) else (1, msg <| error := 1 |>), s') /\
    (exists spare, vnic_runs pcie vid (vf_pipeline spare pcie vid w control (cached pcie vid s)) s') /\
    port_runs 0 (nbi_pipeline pcie pf0 0 true w (cached pcie pf0 (cached pcie vid s))) s' /\
    (exists spare, vnic_runs pcie pf0
       (pf_pipeline spare pcie pf0 0 true w (cached pcie pf0 (cached pcie vid s))) s') /\
    nic_control_word s' = <[(pcie, vid) := control]> (nic_control_word s) /\
    (forall q, 0 <= q < 512 -> ~ vnic_slots pcie vid q -> ~ pf_slots pcie pf0 0 q -> same_slot q s s').
Proof.
  intros Hr Hv Hok w Hen Hpf Hrej Huni. pose proof Hr as [Hm _]. pose proof Hv as [Hvid Ht].
  pose proof vnic_pf0 as [Hvid0 Ht0].
  rewrite process_vf_start, Hen by done. set (s1 := s <| nic_control_word ::= _ |>).
  assert (Hne : vid <> pf0) by congruence.
  assert (Hw : rd (nic_control_word s1) (pcie, pf0) = w)
    by (unfold s1; st; by rewrite rd_insert_ne by congruence).
  rewrite run_assoc. erewrite run_some by by apply run_get_nic_control_word. cbv beta.
  rewrite Hw, Hpf. cbn [negb].
  destruct (run_vf_up pcie vid n w control update s1 allocs Hm Hpcie Hv Hrej Huni)
    as (s2 & Hrun & Hup).
  rewrite run_assoc. erewrite run_some by exact Hrun. cbv beta.
  assert (Hr2 : ready s2).
  { pose proof (total_vf_up lat pcie Hpcie vid n w control update Hv s1 Hr) as Hr2.
    unfold returns in Hr2. by rewrite Hrun in Hr2. }
  assert (Hk : respects same_words (cfg_act_vf_up pcie vid w control update)) by respects.
  pose proof (Hk _ _ _ Hrun) as Hw2. unfold same_words in Hw2.
  assert (Hin : same_inputs (cached pcie vid s) s2) by (pose proof (up_inputs _ _ _ _ _ _ _ Hup); done).
  change (truthy 0) with false. cbv iota. rewrite run_ret.
  destruct (run_vf_finish true vid control (sc_ctrl_link_state (sriov_cfg pcie vid s)) msg s2 Hr2 Hvid)
    as (s3 & Hrun3 & [Hfw [x Hfh] Hfn Hfo]).
  assert (Hmac : bar_mac pcie pf0 s2 = bar_mac pcie pf0 s) by (by rewrite (bar_mac_same _ _ _ _ Hin)).
  exists s3. rewrite Hmac in Hrun3. split; [exact Hrun3|].
  rewrite Hw2, Hw in *.
  pose proof (cached_same pcie pf0 _ _ Hin) as Hin0.
  rewrite (nbi_pipeline_same _ _ _ _ _ _ _ Hin0) in Hfw.
  rewrite (pf_pipeline_same x _ _ _ _ _ _ _ Hin0) in Hfh.
  split; [|split; [done|split; [by exists x|]]].
  - destruct (up_slots _ _ _ _ _ _ _ Hup) as [x2 Hslots]. exists x2.
    apply (vnic_runs_kept pcie vid _ s2); [apply vf_size| |exact Hslots].
    intros q Hq. by destruct (vf_slots_apart vid n q Hv Hq); apply Hfo.
  - split; [by rewrite Hfn|]. intros q Hq Hn Hn0. apply (same_slot_trans q s1 s2 s3); [|by apply Hfo].
    by apply (others_same _ _ s1 _ s2 (others_vf_up pcie Hpcie vid n w control update s1 Hv) Hm Hrun).
Qed.

(** The loop over the VFs finds an enabled one. *)
Definition vf_enabled (s : nic) : bool :=
  existsb (fun vf => has (rd (nic_control_word s) (pcie, NFD_VF2VID vf)) NFP_NET_CFG_CTRL_ENABLE)
    (range 0 (NFD_MAX_VFS B)).

Lemma run_any_vf_up s : any_vf_up pcie s = Some (b2z (vf_enabled s), s).
Proof.
  unfold any_vf_up, vf_enabled.
  assert (Hl : forall i, i ∈ range 0 (NFD_MAX_VFS B) -> 0 <= i < NFD_MAX_VFS B)
    by (by intros i Hi%elem_of_range).
  revert Hl. generalize (range 0 (NFD_MAX_VFS B)). intros l Hl.
  induction l as [|x l IH]; [done|]. cbn [for_ret existsb]. rewrite !run_assoc.
  erewrite run_some by (apply run_get_nic_control_word; [done|apply (vf_in_range lat fuel Hfuel), Hl, list_elem_of_here]).
  cbv beta. rewrite run_ret.
  destruct (has (rd _ _) _); [done|]. cbn [orb].
  apply IH. intros i Hi. by apply Hl, list_elem_of_further.
Qed.

(** C5: the request of a VF to be disabled, when it asks for nothing beyond the
    capabilities of a VF, is not also an untrusted VF's refused change of a MAC
    that the PF assigned (answered with an error, the queues keep running:
    vf_mac_change_keeps_queues), and no CTM buffer for a message to the switch
    is refused (answered with an error).  All queues of the VF drop, the control
    word is recorded, and the wire port and the queues of PF 0 get lists that
    look packets up in the switch exactly if a VF is still enabled; no slot of
    another vNIC or port changes.  The answer is an error exactly if the MAC of
    PF 0 is zero or a group address.  PF 0 gets these lists whether or not it is
    enabled: the code does not look at its control word, so that after PF 0 was
    disabled the request of a VF makes its lists forward again. *)
Theorem vf_disable_correct vid n control update msg s :
  ready s -> vnic_is vid NFD_VNIC_TYPE_VF n ->
  request_ok NFD_VNIC_TYPE_VF control update = true ->
  let w := rd (nic_control_word s) (pcie, pf0) in
  has control NFP_NET_CFG_CTRL_ENABLE = false ->
  has update NFP_NET_CFG_UPDATE_MACADDR && (truthy (sriov_mac pcie vid s) && negb (vf_trusted pcie vid s)) = false ->
  let s1 := s <| nic_control_word ::= <[(pcie, vid) := control]> |> in
  exists s', process_vf_reconfig pcie control update vid msg s =
      Some (if unicast (bar_mac pcie pf0 s) then (0, msg) else (1, msg <| error := 1 |>), s') /\
    vnic_runs pcie vid (pcie_down_pipeline pcie vid s) s' /\
    port_runs 0 (nbi_pipeline pcie pf0 0 (vf_enabled s1) w (cached pcie pf0 s)) s' /\
    (exists spare, vnic_runs pcie pf0
       (pf_pipeline spare pcie pf0 0 (vf_enabled s1) w (cached pcie pf0 s)) s') /\
    nic_control_word s' = nic_control_word s1 /\
    (forall q, 0 <= q < 512 -> ~ vnic_slots pcie vid q -> ~ pf_slots pcie pf0 0 q -> same_slot q s s').
Proof.
  intros Hr Hv Hok w Hen Hma s1. pose proof Hr as [Hm _]. pose proof Hv as [Hvid Ht].
  pose proof vnic_pf0 as [Hvid0 Ht0].
  rewrite process_vf_start, Hen, Hma by done. fold s1.
  assert (Hne : vid <> pf0) by congruence.
  assert (Hw : rd (nic_control_word s1) (pcie, pf0) = w)
    by (unfold s1; st; by rewrite rd_insert_ne by congruence).
  destruct (run_vf_down vid n s1 Hv) as (s2 & Hrun & Hdown & Hw2 & Hin). unfold same_words in Hw2.
  rewrite run_assoc. erewrite run_some by exact Hrun. cbv beta.
  assert (Hr2 : ready s2).
  { pose proof (total_vf_down lat pcie Hpcie vid n Hv s1 Hr) as Hr2.
    unfold returns in Hr2. by rewrite Hrun in Hr2. }
  change (truthy 0) with false. cbv iota. rewrite run_assoc, (run_some _ _ _ _ _ (run_any_vf_up s2)), run_ret.
  replace (vf_enabled s2) with (vf_enabled s1) by (unfold vf_enabled; by rewrite Hw2).
  destruct (run_vf_finish (vf_enabled s1) vid control NFD_VF_CFG_CTRL_LINK_STATE_DISABLE msg s2 Hr2 Hvid)
    as (s3 & Hrun3 & [Hfw [x Hfh] Hfn Hfo]).
  exists s3. rewrite (bar_mac_same s1 s2) in Hrun3 by done. split; [exact Hrun3|].
  rewrite Hw2, Hw in *.
  pose proof (cached_same pcie pf0 _ _ Hin) as Hin0.
  rewrite (nbi_pipeline_same _ _ _ _ _ _ _ Hin0) in Hfw.
  rewrite (pf_pipeline_same x _ _ _ _ _ _ _ Hin0) in Hfh.
  split; [|split; [done|split; [by exists x|split; [done|]]]].
  - apply (vnic_runs_kept pcie vid _ s2); [simpl; lia| |exact Hdown].
    intros q Hq. by destruct (vf_slots_apart vid n q Hv Hq); apply Hfo.
  - intros q Hq Hn Hn0. apply (same_slot_trans q s1 s2 s3); [|by apply Hfo].
    by apply (others_same _ _ s1 _ s2 (others_vf_down pcie vid s1 Hvid) Hm Hrun).
Qed.

(** The change of a MAC that is refused: the control word is recorded, and the
    queues of the VF keep running what they ran. *)
Lemma vf_mac_change_keeps_queues vid control update msg s :
  0 <= vid < NVNICS B NFD_MAX_CTRL -> request_ok NFD_VNIC_TYPE_VF control update = true ->
  has control NFP_NET_CFG_CTRL_ENABLE = false ->
  has update NFP_NET_CFG_UPDATE_MACADDR && (truthy (sriov_mac pcie vid s) && negb (vf_trusted pcie vid s)) = true ->
  process_vf_reconfig pcie control update vid msg s =
    Some ((1, msg <| error := 1 |>), s <| nic_control_word ::= <[(pcie, vid) := control]> |>).
Proof.
  intros Hvid Hok Hen Hma. by rewrite process_vf_start, Hen, Hma by done.
Qed.

(** *** The message of a PF *)

(** All queues of a vNIC drop after the parse; a wire port does *)
Definition vnic_drops (vid : Z) (s : nic) : Prop :=
  exists a, op_of a = INSTR_RX_HOST /\ vnic_runs pcie vid [a; Drop] s.
Definition port_drops (n : Z) (s : nic) : Prop :=
  exists a, op_of a = INSTR_RX_WIRE /\ port_runs n [a; Drop] s.

Lemma vnic_drops_kept vid s s' : (forall q, vnic_slots pcie vid q -> same_slot q s s') ->
  vnic_drops vid s -> vnic_drops vid s'.
Proof.
  intros Hs (a & Ha & Hr). exists a. split; [done|].
  apply (vnic_runs_kept pcie vid _ s); [destruct a; try done; simpl; lia|done|done].
Qed.

Lemma vf_vid_inj v v' : 0 <= v < NFD_MAX_VFS B -> 0 <= v' < NFD_MAX_VFS B ->
  NFD_VF2VID v = NFD_VF2VID v' -> v = v'.
Proof.
  intros Hv Hv' E. destruct (vnic_vf lat fuel Hfuel v Hv) as [_ T], (vnic_vf lat fuel Hfuel v' Hv') as [_ T'].
  rewrite E in T. congruence.
Qed.

(** The loop of pf_vfs_down over the VFs [l] never fails. *)
Lemma run_vfs_down l s : (forall v, v ∈ l -> 0 <= v < NFD_MAX_VFS B) -> wf_emem s ->
  exists s', for_ret l (fun i =>
      r ← cfg_act_vf_down pcie (NFD_VF2VID i); mret (if truthy r then Some 1 else None)) s = Some (None, s') /\
    (forall v, v ∈ l -> vnic_drops (NFD_VF2VID v) s') /\
    (forall q, 0 <= q < 512 -> (forall v, v ∈ l -> ~ vnic_slots pcie (NFD_VF2VID v) q) -> same_slot q s s').
Proof.
  revert s. induction l as [|x l IH]; intros s Hl Hm.
  - exists s. split; [done|]. split; [by intros v Hv%elem_of_nil|]. by intros q _ _ isl j _ _.
  - assert (Hx : 0 <= x < NFD_MAX_VFS B) by apply Hl, list_elem_of_here.
    pose proof (vnic_vf lat fuel Hfuel x Hx) as Hv. pose proof Hv as [Hvid _].
    destruct (run_vf_down _ x s Hv) as (s1 & Hrun & Hdown & _ & Hin).
    assert (Hl' : forall v, v ∈ l -> 0 <= v < NFD_MAX_VFS B) by (intros v Hv'; by apply Hl, list_elem_of_further).
    destruct (IH s1) as (s2 & Hrest & Hdrops & Hsame); [done|by eapply wf_emem_same|].
    exists s2. cbn [for_ret]. rewrite run_assoc. erewrite run_some by exact Hrun. cbv beta.
    rewrite run_ret. split; [exact Hrest|]. split.
    + intros v [->|Hin']%elem_of_cons; [|by apply Hdrops].
      destruct (decide (x ∈ l)) as [|Hnl]; [by apply Hdrops|].
      apply (vnic_drops_kept _ s1); [|eexists; split; [|exact Hdown]; done].
      intros q Hq. apply Hsame; [pose proof (vnic_slots_range pcie Hpcie _ q Hvid Hq); lia|].
      intros v' Hv' Hq'. pose proof (vnic_vf lat fuel Hfuel v' (Hl' v' Hv')) as [Hvid' _].
      assert (x = v') as ->; [|done].
      apply vf_vid_inj; [done|by apply Hl'|by eapply (vnic_slots_apart pcie)].
    + intros q Hq Hn. apply (same_slot_trans q s s1 s2).
      * apply (others_same _ _ s _ s1 (others_vf_down pcie _ s Hvid) Hm Hrun); [done|].
        apply Hn, list_elem_of_here.
      * apply Hsame; [done|]. intros v' Hv'. by apply Hn, list_elem_of_further.
Qed.

(** A call that leaves lists and control words alone *)
Lemma ran {A} (m : C A) s : total ready m -> respects same_lists m -> respects same_words m ->
  respects later m -> ready s ->
  exists a s', m s = Some (a, s') /\ ready s' /\ cls s' = cls s /\
    nic_control_word s' = nic_control_word s /\ later s s'.
Proof.
  intros Ht Hl Hw Hb Hs. specialize (Ht s Hs). apply returns_exists in Ht as (a & s' & Hrun & Hr).
  exists a, s'. split; [done|]. split; [done|].
  split; [by apply (Hl _ _ _ Hrun)|]. split; [by apply (Hw _ _ _ Hrun)|by apply (Hb _ _ _ Hrun)].
Qed.

Lemma has_enable_lxor a b : has a NFP_NET_CFG_CTRL_ENABLE = true -> has b NFP_NET_CFG_CTRL_ENABLE = false ->
  has (Z.lxor a b) NFP_NET_CFG_CTRL_ENABLE = true.
Proof.
  rewrite ctrl_enable_bit. change 1 with (Z.shiftl 1 0). rewrite !has_pow2, Z.lxor_spec by done.
  by intros -> ->.
Qed.

(** The lists of a PF and of all VFs go down one after the other. *)
Lemma run_pf_drop vid n s : ready s -> vnic_is vid NFD_VNIC_TYPE_PF n ->
  exists s1 s', cfg_act_pf_down pcie vid s = Some (0, s1) /\ pf_vfs_down pcie s1 = Some (None, s') /\
    ready s' /\ nic_control_word s' = nic_control_word s /\ port_drops n s' /\ vnic_drops vid s' /\
    forall v, 0 <= v < NFD_MAX_VFS B -> vnic_drops (NFD_VF2VID v) s'.
Proof.
  intros Hr Hv. pose proof Hv as [Hvid Ht]. pose proof (pf_port vid n Hv) as Hn.
  destruct (pf_down_leaves_veb_entries pcie vid n s allocs Hpcie Hv)
    as (_ & s1 & Hrun1 & Hport & Hhost & _).
  pose proof (total_pf_down lat pcie Hpcie vid n Hv s Hr) as Hr1. unfold returns in Hr1. rewrite Hrun1 in Hr1.
  assert (Hk1 : respects same_words (cfg_act_pf_down pcie vid)) by respects.
  pose proof (Hk1 _ _ _ Hrun1) as Hw1.
  destruct (run_vfs_down (range 0 (NFD_MAX_VFS B)) s1) as (s2 & Hrun2 & Hvfs & Hsame);
    [by intros v Hv'%elem_of_range|apply Hr1|].
  change (for_ret (range 0 (NFD_MAX_VFS B)) _) with (pf_vfs_down pcie) in Hrun2.
  pose proof (total_vfs_down lat fuel Hfuel pcie Hpcie s1 Hr1) as Hr2. unfold returns in Hr2. rewrite Hrun2 in Hr2.
  assert (Hk2 : respects same_words (pf_vfs_down pcie)) by respects.
  pose proof (Hk2 _ _ _ Hrun2) as Hw2. unfold same_words in *.
  exists s1, s2. do 3 (split; [done|]). split; [congruence|]. split; [|split].
  - exists (RxWire 0 0 false false). split; [done|]. intros isl Hisl.
    eapply slot_runs_same; [|done|simpl; lia|by apply Hport].
    apply Hsame; [unfold wire_q; lia|]. intros v [Hv0 Hv1]%elem_of_range Hq.
    pose proof (vnic_slots_range pcie Hpcie _ _ (vf_in_range lat fuel Hfuel v (conj Hv0 Hv1)) Hq).
    unfold wire_q in *. lia.
  - apply (vnic_drops_kept _ s1); [|eexists; split; [|exact Hhost]; done].
    intros q Hq. pose proof (vnic_slots_range pcie Hpcie _ q Hvid Hq). apply Hsame; [lia|].
    intros v Hv'%elem_of_range Hq'. destruct (vnic_vf lat fuel Hfuel v Hv') as [Hvid' Ht'].
    assert (vid = NFD_VF2VID v) as -> by by eapply (vnic_slots_apart pcie). congruence.
  - intros v Hv'. by apply Hvfs, elem_of_range.
Qed.

(** The wire port, the PF and all VFs of the island drop. *)
Record pf_stopped (vid n : Z) (s : nic) : Prop := {
  stopped_port : port_drops n s;
  stopped_pf : vnic_drops vid s;
  stopped_vfs v : 0 <= v < NFD_MAX_VFS B -> vnic_drops (NFD_VF2VID v) s
}.

(** Between [s] and [s'] the MAC was told to disable the receiver of port [n];
    [off]: one of the ten checks that followed found it off. *)
Definition rx_disabled (n : Z) (off : bool) (s s' : nic) : Prop :=
  exists pre checks post,
    bus s' = post ++ checks ++ rx_off_cmd n :: pre ++ bus s /\
    rx_off_trace TCLK (mac_of n) (core_of n) (core_port_of n) 10 off checks.

Lemma rx_disabled_later n off s0 s s' s1 :
  later s0 s -> rx_disabled n off s s' -> later s' s1 -> rx_disabled n off s0 s1.
Proof.
  intros (h & Hb & _) (pre & checks & post & Hb' & Htr) (h' & Hb1 & _).
  exists (pre ++ h), checks, (h' ++ post). split; [|done].
  rewrite Hb1, Hb', Hb. by rewrite <- !app_assoc.
Qed.

(** What is done once the MAC has stopped, or need not stop *)
Lemma run_pf_stop vid n msg s : ready s -> vnic_is vid NFD_VNIC_TYPE_PF n ->
  exists s', (_ ← sleep (10 * TCLK * 1000);
      _ ← cfg_act_pf_down pcie vid;
      r ← pf_vfs_down pcie;
      match r with
      | Some _ => fail msg
      | None => _ ← process_pf_reconfig_tmq_drain n; mret (0, msg)
      end) s = Some ((0, msg), s') /\
    nic_control_word s' = nic_control_word s /\ pf_stopped vid n s' /\ later s s'.
Proof.
  intros Hr3 Hv. pose proof Hv as [Hvid Ht]. pose proof (vnic_pf_range vid n Hv) as Hn.
  destruct (ran (sleep (10 * TCLK * 1000)) s) as ([] & s3 & Hrun3 & Hr4 & Hc3 & Hw3 & Hb3);
    [by apply total_emit, ready_emits|respects..|done|].
  destruct (run_pf_drop vid n s3 Hr4 Hv) as (s4 & s5 & Hrun4 & Hrun5 & Hr5 & Hw5 & Hport & Hhost & Hvfs).
  destruct (ran (process_pf_reconfig_tmq_drain n) s5) as ([] & s6 & Hrun6 & Hr6 & Hc6 & Hw6 & Hb6);
    [by eapply total_drain|respects..|done|].
  assert (Hb4 : later s3 s4) by (assert (Hk : respects later (cfg_act_pf_down pcie vid)) by respects; by apply (Hk _ _ _ Hrun4)).
  assert (Hb5 : later s4 s5) by (assert (Hk : respects later (pf_vfs_down pcie)) by respects; by apply (Hk _ _ _ Hrun5)).
  erewrite run_some by exact Hrun3. cbv beta. erewrite run_some by exact Hrun4. cbv beta.
  erewrite run_some by exact Hrun5. cbv beta iota. erewrite run_some by exact Hrun6. cbv beta.
  exists s6. split; [done|]. split; [congruence|].
  assert (Hrest : forall q, same_slot q s5 s6) by (intros q isl j _ _; by rewrite Hc6).
  split; [split|by do 3 (etransitivity; [eassumption|])].
  - destruct Hport as (a & Ha & Hport). exists a. split; [done|]. intros isl Hisl j w Hj. rewrite Hc6. by eapply Hport.
  - by apply (vnic_drops_kept _ s5).
  - intros v Hv'. apply (vnic_drops_kept _ s5); [done|by apply Hvfs].
Qed.

(** The part of the handler that takes a PF down *)
Lemma run_pf_disable vid n msg s : ready s -> vnic_is vid NFD_VNIC_TYPE_PF n ->
  exists res s', pf_disable fuel pcie vid n msg s = Some (res, s') /\
    nic_control_word s' = nic_control_word s /\
    if vnic_up vid (nic_control_word s) then res = (0, msg) /\ pf_stopped vid n s'
    else exists off, rx_disabled n off s s' /\
      if off then res = (0, msg) /\ pf_stopped vid n s'
      else res = (1, msg <| error := 1 |>) /\ cls s' = cls s.
Proof.
  intros Hr Hv. pose proof Hv as [Hvid Ht]. pose proof (vnic_pf_range vid n Hv) as Hn.
  unfold pf_disable. destruct (run_check_up vid s Hvid) as (up & Hrun1 & Hup).
  erewrite run_some by exact Hrun1. cbv beta. rewrite Hup.
  destruct (vnic_up vid (nic_control_word s)); cbn [negb].
  { rewrite run_ret. change (truthy 1) with true. cbn [negb].
    destruct (run_pf_stop vid n msg s Hr Hv) as (s' & Hrun & Hw & Hs & _). by exists (0, msg), s'. }
  destruct (run_port_disable_rx lat fuel n s) as (off & pre & checks & post & Hrun2 & Htr & _);
    [apply mac_acks|done|done|apply Hr|].
  set (s2 := with_bus _ s) in Hrun2. erewrite run_some by exact Hrun2. cbv beta.
  assert (Hoff : rx_disabled n off s s2) by (by exists pre, checks, post).
  rewrite truthy_b2z. destruct off; cbn [negb].
  - destruct (run_pf_stop vid n msg s2) as (s' & Hrun & Hw & Hs & Hb); [exact Hr|done|].
    exists (0, msg), s'. split; [exact Hrun|]. split; [exact Hw|]. exists true. split; [|done].
    by apply (rx_disabled_later n true s s s2 s').
  - exists (1, msg <| error := 1 |>), s2. split; [done|]. split; [done|]. by exists false.
Qed.

(** C3: the request to disable a PF that was enabled, when it asks for nothing
    beyond the capabilities of a PF and no CTM buffer for a message to the
    switch is refused (a refusal while the VFs go down is answered with an
    error).  The control word is recorded.  If some island still has the vNIC
    enabled by the new control words, the MAC need not stop and the request
    succeeds.  Otherwise the MAC is told to disable the receiver of the port,
    and the request succeeds exactly if one of the ten checks that follow finds
    it off.  On success the wire port, all queues of the PF and all queues of
    every VF of the island, whichever PF it was, drop everything in all worker
    islands; when no check finds the receiver off the answer is an error and
    the lists are as they were.  The devices have to answer ([Answers]). *)
Theorem pf_disable_correct vid n control update msg s :
  ready s -> vnic_is vid NFD_VNIC_TYPE_PF n -> request_ok NFD_VNIC_TYPE_PF control update = true ->
  has (rd (nic_control_word s) (pcie, vid)) NFP_NET_CFG_CTRL_ENABLE = true ->
  has control NFP_NET_CFG_CTRL_ENABLE = false ->
  let words := <[(pcie, vid) := control]> (nic_control_word s) in
  exists res s', process_pf_reconfig fuel pcie control update vid n msg s = Some (res, s') /\
    nic_control_word s' = words /\
    if vnic_up vid words then res = (0, msg) /\ pf_stopped vid n s'
    else exists off, rx_disabled n off s s' /\
      if off then res = (0, msg) /\ pf_stopped vid n s'
      else res = (1, msg <| error := 1 |>) /\ cls s' = cls s.
Proof.
  intros Hr Hv Hok Hprev Hen words. pose proof Hv as [Hvid Ht].
  simpl in Hok. apply andb_true_iff in Hok as [Hc Hu]. apply negb_true_iff in Hc, Hu.
  unfold process_pf_reconfig. rewrite Hc, Hu, Hen.
  destruct (ran (when (has update NFP_NET_CFG_UPDATE_BPF) (nic_local_bpf_reconfig fuel vid n)) s)
    as ([] & s1 & Hrun1 & Hr1 & Hc1 & Hw1 & Hb1); [by eapply total_when, total_bpf|respects..|done|].
  erewrite run_some by exact Hrun1. cbv beta.
  destruct (ran (when (has update NFP_NET_CFG_UPDATE_VF) (handle_sriov_update pcie)) s1)
    as ([] & s2 & Hrun2 & Hr2 & Hc2 & Hw2 & Hb2); [by eapply total_when, total_sriov|respects..|done|].
  erewrite run_some by exact Hrun2. cbv beta. rewrite run_ret. change (truthy 0) with false. cbv iota.
  erewrite run_some by by apply run_get_nic_control_word. cbv beta.
  erewrite run_some by by apply run_set_nic_control_word. cbv beta.
  rewrite Hw2, Hw1, has_enable_lxor by done. set (s3 := s2 <| nic_control_word ::= _ |>).
  assert (Hw3 : nic_control_word s3 = words) by (unfold s3, words; st; congruence).
  assert (Hb3 : later s s3) by (etransitivity; [exact Hb1|exact Hb2]).
  destruct (run_pf_disable vid n msg s3 Hr2 Hv) as (res & s4 & Hrun & Hw & Hres).
  exists res, s4. split; [exact Hrun|]. split; [congruence|]. rewrite Hw3 in Hres.
  destruct (vnic_up vid words); [done|]. destruct Hres as (off & Hoff & Hres). exists off.
  split; [by apply (rx_disabled_later n off s s3 s4 s4)|].
  destruct off; [done|]. destruct Hres as [-> Hcls]. split; [done|].
  rewrite Hcls. unfold s3. st. congruence.
Qed.

(** After a request that failed this way the PF counts as disabled, so that
    asking again is answered with success while the lists still forward. *)
Lemma pf_disable_again vid n control msg s :
  vnic_is vid NFD_VNIC_TYPE_PF n -> request_ok NFD_VNIC_TYPE_PF control 0 = true ->
  rd (nic_control_word s) (pcie, vid) = control -> has control NFP_NET_CFG_CTRL_ENABLE = false ->
  exists s', process_pf_reconfig fuel pcie control 0 vid n msg s = Some ((0, msg), s') /\ cls s' = cls s.
Proof.
  intros Hv Hok Hprev Hen. pose proof Hv as [Hvid _].
  apply andb_true_iff in Hok as [Hc _]. apply negb_true_iff in Hc.
  unfold process_pf_reconfig. rewrite Hc, Hen. change (exceeds 0 _) with false.
  change (has 0 _) with false. cbn [when]. rewrite !run_ret. change (truthy 0) with false. cbv iota.
  erewrite run_some by by apply run_get_nic_control_word. cbv beta.
  erewrite run_some by by apply run_set_nic_control_word. cbv beta.
  rewrite Hprev, Z.lxor_nilpotent. unfold has. rewrite Z.land_0_l. eexists. by split.
Qed.
End handlers.

(** ** Witnesses *)

Section witnesses.
Import Demo Mac Engines.
#[local] Existing Instances Progress.host Progress.msix Progress.demo_answers.

(** As in Config.v, PF 0 is vNIC 48; the host has enabled it, or not. *)
Definition pf0_enabled : nic := conf_state <| nic_control_word := <[(0, 48) := 1]> ∅ |>.
Definition pf0_disabled : nic := conf_state <| nic_control_word := ∅ |>.
Definition request : nfd_cfg_msg := mk_cfg_msg 1 0 3.

Lemma conf_state_ready s : emem s = emem conf_state -> cls s = ∅ -> mac_reg_lock s = 0 -> ready s.
Proof.
  intros He Hc Hl. split; [intros a; rewrite He; apply conf_state_wf|]. split; [done|].
  by apply lists_drop_ok, lists_drop_empty.
Qed.

Lemma vf_enable_correct_witness : exists s' spare,
  process_vf_reconfig 0 1 0 3 request pf0_enabled = Some ((0, request), s') /\
  vnic_runs 0 3 (vf_pipeline spare 0 3 1 1 (cached 0 3 pf0_enabled)) s'.
Proof.
  assert (Hu : unicast (bar_mac 0 (NFD_PF2VID 0) pf0_enabled) = true) by (vm_compute; reflexivity).
  destruct (vf_enable_correct 3 4 ltac:(lia) 0 ltac:(by vm_compute) (proj1 demo_alloc_ok) 3 3 1 0 request pf0_enabled)
    as (s' & Hrun & [x Hvf] & _).
  - by apply conf_state_ready.
  - exact vnic_3.
  - by vm_compute.
  - by vm_compute.
  - by vm_compute.
  - by vm_compute.
  - by vm_compute.
  - exists s', x. split; [|exact Hvf].
    rewrite Hu in Hrun. exact Hrun.
Defined.

(** PF 0 is disabled, and yet its lists forward after the request. *)
Lemma vf_disable_correct_witness : exists s' spare,
  process_vf_reconfig 0 0 0 3 request pf0_disabled = Some ((0, request), s') /\
  vnic_runs 0 48 (pf_pipeline spare 0 48 0 false 0 (cached 0 48 pf0_disabled)) s'.
Proof.
  assert (Hu : unicast (bar_mac 0 (NFD_PF2VID 0) pf0_disabled) = true) by (vm_compute; reflexivity).
  destruct (vf_disable_correct 3 4 ltac:(lia) 0 ltac:(by vm_compute) (proj1 demo_alloc_ok) 3 3 0 0 request pf0_disabled)
    as (s' & Hrun & _ & _ & [x Hpf] & _).
  - by apply conf_state_ready.
  - exact vnic_3.
  - by vm_compute.
  - by vm_compute.
  - by vm_compute.
  - exists s', x. split; [|exact Hpf].
    rewrite Hu in Hrun. exact Hrun.
Defined.

(** The MAC has to stop: no other island has PF 0 enabled. *)
Lemma pf_disable_correct_witness : exists res s' off,
  process_pf_reconfig 4 0 0 0 48 0 request pf0_enabled = Some (res, s') /\
  rx_disabled 0 off pf0_enabled s' /\ (off = true -> vnic_drops 0 48 s').
Proof.
  assert (Hup : vnic_up 48 (<[(0, 48) := 0]> (nic_control_word pf0_enabled)) = false) by (vm_compute; reflexivity).
  destruct (pf_disable_correct 3 4 ltac:(lia) 0 ltac:(by vm_compute) (proj1 demo_alloc_ok) 48 0 0 0 request pf0_enabled)
    as (res & s' & Hrun & _ & Hres).
  - by apply conf_state_ready.
  - exact vnic_48.
  - by vm_compute.
  - by vm_compute.
  - by vm_compute.
  - rewrite Hup in Hres. destruct Hres as (off & Hoff & Hres). exists res, s', off.
    split; [exact Hrun|]. split; [exact Hoff|]. intros ->. exact (stopped_pf _ _ _ _ (proj2 Hres)).
Defined.
End witnesses.
