(* ===== verification/PerQ.v ===== *)
(** * The queue statistics push every queue

    A round of [perq_stats_loop] (Start.v) pushes the packet counters of one
    queue of every island and starts a new epoch; for that it waits until each
    worker engine has taken its signal.  With engines that do, the rounds go
    through all queues in turn. *)

From S2P Require Import Prelude Platform UserCfg Nfd Machine AppPrivate Bus Nbi NbiPc Trng Link Bpf Frame Master Start.

(** What a wait for the workers does on the way to them *)
Definition epoch_poll (e : bus_event) : Prop :=
  match e with Sleep _ | CtWrite _ _ | CtRead _ _ => True | _ => False end.

(** A worker engine takes the epoch signal at most [lat] cycles after it was
    sent to the last of its contexts. *)
Definition epoch_acks `{Devices} (lat : Z) : Prop := forall isl me ctx polls h,
  Forall epoch_poll polls -> lat <= slept polls ->
  has (u32 (ct_dev (polls ++ CtSignal (ct_signal_addr isl me ctx PKT_IO_SIG_EPOCH) :: h)
    (ct_csr_addr isl me ME_CSR_IND_CTX_SGL_EVT))) (Z.shiftl 1 PKT_IO_SIG_EPOCH) = false.

Section epoch.
Context {B : build} `{NetCfg, Vids, VfCfg, App, Devices, BpfCfg}.
Context (lat : Z) (Hack : epoch_acks lat).

Let bit := Z.shiftl 1 PKT_IO_SIG_EPOCH.

(** The pass over the contexts *)
Lemma run_epoch_pass isl me ctx h s l : forall mask polls, Forall epoch_poll polls ->
  exists mask' polls',
    for_fold l mask (fun sig_mask ctx =>
      _ ← ct_write_csr isl me ME_CSR_CTX_PTR ctx;
      v ← ct_read_csr isl me ME_CSR_IND_CTX_SGL_EVT;
      mret (Z.lor sig_mask v))
      (with_bus (polls ++ CtSignal (ct_signal_addr isl me ctx PKT_IO_SIG_EPOCH) :: h) s) =
    Some (mask', with_bus (polls' ++ CtSignal (ct_signal_addr isl me ctx PKT_IO_SIG_EPOCH) :: h) s) /\
    Forall epoch_poll polls' /\ slept polls' = slept polls /\
    (lat <= slept polls -> has mask' bit = has mask bit).
Proof.
  induction l as [|c l IH]; intros mask polls Hp; [exists mask, polls; by repeat split|].
  cbn [for_fold]. rewrite run_assoc. erewrite run_some by apply run_ct_write_csr. cbv beta.
  rewrite run_assoc. erewrite run_some by apply run_ct_read_csr. cbv beta zeta. rewrite run_ret.
  set (W := CtWrite _ _). set (v := u32 _). set (R := CtRead _ v).
  destruct (IH (Z.lor mask v) (R :: W :: polls)) as (mask' & polls' & Hrun & Hp' & Hs & Hm);
    [by repeat constructor|].
  exists mask', polls'. split; [exact Hrun|]. split; [done|]. split; [done|]. intros Hlat.
  rewrite Hm by exact Hlat. rewrite has_lor.
  assert (Hv : has v bit = false); [|by rewrite Hv, orb_false_r].
  apply (Hack isl me ctx (W :: polls) h); [by constructor|exact Hlat].
Qed.

Lemma run_wait_epoch isl me ctx h s fuel : forall polls, Forall epoch_poll polls ->
  lat <= slept polls + 250 * Z.of_nat fuel -> (0 < fuel)%nat ->
  exists polls',
    wait_epoch fuel isl me
      (with_bus (polls ++ CtSignal (ct_signal_addr isl me ctx PKT_IO_SIG_EPOCH) :: h) s) =
    Some (tt, with_bus (polls' ++ CtSignal (ct_signal_addr isl me ctx PKT_IO_SIG_EPOCH) :: h) s) /\
    Forall epoch_poll polls'.
Proof.
  induction fuel as [|fuel IH]; intros polls Hp Hlat Hf; [lia|]. cbn [wait_epoch].
  unfold sleep. erewrite run_some by apply run_emit. cbv beta.
  destruct (run_epoch_pass isl me ctx h s contexts 0 (Sleep 250 :: polls))
    as (mask & polls' & Hrun & Hp' & Hs & Hm); [by constructor|].
  rewrite slept_cons in Hs, Hm. cbn [app] in Hrun.
  erewrite run_some by exact Hrun. cbv beta. fold bit. destruct (has mask bit) eqn:Hbit.
  - assert (slept polls + 250 < lat).
    { destruct (Z.lt_ge_cases (slept polls + 250) lat); [done|].
      specialize (Hm ltac:(lia)). unfold has in Hm. by rewrite Z.land_0_l in Hm. }
    apply IH; [done|lia|]. destruct fuel; lia.
  - by exists polls'.
Qed.
End epoch.

(** ** The rounds *)

(** [n] rounds from [q] and the epoch *)
Fixpoint perq_stats_rounds `{build, NetCfg, Vids, VfCfg, App, Devices, BpfCfg, QueueTotals}
    (fuel n : nat) (q epoch : Z) : C (Z * Z) :=
  match n with
  | O => mret (q, epoch)
  | S n =>
      x ← perq_stats_round fuel q epoch;
      perq_stats_rounds fuel n x.1 x.2
  end.

Definition is_push (e : bus_event) : bool :=
  match e with NfdInPushPktCnt _ _ | NfdOutPushPktCnt _ _ => true | _ => false end.

(** The pushes of queue [q], oldest first *)
Definition pushes_of `{build} (q : Z) : list bus_event :=
  pcie_islands ≫= fun pcie => [NfdOutPushPktCnt pcie q; NfdInPushPktCnt pcie q].

Section rounds.
Context {B : build} `{NetCfg, Vids, VfCfg, App, Devices, BpfCfg, QueueTotals}.
Context (lat : Z) (Hack : epoch_acks lat) (fuel : nat).
Context (Hfuel : lat <= 250 * Z.of_nat fuel) (Hpos : (0 < fuel)%nat).

Lemma run_push q s : forall l, 
  for_each l (fun pcie => _ ← emit (NfdOutPushPktCnt pcie q); emit (NfdInPushPktCnt pcie q)) s =
  Some (tt, with_bus (rev (l ≫= fun pcie => [NfdOutPushPktCnt pcie q; NfdInPushPktCnt pcie q]) ++ bus s) s).
Proof.
  intros l. revert s. induction l as [|p l IH]; intros s; [by rewrite <- (with_bus_self s) at 1|].
  cbn [for_each]. rewrite run_assoc. erewrite run_some by apply run_emit0. cbv beta.
  erewrite run_some by apply run_emit. cbv beta. rewrite IH.
  change ((p :: l) ≫= ?f) with (f p ++ (l ≫= f)). cbv beta. rewrite rev_app_distr, <- app_assoc. done.
Qed.

Lemma filter_polls polls : Forall epoch_poll polls -> List.filter is_push polls = [].
Proof. induction 1 as [|e h He Hh IH]; [done|]. cbn [List.filter]. by destruct e. Qed.

(** The new epoch: it changes nothing but the history, and pushes nothing. *)
Lemma run_epoch epoch s : exists h, nic_local_epoch fuel epoch s =
    Some (u32 (epoch + 1), with_bus (h ++ bus s) s) /\ List.filter is_push h = [].
Proof.
  unfold nic_local_epoch. cbv zeta.
  pose proof (returns_for_each (fun l s' => exists h, s' = with_bus (h ++ bus s) s /\
      List.filter is_push h = []) dp_mes_ids (fun me_id =>
      _ ← for_each contexts (fun ctx => ct_signal (Z.shiftr me_id 4) (Z.land me_id 0xf) ctx PKT_IO_SIG_EPOCH);
      _ ← wait_epoch fuel (Z.shiftr me_id 4) (Z.land me_id 0xf);
      ct_write_nn (Z.shiftr me_id 4) (Z.land me_id 0xf) EPOCH_NN_IDX (u32 (epoch + 1))) s) as Hloop.
  apply returns_exists in Hloop as ([] & s' & Hrun & h & -> & Hh).
  - exists h. by erewrite run_some by exact Hrun.
  - exists []. split; [by destruct s|done].
  - intros me_id l s' (h & -> & Hh). set (isl := Z.shiftr me_id 4). set (me := Z.land me_id 0xf).
    set (sig ctx := CtSignal (ct_signal_addr isl me ctx PKT_IO_SIG_EPOCH)).
    set (h0 := sig 4 :: sig 2 :: sig 0 :: h ++ bus s). unfold returns.
    rewrite (run_some _ _ tt _ (with_bus (sig 6 :: h0) s)) by done. cbv beta.
    destruct (run_wait_epoch lat Hack isl me 6 h0 s fuel [] ltac:(constructor) Hfuel Hpos)
      as (polls & Hrun & Hpolls).
    erewrite run_some by exact Hrun. cbv beta. unfold ct_write_nn. rewrite run_emit.
    eexists (_ :: polls ++ sig 6 :: sig 4 :: sig 2 :: sig 0 :: h). split.
    + unfold h0. cbn [app]. by rewrite <- app_assoc.
    + cbn [List.filter is_push]. rewrite List.filter_app, filter_polls by done. exact Hh.
Qed.

Lemma filter_pushes q : List.filter is_push (rev (pushes_of q)) = rev (pushes_of q).
Proof.
  apply forallb_filter_id, forallb_forall. intros e He%in_rev.
  apply list_elem_of_In, list_elem_of_bind in He as (p & He & _).
  by repeat (apply elem_of_cons in He as [->|He]; [done|]); apply elem_of_nil in He.
Qed.

Lemma run_perq_round q epoch s : 0 <= q < NUM_STAT_QUEUES -> NUM_STAT_QUEUES < 2 ^ 32 ->
  exists h, perq_stats_round fuel q epoch s =
      Some ((if q + 1 =? NUM_STAT_QUEUES then 0 else q + 1, u32 (epoch + 1)), with_bus (h ++ bus s) s) /\
    List.filter is_push h = rev (pushes_of q).
Proof.
  intros Hq HN. unfold perq_stats_round.
  rewrite (run_some _ _ _ _ _ (run_push q s pcie_islands)). fold (pushes_of q). cbv beta zeta.
  rewrite wrap_small by (unfold fits; lia).
  unfold sleep. erewrite run_some by apply run_emit. cbv beta.
  destruct (run_epoch epoch (with_bus (Sleep PERQ_STATS_SLEEP :: rev (pushes_of q) ++ bus s) s))
    as (h & Hrun & Hh).
  erewrite run_some by exact Hrun. exists (h ++ Sleep PERQ_STATS_SLEEP :: rev (pushes_of q)).
  split.
  - assert (E : (q + 1 >=? NUM_STAT_QUEUES) = (q + 1 =? NUM_STAT_QUEUES))
      by (destruct (Z.geb_spec (q + 1) NUM_STAT_QUEUES), (Z.eqb_spec (q + 1) NUM_STAT_QUEUES); lia).
    rewrite E, <- app_assoc. done.
  - rewrite List.filter_app, Hh. cbn [List.filter is_push app]. apply filter_pushes.
Qed.

(** The counter of epochs has 32 bits. *)
Definition next_epoch (epoch : Z) : Z := u32 (epoch + 1).

Lemma run_perq_rounds n : forall q epoch s, 0 <= q < NUM_STAT_QUEUES ->
  q + Z.of_nat n <= NUM_STAT_QUEUES < 2 ^ 32 ->
  exists h, perq_stats_rounds fuel n q epoch s =
      Some ((if q + Z.of_nat n =? NUM_STAT_QUEUES then 0 else q + Z.of_nat n,
             Nat.iter n next_epoch epoch), with_bus (h ++ bus s) s) /\
    List.filter is_push h = rev (range q (q + Z.of_nat n) ≫= pushes_of).
Proof.
  induction n as [|n IH]; intros q epoch s Hq Hn.
  { exists []. rewrite Z.add_0_r, range_nil, (proj2 (Z.eqb_neq _ _)) by lia. split; [by destruct s|done]. }
  cbn [perq_stats_rounds]. destruct (run_perq_round q epoch s) as (h & Hrun & Hh); [lia..|].
  erewrite run_some by exact Hrun. cbv beta. cbn [fst snd].
  rewrite Nat.iter_succ_r, (range_cons q) by lia.
  change ((q :: ?l) ≫= pushes_of) with (pushes_of q ++ (l ≫= pushes_of)). rewrite rev_app_distr.
  destruct (Z.eqb_spec (q + 1) NUM_STAT_QUEUES) as [E|E].
  - assert (n = 0%nat) as -> by lia. exists h. cbn [perq_stats_rounds Nat.iter].
    rewrite (proj2 (Z.eqb_eq _ _)), range_nil by lia. by rewrite Hh.
  - destruct (IH (q + 1) (next_epoch epoch) (with_bus (h ++ bus s) s)) as (h' & Hrun' & Hh'); [lia..|].
    exists (h' ++ h). unfold next_epoch in *. rewrite Hrun', List.filter_app, Hh, Hh'.
    replace (q + Z.of_nat (S n)) with (q + 1 + Z.of_nat n) by lia.
    by rewrite <- app_assoc.
Qed.

(** C12: every queue is pushed.  When each worker engine takes its epoch signal
    within [lat] cycles, the rounds of perq_stats_loop return, and as many of
    them as there are queues push the counters of every queue of every island
    of the build exactly once in each direction, in order; after that the loop
    starts again from queue 0 with as many epochs more, and nothing but the
    history has changed. *)
Theorem perq_stats_correct epoch s : 0 < NUM_STAT_QUEUES < 2 ^ 32 ->
  let n := Z.to_nat NUM_STAT_QUEUES in
  exists h, perq_stats_rounds fuel n 0 epoch s =
      Some ((0, Nat.iter n next_epoch epoch), with_bus (h ++ bus s) s) /\
    List.filter is_push h = rev (range 0 NUM_STAT_QUEUES ≫= pushes_of).
Proof.
  intros HN n. destruct (run_perq_rounds n 0 epoch s) as (h & Hrun & Hh); [lia|subst n; lia|].
  exists h. rewrite Hrun. subst n. rewrite !Z2Nat.id, Z.add_0_l in * by lia.
  by rewrite Z.eqb_refl.
Qed.
End rounds.

(** ** Witness *)

Section witnesses.
Import Demo Mac Engines.

(** The workers take a signal at once. *)
#[local] Instance quick : Devices := {|
  xpb_dev := fun h addr => 0; ct_dev := fun h addr => 0;
  pcie_dev := fun h isl idx addr_hi addr_lo i => 0;
  msix_dev := fun h pcie bar entry automask => 0;
  tmq_dev := fun h nbi queue => 0; cfg_msg_dev := fun h pcie => None |}.
#[local] Instance totals : QueueTotals := {| NFD_TOTAL_VFQS := 2; NFD_TOTAL_CTRLQS := 0; NFD_TOTAL_PFQS := 1 |}.

Lemma perq_stats_correct_witness :
  exists h, perq_stats_rounds 1 3 0 4294967294 nic0 = Some ((0, 1), with_bus (h ++ []) nic0) /\
    rev (List.filter is_push h) =
      [NfdOutPushPktCnt 0 0; NfdInPushPktCnt 0 0; NfdOutPushPktCnt 0 1; NfdInPushPktCnt 0 1;
       NfdOutPushPktCnt 0 2; NfdInPushPktCnt 0 2].
Proof.
  assert (Hack : epoch_acks 250) by (intros isl me ctx polls h _ _; reflexivity).
  destruct (perq_stats_correct 250 Hack 1 ltac:(lia) ltac:(lia) 4294967294 nic0 ltac:(by vm_compute))
    as (h & Hrun & Hpush).
  exists h. split; [exact Hrun|]. rewrite Hpush, rev_involutive. reflexivity.
Defined.
End witnesses.
