(* ===== verification/TmCfg.v ===== *)
(** * The build configuration of the traffic manager: apps/nic/config.h

    config.h hands the NBI traffic manager its level 0, 1 and 2 shapers (on
    the two CARBON boards that need them) and gives the egress queues of
    every port their packet buffers, by macros NBI<n>_TM_SHAPER_CFG_RANGE<k>
    and NBI<n>_TM_Q_CFG_RANGE<k>; here a range is a record and the macros of
    one NBI are a function of k, with [None] where the macro is not defined.
    The macros that sum the rates of the ports are kept as tokens, because
    those of NBI 1 do not balance their parentheses.  The file also has the
    number of GRO contexts per block. *)

From S2P Require Import Prelude Platform.

(** ** Shapers *)

(** The seven numbers of a range. *)
Record shaper_range : Type := {
  sh_enable : Z;
  sh_start : Z;
  sh_end : Z;
  sh_rate : Z;
  sh_threshold : Z;
  sh_overshoot : Z;
  sh_rate_adj : Z
}.

(** Rate adjustment to account for oscillator PPM. *)
Definition PPM : Z := 1.

Section shapers.
Context (P : platform).

Definition NBI_TM_L2_SHAPER_START_NUM (port : Z) : Z := NS_PLATFORM_MAC_CHANNEL_LO P port.
Definition NBI_TM_L2_SHAPER_END_NUM (port : Z) : Z := NS_PLATFORM_MAC_CHANNEL_HI P port.
Definition NBI_TM_L2_SHAPER_RATE (port : Z) : Z :=
  NS_PLATFORM_PORT_SPEED P port * 100 * 1000 / NS_PLATFORM_PCLK P + PPM.
Definition NBI_TM_L2_SHAPER_THRESHOLD (port : Z) : Z := 0.
Definition NBI_TM_L2_SHAPER_OVERSHOOT (port : Z) : Z := 7.
Definition NBI_TM_L2_SHAPER_RATE_ADJ (port : Z) : Z := -20.

Definition NBI_TM_L1_SHAPER_NUM (port : Z) : Z :=
  128 + Z.shiftr (NS_PLATFORM_MAC_CHANNEL_LO P port) 3.
Definition NBI_TM_L1_SHAPER_RATE (port : Z) : Z := NBI_TM_L2_SHAPER_RATE port.
Definition NBI_TM_L1_SHAPER_THRESHOLD (port : Z) : Z := NBI_TM_L2_SHAPER_THRESHOLD port.
Definition NBI_TM_L1_SHAPER_OVERSHOOT (port : Z) : Z := NBI_TM_L2_SHAPER_OVERSHOOT port.
Definition NBI_TM_L1_SHAPER_RATE_ADJ (port : Z) : Z := NBI_TM_L2_SHAPER_RATE_ADJ port.

Definition NBI_TM_L0_SHAPER_NUM : Z := 144.
Definition NBI_TM_L0_SHAPER_THRESHOLD : Z := 7.
Definition NBI_TM_L0_SHAPER_OVERSHOOT : Z := 7.
Definition NBI_TM_L0_SHAPER_RATE_ADJ : Z := -20.

(** The body of a macro that adds level 1 rates, as its tokens. *)
Inductive rate_token : Type :=
  | TOpen
  | TClose
  | TPlus
  | TRate (port : Z).

(** The value of such a body: parentheses around and inside a sum do not
    change it, but they have to balance ([d] of them are open). *)
Fixpoint rate_value (d : nat) (ts : list rate_token) : option Z :=
  match ts with
  | [] => match d with O => Some 0 | S _ => None end
  | TOpen :: ts => rate_value (S d) ts
  | TClose :: ts => match d with O => None | S d => rate_value d ts end
  | TPlus :: ts => rate_value d ts
  | TRate port :: ts =>
      match rate_value d ts with
      | Some r => Some (NBI_TM_L1_SHAPER_RATE port + r)
      | None => None
      end
  end.

(** [(R(0) + R(1) + ... + R(n-1))]: one pair of parentheses. *)
Definition NBI0_TM_L0_SHAPER_RATE_body (n : Z) : list rate_token :=
  TOpen :: TRate 0 :: concat (map (fun k => [TPlus; TRate k]) (range 1 n)) ++ [TClose].

(** [(R(b + 0) + (R(b + 1) + ... + (R(b + n-1))]: one parenthesis opened for
    each port and one closed. *)
Definition NBI1_TM_L0_SHAPER_RATE_body (b n : Z) : list rate_token :=
  TOpen :: TRate (b + 0) ::
  concat (map (fun k => [TPlus; TOpen; TRate (b + k)]) (range 1 n)) ++ [TClose].

(** Defined for 1 to 8 ports. *)
Definition NBI0_TM_L0_SHAPER_RATE : option Z :=
  let n := NS_PLATFORM_NUM_PORTS_PER_MAC_0 P in
  if (1 <=? n) && (n <=? 8) then rate_value 0 (NBI0_TM_L0_SHAPER_RATE_body n) else None.

Definition NBI1_TM_L0_SHAPER_RATE : option Z :=
  let n := NS_PLATFORM_NUM_PORTS_PER_MAC_1 P in
  if (1 <=? n) && (n <=? 8)
  then rate_value 0 (NBI1_TM_L0_SHAPER_RATE_body (NS_PLATFORM_NUM_PORTS_PER_MAC_0 P) n)
  else None.

Definition L0_range (rate : Z) : shaper_range :=
  {| sh_enable := 1;
     sh_start := NBI_TM_L0_SHAPER_NUM;
     sh_end := NBI_TM_L0_SHAPER_NUM;
     sh_rate := rate;
     sh_threshold := NBI_TM_L0_SHAPER_THRESHOLD;
     sh_overshoot := NBI_TM_L0_SHAPER_OVERSHOOT;
     sh_rate_adj := NBI_TM_L0_SHAPER_RATE_ADJ |}.

Definition L1_range (port : Z) : shaper_range :=
  {| sh_enable := 1;
     sh_start := NBI_TM_L1_SHAPER_NUM port;
     sh_end := NBI_TM_L1_SHAPER_NUM port;
     sh_rate := NBI_TM_L1_SHAPER_RATE port;
     sh_threshold := NBI_TM_L1_SHAPER_THRESHOLD port;
     sh_overshoot := NBI_TM_L1_SHAPER_OVERSHOOT port;
     sh_rate_adj := NBI_TM_L1_SHAPER_RATE_ADJ port |}.

Definition L2_range (port : Z) : shaper_range :=
  {| sh_enable := 1;
     sh_start := NBI_TM_L2_SHAPER_START_NUM port;
     sh_end := NBI_TM_L2_SHAPER_END_NUM port;
     sh_rate := NBI_TM_L2_SHAPER_RATE port;
     sh_threshold := NBI_TM_L2_SHAPER_THRESHOLD port;
     sh_overshoot := NBI_TM_L2_SHAPER_OVERSHOOT port;
     sh_rate_adj := NBI_TM_L2_SHAPER_RATE_ADJ port |}.

(** Range 0 is the level 0 shaper, ranges 2k+1 and 2k+2 are the level 1 and
    level 2 shapers of the k-th port of the NBI. *)
Definition NBI0_TM_SHAPER_CFG_RANGE (i : Z) : option shaper_range :=
  let n := NS_PLATFORM_NUM_PORTS_PER_MAC_0 P in
  if (i <? 0) || (16 <? i) then None
  else if i =? 0 then if 0 <? n then option_map L0_range NBI0_TM_L0_SHAPER_RATE else None
  else if (i - 1) / 2 <? n then
    Some (if Z.odd i then L1_range ((i - 1) / 2) else L2_range ((i - 1) / 2))
  else None.

Definition NBI1_TM_SHAPER_CFG_RANGE (i : Z) : option shaper_range :=
  let n := NS_PLATFORM_NUM_PORTS_PER_MAC_1 P in
  let b := NS_PLATFORM_NUM_PORTS_PER_MAC_0 P in
  if (i <? 0) || (16 <? i) then None
  else if i =? 0 then if 0 <? n then option_map L0_range NBI1_TM_L0_SHAPER_RATE else None
  else if (i - 1) / 2 <? n then
    Some (if Z.odd i then L1_range (b + (i - 1) / 2) else L2_range (b + (i - 1) / 2))
  else None.
End shapers.

(** The boards with shapers (NBI_TM_ENABLE_SHAPER). *)
Definition NBI_TM_ENABLE_SHAPER (t : platform_type) : bool :=
  bool_decide (t = NS_PLATFORM_CARBON) || bool_decide (t = NS_PLATFORM_CARBON_1x10_1x25).

(** ** Packet buffers of the queues *)

(** A range of queues: each gets 2^[q_size] packet buffers. *)
Record q_range : Type := {
  q_enable : Z;
  q_start : Z;
  q_end : Z;
  q_size : Z
}.

Definition NS_PLATFORM_NBI_TM_10G_QSIZE : Z := 6.
Definition NS_PLATFORM_NBI_TM_40G_QSIZE : Z := 8.

(** The queue depth of an NBI with [n] ports; [None] is the #error. *)
Definition NS_PLATFORM_NBI_TM_QSIZE (n : Z) : option Z :=
  if n <=? 1 then Some 9
  else if n <=? 2 then Some 8
  else if n <=? 4 then Some 7
  else if n <=? 8 then Some 6
  else None.

Section queues.
Context (P : platform).

Definition port_q_range (port size : Z) : q_range :=
  {| q_enable := 1;
     q_start := NS_PLATFORM_NBI_TM_QID_LO P port;
     q_end := NS_PLATFORM_NBI_TM_QID_HI P port;
     q_size := size |}.

(** NBI0_TM_Q_CFG_RANGE0 to 4 of the board with four 10G ports and a 40G one. *)
Definition beryllium_q_ranges : list q_range :=
  map (fun port => port_q_range port NS_PLATFORM_NBI_TM_10G_QSIZE) [0; 1; 2; 3] ++
  [port_q_range 4 NS_PLATFORM_NBI_TM_40G_QSIZE].

(** NBI0_TM_Q_CFG_RANGE0 to 7 of the other boards, as far as defined. *)
Definition NBI0_TM_Q_CFG_RANGES : option (list q_range) :=
  let n := NS_PLATFORM_NUM_PORTS_PER_MAC_0 P in
  option_map (fun size => map (fun port => port_q_range port size) (range 0 (Z.min n 8)))
    (NS_PLATFORM_NBI_TM_QSIZE n).

(** NBI1_TM_Q_CFG_RANGE0 to 7: the queues of the first port of MAC 1, moved
    by the number of the range. *)
Definition NBI1_TM_Q_CFG_RANGES : option (list q_range) :=
  let n := NS_PLATFORM_NUM_PORTS_PER_MAC_1 P in
  let b := NS_PLATFORM_NUM_PORTS_PER_MAC_0 P in
  option_map (fun size =>
    map (fun k => {| q_enable := 1;
                     q_start := NS_PLATFORM_NBI_TM_QID_LO P b + k;
                     q_end := NS_PLATFORM_NBI_TM_QID_HI P b + k;
                     q_size := size |}) (range 0 (Z.min n 8)))
    (NS_PLATFORM_NBI_TM_QSIZE n).
End queues.

(** The queue ranges of NBI 0 of a board; [None] where config.h is refused. *)
Definition TM_Q_CFG (t : platform_type) : option (list q_range) :=
  let P := platform_macros t in
  if bool_decide (t = NS_PLATFORM_BERYLLIUM_4x10_1x40) then Some (beryllium_q_ranges P)
  else match NBI1_TM_Q_CFG_RANGES P with
       | Some _ => NBI0_TM_Q_CFG_RANGES P
       | None => None
       end.

(** ** GRO *)

(** [None] is the #error. *)
Definition GRO_CTX_PER_BLOCK (GRO_NUM_BLOCKS : Z) : option Z :=
  if 16 <? GRO_NUM_BLOCKS then Some 1
  else if GRO_NUM_BLOCKS <? 1 then None
  else Some (16 / GRO_NUM_BLOCKS).

(** ** The shaper hierarchy *)

Section shaper_lemmas.
Context (P : platform).

Lemma rate_value_sum l :
  rate_value P 1 (concat (map (fun k => [TPlus; TRate k]) l) ++ [TClose])
  = Some (foldr Z.add 0 (map (NBI_TM_L1_SHAPER_RATE P) l)).
Proof. induction l as [|k l IH]; [done|]. cbn. by rewrite IH. Qed.

Lemma rate_value_open b d l :
  rate_value P (S d) (concat (map (fun k => [TPlus; TOpen; TRate (b + k)]) l) ++ [TClose])
  = if decide (d + length l = 0)%nat then Some 0 else None.
Proof.
  revert d. induction l as [|k l IH]; intros d; cbn.
  - destruct d; by case_decide.
  - rewrite IH. do 2 case_decide; lia || done.
Qed.

(** The level 0 rate of NBI 0 is the sum of the rates of its ports. *)
Lemma nbi0_l0_rate : 1 <= NS_PLATFORM_NUM_PORTS_PER_MAC_0 P <= 8 ->
  NBI0_TM_L0_SHAPER_RATE P =
  Some (foldr Z.add 0 (map (NBI_TM_L1_SHAPER_RATE P)
                           (range 0 (NS_PLATFORM_NUM_PORTS_PER_MAC_0 P)))).
Proof.
  intros Hn. unfold NBI0_TM_L0_SHAPER_RATE, NBI0_TM_L0_SHAPER_RATE_body.
  destruct (Z.leb_spec 1 (NS_PLATFORM_NUM_PORTS_PER_MAC_0 P)); [|lia].
  destruct (Z.leb_spec (NS_PLATFORM_NUM_PORTS_PER_MAC_0 P) 8); [|lia].
  cbn [andb rate_value]. by rewrite rate_value_sum, (range_cons 0) by lia.
Qed.

(** On a board with two or more ports on MAC 1 the level 0 rate of NBI 1
    would not be an expression: its parentheses do not balance. *)
Lemma nbi1_l0_rate_unbalanced : 2 <= NS_PLATFORM_NUM_PORTS_PER_MAC_1 P ->
  NBI1_TM_L0_SHAPER_RATE P = None.
Proof.
  intros Hn. unfold NBI1_TM_L0_SHAPER_RATE, NBI1_TM_L0_SHAPER_RATE_body.
  case_match; [|done]. cbn [rate_value].
  rewrite rate_value_open, decide_False; [done|].
  unfold range. rewrite length_seqZ. lia.
Qed.
End shaper_lemmas.

(** The shapers of a board: NBI 0's ranges where shaping is enabled. *)
Definition TM_SHAPER_CFG (t : platform_type) (i : Z) : option shaper_range :=
  if NBI_TM_ENABLE_SHAPER t then NBI0_TM_SHAPER_CFG_RANGE (platform_macros t) i else None.

(** The boards with shapers have every port on MAC 0, with its channels in
    one group of eight. *)
Definition shapers_ok (P : platform) (p : Z) : Prop :=
  NS_PLATFORM_NUM_PORTS_PER_MAC_0 P = NS_PLATFORM_NUM_PORTS P /\
  0 < NS_PLATFORM_PCLK P /\
  Z.shiftr (NS_PLATFORM_MAC_CHANNEL_LO P p) 3 = Z.shiftr (NS_PLATFORM_MAC_CHANNEL_HI P p) 3 /\
  Forall (fun q => p <> q ->
    Z.shiftr (NS_PLATFORM_MAC_CHANNEL_LO P p) 3 <> Z.shiftr (NS_PLATFORM_MAC_CHANNEL_LO P q) 3)
    (ports P).

#[export] Instance shapers_ok_dec P p : Decision (shapers_ok P p).
Proof. unfold shapers_ok. apply _. Defined.

Lemma platform_shapers t p : NBI_TM_ENABLE_SHAPER t = true ->
  0 <= p < NS_PLATFORM_NUM_PORTS (platform_macros t) -> shapers_ok (platform_macros t) p.
Proof.
  intros Ht Hp. destruct t; try discriminate;
    (assert (Hc : p = 0 \/ p = 1) by (change (0 <= p < 2) in Hp; lia));
    destruct Hc as [-> | ->]; apply (bool_decide_eq_true_1 _); by vm_compute.
Qed.

Lemma shaper_ranges t p : NBI_TM_ENABLE_SHAPER t = true ->
  0 <= p < NS_PLATFORM_NUM_PORTS (platform_macros t) ->
  TM_SHAPER_CFG t (2 * p + 1) = Some (L1_range (platform_macros t) p) /\
  TM_SHAPER_CFG t (2 * p + 2) = Some (L2_range (platform_macros t) p).
Proof.
  intros Ht Hp. pose proof (platform_num_ports t) as Hn.
  destruct (platform_shapers t p Ht Hp) as (Hm & _).
  unfold TM_SHAPER_CFG, NBI0_TM_SHAPER_CFG_RANGE. rewrite Ht, Hm.
  replace (2 * p + 1 - 1) with (p * 2) by lia. replace (2 * p + 2 - 1) with (1 + p * 2) by lia.
  rewrite Z.div_mul, Z.div_add by lia. change (1 / 2) with 0. rewrite Z.add_0_l.
  destruct (Z.ltb_spec p (NS_PLATFORM_NUM_PORTS (platform_macros t))); [|lia].
  split; (destruct (Z.ltb_spec 16 (2 * p + 1)); [lia|]);
    (destruct (Z.ltb_spec 16 (2 * p + 2)); [lia|]).
  - destruct (Z.ltb_spec (2 * p + 1) 0); [lia|]. destruct (Z.eqb_spec (2 * p + 1) 0); [lia|].
    cbn [orb]. by rewrite Z.add_comm, Z.odd_add_mul_2.
  - destruct (Z.ltb_spec (2 * p + 2) 0); [lia|]. destruct (Z.eqb_spec (2 * p + 2) 0); [lia|].
    cbn [orb]. by rewrite Z.add_comm, Z.odd_add_mul_2.
Qed.

(** A channel is shaped at level 2 by the shaper of its number, at level 1
    by the one of its group of eight. *)
Definition shapes_channel (r2 r1 : shaper_range) (c : Z) : Prop :=
  sh_start r2 <= c <= sh_end r2 /\
  sh_start r1 = 128 + Z.shiftr c 3 /\ sh_end r1 = 128 + Z.shiftr c 3.

Lemma shaper_range_0 t : NBI_TM_ENABLE_SHAPER t = true ->
  TM_SHAPER_CFG t 0 =
  Some (L0_range (foldr Z.add 0 (map (NBI_TM_L1_SHAPER_RATE (platform_macros t))
                                     (ports (platform_macros t))))).
Proof.
  intros Ht. pose proof (platform_num_ports t) as Hn.
  destruct (platform_shapers t 0 Ht ltac:(lia)) as (Hm & _).
  unfold TM_SHAPER_CFG, NBI0_TM_SHAPER_CFG_RANGE. rewrite Ht, Hm.
  destruct (Z.ltb_spec 0 (NS_PLATFORM_NUM_PORTS (platform_macros t))); [|lia].
  by rewrite nbi0_l0_rate, Hm by lia.
Qed.

Lemma port_shapes_channel t p pcp l2q : NBI_TM_ENABLE_SHAPER t = true ->
  let P := platform_macros t in
  0 <= p < NS_PLATFORM_NUM_PORTS P -> 0 <= pcp <= 7 -> 0 <= l2q <= 7 ->
  shapes_channel (L2_range P p) (L1_range P p)
                 (Z.shiftr (NS_PLATFORM_NBI_TM_QID P p pcp l2q) 3).
Proof.
  intros Ht P Hp Hpcp Hl. destruct (platform_shapers t p Ht Hp) as (_ & _ & Hgrp & _).
  destruct (platform_channels t p Hp) as (Hlo & Hhi & Hmax & _).
  pose proof (pcp_remap_range t pcp ltac:(lia)).
  unfold shapes_channel, NS_PLATFORM_NBI_TM_QID, NS_PLATFORM_MAC_CHANNEL, P in *. cbn.
  unfold NBI_TM_L2_SHAPER_START_NUM, NBI_TM_L2_SHAPER_END_NUM, NBI_TM_L1_SHAPER_NUM.
  rewrite Z.shiftl_mul_pow2, !Z.shiftr_div_pow2 by lia. rewrite !Z.shiftr_div_pow2 in Hgrp by lia.
  change (2 ^ 3) with 8 in *. rewrite Z.div_add_l, (Z.div_small l2q) by lia.
  Z.to_euclidean_division_equations. lia.
Qed.

Lemma line_rate P p : 0 < NS_PLATFORM_PCLK P ->
  NS_PLATFORM_PORT_SPEED P p * 100 * 1000 < NBI_TM_L2_SHAPER_RATE P p * NS_PLATFORM_PCLK P
    <= NS_PLATFORM_PORT_SPEED P p * 100 * 1000 + NS_PLATFORM_PCLK P.
Proof.
  intros Hclk. unfold NBI_TM_L2_SHAPER_RATE, PPM.
  pose proof (Z.div_mod (NS_PLATFORM_PORT_SPEED P p * 100 * 1000) (NS_PLATFORM_PCLK P)).
  pose proof (Z.mod_pos_bound (NS_PLATFORM_PORT_SPEED P p * 100 * 1000) (NS_PLATFORM_PCLK P)).
  nia.
Qed.

(** On the boards with shapers, every port has one level 2 and one level 1
    range: all of its queues (any priority) belong to a channel that those
    two shape, no two ports share a shaper, the numbers of the three levels
    are in [0, 127], [128, 143] and 144; every level allows at least the line
    rate of the port and less than 2 units more, and the level 0 shaper
    allows the sum of what the ports are allowed. *)
Theorem shapers_correct t p :
  NBI_TM_ENABLE_SHAPER t = true ->
  let P := platform_macros t in
  0 <= p < NS_PLATFORM_NUM_PORTS P ->
  exists r0 r1 r2,
    TM_SHAPER_CFG t 0 = Some r0 /\ TM_SHAPER_CFG t (2 * p + 1) = Some r1 /\
    TM_SHAPER_CFG t (2 * p + 2) = Some r2 /\
    (forall pcp l2q, 0 <= pcp <= 7 -> 0 <= l2q <= 7 ->
       shapes_channel r2 r1 (Z.shiftr (NS_PLATFORM_NBI_TM_QID P p pcp l2q) 3)) /\
    (sh_start r0 = 144 /\ sh_end r0 = 144 /\ 128 <= sh_start r1 < 144 /\
     0 <= sh_start r2 /\ sh_end r2 < 128) /\
    (forall q r1' r2', 0 <= q < NS_PLATFORM_NUM_PORTS P -> p <> q ->
       TM_SHAPER_CFG t (2 * q + 1) = Some r1' -> TM_SHAPER_CFG t (2 * q + 2) = Some r2' ->
       sh_start r1 <> sh_start r1' /\
       (sh_end r2 < sh_start r2' \/ sh_end r2' < sh_start r2)) /\
    sh_rate r1 = sh_rate r2 /\
    NS_PLATFORM_PORT_SPEED P p * 100 * 1000 < sh_rate r2 * NS_PLATFORM_PCLK P
      <= NS_PLATFORM_PORT_SPEED P p * 100 * 1000 + NS_PLATFORM_PCLK P /\
    sh_rate r0 = foldr Z.add 0 (map (NBI_TM_L1_SHAPER_RATE P) (ports P)).
Proof.
  intros Ht P Hp. destruct (shaper_ranges t p Ht Hp) as [E1 E2].
  destruct (platform_shapers t p Ht Hp) as (Hm & Hclk & Hgrp & Hdist).
  destruct (platform_channels t p Hp) as (Hlo & Hhi & Hmax & Hdisj & _).
  rewrite Forall_forall in Hdist, Hdisj.
  do 3 eexists. split.
  { by apply shaper_range_0. }
  split; [exact E1|]. split; [exact E2|].
  split; [intros; by apply port_shapes_channel|].
  split; [|split; [|split; [done|split; [|done]]]].
  - cbn. unfold NBI_TM_L1_SHAPER_NUM, NBI_TM_L0_SHAPER_NUM, NBI_TM_L2_SHAPER_START_NUM,
      NBI_TM_L2_SHAPER_END_NUM.
    rewrite Z.shiftr_div_pow2 by lia. subst P. change (2 ^ 3) with 8.
    Z.to_euclidean_division_equations. lia.
  - intros q r1' r2' Hq Hpq Hr1 Hr2. destruct (shaper_ranges t q Ht Hq) as [E1' E2'].
    rewrite E1' in Hr1. rewrite E2' in Hr2. injection Hr1 as <-. injection Hr2 as <-.
    assert (Hel : In q (ports (platform_macros t))) by (by apply list_elem_of_In, elem_of_range).
    split; [cbn; unfold NBI_TM_L1_SHAPER_NUM|exact (Hdisj q Hel Hpq)].
    specialize (Hdist q Hel Hpq). subst P. lia.
  - by apply line_rate.
Qed.

Lemma shapers_correct_witness :
  TM_SHAPER_CFG NS_PLATFORM_CARBON_1x10_1x25 3 =
    Some {| sh_enable := 1; sh_start := 130; sh_end := 130; sh_rate := 3126;
            sh_threshold := 0; sh_overshoot := 7; sh_rate_adj := -20 |} /\
  exists r0, TM_SHAPER_CFG NS_PLATFORM_CARBON_1x10_1x25 0 = Some r0 /\ sh_rate r0 = 4377.
Proof.
  split; [by vm_compute|].
  destruct (shapers_correct NS_PLATFORM_CARBON_1x10_1x25 1 eq_refl ltac:(by vm_compute))
    as (r0 & _ & _ & E0 & _ & _ & _ & _ & _ & _ & _ & Hr).
  exists r0. split; [exact E0|]. rewrite Hr. by vm_compute.
Defined.

(** ** The packet buffers *)

Definition in_q_range (q : Z) (r : q_range) : bool := (q_start r <=? q) && (q <=? q_end r).

(** The packet buffers of a list of ranges. *)
Definition tm_buffers (rs : list q_range) : Z :=
  foldr Z.add 0 (map (fun r => (q_end r - q_start r + 1) * 2 ^ q_size r) rs).

Lemma tm_buffers_ports P size l :
  (forall p, p ∈ l -> NS_PLATFORM_MAC_CHANNEL_HI P p = NS_PLATFORM_MAC_CHANNEL_LO P p + 3) ->
  tm_buffers (map (fun p => port_q_range P p size) l) = Z.of_nat (length l) * 32 * 2 ^ size.
Proof.
  unfold tm_buffers. induction l as [|p l IH]; intros Hl; [by rewrite !Z.mul_0_l|].
  cbn [map foldr]. rewrite IH by (intros; apply Hl; set_solver).
  cbn [port_q_range q_end q_start q_size].
  unfold NS_PLATFORM_NBI_TM_QID_HI, NS_PLATFORM_NBI_TM_QID_LO.
  rewrite (Hl p), !Z.shiftl_mul_pow2, length_cons by (lia || set_solver).
  change (2 ^ 3) with 8. lia.
Qed.

(** Any board that config.h accepts, with four channels per port, shares out
    at most the 16384 buffers of the traffic manager, and all of them when
    the number of ports is a power of two. *)
Lemma tm_buffers_bound P rs : 1 <= NS_PLATFORM_NUM_PORTS_PER_MAC_0 P ->
  (forall p, NS_PLATFORM_MAC_CHANNEL_HI P p = NS_PLATFORM_MAC_CHANNEL_LO P p + 3) ->
  NBI0_TM_Q_CFG_RANGES P = Some rs ->
  tm_buffers rs <= 16384 /\
  (tm_buffers rs = 16384 <-> NS_PLATFORM_NUM_PORTS_PER_MAC_0 P ∈ [1; 2; 4; 8]).
Proof.
  intros Hn Hch Hrs. unfold NBI0_TM_Q_CFG_RANGES in Hrs.
  set (n := NS_PLATFORM_NUM_PORTS_PER_MAC_0 P) in *. clearbody n.
  assert (n ∈ range 1 9 /\ exists size, NS_PLATFORM_NBI_TM_QSIZE n = Some size /\
                tm_buffers rs = n * 32 * 2 ^ size) as (Hc & size & Hsz & ->).
  { destruct (NS_PLATFORM_NBI_TM_QSIZE n) as [size|] eqn:Hsz; [|done]. injection Hrs as <-.
    assert (Hle : n <= 8) by (unfold NS_PLATFORM_NBI_TM_QSIZE in Hsz; repeat case_match; done || lia).
    split; [apply elem_of_range; lia|]. exists size. split; [done|].
    rewrite tm_buffers_ports by done. unfold range. rewrite length_seqZ, Z.min_l by lia.
    by rewrite Z.sub_0_r, Z2Nat.id by lia. }
  apply list_elem_of_In in Hc. revert Hsz. clear Hn Hrs. revert n Hc size.
  change (range 1 9) with [1; 2; 3; 4; 5; 6; 7; 8].
  rewrite <- Forall_forall. repeat first [apply List.Forall_nil | apply List.Forall_cons];
    intros size Hs; vm_compute in Hs; injection Hs as <-; cbn; rewrite !elem_of_cons, elem_of_nil; lia.
Qed.

(** The buffers, as a power of two, of each queue of a port. *)
Definition queue_depth (t : platform_type) (p : Z) : Z :=
  if bool_decide (t = NS_PLATFORM_BERYLLIUM_4x10_1x40)
  then if p <? 4 then NS_PLATFORM_NBI_TM_10G_QSIZE else NS_PLATFORM_NBI_TM_40G_QSIZE
  else default 0 (NS_PLATFORM_NBI_TM_QSIZE (NS_PLATFORM_NUM_PORTS_PER_MAC_0 (platform_macros t))).

Lemma TM_Q_CFG_ports t :
  TM_Q_CFG t = Some (map (fun p => port_q_range (platform_macros t) p (queue_depth t p))
                         (ports (platform_macros t))).
Proof. destruct t; reflexivity. Qed.

Lemma queue_depth_range t p : 6 <= queue_depth t p <= 9.
Proof. destruct t; try (by vm_compute). unfold queue_depth. cbn. by destruct (p <? 4). Qed.

Lemma in_port_q_range P p s q :
  in_q_range q (port_q_range P p s) = true <->
  NS_PLATFORM_NBI_TM_QID_LO P p <= q <= NS_PLATFORM_NBI_TM_QID_HI P p.
Proof. unfold in_q_range. cbn. rewrite andb_true_iff, !Z.leb_le. done. Qed.

(** Among pairwise disjoint ranges only one contains a queue. *)
Lemma filter_one {A} (f : A -> q_range) (l : list A) q p : NoDup l -> p ∈ l ->
  in_q_range q (f p) = true ->
  (forall p', p' ∈ l -> p' <> p -> in_q_range q (f p') = false) ->
  List.filter (in_q_range q) (map f l) = [f p].
Proof.
  intros Hnd Hp Hin Hout. induction Hnd as [|x l Hx Hnd IH]; [by apply elem_of_nil in Hp|].
  cbn. apply elem_of_cons in Hp as [<-|Hp].
  - rewrite Hin. f_equal. clear IH.
    assert (Hl : forall p', p' ∈ l -> in_q_range q (f p') = false).
    { intros p' Hp'. apply Hout; [set_solver|]. by intros ->. }
    clear Hout Hnd Hx Hin. induction l as [|y l IH]; [done|]. cbn.
    rewrite (Hl y) by set_solver. apply IH. set_solver.
  - rewrite (Hout x) by (set_solver || by intros ->). apply IH; [done|].
    intros. apply Hout; [set_solver|done].
Qed.

(** C17: on every board config.h is accepted and gives out exactly the 16384
    packet buffers of the NBI's traffic manager; every queue that the master
    enables, disables or drains for a port (QID_LO to QID_HI) is in exactly
    one configured range, that of its port, enabled, with between 2^6 and
    2^9 buffers; and no queue outside the ports' gets any. *)
Theorem tm_queues_correct t :
  let P := platform_macros t in
  exists rs, TM_Q_CFG t = Some rs /\ tm_buffers rs = 16384 /\
    (forall p q, 0 <= p < NS_PLATFORM_NUM_PORTS P ->
       NS_PLATFORM_NBI_TM_QID_LO P p <= q <= NS_PLATFORM_NBI_TM_QID_HI P p ->
       exists r, List.filter (in_q_range q) rs = [r] /\ q_enable r = 1 /\
         q_start r = NS_PLATFORM_NBI_TM_QID_LO P p /\
         q_end r = NS_PLATFORM_NBI_TM_QID_HI P p /\ 6 <= q_size r <= 9) /\
    (forall q, (forall p, 0 <= p < NS_PLATFORM_NUM_PORTS P ->
       ~ NS_PLATFORM_NBI_TM_QID_LO P p <= q <= NS_PLATFORM_NBI_TM_QID_HI P p) ->
       List.filter (in_q_range q) rs = []).
Proof.
  intros P. eexists. split; [apply TM_Q_CFG_ports|].
  split; [by destruct t|]. fold P. split.
  - intros p q Hp Hq. exists (port_q_range P p (queue_depth t p)).
    split; [|split; [done|split; [done|split; [done|apply queue_depth_range]]]].
    apply (filter_one (fun p => port_q_range P p (queue_depth t p))).
    + apply NoDup_seqZ.
    + by apply elem_of_range.
    + by apply in_port_q_range.
    + intros p' Hp' Hne. apply elem_of_range in Hp'. apply not_true_iff_false.
      rewrite in_port_q_range.
      destruct (platform_channels t p Hp) as (_ & _ & _ & Hdisj & _).
      rewrite Forall_forall in Hdisj.
      specialize (Hdisj p' ltac:(by apply list_elem_of_In, elem_of_range) ltac:(congruence)).
      fold P in Hdisj. revert Hq. unfold NS_PLATFORM_NBI_TM_QID_LO, NS_PLATFORM_NBI_TM_QID_HI.
      rewrite !Z.shiftl_mul_pow2 by lia. lia.
  - intros q Hout. assert (Hl : forall p, p ∈ ports P -> 0 <= p < NS_PLATFORM_NUM_PORTS P)
      by (intros p Hp; by apply elem_of_range in Hp).
    induction (ports P) as [|p l IH]; [done|]. cbn.
    destruct (in_q_range q (port_q_range P p (queue_depth t p))) eqn:Hin.
    + apply in_port_q_range in Hin. destruct (Hout p); [by apply Hl, list_elem_of_here|done].
    + apply IH. intros. by apply Hl, list_elem_of_further.
Qed.

(** On a board with two or more ports on MAC 1 the ranges of its ports would
    overlap: they all start in the queues of its first port. *)
Lemma nbi1_q_ranges_overlap P : 2 <= NS_PLATFORM_NUM_PORTS_PER_MAC_1 P <= 8 ->
  exists rs r r', NBI1_TM_Q_CFG_RANGES P = Some rs /\ rs !! 0%nat = Some r /\
    rs !! 1%nat = Some r' /\ q_start r' = q_start r + 1 /\ q_end r' = q_end r + 1.
Proof.
  intros Hn. unfold NBI1_TM_Q_CFG_RANGES.
  destruct (NS_PLATFORM_NBI_TM_QSIZE _) as [s|] eqn:Hs.
  - do 3 eexists. split; [reflexivity|].
    rewrite Z.min_l, (range_cons 0), (range_cons (0 + 1)) by lia. cbn.
    do 2 (split; [reflexivity|]). cbn. lia.
  - exfalso. unfold NS_PLATFORM_NBI_TM_QSIZE in Hs. repeat case_match; done || lia.
Qed.

(** ** GRO contexts *)

(** With 1 to 16 blocks, the contexts of all blocks are at most 16, and 16
    when the blocks divide 16. *)
Lemma gro_contexts n : 1 <= n <= 16 ->
  exists c, GRO_CTX_PER_BLOCK n = Some c /\ n * c <= 16 /\
    (n * c = 16 <-> Z.divide n 16).
Proof.
  intros Hn. unfold GRO_CTX_PER_BLOCK. exists (16 / n).
  destruct (Z.ltb_spec 16 n); [lia|]. destruct (Z.ltb_spec n 1); [lia|].
  pose proof (Z.div_mod 16 n ltac:(lia)). pose proof (Z.mod_pos_bound 16 n ltac:(lia)).
  split; [done|]. split; [lia|]. rewrite <- Z.mod_divide by lia. lia.
Qed.

(** With three blocks there are 15 contexts, not "(at least) 16". *)
Example gro_three_blocks : exists c, GRO_CTX_PER_BLOCK 3 = Some c /\ 3 * c = 15.
Proof. by exists 5. Qed.
